(* ===== verification/_CoqProject ===== *)
-Q . S2P
PekerOS.v
Prelude.v
Bitmap.v
CString.v
Pmm.v
Spinlock.v
KHeap.v
Desc.v
Task.v
Paging.v
UserMem.v
Ports.v
Pci.v
Terminal.v
Irq.v
Timer.v
Keyboard.v
Mouse.v
Font.v
Vbe.v
VbeInit.v
Dlist.v
Gui.v
GuiDraw.v
Desktop.v
Disk.v
Net.v
Socket.v
Tcp.v
TcpSafe.v
SockApi.v
NetIn.v
NetThm.v
TcpConn.v
Ata.v
E1000.v
E1000Net.v
Rtl8139.v
Vfs.v
VfsThm.v
VfsMono.v
Shell.v
ShellEdit.v
ShellCd.v
Ext2.v
Ext2Thm.v
AtaDev.v
Elf.v
Syscall.v
Pafs.v
PafsSpec.v
PafsDir.v
PafsOps.v
PafsFiles.v
PafsMount.v
PafsVfs.v
PafsData.v
PafsThm.v
VfsPafs.v
ShellPafs.v
SysPafs.v
