(* ===== verification/PekerOS.v ===== *)
(** * PekerOS (FerkanOS): a verification development of the kernel

    PekerOS is a 32-bit x86 kernel in C (src/kernel, headers in src/include):
    memory management, preemptive tasks, a file system on an ATA disk behind a
    virtual file system, a TCP/IP stack over two network cards, a shell, and a
    windowed desktop on a linear frame buffer.  This development translates its
    C functions into Rocq and proves what they do.  It is a library of files; this
    one holds the C integers, arrays and loops that all of them use.

    ** Conventions

    An unsigned integer is a [Z] with its wrap-around written out ([u8], [u16],
    [u32], [i32]).  An array is a list; an access outside it has no result
    ([aget], [aset] give [None]), as has the use of a freed object or a null
    pointer, so a theorem that gives [Some] also says that none of these happen.
    Objects with addresses live in maps from address to record.  A component's
    static variables are a record, a function is a function on that record (or on
    a pair of states), and an early return is written where the code has it.
    Counting loops are [for_do] and [for_ret]; a loop without a bound in the code
    has a fuel argument.  Device registers are reached through a history of port
    accesses (Ports): a machine is a function from the history to the next value
    read.  What is outside the repository, or another component where the two are
    kept apart, is a type class: its operations, and as a second class or as
    fields the laws a client's theorems use.  Log messages are left out where the
    file says so.

    ** Parts, files and how they interact

    Memory.  Bitmap: byte-array bitmaps.  Pmm (mm/pmm.c): the frame allocator.
    KHeap (mm/kheap.c): the heap as headers in memory, with the block list as
    specification.  Paging (mm/paging.c): page tables and the processor's
    translation; its frames come through the class [FrameAlloc], of which Pmm is an
    instance.  UserMem: frames mapped at fresh pages and the bytes behind them.

    Processor and tasks.  Desc (core/gdt.c, core/idt.c, proc/tss.c): descriptor
    tables and interrupt vectors.  Spinlock (spinlock.h), Irq (core/irq.c), Timer
    (drivers/timer.c): interrupt control, dispatch, ticks, sleep and the clock.
    Task (proc/task.c): control blocks, the frames [create_task] builds and the
    round-robin scheduler; its stacks and control blocks come from the heap.

    Text and input.  CString (core/kernel.c): string routines and formatted
    output.  Ports (core/kernel.c, core/serial.c), Terminal (core/kernel.c):
    the text screen.  Keyboard, Mouse (drivers): the interrupt handlers; what they
    pass on is kept as lists, which ShellEdit and Gui consume.

    Storage.  Ata (drivers/ata.c): the port dialogue, and an ATA drive as an
    automaton.  Disk: sectors, words and the class [BlockDev], the interface PAFS is
    proved against and Ata implements.  Pafs (fs/pafs.c): the file system;
    PafsSpec, PafsDir, PafsOps, PafsFiles, PafsMount, PafsVfs, PafsData and PafsThm:
    its invariant, abstract directories and files, and its theorems.  Vfs
    (fs/vfs.c), VfsThm, VfsMono: nodes, mounts, links and path resolution over the
    class [Drivers], against an abstract tree; VfsPafs: PAFS as an instance.  Ext2
    (fs/ext2.c), Ext2Thm: the read-only ext2 driver over the class [Ext2Env];
    AtaDev (core/kernel.c, ata_read_device1): the second disk, whose instance of
    that class is proved from the ATA automaton.

    Programs.  Elf (proc/elf.c): the loader, from the virtual file system through a
    buffer of the kernel heap into the address space, in which the buffer lies too.  Syscall (proc/syscall.c): the handlers of all 17 calls.
    SysPafs: the composition of the calls on files with Vfs, VfsPafs, Pafs, Disk and
    Paging.

    Network.  Net, NetIn (net/net.c): frames, checksums, ARP, IPv4, ICMP, UDP.
    Socket, SockApi (net/socket.c): sockets and their rings.  Tcp (net/tcp.c),
    TcpSafe, TcpConn: segments, the connection automaton, its invariant and
    connections.  NetThm: machines that exchange frames.  Pci (drivers/pci.c): the
    bus scan.  E1000 and Rtl8139 (drivers): the two cards, with their rings in
    memory.  E1000Net: the network layer over E1000, whose receive handler calls it
    and is called back to send its answers; Rtl8139 keeps the packets it hands to the
    network layer as a list.

    Desktop.  Font, Vbe, VbeInit (drivers/font.c, drivers/vbe.c): drawing routines as
    functions on pictures, and finding the frame buffer.  Dlist: doubly linked
    lists.  Gui (ui/gui.c): windows and widgets in memory against an abstract
    desktop.  GuiDraw: rendering a desktop, and a round of the graphics task.
    Desktop (core/kernel.c, start_graphics): from vbe_init to the first windows.

    Shell.  Shell (ui/shell.c): the commands and the line editor over the class
    [ShellEnv] of everything they call.  ShellEdit: the editor.  ShellCd: the working
    directory over the class [DirTree] of a file system with directories.  ShellPafs:
    Vfs over PAFS as an instance of both classes.

    ** What the theorems show

    Refinements: the heap is first fit with coalescing on a block list
    (KHeap.kmalloc_refines, kfree_refines); the ATA driver is a block device
    (Ata.ata_implements_disk); creating and deleting PAFS files are list operations on
    directories (PafsThm.pafs_create_refines, pafs_delete_refines); a path resolves to
    what the tree says (VfsThm.path_resolves); open, read, write and close are
    operations on byte lists, from the interrupt to the sectors
    (SysPafs.syscalls_refine); an ext2 file on the second disk is read byte for byte
    through the port dialogue (AtaDev.ext2_file_on_ata); a datagram socket is a queue
    (Socket.socket_datagram_fifo); the text screen, the keyboard, the windows, the
    rendered desktop and the shell's line editor are abstract screens, queues, window
    lists, pictures and editors (Terminal.console_refines, Keyboard.keyboard_refines,
    Gui.gui_refines, Desktop.start_graphics_desktop, ShellEdit.shell_editor_refines).

    Invariants and safety: the scheduler (Task.scheduler_safe), the file system
    (PafsThm.pafs_reachable_consistent), the network stack under any input
    (TcpSafe.tcp_stack_safe), the pointer on the screen (Vbe.cursor_leaves_no_trail),
    the shell's directory in a PAFS tree (ShellPafs.cd_in_pafs), interrupt flags
    (PafsThm.pafs_write_interrupts); each says that the next step has a result too.

    Functional theorems: frames, mappings, tasks, loading, sbrk, reception
    (Pmm.alloc_frame_first_fit, Paging.paging_map_spec, Task.create_task_spec,
    Task.schedule_round_robin, Elf.elf_load_correct, Syscall.sbrk_spec,
    E1000Net.e1000_serves, where the answers go out while packets come in), lookups in ext2 directories (Ext2Thm.ext2_finddir_ok),
    datagrams and TCP streams from machine to machine (NetThm.udp_end_to_end,
    TcpConn.tcp_connects_and_streams).

    Round trips (PafsThm.pafs_write_read, pafs_mount_roundtrip), bounds
    (Mouse.mouse_tracks, Gui.gui_windows_reachable), equivalence with the scheduler
    (Timer.timer_counts), termination (Timer.sleep_terminates) and liveness
    (Task.schedule_fair).

    Behaviour on errors, as the code has it: a lost directory entry
    (PafsThm.pafs_delete_loses_last_entry), links without end
    (VfsThm.symlink_loop_diverges), the overrun of the working directory
    (ShellCd.cd_overruns); and theorems that are not in the list of properties but
    are proved in their files, among them Pmm.init_pmm_spec, Paging.init_paging_spec,
    Pci.pci_scan_complete, KHeap.kmalloc_overflow_hangs, Tcp.tcp_segment_checksum,
    E1000.e1000_transmits_64, NetThm.icmp_echo_reply, Elf.elf_shared_page_lost and
    elf_load_full_heap (a full heap, which elf_load does not check for), ShellCd.cd_tracks,
    Syscall.sbrk_regrow_leaks, Ext2Thm.ext2_readdir_ok, ext2_init_ok and
    ext2_zero_entry_hangs, Rtl8139.rtl_receives, rtl_exact_end and rtl_sends, and
    VbeInit.vbe_init_ready and GuiDraw.desktop_on_screen.

    ** Bounds and fuel

    Fuel stands for a loop or recursion the code does not bound.  Lists in memory
    (heap headers, tasks, windows, widgets) get the size of the map they are in,
    which the invariant shows to be enough; waits for devices get the count the code
    uses, or the theorem takes a bound on the device's delay; path resolution takes any
    fuel above what the path's resolution needs (VfsMono: more changes nothing), and
    where no fuel is enough (a link to itself, a directory entry of length 0, a cyclic
    free list) that is the theorem.  The directory loops of ext2 take one round per
    entry, fewer than the bytes of a block; [ext2_read] one per byte at most.  The loop
    of the shell's ls takes its fuel as an argument of [execute_command].

    ** Assumptions

    A machine follows the protocol its theorem names (ATA drives, the cards' rings,
    PCI configuration space).  In E1000Net the card stores no packet while the driver
    waits for it to send one; the answers stay within the 64 slots that are mapped and
    the packets within the first 32, which the driver's own mappings do not cover.  In
    Elf the file fits in the heap and its segments lie below 0xC0000000.  In Ext2Thm, VbeInit and Desktop memory is not
    exhausted: the sources do not check for it.  In Desktop starting the mouse returns.  One processor; interrupts come between the steps the
    models have (ticks, received frames, keys, mouse packets), not inside a C function.

    ** Not modelled

    kernel_main and the test tasks of core/kernel.c, which call the
    initialisation of the components once, in order; panic.c, which prints a fixed form
    and halts; ac97.c, register writes to a sound chip; the assembly of boot/boot.s and
    of userland/syscalls.c, whose register frames are in Task and Irq; the user programs, the
    linker script, and the host tools under scripts/.  The races between the mouse
    interrupt and the rendering of the window list are findings of the manifest, not
    theorems: the models take an event and a round of the graphics task as steps. *)

From stdpp Require Export base list list_numbers gmap fin_maps.
From Stdlib Require Export ZArith Lia.

#[global] Open Scope Z_scope.

(** ** Machine integers of include/common.h

    A C unsigned integer of width [w] is a [Z] in [0 .. 2^w - 1]; the
    wrap-around of an assignment or an arithmetic operation is written out
    with [u8], [u16] and [u32].  [i32] is the conversion of a 32-bit pattern
    to [int]. *)

Definition u8 (z : Z) : Z := z mod 2 ^ 8.
Definition u16 (z : Z) : Z := z mod 2 ^ 16.
Definition u32 (z : Z) : Z := z mod 2 ^ 32.

Definition i32 (z : Z) : Z := (z + 2 ^ 31) mod 2 ^ 32 - 2 ^ 31.

(** ** C arrays

    [aget l i] is [l[i]] and [aset l i x] is [l[i] = x]; an index out of range
    is undefined in C and has no result here. *)

Definition aget {A} (l : list A) (i : Z) : option A :=
  if i <? 0 then None else l !! Z.to_nat i.

Fixpoint nset {A} (l : list A) (n : nat) (x : A) : option (list A) :=
  match l, n with
  | [], _ => None
  | _ :: l', O => Some (x :: l')
  | y :: l', S n' =>
      match nset l' n' x with
      | Some l'' => Some (y :: l'')
      | None => None
      end
  end.

Definition aset {A} (l : list A) (i : Z) (x : A) : option (list A) :=
  if i <? 0 then None else nset l (Z.to_nat i) x.

(** ** C loops

    A loop body either goes on with a new state ([Next]) or leaves the loop
    with a value ([Ret]: a [return] or a [break] of the source). *)

Inductive ctl (S R : Type) : Type :=
| Next (s : S)
| Ret (r : R).
Arguments Next {S R} s.
Arguments Ret {S R} r.

(** [for_n n i body s]: [n] rounds of a counting loop starting at index [i]. *)
Fixpoint for_n {S R} (n : nat) (i : Z) (body : Z -> S -> option (ctl S R))
    (s : S) : option (ctl S R) :=
  match n with
  | O => Some (Next s)
  | Datatypes.S n' =>
      match body i s with
      | Some (Next s') => for_n n' (i + 1) body s'
      | r => r
      end
  end.

(** [for (i = lo; i < hi; i++) body], with exits. *)
Definition for_ret {S R} (lo hi : Z) (body : Z -> S -> option (ctl S R))
    (s : S) : option (ctl S R) :=
  for_n (Z.to_nat (hi - lo)) lo body s.

(** The same loop when the body has no exit. *)
Fixpoint iter_n {S} (n : nat) (i : Z) (body : Z -> S -> option S) (s : S)
    : option S :=
  match n with
  | O => Some s
  | Datatypes.S n' => s' ← body i s; iter_n n' (i + 1) body s'
  end.

Definition for_do {S} (lo hi : Z) (body : Z -> S -> option S) (s : S)
    : option S :=
  iter_n (Z.to_nat (hi - lo)) lo body s.
