(* ===== verification/Prelude.v ===== *)
(** * Prelude: shared lemmas and automation

    Range lemmas for the machine integers, the laws of the C array accesses
    [aget]/[aset], the invariant rules of the loop combinators, and the
    tactics and hint databases the components use. *)

From S2P Require Export PekerOS.

Create HintDb cint discriminated.
Create Rewrite HintDb cint.

(** ** Machine integers *)

Lemma u8_range z : 0 <= u8 z < 256.
Proof. apply Z.mod_pos_bound; lia. Qed.

Lemma u16_range z : 0 <= u16 z < 65536.
Proof. apply Z.mod_pos_bound; lia. Qed.

Lemma u32_range z : 0 <= u32 z < 4294967296.
Proof. apply Z.mod_pos_bound; lia. Qed.

Lemma i32_range z : - 2147483648 <= i32 z < 2147483648.
Proof. unfold i32. pose proof (Z.mod_pos_bound (z + 2 ^ 31) (2 ^ 32)). lia. Qed.

Lemma u8_small z : 0 <= z < 256 -> u8 z = z.
Proof. intros. apply Z.mod_small. lia. Qed.

Lemma u16_small z : 0 <= z < 65536 -> u16 z = z.
Proof. intros. apply Z.mod_small. lia. Qed.

Lemma u32_small z : 0 <= z < 4294967296 -> u32 z = z.
Proof. intros. apply Z.mod_small. lia. Qed.

Lemma i32_small z : - 2147483648 <= z < 2147483648 -> i32 z = z.
Proof. intros. unfold i32. rewrite Z.mod_small; lia. Qed.

#[export] Hint Resolve u8_range u16_range u32_range i32_range : cint.
#[export] Hint Rewrite u8_small u16_small u32_small i32_small using lia : cint.

(** [wrap]: drop the wrap-around where the context shows it does nothing. *)
Ltac wrap := autorewrite with cint in *.

(** ** C arrays *)

Section arrays.
Context {A : Type}.
Implicit Types (l : list A) (i j : Z) (x : A).

Lemma aget_nat l (n : nat) : aget l (Z.of_nat n) = l !! n.
Proof.
  unfold aget. destruct (Z.ltb_spec (Z.of_nat n) 0); [lia|].
  by rewrite Nat2Z.id.
Qed.

Lemma aget_pos l i : 0 <= i -> aget l i = l !! Z.to_nat i.
Proof. intros. unfold aget. destruct (Z.ltb_spec i 0); [lia|done]. Qed.

Lemma aget_Some_range l i x :
  aget l i = Some x -> 0 <= i < Z.of_nat (length l).
Proof.
  unfold aget. destruct (Z.ltb_spec i 0); [done|].
  intros ?%lookup_lt_Some. lia.
Qed.

Lemma aget_is_Some l i :
  0 <= i < Z.of_nat (length l) -> exists x, aget l i = Some x.
Proof.
  intros. rewrite aget_pos by lia.
  destruct (lookup_lt_is_Some_2 l (Z.to_nat i)) as [x ?]; [lia|eauto].
Qed.

Lemma nset_spec l n x :
  nset l n x = if decide (n < length l)%nat then Some (<[n := x]> l) else None.
Proof.
  revert n. induction l as [|y l IH]; intros [|n]; cbn; auto.
  rewrite IH. repeat case_decide; auto; lia.
Qed.

Lemma aset_eq l i x :
  0 <= i < Z.of_nat (length l) -> aset l i x = Some (<[Z.to_nat i := x]> l).
Proof.
  intros. unfold aset. destruct (Z.ltb_spec i 0); [lia|].
  rewrite nset_spec. case_decide; [done|lia].
Qed.

Lemma aset_Some l i x l' :
  aset l i x = Some l' ->
  0 <= i < Z.of_nat (length l) /\ l' = <[Z.to_nat i := x]> l.
Proof.
  unfold aset. destruct (Z.ltb_spec i 0); [done|].
  rewrite nset_spec. case_decide; [|done]. intros [= <-]. split; [lia|done].
Qed.

Lemma aset_length l i x l' : aset l i x = Some l' -> length l' = length l.
Proof. intros [_ ->]%aset_Some. apply length_insert. Qed.

Lemma aget_aset_eq l i x l' : aset l i x = Some l' -> aget l' i = Some x.
Proof.
  intros [? ->]%aset_Some. rewrite aget_pos by lia.
  apply list_lookup_insert_eq. lia.
Qed.

Lemma aget_aset_ne l i j x l' :
  aset l i x = Some l' -> i <> j -> aget l' j = aget l j.
Proof.
  intros [? ->]%aset_Some Hij. unfold aget.
  destruct (Z.ltb_spec j 0); [done|]. apply list_lookup_insert_ne. lia.
Qed.

Lemma aget_aset l i j x l' :
  aset l i x = Some l' -> aget l' j = if decide (i = j) then Some x else aget l j.
Proof.
  intros. case_decide; subst; eauto using aget_aset_eq, aget_aset_ne.
Qed.

Lemma aset_Forall (P : A -> Prop) l i x l' :
  aset l i x = Some l' -> P x -> Forall P l -> Forall P l'.
Proof. intros [? ->]%aset_Some ??. by apply Forall_insert. Qed.

Lemma aget_Forall (P : A -> Prop) l i x :
  Forall P l -> aget l i = Some x -> P x.
Proof.
  unfold aget. destruct (i <? 0); [done|]. intros HP Hx.
  exact (Forall_lookup_1 P l (Z.to_nat i) x HP Hx).
Qed.
End arrays.

(** ** Loops *)

Section loops.
Context {S R : Type}.

(** Partial loops: an invariant indexed by the loop counter; at an exit the
    result satisfies [Q]. *)
Lemma for_ret_rule (P : Z -> S -> Prop) (Q : R -> Prop) lo hi
    (body : Z -> S -> option (ctl S R)) s :
  lo <= hi -> P lo s ->
  (forall i s, lo <= i < hi -> P i s ->
     match body i s with
     | Some (Next s') => P (i + 1) s'
     | Some (Ret r) => Q r
     | None => False
     end) ->
  match for_ret lo hi body s with
  | Some (Next s') => P hi s'
  | Some (Ret r) => Q r
  | None => False
  end.
Proof.
  intros Hle HP Hbody. unfold for_ret.
  remember (Z.to_nat (hi - lo)) as n eqn:Hn.
  revert lo s Hle HP Hbody Hn.
  induction n as [|n IH]; intros lo s Hle HP Hbody Hn; cbn.
  - by replace hi with lo by lia.
  - pose proof (Hbody lo s ltac:(lia) HP) as Hb.
    destruct (body lo s) as [[s'|r]|]; [|done|done].
    apply IH; try lia; auto. intros i s'' Hi. apply Hbody. lia.
Qed.

Lemma for_do_rule (P : Z -> S -> Prop) lo hi (body : Z -> S -> option S) s :
  lo <= hi -> P lo s ->
  (forall i s, lo <= i < hi -> P i s ->
     exists s', body i s = Some s' /\ P (i + 1) s') ->
  exists s', for_do lo hi body s = Some s' /\ P hi s'.
Proof.
  intros Hle HP Hbody. unfold for_do.
  remember (Z.to_nat (hi - lo)) as n eqn:Hn.
  revert lo s Hle HP Hbody Hn.
  induction n as [|n IH]; intros lo s Hle HP Hbody Hn; cbn.
  - exists s. by replace hi with lo by lia.
  - destruct (Hbody lo s ltac:(lia) HP) as (s' & -> & HP'). cbn.
    apply IH; try lia; auto. intros i s'' Hi. apply Hbody. lia.
Qed.

(** A loop whose body ignores a part of the state commutes with changing it. *)
Definition ctl_map (g : S -> S) (c : ctl S S) : ctl S S :=
  match c with Next s => Next (g s) | Ret s => Ret (g s) end.

Lemma for_ret_map (g : S -> S) lo hi (body : Z -> S -> option (ctl S S)) s :
  (forall i s, body i (g s) = ctl_map g <$> body i s) ->
  for_ret lo hi body (g s) = ctl_map g <$> for_ret lo hi body s.
Proof.
  intros Hb. unfold for_ret. generalize (Z.to_nat (hi - lo)). intros n. revert lo s.
  induction n as [|n IH]; intros lo s; cbn; [done|]. rewrite Hb.
  destruct (body lo s) as [[s'|s']|]; cbn; [apply IH|done|done].
Qed.

(** A search loop: the rounds before [i] change nothing, round [i] leaves. *)
Lemma for_ret_first lo hi i (body : Z -> S -> option (ctl S R)) s r :
  lo <= i < hi -> (forall j, lo <= j < i -> body j s = Some (Next s)) -> body i s = Some (Ret r) ->
  for_ret lo hi body s = Some (Ret r).
Proof.
  intros Hi Hj Hr. unfold for_ret. remember (Z.to_nat (hi - lo)) as n eqn:Hn.
  revert lo Hi Hj Hn. induction n as [|n IH]; intros lo Hi Hj Hn; [lia|]. cbn.
  destruct (decide (lo = i)) as [->|]; [by rewrite Hr|].
  rewrite Hj by lia. apply IH; try lia. intros j ?. apply Hj. lia.
Qed.

Lemma for_ret_skip lo hi (body : Z -> S -> option (ctl S R)) s :
  (forall j, lo <= j < hi -> body j s = Some (Next s)) -> for_ret lo hi body s = Some (Next s).
Proof.
  intros Hj. unfold for_ret. remember (Z.to_nat (hi - lo)) as n eqn:Hn.
  revert lo Hj Hn. induction n as [|n IH]; intros lo Hj Hn; [done|]. cbn.
  rewrite Hj by lia. apply IH; try lia. intros j ?. apply Hj. lia.
Qed.

Lemma for_do_ext lo hi (body body' : Z -> S -> option S) s :
  (forall i s, lo <= i < hi -> body i s = body' i s) -> for_do lo hi body s = for_do lo hi body' s.
Proof.
  intros Hb. unfold for_do. remember (Z.to_nat (hi - lo)) as n eqn:Hn.
  revert lo s Hb Hn. induction n as [|n IH]; intros lo s Hb Hn; cbn; [done|].
  rewrite Hb by lia. destruct (body' lo s); cbn; [|done]. apply IH; [|lia]. intros i s' Hi. apply Hb. lia.
Qed.

Lemma for_do_empty lo hi (body : Z -> S -> option S) s :
  hi <= lo -> for_do lo hi body s = Some s.
Proof.
  intros. unfold for_do. by replace (Z.to_nat (hi - lo)) with 0%nat by lia.
Qed.

Lemma for_ret_empty lo hi (body : Z -> S -> option (ctl S R)) s :
  hi <= lo -> for_ret lo hi body s = Some (Next s).
Proof.
  intros. unfold for_ret. by replace (Z.to_nat (hi - lo)) with 0%nat by lia.
Qed.
End loops.

(** ** Tactics *)

(** [lia] after evaluating the powers of two of the machine widths. *)
Ltac pow2_lia :=
  change (2 ^ 3) with 8 in *; change (2 ^ 4) with 16 in *; change (2 ^ 8) with 256 in *;
  change (2 ^ 10) with 1024 in *; change (2 ^ 12) with 4096 in *;
  change (2 ^ 16) with 65536 in *; change (2 ^ 20) with 1048576 in *;
  change (2 ^ 22) with 4194304 in *; change (2 ^ 24) with 16777216 in *;
  change (2 ^ 32) with 4294967296 in *; Z.to_euclidean_division_equations; lia.

(** Turn the boolean comparisons of the code in the context into
    propositions. *)
Ltac bool_hyps :=
  repeat match goal with
  | H : (_ && _) = true |- _ => apply andb_true_iff in H; destruct H
  | H : (_ || _) = false |- _ => apply orb_false_iff in H; destruct H
  | H : (_ || _) = true |- _ => apply orb_true_iff in H
  | H : (_ && _) = false |- _ => apply andb_false_iff in H
  | H : negb _ = true |- _ => apply negb_true_iff in H
  | H : negb _ = false |- _ => apply negb_false_iff in H
  | H : (_ =? _) = true |- _ => apply Z.eqb_eq in H
  | H : (_ =? _) = false |- _ => apply Z.eqb_neq in H
  | H : (_ <? _) = true |- _ => apply Z.ltb_lt in H
  | H : (_ <? _) = false |- _ => apply Z.ltb_ge in H
  | H : (_ <=? _) = true |- _ => apply Z.leb_le in H
  | H : (_ <=? _) = false |- _ => apply Z.leb_gt in H
  end.

(** Case split on the innermost [if] of the goal. *)
Ltac case_if :=
  match goal with
  | |- context [if ?b then _ else _] =>
      lazymatch b with
      | context [if _ then _ else _] => fail
      | _ => let E := fresh "Hif" in destruct b eqn:E; bool_hyps
      end
  end.

Ltac case_if_in H :=
  match type of H with
  | context [if ?b then _ else _] =>
      lazymatch b with
      | context [if _ then _ else _] => fail
      | _ => let E := fresh "Hif" in destruct b eqn:E; bool_hyps
      end
  end.

(** Peel one [option] bind of a hypothesis. *)
Ltac bind_inv H :=
  let E := fresh "Hb" in
  match type of H with
  | (?m ≫= _) = Some _ =>
      destruct m eqn:E; cbn [mbind option_bind] in H; [|discriminate H]
  end.
