(* ===== verification/Bitmap.v ===== *)
(** * Bitmap: byte-array bitmaps

    pmm.c and pafs.c both keep an allocation bitmap in an [unsigned char]
    array, one bit per frame or block.  This file has the view of such an array
    as a predicate on bit numbers, the laws of the three bit operations the
    sources spell, and the counting function behind the used/free counters. *)

From S2P Require Export Prelude.

Definition byte_ok (b : Z) : Prop := 0 <= b < 256.
Definition bytes_ok (bm : list Z) : Prop := Forall byte_ok bm.

(** Bit [n] of the bitmap; an index past the array is not a set bit. *)
Definition bm_bit (bm : list Z) (n : Z) : bool :=
  match aget bm (n / 8) with
  | Some b => Z.testbit b (n mod 8)
  | None => false
  end.

(** ** Bits of one byte *)

Lemma u8_testbit z k : 0 <= k < 8 -> Z.testbit (u8 z) k = Z.testbit z k.
Proof. intros. unfold u8. apply Z.mod_pow2_bits_low. lia. Qed.

Lemma testbit_shl1 k i : 0 <= k -> 0 <= i -> Z.testbit (Z.shiftl 1 k) i = (i =? k).
Proof.
  intros. rewrite Z.shiftl_1_l, Z.pow2_bits_eqb by lia. apply Z.eqb_sym.
Qed.

Lemma byte_set_testbit b k i :
  0 <= k < 8 -> 0 <= i < 8 ->
  Z.testbit (u8 (Z.lor b (Z.shiftl 1 k))) i = (i =? k) || Z.testbit b i.
Proof.
  intros. rewrite u8_testbit, Z.lor_spec, testbit_shl1 by lia. apply orb_comm.
Qed.

Lemma byte_clear_testbit b k i :
  0 <= k < 8 -> 0 <= i < 8 ->
  Z.testbit (u8 (Z.land b (Z.lnot (Z.shiftl 1 k)))) i = negb (i =? k) && Z.testbit b i.
Proof.
  intros. rewrite u8_testbit, Z.land_spec, Z.lnot_spec, testbit_shl1 by lia.
  apply andb_comm.
Qed.

(** [(b >> k) & 1] and [b & (1 << k)] both test bit [k]. *)
Lemma shr_land1 b k : 0 <= k -> Z.land (Z.shiftr b k) 1 = if Z.testbit b k then 1 else 0.
Proof.
  intros. change 1 with (Z.ones 1) at 1. rewrite Z.land_ones by lia.
  change (2 ^ 1) with 2. rewrite <- Z.bit0_mod, Z.shiftr_spec by lia.
  rewrite Z.add_0_l. by destruct (Z.testbit b k).
Qed.

Lemma land_shl1_eqb b k :
  0 <= k -> (Z.land b (Z.shiftl 1 k) =? 0) = negb (Z.testbit b k).
Proof.
  intros Hk. destruct (Z.testbit b k) eqn:E; cbn.
  - apply Z.eqb_neq. intros H0.
    assert (Z.testbit (Z.land b (Z.shiftl 1 k)) k = false) as H1
      by (rewrite H0; apply Z.testbit_0_l).
    rewrite Z.land_spec, testbit_shl1, E, Z.eqb_refl in H1 by lia. done.
  - apply Z.eqb_eq, Z.bits_inj'. intros i Hi.
    rewrite Z.land_spec, testbit_shl1, Z.testbit_0_l by lia.
    destruct (Z.eqb_spec i k); [subst; by rewrite E|apply andb_false_r].
Qed.

(** ** One write to the array *)

Lemma div8_range n len : 0 <= n < 8 * len -> 0 <= n / 8 < len.
Proof. intros. split; [apply Z.div_pos; lia|apply Z.div_lt_upper_bound; lia]. Qed.

(** Replacing one byte by [f] of it changes exactly the bits of that byte. *)
Lemma bm_update bm n (f : Z -> Z) :
  bytes_ok bm -> 0 <= n < 8 * Z.of_nat (length bm) -> (forall b, byte_ok (f b)) ->
  exists b bm', aget bm (n / 8) = Some b /\ aset bm (n / 8) (f b) = Some bm' /\
    bytes_ok bm' /\ length bm' = length bm /\
    forall m, bm_bit bm' m =
      if m / 8 =? n / 8 then Z.testbit (f b) (m mod 8) else bm_bit bm m.
Proof.
  intros Hok Hn Hf.
  destruct (aget_is_Some bm (n / 8)) as [b Hb]; [by apply div8_range|].
  exists b. destruct (aset bm (n / 8) (f b)) as [bm'|] eqn:E.
  2:{ rewrite aset_eq in E by by apply div8_range. discriminate E. }
  exists bm'. split; [done|]. split; [done|].
  split; [eapply aset_Forall; eauto|]. split; [by eapply aset_length|].
  intros m. unfold bm_bit. rewrite (aget_aset _ _ _ _ _ E).
  case_decide as Hd; [rewrite <- Hd, Z.eqb_refl; done|].
  by rewrite (proj2 (Z.eqb_neq _ _)) by congruence.
Qed.

Lemma div_mod_eqb8 m n : (m / 8 =? n / 8) && (m mod 8 =? n mod 8) = (m =? n).
Proof.
  pose proof (Z.div_mod m 8 ltac:(lia)). pose proof (Z.div_mod n 8 ltac:(lia)).
  destruct (Z.eqb_spec (m / 8) (n / 8)), (Z.eqb_spec (m mod 8) (n mod 8)),
    (Z.eqb_spec m n); subst; try done; lia.
Qed.

Lemma u8_ok z : byte_ok (u8 z).
Proof. apply u8_range. Qed.

(** The [|= 1 << k] and [&= ~(1 << k)] assignments of the sources. *)
Lemma bm_set_spec bm n :
  bytes_ok bm -> 0 <= n < 8 * Z.of_nat (length bm) ->
  exists bm',
    (b ← aget bm (n / 8); aset bm (n / 8) (u8 (Z.lor b (Z.shiftl 1 (n mod 8)))))
      = Some bm' /\
    bytes_ok bm' /\ length bm' = length bm /\
    forall m, bm_bit bm' m = (m =? n) || bm_bit bm m.
Proof.
  intros Hok Hn.
  destruct (bm_update bm n (fun b => u8 (Z.lor b (Z.shiftl 1 (n mod 8)))) Hok Hn)
    as (b & bm' & Hb & Hs & ? & ? & Hbit); [intros; apply u8_ok|].
  exists bm'. rewrite Hb. cbn. repeat split; auto.
  intros m. rewrite Hbit, <- (div_mod_eqb8 m n).
  destruct (Z.eqb_spec (m / 8) (n / 8)) as [E|]; [|done].
  pose proof (Z.mod_pos_bound m 8). pose proof (Z.mod_pos_bound n 8).
  rewrite byte_set_testbit by lia. unfold bm_bit. by rewrite E, Hb.
Qed.

Lemma bm_clear_spec bm n :
  bytes_ok bm -> 0 <= n < 8 * Z.of_nat (length bm) ->
  exists bm',
    (b ← aget bm (n / 8);
     aset bm (n / 8) (u8 (Z.land b (Z.lnot (Z.shiftl 1 (n mod 8)))))) = Some bm' /\
    bytes_ok bm' /\ length bm' = length bm /\
    forall m, bm_bit bm' m = negb (m =? n) && bm_bit bm m.
Proof.
  intros Hok Hn.
  destruct (bm_update bm n (fun b => u8 (Z.land b (Z.lnot (Z.shiftl 1 (n mod 8))))) Hok Hn)
    as (b & bm' & Hb & Hs & ? & ? & Hbit); [intros; apply u8_ok|].
  exists bm'. rewrite Hb. cbn. repeat split; auto.
  intros m. rewrite Hbit, <- (div_mod_eqb8 m n).
  destruct (Z.eqb_spec (m / 8) (n / 8)) as [E|]; [|done].
  pose proof (Z.mod_pos_bound m 8). pose proof (Z.mod_pos_bound n 8).
  rewrite byte_clear_testbit by lia. unfold bm_bit. by rewrite E, Hb.
Qed.

Lemma bm_bit_range bm n : bm_bit bm n = true -> 0 <= n < 8 * Z.of_nat (length bm).
Proof.
  unfold bm_bit. destruct (aget bm (n / 8)) eqn:E; [|done].
  apply aget_Some_range in E. pose proof (Z.div_mod n 8 ltac:(lia)).
  pose proof (Z.mod_pos_bound n 8 ltac:(lia)). lia.
Qed.

(** ** Counting *)

Fixpoint count_n (p : Z -> bool) (lo : Z) (n : nat) : Z :=
  match n with
  | O => 0
  | S n' => (if p lo then 1 else 0) + count_n p (lo + 1) n'
  end.

(** The number of [i] in [lo .. hi - 1] with [p i]. *)
Definition count (p : Z -> bool) (lo hi : Z) : Z := count_n p lo (Z.to_nat (hi - lo)).

Lemma count_n_ext p q lo n :
  (forall i, lo <= i < lo + Z.of_nat n -> p i = q i) -> count_n p lo n = count_n q lo n.
Proof.
  revert lo. induction n as [|n IH]; intros lo H; cbn; [done|].
  rewrite (H lo) by lia. f_equal. apply IH. intros. apply H. lia.
Qed.

Lemma count_n_flip p q lo n k :
  lo <= k < lo + Z.of_nat n -> p k = true -> q k = false ->
  (forall i, lo <= i < lo + Z.of_nat n -> i <> k -> p i = q i) ->
  count_n p lo n = count_n q lo n + 1.
Proof.
  revert lo. induction n as [|n IH]; intros lo Hk Hp Hq H; [lia|]. cbn.
  destruct (Z.eq_dec lo k) as [->|].
  - rewrite Hp, Hq. rewrite (count_n_ext p q); [lia|]. intros. apply H; lia.
  - rewrite (IH (lo + 1)); auto; try lia. rewrite (H lo); [|lia..]. lia.
    intros. apply H; lia.
Qed.

Lemma count_n_bounds p lo n : 0 <= count_n p lo n <= Z.of_nat n.
Proof.
  revert lo. induction n as [|n IH]; intros lo; cbn; [lia|].
  specialize (IH (lo + 1)). destruct (p lo); lia.
Qed.

Lemma count_n_all p lo n :
  count_n p lo n = Z.of_nat n -> forall i, lo <= i < lo + Z.of_nat n -> p i = true.
Proof.
  revert lo. induction n as [|n IH]; intros lo Hc i Hi; [lia|]. cbn in Hc.
  pose proof (count_n_bounds p (lo + 1) n). destruct (p lo) eqn:E; [|lia].
  destruct (Z.eq_dec i lo) as [->|]; [done|]. apply (IH (lo + 1)); lia.
Qed.

Lemma count_ext p q lo hi :
  (forall i, lo <= i < hi -> p i = q i) -> count p lo hi = count q lo hi.
Proof. intros H. apply count_n_ext. intros. apply H. lia. Qed.

Lemma count_flip p q lo hi k :
  lo <= k < hi -> p k = true -> q k = false ->
  (forall i, lo <= i < hi -> i <> k -> p i = q i) ->
  count p lo hi = count q lo hi + 1.
Proof. intros. eapply count_n_flip; eauto; try lia. intros. apply H2; lia. Qed.

Lemma count_bounds p lo hi : lo <= hi -> 0 <= count p lo hi <= hi - lo.
Proof. intros. unfold count. pose proof (count_n_bounds p lo (Z.to_nat (hi - lo))). lia. Qed.

Lemma count_full p lo hi :
  lo <= hi -> count p lo hi = hi - lo -> forall i, lo <= i < hi -> p i = true.
Proof.
  intros Hle Hc i Hi. unfold count in Hc.
  apply (count_n_all p lo (Z.to_nat (hi - lo))); lia.
Qed.

Lemma count_n_snoc p lo n :
  count_n p lo (S n) = count_n p lo n + (if p (lo + Z.of_nat n) then 1 else 0).
Proof.
  revert lo. induction n as [|n IH]; intros lo.
  - cbn [count_n Z.of_nat]. rewrite !Z.add_0_r. lia.
  - change (count_n p lo (S (S n))) with ((if p lo then 1 else 0) + count_n p (lo + 1) (S n)).
    rewrite (IH (lo + 1)). cbn [count_n]. replace (lo + 1 + Z.of_nat n) with (lo + Z.of_nat (S n)) by lia.
    lia.
Qed.

Lemma count_snoc p lo hi :
  lo <= hi -> count p lo (hi + 1) = count p lo hi + (if p hi then 1 else 0).
Proof.
  intros. unfold count. replace (Z.to_nat (hi + 1 - lo)) with (S (Z.to_nat (hi - lo))) by lia.
  rewrite count_n_snoc. by replace (lo + Z.of_nat (Z.to_nat (hi - lo))) with hi by lia.
Qed.

(** ** Iterating the bit operations over a range *)

Lemma bm_range_rule (op : Z -> list Z -> option (list Z)) (g : Z -> bool -> bool) bm lo hi :
  bytes_ok bm -> 0 <= lo -> hi <= 8 * Z.of_nat (length bm) ->
  (forall n bm0, bytes_ok bm0 -> length bm0 = length bm -> lo <= n < hi ->
     exists bm', op n bm0 = Some bm' /\ bytes_ok bm' /\ length bm' = length bm0 /\
       forall m, bm_bit bm' m = if m =? n then g n (bm_bit bm0 m) else bm_bit bm0 m) ->
  exists bm', for_do lo hi op bm = Some bm' /\ bytes_ok bm' /\ length bm' = length bm /\
    forall m, bm_bit bm' m =
      if (lo <=? m) && (m <? hi) then g m (bm_bit bm m) else bm_bit bm m.
Proof.
  intros Hok Hlo Hhi Hop. destruct (Z_le_gt_dec hi lo) as [Hle|Hgt].
  { exists bm. rewrite for_do_empty by lia. repeat split; auto. intros m.
    destruct (Z.leb_spec lo m), (Z.ltb_spec m hi); cbn; auto; lia. }
  destruct (for_do_rule (fun i bm' => bytes_ok bm' /\ length bm' = length bm /\
    forall m, bm_bit bm' m = if (lo <=? m) && (m <? i) then g m (bm_bit bm m) else bm_bit bm m)
    lo hi op bm) as (bm' & Hr & ? & ? & ?); eauto; try lia.
  - repeat split; auto. intros m.
    destruct (Z.leb_spec lo m), (Z.ltb_spec m lo); cbn; auto; lia.
  - intros i s Hi (Hs & Hl & Hb).
    destruct (Hop i s Hs Hl Hi) as (s' & -> & ? & ? & Hb').
    exists s'. repeat split; auto; [congruence|]. intros m. rewrite Hb', Hb.
    destruct (Z.eqb_spec m i), (Z.leb_spec lo m), (Z.ltb_spec m i), (Z.ltb_spec m (i + 1));
      subst; cbn; auto; lia.
Qed.

(** ** Extensionality: a byte array is determined by its bits *)

Lemma byte_ext a b :
  byte_ok a -> byte_ok b -> (forall k, 0 <= k < 8 -> Z.testbit a k = Z.testbit b k) -> a = b.
Proof.
  intros Ha Hb H. rewrite <- (u8_small a), <- (u8_small b) by done.
  apply Z.bits_inj'. intros k Hk. unfold u8.
  destruct (Z_lt_ge_dec k 8).
  - rewrite !Z.mod_pow2_bits_low by lia. auto.
  - by rewrite !Z.mod_pow2_bits_high by lia.
Qed.

Lemma bm_ext a b :
  bytes_ok a -> bytes_ok b -> length a = length b ->
  (forall n, 0 <= n < 8 * Z.of_nat (length a) -> bm_bit a n = bm_bit b n) -> a = b.
Proof.
  intros Ha Hb Hl H. apply (list_eq_same_length _ _ (length a)); [congruence|done|].
  intros i x y Hi Hx Hy.
  apply byte_ext; [exact (Forall_lookup_1 _ _ _ _ Ha Hx)|exact (Forall_lookup_1 _ _ _ _ Hb Hy)|].
  intros k Hk. specialize (H (8 * Z.of_nat i + k) ltac:(lia)).
  unfold bm_bit in H.
  replace ((8 * Z.of_nat i + k) / 8) with (Z.of_nat i) in H
    by (rewrite Z.mul_comm, Z.div_add_l by lia; rewrite Z.div_small; lia).
  replace ((8 * Z.of_nat i + k) mod 8) with k in H
    by (rewrite Z.add_comm, Z.mul_comm, Z_mod_plus_full, Z.mod_small; lia).
  by rewrite !aget_nat, Hx, Hy in H.
Qed.
