(* ===== verification/CString.v ===== *)
(** * CString: the string routines and formatted output (kernel/core/kernel.c)

    A C string argument is the list of the bytes from its pointer to the end of
    the object it points into; running off that end is undefined and has no
    result.  Formatted output is the list of the characters handed to
    [put_char]. *)

From S2P Require Export Prelude.

(** ** The routines *)

(** [while (s[i]) i++] *)
Fixpoint strlen (s : list Z) : option Z :=
  match s with
  | [] => None
  | c :: s' => if c =? 0 then Some 0 else n ← strlen s'; Some (n + 1)
  end.

(** Both strings advance while the characters are equal and not NUL. *)
Fixpoint strcmp (s1 s2 : list Z) : option Z :=
  match s1, s2 with
  | c1 :: s1', c2 :: s2' =>
      if negb (c1 =? 0) && (c1 =? c2) then strcmp s1' s2' else Some (c1 - c2)
  | _, _ => None
  end.

Fixpoint strcpy (dest src : list Z) : option (list Z) :=
  match dest, src with
  | _ :: dest', c :: src' =>
      if c =? 0 then Some (0 :: dest') else d ← strcpy dest' src'; Some (c :: d)
  | _, _ => None
  end.

(** [while (n-- > 0) *d++ = '\0'] *)
Fixpoint pad_zero (n : nat) (dest : list Z) : option (list Z) :=
  match n, dest with
  | O, _ => Some dest
  | S n', _ :: dest' => d ← pad_zero n' dest'; Some (0 :: d)
  | S _, [] => None
  end.

(** [strncpy] for a count that is not negative. *)
Fixpoint strncpy_loop (n : nat) (dest src : list Z) : option (list Z) :=
  match n with
  | O => Some dest
  | S n' =>
      match dest, src with
      | _ :: dest', c :: src' =>
          if c =? 0 then d ← pad_zero n' dest'; Some (0 :: d)
          else d ← strncpy_loop n' dest' src'; Some (c :: d)
      | _, _ => None
      end
  end.

(** [while (n--)] never ends within the object for a negative [n]. *)
Definition strncpy (dest src : list Z) (n : Z) : option (list Z) :=
  if n <? 0 then None else strncpy_loop (Z.to_nat n) dest src.

Fixpoint memcpy_loop (n : nat) (dest src : list Z) : option (list Z) :=
  match n with
  | O => Some dest
  | S n' =>
      match dest, src with
      | _ :: dest', c :: src' => d ← memcpy_loop n' dest' src'; Some (c :: d)
      | _, _ => None
      end
  end.

Definition memcpy (dest src : list Z) (n : Z) : option (list Z) :=
  if n <? 0 then None else memcpy_loop (Z.to_nat n) dest src.

Fixpoint memset_loop (n : nat) (s : list Z) (c : Z) : option (list Z) :=
  match n, s with
  | O, _ => Some s
  | S n', _ :: s' => d ← memset_loop n' s' c; Some (u8 c :: d)
  | S _, [] => None
  end.

Definition memset (s : list Z) (c n : Z) : option (list Z) :=
  if n <? 0 then None else memset_loop (Z.to_nat n) s c.

(** The copy loops of task.c and pafs.c: up to [limit] characters of a
    terminated string, then the NUL. *)
Fixpoint copy_name (fuel : nat) (i limit : Z) (src dst : list Z) : option (list Z) :=
  match fuel with
  | O => None
  | S fuel' =>
      c ← aget src i;
      if negb (c =? 0) && (i <? limit) then
        dst ← aset dst i c; copy_name fuel' (i + 1) limit src dst
      else aset dst i 0
  end.

(** ** Formatted output *)

Definition CHAR_0 : Z := 48.
Definition CHAR_minus : Z := 45.
Definition CHAR_percent : Z := 37.

(** The digits of [n > 0], last digit first; at most ten rounds. *)
Fixpoint digits_rev (fuel : nat) (n : Z) : list Z :=
  match fuel with
  | O => []
  | S fuel' => if 0 <? n then (n mod 10 + CHAR_0) :: digits_rev fuel' (n / 10) else []
  end.

(** [buf] has room for 12 characters; [n = -n] wraps on INT_MIN. *)
Definition put_int (n : Z) : list Z :=
  if n =? 0 then [CHAR_0]
  else if n <? 0 then CHAR_minus :: rev (digits_rev 10 (i32 (- n)))
  else rev (digits_rev 10 n).

Definition hex_chars : list Z := [48; 49; 50; 51; 52; 53; 54; 55; 56; 57; 65; 66; 67; 68; 69; 70].

Definition hex_digit (n i : Z) : Z :=
  default 0 (hex_chars !! Z.to_nat (Z.land (Z.shiftr n (i * 4)) 0xF)).

Definition put_hex (n : Z) : list Z :=
  [48; 120] ++ map (hex_digit n) [7; 6; 5; 4; 3; 2; 1; 0].

Fixpoint put_str (s : list Z) : option (list Z) :=
  match s with
  | [] => None
  | c :: s' => if c =? 0 then Some [] else r ← put_str s'; Some (c :: r)
  end.

(** The variable arguments of [kprintf]; taking one of another kind is
    undefined. *)
Inductive karg :=
| AStr (s : list Z)
| AInt (n : Z)
| AHex (n : Z)
| AChr (c : Z).

Fixpoint kprintf (fmt : list Z) (args : list karg) : option (list Z) :=
  match fmt with
  | [] => None
  | c :: fmt1 =>
      if c =? 0 then Some [] else
      if negb (c =? CHAR_percent) then r ← kprintf fmt1 args; Some (c :: r) else
      match fmt1 with
      | [] => None
      | c2 :: fmt2 =>
          if c2 =? 115 then
            match args with
            | AStr s :: args' => o ← put_str s; r ← kprintf fmt2 args'; Some (o ++ r)
            | _ => None
            end
          else if c2 =? 100 then
            match args with
            | AInt n :: args' => r ← kprintf fmt2 args'; Some (put_int n ++ r)
            | _ => None
            end
          else if c2 =? 120 then
            match args with
            | AHex n :: args' => r ← kprintf fmt2 args'; Some (put_hex n ++ r)
            | _ => None
            end
          else if c2 =? 99 then
            match args with
            | AChr ch :: args' => r ← kprintf fmt2 args'; Some (ch :: r)
            | _ => None
            end
          else kprintf fmt2 args
      end
  end.

(** ** The meaning of a C string *)

(** The bytes before the first NUL. *)
Fixpoint content (s : list Z) : option (list Z) :=
  match s with
  | [] => None
  | c :: s' => if c =? 0 then Some [] else r ← content s'; Some (c :: r)
  end.

(** No character of the string is NUL. *)
Definition nonzero (s : list Z) : Prop := Forall (fun c => c <> 0) s.

Lemma content_app l r : Forall (fun c => c <> 0) l -> content (l ++ 0 :: r) = Some l.
Proof.
  induction 1 as [|c l Hc _ IH]; cbn; [done|]. by rewrite (proj2 (Z.eqb_neq c 0) Hc), IH.
Qed.

Lemma content_split s l :
  content s = Some l -> exists r, s = l ++ 0 :: r /\ Forall (fun c => c <> 0) l.
Proof.
  revert l. induction s as [|c s IH]; intros l H; cbn in H; [done|].
  destruct (Z.eqb_spec c 0) as [->|Hc].
  - injection H as <-. exists s. by split.
  - destruct (content s) as [l'|]; [|done]. injection H as <-.
    destruct (IH l' eq_refl) as (r & -> & Hl). exists r. by repeat constructor.
Qed.

Lemma strlen_content s : strlen s = (fun l => Z.of_nat (length l)) <$> content s.
Proof.
  induction s as [|c s IH]; cbn; [done|]. destruct (c =? 0); [done|]. rewrite IH.
  destruct (content s) as [l|]; [|done]. cbn. f_equal. lia.
Qed.

Lemma put_str_content s : put_str s = content s.
Proof. by induction s as [|c s IH]; cbn; [|destruct (c =? 0); [|rewrite IH]]. Qed.

(** The lexicographic order of the contents. *)
Fixpoint lex (l1 l2 : list Z) : comparison :=
  match l1, l2 with
  | [], [] => Eq
  | [], _ :: _ => Lt
  | _ :: _, [] => Gt
  | a :: l1', b :: l2' => match a ?= b with Eq => lex l1' l2' | c => c end
  end.

Lemma lex_eq l1 l2 : lex l1 l2 = Eq <-> l1 = l2.
Proof.
  revert l2. induction l1 as [|a l1 IH]; intros [|b l2]; cbn; try (split; congruence).
  destruct (Z.compare_spec a b) as [->|H|H].
  - rewrite IH. split; congruence.
  - split; [done|]. intros [= -> ->]. lia.
  - split; [done|]. intros [= -> ->]. lia.
Qed.

(** Comparison with 0 is equality of the contents. *)
Lemma strcmp_eq0 s1 s2 l1 l2 :
  content s1 = Some l1 -> content s2 = Some l2 ->
  exists r, strcmp s1 s2 = Some r /\ (r = 0 <-> l1 = l2).
Proof.
  revert s2 l1 l2. induction s1 as [|c1 s1 IH]; intros [|c2 s2] l1 l2 H1 H2; try done.
  cbn in H1, H2 |- *. destruct (Z.eqb_spec c1 0) as [->|Hn1]; cbn [negb andb].
  - injection H1 as <-. eexists; split; [done|].
    destruct (Z.eqb_spec c2 0) as [->|Hn2]; [by injection H2 as <-|].
    destruct (content s2); [|done]. injection H2 as <-. split; [lia|done].
  - destruct (content s1) as [k1|]; [|done]. injection H1 as <-.
    destruct (Z.eqb_spec c1 c2) as [->|Hne].
    + rewrite (proj2 (Z.eqb_neq c2 0)) in H2 by done. destruct (content s2) as [k2|] eqn:E2; [|done].
      injection H2 as <-. destruct (IH s2 k1 k2) as (r & -> & Hr); [done..|].
      exists r. split; [done|]. rewrite Hr. split; congruence.
    + eexists; split; [done|]. split; [lia|]. intros <-.
      destruct (Z.eqb_spec c2 0); [done|]. destruct (content s2); [|done]. injection H2. congruence.
Qed.
(** *** Copies *)

Lemma memcpy_loop_eq n d s :
  (n <= length d)%nat -> (n <= length s)%nat -> memcpy_loop n d s = Some (take n s ++ drop n d).
Proof.
  revert d s. induction n as [|n IH]; intros d s Hd Hs; [done|].
  destruct d as [|x d], s as [|c s]; cbn in *; try lia. by rewrite IH by lia.
Qed.

Lemma memcpy_eq d s n :
  0 <= n -> n <= Z.of_nat (length d) -> n <= Z.of_nat (length s) ->
  memcpy d s n = Some (take (Z.to_nat n) s ++ drop (Z.to_nat n) d).
Proof.
  intros. unfold memcpy. rewrite (proj2 (Z.ltb_ge n 0)) by lia. apply memcpy_loop_eq; lia.
Qed.

Lemma memset_eq s c n :
  0 <= n -> n <= Z.of_nat (length s) ->
  memset s c n = Some (replicate (Z.to_nat n) (u8 c) ++ drop (Z.to_nat n) s).
Proof.
  intros Hn Hl. unfold memset. rewrite (proj2 (Z.ltb_ge n 0)) by lia.
  assert (H : (Z.to_nat n <= length s)%nat) by lia. revert H. generalize (Z.to_nat n). clear.
  intros n. revert s. induction n as [|n IH]; intros s H; [done|].
  destruct s as [|x s]; cbn in *; [lia|]. by rewrite IH by lia.
Qed.

Lemma strcpy_eq d s l :
  content s = Some l -> (length l < length d)%nat ->
  strcpy d s = Some (l ++ 0 :: drop (S (length l)) d).
Proof.
  revert d l. induction s as [|c s IH]; intros d l Hc Hl; cbn in Hc; [done|].
  destruct d as [|x d]; cbn in Hl; [lia|]. cbn. destruct (c =? 0) eqn:E.
  - by injection Hc as <-.
  - destruct (content s) as [l'|]; [|done]. injection Hc as <-. cbn in Hl.
    rewrite (IH d l' eq_refl) by lia. done.
Qed.

Lemma pad_zero_eq n d : (n <= length d)%nat -> pad_zero n d = Some (replicate n 0 ++ drop n d).
Proof.
  revert d. induction n as [|n IH]; intros d H; [by destruct d|].
  destruct d as [|x d]; cbn in *; [lia|]. by rewrite IH by lia.
Qed.

(** A terminated C string of [n] characters at the start of [nm]. *)
Definition cstring (nm : list Z) (n : Z) : Prop :=
  0 <= n /\ aget nm n = Some 0 /\ forall i, 0 <= i < n -> exists c, aget nm i = Some c /\ c <> 0.

Lemma copy_name_ok fuel i limit nm n dst :
  cstring nm n -> 0 <= i <= limit -> i <= n -> Z.min n limit < Z.of_nat (length dst) ->
  (Z.to_nat (Z.min n limit - i) < fuel)%nat ->
  exists dst', copy_name fuel i limit nm dst = Some dst' /\ length dst' = length dst /\
    aget dst' (Z.min n limit) = Some 0 /\
    (forall j, i <= j < Z.min n limit -> aget dst' j = aget nm j) /\
    (forall j, j < i -> aget dst' j = aget dst j).
Proof.
  intros (Hn & Hz & Hc). revert i dst. induction fuel as [|fuel IH]; intros i dst Hi Hin Hl Hf; [lia|].
  cbn [copy_name]. destruct (Z.eq_dec i n) as [->|Hne].
  - rewrite Hz. cbn [mbind option_bind Z.eqb negb andb]. rewrite aset_eq by lia.
    replace (Z.min n limit) with n by lia. eexists; split; [done|]. split_and!.
    + apply length_insert.
    + apply (aget_aset_eq dst). apply aset_eq. lia.
    + lia.
    + intros j Hj. apply (aget_aset_ne dst n j 0); [apply aset_eq; lia|lia].
  - destruct (Hc i) as (c & Hci & Hc0); [lia|]. rewrite Hci. cbn [mbind option_bind].
    rewrite (proj2 (Z.eqb_neq c 0)) by done. cbn [negb andb]. destruct (Z.ltb_spec i limit).
    + destruct (aset dst i c) as [d1|] eqn:E; [|rewrite aset_eq in E by lia; done].
      cbn [mbind option_bind]. pose proof (aset_length _ _ _ _ E) as Hl1.
      destruct (IH (i + 1) d1) as (d' & -> & Hl' & Hend & Hnew & Hold); [lia..|].
      exists d'. split; [done|]. split_and!; [congruence|done| |].
      * intros j Hj. destruct (Z.eq_dec j i) as [->|?]; [|apply Hnew; lia].
        rewrite Hold by lia. rewrite (aget_aset_eq _ _ _ _ E). done.
      * intros j Hj. rewrite Hold by lia. apply (aget_aset_ne _ _ _ _ _ E). lia.
    + rewrite aset_eq by lia. replace (Z.min n limit) with i by lia.
      eexists; split; [done|]. split_and!.
      * apply length_insert.
      * apply (aget_aset_eq dst). apply aset_eq. lia.
      * lia.
      * intros j Hj. apply (aget_aset_ne dst i j 0); [apply aset_eq; lia|lia].
Qed.

(** The copy leaves the bytes after [limit] alone. *)
Lemma copy_name_frame fuel i limit src dst dst' :
  copy_name fuel i limit src dst = Some dst' -> 0 <= i <= limit ->
  forall j, limit < j -> aget dst' j = aget dst j.
Proof.
  revert i dst. induction fuel as [|fuel IH]; intros i dst H Hi j Hj; [done|]. cbn [copy_name] in H.
  bind_inv H. destruct (negb (z =? 0) && (i <? limit)) eqn:E.
  - bind_inv H. bool_hyps. rewrite (IH (i + 1) l H) by lia. apply (aget_aset_ne _ _ _ _ _ Hb0). lia.
  - apply (aget_aset_ne _ _ _ _ _ H). lia.
Qed.

Lemma content_cstring s l :
  content s = Some l -> cstring s (Z.of_nat (length l)) /\ forall j, 0 <= j < Z.of_nat (length l) -> aget s j = aget l j.
Proof.
  intros H. destruct (content_split s l H) as (r & -> & Hl).
  assert (Hj : forall j, 0 <= j < Z.of_nat (length l) -> aget (l ++ 0 :: r) j = aget l j).
  { intros j Hj. rewrite !aget_pos by lia. apply lookup_app_l. lia. }
  split; [|done]. split_and!; [lia| |].
  - rewrite aget_nat, lookup_app_r, Nat.sub_diag by lia. done.
  - intros j Hj'. rewrite Hj by lia. destruct (aget_is_Some l j) as [c Hc]; [lia|]. exists c. split; [done|].
    exact (aget_Forall _ _ _ _ Hl Hc).
Qed.

Lemma content_intro s l :
  Forall (fun c => c <> 0) l -> aget s (Z.of_nat (length l)) = Some 0 ->
  (forall j, 0 <= j < Z.of_nat (length l) -> aget s j = aget l j) -> content s = Some l.
Proof.
  intros Hl H0 Hj. rewrite aget_nat in H0. pose proof (lookup_lt_Some _ _ _ H0) as Hlen.
  rewrite <- (take_drop_middle s (length l) 0 H0). replace (take (length l) s) with l; [by apply content_app|].
  apply list_eq_same_length with (length l); [rewrite length_take; lia|done|].
  intros k x y Hk Hx Hy. rewrite lookup_take_lt in Hy by lia.
  specialize (Hj (Z.of_nat k) ltac:(lia)). rewrite !aget_nat in Hj. congruence.
Qed.

Lemma content_app_l s r l : content s = Some l -> content (s ++ r) = Some l.
Proof.
  intros H. destruct (content_split s l H) as (t & -> & Hl). rewrite <- app_assoc. by apply content_app.
Qed.

Lemma content_nz s l : content s = Some l -> Forall (fun c => c <> 0) l.
Proof. intros H. by destruct (content_split s l H) as (r & _ & ?). Qed.

Lemma content_length s l : content s = Some l -> (length l < length s)%nat.
Proof. intros H. destruct (content_split s l H) as (r & -> & _). rewrite length_app. cbn. lia. Qed.

(** *** Decimal output *)

Fixpoint dec_value (acc : Z) (l : list Z) : Z :=
  match l with [] => acc | c :: l' => dec_value (acc * 10 + (c - CHAR_0)) l' end.

Lemma dec_value_snoc acc l c : dec_value acc (l ++ [c]) = dec_value acc l * 10 + (c - CHAR_0).
Proof. revert acc. induction l as [|x l IH]; intros acc; cbn; [done|apply IH]. Qed.

Lemma digits_value fuel n :
  0 <= n < 10 ^ Z.of_nat fuel -> dec_value 0 (rev (digits_rev fuel n)) = n.
Proof.
  revert n. induction fuel as [|fuel IH]; intros n Hn.
  { cbn in *. lia. }
  cbn [digits_rev]. destruct (Z.ltb_spec 0 n); [|cbn; lia].
  cbn [rev]. rewrite dec_value_snoc, IH.
  - unfold CHAR_0. pose proof (Z.div_mod n 10). lia.
  - rewrite Nat2Z.inj_succ, Z.pow_succ_r in Hn by lia.
    split; [apply Z.div_pos; lia|]. apply Z.div_lt_upper_bound; lia.
Qed.

Lemma digits_chars fuel n : Forall (fun c => 48 <= c <= 57) (digits_rev fuel n).
Proof.
  revert n. induction fuel as [|fuel IH]; intros n; cbn; [constructor|].
  destruct (0 <? n); [|constructor]. constructor; [|apply IH]. unfold CHAR_0.
  pose proof (Z.mod_pos_bound n 10). lia.
Qed.

Lemma digits_length fuel n : (length (digits_rev fuel n) <= fuel)%nat.
Proof.
  revert n. induction fuel as [|fuel IH]; intros n; cbn; [lia|].
  destruct (0 <? n); cbn; [|lia]. specialize (IH (n / 10)). lia.
Qed.

(** The value a reader takes from the output of [put_int]. *)
Definition read_int (l : list Z) : Z :=
  match l with
  | c :: l' => if c =? CHAR_minus then - dec_value 0 l' else dec_value 0 l
  | [] => 0
  end.

(** ** Properties *)

(** (strcmp): on two C strings the comparison always returns, and its sign
    is the lexicographic order of the contents as unsigned bytes; it is 0
    exactly when the contents are equal. *)
Theorem strcmp_order s1 s2 l1 l2 :
  content s1 = Some l1 -> content s2 = Some l2 ->
  Forall (fun c => 0 <= c < 256) s1 -> Forall (fun c => 0 <= c < 256) s2 ->
  exists r, strcmp s1 s2 = Some r /\ (r ?= 0) = lex l1 l2 /\ (r = 0 <-> l1 = l2) /\ -256 < r < 256.
Proof.
  intros H1 H2 Hb1 Hb2.
  assert (H : exists r, strcmp s1 s2 = Some r /\ (r ?= 0) = lex l1 l2 /\ -256 < r < 256).
  { revert s2 l1 l2 H1 H2 Hb2. induction Hb1 as [|c1 s1 Hc1 Hb1 IH]; intros s2 l1 l2 H1 H2 Hb2; [done|].
    destruct Hb2 as [|c2 s2 Hc2 Hb2]; [done|]. cbn in H1, H2 |- *.
    destruct (Z.eqb_spec c1 0) as [->|Hn1]; cbn [negb andb].
    - injection H1 as <-. eexists; split; [done|]. split; [|lia].
      destruct (Z.eqb_spec c2 0) as [->|Hn2]; [by injection H2 as <-|].
      destruct (content s2); [|done]. injection H2 as <-. cbn. apply Z.compare_lt_iff. lia.
    - destruct (content s1) as [k1|]; [|done]. injection H1 as <-.
      destruct (Z.eqb_spec c1 c2) as [->|Hne].
      + rewrite (proj2 (Z.eqb_neq c2 0)) in H2 by done. destruct (content s2) as [k2|] eqn:E2; [|done].
        injection H2 as <-. cbn [lex]. rewrite Z.compare_refl. by apply (IH s2 k1 k2).
      + eexists; split; [done|]. split; [|lia]. rewrite <- Z.compare_sub.
        destruct (Z.eqb_spec c2 0) as [->|Hn2].
        * injection H2 as <-. cbn. apply Z.compare_gt_iff. lia.
        * destruct (content s2); [|done]. injection H2 as <-. cbn.
          by destruct (Z.compare_spec c1 c2). }
  destruct H as (r & Hr & Hs & Hrange). exists r. split; [done|]. split; [done|]. split; [|done].
  rewrite <- lex_eq, <- Hs. symmetry. apply Z.compare_eq_iff.
Qed.

(** (put_int): every [int] but the smallest is printed so that reading the
    digits back gives the number, in at most 11 characters; the smallest one,
    whose negation overflows, is printed as a lone minus sign. *)
Theorem put_int_roundtrip n :
  - 2 ^ 31 < n < 2 ^ 31 ->
  read_int (put_int n) = n /\ (length (put_int n) <= 11)%nat /\
  Forall (fun c => c = CHAR_minus \/ 48 <= c <= 57) (put_int n) /\
  put_int (- 2 ^ 31) = [CHAR_minus].
Proof.
  intros Hn. assert (Hd : forall m, 0 < m < 2 ^ 31 ->
    read_int (rev (digits_rev 10 m)) = m /\ dec_value 0 (rev (digits_rev 10 m)) = m /\
    (length (rev (digits_rev 10 m)) <= 10)%nat /\ Forall (fun c => 48 <= c <= 57) (rev (digits_rev 10 m))).
  { intros m Hm. assert (Hv : dec_value 0 (rev (digits_rev 10 m)) = m)
      by (apply digits_value; cbn; lia).
    assert (Hc : Forall (fun c => 48 <= c <= 57) (rev (digits_rev 10 m)))
      by (apply Forall_rev, digits_chars).
    pose proof (digits_length 10 m) as Hl. rewrite <- length_rev in Hl. split_and!; auto.
    destruct Hc as [|c l Hc _]; cbn [read_int]; [done|].
    unfold CHAR_minus. by rewrite (proj2 (Z.eqb_neq c 45)) by lia. }
  unfold put_int. destruct (Z.eqb_spec n 0) as [->|Hn0].
  { split_and!; [done|cbn; lia| |done]. constructor; [right; unfold CHAR_0; lia|constructor]. }
  destruct (Z.ltb_spec n 0).
  - rewrite i32_small by lia. destruct (Hd (- n)) as (_ & Hv & Hl & Hc); [lia|].
    cbn [read_int]. rewrite Z.eqb_refl, Hv. split_and!; [lia|cbn [length]; lia| |done].
    constructor; [by left|]. eapply Forall_impl; [exact Hc|]. intros c ?. by right.
  - destruct (Hd n) as (Hv & _ & Hl & Hc); [lia|]. split_and!; [done|lia| |done].
    eapply Forall_impl; [exact Hc|]. intros c ?. by right.
Qed.

(** ** Witnesses *)

Lemma strcmp_order_witness :
  exists r, strcmp [102; 97; 0] [102; 115; 104; 0] = Some r /\ r <> 0.
Proof.
  destruct (strcmp_order [102; 97; 0] [102; 115; 104; 0] [102; 97] [102; 115; 104])
    as (r & Hr & _ & Hz & _); [reflexivity|reflexivity|repeat constructor; lia|repeat constructor; lia|].
  exists r. split; [exact Hr|]. intros E. apply Hz in E. discriminate E.
Defined.

Lemma put_int_roundtrip_witness : read_int (put_int (-4096)) = -4096.
Proof. apply (put_int_roundtrip (-4096)). lia. Defined.
