(* ===== verification/Pmm.v ===== *)
(** * Pmm: the physical frame allocator (kernel/mm/pmm.c)

    A bitmap of 4 KB frames over the 32-bit physical address space, one bit per
    frame (1 = in use), with the counters of the file.  The state is the record
    [pmm], one field per static variable.  The multiboot memory map that
    [init_pmm] walks is raw memory, read through [mem]. *)

From S2P Require Export Bitmap.

Definition FRAME_SIZE : Z := 4096.
Definition MAX_FRAMES : Z := 1048576.

Record pmm := Pmm {
  frame_bitmap : list Z;
  total_frames : Z;
  used_frames_count : Z;
  total_memory_kb : Z
}.

Definition set_bitmap (bm : list Z) (st : pmm) : pmm :=
  Pmm bm (total_frames st) (used_frames_count st) (total_memory_kb st).
Definition set_used (n : Z) (st : pmm) : pmm :=
  Pmm (frame_bitmap st) (total_frames st) n (total_memory_kb st).

(** ** Bit operations *)

Definition bitmap_set (frame : Z) (bm : list Z) : option (list Z) :=
  b ← aget bm (frame / 8); aset bm (frame / 8) (u8 (Z.lor b (Z.shiftl 1 (frame mod 8)))).

Definition bitmap_clear (frame : Z) (bm : list Z) : option (list Z) :=
  b ← aget bm (frame / 8);
  aset bm (frame / 8) (u8 (Z.land b (Z.lnot (Z.shiftl 1 (frame mod 8))))).

Definition bitmap_test (frame : Z) (bm : list Z) : option Z :=
  b ← aget bm (frame / 8); Some (Z.land (Z.shiftr b (frame mod 8)) 1).

(** ** The multiboot information (include/multiboot.h) *)

Definition MB_FLAG_MEM : Z := Z.shiftl 1 0.
Definition MB_FLAG_MMAP : Z := Z.shiftl 1 6.
Definition MMAP_TYPE_AVAILABLE : Z := 1.

(** The fields of [struct multiboot_info] that pmm.c reads. *)
Record multiboot_info := Mbi {
  mb_flags : Z;
  mem_lower : Z;
  mem_upper : Z;
  mmap_length : Z;
  mmap_addr : Z
}.

(** [struct multiboot_mmap_entry], packed. *)
Record mmap_entry := MmapEntry {
  e_size : Z;
  base_addr_low : Z;
  base_addr_high : Z;
  length_low : Z;
  length_high : Z;
  e_type : Z
}.

(** A little-endian 32-bit load from byte memory. *)
Definition load32 (mem : Z -> Z) (a : Z) : Z :=
  mem a + 2 ^ 8 * mem (u32 (a + 1)) + 2 ^ 16 * mem (u32 (a + 2)) + 2 ^ 24 * mem (u32 (a + 3)).

Definition read_entry (mem : Z -> Z) (a : Z) : mmap_entry :=
  MmapEntry (load32 mem a) (load32 mem (u32 (a + 4))) (load32 mem (u32 (a + 8)))
    (load32 mem (u32 (a + 12))) (load32 mem (u32 (a + 16))) (load32 mem (u32 (a + 20))).

(** The frames an available entry frees: its start is aligned up, its end
    down, both in 32-bit arithmetic. *)
Definition frame_start (e : mmap_entry) : Z := u32 (base_addr_low e + FRAME_SIZE - 1) / FRAME_SIZE.
Definition frame_end (e : mmap_entry) : Z := u32 (base_addr_low e + length_low e) / FRAME_SIZE.

Definition entry_usable (e : mmap_entry) : bool :=
  (e_type e =? MMAP_TYPE_AVAILABLE) && (base_addr_high e =? 0).

Section init.
(** Linker symbols [__kernel_start] and [__kernel_end] (virtual addresses). *)
Variables kernel_start kernel_end : Z.
(** Physical memory seen through the boot mapping. *)
Variable mem : Z -> Z.

(** The body of the map walk for one entry. *)
Definition mmap_step (total : Z) (e : mmap_entry) (bm : list Z) : option (list Z) :=
  if entry_usable e
  then for_do (frame_start e) (Z.min (frame_end e) total) bitmap_clear bm
  else Some bm.

(** [while (addr < end)]; out of fuel when the map never ends. *)
Fixpoint mmap_loop (fuel : nat) (total addr end_ : Z) (bm : list Z) : option (list Z) :=
  if addr <? end_ then
    match fuel with
    | O => None
    | S fuel' =>
        let entry := read_entry mem addr in
        bm' ← mmap_step total entry bm;
        mmap_loop fuel' total (u32 (addr + (e_size entry + 4))) end_ bm'
    end
  else Some bm.

Definition ks_frame : Z := u32 (kernel_start - 0xC0000000) / FRAME_SIZE.
Definition ke_frame : Z := u32 (u32 (kernel_end - 0xC0000000) + FRAME_SIZE - 1) / FRAME_SIZE.

Definition init_pmm (mbi : multiboot_info) (st : pmm) : option pmm :=
  (* 1. every frame in use *)
  let bm := replicate (length (frame_bitmap st)) 0xFF in
  (* 2. total memory *)
  let total_kb :=
    if Z.land (mb_flags mbi) MB_FLAG_MEM =? 0 then total_memory_kb st
    else u32 (mem_lower mbi + mem_upper mbi + 1024) in
  let total0 := total_kb / 4 in
  let total := if MAX_FRAMES <? total0 then MAX_FRAMES else total0 in
  (* 3. free the available regions *)
  bm ← (if Z.land (mb_flags mbi) MB_FLAG_MMAP =? 0
        then
          let upper_frames := mem_upper mbi / 4 in
          let start_frame := 0x100000 / FRAME_SIZE in
          for_do start_frame (Z.min (u32 (start_frame + upper_frames)) total) bitmap_clear bm
        else
          let addr := u32 (mmap_addr mbi + 0xC0000000) in
          let end_ := u32 (addr + mmap_length mbi) in
          mmap_loop (Z.to_nat (mmap_length mbi)) total addr end_ bm);
  (* 4. the first megabyte *)
  bm ← for_do 0 256 bitmap_set bm;
  (* 5. the kernel image *)
  bm ← for_do ks_frame (Z.min ke_frame total) bitmap_set bm;
  (* 6. count the frames in use *)
  used ← for_do 0 total (fun f used =>
           t ← bitmap_test f bm; Some (if t =? 0 then used else u32 (used + 1))) 0;
  Some (Pmm bm total used total_kb).
End init.

(** ** Allocation *)

Definition alloc_frame (st : pmm) : option (Z * pmm) :=
  let search_limit := if 262144 <? total_frames st then 262144 else total_frames st in
  r ← for_ret 0 search_limit (fun f st =>
        t ← bitmap_test f (frame_bitmap st);
        if t =? 0 then
          bm ← bitmap_set f (frame_bitmap st);
          Some (Ret (u32 (f * FRAME_SIZE),
                     set_used (u32 (used_frames_count st + 1)) (set_bitmap bm st)))
        else Some (Next st)) st;
  match r with
  | Ret res => Some res
  | Next st' => Some (0, st')
  end.

(** The inner loop of [alloc_contiguous_frames]. *)
Definition take_frames (start_frame count : Z) (st : pmm) : option pmm :=
  for_do start_frame (u32 (start_frame + count)) (fun i st =>
    bm ← bitmap_set i (frame_bitmap st);
    Some (set_used (u32 (used_frames_count st + 1)) (set_bitmap bm st))) st.

Definition alloc_contiguous_frames (count : Z) (st : pmm) : option (Z * pmm) :=
  r ← for_ret 0 (total_frames st) (fun f '(current_count, start_frame) =>
        t ← bitmap_test f (frame_bitmap st);
        if t =? 0 then
          let start_frame := if current_count =? 0 then f else start_frame in
          let current_count := current_count + 1 in
          if current_count =? count then
            st' ← take_frames start_frame count st;
            Some (Ret (u32 (start_frame * FRAME_SIZE), st'))
          else Some (Next (current_count, start_frame))
        else Some (Next (0, start_frame))) (0, 0);
  match r with
  | Ret res => Some res
  | Next _ => Some (0, st)
  end.

Definition free_frame (addr : Z) (st : pmm) : option pmm :=
  let frame := addr / FRAME_SIZE in
  if frame <? total_frames st then
    t ← bitmap_test frame (frame_bitmap st);
    if t =? 0 then Some st
    else
      bm ← bitmap_clear frame (frame_bitmap st);
      Some (set_used (u32 (used_frames_count st - 1)) (set_bitmap bm st))
  else Some st.

Definition pmm_total_memory_kb (st : pmm) : Z := total_memory_kb st.
Definition pmm_total_frames (st : pmm) : Z := total_frames st.
Definition pmm_used_frames (st : pmm) : Z := used_frames_count st.
Definition pmm_free_frames (st : pmm) : Z := u32 (total_frames st - used_frames_count st).

(** ** The allocator's invariant and its abstract view

    [in_use st f] is the meaning of the bitmap; [frame_free st f] says that [f]
    is a frame of the machine the allocator may hand out. *)

Definition in_use (st : pmm) (f : Z) : bool := bm_bit (frame_bitmap st) f.

Definition frame_free (st : pmm) (f : Z) : Prop :=
  0 <= f < total_frames st /\ in_use st f = false.

Record pmm_inv (st : pmm) : Prop := {
  inv_bytes : bytes_ok (frame_bitmap st);
  inv_length : Z.of_nat (length (frame_bitmap st)) = MAX_FRAMES / 8;
  inv_total : 0 <= total_frames st <= MAX_FRAMES;
  inv_used : used_frames_count st = count (in_use st) 0 (total_frames st);
  inv_low : forall f, 0 <= f < 256 -> in_use st f = true
}.

(** [st'] is [st] with the frames of [lo .. hi - 1] switched to [b]. *)
Definition frames_set (st st' : pmm) (lo hi : Z) (b : bool) : Prop :=
  total_frames st' = total_frames st /\ total_memory_kb st' = total_memory_kb st /\
  forall f, in_use st' f = if (lo <=? f) && (f <? hi) then b else in_use st f.

(** ** Laws of the bit operations *)

Section bits.
Variable bm : list Z.
Hypothesis Hok : bytes_ok bm.

Lemma bitmap_set_ok f :
  0 <= f < 8 * Z.of_nat (length bm) ->
  exists bm', bitmap_set f bm = Some bm' /\ bytes_ok bm' /\ length bm' = length bm /\
    forall m, bm_bit bm' m = (m =? f) || bm_bit bm m.
Proof. exact (bm_set_spec bm f Hok). Qed.

Lemma bitmap_clear_ok f :
  0 <= f < 8 * Z.of_nat (length bm) ->
  exists bm', bitmap_clear f bm = Some bm' /\ bytes_ok bm' /\ length bm' = length bm /\
    forall m, bm_bit bm' m = negb (m =? f) && bm_bit bm m.
Proof. exact (bm_clear_spec bm f Hok). Qed.

Lemma bitmap_test_ok f :
  0 <= f < 8 * Z.of_nat (length bm) ->
  bitmap_test f bm = Some (if bm_bit bm f then 1 else 0).
Proof.
  intros Hf. destruct (aget_is_Some bm (f / 8)) as [b Hb]; [by apply div8_range|].
  unfold bitmap_test, bm_bit. rewrite Hb. cbn.
  rewrite shr_land1; [done|]. apply Z.mod_pos_bound. lia.
Qed.

Lemma clear_range_ok lo hi :
  0 <= lo -> hi <= 8 * Z.of_nat (length bm) ->
  exists bm', for_do lo hi bitmap_clear bm = Some bm' /\ bytes_ok bm' /\
    length bm' = length bm /\
    forall m, bm_bit bm' m = if (lo <=? m) && (m <? hi) then false else bm_bit bm m.
Proof.
  intros. apply (bm_range_rule bitmap_clear (fun _ _ => false)); auto.
  intros n bm0 Hbm0 Hl Hn. destruct (bm_clear_spec bm0 n) as (bm' & ? & ? & ? & Hb);
    [done|rewrite Hl; lia|].
  exists bm'. repeat split; auto. intros m. rewrite Hb. by destruct (m =? n).
Qed.

Lemma set_range_ok lo hi :
  0 <= lo -> hi <= 8 * Z.of_nat (length bm) ->
  exists bm', for_do lo hi bitmap_set bm = Some bm' /\ bytes_ok bm' /\
    length bm' = length bm /\
    forall m, bm_bit bm' m = if (lo <=? m) && (m <? hi) then true else bm_bit bm m.
Proof.
  intros. apply (bm_range_rule bitmap_set (fun _ _ => true)); auto.
  intros n bm0 Hbm0 Hl Hn. destruct (bm_set_spec bm0 n) as (bm' & ? & ? & ? & Hb);
    [done|rewrite Hl; lia|].
  by exists bm'.
Qed.

(** The counting loop of [init_pmm]. *)
Lemma count_loop_ok total :
  0 <= total -> total <= 8 * Z.of_nat (length bm) -> total < 4294967296 ->
  for_do 0 total (fun f used =>
    t ← bitmap_test f bm; Some (if t =? 0 then used else u32 (used + 1))) 0
  = Some (count (bm_bit bm) 0 total).
Proof.
  intros H0 Hl Ht.
  destruct (for_do_rule (fun i used => used = count (bm_bit bm) 0 i) 0 total
    (fun f used => t ← bitmap_test f bm; Some (if t =? 0 then used else u32 (used + 1))) 0)
    as (u & Hu & ->); [done|done| |done].
  intros i s Hi ->. rewrite bitmap_test_ok by lia. cbn. eexists; split; [done|].
  rewrite count_snoc by lia. pose proof (count_bounds (bm_bit bm) 0 i ltac:(lia)).
  destruct (bm_bit bm i); cbn; [apply u32_small; lia|lia].
Qed.
End bits.

(** ** Consequences of the invariant *)

Section invariant.
Variable st : pmm.
Hypothesis Hinv : pmm_inv st.

Lemma inv_bits_length : 8 * Z.of_nat (length (frame_bitmap st)) = MAX_FRAMES.
Proof. rewrite (inv_length st Hinv). done. Qed.

Lemma frame_range f : 0 <= f < total_frames st ->
  0 <= f < 8 * Z.of_nat (length (frame_bitmap st)).
Proof. rewrite inv_bits_length. pose proof (inv_total st Hinv). lia. Qed.

Lemma test_frame f : 0 <= f < total_frames st ->
  bitmap_test f (frame_bitmap st) = Some (if in_use st f then 1 else 0).
Proof. intros. apply bitmap_test_ok, frame_range; done. Qed.

Lemma used_bounds : 0 <= used_frames_count st <= MAX_FRAMES.
Proof.
  rewrite (inv_used st Hinv). pose proof (inv_total st Hinv).
  pose proof (count_bounds (in_use st) 0 (total_frames st)). lia.
Qed.

Lemma free_frame_low f : frame_free st f -> 256 <= f.
Proof.
  intros [Hr Hf]. destruct (Z_lt_ge_dec f 256); [|lia].
  by rewrite (inv_low st Hinv) in Hf by lia.
Qed.

Lemma free_frame_used_lt f : frame_free st f -> used_frames_count st < total_frames st.
Proof.
  intros [Hr Hf]. rewrite (inv_used st Hinv).
  pose proof (count_bounds (in_use st) 0 (total_frames st) ltac:(lia)).
  destruct (Z.eq_dec (count (in_use st) 0 (total_frames st)) (total_frames st)) as [E|]; [|lia].
  rewrite (count_full (in_use st) 0 (total_frames st)) in Hf by lia. done.
Qed.

(** Taking one free frame: the step shared by the two allocators. *)
Lemma take_frame f :
  frame_free st f ->
  exists bm, bitmap_set f (frame_bitmap st) = Some bm /\
    let st' := set_used (u32 (used_frames_count st + 1)) (set_bitmap bm st) in
    pmm_inv st' /\ frames_set st st' f (f + 1) true /\
    used_frames_count st' = used_frames_count st + 1.
Proof.
  intros Hfree. destruct (Hfree) as [Hr Hf].
  destruct (bitmap_set_ok _ (inv_bytes st Hinv) f (frame_range f Hr))
    as (bm & Hs & Hb & Hl & Hbit).
  exists bm. split; [done|]. cbn zeta.
  pose proof used_bounds. pose proof (inv_total st Hinv). unfold MAX_FRAMES in *.
  rewrite u32_small by lia.
  assert (frames_set st (set_used (used_frames_count st + 1) (set_bitmap bm st))
            f (f + 1) true) as Hset.
  { repeat split. intros m. unfold in_use; cbn. rewrite Hbit.
    destruct (Z.eqb_spec m f), (Z.leb_spec f m), (Z.ltb_spec m (f + 1)); cbn; auto; lia. }
  split; [|done]. destruct Hset as (_ & _ & Hset). constructor; cbn; auto.
  - by rewrite Hl, (inv_length st Hinv).
  - symmetry. rewrite (count_flip _ (in_use st) _ _ f); auto.
    + by rewrite (inv_used st Hinv).
    + rewrite Hset. by rewrite (proj2 (Z.leb_le _ _)), (proj2 (Z.ltb_lt _ _)) by lia.
    + intros i ? ?. rewrite Hset.
      destruct (Z.leb_spec f i), (Z.ltb_spec i (f + 1)); cbn; auto; lia.
  - intros i Hi. rewrite Hset. case_if; [done|]. by apply (inv_low st Hinv).
Qed.
End invariant.

(** Clearing one frame that is in use and not reserved. *)
Lemma release_frame st f :
  pmm_inv st -> 256 <= f < total_frames st -> in_use st f = true ->
  exists bm, bitmap_clear f (frame_bitmap st) = Some bm /\
    let st' := set_used (u32 (used_frames_count st - 1)) (set_bitmap bm st) in
    pmm_inv st' /\ frames_set st st' f (f + 1) false /\
    used_frames_count st' = used_frames_count st - 1.
Proof.
  intros Hinv Hr Hf.
  destruct (bitmap_clear_ok _ (inv_bytes st Hinv) f) as (bm & Hs & Hb & Hl & Hbit).
  { apply frame_range; [done|lia]. }
  exists bm. split; [done|]. cbn zeta.
  assert (Hset : forall n, frames_set st (set_used n (set_bitmap bm st)) f (f + 1) false).
  { intros n. repeat split. intros m. unfold in_use; cbn. rewrite Hbit.
    destruct (Z.eqb_spec m f), (Z.leb_spec f m), (Z.ltb_spec m (f + 1)); cbn; auto; lia. }
  assert (Hc : used_frames_count st
    = count (in_use (set_used (u32 (used_frames_count st - 1)) (set_bitmap bm st)))
        0 (total_frames st) + 1).
  { destruct (Hset (u32 (used_frames_count st - 1))) as (_ & _ & Hs').
    rewrite (inv_used st Hinv) at 1. apply (count_flip _ _ _ _ f); auto; try lia.
    - rewrite Hs'. by rewrite (proj2 (Z.leb_le _ _)), (proj2 (Z.ltb_lt _ _)) by lia.
    - intros i ? ?. rewrite Hs'.
      destruct (Z.leb_spec f i), (Z.ltb_spec i (f + 1)); cbn; auto; lia. }
  pose proof (used_bounds st Hinv) as Hu. unfold MAX_FRAMES in Hu.
  match type of Hc with _ = count ?p ?a ?b + 1 => pose proof (count_bounds p a b ltac:(lia)) end.
  rewrite u32_small in * by lia. split; [|done].
  assert (Hc' := Zplus_minus_eq _ _ _ (eq_trans Hc (Z.add_comm _ _))).
  constructor; cbn; auto.
  - by rewrite Hl, (inv_length st Hinv).
  - apply (inv_total st Hinv).
  - intros i Hi. destruct (Hset (used_frames_count st - 1)) as (_ & _ & Hs').
    rewrite Hs'. case_if; [lia|]. by apply (inv_low st Hinv).
Qed.

(** *** [alloc_frame] *)

Lemma alloc_frame_ok st :
  pmm_inv st ->
  exists r st', alloc_frame st = Some (r, st') /\ pmm_inv st' /\
    ((exists f, r = f * FRAME_SIZE /\ frame_free st f /\ f < 262144 /\
        (forall g, frame_free st g -> f <= g) /\
        frames_set st st' f (f + 1) true /\
        used_frames_count st' = used_frames_count st + 1) \/
     (r = 0 /\ st' = st /\ forall g, frame_free st g -> 262144 <= g)).
Proof.
  intros Hinv. unfold alloc_frame.
  set (lim := if 262144 <? total_frames st then 262144 else total_frames st).
  pose proof (inv_total st Hinv) as Ht.
  assert (Hlim : 0 <= lim <= total_frames st /\ lim <= 262144 /\
            (lim < 262144 -> lim = total_frames st))
    by (subst lim; destruct (Z.ltb_spec 262144 (total_frames st)); lia).
  match goal with |- context [for_ret 0 lim ?b st] => set (body := b) end.
  assert (Hrule : match for_ret 0 lim body st with
    | Some (Next s) => s = st /\ forall g, 0 <= g < lim -> in_use st g = true
    | Some (Ret (r, st')) => pmm_inv st' /\ exists f, r = f * FRAME_SIZE /\ frame_free st f /\
        f < 262144 /\ (forall g, frame_free st g -> f <= g) /\
        frames_set st st' f (f + 1) true /\
        used_frames_count st' = used_frames_count st + 1
    | None => False
    end).
  { apply (for_ret_rule (fun i s => s = st /\ forall g, 0 <= g < i -> in_use st g = true)
             (fun '(r, st') => _)); [lia|split; [done|lia]|].
    intros i s Hi [-> Hall]. unfold body. rewrite test_frame by (done || lia). cbn.
    destruct (in_use st i) eqn:Ei; cbn.
    { split; [done|]. intros g Hg. destruct (Z.eq_dec g i); [subst; done|apply Hall; lia]. }
    destruct (take_frame st Hinv i) as (bm & -> & ? & ? & ?); [split; [lia|done]|]. cbn.
    split; [done|]. exists i. split_and!; auto; try lia.
    - unfold FRAME_SIZE. apply u32_small. lia.
    - split; [lia|done].
    - intros g [Hg Hf]. destruct (Z_lt_ge_dec g i); [|lia]. by rewrite Hall in Hf by lia. }
  destruct (for_ret 0 lim body st) as [[s'|[r st']]|]; [| |done]; cbn.
  - destruct Hrule as [-> Hall]. exists 0, st. split_and!; auto. right. split_and!; auto.
    intros g [Hg Hf]. destruct (Z_lt_ge_dec g lim); [|lia]. by rewrite Hall in Hf by lia.
  - destruct Hrule as [Hi (f & ?)]. exists r, st'. eauto 10.
Qed.

(** ** Properties *)

(** C16 (alloc_frame): under the invariant the allocator always returns; it
    hands out the lowest free frame below the 1 GB limit, marks exactly that
    frame and bumps the counter, or returns 0 with the state unchanged exactly
    when no frame below the limit is free. *)
Theorem alloc_frame_first_fit st :
  pmm_inv st ->
  exists r st', alloc_frame st = Some (r, st') /\ pmm_inv st' /\
    ((exists f, r = f * FRAME_SIZE /\ frame_free st f /\ f < 262144 /\
        (forall g, frame_free st g -> f <= g) /\
        frames_set st st' f (f + 1) true /\
        used_frames_count st' = used_frames_count st + 1) \/
     (r = 0 /\ st' = st /\ forall g, frame_free st g -> 262144 <= g)).
Proof. apply alloc_frame_ok. Qed.

(** (free_frame): releasing the frame [alloc_frame] just returned gives back
    the very same allocator state, bitmap bytes and counter included. *)
Theorem alloc_free_roundtrip st r st' :
  pmm_inv st -> alloc_frame st = Some (r, st') -> r <> 0 -> free_frame r st' = Some st.
Proof.
  intros Hinv Ha Hr.
  destruct (alloc_frame_ok st Hinv) as (r0 & st0 & Ha' & Hinv' & Hcase).
  rewrite Ha in Ha'. injection Ha' as <- <-.
  destruct Hcase as [(f & -> & Hfree & Hlt & _ & (Ht & Hk & Hset) & Hu)|[? _]]; [|done].
  pose proof (free_frame_low st Hinv f Hfree). destruct Hfree as [Hf Hff].
  destruct (release_frame st' f Hinv') as (bm & Hc & Hinv'' & (Ht' & Hk' & Hset') & Hu');
    [lia|rewrite Hset; by rewrite (proj2 (Z.leb_le _ _)), (proj2 (Z.ltb_lt _ _)) by lia|].
  unfold free_frame, FRAME_SIZE. rewrite Z.div_mul, Ht by lia.
  rewrite (proj2 (Z.ltb_lt _ _)) by lia. rewrite test_frame by (done || lia).
  rewrite Hset, (proj2 (Z.leb_le _ _)), (proj2 (Z.ltb_lt _ _)) by lia. cbn. rewrite Hc. cbn.
  f_equal. destruct st as [bm0 tot used kb], st' as [bm1 tot1 used1 kb1]; cbn in *. subst.
  unfold set_used, set_bitmap in *; cbn in *. f_equal; [|lia].
  apply bm_ext.
  - apply (inv_bytes _ Hinv'').
  - apply (inv_bytes _ Hinv).
  - pose proof (inv_length _ Hinv''); pose proof (inv_length _ Hinv). cbn in *. lia.
  - intros n _. unfold in_use in *; cbn in *. rewrite Hset', Hset.
    destruct (Z.leb_spec f n), (Z.ltb_spec n (f + 1)); cbn; auto.
    by replace n with f by lia.
Qed.

(** Double release is harmless: the second call finds the bit clear. *)
Lemma free_frame_spec addr st :
  pmm_inv st -> 256 * FRAME_SIZE <= addr ->
  exists st', free_frame addr st = Some st' /\ pmm_inv st' /\
    (if bool_decide (addr / FRAME_SIZE < total_frames st)
     then frames_set st st' (addr / FRAME_SIZE) (addr / FRAME_SIZE + 1) false
     else st' = st).
Proof.
  intros Hinv Ha. unfold free_frame.
  assert (Hf : 256 <= addr / FRAME_SIZE)
    by (unfold FRAME_SIZE in *; apply Z.div_le_lower_bound; lia).
  case_bool_decide as Hlt; [rewrite (proj2 (Z.ltb_lt _ _)) by lia|
    rewrite (proj2 (Z.ltb_ge _ _)) by lia; eauto].
  rewrite test_frame by (done || lia). cbn.
  destruct (in_use st (addr / FRAME_SIZE)) eqn:E; cbn.
  - destruct (release_frame st _ Hinv (conj Hf Hlt) E) as (bm & -> & ? & ? & ?). cbn. eauto.
  - exists st. unfold frames_set. split_and!; auto. intros g.
    destruct (Z.leb_spec (addr / FRAME_SIZE) g), (Z.ltb_spec g (addr / FRAME_SIZE + 1));
      cbn; auto. by replace g with (addr / FRAME_SIZE) by lia.
Qed.

(** A run of [n] frames free in [st] starting at [f]. *)
Definition free_run (st : pmm) (f n : Z) : Prop := forall g, f <= g < f + n -> frame_free st g.

Lemma take_frames_ok st start n :
  pmm_inv st -> 0 < n -> 0 <= start -> free_run st start n ->
  exists st', take_frames start n st = Some st' /\ pmm_inv st' /\
    frames_set st st' start (start + n) true /\
    used_frames_count st' = used_frames_count st + n.
Proof.
  intros Hinv Hn Hs Hrun. unfold take_frames.
  assert (Hend : start + n <= total_frames st) by
    (destruct (Hrun (start + n - 1)) as [? _]; lia).
  pose proof (inv_total st Hinv) as Ht. unfold MAX_FRAMES in Ht. rewrite u32_small by lia.
  match goal with |- context [for_do start _ ?b st] => set (body := b) end.
  destruct (for_do_rule (fun i s => pmm_inv s /\ frames_set st s start i true /\
      used_frames_count s = used_frames_count st + (i - start)) start (start + n) body st)
    as (st' & Hr & ? & ? & ?); [lia| | |exists st'; split_and!; auto; lia].
  - unfold frames_set. split_and!; auto; [|lia]. intros f.
    destruct (Z.leb_spec start f), (Z.ltb_spec f start); cbn; auto; lia.
  - intros i s Hi (Hs' & (Ht' & Hk' & Hset) & Hu).
    destruct (take_frame s Hs' i) as (bm & Hb & ? & (? & ? & Hset2) & Hu2).
    { destruct (Hrun i ltac:(lia)) as [Hr Hf]. split; [by rewrite Ht'|].
      rewrite Hset. case_if; [lia|done]. }
    unfold body. rewrite Hb. cbn. eexists; split; [done|].
    split; [done|]. split; [unfold frames_set|cbn in *; lia].
    split_and!; [congruence|congruence|]. intros f. rewrite Hset2, Hset.
    destruct (Z.leb_spec i f), (Z.ltb_spec f (i + 1)), (Z.leb_spec start f),
      (Z.ltb_spec f i); cbn; auto; lia.
Qed.

(** (alloc_contiguous_frames): for a positive count the search always
    returns; a non-zero result is the start of a run of exactly [count] frames
    that were free and are now the only change, and the result is 0 with the
    state unchanged only when no such run exists. *)
Theorem alloc_contiguous_spec count st :
  pmm_inv st -> 0 < count ->
  exists r st', alloc_contiguous_frames count st = Some (r, st') /\ pmm_inv st' /\
    ((exists f, r = f * FRAME_SIZE /\ free_run st f count /\
        frames_set st st' f (f + count) true /\
        used_frames_count st' = used_frames_count st + count) \/
     (r = 0 /\ st' = st /\ forall f, ~ free_run st f count)).
Proof.
  intros Hinv Hc. unfold alloc_contiguous_frames.
  pose proof (inv_total st Hinv) as Ht. unfold MAX_FRAMES in Ht.
  match goal with |- context [for_ret 0 _ ?b (0, 0)] => set (body := b) end.
  assert (Hrule : match for_ret 0 (total_frames st) body (0, 0) with
    | Some (Next _) => forall f, ~ free_run st f count
    | Some (Ret (r, st')) => pmm_inv st' /\ exists f, r = f * FRAME_SIZE /\
        free_run st f count /\ frames_set st st' f (f + count) true /\
        used_frames_count st' = used_frames_count st + count
    | None => False
    end).
  { pose (P := fun i (cs : Z * Z) => let '(c, s) := cs in
      0 <= c < count /\ c <= i /\ (c <> 0 -> s = i - c) /\
      (forall g, i - c <= g < i -> frame_free st g) /\
      (forall f, free_run st f count -> i - c <= f)).
    match goal with |- match ?l with _ => _ end =>
      enough (He : match l with
        | Some (Next s) => P (total_frames st) s
        | Some (Ret (r, st')) => pmm_inv st' /\ exists f, r = f * FRAME_SIZE /\
            free_run st f count /\ frames_set st st' f (f + count) true /\
            used_frames_count st' = used_frames_count st + count
        | None => False end) end.
    { destruct (for_ret _ _ _ _) as [[[c s]|[r st']]|]; auto.
      destruct He as (? & ? & ? & ? & Hno). intros f Hf. pose proof (Hno f Hf).
      destruct (Hf (f + count - 1)); lia. }
    apply (for_ret_rule P (fun '(r, st') => _)); [lia| |].
    { unfold P. split_and!; try lia. intros f Hf. destruct (Hf f); lia. }
    intros i [c s] Hi (Hcr & Hci & Hs & Hrun & Hno). unfold body.
    rewrite test_frame by (done || lia). cbn. destruct (in_use st i) eqn:Ei; cbn.
    { split_and!; try lia. intros f Hf. pose proof (Hno f Hf).
      destruct (Z_lt_ge_dec i f); [lia|].
      destruct (Hf i ltac:(lia)) as [_ Hx]. congruence. }
    assert (Hs' : (if c =? 0 then i else s) = i - c) by (destruct (Z.eqb_spec c 0); lia).
    rewrite Hs'.
    assert (Hrun' : forall g, i - c <= g < i + 1 -> frame_free st g).
    { intros g Hg. destruct (Z.eq_dec g i) as [->|]; [split; [lia|done]|apply Hrun; lia]. }
    destruct (Z.eqb_spec (c + 1) count) as [E|E].
    - destruct (take_frames_ok st (i - c) count Hinv Hc) as (st' & -> & ? & ? & ?);
        [lia|intros g Hg; apply Hrun'; lia|]. cbn.
      split; [done|]. exists (i - c). split_and!; auto.
      + unfold FRAME_SIZE. apply u32_small. lia.
      + intros g Hg. apply Hrun'. lia.
    - unfold P. split_and!; try lia; [intros g Hg; apply Hrun'; lia|].
      intros f Hf. pose proof (Hno f Hf). lia. }
  destruct (for_ret _ _ body _) as [[s'|[r st']]|]; [| |done]; cbn.
  - exists 0, st. split_and!; auto.
  - destruct Hrule as [Hi (f & ?)]. exists r, st'. eauto 10.
Qed.

(** ** Start-up *)

(** The memory map at [addr .. end_ - 1], decoded: what a firmware that follows
    the multiboot format leaves in memory. *)
Fixpoint mmap_at (mem : Z -> Z) (addr end_ : Z) (es : list mmap_entry) : Prop :=
  match es with
  | [] => end_ <= addr
  | e :: es' =>
      addr < end_ /\ read_entry mem addr = e /\ 0 <= e_size e /\
      addr + (e_size e + 4) < 2 ^ 32 /\ mmap_at mem (addr + (e_size e + 4)) end_ es'
  end.

Definition covers (e : mmap_entry) (f : Z) : bool :=
  entry_usable e && (frame_start e <=? f) && (f <? frame_end e).

Lemma mmap_at_length mem addr end_ es :
  mmap_at mem addr end_ es -> Z.of_nat (length es) <= Z.max 0 (end_ - addr).
Proof.
  revert addr. induction es as [|e es IH]; intros addr; cbn; [lia|].
  intros (? & _ & ? & _ & H). specialize (IH _ H). lia.
Qed.

Lemma frame_start_nonneg e : 0 <= frame_start e.
Proof. apply Z.div_pos; [apply u32_range|done]. Qed.

Lemma mmap_step_ok total e bm :
  bytes_ok bm -> total <= 8 * Z.of_nat (length bm) ->
  exists bm', mmap_step total e bm = Some bm' /\ bytes_ok bm' /\ length bm' = length bm /\
    forall f, f < total -> bm_bit bm' f = negb (covers e f) && bm_bit bm f.
Proof.
  intros Hok Ht. unfold mmap_step, covers. destruct (entry_usable e); cbn; [|by eauto].
  destruct (clear_range_ok bm Hok (frame_start e) (Z.min (frame_end e) total))
    as (bm' & ? & ? & ? & Hb); [apply frame_start_nonneg|lia|].
  exists bm'. split_and!; auto. intros f Hf. rewrite Hb.
  destruct (Z.leb_spec (frame_start e) f), (Z.ltb_spec f (frame_end e)),
    (Z.ltb_spec f (Z.min (frame_end e) total)); cbn; auto; lia.
Qed.

Lemma mmap_loop_ok mem total es fuel addr end_ bm :
  mmap_at mem addr end_ es -> (length es <= fuel)%nat -> 0 <= addr ->
  bytes_ok bm -> total <= 8 * Z.of_nat (length bm) ->
  exists bm', mmap_loop mem fuel total addr end_ bm = Some bm' /\ bytes_ok bm' /\
    length bm' = length bm /\
    forall f, f < total ->
      bm_bit bm' f = negb (existsb (fun e => covers e f) es) && bm_bit bm f.
Proof.
  revert fuel addr bm. induction es as [|e es IH]; intros fuel addr bm Hm Hl Ha Hok Ht; cbn in Hm.
  - exists bm. split_and!; auto. destruct fuel; cbn; by rewrite (proj2 (Z.ltb_ge _ _)) by lia.
  - destruct Hm as (Hlt & He & Hs & Hn & Hm). destruct fuel as [|fuel]; cbn in Hl; [lia|].
    cbn [mmap_loop]. rewrite (proj2 (Z.ltb_lt _ _)) by lia. cbn zeta. rewrite He.
    destruct (mmap_step_ok total e bm Hok Ht) as (bm1 & -> & Hok1 & Hl1 & Hb1).
    cbn [mbind option_bind]. rewrite u32_small by lia.
    destruct (IH fuel _ bm1 Hm) as (bm2 & -> & ? & ? & Hb2); [lia|lia|done|by rewrite Hl1|].
    exists bm2. split_and!; [done..|congruence|]. intros f Hf.
    rewrite Hb2, Hb1 by done. cbn. by destruct (covers e f), (existsb _ es).
Qed.

Lemma bm_bit_replicate n f :
  0 <= f < 8 * Z.of_nat n -> bm_bit (replicate n 0xFF) f = true.
Proof.
  intros Hf. unfold bm_bit. pose proof (div8_range f (Z.of_nat n) Hf).
  rewrite aget_pos, lookup_replicate_2 by lia.
  change 0xFF with (Z.ones 8). apply Z.ones_spec_low.
  pose proof (Z.mod_pos_bound f 8). lia.
Qed.

(** The frames the boot information makes available. *)
Definition boot_available (mbi : multiboot_info) (es : list mmap_entry) (f : Z) : bool :=
  if Z.land (mb_flags mbi) MB_FLAG_MMAP =? 0
  then (256 <=? f) && (f <? u32 (256 + mem_upper mbi / 4))
  else existsb (fun e => covers e f) es.

Definition boot_total (mbi : multiboot_info) (st : pmm) : Z :=
  Z.min MAX_FRAMES
    ((if Z.land (mb_flags mbi) MB_FLAG_MEM =? 0 then total_memory_kb st
      else u32 (mem_lower mbi + mem_upper mbi + 1024)) / 4).

(** Step 3 of [init_pmm], on either branch. *)
Lemma init_free_regions_ok mem mbi es total bm :
  bytes_ok bm -> total <= 8 * Z.of_nat (length bm) ->
  (Z.land (mb_flags mbi) MB_FLAG_MMAP <> 0 ->
     0 <= mmap_length mbi /\ 0 <= mmap_addr mbi /\
     mmap_addr mbi + 0xC0000000 + mmap_length mbi < 2 ^ 32 /\
     mmap_at mem (mmap_addr mbi + 0xC0000000)
       (mmap_addr mbi + 0xC0000000 + mmap_length mbi) es) ->
  exists bm',
    (if Z.land (mb_flags mbi) MB_FLAG_MMAP =? 0
     then for_do (0x100000 / FRAME_SIZE)
            (Z.min (u32 (0x100000 / FRAME_SIZE + mem_upper mbi / 4)) total) bitmap_clear bm
     else mmap_loop mem (Z.to_nat (mmap_length mbi)) total
            (u32 (mmap_addr mbi + 0xC0000000))
            (u32 (u32 (mmap_addr mbi + 0xC0000000) + mmap_length mbi)) bm) = Some bm' /\
    bytes_ok bm' /\ length bm' = length bm /\
    forall f, f < total -> bm_bit bm' f = negb (boot_available mbi es f) && bm_bit bm f.
Proof.
  intros Hok Ht Hm. unfold boot_available.
  destruct (Z.eqb_spec (Z.land (mb_flags mbi) MB_FLAG_MMAP) 0) as [E|E].
  - change (0x100000 / FRAME_SIZE) with 256.
    destruct (clear_range_ok bm Hok 256 (Z.min (u32 (256 + mem_upper mbi / 4)) total))
      as (bm' & ? & ? & ? & Hb); [lia|lia|].
    exists bm'. split_and!; auto. intros f Hf. rewrite Hb.
    destruct (Z.leb_spec 256 f), (Z.ltb_spec f (u32 (256 + mem_upper mbi / 4))),
      (Z.ltb_spec f (Z.min (u32 (256 + mem_upper mbi / 4)) total)); cbn; auto; lia.
  - destruct (Hm E) as (? & ? & ? & Hat). rewrite !u32_small by (rewrite ?u32_small; lia).
    apply mmap_loop_ok; auto; [|lia]. pose proof (mmap_at_length _ _ _ _ Hat). lia.
Qed.

(** (init_pmm): whatever memory map the boot loader hands over, start-up
    terminates, establishes the allocator invariant, and leaves free exactly
    the frames that the map (or the [mem_upper] fallback) makes available, less
    the first megabyte and the frames of the kernel image. *)
Theorem init_pmm_spec kernel_start kernel_end mem mbi es st :
  Z.of_nat (length (frame_bitmap st)) = MAX_FRAMES / 8 ->
  0 <= total_memory_kb st < 2 ^ 32 ->
  (Z.land (mb_flags mbi) MB_FLAG_MMAP <> 0 ->
     0 <= mmap_length mbi /\ 0 <= mmap_addr mbi /\
     mmap_addr mbi + 0xC0000000 + mmap_length mbi < 2 ^ 32 /\
     mmap_at mem (mmap_addr mbi + 0xC0000000)
       (mmap_addr mbi + 0xC0000000 + mmap_length mbi) es) ->
  exists st', init_pmm kernel_start kernel_end mem mbi st = Some st' /\
    pmm_inv st' /\ total_frames st' = boot_total mbi st /\
    forall f, frame_free st' f <->
      256 <= f < boot_total mbi st /\ boot_available mbi es f = true /\
      ~ (ks_frame kernel_start <= f < ke_frame kernel_end).
Proof.
  intros Hlen Hkb Hm. unfold init_pmm.
  set (total_kb := if _ =? 0 then total_memory_kb st else _).
  set (total := if MAX_FRAMES <? total_kb / 4 then _ else _).
  assert (Ht : total = boot_total mbi st /\ 0 <= total <= MAX_FRAMES).
  { assert (0 <= total_kb).
    { subst total_kb. case_if; [lia|].
      pose proof (u32_range (mem_lower mbi + mem_upper mbi + 1024)). lia. }
    assert (0 <= total_kb / 4) by (apply Z.div_pos; lia).
    unfold boot_total. fold total_kb. subst total.
    destruct (Z.ltb_spec MAX_FRAMES (total_kb / 4)); unfold MAX_FRAMES in *; lia. }
  destruct Ht as [Hteq Ht]. clearbody total. unfold MAX_FRAMES in Ht, Hlen.
  assert (Hl8 : 8 * Z.of_nat (length (frame_bitmap st)) = 1048576)
    by (rewrite Hlen; done).
  set (n := length (frame_bitmap st)) in *.
  destruct (init_free_regions_ok mem mbi es total (replicate n 0xFF)) as (bm1 & H1 & Hok1 & Hl1 & Hb1);
    [by apply Forall_replicate|rewrite length_replicate; lia|done|].
  rewrite length_replicate in Hl1. cbn zeta. rewrite H1. cbn.
  destruct (set_range_ok bm1 Hok1 0 256) as (bm2 & -> & Hok2 & Hl2 & Hb2); [lia|rewrite Hl1; lia|].
  cbn.
  destruct (set_range_ok bm2 Hok2 (ks_frame kernel_start) (Z.min (ke_frame kernel_end) total))
    as (bm3 & -> & Hok3 & Hl3 & Hb3);
    [apply Z.div_pos; [apply u32_range|done]|rewrite Hl2, Hl1; lia|].
  cbn. rewrite count_loop_ok by (auto; rewrite ?Hl3, ?Hl2, ?Hl1; lia). cbn.
  eexists; split; [done|]. split; [|split; [done|]].
  - constructor; cbn; unfold MAX_FRAMES; auto; [by rewrite Hl3, Hl2, Hl1|].
    intros f Hf. unfold in_use; cbn. rewrite Hb3, Hb2. case_if; [done|]. case_if; [done|lia].
  - intros f. unfold frame_free, in_use; cbn. rewrite Hb3, Hb2, <- Hteq. split.
    + intros [Hf Hu]. case_if_in Hu; [done|]. case_if_in Hu; [done|].
      rewrite Hb1, bm_bit_replicate in Hu by lia.
      destruct (boot_available mbi es f); [|done]. split_and!; auto; lia.
    + intros (Hf & Hav & Hk). split; [lia|].
      rewrite (proj2 (Z.ltb_ge _ 256)) by lia. rewrite andb_false_r.
      case_if; [lia|]. rewrite Hb1, Hav by lia. done.
Qed.

(** ** Witnesses *)

(** A machine with 4 MB: the 256 frames of the first megabyte are reserved. *)
Definition sample_bitmap : list Z :=
  replicate 32 255 ++ replicate (Z.to_nat (MAX_FRAMES / 8) - 32)%nat 0.
Definition sample_pmm : pmm := Pmm sample_bitmap 1024 256 4096.

Lemma sample_low f : 0 <= f < 256 -> in_use sample_pmm f = true.
Proof.
  intros Hf.
  assert (H : forallb (fun n => in_use sample_pmm (Z.of_nat n)) (seq 0 256) = true)
    by (vm_compute; reflexivity).
  rewrite forallb_forall in H. specialize (H (Z.to_nat f)).
  rewrite Z2Nat.id in H by lia. apply H, in_seq. lia.
Qed.

Lemma sample_inv : pmm_inv sample_pmm.
Proof.
  constructor.
  - apply Forall_app; split; apply Forall_replicate; unfold byte_ok; lia.
  - vm_compute. reflexivity.
  - vm_compute. split; discriminate.
  - vm_compute. reflexivity.
  - exact sample_low.
Qed.

Lemma alloc_frame_first_fit_witness :
  exists r st', alloc_frame sample_pmm = Some (r, st') /\ r = 0x100000.
Proof.
  destruct (alloc_frame_first_fit sample_pmm sample_inv) as (r & st' & Ha & _).
  exists r, st'. split; [exact Ha|].
  assert (Hr : (fst <$> alloc_frame sample_pmm) = Some 0x100000)
    by (vm_compute; reflexivity).
  rewrite Ha in Hr. by injection Hr.
Defined.

Lemma alloc_free_roundtrip_witness :
  exists st', alloc_frame sample_pmm = Some (0x100000, st') /\
    free_frame 0x100000 st' = Some sample_pmm.
Proof.
  destruct (alloc_frame sample_pmm) as [[r st']|] eqn:E.
  - assert (Hr : (fst <$> alloc_frame sample_pmm) = Some 0x100000) by (vm_compute; reflexivity).
    rewrite E in Hr. injection Hr as ->. exists st'. split; [done|].
    apply (alloc_free_roundtrip sample_pmm 0x100000 st' sample_inv E). done.
  - exfalso. assert (Hr : (fst <$> alloc_frame sample_pmm) = Some 0x100000)
      by (vm_compute; reflexivity). by rewrite E in Hr.
Defined.

Lemma alloc_contiguous_spec_witness :
  exists r st', alloc_contiguous_frames 16 sample_pmm = Some (r, st') /\ pmm_inv st'.
Proof.
  destruct (alloc_contiguous_spec 16 sample_pmm sample_inv) as (r & st' & Ha & Hi & _); [lia|].
  exists r, st'. by split.
Defined.

(** Boot on a machine whose map holds one entry, 1 MB .. 16 MB, at 0x9000. *)
Definition sample_mem (a : Z) : Z :=
  let entry := [20; 0; 0; 0;  0; 0; 0x10; 0;  0; 0; 0; 0;  0; 0; 0xF0; 0;
                0; 0; 0; 0;  1; 0; 0; 0] in
  default 0 (entry !! Z.to_nat (a - 0xC0009000)).
Definition sample_mbi : multiboot_info := Mbi 0x41 639 15360 24 0x9000.
Definition cold_pmm : pmm := Pmm (replicate (Z.to_nat (MAX_FRAMES / 8)) 0) 0 0 0.

Lemma init_pmm_spec_witness :
  exists st', init_pmm 0xC0100000 0xC0180000 sample_mem sample_mbi cold_pmm = Some st' /\
    pmm_inv st' /\ total_frames st' = 4255.
Proof.
  destruct (init_pmm_spec 0xC0100000 0xC0180000 sample_mem sample_mbi
    [MmapEntry 20 0x100000 0 0xF00000 0 1] cold_pmm) as (st' & Hi & Hinv & Ht & _).
  - vm_compute. reflexivity.
  - cbn. lia.
  - intros _. vm_compute. split_and!; try done; discriminate.
  - exists st'. split; [exact Hi|]. split; [exact Hinv|]. rewrite Ht. vm_compute. reflexivity.
Defined.
