(* ===== verification/Spinlock.v ===== *)
(** * Spinlock: interrupt control and the kernel's "spinlock"
    (include/spinlock.h)

    On one core the lock only saves EFLAGS and disables interrupts.  The EFLAGS
    register is part of the state of every component that uses it. *)

From S2P Require Export Prelude.

(** Bit 9 of EFLAGS: interrupts enabled. *)
Definition IF_BIT : Z := 9.
Definition interrupts_on (eflags : Z) : bool := Z.testbit eflags IF_BIT.
Definition cli (eflags : Z) : Z := Z.clearbit eflags IF_BIT.

(** [irq_save] returns the old EFLAGS; the second component is the new one. *)
Definition irq_save (eflags : Z) : Z * Z := (eflags, cli eflags).

(** [irq_restore]: [popfl] of the saved value. *)
Definition irq_restore (flags : Z) : Z := flags.

Record spinlock_t := Spinlock { locked : Z; sl_flags : Z }.

Definition SPINLOCK_INIT : spinlock_t := Spinlock 0 0.

Definition spin_lock (lock : spinlock_t) (eflags : Z) : spinlock_t * Z :=
  let '(flags, eflags) := irq_save eflags in (Spinlock 1 flags, eflags).

Definition spin_unlock (lock : spinlock_t) (eflags : Z) : spinlock_t * Z :=
  (Spinlock 0 (sl_flags lock), irq_restore (sl_flags lock)).

Lemma spin_lock_disables lock eflags : interrupts_on (snd (spin_lock lock eflags)) = false.
Proof. exact (Z.clearbit_eq eflags IF_BIT). Qed.

(** A lock/unlock pair with no lock in between gives back EFLAGS. *)
Lemma spin_pair lock eflags :
  let '(lock, ef) := spin_lock lock eflags in
  spin_unlock lock ef = (Spinlock 0 eflags, eflags).
Proof. done. Qed.

(** Taking the lock again inside the section overwrites the saved EFLAGS, so
    the outer unlock leaves interrupts off. *)
Lemma spin_nested lock eflags :
  let '(lock, ef) := spin_lock lock eflags in
  let '(lock, ef) := spin_lock lock ef in
  let '(lock, ef) := spin_unlock lock ef in
  let '(lock, ef) := spin_unlock lock ef in
  interrupts_on ef = false.
Proof. exact (Z.clearbit_eq eflags IF_BIT). Qed.
