(* ===== verification/KHeap.v ===== *)
(** * KHeap: the kernel heap (kernel/mm/kheap.c)

    A doubly linked list of block headers laid over a 4 MB static array.  The
    headers live in memory at their address ([hdrs]); a stale header stays in
    memory after a merge, as in C.  The address of the array is chosen by the
    linker and is a parameter.

    The abstract view is the list of blocks in address order; [kmalloc] refines
    first fit with splitting on it and [kfree] refines coalescing. *)

From S2P Require Export Spinlock.

Definition HEAP_SIZE : Z := 4 * 1024 * 1024.

Record heap_header := Hdr {
  h_size : Z;
  h_is_free : Z;
  h_next : Z;
  h_prev : Z
}.

Definition sizeof_heap_header : Z := 16.

Record kheap := Kheap {
  heap_first : Z;
  hdrs : gmap Z heap_header;
  eflags : Z
}.

Definition with_hdrs (m : gmap Z heap_header) (h : kheap) : kheap :=
  Kheap (heap_first h) m (eflags h).
Definition with_eflags (f : Z) (h : kheap) : kheap := Kheap (heap_first h) (hdrs h) f.

(** ** Field accesses through a pointer

    A read through a pointer that never held a header has no result; a write
    may create a header (the split writes one into the middle of a block). *)

Definition size_of (m : gmap Z heap_header) : nat := size m.

Definition get (p : Z) (h : kheap) : option heap_header := hdrs h !! p.

Definition put (p : Z) (f : heap_header -> heap_header) (h : kheap) : kheap :=
  with_hdrs (<[p := f (default (Hdr 0 0 0 0) (hdrs h !! p))]> (hdrs h)) h.

Definition put_size (p v : Z) : kheap -> kheap :=
  put p (fun x => Hdr v (h_is_free x) (h_next x) (h_prev x)).
Definition put_is_free (p v : Z) : kheap -> kheap :=
  put p (fun x => Hdr (h_size x) v (h_next x) (h_prev x)).
Definition put_next (p v : Z) : kheap -> kheap :=
  put p (fun x => Hdr (h_size x) (h_is_free x) v (h_prev x)).
Definition put_prev (p v : Z) : kheap -> kheap :=
  put p (fun x => Hdr (h_size x) (h_is_free x) (h_next x) v).

(** ** The operations *)

Definition init_kheap (heap_space : Z) (h : kheap) : kheap :=
  let h := Kheap heap_space (hdrs h) (eflags h) in
  let h := put_size heap_space HEAP_SIZE h in
  let h := put_is_free heap_space 1 h in
  let h := put_next heap_space 0 h in
  put_prev heap_space 0 h.

Definition aligned_size (size : Z) : Z :=
  if negb (size mod 4 =? 0) then u32 (size + (4 - size mod 4)) else size.

(** The split of the block at [current]. *)
Definition split_block (current total_size : Z) (h : kheap) : option kheap :=
  let new_block := u32 (current + total_size) in
  c ← get current h;
  let h := put_size new_block (u32 (h_size c - total_size)) h in
  let h := put_is_free new_block 1 h in
  let h := put_prev new_block current h in
  c ← get current h;
  let h := put_next new_block (h_next c) h in
  c ← get current h;
  let h := if negb (h_next c =? 0) then put_prev (h_next c) new_block h else h in
  let h := put_next current new_block h in
  Some (put_size current total_size h).

(** [while (current != 0)]; out of fuel on a cyclic list. *)
Fixpoint kmalloc_loop (fuel : nat) (total_size current : Z) (h : kheap) : option (Z * kheap) :=
  if current =? 0 then Some (0, h) else
  match fuel with
  | O => None
  | S fuel' =>
      c ← get current h;
      if negb (h_is_free c =? 0) && (total_size <=? h_size c) then
        h ← (if u32 (total_size + sizeof_heap_header + 4) <? h_size c
             then split_block current total_size h else Some h);
        let h := put_is_free current 0 h in
        Some (u32 (current + sizeof_heap_header), h)
      else kmalloc_loop fuel' total_size (h_next c) h
  end.

Definition kmalloc (size : Z) (h : kheap) : option (Z * kheap) :=
  if size =? 0 then Some (0, h) else
  let total_size := u32 (aligned_size size + sizeof_heap_header) in
  let '(flags, ef) := irq_save (eflags h) in
  let h := with_eflags ef h in
  '(p, h) ← kmalloc_loop (S (size_of (hdrs h))) total_size (heap_first h) h;
  Some (p, with_eflags (irq_restore flags) h).

(** [p != 0 && p->is_free] *)
Definition ptr_is_free (p : Z) (h : kheap) : option bool :=
  if p =? 0 then Some false
  else c ← get p h; Some (negb (h_is_free c =? 0)).

Definition merge_right (block : Z) (h : kheap) : option kheap :=
  b ← get block h;
  f ← ptr_is_free (h_next b) h;
  if (f : bool) then
    n ← get (h_next b) h;
    let h := put_size block (u32 (h_size b + h_size n)) h in
    let h := put_next block (h_next n) h in
    Some (if negb (h_next n =? 0) then put_prev (h_next n) block h else h)
  else Some h.

Definition merge_left (block : Z) (h : kheap) : option kheap :=
  b ← get block h;
  f ← ptr_is_free (h_prev b) h;
  if (f : bool) then
    p ← get (h_prev b) h;
    let h := put_size (h_prev b) (u32 (h_size p + h_size b)) h in
    let h := put_next (h_prev b) (h_next b) h in
    Some (if negb (h_next b =? 0) then put_prev (h_next b) (h_prev b) h else h)
  else Some h.

Definition kfree (ptr : Z) (h : kheap) : option kheap :=
  if ptr =? 0 then Some h else
  let '(flags, ef) := irq_save (eflags h) in
  let h := with_eflags ef h in
  let block := u32 (ptr - sizeof_heap_header) in
  b ← get block h;
  if negb (h_is_free b =? 0) then Some (with_eflags (irq_restore flags) h)
  else
    let h := put_is_free block 1 h in
    h ← merge_right block h;
    h ← merge_left block h;
    Some (with_eflags (irq_restore flags) h).

(** ** The abstract heap: blocks in address order *)

Record block := Blk { b_size : Z; b_free : bool }.

#[export] Instance block_eq_dec : EqDecision block.
Proof. solve_decision. Defined.

Definition free_flag (b : block) : Z := if b_free b then 1 else 0.

Fixpoint total (bs : list block) : Z :=
  match bs with
  | [] => 0
  | b :: bs' => b_size b + total bs'
  end.

(** First fit with splitting, on the block list starting at address [a]. *)
Fixpoint alloc_spec (total_size a : Z) (bs : list block) : option (Z * list block) :=
  match bs with
  | [] => None
  | b :: bs' =>
      if b_free b && (total_size <=? b_size b) then
        Some (a, if total_size + 20 <? b_size b
                 then Blk total_size false :: Blk (b_size b - total_size) true :: bs'
                 else Blk (b_size b) false :: bs')
      else match alloc_spec total_size (a + b_size b) bs' with
           | Some (p, bs'') => Some (p, b :: bs'')
           | None => None
           end
  end.

(** Merge a freed block with a free right neighbour. *)
Definition coalesce (b : block) (bs : list block) : list block :=
  match bs with
  | n :: bs' => if b_free n then Blk (b_size b + b_size n) true :: bs'
                else Blk (b_size b) true :: bs
  | [] => [Blk (b_size b) true]
  end.

(** Free the block at address [p], coalescing on both sides. *)
Fixpoint free_spec (p a : Z) (bs : list block) : list block :=
  match bs with
  | [] => []
  | b :: bs' =>
      if p =? a then coalesce b bs'
      else
        let r := free_spec p (a + b_size b) bs' in
        if (p =? a + b_size b) && b_free b then
          match r with
          | n :: r' => Blk (b_size b + b_size n) true :: r'
          | [] => [b]
          end
        else b :: r
  end.

(** The block at address [p], if one starts there. *)
Fixpoint block_at (p a : Z) (bs : list block) : option block :=
  match bs with
  | [] => None
  | b :: bs' => if p =? a then Some b else block_at p (a + b_size b) bs'
  end.

(** No two adjacent blocks are free. *)
Fixpoint coalesced (bs : list block) : Prop :=
  match bs with
  | b :: ((n :: _) as bs') => ~ (b_free b = true /\ b_free n = true) /\ coalesced bs'
  | _ => True
  end.

Definition block_ok (b : block) : Prop := 20 <= b_size b /\ b_size b mod 4 = 0.

(** [chain m prev a bs nxt]: the headers of [bs], laid out from address [a], are
    in memory, linked both ways; [prev] precedes them and [nxt] follows. *)
Fixpoint chain (m : gmap Z heap_header) (prev a : Z) (bs : list block) (nxt : Z) : Prop :=
  match bs with
  | [] => True
  | b :: bs' =>
      m !! a = Some (Hdr (b_size b) (free_flag b)
                       (match bs' with [] => nxt | _ => a + b_size b end) prev) /\
      chain m a (a + b_size b) bs' nxt
  end.

Record heap_rep (base : Z) (h : kheap) (bs : list block) : Prop := {
  rep_first : heap_first h = base;
  rep_chain : chain (hdrs h) 0 base bs 0;
  rep_total : total bs = HEAP_SIZE;
  rep_ok : Forall block_ok bs;
  rep_coalesced : coalesced bs
}.

(** ** Block lists *)

Definition blocks_pos (bs : list block) : Prop := Forall (fun b => 0 < b_size b) bs.

Lemma block_ok_pos bs : Forall block_ok bs -> blocks_pos bs.
Proof. intros H. eapply Forall_impl; [exact H|]. intros b [? _]. lia. Qed.

Lemma total_app l1 l2 : total (l1 ++ l2) = total l1 + total l2.
Proof. induction l1; cbn; lia. Qed.

Lemma total_nonneg bs : blocks_pos bs -> 0 <= total bs.
Proof. induction 1; cbn; lia. Qed.

(** The address of the last block of [bs], or [p] for no block. *)
Fixpoint last_addr (p a : Z) (bs : list block) : Z :=
  match bs with
  | [] => p
  | b :: bs' => last_addr a (a + b_size b) bs'
  end.

Lemma last_addr_range p a bs :
  blocks_pos bs -> bs <> [] -> a <= last_addr p a bs < a + total bs.
Proof.
  revert p a. induction bs as [|b bs IH]; intros p a Hp Hne; [done|].
  inversion Hp as [|? ? Hb Hbs]; subst. cbn. destruct bs as [|b' bs].
  - cbn. lia.
  - specialize (IH a (a + b_size b) Hbs ltac:(done)).
    pose proof (total_nonneg _ Hbs). lia.
Qed.

Definition first_ptr (a nxt : Z) (bs : list block) : Z :=
  match bs with [] => nxt | _ => a end.

Lemma chain_app m p a l1 l2 nxt :
  chain m p a (l1 ++ l2) nxt <->
  chain m p a l1 (first_ptr (a + total l1) nxt l2) /\
  chain m (last_addr p a l1) (a + total l1) l2 nxt.
Proof.
  revert p a. induction l1 as [|b l1 IH]; intros p a; cbn.
  - rewrite Z.add_0_r. tauto.
  - rewrite IH. rewrite Z.add_assoc.
    assert ((match l1 ++ l2 with [] => nxt | _ :: _ => a + b_size b end)
      = match l1 with [] => first_ptr (a + b_size b + total l1) nxt l2 | _ => a + b_size b end)
      as ->.
    { destruct l1, l2; cbn; auto. lia. }
    tauto.
Qed.

Lemma chain_frame m m' p a bs nxt :
  blocks_pos bs -> (forall x, a <= x < a + total bs -> m' !! x = m !! x) ->
  chain m p a bs nxt -> chain m' p a bs nxt.
Proof.
  revert p a. induction bs as [|b bs IH]; intros p a Hp Hx Hc; cbn in *; [done|].
  inversion Hp as [|? ? Hb Hbs]; subst. pose proof (total_nonneg _ Hbs).
  destruct Hc as [Hc1 Hc2]. split; [rewrite Hx by lia; done|].
  apply IH; auto. intros x ?. apply Hx. lia.
Qed.

(** Relinking the first header to another predecessor. *)
Lemma chain_reprev m m' p p' a b bs nxt :
  blocks_pos (b :: bs) ->
  (forall x, a < x < a + total (b :: bs) -> m' !! x = m !! x) ->
  (forall s f n, m !! a = Some (Hdr s f n p) -> m' !! a = Some (Hdr s f n p')) ->
  chain m p a (b :: bs) nxt -> chain m' p' a (b :: bs) nxt.
Proof.
  intros Hp Hx Ha [Hc1 Hc2]. inversion Hp as [|? ? Hb Hbs]; subst. cbn in *.
  pose proof (total_nonneg _ Hbs). split; [by apply Ha|].
  apply (chain_frame m _ _ _ _ _ Hbs); [|exact Hc2]. intros x ?. apply Hx. lia.
Qed.

(** The traversal visits distinct headers, so the header map bounds it. *)
Lemma chain_length m p a bs nxt :
  blocks_pos bs -> chain m p a bs nxt -> (length bs <= size m)%nat.
Proof.
  revert m p a. induction bs as [|b bs IH]; intros m p a Hp Hc; cbn; [lia|].
  inversion Hp as [|? ? Hb Hbs]; subst. destruct Hc as [Hc1 Hc2].
  assert (length bs <= size (delete a m))%nat.
  { apply (IH _ a (a + b_size b)); auto. apply (chain_frame m _ _ _ _ _ Hbs); [|exact Hc2].
    intros x ?. apply lookup_delete_ne. lia. }
  rewrite map_size_delete_Some in H by eauto.
  pose proof (map_size_ne_0_lookup_2 m a ltac:(eauto)). lia.
Qed.

(** *** First fit *)

Lemma alloc_spec_none t a bs :
  alloc_spec t a bs = None -> Forall (fun b => b_free b = true -> b_size b < t) bs.
Proof.
  revert a. induction bs as [|b bs IH]; intros a H; cbn in H; [done|]. case_if_in H; [done|].
  destruct (alloc_spec t (a + b_size b) bs) as [[q l]|] eqn:E; [done|].
  constructor; [|eauto]. intros Hb. destruct Hif; bool_hyps; [congruence|lia].
Qed.

Lemma alloc_spec_total t a bs p bs' :
  alloc_spec t a bs = Some (p, bs') -> total bs' = total bs.
Proof.
  revert a bs'. induction bs as [|b bs IH]; intros a bs' H; cbn in H; [done|].
  case_if_in H.
  - injection H as _ <-. case_if; cbn; lia.
  - destruct (alloc_spec t (a + b_size b) bs) as [[q l]|] eqn:E; [|done].
    injection H as -> <-. cbn. rewrite (IH _ _ E). done.
Qed.

Lemma alloc_spec_ok t a bs p bs' :
  20 <= t -> t mod 4 = 0 -> alloc_spec t a bs = Some (p, bs') ->
  Forall block_ok bs -> Forall block_ok bs'.
Proof.
  intros Ht Hm. revert a bs'. induction bs as [|b bs IH]; intros a bs' H Hok; cbn in H; [done|].
  inversion Hok as [|? ? Hb Hbs]; subst. destruct Hb as [Hb1 Hb2]. case_if_in H.
  - injection H as _ <-. case_if; repeat constructor; cbn; auto; try lia.
    rewrite Zminus_mod, Hb2, Hm. done.
  - destruct (alloc_spec t (a + b_size b) bs) as [[q l]|] eqn:E; [|done].
    injection H as -> <-. constructor; [done|eauto].
Qed.

Lemma coalesced_cons b bs :
  coalesced (b :: bs) <->
  coalesced bs /\ (forall n bs', bs = n :: bs' -> ~ (b_free b = true /\ b_free n = true)).
Proof. destruct bs as [|n bs]; cbn; [split; [split; [done|]; intros ?? [=]|done]|]. split.
  - intros [? ?]. split; [done|]. intros ? ? [= <- <-]. done.
  - intros [? H]. split; [by eapply H|done].
Qed.

(** The head of the new list is free only if the old head was free. *)
Lemma alloc_spec_head t a bs p b' bs' :
  alloc_spec t a bs = Some (p, b' :: bs') -> b_free b' = true ->
  exists b bs0, bs = b :: bs0 /\ b_free b = true.
Proof.
  destruct bs as [|b bs]; cbn; [done|]. case_if.
  - intros [= _ Hl] Hf. case_if_in Hl; injection Hl as <- _; done.
  - destruct (alloc_spec t (a + b_size b) bs) as [[q l]|]; [|done].
    intros [= _ <- _] Hf. by exists b, bs.
Qed.

Lemma alloc_spec_coalesced t a bs p bs' :
  alloc_spec t a bs = Some (p, bs') -> coalesced bs -> coalesced bs'.
Proof.
  revert a bs'. induction bs as [|b bs IH]; intros a bs' H Hc; cbn [alloc_spec] in H; [done|].
  apply coalesced_cons in Hc as [Hc1 Hc2]. case_if_in H.
  - injection H as _ <-. case_if; rewrite !coalesced_cons; cbn.
    + split; [split; [done|]|]; [intros n bs' E [_ Hn]; eapply Hc2; eauto|by intros ? ? _ [? _]].
    + split; [done|by intros ? ? _ [? _]].
  - destruct (alloc_spec t (a + b_size b) bs) as [[q l]|] eqn:E; [|done].
    injection H as -> <-. rewrite coalesced_cons. split; [eauto|].
    intros n l' -> [Hb Hn]. destruct (alloc_spec_head _ _ _ _ _ _ E Hn) as (x & l0 & -> & Hx).
    by eapply Hc2.
Qed.

(** *** Freeing on the block list *)

Lemma coalesce_total b bs : total (coalesce b bs) = b_size b + total bs.
Proof. destruct bs as [|n bs]; cbn; [lia|]. destruct (b_free n); cbn; lia. Qed.

Lemma coalesce_head b bs : exists s bs', coalesce b bs = Blk s true :: bs'.
Proof. destruct bs as [|n bs]; cbn; [eauto|]. destruct (b_free n); eauto. Qed.

Lemma coalesce_ok b bs : block_ok b -> Forall block_ok bs -> Forall block_ok (coalesce b bs).
Proof.
  intros [Hb1 Hb2] Hbs. destruct bs as [|n bs]; cbn; [by repeat constructor|].
  inversion Hbs as [|? ? [Hn1 Hn2] ?]; subst.
  destruct (b_free n); repeat constructor; cbn; auto; [lia|].
  by rewrite Zplus_mod, Hb2, Hn2.
Qed.

Lemma coalesce_coalesced b bs : coalesced bs -> coalesced (coalesce b bs).
Proof.
  intros Hc. destruct bs as [|n bs]; [done|]. unfold coalesce. destruct (b_free n) eqn:E.
  - apply coalesced_cons in Hc as [Hc1 Hc2]. apply coalesced_cons. split; [done|].
    intros x l -> [_ Hx]. by apply (Hc2 x l eq_refl).
  - split; [|done]. cbn. rewrite E. by intros [_ ?].
Qed.

(** Freeing the block between [l1] and [l2]. *)
Fixpoint merge_prev (l1 : list block) (r : list block) : list block :=
  match l1 with
  | [] => r
  | [b] => if b_free b then match r with n :: r' => Blk (b_size b + b_size n) true :: r' | [] => [b] end
           else b :: r
  | b :: l1' => b :: merge_prev l1' r
  end.

Lemma free_spec_app l1 b l2 a :
  blocks_pos l1 -> 0 < b_size b ->
  free_spec (a + total l1) a (l1 ++ b :: l2) = merge_prev l1 (coalesce b l2).
Proof.
  revert a. induction l1 as [|x l1 IH]; intros a Hp Hb; cbn.
  { by rewrite Z.add_0_r, Z.eqb_refl. }
  inversion Hp as [|? ? Hx Hl1]; subst. pose proof (total_nonneg _ Hl1).
  rewrite (proj2 (Z.eqb_neq _ _)) by lia.
  rewrite Z.add_assoc, (IH (a + b_size x)) by done.
  destruct l1 as [|y l1]; cbn.
  - rewrite Z.add_0_r, Z.eqb_refl. cbn. by destruct (b_free x).
  - inversion Hl1; subst. pose proof (total_nonneg l1 ltac:(done)).
    by rewrite (proj2 (Z.eqb_neq _ _)) by lia.
Qed.

Lemma merge_prev_snoc l1 x r :
  merge_prev (l1 ++ [x]) r =
    l1 ++ (if b_free x then match r with n :: r' => Blk (b_size x + b_size n) true :: r' | [] => [x] end
           else x :: r).
Proof.
  induction l1 as [|y [|z l1] IH]; [done..|].
  change (merge_prev ((y :: z :: l1) ++ [x]) r) with (y :: merge_prev ((z :: l1) ++ [x]) r).
  by rewrite IH.
Qed.

Lemma coalesced_app l1 b l2 :
  coalesced (l1 ++ b :: l2) <->
  coalesced (l1 ++ [b]) /\ coalesced (b :: l2).
Proof.
  induction l1 as [|x l1 IH]; [cbn [app]; split; [intros ?; by split|by intros [_ ?]]|].
  cbn [app]. rewrite (coalesced_cons x (l1 ++ b :: l2)), (coalesced_cons x (l1 ++ [b])), IH.
  assert (Hhd : forall n l, (exists bs', l1 ++ b :: l = n :: bs') <->
                            (exists bs', l1 ++ [b] = n :: bs')).
  { intros n l. destruct l1; cbn; split; intros [? [= <- <-]]; eauto. }
  split.
  - intros [[? ?] Hx]. split_and!; auto. intros n bs' E.
    destruct (proj2 (Hhd n l2)) as [bs'' ?]; [eauto|]. by eapply Hx.
  - intros [[? Hx] ?]. split_and!; auto. intros n bs' E.
    destruct (proj1 (Hhd n l2)) as [bs'' ?]; [eauto|]. by eapply Hx.
Qed.

Lemma merge_prev_total l1 s r :
  total (merge_prev l1 (Blk s true :: r)) = total l1 + s + total r.
Proof.
  destruct l1 as [|x l1 _] using rev_ind; [cbn; lia|].
  rewrite merge_prev_snoc, !total_app. destruct (b_free x); cbn; lia.
Qed.

Lemma merge_prev_ok l1 r :
  Forall block_ok l1 -> Forall block_ok r -> r <> [] -> Forall block_ok (merge_prev l1 r).
Proof.
  destruct l1 as [|x l1 _] using rev_ind; [done|]. intros Hl Hr Hne.
  rewrite merge_prev_snoc. apply Forall_app in Hl as [Hl [Hx _]%Forall_cons].
  apply Forall_app. split; [done|]. destruct r as [|n r]; [done|].
  inversion Hr as [|? ? [Hn1 Hn2] ?]; subst. destruct Hx as [Hx1 Hx2].
  destruct (b_free x); repeat constructor; cbn; auto; [lia|].
  by rewrite Zplus_mod, Hx2, Hn2.
Qed.

Lemma coalesced_flags l l' : map b_free l = map b_free l' -> coalesced l -> coalesced l'.
Proof.
  revert l'. induction l as [|b l IH]; intros [|b' l'] H Hc; try done.
  cbn in H. injection H as Hb Hl. apply coalesced_cons in Hc as [Hc1 Hc2].
  apply coalesced_cons. split; [auto|]. intros n bs' ->.
  destruct l as [|m l]; [done|]. cbn in Hl. injection Hl as Hm _.
  rewrite <- Hb, <- Hm. by eapply Hc2.
Qed.

Lemma coalesced_merge_prev l1 s r :
  coalesced l1 -> coalesced (Blk s true :: r) -> coalesced (merge_prev l1 (Blk s true :: r)).
Proof.
  destruct l1 as [|x l1 _] using rev_ind; [done|]. intros Hl Hr.
  rewrite merge_prev_snoc. destruct (b_free x) eqn:Ex.
  - apply coalesced_app. split.
    + eapply coalesced_flags; [|exact Hl]. rewrite !map_app. cbn. by rewrite Ex.
    + by apply (coalesced_flags (Blk s true :: r)).
  - apply coalesced_app. split; [done|]. apply coalesced_cons. split; [done|].
    intros n bs' E [? _]. congruence.
Qed.

(** The block [alloc_spec] picks: the list around it. *)
Lemma alloc_spec_split t a bs p bs' :
  alloc_spec t a bs = Some (p, bs') ->
  exists l1 b l2, bs = l1 ++ b :: l2 /\ p = a + total l1 /\ b_free b = true /\
    t <= b_size b /\
    bs' = l1 ++ (if t + 20 <? b_size b
                 then Blk t false :: Blk (b_size b - t) true :: l2
                 else Blk (b_size b) false :: l2).
Proof.
  revert a bs'. induction bs as [|b bs IH]; intros a bs' H; cbn in H; [done|].
  case_if_in H.
  - injection H as <- <-. exists [], b, bs. split_and!; auto; cbn; lia.
  - destruct (alloc_spec t (a + b_size b) bs) as [[q l]|] eqn:E; [|done].
    injection H as -> <-. destruct (IH _ _ E) as (l1 & b0 & l2 & -> & -> & ? & ? & ->).
    exists (b :: l1), b0, l2. split_and!; auto. cbn. lia.
Qed.

Lemma coalesced_not_both l1 x b l2 :
  coalesced ((l1 ++ [x]) ++ b :: l2) -> b_free b = true -> b_free x = false.
Proof.
  rewrite <- app_assoc. cbn [app]. intros [_ H]%coalesced_app.
  apply coalesced_cons in H as [_ H]. intros Hb. destruct (b_free x) eqn:E; [|done].
  by destruct (H b l2 eq_refl).
Qed.

(** Allocating a block and freeing it again is the identity on coalesced
    block lists. *)
Lemma free_alloc_spec t a bs p bs' :
  20 <= t -> blocks_pos bs -> coalesced bs -> alloc_spec t a bs = Some (p, bs') ->
  free_spec p a bs' = bs.
Proof.
  intros Ht Hp Hc H. destruct (alloc_spec_split _ _ _ _ _ H) as (l1 & b & l2 & -> & -> & Hb & Hle & ->).
  assert (Hl1 : blocks_pos l1) by (by apply Forall_app in Hp as [? _]).
  assert (Hm : forall r, merge_prev l1 (b :: r) = l1 ++ b :: r).
  { intros r. destruct l1 as [|x l1 _] using rev_ind; [done|].
    rewrite merge_prev_snoc. rewrite (coalesced_not_both _ _ _ _ Hc Hb).
    by rewrite <- app_assoc. }
  destruct b as [sz f]; cbn in *; subst f. case_if.
  - rewrite free_spec_app by (auto; cbn; lia). cbn. by rewrite Zplus_minus, Hm.
  - rewrite free_spec_app by (auto; cbn; lia).
    apply coalesced_app in Hc as [_ Hc]. apply coalesced_cons in Hc as [_ Hc].
    destruct l2 as [|n l2]; cbn; [by rewrite Hm|].
    destruct (b_free n) eqn:En; [by destruct (Hc n l2 eq_refl)|by rewrite Hm].
Qed.

(** ** The code refines the block list *)

Lemma get_put_eq p f h : get p (put p f h) = Some (f (default (Hdr 0 0 0 0) (get p h))).
Proof. apply lookup_insert_eq. Qed.

Lemma get_put_ne p q f h : p <> q -> get q (put p f h) = get q h.
Proof. apply lookup_insert_ne. Qed.

Lemma get_with_eflags p f h : get p (with_eflags f h) = get p h.
Proof. done. Qed.

Ltac heap_unfold := unfold put_size, put_is_free, put_next, put_prev in *.

(** Evaluate the reads of a term after a series of writes. *)
Ltac heap_get :=
  repeat (first
    [ rewrite get_put_eq by idtac
    | rewrite get_put_ne by lia
    | progress cbn [default h_size h_is_free h_next h_prev from_option id] ]).

Section refinement.
(** The address of [heap_space]. *)
Variable base : Z.
Hypothesis Hbase : 0 < base /\ base + HEAP_SIZE < 2 ^ 32.

(** The list part of [heap_rep], between a prefix and a suffix. *)
Definition linked (h : kheap) (bs : list block) : Prop :=
  heap_first h = base /\ chain (hdrs h) 0 base bs 0 /\ total bs = HEAP_SIZE /\ blocks_pos bs.

Lemma linked_at h l1 b l2 :
  linked h (l1 ++ b :: l2) ->
  get (base + total l1) h =
    Some (Hdr (b_size b) (free_flag b) (first_ptr (base + total l1 + b_size b) 0 l2)
            (last_addr 0 base l1)) /\
  blocks_pos l1 /\ 0 < b_size b /\ blocks_pos l2 /\ 0 <= total l1 /\ 0 <= total l2 /\
  total l1 + b_size b + total l2 = HEAP_SIZE.
Proof.
  intros (_ & Hc & Ht & Hp). apply chain_app in Hc as [_ [Hc _]].
  apply Forall_app in Hp as [Hp1 [Hb Hp2]%Forall_cons].
  rewrite total_app in Ht. cbn in Ht. unfold get.
  pose proof (total_nonneg _ Hp1). pose proof (total_nonneg _ Hp2).
  split_and!; auto. lia.
Qed.

(** Replace the middle of a linked list: it is enough that the prefix and the
    suffix are linked to the new middle. *)
Lemma linked_replace h h' l1 mid mid' l2 :
  linked h (l1 ++ mid ++ l2) -> mid <> [] -> mid' <> [] ->
  heap_first h' = heap_first h -> total mid' = total mid -> blocks_pos mid' ->
  (forall x, x < base + total l1 -> get x h' = get x h) ->
  (forall x, base + total l1 + total mid < x -> get x h' = get x h) ->
  chain (hdrs h') (last_addr 0 base l1) (base + total l1) mid'
    (first_ptr (base + total l1 + total mid') 0 l2) ->
  (forall s f n, l2 <> [] ->
     get (base + total l1 + total mid) h =
       Some (Hdr s f n (last_addr (last_addr 0 base l1) (base + total l1) mid)) ->
     get (base + total l1 + total mid) h' =
       Some (Hdr s f n (last_addr (last_addr 0 base l1) (base + total l1) mid'))) ->
  linked h' (l1 ++ mid' ++ l2).
Proof.
  intros (Hf & Hc & Ht & Hp) Hm Hm' Hf' Htm Hpm' Hlo Hhi Hmid Hnx.
  apply chain_app in Hc as [Hc1 Hc2]. apply chain_app in Hc2 as [Hc2 Hc3].
  apply Forall_app in Hp as [Hp1 [Hp2 Hp3]%Forall_app].
  rewrite !total_app in Ht.
  pose proof (total_nonneg _ Hp1). pose proof (total_nonneg _ Hp3).
  pose proof (total_nonneg _ Hpm').
  split_and!; [congruence| |rewrite !total_app; lia|].
  2:{ apply Forall_app. split; [done|]. by apply Forall_app. }
  apply chain_app. split.
  { replace (first_ptr (base + total l1) 0 (mid' ++ l2))
      with (first_ptr (base + total l1) 0 (mid ++ l2)) by (by destruct mid, mid').
    apply (chain_frame (hdrs h)); auto. intros x Hx. apply Hlo. lia. }
  apply chain_app. split; [done|]. rewrite Htm.
  destruct l2 as [|b l2]; [done|].
  eapply chain_reprev; [done| | |exact Hc3].
  - intros x Hx. apply Hhi. lia.
  - intros s f n Hg. by eapply Hnx.
Qed.

Lemma last_addr_app p a l1 l2 :
  last_addr p a (l1 ++ l2) = last_addr (last_addr p a l1) (a + total l1) l2.
Proof.
  revert p a. induction l1 as [|b l1 IH]; intros p a; cbn; [by rewrite Z.add_0_r|].
  by rewrite IH, Z.add_assoc.
Qed.

(** Writing the free flag of one block. *)
Lemma put_is_free_ok h l1 b l2 (f : bool) :
  linked h (l1 ++ b :: l2) ->
  linked (put_is_free (base + total l1) (if f then 1 else 0) h) (l1 ++ Blk (b_size b) f :: l2).
Proof.
  intros Hl. destruct (linked_at _ _ _ _ Hl) as (Hg & Hp1 & Hb & Hp2 & ? & ? & ?).
  apply (linked_replace h _ l1 [b] [Blk (b_size b) f] l2); auto; cbn; try lia.
  - by repeat constructor.
  - intros x Hx. heap_unfold. by rewrite get_put_ne by lia.
  - intros x Hx. heap_unfold. by rewrite get_put_ne by lia.
  - split; [|done]. change (get (base + total l1) (put_is_free (base + total l1) (if f then 1 else 0) h)
      = Some (Hdr (b_size b) (free_flag (Blk (b_size b) f))
          (first_ptr (base + total l1 + (b_size b + 0)) 0 l2) (last_addr 0 base l1))).
    heap_unfold. rewrite get_put_eq, Hg. cbn. by rewrite Z.add_0_r.
  - intros s g n Hne Hg'. heap_unfold. by rewrite get_put_ne by lia.
Qed.

Lemma split_block_ok h l1 sz l2 t :
  linked h (l1 ++ Blk sz true :: l2) -> 0 < t < sz ->
  exists h', split_block (base + total l1) t h = Some h' /\ eflags h' = eflags h /\
    linked h' (l1 ++ Blk t true :: Blk (sz - t) true :: l2).
Proof.
  intros Hl Ht. destruct (linked_at _ _ _ _ Hl) as (Hg & Hp1 & Hb & Hp2 & ? & ? & ?).
  cbn in Hg, Hb. set (c := base + total l1) in *. unfold HEAP_SIZE in *.
  unfold split_block. rewrite Hg. cbn [mbind option_bind h_size].
  rewrite !u32_small by (cbn in *; lia). heap_unfold. heap_get. rewrite Hg.
  cbn [mbind option_bind h_next]. heap_get. rewrite Hg. cbn [mbind option_bind h_next].
  set (nx := first_ptr (c + sz) 0 l2) in *.
  eexists; split; [reflexivity|]. split; [by destruct (negb (nx =? 0))|].
  assert (Hnx : l2 = [] /\ nx = 0 \/ l2 <> [] /\ nx = c + sz)
    by (subst nx; destruct l2; cbn; auto).
  assert (Hnxe : negb (nx =? 0) = bool_decide (l2 <> [])).
  { destruct Hnx as [[-> ->]|[? ->]]; [done|]. rewrite bool_decide_eq_true_2 by done.
    apply negb_true_iff, Z.eqb_neq. lia. }
  rewrite Hnxe.
  match goal with |- linked ?x _ => set (h' := x) end.
  assert (Hother : forall x, x <> c -> x <> c + t -> x <> c + sz -> get x h' = get x h).
  { intros x ? ? ?. subst h'. heap_get. case_bool_decide; heap_get; [|done].
    destruct Hnx as [[-> ?]|[? ->]]; [done|]. by heap_get. }
  apply (linked_replace h h' l1 [Blk sz true] [Blk t true; Blk (sz - t) true] l2);
    auto; cbn [total b_size]; try lia.
  - subst h'. cbn. by destruct (bool_decide _).
  - repeat constructor; cbn; lia.
  - intros x Hx. apply Hother; lia.
  - intros x Hx. apply Hother; lia.
  - fold c. cbn [chain b_size free_flag b_free]. split_and!; [| |done].
    + change (get c h' = Some (Hdr t 1 (c + t) (last_addr 0 base l1))). subst h'.
      heap_get. case_bool_decide; heap_get; [|by rewrite Hg].
      destruct Hnx as [[-> ?]|[? ->]]; [done|]. heap_get. by rewrite Hg.
    + change (get (c + t) h' = Some (Hdr (sz - t) 1 (first_ptr (c + (t + (sz - t + 0))) 0 l2) c)).
      replace (c + (t + (sz - t + 0))) with (c + sz) by lia. subst h'.
      heap_get. case_bool_decide; heap_get; [|done].
      destruct Hnx as [[-> ?]|[? Hnx]]; [done|]. fold nx. rewrite Hnx. by heap_get.
  - intros s f n Hne Hs. fold c in Hs |- *. replace (c + (sz + 0)) with (c + sz) in * by lia.
    cbn [last_addr b_size]. destruct Hnx as [[-> ?]|[? Hnx]]; [done|].
    subst h'. rewrite bool_decide_eq_true_2, Hnx by done. heap_get. by rewrite Hs.
Qed.

Lemma last_addr_snoc l1 x : last_addr 0 base (l1 ++ [x]) = base + total l1.
Proof. by rewrite last_addr_app. Qed.

(** Absorbing the free right neighbour [n] into the free block [x]: the
    writes shared by the two merges. *)
Lemma absorb_ok h l1 x n l2 :
  linked h (l1 ++ x :: n :: l2) -> b_free x = true ->
  let c := base + total l1 in
  let nx := first_ptr (c + b_size x + b_size n) 0 l2 in
  let h1 := put_next c nx (put_size c (b_size x + b_size n) h) in
  linked (if negb (nx =? 0) then put_prev nx c h1 else h1)
    (l1 ++ Blk (b_size x + b_size n) true :: l2).
Proof.
  intros Hl Hx c nx h1. destruct (linked_at _ _ _ _ Hl) as (Hg & Hp1 & Hb & Hp2 & ? & ? & Htot).
  fold c in Hg. inversion Hp2 as [|? ? Hn Hp2']; subst. pose proof (total_nonneg _ Hp2').
  cbn in Htot. unfold HEAP_SIZE in *.
  assert (Hnx : l2 = [] /\ nx = 0 \/ l2 <> [] /\ nx = c + b_size x + b_size n)
    by (subst nx; destruct l2; cbn; auto).
  assert (Hnxe : negb (nx =? 0) = bool_decide (l2 <> [])).
  { destruct Hnx as [[-> ->]|[? ->]]; [done|]. rewrite bool_decide_eq_true_2 by done.
    apply negb_true_iff, Z.eqb_neq. lia. }
  rewrite Hnxe. match goal with |- linked ?y _ => set (h' := y) end.
  assert (Hother : forall y, y <> c -> y <> c + b_size x + b_size n -> get y h' = get y h).
  { intros y ? ?. subst h' h1. heap_unfold. case_bool_decide; heap_get; [|done].
    destruct Hnx as [[-> ?]|[? ->]]; [done|]. by heap_get. }
  change (l1 ++ x :: n :: l2) with (l1 ++ [x; n] ++ l2) in Hl.
  apply (linked_replace h h' l1 [x; n] [Blk (b_size x + b_size n) true] l2);
    auto; cbn [total b_size]; try lia.
  - subst h' h1. by destruct (bool_decide _).
  - repeat constructor; cbn; lia.
  - intros y Hy. apply Hother; lia.
  - intros y Hy. apply Hother; lia.
  - fold c. cbn [chain b_size free_flag b_free]. split; [|done].
    change (get c h' = Some (Hdr (b_size x + b_size n) 1
      (first_ptr (c + (b_size x + b_size n + 0)) 0 l2) (last_addr 0 base l1))).
    replace (c + (b_size x + b_size n + 0)) with (c + b_size x + b_size n) by lia. fold nx.
    subst h' h1. heap_unfold. unfold free_flag in Hg. rewrite Hx in Hg.
    case_bool_decide; heap_get; [|by rewrite Hg].
    destruct Hnx as [[-> ?]|[? ->]]; [done|]. heap_get. by rewrite Hg.
  - intros s f m Hne Hs. fold c in Hs |- *.
    replace (c + (b_size x + (b_size n + 0))) with (c + b_size x + b_size n) in * by lia.
    cbn [last_addr b_size]. destruct Hnx as [[-> ?]|[? Hnx]]; [done|].
    subst h' h1. heap_unfold. rewrite bool_decide_eq_true_2, Hnx by done. heap_get.
    by rewrite Hs.
Qed.

Lemma merge_right_ok h l1 sz l2 :
  linked h (l1 ++ Blk sz true :: l2) ->
  exists h', merge_right (base + total l1) h = Some h' /\ eflags h' = eflags h /\
    linked h' (l1 ++ coalesce (Blk sz true) l2).
Proof.
  intros Hl. destruct (linked_at _ _ _ _ Hl) as (Hg & Hp1 & Hb & Hp2 & ? & ? & Htot).
  unfold merge_right. rewrite Hg. cbn [mbind option_bind h_next b_size h_size] in *.
  destruct l2 as [|n l2]; cbn [first_ptr]; [by exists h|].
  inversion Hp2 as [|? ? Hn Hp2']; subst. pose proof (total_nonneg _ Hp2').
  cbn in Htot. unfold HEAP_SIZE in *.
  assert (Hgn : get (base + total l1 + sz) h = Some (Hdr (b_size n) (free_flag n)
      (first_ptr (base + total l1 + sz + b_size n) 0 l2) (base + total l1))).
  { change (l1 ++ Blk sz true :: n :: l2) with (l1 ++ [Blk sz true] ++ n :: l2) in Hl.
    rewrite app_assoc in Hl. destruct (linked_at _ _ _ _ Hl) as [Hg' _].
    rewrite total_app, last_addr_snoc in Hg'. cbn in Hg'.
    by replace (base + (total l1 + (sz + 0))) with (base + total l1 + sz) in Hg' by lia. }
  unfold ptr_is_free. rewrite (proj2 (Z.eqb_neq _ _)), Hgn by lia.
  cbn [mbind option_bind h_is_free h_size h_next coalesce]. unfold free_flag.
  destruct (b_free n); cbn [negb Z.eqb]; [|by exists h].
  rewrite u32_small by lia. eexists; split; [done|]. split; [by case_if|].
  exact (absorb_ok h l1 (Blk sz true) n l2 Hl eq_refl).
Qed.

Lemma merge_left_ok h l1 sz l2 :
  linked h (l1 ++ Blk sz true :: l2) ->
  exists h', merge_left (base + total l1) h = Some h' /\ eflags h' = eflags h /\
    linked h' (merge_prev l1 (Blk sz true :: l2)).
Proof.
  intros Hl. destruct (linked_at _ _ _ _ Hl) as (Hg & Hp1 & Hb & Hp2 & ? & ? & Htot).
  unfold merge_left. rewrite Hg. cbn [mbind option_bind h_next b_size h_size h_prev] in *.
  destruct l1 as [|x l1 _] using rev_ind; [by exists h|].
  rewrite last_addr_snoc, merge_prev_snoc.
  apply Forall_app in Hp1 as [Hp1 [Hx _]%Forall_cons]. pose proof (total_nonneg _ Hp1).
  rewrite total_app in *. cbn [total] in *. unfold HEAP_SIZE in *.
  rewrite <- app_assoc in Hl. cbn [app] in Hl.
  destruct (linked_at _ _ _ _ Hl) as [Hgx _]. cbn [first_ptr] in Hgx.
  unfold ptr_is_free. rewrite (proj2 (Z.eqb_neq (base + total l1) 0)), Hgx by lia.
  cbn [mbind option_bind h_is_free h_size h_next]. unfold free_flag.
  destruct (b_free x) eqn:Ex; cbn [negb Z.eqb]; [|by exists h].
  rewrite u32_small by lia. eexists; split; [done|]. split; [by case_if|].
  pose proof (absorb_ok h l1 x (Blk sz true) l2 Hl Ex) as Ha. cbn zeta in Ha. cbn [b_size] in Ha.
  by replace (base + total l1 + b_size x + sz)
    with (base + (total l1 + (b_size x + 0)) + sz) in Ha by lia.
Qed.

Lemma linked_with_eflags h f bs : linked (with_eflags f h) bs <-> linked h bs.
Proof. done. Qed.

Lemma kmalloc_loop_ok t fuel h l1 l2 :
  linked h (l1 ++ l2) -> (length l2 <= fuel)%nat -> 20 <= t < 2 ^ 32 - 20 ->
  exists r h', kmalloc_loop fuel t (first_ptr (base + total l1) 0 l2) h = Some (r, h') /\
    eflags h' = eflags h /\
    match alloc_spec t (base + total l1) l2 with
    | Some (p, l2') => r = p + 16 /\ linked h' (l1 ++ l2')
    | None => r = 0 /\ h' = h
    end.
Proof.
  revert fuel l1. induction l2 as [|b l2 IH]; intros fuel l1 Hl Hf Ht.
  { exists 0, h. by destruct fuel. }
  destruct fuel as [|fuel]; cbn in Hf; [lia|].
  destruct (linked_at _ _ _ _ Hl) as (Hg & Hp1 & Hb & Hp2 & ? & ? & Htot).
  unfold HEAP_SIZE in *.
  assert (Hrec : exists r h',
    kmalloc_loop fuel t (first_ptr (base + total l1 + b_size b) 0 l2) h = Some (r, h') /\
    eflags h' = eflags h /\
    match match alloc_spec t (base + total l1 + b_size b) l2 with
          | Some (p, bs'') => Some (p, b :: bs'') | None => None end with
    | Some (p, l2') => r = p + 16 /\ linked h' (l1 ++ l2')
    | None => r = 0 /\ h' = h
    end).
  { specialize (IH fuel (l1 ++ [b])). rewrite <- app_assoc, total_app in IH.
    cbn [app total] in IH. rewrite Z.add_0_r, Z.add_assoc in IH.
    destruct (IH Hl ltac:(lia) Ht) as (r & h' & Hk & He & Hr).
    exists r, h'. split; [done|]. split; [done|].
    destruct (alloc_spec t _ l2) as [[p l2']|]; [|done].
    destruct Hr as [-> Hr]. by rewrite <- app_assoc in Hr. }
  cbn [first_ptr kmalloc_loop alloc_spec]. rewrite (proj2 (Z.eqb_neq (base + total l1) 0)) by lia.
  rewrite Hg. cbn [mbind option_bind h_is_free h_size h_next]. unfold free_flag.
  destruct (b_free b) eqn:Eb; cbn [negb Z.eqb andb].
  1: destruct (Z.leb_spec t (b_size b)).
  - rewrite (u32_small (t + _ + 4)) by (unfold sizeof_heap_header; lia).
    replace (t + sizeof_heap_header + 4) with (t + 20) by (unfold sizeof_heap_header; lia).
    destruct b as [sz f]; cbn in Eb, Hb; subst f. cbn [b_size] in *.
    destruct (Z.ltb_spec (t + 20) sz).
    + destruct (split_block_ok h l1 sz l2 t Hl) as (h1 & -> & He & Hl1); [lia|].
      cbn [mbind option_bind]. eexists _, _; split; [done|]. split; [done|].
      split; [unfold sizeof_heap_header; rewrite u32_small; lia|].
      exact (put_is_free_ok h1 l1 (Blk t true) _ false Hl1).
    + cbn [mbind option_bind]. eexists _, _; split; [done|]. split; [done|].
      split; [unfold sizeof_heap_header; rewrite u32_small; lia|].
      exact (put_is_free_ok h l1 (Blk sz true) _ false Hl).
  - exact Hrec.
  - exact Hrec.
Qed.

Lemma rep_linked h bs : heap_rep base h bs -> linked h bs.
Proof. intros []. split_and!; auto using block_ok_pos. Qed.

(** The total size a request needs: the request rounded up to 4 bytes, plus
    the header. *)
Definition request_total (size : Z) : Z := (size + 3) / 4 * 4 + 16.

Lemma request_total_ok size :
  0 < size <= 2 ^ 32 - 44 ->
  u32 (aligned_size size + sizeof_heap_header) = request_total size /\
  20 <= request_total size < 2 ^ 32 - 20 /\ request_total size mod 4 = 0 /\
  size + 16 <= request_total size.
Proof.
  intros Hs. unfold aligned_size, sizeof_heap_header, request_total.
  pose proof (Z.div_mod size 4 ltac:(lia)). pose proof (Z.mod_pos_bound size 4 ltac:(lia)).
  pose proof (Z.div_mod (size + 3) 4 ltac:(lia)).
  pose proof (Z.mod_pos_bound (size + 3) 4 ltac:(lia)).
  split.
  - destruct (Z.eqb_spec (size mod 4) 0); cbn [negb]; rewrite !u32_small; try lia.
    rewrite u32_small; lia.
  - split_and!; try lia. by rewrite Z.add_comm, Z_mod_plus_full.
Qed.

Lemma heap_rep_eflags f h bs : heap_rep base h bs -> heap_rep base (with_eflags f h) bs.
Proof. intros []. by constructor. Qed.

(** The new state keeps the whole representation. *)
Lemma alloc_rep h h' bs t p bs' :
  heap_rep base h bs -> 20 <= t -> t mod 4 = 0 ->
  alloc_spec t base bs = Some (p, bs') -> linked h' bs' -> heap_rep base h' bs'.
Proof.
  intros Hr Ht Hm Ha (Hf & Hc & Htot & _). destruct Hr as [_ _ _ Hok Hco].
  constructor; auto; [by eapply alloc_spec_ok|by eapply alloc_spec_coalesced].
Qed.
End refinement.

(** *** Allocation *)

(** [kmalloc] refines first fit. *)
Lemma kmalloc_ok base size h bs :
  0 < base /\ base + HEAP_SIZE < 2 ^ 32 -> heap_rep base h bs -> 0 < size <= 2 ^ 32 - 44 ->
  exists r h', kmalloc size h = Some (r, h') /\ eflags h' = eflags h /\
    match alloc_spec (request_total size) base bs with
    | Some (p, bs') => r = p + 16 /\ heap_rep base h' bs'
    | None => r = 0 /\ heap_rep base h' bs
    end.
Proof.
  intros Hbase Hrep Hs. pose proof (rep_linked base h bs Hrep) as Hl.
  destruct (request_total_ok size Hs) as (Ht & Htr & Htm & _).
  unfold kmalloc. rewrite (proj2 (Z.eqb_neq size 0)) by lia. rewrite Ht.
  destruct (irq_save (eflags h)) as [flags ef] eqn:Ef. unfold irq_save in Ef.
  injection Ef as <- <-. set (h0 := with_eflags (cli (eflags h)) h).
  assert (Hlen : (length bs <= S (size_of (hdrs h0)))%nat).
  { destruct Hl as (_ & Hc & _ & Hp). pose proof (chain_length _ _ _ _ _ Hp Hc).
    subst h0; cbn. lia. }
  destruct (kmalloc_loop_ok base Hbase (request_total size) _ h0 [] bs Hl Hlen)
    as (r & h' & Hk & He & Hr); [lia|].
  assert (Hfst : heap_first h0 = first_ptr (base + total []) 0 bs).
  { subst h0; cbn. rewrite (rep_first _ _ _ Hrep), Z.add_0_r.
    pose proof (rep_total _ _ _ Hrep) as Htot. by destruct bs. }
  rewrite Hfst, Hk. cbn [mbind option_bind]. cbn [total] in Hr. rewrite Z.add_0_r in Hr.
  eexists r, _; split; [done|]. split; [done|].
  destruct (alloc_spec _ base bs) as [[p bs']|] eqn:Ea; destruct Hr as [-> Hr].
  - split; [done|].
    apply heap_rep_eflags.
    exact (alloc_rep base h _ bs (request_total size) p bs' Hrep (proj1 Htr) Htm Ea Hr).
  - subst h'. split; [done|]. destruct Hrep. by constructor.
Qed.

(** *** Freeing *)

(** The block at an address: the list around it. *)
Lemma block_at_split p a bs b :
  block_at p a bs = Some b -> exists l1 l2, bs = l1 ++ b :: l2 /\ p = a + total l1.
Proof.
  revert a. induction bs as [|x bs IH]; intros a H; cbn in H; [done|]. case_if_in H.
  - injection H as ->. exists [], bs. cbn. by rewrite Z.add_0_r.
  - destruct (IH _ H) as (l1 & l2 & -> & ->). exists (x :: l1), l2. cbn. split; [done|lia].
Qed.

Lemma coalesced_app_l l1 l2 : coalesced (l1 ++ l2) -> coalesced l1.
Proof.
  induction l1 as [|x l1 IH]; [done|]. cbn [app]. rewrite !coalesced_cons.
  intros [H1 H2]. split; [auto|]. intros n l -> Hb. by eapply H2.
Qed.

(** The block list after a free keeps the representation. *)
Lemma free_rep base h h' l1 b l2 :
  heap_rep base h (l1 ++ b :: l2) ->
  linked base h' (merge_prev l1 (coalesce b l2)) ->
  heap_rep base h' (merge_prev l1 (coalesce b l2)).
Proof.
  intros [_ _ _ Hok Hco] (Hf & Hc & Ht & _).
  apply Forall_app in Hok as [Hok1 [Hb Hok2]%Forall_cons].
  pose proof (coalesced_app_l _ _ Hco) as Hco1.
  apply coalesced_app in Hco as [_ Hco2]. apply coalesced_cons in Hco2 as [Hco2 _].
  pose proof (coalesce_coalesced b l2 Hco2) as Hcc.
  pose proof (coalesce_ok b l2 Hb Hok2) as Hck.
  destruct (coalesce_head b l2) as (s & r & E). rewrite E in *.
  constructor; auto; [by apply merge_prev_ok|by apply coalesced_merge_prev].
Qed.

(** The free path of [kfree] on the linked list. *)
Lemma kfree_linked base h l1 b l2 :
  0 < base /\ base + HEAP_SIZE < 2 ^ 32 -> linked base h (l1 ++ b :: l2) ->
  exists h1 h2, merge_right (base + total l1) (put_is_free (base + total l1) 1 h) = Some h1 /\
    merge_left (base + total l1) h1 = Some h2 /\
    linked base h2 (merge_prev l1 (coalesce b l2)).
Proof.
  intros Hbase Hl. pose proof (put_is_free_ok base h l1 b l2 true Hl) as Hl1.
  destruct (merge_right_ok base Hbase _ l1 (b_size b) l2 Hl1) as (h1 & Hm1 & _ & Hl2).
  change (coalesce (Blk (b_size b) true) l2) with (coalesce b l2) in Hl2.
  destruct (coalesce_head b l2) as (s & r & E). rewrite E in *.
  destruct (merge_left_ok base Hbase h1 l1 s r Hl2) as (h2 & Hm2 & _ & Hl3).
  by exists h1, h2.
Qed.

(** [kfree] refines coalescing. *)
Lemma kfree_ok base p b h bs :
  0 < base /\ base + HEAP_SIZE < 2 ^ 32 -> heap_rep base h bs ->
  block_at p base bs = Some b -> b_free b = false ->
  exists h', kfree (p + 16) h = Some h' /\ eflags h' = eflags h /\
    heap_rep base h' (free_spec p base bs).
Proof.
  intros Hbase Hrep Hat Hb. destruct (block_at_split _ _ _ _ Hat) as (l1 & l2 & -> & ->).
  pose proof (rep_linked base h _ Hrep) as Hl.
  destruct (linked_at base h _ _ _ Hl) as (Hg & Hp1 & Hbp & _ & ? & ? & Htot).
  unfold HEAP_SIZE in *. rewrite free_spec_app by done.
  unfold kfree. rewrite (proj2 (Z.eqb_neq (base + total l1 + 16) 0)) by lia.
  cbn [irq_save]. unfold sizeof_heap_header. rewrite Z.add_simpl_r, u32_small by lia.
  set (h0 := with_eflags _ h).
  assert (Hg0 : get (base + total l1) h0 = get (base + total l1) h) by done.
  rewrite Hg0, Hg. cbn [mbind option_bind h_is_free]. unfold free_flag. rewrite Hb.
  cbn [negb Z.eqb].
  destruct (kfree_linked base h0 l1 b l2 Hbase Hl) as (h1 & h2 & -> & E2 & Hl2).
  cbn [mbind option_bind]. rewrite E2. cbn [mbind option_bind].
  eexists; split; [done|]. split; [done|]. apply heap_rep_eflags. by eapply free_rep.
Qed.

(** A second free of the same block is refused. *)
Lemma kfree_free base p b h bs :
  0 < base /\ base + HEAP_SIZE < 2 ^ 32 -> heap_rep base h bs ->
  block_at p base bs = Some b -> b_free b = true -> kfree (p + 16) h = Some h.
Proof.
  intros Hbase Hrep Hat Hb. destruct (block_at_split _ _ _ _ Hat) as (l1 & l2 & -> & ->).
  destruct (linked_at base h _ _ _ (rep_linked base h _ Hrep)) as (Hg & _ & ? & _ & ? & ? & Htot).
  unfold HEAP_SIZE in *. unfold kfree.
  rewrite (proj2 (Z.eqb_neq (base + total l1 + 16) 0)) by lia.
  cbn [irq_save]. unfold sizeof_heap_header. rewrite Z.add_simpl_r, u32_small by lia.
  set (h0 := with_eflags _ h).
  assert (Hg0 : get (base + total l1) h0 = get (base + total l1) h) by done.
  rewrite Hg0, Hg. cbn [mbind option_bind h_is_free]. unfold free_flag. rewrite Hb.
  cbn [negb Z.eqb]. subst h0. unfold irq_save, irq_restore. cbn. by destruct h.
Qed.

(** *** What a caller sees *)

Lemma block_at_app a l1 b l2 :
  blocks_pos l1 -> block_at (a + total l1) a (l1 ++ b :: l2) = Some b.
Proof.
  revert a. induction l1 as [|x l1 IH]; intros a Hp; cbn.
  { by rewrite Z.add_0_r, Z.eqb_refl. }
  inversion Hp as [|? ? Hx Hl1]; subst. pose proof (total_nonneg _ Hl1).
  rewrite (proj2 (Z.eqb_neq _ _)) by lia. rewrite Z.add_assoc. auto.
Qed.

Lemma block_at_ge p a bs b : blocks_pos bs -> block_at p a bs = Some b -> a <= p.
Proof.
  intros Hp H. destruct (block_at_split _ _ _ _ H) as (l1 & l2 & -> & ->).
  apply Forall_app in Hp as [Hp _]. pose proof (total_nonneg _ Hp). lia.
Qed.

(** First fit moves no allocated block, and picks none of them. *)
Lemma alloc_spec_frame t a bs p bs' q b :
  blocks_pos bs -> alloc_spec t a bs = Some (p, bs') ->
  block_at q a bs = Some b -> b_free b = false -> q <> p /\ block_at q a bs' = Some b.
Proof.
  revert a bs'. induction bs as [|x bs IH]; intros a bs' Hp Ha Hq Hb; cbn in Ha, Hq; [done|].
  inversion Hp as [|? ? Hx Hbs]; subst. case_if_in Ha.
  - injection Ha as <- <-. case_if_in Hq; [congruence|]. split; [done|].
    pose proof (block_at_ge _ _ _ _ Hbs Hq). case_if; cbn.
    + rewrite !(proj2 (Z.eqb_neq q _)) by lia.
      by replace (a + t + (b_size x - t)) with (a + b_size x) by lia.
    + by rewrite (proj2 (Z.eqb_neq q _)) by lia.
  - destruct (alloc_spec t (a + b_size x) bs) as [[r l]|] eqn:E; [|done].
    injection Ha as -> <-. cbn. case_if_in Hq.
    + subst q. injection Hq as ->. split.
      * destruct (alloc_spec_split _ _ _ _ _ E) as (l1 & ? & l2 & -> & -> & _).
        apply Forall_app in Hbs as [Hl1 _]. pose proof (total_nonneg _ Hl1). lia.
      * done.
    + destruct (IH _ _ Hbs E Hq Hb) as [? ?]. split; [done|].
      done.
Qed.

(** The block first fit returns: allocated, large enough, inside the list. *)
Lemma alloc_spec_at t a bs p bs' :
  0 < t -> blocks_pos bs -> alloc_spec t a bs = Some (p, bs') ->
  exists b, block_at p a bs' = Some b /\ b_free b = false /\ t <= b_size b /\
    a <= p /\ p + b_size b <= a + total bs.
Proof.
  intros Ht Hp Ha. destruct (alloc_spec_split _ _ _ _ _ Ha) as (l1 & b & l2 & -> & -> & Hf & ? & ->).
  apply Forall_app in Hp as [Hl1 [Hb Hl2]%Forall_cons].
  pose proof (total_nonneg _ Hl1). pose proof (total_nonneg _ Hl2).
  rewrite total_app. cbn [total]. case_if.
  - exists (Blk t false). rewrite block_at_app by done. split_and!; cbn in *; auto; lia.
  - exists (Blk (b_size b) false). rewrite block_at_app by done. split_and!; cbn in *; auto; lia.
Qed.

Lemma total_mod bs : Forall block_ok bs -> total bs mod 4 = 0.
Proof.
  induction 1 as [|b bs [_ Hb] _ IH]; [done|]. cbn. by rewrite Zplus_mod, Hb, IH.
Qed.

(** The region a successful [kmalloc] hands out, in the new block list [bs']. *)
Definition fresh_region (base size r : Z) (bs bs' : list block) : Prop :=
  (exists b, block_at (r - 16) base bs' = Some b /\ b_free b = false /\
     size <= b_size b - 16 /\ r - 16 + b_size b <= base + HEAP_SIZE) /\
  base + 16 <= r /\ (r - base) mod 4 = 0 /\
  forall q b, block_at q base bs = Some b -> b_free b = false ->
    q <> r - 16 /\ block_at q base bs' = Some b.

(** What [kmalloc] promises, on either outcome. *)
Lemma kmalloc_fresh base size h bs :
  0 < base /\ base + HEAP_SIZE < 2 ^ 32 -> heap_rep base h bs -> 0 < size <= 2 ^ 32 - 44 ->
  exists r h', kmalloc size h = Some (r, h') /\ eflags h' = eflags h /\
    match alloc_spec (request_total size) base bs with
    | Some (p, bs') => r = p + 16 /\ heap_rep base h' bs' /\ fresh_region base size r bs bs'
    | None => r = 0 /\ heap_rep base h' bs /\
        Forall (fun b => b_free b = true -> b_size b < request_total size) bs
    end.
Proof.
  intros Hbase Hrep Hs. destruct (kmalloc_ok base size h bs Hbase Hrep Hs) as (r & h' & Hk & He & Hr).
  destruct (request_total_ok size Hs) as (_ & Htr & _ & Hsz).
  pose proof (block_ok_pos _ (rep_ok _ _ _ Hrep)) as Hp. pose proof (rep_total _ _ _ Hrep) as Htot.
  exists r, h'. split; [done|]. split; [done|].
  destruct (alloc_spec _ base bs) as [[p bs']|] eqn:Ea.
  - destruct Hr as [-> Hr]. split; [done|]. split; [done|]. unfold fresh_region.
    rewrite Z.add_simpl_r.
    destruct (alloc_spec_at (request_total size) _ _ _ _ ltac:(lia) Hp Ea) as (b & Hb & Hf & Hle & Hge & Hin).
    split_and!; [exists b; split_and!; [done..|lia|lia]|lia| |].
    + destruct (alloc_spec_split _ _ _ _ _ Ea) as (l1 & ? & l2 & -> & -> & _).
      pose proof (rep_ok _ _ _ Hrep) as [Hl1 _]%Forall_app.
      replace (base + total l1 + 16 - base) with (total l1 + 4 * 4) by lia.
      rewrite Z_mod_plus_full. by apply total_mod.
    + intros q x Hq Hx. by eapply alloc_spec_frame.
  - destruct Hr as [-> Hr]. split_and!; auto. by eapply alloc_spec_none.
Qed.

(** On either outcome the heap stays well-formed and what was allocated stays. *)
Lemma kmalloc_keeps base size h bs r h' :
  0 < base /\ base + HEAP_SIZE < 2 ^ 32 -> heap_rep base h bs -> 0 < size <= 2 ^ 32 - 44 ->
  kmalloc size h = Some (r, h') ->
  exists bs', heap_rep base h' bs' /\ eflags h' = eflags h /\
    (forall q b, block_at q base bs = Some b -> b_free b = false -> block_at q base bs' = Some b) /\
    (r <> 0 -> fresh_region base size r bs bs').
Proof.
  intros Hbase Hrep Hs Hk. destruct (kmalloc_fresh base size h bs Hbase Hrep Hs)
    as (r' & h1 & Hk' & He & Hc).
  rewrite Hk in Hk'. injection Hk' as <- <-.
  destruct (alloc_spec _ base bs) as [[p bs']|].
  - destruct Hc as (_ & Hr & Hf). exists bs'. split_and!; auto. intros q b ? ?. by apply Hf.
  - destruct Hc as (-> & Hr & _). by exists bs.
Qed.

(** *** Room for a series of requests *)

Definition room (n : Z) (bs : list block) : Prop :=
  Exists (fun b => b_free b = true /\ n <= b_size b) bs.

Lemma alloc_spec_room t n a bs :
  0 <= t -> 20 < n -> room (t + n) bs ->
  exists p bs', alloc_spec t a bs = Some (p, bs') /\ room n bs'.
Proof.
  intros Ht Hn. revert a. induction bs as [|b bs IH]; intros a Hr; [by inversion Hr|]. cbn.
  destruct (b_free b && (t <=? b_size b)) eqn:E; bool_hyps.
  - eexists _, _. split; [done|]. inversion Hr as [? ? [Hf Hb]|? ? Hr']; subst.
    + rewrite (proj2 (Z.ltb_lt _ _)) by lia. right. left. cbn. split; [done|lia].
    + assert (room n bs) by (eapply Exists_impl; [exact Hr'|]; cbn; intros x [? ?]; split; [done|lia]).
      case_if; [by do 2 right|by right].
  - inversion Hr as [? ? [Hf Hb]|? ? Hr']; subst.
    + destruct E as [E|E]; bool_hyps; [congruence|lia].
    + destruct (IH (a + b_size b) Hr') as (p & bs' & -> & ?). eexists _, _. split; [done|by right].
Qed.

(** With room, a request succeeds and the rest of the room stays. *)
Lemma kmalloc_room base size n h bs :
  0 < base /\ base + HEAP_SIZE < 2 ^ 32 -> heap_rep base h bs -> 0 < size <= 2 ^ 32 - 44 ->
  20 < n -> room (request_total size + n) bs ->
  exists r h' bs', kmalloc size h = Some (r, h') /\ r <> 0 /\ eflags h' = eflags h /\
    heap_rep base h' bs' /\ room n bs' /\ fresh_region base size r bs bs'.
Proof.
  intros Hbase Hrep Hs Hn Hr. destruct (kmalloc_fresh base size h bs Hbase Hrep Hs)
    as (r & h' & Hk & He & Hc).
  destruct (request_total_ok size Hs) as (_ & Ht & _).
  destruct (alloc_spec_room (request_total size) n base bs ltac:(lia) Hn Hr) as (p & bs' & E & Hr'). rewrite E in Hc.
  destruct Hc as (-> & Hrep' & Hf). exists (p + 16), h', bs'. split_and!; auto.
  destruct Hf as (_ & ? & _). lia.
Qed.

(** *** The fresh heap *)

Lemma init_kheap_first base h : get base (init_kheap base h) = Some (Hdr HEAP_SIZE 1 0 0).
Proof. unfold init_kheap. heap_unfold. by heap_get. Qed.

Lemma init_kheap_rep base h :
  heap_rep base (init_kheap base h) [Blk HEAP_SIZE true].
Proof.
  constructor; [done| |done| |done].
  - split; [exact (init_kheap_first base h)|done].
  - by repeat constructor.
Qed.

(** ** Properties *)

(** C2 (kmalloc): on a well-formed heap a request of up to 2^32 - 44 bytes
    always returns, keeps EFLAGS and the well-formedness, and does first fit
    with splitting: it fails, with the heap unchanged, exactly when no free
    block is large enough; otherwise the returned region is 4-aligned, inside
    the heap, at least [size] bytes long, part of a block of its own, and every
    block that was allocated stays allocated at its place and size. *)
Theorem kmalloc_refines base size h bs :
  0 < base /\ base + HEAP_SIZE < 2 ^ 32 -> heap_rep base h bs -> 0 < size <= 2 ^ 32 - 44 ->
  exists r h', kmalloc size h = Some (r, h') /\ eflags h' = eflags h /\
    match alloc_spec (request_total size) base bs with
    | Some (p, bs') => r = p + 16 /\ heap_rep base h' bs' /\ fresh_region base size r bs bs'
    | None => r = 0 /\ heap_rep base h' bs /\
        Forall (fun b => b_free b = true -> b_size b < request_total size) bs
    end.
Proof. apply kmalloc_fresh. Qed.

(** C5 (kfree): freeing the data address of an allocated block always returns,
    keeps EFLAGS, and coalesces the block with its free neighbours in the block
    list, so that the heap stays well-formed with no two adjacent free blocks;
    freeing a block that is already free changes nothing. *)
Theorem kfree_refines base p b h bs :
  0 < base /\ base + HEAP_SIZE < 2 ^ 32 -> heap_rep base h bs -> block_at p base bs = Some b ->
  exists h', kfree (p + 16) h = Some h' /\ eflags h' = eflags h /\
    heap_rep base h' (if b_free b then bs else free_spec p base bs).
Proof.
  intros Hbase Hrep Hat. destruct (b_free b) eqn:Hb.
  - exists h. split_and!; auto. by eapply kfree_free.
  - by eapply kfree_ok.
Qed.

(** (kmalloc then kfree): freeing what [kmalloc] returned gives back exactly
    the block list there was before, whatever the list: no fragmentation is
    left behind. *)
Theorem kmalloc_kfree_roundtrip base size h bs r h1 :
  0 < base /\ base + HEAP_SIZE < 2 ^ 32 -> heap_rep base h bs -> 0 < size <= 2 ^ 32 - 44 ->
  kmalloc size h = Some (r, h1) ->
  exists h2, kfree r h1 = Some h2 /\ heap_rep base h2 bs /\ eflags h2 = eflags h.
Proof.
  intros Hbase Hrep Hs Hk. destruct (kmalloc_ok base size h bs Hbase Hrep Hs) as (r' & h' & Hk' & He & Hr).
  rewrite Hk in Hk'. injection Hk' as <- <-.
  destruct (request_total_ok size Hs) as (_ & Htr & _ & Hsz).
  pose proof (block_ok_pos _ (rep_ok _ _ _ Hrep)) as Hp.
  destruct (alloc_spec _ base bs) as [[p bs']|] eqn:Ea; destruct Hr as [-> Hr].
  - destruct (alloc_spec_at (request_total size) _ _ _ _ ltac:(lia) Hp Ea) as (b & Hb & Hf & _).
    destruct (kfree_ok base p b h1 bs' Hbase Hr Hb Hf) as (h2 & Hf2 & He2 & Hr2).
    exists h2. rewrite (free_alloc_spec _ _ _ _ _ (proj1 Htr) Hp (rep_coalesced _ _ _ Hrep) Ea) in Hr2.
    split_and!; auto. congruence.
  - by exists h1.
Qed.

(** (kmalloc overflow): the request 0xFFFFFFF0 makes the 32-bit sum of the
    size and the header wrap to 0.  On the fresh heap the call then succeeds,
    leaving the first header linked to itself with size 0 and in use; from then
    on the search loop of every further request runs forever. *)
Theorem kmalloc_overflow_hangs base h r h1 :
  0 < base /\ base + HEAP_SIZE < 2 ^ 32 ->
  kmalloc 0xFFFFFFF0 (init_kheap base h) = Some (r, h1) ->
  r = base + 16 /\ get base h1 = Some (Hdr 0 0 base base) /\
  forall total_size fuel, kmalloc_loop fuel total_size (heap_first h1) h1 = None.
Proof.
  unfold HEAP_SIZE. intros Hbase Hk.
  pose proof (init_kheap_first base h) as Hg. revert Hk.
  change (kmalloc _ _) with
    ('(p, h') ← kmalloc_loop (S (size_of (hdrs (init_kheap base h)))) 0 base
        (with_eflags (cli (eflags h)) (init_kheap base h));
     Some (p, with_eflags (eflags h) h')).
  cbn [kmalloc_loop]. rewrite (proj2 (Z.eqb_neq base 0)) by lia.
  set (h0 := with_eflags _ (init_kheap base h)).
  assert (Hg0 : get base h0 = Some (Hdr HEAP_SIZE 1 0 0)) by exact Hg.
  rewrite Hg0. cbn [mbind option_bind h_is_free h_size]. cbn [negb Z.eqb andb].
  change (0 <=? HEAP_SIZE) with true. cbn [andb].
  change (u32 (0 + sizeof_heap_header + 4) <? HEAP_SIZE) with true. cbn iota.
  unfold split_block. rewrite Hg0. cbn [mbind option_bind].
  rewrite Z.add_0_r, !u32_small by (unfold sizeof_heap_header; lia). heap_unfold. heap_get.
  rewrite Hg0. cbn [mbind option_bind]. heap_get. cbn [mbind option_bind]. heap_get.
  cbn [default h_next from_option id mbind option_bind Z.eqb negb]. heap_get.
  intros [= <- <-]. match goal with |- _ /\ get base ?x = _ /\ _ => set (h2 := x) end.
  assert (Hg2 : get base h2 = Some (Hdr 0 0 base base)).
  { subst h2. rewrite get_with_eflags. heap_get. done. }
  split; [done|]. split; [done|]. intros t fuel.
  assert (Hf : heap_first h2 = base) by done. rewrite Hf.
  induction fuel as [|fuel IH]; cbn [kmalloc_loop];
    rewrite (proj2 (Z.eqb_neq base 0)) by lia; [done|].
  rewrite Hg2. cbn [mbind option_bind h_is_free h_next negb Z.eqb andb]. exact IH.
Qed.

(** ** Witnesses *)

(** The heap array at 0xC0200000, with interrupts enabled. *)
Definition sample_base : Z := 0xC0200000.
Definition sample_kheap : kheap := init_kheap sample_base (Kheap 0 ∅ 0x202).
Definition used_kheap : kheap :=
  match kmalloc 100 sample_kheap with Some (_, h) => h | None => sample_kheap end.

Lemma sample_base_ok : 0 < sample_base /\ sample_base + HEAP_SIZE < 2 ^ 32.
Proof. vm_compute. done. Qed.

Lemma used_kheap_rep : heap_rep sample_base used_kheap [Blk 116 false; Blk (HEAP_SIZE - 116) true].
Proof.
  constructor; [reflexivity|vm_compute; done|reflexivity| |].
  - repeat constructor; vm_compute; done.
  - vm_compute. split; [by intros [? _]|done].
Qed.

Lemma kmalloc_refines_witness :
  exists r h', kmalloc 100 sample_kheap = Some (r, h') /\ r = sample_base + 16.
Proof.
  destruct (kmalloc_refines sample_base 100 sample_kheap [Blk HEAP_SIZE true] sample_base_ok
    (init_kheap_rep _ _)) as (r & h' & Hk & _ & Hr); [lia|].
  exists r, h'. split; [exact Hk|].
  assert (Ha : alloc_spec (request_total 100) sample_base [Blk HEAP_SIZE true] =
    Some (sample_base, [Blk 116 false; Blk (HEAP_SIZE - 116) true])) by (vm_compute; reflexivity).
  rewrite Ha in Hr. exact (proj1 Hr).
Defined.

Lemma kfree_refines_witness :
  exists h', kfree (sample_base + 16) used_kheap = Some h' /\
    heap_rep sample_base h' [Blk HEAP_SIZE true].
Proof.
  destruct (kfree_refines sample_base sample_base (Blk 116 false) used_kheap _ sample_base_ok
    used_kheap_rep) as (h' & Hk & _ & Hr); [reflexivity|].
  exists h'. by split.
Defined.

Lemma kmalloc_kfree_roundtrip_witness :
  exists h', kfree (sample_base + 132) (match kmalloc 8 used_kheap with
                                       | Some (_, h) => h | None => used_kheap end) = Some h' /\
    heap_rep sample_base h' [Blk 116 false; Blk (HEAP_SIZE - 116) true].
Proof.
  destruct (kmalloc_kfree_roundtrip sample_base 8 used_kheap _ (sample_base + 132)
    (match kmalloc 8 used_kheap with Some (_, h) => h | None => used_kheap end)
    sample_base_ok used_kheap_rep) as (h' & Hk & Hr & _); [lia|vm_compute; reflexivity|].
  exists h'. by split.
Defined.

Lemma kmalloc_overflow_hangs_witness :
  exists h1, kmalloc 0xFFFFFFF0 sample_kheap = Some (sample_base + 16, h1) /\
    kmalloc_loop 1000 24 (heap_first h1) h1 = None.
Proof.
  destruct (kmalloc 0xFFFFFFF0 sample_kheap) as [[r h1]|] eqn:E.
  - destruct (kmalloc_overflow_hangs sample_base _ r h1 sample_base_ok E) as (-> & _ & Hn).
    exists h1. split; [done|]. apply Hn.
  - exfalso. revert E. vm_compute. discriminate.
Defined.
