(* ===== verification/Desc.v ===== *)
(** * Desc: descriptor tables (kernel/core/gdt.c, kernel/core/idt.c,
    kernel/proc/tss.c)

    The GDT, IDT and TSS records with the functions that fill them, the
    processor's reading of an entry, and the dispatch of a vector through the
    assembly stubs of boot/boot.s to [isr_handler]. *)

From S2P Require Export Prelude.
From stdpp Require Import strings.
Open Scope Z_scope.

(** ** The GDT *)

Record gdt_entry_struct := GdtEntry {
  limit_low : Z;
  base_low : Z;
  base_middle : Z;
  access : Z;
  granularity : Z;
  base_high : Z
}.

Definition sizeof_gdt_entry : Z := 8.

(** The pointer loaded by [lgdt]/[lidt]. *)
Record desc_ptr := DescPtr { ptr_limit : Z; ptr_base : Z }.

Definition gdt_set_gate (num base limit acc gran : Z) (gdt : list gdt_entry_struct)
    : option (list gdt_entry_struct) :=
  aset gdt num
    (GdtEntry (Z.land limit 0xFFFF) (Z.land base 0xFFFF)
       (Z.land (Z.shiftr base 16) 0xFF) acc
       (Z.lor (Z.land (Z.shiftr limit 16) 0x0F) (Z.land gran 0xF0))
       (Z.land (Z.shiftr base 24) 0xFF)).

(** [init_gdt]: the pointer and the five flat segments. *)
Definition init_gdt (gdt_address : Z) (gdt : list gdt_entry_struct)
    : option (desc_ptr * list gdt_entry_struct) :=
  let p := DescPtr (u16 (sizeof_gdt_entry * 6 - 1)) gdt_address in
  gdt ← gdt_set_gate 0 0 0 0 0 gdt;
  gdt ← gdt_set_gate 1 0 0xFFFFFFFF 0x9A 0xCF gdt;
  gdt ← gdt_set_gate 2 0 0xFFFFFFFF 0x92 0xCF gdt;
  gdt ← gdt_set_gate 3 0 0xFFFFFFFF 0xFA 0xCF gdt;
  gdt ← gdt_set_gate 4 0 0xFFFFFFFF 0xF2 0xCF gdt;
  Some (p, gdt).

(** The processor's reading of a segment descriptor. *)
Definition seg_base (e : gdt_entry_struct) : Z :=
  base_low e + Z.shiftl (base_middle e) 16 + Z.shiftl (base_high e) 24.
Definition seg_limit20 (e : gdt_entry_struct) : Z :=
  limit_low e + Z.shiftl (Z.land (granularity e) 0x0F) 16.
Definition seg_gran4k (e : gdt_entry_struct) : bool := Z.testbit (granularity e) 7.
(** The last valid offset. *)
Definition seg_limit (e : gdt_entry_struct) : Z :=
  if seg_gran4k e then Z.lor (Z.shiftl (seg_limit20 e) 12) 0xFFF else seg_limit20 e.
Definition seg_dpl (e : gdt_entry_struct) : Z := Z.land (Z.shiftr (access e) 5) 3.
Definition seg_present (e : gdt_entry_struct) : bool := Z.testbit (access e) 7.
Definition seg_code (e : gdt_entry_struct) : bool :=
  Z.testbit (access e) 4 && Z.testbit (access e) 3.

(** ** The TSS *)

Record tss_entry_struct := Tss {
  prev_tss : Z; esp0 : Z; ss0 : Z;
  esp1 : Z; ss1 : Z; esp2 : Z; ss2 : Z; tss_cr3 : Z;
  tss_eip : Z; tss_eflags : Z; tss_eax : Z; tss_ecx : Z; tss_edx : Z; tss_ebx : Z;
  tss_esp : Z; tss_ebp : Z; tss_esi : Z; tss_edi : Z;
  tss_es : Z; tss_cs : Z; tss_ss : Z; tss_ds : Z; tss_fs : Z; tss_gs : Z;
  ldt : Z; trap : Z; iomap_base : Z
}.

Definition sizeof_tss_entry : Z := 104.

Definition tss_zero : tss_entry_struct :=
  Tss 0 0 0 0 0 0 0 0 0 0 0 0 0 0 0 0 0 0 0 0 0 0 0 0 0 0 0.

Definition set_esp0 (v : Z) (t : tss_entry_struct) : tss_entry_struct :=
  Tss (prev_tss t) v (ss0 t) (esp1 t) (ss1 t) (esp2 t) (ss2 t) (tss_cr3 t) (tss_eip t)
    (tss_eflags t) (tss_eax t) (tss_ecx t) (tss_edx t) (tss_ebx t) (tss_esp t) (tss_ebp t)
    (tss_esi t) (tss_edi t) (tss_es t) (tss_cs t) (tss_ss t) (tss_ds t) (tss_fs t) (tss_gs t)
    (ldt t) (trap t) (iomap_base t).
Definition set_ss0 (v : Z) (t : tss_entry_struct) : tss_entry_struct :=
  Tss (prev_tss t) (esp0 t) v (esp1 t) (ss1 t) (esp2 t) (ss2 t) (tss_cr3 t) (tss_eip t)
    (tss_eflags t) (tss_eax t) (tss_ecx t) (tss_edx t) (tss_ebx t) (tss_esp t) (tss_ebp t)
    (tss_esi t) (tss_edi t) (tss_es t) (tss_cs t) (tss_ss t) (tss_ds t) (tss_fs t) (tss_gs t)
    (ldt t) (trap t) (iomap_base t).
Definition set_iomap (v : Z) (t : tss_entry_struct) : tss_entry_struct :=
  Tss (prev_tss t) (esp0 t) (ss0 t) (esp1 t) (ss1 t) (esp2 t) (ss2 t) (tss_cr3 t) (tss_eip t)
    (tss_eflags t) (tss_eax t) (tss_ecx t) (tss_edx t) (tss_ebx t) (tss_esp t) (tss_ebp t)
    (tss_esi t) (tss_edi t) (tss_es t) (tss_cs t) (tss_ss t) (tss_ds t) (tss_fs t) (tss_gs t)
    (ldt t) (trap t) v.

(** [write_tss]: the descriptor, then the record, cleared byte by byte. *)
Definition write_tss (tss_address num ss esp : Z)
    (gdt : list gdt_entry_struct) : option (list gdt_entry_struct * tss_entry_struct) :=
  gdt ← gdt_set_gate num tss_address sizeof_tss_entry 0x89 0x40 gdt;
  Some (gdt, set_iomap sizeof_tss_entry (set_esp0 esp (set_ss0 ss tss_zero))).

Definition set_kernel_stack (stack : Z) (t : tss_entry_struct) : tss_entry_struct :=
  set_esp0 stack t.

(** ** The IDT *)

Record idt_entry_struct := IdtEntry {
  i_base_low : Z;
  i_sel : Z;
  i_always0 : Z;
  i_flags : Z;
  i_base_high : Z
}.

Definition sizeof_idt_entry : Z := 8.

Definition idt_set_gate (num base sel flags : Z) (idt : list idt_entry_struct)
    : option (list idt_entry_struct) :=
  aset idt num
    (IdtEntry (Z.land base 0xFFFF) sel 0 flags (Z.land (Z.shiftr base 16) 0xFFFF)).

(** The processor's reading of a gate. *)
Definition gate_offset (e : idt_entry_struct) : Z :=
  i_base_low e + Z.shiftl (i_base_high e) 16.
Definition gate_dpl (e : idt_entry_struct) : Z := Z.land (Z.shiftr (i_flags e) 5) 3.
Definition gate_present (e : idt_entry_struct) : bool := Z.testbit (i_flags e) 7.

(** The stubs of boot.s. *)
Inductive stub :=
| isr0
| isr14
| irq (n : Z)
| int80_handler.

Section idt.
(** Where the linker puts the stubs. *)
Variable addr : stub -> Z.

Definition init_idt (idt_address : Z) (idt : list idt_entry_struct)
    : option (desc_ptr * list idt_entry_struct) :=
  let p := DescPtr (u16 (sizeof_idt_entry * 256 - 1)) idt_address in
  idt ← for_do 0 256 (fun i idt => idt_set_gate (u8 i) (addr isr0) 0x08 0x8E idt) idt;
  idt ← idt_set_gate 14 (addr isr14) 0x08 0x8E idt;
  idt ← for_do 0 16 (fun i idt => idt_set_gate (32 + i) (addr (irq i)) 0x08 0x8E idt) idt;
  idt ← idt_set_gate 128 (addr int80_handler) 0x08 0xEE idt;
  Some (p, idt).
End idt.

(** What a stub does: the interrupt number it pushes and the C function it
    calls. *)
Inductive c_entry :=
| call_isr_handler
| call_irq_handler
| call_syscall_handler.

Definition stub_effect (s : stub) : Z * c_entry :=
  match s with
  | isr0 => (0, call_isr_handler)
  | isr14 => (14, call_isr_handler)
  | irq n => (32 + n, call_irq_handler)
  | int80_handler => (128, call_syscall_handler)
  end.

(** [isr_handler]: every branch ends in [panic] with a message. *)
Definition isr_handler (int_no : Z) : string :=
  if int_no =? 14 then "PAGE FAULT"%string
  else if int_no =? 0 then "DIVISION BY ZERO"%string
  else if int_no =? 13 then "GENERAL PROTECTION FAULT"%string
  else if int_no =? 8 then "DOUBLE FAULT"%string
  else "BILINMEYEN CPU ISTISNASI"%string.

(** ** Lemmas *)

Lemma split16 z : 0 <= z < 2 ^ 32 ->
  Z.land z 0xFFFF + Z.shiftl (Z.land (Z.shiftr z 16) 0xFFFF) 16 = z.
Proof.
  intros Hz. rewrite Z.shiftl_mul_pow2, Z.shiftr_div_pow2 by lia.
  change 0xFFFF with (Z.ones 16). rewrite !Z.land_ones by lia. pow2_lia.
Qed.

Lemma split24 z : 0 <= z < 2 ^ 32 ->
  Z.land z 0xFFFF + Z.shiftl (Z.land (Z.shiftr z 16) 0xFF) 16 +
  Z.shiftl (Z.land (Z.shiftr z 24) 0xFF) 24 = z.
Proof.
  intros Hz. rewrite !Z.shiftl_mul_pow2, !Z.shiftr_div_pow2 by lia.
  change 0xFFFF with (Z.ones 16). change 0xFF with (Z.ones 8).
  rewrite !Z.land_ones by lia. pow2_lia.
Qed.

(** The low nibble of the granularity byte is not disturbed by the flags. *)
Lemma gran_low l g :
  Z.land (Z.lor (Z.land l 0x0F) (Z.land g 0xF0)) 0x0F = Z.land l 0x0F.
Proof.
  apply Z.bits_inj'. intros n Hn. rewrite !Z.land_spec, Z.lor_spec, !Z.land_spec.
  change 0x0F with (Z.ones 4). destruct (Z.testbit (Z.ones 4) n) eqn:E; [|by rewrite !andb_false_r].
  rewrite Z.testbit_ones_nonneg in E by lia. apply Z.ltb_lt in E.
  assert (Hz : Z.testbit 0xF0 n = false).
  { assert (n = 0 \/ n = 1 \/ n = 2 \/ n = 3) as [->|[->|[->| ->]]] by lia; done. }
  rewrite Hz. by destruct (Z.testbit l n), (Z.testbit g n).
Qed.

Lemma gran_bit7 l g : Z.testbit (Z.lor (Z.land l 0x0F) (Z.land g 0xF0)) 7 = Z.testbit g 7.
Proof.
  rewrite Z.lor_spec, !Z.land_spec. change (Z.testbit 0x0F 7) with false.
  change (Z.testbit 0xF0 7) with true. by rewrite andb_false_r, andb_true_r.
Qed.

Lemma limit20 z :
  0 <= z -> Z.land z 0xFFFF + Z.shiftl (Z.land (Z.shiftr z 16) 0x0F) 16 = z mod 2 ^ 20.
Proof.
  intros Hz. rewrite Z.shiftl_mul_pow2, Z.shiftr_div_pow2 by lia.
  change 0xFFFF with (Z.ones 16). change 0x0F with (Z.ones 4).
  rewrite !Z.land_ones by lia. pow2_lia.
Qed.

Lemma pow32 : 2 ^ 32 = 4294967296.
Proof. reflexivity. Qed.

(** *** Filling the IDT *)

Definition mk_gate (base flags : Z) : idt_entry_struct :=
  IdtEntry (Z.land base 0xFFFF) 0x08 0 flags (Z.land (Z.shiftr base 16) 0xFFFF).

Lemma idt_set_gate_ok num base flags idt :
  0 <= num < Z.of_nat (length idt) ->
  exists idt', idt_set_gate num base 0x08 flags idt = Some idt' /\ length idt' = length idt /\
    forall n, aget idt' n = if decide (num = n) then Some (mk_gate base flags) else aget idt n.
Proof.
  intros Hn. unfold idt_set_gate. rewrite aset_eq by done. eexists; split; [done|].
  split; [apply length_insert|]. intros n. apply aget_aset. by rewrite aset_eq.
Qed.

(** The stub the table sends a vector to, and the flags of its gate. *)
Definition vector_stub (v : Z) : stub :=
  if v =? 128 then int80_handler
  else if (32 <=? v) && (v <? 48) then irq (v - 32)
  else if v =? 14 then isr14
  else isr0.
Definition vector_flags (v : Z) : Z := if v =? 128 then 0xEE else 0x8E.

Lemma init_idt_gates addr p idt :
  Z.of_nat (length idt) = 256 ->
  exists ptr idt', init_idt addr p idt = Some (ptr, idt') /\
    ptr = DescPtr 2047 p /\ Z.of_nat (length idt') = 256 /\
    forall v, 0 <= v < 256 -> aget idt' v = Some (mk_gate (addr (vector_stub v)) (vector_flags v)).
Proof.
  intros Hlen. unfold init_idt.
  destruct (for_do_rule (fun i t => length t = length idt /\
    forall v, 0 <= v < i -> aget t v = Some (mk_gate (addr isr0) 0x8E)) 0 256
    (fun i t => idt_set_gate (u8 i) (addr isr0) 0x08 0x8E t) idt) as (t1 & -> & Hl1 & H1);
    [lia|split; [done|lia]| |].
  { intros i t Hi [Hl H]. rewrite u8_small by lia.
    destruct (idt_set_gate_ok i (addr isr0) 0x8E t) as (t' & -> & Hl' & H'); [lia|].
    exists t'. split; [done|]. split; [congruence|]. intros v Hv. rewrite H'.
    case_decide; [done|apply H; lia]. }
  cbn [mbind option_bind].
  destruct (idt_set_gate_ok 14 (addr isr14) 0x8E t1) as (t2 & -> & Hl2 & H2); [lia|].
  cbn [mbind option_bind].
  destruct (for_do_rule (fun i t => length t = length idt /\
    forall v, 0 <= v < 256 -> aget t v =
      if (32 <=? v) && (v <? 32 + i) then Some (mk_gate (addr (irq (v - 32))) 0x8E) else aget t2 v) 0 16
    (fun i t => idt_set_gate (32 + i) (addr (irq i)) 0x08 0x8E t) t2) as (t3 & -> & Hl3 & H3);
    [lia|split; [congruence|]| |].
  { intros v Hv. by case_if; try lia. }
  { intros i t Hi [Hl H].
    destruct (idt_set_gate_ok (32 + i) (addr (irq i)) 0x8E t) as (t' & -> & Hl' & H'); [lia|].
    exists t'. split; [done|]. split; [congruence|]. intros v Hv. rewrite H'. case_decide.
    - subst v. rewrite (proj2 (Z.leb_le _ _)), (proj2 (Z.ltb_lt _ _)) by lia.
      by replace (32 + i - 32) with i by lia.
    - rewrite H by done. repeat case_if; try done; lia. }
  cbn [mbind option_bind].
  destruct (idt_set_gate_ok 128 (addr int80_handler) 0xEE t3) as (t4 & -> & Hl4 & H4); [lia|].
  cbn [mbind option_bind].
  eexists _, t4. split; [done|]. split; [done|]. split; [lia|].
  intros v Hv. rewrite H4. unfold vector_stub, vector_flags. case_decide.
  { by subst v. }
  rewrite H3, (proj2 (Z.eqb_neq v 128)) by lia. change (32 + 16) with 48. case_if; [done|].
  rewrite H2. case_decide; [by subst v|]. rewrite H1, (proj2 (Z.eqb_neq v 14)) by lia. done.
Qed.

(** ** Properties *)

(** (gdt_set_gate): for a 32-bit base and limit, the processor reads back
    from the descriptor the base, the low 20 bits of the limit, the access byte
    and the granularity flag; the other descriptors are unchanged. *)
Theorem gdt_gate_roundtrip num base limit acc gran gdt :
  0 <= num < Z.of_nat (length gdt) -> 0 <= base < 2 ^ 32 -> 0 <= limit < 2 ^ 32 ->
  exists gdt' e, gdt_set_gate num base limit acc gran gdt = Some gdt' /\
    aget gdt' num = Some e /\ seg_base e = base /\ seg_limit20 e = limit mod 2 ^ 20 /\
    access e = acc /\ seg_gran4k e = Z.testbit gran 7 /\
    forall n, n <> num -> aget gdt' n = aget gdt n.
Proof.
  intros Hn Hb Hl. unfold gdt_set_gate. set (e := GdtEntry _ _ _ _ _ _).
  destruct (aset gdt num e) as [gdt'|] eqn:E; [|by rewrite aset_eq in E].
  exists gdt', e. split; [done|]. split; [by eapply aget_aset_eq|]. split_and!.
  - apply split24. done.
  - unfold seg_limit20. subst e; cbn [limit_low granularity].
    rewrite gran_low. apply limit20. lia.
  - done.
  - apply gran_bit7.
  - intros n Hne. eapply aget_aset_ne; eauto.
Qed.

(** (init_idt): after initialisation every one of the 256 vectors is
    present, goes to its own stub with the kernel code selector, and vector 128
    is the only one user code may raise itself. *)
Theorem init_idt_dispatch addr p idt :
  Z.of_nat (length idt) = 256 -> (forall s, 0 <= addr s < 2 ^ 32) ->
  exists ptr idt', init_idt addr p idt = Some (ptr, idt') /\ ptr_limit ptr = 256 * 8 - 1 /\
    forall v, 0 <= v < 256 -> exists e, aget idt' v = Some e /\
      gate_offset e = addr (vector_stub v) /\ i_sel e = 0x08 /\ gate_present e = true /\
      (gate_dpl e = 3 <-> v = 128).
Proof.
  intros Hlen Haddr. destruct (init_idt_gates addr p idt Hlen) as (ptr & idt' & Hi & -> & _ & Hg).
  eexists _, idt'. split; [done|]. split; [done|]. intros v Hv.
  eexists. split; [by apply Hg|]. split; [by apply split16|].
  unfold vector_flags. destruct (Z.eqb_spec v 128); split_and!; try done.
Qed.

(** (exceptions): every processor exception except the page fault is
    reported as a division by zero, because the only stub that carries its own
    number is the one of vector 14; the branches of [isr_handler] for the
    general protection fault and the double fault are never taken. *)
Theorem exception_misreported v :
  0 <= v < 32 -> v <> 14 ->
  stub_effect (vector_stub v) = (0, call_isr_handler) /\
  isr_handler (fst (stub_effect (vector_stub v))) = "DIVISION BY ZERO"%string.
Proof.
  intros Hv H14. assert (Hs : vector_stub v = isr0).
  { unfold vector_stub. repeat case_if; try done; lia. }
  by rewrite Hs.
Qed.

(** [write_tss]: the task state segment is cleared but for the stack the
    processor switches to on entry to ring 0 and the I/O map base, its
    descriptor is a present 104-byte system segment at its address, and
    [set_kernel_stack] changes nothing but the stack pointer. *)
Lemma write_tss_spec a num ss esp stack gdt :
  0 <= num < Z.of_nat (length gdt) -> 0 <= a < 2 ^ 32 ->
  exists gdt' tss e, write_tss a num ss esp gdt = Some (gdt', tss) /\
    aget gdt' num = Some e /\ seg_base e = a /\ seg_limit e = sizeof_tss_entry /\
    seg_present e = true /\ seg_dpl e = 0 /\
    tss = Tss 0 esp ss 0 0 0 0 0 0 0 0 0 0 0 0 0 0 0 0 0 0 0 0 0 0 0 104 /\
    set_kernel_stack stack tss = Tss 0 stack ss 0 0 0 0 0 0 0 0 0 0 0 0 0 0 0 0 0 0 0 0 0 0 0 104.
Proof.
  intros Hn Ha. unfold write_tss, gdt_set_gate. rewrite aset_eq by done.
  cbn [mbind option_bind]. eexists _, _, _. split; [done|].
  split; [apply aget_aset_eq with (l := gdt); by rewrite aset_eq|].
  split; [by apply split24|]. done.
Qed.

(** ** Witnesses *)

Definition blank_gdt : list gdt_entry_struct := replicate 6 (GdtEntry 0 0 0 0 0 0).
Definition blank_idt : list idt_entry_struct := replicate 256 (IdtEntry 0 0 0 0 0).
Definition sample_addr (s : stub) : Z :=
  match s with isr0 => 0xC0100200 | isr14 => 0xC0100210
  | irq n => 0xC0100300 + 16 * (n mod 16) | int80_handler => 0xC0100280 end.

Lemma gdt_gate_roundtrip_witness :
  exists gdt' e, gdt_set_gate 3 0 0xFFFFFFFF 0xFA 0xCF blank_gdt = Some gdt' /\
    aget gdt' 3 = Some e /\ seg_base e = 0.
Proof.
  destruct (gdt_gate_roundtrip 3 0 0xFFFFFFFF 0xFA 0xCF blank_gdt) as (g & e & H1 & H2 & H3 & _);
    [cbn; lia|lia|lia|].
  by exists g, e.
Defined.

Lemma init_idt_dispatch_witness :
  exists ptr idt' e, init_idt sample_addr 0xC0200000 blank_idt = Some (ptr, idt') /\
    aget idt' 33 = Some e /\ gate_offset e = 0xC0100310.
Proof.
  destruct (init_idt_dispatch sample_addr 0xC0200000 blank_idt) as (ptr & idt' & Hi & _ & Hv).
  - reflexivity.
  - intros [| |n|]; cbn; try lia. pose proof (Z.mod_pos_bound n 16). lia.
  - destruct (Hv 33) as (e & He & Ho & _); [lia|]. exists ptr, idt', e.
    split; [exact Hi|]. split; [exact He|exact Ho].
Defined.

Lemma exception_misreported_witness :
  isr_handler (fst (stub_effect (vector_stub 13))) = "DIVISION BY ZERO"%string.
Proof. apply (exception_misreported 13); lia. Defined.
