(* ===== verification/Task.v ===== *)
(** * Task: multitasking (kernel/proc/task.c)

    Task control blocks in memory linked by [next], the interrupt frame
    [create_task] builds on a new stack, and the round-robin scheduler.  The
    control blocks, the stack words and the heap headers live in disjoint parts
    of the kernel's memory (the regions [kmalloc] hands out), so they are three
    maps. *)

From S2P Require Export KHeap Desc CString.

Definition TASK_READY : Z := 0.
Definition TASK_RUNNING : Z := 1.
Definition TASK_SLEEP : Z := 2.
Definition TASK_DEAD : Z := 3.

Record task_t := Task {
  id : Z;
  name : list Z;
  esp : Z;
  kstack_top : Z;
  page_dir : Z;
  state : Z;
  fd_table : list Z;
  fd_offset : list Z;
  heap_start : Z;
  heap_end : Z;
  next : Z
}.

Definition sizeof_task_t : Z := 192.

Definition set_id (v : Z) (t : task_t) : task_t :=
  Task v (name t) (esp t) (kstack_top t) (page_dir t) (state t) (fd_table t) (fd_offset t)
    (heap_start t) (heap_end t) (next t).
Definition set_name (v : list Z) (t : task_t) : task_t :=
  Task (id t) v (esp t) (kstack_top t) (page_dir t) (state t) (fd_table t) (fd_offset t)
    (heap_start t) (heap_end t) (next t).
Definition set_esp (v : Z) (t : task_t) : task_t :=
  Task (id t) (name t) v (kstack_top t) (page_dir t) (state t) (fd_table t) (fd_offset t)
    (heap_start t) (heap_end t) (next t).
Definition set_kstack_top (v : Z) (t : task_t) : task_t :=
  Task (id t) (name t) (esp t) v (page_dir t) (state t) (fd_table t) (fd_offset t)
    (heap_start t) (heap_end t) (next t).
Definition set_state (v : Z) (t : task_t) : task_t :=
  Task (id t) (name t) (esp t) (kstack_top t) (page_dir t) v (fd_table t) (fd_offset t)
    (heap_start t) (heap_end t) (next t).
Definition set_fds (tbl off : list Z) (t : task_t) : task_t :=
  Task (id t) (name t) (esp t) (kstack_top t) (page_dir t) (state t) tbl off
    (heap_start t) (heap_end t) (next t).
Definition set_heap (s e : Z) (t : task_t) : task_t :=
  Task (id t) (name t) (esp t) (kstack_top t) (page_dir t) (state t) (fd_table t) (fd_offset t)
    s e (next t).
Definition set_next (v : Z) (t : task_t) : task_t :=
  Task (id t) (name t) (esp t) (kstack_top t) (page_dir t) (state t) (fd_table t) (fd_offset t)
    (heap_start t) (heap_end t) v.

(** ** The state of the component *)

Record sched := Sched {
  current_task : Z;
  task_list : Z;
  next_pid : Z;
  tasks : gmap Z task_t;
  words : gmap Z Z;
  heap : kheap;
  tss : tss_entry_struct
}.

Definition with_current (v : Z) (s : sched) : sched :=
  Sched v (task_list s) (next_pid s) (tasks s) (words s) (heap s) (tss s).
Definition with_task_list (v : Z) (s : sched) : sched :=
  Sched (current_task s) v (next_pid s) (tasks s) (words s) (heap s) (tss s).
Definition with_next_pid (v : Z) (s : sched) : sched :=
  Sched (current_task s) (task_list s) v (tasks s) (words s) (heap s) (tss s).
Definition with_tasks (v : gmap Z task_t) (s : sched) : sched :=
  Sched (current_task s) (task_list s) (next_pid s) v (words s) (heap s) (tss s).
Definition with_words (v : gmap Z Z) (s : sched) : sched :=
  Sched (current_task s) (task_list s) (next_pid s) (tasks s) v (heap s) (tss s).
Definition with_heap (v : kheap) (s : sched) : sched :=
  Sched (current_task s) (task_list s) (next_pid s) (tasks s) (words s) v (tss s).
Definition with_tss (v : tss_entry_struct) (s : sched) : sched :=
  Sched (current_task s) (task_list s) (next_pid s) (tasks s) (words s) (heap s) v.

(** What fresh heap memory holds when it is read as a control block: the
    fields keep some arbitrary value until they are written. *)
Definition raw_task : task_t :=
  Task 0 (replicate 32 0) 0 0 0 0 (replicate 16 0) (replicate 16 0) 0 0 0.

(** A field write through a task pointer.  Page 0 is not mapped, so a write
    through the null pointer faults. *)
Definition upd_task (p : Z) (f : task_t -> task_t) (s : sched) : option sched :=
  if p =? 0 then None
  else Some (with_tasks (<[p := f (default raw_task (tasks s !! p))]> (tasks s)) s).

Definition read_task (p : Z) (s : sched) : option task_t := tasks s !! p.

(** ** Starting *)

Definition kernel_name : list Z := [107; 101; 114; 110; 101; 108; 0].

Definition init_multitasking (stack_top : Z) (s : sched) : option sched :=
  '(p, h) ← kmalloc sizeof_task_t (heap s);
  let s := with_current p (with_heap h s) in
  nm ← copy_name 32 0 32 kernel_name (name (default raw_task (tasks s !! p)));
  s ← upd_task p (set_name nm) s;
  s ← upd_task p (set_state TASK_RUNNING) s;
  s ← upd_task p (set_id (next_pid s)) s;
  let s := with_next_pid (next_pid s + 1) s in
  s ← upd_task p (set_next 0) s;
  let s := with_task_list p s in
  upd_task p (set_kstack_top stack_top) s.

(** ** Creating a task *)

(** [*(--esp) = v] for a list of values, in order. *)
Fixpoint push_all (vs : list Z) (sp : Z) (m : gmap Z Z) : Z * gmap Z Z :=
  match vs with
  | [] => (sp, m)
  | v :: vs' => push_all vs' (u32 (sp - 4)) (<[u32 (sp - 4) := v]> m)
  end.

(** The values pushed on the stack of a new task, in order. *)
Definition frame_words (stack_end entry_point : Z) (is_user : bool) : list Z :=
  (if is_user then [0x23; stack_end] else []) ++
  [0x202; if is_user then 0x1B else 0x08; entry_point;
   0; 0;
   0; 0; 0; 0; 0; 0; 0; 0;
   if is_user then 0x23 else 0x10].

(** [while (tmp->next) tmp = tmp->next]; out of fuel on a cyclic list. *)
Fixpoint last_task (fuel : nat) (tmp : Z) (s : sched) : option Z :=
  match fuel with
  | O => None
  | S fuel' =>
      t ← read_task tmp s;
      if next t =? 0 then Some tmp else last_task fuel' (next t) s
  end.

Definition create_task (nm : list Z) (entry_point : Z) (is_user : bool) (s : sched)
    : option (Z * sched) :=
  '(new_task, h) ← kmalloc sizeof_task_t (heap s);
  let s := with_heap h s in
  s ← upd_task new_task (set_id (next_pid s)) s;
  let s := with_next_pid (next_pid s + 1) s in
  nm ← copy_name 32 0 31 nm (name (default raw_task (tasks s !! new_task)));
  s ← upd_task new_task (set_name nm) s;
  let stack_size := 4096 in
  '(stack, h) ← kmalloc stack_size (heap s);
  let s := with_heap h s in
  if stack =? 0 then None else
  let '(sp, m) := push_all (frame_words (u32 (stack + stack_size)) entry_point is_user)
                    (u32 (stack + stack_size)) (words s) in
  let s := with_words m s in
  s ← upd_task new_task (set_esp sp) s;
  s ← (if is_user then
         '(k, h) ← kmalloc 4096 (heap s);
         upd_task new_task (set_kstack_top (u32 (k + 4096))) (with_heap h s)
       else upd_task new_task (set_kstack_top (u32 (stack + stack_size))) s);
  s ← upd_task new_task (set_state TASK_READY) s;
  s ← upd_task new_task (set_next 0) s;
  s ← upd_task new_task (set_heap 0x10000000 0x10000000) s;
  s ← upd_task new_task (set_fds (replicate 16 0) (replicate 16 0)) s;
  let '(flags, ef) := irq_save (eflags (heap s)) in
  let s := with_heap (with_eflags ef (heap s)) s in
  tmp ← last_task (S (size (tasks s))) (task_list s) s;
  s ← upd_task tmp (set_next new_task) s;
  Some (new_task, with_heap (with_eflags (irq_restore flags) (heap s)) s).

(** ** Scheduling *)

(** The search of [schedule_internal]: out of fuel when no task of the list is
    alive. *)
Fixpoint find_next (fuel : nat) (nx : Z) (s : sched) : option Z :=
  match fuel with
  | O => None
  | S fuel' =>
      let nx := if nx =? 0 then task_list s else nx in
      t ← read_task nx s;
      if negb (state t =? TASK_DEAD) then Some nx else find_next fuel' (next t) s
  end.

Definition schedule_internal (current_esp : Z) (s : sched) : option (Z * sched) :=
  if current_task s =? 0 then Some (current_esp, s) else
  s ← upd_task (current_task s) (set_esp current_esp) s;
  c ← read_task (current_task s) s;
  nx ← find_next (2 * S (size (tasks s))) (next c) s;
  let s := with_current nx s in
  s ← upd_task nx (set_state TASK_RUNNING) s;
  t ← read_task nx s;
  Some (esp t, with_tss (set_kernel_stack (kstack_top t) (tss s)) s).

(** [task_exit] up to its final [hlt] loop, with interrupts back on: [true]
    when it killed the task (the shell becomes active and prompts again). *)
Definition task_exit (s : sched) : option (bool * sched) :=
  let '(flags, ef) := irq_save (eflags (heap s)) in
  let s := with_heap (with_eflags ef (heap s)) s in
  '(killed, s) ← (if current_task s =? 0 then Some (false, s) else
    c ← read_task (current_task s) s;
    if negb (id c =? 1)
    then s ← upd_task (current_task s) (set_state TASK_DEAD) s; Some (true, s)
    else Some (false, s));
  Some (killed, with_heap (with_eflags (Z.setbit (eflags (heap s)) IF_BIT) (heap s)) s).

(** ** The interrupt return of boot.s

    [irq_common_stub] loads ESP with the value the scheduler returned, pops the
    frame and executes [iret]; the stack switch is part of [iret] when the
    frame's CS is of ring 3. *)

Record registers := Registers {
  r_ds : Z;
  r_edi : Z; r_esi : Z; r_ebp : Z; r_ebx : Z; r_edx : Z; r_ecx : Z; r_eax : Z;
  r_eip : Z; r_cs : Z; r_eflags : Z;
  r_user_stack : option (Z * Z)
}.

Definition irq_return (sp : Z) (m : gmap Z Z) : option registers :=
  ds ← m !! sp;
  edi ← m !! u32 (sp + 4); esi ← m !! u32 (sp + 8); ebp ← m !! u32 (sp + 12);
  ebx ← m !! u32 (sp + 20); edx ← m !! u32 (sp + 24); ecx ← m !! u32 (sp + 28);
  eax ← m !! u32 (sp + 32);
  eip ← m !! u32 (sp + 44); cs ← m !! u32 (sp + 48); fl ← m !! u32 (sp + 52);
  us ← (if Z.land cs 3 =? 3
        then e ← m !! u32 (sp + 56); x ← m !! u32 (sp + 60); Some (Some (x, e))
        else Some None);
  Some (Registers ds edi esi ebp ebx edx ecx eax eip cs fl us).

(** ** The task list *)

Definition alive (m : gmap Z task_t) (a : Z) : bool :=
  match m !! a with Some t => negb (state t =? TASK_DEAD) | None => false end.

(** The tasks of [l] are linked from address [p], and the last has no next. *)
Fixpoint linked_tasks (m : gmap Z task_t) (p : Z) (l : list Z) : Prop :=
  match l with
  | [] => p = 0
  | a :: l' => p = a /\ a <> 0 /\ exists t, m !! a = Some t /\ linked_tasks m (next t) l'
  end.

Lemma linked_lookup m p l a : linked_tasks m p l -> a ∈ l -> is_Some (m !! a) /\ a <> 0.
Proof.
  revert p. induction l as [|b l IH]; intros p Hl Ha; [by apply elem_of_nil in Ha|].
  destruct Hl as (-> & Hb & t & Ht & Hl). apply elem_of_cons in Ha as [->|Ha]; [|by eapply IH].
  split; [by rewrite Ht|done].
Qed.

(** Writes that keep the links. *)
Lemma linked_alter m p l f a :
  (forall t, next (f t) = next t) -> linked_tasks m p l -> linked_tasks (alter f a m) p l.
Proof.
  intros Hf. revert p. induction l as [|b l IH]; intros p; cbn; [done|].
  intros (-> & Hb & t & Ht & Hl). split; [done|]. split; [done|].
  destruct (decide (a = b)) as [->|Hne].
  - exists (f t). rewrite lookup_alter_eq, Ht. split; [done|]. rewrite Hf. auto.
  - exists t. rewrite lookup_alter_ne by done. auto.
Qed.

Lemma linked_insert_fresh m p l a t :
  a ∉ l -> linked_tasks m p l -> linked_tasks (<[a := t]> m) p l.
Proof.
  revert p. induction l as [|b l IH]; intros p Ha; cbn; [done|].
  intros (-> & Hb & x & Hx & Hl). apply not_elem_of_cons in Ha as [? ?].
  split; [done|]. split; [done|]. exists x. rewrite lookup_insert_ne by done. auto.
Qed.

(** The links from the middle of the list. *)
Lemma linked_app m p l1 a l2 :
  linked_tasks m p (l1 ++ a :: l2) -> exists t, m !! a = Some t /\ linked_tasks m (next t) l2.
Proof.
  revert p. induction l1 as [|b l1 IH]; intros p; cbn.
  - intros (_ & _ & t & ?). by exists t.
  - intros (_ & _ & t & _ & Hl). eauto.
Qed.

Lemma linked_size m p l : NoDup l -> linked_tasks m p l -> (length l <= size m)%nat.
Proof.
  intros Hd Hl. assert (Hs : list_to_set l ⊆ dom m).
  { intros a Ha. apply elem_of_list_to_set in Ha. apply elem_of_dom.
    by apply (linked_lookup _ _ _ _ Hl). }
  apply subseteq_size in Hs. rewrite size_list_to_set, size_dom in Hs by done. done.
Qed.

Lemma find_next_linked fuel p l s :
  linked_tasks (tasks s) p l -> p <> 0 \/ l = [] -> (length l <= fuel)%nat ->
  find_next fuel p s =
    match List.find (alive (tasks s)) l with
    | Some a => Some a
    | None => find_next (fuel - length l) 0 s
    end.
Proof.
  revert fuel p. induction l as [|a l IH]; intros fuel p Hl Hp Hf.
  { cbn in Hl |- *. subst p. by rewrite Nat.sub_0_r. }
  destruct Hl as (-> & Ha & t & Ht & Hl). destruct fuel as [|fuel]; [cbn in Hf; lia|].
  cbn [find_next List.find length]. rewrite (proj2 (Z.eqb_neq a 0)) by done.
  unfold alive at 1, read_task. rewrite Ht. cbn [mbind option_bind].
  destruct (negb (state t =? TASK_DEAD)); [done|]. rewrite (IH fuel (next t)); [done|done| |cbn in Hf; lia].
  destruct l as [|b l]; [by right|left]. by destruct Hl as (-> & ? & _).
Qed.

Lemma find_app {A} (f : A -> bool) l1 l2 :
  List.find f (l1 ++ l2) = match List.find f l1 with Some x => Some x | None => List.find f l2 end.
Proof. induction l1 as [|x l1 IH]; cbn; [done|]. by destruct (f x). Qed.

Lemma find_ext {A} (f g : A -> bool) l : (forall x, f x = g x) -> List.find f l = List.find g l.
Proof. intros H. induction l as [|x l IH]; cbn; [done|]. by rewrite H, IH. Qed.

Lemma find_exists {A} (f : A -> bool) l :
  Exists (fun x => f x = true) l -> exists x, List.find f l = Some x.
Proof.
  induction 1 as [x l Hx|x l _ [y IH]]; cbn; [rewrite Hx; eauto|]. destruct (f x); eauto.
Qed.

Lemma find_none {A} (f : A -> bool) l x : List.find f l = None -> x ∈ l -> f x = false.
Proof. intros Hf Hx. apply (List.find_none f l Hf). by apply list_elem_of_In. Qed.

Record sched_rep (s : sched) (l : list Z) : Prop := {
  sr_linked : linked_tasks (tasks s) (task_list s) l;
  sr_nodup : NoDup l;
  sr_current : current_task s ∈ l
}.

Lemma upd_task_ok p f s t :
  p <> 0 -> tasks s !! p = Some t -> upd_task p f s = Some (with_tasks (alter f p (tasks s)) s).
Proof.
  intros Hp Ht. unfold upd_task. rewrite (proj2 (Z.eqb_neq p 0)) by done. rewrite Ht. cbn.
  do 2 f_equal. apply map_eq. intros q. destruct (decide (p = q)) as [<-|Hne].
  - by rewrite lookup_insert_eq, lookup_alter_eq, Ht.
  - by rewrite lookup_insert_ne, lookup_alter_ne.
Qed.

Lemma alive_alter m f a b :
  (forall t, state (f t) = state t) -> alive (alter f a m) b = alive m b.
Proof.
  intros Hf. unfold alive. destruct (decide (a = b)) as [->|Hne].
  - rewrite lookup_alter_eq. destruct (m !! b); cbn; [by rewrite Hf|done].
  - by rewrite lookup_alter_ne.
Qed.

(** The whole effect of a switch. *)
Lemma schedule_ok e s l1 c l2 :
  sched_rep s (l1 ++ c :: l2) -> current_task s = c ->
  Exists (fun a => alive (tasks s) a = true) (l1 ++ c :: l2) ->
  exists n t, List.find (alive (tasks s)) (l2 ++ l1 ++ [c]) = Some n /\
    alter (set_esp e) c (tasks s) !! n = Some t /\
    schedule_internal e s = Some (esp t,
      Sched n (task_list s) (next_pid s)
        (alter (set_state TASK_RUNNING) n (alter (set_esp e) c (tasks s)))
        (words s) (heap s) (set_kernel_stack (kstack_top t) (tss s))).
Proof.
  intros [Hl Hd Hc] Hcur He. set (order := l1 ++ c :: l2) in *.
  destruct (linked_lookup _ _ _ c Hl) as [[tc Htc] Hc0]; [by rewrite <- Hcur|].
  unfold schedule_internal. rewrite Hcur, (proj2 (Z.eqb_neq c 0)) by done.
  rewrite (upd_task_ok _ _ _ _ Hc0 Htc). cbn [mbind option_bind].
  set (m1 := alter (set_esp e) c (tasks s)) in *. set (s1 := with_tasks m1 s).
  assert (Hl1 : linked_tasks m1 (task_list s) order) by (by apply linked_alter).
  assert (Hal : forall a, alive m1 a = alive (tasks s) a) by (intros; by apply alive_alter).
  destruct (linked_app _ _ l1 c l2 Hl1) as (t1 & Ht1 & Hl2).
  change (current_task s1) with (current_task s). rewrite Hcur.
  change (read_task c s1) with (m1 !! c). rewrite Ht1. cbn [mbind option_bind].
  pose proof (linked_size _ _ _ Hd Hl1) as Hsz.
  assert (Hsz2 : (length l2 < length order)%nat) by (subst order; rewrite length_app; cbn; lia).
  assert (Hne : task_list s <> 0) by (subst order; destruct l1; by destruct Hl1 as (-> & ? & _)).
  assert (Hfind : find_next (2 * S (size m1)) (next t1) s1 =
                  List.find (alive (tasks s)) (l2 ++ l1 ++ [c])).
  { rewrite (find_next_linked _ _ l2 s1 Hl2); [| |cbn; lia].
    2:{ destruct l2; [by right|left]. by destruct Hl2 as (-> & ? & _). }
    change (tasks s1) with m1. rewrite find_app.
    rewrite (find_ext (alive m1) (alive (tasks s)) _ Hal).
    destruct (List.find _ l2) as [a|] eqn:E; [done|].
    replace (2 * S (size m1) - length l2)%nat with (S (2 * S (size m1) - length l2 - 1)) by lia.
    assert (Hz : forall f, find_next (S f) 0 s1 = find_next (S f) (task_list s) s1).
    { intros f. cbn [find_next]. by rewrite (proj2 (Z.eqb_neq (task_list s) 0)). }
    rewrite Hz, (find_next_linked _ _ order s1 Hl1) by (auto; lia).
    change (tasks s1) with m1. rewrite (find_ext (alive m1) (alive (tasks s)) _ Hal).
    destruct (find_exists _ _ He) as [x Hx]. rewrite Hx. subst order.
    change (l1 ++ c :: l2) with (l1 ++ [c] ++ l2) in Hx. rewrite app_assoc, find_app, E in Hx.
    by destruct (List.find _ (l1 ++ [c])). }
  match goal with |- context [find_next ?f (next t1) ?x ≫= _] =>
    change (find_next f (next t1) x) with (find_next (2 * S (size m1)) (next t1) s1) end.
  rewrite Hfind.
  destruct (find_exists (alive (tasks s)) (l2 ++ l1 ++ [c])) as [n Hn].
  { apply Exists_app in He as [He|He]; [|apply Exists_cons in He as [He|He]];
      rewrite !Exists_app, Exists_cons; auto. }
  rewrite Hn. cbn [mbind option_bind].
  apply List.find_some in Hn as Hn'. destruct Hn' as [Hin Han].
  assert (Hino : n ∈ order).
  { apply list_elem_of_In in Hin. subst order.
    rewrite !elem_of_app, ?elem_of_cons, ?elem_of_nil in *. tauto. }
  destruct (linked_lookup _ _ _ n Hl1 Hino) as [[t Ht] Hn0].
  exists n, t. split; [done|]. split; [done|].
  rewrite (upd_task_ok n _ (with_current n s1) t Hn0 Ht). cbn [mbind option_bind].
  match goal with |- context [read_task n ?x] =>
    change (read_task n x) with (alter (set_state TASK_RUNNING) n m1 !! n) end.
  by rewrite lookup_alter_eq, Ht.
Qed.

(** *** The rotation *)

(** Seen from the task [n] that follows [q1] in the rotation of [c], the
    rotation continues where it was. *)
Lemma rotate_to (l1 : list Z) c l2 q1 n q2 :
  l2 ++ l1 ++ [c] = q1 ++ n :: q2 ->
  exists m1 m2, l1 ++ c :: l2 = m1 ++ n :: m2 /\ m2 ++ m1 ++ [n] = q2 ++ q1 ++ [n].
Proof.
  intros H. apply app_eq_inv in H as [(k & -> & Hk)|(k & -> & Hk)].
  - destruct k as [|x k]; cbn in Hk.
    + rewrite app_nil_r. destruct l1 as [|y l1]; cbn in Hk; injection Hk as -> ->.
      * by exists [], q1.
      * exists [], (l1 ++ c :: q1). split; [done|]. cbn. by rewrite <- !app_assoc.
    + injection Hk as -> ->. exists (l1 ++ c :: q1), k. cbn. by rewrite <- !app_assoc.
  - apply app_eq_inv in Hk as [(j & -> & Hj)|(j & -> & Hj)].
    + destruct j as [|x j]; cbn in Hj; injection Hj as -> ->.
      * exists k, l2. rewrite !app_nil_r. by rewrite <- ?app_assoc.
      * exists k, (j ++ c :: l2). cbn. by rewrite <- !app_assoc.
    + destruct j as [|x j]; cbn in Hj; [|by destruct j].
      injection Hj as -> <-. exists l1, l2. rewrite !app_nil_r. by rewrite <- ?app_assoc.
Qed.

Lemma find_split {A} (f : A -> bool) l x :
  List.find f l = Some x ->
  exists q1 q2, l = q1 ++ x :: q2 /\ f x = true /\ Forall (fun y => f y = false) q1.
Proof.
  induction l as [|y l IH]; cbn; [done|]. destruct (f y) eqn:E.
  - intros [= ->]. exists [], l. auto.
  - intros (q1 & q2 & -> & ? & ?)%IH. exists (y :: q1), q2. auto.
Qed.

(** Timer ticks, each with the stack pointer of the interrupted task. *)
Fixpoint run_ticks (es : list Z) (s : sched) : option sched :=
  match es with
  | [] => Some s
  | e :: es' => '(_, s) ← schedule_internal e s; run_ticks es' s
  end.

(** One tick keeps the list, the liveness of every task and the rotation. *)
Lemma schedule_step e s l :
  sched_rep s l -> Exists (fun a => alive (tasks s) a = true) l ->
  exists r s', schedule_internal e s = Some (r, s') /\ sched_rep s' l /\
    (forall a, alive (tasks s') a = alive (tasks s) a) /\
    (forall l1 l2, l = l1 ++ current_task s :: l2 ->
       List.find (alive (tasks s)) (l2 ++ l1 ++ [current_task s]) = Some (current_task s')).
Proof.
  intros Hr He. pose proof (sr_current _ _ Hr) as Hc.
  apply list_elem_of_split in Hc as (l1 & l2 & Hl). rewrite Hl in Hr, He.
  destruct (schedule_ok e s l1 _ l2 Hr eq_refl He) as (n & t & Hn & Ht & Hs). rewrite <- Hl in Hr, He.
  eexists _, _. split; [exact Hs|]. destruct Hr as [Hk Hd Hc].
  destruct (List.find_some _ _ Hn) as [Hin Han]. apply list_elem_of_In in Hin.
  assert (n ∈ l). { subst l. rewrite !elem_of_app, ?elem_of_cons, ?elem_of_nil in *. tauto. }
  split; [constructor; cbn; auto; by repeat apply linked_alter|]. cbn. split.
  - intros a. destruct (decide (n = a)) as [->|Hne].
    + rewrite Han. unfold alive. by rewrite lookup_alter_eq, Ht.
    + unfold alive at 1. rewrite lookup_alter_ne by done. by apply alive_alter.
  - intros k1 k2 Hk'. rewrite Hl in Hk', Hd.
    assert (k1 = l1 /\ k2 = l2) as [-> ->]; [|done].
    apply NoDup_app in Hd as (_ & Hd & Hd2). apply NoDup_cons in Hd2 as [Hd2 _].
    symmetry in Hk'. apply app_eq_inv in Hk' as [(j & -> & Hj)|(j & -> & Hj)];
      destruct j as [|x j]; cbn in Hj; injection Hj; try (intros; subst; by rewrite app_nil_r).
    + intros -> <-. exfalso. apply Hd2. rewrite elem_of_app, elem_of_cons. auto.
    + intros -> ->. exfalso. apply (Hd (current_task s)); [|by left].
      rewrite elem_of_app, elem_of_cons. right; left. congruence.
Qed.

(** Induction on the distance of [a] in the rotation. *)
Lemma ticks_reach n es s l l1 l2 r1 a r2 :
  (length r1 <= n)%nat -> (n < length es)%nat ->
  sched_rep s l -> l = l1 ++ current_task s :: l2 ->
  l2 ++ l1 ++ [current_task s] = r1 ++ a :: r2 -> alive (tasks s) a = true ->
  exists k s', (0 < k <= S (length r1))%nat /\ run_ticks (take k es) s = Some s' /\
    current_task s' = a.
Proof.
  revert es s l1 l2 r1 r2. induction n as [|n IH]; intros es s l1 l2 r1 r2 Hn Hes Hr Hl Hrot Ha;
    (destruct es as [|e es]; cbn in Hes; [lia|]).
  all: assert (He : Exists (fun x => alive (tasks s) x = true) l)
    by (apply Exists_exists; exists a; split; [|done]; assert (a ∈ l2 ++ l1 ++ [current_task s])
          by (rewrite Hrot, elem_of_app, elem_of_cons; auto);
        subst l; rewrite !elem_of_app, ?elem_of_cons, ?elem_of_nil in *; tauto).
  all: destruct (schedule_step e s l Hr He) as (r & s1 & Hs & Hr1 & Hal & Hf);
    specialize (Hf _ _ Hl); destruct (find_split _ _ _ Hf) as (q1 & q2 & Hq & Hx & Hnone).
  all: assert (Hcase : current_task s1 = a \/
         exists u, r1 = q1 ++ current_task s1 :: u /\ q2 = u ++ a :: r2).
  1, 3: rewrite Hrot in Hq; apply app_eq_inv in Hq as [(k & Hk1 & Hk)|(k & Hk1 & Hk)];
    destruct k as [|y k]; cbn in Hk; injection Hk as Hy Hk; subst; auto; [right; eauto|];
    rewrite Forall_app, Forall_cons in Hnone; destruct Hnone as (_ & ? & _); congruence.
  - destruct Hcase as [<-|(u & -> & _)]; [|rewrite length_app in Hn; cbn in Hn; lia].
    exists 1%nat, s1. split; [lia|]. cbn. by rewrite Hs.
  - destruct Hcase as [<-|(u & -> & ->)].
    { exists 1%nat, s1. split; [lia|]. cbn. by rewrite Hs. }
    destruct (rotate_to _ _ _ _ _ _ Hq) as (m1 & m2 & Hm & Hrot'). rewrite <- Hl in Hm.
    rewrite <- app_assoc in Hrot'. rewrite length_app in Hn; cbn in Hn.
    destruct (IH es s1 m1 m2 u (r2 ++ q1 ++ [current_task s1])) as (k & s' & Hk & Hrun & Hc');
      [lia|lia|done|done|done|by rewrite Hal|].
    exists (S k), s'. rewrite length_app. cbn. rewrite Hs. cbn. split; [lia|done].
Qed.

(** ** Creating a task *)

Lemma push_all_ok vs sp m :
  4 * Z.of_nat (length vs) <= sp < 2 ^ 32 ->
  exists m', push_all vs sp m = (sp - 4 * Z.of_nat (length vs), m') /\
    (forall i v, vs !! i = Some v -> m' !! (sp - 4 * (Z.of_nat i + 1)) = Some v) /\
    (forall x, x < sp - 4 * Z.of_nat (length vs) \/ sp <= x -> m' !! x = m !! x).
Proof.
  revert sp m. induction vs as [|v vs IH]; intros sp m Hsp; cbn [push_all length] in *.
  { exists m. split; [f_equal; lia|]. split; [intros i v; by rewrite lookup_nil|done]. }
  rewrite u32_small by lia.
  destruct (IH (sp - 4) (<[sp - 4 := v]> m)) as (m' & -> & Hin & Hout); [lia|].
  exists m'. split; [f_equal; lia|]. split.
  - intros [|i] w Hw; cbn in Hw.
    + injection Hw as ->. rewrite Hout by lia. replace (sp - 4 * (Z.of_nat 0 + 1)) with (sp - 4) by lia.
      apply lookup_insert_eq.
    + replace (sp - 4 * (Z.of_nat (S i) + 1)) with (sp - 4 - 4 * (Z.of_nat i + 1)) by lia. auto.
  - intros x Hx. rewrite Hout by lia. apply lookup_insert_ne. lia.
Qed.

(** The frame [create_task] builds decodes to the registers it is meant to. *)
Definition initial_registers (stack_end entry_point : Z) (is_user : bool) : registers :=
  Registers (if is_user then 0x23 else 0x10) 0 0 0 0 0 0 0 entry_point
    (if is_user then 0x1B else 0x08) 0x202
    (if is_user then Some (0x23, stack_end) else None).

Lemma frame_decodes stack_end entry_point is_user m sp m' :
  64 <= stack_end < 2 ^ 32 ->
  push_all (frame_words stack_end entry_point is_user) stack_end m = (sp, m') ->
  irq_return sp m' = Some (initial_registers stack_end entry_point is_user).
Proof.
  intros Hs Hp. set (vs := frame_words stack_end entry_point is_user) in *.
  assert (Hl : length vs = if is_user then 16%nat else 14%nat) by (by destruct is_user).
  destruct (push_all_ok vs stack_end m) as (m1 & Hp' & Hin & _); [rewrite Hl; destruct is_user; lia|].
  rewrite Hp in Hp'. injection Hp' as -> <-. rewrite Hl.
  set (b := stack_end - 4 * Z.of_nat (if is_user then 16%nat else 14%nat)).
  assert (Hat : forall k o v, o = 4 * Z.of_nat k -> vs !! (length vs - 1 - k)%nat = Some v ->
     (k < length vs)%nat -> m' !! u32 (b + o) = Some v).
  { intros k o v -> Hv Hk. rewrite u32_small by (subst b; rewrite Hl in *; destruct is_user; lia).
    apply Hin in Hv. rewrite <- Hv. f_equal. subst b. rewrite Hl in *. destruct is_user; lia. }
  rewrite Hl in Hat. unfold irq_return.
  replace (m' !! b) with (m' !! u32 (b + 0))
    by (f_equal; rewrite Z.add_0_r; apply u32_small; subst b; destruct is_user; lia).
  destruct is_user;
    rewrite (Hat 0%nat 0 _ eq_refl eq_refl), (Hat 1%nat 4 _ eq_refl eq_refl),
      (Hat 2%nat 8 _ eq_refl eq_refl), (Hat 3%nat 12 _ eq_refl eq_refl),
      (Hat 5%nat 20 _ eq_refl eq_refl), (Hat 6%nat 24 _ eq_refl eq_refl),
      (Hat 7%nat 28 _ eq_refl eq_refl), (Hat 8%nat 32 _ eq_refl eq_refl),
      (Hat 11%nat 44 _ eq_refl eq_refl), (Hat 12%nat 48 _ eq_refl eq_refl),
      (Hat 13%nat 52 _ eq_refl eq_refl) by lia.
  - cbn [mbind option_bind]. change (Z.land 27 3 =? 3) with true. cbn iota.
    by rewrite (Hat 14%nat 56 _ eq_refl eq_refl), (Hat 15%nat 60 _ eq_refl eq_refl) by lia.
  - done.
Qed.

(** *** Appending to the list *)

Lemma last_task_ok fuel p l z s :
  linked_tasks (tasks s) p (l ++ [z]) -> (length l < fuel)%nat -> last_task fuel p s = Some z.
Proof.
  revert fuel p. induction l as [|a l IH]; intros fuel p Hl Hf; (destruct fuel as [|fuel]; [lia|]).
  - destruct Hl as (-> & Hz & t & Ht & Hn). cbn [last_task]. unfold read_task. rewrite Ht.
    cbn [mbind option_bind]. cbn in Hn. by rewrite Hn.
  - destruct Hl as (-> & Hz & t & Ht & Hn). cbn [last_task]. unfold read_task. rewrite Ht.
    cbn [mbind option_bind]. cbn in Hf. rewrite (IH fuel (next t)); [|done|lia].
    destruct (Z.eqb_spec (next t) 0) as [E|]; [|done].
    destruct l; cbn in Hn; destruct Hn as (? & ? & _); congruence.
Qed.

Lemma linked_append m p l z t T :
  NoDup (l ++ [z]) -> linked_tasks m p (l ++ [z]) -> t <> 0 -> t ∉ l ++ [z] ->
  m !! t = Some T -> next T = 0 ->
  linked_tasks (alter (set_next t) z m) p ((l ++ [z]) ++ [t]).
Proof.
  intros Hd Hl Ht Hnot HT Hn. rewrite <- app_assoc. cbn [app].
  revert p Hl Hd Hnot. induction l as [|a l IH]; intros p; cbn [app linked_tasks].
  - intros (-> & Hz & tz & Htz & _) _ Hnot. split; [done|]. split; [done|].
    exists (set_next t tz). rewrite lookup_alter_eq, Htz. split; [done|]. split; [done|].
    split; [done|]. exists T. rewrite lookup_alter_ne; [by rewrite HT|]. intros ->. set_solver.
  - intros (-> & Ha & ta & Hta & Hl) [Haz Hd]%NoDup_cons Hnot. split; [done|]. split; [done|].
    exists ta. rewrite lookup_alter_ne by (intros ->; set_solver). split; [done|].
    apply IH; [done|done|set_solver].
Qed.

Record task_inv (base : Z) (s : sched) (l : list Z) (bs : list KHeap.block) : Prop := {
  ti_rep : sched_rep s l;
  ti_heap : heap_rep base (heap s) bs;
  ti_blocks : forall a, a ∈ l -> exists b, block_at (a - 16) base bs = Some b /\ b_free b = false;
  ti_names : forall a t, tasks s !! a = Some t -> length (name t) = 32%nat;
  ti_pid1 : exists a t, a ∈ l /\ tasks s !! a = Some t /\ id t = 1 /\ state t <> TASK_DEAD
}.

Lemma upd_task_nz p f s :
  p <> 0 -> upd_task p f s = Some (with_tasks (<[p := f (default raw_task (tasks s !! p))]> (tasks s)) s).
Proof. intros. unfold upd_task. by rewrite (proj2 (Z.eqb_neq p 0)). Qed.

(** Project the fields of a state after a series of writes. *)
Ltac sched_cbn :=
  cbn [mbind option_bind with_tasks with_next_pid with_task_list with_current with_heap with_words
       tasks current_task task_list next_pid words heap tss].

(** One field write, with the state put back into record form. *)
Ltac upd_step :=
  rewrite upd_task_nz by done; unfold with_tasks at 1; sched_cbn;
  rewrite ?lookup_insert_eq, ?insert_insert_eq; cbn [default from_option Datatypes.id].

(** The control block [create_task] fills in. *)
Definition new_tcb (pid : Z) (nm : list Z) (sp kst dir : Z) : task_t :=
  Task pid nm sp kst dir TASK_READY (replicate 16 0) (replicate 16 0) 0x10000000 0x10000000 0.

(** The run of [create_task] when its allocations succeed. *)
Lemma create_task_run nm entry (u : bool) s p h1 nm' st h2 kst h3 sp m z :
  kmalloc sizeof_task_t (heap s) = Some (p, h1) -> p <> 0 ->
  copy_name 32 0 31 nm (name (default raw_task (tasks s !! p))) = Some nm' ->
  kmalloc 4096 h1 = Some (st, h2) -> st <> 0 ->
  push_all (frame_words (u32 (st + 4096)) entry u) (u32 (st + 4096)) (words s) = (sp, m) ->
  (if u then exists k, kmalloc 4096 h2 = Some (k, h3) /\ kst = u32 (k + 4096)
   else h3 = h2 /\ kst = u32 (st + 4096)) ->
  let T := new_tcb (next_pid s) nm' sp kst (page_dir (default raw_task (tasks s !! p))) in
  let s3 := Sched (current_task s) (task_list s) (next_pid s + 1) (<[p := T]> (tasks s)) m
              (with_eflags (cli (eflags h3)) h3) (tss s) in
  last_task (S (size (tasks s3))) (task_list s) s3 = Some z -> z <> 0 ->
  create_task nm entry u s = Some (p,
    Sched (current_task s) (task_list s) (next_pid s + 1)
      (<[z := set_next p (default raw_task (tasks s3 !! z))]> (tasks s3)) m
      (with_eflags (eflags h3) h3) (tss s)).
Proof.
  intros Hk1 Hp Hnm Hk2 Hst Hpush Hu T s3 Hlast Hz.
  unfold create_task. rewrite Hk1. sched_cbn.
  upd_step. cbn [name set_id]. rewrite Hnm. sched_cbn. upd_step. rewrite Hk2. sched_cbn.
  rewrite (proj2 (Z.eqb_neq st 0)) by done. rewrite Hpush. upd_step.
  match goal with |- (?c ≫= _) = _ =>
    assert (Hc : c = Some (Sched (current_task s) (task_list s) (next_pid s + 1)
       (<[p := set_kstack_top kst (set_esp sp (set_name nm' (set_id (next_pid s)
            (default raw_task (tasks s !! p)))))]> (tasks s)) m h3 (tss s))) end.
  { destruct u; [destruct Hu as (k & Hk3 & ->)|destruct Hu as (-> & ->)].
    - rewrite Hk3. sched_cbn. upd_step. reflexivity.
    - upd_step. reflexivity. }
  rewrite Hc. sched_cbn. do 4 upd_step. unfold irq_save. sched_cbn.
  change (set_fds _ _ _) with T. change (with_heap (with_eflags (cli (eflags h3)) h3) _) with s3.
  change (<[p := T]> (tasks s)) with (tasks s3).
  rewrite Hlast. sched_cbn. by rewrite upd_task_nz.
Qed.

Lemma elem_last_split (l : list Z) : l <> [] -> exists l' z, l = l' ++ [z].
Proof. destruct l as [|z l _] using rev_ind; [done|eauto]. Qed.

(** What the new list and the old tasks look like. *)
Lemma append_inv base s l bs h bs' p T z l' m ef tss' :
  task_inv base s l bs -> l = l' ++ [z] -> heap_rep base h bs' ->
  (forall q b, block_at q base bs = Some b -> b_free b = false -> block_at q base bs' = Some b) ->
  p ∉ l -> p <> 0 -> (exists b, block_at (p - 16) base bs' = Some b /\ b_free b = false) ->
  next T = 0 -> length (name T) = 32%nat ->
  task_inv base (Sched (current_task s) (task_list s) (next_pid s + 1)
     (<[z := set_next p (default raw_task (<[p := T]> (tasks s) !! z))]> (<[p := T]> (tasks s)))
     m (with_eflags ef h) tss') (l ++ [p]) bs'.
Proof.
  intros [[Hl Hd Hc] Hh Hb Hn (a & ta & Ha & Hta & Hid & Hal)] -> Hrep Hkeep Hp Hp0 Hpb HT HTn.
  assert (Hlz : linked_tasks (<[p:=T]> (tasks s)) (task_list s) (l' ++ [z]))
    by (by apply linked_insert_fresh).
  destruct (linked_lookup _ _ _ z Hlz) as [[tz Htz] _]; [rewrite elem_of_app; right; by left|].
  set (m0 := <[p:=T]> (tasks s)) in *.
  assert (Hm : <[z := set_next p (default raw_task (m0 !! z))]> m0 = alter (set_next p) z m0).
  { rewrite Htz. apply map_eq. intros q. destruct (decide (z = q)) as [<-|].
    - by rewrite lookup_insert_eq, lookup_alter_eq, Htz.
    - by rewrite lookup_insert_ne, lookup_alter_ne. }
  rewrite Hm. constructor; cbn [tasks task_list current_task heap].
  - constructor; cbn [tasks task_list current_task].
    + eapply linked_append; eauto. apply lookup_insert_eq.
    + apply NoDup_app. split; [done|]. split; [|apply NoDup_singleton].
      intros x Hx [->|Hx']%elem_of_cons; [done|by apply elem_of_nil in Hx'].
    + rewrite elem_of_app. by left.
  - by apply heap_rep_eflags.
  - intros x [Hx|[->|Hx]%elem_of_cons]%elem_of_app; [|done|by apply elem_of_nil in Hx].
    destruct (Hb x Hx) as (b & ? & ?). exists b. split; [by apply Hkeep|done].
  - intros x t. destruct (decide (z = x)) as [<-|Hne].
    + rewrite lookup_alter_eq, Htz. intros [= <-]. cbn. subst m0.
      destruct (decide (p = z)) as [->|]; [rewrite lookup_insert_eq in Htz; by injection Htz as <-|].
      rewrite lookup_insert_ne in Htz by done. eauto.
    + rewrite lookup_alter_ne by done. subst m0.
      destruct (decide (p = x)) as [->|]; [rewrite lookup_insert_eq; by intros [= <-]|].
      rewrite lookup_insert_ne by done. eauto.
  - assert (Hap : p <> a) by (by intros ->).
    assert (Hma : m0 !! a = Some ta) by (subst m0; by rewrite lookup_insert_ne).
    exists a. destruct (decide (z = a)) as [->|Hne].
    + exists (set_next p ta). rewrite lookup_alter_eq, Hma, elem_of_app. split_and!; auto.
    + exists ta. rewrite lookup_alter_ne, elem_of_app by done. split_and!; auto.
Qed.

(** The outcome of [create_task], from the outcomes of its allocations. *)
Lemma create_task_core base nm n entry u s l bs p h1 st h2 k h3 :
  0 < base /\ base + HEAP_SIZE < 2 ^ 32 -> task_inv base s l bs -> cstring nm n ->
  kmalloc sizeof_task_t (heap s) = Some (p, h1) -> p <> 0 ->
  kmalloc 4096 h1 = Some (st, h2) -> st <> 0 -> kmalloc 4096 h2 = Some (k, h3) ->
  exists s' bs' T,
    create_task nm entry u s = Some (p, s') /\ task_inv base s' (l ++ [p]) bs' /\ p ∉ l /\
    tasks s' !! p = Some T /\ id T = next_pid s /\ state T = TASK_READY /\
    next_pid s' = next_pid s + 1 /\ current_task s' = current_task s /\
    (forall j, 0 <= j < Z.min n 31 -> aget (name T) j = aget nm j) /\
    aget (name T) (Z.min n 31) = Some 0 /\
    irq_return (esp T) (words s') = Some (initial_registers (st + 4096) entry u) /\
    (forall a, a ∈ l -> set_next 0 <$> tasks s' !! a = set_next 0 <$> tasks s !! a) /\
    (forall x, x < st \/ st + 4096 <= x -> words s' !! x = words s !! x) /\
    eflags (heap s') = eflags (heap s).
Proof.
  intros Hbase Hinv Hnm Hk1 Hp Hk2 Hst Hk3. pose proof Hinv as [[Hl Hd Hc] Hh Hb Hn _].
  destruct (kmalloc_keeps base sizeof_task_t _ _ _ _ Hbase Hh ltac:(unfold sizeof_task_t; lia) Hk1)
    as (bs1 & Hr1 & He1 & _ & Hf1).
  destruct (Hf1 Hp) as (Hp1 & Hp2 & _ & Hp3).
  destruct (kmalloc_keeps base 4096 _ _ _ _ Hbase Hr1 ltac:(lia) Hk2) as (bs2 & Hr2 & He2 & Hs3 & Hf2).
  destruct (Hf2 Hst) as (Hs1 & Hs2 & _ & _).
  destruct (kmalloc_keeps base 4096 _ _ _ _ Hbase Hr2 ltac:(lia) Hk3) as (bs3 & Hr3 & He3 & Hk4 & _).
  assert (Hname : length (name (default raw_task (tasks s !! p))) = 32%nat).
  { destruct (tasks s !! p) eqn:E; cbn; [exact (Hn _ _ E)|done]. }
  destruct (copy_name_ok 32 0 31 nm n (name (default raw_task (tasks s !! p))) Hnm)
    as (nm' & Hcopy & Hlen & Hend & Hchars & _); [lia|by destruct Hnm|lia|lia|].
  assert (Hst2 : st + 4096 < 2 ^ 32) by (destruct Hs1 as (b & _ & _ & ? & ?); lia).
  assert (HF : exists hF bsF kst, heap_rep base hF bsF /\ eflags hF = eflags (heap s) /\
    (if u then exists k, kmalloc 4096 h2 = Some (k, hF) /\ kst = u32 (k + 4096)
     else hF = h2 /\ kst = u32 (st + 4096)) /\
    forall q b, block_at q base bs2 = Some b -> b_free b = false -> block_at q base bsF = Some b).
  { destruct u; [exists h3, bs3, (u32 (k + 4096))|exists h2, bs2, (u32 (st + 4096))];
      split_and!; eauto; congruence. }
  destruct HF as (hF & bsF & kst & HrF & HeF & HuF & HkF).
  destruct (push_all (frame_words (u32 (st + 4096)) entry u) (u32 (st + 4096)) (words s)) as [sp m] eqn:Hpush.
  assert (Hpl : p ∉ l).
  { intros Hin. destruct (Hb p Hin) as (b & Hb1 & Hb2). by destruct (Hp3 _ _ Hb1 Hb2). }
  destruct (elem_last_split l) as (l' & z & Hlz); [by intros ->; apply elem_of_nil in Hc|].
  set (T := new_tcb (next_pid s) nm' sp kst (page_dir (default raw_task (tasks s !! p)))).
  assert (Hlm : linked_tasks (<[p:=T]> (tasks s)) (task_list s) (l' ++ [z]))
    by (rewrite <- Hlz; by apply linked_insert_fresh).
  assert (Hdl : NoDup (l' ++ [z])) by (by rewrite <- Hlz).
  pose proof (linked_size _ _ _ Hdl Hlm) as Hsz. rewrite length_app in Hsz. cbn in Hsz.
  destruct (linked_lookup _ _ _ z Hlm) as [_ Hz0]; [rewrite elem_of_app; right; by left|].
  pose proof (create_task_run nm entry u s p h1 nm' st h2 kst hF sp m z Hk1 Hp Hcopy Hk2 Hst Hpush HuF)
    as Hrun. cbn zeta in Hrun. fold T in Hrun.
  assert (Hfuel : (length l' < S (size (<[p:=T]> (tasks s))))%nat) by lia.
  specialize (Hrun (last_task_ok _ _ l' z (Sched _ _ _ (<[p:=T]> (tasks s)) _ _ _) Hlm Hfuel) Hz0).
  eexists _, bsF, T. split; [exact Hrun|]. cbn [tasks words current_task next_pid heap].
  destruct Hp1 as (bp & Hbp & Hbp2 & _).
  split; [|split; [done|]].
  { apply (append_inv base s l bs hF bsF p T z l' m (eflags hF) (tss s) Hinv Hlz HrF); auto.
    - intros q b Hq1 Hq2. destruct (Hp3 _ _ Hq1 Hq2) as [_ Hq]. auto.
    - exists bp. auto.
    - exact (eq_trans Hlen Hname). }
  assert (Hpz : z <> p) by (intros ->; apply Hpl; rewrite Hlz, elem_of_app; right; by left).
  assert (Hspl : sp = u32 (st + 4096) - 4 * Z.of_nat (length (frame_words (u32 (st + 4096)) entry u)) /\
    forall x, x < sp \/ u32 (st + 4096) <= x -> m !! x = words s !! x).
  { destruct (push_all_ok (frame_words (u32 (st + 4096)) entry u) (u32 (st + 4096)) (words s))
      as (m1 & Hp' & _ & Hout); [rewrite u32_small by lia; destruct u; cbn; lia|].
    rewrite Hpush in Hp'. injection Hp' as -> ->. split; [done|]. intros x Hx. apply Hout. lia. }
  rewrite u32_small in * by lia.
  split_and!; auto.
  - by rewrite lookup_insert_ne, lookup_insert_eq.
  - cbn [esp T new_tcb]. eapply frame_decodes; [|exact Hpush]. lia.
  - intros a Ha. destruct (decide (z = a)) as [->|Hza].
    + rewrite lookup_insert_eq, lookup_insert_ne by (by intros ->).
      destruct (linked_lookup _ _ _ a Hl Ha) as [[ta Hta] _]. by rewrite Hta.
    + rewrite !lookup_insert_ne by (done || by intros ->). done.
  - intros x Hx. apply (proj2 Hspl). destruct u; cbn in Hspl; lia.
Qed.

(** Boot: the kernel task alone satisfies the invariant. *)
Lemma init_multitasking_ok base stack_top s bs :
  0 < base /\ base + HEAP_SIZE < 2 ^ 32 -> heap_rep base (heap s) bs -> room 229 bs ->
  (forall a t, tasks s !! a = Some t -> length (name t) = 32%nat) -> next_pid s = 1 ->
  exists s' p bs', init_multitasking stack_top s = Some s' /\ task_inv base s' [p] bs'.
Proof.
  intros Hbase Hh Hroom Hn Hpid.
  destruct (kmalloc_room base sizeof_task_t 21 (heap s) bs Hbase Hh) as
    (p & h1 & bs1 & Hk1 & Hp & _ & Hr1 & _ & ((b & Hb1 & Hb2 & _) & _)); [done|lia|exact Hroom|].
  assert (Hname : length (name (default raw_task (tasks s !! p))) = 32%nat).
  { destruct (tasks s !! p) eqn:E; cbn; [exact (Hn _ _ E)|done]. }
  assert (Hstr : cstring kernel_name 6).
  { split; [lia|]. split; [done|]. intros i Hi.
    assert (i = 0 \/ i = 1 \/ i = 2 \/ i = 3 \/ i = 4 \/ i = 5) as Hc by lia.
    by destruct Hc as [->|[->|[->|[->|[->| ->]]]]]; eexists. }
  destruct (copy_name_ok 32 0 32 kernel_name 6 (name (default raw_task (tasks s !! p))) Hstr)
    as (nm & Hcopy & Hlen & _); [lia|lia|lia|lia|].
  unfold init_multitasking. rewrite Hk1. cbn [mbind option_bind].
  cbn [tasks with_current with_heap task_list next_pid words tss current_task heap].
  rewrite Hcopy. cbn [mbind option_bind].
  do 5 (rewrite upd_task_nz by done; sched_cbn; rewrite ?lookup_insert_eq, ?insert_insert_eq;
    cbn [default from_option Datatypes.id]).
  eexists _, p, bs1. split; [reflexivity|].
  constructor; sched_cbn; auto.
  - constructor; sched_cbn; [|apply NoDup_singleton|by left].
    split; [done|]. split; [done|]. eexists. by rewrite lookup_insert_eq.
  - intros a [->|Ha]%elem_of_cons; [eauto|by apply elem_of_nil in Ha].
  - intros a t. destruct (decide (p = a)) as [->|]; [|rewrite lookup_insert_ne by done; eauto].
    rewrite lookup_insert_eq. intros [= <-]. exact (eq_trans Hlen Hname).
  - eexists p, _. rewrite lookup_insert_eq. split_and!; [by left|done|done|done].
Qed.

(** ** Properties *)

(** C6 (create_task): with room for the control block and the two stacks, the
    call returns a new task outside the list, appended to it, in state READY,
    with a fresh PID and the name cut to 31 characters; the interrupt return
    from its saved stack pointer enters [entry_point] in the right ring with
    cleared registers and interrupts on; the scheduler's invariant holds again,
    no other control block changes but for its link, and no stack word outside
    the new stack changes. *)
Theorem create_task_spec base nm n entry u s l bs :
  0 < base /\ base + HEAP_SIZE < 2 ^ 32 -> task_inv base s l bs -> cstring nm n ->
  0 <= entry < 2 ^ 32 -> room 8453 bs ->
  exists p s' bs' T stack,
    create_task nm entry u s = Some (p, s') /\ task_inv base s' (l ++ [p]) bs' /\ p ∉ l /\
    tasks s' !! p = Some T /\ id T = next_pid s /\ state T = TASK_READY /\
    next_pid s' = next_pid s + 1 /\ current_task s' = current_task s /\
    (forall j, 0 <= j < Z.min n 31 -> aget (name T) j = aget nm j) /\
    aget (name T) (Z.min n 31) = Some 0 /\
    irq_return (esp T) (words s') = Some (initial_registers (stack + 4096) entry u) /\
    (forall a, a ∈ l -> set_next 0 <$> tasks s' !! a = set_next 0 <$> tasks s !! a) /\
    (forall x, x < stack \/ stack + 4096 <= x -> words s' !! x = words s !! x) /\
    eflags (heap s') = eflags (heap s).
Proof.
  intros Hbase Hinv Hnm He Hroom. pose proof (ti_heap _ _ _ _ Hinv) as Hh.
  destruct (kmalloc_room base sizeof_task_t 8245 (heap s) bs Hbase Hh) as
    (p & h1 & bs1 & Hk1 & Hp & _ & Hr1 & Hroom1 & _); [done|lia|exact Hroom|].
  destruct (kmalloc_room base 4096 4133 h1 bs1 Hbase Hr1) as
    (st & h2 & bs2 & Hk2 & Hst & _ & Hr2 & Hroom2 & _); [lia|lia|exact Hroom1|].
  destruct (kmalloc_room base 4096 21 h2 bs2 Hbase Hr2) as
    (k & h3 & bs3 & Hk3 & _); [lia|lia|exact Hroom2|].
  destruct (create_task_core base nm n entry u s l bs p h1 st h2 k h3) as (s' & bs' & T & H); auto.
  by exists p, s', bs', T, st.
Qed.

(** C7 (schedule_internal): the timer tick saves the interrupted stack pointer
    in the current control block, picks the first task that is not DEAD among
    the tasks after the current one, then those before it, then the current one
    itself, marks it RUNNING, makes its kernel stack the ring-0 stack of the TSS
    and returns its saved stack pointer; nothing else changes.  A sleeping task
    is picked like a ready one. *)
Theorem schedule_round_robin e s l1 c l2 :
  sched_rep s (l1 ++ c :: l2) -> current_task s = c ->
  Exists (fun a => alive (tasks s) a = true) (l1 ++ c :: l2) ->
  exists n t, List.find (alive (tasks s)) (l2 ++ l1 ++ [c]) = Some n /\
    alter (set_esp e) c (tasks s) !! n = Some t /\
    schedule_internal e s = Some (esp t,
      Sched n (task_list s) (next_pid s)
        (alter (set_state TASK_RUNNING) n (alter (set_esp e) c (tasks s)))
        (words s) (heap s) (set_kernel_stack (kstack_top t) (tss s))).
Proof. apply schedule_ok. Qed.

(** C8 (fairness): whatever the interrupted stack pointers, every live task of
    the list gets the processor within as many ticks as the list is long. *)
Theorem schedule_fair es s l a :
  sched_rep s l -> a ∈ l -> alive (tasks s) a = true -> length l = length es ->
  exists k s', (0 < k <= length l)%nat /\ run_ticks (take k es) s = Some s' /\
    current_task s' = a.
Proof.
  intros Hr Ha Hal Hlen. pose proof (sr_current _ _ Hr) as Hc.
  apply list_elem_of_split in Hc as (l1 & l2 & Hl).
  assert (Hin : a ∈ l2 ++ l1 ++ [current_task s])
    by (rewrite Hl in Ha; rewrite !elem_of_app, ?elem_of_cons, ?elem_of_nil in *; tauto).
  apply list_elem_of_split in Hin as (r1 & r2 & Hrot).
  pose proof (f_equal length Hrot) as Hlr. rewrite !length_app in Hlr. cbn in Hlr.
  pose proof (f_equal length Hl) as Hll. rewrite length_app in Hll. cbn in Hll.
  destruct (ticks_reach (length r1) es s l l1 l2 r1 a r2) as (k & s' & Hk & Hrun & Hc');
    [lia|lia|done..|].
  exists k, s'. split; [lia|done].
Qed.

(** *** Reachable states *)

Inductive sched_step : sched -> sched -> Prop :=
| step_create nm n entry u p s s' :
    cstring nm n -> create_task nm entry u s = Some (p, s') -> sched_step s s'
| step_tick e r s s' : schedule_internal e s = Some (r, s') -> sched_step s s'
| step_exit k s s' : task_exit s = Some (k, s') -> sched_step s s'.

Lemma pid1_alive base s l bs :
  task_inv base s l bs -> Exists (fun a => alive (tasks s) a = true) l.
Proof.
  intros Hi. destruct (ti_pid1 _ _ _ _ Hi) as (a & t & Ha & Ht & _ & Hd).
  apply Exists_exists. exists a. split; [done|]. unfold alive. rewrite Ht.
  apply negb_true_iff, Z.eqb_neq. done.
Qed.

(** Writes to one field of one control block keep the invariant. *)
Lemma task_inv_alter base s l bs c f cur tss' m h :
  task_inv base s l bs -> cur ∈ l -> heap_rep base h bs ->
  (forall t, next (f t) = next t /\ name (f t) = name t /\ id (f t) = id t) ->
  (forall t, id t = 1 -> state t <> TASK_DEAD -> tasks s !! c = Some t -> state (f t) <> TASK_DEAD) ->
  task_inv base (Sched cur (task_list s) (next_pid s) (alter f c (tasks s)) m h tss') l bs.
Proof.
  intros [[Hl Hd Hc] Hh Hb Hn (a & ta & Ha & Hta & Hid & Hal)] Hcur Hrep Hf Hdead.
  constructor; cbn [tasks heap]; auto.
  - constructor; cbn; auto. apply linked_alter; [|done]. intros t. apply Hf.
  - intros x t. destruct (decide (c = x)) as [<-|Hne].
    + rewrite lookup_alter_eq. destruct (tasks s !! c) as [tc|] eqn:E; [|done].
      intros [= <-]. rewrite (proj1 (proj2 (Hf tc))). eauto.
    + rewrite lookup_alter_ne by done. eauto.
  - exists a. destruct (decide (c = a)) as [->|Hne].
    + exists (f ta). rewrite lookup_alter_eq, Hta. destruct (Hf ta) as (_ & _ & ->).
      split_and!; auto.
    + exists ta. rewrite lookup_alter_ne by done. auto.
Qed.

Lemma tick_inv base e r s s' l bs :
  task_inv base s l bs -> schedule_internal e s = Some (r, s') -> task_inv base s' l bs.
Proof.
  intros Hi Hs. pose proof (ti_rep _ _ _ _ Hi) as Hr. pose proof (sr_current _ _ Hr) as Hc.
  apply list_elem_of_split in Hc as (l1 & l2 & Hl).
  pose proof (pid1_alive _ _ _ _ Hi) as He. rewrite Hl in Hr, He.
  destruct (schedule_ok e s l1 _ l2 Hr eq_refl He) as (n & t & Hn & Ht & Hs').
  rewrite Hs in Hs'. injection Hs' as _ ->.
  destruct (List.find_some _ _ Hn) as [Hin _]. apply list_elem_of_In in Hin.
  assert (Hnl : n ∈ l)
    by (rewrite Hl; rewrite !elem_of_app, ?elem_of_cons, ?elem_of_nil in *; tauto).
  pose proof (task_inv_alter base s l bs (current_task s) (set_esp e) n (tss s) (words s) (heap s)
    Hi Hnl (ti_heap _ _ _ _ Hi)) as H1.
  specialize (H1 ltac:(done) ltac:(done)).
  exact (task_inv_alter base _ l bs n (set_state TASK_RUNNING) n _ (words s) (heap s) H1 Hnl
    (ti_heap _ _ _ _ Hi) ltac:(done) ltac:(done)).
Qed.

Lemma exit_ok base s l bs :
  task_inv base s l bs -> exists k s', task_exit s = Some (k, s') /\ task_inv base s' l bs.
Proof.
  intros Hi. pose proof (ti_rep _ _ _ _ Hi) as Hr.
  destruct (linked_lookup _ _ _ _ (sr_linked _ _ Hr) (sr_current _ _ Hr)) as [[c Hc] Hc0].
  unfold task_exit. cbn [irq_save]. unfold irq_save. set (h := with_eflags _ (heap s)).
  change (current_task (with_heap h s)) with (current_task s).
  rewrite (proj2 (Z.eqb_neq (current_task s) 0)) by done.
  change (read_task (current_task s) (with_heap h s)) with (tasks s !! current_task s).
  rewrite Hc. cbn [mbind option_bind].
  assert (Hh : forall f h', h' = heap s \/ h' = h -> heap_rep base (with_eflags f h') bs).
  { intros f h' [->| ->]; repeat apply heap_rep_eflags; apply Hi. }
  destruct (Z.eqb_spec (id c) 1) as [Hid|Hid]; cbn [negb mbind option_bind].
  - eexists false, _. split; [done|].
    destruct Hi as [Hi1 Hi2 Hi3 Hi4 Hi5]. constructor; auto; [|apply Hh; by right].
    destruct Hi1. by constructor.
  - rewrite (upd_task_ok _ _ (with_heap h s) c Hc0 Hc). cbn [mbind option_bind].
    eexists true, _. split; [done|].
    apply (task_inv_alter base s l bs (current_task s) (set_state TASK_DEAD)); auto.
    + exact (sr_current _ _ Hr).
    + intros t Ht _ Hc'. congruence.
Qed.

Lemma create_inv base nm n entry u p s s' l bs :
  0 < base /\ base + HEAP_SIZE < 2 ^ 32 -> task_inv base s l bs -> cstring nm n ->
  create_task nm entry u s = Some (p, s') -> exists bs', task_inv base s' (l ++ [p]) bs'.
Proof.
  intros Hbase Hi Hnm Hc. pose proof (ti_heap _ _ _ _ Hi) as Hh.
  destruct (kmalloc_ok base sizeof_task_t (heap s) bs Hbase Hh) as (r & h1 & Hk1 & _); [done|].
  destruct (kmalloc_keeps base sizeof_task_t _ _ _ _ Hbase Hh ltac:(done) Hk1) as (bs1 & Hr1 & _).
  destruct (kmalloc_ok base 4096 h1 bs1 Hbase Hr1) as (st & h2 & Hk2 & _); [lia|].
  destruct (kmalloc_keeps base 4096 _ _ _ _ Hbase Hr1 ltac:(lia) Hk2) as (bs2 & Hr2 & _).
  destruct (kmalloc_ok base 4096 h2 bs2 Hbase Hr2) as (k & h3 & Hk3 & _); [lia|].
  assert (Hr0 : r <> 0).
  { intros ->. unfold create_task in Hc. rewrite Hk1 in Hc. done. }
  assert (Hst : st <> 0).
  { intros ->. unfold create_task in Hc. rewrite Hk1 in Hc. cbn [mbind option_bind] in Hc.
    rewrite upd_task_nz in Hc by done. cbn [mbind option_bind] in Hc.
    bind_inv Hc. rewrite upd_task_nz in Hc by done. cbn [mbind option_bind heap with_tasks
      with_next_pid with_heap] in Hc. rewrite Hk2 in Hc. done. }
  destruct (create_task_core base nm n entry u s l bs r h1 st h2 k h3) as (s1 & bs' & T & Hrun & H1 & _);
    auto.
  rewrite Hc in Hrun. injection Hrun as <- <-. by exists bs'.
Qed.

(** C9 (the scheduler never hangs): from any state that satisfies the
    invariant, after any series of task creations, timer ticks and task exits,
    the invariant holds, so PID 1 is alive in the list and the next timer tick
    and the next exit return. *)
Theorem scheduler_safe base s s' l bs :
  0 < base /\ base + HEAP_SIZE < 2 ^ 32 -> task_inv base s l bs -> rtc sched_step s s' ->
  exists l' bs', task_inv base s' (l ++ l') bs' /\
    (forall e, exists r s'', schedule_internal e s' = Some (r, s'') /\
       alive (tasks s') (current_task s'') = true) /\
    exists k s'', task_exit s' = Some (k, s'').
Proof.
  intros Hbase Hi Hsteps. assert (H : exists l' bs', task_inv base s' (l ++ l') bs').
  { revert l bs Hi. induction Hsteps as [s|s s1 s' Hstep _ IH]; intros l bs Hi.
    { exists [], bs. by rewrite app_nil_r. }
    destruct Hstep as [nm n entry u p s s1 Hnm Hc|e r s s1 Hs|k s s1 He].
    - destruct (create_inv base nm n entry u p s s1 l bs Hbase Hi Hnm Hc) as (bs' & Hi').
      destruct (IH _ _ Hi') as (l' & bs'' & H). exists ([p] ++ l'), bs''. by rewrite app_assoc.
    - apply (IH l bs). by eapply tick_inv.
    - apply (IH l bs). destruct (exit_ok base s l bs Hi) as (k' & s2 & He' & Hi').
      rewrite He in He'. by injection He' as _ ->. }
  destruct H as (l' & bs' & Hi'). exists l', bs'. split; [done|]. split.
  - intros e. pose proof (ti_rep _ _ _ _ Hi') as Hr. pose proof (sr_current _ _ Hr) as Hcur.
    apply list_elem_of_split in Hcur as (l1 & l2 & Hl).
    destruct (schedule_step e s' _ Hr (pid1_alive _ _ _ _ Hi')) as (r & s'' & Hs & _ & _ & Hf).
    exists r, s''. split; [done|]. by destruct (List.find_some _ _ (Hf l1 l2 Hl)).
  - destruct (exit_ok _ _ _ _ Hi') as (k & s'' & He & _). eauto.
Qed.

(** ** Witnesses *)

Definition cold_sched : sched := Sched 0 0 1 ∅ ∅ sample_kheap tss_zero.
Definition booted : sched :=
  match init_multitasking 0xC0300000 cold_sched with Some s => s | None => cold_sched end.
Definition booted_blocks : list KHeap.block := [Blk 208 false; Blk (HEAP_SIZE - 208) true].
Definition kernel_task : Z := sample_base + 16.

Lemma booted_inv : task_inv sample_base booted [kernel_task] booted_blocks.
Proof.
  constructor.
  - constructor.
    + vm_compute. split; [done|]. split; [done|]. eexists. split; reflexivity.
    + apply NoDup_singleton.
    + vm_compute. by left.
  - constructor; [vm_compute; reflexivity|vm_compute; done|reflexivity| |].
    + repeat constructor; vm_compute; done.
    + vm_compute. split; [by intros [? _]|done].
  - intros a [->|Ha]%elem_of_cons; [|by apply elem_of_nil in Ha].
    exists (Blk 208 false). split; reflexivity.
  - assert (H : bool_decide (map_Forall (fun _ t => length (name t) = 32%nat) (tasks booted)) = true)
      by (vm_compute; reflexivity).
    apply bool_decide_eq_true in H. exact H.
  - eexists kernel_task, _. split; [by left|]. split; [vm_compute; reflexivity|]. done.
Qed.

Lemma create_task_spec_witness :
  exists p s', create_task [103; 0] 0xC0101000 false booted = Some (p, s') /\ p ∉ [kernel_task].
Proof.
  destruct (create_task_spec sample_base [103; 0] 1 0xC0101000 false booted [kernel_task] booted_blocks
    sample_base_ok booted_inv) as (p & s' & bs' & T & stack & H & _ & Hp & _).
  - split; [lia|]. split; [done|]. intros i Hi. assert (i = 0) as -> by lia. by eexists.
  - lia.
  - right. left. split; [done|]. vm_compute. done.
  - exists p, s'. by split.
Defined.

Lemma schedule_round_robin_witness :
  exists t, schedule_internal 0xC02FFF00 booted = Some (esp t,
    Sched kernel_task (task_list booted) (next_pid booted)
      (alter (set_state TASK_RUNNING) kernel_task
         (alter (set_esp 0xC02FFF00) kernel_task (tasks booted)))
      (words booted) (heap booted) (set_kernel_stack (kstack_top t) (tss booted))).
Proof.
  destruct (schedule_round_robin 0xC02FFF00 booted [] kernel_task []) as (n & t & Hn & _ & Hs).
  - exact (ti_rep _ _ _ _ booted_inv).
  - vm_compute. reflexivity.
  - left. vm_compute. reflexivity.
  - exists t. assert (n = kernel_task) as ->; [|exact Hs].
    destruct (List.find_some _ _ Hn) as [[->|[]] _]. reflexivity.
Defined.

Lemma schedule_fair_witness :
  exists k s', (0 < k <= 1)%nat /\ run_ticks (take k [0xC02FFF00]) booted = Some s' /\
    current_task s' = kernel_task.
Proof.
  apply (schedule_fair [0xC02FFF00] booted [kernel_task] kernel_task).
  - exact (ti_rep _ _ _ _ booted_inv).
  - by left.
  - vm_compute. reflexivity.
  - reflexivity.
Defined.

Lemma scheduler_safe_witness :
  exists k s'', task_exit booted = Some (k, s'').
Proof.
  destruct (scheduler_safe sample_base booted booted [kernel_task] booted_blocks sample_base_ok
    booted_inv (rtc_refl _ _)) as (l' & bs' & _ & _ & H). exact H.
Defined.
