(* ===== verification/Paging.v ===== *)
(** * Paging: page tables (kernel/mm/paging.c, include/paging.h)

    Page directory and table entries are 32-bit words with bit fields; the
    tables live in physical memory, which the kernel reaches at 0xC0000000 above
    the physical address.  [translate] is the processor's table walk; the
    theorems state what the mappings made by the code translate to.  Frames come
    from an allocator behind the interface [FrameAlloc], which the physical
    memory manager implements. *)

From S2P Require Export Pmm.

(** ** The interface to the frame allocator *)

Class FrameAlloc (A : Type) := {
  fa_alloc : A -> option (Z * A);
  fa_total_kb : A -> Z;
  fa_inv : A -> Prop;
  fa_free : A -> Z -> Prop;
  fa_alloc_spec : forall a, fa_inv a ->
    exists r a', fa_alloc a = Some (r, a') /\ fa_inv a' /\ fa_total_kb a' = fa_total_kb a /\
      ((exists f, r = f * 4096 /\ 0 < f < 262144 /\ fa_free a f /\
          forall g, fa_free a' g <-> fa_free a g /\ g <> f) \/
       (r = 0 /\ a' = a /\ forall g, fa_free a g -> 262144 <= g))
}.

#[export] Program Instance pmm_frame_alloc : FrameAlloc pmm := {
  fa_alloc := alloc_frame;
  fa_total_kb := pmm_total_memory_kb;
  fa_inv := pmm_inv;
  fa_free := frame_free
}.
Next Obligation.
  intros st Hinv. destruct (alloc_frame_ok st Hinv) as (r & st' & Ha & Hinv' & Hc).
  exists r, st'. split; [done|]. split; [done|].
  destruct Hc as [(f & -> & Hf & Hlt & _ & (Ht & Hk & Hs) & _)|(-> & -> & Hn)]; [|split; [done|by right]].
  split; [done|]. left. exists f. split; [done|]. pose proof (free_frame_low st Hinv f Hf).
  split; [lia|]. split; [done|]. intros g. unfold frame_free. rewrite Ht, Hs.
  destruct (Z.leb_spec f g), (Z.ltb_spec g (f + 1)); cbn; intuition (try lia; try congruence).
Qed.

(** ** Bit fields of a 32-bit word *)

Definition field (lo n w : Z) : Z := Z.land (Z.shiftr w lo) (Z.ones n).

Definition set_field (lo n v w : Z) : Z :=
  Z.lor (Z.land w (Z.lnot (Z.shiftl (Z.ones n) lo))) (Z.shiftl (Z.land v (Z.ones n)) lo).

Definition PAGE_SIZE : Z := 4096.

(** [struct page_table_entry] *)
Definition pte_present : Z -> Z := field 0 1.
Definition pte_rw : Z -> Z := field 1 1.
Definition pte_user : Z -> Z := field 2 1.
Definition pte_frame : Z -> Z := field 12 20.

(** [struct page_dir_entry] *)
Definition pde_present : Z -> Z := field 0 1.
Definition pde_rw : Z -> Z := field 1 1.
Definition pde_user : Z -> Z := field 2 1.
Definition pde_pt_frame : Z -> Z := field 12 20.

(** ** Physical memory, by words *)

#[local] Abbreviation pmem := (gmap Z Z).

(** A word that was never written holds whatever the machine started with. *)
Definition rd (m : pmem) (a : Z) : Z := default 0 (m !! a).
Definition wr (a w : Z) (m : pmem) : pmem := <[a := w]> m.

(** The word of entry [i] of the table at kernel address [p]. *)
Definition entry_addr (p i : Z) : Z := u32 (p + 0x40000000) + 4 * i.
Definition rd_entry (p i : Z) (m : pmem) : Z := rd m (entry_addr p i).
Definition upd_entry (p i : Z) (f : Z -> Z) (m : pmem) : pmem :=
  wr (entry_addr p i) (f (rd_entry p i m)) m.

(** The four fields the code writes, in its order. *)
Definition fill_entry (rw user frame : Z) (w : Z) : Z :=
  set_field 12 20 frame (set_field 2 1 user (set_field 1 1 rw (set_field 0 1 1 w))).

(** ** The component *)

Section paging.
Context {A : Type} `{!FrameAlloc A}.

Record paging := Paging {
  phys : pmem;
  kernel_directory : Z;
  cr3 : Z;
  frames : A
}.

(** The boot or loop-wide clearing of the present bits of a table. *)
Definition clear_table (p : Z) (m : pmem) : option pmem :=
  for_do 0 1024 (fun j m => Some (upd_entry p j (set_field 0 1 0) m)) m.

(** One page of [paging_map_memory]. *)
Definition map_page (phys_start virt size i : Z) (s : paging) : option paging :=
  let p := u32 (phys_start + u32 (i * PAGE_SIZE)) in
  let v := u32 (virt + u32 (i * PAGE_SIZE)) in
  let pd_idx := Z.shiftr v 22 in
  let pt_idx := Z.land (Z.shiftr v 12) 0x3FF in
  let kd := kernel_directory s in
  '(pt, s) ← (if pde_present (rd_entry kd pd_idx (phys s)) =? 0 then
      '(pt_frame, fr) ← fa_alloc (frames s);
      let pt := u32 (pt_frame + 0xC0000000) in
      m ← clear_table pt (phys s);
      Some (pt, Paging (upd_entry kd pd_idx (fill_entry 1 1 (Z.shiftr pt_frame 12)) m)
                  kd (cr3 s) fr)
    else
      Some (u32 (u32 (Z.shiftl (pde_pt_frame (rd_entry kd pd_idx (phys s))) 12) + 0xC0000000), s));
  Some (Paging (upd_entry pt pt_idx (fill_entry 1 1 (Z.shiftr p 12)) (phys s))
          (kernel_directory s) (cr3 s) (frames s)).

Definition paging_map_memory (phys_start virt size : Z) (s : paging) : option paging :=
  let num_pages := u32 (size + PAGE_SIZE - 1) / PAGE_SIZE in
  s ← for_do 0 num_pages (map_page phys_start virt size) s;
  Some (Paging (phys s) (kernel_directory s) (u32 (kernel_directory s - 0xC0000000)) (frames s)).

(** ** Initialisation *)

(** Linker symbols. *)
Variables text_start text_end rodata_start rodata_end : Z.

Definition is_readonly (virt_addr : Z) : bool :=
  (text_start <=? virt_addr) && (virt_addr <? text_end) ||
  (rodata_start <=? virt_addr) && (virt_addr <? rodata_end).

(** Entry [j] of the table of the [i]-th 4 MB. *)
Definition identity_entry (total_frames i : Z) (pt j : Z) (m : pmem) : pmem :=
  let frame_idx := u32 (u32 (i * 1024) + j) in
  if frame_idx <? total_frames then
    let phys_addr := u32 (frame_idx * PAGE_SIZE) in
    let virt_addr := u32 (phys_addr + 0xC0000000) in
    upd_entry pt j (fill_entry (if is_readonly virt_addr then 0 else 1) 1 frame_idx) m
  else upd_entry pt j (set_field 0 1 0) m.

Definition map_4mb (total_frames i : Z) (s : paging) : option (ctl paging paging) :=
  let pd_idx := u32 (768 + i) in
  if 1024 <=? pd_idx then Some (Ret s) else
  '(pt_frame, fr) ← fa_alloc (frames s);
  let pt := u32 (pt_frame + 0xC0000000) in
  m ← for_do 0 1024 (fun j m => Some (identity_entry total_frames i pt j m)) (phys s);
  let kd := kernel_directory s in
  Some (Next (Paging (upd_entry kd (768 + i) (fill_entry 1 1 (Z.shiftr pt_frame 12)) m)
                kd (cr3 s) fr)).

(** The four fields of a cleared directory entry. *)
Definition blank_pde (w : Z) : Z :=
  set_field 12 20 0 (set_field 2 1 0 (set_field 1 1 1 (set_field 0 1 0 w))).

(** [init_paging]; the result also says which line of the IRQ table gets the
    page-fault handler. *)
Definition init_paging (s : paging) : option (paging * Z) :=
  '(pd_frame, fr) ← fa_alloc (frames s);
  let kd := u32 (pd_frame + 0xC0000000) in
  m ← for_do 0 1024 (fun i m => Some (upd_entry kd i blank_pde m)) (phys s);
  let total_frames := u32 (fa_total_kb fr * 1024) / PAGE_SIZE in
  let num_tables := u32 (total_frames + 1023) / 1024 in
  r ← for_ret 0 num_tables (map_4mb total_frames) (Paging m kd (cr3 s) fr);
  let s := match r with Next s => s | Ret s => s end in
  Some (Paging (phys s) (kernel_directory s) pd_frame (frames s), 14).
End paging.
Arguments paging A : clear implicits.
Arguments Paging {A}.

(** ** The processor's walk

    [walk m cr3 va] is the physical address [va] translates to, with the write
    and user permissions of the two levels. *)
Definition walk (m : pmem) (cr3 va : Z) : option (Z * bool * bool) :=
  let pde := rd m (cr3 + 4 * Z.shiftr va 22) in
  if pde_present pde =? 0 then None else
  let pte := rd m (Z.shiftl (pde_pt_frame pde) 12 + 4 * Z.land (Z.shiftr va 12) 0x3FF) in
  if pte_present pte =? 0 then None else
  Some (Z.shiftl (pte_frame pte) 12 + Z.land va 0xFFF,
        negb (pde_rw pde =? 0) && negb (pte_rw pte =? 0),
        negb (pde_user pde =? 0) && negb (pte_user pte =? 0)).

(** ** Bit fields *)

Lemma field_testbit lo n w k :
  0 <= lo -> 0 <= n -> 0 <= k -> Z.testbit (field lo n w) k = (k <? n) && Z.testbit w (k + lo).
Proof.
  intros. unfold field. rewrite Z.land_spec, Z.shiftr_spec, Z.testbit_ones_nonneg by lia.
  by rewrite andb_comm.
Qed.

Lemma set_field_testbit lo n v w k :
  0 <= lo -> 0 <= n -> 0 <= k ->
  Z.testbit (set_field lo n v w) k =
    if (lo <=? k) && (k <? lo + n) then Z.testbit v (k - lo) else Z.testbit w k.
Proof.
  intros. unfold set_field. rewrite Z.lor_spec, Z.land_spec, Z.lnot_spec by lia.
  destruct (Z.leb_spec lo k); cbn [andb].
  - rewrite !Z.shiftl_spec, Z.land_spec, Z.testbit_ones_nonneg by lia.
    destruct (Z.ltb_spec k (lo + n)), (Z.ltb_spec (k - lo) n); try lia;
      by destruct (Z.testbit w k), (Z.testbit v (k - lo)).
  - rewrite !Z.shiftl_spec_low by lia. by rewrite andb_true_r, orb_false_r.
Qed.

Lemma field_set_eq lo n v w :
  0 <= lo -> 0 <= n -> field lo n (set_field lo n v w) = v mod 2 ^ n.
Proof.
  intros. rewrite <- Z.land_ones by done. apply Z.bits_inj'. intros k Hk.
  rewrite field_testbit, set_field_testbit, Z.land_spec, Z.testbit_ones_nonneg by lia.
  rewrite Z.add_simpl_r. destruct (Z.ltb_spec k n); cbn [andb]; [|by destruct (Z.testbit v k)].
  rewrite (proj2 (Z.leb_le _ _)), (proj2 (Z.ltb_lt _ _)) by lia. by destruct (Z.testbit v k).
Qed.

Lemma field_set_ne lo n lo' n' v w :
  0 <= lo -> 0 <= n -> 0 <= lo' -> 0 <= n' -> lo + n <= lo' \/ lo' + n' <= lo ->
  field lo n (set_field lo' n' v w) = field lo n w.
Proof.
  intros. apply Z.bits_inj'. intros k Hk. rewrite !field_testbit, set_field_testbit by lia.
  destruct (Z.ltb_spec k n); cbn [andb]; [|done].
  destruct (Z.leb_spec lo' (k + lo)), (Z.ltb_spec (k + lo) (lo' + n')); cbn; auto; lia.
Qed.

Lemma field_range lo n w : 0 <= n -> 0 <= field lo n w < 2 ^ n.
Proof. intros. unfold field. rewrite Z.land_ones by done. apply Z.mod_pos_bound. lia. Qed.

(** The fields of a filled entry. *)
Lemma fill_entry_fields rw user frame w :
  field 0 1 (fill_entry rw user frame w) = 1 /\
  field 1 1 (fill_entry rw user frame w) = rw mod 2 /\
  field 2 1 (fill_entry rw user frame w) = user mod 2 /\
  field 12 20 (fill_entry rw user frame w) = frame mod 2 ^ 20.
Proof.
  unfold fill_entry. split_and!.
  - rewrite !field_set_ne by lia. by rewrite field_set_eq by lia.
  - rewrite !field_set_ne by lia. by rewrite field_set_eq by lia.
  - rewrite field_set_ne by lia. by rewrite field_set_eq by lia.
  - by rewrite field_set_eq by lia.
Qed.

(** ** Memory words *)

Lemma rd_wr_eq a w m : rd (wr a w m) a = w.
Proof. unfold rd, wr. by rewrite lookup_insert_eq. Qed.

Lemma rd_wr_ne a b w m : a <> b -> rd (wr a w m) b = rd m b.
Proof. intros. unfold rd, wr. by rewrite lookup_insert_ne. Qed.

(** The physical address of a table. *)
Definition table_ok (t : Z) : Prop := t mod 4096 = 0 /\ 0 <= t < 2 ^ 30.

Lemma entry_addr_table t i : table_ok t -> entry_addr (u32 (t + 0xC0000000)) i = t + 4 * i.
Proof.
  intros [_ Ht]. unfold entry_addr. rewrite (u32_small (t + _)) by lia.
  unfold u32. replace (t + 0xC0000000 + 0x40000000) with (t + 1 * 2 ^ 32) by lia.
  rewrite Z_mod_plus_full, Z.mod_small by lia. done.
Qed.

Lemma word_addr_inj t t' i i' :
  table_ok t -> table_ok t' -> 0 <= i < 1024 -> 0 <= i' < 1024 ->
  t + 4 * i = t' + 4 * i' -> t = t' /\ i = i'.
Proof. intros [Ht _] [Ht' _] ???. pow2_lia. Qed.

Lemma rd_table_ne t t' i i' w m :
  table_ok t -> table_ok t' -> 0 <= i < 1024 -> 0 <= i' < 1024 -> t <> t' \/ i <> i' ->
  rd (wr (t + 4 * i) w m) (t' + 4 * i') = rd m (t' + 4 * i').
Proof.
  intros ? ? ? ? Hne. apply rd_wr_ne. intros Heq.
  destruct (word_addr_inj t t' i i') as [-> ->]; auto. destruct Hne; congruence.
Qed.

(** A loop over all entries of one table. *)
Lemma table_loop_ok t (f : Z -> Z -> Z) (body : Z -> pmem -> option pmem) m :
  table_ok t ->
  (forall j m, 0 <= j < 1024 -> body j m = Some (wr (t + 4 * j) (f j (rd m (t + 4 * j))) m)) ->
  exists m', for_do 0 1024 body m = Some m' /\
    (forall j, 0 <= j < 1024 -> rd m' (t + 4 * j) = f j (rd m (t + 4 * j))) /\
    (forall t' j, table_ok t' -> t' <> t -> 0 <= j < 1024 -> rd m' (t' + 4 * j) = rd m (t' + 4 * j)).
Proof.
  intros Ht Hbody.
  destruct (for_do_rule (fun i m' =>
      (forall j, 0 <= j < 1024 -> rd m' (t + 4 * j) =
         if j <? i then f j (rd m (t + 4 * j)) else rd m (t + 4 * j)) /\
      (forall t' j, table_ok t' -> t' <> t -> 0 <= j < 1024 ->
         rd m' (t' + 4 * j) = rd m (t' + 4 * j))) 0 1024 body m) as (m' & Hm & Hin & Hout).
  - lia.
  - split; [|done]. intros j Hj. by rewrite (proj2 (Z.ltb_ge j 0)) by lia.
  - intros i m' Hi [Hin Hout]. rewrite (Hbody i m' Hi). eexists; split; [done|]. split.
    + intros j Hj. destruct (Z.eq_dec i j) as [<-|Hne].
      * rewrite rd_wr_eq, Hin by done. rewrite (proj2 (Z.ltb_ge i i)), (proj2 (Z.ltb_lt i _)) by lia.
        done.
      * rewrite rd_table_ne by auto. rewrite Hin by done.
        destruct (Z.ltb_spec j i), (Z.ltb_spec j (i + 1)); auto; lia.
    + intros t' j ? ? ?. rewrite rd_table_ne by auto. auto.
  - exists m'. split; [done|]. split; [|done]. intros j Hj. rewrite Hin by done.
    by rewrite (proj2 (Z.ltb_lt j 1024)) by lia.
Qed.

(** ** The directory invariant *)

Section spec.
Context {A : Type} `{!FrameAlloc A}.

(** The directory entry [i], and the table it points to. *)
Definition pde (m : pmem) (cr : Z) (i : Z) : Z := rd m (cr + 4 * i).
Definition pt_of (m : pmem) (cr i : Z) : Z := Z.shiftl (pde_pt_frame (pde m cr i)) 12.
Definition absent (m : pmem) (cr i : Z) : bool := pde_present (pde m cr i) =? 0.

(** Every present directory entry points to a table of its own, below 1 GB and
    not free in the allocator, with write and user permission. *)
Record pg_ok (s : paging A) : Prop := {
  pg_cr3 : table_ok (cr3 s) /\ kernel_directory s = u32 (cr3 s + 0xC0000000);
  pg_tables : forall i, 0 <= i < 1024 -> absent (phys s) (cr3 s) i = false ->
    let t := pt_of (phys s) (cr3 s) i in
    table_ok t /\ t <> cr3 s /\ ~ fa_free (frames s) (t / 4096) /\
    pde_rw (pde (phys s) (cr3 s) i) = 1 /\ pde_user (pde (phys s) (cr3 s) i) = 1;
  pg_inj : forall i j, 0 <= i < 1024 -> 0 <= j < 1024 -> i <> j ->
    absent (phys s) (cr3 s) i = false -> absent (phys s) (cr3 s) j = false ->
    pt_of (phys s) (cr3 s) i <> pt_of (phys s) (cr3 s) j;
  pg_dir : ~ fa_free (frames s) (cr3 s / 4096);
  pg_alloc : fa_inv (frames s)
}.

(** At least [n] frames below 1 GB are free. *)
Definition frames_avail (n : Z) (a : A) : Prop :=
  exists l, NoDup l /\ Z.of_nat (length l) = n /\ Forall (fun f => fa_free a f /\ f < 262144) l.

(** The tables missing for the directory entries [lo .. hi - 1]. *)
Definition missing (s : paging A) (lo hi : Z) : Z := count (absent (phys s) (cr3 s)) lo hi.

Lemma frames_avail_eq n n' a : frames_avail n a -> n = n' -> frames_avail n' a.
Proof. by intros ? <-. Qed.

Lemma fa_alloc_mono a r a' : fa_inv a -> fa_alloc a = Some (r, a') -> forall g, fa_free a' g -> fa_free a g.
Proof.
  intros Hi E. destruct (fa_alloc_spec a Hi) as (r1 & a1 & E1 & _ & _ & Hc). rewrite E in E1. injection E1 as <- <-.
  destruct Hc as [(f & _ & _ & _ & Hg)|(_ & -> & _)]; [|done]. intros g Hfr. by apply Hg.
Qed.

Lemma frames_avail_alloc n a :
  fa_inv a -> 0 < n -> frames_avail n a ->
  exists f a', fa_alloc a = Some (f * 4096, a') /\ fa_inv a' /\ 0 < f < 262144 /\ fa_free a f /\
    (forall g, fa_free a' g <-> fa_free a g /\ g <> f) /\ frames_avail (n - 1) a'.
Proof.
  intros Hi Hn (l & Hd & Hl & Hf). destruct (fa_alloc_spec a Hi) as (r & a' & Ha & Hi' & _ & Hc).
  destruct Hc as [(f & -> & Hr & Hff & Hg)|(_ & _ & Hnone)].
  2:{ destruct l as [|x l]; [cbn in Hl; lia|]. inversion Hf as [|? ? [Hx Hx'] ?]; subst.
      specialize (Hnone x Hx). lia. }
  exists f, a'. split_and!; auto; try lia.
  destruct (decide (f ∈ l)) as [Hin|Hout].
  - apply list_elem_of_split in Hin as (l1 & l2 & ->). exists (l1 ++ l2).
    apply NoDup_app in Hd as (Hd1 & Hd2 & [Hf2 Hd3]%NoDup_cons).
    split; [|split].
    + apply NoDup_app. split_and!; auto. intros x Hx Hx'. apply (Hd2 x Hx). by right.
    + rewrite length_app in *. cbn in Hl. lia.
    + apply Forall_app in Hf as [Hf1 [_ Hf3]%Forall_cons].
      rewrite Forall_app, !Forall_forall in *. split; intros x Hx.
      * destruct (Hf1 x Hx). split; [|done]. apply Hg. split; [done|]. intros ->.
        apply (Hd2 f Hx). by left.
      * destruct (Hf3 x Hx). split; [|done]. apply Hg. split; [done|]. by intros ->.
  - destruct l as [|x l]; [cbn in Hl; lia|]. exists l. apply NoDup_cons in Hd as [_ Hd].
    cbn in Hl. split_and!; [done|lia|]. inversion Hf as [|? ? _ Hf']; subst.
    rewrite Forall_forall in *. intros y Hy. destruct (Hf' y Hy). split; [|done].
    apply Hg. split; [done|]. intros ->. apply Hout. by right.
Qed.

(** The walk, by the entries it reads. *)
Lemma walk_eq m cr va :
  walk m cr va =
    (if absent m cr (Z.shiftr va 22) then None else
     let pte := rd m (pt_of m cr (Z.shiftr va 22) + 4 * Z.land (Z.shiftr va 12) 0x3FF) in
     if pte_present pte =? 0 then None else
     Some (Z.shiftl (pte_frame pte) 12 + Z.land va 0xFFF,
       negb (pde_rw (pde m cr (Z.shiftr va 22)) =? 0) && negb (pte_rw pte =? 0),
       negb (pde_user (pde m cr (Z.shiftr va 22)) =? 0) && negb (pte_user pte =? 0))).
Proof. done. Qed.

(** Two memories with the same directory entry and the same table entry. *)
Lemma walk_ext m m' cr va :
  pde m' cr (Z.shiftr va 22) = pde m cr (Z.shiftr va 22) ->
  (absent m cr (Z.shiftr va 22) = false ->
     rd m' (pt_of m cr (Z.shiftr va 22) + 4 * Z.land (Z.shiftr va 12) 0x3FF) =
     rd m (pt_of m cr (Z.shiftr va 22) + 4 * Z.land (Z.shiftr va 12) 0x3FF)) ->
  walk m' cr va = walk m cr va.
Proof.
  intros Hp Ht. rewrite !walk_eq. unfold absent, pt_of in *. rewrite Hp.
  destruct (_ =? 0); [done|]. by rewrite Ht.
Qed.

Lemma va_indices va : 0 <= va < 2 ^ 32 ->
  0 <= Z.shiftr va 22 < 1024 /\ 0 <= Z.land (Z.shiftr va 12) 0x3FF < 1024 /\
  va = Z.shiftr va 22 * 4194304 + Z.land (Z.shiftr va 12) 0x3FF * 4096 + va mod 4096.
Proof.
  intros Hv. change 0x3FF with (Z.ones 10). rewrite Z.land_ones, !Z.shiftr_div_pow2 by lia. pow2_lia.
Qed.

(** Two addresses with the same indices are on the same page. *)
Lemma same_page va va' : 0 <= va < 2 ^ 32 -> 0 <= va' < 2 ^ 32 ->
  Z.shiftr va 22 = Z.shiftr va' 22 ->
  Z.land (Z.shiftr va 12) 0x3FF = Z.land (Z.shiftr va' 12) 0x3FF -> va / 4096 = va' / 4096.
Proof.
  intros H H' E1 E2. destruct (va_indices va H) as (_ & _ & E).
  destruct (va_indices va' H') as (_ & _ & E'). rewrite E1, E2 in E. pow2_lia.
Qed.

(** A filled directory entry. *)
Lemma filled_pde m cr i fr w :
  pde m cr i = fill_entry 1 1 fr w -> 0 <= fr < 2 ^ 20 ->
  absent m cr i = false /\ pt_of m cr i = fr * 4096 /\
  pde_rw (pde m cr i) = 1 /\ pde_user (pde m cr i) = 1.
Proof.
  intros E Hf. unfold absent, pt_of, pde_present, pde_pt_frame, pde_rw, pde_user. rewrite E.
  destruct (fill_entry_fields 1 1 fr w) as (-> & -> & -> & ->). split_and!; try done.
  rewrite Z.shiftl_mul_pow2, Z.mod_small by lia. done.
Qed.

(** Writing a page table entry under a present directory entry. *)
Lemma set_page_ok s v p w :
  pg_ok s -> 0 <= v < 2 ^ 32 -> 0 <= p < 2 ^ 32 -> v mod 4096 = 0 -> p mod 4096 = 0 ->
  absent (phys s) (cr3 s) (Z.shiftr v 22) = false ->
  let m' := wr (pt_of (phys s) (cr3 s) (Z.shiftr v 22) + 4 * Z.land (Z.shiftr v 12) 0x3FF)
              (fill_entry 1 1 (Z.shiftr p 12) w) (phys s) in
  let s' := Paging m' (kernel_directory s) (cr3 s) (frames s) in
  pg_ok s' /\ (forall i, 0 <= i < 1024 -> pde m' (cr3 s) i = pde (phys s) (cr3 s) i) /\
  (forall o, 0 <= o < 4096 -> walk m' (cr3 s) (v + o) = Some (p + o, true, true)) /\
  (forall va, 0 <= va < 2 ^ 32 -> va / 4096 <> v / 4096 ->
     walk m' (cr3 s) va = walk (phys s) (cr3 s) va).
Proof.
  intros [[Hc Hk] Ht Hinj Hdir Hal] Hv Hp Hv0 Hp0 Hpres m' s'.
  destruct (va_indices v Hv) as (Hd & Hi & Ev). set (pd := Z.shiftr v 22) in *.
  set (pi := Z.land (Z.shiftr v 12) 0x3FF) in *.
  destruct (Ht pd Hd Hpres) as (Htb & Htc & Htf & Hrw & Hus). set (t := pt_of _ _ pd) in *.
  assert (Hpde : forall i, 0 <= i < 1024 -> pde m' (cr3 s) i = pde (phys s) (cr3 s) i)
    by (intros i Hi'; apply rd_table_ne; auto).
  split; [|split; [done|split]].
  - subst s'. constructor; cbn [phys cr3 kernel_directory frames]; [done| | |done|done].
    + intros i Hi' Ha. specialize (Hpde i Hi'). unfold absent, pt_of in *. rewrite Hpde in *. auto.
    + intros i j Hi' Hj Hij Ha Hb. unfold absent, pt_of in *. rewrite !Hpde in * by done. auto.
  - intros o Ho. assert (Hvo : 0 <= v + o < 2 ^ 32) by pow2_lia.
    assert (E1 : Z.shiftr (v + o) 22 = pd)
      by (subst pd; rewrite !Z.shiftr_div_pow2 by lia; pow2_lia).
    assert (E2 : Z.land (Z.shiftr (v + o) 12) 0x3FF = pi).
    { subst pi. change 0x3FF with (Z.ones 10). rewrite !Z.land_ones, !Z.shiftr_div_pow2 by lia.
      pow2_lia. }
    rewrite walk_eq, E1, E2. unfold absent, pt_of. rewrite Hpde by done. fold (pt_of (phys s) (cr3 s) pd).
    fold t. unfold absent in Hpres. rewrite Hpres. unfold m'. fold t. rewrite rd_wr_eq.
    unfold pte_present, pte_frame, pte_rw, pte_user.
    destruct (fill_entry_fields 1 1 (Z.shiftr p 12) w) as (-> & -> & -> & ->).
    rewrite Hrw, Hus. cbn [Z.eqb]. change (1 mod 2 =? 0) with false. cbn [negb andb].
    do 3 f_equal. change 0xFFF with (Z.ones 12).
    rewrite Z.land_ones, Z.shiftl_mul_pow2, Z.shiftr_div_pow2 by lia. pow2_lia.
  - intros va Hva Hne. destruct (va_indices va Hva) as (Hd' & Hi' & _).
    apply walk_ext; [by apply Hpde|]. intros Ha. destruct (Ht _ Hd' Ha) as (Htb' & _).
    unfold m'. apply rd_table_ne; auto.
    destruct (decide (pd = Z.shiftr va 22)) as [E|]; [right|left; by apply Hinj].
    intros E'. apply Hne. apply same_page; auto.
Qed.

(** Installing a table in a free frame under an absent directory entry: [m] is
    the memory after the table was written. *)
Lemma install_table_ok s pd f fr m :
  pg_ok s -> 0 <= pd < 1024 -> absent (phys s) (cr3 s) pd = true ->
  0 < f < 262144 -> fa_free (frames s) f -> fa_inv fr ->
  (forall g, fa_free fr g <-> fa_free (frames s) g /\ g <> f) ->
  (forall t j, table_ok t -> t <> f * 4096 -> 0 <= j < 1024 ->
     rd m (t + 4 * j) = rd (phys s) (t + 4 * j)) ->
  let m' := upd_entry (kernel_directory s) pd (fill_entry 1 1 (Z.shiftr (f * 4096) 12)) m in
  pg_ok (Paging m' (kernel_directory s) (cr3 s) fr) /\
  pt_of m' (cr3 s) pd = f * 4096 /\ absent m' (cr3 s) pd = false /\
  pde_rw (pde m' (cr3 s) pd) = 1 /\ pde_user (pde m' (cr3 s) pd) = 1 /\
  (forall i, 0 <= i < 1024 -> i <> pd -> absent m' (cr3 s) i = absent (phys s) (cr3 s) i) /\
  (forall j, 0 <= j < 1024 -> rd m' (f * 4096 + 4 * j) = rd m (f * 4096 + 4 * j)) /\
  forall va, 0 <= va < 2 ^ 32 -> Z.shiftr va 22 <> pd ->
    walk m' (cr3 s) va = walk (phys s) (cr3 s) va.
Proof.
  intros [[Hc Hk] Ht Hinj Hdir Hal] Hpd Habs Hf Hff Hal' Hg Hout m'.
  assert (Htf : table_ok (f * 4096)) by (split; [apply Z_mod_mult|lia]).
  assert (Hdiv : f * 4096 / 4096 = f) by (apply Z_div_mult; lia).
  assert (Hfc : f * 4096 <> cr3 s) by (intros E; apply Hdir; by rewrite <- E, Hdiv).
  assert (Hft : forall i, 0 <= i < 1024 -> absent (phys s) (cr3 s) i = false ->
    pt_of (phys s) (cr3 s) i <> f * 4096).
  { intros i Hi Hp E. destruct (Ht i Hi Hp) as (_ & _ & Hnf & _). apply Hnf. by rewrite E, Hdiv. }
  assert (Hm' : m' = wr (cr3 s + 4 * pd) (fill_entry 1 1 f (rd m (cr3 s + 4 * pd))) m).
  { subst m'. unfold upd_entry, rd_entry. rewrite Hk, entry_addr_table by done.
    by rewrite Z.shiftr_div_pow2, Z_div_mult by lia. }
  assert (Hpde : pde m' (cr3 s) pd = fill_entry 1 1 f (rd m (cr3 s + 4 * pd)))
    by (rewrite Hm'; apply rd_wr_eq).
  destruct (filled_pde _ _ _ _ _ Hpde ltac:(lia)) as (Hap & Hpp & Hrp & Hup).
  assert (Hoth : forall i, 0 <= i < 1024 -> i <> pd -> pde m' (cr3 s) i = pde (phys s) (cr3 s) i).
  { intros i Hi Hne. unfold pde. rewrite Hm', rd_table_ne by auto. apply Hout; auto. }
  assert (Hoa : forall i, 0 <= i < 1024 -> i <> pd ->
    absent m' (cr3 s) i = absent (phys s) (cr3 s) i /\ pt_of m' (cr3 s) i = pt_of (phys s) (cr3 s) i).
  { intros i Hi Hne. unfold absent, pt_of. by rewrite Hoth. }
  split_and!; auto; [| | |].
  - constructor; cbn [phys cr3 kernel_directory frames]; [done| | | |done].
    + intros i Hi Hp. destruct (decide (i = pd)) as [->|Hne].
      * rewrite Hpp, Hrp, Hup, Hdiv. split_and!; auto. intros ?%Hg. tauto.
      * destruct (Hoa i Hi Hne) as [Ea Ep]. rewrite Ea in Hp. rewrite Ep, Hoth by done.
        destruct (Ht i Hi Hp) as (? & ? & Hnf & ? & ?). split_and!; auto. intros ?%Hg. tauto.
    + intros i j Hi Hj Hij Hp Hq.
      destruct (decide (i = pd)) as [->|Hi'], (decide (j = pd)) as [->|Hj']; [done| | |].
      * destruct (Hoa j Hj Hj') as [Ea Ep]. rewrite Hpp, Ep. rewrite Ea in Hq. intros E.
        by apply (Hft j Hj Hq).
      * destruct (Hoa i Hi Hi') as [Ea Ep]. rewrite Hpp, Ep. rewrite Ea in Hp. by apply Hft.
      * destruct (Hoa i Hi Hi') as [Ea ->], (Hoa j Hj Hj') as [Eb ->]. rewrite Ea in Hp.
        rewrite Eb in Hq. by apply Hinj.
    + intros ?%Hg. tauto.
  - intros i Hi Hne. by apply Hoa.
  - intros j Hj. rewrite Hm'. by apply rd_table_ne; auto.
  - intros va Hva Hne. destruct (va_indices va Hva) as (Hd & Hi & _).
    apply walk_ext; [by apply Hoth|]. intros Hp. rewrite Hm'. destruct (Ht _ Hd Hp) as (? & ? & _).
    rewrite rd_table_ne by auto. apply Hout; auto.
Qed.

(** Adding a cleared table under an absent directory entry. *)
Lemma new_table_ok s pd n :
  pg_ok s -> 0 <= pd < 1024 -> absent (phys s) (cr3 s) pd = true -> 0 < n ->
  frames_avail n (frames s) ->
  exists f fr m, fa_alloc (frames s) = Some (f * 4096, fr) /\ 0 < f < 262144 /\
    clear_table (u32 (f * 4096 + 0xC0000000)) (phys s) = Some m /\
    let m' := upd_entry (kernel_directory s) pd (fill_entry 1 1 (Z.shiftr (f * 4096) 12)) m in
    pg_ok (Paging m' (kernel_directory s) (cr3 s) fr) /\ frames_avail (n - 1) fr /\
    pt_of m' (cr3 s) pd = f * 4096 /\ absent m' (cr3 s) pd = false /\
    (forall i, 0 <= i < 1024 -> i <> pd -> absent m' (cr3 s) i = absent (phys s) (cr3 s) i) /\
    forall va, 0 <= va < 2 ^ 32 -> walk m' (cr3 s) va = walk (phys s) (cr3 s) va.
Proof.
  intros Hok Hpd Habs Hn Hav.
  destruct (frames_avail_alloc n _ (pg_alloc _ Hok) Hn Hav) as (f & fr & Ha & Hal' & Hf & Hff & Hg & Hav').
  assert (Htf : table_ok (f * 4096)) by (split; [apply Z_mod_mult|lia]).
  destruct (table_loop_ok (f * 4096) (fun _ => set_field 0 1 0)
    (fun j m => Some (upd_entry (u32 (f * 4096 + 0xC0000000)) j (set_field 0 1 0) m)) (phys s) Htf)
    as (m & Hm & Hin & Hout).
  { intros j m Hj. unfold upd_entry, rd_entry. by rewrite entry_addr_table. }
  exists f, fr, m. split; [done|]. split; [done|]. split; [exact Hm|].
  destruct (install_table_ok s pd f fr m Hok Hpd Habs Hf Hff Hal' Hg Hout)
    as (Hok' & Hpt & Hap & _ & _ & Hoa & Hrd & Hw).
  intros m'. fold m' in Hok', Hpt, Hap, Hoa, Hrd, Hw. split_and!; auto.
  intros va Hva. destruct (va_indices va Hva) as (Hd & Hi & _).
  destruct (decide (Z.shiftr va 22 = pd)) as [E|Hne]; [|by apply Hw].
  rewrite !walk_eq, E, Habs, Hap, Hpt. cbn zeta. rewrite Hrd, Hin by done.
  unfold pte_present at 1. by rewrite field_set_eq by lia.
Qed.

Lemma rd_table_entry m t i : table_ok t -> rd_entry (u32 (t + 0xC0000000)) i m = rd m (t + 4 * i).
Proof. intros. unfold rd_entry. by rewrite entry_addr_table. Qed.

Lemma pt_of_addr m cr pd :
  table_ok (pt_of m cr pd) ->
  u32 (u32 (Z.shiftl (pde_pt_frame (pde m cr pd)) 12) + 0xC0000000) = u32 (pt_of m cr pd + 0xC0000000).
Proof. intros [_ H]. unfold pt_of in *. by rewrite (u32_small (Z.shiftl _ _)) by lia. Qed.

(** Clearing the present flag of one entry in a range lowers the count by one. *)
Lemma missing_step m m' cr lo hi pd :
  lo <= pd < hi -> absent m cr pd = true -> absent m' cr pd = false ->
  (forall i, lo <= i < hi -> i <> pd -> absent m' cr i = absent m cr i) ->
  count (absent m cr) lo hi = count (absent m' cr) lo hi + 1.
Proof. intros H Ha Hb Hc. apply (count_flip _ _ _ _ pd); auto. intros. symmetry. auto. Qed.

Lemma missing_pos m cr lo hi pd :
  lo <= pd < hi -> absent m cr pd = true -> 0 < count (absent m cr) lo hi.
Proof.
  intros Hpd Ha. rewrite (count_flip _ (fun j => absent m cr j && negb (j =? pd)) lo hi pd); auto.
  - pose proof (count_bounds (fun j => absent m cr j && negb (j =? pd)) lo hi). lia.
  - by rewrite Ha, Z.eqb_refl.
  - intros j _ Hne. rewrite (proj2 (Z.eqb_neq j pd)) by done. by rewrite andb_true_r.
Qed.

(** The second half of a round: the entry is written under a present directory
    entry, through the kernel address of its table. *)
Lemma write_page_ok s v p lo hi :
  pg_ok s -> 0 <= v < 2 ^ 32 -> 0 <= p < 2 ^ 32 -> v mod 4096 = 0 -> p mod 4096 = 0 ->
  0 <= lo -> hi <= 1024 -> absent (phys s) (cr3 s) (Z.shiftr v 22) = false ->
  exists m', upd_entry (u32 (pt_of (phys s) (cr3 s) (Z.shiftr v 22) + 0xC0000000))
      (Z.land (Z.shiftr v 12) 0x3FF) (fill_entry 1 1 (Z.shiftr p 12)) (phys s) = m' /\
    pg_ok (Paging m' (kernel_directory s) (cr3 s) (frames s)) /\
    count (absent m' (cr3 s)) lo hi = count (absent (phys s) (cr3 s)) lo hi /\
    (forall o, 0 <= o < 4096 -> walk m' (cr3 s) (v + o) = Some (p + o, true, true)) /\
    (forall va, 0 <= va < 2 ^ 32 -> va / 4096 <> v / 4096 ->
       walk m' (cr3 s) va = walk (phys s) (cr3 s) va).
Proof.
  intros Hok Hv Hp Hvm Hpm Hlo Hhi Ha. destruct (va_indices v Hv) as (Hd & _ & _).
  destruct (pg_tables _ Hok _ Hd Ha) as (Htb & _).
  unfold upd_entry. rewrite entry_addr_table, rd_table_entry by done.
  eexists; split; [reflexivity|].
  destruct (set_page_ok s v p (rd (phys s) (pt_of (phys s) (cr3 s) (Z.shiftr v 22) +
    4 * Z.land (Z.shiftr v 12) 0x3FF)) Hok Hv Hp Hvm Hpm Ha) as (Hok2 & Hpde & Hnew & Hold).
  split; [exact Hok2|]. split; [|split; [exact Hnew|exact Hold]].
  apply count_ext. intros j Hj. unfold absent. by rewrite Hpde by lia.
Qed.

(** One page, on either branch. *)
Lemma map_page_ok base virt size i s lo hi n :
  pg_ok s -> 0 <= i < 2 ^ 20 -> 0 <= base -> 0 <= virt ->
  base + i * 4096 < 2 ^ 32 -> virt + i * 4096 < 2 ^ 32 -> virt mod 4096 = 0 -> base mod 4096 = 0 ->
  0 <= lo <= Z.shiftr (virt + i * 4096) 22 -> Z.shiftr (virt + i * 4096) 22 < hi <= 1024 ->
  0 <= n -> frames_avail (missing s lo hi + n) (frames s) ->
  exists s', map_page base virt size i s = Some s' /\ pg_ok s' /\ cr3 s' = cr3 s /\
    kernel_directory s' = kernel_directory s /\ frames_avail (missing s' lo hi + n) (frames s') /\
    (forall g, fa_free (frames s') g -> fa_free (frames s) g) /\
    (forall o, 0 <= o < 4096 ->
       walk (phys s') (cr3 s) (virt + i * 4096 + o) = Some (base + i * 4096 + o, true, true)) /\
    (forall va, 0 <= va < 2 ^ 32 -> va / 4096 <> (virt + i * 4096) / 4096 ->
       walk (phys s') (cr3 s) va = walk (phys s) (cr3 s) va).
Proof.
  intros Hok Hi Hb0 Hv0 Hbs Hv Hva Hba Hlo Hhi Hn0 Hav. unfold map_page, PAGE_SIZE.
  rewrite !(u32_small (i * 4096)), !u32_small by lia.
  set (v := virt + i * 4096) in *. set (p := base + i * 4096) in *.
  assert (Hvm : v mod 4096 = 0) by (subst v; rewrite Z_mod_plus_full; done).
  assert (Hpm : p mod 4096 = 0) by (subst p; rewrite Z_mod_plus_full; done).
  assert (Hv' : 0 <= v < 2 ^ 32) by lia. assert (Hp' : 0 <= p < 2 ^ 32) by lia. clearbody v p.
  destruct (pg_cr3 _ Hok) as [Hc Hk]. destruct (va_indices v Hv') as (Hd & Hpi & _).
  replace (rd_entry (kernel_directory s) (Z.shiftr v 22) (phys s))
    with (pde (phys s) (cr3 s) (Z.shiftr v 22)) by (rewrite Hk; symmetry; by apply rd_table_entry).
  fold (absent (phys s) (cr3 s) (Z.shiftr v 22)).
  destruct (absent (phys s) (cr3 s) (Z.shiftr v 22)) eqn:Ha.
  - pose proof (missing_pos _ _ lo hi (Z.shiftr v 22) ltac:(lia) Ha) as Hn.
    destruct (new_table_ok s _ (missing s lo hi + n) Hok Hd Ha ltac:(unfold missing; lia) Hav)
      as (f & fr & m & Hf & Hfr & Hm & Hok1 & Hav1 & Hpt & Hp1 & Ho1 & Hw1).
    revert Hm. generalize clear_table. intros ct Hm.
    rewrite Hf. cbn [mbind option_bind]. rewrite Hm. cbn [mbind option_bind phys].
    set (m1 := upd_entry _ _ (fill_entry 1 1 (Z.shiftr (f * 4096) 12)) m) in *. clearbody m1.
    destruct (write_page_ok _ v p lo hi Hok1 Hv' Hp' Hvm Hpm ltac:(lia) ltac:(lia) Hp1)
      as (m' & E & Hok2 & Hcnt & Hnew & Hold). cbn [phys cr3 kernel_directory frames] in *.
    rewrite Hpt in E. rewrite E. eexists; split; [reflexivity|].
    cbn [phys cr3 kernel_directory frames]. split_and!; [exact Hok2|done|done| | |exact Hnew|].
    + unfold missing in *. cbn [phys cr3]. rewrite Hcnt.
      rewrite (missing_step _ m1 _ lo hi (Z.shiftr v 22) ltac:(lia) Ha Hp1) in Hav1
        by (intros; apply Ho1; lia). eapply frames_avail_eq; [exact Hav1|lia].
    + exact (fa_alloc_mono _ _ _ (pg_alloc _ Hok) Hf).
    + intros va Hva' Hne. rewrite Hold, Hw1 by done. done.
  - destruct (pg_tables _ Hok _ Hd Ha) as (Htb & _).
    generalize clear_table. intros ct.
    cbn [mbind option_bind phys kernel_directory cr3 frames]. rewrite pt_of_addr by done.
    destruct (write_page_ok s v p lo hi Hok Hv' Hp' Hvm Hpm ltac:(lia) ltac:(lia) Ha)
      as (m' & E & Hok2 & Hcnt & Hnew & Hold). rewrite E. eexists; split; [reflexivity|].
    cbn [phys cr3 kernel_directory frames].
    split_and!; [exact Hok2|done|done| |done|exact Hnew|exact Hold].
    unfold missing in *. cbn [phys cr3]. by rewrite Hcnt.
Qed.
(** A page, whole or not: [paging_map_memory] of one page maps the page that holds [va]. *)
Lemma map_one_ok s f va lo hi n :
  pg_ok s -> 0 <= f < 2 ^ 20 -> 0 <= va < 2 ^ 32 -> 0 <= lo <= Z.shiftr va 22 -> Z.shiftr va 22 < hi <= 1024 ->
  0 <= n -> frames_avail (missing s lo hi + n) (frames s) ->
  exists s', paging_map_memory (f * 4096) va 4096 s = Some s' /\ pg_ok s' /\ cr3 s' = cr3 s /\
    frames_avail (missing s' lo hi + n) (frames s') /\ (forall g, fa_free (frames s') g -> fa_free (frames s) g) /\
    forall va', 0 <= va' < 2 ^ 32 -> walk (phys s') (cr3 s') va' =
      if decide (va' / 4096 = va / 4096) then Some (f * 4096 + va' mod 4096, true, true) else walk (phys s) (cr3 s) va'.
Proof.
  intros Hok Hf Hva Hlo Hhi Hn Hav. unfold paging_map_memory, PAGE_SIZE. change (u32 (4096 + 4096 - 1) / 4096) with 1.
  set (v := va - va mod 4096).
  assert (Hv : v mod 4096 = 0 /\ v / 4096 = va / 4096 /\ 0 <= v < 2 ^ 32) by (subst v; pow2_lia).
  destruct Hv as (Hvm & Hvd & Hvr).
  assert (Hsh : Z.shiftr v 22 = Z.shiftr va 22) by (rewrite !Z.shiftr_div_pow2 by lia; pow2_lia).
  destruct (map_page_ok (f * 4096) v 4096 0 s lo hi n) as (s1 & E & Hok1 & Hc & Hk & Hav1 & Hfr & Hin & Hout); rewrite ?Hsh, ?Z.add_0_r in *;
    [done|lia|lia|lia|lia|lia|done|by apply Z_mod_mult|lia|by rewrite Hsh|done|done|].
  assert (E' : map_page (f * 4096) va 4096 0 s = Some s1).
  { rewrite <- E. unfold map_page, PAGE_SIZE. change (u32 (0 * 4096)) with 0. rewrite !Z.add_0_r, (u32_small v), (u32_small va) by lia.
    rewrite Hsh. by replace (Z.shiftr v 12) with (Z.shiftr va 12) by (rewrite !Z.shiftr_div_pow2 by lia; change (2 ^ 12) with 4096; by rewrite Hvd). }
  unfold for_do. change (Z.to_nat (1 - 0)) with 1%nat. cbn [iter_n]. rewrite E'. cbn [mbind option_bind].
  assert (Hcr : u32 (kernel_directory s1 - 0xC0000000) = cr3 s1).
  { destruct (pg_cr3 _ Hok1) as [[_ Hr] ->]. rewrite (u32_small (_ + _)), Z.add_simpl_r by lia. apply u32_small. lia. }
  eexists; split; [done|]. cbn [phys cr3 kernel_directory frames]. rewrite Hcr. split_and!; try done; [by destruct Hok1|].
  intros va' Hva'. rewrite Hc. case_decide as Hd.
  - replace va' with (v + va' mod 4096) at 1 by (subst v; pow2_lia). apply Hin, Z.mod_pos_bound. lia.
  - apply Hout; [done|]. by rewrite Hvd.
Qed.

(** *** The boot mapping *)

Variables text_start text_end rodata_start rodata_end : Z.
#[local] Abbreviation readonly := (is_readonly text_start text_end rodata_start rodata_end).

(** What a kernel address translates to after boot, with [total] frames. *)
Definition boot_walk (total va : Z) : option (Z * bool * bool) :=
  if (0xC0000000 <=? va) && ((va - 0xC0000000) / 4096 <? total)
  then Some (va - 0xC0000000, negb (readonly (va - va mod 4096)), true)
  else None.

Definition identity_word (total i j w : Z) : Z :=
  if i * 1024 + j <? total
  then fill_entry (if readonly (0xC0000000 + (i * 1024 + j) * 4096) then 0 else 1) 1
         (i * 1024 + j) w
  else set_field 0 1 0 w.

Lemma identity_entry_eq total i t j m :
  table_ok t -> 0 <= i < 256 -> 0 <= j < 1024 ->
  identity_entry text_start text_end rodata_start rodata_end total i (u32 (t + 0xC0000000)) j m =
    wr (t + 4 * j) (identity_word total i j (rd m (t + 4 * j))) m.
Proof.
  intros Ht Hi Hj. unfold identity_entry, upd_entry, rd_entry, identity_word, PAGE_SIZE.
  rewrite entry_addr_table by done. rewrite (u32_small (i * 1024)) by lia.
  rewrite (u32_small (i * 1024 + j)) by lia. destruct (i * 1024 + j <? total); [|done].
  rewrite (u32_small ((i * 1024 + j) * 4096)) by lia. rewrite u32_small by lia.
  by rewrite (Z.add_comm _ 0xC0000000).
Qed.

(** The walk through a table of the boot mapping. *)
Lemma identity_walk m cr i total t va w :
  table_ok t -> 0 <= i < 256 -> 0 <= va < 2 ^ 32 -> Z.shiftr va 22 = 768 + i ->
  absent m cr (768 + i) = false -> pt_of m cr (768 + i) = t ->
  pde_rw (pde m cr (768 + i)) = 1 -> pde_user (pde m cr (768 + i)) = 1 ->
  rd m (t + 4 * Z.land (Z.shiftr va 12) 0x3FF) =
    identity_word total i (Z.land (Z.shiftr va 12) 0x3FF) w ->
  walk m cr va = boot_walk total va.
Proof.
  intros Ht Hi Hva E Ha Hp Hr Hu Hw. destruct (va_indices va Hva) as (_ & Hj & Ev).
  rewrite walk_eq, E, Ha, Hp, Hr, Hu, Hw. cbn zeta. unfold boot_walk, identity_word.
  set (j := Z.land _ 0x3FF) in *. rewrite E in Ev.
  assert (E1 : (va - 0xC0000000) / 4096 = i * 1024 + j) by pow2_lia.
  assert (E2 : va - va mod 4096 = 0xC0000000 + (i * 1024 + j) * 4096) by lia.
  assert (Hge : 0xC0000000 <= va) by (pose proof (Z.mod_pos_bound va 4096); lia).
  rewrite E1, E2, (proj2 (Z.leb_le _ _) Hge). cbn [andb].
  destruct (i * 1024 + j <? total).
  - unfold pte_present, pte_frame, pte_rw, pte_user. set (ro := if readonly _ then _ else _).
    destruct (fill_entry_fields ro 1 (i * 1024 + j) w) as (-> & -> & -> & ->).
    change (1 =? 0) with false. change (1 mod 2 =? 0) with false. cbn [negb andb].
    rewrite Z.mod_small by lia. do 3 f_equal.
    + change 0xFFF with (Z.ones 12). rewrite Z.land_ones, Z.shiftl_mul_pow2 by lia. pow2_lia.
    + subst ro. by destruct (readonly _).
  - unfold pte_present. by rewrite field_set_eq by lia.
Qed.

(** The state after [i] tables. *)
Record boot_ok (total n i : Z) (kd cr : Z) (s : paging A) : Prop := {
  bk_ok : pg_ok s;
  bk_regs : kernel_directory s = kd /\ cr3 s = cr;
  bk_avail : frames_avail (n - i) (frames s);
  bk_absent : forall pd, 0 <= pd < 1024 ->
    absent (phys s) cr pd = negb ((768 <=? pd) && (pd <? 768 + i));
  bk_walk : forall va, 0 <= va < 2 ^ 32 -> Z.shiftr va 22 < 768 + i ->
    walk (phys s) cr va = boot_walk total va
}.

Lemma walk_absent m cr va : absent m cr (Z.shiftr va 22) = true -> walk m cr va = None.
Proof. intros Ha. by rewrite walk_eq, Ha. Qed.

Lemma map_4mb_ok total n i kd cr s :
  boot_ok total n i kd cr s -> 0 <= i < 256 -> i < n ->
  exists s', map_4mb text_start text_end rodata_start rodata_end total i s = Some (Next s') /\
    boot_ok total n (i + 1) kd cr s'.
Proof.
  intros [Hok [Hk Hc] Hav Habs Hw] Hi Hn. unfold map_4mb. rewrite u32_small by lia.
  rewrite (proj2 (Z.leb_gt 1024 (768 + i))) by lia.
  destruct (frames_avail_alloc (n - i) _ (pg_alloc _ Hok) ltac:(lia) Hav)
    as (f & fr & Ha & Hal' & Hf & Hff & Hg & Hav').
  rewrite Ha. cbn [mbind option_bind].
  assert (Htf : table_ok (f * 4096)) by (split; [apply Z_mod_mult|lia]).
  destruct (table_loop_ok (f * 4096) (identity_word total i)
    (fun j m => Some (identity_entry text_start text_end rodata_start rodata_end total i
       (u32 (f * 4096 + 0xC0000000)) j m)) (phys s) Htf) as (m & Hm & Hin & Hout).
  { intros j m Hj. by rewrite identity_entry_eq. }
  revert Hm. generalize (for_do (S := pmem) 0 1024). intros loop Hm. rewrite Hm.
  cbn [mbind option_bind]. assert (Habs0 : absent (phys s) (cr3 s) (768 + i) = true).
  { rewrite Hc, Habs by lia. rewrite (proj2 (Z.ltb_ge _ _)) by lia. by rewrite andb_false_r. }
  destruct (install_table_ok s (768 + i) f fr m Hok ltac:(lia) Habs0 Hf Hff Hal' Hg Hout)
    as (Hok' & Hpt & Hap & Hrw & Hus & Hoa & Hrd & Hwk).
  eexists; split; [reflexivity|]. set (m' := upd_entry _ _ _ m) in *. rewrite Hc in *.
  constructor; cbn [phys kernel_directory cr3 frames]; [exact Hok'|done| | |].
  - by replace (n - (i + 1)) with (n - i - 1) by lia.
  - intros pd Hpd. destruct (decide (pd = 768 + i)) as [->|Hne].
    + rewrite Hap, (proj2 (Z.leb_le _ _)), (proj2 (Z.ltb_lt _ _)) by lia. done.
    + rewrite Hoa, Habs by done. f_equal. f_equal.
      destruct (Z.ltb_spec pd (768 + i)), (Z.ltb_spec pd (768 + (i + 1))); auto; lia.
  - intros va Hva Hlt. destruct (va_indices va Hva) as (_ & Hj & _).
    destruct (decide (Z.shiftr va 22 = 768 + i)) as [E|Hne]; [|rewrite Hwk by done; apply Hw; lia].
    eapply identity_walk; eauto. rewrite Hrd by done. apply Hin. done.
Qed.

(** CR3 is loaded last; the loop does not look at it. *)
Definition with_cr3 (c : Z) (s : paging A) : paging A :=
  Paging (phys s) (kernel_directory s) c (frames s).

Lemma map_4mb_cr3 total c i s :
  map_4mb text_start text_end rodata_start rodata_end total i (with_cr3 c s) =
    ctl_map (with_cr3 c) <$> map_4mb text_start text_end rodata_start rodata_end total i s.
Proof.
  unfold map_4mb. cbn [frames phys with_cr3]. generalize (for_do (S := pmem) 0 1024). intros loop.
  destruct (_ <=? _); [done|]. destruct (fa_alloc (frames s)) as [[pt fr]|]; [|done].
  cbn [mbind option_bind]. by destruct (loop _ _).
Qed.

(** The cleared directory. *)
Lemma blank_boot_ok total n (s : paging A) f (fr : A) :
  0 <= n -> fa_inv fr -> 0 < f < 262144 -> ~ fa_free fr f -> frames_avail n fr ->
  exists m, for_do 0 1024 (fun i m => Some (upd_entry (u32 (f * 4096 + 0xC0000000)) i blank_pde m))
      (phys s) = Some m /\
    boot_ok total n 0 (u32 (f * 4096 + 0xC0000000)) (f * 4096)
      (Paging m (u32 (f * 4096 + 0xC0000000)) (f * 4096) fr).
Proof.
  intros Hn Hi Hf Hnf Hav.
  assert (Htf : table_ok (f * 4096)) by (split; [apply Z_mod_mult|lia]).
  destruct (table_loop_ok (f * 4096) (fun _ => blank_pde)
    (fun i m => Some (upd_entry (u32 (f * 4096 + 0xC0000000)) i blank_pde m)) (phys s) Htf)
    as (m & Hm & Hin & _).
  { intros j m Hj. unfold upd_entry, rd_entry. by rewrite entry_addr_table. }
  exists m. split; [done|].
  assert (Habs : forall pd, 0 <= pd < 1024 -> absent m (f * 4096) pd = true).
  { intros pd Hpd. unfold absent, pde, pde_present. rewrite Hin by done. unfold blank_pde.
    rewrite !(field_set_ne 0 1) by lia. by rewrite field_set_eq by lia. }
  constructor; cbn [phys kernel_directory cr3 frames].
  - constructor; cbn [phys kernel_directory cr3 frames]; [done| | |by rewrite Z_div_mult by lia|done].
    + intros i Hi' Ha. by rewrite Habs in Ha.
    + intros i j Hi' _ _ Ha. by rewrite Habs in Ha.
  - done.
  - by rewrite Z.sub_0_r.
  - intros pd Hpd. rewrite Habs by done. destruct (Z.leb_spec 768 pd), (Z.ltb_spec pd (768 + 0)); auto; lia.
  - intros va Hva Hlt. destruct (va_indices va Hva) as (Hd & Hj & Ev).
    rewrite walk_absent by (by apply Habs). unfold boot_walk.
    by rewrite (proj2 (Z.leb_gt _ _)) by (pose proof (Z.mod_pos_bound va 4096); lia).
Qed.

(** The addresses beyond the last table. *)
Lemma boot_walk_beyond total n kd cr s va :
  n = Z.min 256 ((total + 1023) / 1024) -> 0 <= total -> boot_ok total n n kd cr s ->
  0 <= va < 2 ^ 32 -> walk (phys s) cr va = boot_walk total va.
Proof.
  intros Hn Ht [_ _ _ Habs Hw] Hva. destruct (va_indices va Hva) as (Hd & Hj & Ev).
  destruct (Z_lt_ge_dec (Z.shiftr va 22) (768 + n)) as [Hlt|Hge]; [by apply Hw|].
  rewrite walk_absent.
  - unfold boot_walk. rewrite (proj2 (Z.ltb_ge _ _)); [by rewrite andb_false_r|]. pow2_lia.
  - rewrite Habs by done. rewrite (proj2 (Z.ltb_ge _ _)) by lia. by rewrite andb_false_r.
Qed.
End spec.

(** ** Properties *)

(** (init_paging): with less than 4 GB and frames for the directory and the
    tables, the boot code succeeds and the address space is exactly the kernel
    half: address 0xC0000000 + p translates to p for every physical address p of
    the machine (up to 1 GB), read-only on the pages of the kernel's text and
    constants, and nothing else is mapped.  Every page is accessible to user
    code. *)
Theorem init_paging_spec {A} `{!FrameAlloc A} t0 t1 r0 r1 (s : paging A) :
  let total := fa_total_kb (frames s) * 1024 / 4096 in
  fa_inv (frames s) -> 0 <= fa_total_kb (frames s) < 4194304 ->
  frames_avail (Z.min 256 ((total + 1023) / 1024) + 1) (frames s) ->
  exists s', init_paging t0 t1 r0 r1 s = Some (s', 14) /\ pg_ok s' /\
    forall va, 0 <= va < 2 ^ 32 -> walk (phys s') (cr3 s') va = boot_walk t0 t1 r0 r1 total va.
Proof.
  intros total Hi Hkb Hav. set (nt := (total + 1023) / 1024) in *. set (n := Z.min 256 nt) in *.
  assert (Ht : 0 <= total < 1048576 /\ 0 <= nt <= 1024) by (subst nt total; pow2_lia).
  assert (Hn : n = Z.min 256 nt) by done.
  destruct (fa_alloc_spec _ Hi) as (r0' & fr0 & Ha0 & _ & Hkb0 & _).
  destruct (frames_avail_alloc (n + 1) _ Hi ltac:(lia) Hav)
    as (f & fr & Ha & Hal' & Hf & Hff & Hg & Hav').
  rewrite Z.add_simpl_r in Hav'. rewrite Ha in Ha0. injection Ha0 as <- <-.
  destruct (blank_boot_ok t0 t1 r0 r1 total n s f fr) as (m & Hm & Hb);
    [lia|done|done|intros ?%Hg; tauto|done|].
  unfold init_paging, PAGE_SIZE.
  revert Hm. generalize (for_do (S := pmem) 0 1024). intros loop Hm.
  rewrite Ha. cbn [mbind option_bind]. rewrite Hm.
  cbn [mbind option_bind]. rewrite Hkb0, (u32_small (_ * 1024)) by lia. fold total.
  rewrite u32_small by lia. fold nt. set (kd := u32 (f * 4096 + _)) in *.
  assert (Hrule : match for_ret 0 nt (map_4mb t0 t1 r0 r1 total) (Paging m kd (f * 4096) fr) with
    | Some (Next x) => nt <= 256 /\ boot_ok t0 t1 r0 r1 total n nt kd (f * 4096) x
    | Some (Ret x) => n = 256 /\ boot_ok t0 t1 r0 r1 total n 256 kd (f * 4096) x
    | None => False
    end).
  { apply (for_ret_rule (fun i x => i <= 256 /\ boot_ok t0 t1 r0 r1 total n i kd (f * 4096) x)
      (fun x => n = 256 /\ boot_ok t0 t1 r0 r1 total n 256 kd (f * 4096) x)); [lia|split; [lia|exact Hb]|].
    intros i x Hi' [Hle Hx]. destruct (Z.eq_dec i 256) as [->|Hne].
    - unfold map_4mb. change (1024 <=? u32 (768 + 256)) with true. cbn iota. split; [lia|done].
    - destruct (map_4mb_ok t0 t1 r0 r1 total n i kd (f * 4096) x Hx) as (x' & -> & Hx'); [lia|lia|].
      split; [lia|done]. }
  change (Paging m kd (cr3 s) fr) with (with_cr3 (cr3 s) (Paging m kd (f * 4096) fr)).
  assert (Hfin : exists x, boot_ok t0 t1 r0 r1 total n n kd (f * 4096) x /\
    match for_ret 0 nt (map_4mb t0 t1 r0 r1 total) (Paging m kd (f * 4096) fr) with
    | Some (Next y) | Some (Ret y) => x = y | None => False end).
  { destruct (for_ret 0 nt _ _) as [[y|y]|]; [| |done]; destruct Hrule as [Hle Hy]; exists y;
      (split; [|done]); [by replace n with nt at 2 by lia|by rewrite Hle at 2]. }
  destruct Hfin as (x & Hx & Hfor).
  rewrite (for_ret_map (with_cr3 (cr3 s)) 0 nt (map_4mb t0 t1 r0 r1 total)
    (Paging m kd (f * 4096) fr) (map_4mb_cr3 t0 t1 r0 r1 total (cr3 s))).
  destruct (for_ret 0 nt _ _) as [r|]; [|done]. cbn [fmap option_fmap option_map mbind option_bind].
  pose proof (bk_regs _ _ _ _ _ _ _ _ _ _ Hx) as [Hkx Hcx].
  assert (Hr : exists s', Some (Paging (phys x) (kernel_directory x) (f * 4096) (frames x), 14) =
      Some (s', 14) /\ pg_ok s' /\
      forall va, 0 <= va < 2 ^ 32 -> walk (phys s') (cr3 s') va = boot_walk t0 t1 r0 r1 total va).
  { rewrite <- Hcx. eexists; split; [reflexivity|].
    split; [destruct (bk_ok _ _ _ _ _ _ _ _ _ _ Hx); by constructor|].
    intros va Hva. cbn [phys cr3]. rewrite Hcx.
    apply (boot_walk_beyond t0 t1 r0 r1 total n kd (f * 4096) x); [done|lia|done|done]. }
  destruct r as [y|y]; subst y; exact Hr.
Qed.

(** C12 (paging_map_memory): with frames for the missing tables, mapping [size]
    bytes at page-aligned addresses always succeeds; afterwards every address of
    the pages of the region translates to the corresponding physical address,
    writable and for user code, every other address translates as before, the
    directory invariant holds again and CR3 still points to the directory. *)
Theorem paging_map_spec {A} `{!FrameAlloc A} base virt size (s : paging A) :
  let np := (size + 4095) / 4096 in
  pg_ok s -> 0 < size <= 2 ^ 32 - 4096 -> 0 <= virt -> 0 <= base ->
  virt mod 4096 = 0 -> base mod 4096 = 0 ->
  virt + np * 4096 <= 2 ^ 32 -> base + np * 4096 <= 2 ^ 32 ->
  frames_avail (missing s (Z.shiftr virt 22) (Z.shiftr (virt + np * 4096 - 1) 22 + 1)) (frames s) ->
  exists s', paging_map_memory base virt size s = Some s' /\ pg_ok s' /\ cr3 s' = cr3 s /\
    (forall va, virt <= va < virt + np * 4096 ->
       walk (phys s') (cr3 s') va = Some (base + (va - virt), true, true)) /\
    (forall va, 0 <= va < 2 ^ 32 -> va < virt \/ virt + np * 4096 <= va ->
       walk (phys s') (cr3 s') va = walk (phys s) (cr3 s) va).
Proof.
  intros np Hok Hs Hv Hb Hva Hba Hvn Hbn Hav. unfold paging_map_memory, PAGE_SIZE.
  rewrite u32_small by lia. replace (size + 4096 - 1) with (size + 4095) by lia. fold np.
  assert (Hnp : 0 < np) by (subst np; pow2_lia). set (lo := Z.shiftr virt 22) in *.
  set (hi := Z.shiftr (virt + np * 4096 - 1) 22 + 1) in *.
  assert (Hpd : forall i, 0 <= i < np -> lo <= Z.shiftr (virt + i * 4096) 22 < hi).
  { intros i Hi. subst lo hi. rewrite !Z.shiftr_div_pow2 by lia. split.
    - apply Z.div_le_mono; lia.
    - apply Z.lt_succ_r, Z.div_le_mono; lia. }
  assert (Hhi : 0 <= lo /\ hi <= 1024) by (subst lo hi; rewrite !Z.shiftr_div_pow2 by lia; pow2_lia).
  destruct (for_do_rule (fun i x => pg_ok x /\ cr3 x = cr3 s /\
      kernel_directory x = kernel_directory s /\ frames_avail (missing x lo hi) (frames x) /\
      (forall va, virt <= va < virt + i * 4096 ->
         walk (phys x) (cr3 s) va = Some (base + (va - virt), true, true)) /\
      (forall va, 0 <= va < 2 ^ 32 -> va < virt \/ virt + i * 4096 <= va ->
         walk (phys x) (cr3 s) va = walk (phys s) (cr3 s) va))
    0 np (map_page base virt size) s) as (s' & -> & Hok' & Hc & Hk & _ & Hin & Hout); [lia| | |].
  - split_and!; auto. intros; lia.
  - intros i x Hi (Hx & Hcx & Hkx & Hax & Hin & Hout).
    destruct (map_page_ok base virt size i x lo hi 0) as (x' & Hm & Hx' & Hc' & Hk' & Ha' & _ & Hnew & Hold);
      rewrite ?Z.add_0_r in *; auto; try lia; try (specialize (Hpd i); lia).
    exists x'. split; [done|]. rewrite Hcx in *. split_and!; auto; try congruence.
    + intros va Hva'. destruct (Z_lt_ge_dec va (virt + i * 4096)).
      * rewrite Hold by pow2_lia. apply Hin. lia.
      * replace va with (virt + i * 4096 + (va - virt - i * 4096)) by lia. rewrite Hnew by lia.
        do 3 f_equal. lia.
    + intros va Hva' Hcase. rewrite Hold by pow2_lia. apply Hout; lia.
  - cbn [mbind option_bind]. eexists; split; [done|]. cbn [phys cr3 kernel_directory frames].
    assert (Hcr : u32 (kernel_directory s' - 0xC0000000) = cr3 s').
    { destruct (pg_cr3 _ Hok') as [[_ Hr] ->]. rewrite (u32_small (_ + _)), Z.add_simpl_r by lia.
      apply u32_small. lia. }
    rewrite Hcr, Hc. split_and!; auto. rewrite Hc in Hcr. rewrite <- Hc. destruct Hok'. by constructor.
Qed.

(** ** Witnesses *)

(** The 4 MB machine of the frame allocator's witnesses, with an empty directory
    in a reserved frame. *)
Definition sample_paging : paging pmm := Paging ∅ (u32 (0xFF000 + 0xC0000000)) 0xFF000 sample_pmm.

Lemma sample_free f : 256 <= f < 260 -> fa_free sample_pmm f.
Proof.
  intros Hf. split; [cbn; lia|].
  assert (f = 256 \/ f = 257 \/ f = 258 \/ f = 259) as [->|[->|[->| ->]]] by lia; vm_compute; done.
Qed.

Lemma sample_256 : fa_free sample_pmm 256 /\ 256 < 262144.
Proof. split; [apply sample_free; lia|lia]. Qed.

Lemma sample_257 : fa_free sample_pmm 257 /\ 257 < 262144.
Proof. split; [apply sample_free; lia|lia]. Qed.

Lemma sample_paging_ok : pg_ok sample_paging.
Proof.
  constructor; cbn [phys cr3 frames kernel_directory sample_paging].
  - split; [|done]. split; [done|lia].
  - intros i Hi Ha. discriminate Ha.
  - intros i j Hi Hj Hij Ha. discriminate Ha.
  - intros [_ Hf]. revert Hf. vm_compute. discriminate.
  - exact sample_inv.
Qed.

Lemma paging_map_spec_witness :
  exists s', paging_map_memory 0xFD000000 0xE0000000 8192 sample_paging = Some s' /\
    walk (phys s') (cr3 s') 0xE0001004 = Some (0xFD001004, true, true).
Proof.
  destruct (paging_map_spec 0xFD000000 0xE0000000 8192 sample_paging)
    as (s' & Hm & _ & _ & Hin & _); [exact sample_paging_ok|lia|lia|lia|done|done|vm_compute; discriminate|vm_compute; discriminate| |].
  - exists [256]. split; [apply NoDup_singleton|]. split; [reflexivity|].
    constructor; [|constructor]. exact sample_256.
  - exists s'. split; [exact Hm|].
    rewrite Hin; [reflexivity|]. vm_compute. split; [discriminate|reflexivity].
Defined.

Lemma init_paging_spec_witness :
  exists s', init_paging 0xC0100000 0xC0110000 0xC0110000 0xC0120000 sample_paging = Some (s', 14) /\
    walk (phys s') (cr3 s') 0xC0100123 = Some (0x100123, false, true).
Proof.
  destruct (init_paging_spec 0xC0100000 0xC0110000 0xC0110000 0xC0120000 sample_paging)
    as (s' & Hi & _ & Hw); [exact sample_inv|cbn; lia| |].
  - exists [256; 257]. split; [apply NoDup_cons; split; [|apply NoDup_singleton]|].
    { intros [E|Hx]%elem_of_cons; [done|by apply elem_of_nil in Hx]. }
    split; [reflexivity|].
    constructor; [exact sample_256|constructor; [exact sample_257|constructor]].
  - exists s'. split; [exact Hi|]. rewrite Hw by lia. vm_compute. reflexivity.
Defined.
