(* ===== verification/UserMem.v ===== *)
(** * UserMem: bytes at virtual addresses

    The pairing of the two allocations the kernel makes for programs - a frame
    from the physical memory manager and its mapping with [paging_map_memory] -
    and the bytes programs and the kernel reach through the resulting page
    tables.  elf.c and [sys_sbrk] use nothing else. *)

From S2P Require Export Paging.

Section vm.
Context {A : Type} `{!FrameAlloc A}.

(** The page tables with the allocator, and the bytes of physical memory. *)
Record vm := Vm { vm_pg : paging A; vm_ram : Z -> Z }.

Definition with_frames (a : A) (p : paging A) : paging A := Paging (phys p) (kernel_directory p) (cr3 p) a.
Definition vm_set_ram (r : Z -> Z) (s : vm) : vm := Vm (vm_pg s) r.

(** [frame = alloc_frame(); paging_map_memory(frame, virt, 4096);] *)
Definition map_new (virt : Z) (s : vm) : option vm :=
  '(frame, a) ← fa_alloc (frames (vm_pg s));
  pg ← paging_map_memory frame (u32 virt) 4096 (with_frames a (vm_pg s));
  Some (Vm pg (vm_ram s)).

(** Accesses in kernel mode, where a page need only be present. *)
Definition vm_addr (va : Z) (s : vm) : option Z :=
  '(pa, _, _) ← walk (phys (vm_pg s)) (cr3 (vm_pg s)) (u32 va); Some pa.
Definition vm_get (va : Z) (s : vm) : option Z := pa ← vm_addr va s; Some (vm_ram s pa).
Definition vm_put (va b : Z) (s : vm) : option vm :=
  pa ← vm_addr va s; Some (vm_set_ram (fun x => if x =? pa then b else vm_ram s x) s).

Definition vm_load (va : Z) (n : nat) (s : vm) : option (list Z) := mapM (fun a => vm_get a s) (seqZ va (Z.of_nat n)).
Fixpoint vm_store (va : Z) (bs : list Z) (s : vm) : option vm :=
  match bs with [] => Some s | b :: bs => s ← vm_put va b s; vm_store (va + 1) bs s end.

(** The bytes from [va] to the NUL. *)
Fixpoint vm_string (n : nat) (va : Z) (s : vm) : option (list Z) :=
  match n with
  | O => None
  | S n => b ← vm_get va s; if b =? 0 then Some [0] else l ← vm_string n (va + 1) s; Some (b :: l)
  end.

(** ** Pages that belong to the programs

    [M] gives the frame behind each page; different pages have different
    frames, none of them free or a page table. *)
Record owns (s : vm) (M : gmap Z Z) : Prop := {
  ow_pg : pg_ok (vm_pg s);
  ow_page : forall p f, M !! p = Some f -> 0 <= p < 2 ^ 20 /\ 0 < f < 262144 /\ ~ fa_free (frames (vm_pg s)) f /\
    forall o, 0 <= o < 4096 -> exists w u, walk (phys (vm_pg s)) (cr3 (vm_pg s)) (p * 4096 + o) = Some (f * 4096 + o, w, u);
  ow_inj : forall p q f, M !! p = Some f -> M !! q = Some f -> p = q
}.

(** The byte at an address of the pages of [M]. *)
Definition view (M : gmap Z Z) (r : Z -> Z) (va : Z) : option Z :=
  f ← M !! (va / 4096); Some (r (f * 4096 + va mod 4096)).

Lemma owns_empty s : pg_ok (vm_pg s) -> owns s ∅.
Proof. intros H. split; [done|by intros p f E|by intros p q f E]. Qed.

Lemma owns_ram r s M : owns s M -> owns (vm_set_ram r s) M.
Proof. intros []. by split. Qed.

Lemma vm_addr_ok s M va f : owns s M -> 0 <= va < 2 ^ 32 -> M !! (va / 4096) = Some f -> vm_addr va s = Some (f * 4096 + va mod 4096).
Proof.
  intros H Hva Hf. destruct (ow_page _ _ H _ _ Hf) as (_ & _ & _ & Hw). unfold vm_addr. rewrite u32_small by lia.
  destruct (Hw (va mod 4096) ltac:(apply Z.mod_pos_bound; lia)) as (w & u & E).
  replace (va / 4096 * 4096 + va mod 4096) with va in E by pow2_lia. by rewrite E.
Qed.

Lemma vm_get_ok s M va : owns s M -> 0 <= va < 2 ^ 32 -> is_Some (M !! (va / 4096)) -> vm_get va s = view M (vm_ram s) va.
Proof. intros H Hva [f Hf]. unfold vm_get, view. by rewrite (vm_addr_ok s M va f), Hf. Qed.

Lemma view_put M r va b x f :
  (forall p q f, M !! p = Some f -> M !! q = Some f -> p = q) -> M !! (va / 4096) = Some f ->
  view M (fun y => if y =? f * 4096 + va mod 4096 then b else r y) x = if decide (x = va) then Some b else view M r x.
Proof.
  intros Hinj Hf. unfold view. case_decide as Hx.
  - subst x. rewrite Hf. cbn. by rewrite Z.eqb_refl.
  - destruct (M !! (x / 4096)) as [g|] eqn:Hg; [|done]. cbn. f_equal. rewrite (proj2 (Z.eqb_neq _ _)); [done|]. intros E.
    assert (g = f /\ x mod 4096 = va mod 4096) as [-> Hm] by pow2_lia.
    pose proof (Hinj _ _ _ Hf Hg). pow2_lia.
Qed.

Lemma vm_store_ok bs : forall s M va,
  owns s M -> 0 <= va -> va + Z.of_nat (length bs) <= 2 ^ 32 ->
  (forall x, va <= x < va + Z.of_nat (length bs) -> is_Some (M !! (x / 4096))) ->
  exists r, vm_store va bs s = Some (vm_set_ram r s) /\
    (forall x, view M r x = if decide (va <= x < va + Z.of_nat (length bs)) then Some (nth (Z.to_nat (x - va)) bs 0) else view M (vm_ram s) x) /\
    (forall f o, (forall p, M !! p <> Some f) -> 0 <= o < 4096 -> r (f * 4096 + o) = vm_ram s (f * 4096 + o)).
Proof.
  induction bs as [|b bs IH]; intros s M va Ho Hva Hl Hm; cbn [vm_store length] in *.
  - exists (vm_ram s). split; [by destruct s|]. split; [|done]. intros x. by rewrite decide_False by lia.
  - destruct (Hm va ltac:(lia)) as [f Hf]. unfold vm_put. rewrite (vm_addr_ok s M va f) by (done || lia). cbn [mbind option_bind].
    set (r1 := fun x0 => if x0 =? f * 4096 + va mod 4096 then b else vm_ram s x0).
    destruct (IH (vm_set_ram r1 s) M (va + 1)) as (r & -> & Hr & Hfr); [by apply owns_ram|lia|lia|intros x Hx; apply Hm; lia|].
    exists r. split; [done|]. split.
    2:{ intros g o Hg Hgo. rewrite Hfr by done. cbn [vm_ram vm_set_ram]. unfold r1. rewrite (proj2 (Z.eqb_neq _ _)); [done|].
        intros E. destruct (Hg (va / 4096)). rewrite Hf. f_equal. pow2_lia. }
    intros x. rewrite Hr. cbn [vm_ram vm_set_ram]. unfold r1. rewrite view_put by (done || apply (ow_inj _ _ Ho)).
    destruct (decide (x = va)) as [->|Hne].
    + rewrite decide_False, decide_True by lia. by rewrite Z.sub_diag.
    + case_decide; case_decide; try lia; [|done]. replace (Z.to_nat (x - va)) with (S (Z.to_nat (x - (va + 1)))) by lia. done.
Qed.

Lemma vm_load_ok n : forall s M va (l : list Z),
  owns s M -> 0 <= va -> va + Z.of_nat n <= 2 ^ 32 -> length l = n ->
  (forall i : nat, (i < n)%nat -> view M (vm_ram s) (va + Z.of_nat i) = l !! i) -> vm_load va n s = Some l.
Proof.
  unfold vm_load. induction n as [|n IH]; intros s M va l Ho Hva Hn Hl Hv.
  - destruct l; [|done]. by rewrite seqZ_nil by lia.
  - destruct l as [|b l]; [done|]. injection Hl as Hl. rewrite seqZ_cons by lia. cbn [mapM].
    pose proof (Hv 0%nat ltac:(lia)) as H0. rewrite Z.add_0_r in H0. cbn in H0.
    assert (Hs : is_Some (M !! (va / 4096))) by (unfold view in H0; destruct (M !! (va / 4096)); [eauto|done]).
    rewrite (vm_get_ok s M va Ho ltac:(lia) Hs), H0. cbn [mbind option_bind].
    replace (Z.pred (Z.of_nat (S n))) with (Z.of_nat n) by lia. rewrite <- Z.add_1_r.
    rewrite (IH s M (va + 1) l); [done|done|lia|lia|done|]. intros i Hi. change (l !! i) with ((b :: l) !! S i). rewrite <- Hv by lia. f_equal. lia.
Qed.

(** ** A new page *)

Lemma map_new_ok s M va lo hi n :
  owns s M -> 0 <= va < 2 ^ 32 -> 0 <= lo <= Z.shiftr va 22 -> Z.shiftr va 22 < hi <= 1024 -> 0 < n ->
  frames_avail (missing (vm_pg s) lo hi + n) (frames (vm_pg s)) ->
  exists f s', map_new va s = Some s' /\ fa_free (frames (vm_pg s)) f /\ ~ (exists p, M !! p = Some f) /\
    owns s' (<[va / 4096 := f]> M) /\ vm_ram s' = vm_ram s /\ cr3 (vm_pg s') = cr3 (vm_pg s) /\
    frames_avail (missing (vm_pg s') lo hi + (n - 1)) (frames (vm_pg s')) /\
    (forall g, fa_free (frames (vm_pg s')) g -> fa_free (frames (vm_pg s)) g) /\
    (forall va', 0 <= va' < 2 ^ 32 -> va' / 4096 <> va / 4096 ->
       walk (phys (vm_pg s')) (cr3 (vm_pg s')) va' = walk (phys (vm_pg s)) (cr3 (vm_pg s)) va').
Proof.
  intros Ho Hva Hlo Hhi Hn Hav. pose proof (ow_pg _ _ Ho) as Hpg.
  assert (Hmi : 0 <= missing (vm_pg s) lo hi)
    by exact (proj1 (count_bounds (absent (phys (vm_pg s)) (cr3 (vm_pg s))) lo hi ltac:(lia))).
  destruct (frames_avail_alloc (missing (vm_pg s) lo hi + n) _ (pg_alloc _ Hpg) ltac:(lia) Hav) as (f & a & Ea & Hia & Hf & Hff & Hg & Hav').
  assert (Hpa : pg_ok (with_frames a (vm_pg s))).
  { destruct Hpg as [H1 H2 H3 H4 _]. constructor; try done.
    - intros i Hi Ha. destruct (H2 i Hi Ha) as (T1 & T2 & T3 & T4 & T5). split_and!; try done. by intros [T _]%Hg.
    - by intros [T _]%Hg. }
  destruct (map_one_ok (with_frames a (vm_pg s)) f va lo hi (n - 1) Hpa) as (pg & E & Hok & Hc & Hav1 & Hfr & Hw); try lia.
  { eapply frames_avail_eq; [exact Hav'|]. unfold missing. cbn [with_frames phys cr3]. lia. }
  cbn [with_frames phys cr3 frames] in Hc, Hfr, Hw.
  exists f, (Vm pg (vm_ram s)). unfold map_new. rewrite Ea. cbn [mbind option_bind]. rewrite u32_small by lia. rewrite E. cbn [mbind option_bind].
  assert (Hnew : ~ exists p, M !! p = Some f) by (intros [p Hp]; by destruct (ow_page _ _ Ho _ _ Hp) as (_ & _ & Hn' & _)).
  split; [done|]. split; [done|]. split; [done|]. cbn [vm_pg vm_ram]. split_and!; try done.
  - constructor; cbn [vm_pg].
    + done.
    + intros p g Hp. destruct (decide (p = va / 4096)) as [->|Hne].
      * rewrite lookup_insert_eq in Hp. injection Hp as <-. split; [pow2_lia|]. split; [done|]. split.
        { intros H%Hfr. by apply Hg in H as [_ H]. }
        intros o Hof. exists true, true. rewrite Hw by pow2_lia. rewrite decide_True by pow2_lia. do 3 f_equal. pow2_lia.
      * rewrite lookup_insert_ne in Hp by done. destruct (ow_page _ _ Ho _ _ Hp) as (Hp1 & Hp2 & Hp3 & Hp4). split; [done|]. split; [done|]. split.
        { intros H%Hfr. by apply Hg in H as [H _]. }
        intros o Hof. rewrite Hw by pow2_lia. rewrite decide_False by pow2_lia. by apply Hp4.
    + intros p q g Hp Hq. destruct (decide (p = va / 4096)) as [->|Hp'], (decide (q = va / 4096)) as [->|Hq']; [done| | |].
      * rewrite lookup_insert_eq in Hp. injection Hp as <-. rewrite lookup_insert_ne in Hq by done. destruct Hnew. eauto.
      * rewrite lookup_insert_eq in Hq. injection Hq as <-. rewrite lookup_insert_ne in Hp by done. destruct Hnew. eauto.
      * rewrite lookup_insert_ne in Hp, Hq by done. by apply (ow_inj _ _ Ho _ _ g).
  - intros g H%Hfr. by apply Hg in H as [H _].
  - intros va' Hva' Hne. rewrite Hw by done. by rewrite decide_False.
Qed.

(** ** A run of new pages

    The loops of elf.c and [sys_sbrk]: round [i] maps page [i + shift].  The
    pages lie in the tables [tlo .. thi - 1], of which some may be missing. *)
Lemma map_pages_ok s M (addr : Z -> Z) shift lo hi n tlo thi :
  owns s M -> lo <= hi -> 0 <= tlo -> thi <= 1024 ->
  (forall i, lo <= i < hi -> tlo * 2 ^ 22 <= addr i < thi * 2 ^ 22 /\ addr i / 4096 = i + shift) -> hi - lo <= n ->
  frames_avail (missing (vm_pg s) tlo thi + n) (frames (vm_pg s)) ->
  exists s' M', for_do lo hi (fun i s => map_new (addr i) s) s = Some s' /\ owns s' M' /\ vm_ram s' = vm_ram s /\
    (forall p, lo + shift <= p < hi + shift -> exists f, M' !! p = Some f /\ fa_free (frames (vm_pg s)) f) /\
    (forall p, ~ (lo + shift <= p < hi + shift) -> M' !! p = M !! p) /\
    frames_avail (missing (vm_pg s') tlo thi + (n - (hi - lo))) (frames (vm_pg s')) /\
    (forall g, fa_free (frames (vm_pg s')) g -> fa_free (frames (vm_pg s)) g).
Proof.
  intros Ho Hle Hlo Hhi Ha Hn Hav.
  destruct (for_do_rule (fun i s' => exists M', owns s' M' /\ vm_ram s' = vm_ram s /\
      (forall p, lo + shift <= p < i + shift -> exists f, M' !! p = Some f /\ fa_free (frames (vm_pg s)) f) /\
      (forall p, ~ (lo + shift <= p < i + shift) -> M' !! p = M !! p) /\
      frames_avail (missing (vm_pg s') tlo thi + (n - (i - lo))) (frames (vm_pg s')) /\
      (forall g, fa_free (frames (vm_pg s')) g -> fa_free (frames (vm_pg s)) g))
    lo hi (fun i s => map_new (addr i) s) s) as (s' & E & M' & H); [done| | |eauto].
  - exists M. split_and!; try done; [intros; lia|]. by replace (n - (lo - lo)) with n by lia.
  - intros i s1 Hi (M1 & Ho1 & Hr1 & Hin & Hout & Hav1 & Hg1). destruct (Ha i Hi) as [Hr Hp].
    assert (H22 : tlo <= Z.shiftr (addr i) 22 < thi) by (rewrite Z.shiftr_div_pow2 by lia; pow2_lia).
    destruct (map_new_ok s1 M1 (addr i) tlo thi (n - (i - lo)) Ho1 ltac:(lia) ltac:(lia) ltac:(lia) ltac:(lia) Hav1)
      as (f & s2 & -> & Hff & _ & Ho2 & Hr2 & _ & Hav2 & Hg2 & _).
    exists s2. split; [done|]. rewrite Hp in Ho2. exists (<[i + shift := f]> M1). split_and!; [done|by rewrite Hr2| | | |auto].
    + intros p Hpp. destruct (decide (p = i + shift)) as [->|Hne]; [exists f; rewrite lookup_insert_eq; auto|].
      rewrite lookup_insert_ne by done. apply Hin. lia.
    + intros p Hpp. rewrite lookup_insert_ne by lia. apply Hout. lia.
    + eapply frames_avail_eq; [exact Hav2|lia].
Qed.
End vm.
Arguments vm A : clear implicits.
Arguments Vm {A}.

(** The machine of Paging's witnesses, with [0xCC] everywhere in its memory. *)
Definition sample_vm : vm pmm := Vm sample_paging (fun _ => 0xCC).

Lemma sample_vm_frames : frames_avail (missing (vm_pg sample_vm) 32 33 + 2) (frames (vm_pg sample_vm)).
Proof.
  exists [256; 257; 258]. split; [repeat (apply NoDup_cons; split; [set_solver|]); apply NoDup_nil_2|]. split; [reflexivity|].
  repeat constructor; try lia; apply sample_free; lia.
Qed.
