(* ===== verification/Ports.v ===== *)
(** * Ports: port input and output (kernel/core/kernel.c) and the serial
    line (kernel/core/serial.c)

    The machine's devices are outside the repository: a device is a function
    from the history of port accesses to the value the next read returns.  A
    computation that talks to ports threads that history, newest event first. *)

From S2P Require Export Prelude.

Inductive event :=
| Out8 (port val : Z)
| In8 (port val : Z)
| Out16 (port val : Z)
| In16 (port val : Z)
| Out32 (port val : Z)
| In32 (port val : Z).

Definition io (A : Type) : Type := list event -> A * list event.

#[export] Instance io_ret : MRet io := fun A x t => (x, t).
#[export] Instance io_bind : MBind io := fun A B f m t => let '(x, t) := m t in f x t.

(** The machine: what each kind of read returns after a history. *)
Record machine := Machine {
  read8 : list event -> Z -> Z;
  read16 : list event -> Z -> Z;
  read32 : list event -> Z -> Z
}.

Section ports.
Variable dev : machine.

Definition outb (port val : Z) : io unit := fun t => (tt, Out8 port (u8 val) :: t).
Definition inb (port : Z) : io Z :=
  fun t => let v := u8 (read8 dev t port) in (v, In8 port v :: t).
Definition outw (port val : Z) : io unit := fun t => (tt, Out16 port (u16 val) :: t).
Definition inw (port : Z) : io Z :=
  fun t => let v := u16 (read16 dev t port) in (v, In16 port v :: t).
Definition outl (port val : Z) : io unit := fun t => (tt, Out32 port (u32 val) :: t).
Definition inl (port : Z) : io Z :=
  fun t => let v := u32 (read32 dev t port) in (v, In32 port v :: t).

(** A series of writes. *)
Fixpoint outbs (l : list (Z * Z)) : io unit :=
  match l with
  | [] => mret tt
  | (p, v) :: l' => outb p v ≫= fun _ => outbs l'
  end.

Fixpoint inbs (n : nat) (port : Z) : io unit :=
  match n with
  | O => mret tt
  | S n' => inb port ≫= fun _ => inbs n' port
  end.

(** [while (cond(inb(port)) && --timeout)]: polls until [cond] is false; the
    result is what is left of [timeout], 0 when it ran out.  The fuel is
    [timeout] itself. *)
Fixpoint poll (timeout : nat) (port : Z) (cond : Z -> bool) : io nat :=
  match timeout with
  | O => mret O
  | S timeout' =>
      inb port ≫= fun v => if cond v then
        match timeout' with O => mret O | _ => poll timeout' port cond end
      else mret timeout
  end.

(** ** The serial line *)

Definition COM1 : Z := 0x3F8.

Definition init_serial : io unit :=
  outbs [(COM1 + 1, 0x00); (COM1 + 3, 0x80); (COM1 + 0, 0x03); (COM1 + 1, 0x00);
         (COM1 + 3, 0x03); (COM1 + 2, 0xC7); (COM1 + 4, 0x0B)].

Definition is_transmit_empty : io Z :=
  inb (COM1 + 5) ≫= fun v => mret (Z.land v 0x20).

Definition serial_write (c : Z) : io unit :=
  poll 10000 (COM1 + 5) (fun v => Z.land v 0x20 =? 0) ≫= fun timeout =>
  match timeout with O => mret tt | _ => outb COM1 c end.

Fixpoint serial_print (str : list Z) : io unit :=
  match str with
  | [] => mret tt
  | c :: str' => if c =? 0 then mret tt else serial_write c ≫= fun _ => serial_print str'
  end.
End ports.
