(* ===== verification/Pci.v ===== *)
(** * Pci: configuration space and the bus scan (kernel/drivers/pci.c)

    Configuration registers are reached through an address port and a data
    port; [pci_init] walks buses 0 to 31 and starts the drivers it knows.  The
    drivers' own start-up is a parameter; the lines it prints are left out. *)

From S2P Require Export Ports.

Section pci.
Variable dev : machine.

Definition PCI_CONFIG_ADDRESS : Z := 0xCF8.
Definition PCI_CONFIG_DATA : Z := 0xCFC.

Definition pci_address (bus slot func offset : Z) : Z :=
  Z.lor (Z.lor (Z.lor (Z.lor (Z.shiftl bus 16) (Z.shiftl slot 11)) (Z.shiftl func 8))
    (Z.land offset 0xFC)) 0x80000000.

Definition pci_config_read_word (bus slot func offset : Z) : io Z :=
  outl PCI_CONFIG_ADDRESS (pci_address bus slot func offset) ≫= fun _ =>
  inl dev PCI_CONFIG_DATA ≫= fun v =>
  mret (Z.land (Z.shiftr v (Z.land offset 2 * 8)) 0xFFFF).

Definition pci_config_read_dword (bus slot func offset : Z) : io Z :=
  outl PCI_CONFIG_ADDRESS (pci_address bus slot func offset) ≫= fun _ =>
  inl dev PCI_CONFIG_DATA.

(** The word [value] put in place of a half of [old]. *)
Definition pci_merge_word (offset old value : Z) : Z :=
  Z.lor (Z.land old (Z.lnot (Z.shiftl 0xFFFF (Z.land offset 2 * 8))))
        (Z.shiftl value (Z.land offset 2 * 8)).

Definition pci_config_write_word (bus slot func offset value : Z) : io unit :=
  outl PCI_CONFIG_ADDRESS (pci_address bus slot func offset) ≫= fun _ =>
  inl dev PCI_CONFIG_DATA ≫= fun old =>
  outl PCI_CONFIG_DATA (pci_merge_word offset old value).

Definition pci_config_write_dword (bus slot func offset value : Z) : io unit :=
  outl PCI_CONFIG_ADDRESS (pci_address bus slot func offset) ≫= fun _ =>
  outl PCI_CONFIG_DATA value.

(** ** The scan *)

Inductive driver :=
| Rtl8139 (io_base irq : Z)
| E1000 (phys_addr irq : Z)
| Ac97 (nambar nabmbar irq : Z).

Record function := Function {
  f_bus : Z; f_dev : Z; f_func : Z;
  f_vendor : Z; f_device : Z; f_class : Z; f_subclass : Z;
  f_driver : option driver
}.

Variable init_driver : driver -> io unit.

(** Setting bits of the command register. *)
Definition enable (bus dv func bits : Z) : io unit :=
  pci_config_read_word bus dv func 0x04 ≫= fun command =>
  pci_config_write_word bus dv func 0x04 (Z.lor command bits).

Definition attach (bus dv func vendor device : Z) : io (option driver) :=
  if (vendor =? 0x10EC) && (device =? 0x8139) then
    enable bus dv func (Z.shiftl 1 2) ≫= fun _ =>
    pci_config_read_dword bus dv func 0x10 ≫= fun bar0 =>
    pci_config_read_dword bus dv func 0x3C ≫= fun irq =>
    let d := Rtl8139 (Z.land bar0 (Z.lnot 3)) (Z.land irq 0xFF) in
    init_driver d ≫= fun _ => mret (Some d)
  else if (vendor =? 0x8086) && ((device =? 0x100E) || (device =? 0x100F)) then
    enable bus dv func (Z.shiftl 1 2) ≫= fun _ =>
    pci_config_read_dword bus dv func 0x10 ≫= fun bar0 =>
    pci_config_read_dword bus dv func 0x3C ≫= fun irq =>
    let d := E1000 (Z.land bar0 (Z.lnot 0xF)) (Z.land irq 0xFF) in
    init_driver d ≫= fun _ => mret (Some d)
  else if (vendor =? 0x8086) && (device =? 0x2415) then
    enable bus dv func (Z.lor (Z.shiftl 1 2) (Z.shiftl 1 0)) ≫= fun _ =>
    pci_config_read_dword bus dv func 0x10 ≫= fun nambar =>
    pci_config_read_dword bus dv func 0x14 ≫= fun nabmbar =>
    pci_config_read_dword bus dv func 0x3C ≫= fun irq =>
    let d := Ac97 (Z.land nambar (Z.lnot 3)) (Z.land nabmbar (Z.lnot 3)) (Z.land irq 0xFF) in
    init_driver d ≫= fun _ => mret (Some d)
  else mret None.

(** The loop over the functions of a device, from [func] on. *)
Fixpoint scan_functions (n : nat) (bus dv func : Z) : io (list function) :=
  match n with
  | O => mret []
  | S n' =>
      pci_config_read_word bus dv func 0 ≫= fun vendor =>
      if vendor =? 0xFFFF then scan_functions n' bus dv (func + 1) else
      pci_config_read_word bus dv func 2 ≫= fun device =>
      pci_config_read_word bus dv func 10 ≫= fun class_sub =>
      attach bus dv func vendor device ≫= fun drv =>
      let f := Function bus dv func vendor device (Z.land (Z.shiftr class_sub 8) 0xFF) (Z.land class_sub 0xFF) drv in
      if func =? 0 then
        pci_config_read_word bus dv 0 0x0E ≫= fun header_type =>
        if Z.land header_type 0x80 =? 0 then mret [f]
        else scan_functions n' bus dv (func + 1) ≫= fun l => mret (f :: l)
      else scan_functions n' bus dv (func + 1) ≫= fun l => mret (f :: l)
  end.

Fixpoint scan_devices (n : nat) (bus dv : Z) : io (list function) :=
  match n with
  | O => mret []
  | S n' => scan_functions 8 bus dv 0 ≫= fun l =>
      scan_devices n' bus (dv + 1) ≫= fun l' => mret (l ++ l')
  end.

Fixpoint scan_buses (n : nat) (bus : Z) : io (list function) :=
  match n with
  | O => mret []
  | S n' => scan_devices 32 bus 0 ≫= fun l => scan_buses n' (bus + 1) ≫= fun l' => mret (l ++ l')
  end.

Definition pci_init : io (list function) := scan_buses 32 0.

(** ** What the scan should find

    [cs a] is the register at configuration address [a]; only command
    registers change during the scan. *)
Variable cs : Z -> Z.

Definition cfg_dword (bus dv func offset : Z) : Z := u32 (cs (u32 (pci_address bus dv func offset))).
Definition cfg_word (bus dv func offset : Z) : Z :=
  Z.land (Z.shiftr (cfg_dword bus dv func offset) (Z.land offset 2 * 8)) 0xFFFF.

Definition config_law : Prop := forall bus dv func offset t,
  Z.land offset 0xFC <> 4 ->
  read32 dev (Out32 PCI_CONFIG_ADDRESS (u32 (pci_address bus dv func offset)) :: t) PCI_CONFIG_DATA =
    cs (u32 (pci_address bus dv func offset)).

Definition driver_for (bus dv func : Z) : option driver :=
  let irq := Z.land (cfg_dword bus dv func 0x3C) 0xFF in
  let bar0 := cfg_dword bus dv func 0x10 in
  let id := (cfg_word bus dv func 0, cfg_word bus dv func 2) in
  if decide (id = (0x10EC, 0x8139)) then Some (Rtl8139 (Z.land bar0 (Z.lnot 3)) irq)
  else if decide (id = (0x8086, 0x100E) \/ id = (0x8086, 0x100F)) then Some (E1000 (Z.land bar0 (Z.lnot 0xF)) irq)
  else if decide (id = (0x8086, 0x2415)) then
    Some (Ac97 (Z.land bar0 (Z.lnot 3)) (Z.land (cfg_dword bus dv func 0x14) (Z.lnot 3)) irq)
  else None.

Definition function_at (bus dv func : Z) : function :=
  Function bus dv func (cfg_word bus dv func 0) (cfg_word bus dv func 2)
    (Z.land (Z.shiftr (cfg_word bus dv func 10) 8) 0xFF) (Z.land (cfg_word bus dv func 10) 0xFF)
    (driver_for bus dv func).

Definition present (bus dv func : Z) : bool := negb (cfg_word bus dv func 0 =? 0xFFFF).
Definition single_function (bus dv : Z) : bool :=
  present bus dv 0 && (Z.land (cfg_word bus dv 0 0x0E) 0x80 =? 0).

(** The functions of a device that should be found. *)
Definition functions_of (bus dv : Z) : list Z :=
  if single_function bus dv then [0] else List.filter (present bus dv) [0; 1; 2; 3; 4; 5; 6; 7].

Definition below_32 : list Z := Z.of_nat <$> seq 0 32.

Definition all_functions : list function :=
  bus ← below_32; dv ← below_32; func ← functions_of bus dv; [function_at bus dv func].

Section correct.
Hypothesis law : config_law.

Lemma read_word_ok bus dv func offset t :
  Z.land offset 0xFC <> 4 -> fst (pci_config_read_word bus dv func offset t) = cfg_word bus dv func offset.
Proof.
  intros Ho. cbv beta iota zeta delta [pci_config_read_word outl inl mbind io_bind mret io_ret fst].
  by rewrite law by done.
Qed.

Lemma read_dword_ok bus dv func offset t :
  Z.land offset 0xFC <> 4 -> fst (pci_config_read_dword bus dv func offset t) = cfg_dword bus dv func offset.
Proof.
  intros Ho. cbv beta iota zeta delta [pci_config_read_dword outl inl mbind io_bind mret io_ret fst].
  by rewrite law by done.
Qed.

(** The value of a sequence is that of its second part, whatever was done first. *)
Lemma fst_bind {A B} (m : io A) (f : A -> io B) (x : A) (y : B) t :
  fst (m t) = x -> (forall t, fst (f x t) = y) -> fst ((m ≫= f) t) = y.
Proof. intros Hm Hf. unfold mbind, io_bind. destruct (m t) as [x' t']. cbn in Hm. subst x'. apply Hf. Qed.

Lemma fst_skip {B} (m : io unit) (f : unit -> io B) (y : B) t :
  (forall t, fst (f tt t) = y) -> fst ((m ≫= f) t) = y.
Proof. intros Hf. unfold mbind, io_bind. destruct (m t) as [[] t']. apply Hf. Qed.

#[local] Ltac step_reads :=
  repeat first
  [ eapply fst_bind; [apply read_word_ok; by vm_compute|intros ?]
  | eapply fst_bind; [apply read_dword_ok; by vm_compute|intros ?]
  | apply fst_skip; intros ? ].

Lemma pci_attach_ok bus dv func t :
  fst (attach bus dv func (cfg_word bus dv func 0) (cfg_word bus dv func 2) t) = driver_for bus dv func.
Proof.
  unfold attach, driver_for.
  destruct (decide _) as [[= E1 E2]|H1].
  { rewrite E1, E2. change ((0x10EC =? 0x10EC) && (0x8139 =? 0x8139)) with true. cbn iota. by step_reads. }
  replace ((cfg_word bus dv func 0 =? 0x10EC) && (cfg_word bus dv func 2 =? 0x8139)) with false.
  2:{ symmetry. apply not_true_iff_false. intros ?. bool_hyps. apply H1. congruence. }
  destruct (decide _) as [H2|H2].
  { replace (_ && _) with true; [by step_reads|].
    by destruct H2 as [[= -> ->]|[= -> ->]]. }
  replace ((cfg_word bus dv func 0 =? 0x8086) && _) with false.
  2:{ symmetry. apply not_true_iff_false. intros ?. apply H2. bool_hyps.
      match goal with H : _ \/ _ |- _ => destruct H end; bool_hyps; [left|right]; congruence. }
  destruct (decide _) as [[= E1 E2]|H3].
  { rewrite E1, E2. change ((0x8086 =? 0x8086) && (0x2415 =? 0x2415)) with true. cbn iota. by step_reads. }
  replace (_ && _) with false; [done|].
  symmetry. apply not_true_iff_false. intros ?. bool_hyps. apply H3. congruence.
Qed.

Lemma scan_functions_ok n : forall bus dv func t,
  0 < func -> fst (scan_functions n bus dv func t) =
    function_at bus dv <$> List.filter (present bus dv) ((fun i => func + Z.of_nat i) <$> seq 0 n).
Proof.
  induction n as [|n IH]; intros bus dv func t Hf; [done|].
  cbn [scan_functions]. rewrite <- cons_seq. cbn [fmap list_fmap List.filter].
  replace (func + Z.of_nat 0) with func by lia.
  assert (IH' : forall t, fst (scan_functions n bus dv (func + 1) t) =
    function_at bus dv <$> List.filter (present bus dv) ((fun i => func + Z.of_nat i) <$> seq 1 n)).
  { intros t'. rewrite IH by lia. do 2 f_equal. rewrite <- fmap_S_seq, <- list_fmap_compose.
    apply list_fmap_ext. intros i x _. cbn. lia. }
  eapply fst_bind; [apply read_word_ok; by vm_compute|intros ?]. unfold present at 1.
  destruct (Z.eqb_spec (cfg_word bus dv func 0) 0xFFFF) as [E|E]; cbn [negb]; [apply IH'|].
  step_reads. eapply fst_bind; [apply pci_attach_ok|intros ?]. rewrite (proj2 (Z.eqb_neq func 0)) by lia.
  eapply fst_bind; [apply IH'|intros ?]. done.
Qed.

Lemma scan_device_ok bus dv t :
  fst (scan_functions 8 bus dv 0 t) = function_at bus dv <$> functions_of bus dv.
Proof.
  unfold functions_of, single_function. change [0; 1; 2; 3; 4; 5; 6; 7] with (0 :: ((fun i => 1 + Z.of_nat i) <$> seq 0 7)).
  cbn [List.filter]. set (l := (fun i => 1 + Z.of_nat i) <$> seq 0 7).
  assert (Hr : forall t, fst (scan_functions 7 bus dv (0 + 1) t) = function_at bus dv <$> List.filter (present bus dv) l)
    by (intros; apply scan_functions_ok; lia).
  remember 7%nat as seven. cbn [scan_functions].
  eapply fst_bind; [apply read_word_ok; by vm_compute|intros ?].
  unfold present at 1 2. destruct (Z.eqb_spec (cfg_word bus dv 0 0) 0xFFFF) as [E|E]; cbn [negb andb]; [apply Hr|].
  step_reads. eapply fst_bind; [apply pci_attach_ok|intros ?]. change (0 =? 0) with true. cbn iota.
  step_reads. destruct (Z.land (cfg_word bus dv 0 14) 128 =? 0); [done|].
  eapply fst_bind; [apply Hr|intros ?]. done.
Qed.

Lemma scan_devices_ok n : forall bus dv t,
  fst (scan_devices n bus dv t) =
    (dv ← (fun i => dv + Z.of_nat i) <$> seq 0 n; func ← functions_of bus dv; [function_at bus dv func]).
Proof.
  induction n as [|n IH]; intros bus dv t; [done|].
  rewrite <- cons_seq. cbn [scan_devices fmap list_fmap mbind list_bind].
  eapply fst_bind; [apply scan_device_ok|intros ?]. eapply fst_bind; [apply IH|intros ?].
  cbn [mret io_ret fst]. replace (dv + Z.of_nat 0) with dv by lia. f_equal.
  rewrite <- fmap_S_seq, <- list_fmap_compose. f_equal. apply list_fmap_ext. intros i x _. cbn. lia.
Qed.

Lemma scan_buses_ok n : forall bus t,
  fst (scan_buses n bus t) =
    (bus ← (fun i => bus + Z.of_nat i) <$> seq 0 n; dv ← below_32; func ← functions_of bus dv;
     [function_at bus dv func]).
Proof.
  induction n as [|n IH]; intros bus t; [done|].
  rewrite <- cons_seq. cbn [scan_buses]. remember 32%nat as k. cbn [fmap list_fmap mbind list_bind].
  eapply fst_bind; [apply scan_devices_ok|intros ?]. eapply fst_bind; [apply IH|intros ?].
  cbn [mret io_ret fst]. replace (bus + Z.of_nat 0) with bus by lia. f_equal.
  - unfold below_32. subst k. done.
  - rewrite <- fmap_S_seq, <- list_fmap_compose. f_equal. apply list_fmap_ext. intros i x _. cbn. lia.
Qed.

(** the bus scan: on a machine whose configuration registers
    (the command registers apart) answer [cs], [pci_init] reports exactly the
    functions that are there on buses 0 to 31, once each and in order - all eight
    candidates of a device, or only function 0 when it says it is the only one -
    with their identity, and attaches the right driver to the right base
    address and interrupt line. *)
Theorem pci_scan_complete t : fst (pci_init t) = all_functions.
Proof. exact (scan_buses_ok 32 0 t). Qed.
End correct.
End pci.

(** A machine with a bridge and an RTL8139, and whatever is written to its
    command registers. *)
Definition sample_cs (a : Z) : Z :=
  if a =? pci_address 0 0 0 0 then 0x12378086
  else if a =? pci_address 0 3 0 0 then 0x813910EC
  else if a =? pci_address 0 3 0 0x10 then 0xC001
  else if a =? pci_address 0 3 0 0x3C then 0x10B
  else if Z.land a 0xFC =? 0 then 0xFFFFFFFF else 0.

Definition sample_machine : machine :=
  Machine (fun _ _ => 0) (fun _ _ => 0)
    (fun t _ => match t with Out32 _ a :: _ => sample_cs a | _ => 0 end).

Lemma pci_scan_complete_witness :
  config_law sample_machine sample_cs /\
  fst (pci_init sample_machine (fun _ => mret tt) []) = all_functions sample_cs.
Proof.
  assert (H : config_law sample_machine sample_cs) by (intros bus dv func offset t _; reflexivity).
  split; [exact H|]. exact (pci_scan_complete sample_machine (fun _ => mret tt) sample_cs H []).
Defined.
