(* ===== verification/Terminal.v ===== *)
(** * Terminal: the text screen (kernel/core/kernel.c, put_char to clear_scr)

    The 80 by 25 text buffer at 0xB8000, two bytes a cell, the cursor and its
    ports.  Every character also goes to the serial line; while a graphics mode
    is on, characters go to [vbe_write] instead, kept here as a list. *)

From S2P Require Export CString Ports.

Record terminal := Terminal {
  terminal_row : Z;
  terminal_col : Z;
  video_memory : list Z;
  vbe_active : bool;
  vbe_text : list Z
}.

Definition with_video (v : list Z) (t : terminal) : terminal :=
  Terminal (terminal_row t) (terminal_col t) v (vbe_active t) (vbe_text t).
Definition with_cursor (r c : Z) (t : terminal) : terminal :=
  Terminal (u32 r) (u32 c) (video_memory t) (vbe_active t) (vbe_text t).

Definition BLANK : Z := 32.
Definition ATTR : Z := 7.
Definition NEWLINE : Z := 10.
Definition BACKSPACE : Z := 8.

(** [video_memory[pos] = ch; video_memory[pos + 1] = 0x07]. *)
Definition put_cell (pos ch : Z) (t : terminal) : option terminal :=
  v ← aset (video_memory t) pos (u8 ch); v ← aset v (pos + 1) ATTR; Some (with_video v t).

Section terminal.
Variable dev : machine.

Definition update_cursor (t : terminal) : io unit :=
  let pos := u16 (terminal_row t * 80 + terminal_col t) in
  outbs [(0x3D4, 0x0F); (0x3D5, Z.land pos 0xFF); (0x3D4, 0x0E); (0x3D5, Z.land (Z.shiftr pos 8) 0xFF)].

Definition clear_scr (t : terminal) (tr : list event) : option (terminal * list event) :=
  t ← for_do 0 2000 (fun i t => put_cell (2 * i) BLANK t) t;
  let t := with_cursor 0 0 t in
  Some (t, snd (update_cursor t tr)).

Definition scroll (t : terminal) : option terminal :=
  if 25 <=? terminal_row t then
    v ← for_do 0 3840 (fun i v => x ← aget v (i + 160); aset v i x) (video_memory t);
    t ← for_do 1920 2000 (fun i t => put_cell (2 * i) BLANK t) (with_video v t);
    Some (with_cursor 24 (terminal_col t) t)
  else Some t.

(** The cursor and cell part of [put_char], before the scroll. *)
Definition place_char (c : Z) (t : terminal) : option terminal :=
  if c =? NEWLINE then Some (with_cursor (terminal_row t + 1) 0 t)
  else if c =? BACKSPACE then
    if 0 <? terminal_col t then
      let t := with_cursor (terminal_row t) (terminal_col t - 1) t in
      put_cell (i32 ((terminal_row t * 80 + terminal_col t) * 2)) BLANK t
    else Some t
  else
    t ← put_cell (i32 ((terminal_row t * 80 + terminal_col t) * 2)) c t;
    let t := with_cursor (terminal_row t) (terminal_col t + 1) t in
    Some (if 80 <=? terminal_col t then with_cursor (terminal_row t + 1) 0 t else t).

Definition put_char (c : Z) (st : terminal * list event) : option (terminal * list event) :=
  let '(t, tr) := st in
  let tr := snd (serial_write dev c tr) in
  if vbe_active t then
    Some (Terminal (terminal_row t) (terminal_col t) (video_memory t) true (vbe_text t ++ [c]), tr)
  else
    t ← place_char c t;
    t ← scroll t;
    Some (t, snd (update_cursor t tr)).

(** The characters of [put_str], [put_int], [put_hex] and [kprintf], one by one. *)
Fixpoint put_chars (l : list Z) (st : terminal * list event) : option (terminal * list event) :=
  match l with
  | [] => Some st
  | c :: l' => st ← put_char c st; put_chars l' st
  end.

(** ** The screen as a grid *)

Definition cell (t : terminal) (r c : Z) : option (Z * Z) :=
  ch ← aget (video_memory t) (2 * (80 * r + c)); at_ ← aget (video_memory t) (2 * (80 * r + c) + 1); Some (ch, at_).

Definition on_screen (r c : Z) : Prop := 0 <= r < 25 /\ 0 <= c < 80.

Record term_ok (t : terminal) : Prop := {
  tm_row : 0 <= terminal_row t < 25;
  tm_col : 0 <= terminal_col t < 80;
  tm_video : length (video_memory t) = 4000%nat
}.

Lemma put_cell_ok k ch t :
  length (video_memory t) = 4000%nat -> 0 <= k < 2000 ->
  exists v, put_cell (2 * k) ch t = Some (with_video v t) /\ length v = 4000%nat /\
    forall i, aget v i = if decide (i = 2 * k) then Some (u8 ch)
                         else if decide (i = 2 * k + 1) then Some ATTR else aget (video_memory t) i.
Proof.
  intros Hl Hk. unfold put_cell. destruct (aset (video_memory t) (2 * k) (u8 ch)) as [v1|] eqn:E1.
  2:{ rewrite aset_eq in E1 by lia. done. }
  pose proof (aset_length _ _ _ _ E1) as L1. cbn [mbind option_bind].
  destruct (aset v1 (2 * k + 1) ATTR) as [v2|] eqn:E2; [|rewrite aset_eq in E2 by lia; done].
  pose proof (aset_length _ _ _ _ E2) as L2. exists v2. split; [done|]. split; [lia|].
  intros i. rewrite (aget_aset _ _ i _ _ E2), (aget_aset _ _ i _ _ E1).
  repeat case_decide; try done; lia.
Qed.

(** Blanking the cells [lo .. hi - 1]. *)
Lemma blank_cells_ok lo hi t :
  length (video_memory t) = 4000%nat -> 0 <= lo <= hi -> hi <= 2000 ->
  exists v, for_do lo hi (fun i t => put_cell (2 * i) BLANK t) t = Some (with_video v t) /\ length v = 4000%nat /\
    forall i, aget v i = if decide (2 * lo <= i < 2 * hi) then Some (if Z.even i then BLANK else ATTR)
                         else aget (video_memory t) i.
Proof.
  intros Hl Hlo Hhi.
  destruct (for_do_rule (fun k t' => exists v, t' = with_video v t /\ length v = 4000%nat /\
      forall i, aget v i = if decide (2 * lo <= i < 2 * k) then Some (if Z.even i then BLANK else ATTR)
                           else aget (video_memory t) i) lo hi (fun i t => put_cell (2 * i) BLANK t) t)
    as (t' & E & v & -> & Hv & Hi).
  - lia.
  - exists (video_memory t). split; [by destruct t|]. split; [done|]. intros i. by rewrite decide_False by lia.
  - intros k t' Hk (v & -> & Hv & Hi).
    destruct (put_cell_ok k BLANK (with_video v t) Hv) as (v' & E & Hv' & Hi'); [lia|].
    eexists; split; [exact E|]. exists v'. split; [done|]. split; [done|]. intros i. rewrite Hi'.
    cbn [video_memory with_video]. rewrite Hi.
    destruct (decide (i = 2 * k)) as [->|]; [rewrite decide_True by lia; by rewrite Z.even_mul|].
    destruct (decide (i = 2 * k + 1)) as [->|]; [rewrite decide_True by lia; by rewrite Z.even_add, Z.even_mul|].
    destruct (decide (2 * lo <= i < 2 * k)); [by rewrite decide_True by lia|by rewrite decide_False by lia].
  - exists v. by split_and!.
Qed.

Lemma copy_up_ok (v : list Z) :
  length v = 4000%nat ->
  exists v', for_do 0 3840 (fun i v => x ← aget v (i + 160); aset v i x) v = Some v' /\ length v' = 4000%nat /\
    forall i, aget v' i = if decide (0 <= i < 3840) then aget v (i + 160) else aget v i.
Proof.
  intros Hl.
  destruct (for_do_rule (fun k (v' : list Z) => length v' = 4000%nat /\
      forall i, aget v' i = if decide (0 <= i < k) then aget v (i + 160) else aget v i) 0 3840
      (fun i v => x ← aget v (i + 160); aset v i x) v) as (v' & E & Hv & Hi).
  - lia.
  - split; [done|]. intros i. by rewrite decide_False by lia.
  - intros k v' Hk (Hv & Hi). destruct (aget_is_Some v' (k + 160)) as [x Hx]; [lia|]. rewrite Hx.
    cbn [mbind option_bind]. destruct (aset v' k x) as [v2|] eqn:E2; [|rewrite aset_eq in E2 by lia; done].
    exists v2. split; [done|]. split; [by rewrite (aset_length _ _ _ _ E2)|]. intros i.
    rewrite (aget_aset _ _ i _ _ E2). rewrite Hi in Hx. rewrite decide_False in Hx by lia.
    case_decide as Hc; [subst; by rewrite decide_True by lia|]. rewrite Hi.
    destruct (decide (0 <= i < k)); [by rewrite decide_True by lia|by rewrite decide_False by lia].
  - exists v'. by split_and!.
Qed.

Lemma blank_cell_parity k : (if Z.even (2 * k) then BLANK else ATTR) = BLANK /\
  (if Z.even (2 * k + 1) then BLANK else ATTR) = ATTR.
Proof. by rewrite Z.even_add, Z.even_mul. Qed.

(** [scroll] on a cursor one row below the screen: the rows move up by one, the
    last one is blank. *)
Lemma scroll_ok t :
  length (video_memory t) = 4000%nat -> terminal_row t = 25 ->
  exists t', scroll t = Some t' /\ length (video_memory t') = 4000%nat /\
    terminal_row t' = 24 /\ terminal_col t' = u32 (terminal_col t) /\
    vbe_active t' = vbe_active t /\ vbe_text t' = vbe_text t /\
    forall r c, on_screen r c -> cell t' r c = if decide (r < 24) then cell t (r + 1) c else Some (BLANK, ATTR).
Proof.
  intros Hl Hr. unfold scroll. rewrite Hr. change (25 <=? 25) with true. cbn iota.
  destruct (copy_up_ok _ Hl) as (v & -> & Hv & Hi). cbn [mbind option_bind].
  destruct (blank_cells_ok 1920 2000 (with_video v t)) as (v2 & -> & Hv2 & Hi2); [done|lia|lia|].
  cbn [mbind option_bind]. eexists; split; [done|]. split_and!; try done.
  intros r c [Hr' Hc]. unfold cell. cbn [video_memory with_cursor with_video]. rewrite !Hi2.
  cbn [video_memory with_video]. rewrite !Hi. set (k := 80 * r + c).
  assert (0 <= k < 2000 /\ (r < 24 -> k < 1920) /\ (24 <= r -> 1920 <= k)) as (Hk & Hk1 & Hk2) by (subst k; lia).
  destruct (blank_cell_parity k) as [-> ->]. destruct (decide (r < 24)) as [Hlt|Hlt].
  - rewrite !(decide_False (P := 2 * 1920 <= _ < _)) by lia. rewrite !decide_True by lia.
    replace (2 * k + 160) with (2 * (80 * (r + 1) + c)) by (subst k; lia).
    by replace (2 * k + 1 + 160) with (2 * (80 * (r + 1) + c) + 1) by (subst k; lia).
  - by rewrite !decide_True by lia.
Qed.

(** ** The abstract screen

    A cursor and a grid of characters with their attributes; typing a character
    moves the cursor, writes at most one cell, and moves the rows up when the
    cursor has left the last one. *)

Record screen := Screen { s_row : Z; s_col : Z; s_grid : Z -> Z -> Z * Z }.

Definition blank_screen : screen := Screen 0 0 (fun _ _ => (BLANK, ATTR)).

Definition next_position (c row col : Z) : Z * Z :=
  if c =? NEWLINE then (row + 1, 0)
  else if c =? BACKSPACE then (row, Z.max 0 (col - 1))
  else if col =? 79 then (row + 1, 0) else (row, col + 1).

Definition written_cell (c row col : Z) : option (Z * Z * Z) :=
  if c =? NEWLINE then None
  else if c =? BACKSPACE then if 0 <? col then Some (row, col - 1, BLANK) else None
  else Some (row, col, u8 c).

Definition type_char (s : screen) (c : Z) : screen :=
  let '(row, col) := next_position c (s_row s) (s_col s) in
  let grid := match written_cell c (s_row s) (s_col s) with
    | None => s_grid s
    | Some (wr, wc, ch) => fun r k => if decide (r = wr /\ k = wc) then (ch, ATTR) else s_grid s r k
    end in
  if decide (row = 25)
  then Screen 24 col (fun r k => if decide (r < 24) then grid (r + 1) k else (BLANK, ATTR))
  else Screen row col grid.

(** The terminal in text mode shows the screen [s]. *)
Record shows (t : terminal) (s : screen) : Prop := {
  sh_row : terminal_row t = s_row s;
  sh_col : terminal_col t = s_col s;
  sh_mode : vbe_active t = false;
  sh_grid : forall r c, on_screen r c -> cell t r c = Some (s_grid s r c)
}.

(** The cursor registers of the adapter after [update_cursor]. *)
Definition cursor_writes (row col : Z) : list event :=
  [Out8 0x3D5 ((80 * row + col) / 256); Out8 0x3D4 0x0E; Out8 0x3D5 ((80 * row + col) mod 256); Out8 0x3D4 0x0F].

Lemma update_cursor_ok t tr :
  term_ok t -> snd (update_cursor t tr) = cursor_writes (terminal_row t) (terminal_col t) ++ tr.
Proof.
  intros [Hr Hc _]. unfold update_cursor, outbs, outb. cbn [mbind io_bind mret io_ret snd].
  unfold cursor_writes. rewrite (u16_small (terminal_row t * 80 + terminal_col t)) by lia.
  replace (80 * terminal_row t + terminal_col t) with (terminal_row t * 80 + terminal_col t) by lia.
  set (p := terminal_row t * 80 + terminal_col t). assert (0 <= p < 2000) by (subst p; lia).
  rewrite Z.shiftr_div_pow2 by lia. change 0xFF with (Z.ones 8). rewrite !Z.land_ones by lia.
  change (2 ^ 8) with 256. rewrite (Z.mod_small (p / 256)) by (split; [apply Z.div_pos|apply Z.div_lt_upper_bound]; lia).
  rewrite !(u8_small (p / 256)) by (split; [apply Z.div_pos|apply Z.div_lt_upper_bound]; lia).
  rewrite (u8_small (p mod 256)) by (apply Z.mod_pos_bound; lia). done.
Qed.

(** Writing one cell of the grid. *)
Lemma put_cell_grid r c ch t :
  length (video_memory t) = 4000%nat -> on_screen r c ->
  exists v, put_cell (i32 ((r * 80 + c) * 2)) ch t = Some (with_video v t) /\ length v = 4000%nat /\
    forall r' c', on_screen r' c' ->
      cell (with_video v t) r' c' = if decide (r' = r /\ c' = c) then Some (u8 ch, ATTR) else cell t r' c'.
Proof.
  intros Hl [Hr Hc]. rewrite i32_small by lia.
  replace ((r * 80 + c) * 2) with (2 * (80 * r + c)) by lia.
  destruct (put_cell_ok (80 * r + c) ch t Hl) as (v & E & Hv & Hi); [lia|].
  exists v. split; [done|]. split; [done|]. intros r' c' [Hr' Hc']. unfold cell.
  cbn [video_memory with_video]. rewrite !Hi.
  destruct (decide (r' = r /\ c' = c)) as [[-> ->]|Hne].
  - by rewrite (decide_True (P := 2 * (80 * r + c) = 2 * (80 * r + c))), decide_False, decide_True by lia.
  - by rewrite !decide_False by lia.
Qed.

Definition shows_wide (t : terminal) (row col : Z) (grid : Z -> Z -> Z * Z) : Prop :=
  terminal_row t = row /\ terminal_col t = col /\ vbe_active t = false /\
  length (video_memory t) = 4000%nat /\ (forall r c, on_screen r c -> cell t r c = Some (grid r c)).

#[local] Ltac term_fields :=
  unfold shows_wide;
  split_and!;
  cbn [terminal_row terminal_col vbe_active video_memory with_cursor with_video];
  rewrite ?u32_small by lia; try lia; try done;
  try match goal with H : forall r c, on_screen r c -> _ |- forall r c, on_screen r c -> _ => exact H end.

Lemma place_char_ok c t s :
  term_ok t -> shows t s ->
  let '(row, col) := next_position c (s_row s) (s_col s) in
  exists t', place_char c t = Some t' /\ 0 <= row <= 25 /\ 0 <= col < 80 /\
    shows_wide t' row col (match written_cell c (s_row s) (s_col s) with
    | None => s_grid s
    | Some (wr, wc, ch) => fun r k => if decide (r = wr /\ k = wc) then (ch, ATTR) else s_grid s r k
    end).
Proof.
  intros [Hr Hc Hl] [Sr Sc Sm Sg]. rewrite <- Sr, <- Sc. unfold next_position, written_cell, place_char.
  destruct (Z.eqb_spec c NEWLINE) as [->|Hn].
  { eexists; split; [done|]. term_fields. }
  destruct (Z.eqb_spec c BACKSPACE) as [->|Hb].
  - destruct (Z.ltb_spec 0 (terminal_col t)) as [Hpos|Hpos].
    + cbn [terminal_row terminal_col with_cursor]. rewrite !u32_small by lia.
      destruct (put_cell_grid (terminal_row t) (terminal_col t - 1) BLANK
        (with_cursor (terminal_row t) (terminal_col t - 1) t)) as (v & E & Hv & Hg); [done|split; lia|].
      eexists; split; [exact E|]. term_fields.
      intros r k Hrk. rewrite Hg by done. change (u8 BLANK) with BLANK. case_decide; [done|]. exact (Sg r k Hrk).
    + eexists; split; [done|]. term_fields.
  - destruct (put_cell_grid (terminal_row t) (terminal_col t) c t) as (v & E & Hv & Hg); [done|split; lia|].
    rewrite E. cbn [mbind option_bind]. cbn [terminal_row terminal_col with_cursor with_video].
    rewrite !(u32_small (terminal_row t)), !(u32_small (terminal_col t + 1)) by lia.
    assert (Hg' : forall r k, on_screen r k -> cell (with_video v t) r k =
      Some (if decide (r = terminal_row t /\ k = terminal_col t) then (u8 c, ATTR) else s_grid s r k)).
    { intros r k Hrk. rewrite Hg by done. case_decide; [done|auto]. }
    destruct (Z.eqb_spec (terminal_col t) 79) as [He|He].
    + rewrite (proj2 (Z.leb_le 80 (terminal_col t + 1))) by lia.
      eexists; split; [done|]. term_fields.
    + rewrite (proj2 (Z.leb_gt 80 (terminal_col t + 1))) by lia.
      eexists; split; [done|]. term_fields.
Qed.

Lemma put_char_ok c t s tr :
  term_ok t -> shows t s ->
  exists t' tr', put_char c (t, tr) = Some (t', tr') /\ term_ok t' /\ shows t' (type_char s c) /\
    exists tr0, tr' = cursor_writes (terminal_row t') (terminal_col t') ++ tr0.
Proof.
  intros Hok Hs. unfold put_char. rewrite (sh_mode _ _ Hs).
  pose proof (place_char_ok c t s Hok Hs) as Hp. unfold type_char.
  destruct (next_position c (s_row s) (s_col s)) as [row col]. destruct Hp as (t1 & -> & Hrow & Hcol & R & C & M & L & G).
  cbn [mbind option_bind]. generalize dependent (match written_cell c (s_row s) (s_col s) with
    | None => s_grid s
    | Some (wr, wc, ch) => fun r k => if decide (r = wr /\ k = wc) then (ch, ATTR) else s_grid s r k
    end). intros grid G.
  destruct (decide (row = 25)) as [->|Hne].
  - destruct (scroll_ok t1 L R) as (t2 & -> & L2 & R2 & C2 & M2 & _ & G2). cbn [mbind option_bind].
    rewrite C, u32_small in C2 by lia.
    assert (Hok2 : term_ok t2) by (constructor; lia).
    exists t2; eexists; split; [done|]. split; [done|]. split.
    + constructor; cbn; try congruence. intros r k Hrk. rewrite G2 by done. destruct (decide (r < 24)); [|done].
      apply G. destruct Hrk. split; lia.
    + eexists. by apply update_cursor_ok.
  - unfold scroll. rewrite (proj2 (Z.leb_gt 25 (terminal_row t1))) by lia. cbn [mbind option_bind].
    assert (Hok1 : term_ok t1) by (constructor; lia).
    exists t1; eexists; split; [done|]. split; [done|]. split; [by constructor|].
    eexists. by apply update_cursor_ok.
Qed.

Lemma put_chars_ok l : forall t s tr,
  term_ok t -> shows t s -> (exists tr0, tr = cursor_writes (terminal_row t) (terminal_col t) ++ tr0) ->
  exists t' tr', put_chars l (t, tr) = Some (t', tr') /\ term_ok t' /\ shows t' (fold_left type_char l s) /\
    exists tr0, tr' = cursor_writes (terminal_row t') (terminal_col t') ++ tr0.
Proof.
  induction l as [|c l IH]; intros t s tr Hok Hs Htr; cbn [put_chars fold_left].
  - by exists t, tr.
  - destruct (put_char_ok c t s tr Hok Hs) as (t' & tr' & -> & Hok' & Hs' & Htr'). cbn [mbind option_bind].
    exact (IH t' _ tr' Hok' Hs' Htr').
Qed.

Lemma clear_scr_ok t tr :
  length (video_memory t) = 4000%nat -> vbe_active t = false ->
  exists t' tr', clear_scr t tr = Some (t', tr') /\ term_ok t' /\ shows t' blank_screen /\
    tr' = cursor_writes 0 0 ++ tr.
Proof.
  intros Hl Hm. unfold clear_scr. destruct (blank_cells_ok 0 2000 t) as (v & -> & Hv & Hi); [done|lia|lia|].
  cbn [mbind option_bind]. eexists _, _; split; [done|].
  assert (Hok : term_ok (with_cursor 0 0 (with_video v t))) by (constructor; cbn; try done; lia).
  split; [done|]. split; [|exact (update_cursor_ok _ tr Hok)].
  constructor; try done. intros r c [Hr Hc]. unfold cell. cbn [video_memory with_cursor with_video].
  rewrite !Hi. destruct (blank_cell_parity (80 * r + c)) as [-> ->]. by rewrite !decide_True by lia.
Qed.

(** C32 the text console refines an abstract screen: after [clear_scr], any
    sequence of characters - newlines, backspaces, lines longer than the screen is wide,
    more lines than it is high - is accepted, the text buffer shows what the
    abstract screen shows, the cursor stays on the screen, no byte outside
    the buffer is written, and the adapter's cursor registers were last set to
    the cursor's cell. *)
Theorem console_refines l t tr :
  length (video_memory t) = 4000%nat -> vbe_active t = false ->
  exists t' tr' tr0, ('(t, tr) ← clear_scr t tr; put_chars l (t, tr)) = Some (t', tr') /\
    term_ok t' /\ shows t' (fold_left type_char l blank_screen) /\
    tr' = cursor_writes (terminal_row t') (terminal_col t') ++ tr0.
Proof.
  intros Hl Hm. destruct (clear_scr_ok t tr Hl Hm) as (t1 & tr1 & -> & Hok & Hs & Htr). cbn [mbind option_bind].
  destruct (put_chars_ok l t1 blank_screen tr1 Hok Hs) as (t2 & tr2 & -> & Hok2 & Hs2 & tr0 & Htr2).
  - exists tr. by rewrite (sh_row _ _ Hs), (sh_col _ _ Hs).
  - by exists t2, tr2, tr0.
Qed.
End terminal.

(** ** A concrete run *)

Definition silent_machine : machine := Machine (fun _ _ => 0x20) (fun _ _ => 0) (fun _ _ => 0).
Definition dirty_terminal : terminal := Terminal 3 7 (replicate 4000 0xAA) false [].

(** Twenty-five newlines and a letter: the screen has scrolled once. *)
Lemma console_refines_witness :
  length (video_memory dirty_terminal) = 4000%nat /\ vbe_active dirty_terminal = false /\
  exists t' tr' tr0,
    ('(t, tr) ← clear_scr dirty_terminal []; put_chars silent_machine (65 :: replicate 25 NEWLINE ++ [66]) (t, tr))
      = Some (t', tr') /\
    term_ok t' /\ shows t' (fold_left type_char (65 :: replicate 25 NEWLINE ++ [66]) blank_screen) /\
    tr' = cursor_writes (terminal_row t') (terminal_col t') ++ tr0.
Proof.
  split; [vm_compute; reflexivity|]. split; [reflexivity|].
  apply (console_refines silent_machine (65 :: replicate 25 NEWLINE ++ [66]) dirty_terminal []).
  - vm_compute; reflexivity.
  - reflexivity.
Defined.
