(* ===== verification/Irq.v ===== *)
(** * Irq: the interrupt controllers and the IRQ dispatcher
    (kernel/core/irq.c)

    The table of sixteen handlers, the two 8259 controllers (their command and
    mask ports are writes of the trace of Ports), and [irq_handler], which
    [irq_common_stub] calls with the pointer to the saved registers and whose
    result becomes the stack pointer.  A handler is a function on the state of
    its driver and the port history. *)

From S2P Require Export Ports Task.

Section irq.
(** [K]: the drivers' state. *)
Context {K : Type}.

Definition handler : Type := Z -> K * list event -> option (K * list event).

Record irq_state := Irq {
  irq_routines : list (option handler);
  drivers : K;
  scheduler : sched;
  trace : list event
}.

Definition irq_install_handler (irq : Z) (h : handler) (s : irq_state) : option irq_state :=
  r ← aset (irq_routines s) irq (Some h); Some (Irq r (drivers s) (scheduler s) (trace s)).

Definition irq_uninstall_handler (irq : Z) (s : irq_state) : option irq_state :=
  r ← aset (irq_routines s) irq None; Some (Irq r (drivers s) (scheduler s) (trace s)).

(** Clearing a bit of a mask register: [outb(port, inb(port) & ~(1 << n))]. *)
Definition unmask (dev : machine) (port n : Z) : io unit :=
  inb dev port ≫= fun mask => outb port (Z.land mask (Z.lnot (Z.shiftl 1 n))).

Definition irq_remap : io unit :=
  outbs [(0x20, 0x11); (0xA0, 0x11); (0x21, 0x20); (0xA1, 0x28); (0x21, 0x04); (0xA1, 0x02);
         (0x21, 0x01); (0xA1, 0x01); (0x21, 0xFB); (0xA1, 0xFF)].

(** [r] is the pointer to the registers, [int_no] the field [r->int_no]. *)
Definition irq_handler (r int_no : Z) (s : irq_state) : option (Z * irq_state) :=
  '(d, t) ← (if (32 <=? int_no) && (int_no <? 48) then
      h ← aget (irq_routines s) (int_no - 32);
      match h with Some h => h r (drivers s, trace s) | None => Some (drivers s, trace s) end
    else Some (drivers s, trace s));
  let t := if 40 <=? int_no then snd (outb 0xA0 0x20 t) else t in
  let t := snd (outb 0x20 0x20 t) in
  let s := Irq (irq_routines s) d (scheduler s) t in
  if int_no =? 32 then
    '(esp, sc) ← schedule_internal r (scheduler s);
    Some (esp, Irq (irq_routines s) (drivers s) sc (trace s))
  else Some (r, s).

Definition table_ok (s : irq_state) : Prop := length (irq_routines s) = 16%nat.

(** The end-of-interrupt writes of IRQ [irq], newest first. *)
Definition eoi (irq : Z) : list event :=
  if 8 <=? irq then [Out8 0x20 0x20; Out8 0xA0 0x20] else [Out8 0x20 0x20].

Lemma irq_dispatch_ok r irq h s d' t' :
  table_ok s -> 0 < irq < 16 -> aget (irq_routines s) irq = Some (Some h) ->
  h r (drivers s, trace s) = Some (d', t') ->
  irq_handler r (irq + 32) s = Some (r, Irq (irq_routines s) d' (scheduler s) (eoi irq ++ t')).
Proof.
  intros Ht Hi Hg Hh. unfold irq_handler.
  rewrite (proj2 (Z.leb_le 32 (irq + 32))), (proj2 (Z.ltb_lt (irq + 32) 48)) by lia. cbn [andb].
  replace (irq + 32 - 32) with irq by lia. rewrite Hg. cbn [mbind option_bind]. rewrite Hh.
  cbn [mbind option_bind]. rewrite (proj2 (Z.eqb_neq (irq + 32) 32)) by lia. do 3 f_equal.
  unfold eoi. destruct (Z.leb_spec 8 irq), (Z.leb_spec 40 (irq + 32)); try lia; done.
Qed.

Lemma timer_dispatch_ok r h s d' t' esp sc :
  aget (irq_routines s) 0 = Some (Some h) -> h r (drivers s, trace s) = Some (d', t') ->
  schedule_internal r (scheduler s) = Some (esp, sc) ->
  irq_handler r 32 s = Some (esp, Irq (irq_routines s) d' sc (eoi 0 ++ t')).
Proof.
  intros Hg Hh Hs. unfold irq_handler. change ((32 <=? 32) && (32 <? 48)) with true.
  change (32 - 32) with 0. cbn iota. rewrite Hg. cbn [mbind option_bind]. rewrite Hh.
  cbn [mbind option_bind]. change (40 <=? 32) with false. change (32 =? 32) with true. cbn iota.
  cbn [scheduler]. rewrite Hs. done.
Qed.

Lemma spurious_ok r irq s :
  0 < irq < 16 -> aget (irq_routines s) irq = Some None ->
  irq_handler r (irq + 32) s = Some (r, Irq (irq_routines s) (drivers s) (scheduler s) (eoi irq ++ trace s)).
Proof.
  intros Hi Hg. unfold irq_handler.
  rewrite (proj2 (Z.leb_le 32 (irq + 32))), (proj2 (Z.ltb_lt (irq + 32) 48)) by lia. cbn [andb].
  replace (irq + 32 - 32) with irq by lia. rewrite Hg. cbn [mbind option_bind].
  rewrite (proj2 (Z.eqb_neq (irq + 32) 32)) by lia. do 3 f_equal.
  unfold eoi. destruct (Z.leb_spec 8 irq), (Z.leb_spec 40 (irq + 32)); try lia; done.
Qed.

Lemma install_ok irq h s :
  table_ok s -> 0 <= irq < 16 ->
  exists r, irq_install_handler irq h s = Some (Irq r (drivers s) (scheduler s) (trace s)) /\ length r = 16%nat /\
    forall j, aget r j = if decide (irq = j) then Some (Some h) else aget (irq_routines s) j.
Proof.
  intros Ht Hi. unfold irq_install_handler. unfold table_ok in Ht.
  destruct (aset (irq_routines s) irq (Some h)) as [r|] eqn:E; [|rewrite aset_eq in E by lia; done].
  exists r. split; [done|]. split; [by rewrite (aset_length _ _ _ _ E)|].
  intros j. exact (aget_aset _ _ _ _ _ E).
Qed.

(** dispatching a device interrupt: after installing [h] for
    line [irq] (1 to 15), an interrupt on that line runs exactly [h], with the
    saved registers; an interrupt on another line does not run it; in both
    cases the interrupted context is resumed, the end-of-interrupt command
    is sent after the handler, to the slave controller first when the line is one of
    its own, and the handlers of the other lines are kept. *)
Theorem irq_install_dispatch r irq j h s d' t' :
  table_ok s -> 0 < irq < 16 -> 0 < j < 16 -> aget (irq_routines s) j = Some None ->
  h r (drivers s, trace s) = Some (d', t') ->
  exists s', irq_install_handler irq h s = Some s' /\ table_ok s' /\
    irq_handler r (j + 32) s' = Some (r,
      if decide (irq = j) then Irq (irq_routines s') d' (scheduler s) (eoi irq ++ t')
      else Irq (irq_routines s') (drivers s) (scheduler s) (eoi j ++ trace s)) /\
    forall k, k <> irq -> aget (irq_routines s') k = aget (irq_routines s) k.
Proof.
  intros Ht Hi Hj Hn Hh. destruct (install_ok irq h s Ht) as (r' & -> & Hl & Hg); [lia|].
  eexists; split; [done|]. split; [done|]. split.
  - pose proof (Hg j) as Hgj. destruct (decide (irq = j)) as [Hd|Hd].
    + subst j. by apply (irq_dispatch_ok r irq h (Irq r' (drivers s) (scheduler s) (trace s))).
    + apply (spurious_ok r j (Irq r' (drivers s) (scheduler s) (trace s))); [lia|]. cbn [irq_routines]. by rewrite Hgj.
  - intros k Hk. cbn [irq_routines]. rewrite Hg. by rewrite decide_False by congruence.
Qed.
End irq.
Arguments irq_state : clear implicits.
Arguments handler : clear implicits.

(** A handler that counts its calls, on lines 1 and 12. *)
Definition counting : handler Z := fun _ '(n, t) => Some (n + 1, t).
Definition quiet_sched : sched := Sched 0 0 1 ∅ ∅ sample_kheap tss_zero.
Definition empty_table : irq_state Z := Irq (replicate 16 None) 0 quiet_sched [].

Lemma irq_install_dispatch_witness :
  counting 0xC0100000 (drivers empty_table, trace empty_table) = Some (1, []) /\
  exists s', irq_install_handler 12 counting empty_table = Some s' /\ table_ok s' /\
    irq_handler 0xC0100000 (12 + 32) s' = Some (0xC0100000,
      if decide (12 = 12) then Irq (irq_routines s') 1 quiet_sched (eoi 12 ++ [])
      else Irq (irq_routines s') 0 quiet_sched (eoi 12 ++ [])) /\
    forall k, k <> 12 -> aget (irq_routines s') k = aget (irq_routines empty_table) k.
Proof.
  split; [reflexivity|].
  apply (irq_install_dispatch 0xC0100000 12 12 counting empty_table 1 []); [reflexivity|lia|lia|reflexivity|reflexivity].
Defined.
