(* ===== verification/Timer.v ===== *)
(** * Timer: the interval timer, sleeping and the clock (kernel/drivers/timer.c)

    The tick counter of IRQ 0, the programming of the PIT, [sleep], whose
    [hlt] wakes at any interrupt, and the CMOS clock in BCD. *)

From S2P Require Export Irq.

Definition PIT_CMD : Z := 0x43.
Definition PIT_CH0 : Z := 0x40.
Definition PIT_FREQ : Z := 1193182.

Record timer := Timer { tick_count : Z; timer_freq : Z }.

Definition timer_handler : handler timer :=
  fun _ '(s, t) => Some (Timer (u32 (tick_count s + 1)) (timer_freq s), t).

Definition pit_divisor (frequency : Z) : Z :=
  let divisor := PIT_FREQ / frequency in
  let divisor := if 65535 <? divisor then 65535 else divisor in
  if divisor <? 1 then 1 else divisor.

(** A frequency of 0 divides by zero, which traps. *)
Definition init_timer (dev : machine) (frequency : Z) (s : irq_state timer) : option (irq_state timer) :=
  if frequency =? 0 then None else
  let d := pit_divisor frequency in
  let t := snd (outbs [(PIT_CMD, 0x36); (PIT_CH0, Z.land d 0xFF); (PIT_CH0, Z.land (Z.shiftr d 8) 0xFF)] (trace s)) in
  s ← irq_install_handler 0 timer_handler (Irq (irq_routines s) (Timer 0 frequency) (scheduler s) t);
  Some (Irq (irq_routines s) (drivers s) (scheduler s) (snd (unmask dev 0x21 0 (trace s)))).

Definition timer_get_ticks (s : timer) : Z := tick_count s.
Definition timer_get_seconds (s : timer) : Z :=
  if timer_freq s =? 0 then 0 else tick_count s / timer_freq s.

(** ** sleep

    [wake k] is the number of ticks counted while the [k]-th [hlt] of the
    machine's run slept: 0 when another interrupt woke it. *)
Fixpoint sleep_loop (fuel : nat) (wake : nat -> Z) (k : nat) (start n : Z) (s : timer) : option timer :=
  match fuel with
  | O => None
  | S fuel' =>
      if u32 (tick_count s - start) <? n then
        sleep_loop fuel' wake (S k) start n (Timer (u32 (tick_count s + wake k)) (timer_freq s))
      else Some s
  end.

Definition ticks_to_wait (ms freq : Z) : Z :=
  let n := u32 (ms * freq) / 1000 in if n =? 0 then 1 else n.

Definition sleep (fuel : nat) (wake : nat -> Z) (ms : Z) (s : timer) : option timer :=
  if timer_freq s =? 0 then Some s
  else sleep_loop fuel wake 0 (tick_count s) (ticks_to_wait ms (timer_freq s)) s.

(** ** The clock *)

Definition get_rtc_register (dev : machine) (reg : Z) : io Z :=
  outb 0x70 reg ≫= fun _ => inb dev 0x71.

Definition bcd (b : Z) : Z := Z.land b 0x0F + b / 16 * 10.

(** Hours, minutes and seconds. *)
Definition rtc_get_time (dev : machine) : io (Z * Z * Z) :=
  get_rtc_register dev 0x00 ≫= fun sec =>
  get_rtc_register dev 0x02 ≫= fun min =>
  get_rtc_register dev 0x04 ≫= fun hour =>
  mret (Z.rem (bcd hour + 3) 24, bcd min, bcd sec).

(** ** Ticks and task switches *)

(** Timer interrupts one after the other, each with the stack pointer of the
    task it interrupts. *)
Fixpoint timer_ticks (es : list Z) (s : irq_state timer) : option (irq_state timer) :=
  match es with
  | [] => Some s
  | e :: es' => '(_, s) ← irq_handler e 32 s; timer_ticks es' s
  end.

Lemma timer_ticks_ok es : forall s sc,
  aget (irq_routines s) 0 = Some (Some timer_handler) -> run_ticks es (scheduler s) = Some sc ->
  0 <= tick_count (drivers s) < 2 ^ 32 ->
  exists s', timer_ticks es s = Some s' /\ scheduler s' = sc /\ irq_routines s' = irq_routines s /\
    drivers s' = Timer (u32 (tick_count (drivers s) + Z.of_nat (length es))) (timer_freq (drivers s)).
Proof.
  induction es as [|e es IH]; intros s sc Hr Hs Hc; cbn [timer_ticks run_ticks] in *.
  - injection Hs as <-. exists s. split_and!; try done. rewrite Z.add_0_r, u32_small by pow2_lia.
    by destruct (drivers s).
  - destruct (schedule_internal e (scheduler s)) as [[esp sc1]|] eqn:E; [|discriminate Hs].
    cbn [mbind option_bind] in Hs.
    rewrite (timer_dispatch_ok e timer_handler s _ _ _ _ Hr eq_refl E). cbn [mbind option_bind].
    destruct (IH (Irq (irq_routines s) (Timer (u32 (tick_count (drivers s) + 1)) (timer_freq (drivers s))) sc1
      (eoi 0 ++ trace s)) sc Hr Hs (u32_range _)) as (s' & E' & H1 & H2 & H3).
    exists s'. split_and!; try done. rewrite H3. cbn [drivers tick_count timer_freq length]. f_equal.
    unfold u32. rewrite Zplus_mod_idemp_l. f_equal. lia.
Qed.

Lemma pit_divisor_range f : 0 < f -> 1 <= pit_divisor f <= 65535.
Proof.
  intros Hf. unfold pit_divisor. cbv zeta.
  destruct (Z.ltb_spec 65535 (PIT_FREQ / f)); [done|].
  destruct (Z.ltb_spec (PIT_FREQ / f) 1); lia.
Qed.

Lemma divisor_bytes d : 1 <= d <= 65535 -> u8 (Z.land d 0xFF) + 256 * u8 (Z.land (Z.shiftr d 8) 0xFF) = d.
Proof.
  intros Hd. change 0xFF with (Z.ones 8). rewrite !Z.land_ones, Z.shiftr_div_pow2 by lia.
  unfold u8. pow2_lia.
Qed.

(** C39 starting the timer and counting: [init_timer f] loads
    channel 0 with both bytes of a divisor between 1 and 65535 - the quotient
    of the PIT clock by [f] whenever that fits - low byte first; and
    from then on any number of IRQ 0 interrupts counts that many ticks
    (modulo 2^32) and drives the scheduler exactly like as many calls of
    [schedule_internal]. *)
Theorem timer_counts dev f s es sc :
  table_ok s -> 0 < f < 2 ^ 32 -> run_ticks es (scheduler s) = Some sc ->
  exists s1 s2 lo hi,
    init_timer dev f s = Some s1 /\
    (exists t, trace s1 = t ++ Out8 PIT_CH0 hi :: Out8 PIT_CH0 lo :: Out8 PIT_CMD 0x36 :: trace s) /\
    1 <= lo + 256 * hi <= 65535 /\ (19 <= f <= PIT_FREQ -> lo + 256 * hi = PIT_FREQ / f) /\
    timer_ticks es s1 = Some s2 /\ scheduler s2 = sc /\
    timer_get_ticks (drivers s2) = u32 (Z.of_nat (length es)) /\
    timer_get_seconds (drivers s2) = u32 (Z.of_nat (length es)) / f.
Proof.
  intros Ht Hf Hs. unfold init_timer. rewrite (proj2 (Z.eqb_neq f 0)) by lia.
  pose proof (pit_divisor_range f ltac:(lia)) as Hd.
  set (s0 := Irq (irq_routines s) (Timer 0 f) (scheduler s) _).
  destruct (install_ok 0 timer_handler s0 Ht) as (r & -> & Hl & Hg); [lia|]. cbn [mbind option_bind].
  set (s1 := Irq _ _ _ _).
  destruct (timer_ticks_ok es s1 sc) as (s2 & E2 & H1 & H2 & H3); [by apply Hg|done|done|].
  exists s1, s2, (u8 (Z.land (pit_divisor f) 0xFF)), (u8 (Z.land (Z.shiftr (pit_divisor f) 8) 0xFF)).
  split; [done|]. split; [by eexists [_; _]|]. rewrite (divisor_bytes _ Hd). split; [done|]. split.
  { intros Hr. unfold pit_divisor. cbv zeta.
    assert (1 <= PIT_FREQ / f) by (apply Z.div_le_lower_bound; lia).
    assert (PIT_FREQ / f <= 65535) by (apply Z.lt_succ_r, Z.div_lt_upper_bound; unfold PIT_FREQ in *; lia).
    rewrite (proj2 (Z.ltb_ge 65535 (PIT_FREQ / f))) by lia. by rewrite (proj2 (Z.ltb_ge (PIT_FREQ / f) 1)) by lia. }
  split; [done|]. split; [done|]. rewrite H3. cbn [drivers s1 s0 tick_count timer_freq].
  split; [done|]. unfold timer_get_seconds. cbn [tick_count timer_freq]. by rewrite (proj2 (Z.eqb_neq f 0)) by lia.
Qed.

(** ** sleep returns *)

Fixpoint total_wakes (wake : nat -> Z) (k n : nat) : Z :=
  match n with O => 0 | S n' => wake k + total_wakes wake (S k) n' end.

(** The loop ends at the first moment at which [n] ticks have passed. *)
Lemma sleep_loop_ok wake start n m : forall k e f,
  (forall j, wake j = 0 \/ wake j = 1) -> 0 < n < 2 ^ 32 -> 0 <= e <= n -> n <= e + total_wakes wake k m ->
  sleep_loop (S m) wake k start n (Timer (u32 (start + e)) f) = Some (Timer (u32 (start + n)) f).
Proof.
  induction m as [|m IH]; intros k e f Hw Hn He Ht; cbn [sleep_loop total_wakes tick_count timer_freq] in *.
  - replace e with n by lia. rewrite (proj2 (Z.ltb_ge _ n)); [done|].
    unfold u32. rewrite Zminus_mod_idemp_l. replace (start + n - start) with n by lia. rewrite Z.mod_small; lia.
  - replace (u32 (u32 (start + e) - start)) with e.
    2:{ unfold u32. rewrite Zminus_mod_idemp_l. replace (start + e - start) with e by lia. by rewrite Z.mod_small by lia. }
    destruct (Z.ltb_spec e n) as [Hlt|Hge]; [|by replace e with n by lia].
    replace (u32 (u32 (start + e) + wake k)) with (u32 (start + (e + wake k))).
    2:{ unfold u32. rewrite Zplus_mod_idemp_l. f_equal. lia. }
    apply (IH (S k) (e + wake k) f); try done; destruct (Hw k); lia.
Qed.

(** C40 [sleep] returns: if the machine's interrupts keep coming - each wake-up
    counts a tick or not, and among the first [m] there are as many ticks as the
    requested time contains - the loop ends, exactly when
    [ms * freq / 1000] ticks (at least one) have been counted, also across a
    wrap-around of the tick counter. *)
Theorem sleep_terminates wake m ms s :
  0 < timer_freq s -> 0 <= ms -> ms * timer_freq s < 2 ^ 32 -> 0 <= tick_count s < 2 ^ 32 ->
  (forall j, wake j = 0 \/ wake j = 1) -> Z.max 1 (ms * timer_freq s / 1000) <= total_wakes wake 0 m ->
  sleep (S m) wake ms s =
    Some (Timer (u32 (tick_count s + Z.max 1 (ms * timer_freq s / 1000))) (timer_freq s)).
Proof.
  intros Hf Hm Hov Hc Hw Ht. unfold sleep. rewrite (proj2 (Z.eqb_neq (timer_freq s) 0)) by lia.
  assert (Hn : ticks_to_wait ms (timer_freq s) = Z.max 1 (ms * timer_freq s / 1000)).
  { unfold ticks_to_wait. rewrite u32_small by lia.
    assert (0 <= ms * timer_freq s / 1000) by (apply Z.div_pos; lia).
    destruct (Z.eqb_spec (ms * timer_freq s / 1000) 0); lia. }
  assert (ms * timer_freq s / 1000 < 2 ^ 32) by (apply Z.div_lt_upper_bound; lia).
  rewrite Hn. replace s with (Timer (u32 (tick_count s + 0)) (timer_freq s)) at 3.
  2:{ rewrite Z.add_0_r, u32_small by lia. by destruct s. }
  apply (sleep_loop_ok wake (tick_count s) _ m 0%nat 0 (timer_freq s)); try done; lia.
Qed.

(** A long sleep wraps [ms * freq]: 43,000,000 ms at 100 Hz wait 5032 ticks, 50
    seconds, where twelve hours were asked for. *)
Lemma sleep_wraps : ticks_to_wait 43000000 100 = 5032 /\ 43000000 * 100 / 1000 = 4300000.
Proof. done. Qed.

Lemma bcd_ok d u : 0 <= d <= 9 -> 0 <= u <= 9 -> bcd (16 * d + u) = 10 * d + u.
Proof.
  intros Hd Hu. unfold bcd. change 0x0F with (Z.ones 4). rewrite Z.land_ones by lia. pow2_lia.
Qed.

(** ** Concrete runs *)

Definition timer_boot : irq_state timer := Irq (replicate 16 None) (Timer 7 0) booted [].

Lemma timer_counts_witness :
  table_ok timer_boot /\ exists sc, run_ticks [4096; 8192; 12288] (scheduler timer_boot) = Some sc /\
  exists s1 s2 lo hi,
    init_timer (Machine (fun _ _ => 0xFB) (fun _ _ => 0) (fun _ _ => 0)) 100 timer_boot = Some s1 /\
    (exists t, trace s1 = t ++ Out8 PIT_CH0 hi :: Out8 PIT_CH0 lo :: Out8 PIT_CMD 0x36 :: trace timer_boot) /\
    1 <= lo + 256 * hi <= 65535 /\ (19 <= 100 <= PIT_FREQ -> lo + 256 * hi = PIT_FREQ / 100) /\
    timer_ticks [4096; 8192; 12288] s1 = Some s2 /\ scheduler s2 = sc /\
    timer_get_ticks (drivers s2) = u32 (Z.of_nat (length [4096; 8192; 12288])) /\
    timer_get_seconds (drivers s2) = u32 (Z.of_nat (length [4096; 8192; 12288])) / 100.
Proof.
  split; [reflexivity|].
  destruct (run_ticks [4096; 8192; 12288] (scheduler timer_boot)) as [sc|] eqn:E.
  - exists sc. split; [reflexivity|].
    apply (timer_counts _ 100 timer_boot _ _); [reflexivity|lia|exact E].
  - exfalso. assert (F : is_Some (run_ticks [4096; 8192; 12288] (scheduler timer_boot))) by (vm_compute; eauto).
    rewrite E in F. destruct F as [x F]. discriminate F.
Defined.

(** Every other wake-up is a tick; the counter wraps. *)
Lemma sleep_terminates_witness :
  sleep 41 (fun k => if Nat.even k then 0 else 1) 200 (Timer (2 ^ 32 - 5) 100) =
    Some (Timer (u32 (2 ^ 32 - 5 + Z.max 1 (200 * 100 / 1000))) 100).
Proof.
  apply (sleep_terminates (fun k => if Nat.even k then 0 else 1) 40 200 (Timer (2 ^ 32 - 5) 100));
    cbn [timer_freq tick_count]; try lia.
  - intros j. destruct (Nat.even j); auto.
  - vm_compute. discriminate.
Defined.
