(* ===== verification/Keyboard.v ===== *)
(** * Keyboard: scancodes and the input ring (kernel/drivers/keyboard.c)

    The scancode tables of the Turkish Q layout, the interrupt handler with the
    shift state, and the 256-byte ring between the handler and the readers.
    The shell's line editor is outside this file: the characters given to
    [shell_input] are kept as a list. *)

From S2P Require Export Irq.

Definition KBD_BUF_SIZE : Z := 256.

Record keyboard := Keyboard {
  shift_pressed : bool;
  shell_active : bool;
  shell_in : list Z;
  kbd_buffer : list Z;
  kbd_buf_head : Z;
  kbd_buf_tail : Z
}.

Definition with_shift (b : bool) (k : keyboard) : keyboard :=
  Keyboard b (shell_active k) (shell_in k) (kbd_buffer k) (kbd_buf_head k) (kbd_buf_tail k).
Definition with_shell_in (l : list Z) (k : keyboard) : keyboard :=
  Keyboard (shift_pressed k) (shell_active k) l (kbd_buffer k) (kbd_buf_head k) (kbd_buf_tail k).
Definition with_ring (b : list Z) (h t : Z) (k : keyboard) : keyboard :=
  Keyboard (shift_pressed k) (shell_active k) (shell_in k) b h t.

Definition shell_input (c : Z) (k : keyboard) : keyboard := with_shell_in (shell_in k ++ [c]) k.

Definition keyboard_put (c : Z) (k : keyboard) : option keyboard :=
  if shell_active k then Some (shell_input c k)
  else
    b ← aset (kbd_buffer k) (kbd_buf_head k) c;
    Some (with_ring b (Z.rem (kbd_buf_head k + 1) KBD_BUF_SIZE) (kbd_buf_tail k) k).

Definition keyboard_get (k : keyboard) : option (Z * keyboard) :=
  if kbd_buf_head k =? kbd_buf_tail k then Some (0, k)
  else
    c ← aget (kbd_buffer k) (kbd_buf_tail k);
    Some (c, with_ring (kbd_buffer k) (kbd_buf_head k) (Z.rem (kbd_buf_tail k + 1) KBD_BUF_SIZE) k).

Definition scancode_normal : list Z :=
  [0; 27; 49; 50; 51; 52; 53; 54; 55; 56; 57; 48; 42; 45; 8;
   9; 113; 119; 101; 114; 116; 121; 117; 105; 111; 112; 103; 0x81; 10;
   0; 97; 115; 100; 102; 103; 104; 106; 107; 108; 115; 105; 34; 0;
   44; 122; 120; 99; 118; 98; 110; 109; 0x94; 0x87; 46; 0; 42; 0; 32] ++ replicate 71 0.

Definition scancode_shift : list Z :=
  [0; 27; 33; 39; 94; 43; 37; 38; 47; 40; 41; 61; 63; 95; 8;
   9; 81; 87; 69; 82; 84; 89; 85; 73; 79; 80; 71; 0x9A; 10;
   0; 65; 83; 68; 70; 71; 72; 74; 75; 76; 83; 73; 39; 0;
   59; 90; 88; 67; 86; 66; 78; 77; 0x99; 0x80; 58; 0; 42; 0; 32] ++ replicate 71 0.

(** [keyboard_handler] after the scancode has been read. *)
Definition handle_scancode (scancode : Z) (k : keyboard) : option keyboard :=
  if (scancode =? 0x2A) || (scancode =? 0x36) then Some (with_shift true k)
  else if (scancode =? Z.lor 0x2A 0x80) || (scancode =? Z.lor 0x36 0x80) then Some (with_shift false k)
  else if negb (Z.land scancode 0x80 =? 0) then Some k
  else if scancode =? 0x48 then Some (shell_input 0x11 k)
  else if scancode =? 0x50 then Some (shell_input 0x12 k)
  else if Z.of_nat (length scancode_normal) <=? scancode then Some k
  else
    c ← aget (if shift_pressed k then scancode_shift else scancode_normal) scancode;
    if c =? 0 then Some k else keyboard_put c k.

Definition keyboard_handler (dev : machine) : handler keyboard :=
  fun _ '(k, t) => let '(scancode, t) := inb dev 0x60 t in
    k ← handle_scancode scancode k; Some (k, t).

Definition init_keyboard (dev : machine) (s : irq_state keyboard) : option (irq_state keyboard) :=
  s ← irq_install_handler 1 (keyboard_handler dev) s;
  Some (Irq (irq_routines s) (drivers s) (scheduler s) (snd (unmask dev 0x21 1 (trace s)))).

(** ** The ring as a queue

    [kbd_rep k q]: the ring holds the queue [q].  A ring of 256 cells whose
    fullness is told by [head = tail] holds at most 255 bytes. *)
Record kbd_rep (k : keyboard) (q : list Z) : Prop := {
  kr_buffer : length (kbd_buffer k) = 256%nat;
  kr_tail : 0 <= kbd_buf_tail k < 256;
  kr_length : Z.of_nat (length q) <= 255;
  kr_head : kbd_buf_head k = (kbd_buf_tail k + Z.of_nat (length q)) mod 256;
  kr_cells : forall (i : nat) x, q !! i = Some x -> aget (kbd_buffer k) ((kbd_buf_tail k + Z.of_nat i) mod 256) = Some x
}.

Lemma ring_ne a i j : 0 <= i < j -> j < 256 -> (a + i) mod 256 <> (a + j) mod 256.
Proof. intros. Z.to_euclidean_division_equations; lia. Qed.

(** The queue's insertion, overflow included: with 255 bytes waiting the head
    reaches the tail, and everything is lost. *)
Definition enqueue (c : Z) (q : list Z) : list Z := if (length q <? 255)%nat then q ++ [c] else [].

Lemma keyboard_put_ok c k q :
  kbd_rep k q -> shell_active k = false ->
  exists b h, keyboard_put c k = Some (with_ring b h (kbd_buf_tail k) k) /\
    kbd_rep (with_ring b h (kbd_buf_tail k) k) (enqueue c q).
Proof.
  intros [Hb Ht Hl Hh Hc] Ha. unfold keyboard_put. rewrite Ha.
  assert (Hr : 0 <= kbd_buf_head k < 256) by (rewrite Hh; apply Z.mod_pos_bound; lia).
  destruct (aset (kbd_buffer k) (kbd_buf_head k) c) as [b|] eqn:E; [|rewrite aset_eq in E by lia; done].
  cbn [mbind option_bind]. eexists _, _; split; [done|].
  rewrite Z.rem_mod_nonneg by (unfold KBD_BUF_SIZE; lia). change KBD_BUF_SIZE with 256.
  assert (Hn : (kbd_buf_head k + 1) mod 256 = (kbd_buf_tail k + Z.of_nat (S (length q))) mod 256).
  { rewrite Hh, Zplus_mod_idemp_l. f_equal. lia. }
  unfold enqueue. destruct (Nat.ltb_spec (length q) 255) as [Hlt|Hge];
    constructor; cbn [kbd_buffer kbd_buf_head kbd_buf_tail with_ring].
  - by rewrite (aset_length _ _ _ _ E).
  - done.
  - rewrite length_app. cbn. lia.
  - rewrite length_app. cbn [length]. rewrite Hn. do 2 f_equal. lia.
  - intros i x Hx. rewrite (aget_aset _ _ _ _ _ E). apply lookup_snoc_Some in Hx as [[Hi Hx]|[-> ->]].
    + rewrite decide_False; [by apply Hc|]. rewrite Hh. apply not_eq_sym. apply ring_ne; lia.
    + by rewrite decide_True by done.
  - by rewrite (aset_length _ _ _ _ E).
  - done.
  - cbn. lia.
  - rewrite Hn. replace (kbd_buf_tail k + Z.of_nat (S (length q))) with (kbd_buf_tail k + 1 * 256) by lia.
    rewrite Z_mod_plus_full. f_equal. cbn. lia.
  - done.
Qed.

Lemma keyboard_get_ok k q :
  kbd_rep k q ->
  exists t, keyboard_get k = Some (default 0 (head q), with_ring (kbd_buffer k) (kbd_buf_head k) t k) /\
    kbd_rep (with_ring (kbd_buffer k) (kbd_buf_head k) t k) (tail q).
Proof.
  intros [Hb Ht Hl Hh Hc]. unfold keyboard_get. destruct q as [|c q]; cbn [length] in *.
  - exists (kbd_buf_tail k). change (Z.of_nat 0) with 0 in Hh. rewrite Z.add_0_r, Z.mod_small in Hh by lia.
    rewrite (proj2 (Z.eqb_eq _ _) Hh). split; [by destruct k|].
    constructor; cbn; try done; try lia. by rewrite Z.add_0_r, Z.mod_small by lia.
  - rewrite (proj2 (Z.eqb_neq (kbd_buf_head k) (kbd_buf_tail k))).
    2:{ rewrite Hh. Z.to_euclidean_division_equations; lia. }
    pose proof (Hc 0%nat c eq_refl) as H0. rewrite Z.add_0_r, Z.mod_small in H0 by lia. rewrite H0.
    cbn [mbind option_bind]. eexists; split; [done|].
    rewrite Z.rem_mod_nonneg by (unfold KBD_BUF_SIZE; lia). change KBD_BUF_SIZE with 256.
    constructor; cbn [kbd_buffer kbd_buf_head kbd_buf_tail with_ring tail]; try done; try lia.
    + apply Z.mod_pos_bound. lia.
    + rewrite Hh, Zplus_mod_idemp_l. f_equal. lia.
    + intros i x Hx. rewrite Zplus_mod_idemp_l. rewrite <- (Hc (S i) x Hx). do 2 f_equal. lia.
Qed.

(** ** The abstract keyboard *)

Record typist := Typist { t_shift : bool; t_queue : list Z; t_shell : list Z }.

(** What a key code means: a shift state, a key for the shell, or a character. *)
Inductive key := Shift (down : bool) | ShellKey (c : Z) | Char (c : Z) | NoKey.

Definition meaning (shift : bool) (b : Z) : key :=
  if decide (b = 0x2A \/ b = 0x36) then Shift true
  else if decide (b = 0xAA \/ b = 0xB6) then Shift false
  else if decide (128 <= b) then NoKey
  else if decide (b = 0x48) then ShellKey 0x11
  else if decide (b = 0x50) then ShellKey 0x12
  else match (if shift then scancode_shift else scancode_normal) !! Z.to_nat b with
    | Some c => if decide (c = 0) then NoKey else Char c
    | None => NoKey
    end.

Definition type_key (b : Z) (y : typist) : typist :=
  match meaning (t_shift y) b with
  | Shift d => Typist d (t_queue y) (t_shell y)
  | ShellKey c => Typist (t_shift y) (t_queue y) (t_shell y ++ [c])
  | Char c => Typist (t_shift y) (enqueue c (t_queue y)) (t_shell y)
  | NoKey => y
  end.

Record kbd_shows (k : keyboard) (y : typist) : Prop := {
  ks_ring : kbd_rep k (t_queue y);
  ks_shift : shift_pressed k = t_shift y;
  ks_shell : shell_in k = t_shell y;
  ks_mode : shell_active k = false
}.

(** Bytes with the high bit. *)
Lemma land_128 b : 0 <= b < 256 -> (Z.land b 0x80 =? 0) = (b <? 128).
Proof.
  intros Hb. assert (Hbit : Z.land b 0x80 = if Z.testbit b 7 then 0x80 else 0).
  { apply Z.bits_inj'. intros n Hn. rewrite Z.land_spec. change 0x80 with (2 ^ 7).
    destruct (Z.testbit b 7) eqn:E.
    - rewrite Z.pow2_bits_eqb by lia. destruct (Z.eqb_spec 7 n); [by subst; rewrite E|apply andb_false_r].
    - rewrite Z.pow2_bits_eqb, Z.bits_0 by lia. destruct (Z.eqb_spec 7 n); [by subst; rewrite E|apply andb_false_r]. }
  rewrite Hbit. rewrite Z.testbit_odd, Z.shiftr_div_pow2 by lia. change (2 ^ 7) with 128.
  destruct (Z.ltb_spec b 128).
  - by rewrite Z.div_small by lia.
  - replace (b / 128) with 1 by (Z.to_euclidean_division_equations; lia). done.
Qed.

Lemma layout_lookup (shift : bool) b : 0 <= b < 128 ->
  exists c, (if shift then scancode_shift else scancode_normal) !! Z.to_nat b = Some c.
Proof.
  intros Hb. apply lookup_lt_is_Some_2.
  replace (length (if shift then scancode_shift else scancode_normal)) with 129%nat by (by destruct shift). lia.
Qed.

Lemma handle_scancode_ok b k y :
  0 <= b < 256 -> kbd_shows k y ->
  exists k', handle_scancode b k = Some k' /\ kbd_shows k' (type_key b y).
Proof.
  intros Hb [Hr Hs Hi Ha]. unfold handle_scancode, type_key, meaning. rewrite land_128 by lia. rewrite Hs.
  change (Z.lor 0x2A 0x80) with 0xAA. change (Z.lor 0x36 0x80) with 0xB6.
  change (Z.of_nat (length scancode_normal)) with 129.
  destruct (decide (b = 0x2A \/ b = 0x36)) as [Hd|Hd].
  { replace ((b =? 0x2A) || (b =? 0x36)) with true by (destruct Hd; subst; done).
    eexists; split; [done|]. by constructor; try (destruct Hr; by constructor). }
  replace ((b =? 0x2A) || (b =? 0x36)) with false by lia.
  destruct (decide (b = 0xAA \/ b = 0xB6)) as [Hu|Hu].
  { replace ((b =? 0xAA) || (b =? 0xB6)) with true by (destruct Hu; subst; done).
    eexists; split; [done|]. by constructor; try (destruct Hr; by constructor). }
  replace ((b =? 0xAA) || (b =? 0xB6)) with false by lia.
  destruct (decide (128 <= b)) as [Hh|Hh].
  { rewrite (proj2 (Z.ltb_ge b 128)) by lia. by eexists. }
  rewrite (proj2 (Z.ltb_lt b 128)) by lia. cbn [negb].
  destruct (decide (b = 0x48)) as [->|H48].
  { eexists; split; [done|]. constructor; try done; [destruct Hr; by constructor|cbn; by rewrite Hi]. }
  rewrite (proj2 (Z.eqb_neq b 0x48)) by lia.
  destruct (decide (b = 0x50)) as [->|H50].
  { eexists; split; [done|]. constructor; try done; [destruct Hr; by constructor|cbn; by rewrite Hi]. }
  rewrite (proj2 (Z.eqb_neq b 0x50)), (proj2 (Z.leb_gt 129 b)) by lia.
  destruct (layout_lookup (t_shift y) b ltac:(lia)) as [c Hc]. rewrite aget_pos by lia. rewrite Hc.
  cbn [mbind option_bind]. destruct (decide (c = 0)) as [->|H0]; [by exists k|].
  rewrite (proj2 (Z.eqb_neq c 0)) by lia.
  destruct (keyboard_put_ok c k _ Hr Ha) as (b' & h & E & Hr'). eexists; split; [exact E|]. by constructor.
Qed.

(** ** Runs: key codes and readers *)

Inductive kbd_op := Scancode (b : Z) | Get.

Definition port_machine (b : Z) : machine := Machine (fun _ _ => b) (fun _ _ => 0) (fun _ _ => 0).

(** The bytes [keyboard_get] returned, in order. *)
Fixpoint kbd_run (ops : list kbd_op) (k : keyboard) (t : list event) : option (list Z) :=
  match ops with
  | [] => Some []
  | Scancode b :: ops => '(k, t) ← keyboard_handler (port_machine b) 0 (k, t); kbd_run ops k t
  | Get :: ops => '(c, k) ← keyboard_get k; l ← kbd_run ops k t; Some (c :: l)
  end.

Fixpoint typist_run (ops : list kbd_op) (y : typist) : list Z :=
  match ops with
  | [] => []
  | Scancode b :: ops => typist_run ops (type_key (u8 b) y)
  | Get :: ops => default 0 (head (t_queue y)) :: typist_run ops (Typist (t_shift y) (tail (t_queue y)) (t_shell y))
  end.

Lemma kbd_run_ok ops : forall k y t, kbd_shows k y -> kbd_run ops k t = Some (typist_run ops y).
Proof.
  induction ops as [|[b|] ops IH]; intros k y t Hk; cbn [kbd_run typist_run]; [done| |].
  - unfold keyboard_handler, inb. cbn [read8 port_machine].
    destruct (handle_scancode_ok (u8 b) k y (u8_range b) Hk) as (k' & -> & Hk'). cbn [mbind option_bind]. by apply IH.
  - destruct Hk as [Hr Hs Hi Ha]. destruct (keyboard_get_ok k _ Hr) as (t' & -> & Hr'). cbn [mbind option_bind].
    by rewrite (IH _ (Typist (t_shift y) (tail (t_queue y)) (t_shell y))).
Qed.

Definition fresh_keyboard : keyboard := Keyboard false false [] (replicate 256 0) 0 0.

Lemma fresh_shows : kbd_shows fresh_keyboard (Typist false [] []).
Proof. by constructor; try constructor. Qed.

(** C34 the keyboard is a queue of decoded characters: for every
    sequence of key codes and reads, from boot and with no program reading the
    shell, [keyboard_get] returns exactly what an abstract typist and queue
    return - key releases and dead keys give nothing, shift selects the
    layout, the ring wraps around - including the overflow, where the 256th unread
    character empties the queue; no table or ring access is out
    of range. *)
Theorem keyboard_refines ops t : kbd_run ops fresh_keyboard t = Some (typist_run ops (Typist false [] [])).
Proof. exact (kbd_run_ok ops _ _ t fresh_shows). Qed.

(** Shift, [a], release, [a], and two reads. *)
Example keyboard_types :
  kbd_run [Scancode 0x2A; Scancode 0x1E; Scancode 0xAA; Scancode 0x1E; Get; Get; Get] fresh_keyboard [] = Some [65; 97; 0].
Proof. reflexivity. Qed.

(** 256 unread characters read as none. *)
Example keyboard_overflow : kbd_run (replicate 256 (Scancode 0x1E) ++ [Get]) fresh_keyboard [] = Some [0].
Proof. vm_compute. reflexivity. Qed.
