(* ===== verification/Mouse.v ===== *)
(** * Mouse: the PS/2 mouse (kernel/drivers/mouse.c)

    Waiting for the controller, initialisation, and the interrupt handler that
    assembles packets of three bytes.  The window system is outside this file:
    the calls of [gui_on_mouse_event] are kept as a list. *)

From S2P Require Export Irq.

Record mouse := Mouse {
  mouse_cycle : Z;
  mouse_byte : list Z;
  m_x : Z;
  m_y : Z;
  m_buttons : Z;
  gui_events : list (Z * Z * Z)
}.

Definition with_packet (c : Z) (b : list Z) (m : mouse) : mouse :=
  Mouse c b (m_x m) (m_y m) (m_buttons m) (gui_events m).
Definition with_buttons (v : Z) (m : mouse) : mouse :=
  Mouse (mouse_cycle m) (mouse_byte m) (m_x m) (m_y m) v (gui_events m).
Definition with_position (x y : Z) (m : mouse) : mouse :=
  Mouse (mouse_cycle m) (mouse_byte m) x y (m_buttons m) (gui_events m).
Definition gui_on_mouse_event (x y b : Z) (m : mouse) : mouse :=
  Mouse (mouse_cycle m) (mouse_byte m) (m_x m) (m_y m) (m_buttons m) (gui_events m ++ [(x, y, b)]).

Section mouse.
Variable dev : machine.

(** [while (timeout--) if (ready(inb(0x64))) return;]. *)
Fixpoint wait_loop (timeout : nat) (ready : Z -> bool) : io unit :=
  match timeout with
  | O => mret tt
  | S timeout' => inb dev 0x64 ≫= fun v => if ready v then mret tt else wait_loop timeout' ready
  end.

Definition mouse_wait (type : Z) : io unit :=
  if type =? 0 then wait_loop 100000 (fun v => Z.land v 1 =? 1)
  else wait_loop 100000 (fun v => Z.land v 2 =? 0).

Definition mouse_write (a : Z) : io unit :=
  mouse_wait 1 ≫= fun _ => outb 0x64 0xD4 ≫= fun _ => mouse_wait 1 ≫= fun _ => outb 0x60 a.

Definition mouse_read : io Z := mouse_wait 0 ≫= fun _ => inb dev 0x60.

(** The dialogue of [mouse_init] with the controller. *)
Definition mouse_setup : io unit :=
  mouse_wait 1 ≫= fun _ => outb 0x64 0xA8 ≫= fun _ =>
  mouse_write 0xF6 ≫= fun _ => mouse_read ≫= fun _ =>
  mouse_write 0xF4 ≫= fun _ => mouse_read ≫= fun _ =>
  mouse_wait 1 ≫= fun _ => outb 0x64 0x20 ≫= fun _ => mouse_wait 0 ≫= fun _ =>
  inb dev 0x60 ≫= fun v => let status := Z.land (Z.lor v 2) (Z.lnot 0x20) in
  mouse_wait 1 ≫= fun _ => outb 0x64 0x60 ≫= fun _ =>
  mouse_wait 1 ≫= fun _ => outb 0x60 status ≫= fun _ =>
  unmask dev 0x21 2 ≫= fun _ => unmask dev 0xA1 4.

(** The third byte of a packet. *)
Definition finish_packet (flags b1 b2 : Z) (m : mouse) : mouse :=
  let m := with_buttons (Z.land flags 0x07) m in
  let x_move := if Z.land flags 0x10 =? 0 then b1 else b1 - 256 in
  let y_move := if Z.land flags 0x20 =? 0 then b2 else b2 - 256 in
  if negb (Z.land flags 0x40 =? 0) || negb (Z.land flags 0x80 =? 0) then m else
  let m := with_position (i32 (m_x m + x_move)) (i32 (m_y m - y_move)) m in
  let m := if m_x m <? 0 then with_position 0 (m_y m) m else m in
  let m := if m_y m <? 0 then with_position (m_x m) 0 m else m in
  let m := if 795 <? m_x m then with_position 795 (m_y m) m else m in
  let m := if 595 <? m_y m then with_position (m_x m) 595 m else m in
  gui_on_mouse_event (m_x m) (m_y m) (m_buttons m) m.

Definition mouse_data (data : Z) (m : mouse) : option mouse :=
  if mouse_cycle m =? 0 then
    if Z.land data 0x08 =? 0 then Some m
    else b ← aset (mouse_byte m) 0 data; Some (with_packet 1 b m)
  else if mouse_cycle m =? 1 then
    b ← aset (mouse_byte m) 1 data; Some (with_packet 2 b m)
  else if mouse_cycle m =? 2 then
    b ← aset (mouse_byte m) 2 data;
    flags ← aget b 0; b1 ← aget b 1; b2 ← aget b 2;
    Some (finish_packet flags b1 b2 (with_packet 0 b m))
  else Some m.

Definition mouse_handler : handler mouse := fun _ '(m, t) =>
  let '(status, t) := inb dev 0x64 t in
  if negb (Z.land status 0x01 =? 0) && negb (Z.land status 0x20 =? 0) then
    let '(data, t) := inb dev 0x60 t in
    m ← mouse_data data m; Some (m, t)
  else Some (m, t).

Definition mouse_init (s : irq_state mouse) : option (irq_state mouse) :=
  let t := snd (mouse_setup (trace s)) in
  s ← irq_install_handler 12 mouse_handler (Irq (irq_routines s) (drivers s) (scheduler s) t);
  Some (Irq (irq_routines s) (with_packet 0 (mouse_byte (drivers s)) (with_position 400 300 (drivers s)))
    (scheduler s) (trace s)).
End mouse.

(** ** The abstract mouse: packets and positions *)

(** The packets of a byte stream: a packet starts at a byte whose bit 3 is set. *)
Fixpoint packets (bs : list Z) : list (Z * Z * Z) :=
  match bs with
  | [] => []
  | b0 :: r =>
      if Z.land b0 0x08 =? 0 then packets r
      else match r with b1 :: b2 :: r' => (b0, b1, b2) :: packets r' | _ => [] end
  end.

(** What is left of the stream inside a packet. *)
Fixpoint partial (bs : list Z) : list Z :=
  match bs with
  | [] => []
  | b0 :: r =>
      if Z.land b0 0x08 =? 0 then partial r
      else match r with b1 :: b2 :: r' => partial r' | _ => bs end
  end.

Definition clamp (hi v : Z) : Z := Z.max 0 (Z.min hi v).

(** Nine-bit two's complement. *)
Definition delta (flags sign b : Z) : Z := if Z.land flags sign =? 0 then b else b - 256.

Definition overflows (flags : Z) : bool := negb (Z.land flags 0x40 =? 0) || negb (Z.land flags 0x80 =? 0).

Definition pointer : Type := Z * Z * Z.

Definition move (p : pointer) (pk : Z * Z * Z) : pointer :=
  let '(x, y, _) := p in let '(f, b1, b2) := pk in
  if overflows f then (x, y, Z.land f 0x07)
  else (clamp 795 (x + delta f 0x10 b1), clamp 595 (y - delta f 0x20 b2), Z.land f 0x07).

Definition on_desktop (p : pointer) : Prop := let '(x, y, b) := p in 0 <= x <= 795 /\ 0 <= y <= 595.

Definition pointer_of (m : mouse) : pointer := (m_x m, m_y m, m_buttons m).

Lemma finish_packet_ok f b1 b2 m :
  on_desktop (pointer_of m) -> 0 <= b1 < 256 -> 0 <= b2 < 256 ->
  pointer_of (finish_packet f b1 b2 m) = move (pointer_of m) (f, b1, b2) /\
  on_desktop (pointer_of (finish_packet f b1 b2 m)) /\
  mouse_cycle (finish_packet f b1 b2 m) = mouse_cycle m /\
  mouse_byte (finish_packet f b1 b2 m) = mouse_byte m /\
  gui_events (finish_packet f b1 b2 m) =
    gui_events m ++ (if overflows f then [] else [move (pointer_of m) (f, b1, b2)]).
Proof.
  intros [Hx Hy] H1 H2. unfold finish_packet, pointer_of, move. fold (delta f 0x10 b1) (delta f 0x20 b2).
  fold (overflows f). cbn [with_buttons m_x m_y]. destruct (overflows f).
  { split_and!; try done. by rewrite app_nil_r. }
  assert (D1 : -256 <= delta f 0x10 b1 < 256) by (unfold delta; case_if; lia).
  assert (D2 : -256 <= delta f 0x20 b2 < 256) by (unfold delta; case_if; lia).
  revert D1 D2. generalize (delta f 0x10 b1), (delta f 0x20 b2). intros dx dy D1 D2.
  cbn [with_position m_x m_y]. rewrite (i32_small (m_x m + dx)), (i32_small (m_y m - dy)) by lia.
  unfold clamp.
  destruct (Z.ltb_spec (m_x m + dx) 0); cbn [with_position m_x m_y];
  (destruct (Z.ltb_spec (m_y m - dy) 0); cbn [with_position m_x m_y];
   repeat (case_if; cbn [with_position m_x m_y];
     cbn [with_position gui_on_mouse_event m_x m_y m_buttons mouse_cycle mouse_byte gui_events]));
  cbn [with_position gui_on_mouse_event m_x m_y m_buttons mouse_cycle mouse_byte gui_events with_buttons];
  try lia; split_and!; try done; try lia; repeat f_equal; lia.
Qed.

(** The handler between packets, or with one or two bytes of one. *)
Definition assembling (m : mouse) (pre : list Z) : Prop :=
  length (mouse_byte m) = 3%nat /\ mouse_cycle m = Z.of_nat (length pre) /\
  (length pre < 3)%nat /\ take (length pre) (mouse_byte m) = pre.

(** The bytes of interrupts whose status says that a mouse byte waits. *)
Definition aux_bytes (evs : list (Z * Z)) : list Z :=
  u8 <$> (snd <$> filter (fun e => Z.land (u8 e.1) 0x01 <> 0 /\ Z.land (u8 e.1) 0x20 <> 0) evs).

Definition controller (e : Z * Z) : machine :=
  Machine (fun _ port => if port =? 0x64 then e.1 else e.2) (fun _ _ => 0) (fun _ _ => 0).

(** One interrupt per (status, data) pair. *)
Fixpoint mouse_run (evs : list (Z * Z)) (m : mouse) (t : list event) : option (mouse * list event) :=
  match evs with
  | [] => Some (m, t)
  | e :: evs => '(m, t) ← mouse_handler (controller e) 0 (m, t); mouse_run evs m t
  end.

(** Feeding bytes one by one, without the controller. *)
Fixpoint feed (bs : list Z) (m : mouse) : option mouse :=
  match bs with [] => Some m | b :: bs => m ← mouse_data b m; feed bs m end.

Lemma feed_app l l' : forall m, feed (l ++ l') m = feed l m ≫= feed l'.
Proof.
  induction l as [|b l IH]; intros m; cbn [app feed]; [done|].
  destruct (mouse_data b m); cbn [mbind option_bind]; auto.
Qed.

Lemma mouse_run_feed evs : forall m t,
  fst <$> mouse_run evs m t = feed (aux_bytes evs) m.
Proof.
  induction evs as [|[st d] evs IH]; intros m t; cbn [mouse_run]; [done|].
  unfold mouse_handler, inb. cbn [read8 controller]. change (0x60 =? 0x64) with false.
  change (0x64 =? 0x64) with true. cbn [fst snd].
  unfold aux_bytes. rewrite filter_cons. cbn [fst snd].
  destruct (decide (Z.land (u8 st) 1 <> 0 /\ Z.land (u8 st) 32 <> 0)) as [[H1 H2]|Hn].
  - rewrite (proj2 (Z.eqb_neq _ 0) H1), (proj2 (Z.eqb_neq _ 0) H2). cbn [negb andb fmap list_fmap feed snd].
    destruct (mouse_data (u8 d) m) as [m'|]; cbn [mbind option_bind]; [apply IH|done].
  - replace (negb (Z.land (u8 st) 1 =? 0) && negb (Z.land (u8 st) 32 =? 0)) with false; [apply IH|].
    destruct (Z.eqb_spec (Z.land (u8 st) 1) 0), (Z.eqb_spec (Z.land (u8 st) 32) 0); cbn; tauto.
Qed.

(** The positions of the GUI events of a list of packets. *)
Fixpoint notices (p : pointer) (l : list (Z * Z * Z)) : list pointer :=
  match l with
  | [] => []
  | pk :: l => (if overflows pk.1.1 then [] else [move p pk]) ++ notices (move p pk) l
  end.

Lemma mouse_data_0 d a0 a1 a2 x y bt g :
  mouse_data d (Mouse 0 [a0; a1; a2] x y bt g) =
    Some (if Z.land d 0x08 =? 0 then Mouse 0 [a0; a1; a2] x y bt g else Mouse 1 [d; a1; a2] x y bt g).
Proof. unfold mouse_data. cbn. by case_match. Qed.

Lemma mouse_data_1 d a0 a1 a2 x y bt g :
  mouse_data d (Mouse 1 [a0; a1; a2] x y bt g) = Some (Mouse 2 [a0; d; a2] x y bt g).
Proof. done. Qed.

Lemma mouse_data_2 d a0 a1 a2 x y bt g :
  mouse_data d (Mouse 2 [a0; a1; a2] x y bt g) = Some (finish_packet a0 a1 d (Mouse 0 [a0; a1; d] x y bt g)).
Proof. done. Qed.

Lemma feed_packet b0 b1 b2 m :
  assembling m [] -> Z.land b0 0x08 <> 0 -> on_desktop (pointer_of m) -> 0 <= b1 < 256 -> 0 <= b2 < 256 ->
  exists m', feed [b0; b1; b2] m = Some m' /\ assembling m' [] /\ pointer_of m' = move (pointer_of m) (b0, b1, b2) /\
    on_desktop (pointer_of m') /\
    gui_events m' = gui_events m ++ (if overflows b0 then [] else [move (pointer_of m) (b0, b1, b2)]).
Proof.
  intros (Hl & Hc & _ & _) H0 Hd H1 H2. destruct m as [c b x y bt g]. cbn [mouse_byte mouse_cycle] in *.
  destruct b as [|a0 [|a1 [|a2 [|]]]]; try discriminate Hl. subst c.
  cbn [feed]. change (Z.of_nat (length [])) with 0.
  rewrite mouse_data_0, (proj2 (Z.eqb_neq _ 0) H0). cbn [mbind option_bind].
  rewrite mouse_data_1. cbn [mbind option_bind]. rewrite mouse_data_2. cbn [mbind option_bind].
  destruct (finish_packet_ok b0 b1 b2 (Mouse 0 [b0; b1; b2] x y bt g) Hd H1 H2) as (E1 & E2 & E3 & E4 & E5).
  eexists; split; [done|]. split; [|done]. unfold assembling. rewrite E3, E4. split_and!; try done; cbn; lia.
Qed.

Lemma feed_bytes n : forall bs m,
  (length bs <= n)%nat -> Forall (fun b => 0 <= b < 256) bs -> assembling m [] -> on_desktop (pointer_of m) ->
  exists m', feed bs m = Some m' /\ assembling m' (partial bs) /\
    pointer_of m' = fold_left move (packets bs) (pointer_of m) /\ on_desktop (pointer_of m') /\
    gui_events m' = gui_events m ++ notices (pointer_of m) (packets bs).
Proof.
  induction n as [|n IH]; intros bs m Hn Hb Ha Hd.
  { destruct bs; [|cbn in Hn; lia]. exists m. split_and!; try apply Ha; try apply Hd; try done. cbn. by rewrite app_nil_r. }
  destruct bs as [|b0 r]; [exists m; split_and!; try apply Ha; try apply Hd; try done; cbn; by rewrite app_nil_r|].
  apply Forall_cons in Hb as [H0 Hb]. cbn [length] in Hn. cbn [packets partial].
  pose proof Ha as (Hl & Hc & _). destruct m as [c b x y bt g]. cbn [mouse_byte mouse_cycle] in Hl, Hc.
  destruct b as [|a0 [|a1 [|a2 [|]]]]; try discriminate Hl. change (Z.of_nat (length [])) with 0 in Hc. subst c.
  destruct (Z.eqb_spec (Z.land b0 8) 0) as [Hz|Hnz].
  { cbn [feed]. rewrite mouse_data_0, (proj2 (Z.eqb_eq _ 0) Hz). cbn [mbind option_bind].
    apply IH; try done. lia. }
  destruct r as [|b1 [|b2 r']].
  - cbn [feed]. rewrite mouse_data_0, (proj2 (Z.eqb_neq _ 0) Hnz). cbn [mbind option_bind].
    eexists; split; [done|]. unfold assembling. split_and!; try done; try apply Hd; try (cbn; lia). cbn. by rewrite app_nil_r.
  - cbn [feed]. rewrite mouse_data_0, (proj2 (Z.eqb_neq _ 0) Hnz). cbn [mbind option_bind].
    rewrite mouse_data_1. cbn [mbind option_bind].
    eexists; split; [done|]. unfold assembling. split_and!; try done; try apply Hd; try (cbn; lia). cbn. by rewrite app_nil_r.
  - apply Forall_cons in Hb as [H1 Hb]. apply Forall_cons in Hb as [H2 Hb].
    destruct (feed_packet b0 b1 b2 _ Ha Hnz Hd H1 H2) as (m1 & E1 & Ha1 & Hp1 & Hd1 & Hg1).
    destruct (IH r' m1 ltac:(cbn [length] in Hn; lia) Hb Ha1 Hd1) as (m2 & E2 & Ha2 & Hp2 & Hd2 & Hg2).
    exists m2. split; [|split_and!; try done].
    + change (b0 :: b1 :: b2 :: r') with ([b0; b1; b2] ++ r'). by rewrite feed_app, E1.
    + by rewrite Hp2, Hp1.
    + rewrite Hg2, Hg1, Hp1. cbn [notices fst]. by rewrite app_assoc.
Qed.

(** C35 the mouse: for every sequence of IRQ 12 interrupts after
    initialisation, with whatever status and data bytes, the handler returns; it
    ignores interrupts without a mouse byte, skips bytes until one that can
    start a packet, and the pointer is where the complete packets moved it - signed
    nine-bit deltas, the y axis up, overflowed packets changing the buttons
    only - never outside 0..795 by 0..595, and the window system was told
    each position once, in order. *)
Theorem mouse_tracks evs m t :
  length (mouse_byte m) = 3%nat -> mouse_cycle m = 0 -> on_desktop (pointer_of m) ->
  exists m' t', mouse_run evs m t = Some (m', t') /\
    pointer_of m' = fold_left move (packets (aux_bytes evs)) (pointer_of m) /\
    on_desktop (pointer_of m') /\ assembling m' (partial (aux_bytes evs)) /\
    gui_events m' = gui_events m ++ notices (pointer_of m) (packets (aux_bytes evs)).
Proof.
  intros Hl Hc Hd. pose proof (mouse_run_feed evs m t) as Hf.
  destruct (feed_bytes (length (aux_bytes evs)) (aux_bytes evs) m) as (m' & E & Ha & Hp & Hd' & Hg); try done.
  - unfold aux_bytes. apply Forall_fmap, Forall_forall. intros z _. apply u8_range.
  - unfold assembling. split_and!; try done; cbn; lia.
  - rewrite E in Hf. destruct (mouse_run evs m t) as [[m1 t1]|]; [|discriminate Hf].
    injection Hf as ->. by exists m', t1.
Qed.

(** From the middle of the screen: a stray byte, a move left and up to the border,
    a keyboard byte, half a packet. *)
Definition centred : mouse := Mouse 0 [0; 0; 0] 400 300 0 [].

Lemma mouse_tracks_witness :
  let evs := [(0x21, 0x01); (0x21, 0x19); (0x21, 0x00); (0x01, 0x1E); (0x21, 0xFF); (0x21, 0x08)] in
  fold_left move (packets (aux_bytes evs)) (pointer_of centred) = (144, 45, 1) /\
  exists m' t', mouse_run evs centred [] = Some (m', t') /\
    pointer_of m' = fold_left move (packets (aux_bytes evs)) (pointer_of centred) /\
    on_desktop (pointer_of m') /\ assembling m' (partial (aux_bytes evs)) /\
    gui_events m' = gui_events centred ++ notices (pointer_of centred) (packets (aux_bytes evs)).
Proof.
  intros evs. split; [vm_compute; reflexivity|].
  apply (mouse_tracks evs centred []); [reflexivity|reflexivity|vm_compute; repeat split; discriminate].
Defined.
