(* ===== verification/Font.v ===== *)
(** * Font: the 8x16 font (kernel/drivers/font.c)

    The rows that font.c gives; the C array fills the other 16-byte entries with
    zeros. *)

From S2P Require Export Prelude.

Definition font_entries : list (Z * list Z) := [
  (32, [0; 0; 0; 0; 0; 0; 0; 0; 0; 0; 0; 0; 0; 0; 0; 0]);
  (33, [0; 0; 24; 60; 60; 60; 24; 24; 24; 0; 24; 24; 0; 0; 0; 0]);
  (34, [0; 0; 108; 108; 108; 0; 0; 0; 0; 0; 0; 0; 0; 0; 0; 0]);
  (35, [0; 0; 108; 108; 254; 108; 108; 254; 108; 108; 0; 0; 0; 0; 0; 0]);
  (36, [24; 24; 124; 198; 194; 124; 6; 134; 124; 24; 24; 0; 0; 0; 0; 0]);
  (37, [0; 0; 0; 194; 198; 12; 24; 48; 98; 66; 0; 0; 0; 0; 0; 0]);
  (38, [0; 0; 56; 108; 108; 56; 118; 220; 204; 204; 118; 0; 0; 0; 0; 0]);
  (39, [0; 0; 48; 48; 96; 0; 0; 0; 0; 0; 0; 0; 0; 0; 0; 0]);
  (40, [0; 0; 12; 24; 48; 48; 48; 48; 48; 24; 12; 0; 0; 0; 0; 0]);
  (41, [0; 0; 48; 24; 12; 12; 12; 12; 12; 24; 48; 0; 0; 0; 0; 0]);
  (42, [0; 0; 0; 102; 60; 255; 60; 102; 0; 0; 0; 0; 0; 0; 0; 0]);
  (43, [0; 0; 0; 24; 24; 126; 24; 24; 0; 0; 0; 0; 0; 0; 0; 0]);
  (44, [0; 0; 0; 0; 0; 0; 0; 0; 24; 24; 24; 48; 0; 0; 0; 0]);
  (45, [0; 0; 0; 0; 0; 126; 0; 0; 0; 0; 0; 0; 0; 0; 0; 0]);
  (46, [0; 0; 0; 0; 0; 0; 0; 0; 24; 24; 0; 0; 0; 0; 0; 0]);
  (47, [0; 0; 2; 6; 12; 24; 48; 96; 192; 128; 0; 0; 0; 0; 0; 0]);
  (48, [0; 0; 60; 102; 195; 195; 195; 195; 195; 102; 60; 0; 0; 0; 0; 0]);
  (49, [0; 0; 24; 56; 24; 24; 24; 24; 24; 24; 60; 0; 0; 0; 0; 0]);
  (50, [0; 0; 60; 102; 3; 3; 62; 96; 192; 198; 254; 0; 0; 0; 0; 0]);
  (51, [0; 0; 254; 6; 12; 56; 12; 6; 3; 102; 60; 0; 0; 0; 0; 0]);
  (52, [0; 0; 6; 14; 30; 54; 102; 254; 6; 6; 6; 0; 0; 0; 0; 0]);
  (53, [0; 0; 254; 192; 192; 252; 6; 6; 6; 198; 124; 0; 0; 0; 0; 0]);
  (54, [0; 0; 60; 102; 192; 192; 252; 198; 198; 102; 60; 0; 0; 0; 0; 0]);
  (55, [0; 0; 254; 6; 12; 24; 48; 48; 48; 48; 48; 0; 0; 0; 0; 0]);
  (56, [0; 0; 60; 102; 198; 198; 60; 198; 198; 102; 60; 0; 0; 0; 0; 0]);
  (57, [0; 0; 60; 102; 198; 198; 126; 6; 6; 102; 60; 0; 0; 0; 0; 0]);
  (58, [0; 0; 0; 0; 24; 24; 0; 0; 24; 24; 0; 0; 0; 0; 0; 0]);
  (59, [0; 0; 0; 0; 24; 24; 0; 0; 24; 24; 24; 48; 0; 0; 0; 0]);
  (60, [0; 0; 0; 6; 12; 24; 48; 24; 12; 6; 0; 0; 0; 0; 0; 0]);
  (61, [0; 0; 0; 0; 126; 0; 0; 126; 0; 0; 0; 0; 0; 0; 0; 0]);
  (62, [0; 0; 0; 96; 48; 24; 12; 24; 48; 96; 0; 0; 0; 0; 0; 0]);
  (63, [0; 0; 60; 102; 6; 12; 24; 24; 0; 24; 24; 0; 0; 0; 0; 0]);
  (64, [0; 0; 60; 102; 6; 94; 102; 102; 102; 94; 0; 0; 0; 0; 0; 0]);
  (65, [0; 0; 24; 60; 102; 102; 126; 102; 102; 102; 102; 0; 0; 0; 0; 0]);
  (66, [0; 0; 252; 102; 102; 124; 102; 102; 102; 102; 252; 0; 0; 0; 0; 0]);
  (67, [0; 0; 60; 102; 192; 192; 192; 192; 192; 102; 60; 0; 0; 0; 0; 0]);
  (68, [0; 0; 248; 108; 102; 102; 102; 102; 102; 108; 248; 0; 0; 0; 0; 0]);
  (69, [0; 0; 254; 98; 96; 124; 96; 96; 98; 98; 254; 0; 0; 0; 0; 0]);
  (70, [0; 0; 254; 98; 96; 124; 96; 96; 96; 96; 240; 0; 0; 0; 0; 0]);
  (71, [0; 0; 60; 102; 192; 192; 206; 198; 198; 102; 60; 0; 0; 0; 0; 0]);
  (72, [0; 0; 198; 198; 198; 126; 198; 198; 198; 198; 198; 0; 0; 0; 0; 0]);
  (73, [0; 0; 60; 24; 24; 24; 24; 24; 24; 24; 60; 0; 0; 0; 0; 0]);
  (74, [0; 0; 30; 6; 6; 6; 6; 6; 6; 102; 60; 0; 0; 0; 0; 0]);
  (75, [0; 0; 198; 204; 216; 240; 248; 216; 204; 198; 198; 0; 0; 0; 0; 0]);
  (76, [0; 0; 240; 96; 96; 96; 96; 96; 98; 98; 254; 0; 0; 0; 0; 0]);
  (77, [0; 0; 195; 231; 255; 255; 219; 195; 195; 195; 195; 0; 0; 0; 0; 0]);
  (78, [0; 0; 199; 231; 247; 219; 223; 207; 199; 195; 195; 0; 0; 0; 0; 0]);
  (79, [0; 0; 60; 102; 195; 195; 195; 195; 195; 102; 60; 0; 0; 0; 0; 0]);
  (80, [0; 0; 252; 102; 102; 124; 96; 96; 96; 96; 240; 0; 0; 0; 0; 0]);
  (81, [0; 0; 60; 102; 195; 195; 195; 195; 211; 102; 60; 12; 14; 0; 0; 0]);
  (82, [0; 0; 252; 102; 102; 124; 108; 102; 102; 102; 230; 0; 0; 0; 0; 0]);
  (83, [0; 0; 124; 198; 192; 124; 6; 6; 198; 198; 124; 0; 0; 0; 0; 0]);
  (84, [0; 0; 255; 219; 24; 24; 24; 24; 24; 24; 60; 0; 0; 0; 0; 0]);
  (85, [0; 0; 195; 195; 195; 195; 195; 195; 195; 102; 60; 0; 0; 0; 0; 0]);
  (86, [0; 0; 195; 195; 195; 195; 195; 102; 102; 60; 24; 0; 0; 0; 0; 0]);
  (87, [0; 0; 195; 195; 195; 219; 219; 255; 255; 231; 195; 0; 0; 0; 0; 0]);
  (88, [0; 0; 195; 102; 60; 24; 24; 60; 102; 195; 195; 0; 0; 0; 0; 0]);
  (89, [0; 0; 195; 102; 102; 60; 24; 24; 24; 24; 60; 0; 0; 0; 0; 0]);
  (90, [0; 0; 255; 199; 143; 30; 60; 120; 241; 227; 255; 0; 0; 0; 0; 0]);
  (97, [0; 0; 0; 0; 60; 70; 6; 62; 102; 102; 62; 0; 0; 0; 0; 0]);
  (98, [0; 0; 192; 192; 252; 102; 102; 102; 102; 102; 252; 0; 0; 0; 0; 0]);
  (99, [0; 0; 0; 0; 60; 102; 96; 96; 96; 102; 60; 0; 0; 0; 0; 0]);
  (100, [0; 0; 6; 6; 62; 102; 102; 102; 102; 102; 62; 0; 0; 0; 0; 0]);
  (101, [0; 0; 0; 0; 60; 102; 102; 126; 96; 102; 60; 0; 0; 0; 0; 0]);
  (102, [0; 0; 28; 54; 48; 124; 48; 48; 48; 48; 120; 0; 0; 0; 0; 0]);
  (103, [0; 0; 0; 0; 62; 102; 102; 102; 102; 62; 6; 6; 60; 0; 0; 0]);
  (104, [0; 0; 192; 192; 220; 102; 102; 102; 102; 102; 102; 0; 0; 0; 0; 0]);
  (105, [0; 0; 24; 24; 0; 24; 24; 24; 24; 24; 60; 0; 0; 0; 0; 0]);
  (106, [0; 0; 6; 6; 0; 6; 6; 6; 6; 6; 6; 102; 60; 0; 0; 0]);
  (107, [0; 0; 192; 192; 198; 204; 216; 240; 216; 204; 198; 0; 0; 0; 0; 0]);
  (108, [0; 0; 56; 24; 24; 24; 24; 24; 24; 24; 60; 0; 0; 0; 0; 0]);
  (109, [0; 0; 0; 0; 254; 219; 219; 219; 219; 219; 219; 0; 0; 0; 0; 0]);
  (110, [0; 0; 0; 0; 220; 102; 102; 102; 102; 102; 102; 0; 0; 0; 0; 0]);
  (111, [0; 0; 0; 0; 60; 102; 102; 102; 102; 102; 60; 0; 0; 0; 0; 0]);
  (112, [0; 0; 0; 0; 220; 102; 102; 102; 102; 124; 96; 96; 240; 0; 0; 0]);
  (113, [0; 0; 0; 0; 62; 102; 102; 102; 102; 62; 6; 6; 15; 0; 0; 0]);
  (114, [0; 0; 0; 0; 220; 118; 96; 96; 96; 96; 240; 0; 0; 0; 0; 0]);
  (115, [0; 0; 0; 0; 60; 102; 48; 24; 12; 70; 60; 0; 0; 0; 0; 0]);
  (116, [0; 0; 16; 48; 124; 48; 48; 48; 48; 54; 28; 0; 0; 0; 0; 0]);
  (117, [0; 0; 0; 0; 102; 102; 102; 102; 102; 102; 62; 0; 0; 0; 0; 0]);
  (118, [0; 0; 0; 0; 102; 102; 102; 102; 102; 60; 24; 0; 0; 0; 0; 0]);
  (119, [0; 0; 0; 0; 195; 195; 219; 219; 219; 255; 102; 0; 0; 0; 0; 0]);
  (120, [0; 0; 0; 0; 195; 102; 60; 24; 60; 102; 195; 0; 0; 0; 0; 0]);
  (121, [0; 0; 0; 0; 195; 102; 102; 102; 102; 62; 6; 6; 60; 0; 0; 0]);
  (122, [0; 0; 0; 0; 126; 76; 24; 48; 98; 254; 0; 0; 0; 0; 0; 0])].

Fixpoint font_row (c : Z) (l : list (Z * list Z)) : list Z :=
  match l with
  | [] => replicate 16 0
  | (k, row) :: l => if k =? c then row else font_row c l
  end.

Definition font8x16 : list (list Z) := map (fun c => font_row c font_entries) (seqZ 0 256).

Lemma font_shape : length font8x16 = 256%nat /\ Forall (fun r => length r = 16%nat) font8x16.
Proof. split; [reflexivity|]. by apply (bool_decide_unpack _). Qed.
