(* ===== verification/Vbe.v ===== *)
(** * Vbe: drawing in the frame buffer (kernel/drivers/vbe.c, include/vbe.h)

    A routine draws into the back buffer; the meaning of the buffer is a picture,
    the colour of each point of the screen, and the meaning of a routine is a
    function on pictures.  Colours are 32-bit words. *)

From S2P Require Export CString Font.

(** [vbe_info], the buffers and the static variables; [address] is the memory
    of the frame buffer. *)
Record vbe := Vbe {
  width : Z; height : Z; address : list Z; back_buffer : option (list Z); mouse_bg_save : list Z;
  cursor_x : Z; cursor_y : Z; last_cursor_x : Z; last_cursor_y : Z; vbe_active : bool
}.

Definition with_back (b : option (list Z)) (v : vbe) : vbe :=
  Vbe (width v) (height v) (address v) b (mouse_bg_save v) (cursor_x v) (cursor_y v) (last_cursor_x v) (last_cursor_y v) (vbe_active v).
Definition with_address (a : list Z) (v : vbe) : vbe :=
  Vbe (width v) (height v) a (back_buffer v) (mouse_bg_save v) (cursor_x v) (cursor_y v) (last_cursor_x v) (last_cursor_y v) (vbe_active v).
Definition with_save (m : list Z) (v : vbe) : vbe :=
  Vbe (width v) (height v) (address v) (back_buffer v) m (cursor_x v) (cursor_y v) (last_cursor_x v) (last_cursor_y v) (vbe_active v).
Definition with_text_cursor (x y : Z) (v : vbe) : vbe :=
  Vbe (width v) (height v) (address v) (back_buffer v) (mouse_bg_save v) x y (last_cursor_x v) (last_cursor_y v) (vbe_active v).
Definition with_last (x y : Z) (v : vbe) : vbe :=
  Vbe (width v) (height v) (address v) (back_buffer v) (mouse_bg_save v) (cursor_x v) (cursor_y v) x y (vbe_active v).

Definition vbe_is_active (v : vbe) : bool := vbe_active v.
Definition vbe_set_active (a : bool) (v : vbe) : vbe :=
  Vbe (width v) (height v) (address v) (back_buffer v) (mouse_bg_save v) (cursor_x v) (cursor_y v) (last_cursor_x v) (last_cursor_y v) a.

(** ** The routines *)

Definition off_screen (x y : Z) (v : vbe) : bool := (x <? 0) || (width v <=? x) || (y <? 0) || (height v <=? y).

Definition vbe_put_pixel (x y color : Z) (v : vbe) : option vbe :=
  match back_buffer v with
  | Some b => if off_screen x y v then Some v else b ← aset b (u32 (y * width v + x)) color; Some (with_back (Some b) v)
  | None => Some v
  end.

Definition vbe_get_pixel (x y : Z) (v : vbe) : option Z :=
  if off_screen x y v then Some 0 else b ← back_buffer v; aget b (u32 (y * width v + x)).

(** [rep movsl] *)
Definition vbe_update (v : vbe) : option vbe :=
  let size := Z.to_nat (i32 (width v * height v)) in
  b ← back_buffer v;
  if decide ((size <= length b)%nat /\ (size <= length (address v))%nat) then Some (with_address (take size b ++ drop size (address v)) v) else None.

Definition vbe_update_rect (x y w h : Z) (v : vbe) : option vbe :=
  for_do 0 h (fun i v => for_do 0 w (fun j v =>
    let px := x + j in let py := y + i in
    if off_screen px py v then Some v else
    b ← back_buffer v; c ← aget b (u32 (py * width v + px)); a ← aset (address v) (u32 (py * width v + px)) c; Some (with_address a v)) v) v.

Definition vbe_clear_screen (color : Z) (v : vbe) : option vbe :=
  b ← back_buffer v;
  b ← for_do 0 (i32 (width v * height v)) (fun i b => aset b i color) b;
  Some (with_back (Some b) v).

Definition vbe_draw_rect (x y w h color : Z) (v : vbe) : option vbe :=
  for_do 0 h (fun i v => for_do 0 w (fun j v => vbe_put_pixel (x + j) (y + i) color v) v) v.

Definition vbe_draw_gradient (v : vbe) : option vbe :=
  for_do 0 (height v) (fun y v =>
    let g := u8 (u32 (y * 40) / height v) in let b := u8 (u32 (y * 80) / height v) in
    let color := Z.lor (Z.shiftl g 8) b in
    for_do 0 (width v) (fun x v => vbe_put_pixel x y color v) v) v.

Definition vbe_draw_char (x y c color : Z) (v : vbe) : option vbe :=
  for_do 0 16 (fun i v =>
    glyph ← aget font8x16 (u8 c); row ← aget glyph i;
    for_do 0 8 (fun j v => if negb (Z.land row (Z.shiftr 0x80 j) =? 0) then vbe_put_pixel (x + j) (y + i) color v else Some v) v) v.

Fixpoint vbe_write (str : list Z) (color : Z) (v : vbe) : option vbe :=
  match str with
  | [] => None
  | c :: str =>
      if c =? 0 then Some v else
      v ← (if c =? 10 then Some (with_text_cursor 0 (cursor_y v + 16) v)
           else v ← vbe_draw_char (cursor_x v) (cursor_y v) c color v;
             let x := cursor_x v + 8 in
             Some (if width v <=? x then with_text_cursor 0 (cursor_y v + 16) v else with_text_cursor x (cursor_y v) v));
      vbe_write str color v
  end.

Fixpoint vbe_write_at (x y : Z) (str : list Z) (color : Z) (v : vbe) : option vbe :=
  match str with
  | [] => None
  | c :: str => if c =? 0 then Some v else v ← vbe_draw_char x y c color v; vbe_write_at (x + 8) y str color v
  end.

Definition cursor : list (list Z) := [
  [2;2;0;0;0;0;0;0]; [2;1;2;0;0;0;0;0]; [2;1;1;2;0;0;0;0]; [2;1;1;1;2;0;0;0];
  [2;1;1;1;1;2;0;0]; [2;1;1;2;2;2;0;0]; [2;1;2;0;0;0;0;0]; [2;2;0;0;0;0;0;0]].

Definition cursor_at (i j : Z) : option Z := r ← aget cursor i; aget r j.

Definition vbe_draw_cursor_simple (x y : Z) (v : vbe) : option vbe :=
  for_do 0 8 (fun i v => for_do 0 8 (fun j v =>
    c ← cursor_at i j;
    if c =? 1 then vbe_put_pixel (x + j) (y + i) 0xFFFFFF v
    else if c =? 2 then vbe_put_pixel (x + j) (y + i) 0x000000 v else Some v) v) v.

(** The background under the old cursor is put back. *)
Definition restore_background (v : vbe) : option vbe :=
  if last_cursor_x v =? -1 then Some v else
  let x := last_cursor_x v in let y := last_cursor_y v in
  let saved := mouse_bg_save v in
  v ← for_do 0 8 (fun i v => for_do 0 8 (fun j v => p ← aget saved (i * 8 + j); vbe_put_pixel (x + j) (y + i) p v) v) v;
  vbe_update_rect x y 8 8 v.

Definition save_background (x y : Z) (v : vbe) : option vbe :=
  for_do 0 8 (fun i v => for_do 0 8 (fun j v =>
    p ← vbe_get_pixel (x + j) (y + i) v; m ← aset (mouse_bg_save v) (i * 8 + j) p; Some (with_save m v)) v) v.

Definition vbe_draw_cursor (x y : Z) (v : vbe) : option vbe :=
  v ← restore_background v;
  v ← save_background x y v;
  v ← vbe_draw_cursor_simple x y v;
  v ← vbe_update_rect x y 8 8 v;
  Some (with_last x y v).

(** ** Pictures *)

Definition picture : Type := Z -> Z -> Z.

Definition set_px (x y c : Z) (p : picture) : picture := fun a b => if (a =? x) && (b =? y) then c else p a b.

(** A pattern of [w] by [h] points, some of them transparent. *)
Definition stamp (x y w h : Z) (g : Z -> Z -> option Z) (p : picture) : picture := fun a b =>
  if (x <=? a) && (a <? x + w) && (y <=? b) && (b <? y + h) then default (p a b) (g (a - x) (b - y)) else p a b.

Definition rect (x y w h color : Z) : picture -> picture := stamp x y w h (fun _ _ => Some color).
Definition glyph_at (c : Z) (j i : Z) : bool := negb (Z.land (default 0 (r ← aget font8x16 (u8 c); aget r i)) (Z.shiftr 0x80 j) =? 0).
Definition glyph (x y c color : Z) : picture -> picture := stamp x y 8 16 (fun j i => if glyph_at c j i then Some color else None).
Fixpoint text (x y : Z) (str : list Z) (color : Z) (p : picture) : picture :=
  match str with [] => p | c :: str => text (x + 8) y str color (glyph x y c color p) end.
Definition pointer (x y : Z) : picture -> picture := stamp x y 8 8 (fun j i =>
  match cursor_at i j with Some 1 => Some 0xFFFFFF | Some 2 => Some 0 | _ => None end).

(** ** What is drawn *)

Definition on_screen (v : vbe) (x y : Z) : Prop := 0 <= x < width v /\ 0 <= y < height v.

(** A buffer of the size of the screen shows a picture. *)
Definition buffer_shows (v : vbe) (b : list Z) (p : picture) : Prop :=
  Z.of_nat (length b) = width v * height v /\ forall x y, on_screen v x y -> b !! Z.to_nat (y * width v + x) = Some (p x y).

Definition screen_ok (v : vbe) : Prop := 0 <= width v /\ 0 <= height v /\ width v * height v < 2 ^ 31.

Definition shows (v : vbe) (p : picture) : Prop := screen_ok v /\ exists b, back_buffer v = Some b /\ buffer_shows v b p.

(** [op] does to the picture in the back buffer what [f] does to pictures, and
    changes nothing else. *)
Definition draws (op : vbe -> option vbe) (f : picture -> picture) : Prop := forall v p, shows v p ->
  exists b, op v = Some (with_back (Some b) v) /\ shows (with_back (Some b) v) (f p).

Lemma shows_ext v p q : (forall x y, on_screen v x y -> p x y = q x y) -> shows v p -> shows v q.
Proof.
  intros E (Hok & b & Hb & Hl & Hp). split; [done|]. exists b. split; [done|]. split; [done|]. intros x y Hxy. rewrite Hp by done. by rewrite E.
Qed.

Lemma shows_back v b p : shows (with_back (Some b) v) p <-> screen_ok v /\ buffer_shows v b p.
Proof.
  split; [intros (Hok & b' & [= <-] & H); by split|]. intros [Hok H]. split; [done|]. by exists b.
Qed.

Lemma draws_ext op f g : (forall p x y, f p x y = g p x y) -> draws op f -> draws op g.
Proof. intros E H v p Hv. destruct (H v p Hv) as (b & Eb & Hb). exists b. split; [done|]. eapply shows_ext; [|exact Hb]. intros. apply E. Qed.

Lemma draws_op_ext op op' f : (forall v, op v = op' v) -> draws op f -> draws op' f.
Proof. intros E H v p Hv. rewrite <- E. by apply H. Qed.

Lemma draws_nothing : draws Some (fun p => p).
Proof. intros v p Hv. pose proof Hv as (_ & b & Hb & _). exists b. assert (E : with_back (Some b) v = v) by (destruct v; cbn in *; by subst). by rewrite E. Qed.

Lemma draws_seq op1 op2 f1 f2 : draws op1 f1 -> draws op2 f2 -> draws (fun v => v ← op1 v; op2 v) (fun p => f2 (f1 p)).
Proof.
  intros H1 H2 v p Hv. destruct (H1 v p Hv) as (b1 & -> & Hb1). destruct (H2 _ _ Hb1) as (b2 & E2 & Hb2). exists b2. cbn [mbind option_bind]. by rewrite E2.
Qed.

Lemma draws_if (c : bool) op1 op2 f1 f2 : draws op1 f1 -> draws op2 f2 ->
  draws (fun v => if c then op1 v else op2 v) (fun p => if c then f1 p else f2 p).
Proof. by destruct c. Qed.

(** Reading a constant and choosing by it. *)
Lemma draws_bind {A} (o : option A) a op f : o = Some a -> draws (op a) f -> draws (fun v => x ← o; op x v) f.
Proof. by intros ->. Qed.

Lemma pixel_index v x y x' y' : screen_ok v -> on_screen v x y -> on_screen v x' y' ->
  0 <= y * width v + x < width v * height v /\ u32 (y * width v + x) = y * width v + x /\
  (y * width v + x = y' * width v + x' <-> x = x' /\ y = y').
Proof.
  intros (H0 & H1 & H2) [[] []] [[] []]. split_and!; [nia|nia|apply u32_small; nia|]. split; [|by intros [-> ->]]. intros E.
  assert (y = y') as -> by (destruct (Z.lt_trichotomy y y') as [|[|]]; [nia|done|nia]). split; [lia|done].
Qed.

Lemma put_pixel_draws x y color : draws (vbe_put_pixel x y color) (set_px x y color).
Proof.
  intros v p Hv. pose proof Hv as (Hok & b & Hb & Hlen & Hp). unfold vbe_put_pixel. rewrite Hb.
  destruct (off_screen x y v) eqn:Eo.
  - destruct (draws_nothing v p Hv) as (b' & E & H). exists b'. split; [exact E|]. eapply shows_ext; [|exact H]. intros a c [Ha Hc].
    unfold set_px. destruct (Z.eqb_spec a x) as [->|]; [|done]. destruct (Z.eqb_spec c y) as [->|]; [|done]. exfalso. cbn in Ha, Hc.
    unfold off_screen in Eo. rewrite !orb_true_iff, !Z.ltb_lt, !Z.leb_le in Eo. lia.
  - unfold off_screen in Eo. rewrite !orb_false_iff, !Z.ltb_ge, !Z.leb_gt in Eo. assert (Hxy : on_screen v x y) by (split; lia).
    destruct (pixel_index v x y x y Hok Hxy Hxy) as (Hr & Hu & _). rewrite Hu, aset_eq by lia. cbn [mbind option_bind]. eexists. split; [done|].
    apply shows_back. split; [done|]. split; [by rewrite length_insert|]. intros a c Hac. unfold set_px.
    destruct (pixel_index v a c x y Hok Hac Hxy) as (Hr' & _ & Heq). destruct (Z.eqb_spec a x) as [->|Hne]; [destruct (Z.eqb_spec c y) as [->|Hne]|]; cbn [andb].
    + rewrite list_lookup_insert_eq; [done|lia].
    + rewrite list_lookup_insert_ne; [by apply Hp|]. intros E. apply Hne, Heq. lia.
    + rewrite list_lookup_insert_ne; [by apply Hp|]. intros E. apply Hne, Heq. lia.
Qed.

(** A loop that draws the pictures [f 0], [f 1], ... one over the other. *)
Lemma for_draws lo hi (body : Z -> vbe -> option vbe) (f : Z -> picture -> picture) (F : Z -> picture -> picture) :
  lo <= hi -> (forall i, lo <= i < hi -> draws (body i) (f i)) -> (forall p x y, F lo p x y = p x y) ->
  (forall i p x y, lo <= i < hi -> f i (F i p) x y = F (i + 1) p x y) -> draws (for_do lo hi body) (F hi).
Proof.
  intros Hle Hd H0 Hs v p Hv.
  destruct (for_do_rule (fun i s => exists b, s = with_back (Some b) v /\ shows s (F i p)) lo hi body v) as (s & E & b & -> & Hb); [done| | |eauto].
  - destruct (draws_nothing v p Hv) as (b & [= Eb] & Hb). exists b. rewrite <- Eb in *. split; [done|]. eapply shows_ext; [|exact Hb]. intros x y _. by rewrite H0.
  - intros i s Hi (b & -> & Hb). destruct (Hd i Hi _ _ Hb) as (b' & E & Hb'). rewrite E. eexists. split; [done|]. exists b'. split; [done|].
    eapply shows_ext; [|exact Hb']. intros x y _. by apply Hs.
Qed.

(** A pattern grows by a point, and by a row. *)
Lemma stamp_column x y' j (g : Z -> Z -> option Z) i p a b : 0 <= j ->
  match g j i with Some c => set_px (x + j) y' c | None => fun p => p end (stamp x y' j 1 (fun j _ => g j i) p) a b =
  stamp x y' (j + 1) 1 (fun j _ => g j i) p a b.
Proof.
  intros Hj. unfold stamp, set_px. destruct (Z.eqb_spec a (x + j)) as [->|Ha]; [destruct (Z.eqb_spec b y') as [->|Hb']|]; cbn [andb].
  - replace (x + j - x) with j by lia. destruct (g j i) eqn:Eg; repeat case_if; cbn; try lia; done.
  - destruct (g j i); repeat case_if; cbn; try lia; done.
  - destruct (g j i); repeat case_if; cbn; try lia; done.
Qed.

Lemma stamp_row x y w i (g : Z -> Z -> option Z) p a b : 0 <= i ->
  stamp x (y + i) w 1 (fun j _ => g j i) (stamp x y w i g p) a b = stamp x y w (i + 1) g p a b.
Proof.
  intros Hi. unfold stamp. destruct (Z.eqb_spec b (y + i)) as [->|Hb'].
  - replace (y + i - y) with i by lia. repeat case_if; cbn; try lia; done.
  - repeat case_if; cbn; try lia; done.
Qed.

(** Two nested loops that draw a pattern point by point. *)
Lemma grid_draws x y w h (g : Z -> Z -> option Z) (body : Z -> Z -> vbe -> option vbe) :
  (forall i j, 0 <= i < h -> 0 <= j < w -> draws (body i j) (fun p => match g j i with Some c => set_px (x + j) (y + i) c p | None => p end)) ->
  draws (for_do 0 h (fun i v => for_do 0 w (fun j v => body i j v) v)) (stamp x y w h g).
Proof.
  intros Hb. destruct (Z.le_gt_cases h 0) as [Hh|Hh].
  { apply (draws_op_ext Some); [intros v; symmetry; by apply for_do_empty|]. eapply draws_ext; [|exact draws_nothing]. intros p a b. unfold stamp.
    case_if; [lia|done]. }
  destruct (Z.le_gt_cases w 0) as [Hw|Hw].
  { eapply draws_ext; [|apply (for_draws 0 h _ (fun _ p => p) (fun _ p => p)); [lia| |done|done]].
    - intros p a b. unfold stamp. case_if; [lia|done].
    - intros i Hi. apply (draws_op_ext Some); [intros v; symmetry; by apply for_do_empty|exact draws_nothing]. }
  eapply (for_draws 0 h _ (fun i => stamp x (y + i) w 1 (fun j _ => g j i)) (fun i => stamp x y w i g)); [lia| | |].
  - intros i Hi. eapply (for_draws 0 w _ (fun j p => match g j i with Some c => set_px (x + j) (y + i) c p | None => p end) (fun j => stamp x (y + i) j 1 (fun j _ => g j i))).
    + lia.
    + intros j Hj. by apply Hb.
    + intros p a b. unfold stamp. case_if; [lia|done].
    + intros j p a b Hj. rewrite <- stamp_column by lia. by destruct (g j i).
  - intros p a b. unfold stamp. case_if; [lia|done].
  - intros i p a b Hi. apply stamp_row. lia.
Qed.

(** ** The routines on pictures *)

Lemma draw_rect_draws x y w h color : draws (vbe_draw_rect x y w h color) (rect x y w h color).
Proof. apply (grid_draws x y w h (fun _ _ => Some color)). intros i j _ _. apply put_pixel_draws. Qed.

Lemma glyph_row c i : 0 <= i < 16 -> exists l r, aget font8x16 (u8 c) = Some l /\ aget l i = Some r.
Proof.
  intros Hi. destruct font_shape as [Hl Hr]. pose proof (u8_range c) as Hc. destruct (aget_is_Some font8x16 (u8 c)) as [l El]; [rewrite Hl; lia|].
  pose proof (Forall_lookup_1 _ _ (Z.to_nat (u8 c)) l Hr) as Hll. rewrite aget_pos in El by lia. specialize (Hll El). cbn in Hll.
  destruct (aget_is_Some l i) as [r Er]; [rewrite Hll; lia|]. exists l, r. by rewrite aget_pos by lia.
Qed.

Lemma draw_char_draws x y c color : draws (vbe_draw_char x y c color) (glyph x y c color).
Proof.
  eapply draws_op_ext; [|apply (grid_draws x y 8 16 (fun j i => if glyph_at c j i then Some color else None)
    (fun i j v => if glyph_at c j i then vbe_put_pixel (x + j) (y + i) color v else Some v))].
  - intros v. unfold vbe_draw_char. apply for_do_ext. intros i s Hi. destruct (glyph_row c i Hi) as (l & r & El & Er).
    rewrite El. cbn [mbind option_bind]. rewrite Er. cbn [mbind option_bind]. apply for_do_ext. intros j t Hj. unfold glyph_at. rewrite El. cbn [mbind option_bind]. by rewrite Er.
  - intros i j Hi Hj. destruct (glyph_at c j i); [apply put_pixel_draws|apply draws_nothing].
Qed.

Lemma write_at_draws str : forall x y l color, content str = Some l -> draws (vbe_write_at x y str color) (text x y l color).
Proof.
  induction str as [|c str IH]; intros x y l color Hl; cbn in Hl; [done|]. cbn [vbe_write_at]. destruct (c =? 0).
  - injection Hl as <-. apply draws_nothing.
  - destruct (content str) as [l'|]; [|done]. injection Hl as <-. cbn [text].
    apply (draws_seq (vbe_draw_char x y c color) _ (glyph x y c color)); [apply draw_char_draws|by apply IH].
Qed.

Lemma cursor_cell i j : 0 <= i < 8 -> 0 <= j < 8 -> exists c, cursor_at i j = Some c.
Proof.
  intros Hi Hj. assert (H : forallb (fun i => forallb (fun j => bool_decide (is_Some (cursor_at i j))) (seqZ 0 8)) (seqZ 0 8) = true) by (vm_compute; reflexivity).
  pose proof (proj1 (forallb_forall _ _) H i) as H1. specialize (H1 ltac:(apply list_elem_of_In, elem_of_seqZ; lia)).
  pose proof (proj1 (forallb_forall _ _) H1 j) as H2. specialize (H2 ltac:(apply list_elem_of_In, elem_of_seqZ; lia)). by apply bool_decide_eq_true in H2 as [c Hc]; eauto.
Qed.

Lemma cursor_simple_draws x y : draws (vbe_draw_cursor_simple x y) (pointer x y).
Proof.
  apply (grid_draws x y 8 8 _ (fun i j v => c ← cursor_at i j; if c =? 1 then vbe_put_pixel (x + j) (y + i) 0xFFFFFF v
    else if c =? 2 then vbe_put_pixel (x + j) (y + i) 0x000000 v else Some v)).
  intros i j Hi Hj. destruct (cursor_cell i j Hi Hj) as [c Hc]. rewrite Hc. cbn [mbind option_bind].
  destruct (Z.eqb_spec c 1) as [->|H1]; [apply put_pixel_draws|]. destruct (Z.eqb_spec c 2) as [->|H2]; [apply put_pixel_draws|].
  eapply draws_ext; [|exact draws_nothing]. intros p a b. by destruct c as [|[c|[c|c|]|]|c].
Qed.

(** ** To the screen *)

(** The frame buffer shows a picture. *)
Definition displays (v : vbe) (p : picture) : Prop := buffer_shows v (address v) p.

Lemma vbe_update_ok v p : shows v p -> Z.of_nat (length (address v)) = width v * height v ->
  exists a, vbe_update v = Some (with_address a v) /\ displays (with_address a v) p.
Proof.
  intros ((H0 & H1 & H2) & b & Hb & Hl & Hp) Ha. unfold vbe_update. rewrite Hb. cbn [mbind option_bind].
  rewrite i32_small by nia. rewrite decide_True by (split; nia). eexists. split; [done|].
  rewrite take_ge, drop_ge by nia. rewrite app_nil_r. by split.
Qed.

(** A rectangle of the back buffer is copied. *)
Lemma vbe_update_rect_ok x y w h v p q : shows v p -> displays v q -> 0 <= w -> 0 <= h ->
  exists a, vbe_update_rect x y w h v = Some (with_address a v) /\ displays (with_address a v) (stamp x y w h (fun j i => Some (p (x + j) (y + i))) q).
Proof.
  intros (Hok & b & Hb & Hbl & Hp) Hq Hw Hh. unfold vbe_update_rect.
  set (D s q := exists a, s = with_address a v /\ displays s q).
  assert (Dext : forall s q q', D s q -> (forall a c, q a c = q' a c) -> D s q').
  { intros s q1 q2 (a & -> & [Hl Hd]) E. exists a. split; [done|]. split; [exact Hl|]. intros a' c' Hac. transitivity (Some (q1 a' c')); [exact (Hd a' c' Hac)|]. by rewrite E. }
  set (G j i := Some (p (x + j) (y + i))).
  assert (Hpx : forall s q1 i j, D s q1 -> exists s', (if off_screen (x + j) (y + i) s then Some s else
      b ← back_buffer s; c ← aget b (u32 ((y + i) * width s + (x + j))); a ← aset (address s) (u32 ((y + i) * width s + (x + j))) c; Some (with_address a s)) = Some s' /\
      D s' (set_px (x + j) (y + i) (p (x + j) (y + i)) q1)).
  { intros s q1 i j (a & -> & [Hl Hd]). cbn in Hl. change (off_screen (x + j) (y + i) (with_address a v)) with (off_screen (x + j) (y + i) v).
    cbn [back_buffer with_address width address] in *. destruct (off_screen (x + j) (y + i) v) eqn:Eo.
    - eexists. split; [done|]. exists a. split; [done|]. split; [exact Hl|]. intros a' c' Hac. transitivity (Some (q1 a' c')); [exact (Hd a' c' Hac)|]. unfold set_px.
      destruct (Z.eqb_spec a' (x + j)) as [->|]; [|done]. destruct (Z.eqb_spec c' (y + i)) as [->|]; [|done]. exfalso. destruct Hac as [Ha Hc]. cbn in Ha, Hc.
      unfold off_screen in Eo. rewrite !orb_true_iff, !Z.ltb_lt, !Z.leb_le in Eo. lia.
    - unfold off_screen in Eo. rewrite !orb_false_iff, !Z.ltb_ge, !Z.leb_gt in Eo. assert (Hxy : on_screen v (x + j) (y + i)) by (split; lia).
      destruct (pixel_index v _ _ _ _ Hok Hxy Hxy) as (Hr & -> & _). rewrite Hb. cbn [mbind option_bind]. rewrite aget_pos, Hp by (done || lia).
      cbn [mbind option_bind]. rewrite aset_eq by lia. cbn [mbind option_bind]. eexists. split; [done|]. eexists. split; [done|].
      split; [cbn; by rewrite length_insert|]. intros a' c' Hac. unfold set_px. cbn [with_address width address].
      change (on_screen v a' c') in Hac. destruct (pixel_index v a' c' _ _ Hok Hac Hxy) as (Hr' & _ & Heq).
      destruct (Z.eqb_spec a' (x + j)) as [->|Hne]; [destruct (Z.eqb_spec c' (y + i)) as [->|Hne]|]; cbn [andb].
      + rewrite list_lookup_insert_eq; [done|lia].
      + rewrite list_lookup_insert_ne; [by apply (Hd (x + j) c')|]. intros E. apply Hne, Heq. lia.
      + rewrite list_lookup_insert_ne; [by apply (Hd a' c')|]. intros E. apply Hne, Heq. lia. }
  destruct (for_do_rule (fun i s => D s (stamp x y w i G q)) 0 h (fun i v => for_do 0 w (fun j v =>
    let px := x + j in let py := y + i in if off_screen px py v then Some v else
    b ← back_buffer v; c ← aget b (u32 (py * width v + px)); a ← aset (address v) (u32 (py * width v + px)) c; Some (with_address a v)) v) v)
    as (s & E & a & -> & Ha); [done| | |eauto].
  - eapply Dext; [exists (address v); split; [by destruct v|exact Hq]|]. intros a c. unfold stamp. case_if; [lia|done].
  - intros i s Hi Hs. destruct (for_do_rule (fun j s => D s (stamp x (y + i) j 1 (fun j _ => G j i) (stamp x y w i G q))) 0 w (fun j v =>
      let px := x + j in let py := y + i in if off_screen px py v then Some v else
      b ← back_buffer v; c ← aget b (u32 (py * width v + px)); a ← aset (address v) (u32 (py * width v + px)) c; Some (with_address a v)) s)
      as (s' & E & Hs'); [done| | |].
    + eapply Dext; [exact Hs|]. intros a c. unfold stamp. repeat case_if; (lia || done).
    + intros j s1 Hj Hs1. destruct (Hpx s1 _ i j Hs1) as (s2 & E2 & Hs2). exists s2. split; [exact E2|]. eapply Dext; [exact Hs2|].
      intros a c. apply (stamp_column x (y + i) j G i); lia.
    + exists s'. split; [exact E|]. eapply Dext; [exact Hs'|]. intros a c. apply stamp_row. lia.
Qed.

(** ** The mouse pointer *)

(** The pointer of [vbe_draw_cursor] over the picture [base]: its place, and the
    colours it hides. *)
Definition with_pointer (v : vbe) (base : picture) : picture :=
  if last_cursor_x v =? -1 then base else pointer (last_cursor_x v) (last_cursor_y v) base.

Definition saves (m : list Z) (v : vbe) (x y : Z) (base : picture) : Prop := length m = 64%nat /\
  forall i j, 0 <= i < 8 -> 0 <= j < 8 -> on_screen v (x + j) (y + i) -> aget m (i * 8 + j) = Some (base (x + j) (y + i)).

Record pointer_over (v : vbe) (base : picture) : Prop := {
  po_back : shows v (with_pointer v base);
  po_front : displays v (with_pointer v base);
  po_saved : if last_cursor_x v =? -1 then length (mouse_bg_save v) = 64%nat
             else saves (mouse_bg_save v) v (last_cursor_x v) (last_cursor_y v) base
}.

Lemma displays_ext v p q : (forall x y, on_screen v x y -> p x y = q x y) -> displays v p -> displays v q.
Proof. intros E [Hl Hp]. split; [done|]. intros x y Hxy. rewrite Hp by done. by rewrite E. Qed.

Lemma restore_background_ok v base : pointer_over v base ->
  exists b a, restore_background v = Some (with_address a (with_back (Some b) v)) /\
    shows (with_address a (with_back (Some b) v)) base /\ displays (with_address a (with_back (Some b) v)) base /\ length (mouse_bg_save v) = 64%nat.
Proof.
  intros [Hs Hd Hm]. unfold restore_background, with_pointer in *. destruct (last_cursor_x v =? -1) eqn:E1.
  { pose proof Hs as (_ & b & Hb & _). exists b, (address v). rewrite <- Hb. replace (with_address (address v) (with_back (back_buffer v) v)) with v by by destruct v. by split_and!. }
  set (x := last_cursor_x v) in *. set (y := last_cursor_y v) in *. destruct Hm as [Hm64 Hm].
  destruct (grid_draws x y 8 8 (fun j i => aget (mouse_bg_save v) (i * 8 + j))
    (fun i j s => p ← aget (mouse_bg_save v) (i * 8 + j); vbe_put_pixel (x + j) (y + i) p s)) with (v := v) (p := pointer x y base) as (b & E & Hb); [|exact Hs|].
  { intros i j Hi Hj. destruct (aget_is_Some (mouse_bg_save v) (i * 8 + j)) as [c Hc]; [lia|]. rewrite Hc. apply put_pixel_draws. }
  rewrite E. cbn [mbind option_bind].
  assert (Hback : shows (with_back (Some b) v) base).
  { eapply shows_ext; [|exact Hb]. intros a c Hac. unfold stamp. case_if.
    - rewrite (Hm (c - y) (a - x)) by (try lia; replace (x + (a - x)) with a by lia; by replace (y + (c - y)) with c by lia). cbn. f_equal; lia.
    - unfold pointer, stamp. case_if; [lia|done]. }
  destruct (vbe_update_rect_ok x y 8 8 (with_back (Some b) v) base (pointer x y base) Hback Hd) as (a & E2 & Ha); [lia|lia|].
  exists b, a. split; [exact E2|]. split; [exact Hback|]. split; [|done]. eapply displays_ext; [|exact Ha].
  intros a' c' Hac. unfold stamp. case_if; [cbn; f_equal; lia|]. unfold pointer, stamp. case_if; [lia|done].
Qed.

Lemma save_background_ok v x y base : shows v base -> length (mouse_bg_save v) = 64%nat ->
  exists m, save_background x y v = Some (with_save m v) /\ saves m v x y base.
Proof.
  intros Hs H64. set (D n s := exists m, s = with_save m v /\ length m = 64%nat /\
    forall i j, 0 <= i < 8 -> 0 <= j < 8 -> i * 8 + j < n -> on_screen v (x + j) (y + i) -> aget m (i * 8 + j) = Some (base (x + j) (y + i))).
  destruct (for_do_rule (fun i => D (i * 8)) 0 8 (fun i v => for_do 0 8 (fun j v =>
    p ← vbe_get_pixel (x + j) (y + i) v; m ← aset (mouse_bg_save v) (i * 8 + j) p; Some (with_save m v)) v) v) as (s & E & m & -> & Hl & Hm).
  - lia.
  - exists (mouse_bg_save v). split; [by destruct v|]. split; [done|]. intros; lia.
  - intros i s Hi Hs0. destruct (for_do_rule (fun j => D (i * 8 + j)) 0 8 (fun j v =>
      p ← vbe_get_pixel (x + j) (y + i) v; m ← aset (mouse_bg_save v) (i * 8 + j) p; Some (with_save m v)) s) as (s' & E & Hs'); [lia| | |].
    + by rewrite Z.add_0_r.
    + intros j s1 Hj (m & -> & Hl & Hm).
      assert (exists c, vbe_get_pixel (x + j) (y + i) (with_save m v) = Some c /\ (on_screen v (x + j) (y + i) -> c = base (x + j) (y + i))) as (c & Ec & Hc).
      { unfold vbe_get_pixel. change (off_screen (x + j) (y + i) (with_save m v)) with (off_screen (x + j) (y + i) v). destruct (off_screen _ _ v) eqn:Eo.
        - exists 0. split; [done|]. intros [Ha Hb]. unfold off_screen in Eo. rewrite !orb_true_iff, !Z.ltb_lt, !Z.leb_le in Eo. lia.
        - unfold off_screen in Eo. rewrite !orb_false_iff, !Z.ltb_ge, !Z.leb_gt in Eo. assert (Hxy : on_screen v (x + j) (y + i)) by (split; lia).
          destruct Hs as (Hok & b & Hb & _ & Hp). destruct (pixel_index v _ _ _ _ Hok Hxy Hxy) as (Hr & Hu & _).
          cbn [back_buffer with_save width]. rewrite Hb, Hu. cbn [mbind option_bind]. rewrite aget_pos, Hp by (done || lia). by eexists. }
      rewrite Ec. cbn [mbind option_bind mouse_bg_save with_save]. rewrite aset_eq by lia. cbn [mbind option_bind]. eexists. split; [done|].
      eexists. split; [done|]. split; [by rewrite length_insert|]. intros i' j' Hi' Hj' Hlt Hon. rewrite aget_pos by lia.
      destruct (decide (i' * 8 + j' = i * 8 + j)) as [Heq|Hne].
      * assert (i' = i /\ j' = j) as [-> ->] by lia. rewrite list_lookup_insert_eq by lia. f_equal. by apply Hc.
      * rewrite list_lookup_insert_ne by lia. rewrite <- (Hm i' j') by (lia || done). by rewrite aget_pos by lia.
    + exists s'. split; [exact E|]. by replace ((i + 1) * 8) with (i * 8 + 8) by lia.
  - exists m. split; [exact E|]. split; [done|]. intros i j Hi Hj. apply Hm; lia.
Qed.

Lemma draw_cursor_ok v base x y : pointer_over v base -> 0 <= x ->
  exists v', vbe_draw_cursor x y v = Some v' /\ pointer_over v' base /\ last_cursor_x v' = x /\ last_cursor_y v' = y.
Proof.
  intros H Hx. destruct (restore_background_ok v base H) as (b & a & E1 & Hs1 & Hd1 & H64). unfold vbe_draw_cursor. rewrite E1. cbn [mbind option_bind].
  destruct (save_background_ok _ x y base Hs1 H64) as (m & -> & Hm). cbn [mbind option_bind].
  set (v2 := with_save m (with_address a (with_back (Some b) v))) in *.
  destruct (cursor_simple_draws x y v2 base Hs1) as (b2 & -> & Hs2). cbn [mbind option_bind].
  destruct (vbe_update_rect_ok x y 8 8 (with_back (Some b2) v2) (pointer x y base) base Hs2 Hd1) as (a2 & -> & Hd2); [lia|lia|]. cbn [mbind option_bind].
  eexists. split; [done|]. split; [|done].
  assert (Ex : x =? -1 = false) by (apply Z.eqb_neq; lia).
  constructor; unfold with_pointer; cbn [last_cursor_x last_cursor_y with_last]; rewrite Ex.
  - exact Hs2.
  - eapply displays_ext; [|exact Hd2]. intros a' c' Hac. unfold stamp at 1. case_if; [cbn; f_equal; lia|]. unfold pointer, stamp. case_if; [lia|done].
  - exact Hm.
Qed.

Fixpoint draw_cursors (ps : list (Z * Z)) (v : vbe) : option vbe :=
  match ps with [] => Some v | (x, y) :: ps => v ← vbe_draw_cursor x y v; draw_cursors ps v end.

(** C33 (vbe_draw_cursor): wherever the pointer has been, the screen shows the
    picture as it was before, with the pointer at its last place only. *)
Theorem cursor_leaves_no_trail ps v base x y : shows v base -> displays v base -> last_cursor_x v = -1 -> length (mouse_bg_save v) = 64%nat ->
  Forall (fun p => 0 <= p.1) (ps ++ [(x, y)]) ->
  exists v', draw_cursors (ps ++ [(x, y)]) v = Some v' /\ shows v' (pointer x y base) /\ displays v' (pointer x y base).
Proof.
  intros Hs Hd Hl H64 Hps. assert (H : pointer_over v base) by (constructor; unfold with_pointer; rewrite Hl; done). clear Hs Hd Hl H64.
  revert v H. induction ps as [|[x0 y0] ps IH]; intros v H; cbn [app draw_cursors] in *.
  - apply Forall_inv in Hps. destruct (draw_cursor_ok v base x y H Hps) as (v' & -> & [Hs Hd _] & Ex & Ey). exists v'. split; [done|].
    unfold with_pointer in *. rewrite Ex, Ey in *. cbn in Hps. rewrite (proj2 (Z.eqb_neq x (-1))) in * by lia. done.
  - apply Forall_cons in Hps as [Hx Hps]. destruct (draw_cursor_ok v base x0 y0 H Hx) as (v1 & -> & H1 & _). cbn [mbind option_bind]. by apply IH.
Qed.

(** A grey screen of 20 x 20 points; the pointer leaves the screen at the corner. *)
Definition sample_screen : vbe := Vbe 20 20 (replicate 400 7) (Some (replicate 400 7)) (replicate 64 0) 0 0 (-1) (-1) true.

Lemma sample_screen_shows : shows sample_screen (fun _ _ => 7) /\ displays sample_screen (fun _ _ => 7).
Proof.
  assert (H : buffer_shows sample_screen (replicate 400 7) (fun _ _ => 7)).
  { split; [reflexivity|]. intros x y [Hx Hy]. cbn in Hx, Hy. cbn [width sample_screen]. apply lookup_replicate. split; [done|lia]. }
  split; [|exact H]. split; [vm_compute; split_and!; congruence|]. by exists (replicate 400 7).
Qed.

Lemma cursor_leaves_no_trail_witness :
  exists v', draw_cursors [(2, 3); (15, 15)] sample_screen = Some v' /\
    address v' !! Z.to_nat (3 * 20 + 2) = Some 7 /\ address v' !! Z.to_nat (15 * 20 + 15) = Some 0 /\ address v' !! Z.to_nat (17 * 20 + 16) = Some 0xFFFFFF.
Proof.
  destruct (cursor_leaves_no_trail [(2, 3)] sample_screen (fun _ _ => 7) 15 15) as (v' & E & _ & Hd).
  - apply sample_screen_shows.
  - apply sample_screen_shows.
  - reflexivity.
  - reflexivity.
  - repeat constructor; cbn; lia.
  - exists v'. split; [exact E|]. assert (E2 : (fun v => (width v, height v)) <$> draw_cursors [(2, 3); (15, 15)] sample_screen = Some (20, 20)) by (vm_compute; reflexivity).
    cbn [app] in E. rewrite E in E2. cbn in E2. injection E2 as Hw Hh. destruct Hd as [_ Hd]. unfold on_screen in Hd. rewrite Hw, Hh in Hd.
    split_and!; [apply (Hd 2 3)|apply (Hd 15 15)|apply (Hd 16 17)]; lia.
Defined.
