(* ===== verification/VbeInit.v ===== *)
(** * VbeInit: finding and mapping the frame buffer (kernel/drivers/vbe.c, vbe_init)

    The frame buffer of the boot loader, or the first Bochs display on the PCI
    bus, is mapped and a back buffer taken from the heap.  The page tables and
    the heap are the interface [VbeEnv]; the messages are left out. *)

From S2P Require Export Vbe Pci.

Definition VBE_VIRT_ADDR : Z := 0xE0000000.
Definition VBE_DISPI_IOPORT_INDEX : Z := 0x01CE.
Definition VBE_DISPI_IOPORT_DATA : Z := 0x01CF.
Definition VBE_DISPI_INDEX_XRES : Z := 1.
Definition VBE_DISPI_INDEX_YRES : Z := 2.
Definition VBE_DISPI_INDEX_BPP : Z := 3.
Definition VBE_DISPI_INDEX_ENABLE : Z := 4.
Definition VBE_DISPI_DISABLED : Z := 0.
Definition VBE_DISPI_ENABLED : Z := 1.
Definition VBE_DISPI_LFB_ENABLED : Z := 0x40.

(** What vbe_init reads of the multiboot information. *)
Record framebuffer := FrameBuffer {
  fb_flags : Z; framebuffer_type : Z; framebuffer_addr : Z; framebuffer_width : Z; framebuffer_height : Z
}.

(** Mapped memory is given by its pixels: those found at a physical address, and
    those of a block of the heap, if there is one. *)
Class VbeEnv (K : Type) := {
  paging_map_memory : Z -> Z -> Z -> K -> option (list Z * K);
  kmalloc : Z -> K -> option (option (list Z) * K)
}.

Section init.
Variable dev : machine.
Context {K : Type} `{!VbeEnv K}.

Definition bga_write (index data : Z) : io unit :=
  outw VBE_DISPI_IOPORT_INDEX index ≫= fun _ => outw VBE_DISPI_IOPORT_DATA data.

Definition bga_mode : io unit :=
  bga_write VBE_DISPI_INDEX_ENABLE VBE_DISPI_DISABLED ≫= fun _ =>
  bga_write VBE_DISPI_INDEX_XRES 800 ≫= fun _ =>
  bga_write VBE_DISPI_INDEX_YRES 600 ≫= fun _ =>
  bga_write VBE_DISPI_INDEX_BPP 32 ≫= fun _ =>
  bga_write VBE_DISPI_INDEX_ENABLE (Z.lor VBE_DISPI_ENABLED VBE_DISPI_LFB_ENABLED).

(** One device: [lfb_phys] and whether it is a display whose mode can be set. *)
Definition probe_display (bus dv lfb_phys : Z) : io (Z * bool) :=
  pci_config_read_word dev bus dv 0 0 ≫= fun vendor =>
  if vendor =? 0xFFFF then mret (lfb_phys, false) else
  pci_config_read_word dev bus dv 0 10 ≫= fun class_sub =>
  if Z.shiftr class_sub 8 =? 0x03 then
    pci_config_read_word dev bus dv 0 2 ≫= fun device =>
    pci_config_read_word dev bus dv 0 0x12 ≫= fun hi =>
    pci_config_read_word dev bus dv 0 0x10 ≫= fun lo =>
    let lfb_phys := Z.land (Z.lor (u32 (Z.shiftl hi 16)) lo) 0xFFFFFFF0 in
    if (vendor =? 0x1234) || (vendor =? 0x80EE) then bga_mode ≫= fun _ => mret (lfb_phys, true)
    else mret (lfb_phys, false)
  else mret (lfb_phys, false).

Fixpoint scan_display (n : nat) (bus dv lfb_phys : Z) : io (Z * bool) :=
  match n with
  | O => mret (lfb_phys, false)
  | S n => probe_display bus dv lfb_phys ≫= fun r => if (snd r : bool) then mret r else scan_display n bus (dv + 1) (fst r)
  end.

Fixpoint scan_display_buses (n : nat) (bus lfb_phys : Z) : io (Z * bool) :=
  match n with
  | O => mret (lfb_phys, false)
  | S n => scan_display 32 bus 0 lfb_phys ≫= fun r => if (snd r : bool) then mret r else scan_display_buses n (bus + 1) (fst r)
  end.

Definition with_mode (w h : Z) (v : vbe) : vbe :=
  Vbe w h (address v) (back_buffer v) (mouse_bg_save v) (cursor_x v) (cursor_y v) (last_cursor_x v) (last_cursor_y v) (vbe_active v).

(** The address of the frame buffer and whether there is one; [None] is a null
    [mb_info]. *)
Definition find_framebuffer (mb_info : option framebuffer) (v : vbe) (t : list event) : Z * bool * vbe * list event :=
  match mb_info with
  | Some f =>
      if negb (Z.land (fb_flags f) (Z.shiftl 1 12) =? 0) && (framebuffer_type f =? 1) then
        (u32 (framebuffer_addr f), true, with_mode (framebuffer_width f) (framebuffer_height f) v, t)
      else let '((lfb_phys, found), t) := scan_display_buses 8 0 0 t in (lfb_phys, found, (if found then with_mode 800 600 v else v), t)
  | None => let '((lfb_phys, found), t) := scan_display_buses 8 0 0 t in (lfb_phys, found, (if found then with_mode 800 600 v else v), t)
  end.

Definition vbe_init (mb_info : option framebuffer) (v : vbe) (t : list event) (k : K) : option (vbe * list event * K) :=
  let '(lfb_phys, found, v, t) := find_framebuffer mb_info v t in
  if negb found || (lfb_phys <? 0x100000) then Some (vbe_set_active false v, t, k) else
  let size := u32 (u32 (width v * height v) * 4) in
  '(address, k) ← paging_map_memory lfb_phys VBE_VIRT_ADDR size k;
  let v := with_address address v in
  '(b, k) ← (match back_buffer v with None => kmalloc size k | Some b => Some (Some b, k) end);
  '(b, k) ← (match b with
             | Some b => Some (b, k)
             | None => paging_map_memory 0x02000000 0xD0000000 size k
             end);
  Some (vbe_set_active true (with_back (Some b) v), t, k).

(** ** What the drawing routines ask for *)

(** Mapped and allocated memory has the size asked for: there are 2^28 bytes between the two
    virtual addresses. *)
Class VbeLaws := {
  map_law p a size k : 0 <= size < 2 ^ 28 -> exists l k', paging_map_memory p a size k = Some (l, k') /\ Z.of_nat (length l) = size / 4;
  kmalloc_law size k : 0 <= size < 2 ^ 28 -> exists b k', kmalloc size k = Some (b, k') /\ forall l, b = Some l -> Z.of_nat (length l) = size / 4
}.

Lemma find_framebuffer_frame mb_info v t lfb found v' t' : find_framebuffer mb_info v t = (lfb, found, v', t') ->
  back_buffer v' = back_buffer v /\ (found = true -> 
    (width v' = 800 /\ height v' = 600 \/ exists f, mb_info = Some f /\ width v' = framebuffer_width f /\ height v' = framebuffer_height f)).
Proof.
  unfold find_framebuffer. destruct (scan_display_buses 8 0 0 t) as [[a found'] t1]. destruct mb_info as [f|].
  - destruct (negb _ && _); intros [= _ <- <- _].
    + split; [done|]. intros _. right. by exists f.
    + split; [by destruct found'|]. intros ->. by left.
  - intros [= _ <- <- _]. split; [by destruct found'|]. intros ->. by left.
Qed.

(** The first call of vbe_init, on a boot screen of less than 2^26 points, leaves the graphics off, or on with a screen
    the drawing routines may draw on: its buffers have one word per point. *)
Theorem vbe_init_ready `{!VbeLaws} mb_info v t k :
  back_buffer v = None ->
  (forall f, mb_info = Some f -> 0 <= framebuffer_width f /\ 0 <= framebuffer_height f /\ framebuffer_width f * framebuffer_height f < 2 ^ 26) ->
  exists v' t' k', vbe_init mb_info v t k = Some (v', t', k') /\
    (vbe_is_active v' = true -> (exists p, shows v' p) /\ Z.of_nat (length (address v')) = width v' * height v').
Proof.
  intros Hback Hmb. unfold vbe_init. destruct (find_framebuffer mb_info v t) as [[[lfb found] v1] t1] eqn:E.
  apply find_framebuffer_frame in E as [Hb Hsize]. destruct (negb found || (lfb <? 0x100000)) eqn:Ef; [by eexists _, _, _|].
  apply orb_false_iff in Ef as [Hf _]. apply negb_false_iff in Hf. specialize (Hsize Hf).
  assert (0 <= width v1 /\ 0 <= height v1 /\ 0 <= width v1 * height v1 < 2 ^ 26) as (Hw & Hh & Hwh).
  { destruct Hsize as [[-> ->]|(f & Hmf & -> & ->)]; [lia|]. destruct (Hmb f Hmf) as (? & ? & ?). split_and!; nia. }
  rewrite (u32_small (width v1 * height v1)), u32_small by lia. set (size := width v1 * height v1 * 4).
  assert (size / 4 = width v1 * height v1) as Hq by (unfold size; apply Z.div_mul; lia). assert (0 <= size < 2 ^ 28) as Hsz by (unfold size; lia).
  destruct (map_law lfb VBE_VIRT_ADDR size k Hsz) as (a & k1 & -> & Ha). cbn [mbind option_bind]. cbn [back_buffer with_address]. rewrite Hb, Hback.
  destruct (kmalloc_law size k1 Hsz) as (b & k2 & -> & Hkb). cbn [mbind option_bind].
  assert (exists l k3, (match b with Some b => Some (b, k2) | None => paging_map_memory 0x02000000 0xD0000000 size k2 end) = Some (l, k3) /\ Z.of_nat (length l) = size / 4) as (l & k3 & -> & Hl).
  { destruct b as [l|]; [exists l, k2; split; [done|by apply Hkb]|]. destruct (map_law 0x02000000 0xD0000000 size k2 Hsz) as (l & k3 & ? & ?). by exists l, k3. }
  cbn [mbind option_bind]. eexists _, _, _. split; [done|]. intros _. split; [|cbn; congruence].
  exists (fun x y => default 0 (l !! Z.to_nat (y * width v1 + x))). split; [split_and!; cbn; lia|]. exists l. split; [done|]. split; [cbn; congruence|].
  intros x y [Hx Hy]. cbn in Hx, Hy |- *. destruct (lookup_lt_is_Some_2 l (Z.to_nat (y * width v1 + x))) as [c Hc]; [nia|]. by rewrite Hc.
Qed.
End init.
