(* ===== verification/Dlist.v ===== *)
(** * Dlist: doubly linked lists in memory

    Objects at addresses that are linked by a next and a previous pointer, as
    the windows and the widgets of kernel/ui/gui.c are.  The class [Linked]
    says where an object keeps its two pointers; a segment is described by the
    list of its addresses. *)

From S2P Require Export Prelude.

Class Linked (A : Type) := {
  nxt : A -> Z; prv : A -> Z; set_nxt : Z -> A -> A; set_prv : Z -> A -> A;
  nxt_set_nxt v x : nxt (set_nxt v x) = v; prv_set_nxt v x : prv (set_nxt v x) = prv x;
  nxt_set_prv v x : nxt (set_prv v x) = nxt x; prv_set_prv v x : prv (set_prv v x) = v
}.

Section dlist.
Context {A B : Type} `{!Linked A}.
Implicit Types (m : gmap Z A) (l : list Z) (a p n v : Z).

(** [a->... = ...] *)
Definition upd a (f : A -> A) m : option (gmap Z A) := x ← m !! a; Some (<[a := f x]> m).

(** [if (a->prev) a->prev->next = a->next; if (a->next) a->next->prev = a->prev;] *)
Definition unlink a m : option (gmap Z A) :=
  x ← m !! a;
  m ← (if prv x =? 0 then Some m else upd (prv x) (set_nxt (nxt x)) m);
  x ← m !! a;
  if nxt x =? 0 then Some m else upd (nxt x) (set_prv (prv x)) m.

(** ** Segments *)

Definition first_of n l : Z := default n (head l).
Definition last_of p l : Z := default p (last l).

Fixpoint dseg m p l n : Prop :=
  match l with
  | [] => True
  | a :: l => a <> 0 /\ (exists x, m !! a = Some x /\ prv x = p /\ nxt x = first_of n l) /\ dseg m a l n
  end.

Lemma last_of_cons p a l : last_of p (a :: l) = last_of a l.
Proof. unfold last_of. destruct l as [|b l]; [done|]. rewrite last_cons_cons. by destruct (last (b :: l)) eqn:E; [|apply last_None in E]. Qed.
Lemma last_of_snoc p l a : last_of p (l ++ [a]) = a.
Proof. unfold last_of. by rewrite last_snoc. Qed.
Lemma first_of_app n l1 l2 : first_of n (l1 ++ l2) = first_of (first_of n l2) l1.
Proof. by destruct l1. Qed.

Lemma dseg_app m l1 : forall p l2 n, dseg m p (l1 ++ l2) n <-> dseg m p l1 (first_of n l2) /\ dseg m (last_of p l1) l2 n.
Proof.
  induction l1 as [|a l1 IH]; intros p l2 n; cbn [dseg app]; [unfold last_of; cbn; tauto|].
  rewrite IH, first_of_app, last_of_cons. tauto.
Qed.

Lemma dseg_frame m m' l : forall p n, (forall a, a ∈ l -> m' !! a = m !! a) -> dseg m p l n -> dseg m' p l n.
Proof.
  induction l as [|a l IH]; intros p n Hm; cbn [dseg]; [done|]. intros (H0 & (x & Hx & Hp & Hn) & Hl). split; [done|].
  split; [|by apply IH; [intros b Hb; apply Hm; by right|]]. exists x. rewrite Hm by left. auto.
Qed.

Lemma dseg_nonzero m l : forall p n, dseg m p l n -> Forall (fun a => a <> 0) l.
Proof. induction l; intros p n; cbn [dseg]; [constructor|]. intros (? & _ & ?). constructor; eauto. Qed.

Lemma dseg_lookup m l : forall p n a, dseg m p l n -> a ∈ l -> is_Some (m !! a).
Proof.
  induction l as [|b l IH]; intros p n a; cbn [dseg]; [by intros _ ?%elem_of_nil|].
  intros (_ & (x & Hx & _) & Hl) [->|Ha]%elem_of_cons; eauto.
Qed.

(** The pointers of a member. *)
Lemma dseg_mid m l1 a l2 p n : dseg m p (l1 ++ a :: l2) n ->
  a <> 0 /\ exists x, m !! a = Some x /\ prv x = last_of p l1 /\ nxt x = first_of n l2.
Proof. intros (_ & H0 & Hx & _)%dseg_app. auto. Qed.

(** Another successor of the last member, another predecessor of the first. *)
Lemma dseg_set_nxt m p l t n v : dseg m p (l ++ [t]) n -> t ∉ l ->
  exists x, m !! t = Some x /\ dseg (<[t := set_nxt v x]> m) p (l ++ [t]) v.
Proof.
  intros (H1 & H0 & (x & Hx & Hp & Hn) & _)%dseg_app Ht. exists x. split; [done|]. apply dseg_app. split.
  - eapply dseg_frame; [|exact H1]. intros b Hb. rewrite lookup_insert_ne; [done|]. by intros <-.
  - split; [done|]. split; [|done]. exists (set_nxt v x). by rewrite lookup_insert_eq, prv_set_nxt, nxt_set_nxt.
Qed.

Lemma dseg_set_prv m p b l n v : dseg m p (b :: l) n -> b ∉ l ->
  exists x, m !! b = Some x /\ dseg (<[b := set_prv v x]> m) v (b :: l) n.
Proof.
  intros (H0 & (x & Hx & Hp & Hn) & Hl) Hb. exists x. split; [done|]. split; [done|]. split.
  - exists (set_prv v x). by rewrite lookup_insert_eq, prv_set_prv, nxt_set_prv.
  - eapply dseg_frame; [|exact Hl]. intros c Hc. rewrite lookup_insert_ne; [done|]. by intros <-.
Qed.

(** What keeps the links. *)
Definition same_links m m' : Prop := forall a, (fun x => (nxt x, prv x)) <$> m' !! a = (fun x => (nxt x, prv x)) <$> m !! a.

#[export] Instance same_links_refl : Reflexive same_links.
Proof. by intros m a. Qed.

Lemma same_links_insert m a x y : m !! a = Some x -> nxt y = nxt x -> prv y = prv x -> same_links m (<[a := y]> m).
Proof.
  intros Hx Hn Hp b. destruct (decide (b = a)) as [->|]; [rewrite lookup_insert_eq, Hx; cbn; by rewrite Hn, Hp|by rewrite lookup_insert_ne].
Qed.

Lemma dseg_links m m' l : forall p n, same_links m m' -> dseg m p l n -> dseg m' p l n.
Proof.
  induction l as [|a l IH]; intros p n Hm; cbn [dseg]; [done|]. intros (H0 & (x & Hx & Hp & Hn) & Hl). split; [done|].
  split; [|by apply IH]. specialize (Hm a). rewrite Hx in Hm. destruct (m' !! a) as [x'|]; [|done]. injection Hm as E1 E2. exists x'. split; [done|]. split; congruence.
Qed.

(** ** A whole list *)

Definition dlist m l : Prop := dseg m 0 l 0 /\ NoDup l.

Lemma dlist_links m m' l : same_links m m' -> dlist m l -> dlist m' l.
Proof. intros Hm [H Hn]. split; [by eapply dseg_links|done]. Qed.
Lemma dlist_frame m m' l : (forall a, a ∈ l -> m' !! a = m !! a) -> dlist m l -> dlist m' l.
Proof. intros Hm [H Hn]. split; [by eapply dseg_frame|done]. Qed.

(** What the links leave alone. *)
Variable body : A -> B.
Hypothesis body_nxt : forall v x, body (set_nxt v x) = body x.
Hypothesis body_prv : forall v x, body (set_prv v x) = body x.
Definition same_bodies m m' : Prop := forall a, body <$> m' !! a = body <$> m !! a.

#[export] Instance same_bodies_refl : Reflexive same_bodies.
Proof. by intros m a. Qed.
#[export] Instance same_bodies_trans : Transitive same_bodies.
Proof. intros m1 m2 m3 H1 H2 a. by rewrite H2, H1. Qed.

Lemma same_bodies_insert m a x y : m !! a = Some x -> body y = body x -> same_bodies m (<[a := y]> m).
Proof. intros Hx Hy b. destruct (decide (b = a)) as [->|]; [rewrite lookup_insert_eq, Hx; cbn; by rewrite Hy|by rewrite lookup_insert_ne]. Qed.

Lemma last_of_zero m p l n : dseg m p l n -> last_of 0 l = 0 -> l = [].
Proof.
  intros H%dseg_nonzero. destruct l as [|a l _] using rev_ind; [done|]. rewrite last_of_snoc. intros ->.
  apply Forall_app in H as [_ H]. by apply Forall_inv in H.
Qed.
Lemma first_of_zero m p l n : dseg m p l n -> first_of 0 l = 0 -> l = [].
Proof. destruct l as [|a l]; [done|]. intros (H0 & _) E. by cbn in E. Qed.

Lemma unlink_ok m l1 a l2 : dlist m (l1 ++ a :: l2) ->
  exists m', unlink a m = Some m' /\ dlist m' (l1 ++ l2) /\ same_bodies m m' /\
    (forall b, b ∉ l1 ++ l2 -> m' !! b = m !! b).
Proof.
  intros [Hd Hnd]. destruct (dseg_mid m l1 a l2 0 0 Hd) as (H0 & x & Hx & Hp & Hn). unfold unlink. rewrite Hx. cbn [mbind option_bind].
  apply NoDup_app in Hnd as (N1 & N12 & [Na N2]%NoDup_cons). apply dseg_app in Hd as [D1 D2]. cbn in D1. destruct D2 as (_ & _ & D2).
  assert (Ha1 : a ∉ l1) by (intros Hc; by apply (N12 a Hc); left).
  assert (exists m1, (if prv x =? 0 then Some m else upd (prv x) (set_nxt (nxt x)) m) = Some m1 /\ dseg m1 0 l1 (first_of 0 l2) /\
    dseg m1 a l2 0 /\ same_bodies m m1 /\ m1 !! a = Some x /\ forall b, b ∉ l1 -> m1 !! b = m !! b) as (m1 & -> & D1' & D2' & Hs1 & Hx1 & Hf1).
  { destruct (Z.eqb_spec (prv x) 0) as [Ez|Hnz].
    - rewrite Hp in Ez. pose proof (last_of_zero _ _ _ _ D1 Ez) as ->. exists m. by split_and!.
    - destruct l1 as [|t l1 _] using rev_ind; [by rewrite Hp in Hnz|]. rewrite last_of_snoc in Hp. rewrite Hp, Hn.
      apply NoDup_app in N1 as (_ & Nt & _). assert (Ht : t ∉ l1) by (intros Hc; by apply (Nt t Hc); left).
      destruct (dseg_set_nxt m 0 l1 t a (first_of 0 l2) D1 Ht) as (y & Hy & D). unfold upd. rewrite Hy. cbn [mbind option_bind].
      assert (Hta : t <> a) by (intros ->; apply Ha1; set_solver). assert (Ht2 : t ∉ l2) by (intros Hc; apply (N12 t); set_solver).
      eexists. split; [done|]. split; [exact D|]. split; [|split; [|split]].
      + eapply dseg_frame; [|exact D2]. intros b Hb. rewrite lookup_insert_ne; [done|]. by intros <-.
      + eapply same_bodies_insert; [exact Hy|apply body_nxt].
      + by rewrite lookup_insert_ne.
      + intros b Hb. rewrite lookup_insert_ne; [done|]. intros <-. set_solver. }
  cbn [mbind option_bind]. rewrite Hx1. cbn [mbind option_bind].
  destruct (Z.eqb_spec (nxt x) 0) as [Ez|Hnz].
  - rewrite Hn in Ez. pose proof (first_of_zero _ _ _ _ D2 Ez) as ->. exists m1. rewrite app_nil_r. split; [done|]. by split.
  - destruct l2 as [|b l2]; [by rewrite Hn in Hnz|]. rewrite Hn. cbn [first_of head default from_option id]. unfold first_of. cbn [head default from_option id].
    apply NoDup_cons in N2 as [Nb N2]. destruct (dseg_set_prv m1 a b l2 0 (prv x) D2' Nb) as (y & Hy & D). unfold upd. rewrite Hy. cbn [mbind option_bind].
    assert (Hb1 : b ∉ l1) by (intros Hc; apply (N12 b Hc); set_solver).
    eexists. split; [done|]. split; [split|split].
    + apply dseg_app. rewrite Hp in *. split; [|exact D]. eapply dseg_frame; [|exact D1']. intros c Hc. rewrite lookup_insert_ne; [done|]. by intros <-.
    + apply NoDup_app. split; [done|]. split; [|by apply NoDup_cons]. intros c Hc Hc2. apply (N12 c Hc). by right.
    + etransitivity; [exact Hs1|]. eapply same_bodies_insert; [exact Hy|apply body_prv].
    + intros c Hc. rewrite lookup_insert_ne by (intros <-; set_solver). apply Hf1. set_solver.
Qed.

(** [a] behind the last member [t]: [t->next = a; a->prev = t;] in either order. *)
Lemma append_ok m l t a x : dlist m l -> last l = Some t -> a ∉ l -> a <> 0 -> m !! a = Some x -> nxt x = 0 ->
  exists y, m !! t = Some y /\ dlist (<[a := set_prv t x]> (<[t := set_nxt a y]> m)) (l ++ [a]) /\
    <[a := set_prv t x]> (<[t := set_nxt a y]> m) = <[t := set_nxt a y]> (<[a := set_prv t x]> m) /\
    same_bodies m (<[a := set_prv t x]> (<[t := set_nxt a y]> m)).
Proof.
  intros [Hd Hnd] Hl Ha H0 Hx Hn. destruct l as [|t' l _] using rev_ind; [done|]. rewrite last_snoc in Hl. injection Hl as ->.
  apply NoDup_app in Hnd as (N1 & Nt & _). assert (Ht : t ∉ l) by (intros Hc; by apply (Nt t Hc); left).
  destruct (dseg_set_nxt m 0 l t 0 a Hd Ht) as (y & Hy & D). exists y. split; [done|].
  assert (Hta : t <> a) by (intros ->; apply Ha; set_solver).
  split; [split|split].
  - apply dseg_app. split; [eapply dseg_frame; [|exact D]; intros b Hb; rewrite lookup_insert_ne; [done|]; by intros <-|].
    rewrite last_of_snoc. split; [done|]. split; [|done]. exists (set_prv t x). by rewrite lookup_insert_eq, prv_set_prv, nxt_set_prv.
  - apply NoDup_app. split; [apply NoDup_app; split; [done|]; split; [done|apply NoDup_singleton]|]. split; [|apply NoDup_singleton].
    intros b Hb [->|F]%elem_of_cons; [done|by apply elem_of_nil in F].
  - by rewrite insert_insert_ne.
  - etransitivity; [eapply same_bodies_insert; [exact Hy|apply body_nxt]|]. eapply same_bodies_insert; [|apply body_prv].
    by rewrite lookup_insert_ne.
Qed.
End dlist.
