(* ===== verification/Gui.v ===== *)
(** * Gui: windows and the mouse (kernel/ui/gui.c, include/gui.h)

    Windows and widgets live in memory at their addresses, in doubly linked
    lists; the abstract desktop is a list of windows from the back to the front,
    each with its list of controls.  The fields [focus] and [is_dragging], which
    gui.c never uses, are left out. *)

From S2P Require Export CString Dlist.

Definition WIDGET_BUTTON : Z := 0.
Definition WIDGET_LABEL : Z := 1.

(** A widget: its own fields, and its links. *)
Record control := Control {
  c_type : Z; c_x : Z; c_y : Z; c_w : Z; c_h : Z; c_text : list Z; c_bg : Z; c_fg : Z; c_click : Z
}.
Record widget := Widget { w_control : control; wd_next : Z; wd_prev : Z }.

Record frame := Frame { f_x : Z; f_y : Z; f_w : Z; f_h : Z; f_title : list Z; f_color : Z; f_active : Z }.
Record window := Window { w_frame : frame; widgets_head : Z; widgets_tail : Z; w_next : Z; w_prev : Z }.

#[export] Program Instance widget_linked : Linked widget := {
  nxt := wd_next; prv := wd_prev;
  set_nxt v x := Widget (w_control x) v (wd_prev x); set_prv v x := Widget (w_control x) (wd_next x) v
}.
Solve All Obligations with done.
#[export] Program Instance window_linked : Linked window := {
  nxt := w_next; prv := w_prev;
  set_nxt v x := Window (w_frame x) (widgets_head x) (widgets_tail x) v (w_prev x);
  set_prv v x := Window (w_frame x) (widgets_head x) (widgets_tail x) (w_next x) v
}.
Solve All Obligations with done.

(** The static variables of the file and of [gui_on_mouse_event]. *)
Record gui := Gui {
  wins : gmap Z window; widgets : gmap Z widget; window_list_head : Z; window_list_tail : Z;
  last_buttons : Z; dragged_window : Z; drag_off_x : Z; drag_off_y : Z
}.

Definition with_wins (m : gmap Z window) (g : gui) : gui :=
  Gui m (widgets g) (window_list_head g) (window_list_tail g) (last_buttons g) (dragged_window g) (drag_off_x g) (drag_off_y g).
Definition with_widgets (m : gmap Z widget) (g : gui) : gui :=
  Gui (wins g) m (window_list_head g) (window_list_tail g) (last_buttons g) (dragged_window g) (drag_off_x g) (drag_off_y g).
Definition with_ends (h t : Z) (g : gui) : gui :=
  Gui (wins g) (widgets g) h t (last_buttons g) (dragged_window g) (drag_off_x g) (drag_off_y g).
Definition with_drag (d ox oy : Z) (g : gui) : gui :=
  Gui (wins g) (widgets g) (window_list_head g) (window_list_tail g) (last_buttons g) d ox oy.
Definition with_buttons (b : Z) (g : gui) : gui :=
  Gui (wins g) (widgets g) (window_list_head g) (window_list_tail g) b (dragged_window g) (drag_off_x g) (drag_off_y g).

Definition set_frame (f : frame) (x : window) : window := Window f (widgets_head x) (widgets_tail x) (w_next x) (w_prev x).
Definition set_widgets (h t : Z) (x : window) : window := Window (w_frame x) h t (w_next x) (w_prev x).
Definition set_control (c : control) (x : widget) : widget := Widget c (wd_next x) (wd_prev x).
Definition move_to (x y : Z) (f : frame) : frame := Frame x y (f_w f) (f_h f) (f_title f) (f_color f) (f_active f).

Definition gui_init (g : gui) : gui := with_ends 0 0 g.

(** "Tikla Bana", "Tiklandi!" and the texts of the windows. *)
Definition tikla_bana : list Z := [84; 105; 107; 108; 97; 32; 66; 97; 110; 97; 0].
Definition tiklandi : list Z := [84; 105; 107; 108; 97; 110; 100; 105; 33; 0].
Definition ui_test_paneli : list Z := [85; 73; 32; 84; 101; 115; 116; 32; 80; 97; 110; 101; 108; 105; 0].
Definition merhaba : list Z := [77; 101; 114; 104; 97; 98; 97; 32; 80; 101; 107; 101; 114; 79; 83; 32; 71; 85; 73; 33; 0].
Definition terminal_title : list Z := [84; 101; 114; 109; 105; 110; 97; 108; 0].
Definition dosyalar : list Z := [68; 111; 115; 121; 97; 108; 97; 114; 0].

(** The only function a widget's [on_click] is set to. *)
Definition TEST_BTN_CLICK : Z := 1.

Definition test_btn_click (c : control) : option control :=
  r ← strcmp (c_text c) tikla_bana;
  let set t bg := Control (c_type c) (c_x c) (c_y c) (c_w c) (c_h c) t bg (c_fg c) (c_click c) in
  if r =? 0 then t ← strcpy (c_text c) tiklandi; Some (set t 0x002ED573)
  else t ← strcpy (c_text c) tikla_bana; Some (set t 0x00DFE4EA).

Section gui.
(** [kmalloc] for windows and for widgets. *)
Variables kmalloc_window kmalloc_widget : gui -> option Z.

Definition gui_destroy_window (win : Z) (g : gui) : option gui :=
  if win =? 0 then Some g else
  m ← unlink win (wins g);
  x ← m !! win;
  let h := if win =? window_list_head g then w_next x else window_list_head g in
  let t := if win =? window_list_tail g then w_prev x else window_list_tail g in
  Some (with_ends h t (with_wins (delete win m) g)).

Definition gui_bring_to_front (win : Z) (g : gui) : option gui :=
  if (win =? 0) || (win =? window_list_tail g) then Some g else
  m ← unlink win (wins g);
  x ← m !! win;
  let h := if win =? window_list_head g then w_next x else window_list_head g in
  m ← upd win (set_nxt 0) m;
  m ← upd win (set_prv (window_list_tail g)) m;
  m ← (if window_list_tail g =? 0 then Some m else upd (window_list_tail g) (set_nxt win) m);
  Some (with_ends (if h =? 0 then win else h) win (with_wins m g)).

Definition gui_create_window (title : list Z) (x y w h color : Z) (g : gui) : option (Z * gui) :=
  win ← kmalloc_window g;
  t ← strcpy (replicate 64 0) title;
  let m := <[win := Window (Frame x y w h t color 1) 0 0 0 0]> (wins g) in
  if window_list_head g =? 0 then Some (win, with_ends win win (with_wins m g))
  else
    m ← upd (window_list_tail g) (set_nxt win) m;
    m ← upd win (set_prv (window_list_tail g)) m;
    Some (win, with_ends (window_list_head g) win (with_wins m g)).

(** The new widget [p] goes behind the last one of the window. *)
Definition add_widget (win p : Z) (g : gui) : option gui :=
  x ← wins g !! win;
  if widgets_head x =? 0 then Some (with_wins (<[win := set_widgets p p x]> (wins g)) g)
  else
    m ← upd (widgets_tail x) (set_nxt p) (widgets g);
    m ← upd p (set_prv (widgets_tail x)) m;
    Some (with_wins (<[win := set_widgets (widgets_head x) p x]> (wins g)) (with_widgets m g)).

Definition gui_create_button (win x y w h : Z) (text : list Z) (on_click : Z) (g : gui) : option (Z * gui) :=
  if win =? 0 then Some (0, g) else
  btn ← kmalloc_widget g;
  t ← strcpy (replicate 64 0) text;
  let c := Control WIDGET_BUTTON x y w h t 0x00DFE4EA 0x002F3542 on_click in
  g ← add_widget win btn (with_widgets (<[btn := Widget c 0 0]> (widgets g)) g);
  Some (btn, g).

Definition gui_create_label (win x y : Z) (text : list Z) (color : Z) (g : gui) : option (Z * gui) :=
  if win =? 0 then Some (0, g) else
  lbl ← kmalloc_widget g;
  t ← strcpy (replicate 64 0) text;
  let c := Control WIDGET_LABEL x y 0 0 t 0 color 0 in
  g ← add_widget win lbl (with_widgets (<[lbl := Widget c 0 0]> (widgets g)) g);
  Some (lbl, g).

(** ** The mouse *)

Definition in_box (x y bx by_ bw bh : Z) : bool := (bx <=? x) && (x <=? bx + bw) && (by_ <=? y) && (y <=? by_ + bh).
Definition in_window (x y : Z) (f : frame) : bool := in_box x y (f_x f) (f_y f) (f_w f) (f_h f).
Definition on_close (x y : Z) (f : frame) : bool :=
  (f_x f + f_w f - 20 <=? x) && (x <=? f_x f + f_w f - 5) && (f_y f + 5 <=? y) && (y <=? f_y f + 20).
Definition in_control (x y : Z) (f : frame) (c : control) : bool := in_box x y (f_x f + c_x c) (f_y f + c_y c) (c_w c) (c_h c).

(** The icons on the left. *)
Definition click_icons (x y : Z) (g : gui) : option gui :=
  if negb (x <? 100) then Some g else
  if (40 <=? y) && (y <=? 90) then
    '(w, g) ← gui_create_window ui_test_paneli 200 150 400 250 0x00F39C12 g;
    '(_, g) ← gui_create_label w 20 40 merhaba 0x002F3542 g;
    '(_, g) ← gui_create_button w 20 80 120 30 tikla_bana TEST_BTN_CLICK g;
    Some g
  else if (110 <=? y) && (y <=? 160) then snd <$> gui_create_window terminal_title 100 100 500 350 0x00000000 g
  else if (180 <=? y) && (y <=? 230) then snd <$> gui_create_window dosyalar 300 200 450 300 0x003498DB g
  else Some g.

(** The loop from the window in front to the one at the back. *)
Fixpoint find_window (fuel : nat) (curr x y : Z) (g : gui) : option Z :=
  match fuel with
  | O => None
  | S fuel =>
      if curr =? 0 then Some 0 else
      w ← wins g !! curr;
      if in_window x y (w_frame w) then Some curr else find_window fuel (w_prev w) x y g
  end.

(** The loop over the widgets of a window. *)
Fixpoint click_widget (fuel : nat) (p x y : Z) (f : frame) (g : gui) : option gui :=
  match fuel with
  | O => None
  | S fuel =>
      if p =? 0 then Some g else
      w ← widgets g !! p;
      if in_control x y f (w_control w) then
        if negb (c_click (w_control w) =? 0) then
          c ← test_btn_click (w_control w); Some (with_widgets (<[p := set_control c w]> (widgets g)) g)
        else Some g
      else click_widget fuel (wd_next w) x y f g
  end.

Definition click_windows (x y : Z) (g : gui) : option gui :=
  curr ← find_window (S (size (wins g))) (window_list_tail g) x y g;
  if curr =? 0 then Some g else
  w ← wins g !! curr;
  if on_close x y (w_frame w) then gui_destroy_window curr g else
  g ← gui_bring_to_front curr g;
  w ← wins g !! curr;
  if y <=? f_y (w_frame w) + 25 then Some (with_drag curr (x - f_x (w_frame w)) (y - f_y (w_frame w)) g)
  else click_widget (S (size (widgets g))) (widgets_head w) x y (w_frame w) g.

Definition pressed (buttons : Z) : bool := negb (Z.land buttons 1 =? 0).

Definition gui_on_mouse_event (x y buttons : Z) (g : gui) : option gui :=
  let left_click := pressed buttons && negb (pressed (last_buttons g)) in
  let left_release := negb (pressed buttons) && pressed (last_buttons g) in
  g ← (if left_click then g ← click_icons x y g; click_windows x y g else Some g);
  let g := if left_release then with_drag 0 (drag_off_x g) (drag_off_y g) g else g in
  g ← (if negb (dragged_window g =? 0) && pressed buttons then
         m ← upd (dragged_window g) (fun w => set_frame (move_to (x - drag_off_x g) (y - drag_off_y g) (w_frame w)) w) (wins g);
         Some (with_wins m g)
       else Some g);
  Some (with_buttons buttons g).

Fixpoint mouse_events (evs : list (Z * Z * Z)) (g : gui) : option gui :=
  match evs with
  | [] => Some g
  | (x, y, b) :: evs => g ← gui_on_mouse_event x y b g; mouse_events evs g
  end.
End gui.

(** ** The desktop *)

Record awindow := AWindow { aw_frame : frame; aw_controls : list control }.
Record desktop := Desktop { d_windows : list awindow; d_drag : option (Z * Z); d_buttons : Z }.

(** The last element with a property, and what is around it. *)
Fixpoint split_last {A} (P : A -> bool) (l : list A) : option (list A * A * list A) :=
  match l with
  | [] => None
  | a :: l =>
      match split_last P l with
      | Some (l1, b, l2) => Some (a :: l1, b, l2)
      | None => if P a then Some ([], a, l) else None
      end
  end.

Definition text_of (s : list Z) : list Z := default [] (strcpy (replicate 64 0) s).

Definition icons (x y : Z) : list awindow :=
  if negb (x <? 100) then [] else
  if (40 <=? y) && (y <=? 90) then
    [AWindow (Frame 200 150 400 250 (text_of ui_test_paneli) 0x00F39C12 1)
       [Control WIDGET_LABEL 20 40 0 0 (text_of merhaba) 0 0x002F3542 0;
        Control WIDGET_BUTTON 20 80 120 30 (text_of tikla_bana) 0x00DFE4EA 0x002F3542 TEST_BTN_CLICK]]
  else if (110 <=? y) && (y <=? 160) then [AWindow (Frame 100 100 500 350 (text_of terminal_title) 0x00000000 1) []]
  else if (180 <=? y) && (y <=? 230) then [AWindow (Frame 300 200 450 300 (text_of dosyalar) 0x003498DB 1) []]
  else [].

(** A click on the first control under the pointer. *)
Fixpoint click_controls (x y : Z) (f : frame) (cs : list control) : list control :=
  match cs with
  | [] => []
  | c :: cs =>
      if in_control x y f c then (if negb (c_click c =? 0) then default c (test_btn_click c) else c) :: cs
      else c :: click_controls x y f cs
  end.

(** The window in front under the pointer is closed, or comes to the front and
    is grabbed by its title or gets the click. *)
Definition click (x y : Z) (l : list awindow) (drag : option (Z * Z)) : list awindow * option (Z * Z) :=
  match split_last (fun w => in_window x y (aw_frame w)) l with
  | None => (l, drag)
  | Some (l1, w, l2) =>
      let f := aw_frame w in
      if on_close x y f then (l1 ++ l2, drag)
      else if y <=? f_y f + 25 then (l1 ++ l2 ++ [w], Some (x - f_x f, y - f_y f))
      else (l1 ++ l2 ++ [AWindow f (click_controls x y f (aw_controls w))], drag)
  end.

Fixpoint move_last (x y : Z) (l : list awindow) : list awindow :=
  match l with
  | [] => []
  | [w] => [AWindow (move_to x y (aw_frame w)) (aw_controls w)]
  | w :: l => w :: move_last x y l
  end.

Definition desktop_event (x y buttons : Z) (d : desktop) : desktop :=
  let left_click := pressed buttons && negb (pressed (d_buttons d)) in
  let left_release := negb (pressed buttons) && pressed (d_buttons d) in
  let '(l, drag) := if left_click then click x y (d_windows d ++ icons x y) (d_drag d) else (d_windows d, d_drag d) in
  let drag := if left_release then None else drag in
  let l := match drag with Some (ox, oy) => if pressed buttons then move_last (x - ox) (y - oy) l else l | None => l end in
  Desktop l drag buttons.

Fixpoint desktop_events (evs : list (Z * Z * Z)) (d : desktop) : desktop :=
  match evs with [] => d | (x, y, b) :: evs => desktop_events evs (desktop_event x y b d) end.

(** ** The desktop in memory *)

(** A window with its address and those of its widgets. *)
Definition placed : Type := Z * list Z * awindow.
Definition addr (o : placed) : Z := o.1.1.
Definition parts (o : placed) : list Z := o.1.2.

Definition control_ok (c : control) : Prop := length (c_text c) = 64%nat /\ is_Some (content (c_text c)).
Definition window_body (w : window) : frame * Z * Z := (w_frame w, widgets_head w, widgets_tail w).

Record window_ok (ws : gmap Z window) (cs : gmap Z widget) (o : placed) : Prop := {
  wo_body : window_body <$> ws !! addr o = Some (aw_frame o.2, first_of 0 (parts o), last_of 0 (parts o));
  wo_links : dlist cs (parts o);
  wo_controls : Forall2 (fun p c => w_control <$> cs !! p = Some c) (parts o) (aw_controls o.2);
  wo_texts : Forall control_ok (aw_controls o.2);
  wo_title : is_Some (content (f_title (aw_frame o.2)))
}.

Record placed_at (O : list placed) (g : gui) : Prop := {
  r_links : dlist (wins g) (addr <$> O);
  r_ends : window_list_head g = first_of 0 (addr <$> O) /\ window_list_tail g = last_of 0 (addr <$> O);
  r_each : Forall (window_ok (wins g) (widgets g)) O;
  r_apart : NoDup (mjoin (parts <$> O))
}.

Definition drag_ok (O : list placed) (drag : option (Z * Z)) (g : gui) : Prop :=
  match drag with
  | None => dragged_window g = 0
  | Some (ox, oy) => dragged_window g = window_list_tail g /\ O <> [] /\ drag_off_x g = ox /\ drag_off_y g = oy
  end.

(** The windows of [g] are those of the desktop; a window is only dragged while
    the button is down. *)
Definition shows (g : gui) (d : desktop) : Prop :=
  exists O, placed_at O g /\ O.*2 = d_windows d /\ last_buttons g = d_buttons d /\ drag_ok O (d_drag d) g /\
    (is_Some (d_drag d) -> pressed (d_buttons d) = true).

(** *** Looking for a window and for a control *)

Lemma split_last_snoc {A} (P : A -> bool) l a :
  split_last P (l ++ [a]) = if P a then Some (l, a, []) else (fun '(l1, b, l2) => (l1, b, l2 ++ [a])) <$> split_last P l.
Proof.
  induction l as [|b l IH]; cbn; [by destruct (P a)|]. rewrite IH. destruct (P a); [done|].
  destruct (split_last P l) as [[[l1 c] l2]|]; cbn; [done|]. by destruct (P b).
Qed.

Lemma split_last_Some {A} (P : A -> bool) l l1 a l2 : split_last P l = Some (l1, a, l2) -> l = l1 ++ a :: l2 /\ P a = true.
Proof.
  revert l1 a l2. induction l as [|b l IH]; intros l1 a l2; cbn; [done|]. destruct (split_last P l) as [[[k1 c] k2]|].
  - intros [= <- <- <-]. by destruct (IH _ _ _ eq_refl) as [-> ?].
  - destruct (P b) eqn:Eb; [|done]. by intros [= <- <- <-].
Qed.

Lemma window_lookup ws cs o : window_ok ws cs o -> exists w, ws !! addr o = Some w /\ w_frame w = aw_frame o.2 /\
  widgets_head w = first_of 0 (parts o) /\ widgets_tail w = last_of 0 (parts o).
Proof. intros [E _ _ _ _]. destruct (ws !! addr o) as [w|]; [|done]. injection E as <- <- <-. eauto. Qed.

Lemma find_window_ok x y g O2 : forall O1 fuel,
  dlist (wins g) (addr <$> O1 ++ O2) -> Forall (window_ok (wins g) (widgets g)) O1 -> (length O1 < fuel)%nat ->
  find_window fuel (last_of 0 (addr <$> O1)) x y g =
    Some match split_last (fun o : placed => in_window x y (aw_frame o.2)) O1 with None => 0 | Some (_, o, _) => addr o end.
Proof.
  intros O1. revert O2. induction O1 as [|o O1 IH] using rev_ind; intros O2 fuel Hl Hw Hf; (destruct fuel as [|fuel]; [lia|]); cbn [find_window]; [done|].
  rewrite fmap_app. cbn [fmap list_fmap]. rewrite last_of_snoc, split_last_snoc. apply Forall_app in Hw as [Hw Ho%Forall_inv].
  destruct (window_lookup _ _ _ Ho) as (w & Hwin & Hfr & _). rewrite !fmap_app, <- app_assoc in Hl. cbn [fmap list_fmap app] in Hl.
  destruct (dseg_mid _ _ _ _ _ _ (proj1 Hl)) as (H0 & w' & Hw' & Hp & _). rewrite Hwin in Hw'. injection Hw' as <-.
  rewrite (proj2 (Z.eqb_neq _ _) H0), Hwin. cbn [mbind option_bind]. rewrite Hfr. destruct (in_window x y (aw_frame o.2)); [done|].
  cbn [prv window_linked] in Hp. rewrite Hp. rewrite (IH (o :: O2)); [|by rewrite fmap_app|done|rewrite length_app in Hf; cbn in Hf; lia].
  by destruct (split_last _ O1) as [[[? ?] ?]|].
Qed.

Lemma nodup_size {A} (m : gmap Z A) l : NoDup l -> (forall a, a ∈ l -> is_Some (m !! a)) -> (length l <= size m)%nat.
Proof.
  intros Hn Hm. rewrite <- size_dom. rewrite <- (size_list_to_set (C := gset Z) l Hn). apply subseteq_size.
  intros a Ha%elem_of_list_to_set. by apply elem_of_dom, Hm.
Qed.

Lemma dlist_size {A} `{!Linked A} (m : gmap Z A) l : dlist m l -> (length l <= size m)%nat.
Proof. intros [H Hn]. apply nodup_size; [done|]. intros a. by apply (dseg_lookup m l 0 0). Qed.

(** *** Texts and controls *)

Lemma strcpy_text t s l : length t = 64%nat -> content s = Some l -> (length l < 64)%nat ->
  exists t', strcpy t s = Some t' /\ length t' = 64%nat /\ is_Some (content t').
Proof.
  intros Ht Hs Hl. rewrite (strcpy_eq t s l Hs) by lia. eexists. split; [done|]. split.
  - rewrite length_app. cbn [length]. rewrite length_drop. lia.
  - pose proof (strcpy_eq t s l Hs ltac:(lia)) as E. clear E. assert (Hz : forall k : list Z, is_Some (content (l ++ 0 :: k))).
    { clear -Hs. revert s Hs. induction l as [|c l IH]; intros s Hs k; [cbn; eauto|].
      destruct s as [|c' s]; [done|]. cbn in Hs. destruct (c' =? 0) eqn:E; [done|]. destruct (content s) as [l'|] eqn:El; [|done]. cbn in Hs.
      injection Hs as -> ->. cbn. rewrite E. destruct (IH s El k) as [l'' ->]. by eexists. }
    apply Hz.
Qed.

Lemma strcpy_content d : forall s t, strcpy d s = Some t -> is_Some (content t).
Proof.
  induction d as [|x d IH]; intros s t H; destruct s as [|c s]; try discriminate H. cbn [strcpy] in H. destruct (c =? 0) eqn:E.
  - injection H as <-. by eexists.
  - destruct (strcpy d s) as [t'|] eqn:Et; [|discriminate H]. injection H as <-. cbn [content]. rewrite E. destruct (IH s t' Et) as [l ->]. by eexists.
Qed.

Lemma test_btn_click_ok c : control_ok c -> exists c', test_btn_click c = Some c' /\ control_ok c'.
Proof.
  intros [Hl [t Ht]]. unfold test_btn_click. destruct (strcmp_eq0 (c_text c) tikla_bana t _ Ht eq_refl) as (r & -> & _). cbn [mbind option_bind].
  destruct (strcpy_text (c_text c) tiklandi _ Hl eq_refl) as (t1 & -> & ? & ?); [cbn; lia|].
  destruct (strcpy_text (c_text c) tikla_bana _ Hl eq_refl) as (t2 & -> & ? & ?); [cbn; lia|].
  destruct (r =? 0); (eexists; split; [reflexivity|by split]).
Qed.

Definition control_at (m : gmap Z widget) (p : Z) (c : control) : Prop := w_control <$> m !! p = Some c.

Lemma controls_frame m m' ps cs : (forall p, p ∈ ps -> m' !! p = m !! p) -> Forall2 (control_at m) ps cs -> Forall2 (control_at m') ps cs.
Proof. intros Hm H. induction H; constructor; [unfold control_at; rewrite Hm by left; done|]. apply IHForall2. intros p Hp. apply Hm. by right. Qed.

Lemma click_widget_ok x y f g : forall ps p cs fuel,
  dseg (widgets g) p ps 0 -> NoDup ps -> Forall2 (control_at (widgets g)) ps cs -> Forall control_ok cs -> (length ps < fuel)%nat ->
  exists m, click_widget fuel (first_of 0 ps) x y f g = Some (with_widgets m g) /\ same_links (widgets g) m /\
    Forall2 (control_at m) ps (click_controls x y f cs) /\ Forall control_ok (click_controls x y f cs) /\
    forall q, q ∉ ps -> m !! q = widgets g !! q.
Proof.
  induction ps as [|q ps IH]; intros p cs fuel Hd Hn Hc Ht Hf; (destruct fuel as [|fuel]; [cbn in Hf; lia|]); cbn [click_widget first_of head default from_option id].
  - apply Forall2_nil_inv_l in Hc as ->. exists (widgets g). split; [by destruct g|]. by split.
  - apply Forall2_cons_inv_l in Hc as (c & cs' & Hq & Hc & ->). apply Forall_cons in Ht as [Hco Ht]. apply NoDup_cons in Hn as [Hnq Hn].
    destruct Hd as (H0 & (w & Hw & _ & Hnx) & Hd). unfold first_of. cbn [head default from_option id]. rewrite (proj2 (Z.eqb_neq q 0)), Hw by done. cbn [mbind option_bind].
    unfold control_at in Hq. rewrite Hw in Hq. injection Hq as Hwc. cbn [click_controls]. rewrite Hwc. destruct (in_control x y f c).
    + destruct (c_click c =? 0); cbn [negb].
      * exists (widgets g). split; [by destruct g|]. split; [done|]. split; [|split; [by constructor|done]].
        constructor; [|done]. unfold control_at. rewrite Hw. cbn. by rewrite Hwc.
      * destruct (test_btn_click_ok c Hco) as (c' & -> & Hco'). cbn [mbind option_bind default from_option id]. eexists. split; [done|].
        split; [by eapply same_links_insert|]. split; [|split; [by constructor|]].
        { constructor; [unfold control_at; by rewrite lookup_insert_eq|]. eapply controls_frame; [|exact Hc]. intros b Hb. rewrite lookup_insert_ne; [done|]. by intros <-. }
        intros b Hb. rewrite lookup_insert_ne; [done|]. intros <-. apply Hb. by left.
    + cbn [nxt widget_linked] in Hnx. rewrite Hnx. destruct (IH q cs' fuel Hd Hn Hc Ht ltac:(cbn in Hf; lia)) as (m & E & Hl & Hc' & Ht' & Hm).
      exists m. split; [exact E|]. split; [done|]. split; [|split; [by constructor|]].
      * constructor; [|done]. unfold control_at. rewrite Hm by done. rewrite Hw. cbn. by rewrite Hwc.
      * intros b Hb. apply Hm. set_solver.
Qed.

(** *** Windows *)

Lemma window_ok_frame ws ws' cs cs' o :
  window_body <$> ws' !! addr o = window_body <$> ws !! addr o -> (forall p, p ∈ parts o -> cs' !! p = cs !! p) ->
  window_ok ws cs o -> window_ok ws' cs' o.
Proof.
  intros Hw Hc [H1 H2 H3 H4 H5]. split; [by rewrite Hw|by eapply dlist_frame|by eapply controls_frame|done|done].
Qed.

Lemma each_frame ws ws' cs O : same_bodies window_body ws ws' -> Forall (window_ok ws cs) O -> Forall (window_ok ws' cs) O.
Proof. intros Hs HF. eapply Forall_impl; [exact HF|]. intros o. by apply window_ok_frame. Qed.

Definition same_mouse (g g' : gui) : Prop :=
  last_buttons g' = last_buttons g /\ dragged_window g' = dragged_window g /\ drag_off_x g' = drag_off_x g /\ drag_off_y g' = drag_off_y g.

Lemma addr_split O1 o O2 : addr <$> O1 ++ o :: O2 = (addr <$> O1) ++ addr o :: (addr <$> O2).
Proof. by rewrite fmap_app. Qed.

Lemma parts_split O1 o O2 : mjoin (parts <$> O1 ++ o :: O2) = mjoin (parts <$> O1) ++ parts o ++ mjoin (parts <$> O2).
Proof. by rewrite fmap_app, join_app. Qed.

(** The list without one of its windows: the list, its first and its last. *)
Lemma unlink_window O1 o O2 g : placed_at (O1 ++ o :: O2) g ->
  exists m x, unlink (addr o) (wins g) = Some m /\ m !! addr o = Some x /\ dlist m (addr <$> O1 ++ O2) /\
    same_bodies window_body (wins g) m /\ addr o <> 0 /\ addr o ∉ addr <$> O1 ++ O2 /\
    (if addr o =? window_list_head g then w_next x else window_list_head g) = first_of 0 (addr <$> O1 ++ O2) /\
    (if addr o =? window_list_tail g then w_prev x else window_list_tail g) = last_of 0 (addr <$> O1 ++ O2).
Proof.
  intros [Hl [Hh Ht] _ _]. rewrite addr_split in Hl, Hh, Ht.
  destruct (unlink_ok window_body ltac:(done) ltac:(done) (wins g) _ _ _ Hl) as (m & E & Hl' & Hs & Hm).
  destruct (dseg_mid _ _ _ _ _ _ (proj1 Hl)) as (H0 & x & Hx & Hp & Hn). destruct Hl as [_ Hnd].
  assert (Hno : addr o ∉ (addr <$> O1) ++ (addr <$> O2)).
  { apply NoDup_app in Hnd as (_ & Hd & [Hn2 _]%NoDup_cons). intros [Hc|Hc]%elem_of_app; [|done]. apply (Hd _ Hc). by left. }
  exists m, x. rewrite Hm by done. rewrite !fmap_app. split_and!; try done.
  - rewrite Hh. destruct O1 as [|b O1]; cbn; [by rewrite Z.eqb_refl|]. rewrite (proj2 (Z.eqb_neq _ _)); [done|].
    intros Hc. apply Hno. rewrite Hc. by left.
  - rewrite Ht. destruct O2 as [|b O2 _] using rev_ind; cbn [fmap list_fmap].
    + rewrite last_of_snoc, Z.eqb_refl, app_nil_r. exact Hp.
    + rewrite fmap_app. cbn [fmap list_fmap]. rewrite app_comm_cons, !app_assoc, !last_of_snoc. rewrite (proj2 (Z.eqb_neq _ _)); [done|].
      intros Hc. apply Hno. rewrite Hc, fmap_app. set_solver.
Qed.

Lemma apart_drop O1 o O2 : NoDup (mjoin (parts <$> O1 ++ o :: O2)) -> NoDup (mjoin (parts <$> O1 ++ O2)).
Proof.
  rewrite parts_split, fmap_app, join_app. intros (N1 & N12 & (_ & _ & N2)%NoDup_app)%NoDup_app. apply NoDup_app.
  split; [done|]. split; [|done]. intros p Hp Hc. apply (N12 p Hp). set_solver.
Qed.

Lemma gui_destroy_window_ok O1 o O2 g : placed_at (O1 ++ o :: O2) g ->
  exists g', gui_destroy_window (addr o) g = Some g' /\ placed_at (O1 ++ O2) g' /\ same_mouse g g' /\ widgets g' = widgets g.
Proof.
  intros H. destruct (unlink_window _ _ _ _ H) as (m & x & E & Hx & Hl & Hs & H0 & Hno & Hh & Ht). unfold gui_destroy_window.
  rewrite (proj2 (Z.eqb_neq _ _) H0), E. cbn [mbind option_bind]. rewrite Hx. cbn [mbind option_bind]. cbv zeta. rewrite Hh, Ht.
  eexists. split; [done|]. split; [|by split]. destruct H as [_ _ Heach Hap]. constructor; cbn [wins widgets with_ends with_wins window_list_head window_list_tail].
  - eapply dlist_frame; [|exact Hl]. intros a Ha. rewrite lookup_delete_ne; [done|]. by intros <-.
  - done.
  - apply Forall_app in Heach as [F1 [_ F2]%Forall_cons]. rewrite Forall_forall. intros o' Ho'.
    assert (Hok : window_ok (wins g) (widgets g) o').
    { apply elem_of_app in Ho' as [Ho'|Ho']; [by rewrite Forall_forall in F1; apply F1|by rewrite Forall_forall in F2; apply F2]. }
    eapply window_ok_frame; [|done|exact Hok]. rewrite lookup_delete_ne; [apply Hs|].
    intros Hc. apply Hno. rewrite Hc. by apply list_elem_of_fmap_2.
  - by eapply apart_drop.
Qed.

Lemma gui_bring_to_front_ok O1 o O2 g : placed_at (O1 ++ o :: O2) g ->
  exists g', gui_bring_to_front (addr o) g = Some g' /\ placed_at (O1 ++ O2 ++ [o]) g' /\ same_mouse g g' /\ widgets g' = widgets g /\
    window_list_tail g' = addr o.
Proof.
  intros H. destruct (unlink_window _ _ _ _ H) as (m & x & E & Hx & Hl & Hs & H0 & Hno & Hh & Ht). unfold gui_bring_to_front.
  rewrite (proj2 (Z.eqb_neq _ _) H0). cbn [orb]. pose proof H as [[_ Hnd] [_ Htail] Heach Hap].
  destruct (Z.eqb_spec (addr o) (window_list_tail g)) as [Etail|Hntail].
  { assert (O2 = []) as ->.
    { destruct O2 as [|b O2 _] using rev_ind; [done|]. rewrite Htail in Etail. rewrite app_comm_cons, app_assoc, fmap_app in Etail. cbn [fmap list_fmap] in Etail.
      rewrite last_of_snoc in Etail. destruct Hno. rewrite Etail, !fmap_app. set_solver. }
    exists g. split; [done|]. split; [done|]. by split. }
  rewrite E. cbn [mbind option_bind]. rewrite Hx. cbn [mbind option_bind]. cbv zeta. rewrite Hh.
  unfold upd. rewrite Hx. cbn [mbind option_bind]. rewrite lookup_insert_eq. cbn [mbind option_bind]. rewrite insert_insert_eq.
  destruct O2 as [|b O2 _] using rev_ind; [rewrite Htail, addr_split in Hntail; cbn [fmap list_fmap] in Hntail; by rewrite last_of_snoc in Hntail|].
  assert (Hlast : last (addr <$> O1 ++ O2 ++ [b]) = Some (addr b)) by (rewrite app_assoc, fmap_app; apply last_snoc).
  assert (Etail : window_list_tail g = addr b) by (rewrite Htail, app_comm_cons, app_assoc, fmap_app; apply last_of_snoc).
  set (x' := set_nxt 0 x). assert (Hl' : dlist (<[addr o := x']> m) (addr <$> O1 ++ O2 ++ [b])).
  { eapply dlist_frame; [|exact Hl]. intros a Ha. rewrite lookup_insert_ne; [done|]. by intros <-. }
  destruct (append_ok window_body ltac:(done) ltac:(done) _ _ (addr b) (addr o) x' Hl' Hlast Hno H0 (lookup_insert_eq _ _ _) eq_refl)
    as (y & Hy & Hd & Hcomm & Hs').
  assert (Hbo : addr b <> addr o) by (intros Hc; apply Hno; rewrite <- Hc; rewrite !fmap_app; set_solver).
  assert (Hb0 : addr b <> 0).
  { pose proof (dseg_nonzero _ _ _ _ (proj1 Hl)) as Hz. rewrite Forall_forall in Hz. apply Hz. rewrite !fmap_app. set_solver. }
  rewrite Hcomm, insert_insert_eq in Hd, Hs'. rewrite Etail. rewrite (proj2 (Z.eqb_neq _ _) Hb0).
  rewrite lookup_insert_ne in Hy by congruence. rewrite lookup_insert_ne by congruence. rewrite Hy. cbn [mbind option_bind].
  assert (Hf0 : first_of 0 (addr <$> O1 ++ O2 ++ [b]) <> 0).
  { intros Hc. apply (first_of_zero _ _ _ _ (proj1 Hl)) in Hc. rewrite !fmap_app in Hc. by destruct (addr <$> O1), (addr <$> O2). }
  rewrite (proj2 (Z.eqb_neq _ _) Hf0). eexists. split; [done|]. split; [|by split].
  replace (O1 ++ (O2 ++ [b]) ++ [o]) with ((O1 ++ O2 ++ [b]) ++ [o]) by by rewrite <- !app_assoc.
  assert (Hperm : O1 ++ o :: O2 ++ [b] ≡ₚ (O1 ++ O2 ++ [b]) ++ [o]) by by rewrite <- Permutation_middle, Permutation_cons_append.
  constructor; cbn [wins widgets with_ends with_wins window_list_head window_list_tail].
  - pose proof (fmap_app addr (O1 ++ O2 ++ [b]) [o]) as ->. exact Hd.
  - pose proof (fmap_app addr (O1 ++ O2 ++ [b]) [o]) as ->. clear -Hf0. revert Hf0. generalize (addr <$> O1 ++ O2 ++ [b]). intros l Hl.
    split; [by destruct l|]. cbn [fmap list_fmap]. by rewrite last_of_snoc.
  - eapply (each_frame (wins g)).
    + etransitivity; [exact Hs|]. etransitivity; [|exact Hs']. by eapply same_bodies_insert.
    + by rewrite <- Hperm.
  - by rewrite <- Hperm.
Qed.

(** One window changes, with its widgets. *)
Lemma placed_replace O1 o o' O2 g g' : placed_at (O1 ++ o :: O2) g ->
  addr o' = addr o -> same_links (wins g) (wins g') -> (forall b, b <> addr o -> wins g' !! b = wins g !! b) ->
  window_list_head g' = window_list_head g -> window_list_tail g' = window_list_tail g ->
  (forall q, q ∉ parts o -> is_Some (widgets g !! q) -> widgets g' !! q = widgets g !! q) ->
  window_ok (wins g') (widgets g') o' -> NoDup (parts o') -> (forall q, q ∈ parts o' -> q ∈ parts o \/ widgets g !! q = None) ->
  placed_at (O1 ++ o' :: O2) g'.
Proof.
  intros [Hl [Hh Ht] Heach Hap] Ea Hlk Hw Eh Et Hq Ho' Hno' Hp'. pose proof (proj2 Hl) as Hnd. rewrite addr_split in Hnd, Hh, Ht.
  apply NoDup_app in Hnd as (_ & Hd & [Hn2 _]%NoDup_cons).
  rewrite parts_split in Hap. apply NoDup_app in Hap as (N1 & N12 & (N0 & N02 & N2)%NoDup_app).
  apply Forall_app in Heach as [F1 [_ F2]%Forall_cons].
  assert (Hlive : forall u, u ∈ O1 ++ O2 -> window_ok (wins g) (widgets g) u).
  { intros u [Hu|Hu]%elem_of_app; [by rewrite Forall_forall in F1; apply F1|by rewrite Forall_forall in F2; apply F2]. }
  assert (Hpl : forall u q, u ∈ O1 ++ O2 -> q ∈ parts u -> is_Some (widgets g !! q)).
  { intros u q Hu Hqu. destruct (Hlive u Hu) as [_ [Hdl _] _ _ _]. by apply (dseg_lookup _ _ _ _ _ Hdl). }
  assert (Hother : forall u q, u ∈ O1 ++ O2 -> q ∈ parts u -> q ∉ parts o).
  { intros u q [Hu|Hu]%elem_of_app Hqu Hc.
    - apply (N12 q); [|set_solver]. apply list_elem_of_join. exists (parts u). split; [done|by apply list_elem_of_fmap_2].
    - apply (N02 q Hc). apply list_elem_of_join. exists (parts u). split; [done|by apply list_elem_of_fmap_2]. }
  assert (Hok : forall u, u ∈ O1 ++ O2 -> window_ok (wins g') (widgets g') u).
  { intros u Hu. eapply window_ok_frame; [| |exact (Hlive u Hu)].
    - rewrite Hw; [done|]. intros Hc. apply elem_of_app in Hu as [Hu|Hu].
      + apply (Hd (addr u)); [by apply list_elem_of_fmap_2|]. rewrite Hc. by left.
      + apply Hn2. rewrite <- Hc. by apply list_elem_of_fmap_2.
    - intros q Hqu. apply Hq; [by eapply Hother|by eapply Hpl]. }
  assert (Hnew : forall u q, u ∈ O1 ++ O2 -> q ∈ parts u -> q ∉ parts o').
  { intros u q Hu Hqu Hc. destruct (Hp' q Hc) as [Hc'|Hc']; [by eapply Hother|]. destruct (Hpl u q Hu Hqu) as [y Hy]. congruence. }
  constructor.
  - rewrite addr_split, Ea, <- addr_split. by eapply dlist_links.
  - by rewrite Eh, Et, addr_split, Ea.
  - apply Forall_app. split; [|constructor; [done|]]; apply Forall_forall; intros u Hu; apply Hok; set_solver.
  - rewrite parts_split. apply NoDup_app. split; [done|]. split.
    + intros q (l & Hql & (u & -> & Hu)%list_elem_of_fmap)%list_elem_of_join [Hc|Hc]%elem_of_app; [eapply (Hnew u); set_solver|].
      apply (N12 q); [apply list_elem_of_join; exists (parts u); split; [done|by apply list_elem_of_fmap_2]|set_solver].
    + apply NoDup_app. split; [done|]. split; [|done].
      intros q Hqo (l & Hql & (u & -> & Hu)%list_elem_of_fmap)%list_elem_of_join. eapply (Hnew u); set_solver.
Qed.

Section ops.
Variables kmalloc_window kmalloc_widget : gui -> option Z.
Hypothesis window_fresh : forall g, exists a, kmalloc_window g = Some a /\ a <> 0 /\ wins g !! a = None.
Hypothesis widget_fresh : forall g, exists a, kmalloc_widget g = Some a /\ a <> 0 /\ widgets g !! a = None.

Lemma gui_create_window_ok O g title x y w h color : placed_at O g -> is_Some (strcpy (replicate 64 0) title) ->
  exists a g', gui_create_window kmalloc_window title x y w h color g = Some (a, g') /\
    placed_at (O ++ [((a, []), AWindow (Frame x y w h (text_of title) color 1) [])]) g' /\ same_mouse g g' /\ a <> 0.
Proof.
  intros [Hl [Hh Ht] Heach Hap] [t Hs]. pose proof (strcpy_content _ _ _ Hs) as Htitle. destruct (window_fresh g) as (a & Ea & H0 & Hfr). unfold gui_create_window, text_of. rewrite Ea, Hs. cbn [mbind option_bind default from_option id].
  set (nw := Window (Frame x y w h t color 1) 0 0 0 0).
  assert (Hlive : forall b, b ∈ addr <$> O -> b <> a).
  { intros b Hb ->. destruct (dseg_lookup _ _ _ _ _ (proj1 Hl) Hb). congruence. }
  assert (Hap' : NoDup (mjoin (parts <$> O ++ [(a, [], AWindow (Frame x y w h t color 1) [])]))) by (rewrite fmap_app, join_app; cbn; by rewrite app_nil_r).
  assert (Hin : dlist (<[a:=nw]> (wins g)) (addr <$> O)).
  { eapply dlist_frame; [|exact Hl]. intros b Hb. rewrite lookup_insert_ne; [done|]. intros <-. by apply (Hlive a). }
  assert (Hbody : forall m, same_bodies window_body (<[a:=nw]> (wins g)) m -> Forall (window_ok m (widgets g)) (O ++ [(a, [], AWindow (Frame x y w h t color 1) [])])).
  { intros m Hm. apply Forall_app. split; [|constructor; [|constructor]].
    - rewrite Forall_forall in Heach |- *. intros o Ho. eapply window_ok_frame; [|done|by apply Heach].
      rewrite Hm, lookup_insert_ne; [done|]. intros Hc. apply (Hlive (addr o)); [by apply list_elem_of_fmap_2|done].
    - split; [unfold addr; cbn [fst]; by rewrite Hm, lookup_insert_eq|by split; [|constructor]|constructor|constructor|exact Htitle]. }
  destruct (Z.eqb_spec (window_list_head g) 0) as [Ez|Hnz].
  - rewrite Hh in Ez. apply (first_of_zero _ _ _ _ (proj1 Hl)) in Ez. apply fmap_nil_inv in Ez. subst O. eexists a, _. split; [done|]. split; [|by split].
    constructor; cbn [wins widgets with_ends with_wins window_list_head window_list_tail]; try done; [|by apply Hbody].
    split; [|apply NoDup_singleton]. split; [done|]. split; [|done]. exists nw. by rewrite lookup_insert_eq.
  - assert (exists l, last (addr <$> O) = Some l /\ window_list_tail g = l) as (b & Hb & Eb).
    { rewrite Ht. unfold last_of. destruct (last (addr <$> O)) eqn:E; [by eexists|]. apply last_None in E. by rewrite E in Hh. }
    destruct (append_ok window_body ltac:(done) ltac:(done) _ _ b a nw Hin Hb) as (v & Hv & Hd & Hcomm & Hsame);
      [intros Hc; by apply (Hlive a)|done|apply lookup_insert_eq|done|].
    rewrite Eb. unfold upd. rewrite Hv. cbn [mbind option_bind].
    rewrite lookup_insert_ne, lookup_insert_eq by (intros <-; apply (Hlive b); [|done]; apply last_Some in Hb as [l' ->]; set_solver). cbn [mbind option_bind].
    eexists a, _. split; [done|]. split; [|by split]. constructor; cbn [wins widgets with_ends with_wins window_list_head window_list_tail]; [| |by apply Hbody|done].
    + rewrite fmap_app. exact Hd.
    + rewrite fmap_app. cbn [fmap list_fmap]. rewrite last_of_snoc. split; [|done]. rewrite Hh. clear -Hnz Hh. destruct O; [by rewrite Hh in Hnz|done].
Qed.

Lemma add_widget_ok O1 a ps f cs O2 g p c : placed_at (O1 ++ ((a, ps), AWindow f cs) :: O2) g ->
  widgets g !! p = None -> p <> 0 -> control_ok c ->
  exists g', add_widget a p (with_widgets (<[p := Widget c 0 0]> (widgets g)) g) = Some g' /\
    placed_at (O1 ++ ((a, ps ++ [p]), AWindow f (cs ++ [c])) :: O2) g' /\ same_mouse g g'.
Proof.
  intros H Hp H0 Hc. pose proof H as [_ _ [_ [Ho _]%Forall_cons]%Forall_app _]. pose proof Ho as [_ Hl Hcs Hts Hti].
  destruct (window_lookup _ _ _ Ho) as (x & Hx & Hfr & Hh & Ht). unfold addr, parts in *. cbn [fst snd aw_frame aw_controls] in *.
  assert (Hlive : forall q, q ∈ ps -> q <> p) by (intros q Hq ->; destruct (dseg_lookup _ _ _ _ _ (proj1 Hl) Hq); congruence).
  assert (Hnd : NoDup (ps ++ [p])).
  { apply NoDup_app. split; [apply Hl|]. split; [|apply NoDup_singleton]. intros q Hq Hc'%list_elem_of_singleton. by apply (Hlive q). }
  unfold add_widget. cbn [wins with_widgets]. rewrite Hx. cbn [mbind option_bind].
  assert (Hin : dlist (<[p := Widget c 0 0]> (widgets g)) ps).
  { eapply dlist_frame; [|exact Hl]. intros q Hq. rewrite lookup_insert_ne; [done|]. intros <-. by apply (Hlive p). }
  assert (Hctl : forall m, same_bodies w_control (<[p := Widget c 0 0]> (widgets g)) m -> Forall2 (control_at m) (ps ++ [p]) (cs ++ [c])).
  { intros m Hm. apply Forall2_app; [|constructor; [|constructor]; unfold control_at; rewrite (Hm p), lookup_insert_eq; done].
    clear -Hcs Hm Hlive. induction Hcs as [|q k ps cs Hq Hcs IH]; constructor; [|apply IH; intros; apply Hlive; by right].
    unfold control_at. rewrite Hm, lookup_insert_ne; [exact Hq|]. intros <-. apply (Hlive p); [by left|done]. }
  destruct (Z.eqb_spec (widgets_head x) 0) as [Ez|Hnz].
  - rewrite Hh in Ez. apply (first_of_zero _ _ _ _ (proj1 Hl)) in Ez. subst ps. apply Forall2_nil_inv_l in Hcs as ->.
    eexists. split; [done|]. split; [|by split].
    eapply (placed_replace O1 _ _ O2 g); [exact H|done|by eapply same_links_insert|intros b Hb; cbn; by rewrite lookup_insert_ne|done|done| | |done|set_solver].
    + intros q _ [y Hy]. cbn [widgets with_wins with_widgets]. rewrite lookup_insert_ne; [done|]. intros <-. congruence.
    + split; cbn [wins widgets with_wins with_widgets fst snd addr parts aw_frame aw_controls app].
      * rewrite lookup_insert_eq. cbn. unfold window_body. cbn. by rewrite Hfr.
      * split; [|apply NoDup_singleton]. split; [done|]. split; [|done]. eexists. rewrite lookup_insert_eq. by split.
      * by apply (Hctl _ (same_bodies_refl _ _)).
      * constructor; [done|constructor].
      * exact Hti.
  - assert (exists l, last ps = Some l /\ widgets_tail x = l) as (b & Hb & Eb).
    { rewrite Ht. unfold last_of. destruct (last ps) eqn:E; [by eexists|]. apply last_None in E. by rewrite E in Hh. }
    destruct (append_ok w_control ltac:(done) ltac:(done) _ _ b p (Widget c 0 0) Hin Hb) as (v & Hv & Hd & Hcomm & Hsame);
      [intros Hc'; by apply (Hlive p)|done|apply lookup_insert_eq|done|].
    assert (Hbp : b <> p) by (apply Hlive; apply last_Some in Hb as [l' ->]; set_solver).
    rewrite Eb. unfold upd. cbn [widgets with_widgets]. rewrite Hv. cbn [mbind option_bind]. rewrite lookup_insert_ne, lookup_insert_eq by done. cbn [mbind option_bind].
    eexists. split; [done|]. split; [|by split].
    eapply (placed_replace O1 _ _ O2 g); [exact H|done|by eapply same_links_insert|intros q Hq; cbn; by rewrite lookup_insert_ne|done|done| | |done|].
    + intros q Hq [y Hy]. unfold parts in Hq. cbn [fst snd] in Hq. cbn [widgets with_wins with_widgets].
      rewrite !lookup_insert_ne; [done| | |]; intros <-; [congruence| |congruence]. apply Hq. apply last_Some in Hb as [l' ->]. set_solver.
    + split; cbn [wins widgets with_wins with_widgets fst snd addr parts aw_frame aw_controls].
      * rewrite lookup_insert_eq. cbn. unfold window_body. cbn. rewrite Hfr, last_of_snoc. do 2 f_equal. rewrite Hh. f_equal.
        clear -Hnz Hh. destruct ps; [by rewrite Hh in Hnz|done].
      * exact Hd.
      * by apply Hctl.
      * apply Forall_app. split; [done|]. constructor; [done|constructor].
      * exact Hti.
    + unfold parts. cbn [fst snd]. intros q [Hq|Hq%list_elem_of_singleton]%elem_of_app; [by left|subst q; by right].
Qed.

Lemma text_of_ok s l : content s = Some l -> (length l < 64)%nat ->
  strcpy (replicate 64 0) s = Some (text_of s) /\ length (text_of s) = 64%nat /\ is_Some (content (text_of s)).
Proof. intros Hs Hl. unfold text_of. destruct (strcpy_text (replicate 64 0) s l eq_refl Hs Hl) as (t & -> & H). by split. Qed.

Lemma same_mouse_trans g1 g2 g3 : same_mouse g1 g2 -> same_mouse g2 g3 -> same_mouse g1 g3.
Proof. intros (? & ? & ? & ?) (? & ? & ? & ?). unfold same_mouse. split_and!; congruence. Qed.

Lemma gui_create_label_ok O1 a ps f cs O2 g x y text l color : placed_at (O1 ++ ((a, ps), AWindow f cs) :: O2) g -> a <> 0 ->
  content text = Some l -> (length l < 64)%nat ->
  exists p g', gui_create_label kmalloc_widget a x y text color g = Some (p, g') /\
    placed_at (O1 ++ ((a, ps ++ [p]), AWindow f (cs ++ [Control WIDGET_LABEL x y 0 0 (text_of text) 0 color 0])) :: O2) g' /\ same_mouse g g'.
Proof.
  intros H Ha Hc Hl. destruct (text_of_ok text l Hc Hl) as (Et & Htl & Htc). destruct (widget_fresh g) as (p & Ep & H0 & Hp).
  unfold gui_create_label. rewrite (proj2 (Z.eqb_neq a 0)), Ep, Et by done. cbn [mbind option_bind].
  destruct (add_widget_ok _ _ _ _ _ _ _ p (Control WIDGET_LABEL x y 0 0 (text_of text) 0 color 0) H Hp H0) as (g' & -> & Hpl & Hm); [by split|].
  exists p, g'. by split.
Qed.

Lemma gui_create_button_ok O1 a ps f cs O2 g x y w h text l fn : placed_at (O1 ++ ((a, ps), AWindow f cs) :: O2) g -> a <> 0 ->
  content text = Some l -> (length l < 64)%nat ->
  exists p g', gui_create_button kmalloc_widget a x y w h text fn g = Some (p, g') /\
    placed_at (O1 ++ ((a, ps ++ [p]), AWindow f (cs ++ [Control WIDGET_BUTTON x y w h (text_of text) 0x00DFE4EA 0x002F3542 fn])) :: O2) g' /\
    same_mouse g g'.
Proof.
  intros H Ha Hc Hl. destruct (text_of_ok text l Hc Hl) as (Et & Htl & Htc). destruct (widget_fresh g) as (p & Ep & H0 & Hp).
  unfold gui_create_button. rewrite (proj2 (Z.eqb_neq a 0)), Ep, Et by done. cbn [mbind option_bind].
  destruct (add_widget_ok _ _ _ _ _ _ _ p (Control WIDGET_BUTTON x y w h (text_of text) 0x00DFE4EA 0x002F3542 fn) H Hp H0) as (g' & -> & Hpl & Hm); [by split|].
  exists p, g'. by split.
Qed.

(** *** The mouse *)

Lemma click_icons_ok O g x y : placed_at O g ->
  exists O' g', click_icons kmalloc_window kmalloc_widget x y g = Some g' /\ placed_at (O ++ O') g' /\ O'.*2 = icons x y /\ same_mouse g g'.
Proof.
  intros H. assert (Hsame : exists O' g', Some g = Some g' /\ placed_at (O ++ O') g' /\ O'.*2 = [] /\ same_mouse g g')
    by (exists [], g; rewrite app_nil_r; by split_and!).
  unfold click_icons, icons. destruct (negb (x <? 100)); [exact Hsame|].
  destruct ((40 <=? y) && (y <=? 90)); [|destruct ((110 <=? y) && (y <=? 160)); [|destruct ((180 <=? y) && (y <=? 230)); [|exact Hsame]]].
  - destruct (gui_create_window_ok O g ui_test_paneli 200 150 400 250 0x00F39C12 H ltac:(by eexists)) as (a & g1 & -> & H1 & M1 & Ha). cbn [mbind option_bind].
    destruct (gui_create_label_ok O a [] _ [] [] g1 20 40 merhaba _ 0x002F3542 H1 Ha eq_refl) as (p & g2 & -> & H2 & M2); [cbn; lia|]. cbn [mbind option_bind].
    destruct (gui_create_button_ok O a _ _ _ [] g2 20 80 120 30 tikla_bana _ TEST_BTN_CLICK H2 Ha eq_refl) as (q & g3 & -> & H3 & M3); [cbn; lia|].
    cbn [mbind option_bind]. eexists _, g3. split; [done|]. split; [exact H3|]. split; [reflexivity|]. by eapply same_mouse_trans, same_mouse_trans.
  - destruct (gui_create_window_ok O g terminal_title 100 100 500 350 0x00000000 H ltac:(by eexists)) as (a & g1 & -> & H1 & M1 & _).
    eexists _, g1. split; [done|]. split; [exact H1|]. by split.
  - destruct (gui_create_window_ok O g dosyalar 300 200 450 300 0x003498DB H ltac:(by eexists)) as (a & g1 & -> & H1 & M1 & _).
    eexists _, g1. split; [done|]. split; [exact H1|]. by split.
Qed.

Lemma split_last_placed (P : awindow -> bool) O :
  split_last P (O.*2) = (fun '(O1, o, O2) => (O1.*2, o.2, O2.*2)) <$> split_last (fun o : placed => P o.2) O.
Proof.
  induction O as [|o O IH]; [done|]. cbn [fmap list_fmap split_last]. rewrite IH. destruct (split_last (fun o : placed => P o.2) O) as [[[O1 u] O2]|]; cbn; [done|].
  by destruct (P o.2).
Qed.

Lemma front_window O g : placed_at O g -> forall w, last (O.*2) = Some w ->
  exists x, wins g !! window_list_tail g = Some x /\ w_frame x = aw_frame w /\ window_list_tail g <> 0.
Proof.
  intros [Hl [_ Ht] Heach _] w Hw. destruct O as [|o O _] using rev_ind; [done|]. rewrite fmap_app in Hw. rewrite fmap_app in Hl. rewrite fmap_app in Ht. cbn [fmap list_fmap] in *.
  rewrite last_snoc in Hw. rewrite last_of_snoc in Ht. injection Hw as <-. apply Forall_app in Heach as [_ Ho%Forall_inv].
  destruct (window_lookup _ _ _ Ho) as (x & Hx & Hf & _). rewrite Ht. exists x. split_and!; try done.
  by destruct (dseg_mid _ _ _ _ _ _ (proj1 Hl)).
Qed.

Lemma click_windows_ok O g x y : placed_at O g -> dragged_window g = 0 ->
  exists O' g', click_windows x y g = Some g' /\ placed_at O' g' /\ O'.*2 = (click x y (O.*2) None).1 /\
    last_buttons g' = last_buttons g /\ drag_ok O' (click x y (O.*2) None).2 g'.
Proof.
  intros H Hdrag. pose proof H as [Hl [_ Ht] Heach Hap]. unfold click_windows, click. rewrite Ht.
  rewrite (find_window_ok x y g [] O) by (rewrite ?app_nil_r; try done; pose proof (dlist_size _ _ Hl); rewrite length_fmap in *; lia).
  rewrite (split_last_placed (fun w => in_window x y (aw_frame w))). cbn [mbind option_bind].
  destruct (split_last (fun o : placed => in_window x y (aw_frame o.2)) O) as [[[O1 o] O2]|] eqn:Es; cbn [fmap option_fmap option_map].
  2:{ exists O, g. by split_and!. }
  apply split_last_Some in Es as [-> Hin]. rewrite addr_split in Hl. destruct (dseg_mid _ _ _ _ _ _ (proj1 Hl)) as (H0 & _).
  rewrite (proj2 (Z.eqb_neq _ _) H0). apply Forall_app in Heach as [_ [Ho _]%Forall_cons].
  destruct (window_lookup _ _ _ Ho) as (w & Hw & Hf & _). rewrite Hw. cbn [mbind option_bind]. rewrite Hf.
  destruct (on_close x y (aw_frame o.2)).
  { destruct (gui_destroy_window_ok O1 o O2 g H) as (g' & -> & H' & (Mb & Md & _) & _). exists (O1 ++ O2), g'. split_and!; try done; [by rewrite fmap_app|].
    cbn. by rewrite Md. }
  destruct (gui_bring_to_front_ok O1 o O2 g H) as (g' & -> & H' & (Mb & Md & Mx & My) & Mw & Htail). cbn [mbind option_bind].
  pose proof H' as [_ _ Heach' _]. rewrite app_assoc in Heach'. apply Forall_app in Heach' as [_ Ho'%Forall_inv].
  destruct (window_lookup _ _ _ Ho') as (w' & Hw' & Hf' & Hh' & _). rewrite Hw'. cbn [mbind option_bind]. rewrite Hf'.
  destruct (y <=? f_y (aw_frame o.2) + 25).
  { eexists (O1 ++ O2 ++ [o]), _. split; [done|]. split; [destruct H'; by constructor|]. cbn [fst snd]. split; [by rewrite !fmap_app|]. split; [exact Mb|].
    cbn. rewrite Htail. split_and!; try done. by destruct O1, O2. }
  destruct o as [[a ps] [f cs]]. destruct Ho' as [_ Hps Hcs Hts Hti]. unfold addr, parts in *. cbn [fst snd aw_frame aw_controls] in *. rewrite Hh'.
  destruct (click_widget_ok x y f g' ps 0 cs (S (size (widgets g'))) (proj1 Hps) (proj2 Hps) Hcs Hts) as (m & -> & Hlk & Hcs' & Hts' & Hm);
    [pose proof (dlist_size _ _ Hps); lia|].
  eexists (O1 ++ O2 ++ [((a, ps), AWindow f (click_controls x y f cs))]), _. split; [done|].
  assert (Hnew : placed_at ((O1 ++ O2) ++ [((a, ps), AWindow f (click_controls x y f cs))]) (with_widgets m g')).
  { rewrite app_assoc in H'. eapply (placed_replace (O1 ++ O2) _ _ [] g'); [exact H'|done|done|done|done|done| | |apply Hps|by left].
    - intros q Hq _. by apply Hm.
    - split; [|by eapply dlist_links|exact Hcs'|exact Hts'|exact Hti]. cbn [wins with_widgets addr fst snd aw_frame parts]. unfold addr. cbn [fst].
      pose proof H' as [_ _ He _]. apply Forall_app in He as [_ [Hb _ _ _ _]%Forall_inv]. exact Hb. }
  rewrite <- app_assoc in Hnew. split; [exact Hnew|]. cbn [fst snd]. split; [by rewrite !fmap_app|]. split; [exact Mb|]. cbn. by rewrite Md.
Qed.

Lemma move_last_snoc x y l w : move_last x y (l ++ [w]) = l ++ [AWindow (move_to x y (aw_frame w)) (aw_controls w)].
Proof. induction l as [|v l IH]; [done|]. cbn [app move_last]. rewrite IH. by destruct l. Qed.

Lemma move_front O g x y : placed_at O g -> O <> [] ->
  exists m O', upd (window_list_tail g) (fun w => set_frame (move_to x y (w_frame w)) w) (wins g) = Some m /\
    placed_at O' (with_wins m g) /\ O'.*2 = move_last x y (O.*2) /\ O' <> [].
Proof.
  intros H HO. destruct O as [|[[a ps] w] O _] using rev_ind; [done|]. pose proof H as [_ [_ Ht] [_ Ho%Forall_inv]%Forall_app _].
  rewrite fmap_app in Ht. cbn [fmap list_fmap] in Ht. rewrite last_of_snoc in Ht. unfold addr in Ht. cbn [fst] in Ht. rewrite Ht.
  pose proof Ho as [_ Hps Hcs Hts Hti]. destruct (window_lookup _ _ _ Ho) as (v & Hv & Hf & Hh & Htl). unfold addr, parts in *. cbn [fst snd] in *.
  unfold upd. rewrite Hv. cbn [mbind option_bind].
  eexists _, (O ++ [((a, ps), AWindow (move_to x y (aw_frame w)) (aw_controls w))]). split; [done|]. split; [|split; [|by destruct O]].
  - eapply (placed_replace O _ _ [] g); [exact H|done|by eapply same_links_insert|intros b Hb; cbn; by rewrite lookup_insert_ne|done|done|done| |apply Hps|by left].
    split; [|exact Hps|exact Hcs|exact Hts|exact Hti]. cbn [wins with_wins]. unfold addr. cbn [fst snd]. rewrite lookup_insert_eq. unfold window_body, parts. cbn. by rewrite Hf, Hh, Htl.
  - rewrite !fmap_app. cbn [fmap list_fmap snd]. by rewrite move_last_snoc.
Qed.

Lemma gui_event_ok g d x y b : shows g d ->
  exists g', gui_on_mouse_event kmalloc_window kmalloc_widget x y b g = Some g' /\ shows g' (desktop_event x y b d).
Proof.
  intros (O & H & HO & Hb & Hd & Hdp). unfold gui_on_mouse_event, desktop_event. rewrite Hb. destruct (pressed b) eqn:Epb; cbn [andb negb].
  2:{ assert (Enone : (if pressed (d_buttons d) then None else d_drag d) = None).
      { destruct (pressed (d_buttons d)); [done|]. destruct (d_drag d); [by specialize (Hdp (mk_is_Some _ _ eq_refl))|done]. }
      cbn [mbind option_bind]. rewrite Enone, andb_false_r. cbn [mbind option_bind]. eexists. split; [done|]. exists O.
      cbn [d_windows d_drag d_buttons drag_ok]. destruct (pressed (d_buttons d));
        (split; [destruct H; by constructor|]; split; [done|]; split; [done|]; split; [|by intros [? ?]]); [done|]. by rewrite Enone in Hd. }
  assert (exists O1 g1, (if negb (pressed (d_buttons d)) then g ← click_icons kmalloc_window kmalloc_widget x y g; click_windows x y g else Some g) = Some g1 /\
    placed_at O1 g1 /\ let '(l, drag) := (if negb (pressed (d_buttons d)) then click x y (d_windows d ++ icons x y) (d_drag d) else (d_windows d, d_drag d)) in
      O1.*2 = l /\ drag_ok O1 drag g1) as (O1 & g1 & -> & H1 & Hl).
  { destruct (pressed (d_buttons d)) eqn:Ep; cbn [negb]; [exists O, g; by split_and!|].
    assert (Enone : d_drag d = None) by (destruct (d_drag d); [by specialize (Hdp (mk_is_Some _ _ eq_refl))|done]). rewrite Enone in *.
    destruct (click_icons_ok O g x y H) as (O' & g' & -> & H' & Hi & (_ & Md & _)). cbn [mbind option_bind].
    destruct (click_windows_ok (O ++ O') g' x y H') as (O2 & g2 & -> & H2 & Hl2 & _ & Hd2); [by rewrite Md|].
    rewrite fmap_app, HO, Hi in Hl2, Hd2. exists O2, g2. split; [done|]. split; [done|].
    destruct (click x y (d_windows d ++ icons x y) None). by split. }
  cbn [mbind option_bind]. destruct (if negb _ then _ else _) as [l drag]. destruct Hl as [Hl Hdrag].
  destruct drag as [[ox oy]|]; cbn [drag_ok] in Hdrag.
  - destruct Hdrag as (Edw & HO1 & <- & <-).
    destruct (front_window O1 g1 H1 (default (AWindow (Frame 0 0 0 0 [] 0 0) []) (last (O1.*2)))) as (_ & _ & _ & Hnz).
    { destruct (last O1.*2) eqn:E; [done|]. by apply last_None, fmap_nil_inv in E. }
    rewrite Edw, (proj2 (Z.eqb_neq _ _) Hnz). cbn [negb andb].
    destruct (move_front O1 g1 (x - drag_off_x g1) (y - drag_off_y g1) H1 HO1) as (m & O2 & -> & H2 & Hl2 & HO2). cbn [mbind option_bind].
    eexists. split; [done|]. exists O2. cbn [d_windows d_drag d_buttons]. rewrite Hl2, Hl. split; [destruct H2; by constructor|]. by split_and!.
  - rewrite Hdrag. cbn [Z.eqb negb andb mbind option_bind]. eexists. split; [done|]. exists O1. split; [destruct H1; by constructor|]. by split_and!.
Qed.

Lemma gui_events_ok evs : forall g d, shows g d ->
  exists g', mouse_events kmalloc_window kmalloc_widget evs g = Some g' /\ shows g' (desktop_events evs d).
Proof.
  induction evs as [|[[x y] b] evs IH]; intros g d H; cbn [mouse_events desktop_events]; [by exists g|].
  destruct (gui_event_ok g d x y b H) as (g1 & -> & H1). cbn [mbind option_bind]. by apply IH.
Qed.

(** C28 (gui_on_mouse_event): every sequence of mouse events is handled, with no
    access to a closed window, and does to the lists in memory what it does to
    the desktop: a click goes to the window in front under the pointer, which
    is closed, or raised and grabbed by its title, or whose first control under
    the pointer is clicked; an icon opens its window. *)
Theorem gui_refines evs g d : shows g d ->
  exists g', mouse_events kmalloc_window kmalloc_widget evs g = Some g' /\ shows g' (desktop_events evs d).
Proof. apply gui_events_ok. Qed.

(** *** No window is lost *)

(** The title bar of the window is not off a screen of 800 x 600. *)
Definition in_reach (w : awindow) : Prop :=
  0 <= f_w (aw_frame w) /\ - f_w (aw_frame w) <= f_x (aw_frame w) < 800 /\ -25 <= f_y (aw_frame w) < 600.

Definition grip_ok (l : list awindow) (drag : option (Z * Z)) : Prop :=
  match drag with
  | Some (ox, oy) => 0 <= oy <= 25 /\ forall w, last l = Some w -> 0 <= ox <= f_w (aw_frame w)
  | None => True
  end.

Lemma icons_in_reach x y : Forall in_reach (icons x y).
Proof.
  unfold icons. repeat case_match; repeat constructor; cbn; lia.
Qed.

Lemma click_in_reach x y l drag : Forall in_reach l -> grip_ok l drag -> (forall l', grip_ok l' drag) ->
  Forall in_reach (click x y l drag).1 /\ grip_ok (click x y l drag).1 (click x y l drag).2.
Proof.
  intros Hl Hg Hany. unfold click. destruct (split_last _ l) as [[[l1 w] l2]|] eqn:Es; [|done].
  apply split_last_Some in Es as [-> Hin]. apply Forall_app in Hl as [H1 [Hw H2]%Forall_cons].
  unfold in_window, in_box in Hin. rewrite !andb_true_iff, !Z.leb_le in Hin.
  destruct (on_close x y (aw_frame w)); cbn [fst snd]; [split; [by apply Forall_app|by apply Hany]|].
  destruct (Z.leb_spec y (f_y (aw_frame w) + 25)); cbn [fst snd].
  - split; [repeat apply Forall_app_2; [done..|constructor; [done|constructor]]|]. cbn [grip_ok]. split; [lia|]. intros v. rewrite app_assoc, last_snoc. intros [= <-]. lia.
  - split; [|by apply Hany]. repeat apply Forall_app_2; [done..|]. constructor; [done|constructor].
Qed.

Lemma move_in_reach x y l ox oy : Forall in_reach l -> grip_ok l (Some (ox, oy)) -> 0 <= x < 800 -> 0 <= y < 600 ->
  Forall in_reach (move_last (x - ox) (y - oy) l) /\ grip_ok (move_last (x - ox) (y - oy) l) (Some (ox, oy)).
Proof.
  intros Hl [Hoy Hox] Hx Hy. destruct l as [|w l _] using rev_ind; [done|]. specialize (Hox w (last_snoc _ _)). rewrite move_last_snoc.
  apply Forall_app in Hl as [Hl Hw%Forall_inv]. destruct Hw as (Hw0 & _). split.
  - apply Forall_app_2; [done|]. constructor; [|constructor]. unfold in_reach. cbn. lia.
  - split; [done|]. intros v. rewrite last_snoc. by intros [= <-].
Qed.

Lemma event_in_reach x y b d : Forall in_reach (d_windows d) -> grip_ok (d_windows d) (d_drag d) -> (is_Some (d_drag d) -> pressed (d_buttons d) = true) ->
  0 <= x < 800 -> 0 <= y < 600 ->
  let d' := desktop_event x y b d in
  Forall in_reach (d_windows d') /\ grip_ok (d_windows d') (d_drag d') /\ (is_Some (d_drag d') -> pressed (d_buttons d') = true).
Proof.
  intros Hl Hg Hdp Hx Hy. unfold desktop_event.
  destruct (pressed b) eqn:Epb; cbn [andb negb].
  2:{ rewrite andb_false_r || idtac. destruct (pressed (d_buttons d)); cbn [andb d_windows d_drag d_buttons]; [by split_and!; [| |intros [? ?]]|].
      destruct (d_drag d) as [[ox oy]|]; [by specialize (Hdp (mk_is_Some _ _ eq_refl))|]. by split_and!; [| |intros [? ?]]. }
  assert (H : let '(l, drag) := (if negb (pressed (d_buttons d)) then click x y (d_windows d ++ icons x y) (d_drag d) else (d_windows d, d_drag d)) in
    Forall in_reach l /\ grip_ok l drag).
  { destruct (pressed (d_buttons d)) eqn:Ep; cbn [negb]; [done|].
    assert (Enone : d_drag d = None) by (destruct (d_drag d); [by specialize (Hdp (mk_is_Some _ _ eq_refl))|done]). rewrite Enone.
    pose proof (click_in_reach x y (d_windows d ++ icons x y) None) as Hc. destruct (click x y _ None).
    apply Hc; [apply Forall_app_2; [done|apply icons_in_reach]|done|done]. }
  destruct (if negb _ then _ else _) as [l drag]. destruct H as [H1 H2]. destruct drag as [[ox oy]|]; cbn [d_windows d_drag d_buttons]; [|done].
  destruct (move_in_reach x y l ox oy H1 H2 Hx Hy). by split_and!.
Qed.

(** C36 (gui_on_mouse_event): no sequence of mouse events on the screen moves a
    window off it: part of the title bar of every window can still be grabbed. *)
Theorem gui_windows_reachable evs g d : shows g d -> Forall in_reach (d_windows d) -> d_drag d = None ->
  Forall (fun '(x, y, _) => 0 <= x < 800 /\ 0 <= y < 600) evs ->
  exists g' d', mouse_events kmalloc_window kmalloc_widget evs g = Some g' /\ shows g' d' /\ Forall in_reach (d_windows d').
Proof.
  intros Hs Hl Hd Hev. destruct (gui_events_ok evs g d Hs) as (g' & E & Hs'). exists g', (desktop_events evs d). split; [done|]. split; [done|].
  assert (Hg : grip_ok (d_windows d) (d_drag d)) by by rewrite Hd. assert (Hdp : is_Some (d_drag d) -> pressed (d_buttons d) = true) by (rewrite Hd; by intros [? ?]).
  clear Hs E Hs' Hd g g'. revert d Hl Hg Hdp. induction Hev as [|[[x y] b] evs [Hx Hy] _ IH]; intros d Hl Hg Hdp; cbn [desktop_events]; [done|].
  destruct (event_in_reach x y b d Hl Hg Hdp Hx Hy) as (H1 & H2 & H3). by apply IH.
Qed.
End ops.

(** ** Witness: a panel is opened, its button clicked, the panel dragged and closed *)

Definition fresh_window (g : gui) : option Z := Some (fresh ({[0]} ∪ dom (wins g) : gset Z)).
Definition fresh_widget (g : gui) : option Z := Some (fresh ({[0]} ∪ dom (widgets g) : gset Z)).

Lemma fresh_key {A} (m : gmap Z A) : fresh ({[0]} ∪ dom m : gset Z) <> 0 /\ m !! fresh ({[0]} ∪ dom m : gset Z) = None.
Proof. pose proof (is_fresh ({[0]} ∪ dom m : gset Z)) as H. split; [set_solver|]. apply not_elem_of_dom. set_solver. Qed.

Lemma fresh_window_ok g : exists a, fresh_window g = Some a /\ a <> 0 /\ wins g !! a = None.
Proof. eexists. split; [done|]. apply fresh_key. Qed.
Lemma fresh_widget_ok g : exists a, fresh_widget g = Some a /\ a <> 0 /\ widgets g !! a = None.
Proof. eexists. split; [done|]. apply fresh_key. Qed.

Definition empty_gui : gui := gui_init (Gui ∅ ∅ 0 0 0 0 0 0).
Definition empty_desktop : desktop := Desktop [] None 0.

Lemma empty_shows : shows empty_gui empty_desktop.
Proof.
  exists []. split; [|by split_and!; [| | |intros [? ?]]]. constructor; [|done|constructor|constructor]. split; [done|constructor].
Qed.

(** Icon; button of the panel; the title grabbed and pulled to the left; released. *)
Definition sample_clicks : list (Z * Z * Z) :=
  [(50, 60, 1); (50, 60, 0); (230, 240, 1); (230, 240, 0); (210, 160, 1); (0, 10, 1); (0, 10, 0)].

Lemma gui_refines_witness :
  exists g', mouse_events fresh_window fresh_widget sample_clicks empty_gui = Some g' /\
    shows g' (desktop_events sample_clicks empty_desktop) /\
    (fun w => (f_x (aw_frame w), f_y (aw_frame w), c_bg <$> aw_controls w)) <$> d_windows (desktop_events sample_clicks empty_desktop) =
      [(-10, 0, [0; 0x002ED573])].
Proof.
  destruct (gui_refines fresh_window fresh_widget fresh_window_ok fresh_widget_ok sample_clicks empty_gui empty_desktop empty_shows) as (g' & E & H).
  exists g'. split; [exact E|]. split; [exact H|]. vm_compute. reflexivity.
Defined.

Lemma gui_windows_reachable_witness :
  exists g' d', mouse_events fresh_window fresh_widget sample_clicks empty_gui = Some g' /\ shows g' d' /\ Forall in_reach (d_windows d').
Proof.
  apply (gui_windows_reachable fresh_window fresh_widget fresh_window_ok fresh_widget_ok sample_clicks empty_gui empty_desktop empty_shows).
  - constructor.
  - reflexivity.
  - repeat constructor; vm_compute; congruence.
Defined.
