(* ===== verification/GuiDraw.v ===== *)
(** * GuiDraw: drawing the desktop (kernel/ui/gui.c, gui_draw_icon,
    gui_draw_window and gui_render; kernel/core/kernel.c, graphics_task)

    The windows in memory are drawn from the back to the front; the picture that
    results is the picture of the desktop. *)

From S2P Require Export Vbe Gui.

Definition gui_draw_icon (x y : Z) (label : list Z) (color : Z) (v : vbe) : option vbe :=
  v ← vbe_draw_rect (x + 5) y 32 32 color v;
  v ← vbe_draw_rect (x + 5) y 32 1 0x00FFFFFF v;
  vbe_write_at x (y + 35) label 0x00FFFFFF v.

(** The loop body for the widgets. *)
Definition draw_widget (f : frame) (w : control) (v : vbe) : option vbe :=
  let abs_x := f_x f + c_x w in let abs_y := f_y f + c_y w in
  if c_type w =? WIDGET_BUTTON then
    v ← vbe_draw_rect abs_x abs_y (c_w w) (c_h w) (c_bg w) v;
    v ← vbe_draw_rect abs_x abs_y (c_w w) 1 0x002F3542 v;
    v ← vbe_draw_rect abs_x (abs_y + c_h w - 1) (c_w w) 1 0x002F3542 v;
    v ← vbe_draw_rect abs_x abs_y 1 (c_h w) 0x002F3542 v;
    v ← vbe_draw_rect (abs_x + c_w w - 1) abs_y 1 (c_h w) 0x002F3542 v;
    text_len ← strlen (c_text w);
    vbe_write_at (abs_x + Z.quot (c_w w) 2 - text_len * 4) (abs_y + Z.quot (c_h w) 2 - 8) (c_text w) (c_fg w) v
  else if c_type w =? WIDGET_LABEL then vbe_write_at abs_x abs_y (c_text w) (c_fg w) v
  else Some v.

Fixpoint draw_widgets (fuel : nat) (p : Z) (f : frame) (m : gmap Z widget) (v : vbe) : option vbe :=
  match fuel with
  | O => None
  | S fuel => if p =? 0 then Some v else w ← m !! p; v ← draw_widget f (w_control w) v; draw_widgets fuel (wd_next w) f m v
  end.

(** The window itself: shadow, body, title bar, button, borders and title. *)
Definition draw_frame (f : frame) (v : vbe) : option vbe :=
  v ← vbe_draw_rect (f_x f + 3) (f_y f + 3) (f_w f) (f_h f) 0x002F3640 v;
  v ← vbe_draw_rect (f_x f) (f_y f) (f_w f) (f_h f) 0x00F1F2F6 v;
  v ← vbe_draw_rect (f_x f) (f_y f) (f_w f) 25 0x0074B9FF v;
  v ← vbe_draw_rect (f_x f + f_w f - 20) (f_y f + 5) 15 15 0x00FF4757 v;
  v ← vbe_draw_rect (f_x f) (f_y f) (f_w f) 1 0x002F3542 v;
  v ← vbe_draw_rect (f_x f) (f_y f + f_h f - 1) (f_w f) 1 0x002F3542 v;
  v ← vbe_draw_rect (f_x f) (f_y f) 1 (f_h f) 0x002F3542 v;
  v ← vbe_draw_rect (f_x f + f_w f - 1) (f_y f) 1 (f_h f) 0x002F3542 v;
  vbe_write_at (f_x f + 10) (f_y f + 5) (f_title f) 0x002F3542 v.

Definition gui_draw_window (win : window) (m : gmap Z widget) (v : vbe) : option vbe :=
  if f_active (w_frame win) =? 0 then Some v else
  v ← draw_frame (w_frame win) v;
  draw_widgets (S (size m)) (widgets_head win) (w_frame win) m v.

Fixpoint draw_windows (fuel : nat) (curr : Z) (g : gui) (v : vbe) : option vbe :=
  match fuel with
  | O => None
  | S fuel =>
      if curr =? 0 then Some v else
      w ← wins g !! curr;
      v ← (if negb (f_active (w_frame w) =? 0) then gui_draw_window w (widgets g) v else Some v);
      draw_windows fuel (w_next w) g v
  end.

Definition storage_label : list Z := [83; 116; 111; 114; 97; 103; 101; 0].
Definition files_label : list Z := [70; 105; 108; 101; 115; 0].
Definition network_label : list Z := [78; 101; 116; 119; 111; 114; 107; 0].

Definition time_str (h m s : Z) : list Z :=
  [h / 10 + 48; h mod 10 + 48; 58; m / 10 + 48; m mod 10 + 48; 58; s / 10 + 48; s mod 10 + 48; 0].

Definition gradient_color (y : Z) : Z := Z.lor (Z.shiftl (120 + y * 40 / 600) 8) (180 + y * 70 / 600).

(** [h], [m], [s]: what [rtc_get_time] answers. *)
Definition gui_render (h m s : Z) (g : gui) (v : vbe) : option vbe :=
  v ← for_do 0 600 (fun y v => vbe_draw_rect 0 y 800 1 (gradient_color y) v) v;
  v ← gui_draw_icon 20 40 storage_label 0x00ffa502 v;
  v ← gui_draw_icon 20 110 terminal_title 0x002f3542 v;
  v ← gui_draw_icon 20 180 files_label 0x001e90ff v;
  v ← gui_draw_icon 20 250 network_label 0x002ed573 v;
  v ← draw_windows (S (size (wins g))) (window_list_head g) g v;
  v ← vbe_draw_rect 300 0 200 30 0x00DCDDE1 v;
  v ← vbe_draw_rect 300 30 200 1 0x007F8C8D v;
  vbe_write_at 360 8 (time_str h m s) 0x002F3640 v.

(** One round of the graphics task, the pointer at [mx], [my]. *)
Definition graphics_round (h m s mx my : Z) (g : gui) (v : vbe) : option vbe :=
  v ← gui_render h m s g v;
  v ← vbe_draw_cursor_simple mx my v;
  vbe_update v.

(** ** Pictures *)

Definition chars (s : list Z) : list Z := default [] (content s).

Definition icon_picture (x y : Z) (label : list Z) (color : Z) (p : picture) : picture :=
  text x (y + 35) (chars label) 0x00FFFFFF (rect (x + 5) y 32 1 0x00FFFFFF (rect (x + 5) y 32 32 color p)).

Definition border (x y w h color : Z) (p : picture) : picture :=
  rect (x + w - 1) y 1 h color (rect x y 1 h color (rect x (y + h - 1) w 1 color (rect x y w 1 color p))).

Definition control_picture (f : frame) (c : control) (p : picture) : picture :=
  let x := f_x f + c_x c in let y := f_y f + c_y c in
  if c_type c =? WIDGET_BUTTON then
    text (x + Z.quot (c_w c) 2 - Z.of_nat (length (chars (c_text c))) * 4) (y + Z.quot (c_h c) 2 - 8) (chars (c_text c)) (c_fg c)
      (border x y (c_w c) (c_h c) 0x002F3542 (rect x y (c_w c) (c_h c) (c_bg c) p))
  else if c_type c =? WIDGET_LABEL then text x y (chars (c_text c)) (c_fg c) p else p.

Definition frame_picture (f : frame) (p : picture) : picture :=
  text (f_x f + 10) (f_y f + 5) (chars (f_title f)) 0x002F3542
    (border (f_x f) (f_y f) (f_w f) (f_h f) 0x002F3542
      (rect (f_x f + f_w f - 20) (f_y f + 5) 15 15 0x00FF4757
        (rect (f_x f) (f_y f) (f_w f) 25 0x0074B9FF
          (rect (f_x f) (f_y f) (f_w f) (f_h f) 0x00F1F2F6
            (rect (f_x f + 3) (f_y f + 3) (f_w f) (f_h f) 0x002F3640 p))))).

Definition window_picture (w : awindow) (p : picture) : picture :=
  if f_active (aw_frame w) =? 0 then p
  else fold_left (fun p c => control_picture (aw_frame w) c p) (aw_controls w) (frame_picture (aw_frame w) p).

(** The desktop: the gradient, the icons, the windows one over the other from
    the back to the front, the panel with the time. *)
Definition desktop_picture (l : list awindow) (time : list Z) (p : picture) : picture :=
  let background := fun a b => if (0 <=? a) && (a <? 800) && (0 <=? b) && (b <? 600) then gradient_color b else p a b in
  let with_icons := icon_picture 20 250 network_label 0x002ed573 (icon_picture 20 180 files_label 0x001e90ff
    (icon_picture 20 110 terminal_title 0x002f3542 (icon_picture 20 40 storage_label 0x00ffa502 background))) in
  let with_windows := fold_left (fun p w => window_picture w p) l with_icons in
  text 360 8 (chars time) 0x002F3640 (rect 300 30 200 1 0x007F8C8D (rect 300 0 200 30 0x00DCDDE1 with_windows)).

(** ** The proofs *)

Lemma write_draws x y s color : is_Some (content s) -> draws (vbe_write_at x y s color) (text x y (chars s) color).
Proof. intros [l Hl]. unfold chars. rewrite Hl. by apply write_at_draws. Qed.

(** The picture of a sequence of routines, one step at a time. *)
Create HintDb drawing discriminated.
#[local] Hint Resolve draw_rect_draws write_draws draws_nothing : drawing.
Ltac draw_steps := repeat (eapply draws_seq; [solve [eauto with drawing]|]); solve [eauto with drawing].
Ltac draw := eapply draws_ext; cycle 1; [draw_steps|reflexivity].

Lemma icon_draws x y label color : is_Some (content label) -> draws (gui_draw_icon x y label color) (icon_picture x y label color).
Proof. intros Hl. unfold gui_draw_icon. draw. Qed.

Lemma frame_draws f : is_Some (content (f_title f)) -> draws (draw_frame f) (frame_picture f).
Proof. intros Hl. unfold draw_frame. draw. Qed.

Lemma widget_draws f c : control_ok c -> draws (draw_widget f c) (control_picture f c).
Proof.
  intros [_ Hc]. unfold draw_widget, control_picture. destruct (c_type c =? WIDGET_BUTTON); [|destruct (c_type c =? WIDGET_LABEL); eauto with drawing].
  cbv zeta. pose proof Hc as [l Hl]. rewrite strlen_content, Hl. cbn [fmap option_fmap option_map mbind option_bind].
  replace (Z.of_nat (length l)) with (Z.of_nat (length (chars (c_text c)))) by (unfold chars; by rewrite Hl). draw.
Qed.
#[local] Hint Resolve icon_draws frame_draws widget_draws : drawing.

Lemma draw_widgets_draws f m ps : forall p cs fuel,
  dseg m p ps 0 -> Forall2 (control_at m) ps cs -> Forall control_ok cs -> (length ps < fuel)%nat ->
  draws (draw_widgets fuel (first_of 0 ps) f m) (fun p => fold_left (fun p c => control_picture f c p) cs p).
Proof.
  induction ps as [|q ps IH]; intros p cs fuel Hd Hc Ht Hf; (destruct fuel as [|fuel]; [cbn in Hf; lia|]); cbn [draw_widgets first_of head default from_option id].
  - apply Forall2_nil_inv_l in Hc as ->. exact draws_nothing.
  - apply Forall2_cons_inv_l in Hc as (c & cs' & Hq & Hc & ->). apply Forall_cons in Ht as [Hco Ht].
    destruct Hd as (H0 & (w & Hw & _ & Hnx) & Hd). unfold first_of. cbn [head default from_option id]. rewrite (proj2 (Z.eqb_neq q 0)) by done.
    unfold control_at in Hq. rewrite Hw in *. injection Hq as Hwc. cbn [mbind option_bind]. rewrite Hwc. cbn [nxt widget_linked] in Hnx. rewrite Hnx.
    cbn [fold_left]. apply (draws_seq (draw_widget f c) _ (control_picture f c) (fun p => fold_left (fun p c => control_picture f c p) cs' p)).
    + by apply widget_draws.
    + apply (IH q); [done|done|done|cbn in Hf; lia].
Qed.

Lemma window_draws g o w : window_ok (wins g) (widgets g) o -> wins g !! addr o = Some w ->
  draws (gui_draw_window w (widgets g)) (window_picture o.2).
Proof.
  intros Ho Hw. destruct (window_lookup _ _ _ Ho) as (w' & Hw' & Hf & Hh & _). rewrite Hw in Hw'. injection Hw' as <-.
  unfold gui_draw_window, window_picture. rewrite Hf, Hh. destruct (f_active (aw_frame o.2) =? 0); [exact draws_nothing|].
  apply (draws_seq (draw_frame (aw_frame o.2)) _ (frame_picture (aw_frame o.2))); [apply frame_draws, (wo_title _ _ _ Ho)|].
  apply (draw_widgets_draws _ _ _ 0); [apply (wo_links _ _ _ Ho)|apply (wo_controls _ _ _ Ho)|apply (wo_texts _ _ _ Ho)|].
  pose proof (dlist_size _ _ (wo_links _ _ _ Ho)). lia.
Qed.

Lemma draw_windows_draws g O : forall p fuel, dseg (wins g) p (addr <$> O) 0 -> Forall (window_ok (wins g) (widgets g)) O -> (length O < fuel)%nat ->
  draws (draw_windows fuel (first_of 0 (addr <$> O)) g) (fun p => fold_left (fun p w => window_picture w p) (O.*2) p).
Proof.
  induction O as [|o O IH]; intros p fuel Hd Hw Hf; (destruct fuel as [|fuel]; [cbn in Hf; lia|]); cbn [draw_windows fmap list_fmap].
  - exact draws_nothing.
  - apply Forall_cons in Hw as [Ho Hw]. destruct Hd as (H0 & (x & Hx & _ & Hnx) & Hd). unfold first_of. cbn [head default from_option id].
    rewrite (proj2 (Z.eqb_neq (addr o) 0)) by done. rewrite Hx. cbn [mbind option_bind]. cbn [nxt window_linked] in Hnx. rewrite Hnx. cbn [fold_left].
    apply (draws_seq (fun v => if negb (f_active (w_frame x) =? 0) then gui_draw_window x (widgets g) v else Some v) _ (window_picture o.2)
      (fun p => fold_left (fun p w => window_picture w p) (O.*2) p)).
    + pose proof (window_draws g o x Ho Hx) as Hdr. unfold gui_draw_window, window_picture in *.
      destruct (window_lookup _ _ _ Ho) as (x' & Hx' & Hf' & _). rewrite Hx in Hx'. injection Hx' as <-. rewrite Hf' in *.
      destruct (f_active (aw_frame o.2) =? 0); [exact draws_nothing|exact Hdr].
    + apply (IH (addr o)); [done|done|cbn in Hf; lia].
Qed.

Lemma gradient_draws : draws (for_do 0 600 (fun y v => vbe_draw_rect 0 y 800 1 (gradient_color y) v))
  (fun p a b => if (0 <=? a) && (a <? 800) && (0 <=? b) && (b <? 600) then gradient_color b else p a b).
Proof.
  apply (for_draws 0 600 _ (fun y => rect 0 y 800 1 (gradient_color y))
    (fun y p a b => if (0 <=? a) && (a <? 800) && (0 <=? b) && (b <? y) then gradient_color b else p a b)); [lia| | |].
  - intros i _. apply draw_rect_draws.
  - intros p a b. case_if; [lia|done].
  - intros i p a b Hi. unfold rect, stamp. destruct (Z.eqb_spec b i) as [->|Hne]; repeat case_if; cbn; try lia; done.
Qed.

Lemma content_ends (s : list Z) : is_Some (content (s ++ [0])).
Proof. induction s as [|c s [l Hl]]; cbn [app content]; [by eexists|]. destruct (c =? 0); [by eexists|]. rewrite Hl. by eexists. Qed.

Lemma render_draws h m s g d : Gui.shows g d -> draws (gui_render h m s g) (desktop_picture (d_windows d) (time_str h m s)).
Proof.
  intros (O & [Hl [Hh _] Heach _] & HO & _).
  assert (Hws : draws (draw_windows (S (size (wins g))) (window_list_head g) g) (fun p => fold_left (fun p w => window_picture w p) (d_windows d) p)).
  { rewrite Hh, <- HO. apply (draw_windows_draws g O 0); [apply Hl|done|]. pose proof (dlist_size _ _ Hl) as Hs. rewrite length_fmap in Hs. lia. }
  pose proof gradient_draws as Hg. pose proof (content_ends (removelast (time_str h m s)) : is_Some (content (time_str h m s))).
  assert (Hi : forall l, l ∈ [storage_label; terminal_title; files_label; network_label] -> is_Some (content l))
    by (intros l; rewrite !elem_of_cons; intros [->|[->|[->|[->|F]]]]; [by eexists..|by apply elem_of_nil in F]).
  pose proof (Hi storage_label ltac:(set_solver)). pose proof (Hi terminal_title ltac:(set_solver)).
  pose proof (Hi files_label ltac:(set_solver)). pose proof (Hi network_label ltac:(set_solver)).
  unfold gui_render. draw.
Qed.

Section screen.
Variables kmalloc_window kmalloc_widget : gui -> option Z.
Hypothesis window_fresh : forall g, exists a, kmalloc_window g = Some a /\ a <> 0 /\ wins g !! a = None.
Hypothesis widget_fresh : forall g, exists a, kmalloc_widget g = Some a /\ a <> 0 /\ widgets g !! a = None.

(** (graphics_task, gui_on_mouse_event): whatever the mouse does, the next
    round of the graphics task puts the desktop on the screen: the background,
    the windows that the clicks and drags leave, one over the other, with their
    controls, the panel with the time, and the pointer on top. *)
Theorem desktop_on_screen evs h m s mx my g d v p : Gui.shows g d -> Vbe.shows v p -> Z.of_nat (length (address v)) = width v * height v ->
  exists g' v', mouse_events kmalloc_window kmalloc_widget evs g = Some g' /\ graphics_round h m s mx my g' v = Some v' /\
    displays v' (pointer mx my (desktop_picture (d_windows (desktop_events evs d)) (time_str h m s) p)).
Proof.
  intros Hg Hv Ha. destruct (gui_events_ok kmalloc_window kmalloc_widget window_fresh widget_fresh evs g d Hg) as (g' & E & Hg').
  unfold graphics_round. destruct (render_draws h m s g' _ Hg' v p Hv) as (b & Eb & Hb).
  destruct (cursor_simple_draws mx my _ _ Hb) as (b2 & Eb2 & Hb2). destruct (vbe_update_ok _ _ Hb2 Ha) as (a & Ea & Hd).
  exists g'. eexists. split; [done|]. rewrite Eb. cbn [mbind option_bind]. rewrite Eb2. cbn [mbind option_bind]. split; [exact Ea|exact Hd].
Qed.
End screen.

(** The panel opened and dragged to the corner of a small screen. *)
Definition small_screen : vbe := Vbe 40 40 (replicate 1600 0) (Some (replicate 1600 0)) (replicate 64 0) 0 0 (-1) (-1) true.

Lemma small_screen_shows : Vbe.shows small_screen (fun _ _ => 0).
Proof.
  split; [vm_compute; split_and!; congruence|]. exists (replicate 1600 0). split; [done|]. split; [vm_compute; done|]. intros x y [Hx Hy]. cbn in Hx, Hy.
  cbn [width small_screen]. apply lookup_replicate. split; [done|lia].
Qed.

Lemma desktop_on_screen_witness :
  exists g' v', mouse_events fresh_window fresh_widget sample_clicks empty_gui = Some g' /\ graphics_round 12 34 56 30 10 g' small_screen = Some v' /\
    displays v' (pointer 30 10 (desktop_picture (d_windows (desktop_events sample_clicks empty_desktop)) (time_str 12 34 56) (fun _ _ => 0))) /\
    (fun '(x, y) => pointer 30 10 (desktop_picture (d_windows (desktop_events sample_clicks empty_desktop)) (time_str 12 34 56) (fun _ _ => 0)) x y)
      <$> [(5, 5); (5, 35); (31, 11)] = [0x0074B9FF; 0x00F1F2F6; 0x00FFFFFF].
Proof.
  destruct (desktop_on_screen fresh_window fresh_widget fresh_window_ok fresh_widget_ok sample_clicks 12 34 56 30 10 empty_gui empty_desktop small_screen
    (fun _ _ => 0) empty_shows small_screen_shows) as (g' & v' & E1 & E2 & H); [vm_compute; reflexivity|].
  exists g', v'. split; [exact E1|]. split; [exact E2|]. split; [exact H|]. vm_compute. reflexivity.
Defined.
