(* ===== verification/Desktop.v ===== *)
(** * Desktop: starting the graphics (kernel/core/kernel.c, start_graphics and
    graphics_task)

    From vbe_init and the first windows to what the screen shows after any mouse
    events: the composition of VbeInit, Gui and GuiDraw. *)

From S2P Require Export VbeInit GuiDraw.

(** "Sistem Bilgisi" and "Dosya Yoneticisi" *)
Definition sistem_bilgisi : list Z := [83; 105; 115; 116; 101; 109; 32; 66; 105; 108; 103; 105; 115; 105; 0].
Definition dosya_yoneticisi : list Z := [68; 111; 115; 121; 97; 32; 89; 111; 110; 101; 116; 105; 99; 105; 115; 105; 0].

(** The mouse driver's start-up, and the creation of the graphics task. *)
Class StartEnv (K : Type) := {
  mouse_init : K -> option K;
  create_graphics_task : K -> option K
}.

(** One round of [graphics_task]: [h], [m], [s] are the clock's, [mx] and [my] the pointer's. *)
Definition next_frame (evs : list (Z * Z * Z)) kmalloc_window kmalloc_widget (h m s mx my : Z) (g : gui) (v : vbe) : option (gui * vbe) :=
  g ← mouse_events kmalloc_window kmalloc_widget evs g; v ← graphics_round h m s mx my g v; Some (g, v).

Section start.
Variable dev : machine.
Variables kmalloc_window kmalloc_widget : gui -> option Z.
Context {K : Type} `{!VbeEnv K} `{!StartEnv K}.

(** The message when there is no graphics mode is left out. *)
Definition start_graphics (mbi : option framebuffer) (g : gui) (v : vbe) (t : list event) (k : K) : option (gui * vbe * list event * K) :=
  '(v, t, k) ← vbe_init dev mbi v t k;
  if negb (vbe_is_active v) then Some (g, v, t, k) else
  let g := gui_init g in
  '(_, g) ← gui_create_window kmalloc_window sistem_bilgisi 50 50 300 200 0x003498DB g;
  '(_, g) ← gui_create_window kmalloc_window dosya_yoneticisi 150 100 400 300 0x002ECC71 g;
  '(_, g) ← gui_create_window kmalloc_window terminal_title 250 200 400 250 0x00000000 g;
  k ← mouse_init k;
  k ← create_graphics_task k;
  Some (g, v, t, k).

Hypothesis window_fresh : forall g, exists a, kmalloc_window g = Some a /\ a <> 0 /\ wins g !! a = None.
Hypothesis widget_fresh : forall g, exists a, kmalloc_widget g = Some a /\ a <> 0 /\ widgets g !! a = None.
Hypothesis start_returns : forall k, exists k1 k2, mouse_init k = Some k1 /\ create_graphics_task k1 = Some k2.

Definition first_desktop (buttons : Z) : desktop :=
  Desktop [AWindow (Frame 50 50 300 200 (text_of sistem_bilgisi) 0x003498DB 1) [];
           AWindow (Frame 150 100 400 300 (text_of dosya_yoneticisi) 0x002ECC71 1) [];
           AWindow (Frame 250 200 400 250 (text_of terminal_title) 0x00000000 1) []] None buttons.

Lemma no_windows g : placed_at [] (gui_init g).
Proof. constructor; cbn; [split; [done|constructor]|done|constructor|constructor]. Qed.

Lemma first_windows g : dragged_window g = 0 -> exists g1 g2 g3 a b c,
  gui_create_window kmalloc_window sistem_bilgisi 50 50 300 200 0x003498DB (gui_init g) = Some (a, g1) /\
  gui_create_window kmalloc_window dosya_yoneticisi 150 100 400 300 0x002ECC71 g1 = Some (b, g2) /\
  gui_create_window kmalloc_window terminal_title 250 200 400 250 0x00000000 g2 = Some (c, g3) /\ Gui.shows g3 (first_desktop (last_buttons g)).
Proof.
  intros Hdrag.
  destruct (gui_create_window_ok kmalloc_window kmalloc_widget window_fresh widget_fresh [] (gui_init g) sistem_bilgisi 50 50 300 200 0x003498DB (no_windows g) ltac:(by eexists)) as (a & g1 & E1 & H1 & M1 & _).
  destruct (gui_create_window_ok kmalloc_window kmalloc_widget window_fresh widget_fresh _ g1 dosya_yoneticisi 150 100 400 300 0x002ECC71 H1 ltac:(by eexists)) as (b & g2 & E2 & H2 & M2 & _).
  destruct (gui_create_window_ok kmalloc_window kmalloc_widget window_fresh widget_fresh _ g2 terminal_title 250 200 400 250 0x00000000 H2 ltac:(by eexists)) as (c & g3 & E3 & H3 & M3 & _).
  exists g1, g2, g3, a, b, c. split; [exact E1|]. split; [exact E2|]. split; [exact E3|].
  pose proof (same_mouse_trans _ _ _ M1 (same_mouse_trans _ _ _ M2 M3)) as M. destruct M as (Mb & Md & Mx & My).
  eexists. split; [exact H3|]. split; [reflexivity|]. cbn [d_buttons d_drag first_desktop]. split; [exact Mb|]. split; [change (dragged_window g3 = 0); rewrite Md; exact Hdrag|by intros [? ?]].
Qed.

(** What the screen shows [evs] later. *)
Definition frame_shown (evs : list (Z * Z * Z)) (h m s mx my buttons : Z) : picture -> picture := fun p =>
  pointer mx my (desktop_picture (d_windows (desktop_events evs (first_desktop buttons))) (time_str h m s) p).

(** C29 (start_graphics, graphics_task): the first start of the graphics, on a boot screen of less than 2^26 points or a
    display found on the PCI bus, either leaves the text mode, or opens the three windows; and then, whatever the mouse
    does, the next round of the graphics task puts on the screen the background, those windows and the ones opened since
    as the clicks and drags leave them, one over the other with their controls, the panel with the time, and the pointer. *)
Theorem start_graphics_desktop `{!VbeLaws} mbi g v t k :
  back_buffer v = None -> dragged_window g = 0 ->
  (forall f, mbi = Some f -> 0 <= framebuffer_width f /\ 0 <= framebuffer_height f /\ framebuffer_width f * framebuffer_height f < 2 ^ 26) ->
  exists g' v' t' k', start_graphics mbi g v t k = Some (g', v', t', k') /\
    (vbe_is_active v' = true -> Gui.shows g' (first_desktop (last_buttons g)) /\
      forall evs h m s mx my, exists g2 v2 p, next_frame evs kmalloc_window kmalloc_widget h m s mx my g' v' = Some (g2, v2) /\
        displays v2 (frame_shown evs h m s mx my (last_buttons g) p)).
Proof.
  intros Hb Hd Hm. unfold start_graphics. destruct (vbe_init_ready dev mbi v t k Hb Hm) as (v1 & t1 & k1 & E & Hact). rewrite E. cbn [mbind option_bind].
  destruct (vbe_is_active v1) eqn:Ea; cbn [negb]; [|exists g, v1, t1, k1; split; [done|congruence]].
  destruct (Hact eq_refl) as [[p Hp] Hlen]. destruct (first_windows g Hd) as (g1 & g2 & g3 & a & b & c & E1 & E2 & E3 & Hs).
  rewrite E1. cbn [mbind option_bind]. rewrite E2. cbn [mbind option_bind]. rewrite E3. cbn [mbind option_bind].
  destruct (start_returns k1) as (k2 & k3 & F1 & F2). rewrite F1. cbn [mbind option_bind]. rewrite F2. cbn [mbind option_bind].
  exists g3, v1, t1, k3. split; [done|]. intros _. split; [exact Hs|]. intros evs h m s mx my.
  destruct (desktop_on_screen kmalloc_window kmalloc_widget window_fresh widget_fresh evs h m s mx my g3 _ v1 p Hs Hp Hlen) as (g4 & v4 & F3 & F4 & Hdisp).
  exists g4, v4, p. unfold next_frame. rewrite F3. cbn [mbind option_bind]. rewrite F4. by split.
Qed.
End start.

(** ** A boot screen of 40 by 40 points *)

#[local] Instance plain_env : VbeEnv unit := {|
  paging_map_memory _ _ size k := Some (replicate (Z.to_nat (size / 4)) 0, k);
  kmalloc size k := Some (Some (replicate (Z.to_nat (size / 4)) 0), k)
|}.
#[local] Instance plain_start : StartEnv unit := {| mouse_init k := Some k; create_graphics_task k := Some k |}.

Lemma plain_start_returns (k : unit) : exists k1 k2, mouse_init k = Some k1 /\ create_graphics_task k1 = Some k2.
Proof. by exists k, k. Qed.

Lemma words_of_size size : 0 <= size -> Z.of_nat (length (replicate (Z.to_nat (size / 4)) 0)) = size / 4.
Proof. intros H. rewrite length_replicate. apply Z2Nat.id, Z.div_pos; lia. Qed.

#[local] Instance plain_laws : VbeLaws.
Proof.
  split.
  - intros p a size k [H _]. eexists _, k. split; [reflexivity|by apply words_of_size].
  - intros size k [H _]. eexists _, k. split; [reflexivity|]. intros l [= <-]. by apply words_of_size.
Qed.

(** A system without PCI devices. *)
Definition no_devices : machine := Machine (fun _ _ => 0xFF) (fun _ _ => 0xFFFF) (fun _ _ => 0xFFFFFFFF).
Definition boot_screen : framebuffer := FrameBuffer (Z.shiftl 1 12) 1 0xFD000000 40 40.
Definition boot_vbe : vbe := Vbe 0 0 [] None (replicate 64 0) 0 0 (-1) (-1) false.

Lemma start_graphics_desktop_witness :
  exists g' v' t' k', start_graphics no_devices fresh_window (Some boot_screen) empty_gui boot_vbe [] tt = Some (g', v', t', k') /\
    vbe_is_active v' = true /\
    exists g2 v2 p, next_frame sample_clicks fresh_window fresh_widget 12 34 56 30 10 g' v' = Some (g2, v2) /\
      displays v2 (frame_shown sample_clicks 12 34 56 30 10 0 p).
Proof.
  destruct (start_graphics_desktop no_devices fresh_window fresh_widget fresh_window_ok fresh_widget_ok plain_start_returns
    (Some boot_screen) empty_gui boot_vbe [] tt eq_refl eq_refl) as (g' & v' & t' & k' & E & H).
  { intros f [= <-]. cbn. lia. }
  assert (Ha : vbe_is_active v' = true) by (vm_compute in E; injection E as <- <- <- <-; reflexivity).
  exists g', v', t', k'. split; [exact E|]. split; [exact Ha|]. exact (proj2 (H Ha) sample_clicks 12 34 56 30 10).
Defined.
