(* ===== verification/Disk.v ===== *)
(** * Disk: sectors and the block devices of PAFS (kernel/fs/pafs.c,
    pafs_disk_read and pafs_disk_write)

    Bytes in memory and their little-endian words; overwriting a slice of a
    buffer; the interface [BlockDev] of the ATA disk the file system talks to,
    with the documented behaviour of a disk (a read returns the last write of
    the sector) as its law, and the store PAFS uses: the disk, or the 2 MB
    ramdisk of the source. *)

From S2P Require Export Bitmap CString.

Definition SECTOR : nat := 512.

(** ** Words *)

Definition le32 (w : Z) : list Z :=
  [u8 w; u8 (Z.shiftr w 8); u8 (Z.shiftr w 16); u8 (Z.shiftr w 24)].

Definition de32 (l : list Z) : Z :=
  match l with
  | a :: b :: c :: d :: _ => a + 2 ^ 8 * b + 2 ^ 16 * c + 2 ^ 24 * d
  | _ => 0
  end.

Lemma de32_le32 w r : 0 <= w < 2 ^ 32 -> de32 (le32 w ++ r) = w.
Proof.
  intros Hw. unfold de32, le32, u8. cbn [app]. rewrite !Z.shiftr_div_pow2 by lia. pow2_lia.
Qed.

(** Only the first four bytes matter. *)
Lemma de32_take l r : (4 <= length l)%nat -> de32 (l ++ r) = de32 l.
Proof. do 4 (destruct l; [cbn; lia|]). done. Qed.

Lemma le32_length w : length (le32 w) = 4%nat.
Proof. done. Qed.

Lemma le32_bytes w : bytes_ok (le32 w).
Proof. unfold le32. repeat constructor; apply u8_range. Qed.

Lemma le32_de32 a b c d :
  byte_ok a -> byte_ok b -> byte_ok c -> byte_ok d ->
  le32 (de32 [a; b; c; d]) = [a; b; c; d].
Proof.
  unfold byte_ok, le32, de32, u8. intros. rewrite !Z.shiftr_div_pow2 by lia.
  repeat f_equal; pow2_lia.
Qed.

(** ** Slices of a buffer *)

Definition slice (off n : nat) (l : list Z) : list Z := take n (drop off l).

Definition splice (off : nat) (src l : list Z) : list Z :=
  take off l ++ src ++ drop (off + length src) l.

Lemma splice_length off src l :
  (off + length src <= length l)%nat -> length (splice off src l) = length l.
Proof. intros. unfold splice. rewrite !length_app, length_take, length_drop. lia. Qed.

Lemma slice_length off n l : (off + n <= length l)%nat -> length (slice off n l) = n.
Proof. intros. unfold slice. rewrite length_take, length_drop. lia. Qed.

Lemma slice_splice_eq off src l :
  (off + length src <= length l)%nat -> slice off (length src) (splice off src l) = src.
Proof.
  intros. unfold slice, splice. rewrite drop_app_ge by (rewrite length_take; lia).
  rewrite length_take, Nat.min_l, Nat.sub_diag by lia. rewrite drop_0. apply take_app_length.
Qed.

Lemma splice_lookup off src l i :
  (off + length src <= length l)%nat ->
  splice off src l !! i =
    if decide (off <= i < off + length src)%nat then src !! (i - off)%nat else l !! i.
Proof.
  intros H. unfold splice. case_decide as Hd.
  - rewrite lookup_app_r by (rewrite length_take; lia). rewrite length_take, Nat.min_l by lia.
    apply lookup_app_l. lia.
  - destruct (decide (i < off)%nat).
    + rewrite lookup_app_l by (rewrite length_take; lia). by apply lookup_take_lt.
    + rewrite lookup_app_r by (rewrite length_take; lia). rewrite length_take, Nat.min_l by lia.
      rewrite lookup_app_r by lia. rewrite lookup_drop. f_equal. lia.
Qed.

Lemma slice_lookup off n l i : (i < n)%nat -> slice off n l !! i = l !! (off + i)%nat.
Proof. intros. unfold slice. by rewrite lookup_take_lt, lookup_drop by lia. Qed.

Lemma list_eq_lt {A} (l1 l2 : list A) :
  length l1 = length l2 -> (forall i, (i < length l1)%nat -> l1 !! i = l2 !! i) -> l1 = l2.
Proof.
  intros Hl H. apply list_eq. intros i. destruct (decide (i < length l1)%nat); [auto|].
  by rewrite !lookup_ge_None_2 by lia.
Qed.

Lemma slice_splice_ne off n off' src l :
  (off' + length src <= length l)%nat -> (off + n <= length l)%nat ->
  (off + n <= off' \/ off' + length src <= off)%nat ->
  slice off n (splice off' src l) = slice off n l.
Proof.
  intros H H' Hd. apply list_eq_lt.
  - by rewrite !slice_length by (rewrite ?splice_length; lia).
  - intros i Hi. rewrite slice_length in Hi by (rewrite splice_length; lia).
    rewrite !slice_lookup, splice_lookup by lia. by rewrite decide_False by lia.
Qed.

(** ** Block devices *)

Definition sector (b : list Z) : Prop := length b = SECTOR.

Class BlockDev (D : Type) := {
  dev_read : Z -> Z -> D -> list Z;
  dev_write : Z -> Z -> list Z -> D -> D;
  dev_read_sector : forall drive lba d, sector (dev_read drive lba d);
  dev_read_write : forall drive lba lba' b d, sector b -> 0 <= lba < 2 ^ 28 -> 0 <= lba' < 2 ^ 28 ->
    dev_read drive lba' (dev_write drive lba b d) = if decide (lba = lba') then b else dev_read drive lba' d
}.

(** A disk array as an instance: sectors never written are zero. *)
Definition pad_sector (b : list Z) : list Z := take SECTOR (b ++ replicate SECTOR 0).

Lemma pad_sector_length b : sector (pad_sector b).
Proof. unfold sector, pad_sector, SECTOR. rewrite length_take, length_app, length_replicate. lia. Qed.

Lemma pad_sector_id b : sector b -> pad_sector b = b.
Proof. intros H. unfold pad_sector. by rewrite take_app_le, take_ge by (rewrite H; lia). Qed.

#[export] Program Instance map_dev : BlockDev (gmap (Z * Z) (list Z)) := {
  dev_read drive lba d := pad_sector (default [] (d !! (drive, lba)));
  dev_write drive lba b d := <[(drive, lba) := b]> d
}.
Next Obligation. intros. apply pad_sector_length. Qed.
Next Obligation.
  intros drive lba lba' b d Hb _ _. case_decide as H.
  - subst. rewrite lookup_insert_eq. by apply pad_sector_id.
  - rewrite lookup_insert_ne; [done|]. by intros [= ?].
Qed.

(** ** The store of PAFS *)

Definition PAFS_TOTAL_BLOCKS : Z := 4096.
Definition PAFS_BLOCK_SIZE : Z := 512.
Definition RAMDISK_SIZE : Z := PAFS_TOTAL_BLOCKS * PAFS_BLOCK_SIZE.

Section store.
Context {D : Type} `{!BlockDev D}.

Record store := Store {
  pafs_ramdisk_mode : bool;
  ramdisk : list Z;
  current_pafs_drive : Z;
  device : D
}.

(** The ramdisk copies have no result outside the 2 MB. *)
Definition pafs_disk_read (lba : Z) (s : store) : option (list Z) :=
  if pafs_ramdisk_mode s then
    if (0 <=? lba) && (lba * 512 + 512 <=? Z.of_nat (length (ramdisk s)))
    then Some (slice (Z.to_nat (lba * 512)) SECTOR (ramdisk s)) else None
  else Some (dev_read (current_pafs_drive s) lba (device s)).

Definition pafs_disk_write (lba : Z) (b : list Z) (s : store) : option store :=
  if pafs_ramdisk_mode s then
    if (0 <=? lba) && (lba * 512 + 512 <=? Z.of_nat (length (ramdisk s)))
    then Some (Store true (splice (Z.to_nat (lba * 512)) b (ramdisk s)) (current_pafs_drive s) (device s))
    else None
  else Some (Store false (ramdisk s) (current_pafs_drive s)
               (dev_write (current_pafs_drive s) lba b (device s))).

Definition store_ok (s : store) : Prop :=
  pafs_ramdisk_mode s = true -> Z.of_nat (length (ramdisk s)) = RAMDISK_SIZE.

(** The sector at [lba], as a total function. *)
Definition sec (s : store) (lba : Z) : list Z := default [] (pafs_disk_read lba s).

Definition lba_ok (lba : Z) : Prop := 0 <= lba < PAFS_TOTAL_BLOCKS.

Lemma disk_read_ok s lba :
  store_ok s -> lba_ok lba -> pafs_disk_read lba s = Some (sec s lba) /\ sector (sec s lba).
Proof.
  unfold store_ok, lba_ok, sec, pafs_disk_read, RAMDISK_SIZE, PAFS_TOTAL_BLOCKS, PAFS_BLOCK_SIZE.
  intros Hs Hl. destruct (pafs_ramdisk_mode s); cbn [default from_option].
  - specialize (Hs eq_refl). rewrite (proj2 (Z.leb_le 0 lba)), (proj2 (Z.leb_le _ _)) by lia.
    cbn [andb default from_option]. split; [done|]. unfold sector. apply slice_length.
    unfold SECTOR. lia.
  - split; [done|apply dev_read_sector].
Qed.

Lemma disk_write_ok s lba b :
  store_ok s -> lba_ok lba -> sector b ->
  exists s', pafs_disk_write lba b s = Some s' /\ store_ok s' /\
    pafs_ramdisk_mode s' = pafs_ramdisk_mode s /\ current_pafs_drive s' = current_pafs_drive s /\
    forall lba', lba_ok lba' -> sec s' lba' = if decide (lba = lba') then b else sec s lba'.
Proof.
  unfold store_ok, lba_ok, sec, pafs_disk_read, pafs_disk_write, RAMDISK_SIZE, PAFS_TOTAL_BLOCKS,
    PAFS_BLOCK_SIZE, sector.
  intros Hs Hl Hb. destruct (pafs_ramdisk_mode s) eqn:Em.
  - specialize (Hs eq_refl). rewrite (proj2 (Z.leb_le 0 lba)), (proj2 (Z.leb_le _ _)) by lia.
    cbn [andb]. assert (Hlen : (Z.to_nat (lba * 512) + length b <= length (ramdisk s))%nat)
      by (rewrite Hb; unfold SECTOR; lia).
    eexists; split; [done|]. cbn [pafs_ramdisk_mode ramdisk current_pafs_drive].
    rewrite splice_length by done. split_and!; auto.
    intros lba' Hl'. rewrite !(proj2 (Z.leb_le 0 lba')), !(proj2 (Z.leb_le _ _)) by lia.
    cbn [andb default from_option]. case_decide as Hd.
    + subst lba'. rewrite <- Hb. by apply slice_splice_eq.
    + apply slice_splice_ne; rewrite ?Hb; unfold SECTOR; lia.
  - eexists; split; [done|]. cbn [pafs_ramdisk_mode device current_pafs_drive]. split_and!; auto.
    intros lba' Hl'. cbn [default from_option]. apply dev_read_write; [done|lia|lia].
Qed.
End store.
Arguments store D : clear implicits.
Arguments Store {D}.
