(* ===== verification/Net.v ===== *)
(** * Net: byte order, checksums and outgoing frames (include/net.h,
    kernel/net/net.c)

    A packet is the memory that starts at its pointer, a list of bytes; reading
    or writing outside it has no result.  Frames given to the card are kept as
    a list.  The log lines are left out. *)

From S2P Require Export Disk.

(** ** Memory *)

Fixpoint take_opt (n : nat) (l : list Z) : option (list Z) :=
  match n, l with
  | O, _ => Some []
  | S n', x :: l' => r ← take_opt n' l'; Some (x :: r)
  | S _, [] => None
  end.

Fixpoint drop_opt (n : nat) (l : list Z) : option (list Z) :=
  match n, l with
  | O, _ => Some l
  | S n', _ :: l' => drop_opt n' l'
  | S _, [] => None
  end.

(** [src] in place of the first bytes of [l]. *)
Fixpoint overwrite (src l : list Z) : option (list Z) :=
  match src, l with
  | [], _ => Some l
  | x :: src', _ :: l' => r ← overwrite src' l'; Some (x :: r)
  | _ :: _, [] => None
  end.

Fixpoint overwrite_at (n : nat) (src l : list Z) : option (list Z) :=
  match n, l with
  | O, _ => overwrite src l
  | S n', x :: l' => r ← overwrite_at n' src l'; Some (x :: r)
  | S _, [] => None
  end.

(** [n] bytes at [p + off]; a negative [n] is no byte. *)
Definition mget (off n : Z) (p : list Z) : option (list Z) :=
  if off <? 0 then None else r ← drop_opt (Z.to_nat off) p; take_opt (Z.to_nat n) r.
Definition mput (off : Z) (src p : list Z) : option (list Z) :=
  if off <? 0 then None else overwrite_at (Z.to_nat off) src p.

Definition le16 (w : Z) : list Z := [u8 w; u8 (Z.shiftr w 8)].
Definition de16 (l : list Z) : Z := match l with a :: b :: _ => a + 2 ^ 8 * b | _ => 0 end.

Definition get16 (off : Z) (p : list Z) : option Z := de16 <$> mget off 2 p.
Definition get32 (off : Z) (p : list Z) : option Z := de32 <$> mget off 4 p.
Definition get8 (off : Z) (p : list Z) : option Z := r ← mget off 1 p; head r.

(** ** Byte order *)

Definition htons (v : Z) : Z := u16 (Z.lor (Z.shiftr (u16 v) 8) (Z.shiftl (u16 v) 8)).
Definition ntohs (v : Z) : Z := htons v.
Definition htonl (v : Z) : Z :=
  u32 (Z.lor (Z.lor (Z.lor (Z.shiftl (Z.land (u32 v) 0xFF) 24) (Z.shiftl (Z.land (u32 v) 0xFF00) 8))
    (Z.land (Z.shiftr (u32 v) 8) 0xFF00)) (Z.land (Z.shiftr (u32 v) 24) 0xFF)).
Definition ntohl (v : Z) : Z := htonl v.

(** ** Checksums *)

(** The loops of [calculate_checksum] and [tcp_checksum] over the bytes. *)
Fixpoint sum16 (bs : list Z) (sum : Z) : Z :=
  match bs with
  | a :: b :: r => sum16 r (u32 (sum + (a + 2 ^ 8 * b)))
  | [a] => u32 (sum + a)
  | [] => sum
  end.

(** [while (sum >> 16) sum = (sum & 0xFFFF) + (sum >> 16)]. *)
Fixpoint fold_carry (fuel : nat) (sum : Z) : option Z :=
  match fuel with
  | O => None
  | S fuel' =>
      if Z.shiftr sum 16 =? 0 then Some sum
      else fold_carry fuel' (u32 (Z.land sum 0xFFFF + Z.shiftr sum 16))
  end.

Definition calculate_checksum (bs : list Z) : option Z :=
  s ← fold_carry 4 (sum16 bs 0); Some (u16 (Z.lnot s)).

(** ** The interface *)

Definition ETH_TYPE_ARP : Z := 0x0806.
Definition ETH_TYPE_IPV4 : Z := 0x0800.
Definition MAX_UDP_SOCKETS : Z := 16.

(** A kernel callback is named by a number; its calls are kept in [udp_calls]. *)
Record udp_socket := UdpSocket { us_port : Z; us_callback : option Z; us_in_use : bool }.

Record netif := Net {
  my_mac : list Z;
  my_ip : list Z;
  gateway_mac : list Z;
  udp_sockets : list udp_socket;
  ipv4_id_counter : Z;
  nic_send : bool;
  sent : list (list Z);
  udp_calls : list (Z * Z * list Z * list Z * Z)
}.

Definition with_gateway (g : list Z) (s : netif) : netif :=
  Net (my_mac s) (my_ip s) g (udp_sockets s) (ipv4_id_counter s) (nic_send s) (sent s) (udp_calls s).
Definition with_udp_sockets (l : list udp_socket) (s : netif) : netif :=
  Net (my_mac s) (my_ip s) (gateway_mac s) l (ipv4_id_counter s) (nic_send s) (sent s) (udp_calls s).
Definition with_id (v : Z) (s : netif) : netif :=
  Net (my_mac s) (my_ip s) (gateway_mac s) (udp_sockets s) v (nic_send s) (sent s) (udp_calls s).
Definition with_sent (l : list (list Z)) (s : netif) : netif :=
  Net (my_mac s) (my_ip s) (gateway_mac s) (udp_sockets s) (ipv4_id_counter s) (nic_send s) l (udp_calls s).
Definition with_calls (l : list (Z * Z * list Z * list Z * Z)) (s : netif) : netif :=
  Net (my_mac s) (my_ip s) (gateway_mac s) (udp_sockets s) (ipv4_id_counter s) (nic_send s) (sent s) l.

Fixpoint memcmp (s1 s2 : list Z) (n : nat) : option Z :=
  match n with
  | O => Some 0
  | S n =>
      match s1, s2 with
      | x :: s1, y :: s2 => if x =? y then memcmp s1 s2 n else Some (x - y)
      | _, _ => None
      end
  end.

(** [memcmp(a, b, n) == 0] on [n] bytes of each (see [memcmp_zero]). *)
Definition memcmp_eq (a b : list Z) : bool := bool_decide (a = b).

Definition init_net (mac_addr : list Z) (s : netif) : netif :=
  Net mac_addr (my_ip s) (gateway_mac s)
    ((fun u => UdpSocket (us_port u) (us_callback u) false) <$> udp_sockets s)
    (ipv4_id_counter s) (nic_send s) (sent s) (udp_calls s).

Definition net_get_ip (s : netif) : Z := de32 (my_ip s).

Definition net_register_driver (s : netif) : netif :=
  Net (my_mac s) (my_ip s) (gateway_mac s) (udp_sockets s) (ipv4_id_counter s) true (sent s) (udp_calls s).

Definition net_send_packet (data : list Z) (s : netif) : netif :=
  if nic_send s then with_sent (sent s ++ [data]) s else s.

(** 0 and the bound socket, or -1 when all are in use. *)
Definition udp_bind (port : Z) (callback : option Z) (s : netif) : option (Z * netif) :=
  r ← for_ret 0 MAX_UDP_SOCKETS (fun i (l : list udp_socket) =>
      u ← aget l i;
      if us_in_use u then Some (Next l)
      else l ← aset l i (UdpSocket (u16 port) callback true); Some (Ret l)) (udp_sockets s);
  match r with
  | Ret l => Some (0, with_udp_sockets l s)
  | Next _ => Some (-1, s)
  end.

(** ** Headers *)

Definition eth_header (dst src : list Z) (type : Z) : list Z := dst ++ src ++ le16 (htons type).

Definition ipv4_header (total id protocol checksum : Z) (src dst : list Z) : list Z :=
  [0x45; 0] ++ le16 (htons total) ++ le16 (htons id) ++ le16 0 ++ [64; protocol] ++ le16 checksum ++ src ++ dst.

Definition arp_packet (opcode : Z) (smac sip tmac tip : list Z) : list Z :=
  le16 (htons 1) ++ le16 (htons ETH_TYPE_IPV4) ++ [6; 4] ++ le16 (htons opcode) ++ smac ++ sip ++ tmac ++ tip.

Definition udp_header (sport dport len : Z) : list Z :=
  le16 (htons sport) ++ le16 (htons dport) ++ le16 (htons len) ++ le16 0.

Section net.
(** Whether the heap has room for a packet buffer of that size. *)
Variable kmalloc_ok : Z -> bool.

Definition net_send_ipv4 (dest_ip : list Z) (protocol : Z) (payload : list Z) (s : netif) : option netif :=
  let payload_len := Z.of_nat (length payload) in
  let total_len := 14 + 20 + payload_len in
  if negb (kmalloc_ok total_len) then Some s else
  let id := ipv4_id_counter s in
  let s := with_id (u16 (id + 1)) s in
  c ← calculate_checksum (ipv4_header (20 + payload_len) id protocol 0 (my_ip s) dest_ip);
  let buffer := eth_header (gateway_mac s) (my_mac s) ETH_TYPE_IPV4 ++
    ipv4_header (20 + payload_len) id protocol c (my_ip s) dest_ip ++ payload in
  Some (net_send_packet buffer s).

Definition net_send_udp (dest_ip : list Z) (dest_port src_port : Z) (payload : list Z) (s : netif) : option netif :=
  let udp_len := 8 + Z.of_nat (length payload) in
  if negb (kmalloc_ok udp_len) then Some s else
  net_send_ipv4 dest_ip 17 (udp_header src_port dest_port udp_len ++ payload) s.

Definition net_send_arp_request (target_ip : list Z) (s : netif) : netif :=
  if negb (kmalloc_ok (14 + 28)) then s else
  net_send_packet (eth_header (replicate 6 0xFF) (my_mac s) ETH_TYPE_ARP ++
    arp_packet 1 (my_mac s) (my_ip s) (replicate 6 0) target_ip) s.
End net.

(** ** Incoming ARP and ICMP

    [p] is the frame: the Ethernet header at 0, the ARP packet or the IPv4
    header at 14.  The replies are written into it: [arp_input] and [icmp_input]
    also give its bytes afterwards. *)

Definition arp_input (p : list Z) (s : netif) : option (list Z * netif) :=
  opcode ← get16 (14 + 6) p;
  if ntohs opcode =? 1 then
    target_ip ← mget (14 + 24) 4 p;
    if memcmp_eq target_ip (my_ip s) then
      smac ← mget 6 6 p; p ← mput 0 smac p;
      p ← mput 6 (my_mac s) p;
      p ← mput (14 + 6) (le16 (htons 2)) p;
      sender_mac ← mget (14 + 8) 6 p; p ← mput (14 + 18) sender_mac p;
      sender_ip ← mget (14 + 14) 4 p; p ← mput (14 + 24) sender_ip p;
      p ← mput (14 + 8) (my_mac s) p;
      p ← mput (14 + 14) (my_ip s) p;
      data ← mget 0 (14 + 28) p;
      Some (p, net_send_packet data s)
    else Some (p, s)
  else if ntohs opcode =? 2 then
    sender_mac ← mget (14 + 8) 6 p; Some (p, with_gateway sender_mac s)
  else Some (p, s).
Definition net_handle_arp (p : list Z) (s : netif) : option netif := snd <$> arp_input p s.

(** [icmp]: the offset of the ICMP header in the frame. *)
Definition icmp_input (p : list Z) (icmp icmp_len : Z) (s : netif) : option (list Z * netif) :=
  type ← get8 icmp p;
  if type =? 8 then
    smac ← mget 6 6 p; p ← mput 0 smac p;
    p ← mput 6 (my_mac s) p;
    temp_ip ← mget (14 + 16) 4 p;
    src ← mget (14 + 12) 4 p; p ← mput (14 + 16) src p;
    p ← mput (14 + 12) temp_ip p;
    p ← mput (14 + 10) (le16 0) p;
    vihl ← get8 14 p; hdr ← mget 14 (Z.land vihl 0x0F * 4) p;
    c ← calculate_checksum hdr; p ← mput (14 + 10) (le16 c) p;
    p ← mput icmp [0] p;
    p ← mput (icmp + 2) (le16 0) p;
    body ← mget icmp icmp_len p;
    c ← calculate_checksum body; p ← mput (icmp + 2) (le16 c) p;
    total ← get16 (14 + 2) p;
    data ← mget 0 (14 + ntohs total) p;
    Some (p, net_send_packet data s)
  else Some (p, s).
Definition net_handle_icmp (p : list Z) (icmp icmp_len : Z) (s : netif) : option netif := snd <$> icmp_input p icmp icmp_len s.

(** ** Lemmas on memory *)

Lemma take_opt_app a b : take_opt (length a) (a ++ b) = Some a.
Proof. induction a as [|x a IH]; cbn; [done|]. by rewrite IH. Qed.

Lemma drop_opt_app a b : drop_opt (length a) (a ++ b) = Some b.
Proof. by induction a. Qed.

Lemma overwrite_app src a b : length src = length a -> overwrite src (a ++ b) = Some (src ++ b).
Proof.
  revert a. induction src as [|x src IH]; intros [|y a] Hl; try discriminate Hl; [done|].
  cbn. by rewrite IH by (cbn in Hl; lia).
Qed.

Lemma overwrite_at_app src a b c :
  length src = length b -> overwrite_at (length a) src (a ++ b ++ c) = Some (a ++ src ++ c).
Proof. intros Hl. induction a as [|x a IH]; cbn; [by apply overwrite_app|]. by rewrite IH. Qed.

Lemma mget_app off n a b c :
  off = Z.of_nat (length a) -> n = Z.of_nat (length b) -> mget off n (a ++ b ++ c) = Some b.
Proof.
  intros -> ->. unfold mget. rewrite (proj2 (Z.ltb_ge _ 0)) by lia.
  by rewrite !Nat2Z.id, drop_opt_app; cbn; rewrite take_opt_app.
Qed.

Lemma mput_app off src a b c :
  off = Z.of_nat (length a) -> length src = length b -> mput off src (a ++ b ++ c) = Some (a ++ src ++ c).
Proof.
  intros -> ?. unfold mput. rewrite (proj2 (Z.ltb_ge _ 0)) by lia.
  rewrite Nat2Z.id. by apply overwrite_at_app.
Qed.

Lemma de16_le16 w : 0 <= w < 65536 -> de16 (le16 w) = w.
Proof. intros. unfold de16, le16, u8. rewrite Z.shiftr_div_pow2 by lia. pow2_lia. Qed.

Lemma le16_bytes w : bytes_ok (le16 w).
Proof. unfold le16. repeat constructor; apply u8_range. Qed.

Lemma memcmp_zero a b :
  length a = length b -> exists r, memcmp a b (length a) = Some r /\ (r =? 0) = memcmp_eq a b.
Proof.
  unfold memcmp_eq. revert b. induction a as [|x a IH]; intros [|y b] Hl; try discriminate Hl; cbn; [by exists 0|].
  injection Hl as Hl. destruct (Z.eqb_spec x y) as [->|Hne].
  - destruct (IH b Hl) as (r & -> & Hr). exists r. split; [done|]. rewrite Hr. apply bool_decide_ext. split; congruence.
  - exists (x - y). split; [done|]. rewrite bool_decide_eq_false_2 by congruence. apply Z.eqb_neq. lia.
Qed.

(** ** Byte order *)

Lemma lor_shift_add a b n : 0 <= n -> 0 <= a < 2 ^ n -> 0 <= b -> Z.lor a (b * 2 ^ n) = a + b * 2 ^ n.
Proof.
  intros Hn Ha Hb. pose proof (Z.add_lor_land a (b * 2 ^ n)) as E.
  assert (H0 : Z.land a (b * 2 ^ n) = 0); [|lia]. clear E.
  apply Z.bits_inj'. intros k Hk. rewrite Z.land_spec, Z.bits_0.
  destruct (Z.ltb_spec k n); [rewrite Z.mul_pow2_bits_low by lia; apply andb_false_r|].
  destruct (Z.eq_dec a 0) as [->|]; [by rewrite Z.bits_0|]. rewrite (Z.bits_above_log2 a k); [done|lia|].
  apply Z.log2_lt_pow2; [lia|]. apply Z.lt_le_trans with (2 ^ n); [lia|]. apply Z.pow_le_mono_r; lia.
Qed.

Lemma htons_eq v : 0 <= v < 65536 -> htons v = v / 256 + 256 * (v mod 256).
Proof.
  intros Hv. unfold htons. rewrite (u16_small v) by lia. rewrite Z.shiftr_div_pow2 by lia. change (2 ^ 8) with 256.
  rewrite Z.shiftl_mul_pow2, lor_shift_add by pow2_lia. unfold u16. pow2_lia.
Qed.

Lemma htons_range v : 0 <= htons v < 65536.
Proof. apply u16_range. Qed.

Lemma ntohs_htons v : 0 <= v < 65536 -> ntohs (htons v) = v.
Proof.
  intros Hv. unfold ntohs. rewrite (htons_eq (htons v)) by apply htons_range.
  rewrite htons_eq by lia. pow2_lia.
Qed.

Lemma land_FF00 v : Z.land v 0xFF00 = (v / 256) mod 256 * 256.
Proof.
  change 256 with (2 ^ 8). rewrite <- Z.land_ones, <- Z.shiftr_div_pow2, <- Z.shiftl_mul_pow2 by lia.
  change 0xFF00 with (Z.shiftl (Z.ones 8) 8). apply Z.bits_inj'. intros k Hk.
  rewrite Z.land_spec, !Z.shiftl_spec, Z.land_spec by lia.
  destruct (Z.ltb_spec k 8).
  - rewrite !(Z.testbit_neg_r _ (k - 8)) by lia. by rewrite andb_false_r.
  - rewrite Z.shiftr_spec by lia. by replace (k - 8 + 8) with k by lia.
Qed.

Lemma lor_rev a b c d : Z.lor (Z.lor (Z.lor a b) c) d = Z.lor d (Z.lor c (Z.lor b a)).
Proof. by rewrite (Z.lor_comm _ d), (Z.lor_comm _ c), (Z.lor_comm a b). Qed.

Lemma htonl_eq v : 0 <= v < 2 ^ 32 ->
  htonl v = v / 2 ^ 24 + (v / 2 ^ 16) mod 256 * 2 ^ 8 + (v / 2 ^ 8) mod 256 * 2 ^ 16 + v mod 256 * 2 ^ 24.
Proof.
  intros Hv. unfold htonl. rewrite (u32_small v) by lia. rewrite !land_FF00.
  change 0xFF with (Z.ones 8). rewrite !Z.land_ones, !Z.shiftl_mul_pow2, !Z.shiftr_div_pow2 by lia.
  change 256 with (2 ^ 8). rewrite !Z.div_div by lia.
  change (2 ^ 8 * 2 ^ 8) with (2 ^ 16).
  pose proof (Z.mod_pos_bound v (2 ^ 8)). pose proof (Z.mod_pos_bound (v / 2 ^ 8) (2 ^ 8)).
  pose proof (Z.mod_pos_bound (v / 2 ^ 16) (2 ^ 8)).
  assert (0 <= v / 2 ^ 24 < 256) by (split; [apply Z.div_pos|apply Z.div_lt_upper_bound]; lia).
  rewrite (Z.mod_small (v / 2 ^ 24)) by lia.
  set (b0 := v mod 2 ^ 8) in *. set (b1 := (v / 2 ^ 8) mod 2 ^ 8) in *. set (b2 := (v / 2 ^ 16) mod 2 ^ 8) in *.
  set (b3 := v / 2 ^ 24) in *. clearbody b0 b1 b2 b3.
  rewrite lor_rev.
  match goal with |- u32 (Z.lor ?d (Z.lor ?c (Z.lor ?b ?a))) = _ =>
    replace a with (b0 * 2 ^ 24) by lia; replace b with (b1 * 2 ^ 16) by lia; replace c with (b2 * 2 ^ 8) by lia end.
  rewrite (lor_shift_add (b1 * 2 ^ 16) b0 24) by lia.
  replace (b1 * 2 ^ 16 + b0 * 2 ^ 24) with ((b1 + b0 * 2 ^ 8) * 2 ^ 16) by lia.
  rewrite (lor_shift_add (b2 * 2 ^ 8) _ 16) by lia.
  replace (b2 * 2 ^ 8 + (b1 + b0 * 2 ^ 8) * 2 ^ 16) with ((b2 + (b1 + b0 * 2 ^ 8) * 2 ^ 8) * 2 ^ 8) by lia.
  rewrite (lor_shift_add b3 _ 8) by lia. rewrite u32_small by lia. lia.
Qed.

Lemma four_bytes c0 c1 c2 c3 w :
  0 <= c0 < 256 -> 0 <= c1 < 256 -> 0 <= c2 < 256 -> 0 <= c3 < 256 ->
  w = c0 + c1 * 2 ^ 8 + c2 * 2 ^ 16 + c3 * 2 ^ 24 ->
  w mod 256 = c0 /\ (w / 2 ^ 8) mod 256 = c1 /\ (w / 2 ^ 16) mod 256 = c2 /\ w / 2 ^ 24 = c3.
Proof.
  intros H0 H1 H2 H3 ->. split_and!.
  - symmetry. apply (Z.mod_unique _ _ (c1 + c2 * 2 ^ 8 + c3 * 2 ^ 16)); lia.
  - replace (_ / 2 ^ 8) with (c1 + c2 * 2 ^ 8 + c3 * 2 ^ 16) by (apply (Z.div_unique _ _ _ c0); lia).
    symmetry. apply (Z.mod_unique _ _ (c2 + c3 * 2 ^ 8)); lia.
  - replace (_ / 2 ^ 16) with (c2 + c3 * 2 ^ 8) by (apply (Z.div_unique _ _ _ (c0 + c1 * 2 ^ 8)); lia).
    symmetry. apply (Z.mod_unique _ _ c3); lia.
  - symmetry. apply (Z.div_unique _ _ _ (c0 + c1 * 2 ^ 8 + c2 * 2 ^ 16)); lia.
Qed.

Lemma split_bytes v : 0 <= v < 2 ^ 32 ->
  v = v mod 256 + (v / 2 ^ 8) mod 256 * 2 ^ 8 + (v / 2 ^ 16) mod 256 * 2 ^ 16 + v / 2 ^ 24 * 2 ^ 24.
Proof.
  intros Hv. change (2 ^ 24) with (2 ^ 16 * 256) at 1. change (2 ^ 16) with (2 ^ 8 * 256) at 1 3.
  rewrite <- !Z.div_div by lia. change (2 ^ 8) with 256.
  pose proof (Z.div_mod v 256). pose proof (Z.div_mod (v / 256) 256). pose proof (Z.div_mod (v / 256 / 256) 256). lia.
Qed.

Lemma ntohl_htonl v : 0 <= v < 2 ^ 32 -> ntohl (htonl v) = v.
Proof.
  intros Hv. unfold ntohl. rewrite (htonl_eq (htonl v)) by apply u32_range.
  assert (0 <= v / 2 ^ 24 < 256) by (split; [apply Z.div_pos|apply Z.div_lt_upper_bound]; lia).
  destruct (four_bytes (v / 2 ^ 24) ((v / 2 ^ 16) mod 256) ((v / 2 ^ 8) mod 256) (v mod 256) (htonl v))
    as (E0 & E1 & E2 & E3); try (apply Z.mod_pos_bound; lia); [done|by apply htonl_eq|].
  rewrite E0, E1, E2, E3. rewrite (split_bytes v Hv) at 5. lia.
Qed.

(** ** The checksum and its reference: one's complement sums *)

Fixpoint word_sum (bs : list Z) : Z :=
  match bs with
  | a :: b :: r => a + 2 ^ 8 * b + word_sum r
  | [a] => a
  | [] => 0
  end.

Lemma pair_ind (P : list Z -> Prop) :
  P [] -> (forall a, P [a]) -> (forall a b r, P r -> P (a :: b :: r)) -> forall l, P l.
Proof.
  intros H0 H1 H2 l. assert (P l /\ forall a, P (a :: l)) as [? _]; [|done].
  induction l as [|x l [IH1 IH2]]; [auto|]. split; [apply IH2|]. intros a. by apply H2.
Qed.

Lemma word_sum_range bs :
  bytes_ok bs -> 0 <= word_sum bs <= 65535 * Z.of_nat (length bs).
Proof.
  induction bs as [|a|a b r IH] using pair_ind; intros Hb; cbn [word_sum length]; [lia| |].
  - apply Forall_cons in Hb as [Ha _]. unfold byte_ok in Ha. lia.
  - apply Forall_cons in Hb as [Ha Hb]. apply Forall_cons in Hb as [Hb Hr]. unfold byte_ok in *.
    specialize (IH Hr). change (2 ^ 8) with 256. lia.
Qed.

Lemma sum16_ok bs : forall s,
  bytes_ok bs -> 0 <= s -> s + 65535 * Z.of_nat (length bs) < 2 ^ 32 -> sum16 bs s = s + word_sum bs.
Proof.
  induction bs as [|a|a b r IH] using pair_ind; intros s Hb Hs Hl; cbn [sum16 word_sum].
  - lia.
  - apply Forall_cons in Hb as [Ha _]. unfold byte_ok in Ha. cbn [length] in Hl. apply u32_small. lia.
  - apply Forall_cons in Hb as [Ha Hb]. apply Forall_cons in Hb as [Hb Hr]. unfold byte_ok in *.
    cbn [length] in Hl. change (2 ^ 8) with 256. rewrite u32_small by lia. rewrite IH; [lia|done|lia|lia].
Qed.

Lemma word_sum_app a b : Nat.even (length a) = true -> word_sum (a ++ b) = word_sum a + word_sum b.
Proof.
  induction a as [|x|x y r IH] using pair_ind; intros He; cbn [app word_sum]; [lia|discriminate He|].
  rewrite IH by done. lia.
Qed.

(** One fold keeps the sum modulo 65535; two are enough. *)
Lemma fold_step s : 0 <= s < 2 ^ 32 ->
  u32 (Z.land s 0xFFFF + Z.shiftr s 16) = s - 65535 * (s / 65536) /\ (Z.shiftr s 16 = 0 <-> s < 65536).
Proof.
  intros Hs. change (Z.land s 0xFFFF) with (Z.land s (Z.ones 16)). rewrite Z.land_ones, Z.shiftr_div_pow2 by lia.
  change (2 ^ 16) with 65536. pose proof (Z.div_mod s 65536). pose proof (Z.mod_pos_bound s 65536).
  assert (s / 65536 < 65536) by (apply Z.div_lt_upper_bound; lia). assert (0 <= s / 65536) by (apply Z.div_pos; lia).
  rewrite u32_small by lia. lia.
Qed.

Lemma fold_carry_ok s : 0 <= s < 2 ^ 32 ->
  exists r k, fold_carry 4 s = Some r /\ 0 <= r < 65536 /\ r = s - 65535 * k /\ (r = 0 <-> s = 0).
Proof.
  intros Hs. cbn [fold_carry].
  destruct (fold_step s Hs) as [E0 Z0]. destruct (Z.eqb_spec (Z.shiftr s 16) 0) as [H0|H0].
  { exists s, 0. split_and!; try done; lia. }
  rewrite E0. set (s1 := s - 65535 * (s / 65536)).
  assert (B1 : 0 < s1 <= 131070) by (subst s1; pow2_lia).
  destruct (fold_step s1 ltac:(lia)) as [E1 Z1]. destruct (Z.eqb_spec (Z.shiftr s1 16) 0) as [H1|H1].
  { exists s1, (s / 65536). split_and!; try done; lia. }
  rewrite E1. set (s2 := s1 - 65535 * (s1 / 65536)).
  assert (B2 : 0 < s2 <= 65535) by (subst s2; pow2_lia).
  destruct (fold_step s2 ltac:(lia)) as [E2 Z2]. rewrite (proj2 (Z.eqb_eq _ 0)) by (apply Z2; lia).
  exists s2, (s / 65536 + s1 / 65536). split_and!; try done; lia.
Qed.

(** The checksum of [bs] is the complement of its one's complement sum. *)
Lemma checksum_ok bs :
  bytes_ok bs -> Z.of_nat (length bs) < 65536 ->
  exists c k, calculate_checksum bs = Some c /\ 0 <= c < 65536 /\
    65535 - c = word_sum bs - 65535 * k /\ (c = 65535 <-> word_sum bs = 0).
Proof.
  intros Hb Hl. pose proof (word_sum_range bs Hb). unfold calculate_checksum.
  rewrite sum16_ok by (try done; lia). rewrite Z.add_0_l.
  destruct (fold_carry_ok (word_sum bs)) as (r & k & -> & Hr & Hk & Hz); [lia|]. cbn [mbind option_bind].
  assert (E : u16 (Z.lnot r) = 65535 - r) by (unfold Z.lnot, u16; pow2_lia).
  exists (65535 - r), k. rewrite E. split_and!; try done; lia.
Qed.

Lemma le16_word c : 0 <= c < 65536 -> word_sum (le16 c) = c.
Proof. intros Hc. unfold le16, word_sum. pose proof (de16_le16 c Hc) as E. unfold le16, de16 in E. lia. Qed.

Lemma checksum_verifies_ok a b c :
  bytes_ok (a ++ b) -> Nat.even (length a) = true -> Z.of_nat (length a + length b) < 65534 ->
  calculate_checksum (a ++ le16 0 ++ b) = Some c -> calculate_checksum (a ++ le16 c ++ b) = Some 0.
Proof.
  intros Hb He Hl Hc. apply Forall_app in Hb as [Ha Hb].
  assert (Hs : forall w, 0 <= w < 65536 -> bytes_ok (a ++ le16 w ++ b) /\
    Z.of_nat (length (a ++ le16 w ++ b)) < 65536 /\ word_sum (a ++ le16 w ++ b) = word_sum a + w + word_sum b).
  { intros w Hw. split_and!.
    - repeat apply Forall_app_2; try done. apply le16_bytes.
    - rewrite !length_app. change (length (le16 w)) with 2%nat. lia.
    - rewrite word_sum_app by done. rewrite word_sum_app by done. rewrite le16_word by done. lia. }
  destruct (Hs 0 ltac:(lia)) as (H1 & H2 & H3).
  destruct (checksum_ok _ H1 H2) as (c0 & k & E & Hc0 & Hk & Hz). rewrite E in Hc. injection Hc as ->.
  destruct (Hs c Hc0) as (H1' & H2' & H3').
  destruct (checksum_ok _ H1' H2') as (c' & k' & E' & Hc' & Hk' & Hz'). rewrite E'. f_equal.
  pose proof (word_sum_range _ Ha). pose proof (word_sum_range _ Hb). rewrite H3 in *. rewrite H3' in *. lia.
Qed.

(** A checksum field inside a header. *)
Lemma checksum_field (h : list Z -> list Z) a b :
  (forall c, h c = a ++ c ++ b) -> bytes_ok (a ++ b) -> Nat.even (length a) = true ->
  Z.of_nat (length a + length b) < 65534 ->
  exists c, calculate_checksum (h (le16 0)) = Some c /\ calculate_checksum (h (le16 c)) = Some 0.
Proof.
  intros Hh Hb He Hl. pose proof Hb as [Ha Hb']%Forall_app.
  destruct (checksum_ok (a ++ le16 0 ++ b)) as (c & _ & E & _).
  - repeat apply Forall_app_2; try done. apply le16_bytes.
  - rewrite !length_app. change (length (le16 0)) with 2%nat. lia.
  - exists c. rewrite !Hh. split; [done|]. by apply checksum_verifies_ok.
Qed.

Lemma word_sum_total bs : bytes_ok bs -> Z.of_nat (length bs) < 65536 ->
  calculate_checksum bs = Some 0 <-> 0 < word_sum bs /\ word_sum bs mod 65535 = 0.
Proof.
  intros Hb Hl. destruct (checksum_ok bs Hb Hl) as (c & k & -> & Hc & Hk & Hz).
  pose proof (word_sum_range bs Hb). split.
  - intros [= ->]. split; [lia|]. replace (word_sum bs) with ((k + 1) * 65535) by lia. apply Z_mod_mult.
  - intros [Hp Hm]. f_equal. apply Z.mod_divide in Hm as [q Hq]; lia.
Qed.

(** the Internet checksum: for every header with a zeroed
    16-bit field at an even offset, [calculate_checksum] returns - its carry
    loop ends after at most two folds - a value that, stored in the field, makes the
    checksum of the whole 0, which is what a receiver tests; and 0 is reported
    exactly for contents whose one's complement sum is -0: the words add to a positive
    multiple of 65535. *)
Theorem checksum_verifies a b :
  bytes_ok (a ++ b) -> Nat.even (length a) = true -> Z.of_nat (length a + length b) < 65534 ->
  exists c, calculate_checksum (a ++ le16 0 ++ b) = Some c /\ 0 <= c < 65536 /\
    calculate_checksum (a ++ le16 c ++ b) = Some 0 /\
    forall l, bytes_ok l -> Z.of_nat (length l) < 65536 ->
      (calculate_checksum l = Some 0 <-> 0 < word_sum l /\ word_sum l mod 65535 = 0).
Proof.
  intros Hb He Hl. pose proof Hb as [Ha Hb']%Forall_app.
  destruct (checksum_ok (a ++ le16 0 ++ b)) as (c & _ & E & Hc & _).
  - repeat apply Forall_app_2; try done. apply le16_bytes.
  - rewrite !length_app. change (length (le16 0)) with 2%nat. lia.
  - exists c. split; [done|]. split; [done|]. split; [by apply checksum_verifies_ok|apply word_sum_total].
Qed.

(** The header of a UDP datagram, as [net_send_ipv4] builds it. *)
Lemma checksum_verifies_witness :
  exists c, calculate_checksum ([0x45; 0; 0; 40; 0; 1; 0; 0; 64; 17] ++ le16 0 ++ [10; 0; 2; 15; 10; 0; 2; 2]) = Some c /\
    0 <= c < 65536 /\
    calculate_checksum ([0x45; 0; 0; 40; 0; 1; 0; 0; 64; 17] ++ le16 c ++ [10; 0; 2; 15; 10; 0; 2; 2]) = Some 0 /\
    forall l, bytes_ok l -> Z.of_nat (length l) < 65536 ->
      (calculate_checksum l = Some 0 <-> 0 < word_sum l /\ word_sum l mod 65535 = 0).
Proof.
  apply (checksum_verifies [0x45; 0; 0; 40; 0; 1; 0; 0; 64; 17] [10; 0; 2; 15; 10; 0; 2; 2]).
  - repeat constructor; unfold byte_ok; cbn; lia.
  - reflexivity.
  - cbn. lia.
Defined.

(** ** ARP *)

Definition host_ok (s : netif) : Prop := length (my_mac s) = 6%nat /\ length (my_ip s) = 4%nat.

(** [explicit l]: a list of known length as its elements. *)
Ltac explicit :=
  repeat match goal with
  | H : length ?l = S _ |- _ =>
      let x := fresh "x" in destruct l as [|x l]; [discriminate H|]; cbn [length] in H; apply Nat.succ_inj in H
  | H : length ?l = O |- _ => apply nil_length_inv in H; subst l
  end.

Lemma arp_request_ok dst smac sip tmac tip pad s :
  host_ok s -> length dst = 6%nat -> length smac = 6%nat -> length sip = 4%nat -> length tmac = 6%nat ->
  length tip = 4%nat ->
  net_handle_arp (eth_header dst smac ETH_TYPE_ARP ++ arp_packet 1 smac sip tmac tip ++ pad) s =
    Some (if decide (tip = my_ip s)
          then net_send_packet (eth_header smac (my_mac s) ETH_TYPE_ARP ++ arp_packet 2 (my_mac s) (my_ip s) smac sip) s
          else s).
Proof.
  intros [Hm Hi] ?????. destruct s as [mm mi g us id nic snt calls]. cbn [my_mac my_ip] in *. explicit.
  unfold net_handle_arp, arp_input.
  match goal with |- context [get16 (14 + 6) ?p] => change (get16 (14 + 6) p) with (Some (htons 1)) end.
  cbn [mbind option_bind]. change (ntohs (htons 1) =? 1) with true. cbn iota.
  match goal with |- context [mget (14 + 24) 4 (_ ++ arp_packet _ _ _ _ ?t ++ _)] =>
    match goal with |- context [mget (14 + 24) 4 ?p] => change (mget (14 + 24) 4 p) with (Some t) end end.
  cbn [mbind option_bind my_ip]. unfold memcmp_eq.
  case_bool_decide as Hc; [rewrite decide_True by done|rewrite decide_False by done]; reflexivity.
Qed.

Lemma arp_reply_ok dst src smac sip tmac tip pad s :
  length dst = 6%nat -> length src = 6%nat -> length smac = 6%nat -> length sip = 4%nat ->
  net_handle_arp (eth_header dst src ETH_TYPE_ARP ++ arp_packet 2 smac sip tmac tip ++ pad) s =
    Some (with_gateway smac s).
Proof. intros. explicit. reflexivity. Qed.

(** ** ICMP *)

(** An IPv4 packet with an ICMP message: type of service, identification
    and fragment fields, time to live, checksums and the rest of the message. *)
Definition icmp_frame (dst src : list Z) (tos total : Z) (idf : list Z) (ttl : Z) (ck : list Z) (sip dip : list Z)
    (type code : Z) (ick rest : list Z) : list Z :=
  eth_header dst src ETH_TYPE_IPV4 ++ [0x45; tos] ++ le16 (htons total) ++ idf ++ [ttl; 1] ++ ck ++ sip ++ dip ++
  [type; code] ++ ick ++ rest.

Definition ip_part (tos total : Z) (idf : list Z) (ttl : Z) (ck sip dip : list Z) : list Z :=
  [0x45; tos] ++ le16 (htons total) ++ idf ++ [ttl; 1] ++ ck ++ sip ++ dip.

Definition icmp_part (type code : Z) (ick rest : list Z) : list Z := [type; code] ++ ick ++ rest.

Record icmp_fields (dst src idf ck sip dip ick : list Z) : Prop := {
  if_dst : length dst = 6%nat; if_src : length src = 6%nat; if_idf : length idf = 4%nat;
  if_ck : length ck = 2%nat; if_sip : length sip = 4%nat; if_dip : length dip = 4%nat;
  if_ick : length ick = 2%nat
}.

(** Where the fields are. *)
Lemma icmp_reads dst src tos total idf ttl ck sip dip type code ick rest pad :
  icmp_fields dst src idf ck sip dip ick ->
  let p := icmp_frame dst src tos total idf ttl ck sip dip type code ick rest ++ pad in
  mget 6 6 p = Some src /\ mget 30 4 p = Some dip /\ mget 26 4 p = Some sip /\ get8 14 p = Some 0x45 /\
  mget 14 (Z.land 0x45 0x0F * 4) p = Some (ip_part tos total idf ttl ck sip dip) /\
  get8 34 p = Some type /\ get16 16 p = Some (de16 (le16 (htons total))).
Proof. intros []. explicit. split_and!; reflexivity. Qed.

Lemma icmp_writes v dst src tos total idf ttl ck sip dip type code ick rest pad :
  icmp_fields dst src idf ck sip dip ick ->
  let p := icmp_frame dst src tos total idf ttl ck sip dip type code ick rest ++ pad in
  (length v = 6%nat -> mput 0 v p = Some (icmp_frame v src tos total idf ttl ck sip dip type code ick rest ++ pad)) /\
  (length v = 6%nat -> mput 6 v p = Some (icmp_frame dst v tos total idf ttl ck sip dip type code ick rest ++ pad)) /\
  (length v = 4%nat -> mput 30 v p = Some (icmp_frame dst src tos total idf ttl ck sip v type code ick rest ++ pad)) /\
  (length v = 4%nat -> mput 26 v p = Some (icmp_frame dst src tos total idf ttl ck v dip type code ick rest ++ pad)) /\
  (length v = 2%nat -> mput 24 v p = Some (icmp_frame dst src tos total idf ttl v sip dip type code ick rest ++ pad)) /\
  (length v = 2%nat -> mput 36 v p = Some (icmp_frame dst src tos total idf ttl ck sip dip type code v rest ++ pad)) /\
  (length v = 1%nat -> mput 34 v p = Some (icmp_frame dst src tos total idf ttl ck sip dip (hd 0 v) code ick rest ++ pad)).
Proof. intros []. explicit. split_and!; intros; explicit; reflexivity. Qed.

Lemma icmp_body n dst src tos total idf ttl ck sip dip type code ick rest pad :
  icmp_fields dst src idf ck sip dip ick -> n = 4 + Z.of_nat (length rest) ->
  let p := icmp_frame dst src tos total idf ttl ck sip dip type code ick rest ++ pad in
  mget 34 n p = Some (icmp_part type code ick rest) /\
  mget 0 (34 + n) p = Some (icmp_frame dst src tos total idf ttl ck sip dip type code ick rest).
Proof.
  intros [] -> p. split.
  - assert (E : p = (eth_header dst src ETH_TYPE_IPV4 ++ ip_part tos total idf ttl ck sip dip) ++
      icmp_part type code ick rest ++ pad).
    { subst p. unfold icmp_frame, ip_part, icmp_part. by rewrite <- !app_assoc. }
    rewrite E. apply mget_app; explicit; cbn; lia.
  - apply (mget_app 0 _ []); [done|]. explicit. cbn. lia.
Qed.
(** One access of the handler, and the frame it leaves. *)
#[local] Ltac icmp_access :=
  lazymatch goal with
  | |- context [icmp_frame ?a ?b ?c ?d ?e ?f ?g ?h ?i ?j ?k ?l ?m ++ ?p] =>
      let F := fresh "F" in
      assert (F : icmp_fields a b e g h i l) by (by constructor);
      first
      [ lazymatch goal with |- context [mput _ ?v (icmp_frame _ _ _ _ _ _ _ _ _ _ _ _ _ ++ _) ≫= _] =>
          destruct (icmp_writes v a b c d e f g h i j k l m p F) as (W1 & W2 & W3 & W4 & W5 & W6 & W7);
          first [rewrite W1 by done | rewrite W2 by done | rewrite W3 by done | rewrite W4 by done
                | rewrite W5 by done | rewrite W6 by done | rewrite W7 by done];
          clear W1 W2 W3 W4 W5 W6 W7
        end
      | destruct (icmp_reads a b c d e f g h i j k l m p F) as (R1 & R2 & R3 & R4 & R5 & R6 & R7);
        first [rewrite R1 | rewrite R2 | rewrite R3 | rewrite R4 | rewrite R5 | rewrite R6 | rewrite R7];
        clear R1 R2 R3 R4 R5 R6 R7 ];
      clear F; cbn [mbind option_bind hd]
  end.

Lemma icmp_echo_ok dst src tos total idf ttl ck sip dip code ick rest pad s c1 c2 :
  icmp_fields dst src idf ck sip dip ick -> host_ok s ->
  total = 24 + Z.of_nat (length rest) -> total < 65536 ->
  calculate_checksum (ip_part tos total idf ttl (le16 0) dip sip) = Some c1 ->
  calculate_checksum (icmp_part 0 code (le16 0) rest) = Some c2 ->
  net_handle_icmp (icmp_frame dst src tos total idf ttl ck sip dip 8 code ick rest ++ pad) 34 (total - 20) s =
    Some (net_send_packet (icmp_frame src (my_mac s) tos total idf ttl (le16 c1) dip sip 0 code (le16 c2) rest) s).
Proof.
  intros [] [Hm _] Ht Ht2 H1 H2. unfold net_handle_icmp, icmp_input.
  change (14 + 16) with 30. change (14 + 12) with 26. change (14 + 10) with 24. change (14 + 2) with 16.
  change (34 + 2) with 36.
  (* the addresses *)
  repeat icmp_access.
  (* the header checksum *)
  rewrite H1. cbn [mbind option_bind].
  (* the ICMP message and its checksum *)
  repeat icmp_access.
  edestruct (icmp_body (total - 20) src (my_mac s) tos total idf ttl (le16 c1) dip sip 0 code (le16 0) rest pad)
    as [-> _]; [by constructor|lia|].
  cbn [mbind option_bind]. rewrite H2. cbn [mbind option_bind]. repeat icmp_access.
  rewrite de16_le16 by apply htons_range. rewrite ntohs_htons by lia.
  edestruct (icmp_body (total - 20) src (my_mac s) tos total idf ttl (le16 c1) dip sip 0 code (le16 c2) rest pad)
    as [_ B]; [by constructor|lia|].
  replace (14 + total) with (34 + (total - 20)) by lia. rewrite B.
  destruct (icmp_reads dst src tos total idf ttl ck sip dip 8 code ick rest pad) as (R1 & R2 & R3 & R4 & R5 & R6 & R7); [by constructor|].
  first [by rewrite R1|by rewrite R2|by rewrite R3|by rewrite R4|by rewrite R5|by rewrite R6|by rewrite R7].
Qed.

(** ** A frame from [net_send_ipv4] *)

Definition ipv4_frame (n : netif) (dest_ip : list Z) (protocol : Z) (payload : list Z) (c : Z) : list Z :=
  eth_header (gateway_mac n) (my_mac n) ETH_TYPE_IPV4 ++
  ipv4_header (20 + Z.of_nat (length payload)) (ipv4_id_counter n) protocol c (my_ip n) dest_ip ++ payload.

(** An interface whose addresses are well formed. *)
Record iface_ok (n : netif) : Prop := {
  io_host : host_ok n;
  io_ip : bytes_ok (my_ip n);
  io_nic : nic_send n = true;
  io_gateway : length (gateway_mac n) = 6%nat
}.

Lemma net_send_ipv4_ok ok n dest proto payload :
  (forall z, ok z = true) -> iface_ok n -> length dest = 4%nat -> bytes_ok dest -> byte_ok proto ->
  exists c, 0 <= c < 65536 /\
    calculate_checksum (ipv4_header (20 + Z.of_nat (length payload)) (ipv4_id_counter n) proto c (my_ip n) dest) = Some 0 /\
    net_send_ipv4 ok dest proto payload n =
      Some (with_sent (sent n ++ [ipv4_frame n dest proto payload c]) (with_id (u16 (ipv4_id_counter n + 1)) n)).
Proof.
  intros Hok [[_ Hip] Hb Hnic _] Hd Hdb Hp. unfold net_send_ipv4. rewrite Hok. cbn [negb].
  set (total := 20 + Z.of_nat (length payload)). set (id := ipv4_id_counter n).
  set (a := [0x45; 0] ++ le16 (htons total) ++ le16 (htons id) ++ le16 0 ++ [64; proto]).
  assert (Hh : forall c, ipv4_header total id proto c (my_ip n) dest = a ++ le16 c ++ my_ip n ++ dest).
  { intros c. unfold ipv4_header, a. by rewrite <- !app_assoc. }
  change (my_ip (with_id (u16 (id + 1)) n)) with (my_ip n).
  assert (Hbytes : bytes_ok (a ++ my_ip n ++ dest)).
  { unfold a. unfold byte_ok in Hp. repeat apply Forall_app_2; try done; try apply le16_bytes;
      repeat (apply Forall_cons; split); try apply Forall_nil; unfold byte_ok; auto; lia. }
  destruct (checksum_ok (a ++ le16 0 ++ my_ip n ++ dest)) as (c & k & E & Hc & _).
  { apply Forall_app in Hbytes as [Ha _]. clearbody a. repeat apply Forall_app_2; try done; apply le16_bytes. }
  { rewrite !length_app, Hip, Hd. cbn. lia. }
  exists c. split; [done|]. rewrite !Hh, E. cbn [mbind option_bind]. split.
  - apply checksum_verifies_ok; try done. rewrite !length_app, Hip, Hd. cbn. lia.
  - unfold net_send_packet, ipv4_frame. cbn [nic_send with_id]. rewrite Hnic.
    fold total id. by rewrite Hh.
Qed.
