(* ===== verification/Socket.v ===== *)
(** * Socket: the socket table, its receive rings and datagrams
    (kernel/net/socket.c, include/socket.h)

    The socket a VFS node points to is its index in the table.  A receive buffer
    is [None] when the pointer is null or freed; using it then has no result.
    Tasks are control-block addresses; the model keeps their state words.
    A call that blocks puts the task to sleep and returns [Blocked]: the task
    goes on with the same loop when it is scheduled again. *)

From S2P Require Export Net Task.

Definition AF_INET : Z := 2.
Definition SOCK_STREAM : Z := 1.
Definition SOCK_DGRAM : Z := 2.
Definition SOCKET_BUFFER_SIZE : Z := 4096.
Definition MAX_SOCKETS : Z := 32.

Record ring := Ring { buffer : option (list Z); buffer_head : Z; buffer_tail : Z }.

Record socket_t := Socket {
  domain : Z; type_ : Z; protocol : Z;
  local_port : Z; local_addr : Z; remote_port : Z; remote_addr : Z;
  rx : ring;
  buffer_len : Z;
  waiting_task : Z;
  tcp_pcb : Z;
  in_use : bool
}.

Definition with_rx (r : ring) (n : Z) (s : socket_t) : socket_t :=
  Socket (domain s) (type_ s) (protocol s) (local_port s) (local_addr s) (remote_port s) (remote_addr s) r n
    (waiting_task s) (tcp_pcb s) (in_use s).
Definition with_waiting (t : Z) (s : socket_t) : socket_t :=
  Socket (domain s) (type_ s) (protocol s) (local_port s) (local_addr s) (remote_port s) (remote_addr s) (rx s)
    (buffer_len s) t (tcp_pcb s) (in_use s).
Definition with_local (p a : Z) (s : socket_t) : socket_t :=
  Socket (domain s) (type_ s) (protocol s) p a (remote_port s) (remote_addr s) (rx s) (buffer_len s)
    (waiting_task s) (tcp_pcb s) (in_use s).
Definition with_remote (p a : Z) (s : socket_t) : socket_t :=
  Socket (domain s) (type_ s) (protocol s) (local_port s) (local_addr s) p a (rx s) (buffer_len s)
    (waiting_task s) (tcp_pcb s) (in_use s).
Definition with_pcb (p : Z) (s : socket_t) : socket_t :=
  Socket (domain s) (type_ s) (protocol s) (local_port s) (local_addr s) (remote_port s) (remote_addr s) (rx s)
    (buffer_len s) (waiting_task s) p (in_use s).
Definition with_in_use (b : bool) (s : socket_t) : socket_t :=
  Socket (domain s) (type_ s) (protocol s) (local_port s) (local_addr s) (remote_port s) (remote_addr s) (rx s)
    (buffer_len s) (waiting_task s) (tcp_pcb s) b.

(** ** The protocol control block of TCP (include/tcp.h) *)

Inductive tcp_state_t :=
| TCP_CLOSED | TCP_LISTEN | TCP_SYN_SENT | TCP_SYN_RECEIVED | TCP_ESTABLISHED | TCP_FIN_WAIT_1
| TCP_FIN_WAIT_2 | TCP_CLOSE_WAIT | TCP_CLOSING | TCP_LAST_ACK | TCP_TIME_WAIT.

#[export] Instance tcp_state_eq_dec : EqDecision tcp_state_t.
Proof. solve_decision. Defined.

Record tcp_pcb_t := Pcb {
  p_local_ip : Z; p_remote_ip : Z; p_local_port : Z; p_remote_port : Z;
  p_state : tcp_state_t;
  snd_nxt : Z; rcv_nxt : Z;
  window_size : Z;
  p_socket : option Z
}.

(** ** The state of the network stack *)

Record netstack := Stack {
  iface : netif;
  sockets : list socket_t;
  tcp_pcbs : list Z;
  pcb_mem : gmap Z tcp_pcb_t;
  task_state : gmap Z Z;
  running : Z;
  next_port : Z
}.

Definition with_iface (n : netif) (s : netstack) : netstack :=
  Stack n (sockets s) (tcp_pcbs s) (pcb_mem s) (task_state s) (running s) (next_port s).
Definition with_sockets (l : list socket_t) (s : netstack) : netstack :=
  Stack (iface s) l (tcp_pcbs s) (pcb_mem s) (task_state s) (running s) (next_port s).
Definition with_pcbs (l : list Z) (m : gmap Z tcp_pcb_t) (s : netstack) : netstack :=
  Stack (iface s) (sockets s) l m (task_state s) (running s) (next_port s).
Definition with_task_state (m : gmap Z Z) (s : netstack) : netstack :=
  Stack (iface s) (sockets s) (tcp_pcbs s) (pcb_mem s) m (running s) (next_port s).
Definition with_next_port (p : Z) (s : netstack) : netstack :=
  Stack (iface s) (sockets s) (tcp_pcbs s) (pcb_mem s) (task_state s) (running s) p.

Definition upd_socket (i : Z) (f : socket_t -> socket_t) (s : netstack) : option netstack :=
  k ← aget (sockets s) i; l ← aset (sockets s) i (f k); Some (with_sockets l s).

(** [if (s->waiting_task) { s->waiting_task->state = TASK_READY; s->waiting_task = 0; }]. *)
Definition wake (i : Z) (s : netstack) : option netstack :=
  k ← aget (sockets s) i;
  if waiting_task k =? 0 then Some s
  else upd_socket i (with_waiting 0) (with_task_state (<[waiting_task k := TASK_READY]> (task_state s)) s).

(** [s->waiting_task = get_current_task(); s->waiting_task->state = TASK_SLEEP]. *)
Definition wait (i : Z) (s : netstack) : option netstack :=
  upd_socket i (with_waiting (running s)) (with_task_state (<[running s := TASK_SLEEP]> (task_state s)) s).

(** ** The ring *)

Definition ring_put (x : Z) (r : ring) : option ring :=
  b ← buffer r; b ← aset b (buffer_head r) x;
  Some (Ring (Some b) ((buffer_head r + 1) mod SOCKET_BUFFER_SIZE) (buffer_tail r)).

Definition ring_get (r : ring) : option (Z * ring) :=
  b ← buffer r; x ← aget b (buffer_tail r);
  Some (x, Ring (Some b) (buffer_head r) ((buffer_tail r + 1) mod SOCKET_BUFFER_SIZE)).

Fixpoint ring_puts (l : list Z) (r : ring) : option ring :=
  match l with [] => Some r | x :: l => r ← ring_put x r; ring_puts l r end.

Fixpoint ring_gets (n : nat) (r : ring) : option (list Z * ring) :=
  match n with
  | O => Some ([], r)
  | S n => '(x, r) ← ring_get r; '(l, r) ← ring_gets n r; Some (x :: l, r)
  end.

(** ** Datagrams *)

(** The header before each datagram: source address and port, length. *)
Definition sizeof_packet : Z := 8.
Definition packet_bytes (src_ip src_port data_len : Z) : list Z := le32 src_ip ++ le16 src_port ++ le16 data_len.

(** [data]: the memory behind the UDP header. *)
Definition socket_dispatch_udp (dest_port : Z) (data : list Z) (len : Z) (src_ip : list Z) (src_port : Z)
    (s : netstack) : option netstack :=
  r ← for_ret 0 MAX_SOCKETS (fun i (s : netstack) =>
    k ← aget (sockets s) i;
    if in_use k && (local_port k =? dest_port) then
      if buffer_len k + sizeof_packet + len <=? SOCKET_BUFFER_SIZE then
        r ← ring_puts (packet_bytes (de32 src_ip) src_port len) (rx k);
        d ← mget 0 len data;
        r ← ring_puts d r;
        s ← upd_socket i (with_rx r (u32 (buffer_len k + (sizeof_packet + len)))) s;
        s ← wake i s;
        Some (Ret s)
      else Some (Ret s)
    else Some (Next s)) s;
  match r with Ret s | Next s => Some s end.

Inductive recv_result :=
| Blocked
| Received (data : list Z) (from : option (Z * Z)).

(** One round of [socket_recvfrom]; [want_from]: an address buffer was given. *)
Definition socket_recvfrom (i : Z) (length : Z) (want_from : bool) (s : netstack) : option (recv_result * netstack) :=
  k ← aget (sockets s) i;
  if buffer_len k =? 0 then s ← wait i s; Some (Blocked, s)
  else if type_ k =? SOCK_DGRAM then
    '(h, r) ← ring_gets (Z.to_nat sizeof_packet) (rx k);
    let src_ip := de32 h in
    let src_port := de16 (drop 4 h) in
    let data_len := de16 (drop 6 h) in
    let to_read := if length <? data_len then length else data_len in
    '(d, r) ← ring_gets (Z.to_nat data_len) r;
    s ← upd_socket i (with_rx r (u32 (buffer_len k - (sizeof_packet + data_len)))) s;
    Some (Received (take (Z.to_nat to_read) d) (if want_from then Some (htons src_port, src_ip) else None), s)
  else
    let to_read := if length <? buffer_len k then length else buffer_len k in
    '(d, r) ← ring_gets (Z.to_nat to_read) (rx k);
    s ← upd_socket i (with_rx r (u32 (buffer_len k - to_read))) s;
    Some (Received d None, s).

(** ** The ring holds a queue *)

Record ring_rep (r : ring) (q : list Z) : Prop := {
  rr_buffer : exists b, buffer r = Some b /\ length b = 4096%nat /\
    forall (i : nat) x, q !! i = Some x -> aget b ((buffer_tail r + Z.of_nat i) mod 4096) = Some x;
  rr_tail : 0 <= buffer_tail r < 4096;
  rr_length : (length q <= 4096)%nat;
  rr_head : buffer_head r = (buffer_tail r + Z.of_nat (length q)) mod 4096
}.

Lemma ring_slot_ne a i j : 0 <= i < j -> j < 4096 -> (a + i) mod 4096 <> (a + j) mod 4096.
Proof. intros. Z.to_euclidean_division_equations; lia. Qed.

Lemma ring_put_ok x r q :
  ring_rep r q -> (length q < 4096)%nat -> exists r', ring_put x r = Some r' /\ ring_rep r' (q ++ [x]).
Proof.
  intros [(b & Hb & Hl & Hc) Ht _ Hh] Hq. unfold ring_put. rewrite Hb. cbn [mbind option_bind].
  assert (Hr : 0 <= buffer_head r < 4096) by (rewrite Hh; apply Z.mod_pos_bound; lia).
  destruct (aset b (buffer_head r) x) as [b'|] eqn:E; [|rewrite aset_eq in E by lia; done].
  cbn [mbind option_bind]. eexists; split; [done|]. constructor; cbn [buffer buffer_head buffer_tail].
  - exists b'. split; [done|]. split; [by rewrite (aset_length _ _ _ _ E)|]. intros i y Hy.
    rewrite (aget_aset _ _ _ _ _ E). apply lookup_snoc_Some in Hy as [[Hi Hy]|[-> ->]].
    + rewrite decide_False; [by apply Hc|]. rewrite Hh. apply not_eq_sym, ring_slot_ne; lia.
    + by rewrite decide_True by done.
  - done.
  - rewrite length_app. cbn. lia.
  - rewrite length_app, Hh. cbn [length]. change SOCKET_BUFFER_SIZE with 4096. rewrite Zplus_mod_idemp_l. f_equal. lia.
Qed.

Lemma ring_get_ok r x q :
  ring_rep r (x :: q) -> exists r', ring_get r = Some (x, r') /\ ring_rep r' q.
Proof.
  intros [(b & Hb & Hl & Hc) Ht Hq Hh]. unfold ring_get. rewrite Hb. cbn [mbind option_bind].
  pose proof (Hc 0%nat x eq_refl) as H0. rewrite Z.add_0_r, Z.mod_small in H0 by lia. rewrite H0.
  cbn [mbind option_bind]. eexists; split; [done|]. cbn [length] in *.
  constructor; cbn [buffer buffer_head buffer_tail]; change SOCKET_BUFFER_SIZE with 4096.
  - exists b. split; [done|]. split; [done|]. intros i y Hy. rewrite Zplus_mod_idemp_l.
    rewrite <- (Hc (S i) y Hy). do 2 f_equal. lia.
  - apply Z.mod_pos_bound. lia.
  - lia.
  - rewrite Hh, Zplus_mod_idemp_l. f_equal. lia.
Qed.

Lemma ring_puts_ok l : forall r q,
  ring_rep r q -> (length q + length l <= 4096)%nat -> exists r', ring_puts l r = Some r' /\ ring_rep r' (q ++ l).
Proof.
  induction l as [|x l IH]; intros r q Hr Hl; cbn [ring_puts length] in *.
  - exists r. by rewrite app_nil_r.
  - destruct (ring_put_ok x r q Hr ltac:(lia)) as (r1 & -> & Hr1). cbn [mbind option_bind].
    destruct (IH r1 (q ++ [x]) Hr1) as (r2 & E & Hr2); [rewrite length_app; cbn; lia|].
    exists r2. split; [done|]. by rewrite <- app_assoc in Hr2.
Qed.

Lemma ring_gets_ok l : forall r q,
  ring_rep r (l ++ q) -> exists r', ring_gets (length l) r = Some (l, r') /\ ring_rep r' q.
Proof.
  induction l as [|x l IH]; intros r q Hr; cbn [ring_gets length app] in *; [eauto|].
  destruct (ring_get_ok r x _ Hr) as (r1 & -> & Hr1). cbn [mbind option_bind].
  destruct (IH r1 q Hr1) as (r2 & -> & Hr2). cbn [mbind option_bind]. eauto.
Qed.

(** ** A socket holds a queue of datagrams *)

Record datagram := Datagram { d_ip : Z; d_port : Z; d_data : list Z }.

Definition datagram_ok (d : datagram) : Prop :=
  0 <= d_ip d < 2 ^ 32 /\ 0 <= d_port d < 65536 /\ Z.of_nat (length (d_data d)) < 65536.

Definition datagram_bytes (d : datagram) : list Z :=
  packet_bytes (d_ip d) (d_port d) (Z.of_nat (length (d_data d))) ++ d_data d.

(** The bytes [q] wait in socket [k]. *)
Definition holds (k : socket_t) (q : list Z) : Prop := ring_rep (rx k) q /\ buffer_len k = Z.of_nat (length q).

Record udp_socket_rep (k : socket_t) (ds : list datagram) : Prop := {
  ur_holds : holds k (ds ≫= datagram_bytes);
  ur_ok : Forall datagram_ok ds;
  ur_type : type_ k = SOCK_DGRAM
}.

Lemma datagram_length d : length (datagram_bytes d) = (8 + length (d_data d))%nat.
Proof. unfold datagram_bytes, packet_bytes. rewrite !length_app. cbn. lia. Qed.

Lemma upd_socket_ok i f s k :
  aget (sockets s) i = Some k ->
  exists l, upd_socket i f s = Some (with_sockets l s) /\ length l = length (sockets s) /\
    forall j, aget l j = if decide (i = j) then Some (f k) else aget (sockets s) j.
Proof.
  intros Hk. unfold upd_socket. rewrite Hk. cbn [mbind option_bind].
  destruct (aset (sockets s) i (f k)) as [l|] eqn:E.
  - exists l. split; [done|]. split; [by rewrite (aset_length _ _ _ _ E)|]. intros j. exact (aget_aset _ _ _ _ _ E).
  - rewrite aset_eq in E; [done|]. by eapply aget_Some_range.
Qed.

(** What a delivery or a wake-up leaves of the rest of the stack. *)
Definition same_but_sockets (s s' : netstack) : Prop :=
  iface s' = iface s /\ tcp_pcbs s' = tcp_pcbs s /\ pcb_mem s' = pcb_mem s /\ running s' = running s /\
  next_port s' = next_port s /\ length (sockets s') = length (sockets s).

Definition woken (t : Z) (m : gmap Z Z) : gmap Z Z := if decide (t = 0) then m else <[t := TASK_READY]> m.

Lemma wake_ok i s k :
  aget (sockets s) i = Some k ->
  exists s', wake i s = Some s' /\ same_but_sockets s s' /\ task_state s' = woken (waiting_task k) (task_state s) /\
    forall j, aget (sockets s') j = if decide (i = j) then Some (with_waiting 0 k) else aget (sockets s) j.
Proof.
  intros Hk. unfold wake, woken. rewrite Hk. cbn [mbind option_bind].
  destruct (Z.eqb_spec (waiting_task k) 0) as [E|E].
  - exists s. split; [done|]. split; [done|]. split; [by rewrite decide_True by done|].
    intros j. case_decide as Hj; [|done]. subst j. rewrite Hk. f_equal. destruct k. cbn in *. by subst.
  - destruct (upd_socket_ok i (with_waiting 0) (with_task_state (<[waiting_task k:=TASK_READY]> (task_state s)) s) k Hk)
      as (l & -> & Hl & Hj).
    eexists; split; [done|]. split; [by split_and!|]. split; [by rewrite decide_False by done|]. exact Hj.
Qed.

(** ** Delivery and reception *)

(** The first socket of the table that listens on [port]. *)
Definition first_bound (s : netstack) (port i : Z) : Prop :=
  (exists k, aget (sockets s) i = Some k /\ in_use k = true /\ local_port k = port) /\
  forall j k, 0 <= j < i -> aget (sockets s) j = Some k -> in_use k && (local_port k =? port) = false.

Definition same_binding (k k' : socket_t) : Prop := in_use k' = in_use k /\ local_port k' = local_port k.

Definition deliver (k : socket_t) (r : ring) (n : Z) : socket_t := with_waiting 0 (with_rx r n k).

Lemma packet_bytes_length a b c : length (packet_bytes a b c) = 8%nat.
Proof. done. Qed.

Lemma datagrams_app ds d : (ds ++ [d]) ≫= datagram_bytes = (ds ≫= datagram_bytes) ++ datagram_bytes d.
Proof. rewrite bind_app. cbn. by rewrite app_nil_r. Qed.

Lemma udp_deliver_ok k ds d s i :
  aget (sockets s) i = Some k -> udp_socket_rep k ds -> datagram_ok d ->
  buffer_len k + 8 + Z.of_nat (length (d_data d)) <= 4096 ->
  exists r, ring_puts (datagram_bytes d) (rx k) = Some r /\
    udp_socket_rep (deliver k r (u32 (buffer_len k + (8 + Z.of_nat (length (d_data d)))))) (ds ++ [d]).
Proof.
  intros Hk [[Hr Hn] Hds Ht] Hd Hroom.
  destruct (ring_puts_ok (datagram_bytes d) (rx k) _ Hr) as (r & E & Hr'); [rewrite datagram_length; lia|].
  exists r. split; [done|]. rewrite <- datagrams_app in Hr'. constructor; [|by apply Forall_app_2; [|constructor]|done].
  split; [exact Hr'|]. cbn [deliver buffer_len with_waiting with_rx].
  rewrite u32_small by lia. rewrite datagrams_app, length_app, datagram_length. lia.
Qed.

Lemma ring_puts_app a b r : ring_puts (a ++ b) r = r' ← ring_puts a r; ring_puts b r'.
Proof.
  revert r. induction a as [|x a IH]; intros r; cbn [app ring_puts]; [done|].
  destruct (ring_put x r); cbn [mbind option_bind]; auto.
Qed.

Lemma dispatch_udp_ok s i k ds d rest src :
  length (sockets s) = 32%nat -> first_bound s (local_port k) i -> aget (sockets s) i = Some k ->
  udp_socket_rep k ds -> datagram_ok d -> de32 src = d_ip d ->
  exists s', socket_dispatch_udp (local_port k) (d_data d ++ rest) (Z.of_nat (length (d_data d))) src (d_port d) s = Some s' /\
    if decide (buffer_len k + 8 + Z.of_nat (length (d_data d)) <= 4096) then
      same_but_sockets s s' /\ task_state s' = woken (waiting_task k) (task_state s) /\
      exists k', udp_socket_rep k' (ds ++ [d]) /\ same_binding k k' /\ waiting_task k' = 0 /\
        forall j, aget (sockets s') j = if decide (i = j) then Some k' else aget (sockets s) j
    else s' = s.
Proof.
  intros Hl [(k0 & Hk0 & Hu & Hp) Hfirst] Hk Hrep Hd Hsrc. rewrite Hk in Hk0. injection Hk0 as <-.
  pose proof (aget_Some_range _ _ _ Hk) as Hi. unfold socket_dispatch_udp.
  match goal with |- context [for_ret 0 MAX_SOCKETS ?b s] => set (body := b) end.
  assert (Hskip : forall j, 0 <= j < i -> body j s = Some (Next s)).
  { intros j Hj. subst body. cbn beta. destruct (aget_is_Some (sockets s) j) as [k' Hk']; [lia|].
    rewrite Hk'. cbn [mbind option_bind]. by rewrite (Hfirst j k' Hj Hk'). }
  assert (Hbody : exists s', body i s = Some (Ret s') /\
    if decide (buffer_len k + 8 + Z.of_nat (length (d_data d)) <= 4096) then
      same_but_sockets s s' /\ task_state s' = woken (waiting_task k) (task_state s) /\
      exists k', udp_socket_rep k' (ds ++ [d]) /\ same_binding k k' /\ waiting_task k' = 0 /\
        forall j, aget (sockets s') j = if decide (i = j) then Some k' else aget (sockets s) j
    else s' = s).
  { subst body. cbn beta. rewrite Hk. cbn [mbind option_bind]. rewrite Hu, Z.eqb_refl. cbn [andb].
    change sizeof_packet with 8. change SOCKET_BUFFER_SIZE with 4096.
    destruct (decide _) as [Hroom|Hroom]; [|rewrite (proj2 (Z.leb_gt _ 4096)) by lia; by exists s].
    rewrite (proj2 (Z.leb_le _ 4096)) by lia.
    destruct (udp_deliver_ok k ds d s i Hk Hrep Hd Hroom) as (r & E & Hrep').
    rewrite Hsrc. unfold datagram_bytes in E. rewrite ring_puts_app in E.
    destruct (ring_puts (packet_bytes _ _ _) (rx k)) as [r1|]; cbn [mbind option_bind] in *; [|discriminate E].
    rewrite (mget_app 0 _ [] (d_data d) rest) by done. cbn [mbind option_bind]. rewrite E. cbn [mbind option_bind].
    destruct (upd_socket_ok i (with_rx r (u32 (buffer_len k + (8 + Z.of_nat (length (d_data d)))))) s k Hk) as (l & -> & Hll & Hlj).
    cbn [mbind option_bind].
    destruct (wake_ok i (with_sockets l s) (with_rx r (u32 (buffer_len k + (8 + Z.of_nat (length (d_data d))))) k)) as (s' & -> & Hsame & Hts & Hj).
    { cbn [sockets with_sockets]. rewrite Hlj. by rewrite decide_True by done. }
    cbn [mbind option_bind]. exists s'. split; [done|].
    destruct Hsame as (S1 & S2 & S3 & S4 & S5 & S6). cbn in S1, S2, S3, S4, S5, S6, Hts.
    split; [split_and!; try done; lia|]. split; [done|]. eexists. split; [exact Hrep'|]. split; [done|]. split; [done|].
    intros j. rewrite Hj. cbn [sockets with_sockets]. case_decide; [done|]. rewrite Hlj. by rewrite decide_False by done. }
  destruct Hbody as (s' & Eb & Hs'). exists s'. split; [|exact Hs'].
  rewrite (for_ret_first 0 MAX_SOCKETS i body s s'); [done|unfold MAX_SOCKETS; lia|exact Hskip|exact Eb].
Qed.

Lemma packet_fields a b c :
  0 <= a < 2 ^ 32 -> 0 <= b < 65536 -> 0 <= c < 65536 ->
  de32 (packet_bytes a b c) = a /\ de16 (drop 4 (packet_bytes a b c)) = b /\ de16 (drop 6 (packet_bytes a b c)) = c.
Proof.
  intros Ha Hb Hc. unfold packet_bytes. rewrite de32_le32 by done. split; [done|].
  split; [exact (de16_le16 b Hb)|exact (de16_le16 c Hc)].
Qed.

(** Receiving takes the oldest datagram off the queue, truncated to the caller's buffer. *)
Lemma recv_udp_ok s i k d ds len want :
  aget (sockets s) i = Some k -> udp_socket_rep k (d :: ds) -> 0 <= len ->
  exists s' k', socket_recvfrom i len want s =
      Some (Received (take (Z.to_nat len) (d_data d)) (if want then Some (htons (d_port d), d_ip d) else None), s') /\
    udp_socket_rep k' ds /\ same_binding k k' /\ same_but_sockets s s' /\ task_state s' = task_state s /\
    forall j, aget (sockets s') j = if decide (i = j) then Some k' else aget (sockets s) j.
Proof.
  intros Hk [[Hr Hn] Hok Ht] Hlen. apply Forall_cons in Hok as [(H1 & H2 & H3) Hok].
  cbn [mbind list_bind] in Hr, Hn. fold (ds ≫= datagram_bytes) in Hr, Hn. unfold socket_recvfrom. rewrite Hk. cbn [mbind option_bind].
  rewrite length_app, datagram_length in Hn. rewrite (proj2 (Z.eqb_neq (buffer_len k) 0)) by lia. rewrite Ht.
  change (SOCK_DGRAM =? SOCK_DGRAM) with true. cbn iota. unfold datagram_bytes in Hr at 1. rewrite <- app_assoc in Hr.
  destruct (ring_gets_ok _ (rx k) _ Hr) as (r1 & E1 & Hr1). rewrite packet_bytes_length in E1.
  change (Z.to_nat sizeof_packet) with 8%nat. rewrite E1. cbn [mbind option_bind].
  destruct (packet_fields (d_ip d) (d_port d) (Z.of_nat (length (d_data d))) H1 H2 ltac:(lia)) as (F1 & F2 & F3).
  rewrite F1, F2, F3, Nat2Z.id. destruct (ring_gets_ok _ r1 _ Hr1) as (r2 & -> & Hr2). cbn [mbind option_bind].
  change sizeof_packet with 8.
  destruct (upd_socket_ok i (with_rx r2 (u32 (buffer_len k - (8 + Z.of_nat (length (d_data d)))))) s k Hk) as (l & -> & Hl & Hj).
  cbn [mbind option_bind].
  exists (with_sockets l s), (with_rx r2 (u32 (buffer_len k - (8 + Z.of_nat (length (d_data d))))) k). split.
  - do 3 f_equal. destruct (Z.ltb_spec len (Z.of_nat (length (d_data d)))); [done|].
    rewrite Nat2Z.id, !take_ge by lia. done.
  - split; [|split; [done|split; [by split_and!|split; [done|exact Hj]]]]. constructor; [|done|done].
    pose proof (rr_length _ _ Hr2). split; [exact Hr2|]. cbn [buffer_len with_rx]. rewrite u32_small by lia. lia.
Qed.

(** ** Any sequence of deliveries and receptions *)

Inductive udp_op := Deliver (d : datagram) | Recv (length : Z).

(** The datagrams that wait, and what each reception returns. *)
Definition queue_room (ds : list datagram) (d : datagram) : bool :=
  (length (ds ≫= datagram_bytes) + 8 + length (d_data d) <=? 4096)%nat.

Fixpoint queue_run (ops : list udp_op) (ds : list datagram) : list recv_result :=
  match ops with
  | [] => []
  | Deliver d :: ops => queue_run ops (if queue_room ds d then ds ++ [d] else ds)
  | Recv n :: ops =>
      match ds with
      | [] => Blocked :: queue_run ops []
      | d :: ds => Received (take (Z.to_nat n) (d_data d)) (Some (htons (d_port d), d_ip d)) :: queue_run ops ds
      end
  end.

Fixpoint socket_run (i port : Z) (ops : list udp_op) (s : netstack) : option (list recv_result) :=
  match ops with
  | [] => Some []
  | Deliver d :: ops =>
      s ← socket_dispatch_udp port (d_data d) (Z.of_nat (length (d_data d))) (le32 (d_ip d)) (d_port d) s;
      socket_run i port ops s
  | Recv n :: ops => '(r, s) ← socket_recvfrom i n true s; l ← socket_run i port ops s; Some (r :: l)
  end.

Definition udp_op_ok (o : udp_op) : Prop := match o with Deliver d => datagram_ok d | Recv n => 0 <= n end.

Lemma first_bound_update s s' i k k' :
  first_bound s (local_port k) i -> aget (sockets s) i = Some k -> same_binding k k' ->
  (forall j, aget (sockets s') j = if decide (i = j) then Some k' else aget (sockets s) j) ->
  first_bound s' (local_port k') i.
Proof.
  intros [(k0 & Hk0 & Hu & Hp) Hf] Hk [B1 B2] Hj. rewrite Hk in Hk0. injection Hk0 as <-. rewrite B2. split.
  - exists k'. rewrite Hj. rewrite decide_True by done. by rewrite B1.
  - intros j k1 Hlt H1. rewrite Hj in H1. rewrite decide_False in H1 by lia. by eapply Hf.
Qed.

(** An empty queue blocks, and stays as it is. *)
Lemma recv_empty_ok s i k n want :
  aget (sockets s) i = Some k -> udp_socket_rep k [] ->
  exists s' k', socket_recvfrom i n want s = Some (Blocked, s') /\ udp_socket_rep k' [] /\ same_binding k k' /\
    length (sockets s') = length (sockets s) /\ waiting_task k' = running s /\
    task_state s' = <[running s := TASK_SLEEP]> (task_state s) /\
    forall j, aget (sockets s') j = if decide (i = j) then Some k' else aget (sockets s) j.
Proof.
  intros Hk [[Hr Hn] Hok Ht]. unfold socket_recvfrom, wait. rewrite Hk. cbn [mbind option_bind].
  change (buffer_len k = 0) in Hn. rewrite Hn. change (0 =? 0) with true. cbn iota.
  destruct (upd_socket_ok i (with_waiting (running s)) (with_task_state (<[running s:=TASK_SLEEP]> (task_state s)) s) k Hk)
    as (l & -> & Hl & Hj). cbn [mbind option_bind].
  eexists _, (with_waiting (running s) k).
  split; [done|]. split; [constructor; try done; exact (conj Hr Hn)|]. by split_and!.
Qed.

Lemma socket_run_ok ops : forall i k ds s,
  Forall udp_op_ok ops -> length (sockets s) = 32%nat -> first_bound s (local_port k) i ->
  aget (sockets s) i = Some k -> udp_socket_rep k ds ->
  socket_run i (local_port k) ops s = Some (queue_run ops ds).
Proof.
  induction ops as [|[d|n] ops IH]; intros i k ds s Hops Hl Hf Hk Hrep; cbn [socket_run queue_run]; [done| |];
    apply Forall_cons in Hops as [Ho Hops].
  - destruct (dispatch_udp_ok s i k ds d [] (le32 (d_ip d)) Hl Hf Hk Hrep Ho) as (s' & E & Hs').
    { rewrite <- (app_nil_r (le32 _)). apply de32_le32. apply Ho. }
    rewrite app_nil_r in E. rewrite E. cbn [mbind option_bind]. unfold queue_room.
    destruct Hrep as [[Hr Hn] Hok Ht]. rewrite Hn in Hs'.
    destruct (Nat.leb_spec (length (ds ≫= datagram_bytes) + 8 + length (d_data d)) 4096) as [Hroom|Hroom].
    + rewrite decide_True in Hs' by lia. destruct Hs' as (Hsame & _ & k' & Hrep' & Hb & _ & Hj).
      destruct Hb as [B1 B2]. rewrite <- B2. apply IH; try done.
      * rewrite <- Hl. apply Hsame.
      * eapply first_bound_update; done.
      * rewrite Hj. by rewrite decide_True by done.
    + rewrite decide_False in Hs' by lia. subst s'. by apply IH.
  - destruct ds as [|d ds].
    + destruct (recv_empty_ok s i k n true Hk Hrep) as (s' & k' & -> & Hrep' & Hb & Hl' & _ & _ & Hj).
      cbn [mbind option_bind]. destruct Hb as [B1 B2]. rewrite <- B2. rewrite (IH i k' [] s'); try done; try lia.
      * eapply first_bound_update; done.
      * rewrite Hj. by rewrite decide_True by done.
    + destruct (recv_udp_ok s i k d ds n true Hk Hrep Ho) as (s' & k' & -> & Hrep' & Hb & Hsame & _ & Hj).
      cbn [mbind option_bind]. destruct Hb as [B1 B2]. rewrite <- B2. rewrite (IH i k' ds s'); try done.
      * rewrite <- Hl. apply Hsame.
      * eapply first_bound_update; done.
      * rewrite Hj. by rewrite decide_True by done.
Qed.

(** C27 a datagram socket is a FIFO of datagrams: for every sequence
    of deliveries to its port and of receptions, the receptions return the
    datagrams in order, each one whole or cut to the caller's length, with the
    sender's address and port; a datagram that does not fit whole in what is left of the
    4096-byte ring is dropped and disturbs nothing; an empty socket blocks. *)
Theorem socket_datagram_fifo ops i k s :
  Forall udp_op_ok ops -> length (sockets s) = 32%nat -> first_bound s (local_port k) i ->
  aget (sockets s) i = Some k -> udp_socket_rep k [] ->
  socket_run i (local_port k) ops s = Some (queue_run ops []).
Proof. apply socket_run_ok. Qed.

(** ** A concrete socket: the second of the table, bound to port 53. *)

Definition idle_iface : netif :=
  Net [0x52; 0x54; 0; 0x12; 0x34; 0x56] [10; 0; 2; 15] (replicate 6 0xFF) (replicate 16 (UdpSocket 0 None false))
    0 true [] [].
Definition free_socket : socket_t := Socket 0 0 0 0 0 0 0 (Ring None 0 0) 0 0 0 false.
Definition dns_socket : socket_t :=
  Socket AF_INET SOCK_DGRAM 0 53 0 0 0 (Ring (Some (replicate 4096 0)) 4090 4090) 0 0 0 true.
Definition sample_stack : netstack :=
  Stack idle_iface (free_socket :: dns_socket :: replicate 30 free_socket) (replicate 16 0) ∅ ∅ 0x1000 10000.

Lemma empty_ring_rep b t : length b = 4096%nat -> 0 <= t < 4096 -> ring_rep (Ring (Some b) t t) [].
Proof.
  intros Hb Ht. constructor; cbn [buffer buffer_head buffer_tail length]; try done; [|lia|].
  - exists b. by split_and!.
  - change (Z.of_nat 0) with 0. by rewrite Z.add_0_r, Z.mod_small by lia.
Qed.

Lemma dns_bound : first_bound sample_stack 53 1.
Proof.
  split; [exists dns_socket; repeat split; reflexivity|]. intros j k Hj Hk. replace j with 0 in Hk by lia.
  injection Hk as <-. reflexivity.
Qed.

Lemma dns_rep : udp_socket_rep dns_socket [].
Proof. constructor; [split; [by apply empty_ring_rep|done]|constructor|done]. Qed.

(** Two datagrams across the end of the ring, one of them cut, a reception too
    many. *)
Lemma socket_datagram_fifo_witness :
  let ops := [Deliver (Datagram 0x0202000A 4000 [1; 2; 3]); Deliver (Datagram 0x0302000A 4001 [4; 5]);
              Recv 2; Recv 100; Recv 1] in
  queue_run ops [] = [Received [1; 2] (Some (htons 4000, 0x0202000A)); Received [4; 5] (Some (htons 4001, 0x0302000A));
                      Blocked] /\
  socket_run 1 53 ops sample_stack = Some (queue_run ops []).
Proof.
  intros ops. split; [reflexivity|]. apply (socket_datagram_fifo ops 1 dns_socket sample_stack).
  - repeat constructor; cbn; lia.
  - reflexivity.
  - exact dns_bound.
  - reflexivity.
  - exact dns_rep.
Defined.
