(* ===== verification/Tcp.v ===== *)
(** * Tcp: segments and the connection state machine (kernel/net/tcp.c)

    Control blocks live in [pcb_mem] at the addresses [tcp_pcbs] lists; using a
    freed or null control block has no result.  The log lines are left out. *)

From S2P Require Export Socket.

Definition MAX_TCP_PCBS : Z := 16.
Definition TCP_FIN : Z := Z.shiftl 1 0.
Definition TCP_SYN : Z := Z.shiftl 1 1.
Definition TCP_PSH : Z := Z.shiftl 1 3.
Definition TCP_ACK : Z := Z.shiftl 1 4.

Definition set_state (v : tcp_state_t) (p : tcp_pcb_t) : tcp_pcb_t :=
  Pcb (p_local_ip p) (p_remote_ip p) (p_local_port p) (p_remote_port p) v (snd_nxt p) (rcv_nxt p)
    (window_size p) (p_socket p).
Definition set_remote (ip port : Z) (p : tcp_pcb_t) : tcp_pcb_t :=
  Pcb (p_local_ip p) ip (p_local_port p) port (p_state p) (snd_nxt p) (rcv_nxt p) (window_size p) (p_socket p).
Definition set_local (ip port : Z) (p : tcp_pcb_t) : tcp_pcb_t :=
  Pcb ip (p_remote_ip p) port (p_remote_port p) (p_state p) (snd_nxt p) (rcv_nxt p) (window_size p) (p_socket p).
Definition set_snd_nxt (v : Z) (p : tcp_pcb_t) : tcp_pcb_t :=
  Pcb (p_local_ip p) (p_remote_ip p) (p_local_port p) (p_remote_port p) (p_state p) (u32 v) (rcv_nxt p)
    (window_size p) (p_socket p).
Definition set_rcv_nxt (v : Z) (p : tcp_pcb_t) : tcp_pcb_t :=
  Pcb (p_local_ip p) (p_remote_ip p) (p_local_port p) (p_remote_port p) (p_state p) (snd_nxt p) (u32 v)
    (window_size p) (p_socket p).
Definition set_socket (v : option Z) (p : tcp_pcb_t) : tcp_pcb_t :=
  Pcb (p_local_ip p) (p_remote_ip p) (p_local_port p) (p_remote_port p) (p_state p) (snd_nxt p) (rcv_nxt p)
    (window_size p) v.

Definition upd_pcb (p : Z) (f : tcp_pcb_t -> tcp_pcb_t) (s : netstack) : option netstack :=
  b ← pcb_mem s !! p; Some (with_pcbs (tcp_pcbs s) (<[p := f b]> (pcb_mem s)) s).

(** [kfree(pcb); tcp_pcbs[i] = 0]. *)
Definition free_pcb (p i : Z) (s : netstack) : option netstack :=
  l ← aset (tcp_pcbs s) i 0; Some (with_pcbs l (delete p (pcb_mem s)) s).

Definition tcp_init (s : netstack) : option netstack :=
  l ← for_do 0 MAX_TCP_PCBS (fun i l => aset l i 0) (tcp_pcbs s); Some (with_pcbs l (pcb_mem s) s).

Definition new_pcb : tcp_pcb_t := Pcb 0 0 0 0 TCP_CLOSED 0 0 4096 None.

(** ** Segments *)

Definition tcp_header (sport dport seq ack flags win checksum : Z) : list Z :=
  le16 (htons sport) ++ le16 (htons dport) ++ le32 (htonl seq) ++ le32 (htonl ack) ++ [0x50; u8 flags] ++
  le16 (htons win) ++ le16 checksum ++ le16 0.

(** The pseudo-header, then the segment. *)
Definition tcp_sum (src dst : list Z) (protocol len : Z) (seg : list Z) : Z :=
  let sum := sum16 dst (sum16 src 0) in
  let sum := u32 (sum + htons protocol) in
  let sum := u32 (sum + htons len) in
  sum16 seg sum.

Definition tcp_checksum (src dst : list Z) (protocol len : Z) (seg : list Z) : option Z :=
  s ← fold_carry 4 (tcp_sum src dst protocol len seg); Some (u16 (Z.lnot (u16 s))).

Section tcp.
(** Whether the heap has room for a packet buffer, and where it puts a control
    block. *)
Variable kmalloc_ok : Z -> bool.
Variable kmalloc_pcb : gmap Z tcp_pcb_t -> option Z.

(** The new control block, or 0 when the table is full. *)
Definition tcp_new_pcb (s : netstack) : option (Z * netstack) :=
  r ← for_ret 0 MAX_TCP_PCBS (fun i (_ : unit) =>
      p ← aget (tcp_pcbs s) i;
      if p =? 0 then
        pcb ← kmalloc_pcb (pcb_mem s);
        l ← aset (tcp_pcbs s) i pcb;
        Some (Ret (pcb, with_pcbs l (<[pcb := new_pcb]> (pcb_mem s)) s))
      else Some (Next tt)) tt;
  match r with Ret r => Some r | Next _ => Some (0, s) end.

(** [data]: the [data_len] bytes to send.  More than 65515 bytes overflow the
    16-bit total, and the copy then runs past the buffer. *)
Definition tcp_send_segment (p flags : Z) (data : list Z) (s : netstack) : option netstack :=
  b ← pcb_mem s !! p;
  let data_len := Z.of_nat (length data) in
  if 65515 <? data_len then None else
  let total_len := 20 + data_len in
  if negb (kmalloc_ok total_len) then None else
  let hdr := tcp_header (p_local_port b) (p_remote_port b) (snd_nxt b) (rcv_nxt b) flags (window_size b) in
  c ← tcp_checksum (le32 (p_local_ip b)) (le32 (p_remote_ip b)) 6 total_len (hdr 0 ++ data);
  n ← net_send_ipv4 kmalloc_ok (le32 (p_remote_ip b)) 6 (hdr c ++ data) (iface s);
  let s := with_iface n s in
  let syn_fin := if Z.land flags (Z.lor TCP_SYN TCP_FIN) =? 0 then 0 else 1 in
  upd_pcb p (set_snd_nxt (snd_nxt b + syn_fin + data_len)) s.

Definition tcp_get_free_port (s : netstack) : Z * netstack :=
  let port := next_port s in
  let n := u16 (port + 1) in
  (port, with_next_port (if 60000 <? n then 10000 else n) s).

Definition tcp_close (p : Z) (s : netstack) : option netstack :=
  if p =? 0 then Some s else
  b ← pcb_mem s !! p;
  match p_state b with
  | TCP_ESTABLISHED =>
      s ← tcp_send_segment p (Z.lor TCP_FIN TCP_ACK) [] s; upd_pcb p (set_state TCP_FIN_WAIT_1) s
  | TCP_CLOSE_WAIT =>
      s ← tcp_send_segment p (Z.lor TCP_FIN TCP_ACK) [] s; upd_pcb p (set_state TCP_LAST_ACK) s
  | _ => upd_pcb p (set_state TCP_CLOSED) s
  end.

(** ** Input *)

Definition pcb_matches (b : tcp_pcb_t) (src_ip : list Z) (src_port dest_port : Z) : bool :=
  (p_local_port b =? dest_port) &&
  (bool_decide (p_state b = TCP_LISTEN) ||
   ((p_remote_port b =? src_port) && memcmp_eq (le32 (p_remote_ip b)) src_ip)).

(** The control block of a segment and its place in the table. *)
Definition find_pcb (src_ip : list Z) (src_port dest_port : Z) (s : netstack) : option (option (Z * Z)) :=
  r ← for_ret 0 MAX_TCP_PCBS (fun i (_ : unit) =>
      p ← aget (tcp_pcbs s) i;
      if p =? 0 then Some (Next tt) else
      b ← pcb_mem s !! p;
      if pcb_matches b src_ip src_port dest_port then Some (Ret (p, i)) else Some (Next tt)) tt;
  match r with Ret r => Some (Some r) | Next _ => Some None end.

Definition wake_socket (b : tcp_pcb_t) (s : netstack) : option netstack :=
  match p_socket b with Some i => wake i s | None => Some s end.

(** The data of a segment in [TCP_ESTABLISHED]. *)
Definition tcp_receive (p : Z) (b : tcp_pcb_t) (seq off len : Z) (seg : list Z) (s : netstack) : option netstack :=
  let data_len := u16 (len - off) in
  match p_socket b with
  | None => Some s
  | Some i =>
      k ← aget (sockets s) i;
      if buffer_len k + data_len <=? SOCKET_BUFFER_SIZE then
        data ← mget off data_len seg;
        r ← ring_puts data (rx k);
        s ← upd_socket i (with_rx r (u32 (buffer_len k + data_len))) s;
        s ← upd_pcb p (set_rcv_nxt (seq + data_len)) s;
        s ← tcp_send_segment p TCP_ACK [] s;
        wake i s
      else Some s
  end.

(** [acknowledge p seq]: [pcb->rcv_nxt = seq + 1; tcp_send_segment(pcb, TCP_ACK, 0, 0)]. *)
Definition acknowledge (p seq : Z) (s : netstack) : option netstack :=
  s ← upd_pcb p (set_rcv_nxt (seq + 1)) s; tcp_send_segment p TCP_ACK [] s.

(** The state machine, for a segment of the control block [p] at [idx]. *)
Definition tcp_process (p idx : Z) (b : tcp_pcb_t) (src_ip : list Z) (src_port seq flags off len : Z) (seg : list Z)
    (s : netstack) : option netstack :=
  let has f := negb (Z.land flags f =? 0) in
  match p_state b with
  | TCP_LISTEN =>
      if has TCP_SYN then
        s ← upd_pcb p (fun b => set_state TCP_SYN_RECEIVED (set_rcv_nxt (seq + 1) (set_remote (de32 src_ip) src_port b))) s;
        tcp_send_segment p (Z.lor TCP_SYN TCP_ACK) [] s
      else Some s
  | TCP_SYN_SENT =>
      if Z.land flags (Z.lor TCP_SYN TCP_ACK) =? Z.lor TCP_SYN TCP_ACK then
        s ← upd_pcb p (fun b => set_state TCP_ESTABLISHED (set_rcv_nxt (seq + 1) b)) s;
        s ← tcp_send_segment p TCP_ACK [] s;
        wake_socket b s
      else Some s
  | TCP_SYN_RECEIVED =>
      if has TCP_ACK then upd_pcb p (set_state TCP_ESTABLISHED) s else Some s
  | TCP_ESTABLISHED =>
      if has TCP_FIN then
        s ← acknowledge p seq s;
        s ← upd_pcb p (set_state TCP_CLOSE_WAIT) s;
        wake_socket b s
      else if off <? len then tcp_receive p b seq off len seg s
      else Some s
  | TCP_FIN_WAIT_1 =>
      s ← (if has TCP_ACK then upd_pcb p (set_state TCP_FIN_WAIT_2) s else Some s);
      if has TCP_FIN then
        s ← acknowledge p seq s;
        upd_pcb p (fun b => set_state (if bool_decide (p_state b = TCP_FIN_WAIT_2) then TCP_TIME_WAIT else TCP_CLOSING) b) s
      else Some s
  | TCP_FIN_WAIT_2 =>
      if has TCP_FIN then
        s ← acknowledge p seq s;
        s ← upd_pcb p (set_state TCP_CLOSED) s;
        free_pcb p idx s
      else Some s
  | TCP_LAST_ACK =>
      if has TCP_ACK then s ← upd_pcb p (set_state TCP_CLOSED) s; free_pcb p idx s else Some s
  | _ => Some s
  end.

(** [seg]: the memory from the TCP header on; [len]: the length of the segment. *)
Definition tcp_input (src_ip seg : list Z) (len : Z) (s : netstack) : option netstack :=
  sport ← get16 0 seg; dport ← get16 2 seg; seqn ← get32 4 seg;
  let src_port := ntohs sport in let dest_port := ntohs dport in let seq := ntohl seqn in
  m ← find_pcb src_ip src_port dest_port s;
  match m with
  | None => Some s
  | Some (p, idx) =>
      b ← pcb_mem s !! p;
      flags ← get8 13 seg; off ← get8 12 seg;
      tcp_process p idx b src_ip src_port seq flags (Z.shiftr off 4 * 4) len seg s
  end.
End tcp.

(** ** The checksum of a segment *)

Lemma htons_lt v : 0 <= htons v < 65536.
Proof. apply u16_range. Qed.

Lemma tcp_sum_ok src dst proto len seg :
  length src = 4%nat -> length dst = 4%nat -> bytes_ok src -> bytes_ok dst -> bytes_ok seg ->
  Z.of_nat (length seg) < 65526 ->
  tcp_sum src dst proto len seg = word_sum src + word_sum dst + htons proto + htons len + word_sum seg /\
  0 <= tcp_sum src dst proto len seg < 2 ^ 32.
Proof.
  intros Hs Hd Bs Bd Bg Hl. pose proof (word_sum_range _ Bs) as R1. pose proof (word_sum_range _ Bd) as R2.
  pose proof (word_sum_range _ Bg) as R3. pose proof (htons_lt proto). pose proof (htons_lt len).
  rewrite Hs in R1. rewrite Hd in R2.
  assert (E : tcp_sum src dst proto len seg = word_sum src + word_sum dst + htons proto + htons len + word_sum seg).
  { unfold tcp_sum. rewrite (sum16_ok src 0) by (first [done | rewrite ?Hs; lia]).
    rewrite (sum16_ok dst) by (first [done | rewrite ?Hd; lia]). 
    rewrite (u32_small (_ + htons proto)) by lia. rewrite u32_small by lia. apply sum16_ok; [done|lia|lia]. }
  rewrite E. lia.
Qed.

Lemma tcp_checksum_ok src dst proto len seg :
  length src = 4%nat -> length dst = 4%nat -> bytes_ok src -> bytes_ok dst -> bytes_ok seg ->
  Z.of_nat (length seg) < 65526 ->
  let sum := word_sum src + word_sum dst + htons proto + htons len + word_sum seg in
  exists c k, tcp_checksum src dst proto len seg = Some c /\ 0 <= c < 65536 /\ 65535 - c = sum - 65535 * k /\
    (c = 65535 <-> sum = 0).
Proof.
  intros Hs Hd Bs Bd Bg Hl sum. destruct (tcp_sum_ok src dst proto len seg) as [E R]; try done.
  unfold tcp_checksum. destruct (fold_carry_ok _ R) as (r & k & -> & Hr & Hk & Hz). cbn [mbind option_bind].
  assert (E2 : u16 (Z.lnot (u16 r)) = 65535 - r) by (unfold Z.lnot; rewrite (u16_small r) by lia; unfold u16; pow2_lia).
  exists (65535 - r), k. rewrite E2. fold sum in E. rewrite E in Hk, Hz. split_and!; try done; lia.
Qed.

(** The receiver's test. *)
Lemma tcp_checksum_zero src dst proto len seg :
  length src = 4%nat -> length dst = 4%nat -> bytes_ok src -> bytes_ok dst -> bytes_ok seg ->
  Z.of_nat (length seg) < 65526 ->
  let sum := word_sum src + word_sum dst + htons proto + htons len + word_sum seg in
  tcp_checksum src dst proto len seg = Some 0 <-> 0 < sum /\ sum mod 65535 = 0.
Proof.
  intros Hs Hd Bs Bd Bg Hl sum. destruct (tcp_checksum_ok src dst proto len seg) as (c & k & -> & Hc & Hk & Hz); try done.
  fold sum in Hk, Hz. pose proof (word_sum_range _ Bs). pose proof (word_sum_range _ Bd). pose proof (word_sum_range _ Bg).
  pose proof (htons_lt proto). pose proof (htons_lt len). split.
  - intros [= ->]. split; [lia|]. replace sum with ((k + 1) * 65535) by lia. apply Z_mod_mult.
  - intros [Hp Hm]. f_equal. apply Z.mod_divide in Hm as [q Hq]; lia.
Qed.

(** The header around its checksum. *)
Definition header_before (sport dport seq ack flags win : Z) : list Z :=
  le16 (htons sport) ++ le16 (htons dport) ++ le32 (htonl seq) ++ le32 (htonl ack) ++ [0x50; u8 flags] ++ le16 (htons win).

Lemma tcp_header_split sport dport seq ack flags win c data :
  tcp_header sport dport seq ack flags win c ++ data =
    header_before sport dport seq ack flags win ++ le16 c ++ le16 0 ++ data.
Proof. unfold tcp_header, header_before. by rewrite <- !app_assoc. Qed.

Lemma header_before_ok sport dport seq ack flags win :
  bytes_ok (header_before sport dport seq ack flags win) /\
  length (header_before sport dport seq ack flags win) = 16%nat.
Proof.
  split; [|done]. unfold header_before. repeat apply Forall_app_2; try apply le16_bytes; try apply le32_bytes.
  repeat (apply Forall_cons; split); try apply Forall_nil;
    first [apply u8_range | unfold byte_ok; lia].
Qed.

Definition segment (b : tcp_pcb_t) (flags : Z) (data : list Z) (c : Z) : list Z :=
  tcp_header (p_local_port b) (p_remote_port b) (snd_nxt b) (rcv_nxt b) flags (window_size b) c ++ data.

Lemma segment_sum b flags data c :
  bytes_ok data -> 0 <= c < 65536 ->
  bytes_ok (segment b flags data c) /\ length (segment b flags data c) = (20 + length data)%nat /\
  word_sum (segment b flags data c) = word_sum (segment b flags data 0) + c.
Proof.
  intros Hb Hc. unfold segment. rewrite !tcp_header_split.
  set (h := header_before _ _ _ _ _ _).
  destruct (header_before_ok (p_local_port b) (p_remote_port b) (snd_nxt b) (rcv_nxt b) flags (window_size b)) as [Hh Hl].
  fold h in Hh, Hl. clearbody h. split_and!.
  - repeat apply Forall_app_2; try done; apply le16_bytes.
  - rewrite !length_app, Hl. done.
  - assert (He : Nat.even (length h) = true) by (by rewrite Hl).
    rewrite !(word_sum_app h) by done. rewrite !(word_sum_app (le16 _)) by done.
    rewrite (le16_word c), (le16_word 0) by lia. lia.
Qed.

(** A control block whose fields have their widths. *)
Record pcb_range (b : tcp_pcb_t) : Prop := {
  pr_lip : 0 <= p_local_ip b < 2 ^ 32; pr_rip : 0 <= p_remote_ip b < 2 ^ 32;
  pr_lport : 0 <= p_local_port b < 65536; pr_rport : 0 <= p_remote_port b < 65536;
  pr_snd : 0 <= snd_nxt b < 2 ^ 32; pr_rcv : 0 <= rcv_nxt b < 2 ^ 32
}.

Definition sent_by (b : tcp_pcb_t) (flags : Z) (n : Z) : tcp_pcb_t :=
  set_snd_nxt (snd_nxt b + (if Z.land flags (Z.lor TCP_SYN TCP_FIN) =? 0 then 0 else 1) + n) b.

(** The stack after a segment left: one more frame, the next identification and
    sequence number. *)
Definition after_send (p : Z) (b : tcp_pcb_t) (flags n : Z) (f : list Z) (s : netstack) : netstack :=
  with_pcbs (tcp_pcbs s) (<[p := sent_by b flags n]> (pcb_mem s))
    (with_iface (with_sent (sent (iface s) ++ [f]) (with_id (u16 (ipv4_id_counter (iface s) + 1)) (iface s))) s).

Lemma send_segment_ok ok p b flags data s :
  (forall z, ok z = true) -> iface_ok (iface s) -> pcb_mem s !! p = Some b -> bytes_ok data ->
  Z.of_nat (length data) <= 65495 ->
  exists c ipc, 0 <= c < 65536 /\
    tcp_checksum (le32 (p_local_ip b)) (le32 (p_remote_ip b)) 6 (20 + Z.of_nat (length data)) (segment b flags data 0) = Some c /\
    tcp_send_segment ok p flags data s =
      Some (after_send p b flags (Z.of_nat (length data))
        (ipv4_frame (iface s) (le32 (p_remote_ip b)) 6 (segment b flags data c) ipc) s).
Proof.
  intros Hok Hi Hp Hd Hl. unfold tcp_send_segment. rewrite Hp. cbn [mbind option_bind].
  rewrite (proj2 (Z.ltb_ge 65515 _)) by lia. rewrite Hok. cbn [negb].
  fold (segment b flags data 0). destruct (segment_sum b flags data 0 Hd ltac:(lia)) as (Bs & Ls & _).
  destruct (tcp_checksum_ok (le32 (p_local_ip b)) (le32 (p_remote_ip b)) 6 (20 + Z.of_nat (length data)) (segment b flags data 0))
    as (c & k & E & Hc & _); try apply le32_bytes; try done; [rewrite Ls; lia|].
  rewrite E. cbn [mbind option_bind]. fold (segment b flags data c).
  destruct (net_send_ipv4_ok ok (iface s) (le32 (p_remote_ip b)) 6 (segment b flags data c) Hok Hi) as (ipc & _ & _ & En);
    [done|apply le32_bytes|unfold byte_ok; lia|].
  rewrite En. cbn [mbind option_bind]. exists c, ipc. split; [done|]. split; [done|].
  unfold upd_pcb. cbn [pcb_mem with_iface]. by rewrite Hp.
Qed.

(** the checksum of outgoing segments: [tcp_send_segment] sends
    one frame, addressed to the peer, whose segment a receiver accepts - the
    one's complement sum with the pseudo-header of the frame's own addresses is
    -0 - exactly if the control block's [local_ip] is, as a one's complement
    sum, the address of the interface; so a connection opened by
    [socket_connect], which copies that address, sends valid segments, and one opened by a listening socket,
    whose [local_ip] stays 0, sends segments that every checking peer
    drops. *)
Theorem tcp_segment_checksum ok p b flags data s :
  (forall z, ok z = true) -> iface_ok (iface s) -> pcb_mem s !! p = Some b -> bytes_ok data ->
  Z.of_nat (length data) <= 65495 ->
  exists f seg s', tcp_send_segment ok p flags data s = Some s' /\ sent (iface s') = sent (iface s) ++ [f] /\
    (exists hdr, f = hdr ++ seg /\ length hdr = 34%nat /\ mget 26 4 f = Some (my_ip (iface s)) /\
       mget 30 4 f = Some (le32 (p_remote_ip b))) /\
    (tcp_checksum (my_ip (iface s)) (le32 (p_remote_ip b)) 6 (Z.of_nat (length seg)) seg = Some 0 <->
     (word_sum (my_ip (iface s)) - word_sum (le32 (p_local_ip b))) mod 65535 = 0).
Proof.
  intros Hok Hi Hp Hd Hl. destruct (send_segment_ok ok p b flags data s Hok Hi Hp Hd Hl) as (c & ipc & Hc & E & ->).
  destruct Hi as [[Hm Hip] Bip _ Hg].
  destruct (segment_sum b flags data c Hd Hc) as (Bs & Ls & Ws).
  destruct (segment_sum b flags data 0 Hd ltac:(lia)) as (Bs0 & Ls0 & _).
  eexists _, (segment b flags data c), _; split; [done|]. split; [done|]. split.
  - exists (eth_header (gateway_mac (iface s)) (my_mac (iface s)) ETH_TYPE_IPV4 ++
      ipv4_header (20 + Z.of_nat (length (segment b flags data c))) (ipv4_id_counter (iface s)) 6 ipc (my_ip (iface s))
        (le32 (p_remote_ip b))).
    unfold ipv4_frame. split; [by rewrite <- app_assoc|].
    destruct (iface s) as [mm mi g us id nic snt calls]. cbn in *. explicit. split_and!; reflexivity.
  - rewrite tcp_checksum_zero by (try done; try apply le32_bytes; rewrite Ls; lia).
    destruct (tcp_checksum_ok (le32 (p_local_ip b)) (le32 (p_remote_ip b)) 6 (20 + Z.of_nat (length data)) (segment b flags data 0))
      as (c' & k & E' & _ & Hk & Hz); try apply le32_bytes; try done; [rewrite Ls0; lia|].
    rewrite E in E'. injection E' as <-. rewrite Ws, Ls.
    replace (Z.of_nat (20 + length data)) with (20 + Z.of_nat (length data)) by lia.
    set (wl := word_sum (le32 (p_local_ip b))) in *. set (wr := word_sum (le32 (p_remote_ip b))) in *.
    set (wm := word_sum (my_ip (iface s))) in *. set (hp := htons 6) in *. set (hl := htons (20 + _)) in *.
    set (w := word_sum (segment b flags data 0)) in *.
    assert (Hpos : 0 < hp) by done. pose proof (word_sum_range _ Bip). pose proof (word_sum_range _ Bs0).
    pose proof (word_sum_range _ (le32_bytes (p_remote_ip b))). pose proof (htons_lt (20 + Z.of_nat (length data))).
    fold wm w wr hl in H, H0, H1, H2.
    replace (wm + wr + hp + hl + (w + c)) with ((wm - wl) + (k + 1) * 65535) by lia.
    rewrite Z_mod_plus_full. split; [by intros [_ ?]|]. intros Hmod. split; [|done]. lia.
Qed.

(** A listening socket's control block, on a machine whose address is 10.0.2.15:
    the two sums differ, so the segment is invalid. *)
Definition listener_pcb : tcp_pcb_t := Pcb 0 0x0202000A 80 4000 TCP_SYN_RECEIVED 0 7001 4096 (Some 0).
Definition listener_stack : netstack :=
  Stack idle_iface (replicate 32 free_socket) (0x2000 :: replicate 15 0) {[ 0x2000 := listener_pcb ]} ∅ 0x1000 10000.

Lemma tcp_segment_checksum_witness :
  (word_sum (my_ip (iface listener_stack)) - word_sum (le32 (p_local_ip listener_pcb))) mod 65535 <> 0 /\
  exists f seg s', tcp_send_segment (fun _ => true) 0x2000 (Z.lor TCP_SYN TCP_ACK) [] listener_stack = Some s' /\
    sent (iface s') = sent (iface listener_stack) ++ [f] /\
    (exists hdr, f = hdr ++ seg /\ length hdr = 34%nat /\ mget 26 4 f = Some (my_ip (iface listener_stack)) /\
       mget 30 4 f = Some (le32 (p_remote_ip listener_pcb))) /\
    (tcp_checksum (my_ip (iface listener_stack)) (le32 (p_remote_ip listener_pcb)) 6 (Z.of_nat (length seg)) seg = Some 0 <->
     (word_sum (my_ip (iface listener_stack)) - word_sum (le32 (p_local_ip listener_pcb))) mod 65535 = 0).
Proof.
  split; [vm_compute; discriminate|].
  apply (tcp_segment_checksum (fun _ => true) 0x2000 listener_pcb (Z.lor TCP_SYN TCP_ACK) [] listener_stack).
  - intros z. reflexivity.
  - constructor; [split; reflexivity| |reflexivity|reflexivity].
    repeat (apply Forall_cons; split); try apply Forall_nil; unfold byte_ok; lia.
  - reflexivity.
  - constructor.
  - cbn. lia.
Defined.
