(* ===== verification/TcpSafe.v ===== *)
(** * TcpSafe: the invariant of the network stack under any input

    [stack_ok] says what the tables, control blocks and receive rings of a
    running stack satisfy; every segment, close and reception keeps it and has
    a result: no freed control block is used and no ring is written outside. *)

From S2P Require Export Tcp.

(** States in which the socket of a connection is still open. *)
Definition open_state (st : tcp_state_t) : bool :=
  match st with TCP_LISTEN | TCP_SYN_SENT | TCP_SYN_RECEIVED | TCP_ESTABLISHED => true | _ => false end.

Definition socket_ok (l : list socket_t) (b : tcp_pcb_t) : Prop :=
  match p_socket b with
  | None => True
  | Some i => exists k, aget l i = Some k /\ (open_state (p_state b) = true -> exists q, holds k q)
  end.

Record pcb_ok (l : list socket_t) (b : tcp_pcb_t) : Prop := {
  po_range : pcb_range b;
  po_socket : socket_ok l b
}.

Record stack_ok (s : netstack) : Prop := {
  so_iface : iface_ok (iface s);
  so_sockets : length (sockets s) = 32%nat;
  so_pcbs : length (tcp_pcbs s) = 16%nat;
  so_mem : forall i p, aget (tcp_pcbs s) i = Some p -> p <> 0 ->
    exists b, pcb_mem s !! p = Some b /\ pcb_ok (sockets s) b;
  so_distinct : forall i j p, aget (tcp_pcbs s) i = Some p -> aget (tcp_pcbs s) j = Some p -> p <> 0 -> i = j
}.

(** ** Reading a segment *)

Lemma drop_opt_slice n l : (n <= length l)%nat -> drop_opt n l = Some (drop n l).
Proof. revert l. induction n as [|n IH]; intros [|x l] Hl; cbn in *; try done; try lia. apply IH. lia. Qed.

Lemma take_opt_slice n l : (n <= length l)%nat -> take_opt n l = Some (take n l).
Proof.
  revert l. induction n as [|n IH]; intros [|x l] Hl; cbn in *; try done; try lia.
  by rewrite IH by lia.
Qed.

Lemma mget_slice off n p :
  0 <= off -> 0 <= n -> off + n <= Z.of_nat (length p) -> mget off n p = Some (slice (Z.to_nat off) (Z.to_nat n) p).
Proof.
  intros Ho Hn Hl. unfold mget. rewrite (proj2 (Z.ltb_ge off 0)) by lia. rewrite drop_opt_slice by lia.
  cbn [mbind option_bind]. apply take_opt_slice. rewrite length_drop. lia.
Qed.

Lemma get16_total off p : 0 <= off -> off + 2 <= Z.of_nat (length p) -> is_Some (get16 off p).
Proof. intros. unfold get16. rewrite mget_slice by lia. eauto. Qed.

Lemma get32_total off p : 0 <= off -> off + 4 <= Z.of_nat (length p) -> is_Some (get32 off p).
Proof. intros. unfold get32. rewrite mget_slice by lia. eauto. Qed.

Lemma get8_total off p : 0 <= off -> off + 1 <= Z.of_nat (length p) -> exists x, get8 off p = Some x /\ (bytes_ok p -> byte_ok x).
Proof.
  intros Ho Hl. unfold get8. rewrite mget_slice by lia. cbn [mbind option_bind]. change (Z.to_nat 1) with 1%nat.
  pose proof (slice_length (Z.to_nat off) 1 p ltac:(lia)) as Hs.
  destruct (slice (Z.to_nat off) 1 p) as [|x [|]] eqn:E; try discriminate Hs. exists x. split; [done|].
  intros Hb. assert (H0 : slice (Z.to_nat off) 1 p !! 0%nat = Some x) by (by rewrite E).
  rewrite slice_lookup in H0 by lia. exact (Forall_lookup_1 _ _ _ _ Hb H0).
Qed.

Lemma de32_range l : length l = 4%nat -> bytes_ok l -> 0 <= de32 l < 2 ^ 32.
Proof.
  intros Hl Hb. explicit. repeat (apply Forall_cons in Hb as [? Hb]). unfold byte_ok in *. unfold de32. lia.
Qed.

(** ** How a step changes the stack *)

(** Every socket keeps being usable. *)
Definition sockets_kept (l l' : list socket_t) : Prop :=
  length l' = length l /\
  forall i k, aget l i = Some k -> exists k', aget l' i = Some k' /\ forall q, holds k q -> exists q', holds k' q'.

Lemma sockets_kept_refl l : sockets_kept l l.
Proof. split; [done|]. intros i k Hk. exists k. eauto. Qed.

Lemma pcb_ok_kept l l' b : sockets_kept l l' -> pcb_ok l b -> pcb_ok l' b.
Proof.
  intros [_ Hk] [Hr Hs]. split; [done|]. unfold socket_ok in *. destruct (p_socket b) as [i|]; [|done].
  destruct Hs as (k & E & Ho). destruct (Hk i k E) as (k' & E' & Hh). exists k'. split; [done|].
  intros H. destruct (Ho H) as [q Hq]. eauto.
Qed.

Lemma stack_ok_sockets l s : sockets_kept (sockets s) l -> stack_ok s -> stack_ok (with_sockets l s).
Proof.
  intros Hk [Hi Hs Hp Hm Hd]. constructor; cbn; try done; [by rewrite (proj1 Hk)|].
  intros i p Hip H0. destruct (Hm i p Hip H0) as (b & ? & ?). eauto using pcb_ok_kept.
Qed.

Lemma stack_ok_tasks m s : stack_ok s -> stack_ok (with_task_state m s).
Proof. by intros []. Qed.

Lemma update_kept l l' i k k' :
  length l' = length l -> aget l i = Some k -> (forall q, holds k q -> exists q', holds k' q') ->
  (forall j, aget l' j = if decide (i = j) then Some k' else aget l j) -> sockets_kept l l'.
Proof.
  intros Hl Hk Hh Hj. split; [done|]. intros j k0 H0. rewrite Hj. case_decide as Hd; [|eauto].
  subst j. rewrite Hk in H0. injection H0 as <-. eauto.
Qed.

Lemma upd_socket_safe i f s k :
  stack_ok s -> aget (sockets s) i = Some k -> (forall q, holds k q -> exists q', holds (f k) q') ->
  exists l, upd_socket i f s = Some (with_sockets l s) /\ stack_ok (with_sockets l s) /\ sockets_kept (sockets s) l /\
    aget l i = Some (f k).
Proof.
  intros Hs Hk Hh. destruct (upd_socket_ok i f s k Hk) as (l & E & Hl & Hj).
  assert (Hkept : sockets_kept (sockets s) l) by (eapply update_kept; eauto).
  exists l. split; [done|]. split; [by apply stack_ok_sockets|]. split; [done|]. rewrite Hj. by rewrite decide_True by done.
Qed.

Lemma wake_safe i s k :
  stack_ok s -> aget (sockets s) i = Some k -> exists s', wake i s = Some s' /\ stack_ok s'.
Proof.
  intros Hs Hk. unfold wake. rewrite Hk. cbn [mbind option_bind]. destruct (waiting_task k =? 0); [eauto|].
  destruct (upd_socket_safe i (with_waiting 0) (with_task_state (<[waiting_task k:=TASK_READY]> (task_state s)) s) k)
    as (l & -> & Hs' & _); [by apply stack_ok_tasks|done|eauto|eauto].
Qed.

(** Changing a control block of the table. *)
Lemma stack_ok_pcb p b s :
  stack_ok s -> pcb_ok (sockets s) b -> stack_ok (with_pcbs (tcp_pcbs s) (<[p := b]> (pcb_mem s)) s).
Proof.
  intros [Hi Hs Hp Hm Hd] Hb. constructor; cbn; try done. intros i p' Hip H0.
  destruct (decide (p = p')) as [->|Hne]; [exists b; by rewrite lookup_insert_eq|].
  rewrite lookup_insert_ne by done. eauto.
Qed.

Lemma upd_pcb_safe p f s b :
  stack_ok s -> pcb_mem s !! p = Some b -> pcb_ok (sockets s) (f b) ->
  exists s', upd_pcb p f s = Some s' /\ stack_ok s' /\ pcb_mem s' !! p = Some (f b) /\ sockets s' = sockets s /\
    tcp_pcbs s' = tcp_pcbs s.
Proof.
  intros Hs Hp Hf. unfold upd_pcb. rewrite Hp. cbn [mbind option_bind]. eexists; split; [done|].
  split; [by apply stack_ok_pcb|]. split; [apply lookup_insert_eq|done].
Qed.

(** A change of state, sequence numbers or peer keeps a control block well formed. *)
Lemma pcb_ok_change l b b' :
  pcb_ok l b -> pcb_range b' -> p_socket b' = p_socket b ->
  (open_state (p_state b') = true -> open_state (p_state b) = true) -> pcb_ok l b'.
Proof.
  intros [_ Hs] Hr Hsk Ho. split; [done|]. unfold socket_ok in *. rewrite Hsk. destruct (p_socket b); [|done].
  destruct Hs as (k & E & Hh). exists k. auto.
Qed.

Lemma free_pcb_safe p i s :
  stack_ok s -> aget (tcp_pcbs s) i = Some p -> p <> 0 -> exists s', free_pcb p i s = Some s' /\ stack_ok s'.
Proof.
  intros [Hi Hs Hp Hm Hd] Hip H0. unfold free_pcb. pose proof (aget_Some_range _ _ _ Hip) as Hr.
  destruct (aset (tcp_pcbs s) i 0) as [l|] eqn:E; [|rewrite aset_eq in E by lia; done].
  cbn [mbind option_bind]. eexists; split; [done|]. pose proof (fun j => aget_aset _ _ j _ _ E) as Hj.
  constructor; cbn; try done; [by rewrite (aset_length _ _ _ _ E)| |].
  - intros j p' Hjp H0'. rewrite Hj in Hjp. case_decide as Hd'; [by injection Hjp as <-|].
    rewrite lookup_delete_ne; [eauto|]. intros ->. apply Hd'. exact (Hd i j p' Hip Hjp H0).
  - intros j1 j2 p' H1 H2 H0'. rewrite Hj in H1. rewrite Hj in H2.
    repeat case_decide; try (injection H1 as <-; done); try (injection H2 as <-; done). eauto.
Qed.

Section safe.
Variable kmalloc_ok : Z -> bool.
Hypothesis heap_room : forall z, kmalloc_ok z = true.

(** Sending keeps the invariant and changes the control block's sequence number only. *)
Lemma after_send_safe p b flags n f s :
  stack_ok s -> pcb_ok (sockets s) b ->
  stack_ok (after_send p b flags n f s) /\ pcb_ok (sockets s) (sent_by b flags n).
Proof.
  intros Hs Hb. assert (Hb' : pcb_ok (sockets s) (sent_by b flags n)).
  { eapply pcb_ok_change; [exact Hb| |done|done]. destruct Hb as [[] _]. constructor; try done. apply u32_range. }
  split; [|done]. destruct Hs as [Hi Hso Hpc Hm Hd]. constructor; cbn; try done.
  - destruct Hi as [[] ? ? ?]. by constructor.
  - intros i p' Hip H0. destruct (decide (p = p')) as [->|Hne]; [exists (sent_by b flags n); by rewrite lookup_insert_eq|].
    rewrite lookup_insert_ne by done. eauto.
Qed.

Lemma send_safe p b flags s :
  stack_ok s -> pcb_mem s !! p = Some b -> pcb_ok (sockets s) b ->
  exists s', tcp_send_segment kmalloc_ok p flags [] s = Some s' /\ stack_ok s' /\
    pcb_mem s' !! p = Some (sent_by b flags 0) /\ sockets s' = sockets s /\ tcp_pcbs s' = tcp_pcbs s /\
    pcb_ok (sockets s') (sent_by b flags 0).
Proof.
  intros Hs Hp Hb. destruct (send_segment_ok kmalloc_ok p b flags [] s heap_room (so_iface _ Hs) Hp) as (c & ipc & _ & _ & E);
    [constructor|cbn; lia|]. change (Z.of_nat (length [])) with 0 in E.
  edestruct (after_send_safe p b flags 0) as [Hs' Hb']; [exact Hs|exact Hb|].
  eexists; split; [exact E|]. split; [exact Hs'|]. split; [apply lookup_insert_eq|]. by split_and!.
Qed.

Lemma acknowledge_safe p b seq s :
  stack_ok s -> pcb_mem s !! p = Some b -> pcb_ok (sockets s) b ->
  exists s' b', acknowledge kmalloc_ok p seq s = Some s' /\ stack_ok s' /\ pcb_mem s' !! p = Some b' /\
    sockets s' = sockets s /\ tcp_pcbs s' = tcp_pcbs s /\ p_state b' = p_state b /\ p_socket b' = p_socket b /\ pcb_range b'.
Proof.
  intros Hs Hp Hb. unfold acknowledge.
  assert (Hb1 : pcb_ok (sockets s) (set_rcv_nxt (seq + 1) b)).
  { eapply pcb_ok_change; [exact Hb| |done|done]. destruct Hb as [[] _]. constructor; try done. apply u32_range. }
  destruct (upd_pcb_safe p (set_rcv_nxt (seq + 1)) s b Hs Hp Hb1) as (s1 & -> & Hs1 & Hp1 & Hk1 & Ht1).
  cbn [mbind option_bind].
  destruct (send_safe p _ TCP_ACK s1 Hs1 Hp1) as (s2 & E & Hs2 & Hp2 & Hk2 & Ht2 & Hb2); [by rewrite Hk1|].
  exists s2, (sent_by (set_rcv_nxt (seq + 1) b) TCP_ACK 0). split; [done|]. split; [done|].
  rewrite Hk2, Ht2. split_and!; try done. apply Hb2.
Qed.

Lemma wake_socket_safe b s :
  stack_ok s -> socket_ok (sockets s) b -> exists s', wake_socket b s = Some s' /\ stack_ok s'.
Proof.
  intros Hs Hb. unfold wake_socket, socket_ok in *. destruct (p_socket b) as [i|]; [|eauto].
  destruct Hb as (k & Hk & _). by eapply wake_safe.
Qed.

Lemma find_pcb_safe src_ip sport dport s :
  stack_ok s -> exists m, find_pcb src_ip sport dport s = Some m /\
    forall p i, m = Some (p, i) -> aget (tcp_pcbs s) i = Some p /\ p <> 0.
Proof.
  intros Hs. unfold find_pcb.
  match goal with |- context [for_ret 0 MAX_TCP_PCBS ?f tt] => set (body := f) end.
  assert (Hbody : forall j u, 0 <= j < MAX_TCP_PCBS -> True ->
    match body j u with
    | Some (Next _) => True
    | Some (Ret r) => aget (tcp_pcbs s) r.2 = Some r.1 /\ r.1 <> 0
    | None => False
    end).
  { intros j u Hj _. subst body. cbn beta. unfold MAX_TCP_PCBS in Hj.
    destruct (aget_is_Some (tcp_pcbs s) j) as [p' Hp']; [rewrite (so_pcbs _ Hs); lia|].
    rewrite Hp'. cbn [mbind option_bind]. destruct (Z.eqb_spec p' 0); [done|].
    destruct (so_mem _ Hs j p' Hp') as (b & -> & _); [done|]. cbn [mbind option_bind].
    destruct (pcb_matches _ _ _ _); [by split|done]. }
  pose proof (for_ret_rule (fun _ _ => True) _ 0 MAX_TCP_PCBS body tt ltac:(done) I Hbody) as Hf.
  destruct (for_ret 0 MAX_TCP_PCBS body tt) as [[u|[p i]]|]; [exists None; by split| |done].
  exists (Some (p, i)). split; [done|]. by intros p' i' [= <- <-].
Qed.

(** Data goes into the ring of the connection's socket, if it fits. *)
Lemma receive_safe p b seq off len seg s :
  stack_ok s -> pcb_mem s !! p = Some b -> pcb_ok (sockets s) b -> open_state (p_state b) = true ->
  0 <= off < len -> len <= Z.of_nat (length seg) -> len < 65536 ->
  exists s', tcp_receive kmalloc_ok p b seq off len seg s = Some s' /\ stack_ok s'.
Proof.
  intros Hs Hp Hb Ho Hoff Hlen Hl. unfold tcp_receive. pose proof Hb as [_ Hk]. unfold socket_ok in Hk.
  destruct (p_socket b) as [i|] eqn:Es; [|eauto]. destruct Hk as (k & Hk & Hq). destruct (Hq Ho) as (q & Hr & Hn).
  rewrite Hk. cbn [mbind option_bind]. rewrite (u16_small (len - off)) by lia.
  destruct (Z.leb_spec (buffer_len k + (len - off)) SOCKET_BUFFER_SIZE) as [Hroom|]; [|eauto].
  unfold SOCKET_BUFFER_SIZE in Hroom. rewrite mget_slice by lia. cbn [mbind option_bind].
  set (d := slice _ _ seg). assert (Hd : length d = Z.to_nat (len - off)) by (apply slice_length; lia). clearbody d.
  destruct (ring_puts_ok d (rx k) q Hr) as (r & -> & Hr'); [lia|]. cbn [mbind option_bind].
  destruct (upd_socket_safe i (with_rx r (u32 (buffer_len k + (len - off)))) s k Hs Hk) as (l & -> & Hs1 & Hkept & Hi).
  { intros _ _. exists (q ++ d). split; [done|]. cbn [buffer_len with_rx]. rewrite length_app, u32_small by lia. lia. }
  cbn [mbind option_bind]. assert (Hb1 : pcb_ok l b) by (by eapply pcb_ok_kept).
  destruct (upd_pcb_safe p (set_rcv_nxt (seq + (len - off))) (with_sockets l s) b Hs1 Hp) as (s2 & -> & Hs2 & Hp2 & Hk2 & _).
  { eapply pcb_ok_change; [exact Hb1| |done|done]. destruct Hb as [[] _]. constructor; try done. apply u32_range. }
  cbn [mbind option_bind].
  destruct (send_safe p _ TCP_ACK s2 Hs2 Hp2) as (s3 & -> & Hs3 & _ & Hk3 & _).
  { rewrite Hk2. eapply pcb_ok_change; [exact Hb1| |done|done]. destruct Hb as [[] _]. constructor; try done. apply u32_range. }
  cbn [mbind option_bind]. apply (wake_safe i s3 (with_rx r (u32 (buffer_len k + (len - off))) k) Hs3).
  rewrite Hk3, Hk2. exact Hi.
Qed.

(** What the handler reads of a segment. *)
Definition segment_ok (src_ip seg : list Z) (len : Z) : Prop :=
  length src_ip = 4%nat /\ bytes_ok src_ip /\ bytes_ok seg /\ 20 <= Z.of_nat (length seg) /\
  0 <= len <= Z.of_nat (length seg) /\ len < 65536.

(** The branches of the state machine. *)
Section branches.
Variables (p idx : Z) (b : tcp_pcb_t) (s : netstack).
Hypothesis (Hs : stack_ok s) (Hidx : aget (tcp_pcbs s) idx = Some p) (H0 : p <> 0)
  (Hp : pcb_mem s !! p = Some b) (Hb : pcb_ok (sockets s) b).

Lemma listen_safe (c : bool) ip port seq :
  p_state b = TCP_LISTEN -> 0 <= ip < 2 ^ 32 -> 0 <= port < 65536 ->
  exists s', (if c then
      s ← upd_pcb p (fun b => set_state TCP_SYN_RECEIVED (set_rcv_nxt (seq + 1) (set_remote ip port b))) s;
      tcp_send_segment kmalloc_ok p (Z.lor TCP_SYN TCP_ACK) [] s
    else Some s) = Some s' /\ stack_ok s'.
Proof.
  intros Est Hip Hport. destruct c; [|eauto].
  assert (Hb' : pcb_ok (sockets s) (set_state TCP_SYN_RECEIVED (set_rcv_nxt (seq + 1) (set_remote ip port b)))).
  { eapply pcb_ok_change; [exact Hb| |done|by rewrite Est]. destruct Hb as [[] _]. constructor; try done. apply u32_range. }
  destruct (upd_pcb_safe p (fun b => set_state TCP_SYN_RECEIVED (set_rcv_nxt (seq + 1) (set_remote ip port b))) s b Hs Hp Hb')
    as (s1 & -> & Hs1 & Hp1 & Hk1 & _). cbn [mbind option_bind].
  edestruct (send_safe p _ (Z.lor TCP_SYN TCP_ACK) s1 Hs1 Hp1) as (s2 & -> & Hs2 & _); [by rewrite Hk1|eauto].
Qed.

Lemma syn_sent_safe (c : bool) seq :
  p_state b = TCP_SYN_SENT ->
  exists s', (if c then
      s ← upd_pcb p (fun b => set_state TCP_ESTABLISHED (set_rcv_nxt (seq + 1) b)) s;
      s ← tcp_send_segment kmalloc_ok p TCP_ACK [] s;
      wake_socket b s
    else Some s) = Some s' /\ stack_ok s'.
Proof.
  intros Est. destruct c; [|eauto].
  assert (Hb' : pcb_ok (sockets s) (set_state TCP_ESTABLISHED (set_rcv_nxt (seq + 1) b))).
  { eapply pcb_ok_change; [exact Hb| |done|by rewrite Est]. destruct Hb as [[] _]. constructor; try done. apply u32_range. }
  destruct (upd_pcb_safe p (fun b => set_state TCP_ESTABLISHED (set_rcv_nxt (seq + 1) b)) s b Hs Hp Hb')
    as (s1 & -> & Hs1 & Hp1 & Hk1 & _). cbn [mbind option_bind].
  edestruct (send_safe p _ TCP_ACK s1 Hs1 Hp1) as (s2 & -> & Hs2 & _ & Hk2 & _); [by rewrite Hk1|]. cbn [mbind option_bind].
  apply wake_socket_safe; [done|]. rewrite Hk2, Hk1. apply Hb.
Qed.

Lemma established_fin_safe seq :
  exists s', (s ← acknowledge kmalloc_ok p seq s; s ← upd_pcb p (set_state TCP_CLOSE_WAIT) s; wake_socket b s) = Some s' /\
    stack_ok s'.
Proof.
  destruct (acknowledge_safe p b seq s Hs Hp Hb) as (s1 & b1 & -> & Hs1 & Hp1 & Hk1 & _ & _ & Hsk & Hr). cbn [mbind option_bind].
  destruct (upd_pcb_safe p (set_state TCP_CLOSE_WAIT) s1 b1 Hs1 Hp1) as (s2 & -> & Hs2 & _ & Hk2 & _).
  { eapply pcb_ok_change; [by rewrite Hk1| |by rewrite <- Hsk|done]. by destruct Hr. }
  cbn [mbind option_bind]. apply wake_socket_safe; [done|]. rewrite Hk2, Hk1. apply Hb.
Qed.

Lemma fin_wait_1_safe (a f : bool) seq :
  p_state b = TCP_FIN_WAIT_1 ->
  exists s', (s ← (if a then upd_pcb p (set_state TCP_FIN_WAIT_2) s else Some s);
    if f then
      s ← acknowledge kmalloc_ok p seq s;
      upd_pcb p (fun b => set_state (if bool_decide (p_state b = TCP_FIN_WAIT_2) then TCP_TIME_WAIT else TCP_CLOSING) b) s
    else Some s) = Some s' /\ stack_ok s'.
Proof.
  intros Est.
  assert (H1 : exists s1 b1, (if a then upd_pcb p (set_state TCP_FIN_WAIT_2) s else Some s) = Some s1 /\ stack_ok s1 /\
    pcb_mem s1 !! p = Some b1 /\ pcb_ok (sockets s1) b1).
  { destruct a; [|by exists s, b].
    assert (Hb' : pcb_ok (sockets s) (set_state TCP_FIN_WAIT_2 b)).
    { eapply pcb_ok_change; [exact Hb| |done|done]. by destruct Hb as [[] _]. }
    destruct (upd_pcb_safe p _ s b Hs Hp Hb') as (s1 & -> & Hs1 & Hp1 & Hk1 & _).
    exists s1, (set_state TCP_FIN_WAIT_2 b). by rewrite Hk1. }
  destruct H1 as (s1 & b1 & -> & Hs1 & Hp1 & Hb1). cbn [mbind option_bind]. destruct f; [|eauto].
  destruct (acknowledge_safe p b1 seq s1 Hs1 Hp1 Hb1) as (s2 & b2 & -> & Hs2 & Hp2 & Hk2 & _ & _ & Hsk & Hr). cbn [mbind option_bind].
  edestruct (upd_pcb_safe p (fun b => set_state (if bool_decide (p_state b = TCP_FIN_WAIT_2) then TCP_TIME_WAIT else TCP_CLOSING) b) s2 b2 Hs2 Hp2)
    as (s3 & -> & Hs3 & _); [|eauto].
  eapply pcb_ok_change; [by rewrite Hk2| |by rewrite <- Hsk|by case_bool_decide]. by destruct Hr.
Qed.

Lemma fin_wait_2_safe seq :
  exists s', (s ← acknowledge kmalloc_ok p seq s; s ← upd_pcb p (set_state TCP_CLOSED) s; free_pcb p idx s) = Some s' /\ stack_ok s'.
Proof.
  destruct (acknowledge_safe p b seq s Hs Hp Hb) as (s1 & b1 & -> & Hs1 & Hp1 & Hk1 & Ht1 & _ & Hsk & Hr). cbn [mbind option_bind].
  destruct (upd_pcb_safe p (set_state TCP_CLOSED) s1 b1 Hs1 Hp1) as (s2 & -> & Hs2 & _ & _ & Ht2).
  { eapply pcb_ok_change; [by rewrite Hk1| |by rewrite <- Hsk|done]. by destruct Hr. }
  cbn [mbind option_bind]. apply free_pcb_safe; [done|by rewrite Ht2, Ht1|done].
Qed.

Lemma last_ack_safe :
  exists s', (s ← upd_pcb p (set_state TCP_CLOSED) s; free_pcb p idx s) = Some s' /\ stack_ok s'.
Proof.
  destruct (upd_pcb_safe p (set_state TCP_CLOSED) s b Hs Hp) as (s2 & -> & Hs2 & _ & _ & Ht2).
  { eapply pcb_ok_change; [exact Hb| |done|done]. by destruct Hb as [[] _]. }
  cbn [mbind option_bind]. apply free_pcb_safe; [done|by rewrite Ht2|done].
Qed.

Lemma tcp_close_safe : exists s', tcp_close kmalloc_ok p s = Some s' /\ stack_ok s'.
Proof.
  unfold tcp_close. rewrite (proj2 (Z.eqb_neq p 0) H0), Hp. cbn [mbind option_bind].
  assert (Hclosed : exists s', upd_pcb p (set_state TCP_CLOSED) s = Some s' /\ stack_ok s').
  { destruct (upd_pcb_safe p (set_state TCP_CLOSED) s b Hs Hp) as (s2 & -> & Hs2 & _); [|eauto].
    eapply pcb_ok_change; [exact Hb| |done|done]. by destruct Hb as [[] _]. }
  assert (Hfin : forall st, open_state st = false -> exists s',
    (s ← tcp_send_segment kmalloc_ok p (Z.lor TCP_FIN TCP_ACK) [] s; upd_pcb p (set_state st) s) = Some s' /\ stack_ok s').
  { intros st Hst. destruct (send_safe p b (Z.lor TCP_FIN TCP_ACK) s Hs Hp Hb) as (s1 & -> & Hs1 & Hp1 & Hk1 & _ & Hb1).
    cbn [mbind option_bind]. destruct (upd_pcb_safe p (set_state st) s1 _ Hs1 Hp1) as (s2 & -> & Hs2 & _); [|eauto].
    eapply pcb_ok_change; [exact Hb1| |done|cbn; by rewrite Hst]. by destruct Hb1 as [[] _]. }
  destruct (p_state b); auto.
Qed.
End branches.

Lemma tcp_input_safe src_ip seg len s :
  stack_ok s -> segment_ok src_ip seg len -> exists s', tcp_input kmalloc_ok src_ip seg len s = Some s' /\ stack_ok s'.
Proof.
  intros Hs (Hsl & Hsb & Hgb & Hg & Hlen & Hl). unfold tcp_input.
  destruct (get16_total 0 seg) as [sport ->]; [lia|lia|]. destruct (get16_total 2 seg) as [dport ->]; [lia|lia|].
  destruct (get32_total 4 seg) as [seqn ->]; [lia|lia|]. cbn [mbind option_bind].
  destruct (find_pcb_safe src_ip (ntohs sport) (ntohs dport) s Hs) as (m & -> & Hm). cbn [mbind option_bind].
  destruct m as [[p idx]|]; [|eauto]. destruct (Hm p idx eq_refl) as [Hidx H0]. clear Hm.
  destruct (so_mem _ Hs idx p Hidx H0) as (b & Hp & Hb). rewrite Hp. cbn [mbind option_bind].
  destruct (get8_total 13 seg) as (flags & -> & _); [lia|lia|].
  destruct (get8_total 12 seg) as (o & -> & Ho); [lia|lia|]. specialize (Ho Hgb). cbn [mbind option_bind].
  assert (Hoff : 0 <= Z.shiftr o 4 * 4). { rewrite Z.shiftr_div_pow2 by lia. unfold byte_ok in Ho. pow2_lia. }
  set (off := Z.shiftr o 4 * 4) in *. set (seq := ntohl seqn). set (port := ntohs sport).
  assert (Hport : 0 <= port < 65536) by apply u16_range. pose proof (de32_range src_ip Hsl Hsb) as Hsrc.
  clearbody off seq port. unfold tcp_process. destruct (p_state b) eqn:Est; try (by eauto).
  - by eapply listen_safe.
  - by eapply syn_sent_safe.
  - case_if; [|eauto]. destruct (upd_pcb_safe p (set_state TCP_ESTABLISHED) s b Hs Hp) as (s1 & -> & Hs1 & _); [|eauto].
    eapply pcb_ok_change; [exact Hb| |done|by rewrite Est]. by destruct Hb as [[] _].
  - case_if; [by eapply established_fin_safe|]. destruct (Z.ltb_spec off len); [|eauto].
    apply receive_safe; try done; [by rewrite Est|lia].
  - by eapply fin_wait_1_safe.
  - case_if; [|eauto]. by eapply fin_wait_2_safe.
  - case_if; [|eauto]. by eapply last_ack_safe.
Qed.

(** ** Reachable stacks *)

(** A step of the running stack: a segment arrives, a connection of the table is
    closed, a task reads from an open stream socket. *)
Inductive tcp_step : netstack -> netstack -> Prop :=
| step_input src_ip seg len s s' :
    segment_ok src_ip seg len -> tcp_input kmalloc_ok src_ip seg len s = Some s' -> tcp_step s s'
| step_close i p s s' :
    aget (tcp_pcbs s) i = Some p -> p <> 0 -> tcp_close kmalloc_ok p s = Some s' -> tcp_step s s'
| step_recv i k n w r s s' :
    aget (sockets s) i = Some k -> type_ k = SOCK_STREAM -> (exists q, holds k q) -> 0 <= n ->
    socket_recvfrom i n w s = Some (r, s') -> tcp_step s s'.

(** Reading a stream takes a prefix of what waits. *)
Lemma recv_stream_ok i k n w s q :
  stack_ok s -> aget (sockets s) i = Some k -> type_ k = SOCK_STREAM -> holds k q -> 0 <= n ->
  exists r s', socket_recvfrom i n w s = Some (r, s') /\ stack_ok s' /\
    (r = Blocked <-> q = []) /\ (q <> [] -> r = Received (take (Z.to_nat n) q) None) /\
    exists k', aget (sockets s') i = Some k' /\ holds k' (drop (Z.to_nat n) q).
Proof.
  intros Hs Hk Ht [Hr Hn] Hpos. unfold socket_recvfrom. rewrite Hk. cbn [mbind option_bind]. rewrite Hn.
  destruct (Z.eqb_spec (Z.of_nat (length q)) 0) as [H0|H0].
  { assert (q = []) as -> by (by apply nil_length_inv; lia). unfold wait.
    destruct (upd_socket_safe i (with_waiting (running s)) (with_task_state (<[running s:=TASK_SLEEP]> (task_state s)) s) k)
      as (l & -> & Hs' & _ & Hi); [by apply stack_ok_tasks|done|eauto|].
    cbn [mbind option_bind]. eexists _, _; split; [done|]. split; [done|]. split; [done|]. split; [done|].
    exists (with_waiting (running s) k). split; [exact Hi|]. by rewrite drop_nil. }
  rewrite Ht. change (SOCK_STREAM =? SOCK_DGRAM) with false. cbn iota.
  set (m := if n <? Z.of_nat (length q) then n else Z.of_nat (length q)).
  assert (Hm : Z.to_nat m = length (take (Z.to_nat n) q)) by (rewrite length_take; subst m; case_if; lia).
  assert (Hsplit : q = take (Z.to_nat n) q ++ drop (Z.to_nat n) q) by (by rewrite take_drop).
  rewrite Hsplit in Hr. destruct (ring_gets_ok _ _ _ Hr) as (r' & E & Hr'). rewrite <- Hm in E. rewrite E. cbn [mbind option_bind].
  pose proof (rr_length _ _ Hr) as Hle. rewrite take_drop in Hle.
  assert (Hh : holds (with_rx r' (u32 (Z.of_nat (length q) - m)) k) (drop (Z.to_nat n) q)).
  { split; [done|]. cbn [buffer_len with_rx]. rewrite length_drop, u32_small by (subst m; case_if; lia). subst m. case_if; lia. }
  destruct (upd_socket_safe i (with_rx r' (u32 (Z.of_nat (length q) - m))) s k Hs Hk) as (l & -> & Hs' & _ & Hi); [eauto|].
  cbn [mbind option_bind]. eexists _, _; split; [done|]. split; [done|]. split; [split; [done|by intros ->]|].
  split; [done|]. eexists; split; [exact Hi|exact Hh].
Qed.

Lemma tcp_step_safe s s' : stack_ok s -> tcp_step s s' -> stack_ok s'.
Proof.
  intros Hs Hst. revert Hs.
  destruct Hst as [src_ip seg len s0 s1 Hseg E|i p s0 s1 Hi H0 E|i k n w r s0 s1 Hk Ht [q Hq] Hn E]; intros Hs.
  - destruct (tcp_input_safe src_ip seg len s0 Hs Hseg) as (s2 & E2 & H2). rewrite E in E2. by injection E2 as <-.
  - destruct (so_mem _ Hs i p Hi H0) as (b & Hp & Hb).
    destruct (tcp_close_safe p b s0 Hs H0 Hp Hb) as (s2 & E2 & H2). rewrite E in E2. by injection E2 as <-.
  - destruct (recv_stream_ok i k n w s0 q Hs Hk Ht Hq Hn) as (r2 & s2 & E2 & H2 & _). rewrite E in E2. by injection E2 as _ <-.
Qed.

(** C24 the stack stays well formed under any network input: in
    every state reached from a well-formed stack by arbitrary segments - any
    ports, flags, sequence numbers, header length and contents - closes and
    receptions, in any order, the tables keep their sizes, every listed control
    block is live, listed once and in range, and the socket of an open connection
    has a ring that holds a queue of at most 4096 bytes; and the next segment
    and the next close have a result: no freed control block is used,
    nothing is read outside the segment or written outside a ring. *)
Theorem tcp_stack_safe s s' :
  stack_ok s -> rtc tcp_step s s' ->
  stack_ok s' /\
  (forall src_ip seg len, segment_ok src_ip seg len -> is_Some (tcp_input kmalloc_ok src_ip seg len s')) /\
  (forall i p, aget (tcp_pcbs s') i = Some p -> is_Some (tcp_close kmalloc_ok p s')) /\
  (forall i p b j k, aget (tcp_pcbs s') i = Some p -> p <> 0 -> pcb_mem s' !! p = Some b ->
     open_state (p_state b) = true -> p_socket b = Some j -> aget (sockets s') j = Some k -> 0 <= buffer_len k <= 4096).
Proof.
  intros Hs Hr. assert (Hs' : stack_ok s') by (induction Hr; eauto using tcp_step_safe). split; [done|]. split_and!.
  - intros src_ip seg len Hseg. destruct (tcp_input_safe src_ip seg len s' Hs' Hseg) as (s2 & -> & _). eauto.
  - intros i p Hi. destruct (decide (p = 0)) as [->|H0]; [by eexists|].
    destruct (so_mem _ Hs' i p Hi H0) as (b & Hp & Hb). destruct (tcp_close_safe p b s' Hs' H0 Hp Hb) as (s2 & -> & _). eauto.
  - intros i p b j k Hi H0 Hp Ho Hj Hk. destruct (so_mem _ Hs' i p Hi H0) as (b' & Hp' & [_ Hb]).
    rewrite Hp in Hp'. injection Hp' as <-. unfold socket_ok in Hb. rewrite Hj in Hb. destruct Hb as (k' & Hk' & Hq).
    rewrite Hk in Hk'. injection Hk' as <-. destruct (Hq Ho) as (q & Hrep & ->). pose proof (rr_length _ _ Hrep). lia.
Qed.
End safe.

(** ** A concrete stack: one listening socket on port 80 *)

Definition web_socket : socket_t :=
  Socket AF_INET SOCK_STREAM 0 80 0 0 0 (Ring (Some (replicate 4096 0)) 0 0) 0 0 0x2000 true.
Definition web_pcb : tcp_pcb_t := Pcb 0 0 80 0 TCP_LISTEN 0 0 4096 (Some 0).
Definition web_stack : netstack :=
  Stack idle_iface (web_socket :: replicate 31 free_socket) (0x2000 :: replicate 15 0) {[ 0x2000 := web_pcb ]} ∅ 0x1000 10000.

Lemma idle_iface_ok : iface_ok idle_iface.
Proof. constructor; [done|repeat constructor; done|done|done]. Qed.

Lemma web_stack_ok : stack_ok web_stack.
Proof.
  constructor; [exact idle_iface_ok|done|done| |].
  - intros i p Hi H0. assert (p = 0x2000) as ->.
    { unfold aget in Hi. destruct (i <? 0); [done|]. destruct (Z.to_nat i) as [|n]; [by injection Hi as <-|].
      cbn in Hi. change (replicate 15 0 !! n = Some p) in Hi. apply lookup_replicate in Hi as [-> _]. done. }
    exists web_pcb. split; [reflexivity|]. constructor; [by constructor|].
    exists web_socket. split; [reflexivity|]. intros _. exists []. split; [by apply empty_ring_rep|done].
  - intros i j p Hi Hj H0. assert (Hone : forall i, aget (tcp_pcbs web_stack) i = Some p -> i = 0); [|by rewrite (Hone i), (Hone j)].
    clear i j Hi Hj. intros i Hi. pose proof (aget_Some_range _ _ _ Hi) as Hr. unfold aget in Hi.
    destruct (Z.ltb_spec i 0); [done|]. destruct (Z.to_nat i) as [|n] eqn:E; [lia|].
    cbn in Hi. change (replicate 15 0 !! n = Some p) in Hi. apply lookup_replicate in Hi as [-> _]. done.
Qed.

Definition syn_segment : list Z := tcp_header 4000 80 7000 0 TCP_SYN 8192 0.

(** A SYN for the listening socket. *)
Lemma tcp_stack_safe_witness :
  stack_ok web_stack /\ exists s', rtc (tcp_step (fun _ => true)) web_stack s' /\
  stack_ok s' /\
  (forall src_ip seg len, segment_ok src_ip seg len -> is_Some (tcp_input (fun _ => true) src_ip seg len s')) /\
  (forall i p, aget (tcp_pcbs s') i = Some p -> is_Some (tcp_close (fun _ => true) p s')) /\
  (forall i p b j k, aget (tcp_pcbs s') i = Some p -> p <> 0 -> pcb_mem s' !! p = Some b ->
     open_state (p_state b) = true -> p_socket b = Some j -> aget (sockets s') j = Some k -> 0 <= buffer_len k <= 4096).
Proof.
  split; [exact web_stack_ok|].
  assert (Hseg : segment_ok [10; 0; 2; 2] syn_segment 20).
  { repeat split; try (cbn; lia); repeat (apply Forall_cons; split); try apply Forall_nil; unfold byte_ok; vm_compute;
      split; first [reflexivity | discriminate]. }
  destruct (tcp_input_safe (fun _ => true) (fun _ => eq_refl) [10; 0; 2; 2] syn_segment 20 web_stack web_stack_ok Hseg) as (s1 & E1 & _).
  exists s1. assert (Hr : rtc (tcp_step (fun _ => true)) web_stack s1) by (eapply rtc_once, step_input; eauto).
  split; [exact Hr|]. exact (tcp_stack_safe (fun _ => true) (fun _ => eq_refl) web_stack s1 web_stack_ok Hr).
Defined.
