(* ===== verification/SockApi.v ===== *)
(** * SockApi: the socket calls (kernel/net/socket.c, socket_create to
    socket_sendto)

    The calls that block are cut where they call [schedule]: [connect_begin],
    then other tasks run, then [connect_syn], then other tasks, then
    [connect_end]; [socket_accept] is one round of its loop. *)

From S2P Require Export Tcp.

Section api.
Variable kmalloc_ok : Z -> bool.
Variable kmalloc_pcb : gmap Z tcp_pcb_t -> option Z.
(** The receive buffer [kmalloc] returns, with whatever it contains, or a null
    pointer. *)
Variable kmalloc_buffer : option (list Z).

Definition sizeof_vfs_node : Z := 184.

(** The index of the new socket, or [None] when all are in use.  The fields the
    code does not set keep what the last user of the entry left. *)
Definition socket_create (dom typ proto : Z) (s : netstack) : option (option Z * netstack) :=
  r ← for_ret 0 MAX_SOCKETS (fun i (_ : unit) =>
      k ← aget (sockets s) i; if in_use k then Some (Next tt) else Some (Ret i)) tt;
  match r with
  | Next _ => Some (None, s)
  | Ret i =>
      s ← upd_socket i (fun k => Socket dom typ proto 0 (local_addr k) (remote_port k) (remote_addr k)
        (Ring kmalloc_buffer 0 0) 0 0 (tcp_pcb k) true) s;
      if kmalloc_ok sizeof_vfs_node then Some (Some i, s) else None
  end.

Definition socket_close (i : Z) (s : netstack) : option netstack :=
  k ← aget (sockets s) i;
  s ← (if (type_ k =? SOCK_STREAM) && negb (tcp_pcb k =? 0) then tcp_close kmalloc_ok (tcp_pcb k) s else Some s);
  upd_socket i (fun k => with_rx (Ring None (buffer_head (rx k)) (buffer_tail (rx k))) (buffer_len k) (with_in_use false k)) s.

(** [sin_port] is in network byte order. *)
Definition socket_bind (i sin_port s_addr : Z) (s : netstack) : option (Z * netstack) :=
  s ← upd_socket i (with_local (ntohs sin_port) s_addr) s;
  k ← aget (sockets s) i;
  if (type_ k =? SOCK_STREAM) && negb (tcp_pcb k =? 0) then
    s ← upd_pcb (tcp_pcb k) (set_local (local_addr k) (local_port k)) s; Some (0, s)
  else Some (0, s).

(** [if (!s->tcp_pcb) { s->tcp_pcb = tcp_new_pcb(); s->tcp_pcb->socket = s; }]. *)
Definition ensure_pcb (i : Z) (s : netstack) : option (Z * netstack) :=
  k ← aget (sockets s) i;
  if tcp_pcb k =? 0 then
    '(p, s) ← tcp_new_pcb kmalloc_pcb s;
    s ← upd_socket i (with_pcb p) s;
    s ← upd_pcb p (set_socket (Some i)) s;
    Some (p, s)
  else Some (tcp_pcb k, s).

(** Up to the wait for the ARP answer; the control block of a stream socket. *)
Definition connect_begin (i sin_port s_addr : Z) (s : netstack) : option (option Z * netstack) :=
  s ← upd_socket i (with_remote (ntohs sin_port) s_addr) s;
  k ← aget (sockets s) i;
  if type_ k =? SOCK_STREAM then
    '(p, s) ← ensure_pcb i s;
    let '(port, s) := tcp_get_free_port s in
    s ← upd_pcb p (fun b => set_remote (remote_addr k) (remote_port k) (set_local (net_get_ip (iface s)) port b)) s;
    Some (Some p, with_iface (net_send_arp_request kmalloc_ok (le32 (remote_addr k)) (iface s)) s)
  else Some (None, s).

Definition connect_syn (i p : Z) (s : netstack) : option netstack :=
  s ← upd_pcb p (fun b => set_snd_nxt 100 (set_state TCP_SYN_SENT b)) s;
  s ← tcp_send_segment kmalloc_ok p TCP_SYN [] s;
  wait i s.

Definition connect_end (p : Z) (s : netstack) : option Z :=
  b ← pcb_mem s !! p; Some (if bool_decide (p_state b = TCP_ESTABLISHED) then 0 else -1).

Definition socket_listen (i : Z) (s : netstack) : option (Z * netstack) :=
  k ← aget (sockets s) i;
  if type_ k =? SOCK_STREAM then
    '(p, s) ← ensure_pcb i s;
    s ← upd_pcb p (fun b => set_state TCP_LISTEN (set_local (p_local_ip b) (local_port k) b)) s;
    Some (0, s)
  else Some (-1, s).

(** One round: [None] while the task waits, the socket itself when the
    connection is open. *)
Definition socket_accept (i : Z) (s : netstack) : option (option (option Z) * netstack) :=
  k ← aget (sockets s) i;
  if type_ k =? SOCK_STREAM then
    b ← pcb_mem s !! tcp_pcb k;
    if bool_decide (p_state b = TCP_ESTABLISHED) then Some (Some (Some i), s)
    else s ← wait i s; Some (None, s)
  else Some (Some None, s).

(** [dest]: the port, in network byte order, and the address given. *)
Definition socket_sendto (i : Z) (message : list Z) (dest : option (Z * Z)) (s : netstack) : option (Z * netstack) :=
  k ← aget (sockets s) i;
  let length := Z.of_nat (length message) in
  if type_ k =? SOCK_DGRAM then
    let to := match dest with
      | Some (port, addr) => Some (addr, ntohs port)
      | None => if remote_addr k =? 0 then None else Some (remote_addr k, remote_port k)
      end in
    match to with
    | None => Some (-1, s)
    | Some (ip, port) =>
        n ← net_send_udp kmalloc_ok (le32 ip) port (local_port k) message (iface s);
        Some (length, with_iface n s)
    end
  else if type_ k =? SOCK_STREAM then
    if tcp_pcb k =? 0 then Some (-1, s) else
    b ← pcb_mem s !! tcp_pcb k;
    if bool_decide (p_state b = TCP_ESTABLISHED) then
      s ← tcp_send_segment kmalloc_ok (tcp_pcb k) (Z.lor TCP_ACK TCP_PSH) (take (Z.to_nat (u16 length)) message) s;
      Some (length, s)
    else Some (-1, s)
  else Some (-1, s).
End api.

(** ** A socket entry used again after its connection ended

    The connection of a closed stream socket ends with the peer's FIN and its
    control block is freed; the next stream socket takes the same entry with the
    old pointer in it, and [socket_listen] writes through it. *)
Definition closing_pcb : tcp_pcb_t := Pcb 0x0F02000A 0x0202000A 10000 80 TCP_FIN_WAIT_2 200 300 4096 (Some 0).
Definition closed_socket : socket_t :=
  Socket AF_INET SOCK_STREAM 0 0 0 80 0x0202000A (Ring None 0 0) 0 0 0x2000 false.
Definition closing_stack : netstack :=
  Stack idle_iface (closed_socket :: replicate 31 free_socket) (0x2000 :: replicate 15 0) {[ 0x2000 := closing_pcb ]} ∅
    0x1000 10001.
Definition fin_segment : list Z := tcp_header 80 10000 300 200 (Z.lor TCP_FIN TCP_ACK) 8192 0.

(** The entry that is handed out again still holds the freed control block, and
    both [socket_bind] and [socket_listen] write through it. *)
Lemma socket_reuse_dangling : exists s1 s2,
  tcp_input (fun _ => true) [10; 0; 2; 2] fin_segment 20 closing_stack = Some s1 /\
  tcp_pcbs s1 = replicate 16 0 /\
  socket_create (fun _ => true) (Some (replicate 4096 0)) AF_INET SOCK_STREAM 0 s1 = Some (Some 0, s2) /\
  (k ← aget (sockets s2) 0; Some (tcp_pcb k)) = Some 0x2000 /\
  pcb_mem s2 !! 0x2000 = None /\
  socket_bind 0 (htons 8080) 0 s2 = None /\ socket_listen (fun _ => Some 0x3000) 0 s2 = None.
Proof. eexists _, _. split_and!; vm_compute; reflexivity. Qed.
