(* ===== verification/NetIn.v ===== *)
(** * NetIn: incoming packets (kernel/net/net.c, net_handle_udp to
    net_handle_packet)

    From a received frame to the protocol handlers, and the theorems about two
    machines that exchange frames. *)

From S2P Require Export Tcp.

Section input.
Variable kmalloc_ok : Z -> bool.
Variable kmalloc_pcb : gmap Z tcp_pcb_t -> option Z.

(** [udp]: the memory from the UDP header on.  A callback is given the length
    and the memory behind the header. *)
Definition net_handle_udp (src_ip udp : list Z) (s : netstack) : option netstack :=
  dport ← get16 2 udp; sport ← get16 0 udp; ulen ← get16 4 udp;
  let dest_port := ntohs dport in let src_port := ntohs sport in
  let payload_len := i32 (u32 (ntohs ulen - 8)) in
  payload ← drop_opt 8 udp;
  calls ← for_do 0 MAX_UDP_SOCKETS (fun i calls =>
    u ← aget (udp_sockets (iface s)) i;
    if us_in_use u && (us_port u =? dest_port) then
      match us_callback u with
      | Some c => Some (calls ++ [(c, payload_len, payload, src_ip, src_port)])
      | None => Some calls
      end
    else Some calls) (udp_calls (iface s));
  socket_dispatch_udp dest_port payload (u16 payload_len) src_ip src_port
    (with_iface (with_calls calls (iface s)) s).

(** [p]: the frame, with the IPv4 header at 14; and its bytes afterwards. *)
Definition ipv4_input (p : list Z) (s : netstack) : option (list Z * netstack) :=
  smac ← mget 6 6 p;
  let s := with_iface (with_gateway smac (iface s)) s in
  dest_ip ← mget (14 + 16) 4 p;
  if memcmp_eq dest_ip (my_ip (iface s)) || memcmp_eq dest_ip [0xFF; 0xFF; 0xFF; 0xFF] then
    vihl ← get8 14 p; total ← get16 (14 + 2) p; proto ← get8 (14 + 9) p;
    let header_len := Z.land vihl 0x0F * 4 in
    src_ip ← mget (14 + 12) 4 p;
    if proto =? 1 then
      '(p, n) ← icmp_input p (14 + header_len) (ntohs total - header_len) (iface s); Some (p, with_iface n s)
    else if proto =? 17 then
      udp ← drop_opt (Z.to_nat (14 + header_len)) p; s ← net_handle_udp src_ip udp s; Some (p, s)
    else if proto =? 6 then
      tcp ← drop_opt (Z.to_nat (14 + header_len)) p;
      s ← tcp_input kmalloc_ok src_ip tcp (u16 (ntohs total - header_len)) s; Some (p, s)
    else Some (p, s)
  else Some (p, s).
Definition net_handle_ipv4 (p : list Z) (s : netstack) : option netstack := snd <$> ipv4_input p s.

Definition packet_input (p : list Z) (length : Z) (s : netstack) : option (list Z * netstack) :=
  if length <? 14 then Some (p, s) else
  t ← get16 12 p;
  let type := ntohs t in
  if type =? ETH_TYPE_ARP then '(p, n) ← arp_input p (iface s); Some (p, with_iface n s)
  else if type =? ETH_TYPE_IPV4 then ipv4_input p s
  else Some (p, s).
Definition net_handle_packet (p : list Z) (length : Z) (s : netstack) : option netstack := snd <$> packet_input p length s.

(** The same without the bytes of the frame. *)
Lemma net_handle_ipv4_eq p s : net_handle_ipv4 p s =
  (smac ← mget 6 6 p;
  let s := with_iface (with_gateway smac (iface s)) s in
  dest_ip ← mget (14 + 16) 4 p;
  if memcmp_eq dest_ip (my_ip (iface s)) || memcmp_eq dest_ip [0xFF; 0xFF; 0xFF; 0xFF] then
    vihl ← get8 14 p; total ← get16 (14 + 2) p; proto ← get8 (14 + 9) p;
    let header_len := Z.land vihl 0x0F * 4 in
    src_ip ← mget (14 + 12) 4 p;
    if proto =? 1 then
      n ← net_handle_icmp p (14 + header_len) (ntohs total - header_len) (iface s); Some (with_iface n s)
    else if proto =? 17 then
      udp ← drop_opt (Z.to_nat (14 + header_len)) p; net_handle_udp src_ip udp s
    else if proto =? 6 then
      tcp ← drop_opt (Z.to_nat (14 + header_len)) p;
      tcp_input kmalloc_ok src_ip tcp (u16 (ntohs total - header_len)) s
    else Some s
  else Some s).
Proof.
  unfold net_handle_ipv4, ipv4_input, net_handle_icmp. cbv zeta.
  destruct (mget 6 6 p) as [smac|]; [|done]. cbn [mbind option_bind]. destruct (mget (14 + 16) 4 p) as [dest|]; [|done]. cbn [mbind option_bind].
  destruct (_ || _); [|done]. destruct (get8 14 p) as [v|]; [|done]. cbn [mbind option_bind]. destruct (get16 (14 + 2) p) as [t|]; [|done]. cbn [mbind option_bind].
  destruct (get8 (14 + 9) p) as [proto|]; [|done]. cbn [mbind option_bind]. destruct (mget (14 + 12) 4 p) as [src|]; [|done]. cbn [mbind option_bind].
  destruct (proto =? 1); [by destruct (icmp_input _ _ _ _) as [[]|]|]. destruct (proto =? 17), (proto =? 6); try done.
  - destruct (drop_opt _ p); [|done]. cbn [mbind option_bind]. by destruct (net_handle_udp _ _ _).
  - destruct (drop_opt _ p); [|done]. cbn [mbind option_bind]. by destruct (net_handle_udp _ _ _).
  - destruct (drop_opt _ p); [|done]. cbn [mbind option_bind]. by destruct (tcp_input _ _ _ _ _).
Qed.

Lemma net_handle_packet_eq p length s : net_handle_packet p length s =
  (if length <? 14 then Some s else
  t ← get16 12 p;
  let type := ntohs t in
  if type =? ETH_TYPE_ARP then n ← net_handle_arp p (iface s); Some (with_iface n s)
  else if type =? ETH_TYPE_IPV4 then net_handle_ipv4 p s
  else Some s).
Proof.
  unfold net_handle_packet, packet_input, net_handle_arp. destruct (length <? 14); [done|]. destruct (get16 12 p) as [t|]; [|done]. cbn [mbind option_bind].
  cbv zeta. destruct (ntohs t =? ETH_TYPE_ARP); [by destruct (arp_input p (iface s)) as [[]|]|]. by destruct (ntohs t =? ETH_TYPE_IPV4).
Qed.
End input.
