(* ===== verification/NetThm.v ===== *)
(** * NetThm: machines that exchange frames

    What one machine sends, as another receives it: address resolution, echo,
    datagrams, and the three-way handshake with the data after it.  [pad] is
    whatever follows a frame in the card's buffer. *)

From S2P Require Export NetIn TcpSafe.

(** ** Receiving what [net_send_ipv4] sends *)

Lemma ipv4_fields n dest proto payload c pad :
  iface_ok n -> length dest = 4%nat ->
  let p := ipv4_frame n dest proto payload c ++ pad in
  get16 12 p = Some (htons ETH_TYPE_IPV4) /\ mget 6 6 p = Some (my_mac n) /\ mget 30 4 p = Some dest /\
  get8 14 p = Some 0x45 /\ get16 16 p = Some (de16 (le16 (htons (20 + Z.of_nat (length payload))))) /\
  get8 23 p = Some proto /\ mget 26 4 p = Some (my_ip n) /\ drop_opt 34 p = Some (payload ++ pad).
Proof.
  intros [[Hm Hip] _ _ Hg] Hd. destruct n as [mm mi g us id nic snt calls].
  cbn [my_mac my_ip gateway_mac ipv4_id_counter] in *. explicit. split_and!; reflexivity.
Qed.

Section exchange.
Variables (kmalloc_ok : Z -> bool) (pad : list Z).
Hypothesis heap_room : forall z, kmalloc_ok z = true.

(** The receiver has learned the sender's hardware address. *)
Definition heard (n : netif) (s : netstack) : netstack := with_iface (with_gateway (my_mac n) (iface s)) s.

(** The protocol handler is called with the sender's address, the payload and its
    length. *)
Lemma ipv4_received n proto payload c s len :
  iface_ok n -> length (my_ip (iface s)) = 4%nat -> 20 + Z.of_nat (length payload) < 65536 -> 14 <= len ->
  proto = 17 \/ proto = 6 ->
  net_handle_packet kmalloc_ok (ipv4_frame n (my_ip (iface s)) proto payload c ++ pad) len s =
    if proto =? 17 then net_handle_udp (my_ip n) (payload ++ pad) (heard n s)
    else tcp_input kmalloc_ok (my_ip n) (payload ++ pad) (Z.of_nat (length payload)) (heard n s).
Proof.
  intros Hn Hd Ht Hl Hproto.
  destruct (ipv4_fields n (my_ip (iface s)) proto payload c pad Hn Hd) as (R1 & R2 & R3 & R4 & R5 & R6 & R7 & R8).
  rewrite net_handle_packet_eq. rewrite (proj2 (Z.ltb_ge len 14)) by lia. rewrite R1. cbn [mbind option_bind].
  change (ntohs (htons ETH_TYPE_IPV4) =? ETH_TYPE_ARP) with false.
  change (ntohs (htons ETH_TYPE_IPV4) =? ETH_TYPE_IPV4) with true. cbn iota. rewrite net_handle_ipv4_eq.
  change (14 + 16) with 30. change (14 + 2) with 16. change (14 + 9) with 23. change (14 + 12) with 26.
  rewrite R2. cbn [mbind option_bind]. rewrite R3. cbn [mbind option_bind]. fold (heard n s).
  change (my_ip (iface (heard n s))) with (my_ip (iface s)).
  unfold memcmp_eq at 1. rewrite bool_decide_eq_true_2 by done. cbn [orb].
  rewrite R4, R5, R6, R7. cbn [mbind option_bind]. change (Z.to_nat (14 + Z.land 69 15 * 4)) with 34%nat. rewrite R8.
  rewrite de16_le16 by apply htons_range. rewrite ntohs_htons by lia. change (Z.land 69 15 * 4) with 20.
  replace (20 + Z.of_nat (length payload) - 20) with (Z.of_nat (length payload)) by lia.
  rewrite u16_small by lia. destruct Hproto as [->| ->]; done.
Qed.

(** ** UDP *)

Lemma callbacks_ok (us : list udp_socket) (f : udp_socket -> Z -> (Z * Z * list Z * list Z * Z)) port calls :
  length us = 16%nat ->
  exists calls', for_do 0 MAX_UDP_SOCKETS (fun i calls =>
    u ← aget us i;
    if us_in_use u && (us_port u =? port) then
      match us_callback u with Some c => Some (calls ++ [f u c]) | None => Some calls end
    else Some calls) calls = Some calls'.
Proof.
  intros Hl. destruct (for_do_rule (fun _ _ => True) 0 MAX_UDP_SOCKETS (fun i calls =>
    u ← aget us i;
    if us_in_use u && (us_port u =? port) then
      match us_callback u with Some c => Some (calls ++ [f u c]) | None => Some calls end
    else Some calls) calls) as (c & E & _); [done|done| |eauto].
  intros i s Hi _. unfold MAX_UDP_SOCKETS in Hi. destruct (aget_is_Some us i) as [u ->]; [lia|]. cbn [mbind option_bind].
  repeat case_match; eauto.
Qed.

Lemma udp_header_fields sport dport len data :
  0 <= sport < 65536 -> 0 <= dport < 65536 -> 0 <= len < 65536 ->
  let p := (udp_header sport dport len ++ data) ++ pad in
  ntohs <$> get16 0 p = Some sport /\ ntohs <$> get16 2 p = Some dport /\ ntohs <$> get16 4 p = Some len /\
  drop_opt 8 p = Some (data ++ pad).
Proof.
  intros Hs Hd Hl p.
  assert (E : get16 0 p = Some (de16 (le16 (htons sport))) /\ get16 2 p = Some (de16 (le16 (htons dport))) /\
    get16 4 p = Some (de16 (le16 (htons len))) /\ drop_opt 8 p = Some (data ++ pad)) by (split_and!; reflexivity).
  destruct E as (-> & -> & -> & ->). cbn [fmap option_fmap option_map]. rewrite !de16_le16 by apply htons_range.
  by rewrite !ntohs_htons.
Qed.

Definition datagram_from (a : netif) (sport : Z) (data : list Z) : datagram := Datagram (de32 (my_ip a)) sport data.

(** The handler of a datagram: callbacks, then the socket. *)
Lemma handle_udp_ok s src i k ds sport data :
  length (sockets s) = 32%nat -> length (udp_sockets (iface s)) = 16%nat -> first_bound s (local_port k) i ->
  aget (sockets s) i = Some k -> udp_socket_rep k ds -> datagram_ok (Datagram (de32 src) sport data) ->
  0 <= local_port k < 65536 -> Z.of_nat (length data) <= 65507 ->
  exists s', net_handle_udp src ((udp_header sport (local_port k) (8 + Z.of_nat (length data)) ++ data) ++ pad) s = Some s' /\
    tcp_pcbs s' = tcp_pcbs s /\ pcb_mem s' = pcb_mem s /\
    if decide (buffer_len k + 8 + Z.of_nat (length data) <= 4096) then
      task_state s' = woken (waiting_task k) (task_state s) /\
      exists k', udp_socket_rep k' (ds ++ [Datagram (de32 src) sport data]) /\ waiting_task k' = 0 /\
        forall j, aget (sockets s') j = if decide (i = j) then Some k' else aget (sockets s) j
    else sockets s' = sockets s /\ task_state s' = task_state s.
Proof.
  intros Hs Hus Hf Hk Hrep Hd Hdp Hl. pose proof Hd as (_ & Hsp & _). cbn [d_port] in Hsp. unfold net_handle_udp.
  destruct (udp_header_fields sport (local_port k) (8 + Z.of_nat (length data)) data) as (F0 & F2 & F4 & Fd); [done|done|lia|].
  destruct (get16 0 _) as [w0|]; [|discriminate F0]. destruct (get16 2 _) as [w2|]; [|discriminate F2].
  destruct (get16 4 _) as [w4|]; [|discriminate F4]. injection F0 as F0. injection F2 as F2. injection F4 as F4.
  cbn [mbind option_bind]. rewrite Fd, F0, F2, F4. cbn [mbind option_bind].
  replace (8 + Z.of_nat (length data) - 8) with (Z.of_nat (length data)) by lia.
  rewrite u32_small, i32_small, u16_small by lia.
  edestruct (callbacks_ok (udp_sockets (iface s)) (fun _ c => (c, Z.of_nat (length data), data ++ pad, src, sport))
    (local_port k) (udp_calls (iface s)) Hus) as (calls & Ec). rewrite Ec. cbn [mbind option_bind].
  set (s1 := with_iface (with_calls calls (iface s)) s).
  destruct (dispatch_udp_ok s1 i k ds (Datagram (de32 src) sport data) pad src Hs Hf Hk Hrep Hd eq_refl) as (s' & E & Hs').
  cbn [d_data d_port] in E, Hs'. exists s'. split; [exact E|].
  destruct (decide _) as [Hroom|Hroom].
  - destruct Hs' as ((S1 & S2 & S3 & _) & Ht & k' & Hrep' & _ & Hw & Hj). split; [exact S2|]. split; [exact S3|].
    split; [exact Ht|]. exists k'. by split_and!.
  - by subst s'.
Qed.

(** C26 a datagram from one machine to a socket of another: the
    frame [net_send_udp] gives to the card, received with anything behind it, is
    queued whole in the first socket bound to its port, with the sender's
    address and port, and the task that waits there becomes ready; other
    sockets and connections are untouched; when it does not fit it is dropped
    and nothing changes there. *)
Theorem udp_end_to_end a b i k ds sport data :
  iface_ok a -> length (my_ip (iface b)) = 4%nat -> bytes_ok (my_ip (iface b)) ->
  length (sockets b) = 32%nat -> length (udp_sockets (iface b)) = 16%nat ->
  first_bound b (local_port k) i -> aget (sockets b) i = Some k -> udp_socket_rep k ds ->
  0 <= sport < 65536 -> 0 <= local_port k < 65536 -> Z.of_nat (length data) <= 65507 ->
  exists f a' b',
    net_send_udp kmalloc_ok (my_ip (iface b)) (local_port k) sport data a = Some a' /\ sent a' = sent a ++ [f] /\
    net_handle_packet kmalloc_ok (f ++ pad) (Z.of_nat (length f)) b = Some b' /\
    tcp_pcbs b' = tcp_pcbs b /\ pcb_mem b' = pcb_mem b /\
    if decide (buffer_len k + 8 + Z.of_nat (length data) <= 4096) then
      task_state b' = woken (waiting_task k) (task_state b) /\
      exists k', udp_socket_rep k' (ds ++ [datagram_from a sport data]) /\ waiting_task k' = 0 /\
        forall j, aget (sockets b') j = if decide (i = j) then Some k' else aget (sockets b) j
    else sockets b' = sockets b /\ task_state b' = task_state b.
Proof.
  intros Ha Hd Hdb Hs Hus Hf Hk Hrep Hsp Hdp Hl. unfold net_send_udp. rewrite heap_room. cbn [negb].
  set (payload := udp_header sport (local_port k) (8 + Z.of_nat (length data)) ++ data).
  assert (Hpl : Z.of_nat (length payload) = 8 + Z.of_nat (length data)) by (unfold payload; rewrite length_app; cbn; lia).
  destruct (net_send_ipv4_ok kmalloc_ok a (my_ip (iface b)) 17 payload heap_room Ha Hd Hdb) as (c & _ & _ & ->);
    [unfold byte_ok; lia|].
  destruct (handle_udp_ok (heard a b) (my_ip a) i k ds sport data) as (b' & E & Hb'); try done.
  { destruct Ha as [[_ Hi] Hib _ _]. split; [by apply de32_range|]. split; [done|]. cbn [d_data]. lia. }
  eexists _, _, b'. split; [done|]. split; [done|]. split; [|exact Hb'].
  rewrite ipv4_received; [exact E|done|done|lia| |by left].
  unfold ipv4_frame, eth_header. rewrite !length_app, (proj1 (io_host _ Ha)), (io_gateway _ Ha). cbn. lia.
Qed.

(** ** Address resolution *)

Lemma arp_received dst src body len s :
  length dst = 6%nat -> length src = 6%nat -> 14 <= len ->
  net_handle_packet kmalloc_ok (eth_header dst src ETH_TYPE_ARP ++ body) len s =
    (n ← net_handle_arp (eth_header dst src ETH_TYPE_ARP ++ body) (iface s); Some (with_iface n s)).
Proof.
  intros Hd Hs Hl. rewrite net_handle_packet_eq. rewrite (proj2 (Z.ltb_ge len 14)) by lia.
  assert (E : get16 12 (eth_header dst src ETH_TYPE_ARP ++ body) = Some (htons ETH_TYPE_ARP)) by (explicit; reflexivity).
  rewrite E. done.
Qed.

Lemma with_iface_id s : with_iface (iface s) s = s.
Proof. by destruct s. Qed.

(** address resolution: the request for a machine's address is
    answered by that machine, every other machine is silent and unchanged, and
    the answer teaches the requester the machine's hardware address - the
    address of all frames it sends from then on. *)
Theorem arp_exchange a b :
  iface_ok (iface a) -> host_ok (iface b) -> nic_send (iface b) = true ->
  exists f r,
    net_send_arp_request kmalloc_ok (my_ip (iface b)) (iface a) = with_sent (sent (iface a) ++ [f]) (iface a) /\
    net_handle_packet kmalloc_ok (f ++ pad) 42 b = Some (with_iface (with_sent (sent (iface b) ++ [r]) (iface b)) b) /\
    net_handle_packet kmalloc_ok (r ++ pad) 42 a = Some (with_iface (with_gateway (my_mac (iface b)) (iface a)) a) /\
    length f = 42%nat /\ length r = 42%nat /\
    forall c, host_ok (iface c) -> my_ip (iface c) <> my_ip (iface b) ->
      net_handle_packet kmalloc_ok (f ++ pad) 42 c = Some c.
Proof.
  intros [[Hm Hi] _ Hn _] [Hbm Hbi] Hbn.
  exists (eth_header (replicate 6 0xFF) (my_mac (iface a)) ETH_TYPE_ARP ++
          arp_packet 1 (my_mac (iface a)) (my_ip (iface a)) (replicate 6 0) (my_ip (iface b))),
    (eth_header (my_mac (iface a)) (my_mac (iface b)) ETH_TYPE_ARP ++
     arp_packet 2 (my_mac (iface b)) (my_ip (iface b)) (my_mac (iface a)) (my_ip (iface a))).
  split. { unfold net_send_arp_request, net_send_packet. by rewrite heap_room, Hn. }
  rewrite <- !app_assoc. split.
  { rewrite arp_received by (try done; lia). rewrite arp_request_ok by done. rewrite decide_True by done.
    cbn [mbind option_bind]. unfold net_send_packet. by rewrite Hbn. }
  split. { rewrite arp_received by (try done; lia). by rewrite arp_reply_ok by done. }
  split. { rewrite !length_app. unfold eth_header, arp_packet. rewrite !length_app, Hm, Hi, Hbi. done. }
  split. { rewrite !length_app. unfold eth_header, arp_packet. rewrite !length_app, Hm, Hi, Hbm, Hbi. done. }
  intros c Hc Hne. rewrite arp_received by (try done; lia). rewrite arp_request_ok by done.
  rewrite decide_False by congruence. cbn [mbind option_bind]. by rewrite with_iface_id.
Qed.

(** ** Echo *)

(** ping: an echo request for the machine's address, with any
    options-free header, any data up to the largest packet and any checksums, is
    answered with exactly one frame: the same packet with the addresses
    exchanged, the type of a reply, and IP and ICMP checksums that verify. *)
Theorem icmp_echo_reply dst src tos total idf ttl ck sip code ick rest s :
  icmp_fields dst src idf ck sip (my_ip (iface s)) ick -> iface_ok (iface s) ->
  total = 24 + Z.of_nat (length rest) -> total < 65536 ->
  byte_ok tos -> byte_ok ttl -> byte_ok code -> bytes_ok idf -> bytes_ok sip -> bytes_ok rest ->
  exists c1 c2,
    let reply := icmp_frame src (my_mac (iface s)) tos total idf ttl (le16 c1) (my_ip (iface s)) sip 0 code (le16 c2) rest in
    net_handle_packet kmalloc_ok (icmp_frame dst src tos total idf ttl ck sip (my_ip (iface s)) 8 code ick rest ++ pad)
        (14 + total) s =
      Some (with_iface (with_sent (sent (iface s) ++ [reply]) (with_gateway src (iface s))) s) /\
    calculate_checksum (ip_part tos total idf ttl (le16 c1) (my_ip (iface s)) sip) = Some 0 /\
    calculate_checksum (icmp_part 0 code (le16 c2) rest) = Some 0.
Proof.
  intros Hf [Hh Hib Hn Hg] Ht Ht2 Htos Httl Hcode Hidf Hsip Hrest. set (dip := my_ip (iface s)) in *.
  assert (H1 : exists c, calculate_checksum (ip_part tos total idf ttl (le16 0) dip sip) = Some c /\
    calculate_checksum (ip_part tos total idf ttl (le16 c) dip sip) = Some 0).
  { assert (Hsplit : forall c, ip_part tos total idf ttl c dip sip =
      ([0x45; tos] ++ le16 (htons total) ++ idf ++ [ttl; 1]) ++ c ++ dip ++ sip)
      by (intros; unfold ip_part; by rewrite <- !app_assoc).
    apply (checksum_field (fun c => ip_part tos total idf ttl c dip sip) _ (dip ++ sip) Hsplit);
      [|rewrite !length_app, (if_idf _ _ _ _ _ _ _ Hf); done|
      rewrite !length_app, (if_idf _ _ _ _ _ _ _ Hf), (if_sip _ _ _ _ _ _ _ Hf), (if_dip _ _ _ _ _ _ _ Hf); cbn; lia].
    clear -Htos Httl Hidf Hsip Hib. unfold byte_ok in Htos, Httl.
    repeat apply Forall_app_2; try assumption; try apply le16_bytes;
      repeat (apply Forall_cons; split); try apply Forall_nil; unfold byte_ok; lia. }
  assert (H2 : exists c, calculate_checksum (icmp_part 0 code (le16 0) rest) = Some c /\
    calculate_checksum (icmp_part 0 code (le16 c) rest) = Some 0).
  { assert (Hsplit : forall c, icmp_part 0 code c rest = [0; code] ++ c ++ rest) by done.
    apply (checksum_field (fun c => icmp_part 0 code c rest) [0; code] rest Hsplit); [|done|cbn; lia].
    clear -Hcode Hrest. unfold byte_ok in Hcode.
    repeat apply Forall_app_2; try assumption; repeat (apply Forall_cons; split); try apply Forall_nil; unfold byte_ok; lia. }
  destruct H1 as (c1 & E1 & V1), H2 as (c2 & E2 & V2). exists c1, c2. cbn zeta. split; [|done].
  set (p := icmp_frame dst src tos total idf ttl ck sip dip 8 code ick rest ++ pad).
  rewrite net_handle_packet_eq. rewrite (proj2 (Z.ltb_ge _ 14)) by lia.
  assert (R0 : get16 12 p = Some (htons ETH_TYPE_IPV4) /\ get8 23 p = Some 1) by (destruct Hf; clearbody dip; explicit; by split).
  destruct R0 as [-> R23]. cbn [mbind option_bind]. change (ntohs (htons ETH_TYPE_IPV4) =? ETH_TYPE_ARP) with false.
  change (ntohs (htons ETH_TYPE_IPV4) =? ETH_TYPE_IPV4) with true. cbn iota. rewrite net_handle_ipv4_eq.
  destruct (icmp_reads dst src tos total idf ttl ck sip dip 8 code ick rest pad Hf) as (R1 & R2 & R3 & R4 & _ & _ & R7).
  fold p in R1, R2, R3, R4, R7. change (14 + 16) with 30. change (14 + 2) with 16. change (14 + 9) with 23. change (14 + 12) with 26.
  rewrite R1. cbn [mbind option_bind]. rewrite R2. cbn [mbind option_bind].
  change (my_ip (iface (with_iface (with_gateway src (iface s)) s))) with dip.
  unfold memcmp_eq at 1. rewrite bool_decide_eq_true_2 by done. cbn [orb]. rewrite R4, R7, R23, R3. cbn [mbind option_bind].
  change (1 =? 1) with true. cbn iota. change (14 + Z.land 69 15 * 4) with 34. change (Z.land 69 15 * 4) with 20.
  rewrite de16_le16 by apply htons_range. rewrite ntohs_htons by lia.
  change (iface (with_iface (with_gateway src (iface s)) s)) with (with_gateway src (iface s)).
  unfold p. rewrite (icmp_echo_ok dst src tos total idf ttl ck sip dip code ick rest pad (with_gateway src (iface s)) c1 c2); try done.
  cbn [mbind option_bind]. unfold net_send_packet. cbn [nic_send with_gateway]. by rewrite Hn.
Qed.
End exchange.

(** ** Concrete exchanges *)

Definition other_iface : netif :=
  Net [0x52; 0x54; 0; 0xAB; 0xCD; 0xEF] [10; 0; 2; 16] (replicate 6 0xFF) (replicate 16 (UdpSocket 0 None false)) 0 true [] [].
Definition other_stack : netstack :=
  Stack other_iface (replicate 32 free_socket) (replicate 16 0) ∅ ∅ 0x1000 10000.

Lemma other_iface_ok : iface_ok other_iface.
Proof.
  constructor; [by split| |done|done]. repeat (apply Forall_cons; split); try apply Forall_nil; unfold byte_ok; lia.
Qed.

Lemma udp_end_to_end_witness :
  exists f a' b',
    net_send_udp (fun _ => true) (my_ip (iface sample_stack)) 53 4000 [104; 105] other_iface = Some a' /\
    sent a' = sent other_iface ++ [f] /\
    net_handle_packet (fun _ => true) (f ++ [0; 0; 0]) (Z.of_nat (length f)) sample_stack = Some b' /\
    tcp_pcbs b' = tcp_pcbs sample_stack /\ pcb_mem b' = pcb_mem sample_stack /\
    if decide (buffer_len dns_socket + 8 + Z.of_nat (length [104; 105]) <= 4096) then
      task_state b' = woken (waiting_task dns_socket) (task_state sample_stack) /\
      exists k', udp_socket_rep k' ([] ++ [datagram_from other_iface 4000 [104; 105]]) /\ waiting_task k' = 0 /\
        forall j, aget (sockets b') j = if decide (1 = j) then Some k' else aget (sockets sample_stack) j
    else sockets b' = sockets sample_stack /\ task_state b' = task_state sample_stack.
Proof.
  apply (udp_end_to_end (fun _ => true) [0; 0; 0] (fun _ => eq_refl) other_iface sample_stack 1 dns_socket [] 4000 [104; 105]).
  - exact other_iface_ok.
  - reflexivity.
  - repeat (apply Forall_cons; split); try apply Forall_nil; unfold byte_ok; lia.
  - reflexivity.
  - reflexivity.
  - exact dns_bound.
  - reflexivity.
  - exact dns_rep.
  - lia.
  - cbn. lia.
  - cbn. lia.
Defined.

Lemma arp_exchange_witness :
  exists f r,
    net_send_arp_request (fun _ => true) (my_ip (iface other_stack)) (iface sample_stack) =
      with_sent (sent (iface sample_stack) ++ [f]) (iface sample_stack) /\
    net_handle_packet (fun _ => true) (f ++ replicate 18 0) 42 other_stack =
      Some (with_iface (with_sent (sent (iface other_stack) ++ [r]) (iface other_stack)) other_stack) /\
    net_handle_packet (fun _ => true) (r ++ replicate 18 0) 42 sample_stack =
      Some (with_iface (with_gateway (my_mac (iface other_stack)) (iface sample_stack)) sample_stack) /\
    length f = 42%nat /\ length r = 42%nat /\
    forall c, host_ok (iface c) -> my_ip (iface c) <> my_ip (iface other_stack) ->
      net_handle_packet (fun _ => true) (f ++ replicate 18 0) 42 c = Some c.
Proof.
  apply (arp_exchange (fun _ => true) (replicate 18 0) (fun _ => eq_refl) sample_stack other_stack).
  - exact idle_iface_ok.
  - split; reflexivity.
  - reflexivity.
Defined.

Lemma icmp_echo_reply_witness :
  exists c1 c2,
    let reply := icmp_frame [2; 2; 2; 2; 2; 2] (my_mac (iface sample_stack)) 0 32 [0; 1; 0; 0] 64 (le16 c1)
                   (my_ip (iface sample_stack)) [10; 0; 2; 2] 0 0 (le16 c2) [1; 0; 1; 0; 97; 98; 99; 100] in
    net_handle_packet (fun _ => true)
        (icmp_frame [1; 1; 1; 1; 1; 1] [2; 2; 2; 2; 2; 2] 0 32 [0; 1; 0; 0] 64 [9; 9] [10; 0; 2; 2]
           (my_ip (iface sample_stack)) 8 0 [7; 7] [1; 0; 1; 0; 97; 98; 99; 100] ++ [0; 0]) (14 + 32) sample_stack =
      Some (with_iface (with_sent (sent (iface sample_stack) ++ [reply]) (with_gateway [2; 2; 2; 2; 2; 2] (iface sample_stack)))
        sample_stack) /\
    calculate_checksum (ip_part 0 32 [0; 1; 0; 0] 64 (le16 c1) (my_ip (iface sample_stack)) [10; 0; 2; 2]) = Some 0 /\
    calculate_checksum (icmp_part 0 0 (le16 c2) [1; 0; 1; 0; 97; 98; 99; 100]) = Some 0.
Proof.
  apply (icmp_echo_reply (fun _ => true) [0; 0] [1; 1; 1; 1; 1; 1] [2; 2; 2; 2; 2; 2] 0 32 [0; 1; 0; 0] 64 [9; 9]
    [10; 0; 2; 2] 0 [7; 7] [1; 0; 1; 0; 97; 98; 99; 100] sample_stack).
  - constructor; reflexivity.
  - exact idle_iface_ok.
  - reflexivity.
  - lia.
  - unfold byte_ok; lia.
  - unfold byte_ok; lia.
  - unfold byte_ok; lia.
  - repeat (apply Forall_cons; split); try apply Forall_nil; unfold byte_ok; lia.
  - repeat (apply Forall_cons; split); try apply Forall_nil; unfold byte_ok; lia.
  - repeat (apply Forall_cons; split); try apply Forall_nil; unfold byte_ok; lia.
Defined.
