(* ===== verification/TcpConn.v ===== *)
(** * TcpConn: connections between two machines

    The three-way handshake and the transfer of data, frame by frame, through
    [net_handle_packet] on both sides. *)

From S2P Require Export NetThm.

(** ** The control block of a connection *)

(** [p], at [idx], is the first control block of the table for its local port. *)
Record listed (s : netstack) (idx p : Z) (b : tcp_pcb_t) : Prop := {
  li_at : aget (tcp_pcbs s) idx = Some p;
  li_nz : p <> 0;
  li_mem : pcb_mem s !! p = Some b;
  li_first : forall j p' b', 0 <= j < idx -> aget (tcp_pcbs s) j = Some p' -> p' <> 0 ->
    pcb_mem s !! p' = Some b' -> p_local_port b' <> p_local_port b
}.

Lemma listed_update s s' idx p b b' :
  stack_ok s -> listed s idx p b -> tcp_pcbs s' = tcp_pcbs s -> pcb_mem s' = <[p := b']> (pcb_mem s) ->
  p_local_port b' = p_local_port b -> listed s' idx p b'.
Proof.
  intros Hs [Hat Hnz Hm Hf] Ht Hm' Hport. constructor; [by rewrite Ht|done|rewrite Hm'; apply lookup_insert_eq|].
  intros j p' b1 Hj Hp' H0 Hb1. rewrite Ht in Hp'. rewrite Hm', lookup_insert_ne in Hb1.
  - rewrite Hport. eauto.
  - intros <-. pose proof (so_distinct _ Hs idx j p Hat Hp' H0). lia.
Qed.

Lemma find_pcb_listed s idx p b src sport :
  stack_ok s -> listed s idx p b -> pcb_matches b src sport (p_local_port b) = true ->
  find_pcb src sport (p_local_port b) s = Some (Some (p, idx)).
Proof.
  intros Hs [Hat Hnz Hm Hf] Hmatch. unfold find_pcb. pose proof (aget_Some_range _ _ _ Hat) as Hr. rewrite (so_pcbs _ Hs) in Hr.
  rewrite (for_ret_first 0 MAX_TCP_PCBS idx _ tt (p, idx)); [done|unfold MAX_TCP_PCBS; lia| |].
  - intros j Hj. destruct (aget_is_Some (tcp_pcbs s) j) as [p' Hp']; [rewrite (so_pcbs _ Hs); lia|].
    rewrite Hp'. cbn [mbind option_bind]. destruct (Z.eqb_spec p' 0) as [|H0]; [done|].
    destruct (so_mem _ Hs j p' Hp' H0) as (b' & Hb' & _). rewrite Hb'. cbn [mbind option_bind].
    unfold pcb_matches. rewrite (proj2 (Z.eqb_neq _ (p_local_port b))); [done|]. by eapply Hf.
  - rewrite Hat. cbn [mbind option_bind]. rewrite (proj2 (Z.eqb_neq p 0) Hnz), Hm. cbn [mbind option_bind]. by rewrite Hmatch.
Qed.

(** ** One segment on the wire *)

Lemma de32_le32_id w : 0 <= w < 2 ^ 32 -> de32 (le32 w) = w.
Proof. intros Hw. rewrite <- (app_nil_r (le32 w)). by apply de32_le32. Qed.

Lemma segment_fields x flags data c tail :
  pcb_range x ->
  let seg := segment x flags data c ++ tail in
  ntohs <$> get16 0 seg = Some (p_local_port x) /\ ntohs <$> get16 2 seg = Some (p_remote_port x) /\
  ntohl <$> get32 4 seg = Some (snd_nxt x) /\ get8 13 seg = Some (u8 flags) /\ get8 12 seg = Some 0x50 /\
  mget 20 (Z.of_nat (length data)) seg = Some data.
Proof.
  intros [] seg.
  assert (E : get16 0 seg = Some (de16 (le16 (htons (p_local_port x)))) /\
    get16 2 seg = Some (de16 (le16 (htons (p_remote_port x)))) /\
    get32 4 seg = Some (de32 (le32 (htonl (snd_nxt x)))) /\ get8 13 seg = Some (u8 flags) /\ get8 12 seg = Some 0x50)
    by (split_and!; reflexivity).
  destruct E as (-> & -> & -> & -> & ->). cbn [fmap option_fmap option_map].
  rewrite !de16_le16 by apply htons_range. rewrite (de32_le32_id (htonl (snd_nxt x)) (u32_range _)).
  rewrite !ntohs_htons, ntohl_htonl by done. split_and!; try done.
  unfold seg, segment. rewrite <- app_assoc. by apply mget_app.
Qed.

Section wire.
Variables (kmalloc_ok : Z -> bool) (pad : list Z).
Hypothesis heap_room : forall z, kmalloc_ok z = true.

Lemma heard_ok n s : iface_ok n -> stack_ok s -> stack_ok (heard n s).
Proof.
  intros [[Hm _] _ _ _] [[Hh Hb Hn _] Hs Hp Hmem Hd]. by constructor.
Qed.

(** A segment of [x], sent from the interface [n], at the machine that has [b] for it. *)
Lemma segment_received n x flags data c ipc s idx p b :
  iface_ok n -> stack_ok s -> pcb_range x -> le32 (p_remote_ip x) = my_ip (iface s) -> listed s idx p b ->
  p_remote_port x = p_local_port b -> pcb_matches b (my_ip n) (p_local_port x) (p_local_port b) = true ->
  Z.of_nat (length data) <= 65495 ->
  let f := ipv4_frame n (le32 (p_remote_ip x)) 6 (segment x flags data c) ipc in
  net_handle_packet kmalloc_ok (f ++ pad) (Z.of_nat (length f)) s =
    tcp_process kmalloc_ok p idx b (my_ip n) (p_local_port x) (snd_nxt x) (u8 flags) 20 (20 + Z.of_nat (length data))
      (segment x flags data c ++ pad) (heard n s).
Proof.
  intros Hn Hs Hx Hip Hl Hport Hmatch Hd f. pose proof (so_iface _ Hs) as [[_ Hlen] _ _ _].
  assert (Hseg : length (segment x flags data c) = (20 + length data)%nat) by done.
  assert (Hf : 14 <= Z.of_nat (length f)).
  { unfold f, ipv4_frame, eth_header. rewrite !length_app, (proj1 (io_host _ Hn)), (io_gateway _ Hn). cbn. lia. }
  unfold f in *. rewrite Hip in *. rewrite ipv4_received; [|done|done|rewrite Hseg; lia|done|by right].
  change (6 =? 17) with false. cbn iota. unfold tcp_input.
  destruct (segment_fields x flags data c pad Hx) as (F0 & F2 & F4 & F13 & F12 & _).
  destruct (get16 0 _) as [w0|]; [|discriminate F0]. destruct (get16 2 _) as [w2|]; [|discriminate F2].
  destruct (get32 4 _) as [w4|]; [|discriminate F4]. injection F0 as F0. injection F2 as F2. injection F4 as F4.
  cbn [mbind option_bind]. rewrite F0, F2, F4, Hport.
  assert (Hl' : listed (heard n s) idx p b) by (by destruct Hl).
  rewrite (find_pcb_listed (heard n s) idx p b) by (try done; by apply heard_ok). cbn [mbind option_bind].
  rewrite (li_mem _ _ _ _ Hl'). cbn [mbind option_bind]. rewrite F13, F12. cbn [mbind option_bind].
  change (Z.shiftr 80 4 * 4) with 20. rewrite Hseg. by replace (Z.of_nat (20 + length data)) with (20 + Z.of_nat (length data)) by lia.
Qed.

(** The parts of an interface that frames depend on. *)
Definition same_host (n n' : netif) : Prop := my_ip n' = my_ip n /\ my_mac n' = my_mac n.

(** Sending a segment: the frame, and what is left. *)
Lemma segment_sent s idx p b flags data :
  stack_ok s -> listed s idx p b -> bytes_ok data -> Z.of_nat (length data) <= 65495 ->
  exists c ipc s',
    let f := ipv4_frame (iface s) (le32 (p_remote_ip b)) 6 (segment b flags data c) ipc in
    tcp_send_segment kmalloc_ok p flags data s = Some s' /\ last (sent (iface s')) = Some f /\
    stack_ok s' /\ listed s' idx p (sent_by b flags (Z.of_nat (length data))) /\ same_host (iface s) (iface s') /\
    sockets s' = sockets s.
Proof.
  intros Hs Hl Hd Hlen. pose proof (li_mem _ _ _ _ Hl) as Hm.
  destruct (so_mem _ Hs idx p (li_at _ _ _ _ Hl) (li_nz _ _ _ _ Hl)) as (b' & Hb' & Hok). rewrite Hm in Hb'. injection Hb' as <-.
  destruct (send_segment_ok kmalloc_ok p b flags data s heap_room (so_iface _ Hs) Hm Hd Hlen) as (c & ipc & _ & _ & E).
  exists c, ipc. eexists. cbn zeta. split; [exact E|]. split; [cbn; by rewrite last_snoc|].
  destruct (after_send_safe p b flags (Z.of_nat (length data)) (ipv4_frame (iface s) (le32 (p_remote_ip b)) 6 (segment b flags data c) ipc)
    s Hs Hok) as [Hs' _]. split; [exact Hs'|].
  split; [by apply (listed_update s _ idx p b)|]. split; [by split|done].
Qed.

(** ** The handshake and a transfer, as exchanges of frames *)

Definition deliver_last (from to : netstack) : option netstack :=
  f ← last (sent (iface from)); net_handle_packet kmalloc_ok (f ++ pad) (Z.of_nat (length f)) to.

(** The client's SYN, the server's answer, the client's acknowledgement. *)
Definition handshake (pa : Z) (st : netstack * netstack) : option (netstack * netstack) :=
  let '(a, b) := st in
  a ← tcp_send_segment kmalloc_ok pa TCP_SYN [] a;
  b ← deliver_last a b;
  a ← deliver_last b a;
  b ← deliver_last a b;
  Some (a, b).

(** The client's data and the server's acknowledgement. *)
Definition transfer (pa : Z) (data : list Z) (st : netstack * netstack) : option (netstack * netstack) :=
  let '(a, b) := st in
  a ← tcp_send_segment kmalloc_ok pa (Z.lor TCP_ACK TCP_PSH) data a;
  b ← deliver_last a b;
  a ← deliver_last b a;
  Some (a, b).

Fixpoint transfers (pa : Z) (chunks : list (list Z)) (st : netstack * netstack) : option (netstack * netstack) :=
  match chunks with [] => Some st | d :: chunks => st ← transfer pa d st; transfers pa chunks st end.

(** Each end's view of the other. *)
Record peers (na nb : netif) (a b : tcp_pcb_t) : Prop := {
  pe_a : le32 (p_remote_ip a) = my_ip nb;
  pe_b : le32 (p_remote_ip b) = my_ip na;
  pe_ab : p_remote_port a = p_local_port b;
  pe_ba : p_remote_port b = p_local_port a
}.

(** An open connection, with the bytes [q] waiting in the server's socket [j]. *)
Definition connected (ia pa ib pb j : Z) (q : list Z) (st : netstack * netstack) : Prop :=
  exists a b, stack_ok st.1 /\ stack_ok st.2 /\ listed st.1 ia pa a /\ listed st.2 ib pb b /\
    p_state a = TCP_ESTABLISHED /\ p_state b = TCP_ESTABLISHED /\ peers (iface st.1) (iface st.2) a b /\
    rcv_nxt a = snd_nxt b /\ rcv_nxt b = snd_nxt a /\ p_socket b = Some j /\
    exists k, aget (sockets st.2) j = Some k /\ holds k q.

Lemma listed_ok s idx p b : stack_ok s -> listed s idx p b -> pcb_ok (sockets s) b.
Proof.
  intros Hs Hl. destruct (so_mem _ Hs idx p (li_at _ _ _ _ Hl) (li_nz _ _ _ _ Hl)) as (b' & Hb' & Hok).
  rewrite (li_mem _ _ _ _ Hl) in Hb'. by injection Hb' as <-.
Qed.

Lemma established_matches na nb a b :
  peers na nb a b -> pcb_matches b (my_ip na) (p_local_port a) (p_local_port b) = true.
Proof.
  intros [_ Hb _ Hba]. unfold pcb_matches, memcmp_eq. rewrite Z.eqb_refl, Hba, Z.eqb_refl, Hb.
  rewrite (bool_decide_eq_true_2 (my_ip na = my_ip na)) by done. by rewrite orb_true_r.
Qed.

Lemma listed_ext s s' idx p b :
  listed s idx p b -> tcp_pcbs s' = tcp_pcbs s -> pcb_mem s' = pcb_mem s -> listed s' idx p b.
Proof. intros [] E1 E2. constructor; rewrite ?E1, ?E2; done. Qed.

Lemma sent_by_quiet b flags :
  pcb_range b -> Z.land flags (Z.lor TCP_SYN TCP_FIN) = 0 -> snd_nxt (sent_by b flags 0) = snd_nxt b.
Proof. intros [] E. cbn. rewrite E. change (0 =? 0) with true. cbn iota. rewrite !Z.add_0_r. by apply u32_small. Qed.

(** Data for an open connection: into the ring, and an acknowledgement back. *)
Lemma receive_ok s idx p b seq data seg j k q :
  stack_ok s -> listed s idx p b -> p_socket b = Some j -> aget (sockets s) j = Some k -> holds k q ->
  mget 20 (Z.of_nat (length data)) seg = Some data -> (length q + length data <= 4096)%nat ->
  exists c ipc s',
    let b1 := set_rcv_nxt (seq + Z.of_nat (length data)) b in
    tcp_receive kmalloc_ok p b seq 20 (20 + Z.of_nat (length data)) seg s = Some s' /\
    last (sent (iface s')) = Some (ipv4_frame (iface s) (le32 (p_remote_ip b1)) 6 (segment b1 TCP_ACK [] c) ipc) /\
    stack_ok s' /\ listed s' idx p (sent_by b1 TCP_ACK 0) /\ same_host (iface s) (iface s') /\
    exists k', aget (sockets s') j = Some k' /\ holds k' (q ++ data).
Proof.
  intros Hs Hl Hj Hk [Hr Hn] Hseg Hroom. unfold tcp_receive. rewrite Hj, Hk. cbn [mbind option_bind].
  rewrite (u16_small (20 + _ - 20)) by lia. replace (20 + Z.of_nat (length data) - 20) with (Z.of_nat (length data)) by lia.
  rewrite (proj2 (Z.leb_le _ SOCKET_BUFFER_SIZE)) by (unfold SOCKET_BUFFER_SIZE; lia). rewrite Hseg. cbn [mbind option_bind].
  destruct (ring_puts_ok data (rx k) q Hr Hroom) as (r & -> & Hr'). cbn [mbind option_bind].
  set (k1 := with_rx r (u32 (buffer_len k + Z.of_nat (length data))) k).
  assert (Hk1 : holds k1 (q ++ data)).
  { split; [done|]. cbn [k1 buffer_len with_rx]. rewrite length_app, u32_small by lia. lia. }
  destruct (upd_socket_safe j (with_rx r (u32 (buffer_len k + Z.of_nat (length data)))) s k Hs Hk) as (l & -> & Hs1 & Hkept & Hlj); [eauto|].
  cbn [mbind option_bind]. pose proof (pcb_ok_kept _ _ _ Hkept (listed_ok _ _ _ _ Hs Hl)) as Hb.
  set (b1 := set_rcv_nxt (seq + Z.of_nat (length data)) b).
  assert (Hb1 : pcb_ok l b1).
  { eapply pcb_ok_change; [exact Hb| |done|done]. destruct Hb as [[] _]. constructor; try done. apply u32_range. }
  destruct (upd_pcb_safe p (set_rcv_nxt (seq + Z.of_nat (length data))) (with_sockets l s) b Hs1 (li_mem _ _ _ _ Hl) Hb1)
    as (s2 & E2 & Hs2 & Hp2 & Hk2 & _).
  assert (Hl2 : listed s2 idx p b1 /\ iface s2 = iface s).
  { unfold upd_pcb in E2. cbn [pcb_mem with_sockets] in E2. rewrite (li_mem _ _ _ _ Hl) in E2. injection E2 as <-.
    split; [|done]. by apply (listed_update s _ idx p b). }
  destruct Hl2 as [Hl2 Hi2]. rewrite E2. cbn [mbind option_bind].
  destruct (segment_sent s2 idx p b1 TCP_ACK [] Hs2 Hl2) as (c & ipc & s3 & -> & Hlast & Hs3 & Hl3 & Hhost & Hk3); [constructor|cbn; lia|].
  cbn [mbind option_bind]. destruct (wake_ok j s3 k1) as (s4 & E4 & (S1 & S2 & S3 & _) & _ & Hj4); [by rewrite Hk3, Hk2|].
  destruct (wake_safe j s3 k1 Hs3) as (s4' & E4' & Hs4); [by rewrite Hk3, Hk2|]. rewrite E4 in E4'. injection E4' as <-.
  exists c, ipc, s4. cbn zeta. rewrite Hi2 in Hlast, Hhost. split; [exact E4|]. rewrite S1. split; [exact Hlast|]. split; [exact Hs4|].
  split; [by eapply listed_ext|]. split; [exact Hhost|]. exists (with_waiting 0 k1). rewrite Hj4. by rewrite decide_True by done.
Qed.

Lemma peers_host na nb na' nb' a b : same_host na na' -> same_host nb nb' -> peers na nb a b -> peers na' nb' a b.
Proof. intros [Ea _] [Eb _] []. constructor; congruence. Qed.

Lemma same_host_trans n1 n2 n3 : same_host n1 n2 -> same_host n2 n3 -> same_host n1 n3.
Proof. intros [] []. split; congruence. Qed.

Lemma peers_sym na nb a b : peers na nb a b -> peers nb na b a.
Proof. by intros []. Qed.

Lemma transfer_ok ia pa ib pb j q data st :
  connected ia pa ib pb j q st -> bytes_ok data -> (0 < length data)%nat -> (length q + length data <= 4096)%nat ->
  exists st', transfer pa data st = Some st' /\ connected ia pa ib pb j (q ++ data) st'.
Proof.
  destruct st as [A B]. intros (a & b & HA & HB & Hla & Hlb & Ea & Eb & Hp & Hab & Hba & Hj & k & Hk & Hq) Hd Hpos Hroom.
  cbn [fst snd] in *. unfold transfer.
  destruct (segment_sent A ia pa a (Z.lor TCP_ACK TCP_PSH) data HA Hla Hd) as (c & ipc & A1 & -> & Hlast & HA1 & Hla1 & Hhost & HkA); [lia|].
  cbn [mbind option_bind]. unfold deliver_last. rewrite Hlast. cbn [mbind option_bind].
  pose proof (listed_ok _ _ _ _ HA Hla) as [Hra _]. pose proof (listed_ok _ _ _ _ HB Hlb) as [Hrb _].
  rewrite (segment_received (iface A) a _ data c ipc B ib pb b (so_iface _ HA) HB Hra (pe_a _ _ _ _ Hp) Hlb (pe_ab _ _ _ _ Hp)
    (established_matches _ _ _ _ Hp)) by lia.
  unfold tcp_process. rewrite Eb. change (negb (Z.land (u8 (Z.lor TCP_ACK TCP_PSH)) TCP_FIN =? 0)) with false. cbn iota.
  rewrite (proj2 (Z.ltb_lt 20 _)) by lia.
  assert (HB' : stack_ok (heard (iface A) B)) by (apply heard_ok; [apply HA|done]).
  assert (Hlb' : listed (heard (iface A) B) ib pb b) by (by apply (listed_ext B)).
  destruct (segment_fields a (Z.lor TCP_ACK TCP_PSH) data c pad Hra) as (_ & _ & _ & _ & _ & Hget).
  destruct (receive_ok (heard (iface A) B) ib pb b (snd_nxt a) data _ j k q HB' Hlb' Hj Hk Hq Hget Hroom)
    as (c2 & ipc2 & B1 & -> & Hlast2 & HB1 & Hlb1 & HhostB & k' & Hk' & Hq').
  cbn [mbind option_bind]. rewrite Hlast2. cbn [mbind option_bind].
  set (b1 := set_rcv_nxt (snd_nxt a + Z.of_nat (length data)) b) in *.
  assert (Hp1 : peers (iface A1) (iface (heard (iface A) B)) (sent_by a (Z.lor TCP_ACK TCP_PSH) (Z.of_nat (length data))) b1).
  { apply (peers_host (iface A) (iface B)); [done|done|]. by destruct Hp. }
  rewrite (segment_received (iface (heard (iface A) B)) b1 TCP_ACK [] c2 ipc2 A1 ia pa
    (sent_by a (Z.lor TCP_ACK TCP_PSH) (Z.of_nat (length data))) (so_iface _ HB') HA1);
    [|by destruct Hrb; constructor; try done; apply u32_range|exact (pe_b _ _ _ _ Hp1)|exact Hla1|exact (pe_ba _ _ _ _ Hp1)
     |exact (established_matches _ _ _ _ (peers_sym _ _ _ _ Hp1))|cbn; lia].
  unfold tcp_process. cbn [p_state sent_by set_snd_nxt]. rewrite Ea.
  change (negb (Z.land (u8 TCP_ACK) TCP_FIN =? 0)) with false. change (20 + Z.of_nat (length [])) with 20. change (20 <? 20) with false.
  cbn iota. cbn [mbind option_bind]. eexists; split; [done|].
  exists (sent_by a (Z.lor TCP_ACK TCP_PSH) (Z.of_nat (length data))), (sent_by b1 TCP_ACK 0). cbn [fst snd].
  split; [apply heard_ok; [apply HB'|done]|]. split; [done|]. split; [by apply (listed_ext A1)|]. split; [done|].
  split; [done|]. split; [done|]. split; [by apply (peers_host (iface A1) (iface (heard (iface A) B))); [|exact HhostB|destruct Hp1]|].
  split; [rewrite (sent_by_quiet b1); [exact Hab| |done]; destruct Hrb; constructor; try done; apply u32_range|].
  split; [|split; [exact Hj|exists k'; by split]].
  cbn. change (Z.land (Z.lor TCP_ACK TCP_PSH) (Z.lor TCP_SYN TCP_FIN) =? 0) with true. cbn iota. by rewrite Z.add_0_r.
Qed.

(** ** The handshake *)

Lemma upd_listed s idx p b f :
  stack_ok s -> listed s idx p b -> pcb_ok (sockets s) (f b) -> p_local_port (f b) = p_local_port b ->
  exists s', upd_pcb p f s = Some s' /\ stack_ok s' /\ listed s' idx p (f b) /\ iface s' = iface s /\ sockets s' = sockets s.
Proof.
  intros Hs Hl Hok Hport. destruct (upd_pcb_safe p f s b Hs (li_mem _ _ _ _ Hl) Hok) as (s' & E & Hs' & _ & Hk & _).
  exists s'. split; [done|]. split; [done|]. unfold upd_pcb in E. rewrite (li_mem _ _ _ _ Hl) in E. injection E as <-.
  split; [|done]. by apply (listed_update s _ idx p b).
Qed.

Lemma wake_socket_ok s b :
  stack_ok s -> socket_ok (sockets s) b ->
  exists s', wake_socket b s = Some s' /\ stack_ok s' /\ tcp_pcbs s' = tcp_pcbs s /\ pcb_mem s' = pcb_mem s /\ iface s' = iface s.
Proof.
  intros Hs Hb. destruct (wake_socket_safe b s Hs Hb) as (s' & E & Hs'). exists s'. split; [done|]. split; [done|].
  unfold wake_socket, socket_ok in *. destruct (p_socket b) as [i|]; [|by injection E as <-].
  destruct Hb as (k & Hk & _). destruct (wake_ok i s k Hk) as (s2 & E2 & (S1 & S2 & S3 & _) & _). rewrite E in E2. by injection E2 as <-.
Qed.

Definition syn_received (a : tcp_pcb_t) (ip : list Z) (b : tcp_pcb_t) : tcp_pcb_t :=
  set_state TCP_SYN_RECEIVED (set_rcv_nxt (snd_nxt a + 1) (set_remote (de32 ip) (p_local_port a) b)).

Definition opened (b a : tcp_pcb_t) : tcp_pcb_t := set_state TCP_ESTABLISHED (set_rcv_nxt (snd_nxt b + 1) a).

(** The listening side: a SYN is answered. *)
Lemma listen_step s ib pb b n a c :
  stack_ok s -> listed s ib pb b -> p_state b = TCP_LISTEN -> iface_ok n -> pcb_range a ->
  exists c' ipc s', tcp_process kmalloc_ok pb ib b (my_ip n) (p_local_port a) (snd_nxt a) (u8 TCP_SYN) 20 20 c s = Some s' /\
    last (sent (iface s')) = Some (ipv4_frame (iface s) (my_ip n) 6 (segment (syn_received a (my_ip n) b) (Z.lor TCP_SYN TCP_ACK) [] c') ipc) /\
    stack_ok s' /\ listed s' ib pb (sent_by (syn_received a (my_ip n) b) (Z.lor TCP_SYN TCP_ACK) 0) /\
    same_host (iface s) (iface s') /\ sockets s' = sockets s.
Proof.
  intros Hs Hl Est Hn Ha. unfold tcp_process. rewrite Est. change (negb (Z.land (u8 TCP_SYN) TCP_SYN =? 0)) with true. cbn iota.
  pose proof (listed_ok _ _ _ _ Hs Hl) as Hok. pose proof (proj2 (io_host _ Hn)) as Hip. pose proof (io_ip _ Hn) as Hib.
  destruct (upd_listed s ib pb b (syn_received a (my_ip n)) Hs Hl) as (s1 & E & Hs1 & Hl1 & Hi1 & Hk1); [|done|].
  { eapply pcb_ok_change; [exact Hok| |done|by rewrite Est]. pose proof (de32_range _ Hip Hib).
    destruct Hok as [[] _], Ha. constructor; try done. apply u32_range. }
  unfold syn_received at 1 in E. rewrite E. cbn [mbind option_bind].
  destruct (segment_sent s1 ib pb _ (Z.lor TCP_SYN TCP_ACK) [] Hs1 Hl1) as (c' & ipc & s2 & -> & Hlast & Hs2 & Hl2 & Hh & Hk2); [constructor|cbn; lia|].
  exists c', ipc, s2. split; [done|]. rewrite Hi1 in Hlast, Hh. rewrite Hk2, Hk1. split; [|by split_and!].
  rewrite Hlast. replace (le32 (p_remote_ip (syn_received a (my_ip n) b))) with (my_ip n); [done|].
  cbn. destruct (my_ip n) as [|x0 [|x1 [|x2 [|x3 [|]]]]]; try discriminate Hip.
  do 4 apply Forall_cons in Hib as [? Hib]. by rewrite le32_de32.
Qed.

(** The connecting side: the answer opens the connection. *)
Lemma syn_sent_step s ia pa a src n b c :
  stack_ok s -> listed s ia pa a -> p_state a = TCP_SYN_SENT ->
  exists c' ipc s', tcp_process kmalloc_ok pa ia a n src (snd_nxt b) (u8 (Z.lor TCP_SYN TCP_ACK)) 20 20 c s = Some s' /\
    last (sent (iface s')) = Some (ipv4_frame (iface s) (le32 (p_remote_ip a)) 6 (segment (opened b a) TCP_ACK [] c') ipc) /\
    stack_ok s' /\ listed s' ia pa (sent_by (opened b a) TCP_ACK 0) /\ same_host (iface s) (iface s').
Proof.
  intros Hs Hl Est. unfold tcp_process. rewrite Est.
  change (Z.land (u8 (Z.lor TCP_SYN TCP_ACK)) (Z.lor TCP_SYN TCP_ACK) =? Z.lor TCP_SYN TCP_ACK) with true. cbn iota.
  pose proof (listed_ok _ _ _ _ Hs Hl) as Hok.
  destruct (upd_listed s ia pa a (opened b) Hs Hl) as (s1 & E & Hs1 & Hl1 & Hi1 & Hk1); [|done|].
  { eapply pcb_ok_change; [exact Hok| |done|by rewrite Est]. destruct Hok as [[] _]. constructor; try done. apply u32_range. }
  unfold opened at 1 in E. rewrite E. cbn [mbind option_bind].
  destruct (segment_sent s1 ia pa _ TCP_ACK [] Hs1 Hl1) as (c' & ipc & s2 & -> & Hlast & Hs2 & Hl2 & Hh & Hk2); [constructor|cbn; lia|].
  cbn [mbind option_bind]. destruct (wake_socket_ok s2 a Hs2) as (s3 & -> & Hs3 & Ht3 & Hm3 & Hi3); [by rewrite Hk2, Hk1; apply Hok|].
  exists c', ipc, s3. split; [done|]. rewrite Hi3. rewrite Hi1 in Hlast, Hh. split; [exact Hlast|]. split; [done|].
  split; [by apply (listed_ext s2)|done].
Qed.

Lemma handshake_ok A B ia pa a ib pb b j k q :
  stack_ok A -> stack_ok B -> listed A ia pa a -> listed B ib pb b ->
  p_state a = TCP_SYN_SENT -> p_state b = TCP_LISTEN ->
  le32 (p_remote_ip a) = my_ip (iface B) -> p_remote_port a = p_local_port b ->
  p_socket b = Some j -> aget (sockets B) j = Some k -> holds k q ->
  exists st, handshake pa (A, B) = Some st /\ connected ia pa ib pb j q st.
Proof.
  intros HA HB Hla Hlb Ea Eb Hip Hport Hj Hk Hq. unfold handshake.
  pose proof (listed_ok _ _ _ _ HA Hla) as [Hra _]. pose proof (listed_ok _ _ _ _ HB Hlb) as [Hrb _].
  destruct (segment_sent A ia pa a TCP_SYN [] HA Hla) as (c & ipc & A1 & -> & Hlast & HA1 & Hla1 & HhA & _); [constructor|cbn; lia|].
  cbn [mbind option_bind]. unfold deliver_last. rewrite Hlast. cbn [mbind option_bind].
  rewrite (segment_received (iface A) a TCP_SYN [] c ipc B ib pb b (so_iface _ HA) HB Hra Hip Hlb Hport); [|
    unfold pcb_matches; rewrite Eb, Z.eqb_refl; done|cbn; lia].
  change (20 + Z.of_nat (length [])) with 20. set (Bh := heard (iface A) B).
  assert (HBh : stack_ok Bh) by (apply heard_ok; [apply HA|done]).
  destruct (listen_step Bh ib pb b (iface A) a (segment a TCP_SYN [] c ++ pad) HBh) as (c2 & ipc2 & B1 & -> & Hlast2 & HB1 & Hlb1 & HhB & HkB);
    [by apply (listed_ext B)|done|apply HA|done|].
  cbn [mbind option_bind]. rewrite Hlast2. cbn [mbind option_bind].
  set (b1 := syn_received a (my_ip (iface A)) b) in *. set (a1 := sent_by a TCP_SYN (Z.of_nat (length []))) in *.
  assert (Hb1 : pcb_range b1).
  { pose proof (de32_range _ (proj2 (io_host _ (so_iface _ HA))) (io_ip _ (so_iface _ HA))). destruct Hrb, Hra. constructor; try done. apply u32_range. }
  assert (Hp : peers (iface A1) (iface Bh) a1 b1).
  { constructor; [exact Hip| |exact Hport|done]. rewrite (proj1 HhA). cbn.
    pose proof (proj2 (io_host _ (so_iface _ HA))) as Hl4. pose proof (io_ip _ (so_iface _ HA)) as Hib.
    destruct (my_ip (iface A)) as [|x0 [|x1 [|x2 [|x3 [|]]]]]; try discriminate Hl4.
    do 4 apply Forall_cons in Hib as [? Hib]. by apply le32_de32. }
  assert (Hdst : my_ip (iface A) = le32 (p_remote_ip b1)) by (rewrite (pe_b _ _ _ _ Hp); symmetry; apply HhA).
  rewrite Hdst.
  rewrite (segment_received (iface Bh) b1 (Z.lor TCP_SYN TCP_ACK) [] c2 ipc2 A1 ia pa a1 (so_iface _ HBh) HA1 Hb1
    (pe_b _ _ _ _ Hp) Hla1 (pe_ba _ _ _ _ Hp) (established_matches _ _ _ _ (peers_sym _ _ _ _ Hp))) by (cbn; lia).
  change (20 + Z.of_nat (length [])) with 20.
  destruct (syn_sent_step (heard (iface Bh) A1) ia pa a1 (p_local_port b1) (my_ip (iface Bh)) b1
    (segment b1 (Z.lor TCP_SYN TCP_ACK) [] c2 ++ pad)) as (c3 & ipc3 & A2 & -> & Hlast3 & HA2 & Hla2 & HhA2);
    [apply heard_ok; [apply HBh|done]|by apply (listed_ext A1)|done|].
  cbn [mbind option_bind]. rewrite Hlast3. cbn [mbind option_bind].
  set (a2 := opened b1 a1) in *. set (b2 := sent_by b1 (Z.lor TCP_SYN TCP_ACK) 0) in *. set (nA := iface (heard (iface Bh) A1)) in *.
  assert (HnA : iface_ok nA) by (apply (so_iface (heard (iface Bh) A1)), heard_ok; [apply HBh|done]).
  assert (Ha2 : pcb_range a2) by (destruct Hra; constructor; try done; apply u32_range).
  assert (Hp2 : peers nA (iface B1) a2 b2).
  { apply (peers_host nA (iface Bh)); [done|exact HhB|]. destruct Hp. by constructor. }
  change (le32 (p_remote_ip a1)) with (le32 (p_remote_ip a2)).
  rewrite (segment_received nA a2 TCP_ACK [] c3 ipc3 B1 ib pb b2 HnA HB1 Ha2
    (pe_a _ _ _ _ Hp2) Hlb1 (pe_ab _ _ _ _ Hp2) (established_matches _ _ _ _ Hp2)) by (cbn; lia).
  unfold tcp_process. cbn [p_state b2 b1 sent_by set_snd_nxt syn_received set_state].
  change (negb (Z.land (u8 TCP_ACK) TCP_ACK =? 0)) with true. cbn iota.
  assert (HB1h : stack_ok (heard nA B1)) by (by apply heard_ok).
  assert (Hlb1h : listed (heard nA B1) ib pb b2) by (by apply (listed_ext B1)).
  assert (Hkb : aget (sockets (heard nA B1)) j = Some k) by (cbn; by rewrite HkB).
  destruct (upd_listed (heard nA B1) ib pb b2 (set_state TCP_ESTABLISHED) HB1h Hlb1h) as (B2 & E2 & HB2 & Hlb2 & HiB2 & HkB2); [|done|].
  { eapply pcb_ok_change; [exact (listed_ok _ _ _ _ HB1h Hlb1h)| |done|done]. destruct Hb1. constructor; try done. apply u32_range. }
  rewrite E2. cbn [mbind option_bind]. eexists; split; [done|].
  exists (sent_by a2 TCP_ACK 0), (set_state TCP_ESTABLISHED b2). cbn [fst snd].
  split; [done|]. split; [done|]. split; [done|]. split; [done|]. split; [done|]. split; [done|].
  split; [apply (peers_host nA (iface B1)); [exact HhA2|by rewrite HiB2|by destruct Hp2]|].
  split; [cbn; by rewrite Z.add_0_r|]. split; [|split; [exact Hj|exists k; by rewrite HkB2]].
  rewrite (sent_by_quiet a2) by done. cbn. by rewrite Z.add_0_r.
Qed.

Lemma transfers_ok ia pa ib pb j chunks : forall q st,
  connected ia pa ib pb j q st -> Forall (fun d => bytes_ok d /\ d <> []) chunks ->
  (length q + length (concat chunks) <= 4096)%nat ->
  exists st', transfers pa chunks st = Some st' /\ connected ia pa ib pb j (q ++ concat chunks) st'.
Proof.
  induction chunks as [|d chunks IH]; intros q st Hc Hd Hroom; cbn [transfers concat] in *.
  - exists st. by rewrite app_nil_r.
  - apply Forall_cons in Hd as [[Hb Hne] Hd]. rewrite length_app in Hroom.
    destruct (transfer_ok ia pa ib pb j q d st Hc Hb) as (st1 & -> & Hc1); [by destruct d; cbn; [|lia]|lia|].
    cbn [mbind option_bind]. destruct (IH (q ++ d) st1 Hc1 Hd) as (st2 & E & Hc2); [rewrite length_app; lia|].
    exists st2. split; [done|]. by rewrite <- app_assoc in Hc2.
Qed.

(** C25 a connection and its stream: from a client that has
    prepared its control block and a server that listens on the port, the three frames
    of the handshake - each the real frame of one side, handled by the other's
    [net_handle_packet] - leave both ends established with matching sequence
    numbers; then any sequence of writes that fits the server's ring arrives in
    its socket as one stream, in order and without loss or duplication, every
    write acknowledged and the sequence numbers matching again. *)
Theorem tcp_connects_and_streams A B ia pa a ib pb b j k q chunks :
  stack_ok A -> stack_ok B -> listed A ia pa a -> listed B ib pb b ->
  p_state a = TCP_SYN_SENT -> p_state b = TCP_LISTEN ->
  le32 (p_remote_ip a) = my_ip (iface B) -> p_remote_port a = p_local_port b ->
  p_socket b = Some j -> aget (sockets B) j = Some k -> holds k q ->
  Forall (fun d => bytes_ok d /\ d <> []) chunks -> (length q + length (concat chunks) <= 4096)%nat ->
  exists st st', handshake pa (A, B) = Some st /\ connected ia pa ib pb j q st /\
    transfers pa chunks st = Some st' /\ connected ia pa ib pb j (q ++ concat chunks) st'.
Proof.
  intros HA HB Hla Hlb Ea Eb Hip Hport Hj Hk Hq Hd Hroom.
  destruct (handshake_ok A B ia pa a ib pb b j k q) as (st & E & Hc); try done.
  destruct (transfers_ok ia pa ib pb j chunks q st Hc Hd Hroom) as (st' & E' & Hc'). eauto 10.
Qed.
End wire.

(** ** A concrete connection *)

Definition client_pcb : tcp_pcb_t := Pcb (de32 [10; 0; 2; 16]) (de32 [10; 0; 2; 15]) 10000 80 TCP_SYN_SENT 100 0 4096 None.
Definition client_stack : netstack :=
  Stack other_iface (replicate 32 free_socket) (0x3000 :: replicate 15 0) {[ 0x3000 := client_pcb ]} ∅ 0x1000 10001.

(** A table with one control block, in its first place. *)
Lemma single_pcb n l p b m c q :
  iface_ok n -> length l = 32%nat -> p <> 0 -> pcb_ok l b ->
  stack_ok (Stack n l (p :: replicate 15 0) {[ p := b ]} m c q) /\
  listed (Stack n l (p :: replicate 15 0) {[ p := b ]} m c q) 0 p b.
Proof.
  intros Hn Hl Hp Hb. set (s := Stack n l (p :: replicate 15 0) {[ p := b ]} m c q).
  assert (Hone : forall i p', aget (tcp_pcbs s) i = Some p' -> p' <> 0 -> i = 0 /\ p' = p).
  { intros i p' Hi H0. pose proof (aget_Some_range _ _ _ Hi) as Hr. unfold aget in Hi. destruct (Z.ltb_spec i 0); [done|].
    destruct (Z.to_nat i) as [|k] eqn:E; [injection Hi as <-; split; [lia|done]|].
    change (replicate 15 0 !! k = Some p') in Hi. apply lookup_replicate in Hi as [-> _]. done. }
  split.
  - constructor; [done|done|done| |].
    + intros i p' Hi H0. destruct (Hone i p' Hi H0) as [-> ->]. exists b. split; [apply lookup_singleton_eq|done].
    + intros i j p' Hi Hj H0. destruct (Hone i p' Hi H0), (Hone j p' Hj H0). congruence.
  - constructor; [done|done|apply lookup_singleton_eq|]. intros j p' b' Hj. lia.
Qed.

(** A greeting in two writes. *)
Lemma tcp_connects_and_streams_witness :
  stack_ok client_stack /\
  exists st st', handshake (fun _ => true) [0; 0; 0; 0] 0x3000 (client_stack, web_stack) = Some st /\
    connected 0 0x3000 0 0x2000 0 [] st /\
    transfers (fun _ => true) [0; 0; 0; 0] 0x3000 [[71; 69; 84]; [13; 10]] st = Some st' /\
    connected 0 0x3000 0 0x2000 0 ([] ++ concat [[71; 69; 84]; [13; 10]]) st'.
Proof.
  assert (Hc : pcb_ok (replicate 32 free_socket) client_pcb) by (constructor; [constructor; vm_compute; split; congruence|exact I]).
  assert (Hw : holds web_socket []) by (split; [by apply empty_ring_rep|reflexivity]).
  assert (Hb : pcb_ok (web_socket :: replicate 31 free_socket) web_pcb).
  { constructor; [constructor; vm_compute; split; congruence|]. exists web_socket. split; [reflexivity|]. intros _. by exists []. }
  destruct (single_pcb other_iface (replicate 32 free_socket) 0x3000 client_pcb ∅ 0x1000 10001 other_iface_ok eq_refl ltac:(lia) Hc) as [HA HlA].
  destruct (single_pcb idle_iface (web_socket :: replicate 31 free_socket) 0x2000 web_pcb ∅ 0x1000 10000 idle_iface_ok eq_refl ltac:(lia) Hb) as [HB HlB].
  split; [exact HA|].
  apply (tcp_connects_and_streams (fun _ => true) [0; 0; 0; 0] (fun _ => eq_refl) client_stack web_stack 0 0x3000 client_pcb
    0 0x2000 web_pcb 0 web_socket [] [[71; 69; 84]; [13; 10]]).
  - exact HA.
  - exact HB.
  - exact HlA.
  - exact HlB.
  - reflexivity.
  - reflexivity.
  - reflexivity.
  - reflexivity.
  - reflexivity.
  - reflexivity.
  - exact Hw.
  - repeat first [apply Forall_nil | apply Forall_cons; split | split]; try discriminate; lia.
  - cbn. lia.
Defined.
