(* ===== verification/Ata.v ===== *)
(** * Ata: the ATA disk driver (kernel/drivers/ata.c)

    The PIO dialogue for one sector, the documented behaviour of an ATA drive as
    an automaton over the port accesses, and the refinement: on any machine
    whose drives follow it the driver implements the block device of Disk, the
    interface the file system is proved against.  The two error messages are
    left out. *)

From S2P Require Export Ports Spinlock Net.

Definition ATA_PRIMARY_STATUS : Z := 0x1F7.
Definition TIMEOUT : nat := Z.to_nat 1000000.

Record ata := Ata { ata_lock : spinlock_t; ata_eflags : Z; ata_trace : list event }.

Section ata.
Variable dev : machine.

(** [while (--timeout)] with [timeout] starting at [n]. *)
Fixpoint wait_ready_loop (n : nat) : io Z :=
  match n with
  | O | S O => mret (-1)
  | S n' =>
      inb dev ATA_PRIMARY_STATUS ≫= fun status =>
      if status =? 0xFF then mret (-1)
      else if Z.land status 0x80 =? 0 then mret 0 else wait_ready_loop n'
  end.
Definition ata_wait_ready : io Z := wait_ready_loop TIMEOUT.

(** [while (more(inb) && --timeout) { status = inb; if (fail(status)) return -1; }]. *)
Fixpoint wait_status_loop (n : nat) (more fail : Z -> bool) : io Z :=
  match n with
  | O => mret (-1)
  | S n' =>
      inb dev ATA_PRIMARY_STATUS ≫= fun v =>
      if more v then
        match n' with
        | O => mret (-1)
        | _ => inb dev ATA_PRIMARY_STATUS ≫= fun status =>
               if fail status then mret (-1) else wait_status_loop n' more fail
        end
      else mret 0
  end.
Definition ata_wait_bsy : io Z :=
  wait_status_loop TIMEOUT (fun v => negb (Z.land v 0x80 =? 0)) (fun status => status =? 0xFF).
Definition ata_wait_drq : io Z :=
  wait_status_loop TIMEOUT (fun v => Z.land v 0x08 =? 0)
    (fun status => (status =? 0xFF) || negb (Z.land status 0x01 =? 0)).

Definition ata_port (drive_idx : Z) : Z := if drive_idx <? 2 then 0x1F0 else 0x170.
Definition ata_drive (drive_idx : Z) : Z := if drive_idx mod 2 =? 0 then 0xE0 else 0xF0.

Definition busy_bit (v : Z) : bool := negb (Z.land v 0x80 =? 0).
Definition no_drq (v : Z) : bool := Z.land v 0x08 =? 0.

(** Drive, sector count, address and command. *)
Definition ata_select (port drive lba : Z) : io unit :=
  outb (port + 6) (Z.lor drive (Z.land (Z.shiftr lba 24) 0x0F)) ≫= fun _ => inbs dev 4 (port + 7).
Definition ata_command (port lba cmd : Z) : io unit :=
  outbs [(port + 2, 1); (port + 3, u8 lba); (port + 4, u8 (Z.shiftr lba 8)); (port + 5, u8 (Z.shiftr lba 16));
         (port + 7, cmd)].

Definition read_data (port : Z) (buffer : list Z) (t : list event) : option (list Z * list event) :=
  for_do 0 256 (fun i '(buffer, t) =>
    let '(word, t) := inw dev port t in
    b ← aset buffer (i * 2) (u8 (Z.land word 0xFF));
    b ← aset b (i * 2 + 1) (u8 (Z.land (Z.shiftr word 8) 0xFF));
    Some (b, t)) (buffer, t).

Definition write_data (port : Z) (buffer : list Z) (t : list event) : option (list event) :=
  for_do 0 256 (fun i t =>
    x ← aget buffer (i * 2); y ← aget buffer (i * 2 + 1);
    Some (snd (outw port (Z.lor x (Z.shiftl y 8)) t))) t.

Definition lock_ata (s : ata) : ata :=
  let '(l, f) := spin_lock (ata_lock s) (ata_eflags s) in Ata l f (ata_trace s).
(** [spin_unlock(&ata_lock)] on the way out, after the accesses [t]. *)
Definition unlock_ata (s : ata) (t : list event) : ata :=
  let '(l, f) := spin_unlock (ata_lock s) (ata_eflags s) in Ata l f t.

(** The buffer after the call. *)
Definition ata_read_sector (drive_idx lba : Z) (buffer : list Z) (s : ata) : option (list Z * ata) :=
  let s := lock_ata s in
  let port := ata_port drive_idx in
  let '(_, t) := ata_select port (ata_drive drive_idx) lba (ata_trace s) in
  let '(v, t) := inb dev (port + 7) t in
  if v =? 0xFF then Some (buffer, unlock_ata s t) else
  let '(timeout, t) := poll dev TIMEOUT (port + 7) busy_bit t in
  match timeout with
  | O => let '(_, t) := inb dev (port + 7) t in Some (buffer, unlock_ata s t)
  | _ =>
      let '(_, t) := ata_command port lba 0x20 t in
      let '(timeout, t) := poll dev TIMEOUT (port + 7) no_drq t in
      match timeout with
      | O => Some (buffer, unlock_ata s t)
      | _ => '(buffer, t) ← read_data port buffer t; Some (buffer, unlock_ata s t)
      end
  end.

Definition ata_write_sector (drive_idx lba : Z) (buffer : list Z) (s : ata) : option ata :=
  let s := lock_ata s in
  let port := ata_port drive_idx in
  let '(_, t) := ata_select port (ata_drive drive_idx) lba (ata_trace s) in
  let '(timeout, t) := poll dev TIMEOUT (port + 7) busy_bit t in
  match timeout with
  | O => let '(_, t) := inb dev (port + 7) t in Some (unlock_ata s t)
  | _ =>
      let '(_, t) := ata_command port lba 0x30 t in
      let '(timeout, t) := poll dev TIMEOUT (port + 7) no_drq t in
      match timeout with
      | O => Some (unlock_ata s t)
      | _ =>
          t ← write_data port buffer t;
          let '(_, t) := outb (port + 7) 0xE7 t in
          let '(_, t) := inbs dev 4 (port + 7) t in
          let '(_, t) := poll dev TIMEOUT (port + 7) busy_bit t in
          Some (unlock_ata s t)
      end
  end.
End ata.

(** ** An ATA drive

    The registers of one channel and what it is doing: nothing, handing over
    the words of a sector, or taking bytes.  [busy]: the status reads for which
    it still shows BSY. *)
Inductive phase := Idle | Give (words : list Z) | Take (bytes : list Z).

Record chan := Chan {
  c_sel : Z; c_count : Z; c_lo : Z; c_mid : Z; c_hi : Z; c_busy : nat; c_phase : phase
}.

Record hw := Hw { chans : Z -> chan; media : gmap (Z * Z) (list Z) }.

Definition with_busy (n : nat) (c : chan) : chan :=
  Chan (c_sel c) (c_count c) (c_lo c) (c_mid c) (c_hi c) n (c_phase c).
Definition with_phase (p : phase) (c : chan) : chan :=
  Chan (c_sel c) (c_count c) (c_lo c) (c_mid c) (c_hi c) (c_busy c) p.

Definition set_chan (base : Z) (c : chan) (h : hw) : hw :=
  Hw (fun b => if decide (b = base) then c else chans h b) (media h).

Definition c_drive (base : Z) (c : chan) : Z :=
  (if base =? 0x1F0 then 0 else 2) + (if Z.testbit (c_sel c) 4 then 1 else 0).
Definition c_lba (c : chan) : Z :=
  c_lo c + 2 ^ 8 * c_mid c + 2 ^ 16 * c_hi c + 2 ^ 24 * Z.land (c_sel c) 0x0F.

Fixpoint words_of (l : list Z) : list Z :=
  match l with a :: b :: l => (a + 2 ^ 8 * b) :: words_of l | _ => [] end.

Section drive.
Variable present : Z -> bool.

(** A command for one sector in LBA mode; the description says nothing of others. *)
Definition command (delay : nat) (base cmd : Z) (h : hw) : hw :=
  let c := chans h base in
  if negb (present (c_drive base c)) || negb (c_busy c =? 0)%nat then h
  else if (cmd =? 0x20) && (c_count c =? 1) && Z.testbit (c_sel c) 6 then
    set_chan base (with_busy delay (with_phase (Give (words_of (dev_read (c_drive base c) (c_lba c) (media h)))) c)) h
  else if (cmd =? 0x30) && (c_count c =? 1) && Z.testbit (c_sel c) 6 then
    set_chan base (with_busy delay (with_phase (Take []) c)) h
  else if cmd =? 0xE7 then set_chan base (with_busy delay c) h
  else h.

Definition write_reg (delay : nat) (base r v : Z) (h : hw) : hw :=
  let c := chans h base in
  if r =? 2 then set_chan base (Chan (c_sel c) v (c_lo c) (c_mid c) (c_hi c) (c_busy c) (c_phase c)) h
  else if r =? 3 then set_chan base (Chan (c_sel c) (c_count c) v (c_mid c) (c_hi c) (c_busy c) (c_phase c)) h
  else if r =? 4 then set_chan base (Chan (c_sel c) (c_count c) (c_lo c) v (c_hi c) (c_busy c) (c_phase c)) h
  else if r =? 5 then set_chan base (Chan (c_sel c) (c_count c) (c_lo c) (c_mid c) v (c_busy c) (c_phase c)) h
  else if r =? 6 then set_chan base (Chan v (c_count c) (c_lo c) (c_mid c) (c_hi c) (c_busy c) (c_phase c)) h
  else if r =? 7 then command delay base v h
  else h.

Definition give_word (base : Z) (h : hw) : hw :=
  let c := chans h base in
  match c_phase c with
  | Give (_ :: []) => set_chan base (with_phase Idle c) h
  | Give (_ :: ws) => set_chan base (with_phase (Give ws) c) h
  | _ => h
  end.

Definition take_word (delay : nat) (base v : Z) (h : hw) : hw :=
  let c := chans h base in
  match c_phase c with
  | Take l =>
      let l := l ++ le16 v in
      if (length l =? 512)%nat then
        Hw (chans (set_chan base (with_busy delay (with_phase Idle c)) h))
          (dev_write (c_drive base c) (c_lba c) l (media h))
      else set_chan base (with_phase (Take l) c) h
  | _ => h
  end.

Definition base_of (p : Z) : option Z :=
  if (0x1F0 <=? p) && (p <=? 0x1F7) then Some 0x1F0
  else if (0x170 <=? p) && (p <=? 0x177) then Some 0x170 else None.

(** One port access. *)
Definition hw_step (delay : nat) (e : event) (h : hw) : hw :=
  match e with
  | Out8 p v => match base_of p with Some base => write_reg delay base (p - base) v h | None => h end
  | In8 p _ =>
      match base_of p with
      | Some base =>
          if p =? base + 7 then set_chan base (with_busy (Nat.pred (c_busy (chans h base))) (chans h base)) h else h
      | None => h
      end
  | In16 p _ => match base_of p with Some base => if p =? base then give_word base h else h | None => h end
  | Out16 p v => match base_of p with Some base => if p =? base then take_word delay base v h else h | None => h end
  | _ => h
  end.

Definition status (base : Z) (h : hw) : Z :=
  let c := chans h base in
  if negb (present (c_drive base c)) then 0xFF
  else if (c_busy c =? 0)%nat then match c_phase c with Idle => 0x40 | _ => 0x48 end
  else 0x80.

(** How long each access keeps the drive busy, and its state at the start. *)
Variable delay : list event -> nat.
Variable start : hw.

Fixpoint hw_of (t : list event) : hw :=
  match t with [] => start | e :: t => hw_step (delay t) e (hw_of t) end.

Definition ata_base (base : Z) : Prop := base = 0x1F0 \/ base = 0x170.

(** The machine's reads are those of the drives. *)
Record follows (dev : machine) : Prop := {
  fo_status : forall t base, ata_base base -> read8 dev t (base + 7) = status base (hw_of t);
  fo_data : forall t base w ws, ata_base base -> c_phase (chans (hw_of t) base) = Give (w :: ws) ->
    c_busy (chans (hw_of t) base) = 0%nat -> read16 dev t base = w
}.

(** ** One access *)

Variable dev : machine.
Hypothesis dev_follows : follows dev.
Hypothesis delay_bound : forall t, Z.of_nat (delay t) < 1000000.

(** After [t'] the channel [base] is [c]; media and the other channel are as after [t]. *)
Record reach (base : Z) (c : chan) (t t' : list event) : Prop := {
  re_chan : chans (hw_of t') base = c;
  re_media : media (hw_of t') = media (hw_of t);
  re_other : forall b, b <> base -> chans (hw_of t') b = chans (hw_of t) b
}.

Lemma reach_refl base t : reach base (chans (hw_of t) base) t t.
Proof. done. Qed.

Lemma reach_trans base c1 c2 t t1 t2 : reach base c1 t t1 -> reach base c2 t1 t2 -> reach base c2 t t2.
Proof. intros [H1 H2 H3] [K1 K2 K3]. constructor; [done|congruence|]. intros b Hb. by rewrite K3, H3. Qed.

Lemma set_chan_reach base c t t' h :
  hw_of t' = set_chan base c h -> h = hw_of t -> reach base c t t'.
Proof.
  intros E ->. constructor; rewrite E; cbn; [by rewrite decide_True by done|done|].
  intros b Hb. by rewrite decide_False by done.
Qed.

Lemma base_of_reg base r : ata_base base -> 0 <= r <= 7 -> base_of (base + r) = Some base.
Proof.
  intros Hb Hr. unfold base_of. destruct Hb as [->| ->].
  - rewrite (proj2 (Z.leb_le _ _)), (proj2 (Z.leb_le _ _)) by lia. done.
  - rewrite (proj2 (Z.leb_gt _ _)) by lia. cbn [andb].
    rewrite (proj2 (Z.leb_le _ _)), (proj2 (Z.leb_le _ _)) by lia. done.
Qed.

Lemma base_of_data base : ata_base base -> base_of base = Some base.
Proof. intros. rewrite <- (Z.add_0_r base) at 1. apply base_of_reg; [done|lia]. Qed.

Definition ready (c : chan) : Z := match c_phase c with Idle => 0x40 | _ => 0x48 end.

(** A status read. *)
Lemma read_status base c t :
  ata_base base -> chans (hw_of t) base = c -> present (c_drive base c) = true ->
  exists t', inb dev (base + 7) t = ((if (c_busy c =? 0)%nat then ready c else 0x80), t') /\
    reach base (with_busy (Nat.pred (c_busy c)) c) t t'.
Proof.
  intros Hb Hc Hp. unfold inb. rewrite (fo_status dev dev_follows t base Hb). eexists. split.
  - f_equal. unfold status. rewrite Hc, Hp. cbn [negb]. unfold ready. by destruct (c_busy c =? 0)%nat, (c_phase c).
  - apply (set_chan_reach _ _ _ _ (hw_of t)); [|done]. cbn [hw_of hw_step]. rewrite base_of_reg by (done || lia).
    by rewrite Z.eqb_refl, Hc.
Qed.

Lemma reach_refl' base c t : chans (hw_of t) base = c -> reach base c t t.
Proof. intros <-. apply reach_refl. Qed.

Lemma with_phase_id c : with_phase (c_phase c) c = c.
Proof. by destruct c. Qed.

Lemma with_busy_id c n : with_busy (c_busy c) c = c /\ with_busy n (with_busy n c) = with_busy n c.
Proof. by destruct c. Qed.

Lemma with_busy_drive base n c : c_drive base (with_busy n c) = c_drive base c.
Proof. done. Qed.

(** Polling until the drive is no longer busy. *)
Lemma poll_ok cond base : forall n k c t,
  ata_base base -> chans (hw_of t) base = c -> present (c_drive base c) = true ->
  c_busy c = n -> (n < k)%nat -> cond 0x80 = true -> cond (ready c) = false ->
  exists m t', poll dev k (base + 7) cond t = (S m, t') /\ reach base (with_busy 0 c) t t'.
Proof.
  induction n as [|n IH]; intros k c t Hb Hc Hp Hn Hk Hbusy Hready; (destruct k as [|k]; [lia|]); cbn [poll];
    cbv beta iota zeta delta [mbind io_bind];
    destruct (read_status base c t Hb Hc Hp) as (t1 & -> & H1); rewrite Hn in *; cbn [Nat.eqb Nat.pred] in *.
  - rewrite Hready. by exists k, t1.
  - rewrite Hbusy. destruct k as [|k]; [lia|].
    destruct (IH (S k) (with_busy n c) t1) as (m & t' & E & H'); try done; [apply (re_chan _ _ _ _ H1)|lia|].
    exists m, t'. split; [exact E|]. eapply reach_trans; [exact H1|exact H'].
Qed.

(** Four status reads for the delay. *)
Lemma reads_ok base : forall n c t,
  ata_base base -> chans (hw_of t) base = c -> present (c_drive base c) = true ->
  exists m t', inbs dev n (base + 7) t = (tt, t') /\ (m <= c_busy c)%nat /\ reach base (with_busy m c) t t'.
Proof.
  induction n as [|n IH]; intros c t Hb Hc Hp; cbn [inbs].
  - exists (c_busy c), t. split; [done|]. split; [done|]. rewrite (proj1 (with_busy_id c 0)). by subst c.
  - cbv beta iota zeta delta [mbind io_bind].
    destruct (read_status base c t Hb Hc Hp) as (t1 & -> & H1).
    destruct (IH _ t1 Hb (re_chan _ _ _ _ H1) Hp) as (m & t' & E & Hm & H').
    exists m, t'. split; [exact E|]. cbn in Hm. split; [lia|]. eapply reach_trans; [exact H1|exact H'].
Qed.

(** A register write below the command register. *)
Definition put_reg (r v : Z) (c : chan) : chan :=
  if r =? 2 then Chan (c_sel c) v (c_lo c) (c_mid c) (c_hi c) (c_busy c) (c_phase c)
  else if r =? 3 then Chan (c_sel c) (c_count c) v (c_mid c) (c_hi c) (c_busy c) (c_phase c)
  else if r =? 4 then Chan (c_sel c) (c_count c) (c_lo c) v (c_hi c) (c_busy c) (c_phase c)
  else if r =? 5 then Chan (c_sel c) (c_count c) (c_lo c) (c_mid c) v (c_busy c) (c_phase c)
  else Chan v (c_count c) (c_lo c) (c_mid c) (c_hi c) (c_busy c) (c_phase c).

Lemma write_reg_ok base r v t :
  ata_base base -> 2 <= r <= 6 ->
  reach base (put_reg r (u8 v) (chans (hw_of t) base)) t (Out8 (base + r) (u8 v) :: t).
Proof.
  intros Hb Hr. apply (set_chan_reach _ _ _ _ (hw_of t)); [|done]. cbn [hw_of hw_step].
  rewrite base_of_reg by (done || lia). replace (base + r - base) with r by lia.
  unfold write_reg, put_reg. destruct (Z.eqb_spec r 2); [done|]. destruct (Z.eqb_spec r 3); [done|].
  destruct (Z.eqb_spec r 4); [done|]. destruct (Z.eqb_spec r 5); [done|]. destruct (Z.eqb_spec r 6); [done|lia].
Qed.

Lemma command_reg base v t :
  ata_base base -> hw_of (Out8 (base + 7) (u8 v) :: t) = command (delay t) base (u8 v) (hw_of t).
Proof.
  intros Hb. cbn [hw_of hw_step]. rewrite base_of_reg by (done || lia). by replace (base + 7 - base) with 7 by lia.
Qed.

(** ** Addressing a sector *)

Definition drive_ok (d : Z) : Prop := 0 <= d < 4.
Definition lba28_ok (lba : Z) : Prop := 0 <= lba < 2 ^ 28.

(** The drive and head register for [lba] on drive [d]. *)
Definition sel_of (d lba : Z) : Z := u8 (Z.lor (ata_drive d) (Z.land (Z.shiftr lba 24) 0x0F)).

(** The channel once the registers are written. *)
Definition addressed (d lba : Z) (n : nat) (p : phase) : chan :=
  Chan (sel_of d lba) 1 (u8 lba) (u8 (Z.shiftr lba 8)) (u8 (Z.shiftr lba 16)) n p.

Lemma sel_table d h :
  drive_ok d -> 0 <= h < 16 ->
  let v := u8 (Z.lor (ata_drive d) h) in
  Z.testbit v 4 = negb (d mod 2 =? 0) /\ Z.testbit v 6 = true /\ Z.land v 0x0F = h.
Proof.
  intros Hd Hh v.
  assert (H : forallb (fun d => forallb (fun h => let v := u8 (Z.lor (ata_drive d) h) in
      Bool.eqb (Z.testbit v 4) (negb (d mod 2 =? 0)) && Z.testbit v 6 && (Z.land v 0x0F =? h)) (seqZ 0 16)) (seqZ 0 4) = true)
    by (vm_compute; reflexivity).
  rewrite forallb_forall in H. specialize (H d). rewrite forallb_forall in H.
  specialize (H (proj1 (list_elem_of_In _ _) (proj2 (elem_of_seqZ 0 4 d) ltac:(unfold drive_ok in Hd; lia))) h
    (proj1 (list_elem_of_In _ _) (proj2 (elem_of_seqZ 0 16 h) ltac:(lia)))).
  cbv zeta in H. apply andb_prop in H as [H H3]. apply andb_prop in H as [H1 H2].
  apply eqb_prop in H1. apply Z.eqb_eq in H3. done.
Qed.

Lemma addressed_ok d lba n p :
  drive_ok d -> lba28_ok lba ->
  c_drive (ata_port d) (addressed d lba n p) = d /\ c_lba (addressed d lba n p) = lba /\ Z.testbit (sel_of d lba) 6 = true.
Proof.
  intros Hd Hl. unfold c_drive, c_lba, addressed. cbn [c_sel c_lo c_mid c_hi]. unfold sel_of.
  assert (Hh : Z.land (Z.shiftr lba 24) 0x0F = lba / 2 ^ 24).
  { change 0x0F with (Z.ones 4). rewrite Z.land_ones, Z.shiftr_div_pow2 by lia. apply Z.mod_small. unfold lba28_ok in Hl. pow2_lia. }
  rewrite Hh. destruct (sel_table d (lba / 2 ^ 24) Hd) as (H4 & H6 & Hn); [unfold lba28_ok in Hl; pow2_lia|].
  rewrite H4, H6, Hn. split_and!; [| |done].
  - unfold drive_ok in Hd. unfold ata_port.
    assert (d = 0 \/ d = 1 \/ d = 2 \/ d = 3) as [->|[->|[->| ->]]] by lia; reflexivity.
  - unfold u8. rewrite !Z.shiftr_div_pow2 by lia. unfold lba28_ok in Hl. pose proof (split_bytes lba ltac:(lia)).
    change (2 ^ 8) with 256 in *. lia.
Qed.

Lemma ata_port_base d : ata_base (ata_port d).
Proof. unfold ata_port. destruct (d <? 2); [by left|by right]. Qed.

(** A channel with [d] selected, before the address is written. *)
Definition selected (d lba : Z) (c : chan) : Prop := c_sel c = sel_of d lba /\ c_phase c = Idle.

Lemma selected_drive d lba c :
  drive_ok d -> lba28_ok lba -> c_sel c = sel_of d lba -> c_drive (ata_port d) c = d.
Proof. intros Hd Hl Hc. rewrite <- (proj1 (addressed_ok d lba 0 Idle Hd Hl)) at 2. unfold c_drive. by rewrite Hc. Qed.

Lemma select_ok d lba t :
  drive_ok d -> lba28_ok lba -> present d = true -> c_phase (chans (hw_of t) (ata_port d)) = Idle ->
  exists t' c, ata_select dev (ata_port d) (ata_drive d) lba t = (tt, t') /\ reach (ata_port d) c t t' /\
    selected d lba c /\ (c_busy c <= c_busy (chans (hw_of t) (ata_port d)))%nat.
Proof.
  intros Hd Hl Hp Hi. pose proof (ata_port_base d) as Hb. unfold ata_select, outb.
  cbv beta iota zeta delta [mbind io_bind].
  pose proof (write_reg_ok (ata_port d) 6 (Z.lor (ata_drive d) (Z.land (Z.shiftr lba 24) 0x0F)) t Hb ltac:(lia)) as H1.
  set (c1 := put_reg 6 _ _) in H1.
  destruct (reads_ok (ata_port d) 4 c1 _ Hb (re_chan _ _ _ _ H1)) as (m & t' & E & Hm & H2).
  { by rewrite (selected_drive d lba) by done. }
  exists t', (with_busy m c1). split; [exact E|]. split; [by eapply reach_trans|]. split; [by split|exact Hm].
Qed.

(** The address and the command, for an idle drive. *)
Lemma command_ok d lba cmd p c t :
  drive_ok d -> lba28_ok lba -> present d = true -> chans (hw_of t) (ata_port d) = c -> selected d lba c -> c_busy c = 0%nat ->
  cmd = 0x20 /\ p = Give (words_of (dev_read d lba (media (hw_of t)))) \/ cmd = 0x30 /\ p = Take [] ->
  exists t' n, ata_command (ata_port d) lba cmd t = (tt, t') /\ reach (ata_port d) (addressed d lba n p) t t' /\
    Z.of_nat n < 1000000.
Proof.
  intros Hd Hl Hp Hc [Hs Hi] Hn Hcmd. pose proof (ata_port_base d) as Hb.
  unfold ata_command, outbs, outb. cbv beta iota zeta delta [mbind io_bind mret io_ret].
  set (t1 := Out8 (ata_port d + 2) _ :: t). set (t2 := Out8 (ata_port d + 3) _ :: t1).
  set (t3 := Out8 (ata_port d + 4) _ :: t2). set (t4 := Out8 (ata_port d + 5) _ :: t3).
  pose proof (write_reg_ok (ata_port d) 2 1 t Hb ltac:(lia)) as R1. fold t1 in R1. rewrite Hc in R1.
  pose proof (write_reg_ok (ata_port d) 3 (u8 lba) t1 Hb ltac:(lia)) as R2. fold t2 in R2. rewrite (re_chan _ _ _ _ R1) in R2.
  pose proof (write_reg_ok (ata_port d) 4 (u8 (Z.shiftr lba 8)) t2 Hb ltac:(lia)) as R3. fold t3 in R3. rewrite (re_chan _ _ _ _ R2) in R3.
  pose proof (write_reg_ok (ata_port d) 5 (u8 (Z.shiftr lba 16)) t3 Hb ltac:(lia)) as R4. fold t4 in R4. rewrite (re_chan _ _ _ _ R3) in R4.
  pose proof (reach_trans _ _ _ _ _ _ (reach_trans _ _ _ _ _ _ (reach_trans _ _ _ _ _ _ R1 R2) R3) R4) as R. clear R1 R2 R3 R4.
  assert (Ec : put_reg 5 (u8 (u8 (Z.shiftr lba 16))) (put_reg 4 (u8 (u8 (Z.shiftr lba 8))) (put_reg 3 (u8 (u8 lba)) (put_reg 2 (u8 1) c)))
    = addressed d lba 0 Idle).
  { unfold addressed, put_reg. cbn. rewrite !(u8_small (u8 _)) by apply u8_range. by rewrite Hs, Hi, Hn. }
  rewrite Ec in R. destruct (addressed_ok d lba 0 Idle Hd Hl) as (A1 & A2 & A3).
  exists (Out8 (ata_port d + 7) (u8 cmd) :: t4), (delay t4). split; [done|]. split; [|apply delay_bound].
  eapply reach_trans; [exact R|]. apply (set_chan_reach _ _ _ _ (hw_of t4)); [|done].
  rewrite command_reg by done. unfold command. rewrite (re_chan _ _ _ _ R), A1, A2, Hp. cbn [negb orb c_busy c_count c_sel addressed].
  rewrite A3. destruct Hcmd as [[-> ->]|[-> ->]]; [|done].
  change (u8 0x20 =? 0x20) with true. cbn [Nat.eqb Z.eqb negb andb]. rewrite (re_media _ _ _ _ R). done.
Qed.

(** ** The data *)

Lemma fill_step {A} (l buf : list A) n x :
  l !! n = Some x -> (n < length buf)%nat ->
  aset (take n l ++ drop n buf) (Z.of_nat n) x = Some (take (S n) l ++ drop (S n) buf).
Proof.
  intros Hx Hn. pose proof (lookup_lt_Some _ _ _ Hx). rewrite aset_eq by (rewrite length_app, length_take, length_drop; lia).
  rewrite Nat2Z.id. f_equal. replace n with (length (take n l) + 0)%nat at 1 by (rewrite length_take; lia).
  rewrite insert_app_r. destruct (lookup_lt_is_Some_2 buf n Hn) as [y Hy].
  rewrite (drop_S _ _ _ Hy), (take_S_r _ _ _ Hx), <- app_assoc. done.
Qed.

(** Induction over a list by pairs of elements. *)
Lemma two_step_ind {A} (P : list A -> Prop) :
  P [] -> (forall a, P [a]) -> (forall a b l, P l -> P (a :: b :: l)) -> forall l, P l.
Proof.
  intros H0 H1 H2. fix IH 1. intros [|a [|b l]]; [exact H0|apply H1|apply H2, IH].
Qed.

Lemma words_lookup l : forall i x y,
  l !! (2 * i)%nat = Some x -> l !! S (2 * i)%nat = Some y -> words_of l !! i = Some (x + 2 ^ 8 * y).
Proof.
  induction l as [|a|a b l IH] using two_step_ind; intros i x y Hx Hy; [done|by destruct i|].
  destruct i as [|i]; [by injection Hx as ->; injection Hy as ->|].
  replace (2 * S i)%nat with (S (S (2 * i))) in Hx, Hy by lia. cbn [words_of lookup list_lookup]. apply IH; [exact Hx|exact Hy].
Qed.

Lemma words_length l : forall k, length l = (2 * k)%nat -> length (words_of l) = k.
Proof.
  induction l as [|a|a b l IH] using two_step_ind; intros k Hk; cbn [length words_of] in *; [lia|lia|].
  destruct k as [|k]; [lia|]. f_equal. apply IH. lia.
Qed.

Lemma pair_lookup l (i : nat) :
  sector l -> bytes_ok l -> (i < 256)%nat ->
  exists x y, l !! (2 * i)%nat = Some x /\ l !! S (2 * i)%nat = Some y /\ byte_ok x /\ byte_ok y.
Proof.
  unfold sector, SECTOR. intros Hl Hb Hi. destruct (lookup_lt_is_Some_2 l (2 * i)) as [x Hx]; [lia|].
  destruct (lookup_lt_is_Some_2 l (S (2 * i))) as [y Hy]; [lia|]. exists x, y.
  pose proof (Forall_lookup_1 _ _ _ _ Hb Hx). pose proof (Forall_lookup_1 _ _ _ _ Hb Hy). done.
Qed.

Lemma word_split x y : byte_ok x -> byte_ok y ->
  u16 (x + 2 ^ 8 * y) = x + 2 ^ 8 * y /\ u8 (Z.land (x + 2 ^ 8 * y) 0xFF) = x /\
  u8 (Z.land (Z.shiftr (x + 2 ^ 8 * y) 8) 0xFF) = y /\ le16 (x + 2 ^ 8 * y) = [x; y] /\
  Z.lor x (Z.shiftl y 8) = x + 2 ^ 8 * y.
Proof.
  unfold byte_ok. intros Hx Hy. change 0xFF with (Z.ones 8).
  rewrite !Z.land_ones, Z.shiftr_div_pow2, Z.shiftl_mul_pow2 by lia. unfold le16, u8, u16. rewrite Z.shiftr_div_pow2 by lia.
  rewrite lor_shift_add by lia.
  assert (E1 : (x + 2 ^ 8 * y) mod 2 ^ 8 = x) by pow2_lia. assert (E2 : (x + 2 ^ 8 * y) / 2 ^ 8 = y) by pow2_lia.
  rewrite E1, E2, (Z.mod_small x), (Z.mod_small y), (Z.mod_small y) by lia. rewrite (Z.mod_small (x + _)) by lia.
  split_and!; try done. lia.
Qed.

Lemma base_status_ne base : ata_base base -> (base =? base + 7) = false.
Proof. intros. apply Z.eqb_neq. lia. Qed.

Lemma read_data_ok base l buffer c t :
  ata_base base -> sector l -> bytes_ok l -> length buffer = 512%nat ->
  chans (hw_of t) base = c -> c_phase c = Give (words_of l) -> c_busy c = 0%nat ->
  exists t', read_data dev base buffer t = Some (l, t') /\ reach base (with_phase Idle c) t t'.
Proof.
  intros Hb Hl Hok Hbuf Hc Hg Hn. unfold read_data.
  match goal with |- context [for_do 0 256 ?f _] => set (body := f) end.
  destruct (for_do_rule (fun i '(b, t') =>
      b = take (2 * Z.to_nat i) l ++ drop (2 * Z.to_nat i) buffer /\
      reach base (with_phase (if i =? 256 then Idle else Give (drop (Z.to_nat i) (words_of l))) c) t t')
    0 256 body (buffer, t)) as ([b t'] & E & Hb' & Hr).
  - lia.
  - split; [done|]. change (0 =? 256) with false. cbn iota. rewrite drop_0, <- Hg, with_phase_id. by apply reach_refl'.
  - intros i [b t1] Hi [-> Hr]. subst body. cbn beta iota. unfold inw.
    destruct (pair_lookup l (Z.to_nat i) Hl Hok) as (x & y & Hx & Hy & Bx & By); [lia|].
    destruct (word_split x y Bx By) as (W1 & W2 & W3 & _ & _).
    rewrite (proj2 (Z.eqb_neq i 256)) in Hr by lia. pose proof (words_lookup l _ _ _ Hx Hy) as Hw.
    rewrite (drop_S _ _ _ Hw) in Hr. pose proof (re_chan _ _ _ _ Hr) as Hc1.
    rewrite (fo_data dev dev_follows t1 base (x + 2 ^ 8 * y) (drop (S (Z.to_nat i)) (words_of l))) by (done || (rewrite Hc1; done)).
    rewrite W1, W2, W3. unfold sector, SECTOR in Hl.
    replace (i * 2) with (Z.of_nat (2 * Z.to_nat i)) by lia.
    rewrite (fill_step l buffer _ x Hx) by lia. cbn [mbind option_bind].
    replace (Z.of_nat (2 * Z.to_nat i) + 1) with (Z.of_nat (S (2 * Z.to_nat i))) by lia.
    rewrite (fill_step l buffer _ y Hy) by lia. cbn [mbind option_bind].
    eexists; split; [done|]. cbn beta iota. split; [by replace (2 * Z.to_nat (i + 1))%nat with (S (S (2 * Z.to_nat i))) by lia|].
    eapply reach_trans; [exact Hr|]. apply (set_chan_reach _ _ _ _ (hw_of t1)); [|done]. cbn [hw_of hw_step].
    rewrite base_of_data, Z.eqb_refl by done. unfold give_word. rewrite Hc1. cbn [c_phase with_phase].
    replace (Z.to_nat (i + 1)) with (S (Z.to_nat i)) by lia.
    pose proof (words_length l 256 ltac:(lia)) as Hwl.
    destruct (Z.eqb_spec (i + 1) 256) as [E|E].
    + by rewrite drop_ge by lia.
    + destruct (drop (S (Z.to_nat i)) (words_of l)) eqn:Ed; [|done].
      apply (f_equal length) in Ed. rewrite length_drop in Ed. cbn in Ed. lia.
  - exists t'. rewrite E, Hb'. unfold sector, SECTOR in Hl. rewrite take_ge, drop_ge, app_nil_r by (rewrite ?Hl, ?Hbuf; lia). done.
Qed.

(** The state after a sector was taken. *)
Record stored (base d lba : Z) (l : list Z) (c : chan) (t t' : list event) : Prop := {
  st_chan : exists n, chans (hw_of t') base = with_busy n (with_phase Idle c) /\ Z.of_nat n < 1000000;
  st_media : media (hw_of t') = dev_write d lba l (media (hw_of t));
  st_other : forall b, b <> base -> chans (hw_of t') b = chans (hw_of t) b
}.

Lemma ata_write_data_ok base d lba l c t :
  ata_base base -> sector l -> bytes_ok l -> chans (hw_of t) base = c -> c_phase c = Take [] -> c_busy c = 0%nat ->
  c_drive base c = d -> c_lba c = lba ->
  exists t', write_data base l t = Some t' /\ stored base d lba l c t t'.
Proof.
  intros Hb Hl Hok Hc Hg Hn Hd Hlba. unfold write_data.
  match goal with |- context [for_do 0 256 ?f _] => set (body := f) end.
  destruct (for_do_rule (fun i t' => if i =? 256 then stored base d lba l c t t' else
      reach base (with_phase (Take (take (2 * Z.to_nat i) l)) c) t t') 0 256 body t) as (t' & E & Hr).
  - lia.
  - change (0 =? 256) with false. cbn iota. change (take _ l) with (@nil Z). rewrite <- Hg, with_phase_id. by apply reach_refl'.
  - intros i t1 Hi Hr. rewrite (proj2 (Z.eqb_neq i 256)) in Hr by lia. subst body. cbn beta.
    destruct (pair_lookup l (Z.to_nat i) Hl Hok) as (x & y & Hx & Hy & Bx & By); [lia|].
    destruct (word_split x y Bx By) as (W1 & _ & _ & W4 & W5).
    replace (i * 2) with (Z.of_nat (2 * Z.to_nat i)) by lia.
    replace (Z.of_nat (2 * Z.to_nat i) + 1) with (Z.of_nat (S (2 * Z.to_nat i))) by lia.
    rewrite !aget_nat, Hx, Hy. cbn [mbind option_bind]. rewrite W5. unfold outw. cbn [snd]. rewrite W1.
    eexists; split; [done|]. pose proof (re_chan _ _ _ _ Hr) as Hc1.
    assert (El : take (2 * Z.to_nat i) l ++ le16 (x + 2 ^ 8 * y) = take (2 * Z.to_nat (i + 1)) l).
    { rewrite W4. replace (2 * Z.to_nat (i + 1))%nat with (S (S (2 * Z.to_nat i))) by lia.
      by rewrite (take_S_r _ _ _ Hy), (take_S_r _ _ _ Hx), <- app_assoc. }
    unfold sector, SECTOR in Hl.
    assert (Es : hw_of (Out16 base (x + 2 ^ 8 * y) :: t1) = take_word (delay t1) base (x + 2 ^ 8 * y) (hw_of t1))
      by (cbn [hw_of hw_step]; by rewrite base_of_data, Z.eqb_refl by done).
    unfold take_word in Es. rewrite Hc1 in Es. cbn [c_phase with_phase] in Es. rewrite El, length_take, Hl in Es.
    destruct (Z.eqb_spec (i + 1) 256) as [Ei|Ei].
    + rewrite (proj2 (Nat.eqb_eq _ 512)) in Es by lia. rewrite (take_ge l (2 * Z.to_nat (i + 1))) in Es by lia.
      destruct Hr as [_ Hm Ho]. constructor; rewrite Es; cbn [chans media set_chan].
      * exists (delay t1). rewrite decide_True by done. split; [done|apply delay_bound].
      * change (c_drive base (with_phase (Take (take (2 * Z.to_nat i) l)) c)) with (c_drive base c).
        change (c_lba (with_phase (Take (take (2 * Z.to_nat i) l)) c)) with (c_lba c). by rewrite Hd, Hlba, Hm.
      * intros b Hne. rewrite decide_False by done. by apply Ho.
    + rewrite (proj2 (Nat.eqb_neq _ 512)) in Es by lia.
      eapply reach_trans; [exact Hr|]. by apply (set_chan_reach _ _ _ _ (hw_of t1)).
  - by exists t'.
Qed.

(** ** A sector read and written *)

Lemma timeout_lt n : Z.of_nat n < 1000000 -> (n < TIMEOUT)%nat.
Proof. unfold TIMEOUT. lia. Qed.

(** No command is under way, and what an earlier one left of BSY is bounded. *)
Definition quiet (t : list event) : Prop :=
  forall base, ata_base base -> c_phase (chans (hw_of t) base) = Idle /\ Z.of_nat (c_busy (chans (hw_of t) base)) < 1000000.

Definition media_ok (m : gmap (Z * Z) (list Z)) : Prop := map_Forall (fun _ b => bytes_ok b) m.

Lemma media_bytes m d lba : media_ok m -> bytes_ok (dev_read d lba m).
Proof.
  intros Hm. change (bytes_ok (pad_sector (default [] (m !! (d, lba))))). apply Forall_take, Forall_app_2.
  - destruct (m !! (d, lba)) as [b|] eqn:E; [exact (Hm _ _ E)|constructor].
  - apply Forall_replicate. unfold byte_ok. lia.
Qed.

Lemma quiet_reach base c t t' :
  quiet t -> reach base c t t' -> c_phase c = Idle -> Z.of_nat (c_busy c) < 1000000 -> quiet t'.
Proof.
  intros Hq [Hc _ Ho] Hi Hn b Hb. destruct (decide (b = base)) as [->|Hne]; [by rewrite Hc|]. rewrite Ho by done. by apply Hq.
Qed.

Lemma lock_pair s t : unlock_ata (lock_ata s) t = Ata (Spinlock 0 (ata_eflags s)) (ata_eflags s) t.
Proof. done. Qed.

(** Both calls up to the wait for DRQ: the address and the command are given. *)
Lemma start_ok d lba cmd p c t :
  drive_ok d -> lba28_ok lba -> present d = true -> chans (hw_of t) (ata_port d) = c -> selected d lba c ->
  Z.of_nat (c_busy c) < 1000000 ->
  cmd = 0x20 /\ p = Give (words_of (dev_read d lba (media (hw_of t)))) \/ cmd = 0x30 /\ p = Take [] ->
  exists m1 t1 t2 m3 t3, poll dev TIMEOUT (ata_port d + 7) busy_bit t = (S m1, t1) /\
    ata_command (ata_port d) lba cmd t1 = (tt, t2) /\ poll dev TIMEOUT (ata_port d + 7) no_drq t2 = (S m3, t3) /\
    reach (ata_port d) (addressed d lba 0 p) t t3.
Proof.
  intros Hd Hl Hp Hc [Hs Hi] Hn Hcmd. pose proof (ata_port_base d) as Hb.
  destruct (poll_ok busy_bit (ata_port d) (c_busy c) TIMEOUT c t Hb Hc) as (m1 & t1 & E1 & R1); [|done|by apply timeout_lt|done| |].
  { by rewrite (selected_drive d lba). }
  { unfold ready. by rewrite Hi. }
  destruct (command_ok d lba cmd p (with_busy 0 c) t1 Hd Hl Hp (re_chan _ _ _ _ R1)) as (t2 & n & E2 & R2 & Hn2); [by split|done|by rewrite (re_media _ _ _ _ R1)|].
  destruct (poll_ok no_drq (ata_port d) n TIMEOUT _ t2 Hb (re_chan _ _ _ _ R2)) as (m3 & t3 & E3 & R3); [|done|by apply timeout_lt|done| |].
  { by rewrite (proj1 (addressed_ok d lba n p Hd Hl)). }
  { unfold ready. cbn [c_phase addressed]. by destruct Hcmd as [[_ ->]|[_ ->]]. }
  exists m1, t1, t2, m3, t3. split_and!; try done. eapply reach_trans; [|exact R3]. eapply reach_trans; [exact R1|exact R2].
Qed.

Lemma read_sector_ok d lba buffer s :
  drive_ok d -> lba28_ok lba -> present d = true -> quiet (ata_trace s) -> media_ok (media (hw_of (ata_trace s))) ->
  length buffer = 512%nat ->
  exists s', ata_read_sector dev d lba buffer s = Some (dev_read d lba (media (hw_of (ata_trace s))), s') /\
    media (hw_of (ata_trace s')) = media (hw_of (ata_trace s)) /\ quiet (ata_trace s') /\ ata_eflags s' = ata_eflags s.
Proof.
  intros Hd Hl Hp Hq Hm Hbuf. set (t := ata_trace s) in *. pose proof (ata_port_base d) as Hb.
  destruct (Hq _ Hb) as [Hi Hn]. unfold ata_read_sector. cbv zeta. change (ata_trace (lock_ata s)) with t.
  destruct (select_ok d lba t Hd Hl Hp Hi) as (t1 & c & E1 & R1 & Hsel & Hc). rewrite E1.
  destruct (read_status (ata_port d) c t1 Hb (re_chan _ _ _ _ R1)) as (t2 & E2 & R2); [by rewrite (selected_drive d lba) by (done || apply Hsel)|].
  rewrite E2. pose proof (reach_trans _ _ _ _ _ _ R1 R2) as R12.
  destruct (start_ok d lba 0x20 (Give (words_of (dev_read d lba (media (hw_of t2))))) _ t2 Hd Hl Hp (re_chan _ _ _ _ R2)) as (m1 & t3 & t4 & m3 & t5 & E3 & E4 & E5 & R5); [exact Hsel|cbn [c_busy with_busy]; lia|by left|].
  replace (_ =? 0xFF) with false by (unfold ready; by destruct (c_busy c =? 0)%nat, (c_phase c)).
  rewrite E3, E4, E5. pose proof (reach_trans _ _ _ _ _ _ R12 R5) as R.
  destruct (read_data_ok (ata_port d) (dev_read d lba (media (hw_of t2))) buffer
    (addressed d lba 0 (Give (words_of (dev_read d lba (media (hw_of t2)))))) t5 Hb) as (t6 & -> & R6);
    [apply dev_read_sector|rewrite (re_media _ _ _ _ R12); by apply media_bytes|done|exact (re_chan _ _ _ _ R)|done|done|].
  rewrite (re_media _ _ _ _ R12). cbn [mbind option_bind]. rewrite lock_pair. eexists; split; [done|]. cbn [ata_trace ata_eflags].
  pose proof (reach_trans _ _ _ _ _ _ R R6) as R'. split; [apply R'|]. split; [|done]. eapply quiet_reach; [exact Hq|exact R'|done|done].
Qed.

Lemma write_sector_ok d lba l s :
  drive_ok d -> lba28_ok lba -> present d = true -> quiet (ata_trace s) -> media_ok (media (hw_of (ata_trace s))) ->
  sector l -> bytes_ok l ->
  exists s', ata_write_sector dev d lba l s = Some s' /\
    media (hw_of (ata_trace s')) = dev_write d lba l (media (hw_of (ata_trace s))) /\
    media_ok (media (hw_of (ata_trace s'))) /\ quiet (ata_trace s') /\ ata_eflags s' = ata_eflags s.
Proof.
  intros Hd Hl Hp Hq Hm Hsl Hbl. set (t := ata_trace s) in *. pose proof (ata_port_base d) as Hb.
  destruct (Hq _ Hb) as [Hi Hn]. unfold ata_write_sector. cbv zeta. change (ata_trace (lock_ata s)) with t.
  destruct (select_ok d lba t Hd Hl Hp Hi) as (t1 & c & E1 & R1 & Hsel & Hc). rewrite E1.
  destruct (start_ok d lba 0x30 (Take []) _ t1 Hd Hl Hp (re_chan _ _ _ _ R1)) as (m1 & t3 & t4 & m3 & t5 & E3 & E4 & E5 & R5); [exact Hsel|lia|by right|].
  rewrite E3, E4, E5. pose proof (reach_trans _ _ _ _ _ _ R1 R5) as R. destruct (addressed_ok d lba 0 (Take []) Hd Hl) as (A1 & A2 & _).
  destruct (ata_write_data_ok (ata_port d) d lba l (addressed d lba 0 (Take [])) t5 Hb Hsl Hbl (re_chan _ _ _ _ R)) as (t6 & -> & [(n & Hc6 & Hn6) Hm6 Ho6]); [done|done|done|done|].
  cbn [mbind option_bind]. rewrite (re_media _ _ _ _ R) in Hm6. unfold outb. cbv beta iota.
  set (t7 := Out8 (ata_port d + 7) (u8 0xE7) :: t6).
  assert (R7 : exists n7, reach (ata_port d) (addressed d lba n7 Idle) t6 t7 /\ Z.of_nat n7 < 1000000).
  { pose proof (command_reg (ata_port d) 0xE7 t6 Hb) as E7. fold t7 in E7. unfold command in E7. rewrite Hc6 in E7.
    change (c_drive _ (with_busy n _)) with (c_drive (ata_port d) (addressed d lba 0 (Take []))) in E7. rewrite A1, Hp in E7.
    cbn [negb orb c_busy with_busy] in E7. destruct (n =? 0)%nat.
    - exists (delay t6). split; [|apply delay_bound]. by apply (set_chan_reach _ _ _ _ (hw_of t6)).
    - exists n. split; [|done]. constructor; rewrite E7; [exact Hc6|done|done]. }
  destruct R7 as (n7 & R7 & Hn7).
  destruct (reads_ok (ata_port d) 4 _ t7 Hb (re_chan _ _ _ _ R7)) as (m8 & t8 & -> & Hm8 & R8); [by rewrite (proj1 (addressed_ok d lba n7 Idle Hd Hl))|].
  cbn [c_busy addressed] in Hm8.
  destruct (poll_ok busy_bit (ata_port d) m8 TIMEOUT _ t8 Hb (re_chan _ _ _ _ R8)) as (m9 & t9 & -> & R9);
    [by rewrite with_busy_drive, (proj1 (addressed_ok d lba n7 Idle Hd Hl))|done|apply timeout_lt; lia|done|done|].
  rewrite lock_pair. eexists; split; [done|]. cbn [ata_trace ata_eflags].
  pose proof (reach_trans _ _ _ _ _ _ (reach_trans _ _ _ _ _ _ R7 R8) R9) as [C9 M9 O9]. rewrite M9, Hm6. split; [done|]. split.
  - by apply map_Forall_insert_2.
  - split; [|done]. intros b Hb'. destruct (decide (b = ata_port d)) as [->|Hne]; [by rewrite C9|].
    rewrite O9, Ho6, (re_other _ _ _ _ R) by done. by apply Hq.
Qed.

(** ** Any sequence of sector accesses *)

Inductive disk_op := DRead (drive lba : Z) (buffer : list Z) | DWrite (drive lba : Z) (data : list Z).

Definition disk_op_ok (o : disk_op) : Prop :=
  match o with
  | DRead d lba b => drive_ok d /\ lba28_ok lba /\ present d = true /\ length b = 512%nat
  | DWrite d lba b => drive_ok d /\ lba28_ok lba /\ present d = true /\ sector b /\ bytes_ok b
  end.

Fixpoint ata_run (ops : list disk_op) (s : ata) : option (list (list Z) * ata) :=
  match ops with
  | [] => Some ([], s)
  | DRead d lba b :: ops => '(r, s) ← ata_read_sector dev d lba b s; '(l, s) ← ata_run ops s; Some (r :: l, s)
  | DWrite d lba b :: ops => s ← ata_write_sector dev d lba b s; ata_run ops s
  end.
End drive.

(** The same accesses to a block device. *)
Fixpoint disk_run {D} `{!BlockDev D} (ops : list disk_op) (d : D) : list (list Z) * D :=
  match ops with
  | [] => ([], d)
  | DRead drive lba _ :: ops => let '(l, d') := disk_run ops d in (dev_read drive lba d :: l, d')
  | DWrite drive lba b :: ops => disk_run ops (dev_write drive lba b d)
  end.

(** C10 the ATA driver is a block device: on a machine whose
    drives follow the PIO protocol - each keeping the driver waiting as it likes,
    for fewer than a million status reads - any sequence of sector reads and
    writes returns exactly what the abstract block device of the file system
    returns, leaves its contents on the drives, and gives back the interrupt
    flag; no wait times out. *)
Theorem ata_implements_disk present delay start dev ops s :
  follows present delay start dev -> (forall t, Z.of_nat (delay t) < 1000000) ->
  quiet present delay start (ata_trace s) -> media_ok (media (hw_of present delay start (ata_trace s))) ->
  Forall (disk_op_ok present) ops ->
  exists s', ata_run dev ops s = Some (fst (disk_run ops (media (hw_of present delay start (ata_trace s)))), s') /\
    media (hw_of present delay start (ata_trace s')) = snd (disk_run ops (media (hw_of present delay start (ata_trace s)))) /\
    quiet present delay start (ata_trace s') /\ ata_eflags s' = ata_eflags s.
Proof.
  intros Hf Hdel. revert s. induction ops as [|[d lba b|d lba b] ops IH]; intros s Hq Hm Hops; cbn [ata_run disk_run].
  - by exists s.
  - apply Forall_cons in Hops as [(Hd & Hl & Hp & Hb) Hops].
    destruct (read_sector_ok present delay start dev Hf Hdel d lba b s Hd Hl Hp Hq Hm Hb) as (s1 & -> & Hm1 & Hq1 & He1).
    cbn [mbind option_bind]. destruct (IH s1 Hq1) as (s' & E & Hm' & Hq' & He'); [by rewrite Hm1|done|].
    rewrite E, Hm1 in *. cbn [mbind option_bind].
    destruct (disk_run ops (media (hw_of present delay start (ata_trace s)))) as [l m']. cbn [fst snd] in *.
    exists s'. split; [done|]. split; [done|]. split; [done|congruence].
  - apply Forall_cons in Hops as [(Hd & Hl & Hp & Hsb & Hbb) Hops].
    destruct (write_sector_ok present delay start dev Hf Hdel d lba b s Hd Hl Hp Hq Hm Hsb Hbb) as (s1 & -> & Hm1 & Hmo & Hq1 & He1).
    cbn [mbind option_bind]. destruct (IH s1 Hq1 Hmo Hops) as (s' & E & Hm' & Hq' & He'). rewrite Hm1 in *.
    exists s'. split; [done|]. split; [done|]. split; [done|congruence].
Qed.

(** ** A concrete machine: one drive, three status reads per command *)

Definition one_drive (d : Z) : bool := d =? 0.
Definition three_reads (t : list event) : nat := 3.
Definition empty_disk : hw := Hw (fun _ => Chan 0 0 0 0 0 0 Idle) ∅.
Definition ata_machine : machine :=
  Machine (fun t p => match base_of p with
                      | Some base => if p =? base + 7 then status one_drive base (hw_of one_drive three_reads empty_disk t) else 0
                      | None => 0
                      end)
    (fun t p => match c_phase (chans (hw_of one_drive three_reads empty_disk t) p) with Give (w :: _) => w | _ => 0 end)
    (fun _ _ => 0).

Lemma ata_machine_follows : follows one_drive three_reads empty_disk ata_machine.
Proof.
  constructor.
  - intros t base Hb. cbn [read8 ata_machine]. rewrite base_of_reg by (done || lia). by rewrite Z.eqb_refl.
  - intros t base w ws Hb Hg _. cbn [read16 ata_machine]. by rewrite Hg.
Qed.

Definition pattern (n : Z) : list Z := replicate 256 n ++ replicate 256 0x55.
Definition ata_start : ata := Ata SPINLOCK_INIT 0x202 [].

(** Two sectors written, one of them twice, and read back. *)
Lemma ata_implements_disk_witness :
  let ops := [DWrite 0 5 (pattern 1); DWrite 0 0x1000005 (pattern 2); DWrite 0 5 (pattern 3);
              DRead 0 5 (replicate 512 0); DRead 0 0x1000005 (replicate 512 0)] in
  fst (disk_run ops (∅ : gmap (Z * Z) (list Z))) = [pattern 3; pattern 2] /\
  exists s', ata_run ata_machine ops ata_start = Some (fst (disk_run ops (∅ : gmap (Z * Z) (list Z))), s') /\
    media (hw_of one_drive three_reads empty_disk (ata_trace s')) = snd (disk_run ops (∅ : gmap (Z * Z) (list Z))) /\
    quiet one_drive three_reads empty_disk (ata_trace s') /\ ata_eflags s' = ata_eflags ata_start.
Proof.
  intros ops. split; [vm_compute; reflexivity|].
  apply (ata_implements_disk one_drive three_reads empty_disk ata_machine ops ata_start).
  - exact ata_machine_follows.
  - intros t. unfold three_reads. lia.
  - intros base _. split; reflexivity.
  - apply map_Forall_empty.
  - assert (Hp : forall n, 0 <= n < 256 -> bytes_ok (pattern n)).
    { intros n Hn. apply Forall_app_2; apply Forall_replicate; unfold byte_ok; lia. }
    assert (Hw : forall lba n, 0 <= lba < 2 ^ 28 -> 0 <= n < 256 -> disk_op_ok one_drive (DWrite 0 lba (pattern n))).
    { intros lba n Hl Hn. split; [unfold drive_ok; lia|]. split; [exact Hl|]. split; [reflexivity|]. split; [reflexivity|by apply Hp]. }
    assert (Hr : forall lba, 0 <= lba < 2 ^ 28 -> disk_op_ok one_drive (DRead 0 lba (replicate 512 0))).
    { intros lba Hl. split; [unfold drive_ok; lia|]. split; [exact Hl|]. split; reflexivity. }
    repeat (apply Forall_cons; split); [apply Hw; lia|apply Hw; lia|apply Hw; lia|apply Hr; lia|apply Hr; lia|].
    apply Forall_nil; exact I.
Defined.
