(* ===== verification/E1000.v ===== *)
(** * E1000: the Intel e1000 network card (kernel/drivers/e1000.c, include/e1000.h)

    Descriptors and buffers are bytes of physical memory that the driver reaches
    through the mappings it made with [paging_map_memory] (their effect on
    translation is [Paging.paging_map_spec]) and the card by physical address.
    Register accesses are a history of events.  The handler calls the network layer
    (NetIn), which sends its answers with this driver.  The log lines are left out. *)

From S2P Require Export NetIn.

Definition E1000_CTRL : Z := 0x0000.
Definition E1000_ICR : Z := 0x00C0.
Definition E1000_IMS : Z := 0x00D0.
Definition E1000_RCTL : Z := 0x0100.
Definition E1000_TCTL : Z := 0x0400.
Definition E1000_RDBAL : Z := 0x2800.
Definition E1000_RDBAH : Z := 0x2804.
Definition E1000_RDLEN : Z := 0x2808.
Definition E1000_RDH : Z := 0x2810.
Definition E1000_RDT : Z := 0x2818.
Definition E1000_TDBAL : Z := 0x3800.
Definition E1000_TDBAH : Z := 0x3804.
Definition E1000_TDLEN : Z := 0x3808.
Definition E1000_TDH : Z := 0x3810.
Definition E1000_TDT : Z := 0x3818.
Definition E1000_RAL : Z := 0x5400.
Definition E1000_RAH : Z := 0x5404.
Definition E1000_CTRL_SLU : Z := Z.shiftl 1 6.
Definition E1000_CTRL_ASDE : Z := Z.shiftl 1 5.
Definition E1000_CTRL_RST : Z := Z.shiftl 1 26.
Definition E1000_RCTL_EN : Z := Z.shiftl 1 1.
Definition E1000_RCTL_SBP : Z := Z.shiftl 1 2.
Definition E1000_RCTL_BAM : Z := Z.shiftl 1 15.
Definition E1000_RCTL_SECRC : Z := Z.shiftl 1 26.
Definition E1000_TCTL_EN : Z := Z.shiftl 1 1.
Definition E1000_TCTL_PSP : Z := Z.shiftl 1 3.
Definition E1000_NUM_RX_DESC : Z := 128.
Definition E1000_NUM_TX_DESC : Z := 128.

(** Virtual addresses the driver chose. *)
Definition mmio_base_virt : Z := 0xD0010000.
Definition rx_descs : Z := 0xD0020000.
Definition rx_buffers : Z := 0xD0030000.
Definition tx_descs : Z := 0xD0040000.
Definition tx_buffers : Z := 0xD0060000.

Inductive mmio := RegWrite (address value : Z) | RegRead (address value : Z).

Record e1000 := E1000 {
  pages : gmap Z Z;
  ram : Z -> Z;
  regs : list mmio;
  e1000_mac : list Z;
  rx_descs_phys : Z; tx_descs_phys : Z; rx_buffers_phys : Z;
  rx_cur : Z; tx_cur : Z;
  tx_ready : bool; tx_buffers_phys : Z
}.

Definition with_pages (p : gmap Z Z) (s : e1000) : e1000 :=
  E1000 p (ram s) (regs s) (e1000_mac s) (rx_descs_phys s) (tx_descs_phys s) (rx_buffers_phys s) (rx_cur s) (tx_cur s)
    (tx_ready s) (tx_buffers_phys s).
Definition with_ram (r : Z -> Z) (s : e1000) : e1000 :=
  E1000 (pages s) r (regs s) (e1000_mac s) (rx_descs_phys s) (tx_descs_phys s) (rx_buffers_phys s) (rx_cur s) (tx_cur s)
    (tx_ready s) (tx_buffers_phys s).
Definition with_regs (l : list mmio) (s : e1000) : e1000 :=
  E1000 (pages s) (ram s) l (e1000_mac s) (rx_descs_phys s) (tx_descs_phys s) (rx_buffers_phys s) (rx_cur s) (tx_cur s)
    (tx_ready s) (tx_buffers_phys s).
Definition with_mac (m : list Z) (s : e1000) : e1000 :=
  E1000 (pages s) (ram s) (regs s) m (rx_descs_phys s) (tx_descs_phys s) (rx_buffers_phys s) (rx_cur s) (tx_cur s)
    (tx_ready s) (tx_buffers_phys s).
Definition with_phys (rd td rb : Z) (s : e1000) : e1000 :=
  E1000 (pages s) (ram s) (regs s) (e1000_mac s) rd td rb (rx_cur s) (tx_cur s) (tx_ready s) (tx_buffers_phys s).
Definition with_cur (r t : Z) (s : e1000) : e1000 :=
  E1000 (pages s) (ram s) (regs s) (e1000_mac s) (rx_descs_phys s) (tx_descs_phys s) (rx_buffers_phys s) r t
    (tx_ready s) (tx_buffers_phys s).
Definition with_tx (p : Z) (s : e1000) : e1000 :=
  E1000 (pages s) (ram s) (regs s) (e1000_mac s) (rx_descs_phys s) (tx_descs_phys s) (rx_buffers_phys s) (rx_cur s) (tx_cur s)
    true p.
(** ** Memory *)

Definition ram_get (a : Z) (n : nat) (r : Z -> Z) : list Z := r <$> seqZ a (Z.of_nat n).
Definition ram_put (a : Z) (bs : list Z) (r : Z -> Z) : Z -> Z :=
  fun x => if (a <=? x) && (x <? a + Z.of_nat (length bs)) then nth (Z.to_nat (x - a)) bs 0 else r x.

(** [paging_map_memory] on the translation of kernel addresses. *)
Definition map_memory (phys virt size : Z) (s : e1000) : e1000 :=
  with_pages (fold_left (fun p i => <[virt / 4096 + i := phys / 4096 + i]> p) (seqZ 0 ((size + 4095) / 4096)) (pages s)) s.

(** Accesses at a virtual address: no result where nothing is mapped. *)
Definition translate (s : e1000) (va : Z) : option Z :=
  f ← pages s !! (va / 4096); Some (4096 * f + va mod 4096).
Definition vget (va : Z) (n : nat) (s : e1000) : option (list Z) :=
  mapM (fun a => pa ← translate s a; Some (ram s pa)) (seqZ va (Z.of_nat n)).
Fixpoint vput (va : Z) (bs : list Z) (s : e1000) : option e1000 :=
  match bs with
  | [] => Some s
  | b :: bs => pa ← translate s va; vput (va + 1) bs (with_ram (ram_put pa [b] (ram s)) s)
  end.

(** Fields of the 16-byte descriptors. *)
Definition desc_addr (base i : Z) : Z := base + 16 * i.
Definition le64 (v : Z) : list Z := le32 v ++ le32 0.

Section driver.
(** What the card's registers read, and what its memory accesses have done when a descriptor is polled. *)
Variable read_reg : list mmio -> Z -> Z.
Variable card : list mmio -> nat -> (Z -> Z) -> Z -> Z.

Definition e1000_write (address value : Z) (s : e1000) : e1000 := with_regs (RegWrite address (u32 value) :: regs s) s.
Definition e1000_read (address : Z) (s : e1000) : Z * e1000 :=
  let v := u32 (read_reg (regs s) address) in (v, with_regs (RegRead address v :: regs s) s).

Definition e1000_read_mac (s : e1000) : e1000 :=
  let '(low, s) := e1000_read E1000_RAL s in
  let '(high, s) := e1000_read E1000_RAH s in
  with_mac [Z.land low 0xFF; Z.land (Z.shiftr low 8) 0xFF; Z.land (Z.shiftr low 16) 0xFF; Z.land (Z.shiftr low 24) 0xFF;
            Z.land high 0xFF; Z.land (Z.shiftr high 8) 0xFF] s.

(** The [k]-th poll of the descriptor sees what the card did up to then. *)
Fixpoint tx_wait (fuel k : nat) (old_cur : Z) (s : e1000) : option e1000 :=
  match fuel with
  | O => None
  | S fuel =>
      let s := with_ram (card (regs s) k (ram s)) s in
      st ← vget (desc_addr tx_descs old_cur + 12) 1 s;
      if Z.land (nth 0 st 0) 0x01 =? 0 then tx_wait fuel (S k) old_cur s else Some s
  end.

(** Up to the write of the tail register. *)
Definition tx_start (frames : Z) (data : list Z) (s : e1000) : option (Z * e1000) :=
  let s := if tx_ready s then s else map_memory frames tx_buffers (128 * 1024) (with_tx frames s) in
  s ← vput (tx_buffers + tx_cur s * 2048) data s;
  s ← vput (desc_addr tx_descs (tx_cur s)) (le64 (u32 (tx_buffers_phys s + tx_cur s * 2048))) s;
  s ← vput (desc_addr tx_descs (tx_cur s) + 8) (le16 (Z.of_nat (length data))) s;
  s ← vput (desc_addr tx_descs (tx_cur s) + 11) [Z.lor (Z.shiftl 1 0) (Z.shiftl 1 1)] s;
  s ← vput (desc_addr tx_descs (tx_cur s) + 12) [0] s;
  let old_cur := tx_cur s in
  let s := with_cur (rx_cur s) ((tx_cur s + 1) mod E1000_NUM_TX_DESC) s in
  Some (old_cur, e1000_write E1000_TDT (tx_cur s) s).

(** [frames]: what [alloc_contiguous_frames(64)] returns at the first call. *)
Definition e1000_send_packet (fuel : nat) (frames : Z) (data : list Z) (s : e1000) : option e1000 :=
  '(old_cur, s) ← tx_start frames data s; tx_wait fuel 0 old_cur s.

(** ** Reception *)

Variable kmalloc_ok : Z -> bool.
(** For the sends of the network layer: fuel, and what [alloc_contiguous_frames(64)] returns at the first. *)
Variables (tx_fuel : nat) (tx_frames : Z).

Fixpoint send_packets (datas : list (list Z)) (s : e1000) : option e1000 :=
  match datas with [] => Some s | d :: datas => s ← e1000_send_packet tx_fuel tx_frames d s; send_packets datas s end.

(** The frames that the network layer has sent between two states. *)
Definition sends (n n' : netstack) : list (list Z) := drop (length (sent (iface n))) (sent (iface n')).

(** A slot that lies where the transmit descriptors or the transmit buffers are mapped. *)
Definition over_tx (va : Z) : bool := ((tx_descs - 2048 <? va) && (va <? tx_descs + 4096)) || (tx_buffers - 2048 <? va).

(** No kernel callback bound with [udp_bind] was called between two states. *)
Definition no_callback (n n' : netstack) : bool := bool_decide (udp_calls (iface n') = udp_calls (iface n)).

(** [net_handle_packet(packet_data, len)]: the network layer reads and rewrites the slot and sends through this driver.
    There is no result when it answers a packet in a slot that the sends themselves remap or overwrite, or when it calls
    a kernel callback (which may send packets of its own). *)
Definition handle_packet (va len : Z) (st : netstack * e1000) : option (netstack * e1000) :=
  let '(n, s) := st in
  p ← vget va 2048 s;
  '(p, n') ← packet_input kmalloc_ok p len n;
  s ← vput va p s;
  if negb (no_callback n n') || (over_tx va && negb (bool_decide (sends n n' = []))) then None else
  s ← send_packets (sends n n') s;
  Some (n', s).

(** [while (rx_descs[rx_cur].status & 0x01)]; each round frees one descriptor
    of the ring. *)
Fixpoint rx_loop (fuel : nat) (st : netstack * e1000) : option (netstack * e1000) :=
  match fuel with
  | O => None
  | S fuel =>
      let s := snd st in
      stat ← vget (desc_addr rx_descs (rx_cur s) + 12) 1 s;
      if Z.land (nth 0 stat 0) 0x01 =? 0 then Some st else
      len ← vget (desc_addr rx_descs (rx_cur s) + 8) 2 s;
      '(n, s) ← handle_packet (rx_buffers + rx_cur s * 2048) (de16 len) st;
      s ← vput (desc_addr rx_descs (rx_cur s) + 12) [0] s;
      let old_cur := rx_cur s in
      let s := with_cur ((rx_cur s + 1) mod E1000_NUM_RX_DESC) (tx_cur s) s in
      rx_loop fuel (n, e1000_write E1000_RDT old_cur s)
  end.

Definition e1000_handler (fuel : nat) (st : netstack * e1000) : option (netstack * e1000) :=
  let '(n, s) := st in
  let '(status, s) := e1000_read E1000_ICR s in
  if negb (Z.land status 0x80 =? 0) then rx_loop fuel (n, s) else Some (n, s).

(** ** Initialisation *)

(** The stages of [init_e1000]: reset and address, receive ring, transmit ring. *)
Definition e1000_reset (phys_addr : Z) (s : e1000) : e1000 :=
  let s := map_memory phys_addr mmio_base_virt (128 * 1024) s in
  let s := e1000_write E1000_CTRL E1000_CTRL_RST s in
  let '(ctrl, s) := e1000_read E1000_CTRL s in
  let s := e1000_write E1000_CTRL (Z.lor ctrl (Z.lor E1000_CTRL_SLU E1000_CTRL_ASDE)) s in
  e1000_read_mac s.

Definition e1000_rx_setup (rd rb : Z) (s : e1000) : option e1000 :=
  let s := map_memory rd rx_descs 4096 s in
  let s := map_memory rb rx_buffers (E1000_NUM_RX_DESC * 2048) s in
  s ← for_do 0 E1000_NUM_RX_DESC (fun i s =>
        s ← vput (desc_addr rx_descs i) (le64 (u32 (rb + i * 2048))) s;
        vput (desc_addr rx_descs i + 12) [0] s) s;
  let s := e1000_write E1000_RDBAL rd s in
  let s := e1000_write E1000_RDBAH 0 s in
  let s := e1000_write E1000_RDLEN (E1000_NUM_RX_DESC * 16) s in
  let s := e1000_write E1000_RDH 0 s in
  let s := e1000_write E1000_RDT (E1000_NUM_RX_DESC - 1) s in
  Some (e1000_write E1000_RCTL (Z.lor (Z.lor (Z.lor E1000_RCTL_EN E1000_RCTL_SBP) E1000_RCTL_BAM) E1000_RCTL_SECRC) s).

Definition e1000_tx_setup (td : Z) (s : e1000) : option e1000 :=
  let s := map_memory td tx_descs 4096 s in
  s ← for_do 0 E1000_NUM_TX_DESC (fun i s => vput (desc_addr tx_descs i + 12) [1] s) s;
  let s := e1000_write E1000_TDBAL td s in
  let s := e1000_write E1000_TDBAH 0 s in
  let s := e1000_write E1000_TDLEN (E1000_NUM_TX_DESC * 16) s in
  let s := e1000_write E1000_TDH 0 s in
  let s := e1000_write E1000_TDT 0 s in
  Some (e1000_write E1000_TCTL (Z.lor E1000_TCTL_EN E1000_TCTL_PSP) s).

(** [rd], [rb] and [td] are the results of the three allocations. *)
Definition setup_e1000 (phys_addr rd rb td : Z) (s : e1000) : option e1000 :=
  let s := with_phys rd td rb (e1000_reset phys_addr s) in
  s ← e1000_rx_setup rd rb s;
  s ← e1000_tx_setup td s;
  let s := e1000_write E1000_IMS 0x1F6DC s in
  Some (snd (e1000_read E1000_ICR s)).

(** And the driver in the network layer.  The handler's installation is left to Irq. *)
Definition init_e1000 (phys_addr rd rb td : Z) (st : netstack * e1000) : option (netstack * e1000) :=
  s ← setup_e1000 phys_addr rd rb td (snd st);
  Some (with_iface (net_register_driver (init_net (e1000_mac s) (iface (fst st)))) (fst st), s).
End driver.

(** ** Lemmas on memory *)

Lemma map_memory_lookup phys virt size s k :
  pages (map_memory phys virt size s) !! k =
    if decide (virt / 4096 <= k < virt / 4096 + (size + 4095) / 4096) then Some (phys / 4096 + (k - virt / 4096)) else pages s !! k.
Proof.
  unfold map_memory. cbn [pages with_pages]. set (n := (size + 4095) / 4096). set (v := virt / 4096). set (f := phys / 4096).
  assert (H : forall (m : nat) lo p, fold_left (fun p i => <[v + i := f + i]> p) (seqZ lo (Z.of_nat m)) p !! k =
    if decide (v + lo <= k < v + lo + Z.of_nat m) then Some (f + (k - v)) else (p : gmap Z Z) !! k).
  { induction m as [|m IH]; intros lo p.
    - rewrite seqZ_nil by lia. cbn. by rewrite decide_False by lia.
    - rewrite seqZ_cons by lia. cbn [fold_left]. replace (Z.pred (Z.of_nat (S m))) with (Z.of_nat m) by lia. rewrite IH.
      destruct (decide (k = v + lo)) as [->|Hne].
      + rewrite decide_False by lia. rewrite lookup_insert_eq, decide_True by lia. f_equal. lia.
      + rewrite lookup_insert_ne by lia. case_decide; case_decide; (lia || done). }
  destruct (Z_le_gt_dec 0 n).
  - replace n with (Z.of_nat (Z.to_nat n)) at 1 by lia. rewrite H. case_decide; case_decide; (lia || done).
  - rewrite seqZ_nil by lia. cbn. by rewrite decide_False by lia.
Qed.

Lemma ram_put_get_same a bs r : ram_get a (length bs) (ram_put a bs r) = bs.
Proof.
  apply list_eq_lt; [unfold ram_get; by rewrite length_fmap, length_seqZ, Nat2Z.id|].
  intros i Hi. unfold ram_get in *. rewrite length_fmap, length_seqZ, Nat2Z.id in Hi.
  rewrite list_lookup_fmap, lookup_seqZ_lt by lia. cbn. unfold ram_put.
  rewrite (proj2 (Z.leb_le _ _)), (proj2 (Z.ltb_lt _ _)) by lia. cbn [andb].
  replace (Z.to_nat (a + Z.of_nat i - a)) with i by lia. destruct (lookup_lt_is_Some_2 bs i Hi) as [x Hx].
  by rewrite Hx, (nth_lookup_Some _ _ _ _ Hx).
Qed.

(** Agreement on a range of addresses. *)
Lemma ram_get_ext a n r r' : (forall x, a <= x < a + Z.of_nat n -> r x = r' x) -> ram_get a n r = ram_get a n r'.
Proof.
  intros H. unfold ram_get. apply list_eq. intros i. rewrite !list_lookup_fmap.
  destruct (seqZ a (Z.of_nat n) !! i) as [x|] eqn:E; [|done]. cbn. apply lookup_seqZ in E as [-> Hi]. f_equal. apply H. lia.
Qed.

Lemma ram_put_other a bs r x : x < a \/ a + Z.of_nat (length bs) <= x -> ram_put a bs r x = r x.
Proof.
  intros H. unfold ram_put. destruct (Z.leb_spec a x); [|done]. by rewrite (proj2 (Z.ltb_ge _ _)) by lia.
Qed.

Lemma ram_get_put_other a n b bs r :
  a + Z.of_nat n <= b \/ b + Z.of_nat (length bs) <= a -> ram_get a n (ram_put b bs r) = ram_get a n r.
Proof. intros H. apply ram_get_ext. intros x Hx. apply ram_put_other. lia. Qed.

Lemma translate_page s va f k :
  pages s !! (va / 4096) = Some f -> 0 <= k -> va mod 4096 + k < 4096 -> translate s (va + k) = Some (4096 * f + va mod 4096 + k).
Proof.
  intros Hf Hk Hl. assert (E1 : (va + k) / 4096 = va / 4096) by pow2_lia. assert (E2 : (va + k) mod 4096 = va mod 4096 + k) by pow2_lia.
  unfold translate. rewrite E1, Hf, E2. cbn [mbind option_bind]. f_equal. lia.
Qed.

Lemma vget_ok s va pa (n : nat) :
  (forall k, 0 <= k < Z.of_nat n -> translate s (va + k) = Some (pa + k)) -> vget va n s = Some (ram_get pa n (ram s)).
Proof.
  intros H. unfold vget, ram_get. revert va pa H. induction n as [|n IH]; intros va pa H; [by rewrite (seqZ_nil va), (seqZ_nil pa) by lia|].
  rewrite (seqZ_cons va), (seqZ_cons pa) by lia. replace (Z.pred (Z.of_nat (S n))) with (Z.of_nat n) by lia.
  cbn [mapM fmap list_fmap]. rewrite <- (Z.add_0_r va) at 1. rewrite H by lia. rewrite Z.add_0_r. cbn [mbind option_bind].
  rewrite <- !Z.add_1_r. rewrite (IH (va + 1) (pa + 1)); [done|]. intros k Hk. rewrite <- !Z.add_assoc. by rewrite H by lia.
Qed.

Lemma vput_ok bs : forall va pa s,
  (forall k, 0 <= k < Z.of_nat (length bs) -> translate s (va + k) = Some (pa + k)) ->
  exists r, vput va bs s = Some (with_ram r s) /\ forall x, r x = ram_put pa bs (ram s) x.
Proof.
  induction bs as [|b bs IH]; intros va pa s H; cbn [vput].
  - exists (ram s). split; [by destruct s|]. intros x. unfold ram_put. cbn [length].
    destruct ((pa <=? x) && (x <? pa + Z.of_nat 0)) eqn:E; [|done]. apply andb_prop in E as [E1%Z.leb_le E2%Z.ltb_lt]. lia.
  - cbn [length] in H. pose proof (H 0 ltac:(lia)) as H0. rewrite !Z.add_0_r in H0. rewrite H0. cbn [mbind option_bind].
    destruct (IH (va + 1) (pa + 1) (with_ram (ram_put pa [b] (ram s)) s)) as (r & -> & Hr).
    { intros k Hk. rewrite <- !Z.add_assoc. by apply H; lia. }
    exists r. split; [done|]. intros x. rewrite Hr. unfold ram_put. cbn [length ram with_ram].
    destruct (Z.leb_spec pa x), (Z.ltb_spec x (pa + Z.of_nat (S (length bs)))), (Z.leb_spec (pa + 1) x),
      (Z.ltb_spec x (pa + 1 + Z.of_nat (length bs))), (Z.ltb_spec x (pa + Z.of_nat 1)); cbn [andb]; try lia; try done.
    + replace (Z.to_nat (x - pa)) with (S (Z.to_nat (x - (pa + 1)))) by lia. done.
    + by replace (Z.to_nat (x - pa)) with 0%nat by lia.
Qed.

(** ** The card after initialisation *)

Record frames_ok (rd rb td : Z) : Prop := {
  fk_rd : rd mod 4096 = 0 /\ 0 <= rd /\ rd + 4096 <= 2 ^ 32;
  fk_rb : rb mod 4096 = 0 /\ 0 <= rb /\ rb + 262144 <= 2 ^ 32;
  fk_td : td mod 4096 = 0 /\ 0 <= td /\ td + 4096 <= 2 ^ 32;
  fk_rd_rb : rd + 4096 <= rb \/ rb + 262144 <= rd;
  fk_rd_td : rd + 4096 <= td \/ td + 4096 <= rd;
  fk_rb_td : td + 4096 <= rb \/ rb + 262144 <= td
}.

(** Where the driver finds the buffer of slot [i]: the transmit descriptors were
    mapped over two of the slots. *)
Definition slot_phys (rb td i : Z) : Z := if (i =? 32) || (i =? 33) then td + 2048 * (i - 32) else rb + 2048 * i.

(** The last value written to a register. *)
Fixpoint reg_value (a : Z) (l : list mmio) : Z :=
  match l with
  | [] => 0
  | RegWrite b v :: l => if b =? a then v else reg_value a l
  | RegRead _ _ :: l => reg_value a l
  end.

Record mapped (rd rb td : Z) (s : e1000) : Prop := {
  mp_slot : forall i k, 0 <= i < 128 -> 0 <= k < 2048 -> translate s (rx_buffers + i * 2048 + k) = Some (slot_phys rb td i + k);
  mp_desc : forall k, 0 <= k < 4096 -> translate s (rx_descs + k) = Some (rd + k);
  mp_tdesc : forall k, 0 <= k < 4096 -> translate s (tx_descs + k) = Some (td + k)
}.

Lemma translate_region s va f n k :
  va mod 4096 = 0 -> (forall p, va / 4096 <= p < va / 4096 + n -> pages s !! p = Some (f + (p - va / 4096))) ->
  0 <= k < 4096 * n -> translate s (va + k) = Some (4096 * f + k).
Proof.
  intros Hm Hp Hk. unfold translate. rewrite Hp by pow2_lia. cbn [mbind option_bind]. f_equal. pow2_lia.
Qed.

(** The mappings of [init_e1000] in their order. *)
Lemma mapped_pages rd rb td mm p s :
  frames_ok rd rb td -> (forall k, pages s !! k = pages (map_memory td tx_descs 4096 (map_memory rb rx_buffers (128 * 2048)
    (map_memory rd rx_descs 4096 (map_memory mm mmio_base_virt (128 * 1024) p)))) !! k) -> mapped rd rb td s.
Proof.
  intros [(Hrd & _ & _) (Hrb & _ & _) (Htd & _ & _) _ _ _] Hp.
  assert (Hpg : forall k, pages s !! k = if decide (0xD0040 <= k < 0xD0041) then Some (td / 4096 + (k - 0xD0040))
    else if decide (0xD0030 <= k < 0xD0070) then Some (rb / 4096 + (k - 0xD0030))
    else if decide (0xD0020 <= k < 0xD0021) then Some (rd / 4096 + (k - 0xD0020))
    else if decide (0xD0010 <= k < 0xD0030) then Some (mm / 4096 + (k - 0xD0010)) else pages p !! k).
  { intros k. rewrite Hp, !map_memory_lookup. done. }
  constructor.
  - intros i k Hi Hk. unfold slot_phys, rx_buffers.
    destruct (decide (32 <= i < 34)) as [H32|H32].
    + rewrite (proj2 (orb_true_iff _ _)) by (destruct (Z.eqb_spec i 32), (Z.eqb_spec i 33); auto; lia).
      replace (0xD0030000 + i * 2048 + k) with (0xD0040000 + (2048 * (i - 32) + k)) by lia.
      rewrite (translate_region s 0xD0040000 (td / 4096) 1); [f_equal; pow2_lia|done| |lia].
      intros q Hq. change (0xD0040000 / 4096) with 0xD0040 in *. rewrite Hpg. by rewrite decide_True by lia.
    + rewrite (proj2 (orb_false_iff _ _)) by (split; apply Z.eqb_neq; lia).
      unfold translate. rewrite Hpg. rewrite decide_False, decide_True by pow2_lia. cbn [mbind option_bind]. f_equal. pow2_lia.
  - intros k Hk. unfold rx_descs. rewrite (translate_region s 0xD0020000 (rd / 4096) 1); [f_equal; pow2_lia|done| |lia].
    intros q Hq. change (0xD0020000 / 4096) with 0xD0020 in *. rewrite Hpg. do 2 rewrite decide_False by lia. by rewrite decide_True by lia.
  - intros k Hk. unfold tx_descs. rewrite (translate_region s 0xD0040000 (td / 4096) 1); [f_equal; pow2_lia|done| |lia].
    intros q Hq. change (0xD0040000 / 4096) with 0xD0040 in *. rewrite Hpg. by rewrite decide_True by lia.
Qed.

Definition armed (rd rb : Z) (r : Z -> Z) (lo : Z) : Prop :=
  forall i, lo <= i < 128 -> ram_get (rd + 16 * i) 4 r = le32 (rb + 2048 * i) /\ ram_get (rd + 16 * i + 12) 1 r = [0].

(** A write inside the page of the receive descriptors. *)
Lemma desc_put rd s off bs :
  (forall k, 0 <= k < 4096 -> translate s (rx_descs + k) = Some (rd + k)) ->
  0 <= off -> off + Z.of_nat (length bs) <= 4096 ->
  exists r, vput (rx_descs + off) bs s = Some (with_ram r s) /\ forall x, r x = ram_put (rd + off) bs (ram s) x.
Proof.
  intros Ht Ho Hl. apply vput_ok. intros k Hk. rewrite <- !Z.add_assoc. apply Ht. lia.
Qed.

Lemma ram_get_put a n b bs r r' :
  (forall x, r x = ram_put b bs r' x) -> a + Z.of_nat n <= b \/ b + Z.of_nat (length bs) <= a ->
  ram_get a n r = ram_get a n r'.
Proof. intros Hr H. rewrite (ram_get_ext a n r (ram_put b bs r')) by auto. by apply ram_get_put_other. Qed.

Lemma ram_get_put_eq a bs r r' : (forall x, r x = ram_put a bs r' x) -> ram_get a (length bs) r = bs.
Proof. intros Hr. rewrite (ram_get_ext _ _ r (ram_put a bs r')) by auto. apply ram_put_get_same. Qed.

(** A prefix of what was written. *)
Lemma ram_get_put_prefix a bs1 bs2 r r' : (forall x, r x = ram_put a (bs1 ++ bs2) r' x) -> ram_get a (length bs1) r = bs1.
Proof.
  intros Hr. apply list_eq_lt; [unfold ram_get; by rewrite length_fmap, length_seqZ, Nat2Z.id|].
  intros i Hi. unfold ram_get in *. rewrite length_fmap, length_seqZ, Nat2Z.id in Hi.
  rewrite list_lookup_fmap, lookup_seqZ_lt by lia. cbn. rewrite Hr. unfold ram_put. rewrite length_app.
  rewrite (proj2 (Z.leb_le _ _)), (proj2 (Z.ltb_lt _ _)) by lia. cbn [andb].
  replace (Z.to_nat (a + Z.of_nat i - a)) with i by lia. rewrite app_nth1 by lia.
  destruct (lookup_lt_is_Some_2 bs1 i Hi) as [x Hx]. by rewrite Hx, (nth_lookup_Some _ _ _ _ Hx).
Qed.

Lemma arm_loop rd rb s :
  0 <= rb /\ rb + 262144 <= 2 ^ 32 ->
  (forall k, 0 <= k < 4096 -> translate s (rx_descs + k) = Some (rd + k)) ->
  exists r, for_do 0 E1000_NUM_RX_DESC (fun i s =>
        s ← vput (desc_addr rx_descs i) (le64 (u32 (rb + i * 2048))) s;
        vput (desc_addr rx_descs i + 12) [0] s) s = Some (with_ram r s) /\
    forall i, 0 <= i < 128 -> ram_get (rd + 16 * i) 4 r = le32 (rb + 2048 * i) /\ ram_get (rd + 16 * i + 12) 1 r = [0].
Proof.
  intros Hrb Ht.
  destruct (for_do_rule (fun i s' => exists r, s' = with_ram r s /\
      forall j, 0 <= j < i -> ram_get (rd + 16 * j) 4 r = le32 (rb + 2048 * j) /\ ram_get (rd + 16 * j + 12) 1 r = [0])
    0 E1000_NUM_RX_DESC (fun i s =>
        s ← vput (desc_addr rx_descs i) (le64 (u32 (rb + i * 2048))) s;
        vput (desc_addr rx_descs i + 12) [0] s) s) as (s' & E & r & -> & Hr).
  - done.
  - exists (ram s). split; [by destruct s|lia].
  - intros i s1 Hi (r & -> & Hr). unfold E1000_NUM_RX_DESC in Hi. unfold desc_addr.
    destruct (desc_put rd (with_ram r s) (16 * i) (le64 (u32 (rb + i * 2048)))) as (r1 & -> & H1); [exact Ht|lia|cbn; lia|].
    cbn [mbind option_bind]. rewrite <- Z.add_assoc.
    destruct (desc_put rd (with_ram r1 (with_ram r s)) (16 * i + 12) [0]) as (r2 & -> & H2); [exact Ht|lia|cbn; lia|].
    eexists; split; [done|]. exists r2. split; [done|]. intros j Hj. cbn [ram with_ram] in H1, H2.
    destruct (Z.eq_dec j i) as [->|Hne].
    + split; [|rewrite <- Z.add_assoc; by apply (ram_get_put_eq (rd + (16 * i + 12)) [0] _ _ H2)].
      rewrite (ram_get_put _ _ _ _ _ _ H2) by (cbn; lia).
      replace (rb + 2048 * i) with (u32 (rb + i * 2048)) by (rewrite u32_small; lia).
      exact (ram_get_put_prefix (rd + 16 * i) (le32 _) (le32 0) _ _ H1).
    + destruct (Hr j ltac:(lia)) as [<- <-].
      rewrite (ram_get_put _ _ _ _ _ _ H2), (ram_get_put _ _ _ _ _ _ H1) by (cbn; lia).
      rewrite (ram_get_put _ _ _ _ _ _ H2), (ram_get_put _ _ _ _ _ _ H1) by (cbn; lia). done.
  - exists r. by split.
Qed.

(** The loop over the transmit descriptors writes in their page only. *)
Lemma tx_loop td s :
  (forall k, 0 <= k < 4096 -> translate s (tx_descs + k) = Some (td + k)) ->
  exists r, for_do 0 E1000_NUM_TX_DESC (fun i s => vput (desc_addr tx_descs i + 12) [1] s) s = Some (with_ram r s) /\
    forall x, x < td \/ td + 4096 <= x -> r x = ram s x.
Proof.
  intros Ht. destruct (for_do_rule (fun i s' => exists r, s' = with_ram r s /\ forall x, x < td \/ td + 4096 <= x -> r x = ram s x)
    0 E1000_NUM_TX_DESC (fun i s => vput (desc_addr tx_descs i + 12) [1] s) s) as (s' & E & r & -> & Hr).
  - done.
  - exists (ram s). split; [by destruct s|done].
  - intros i s1 Hi (r & -> & Hr). unfold E1000_NUM_TX_DESC in Hi. unfold desc_addr.
    destruct (vput_ok [1] (tx_descs + 16 * i + 12) (td + 16 * i + 12) (with_ram r s)) as (r1 & -> & H1).
    { intros k Hk. cbn in Hk. rewrite <- !Z.add_assoc. apply Ht. lia. }
    eexists; split; [done|]. exists r1. split; [done|]. intros x Hx. rewrite H1, ram_put_other by (cbn; lia). by apply Hr.
  - exists r. by split.
Qed.

(** What the rest of the driver's state has kept. *)
Definition same_driver (s s' : e1000) : Prop :=
  rx_cur s' = rx_cur s /\ tx_cur s' = tx_cur s /\ tx_ready s' = tx_ready s /\
  tx_buffers_phys s' = tx_buffers_phys s.

Lemma rx_setup_ok rd rb s :
  rd mod 4096 = 0 -> 0 <= rd < 2 ^ 32 -> 0 <= rb /\ rb + 262144 <= 2 ^ 32 ->
  exists s', e1000_rx_setup rd rb s = Some s' /\ pages s' = pages (map_memory rb rx_buffers (128 * 2048) (map_memory rd rx_descs 4096 s)) /\
    armed rd rb (ram s') 0 /\ same_driver s s' /\ reg_value E1000_RDT (regs s') = 127 /\ reg_value E1000_RDBAL (regs s') = rd.
Proof.
  intros Hm Hd Hrb. unfold e1000_rx_setup. cbv zeta. set (sA := map_memory rb _ _ _).
  assert (HA : forall k, 0 <= k < 4096 -> translate sA (rx_descs + k) = Some (rd + k)).
  { intros k Hk. unfold rx_descs. rewrite (translate_region sA 0xD0020000 (rd / 4096) 1); [f_equal; pow2_lia|done| |lia].
    intros q Hq. change (0xD0020000 / 4096) with 0xD0020 in *. unfold sA. rewrite !map_memory_lookup.
    change (rx_buffers / 4096) with 0xD0030. change (rx_descs / 4096) with 0xD0020. change (4096 + 4095) with 8191. change (8191 / 4096) with 1.
    rewrite decide_False by lia. by rewrite decide_True by lia. }
  destruct (arm_loop rd rb sA Hrb HA) as (r & -> & Hr). cbn [mbind option_bind]. eexists; split; [done|].
  split_and!; [reflexivity|exact Hr|by split_and!|reflexivity|]. cbn [regs e1000_write with_regs reg_value]. by apply u32_small.
Qed.

Lemma tx_setup_ok td s :
  (forall k, 0 <= k < 4096 -> translate (map_memory td tx_descs 4096 s) (tx_descs + k) = Some (td + k)) ->
  exists s', e1000_tx_setup td s = Some s' /\ pages s' = pages (map_memory td tx_descs 4096 s) /\
    (forall x, x < td \/ td + 4096 <= x -> ram s' x = ram s x) /\ same_driver s s' /\
    reg_value E1000_RDT (regs s') = reg_value E1000_RDT (regs s) /\ reg_value E1000_RDBAL (regs s') = reg_value E1000_RDBAL (regs s).
Proof.
  intros Ht. unfold e1000_tx_setup. cbv zeta. destruct (tx_loop td _ Ht) as (r & -> & Hr). cbn [mbind option_bind].
  eexists; split; [done|]. split_and!; [reflexivity|exact Hr|by split_and!|reflexivity|reflexivity].
Qed.

Section init.
Variable read_reg : list mmio -> Z -> Z.

(** What [init_e1000] leaves. *)
Record initialised (rd rb td mm : Z) (s0 s : e1000) : Prop := {
  in_mapped : mapped rd rb td s;
  in_pages : pages s = pages (map_memory td tx_descs 4096 (map_memory rb rx_buffers (128 * 2048)
    (map_memory rd rx_descs 4096 (map_memory mm mmio_base_virt (128 * 1024) s0))));
  in_armed : armed rd rb (ram s) 0;
  in_same : same_driver s0 s;
  in_tail : reg_value E1000_RDT (regs s) = 127;
  in_base : reg_value E1000_RDBAL (regs s) = rd
}.

Lemma map_memory_pages phys virt size s s' :
  pages s = pages s' -> pages (map_memory phys virt size s) = pages (map_memory phys virt size s').
Proof. intros H. unfold map_memory. cbn [pages with_pages]. by rewrite H. Qed.

Lemma reset_ok mm s :
  pages (e1000_reset read_reg mm s) = pages (map_memory mm mmio_base_virt (128 * 1024) s) /\ same_driver s (e1000_reset read_reg mm s).
Proof. split; [reflexivity|by split_and!]. Qed.

Lemma init_ok mm rd rb td s0 :
  frames_ok rd rb td -> exists s, setup_e1000 read_reg mm rd rb td s0 = Some s /\ initialised rd rb td mm s0 s.
Proof.
  intros Hf. unfold setup_e1000. cbv zeta. destruct (reset_ok mm s0) as [HpR HsR].
  generalize dependent (e1000_reset read_reg mm s0). intros sR HpR HsR.
  pose proof Hf as [Hrd Hrb Htd Hdb Hdt Hbt].
  destruct (rx_setup_ok rd rb (with_phys rd td rb sR)) as (s1 & -> & Hp1 & Ha1 & Hs1 & Ht1 & Hb1); [lia..|]. cbn [mbind option_bind].
  assert (Hpp : pages (map_memory td tx_descs 4096 s1) = pages (map_memory td tx_descs 4096 (map_memory rb rx_buffers (128 * 2048)
    (map_memory rd rx_descs 4096 (map_memory mm mmio_base_virt (128 * 1024) s0))))).
  { apply map_memory_pages. rewrite Hp1. by do 2 apply map_memory_pages. }
  pose proof (mapped_pages rd rb td mm s0 _ Hf ltac:(intros k; by rewrite Hpp)) as HB.
  destruct (tx_setup_ok td s1 (mp_tdesc _ _ _ _ HB)) as (s2 & -> & Hp2 & Hr2 & Hs2 & Ht2 & Hb2). cbn [mbind option_bind].
  eexists; split; [done|]. cbn [e1000_read snd]. constructor.
  - eapply (mapped_pages rd rb td mm s0); [exact Hf|]. intros k. cbn [pages with_regs e1000_write]. by rewrite Hp2, Hpp.
  - by rewrite <- Hpp, <- Hp2.
  - intros i Hi. cbn [ram with_regs e1000_write]. destruct (Ha1 i Hi) as [<- <-].
    split; apply ram_get_ext; intros x Hx; apply Hr2; lia.
  - unfold same_driver in *. cbn [rx_cur tx_cur tx_ready tx_buffers_phys with_regs e1000_write with_phys] in *. intuition congruence.
  - cbn [regs with_regs e1000_write reg_value]. by rewrite Ht2.
  - cbn [regs with_regs e1000_write reg_value]. by rewrite Hb2.
Qed.
End init.

(** ** Reception

    The card's side of the ring (Intel 8254x manual, receive descriptors): the
    packet goes to the buffer the descriptor names, its length and the
    descriptor-done and end-of-packet bits go into the descriptor. *)
Definition card_store (rd i : Z) (p : list Z) (r : Z -> Z) : Z -> Z :=
  let r1 := ram_put (de32 (ram_get (rd + 16 * i) 4 r)) p r in
  let r2 := ram_put (rd + 16 * i + 8) (le16 (Z.of_nat (length p))) r1 in
  ram_put (rd + 16 * i + 12) [3] r2.
Fixpoint card_stores (rd i : Z) (ps : list (list Z)) (r : Z -> Z) : Z -> Z :=
  match ps with [] => r | p :: ps => card_stores rd (i + 1) ps (card_store rd i p r) end.

(** A filled slot: its packet in the buffer, its length and its status. *)
Definition filled (rd rb : Z) (r : Z -> Z) (i : Z) (p : list Z) : Prop :=
  ram_get (rb + 2048 * i) (length p) r = p /\
  ram_get (rd + 16 * i + 8) 2 r = le16 (Z.of_nat (length p)) /\ ram_get (rd + 16 * i + 12) 1 r = [3].

Section reception.
Variables (rd rb : Z).
Hypothesis rd_range : 0 <= rd /\ rd + 4096 <= 2 ^ 32.
Hypothesis rb_range : 0 <= rb /\ rb + 262144 <= 2 ^ 32.
Hypothesis apart : rd + 4096 <= rb \/ rb + 262144 <= rd.

Lemma armed_ext r r' lo lo' :
  armed rd rb r lo -> 0 <= lo <= lo' -> (forall x, rd + 16 * lo' <= x < rd + 2048 -> r' x = r x) -> armed rd rb r' lo'.
Proof.
  intros Ha Hl H i Hi. destruct (Ha i ltac:(lia)) as [<- <-]. split; apply ram_get_ext; intros x Hx; apply H; lia.
Qed.

Lemma card_store_ok r i p :
  armed rd rb r i -> 0 <= i < 128 -> Z.of_nat (length p) <= 2048 ->
  let r' := card_store rd i p r in
  filled rd rb r' i p /\ armed rd rb r' (i + 1) /\
  forall x, ~ (rd + 16 * i <= x < rd + 16 * (i + 1)) -> ~ (rb + 2048 * i <= x < rb + 2048 * (i + 1)) -> r' x = r x.
Proof.
  intros Ha Hi Hp. cbv zeta. unfold card_store. destruct (Ha i ltac:(lia)) as [-> _].
  replace (de32 (le32 (rb + 2048 * i))) with (rb + 2048 * i) by (rewrite <- (app_nil_r (le32 _)), de32_le32; lia).
  set (r1 := ram_put (rb + 2048 * i) p r). set (r2 := ram_put (rd + 16 * i + 8) _ r1).
  assert (Ho : forall x, ~ (rd + 16 * i <= x < rd + 16 * (i + 1)) -> ~ (rb + 2048 * i <= x < rb + 2048 * (i + 1)) ->
    ram_put (rd + 16 * i + 12) [3] r2 x = r x).
  { intros x H1 H2. unfold r2, r1. rewrite !ram_put_other; [done|lia|cbn; lia|cbn; lia]. }
  split_and!; [|apply armed_ext with (r := r) (lo := i); [done|lia|intros x Hx; apply Ho; lia]|exact Ho].
  unfold filled. split_and!.
  - unfold r2. do 2 rewrite ram_get_put_other by (cbn; lia). unfold r1. apply ram_put_get_same.
  - rewrite ram_get_put_other by (cbn; lia). exact (ram_put_get_same (rd + 16 * i + 8) (le16 (Z.of_nat (length p))) r1).
  - exact (ram_put_get_same (rd + 16 * i + 12) [3] r2).
Qed.

Lemma filled_ext r r' i p :
  filled rd rb r i p -> 0 <= i < 128 -> Z.of_nat (length p) <= 2048 ->
  (forall x, rd + 16 * i <= x < rd + 16 * (i + 1) \/ rb + 2048 * i <= x < rb + 2048 * (i + 1) -> r' x = r x) -> filled rd rb r' i p.
Proof.
  intros (H1 & H2 & H3) Hi Hp H. unfold filled. rewrite <- H1 at 2. rewrite <- H2, <- H3.
  split_and!; apply ram_get_ext; intros x Hx; apply H; lia.
Qed.

Lemma card_stores_ok ps : forall r i,
  armed rd rb r i -> 0 <= i -> i + Z.of_nat (length ps) <= 128 -> Forall (fun p => Z.of_nat (length p) <= 2048) ps ->
  let r' := card_stores rd i ps r in let n := Z.of_nat (length ps) in
  (forall (j : nat) p, ps !! j = Some p -> filled rd rb r' (i + Z.of_nat j) p) /\ armed rd rb r' (i + n) /\
  forall x, ~ (rd + 16 * i <= x < rd + 16 * (i + n)) -> ~ (rb + 2048 * i <= x < rb + 2048 * (i + n)) -> r' x = r x.
Proof.
  induction ps as [|p ps IH]; intros r i Ha Hi Hn Hps; cbn [card_stores length]; cbv zeta in *.
  - split_and!; [done|by rewrite Z.add_0_r|done].
  - cbn [length] in Hn. apply Forall_cons in Hps as [Hp Hps].
    destruct (card_store_ok r i p Ha ltac:(lia) Hp) as (Hf & Ha' & Ho). cbv zeta in *.
    destruct (IH (card_store rd i p r) (i + 1) Ha' ltac:(lia) ltac:(lia) Hps) as (Hfs & Has & Hos).
    replace (i + Z.of_nat (S (length ps))) with (i + 1 + Z.of_nat (length ps)) by lia. split_and!; [|done|].
    + intros [|j] q Hq; cbn in Hq.
      * injection Hq as <-. rewrite Z.add_0_r. apply (filled_ext _ _ i p Hf); [lia|done|]. intros x Hx. apply Hos; lia.
      * replace (i + Z.of_nat (S j)) with (i + 1 + Z.of_nat j) by lia. by apply Hfs.
    + intros x H1 H2. rewrite Hos by lia. apply Ho; lia.
Qed.
End reception.

Definition sample_e1000 : e1000 := E1000 ∅ (fun _ => 0) [] [] 0 0 0 0 0 false 0.

Lemma sample_frames : frames_ok 0x100000 0x200000 0x101000.
Proof. split; first [lia | split; [done|lia]]. Qed.

(** ** Transmission *)

(** What the card fetches for descriptor [i]. *)
Definition card_fetch (td i : Z) (r : Z -> Z) : list Z :=
  ram_get (de32 (ram_get (td + 16 * i) 4 r)) (Z.to_nat (de16 (ram_get (td + 16 * i + 8) 2 r))) r.

Section tx.
Variable card : list mmio -> nat -> (Z -> Z) -> Z -> Z.
Variables (td tb : Z).
Variables (fuel polls : nat).
Hypothesis td_range : 0 <= td /\ td + 4096 <= 2 ^ 32.
Hypothesis tb_range : tb mod 4096 = 0 /\ 0 <= tb /\ tb + 262144 <= 2 ^ 32.
Hypothesis tb_apart : td + 4096 <= tb \/ tb + 262144 <= td.
(** By poll [polls] the card has set the done bit of the descriptor before the tail. *)
Hypothesis card_done : forall l r cur,
  0 <= cur < 128 -> reg_value E1000_TDT l = (cur + 1) mod 128 -> Z.land (card l polls r (td + 16 * cur + 12)) 0x01 <> 0.
Hypothesis enough : (polls < fuel)%nat.

(** Packets sent one after the other, with what the card fetches at each write of the tail register. *)
Fixpoint send_all (datas : list (list Z)) (s : e1000) : option (list (list Z) * e1000) :=
  match datas with
  | [] => Some ([], s)
  | d :: datas =>
      '(cur, s1) ← tx_start tb d s; s2 ← e1000_send_packet card fuel tb d s;
      '(ws, s3) ← send_all datas s2; Some (card_fetch td cur (ram s1) :: ws, s3)
  end.

(** Before the first packet the buffers are not mapped; afterwards their first 64 are. *)
Record tx_inv (n : Z) (s : e1000) : Prop := {
  ti_cur : tx_cur s = n;
  ti_desc : forall k, 0 <= k < 4096 -> translate s (tx_descs + k) = Some (td + k);
  ti_buf : tx_ready s = true -> tx_buffers_phys s = tb /\ forall k, 0 <= k < 131072 -> translate s (tx_buffers + k) = Some (tb + k);
  ti_free : forall p, 0xD0080 <= p < 0xD00A0 -> pages s !! p = None
}.

(** After the mapping step. *)
Definition tx_mapped (s : e1000) : e1000 :=
  if tx_ready s then s else map_memory tb tx_buffers (128 * 1024) (with_tx tb s).

Lemma tx_mapped_ok n s : tx_inv n s -> tx_inv n (tx_mapped s) /\ tx_ready (tx_mapped s) = true.
Proof.
  intros Hi. unfold tx_mapped. destruct (tx_ready s) eqn:E; [done|]. destruct Hi as [Hc Hd _ Hfr]. split; [|done].
  assert (Hp : forall k, pages (map_memory tb tx_buffers (128 * 1024) (with_tx tb s)) !! k =
    if decide (0xD0060 <= k < 0xD0080) then Some (tb / 4096 + (k - 0xD0060)) else pages s !! k).
  { intros k. by rewrite map_memory_lookup. }
  constructor; [done| | |].
  - intros k Hk. specialize (Hd k Hk). unfold translate in *. rewrite Hp, decide_False; [done|]. unfold tx_descs. pow2_lia.
  - intros _. split; [done|]. intros k Hk. unfold tx_buffers.
    rewrite (translate_region _ 0xD0060000 (tb / 4096) 32); [f_equal; pow2_lia|done| |lia].
    intros q Hq. change (0xD0060000 / 4096) with 0xD0060 in *. rewrite Hp. by rewrite decide_True by lia.
  - intros p Hpp. rewrite Hp, decide_False by lia. by apply Hfr.
Qed.

Lemma tx_inv_ram n r s : tx_inv n s -> tx_inv n (with_ram r s).
Proof. by intros []. Qed.

Lemma tdesc_put n s off va bs :
  tx_inv n s -> va = tx_descs + off -> 0 <= off -> off + Z.of_nat (length bs) <= 4096 ->
  exists r, vput va bs s = Some (with_ram r s) /\ forall x, r x = ram_put (td + off) bs (ram s) x.
Proof.
  intros Hi -> Ho Hl. apply vput_ok. intros k Hk. rewrite <- !Z.add_assoc. apply (ti_desc _ _ Hi). lia.
Qed.

(** Descriptor [k] names a buffer of its own with the bytes [d]. *)
Record sent_slot (r : Z -> Z) (k : Z) (d : list Z) : Prop := {
  ss_addr : ram_get (td + 16 * k) 4 r = le32 (tb + k * 2048);
  ss_len : ram_get (td + 16 * k + 8) 2 r = le16 (Z.of_nat (length d));
  ss_data : ram_get (tb + k * 2048) (length d) r = d
}.

Lemma sent_slot_fetch r k d : 0 <= k < 64 -> Z.of_nat (length d) <= 2048 -> sent_slot r k d -> card_fetch td k r = d.
Proof.
  intros Hk Hd [Ea El Ed]. unfold card_fetch. rewrite Ea, El, de16_le16, Nat2Z.id by lia.
  by rewrite <- (app_nil_r (le32 _)), de32_le32 by lia.
Qed.

Lemma sent_slot_ext r r' k d : sent_slot r k d ->
  (forall x, td + 16 * k <= x < td + 16 * k + 12 \/ tb + k * 2048 <= x < tb + k * 2048 + Z.of_nat (length d) -> r' x = r x) -> sent_slot r' k d.
Proof.
  intros [Ea El Ed] H. constructor; [rewrite <- Ea|rewrite <- El|rewrite <- Ed at 2]; apply ram_get_ext; intros x Hx; apply H; lia.
Qed.

(** What the four descriptor stores leave. *)
Lemma slot_filled n d r0 r1 r2 r3 r4 r5 :
  0 <= n < 64 -> 1 <= Z.of_nat (length d) <= 2048 -> (forall x, r1 x = ram_put (tb + n * 2048) d r0 x) ->
  (forall x, r2 x = ram_put (td + 16 * n) (le64 (u32 (tb + n * 2048))) r1 x) ->
  (forall x, r3 x = ram_put (td + (16 * n + 8)) (le16 (Z.of_nat (length d))) r2 x) ->
  (forall x, r4 x = ram_put (td + (16 * n + 11)) [Z.lor (Z.shiftl 1 0) (Z.shiftl 1 1)] r3 x) ->
  (forall x, r5 x = ram_put (td + (16 * n + 12)) [0] r4 x) ->
  sent_slot r5 n d /\
  forall x, ~ (td + 16 * n <= x < td + 16 * (n + 1)) -> ~ (tb + n * 2048 <= x < tb + (n + 1) * 2048) -> r5 x = r0 x.
Proof.
  intros Hn Hd H1 H2 H3 H4 H5.
  assert (Hs : forall x, ~ (td + 16 * n <= x < td + 16 * (n + 1)) -> r5 x = r1 x).
  { intros x Hx. rewrite H5, ram_put_other by (cbn; lia). rewrite H4, ram_put_other by (cbn; lia).
    rewrite H3, ram_put_other by (cbn; lia). rewrite H2, ram_put_other by (cbn; lia). done. }
  split; [constructor|].
  - rewrite (ram_get_put _ _ _ _ _ _ H5), (ram_get_put _ _ _ _ _ _ H4), (ram_get_put _ _ _ _ _ _ H3) by (cbn; lia).
    rewrite <- (u32_small (tb + n * 2048)) by lia. exact (ram_get_put_prefix (td + 16 * n) (le32 _) (le32 0) _ _ H2).
  - rewrite <- Z.add_assoc. rewrite (ram_get_put _ _ _ _ _ _ H5), (ram_get_put _ _ _ _ _ _ H4) by (cbn; lia).
    exact (ram_get_put_eq (td + (16 * n + 8)) (le16 _) _ _ H3).
  - rewrite <- (ram_get_put_eq _ _ _ _ H1) at 2. apply ram_get_ext. intros x Hx. apply Hs. lia.
  - intros x Hx1 Hx2. rewrite Hs by done. by rewrite H1, ram_put_other by lia.
Qed.

Lemma tx_start_ok n s d :
  tx_inv n s -> 0 <= n < 64 -> 1 <= Z.of_nat (length d) <= 2048 ->
  exists s1, tx_start tb d s = Some (n, s1) /\ tx_inv (n + 1) s1 /\ sent_slot (ram s1) n d /\
    reg_value E1000_TDT (regs s1) = (n + 1) mod 128 /\ pages s1 = pages (tx_mapped s) /\ rx_cur s1 = rx_cur s /\
    reg_value E1000_RDT (regs s1) = reg_value E1000_RDT (regs s) /\
    forall x, ~ (td + 16 * n <= x < td + 16 * (n + 1)) -> ~ (tb + n * 2048 <= x < tb + (n + 1) * 2048) -> ram s1 x = ram s x.
Proof.
  intros Hi Hn Hd. destruct (tx_mapped_ok n s Hi) as [Hm Hrdy]. unfold tx_start. fold (tx_mapped s).
  assert (Hsame : ram (tx_mapped s) = ram s /\ rx_cur (tx_mapped s) = rx_cur s /\ regs (tx_mapped s) = regs s) by (unfold tx_mapped; by destruct (tx_ready s)).
  destruct Hsame as (Hram & Hrx & Hregs).
  destruct (ti_buf _ _ Hm Hrdy) as [Hph Hbuf]. set (s0 := tx_mapped s) in *. rewrite (ti_cur _ _ Hm).
  destruct (vput_ok d (tx_buffers + n * 2048) (tb + n * 2048) s0) as (r1 & E1 & H1).
  { intros k Hk. rewrite <- !Z.add_assoc. apply Hbuf. lia. }
  rewrite E1. cbn [mbind option_bind]. cbn [tx_cur with_ram tx_buffers_phys]. rewrite (ti_cur _ _ Hm), Hph. unfold desc_addr.
  pose proof (tx_inv_ram n r1 _ Hm) as I1.
  destruct (tdesc_put n _ (16 * n) (tx_descs + 16 * n) (le64 (u32 (tb + n * 2048))) I1) as (r2 & -> & H2); [lia|lia|cbn; lia|].
  pose proof (tx_inv_ram n r2 _ I1) as I2. cbn [mbind option_bind]. rewrite (ti_cur _ _ I2).
  destruct (tdesc_put n _ (16 * n + 8) (tx_descs + 16 * n + 8) (le16 (Z.of_nat (length d))) I2) as (r3 & -> & H3); [lia|lia|cbn; lia|].
  pose proof (tx_inv_ram n r3 _ I2) as I3. cbn [mbind option_bind]. rewrite (ti_cur _ _ I3).
  destruct (tdesc_put n _ (16 * n + 11) (tx_descs + 16 * n + 11) [Z.lor (Z.shiftl 1 0) (Z.shiftl 1 1)] I3) as (r4 & -> & H4); [lia|lia|cbn; lia|].
  pose proof (tx_inv_ram n r4 _ I3) as I4. cbn [mbind option_bind]. rewrite (ti_cur _ _ I4).
  destruct (tdesc_put n _ (16 * n + 12) (tx_descs + 16 * n + 12) [0] I4) as (r5 & -> & H5); [lia|lia|cbn; lia|].
  pose proof (tx_inv_ram n r5 _ I4) as I5. cbn [mbind option_bind]. rewrite (ti_cur _ _ I5).
  cbn [ram with_ram] in H1, H2, H3, H4, H5. destruct (slot_filled n d (ram s0) r1 r2 r3 r4 r5 Hn Hd H1 H2 H3 H4 H5) as [Hslot Hframe].
  eexists; split; [done|]. assert (Hmod : (n + 1) mod E1000_NUM_TX_DESC = n + 1) by (apply Z.mod_small; unfold E1000_NUM_TX_DESC; lia).
  cbn [ram pages rx_cur regs with_ram e1000_write with_regs with_cur tx_cur reg_value] in *. split_and!.
  - destruct I5 as [_ J2 J3 J4]. by constructor.
  - exact Hslot.
  - rewrite Hmod, u32_small by lia. by rewrite Z.mod_small by lia.
  - done.
  - done.
  - by rewrite Hregs.
  - intros x Hx1 Hx2. rewrite Hframe by done. by rewrite Hram.
Qed.

(** From slot 64 on the buffer lies where nothing is mapped. *)
Lemma tx_start_fault n s d : tx_inv n s -> 64 <= n < 128 -> d <> [] -> tx_start tb d s = None.
Proof.
  intros Hi Hn Hd. destruct (tx_mapped_ok n s Hi) as [Hm _]. unfold tx_start. fold (tx_mapped s). rewrite (ti_cur _ _ Hm).
  destruct d as [|b d]; [done|]. cbn [vput]. unfold translate. rewrite (ti_free _ _ Hm); [done|]. unfold tx_buffers. pow2_lia.
Qed.

Lemma tx_wait_ok n cur : 0 <= cur < 128 -> forall fu k s,
  (k <= polls < k + fu)%nat -> tx_inv n s -> reg_value E1000_TDT (regs s) = (cur + 1) mod 128 ->
  exists r, tx_wait card fu k cur s = Some (with_ram r s).
Proof.
  intros Hc. induction fu as [|fu IH]; intros k s Hk Hi Hr; [lia|]. cbn [tx_wait]. cbv zeta.
  set (s1 := with_ram (card (regs s) k (ram s)) s).
  rewrite (vget_ok s1 (desc_addr tx_descs cur + 12) (td + 16 * cur + 12) 1).
  - change (ram_get (td + 16 * cur + 12) 1 (ram s1)) with [card (regs s) k (ram s) (td + 16 * cur + 12)].
    cbn [mbind option_bind nth]. destruct (Z.eqb_spec (Z.land (card (regs s) k (ram s) (td + 16 * cur + 12)) 0x01) 0) as [H0|_]; [|by eexists].
    destruct (decide (k = polls)) as [->|Hne]; [by destruct (card_done (regs s) (ram s) cur Hc Hr)|].
    destruct (IH (S k) s1 ltac:(lia) (tx_inv_ram _ _ _ Hi) Hr) as (r & ->). by exists r.
  - intros j Hj. unfold desc_addr. rewrite <- !Z.add_assoc. apply (ti_desc _ _ Hi). lia.
Qed.

Lemma send_all_ok datas : forall n s,
  tx_inv n s -> 0 <= n -> n + Z.of_nat (length datas) <= 64 -> Forall (fun d => 1 <= Z.of_nat (length d) <= 2048) datas ->
  exists s', tx_inv (n + Z.of_nat (length datas)) s' /\
    forall rest, send_all (datas ++ rest) s = '(ws, s'') ← send_all rest s'; Some (datas ++ ws, s'').
Proof.
  induction datas as [|d datas IH]; intros n s Hi Hn Hl Hd; cbn [length app send_all] in *.
  - exists s. rewrite Z.add_0_r. split; [done|]. intros rest. by destruct (send_all rest s) as [[]|].
  - apply Forall_cons in Hd as [Hd Hds]. destruct (tx_start_ok n s d Hi ltac:(lia) Hd) as (s1 & E1 & I1 & Hslot & Hr & _). pose proof (sent_slot_fetch (ram s1) n d ltac:(lia) (proj2 Hd) Hslot) as Hw.
    destruct (tx_wait_ok (n + 1) n ltac:(lia) fuel 0 s1 ltac:(lia) I1 Hr) as (r & E2).
    destruct (IH (n + 1) (with_ram r s1) (tx_inv_ram _ _ _ I1) ltac:(lia) ltac:(lia) Hds) as (s' & I' & E').
    exists s'. split; [by replace (n + Z.of_nat (S (length datas))) with (n + 1 + Z.of_nat (length datas)) by lia|].
    intros rest. rewrite E1. cbn [mbind option_bind]. unfold e1000_send_packet. rewrite E1. cbn [mbind option_bind]. rewrite E2.
    cbn [mbind option_bind]. rewrite E', Hw. by destruct (send_all rest s') as [[]|].
Qed.
End tx.

(** What initialisation gives the transmit side. *)
Lemma initialised_tx_inv rd rb td mm tb s0 s :
  initialised rd rb td mm s0 s -> tx_cur s0 = 0 -> tx_ready s0 = false -> (forall p, 0xD0080 <= p < 0xD00A0 -> pages s0 !! p = None) ->
  tx_inv td tb 0 s.
Proof.
  intros [Hm Hpg _ (_ & Hc1 & Hr1 & _) _ _] Hc Hr Hfr. constructor; [by rewrite Hc1|exact (mp_tdesc _ _ _ _ Hm)|by rewrite Hr1, Hr|].
  intros p Hp. rewrite Hpg, !map_memory_lookup.
  change (tx_descs / 4096) with 0xD0040. change (rx_buffers / 4096) with 0xD0030. change (rx_descs / 4096) with 0xD0020.
  change (mmio_base_virt / 4096) with 0xD0010. change ((128 * 2048 + 4095) / 4096) with 64. change ((128 * 1024 + 4095) / 4096) with 32.
  change ((4096 + 4095) / 4096) with 1. do 4 rewrite decide_False by lia. by apply Hfr.
Qed.

(** Transmission.  After initialisation the first 64 packets (of 1 to 2048
    bytes) are sent one after the other and the card fetches exactly their
    bytes.  The ring has 128 slots of 2048 bytes but [e1000_send_packet] maps
    only 128 KB of buffers, so the 65th packet is copied where nothing is
    mapped: the send faults. *)
Theorem e1000_transmits_64 read_reg card mm rd rb td tb s0 fuel polls :
  frames_ok rd rb td -> tx_cur s0 = 0 -> tx_ready s0 = false -> (forall p, 0xD0080 <= p < 0xD00A0 -> pages s0 !! p = None) ->
  tb mod 4096 = 0 -> 0 <= tb -> tb + 262144 <= 2 ^ 32 -> td + 4096 <= tb \/ tb + 262144 <= td ->
  (forall l r cur, 0 <= cur < 128 -> reg_value E1000_TDT l = (cur + 1) mod 128 ->
     Z.land (card l polls r (td + 16 * cur + 12)) 0x01 <> 0) -> (polls < fuel)%nat ->
  exists s, setup_e1000 read_reg mm rd rb td s0 = Some s /\
    forall datas, Forall (fun d => 1 <= Z.of_nat (length d) <= 2048) datas ->
      (Z.of_nat (length datas) <= 64 -> exists s', send_all card td tb fuel datas s = Some (datas, s')) /\
      (Z.of_nat (length datas) = 64 -> forall d, d <> [] -> send_all card td tb fuel (datas ++ [d]) s = None).
Proof.
  intros Hf Hc Hr Hfr Htb Htb0 Htb1 Hap Hcard Hfu. destruct (init_ok read_reg mm rd rb td s0 Hf) as (s & E & Hinit).
  pose proof (initialised_tx_inv _ _ _ _ tb _ _ Hinit Hc Hr Hfr) as Hi. exists s. split; [done|]. intros datas Hd. pose proof (fk_td _ _ _ Hf) as Htd.
  assert (H : Z.of_nat (length datas) <= 64 -> exists s', tx_inv td tb (Z.of_nat (length datas)) s' /\
    forall rest, send_all card td tb fuel (datas ++ rest) s = '(ws, s'') ← send_all card td tb fuel rest s'; Some (datas ++ ws, s'')).
  { intros Hl. apply (send_all_ok card td tb fuel polls ltac:(lia) ltac:(lia) Hap Hcard Hfu datas 0 s Hi ltac:(lia) ltac:(lia) Hd). }
  split.
  - intros Hl. destruct (H Hl) as (s' & _ & E'). exists s'. rewrite <- (app_nil_r datas) at 1. rewrite E'. cbn. by rewrite app_nil_r.
  - intros Hl d Hdne. destruct (H ltac:(lia)) as (s' & I' & E'). rewrite E'. cbn [send_all].
    by rewrite (tx_start_fault td tb fuel polls ltac:(lia) Hfu (Z.of_nat (length datas)) s' d I' ltac:(lia) Hdne).
Qed.

Lemma e1000_transmits_64_witness : exists s, setup_e1000 (fun _ _ => 0) 0xFEBC0000 0x100000 0x200000 0x101000 sample_e1000 = Some s /\
  (exists s', send_all (fun _ _ _ _ => 1) 0x101000 0x300000 1 [[1; 2; 3]] s = Some ([[1; 2; 3]], s')) /\
  send_all (fun _ _ _ _ => 1) 0x101000 0x300000 1 (replicate 64 [7] ++ [[8]]) s = None.
Proof.
  destruct (e1000_transmits_64 (fun _ _ => 0) (fun _ _ _ _ => 1) 0xFEBC0000 0x100000 0x200000 0x101000 0x300000 sample_e1000 1 0
    sample_frames eq_refl eq_refl ltac:(done) eq_refl ltac:(lia) ltac:(lia) ltac:(lia) ltac:(intros; done) ltac:(lia)) as (s & E & H).
  exists s. split_and!; [exact E| |].
  - apply (H [[1; 2; 3]]); [repeat constructor; cbn; lia|cbn; lia].
  - apply (H (replicate 64 [7])); [|reflexivity|discriminate].
    apply Forall_replicate. cbn. lia.
Defined.
