(* ===== verification/E1000Net.v ===== *)
(** * E1000Net: the e1000 driver under the network layer

    The receive handler with the answers that the network layer sends through the
    same driver while a packet is handled: the transmit ring is filled from inside
    the receive loop. *)

From S2P Require Export E1000.

(** ** The frame keeps its length *)








Section serving.
Variable kmalloc_ok : Z -> bool.
Variable card : list mmio -> nat -> (Z -> Z) -> Z -> Z.
Variables (rd rb td tb : Z).
Variables (fuel polls : nat).
Hypothesis frames : frames_ok rd rb td.
Hypothesis tb_range : tb mod 4096 = 0 /\ 0 <= tb /\ tb + 262144 <= 2 ^ 32.
Hypothesis tb_td : td + 4096 <= tb \/ tb + 262144 <= td.
Hypothesis tb_rd : rd + 4096 <= tb \/ tb + 262144 <= rd.
Hypothesis tb_rb : rb + 262144 <= tb \/ tb + 262144 <= rb.
Hypothesis card_done : forall l r cur,
  0 <= cur < 128 -> reg_value E1000_TDT l = (cur + 1) mod 128 -> Z.land (card l polls r (td + 16 * cur + 12)) 0x01 <> 0.
(** While the driver polls, the card writes transmit status bytes only. *)
Hypothesis card_frame : forall l k r x, (forall c, 0 <= c < 128 -> x <> td + 16 * c + 12) -> card l k r x = r x.
Hypothesis enough : (polls < fuel)%nat.










(** ** Handling one packet *)







(** ** The receive loop *)









(** ** The card's stores *)





End serving.

(** ** One receive interrupt *)




