(* ===== verification/Rtl8139.v ===== *)
(** * Rtl8139: the RTL8139 network card (kernel/drivers/rtl8139.c, include/rtl8139.h)

    The ring the card stores packets in, the four transmit slots, and the
    register accesses as a history.  What the card does with its ring is
    described next to the driver, and the driver follows it packet by packet,
    but for the one place where its wrap-around differs.  The packets handed to
    net_handle_packet are kept as a list: what the network layer (NetIn) does with
    them, its answers included, is not run here.  The messages are left out. *)

From S2P Require Export Ports Disk Net.

Definition RTL8139_MAC05 : Z := 0x00.
Definition RTL8139_TSD0 : Z := 0x10.
Definition RTL8139_TSAD0 : Z := 0x20.
Definition RTL8139_RBSTART : Z := 0x30.
Definition RTL8139_CR : Z := 0x37.
Definition RTL8139_CAPR : Z := 0x38.
Definition RTL8139_IMR : Z := 0x3C.
Definition RTL8139_ISR : Z := 0x3E.
Definition RTL8139_RCR : Z := 0x44.
Definition RTL8139_CONFIG1 : Z := 0x52.

(** The static variables; the memory mapped at [rx_buffer_virt] and
    [tx_buffer_virt]; the packets handed to net_handle_packet with the length
    given. *)
Record rtl := Rtl {
  rtl_io_base : Z; rx_buffer_phys : Z; tx_buffer_phys : Z; current_rx_ptr : Z; tx_cur : Z; mac_address : list Z;
  rx_mem : list Z; tx_mem : list Z; rtl_trace : list event; handed : list (list Z * Z)
}.
Definition rx_buffer_virt : Z := 0xD0000000.
Definition tx_buffer_virt : Z := 0xD0004000.

Definition with_trace (t : list event) (s : rtl) : rtl :=
  Rtl (rtl_io_base s) (rx_buffer_phys s) (tx_buffer_phys s) (current_rx_ptr s) (tx_cur s) (mac_address s) (rx_mem s) (tx_mem s) t (handed s).
Definition with_rx (p : Z) (h : list (list Z * Z)) (s : rtl) : rtl :=
  Rtl (rtl_io_base s) (rx_buffer_phys s) (tx_buffer_phys s) p (tx_cur s) (mac_address s) (rx_mem s) (tx_mem s) (rtl_trace s) h.
Definition with_tx (n : Z) (m : list Z) (s : rtl) : rtl :=
  Rtl (rtl_io_base s) (rx_buffer_phys s) (tx_buffer_phys s) (current_rx_ptr s) n (mac_address s) (rx_mem s) m (rtl_trace s) (handed s).
Definition with_rx_mem (m : list Z) (s : rtl) : rtl :=
  Rtl (rtl_io_base s) (rx_buffer_phys s) (tx_buffer_phys s) (current_rx_ptr s) (tx_cur s) (mac_address s) m (tx_mem s) (rtl_trace s) (handed s).

Section rtl8139.
Variable dev : machine.

(** A port access of the driver. *)
Definition access {A} (c : io A) (s : rtl) : A * rtl := let '(x, t) := c (rtl_trace s) in (x, with_trace t s).

Definition reg (s : rtl) (r : Z) : Z := rtl_io_base s + r.

(** [(ptr + length + 4 + 3) & ~3], and back into the ring. *)
Definition next_rx_ptr (ptr packet_length : Z) : Z :=
  let p := Z.land (u32 (ptr + packet_length + 4 + 3)) (u32 (Z.lnot 3)) in if 8192 <? p then p - 8192 else p.

Definition receive (s : rtl) : option rtl :=
  let off := Z.to_nat (current_rx_ptr s) in
  lo ← rx_mem s !! (off + 2)%nat; hi ← rx_mem s !! (off + 3)%nat;
  let packet_length := lo + 2 ^ 8 * hi in
  let real_length := packet_length - 4 in
  let data := slice (off + 4) (Z.to_nat real_length) (rx_mem s) in
  let s := with_rx (next_rx_ptr (current_rx_ptr s) packet_length) (handed s ++ [(data, real_length)]) s in
  Some (snd (access (outw (reg s RTL8139_CAPR) (u32 (current_rx_ptr s - 16))) s)).

Definition rtl8139_handler (s : rtl) : option rtl :=
  let '(status, s) := access (inw dev (reg s RTL8139_ISR)) s in
  let '(_, s) := access (outw (reg s RTL8139_ISR) status) s in
  if negb (Z.land status 0x01 =? 0) then receive s else Some s.

(** [memcpy] behind the two frames of the buffer has no result. *)
Definition rtl8139_send_packet (data : list Z) (s : rtl) : option rtl :=
  let len := Z.of_nat (length data) in
  if 1792 <? len then Some s else
  let off := tx_cur s * 2048 in
  if Z.of_nat (length (tx_mem s)) <? off + len then None else
  let s := with_tx (tx_cur s) (splice (Z.to_nat off) data (tx_mem s)) s in
  let '(_, s) := access (outl (reg s (RTL8139_TSAD0 + tx_cur s * 4)) (u32 (tx_buffer_phys s + off))) s in
  let '(_, s) := access (outl (reg s (RTL8139_TSD0 + tx_cur s * 4)) len) s in
  Some (with_tx ((tx_cur s + 1) mod 4) (tx_mem s) s).

(** ** Setting up the card *)

(** [while (inb(CR) & 0x10);] with at most [fuel] reads. *)
Fixpoint wait_reset (fuel : nat) (port : Z) : list event -> option (list event) := fun t =>
  match fuel with
  | O => None
  | S fuel => let '(v, t) := inb dev port t in if negb (Z.land v 0x10 =? 0) then wait_reset fuel port t else Some t
  end.

Fixpoint read_mac (n : nat) (i : Z) (s : rtl) : list Z * rtl :=
  match n with
  | O => ([], s)
  | S n => let '(v, s) := access (inb dev (reg s (RTL8139_MAC05 + i))) s in let '(l, s) := read_mac n (i + 1) s in (v :: l, s)
  end.

(** The interrupt line is unmasked. *)
Definition unmask_irq (irq : Z) (s : rtl) : rtl :=
  let '(port, bit) := if irq <? 8 then (0x21, irq) else (0xA1, irq - 8) in
  let '(mask, s) := access (inb dev port) s in
  snd (access (outb port (Z.land mask (Z.lnot (Z.shiftl 1 bit)))) s).

(** The frames for the rings and their mapped bytes. *)
Class RtlEnv (K : Type) := {
  alloc_contiguous_frames : Z -> K -> option (Z * K);
  paging_map_memory : Z -> Z -> Z -> K -> option (list Z * K);
  init_net : list Z -> K -> option K;
  net_register_driver : K -> option K;
  irq_install_handler : Z -> K -> option K
}.
Context {K : Type} `{!RtlEnv K}.

Definition init_rtl8139 (fuel : nat) (base_addr irq : Z) (s : rtl) (k : K) : option (rtl * K) :=
  let s := Rtl base_addr (rx_buffer_phys s) (tx_buffer_phys s) (current_rx_ptr s) (tx_cur s) (mac_address s) (rx_mem s) (tx_mem s) (rtl_trace s) (handed s) in
  let '(_, s) := access (outb (reg s RTL8139_CONFIG1) 0x00) s in
  let '(_, s) := access (outb (reg s RTL8139_CR) 0x10) s in
  t ← wait_reset fuel (reg s RTL8139_CR) (rtl_trace s);
  let s := with_trace t s in
  '(rx, k) ← alloc_contiguous_frames 3 k;
  '(rxm, k) ← paging_map_memory rx rx_buffer_virt (3 * 4096) k;
  '(tx, k) ← alloc_contiguous_frames 2 k;
  '(txm, k) ← paging_map_memory tx tx_buffer_virt (2 * 4096) k;
  let s := Rtl (rtl_io_base s) rx tx (current_rx_ptr s) (tx_cur s) (mac_address s) rxm txm (rtl_trace s) (handed s) in
  let '(_, s) := access (outl (reg s RTL8139_RBSTART) rx) s in
  let '(_, s) := access (outw (reg s RTL8139_IMR) 0x0005) s in
  let '(_, s) := access (outl (reg s RTL8139_RCR) (Z.lor 0xF (Z.shiftl 1 7))) s in
  let '(_, s) := access (outb (reg s RTL8139_CR) 0x0C) s in
  let '(mac, s) := read_mac 6 0 s in
  let s := Rtl (rtl_io_base s) (rx_buffer_phys s) (tx_buffer_phys s) (current_rx_ptr s) (tx_cur s) mac (rx_mem s) (tx_mem s) (rtl_trace s) (handed s) in
  k ← init_net mac k;
  k ← net_register_driver k;
  k ← irq_install_handler irq k;
  Some (unmask_irq irq s, k).

(** ** The card's ring *)

(** With the WRAP bit a packet is stored without a break, and the next one starts
    at the following multiple of 4 in a ring of 8192 bytes. *)
Definition record (p : list Z) (crc : list Z) : list Z := [1; 0] ++ le16 (Z.of_nat (length p) + 4) ++ p ++ crc.
Definition store_packet (w : Z) (p crc : list Z) (s : rtl) : rtl := with_rx_mem (splice (Z.to_nat w) (record p crc) (rx_mem s)) s.
Definition record_end (w : Z) (p : list Z) : Z := 4 * ((w + Z.of_nat (length p) + 8 + 3) / 4).
Definition card_next (w : Z) (p : list Z) : Z := let e := record_end w p in if 8192 <=? e then e - 8192 else e.

Definition packet_ok (p : list Z) : Prop := (length p <= 1514)%nat.

(** Packets and their checksums, one interrupt each. *)
Fixpoint arrivals (w : Z) (ps : list (list Z * list Z)) (s : rtl) : option rtl :=
  match ps with
  | [] => Some s
  | (p, crc) :: ps => s ← rtl8139_handler (store_packet w p crc s); arrivals (card_next w p) ps s
  end.

(** No packet ends exactly at the end of the ring. *)
Fixpoint no_exact_end (w : Z) (ps : list (list Z * list Z)) : Prop :=
  match ps with [] => True | (p, _) :: ps => record_end w p <> 8192 /\ no_exact_end (card_next w p) ps end.

Lemma align_down x : 0 <= x < 2 ^ 32 -> Z.land x (u32 (Z.lnot 3)) = 4 * (x / 4).
Proof.
  intros H. change (u32 (Z.lnot 3)) with (Z.ldiff (Z.ones 32) 3).
  replace (Z.land x (Z.ldiff (Z.ones 32) 3)) with (Z.ldiff x 3).
  - change 3 with (Z.ones 2). rewrite Z.ldiff_ones_r, Z.shiftl_mul_pow2, Z.shiftr_div_pow2 by lia. change (2 ^ 2) with 4. lia.
  - apply Z.bits_inj'. intros n Hn. rewrite Z.land_spec, !Z.ldiff_spec. destruct (Z.ltb_spec n 32).
    + rewrite (Z.ones_spec_low 32 n) by lia. done.
    + rewrite (Z.bits_above_log2 x n); [done|lia|]. destruct (decide (x = 0)) as [->|]; [cbn; lia|]. apply Z.log2_lt_pow2; [lia|].
      apply Z.lt_le_trans with (2 ^ 32); [lia|]. apply Z.pow_le_mono_r; lia.
Qed.

Lemma next_rx_ptr_ok w p : 0 <= w < 8192 -> packet_ok p -> record_end w p <> 8192 -> next_rx_ptr w (Z.of_nat (length p) + 4) = card_next w p.
Proof.
  unfold packet_ok. intros Hw Hp Hne. unfold next_rx_ptr, card_next, record_end in *. rewrite u32_small, align_down by lia.
  replace (w + (Z.of_nat (length p) + 4) + 4 + 3) with (w + Z.of_nat (length p) + 8 + 3) by lia. set (e := 4 * _) in *.
  destruct (Z.ltb_spec 8192 e), (Z.leb_spec 8192 e); lia.
Qed.

Lemma card_next_range w p : 0 <= w < 8192 -> packet_ok p -> 0 <= card_next w p < 8192.
Proof.
  unfold packet_ok, card_next. intros Hw Hp. assert (0 <= record_end w p < 16384) as He by (unfold record_end; Z.to_euclidean_division_equations; lia).
  destruct (Z.leb_spec 8192 (record_end w p)); lia.
Qed.

Lemma record_length p crc : length crc = 4%nat -> length (record p crc) = (length p + 8)%nat.
Proof. intros H. unfold record, le16. cbn [app length]. rewrite length_app, H. lia. Qed.

Lemma rtl_receive_ok w p crc s : 0 <= w < 8192 -> packet_ok p -> length crc = 4%nat -> Z.of_nat (length (rx_mem s)) = 12288 -> current_rx_ptr s = w ->
  exists s', receive (store_packet w p crc s) = Some s' /\ current_rx_ptr s' = next_rx_ptr w (Z.of_nat (length p) + 4) /\
    handed s' = handed s ++ [(p, Z.of_nat (length p))] /\ Z.of_nat (length (rx_mem s')) = 12288 /\ rtl_io_base s' = rtl_io_base s.
Proof.
  intros Hw Hp Hcrc Hm Hcur. unfold packet_ok in Hp. unfold receive. cbn [store_packet with_rx_mem current_rx_ptr rx_mem handed]. rewrite Hcur.
  pose proof (record_length p crc Hcrc) as Hrl. set (m := splice (Z.to_nat w) (record p crc) (rx_mem s)).
  assert (forall i, (i < length p + 8)%nat -> m !! (Z.to_nat w + i)%nat = record p crc !! i) as Hrec.
  { intros i Hi. unfold m. rewrite splice_lookup by (rewrite Hrl; lia). rewrite decide_True by (rewrite Hrl; lia). f_equal. lia. }
  assert (Z.of_nat (length m) = 12288) as Hml by (unfold m; rewrite splice_length; lia).
  rewrite (Hrec 2%nat), (Hrec 3%nat) by lia. cbn [record app le16 lookup list_lookup mbind option_bind].
  assert (u8 (Z.of_nat (length p) + 4) + 2 ^ 8 * u8 (Z.shiftr (Z.of_nat (length p) + 4) 8) = Z.of_nat (length p) + 4) as ->
    by (unfold u8; rewrite Z.shiftr_div_pow2 by lia; pow2_lia).
  eexists. split; [reflexivity|]. unfold access. cbn [outw with_trace with_rx current_rx_ptr handed rx_mem rtl_io_base snd].
  split; [done|]. split; [|split; [exact Hml|done]]. replace (Z.of_nat (length p) + 4 - 4) with (Z.of_nat (length p)) by lia.
  rewrite Nat2Z.id. do 3 f_equal. apply list_eq_lt; [rewrite slice_length by lia; done|].
  intros i Hi. rewrite slice_length in Hi by lia. rewrite slice_lookup by lia. rewrite <- Nat.add_assoc, Hrec by lia.
  change (record p crc) with ([1; 0] ++ le16 (Z.of_nat (length p) + 4) ++ p ++ crc). cbn [app le16 Nat.add]. cbn [lookup list_lookup]. apply lookup_app_l. lia.
Qed.

(** On a machine that reports every packet with the receive bit, all packets are handed to the network in their order, each
    with its length, as long as none ends exactly at the end of the ring. *)
Theorem rtl_receives (Hrok : forall t p, Z.testbit (read16 dev t p) 0 = true) ps : forall s,
  0 <= current_rx_ptr s < 8192 -> Z.of_nat (length (rx_mem s)) = 12288 ->
  Forall (fun pc => packet_ok pc.1 /\ length pc.2 = 4%nat) ps -> no_exact_end (current_rx_ptr s) ps ->
  exists s', arrivals (current_rx_ptr s) ps s = Some s' /\ handed s' = handed s ++ ((fun pc => (pc.1, Z.of_nat (length pc.1))) <$> ps).
Proof.
  induction ps as [|[p crc] ps IH]; intros s Hw Hm Hps Hne; cbn [arrivals fmap list_fmap].
  - exists s. by rewrite app_nil_r.
  - apply Forall_cons in Hps as [[Hp Hcrc] Hps]. destruct Hne as [Hne Hne']. cbn [fst snd] in *. unfold rtl8139_handler, access.
    assert (forall t q, Z.land (u16 (read16 dev t q)) 0x01 = 1) as Hbit.
    { intros t q. change 1 with (Z.ones 1) at 1. rewrite Z.land_ones by lia. unfold u16. specialize (Hrok t q). rewrite Z.bit0_odd, Zodd_mod in Hrok.
      apply Z.eqb_eq in Hrok. change (2 ^ 1) with 2. rewrite <- Hrok. change (2 ^ 16) with (2 * 32768).
      rewrite Z.rem_mul_r by lia. rewrite (Z.mul_comm 2), Z.mod_add by lia. apply Z.mod_mod. lia. }
    cbn [inw outw]. rewrite Hbit. cbn [Z.eqb Pos.eqb negb].
    set (s1 := with_trace _ (with_trace _ (store_packet (current_rx_ptr s) p crc s))).
    destruct (rtl_receive_ok (current_rx_ptr s) p crc (with_trace (rtl_trace s1) s) Hw Hp Hcrc Hm eq_refl) as (s2 & E & Hc2 & Hh2 & Hm2 & _).
    change (store_packet (current_rx_ptr s) p crc (with_trace (rtl_trace s1) s)) with s1 in E. rewrite E. cbn [mbind option_bind].
    rewrite next_rx_ptr_ok in Hc2 by done. destruct (IH s2) as (s' & E' & Hh'); rewrite ?Hc2; try done; [by apply card_next_range|].
    rewrite Hc2 in E'. exists s'. split; [exact E'|]. rewrite Hh', Hh2. cbn [with_trace handed]. by rewrite <- app_assoc.
Qed.

(** A packet that ends exactly at the end of the ring puts the driver behind it, at 8192, and the card at 0: from then on the
    driver reads where nothing is stored. *)
Theorem rtl_exact_end w p crc s : 0 <= w < 8192 -> packet_ok p -> length crc = 4%nat -> Z.of_nat (length (rx_mem s)) = 12288 -> current_rx_ptr s = w ->
  record_end w p = 8192 -> exists s', receive (store_packet w p crc s) = Some s' /\ current_rx_ptr s' = 8192 /\ card_next w p = 0.
Proof.
  intros Hw Hp Hcrc Hm Hcur He. destruct (rtl_receive_ok w p crc s Hw Hp Hcrc Hm Hcur) as (s' & E & Hc & _). exists s'. split; [exact E|].
  unfold packet_ok in Hp. split; [|unfold card_next; rewrite He; done]. rewrite Hc. unfold next_rx_ptr, record_end in *. rewrite u32_small, align_down by lia.
  replace (w + (Z.of_nat (length p) + 4) + 4 + 3) with (w + Z.of_nat (length p) + 8 + 3) by lia. by rewrite He.
Qed.

(** A frame of at most 1792 bytes is in its slot of the buffer, at the address given to the card with its length, and the
    frames of the three slots before it are untouched; a longer one is dropped. *)
Theorem rtl_sends data s : Z.of_nat (length (tx_mem s)) = 8192 -> 0 <= tx_cur s < 4 ->
  if 1792 <? Z.of_nat (length data) then rtl8139_send_packet data s = Some s else
  exists s', rtl8139_send_packet data s = Some s' /\ slice (Z.to_nat (2048 * tx_cur s)) (length data) (tx_mem s') = data /\
    (forall i, (i < length (tx_mem s))%nat -> (i < Z.to_nat (2048 * tx_cur s) \/ Z.to_nat (2048 * tx_cur s) + length data <= i)%nat -> tx_mem s' !! i = tx_mem s !! i) /\
    rtl_trace s' = Out32 (reg s (RTL8139_TSD0 + tx_cur s * 4)) (u32 (Z.of_nat (length data))) ::
      Out32 (reg s (RTL8139_TSAD0 + tx_cur s * 4)) (u32 (u32 (tx_buffer_phys s + 2048 * tx_cur s))) :: rtl_trace s /\
    tx_cur s' = (tx_cur s + 1) mod 4 /\ Z.of_nat (length (tx_mem s')) = 8192.
Proof.
  intros Hm Hc. unfold rtl8139_send_packet. destruct (Z.ltb_spec 1792 (Z.of_nat (length data))) as [|Hlen]; [done|].
  rewrite (proj2 (Z.ltb_ge _ _)) by lia. replace (tx_cur s * 2048) with (2048 * tx_cur s) by lia. eexists. split; [reflexivity|].
  unfold access. cbn [outl with_trace with_tx tx_mem tx_cur rtl_trace reg rtl_io_base tx_buffer_phys].
  split; [apply slice_splice_eq; lia|]. split; [|split; [done|split; [done|rewrite splice_length; lia]]].
  intros i Hi Ho. rewrite splice_lookup by lia. rewrite decide_False by lia. done.
Qed.
End rtl8139.
