(* ===== verification/Vfs.v ===== *)
(** * Vfs: the virtual file system (kernel/fs/vfs.c, include/vfs.h)

    Nodes live in memory at their addresses.  What a node's function pointers
    do is the interface [Drivers]; a null pointer is 0.  The [name] of a node,
    which vfs.c never reads, is left out. *)

From S2P Require Export CString.

Definition VFS_FILE : Z := 0x01.
Definition VFS_DIRECTORY : Z := 0x02.
Definition VFS_MOUNTPOINT : Z := 0x04.
Definition VFS_SOCKET : Z := 0x08.
Definition VFS_SYMLINK : Z := 0x10.

Record vfs_node := VNode {
  n_flags : Z; n_inode : Z; n_length : Z; n_impl : Z;
  n_read : Z; n_write : Z; n_open : Z; n_close : Z; n_readdir : Z; n_finddir : Z;
  n_ptr : Z
}.

Definition has_flag (n : vfs_node) (f : Z) : bool := negb (Z.land (n_flags n) f =? 0).

(** [n->flags |= VFS_MOUNTPOINT; n->ptr = root]. *)
Definition mount_on (root : Z) (n : vfs_node) : vfs_node :=
  VNode (Z.lor (n_flags n) VFS_MOUNTPOINT) (n_inode n) (n_length n) (n_impl n) (n_read n) (n_write n) (n_open n)
    (n_close n) (n_readdir n) (n_finddir n) root.

(** The nodes and the state of the file systems below. *)
Definition mem (W : Type) : Type := gmap Z vfs_node * W.

(** What a function pointer does, given its value and the node's address.  A
    read gives the bytes put in the buffer; a directory entry is its name and
    inode number. *)
Class Drivers (W : Type) := {
  kmalloc_node : mem W -> option Z;
  call_read : Z -> Z -> Z -> Z -> mem W -> option (list Z * mem W);
  call_write : Z -> Z -> Z -> list Z -> mem W -> option (Z * mem W);
  call_open : Z -> Z -> mem W -> option (mem W);
  call_close : Z -> Z -> mem W -> option (mem W);
  call_readdir : Z -> Z -> Z -> mem W -> option (option (list Z * Z) * mem W);
  call_finddir : Z -> Z -> list Z -> mem W -> option (Z * mem W)
}.

Definition MAX_MOUNTS : Z := 16.
Record mount := Mount { m_path : list Z; m_root : Z }.
Record mounts := Mounts { mount_table : list mount; mount_count : Z }.

Section vfs.
Context {W : Type} `{!Drivers W}.

(** [*node] of a live node. *)
Definition load (a : Z) (s : mem W) : option vfs_node := fst s !! a.
Definition store_node (a : Z) (n : vfs_node) (s : mem W) : mem W := (<[a := n]> (fst s), snd s).

Definition vfs_clone_node (node : Z) (s : mem W) : option (Z * mem W) :=
  if node =? 0 then Some (0, s) else
  res ← kmalloc_node s; n ← load node s; Some (res, store_node res n s).

Definition vfs_read (node offset size : Z) (s : mem W) : option (list Z * mem W) :=
  n ← load node s;
  if negb (n_read n =? 0) then call_read (n_read n) node offset size s else Some ([], s).

Definition vfs_write (node offset : Z) (buffer : list Z) (s : mem W) : option (Z * mem W) :=
  n ← load node s;
  if negb (n_write n =? 0) then call_write (n_write n) node offset buffer s else Some (0, s).

Definition vfs_open (node : Z) (s : mem W) : option (mem W) :=
  n ← load node s;
  if negb (n_open n =? 0) then call_open (n_open n) node s else Some s.

Definition vfs_close (node : Z) (s : mem W) : option (mem W) :=
  n ← load node s;
  if negb (n_close n =? 0) then call_close (n_close n) node s else Some s.

(** [fuel]: the mounts on top of each other. *)
Fixpoint vfs_readdir (fuel : nat) (node index : Z) (s : mem W) : option (option (list Z * Z) * mem W) :=
  match fuel with
  | O => None
  | S fuel =>
      n ← load node s;
      if has_flag n VFS_MOUNTPOINT && negb (n_ptr n =? 0) then vfs_readdir fuel (n_ptr n) index s
      else if has_flag n VFS_DIRECTORY && negb (n_readdir n =? 0) then call_readdir (n_readdir n) node index s
      else Some (None, s)
  end.

Definition mnt : list Z := [109; 110; 116; 0].
Definition slash_mnt : list Z := [47; 109; 110; 116; 0].

(** The loop over the mount table: the root of the first mount on "/mnt". *)
Definition find_mount (m : mounts) : option (option Z) :=
  r ← for_ret 0 (mount_count m) (fun i (_ : unit) =>
      e ← aget (mount_table m) i;
      c ← strcmp (m_path e) slash_mnt;
      if c =? 0 then Some (Ret (m_root e)) else Some (Next tt)) tt;
  match r with Ret root => Some (Some root) | Next _ => Some None end.

Variable mnts : mounts.

Fixpoint vfs_finddir (fuel : nat) (node : Z) (name : list Z) (s : mem W) : option (Z * mem W) :=
  match fuel with
  | O => None
  | S fuel =>
      n ← load node s;
      if has_flag n VFS_MOUNTPOINT && negb (n_ptr n =? 0) then vfs_finddir fuel (n_ptr n) name s
      else if has_flag n VFS_DIRECTORY && negb (n_finddir n =? 0) then
        '(res, s) ← call_finddir (n_finddir n) node name s;
        if res =? 0 then Some (0, s) else
        c ← strcmp name mnt;
        if c =? 0 then
          m ← find_mount mnts;
          match m with
          | Some root => r ← load res s; Some (res, store_node res (mount_on root r) s)
          | None => Some (res, s)
          end
        else Some (res, s)
      else Some (0, s)
  end.

(** One component into [name[128]]; the path that is left starts at the '/' or
    the NUL.  More than 127 characters overflow the array. *)
Fixpoint next_name (path acc : list Z) : option (list Z * list Z) :=
  match path with
  | [] => None
  | c :: rest =>
      if (c =? 47) || (c =? 0) then Some (acc, path)
      else if (length acc <? 127)%nat then next_name rest (acc ++ [c]) else None
  end.

Definition skip_slash (path : list Z) : option (list Z) :=
  match path with [] => None | c :: rest => Some (if c =? 47 then rest else path) end.

Definition skipped (name : list Z) : bool := bool_decide (name = []) || bool_decide (name = [46]).

(** [link[128]], zeroed, with what the node's read returned; more than 128
    bytes overflow it. *)
Definition link_buffer (bytes : list Z) : option (list Z) :=
  if (length bytes <=? 128)%nat then Some (bytes ++ replicate (128 - length bytes) 0) else None.

(** Symbolic links, at most [k] one after the other.  [get]: the resolution of a path. *)
Fixpoint follow (get : Z -> list Z -> mem W -> option (Z * mem W)) (root : Z) (k : nat) (next : Z) (s : mem W)
    : option (Z * mem W) :=
  n ← load next s;
  match k with
  | O => Some (next, s)
  | S k =>
      if negb (has_flag n VFS_SYMLINK) then Some (next, s) else
      '(bytes, s) ← vfs_read next 0 128 s;
      link ← link_buffer bytes;
      c ← head link;
      '(target, s) ← (if c =? 47 then get root link s else get 0 link s);
      s ← vfs_close next s;
      if target =? 0 then Some (0, s) else follow get root k target s
  end.

(** [walk]: the loop over the components, from [current]. *)
Fixpoint vfs_get_node_by_path (fuel : nat) (root base : Z) (path : list Z) (s : mem W) : option (Z * mem W) :=
  match fuel with
  | O => None
  | S fuel =>
      c ← head path;
      if c =? 47 then '(current, s) ← vfs_clone_node root s; walk fuel root current (tail path) s
      else if base =? 0 then Some (0, s)
      else '(current, s) ← vfs_clone_node base s; walk fuel root current path s
  end
with walk (fuel : nat) (root current : Z) (path : list Z) (s : mem W) : option (Z * mem W) :=
  match fuel with
  | O => None
  | S fuel =>
      c ← head path;
      if c =? 0 then Some (current, s) else
      '(name, path) ← next_name path [];
      path ← skip_slash path;
      if skipped name then walk fuel root current path s else
      '(next, s) ← vfs_finddir fuel current (name ++ [0]) s;
      s ← vfs_close current s;
      if next =? 0 then Some (0, s) else
      '(next, s) ← follow (vfs_get_node_by_path fuel root) root 8 next s;
      if next =? 0 then Some (0, s) else walk fuel root next path s
  end.
End vfs.

Definition vfs_mount (path : list Z) (root : Z) (m : mounts) : option mounts :=
  if MAX_MOUNTS <=? mount_count m then Some m else
  e ← aget (mount_table m) (mount_count m);
  p ← strcpy (m_path e) path;
  l ← aset (mount_table m) (mount_count m) (Mount p root);
  Some (Mounts l (mount_count m + 1)).
