(* ===== verification/VfsThm.v ===== *)
(** * VfsThm: what paths resolve to

    The abstract tree of the mounted file systems, path resolution in it as a
    relation, the laws a file system promises, and the theorem that
    [vfs_get_node_by_path] implements the relation without losing a node. *)

From S2P Require Export Vfs.

(** ** Paths *)

(** The pieces between the slashes. *)
Fixpoint split_slash (s : list Z) : list (list Z) :=
  match s with
  | [] => [[]]
  | c :: s =>
      if c =? 47 then [] :: split_slash s
      else match split_slash s with h :: t => (c :: h) :: t | [] => [[c]] end
  end.


(** A path in memory whose pieces are [cs]. *)
Definition path_for (cs : list (list Z)) (path : list Z) : Prop :=
  (cs = [] /\ exists junk, path = 0 :: junk) \/
  (exists str junk, split_slash str = cs /\ nonzero str /\ path = str ++ 0 :: junk).

Lemma split_slash_cons s : exists h t, split_slash s = h :: t.
Proof. induction s as [|c s (h & t & IH)]; cbn; [eauto|]. destruct (c =? 47); [eauto|]. rewrite IH. eauto. Qed.

Lemma next_name_ok str : forall acc n cs junk,
  split_slash str = n :: cs -> nonzero str -> (length acc + length n <= 127)%nat ->
  exists p p', next_name (str ++ 0 :: junk) acc = Some (acc ++ n, p) /\ skip_slash p = Some p' /\ path_for cs p'.
Proof.
  induction str as [|c str IH]; intros acc n cs junk Hs Hz Hl; cbn [split_slash] in Hs.
  - injection Hs as <- <-. cbn. rewrite app_nil_r. eexists _, _. split; [done|]. split; [done|]. left. eauto.
  - apply Forall_cons in Hz as [Hc Hz]. cbn [app next_name]. rewrite (proj2 (Z.eqb_neq c 0)) by done.
    destruct (Z.eqb_spec c 47) as [->|H47]; cbn [orb].
    + injection Hs as <- <-. rewrite app_nil_r. eexists _, _. split; [done|]. cbn. split; [done|]. right. by eexists str, junk.
    + destruct (split_slash_cons str) as (h & t & E). rewrite E in Hs. injection Hs as <- <-. cbn [length] in Hl.
      rewrite (proj2 (Nat.ltb_lt _ _)) by lia.
      destruct (IH (acc ++ [c]) h t junk E Hz) as (p & p' & -> & Hp); [rewrite length_app; cbn; lia|].
      exists p, p'. by rewrite <- app_assoc.
Qed.

(** ** The abstract tree *)

Record tree (E : Type) := Tree {
  t_root : E;
  t_child : E -> list Z -> option E;
  t_link : E -> option (list Z);
  t_mnt : option E
}.
Arguments t_root {E} t.
Arguments t_child {E} t e name.
Arguments t_link {E} t e.
Arguments t_mnt {E} t.

Definition mnt_name : list Z := [109; 110; 116].
Definition name_ok (n : list Z) : Prop := skipped n = false /\ (length n <= 127)%nat.
Definition text_ok (t : list Z) : Prop := nonzero t /\ (length t <= 127)%nat.

Section tree.
Context {E : Type} (T : tree E).

(** A directory called "mnt", wherever it is, shows the file system mounted on
    "/mnt"; an absolute link starts again at the root, a relative one leads
    nowhere. *)
Inductive walks : E -> list (list Z) -> option E -> Prop :=
| walks_nil e : walks e [] (Some e)
| walks_skip e n cs r : skipped n = true -> walks e cs r -> walks e (n :: cs) r
| walks_missing e n cs : name_ok n -> t_child T e n = None -> walks e (n :: cs) None
| walks_child e n e' cs r :
    name_ok n -> t_child T e n = Some e' -> (n = mnt_name -> t_mnt T = None) -> t_link T e' = None ->
    walks e' cs r -> walks e (n :: cs) r
| walks_mount e e' m cs r :
    t_child T e mnt_name = Some e' -> t_mnt T = Some m -> t_link T e' = None -> walks m cs r -> walks e (mnt_name :: cs) r
| walks_link e n e' t e'' cs r :
    name_ok n -> t_child T e n = Some e' -> (n = mnt_name -> t_mnt T = None) -> t_link T e' = Some (47 :: t) ->
    walks (t_root T) (split_slash t) (Some e'') -> walks e'' cs r -> walks e (n :: cs) r
| walks_broken e n e' t cs :
    name_ok n -> t_child T e n = Some e' -> (n = mnt_name -> t_mnt T = None) -> t_link T e' = Some (47 :: t) ->
    walks (t_root T) (split_slash t) None -> walks e (n :: cs) None
| walks_relative e n e' t cs :
    name_ok n -> t_child T e n = Some e' -> (n = mnt_name -> t_mnt T = None) -> t_link T e' = Some t ->
    head t <> Some 47 -> walks e (n :: cs) None.

(** Neither the root nor a mounted root is a link. *)
Record tree_ok : Prop := {
  tk_root : t_link T (t_root T) = None;
  tk_mnt : forall m, t_mnt T = Some m -> t_link T m = None;
  tk_text : forall e t, t_link T e = Some t -> text_ok t
}.

Lemma walks_not_link e cs r :
  tree_ok -> walks e cs r -> t_link T e = None -> forall e', r = Some e' -> t_link T e' = None.
Proof.
  intros HT. induction 1; intros Hl e1 He1; eauto.
  - injection He1 as <-. exact Hl.
  - discriminate He1.
  - eapply IHwalks; [|exact He1]. by apply (tk_mnt HT).
  - apply IHwalks2; [|exact He1]. by apply (IHwalks1 (tk_root HT)).
  - discriminate He1.
  - discriminate He1.
Qed.
End tree.

(** ** What a file system promises

    [denotes n e]: the node [n] stands for the entity [e].  [permanent]: the
    nodes the file system itself keeps.  The state of the file systems may
    change under a look-up (locks, buffers) but stays [valid]. *)
Class TreeDrivers {W E : Type} (T : tree E) `{!Drivers W} := {
  valid : W -> Prop;
  denotes : vfs_node -> E -> Prop;
  permanent : Z -> Prop;
  kmalloc_node_fresh : forall s : mem W, valid (snd s) -> exists a, kmalloc_node s = Some a /\ a <> 0 /\ fst s !! a = None;
  not_mounted : forall n e, denotes n e -> has_flag n VFS_MOUNTPOINT = false;
  link_flag : forall n e, denotes n e -> has_flag n VFS_SYMLINK = bool_decide (is_Some (t_link T e));
  not_directory : forall n e nm, denotes n e -> has_flag n VFS_DIRECTORY && negb (n_finddir n =? 0) = false ->
    t_child T e nm = None;
  finddir_law : forall (s : mem W) a n e nm, valid (snd s) -> fst s !! a = Some n -> denotes n e -> nonzero nm ->
    has_flag n VFS_DIRECTORY && negb (n_finddir n =? 0) = true ->
    exists w, valid w /\
      match t_child T e nm with
      | None => call_finddir (n_finddir n) a (nm ++ [0]) s = Some (0, (fst s, w))
      | Some e' => exists b n', call_finddir (n_finddir n) a (nm ++ [0]) s = Some (b, (<[b := n']> (fst s), w)) /\
          b <> 0 /\ fst s !! b = None /\ denotes n' e'
      end;
  readlink_law : forall (s : mem W) a n e t, valid (snd s) -> fst s !! a = Some n -> denotes n e -> t_link T e = Some t ->
    (n_read n =? 0) = false /\ exists w, valid w /\ call_read (n_read n) a 0 128 s = Some (t, (fst s, w));
  close_law : forall (s : mem W) a n n0 e, valid (snd s) -> fst s !! a = Some n -> denotes n0 e ->
    n = n0 \/ (exists r, n = mount_on r n0) -> a <> 0 -> ~ permanent a ->
    (n_close n =? 0) = false /\ exists w, valid w /\ call_close (n_close n) a s = Some (delete a (fst s), w)
}.

(** ** Resolution *)

Section resolve.
Context {W E : Type} (T : tree E) `{!Drivers W} `{!TreeDrivers (W := W) T}.
Variable mnts : mounts.
Variable root : Z.
Hypothesis T_ok : tree_ok T.

(** The nodes that are there before and after every call. *)
Record setup (m : gmap Z vfs_node) : Prop := {
  su_root : root <> 0 /\ exists n, m !! root = Some n /\ denotes n (t_root T);
  su_mount : match t_mnt T with
             | None => find_mount mnts = Some None
             | Some e => exists r n, find_mount mnts = Some (Some r) /\ r <> 0 /\ m !! r = Some n /\ denotes n e
             end;
  su_permanent : forall a, permanent (T := T) a -> is_Some (m !! a)
}.

Lemma setup_insert m a n : m !! a = None -> setup m -> setup (<[a := n]> m).
Proof.
  intros Ha [[Hr (nr & Hnr & Hd)] Hm Hp]. assert (Hk : forall b x, m !! b = Some x -> <[a := n]> m !! b = Some x).
  { intros b x Hb. rewrite lookup_insert_ne; [done|]. intros ->. by rewrite Ha in Hb. }
  constructor.
  - eauto.
  - destruct (t_mnt T); [|done]. destruct Hm as (r & n1 & H1 & H2 & H3 & H4). eauto 10.
  - intros b Hb. destruct (Hp b Hb) as [x Hx]. eauto.
Qed.

(** A node whose look-ups go to the entity [e]: its own, or that of the root mounted on it. *)
Inductive stands : vfs_node -> E -> Prop :=
| stands_plain n e : denotes n e -> stands n e
| stands_mount n e r e' :
    denotes n e -> t_link T e = None -> find_mount mnts = Some (Some r) -> t_mnt T = Some e' -> stands (mount_on r n) e'.

Lemma mount_on_flag r n f : Z.land f 4 = 0 -> has_flag (mount_on r n) f = has_flag n f.
Proof.
  intros Hf. unfold has_flag, mount_on. cbn [n_flags].
  replace (Z.land (Z.lor (n_flags n) VFS_MOUNTPOINT) f) with (Z.land (n_flags n) f); [done|].
  rewrite Z.land_lor_distr_l. change VFS_MOUNTPOINT with 4. by rewrite (Z.land_comm 4 f), Hf, Z.lor_0_r.
Qed.

Lemma mount_on_mounted r n : has_flag (mount_on r n) VFS_MOUNTPOINT = true.
Proof.
  unfold has_flag, mount_on, VFS_MOUNTPOINT. cbn [n_flags]. apply negb_true_iff, Z.eqb_neq. intros H.
  apply (f_equal (fun z => Z.testbit z 2)) in H. rewrite Z.land_spec, Z.lor_spec, Z.bits_0 in H.
  change (Z.testbit 4 2) with true in H. by rewrite orb_true_r in H.
Qed.

Definition marked (nm : list Z) (n : vfs_node) : vfs_node :=
  match find_mount mnts with
  | Some (Some r) => if decide (nm = mnt_name) then mount_on r n else n
  | _ => n
  end.

Lemma strcmp_mnt nm : nonzero nm -> exists c, strcmp (nm ++ [0]) mnt = Some c /\ (c =? 0) = bool_decide (nm = mnt_name).
Proof.
  intros Hz. assert (Hc1 : content (nm ++ [0]) = Some nm) by by apply content_app.
  assert (Hc2 : content mnt = Some mnt_name) by reflexivity.
  destruct (strcmp_eq0 (nm ++ [0]) mnt nm mnt_name Hc1 Hc2) as (c & E' & Hc).
  exists c. split; [done|]. case_bool_decide as Hd; [by apply Z.eqb_eq, Hc|apply Z.eqb_neq]. intros ->. by apply Hd, Hc.
Qed.

(** A look-up at a node of its own file system. *)
Lemma finddir_plain fuel (s : mem W) a n e nm :
  valid (snd s) -> setup (fst s) -> fst s !! a = Some n -> denotes n e -> nonzero nm ->
  exists w, valid w /\
    match t_child T e nm with
    | None => vfs_finddir mnts (S fuel) a (nm ++ [0]) s = Some (0, (fst s, w))
    | Some e' => exists b n', vfs_finddir mnts (S fuel) a (nm ++ [0]) s = Some (b, (<[b := marked nm n']> (fst s), w)) /\
        b <> 0 /\ fst s !! b = None /\ denotes n' e'
    end.
Proof.
  intros Hv Hs Ha Hd Hz. cbn [vfs_finddir]. unfold load. rewrite Ha. cbn [mbind option_bind].
  rewrite (not_mounted n e Hd). cbn [andb].
  destruct (has_flag n VFS_DIRECTORY && negb (n_finddir n =? 0)) eqn:Hdir.
  2:{ exists (snd s). split; [done|]. rewrite (not_directory n e nm Hd Hdir). by destruct s. }
  destruct (finddir_law s a n e nm Hv Ha Hd Hz Hdir) as (w & Hw & Hc). exists w. split; [done|].
  destruct (t_child T e nm) as [e'|]; [|by rewrite Hc].
  destruct Hc as (b & n' & -> & Hb & Hfree & Hd'). exists b, n'. split; [|done]. cbn [mbind option_bind].
  rewrite (proj2 (Z.eqb_neq b 0)) by done.
  destruct (strcmp_mnt nm Hz) as (c & -> & Ec). cbn [mbind option_bind]. rewrite Ec. clear Ec c. unfold marked.
  pose proof (su_mount _ Hs) as Hm. case_bool_decide as Hmnt.
  - destruct (t_mnt T).
    + destruct Hm as (r & nr & -> & _). cbn [mbind option_bind fst snd]. rewrite lookup_insert_eq. cbn [mbind option_bind].
      rewrite decide_True by done. unfold store_node. cbn [fst snd]. by rewrite insert_insert_eq.
    + by rewrite Hm.
  - destruct (find_mount mnts) as [[r|]|]; [by rewrite decide_False by done|done|done].
Qed.

(** A look-up from the node a walk holds: the look-up of its entity. *)
Lemma finddir_ok fuel m w cur n e nm :
  valid w -> setup m -> m !! cur = None -> stands n e -> nonzero nm ->
  exists w', valid w' /\
    match t_child T e nm with
    | None => vfs_finddir mnts (S (S fuel)) cur (nm ++ [0]) (<[cur := n]> m, w) = Some (0, (<[cur := n]> m, w'))
    | Some e' => exists b n', vfs_finddir mnts (S (S fuel)) cur (nm ++ [0]) (<[cur := n]> m, w) =
          Some (b, (<[b := marked nm n']> (<[cur := n]> m), w')) /\
        b <> 0 /\ b <> cur /\ m !! b = None /\ denotes n' e'
    end.
Proof.
  intros Hv Hs Hc Hst Hz. pose proof (setup_insert _ cur n Hc Hs) as Hs'.
  assert (Hb : forall b, <[cur := n]> m !! b = None -> b <> cur /\ m !! b = None).
  { intros b Hb. split; [intros ->; by rewrite lookup_insert_eq in Hb|].
    rewrite lookup_insert_ne in Hb; [done|]. intros ->. by rewrite lookup_insert_eq in Hb. }
  destruct Hst as [n e Hd|n0 e0 r e Hd _ Hf Hem].
  - destruct (finddir_plain (S fuel) (<[cur := n]> m, w) cur n e nm) as (w' & Hw & Hres); try done;
      [cbn [fst]; apply lookup_insert_eq|].
    exists w'. split; [done|]. destruct (t_child T e nm); [|done].
    destruct Hres as (b & n' & H1 & H2 & H3 & H4). exists b, n'. destruct (Hb b H3). by split_and!.
  - pose proof (su_mount _ Hs) as Hm. rewrite Hem in Hm. destruct Hm as (r' & nr & Hf' & Hr & Hnr & Hdr).
    rewrite Hf in Hf'. injection Hf' as <-.
    destruct (finddir_plain fuel (<[cur := mount_on r n0]> m, w) r nr e nm) as (w' & Hw & Hres); try done.
    { cbn [fst]. rewrite lookup_insert_ne; [done|]. intros ->. by rewrite Hc in Hnr. }
    exists w'. split; [done|]. cbn [vfs_finddir] in Hres |- *. unfold load in Hres |- *. cbn [fst] in Hres |- *.
    rewrite lookup_insert_eq. cbn [mbind option_bind]. rewrite mount_on_mounted. cbn [n_ptr mount_on].
    rewrite (proj2 (Z.eqb_neq r 0)) by done. cbn [negb andb].
    destruct (t_child T e nm); [|exact Hres].
    destruct Hres as (b & n' & H1 & H2 & H3 & H4). exists b, n'. destruct (Hb b H3). by split_and!.
Qed.

(** Closing the node a walk holds gives its memory back. *)
Lemma close_ok m w a n e :
  valid w -> setup m -> a <> 0 -> m !! a = None -> stands n e ->
  exists w', valid w' /\ vfs_close a (<[a := n]> m, w) = Some (m, w').
Proof.
  intros Hv Hs Ha0 Ha Hst. assert (Hn : exists n0 e0, denotes n0 e0 /\ (n = n0 \/ exists r, n = mount_on r n0)) by (destruct Hst; eauto 10).
  destruct Hn as (n0 & e0 & Hd & Hn). unfold vfs_close, load. cbn [fst]. rewrite lookup_insert_eq. cbn [mbind option_bind].
  destruct (close_law (<[a := n]> m, w) a n n0 e0) as (Hc & w' & Hw & E'); try done; [cbn [fst]; apply lookup_insert_eq| |].
  { intros Hp. destruct (su_permanent _ Hs a Hp) as [x Hx]. by rewrite Ha in Hx. }
  exists w'. split; [done|]. rewrite Hc. cbn [negb]. rewrite E'. cbn [fst]. by rewrite delete_insert_id.
Qed.

(** What a resolution leaves: the node found and nothing else. *)
Definition resolved (m : gmap Z vfs_node) (r : option E) (x : option (Z * mem W)) : Prop :=
  exists res w, valid w /\
    match r with
    | None => x = Some (0, (m, w))
    | Some e => exists n, x = Some (res, (<[res := n]> m, w)) /\ res <> 0 /\ m !! res = None /\ stands n e
    end.

Lemma marked_stands m nm n e :
  setup m -> denotes n e -> t_link T e = None -> exists e', stands (marked nm n) e' /\
    ((nm = mnt_name -> t_mnt T = None) -> e' = e) /\ (nm = mnt_name -> forall x, t_mnt T = Some x -> e' = x).
Proof.
  intros Hs Hd Hl. unfold marked. pose proof (su_mount _ Hs) as Hm. destruct (t_mnt T) as [em|] eqn:Et.
  - destruct Hm as (r & nr & Hf & Hr & Hnr & Hdr). rewrite Hf. destruct (decide (nm = mnt_name)) as [->|Hne].
    + exists em. split; [by eapply stands_mount|]. split; [by intros H; specialize (H eq_refl)|congruence].
    + exists e. split; [by constructor|]. by split.
  - rewrite Hm. exists e. split; [by constructor|]. by split.
Qed.

Lemma stands_symlink n e : stands n e -> t_link T e = None -> has_flag n VFS_SYMLINK = false.
Proof.
  intros Hst Hl. destruct Hst as [n e Hd|n e r e' Hd Hl0 _ _].
  - rewrite (link_flag n e Hd), Hl. by apply bool_decide_eq_false_2; intros [? ?].
  - rewrite mount_on_flag by done. rewrite (link_flag n e Hd), Hl0. by apply bool_decide_eq_false_2; intros [? ?].
Qed.

(** A node that is no link is where the links end. *)
Lemma follow_stops get k b n m w :
  has_flag n VFS_SYMLINK = false -> follow get root k b (<[b := n]> m, w) = Some (b, (<[b := n]> m, w)).
Proof.
  intros Hn. destruct k; cbn [follow]; unfold load; cbn [fst]; rewrite lookup_insert_eq; cbn [mbind option_bind]; [done|].
  by rewrite Hn.
Qed.

Lemma marked_id m nm n : setup m -> (nm = mnt_name -> t_mnt T = None) -> marked nm n = n.
Proof.
  intros Hs Hn. pose proof (su_mount _ Hs) as Hm. unfold marked. destruct (decide (nm = mnt_name)) as [->|Hne].
  - rewrite (Hn eq_refl) in Hm. by rewrite Hm.
  - by destruct (find_mount mnts) as [[r|]|].
Qed.

(** One component of a walk. *)
Definition walk_body (fuel : nat) (cur : Z) (nm path : list Z) (s : mem W) : option (Z * mem W) :=
  '(next, s) ← vfs_finddir mnts fuel cur (nm ++ [0]) s;
  s ← vfs_close cur s;
  if next =? 0 then Some (0, s) else
  '(next, s) ← follow (vfs_get_node_by_path mnts fuel root) root 8 next s;
  if next =? 0 then Some (0, s) else walk mnts fuel root next path s.

Lemma walk_step fuel cur nm cs path s :
  (length nm <= 127)%nat -> nm <> [] -> path_for (nm :: cs) path ->
  exists path', path_for cs path' /\ nonzero nm /\
    walk mnts (S fuel) root cur path s =
      if skipped nm then walk mnts fuel root cur path' s else walk_body fuel cur nm path' s.
Proof.
  intros Hl Hne [[F _]|(str & junk & Hs & Hz & ->)]; [discriminate F|].
  destruct str as [|c str]; [injection Hs as <- _; done|].
  destruct (next_name_ok (c :: str) [] nm cs junk Hs Hz Hl) as (p & p' & En & Ep & Hp').
  exists p'. split; [done|]. split.
  - assert (Hall : Forall nonzero (split_slash (c :: str))); [|rewrite Hs in Hall; by apply Forall_cons in Hall as [? _]].
    clear -Hz. revert Hz. generalize (c :: str) as l. induction l as [|x l IH]; intros Hz; cbn [split_slash]; [by repeat constructor|].
    apply Forall_cons in Hz as [Hx Hz]. specialize (IH Hz). destruct (x =? 47); [constructor; [constructor|done]|].
    destruct (split_slash l) as [|h t]; [by repeat constructor|]. apply Forall_cons in IH as [Hh Ht].
    constructor; [by constructor|done].
  - cbn [walk app head mbind option_bind] in *. apply Forall_cons in Hz as [Hc _].
    rewrite (proj2 (Z.eqb_neq c 0)) by done. rewrite En. cbn [mbind option_bind]. rewrite Ep. cbn [mbind option_bind]. done.
Qed.

(** The last piece of a path may be empty. *)
Lemma walk_empty fuel cur cs path s :
  path_for ([] :: cs) path -> exists path', path_for cs path' /\
    ((walk mnts (S fuel) root cur path s = walk mnts fuel root cur path' s) \/
     (cs = [] /\ walk mnts (S fuel) root cur path s = Some (cur, s))).
Proof.
  intros [[F _]|(str & junk & Hs & Hz & ->)]; [discriminate F|].
  destruct (next_name_ok str [] [] cs junk Hs Hz) as (p & p' & En & Ep & Hp'); [cbn; lia|]. exists p'. split; [done|].
  destruct str as [|c str].
  - right. injection Hs as <-. done.
  - left. cbn [walk app head mbind option_bind] in *. apply Forall_cons in Hz as [Hc _].
    rewrite (proj2 (Z.eqb_neq c 0)) by done. rewrite En. cbn [mbind option_bind]. rewrite Ep. done.
Qed.

(** The statement about a walk that holds a node. *)
Definition walk_spec (e : E) (cs : list (list Z)) (r : option E) (N : nat) : Prop :=
  forall fuel m w cur n path, (N <= fuel)%nat -> valid w -> setup m -> m !! cur = None -> cur <> 0 -> stands n e ->
    path_for cs path -> resolved m r (walk mnts fuel root cur path (<[cur := n]> m, w)).

(** The first part of a component: the look-up and the closing of the current node. *)
Lemma body_missing fuel m w cur n e nm path :
  valid w -> setup m -> cur <> 0 -> m !! cur = None -> stands n e -> nonzero nm -> t_child T e nm = None ->
  resolved m None (walk_body (S (S fuel)) cur nm path (<[cur := n]> m, w)).
Proof.
  intros Hv Hs Hc0 Hc Hst Hz Hch. destruct (finddir_ok fuel m w cur n e nm Hv Hs Hc Hst Hz) as (w1 & Hw1 & Hf).
  rewrite Hch in Hf. unfold walk_body. rewrite Hf. cbn [mbind option_bind].
  destruct (close_ok m w1 cur n e Hw1 Hs Hc0 Hc Hst) as (w2 & Hw2 & ->). by exists 0, w2.
Qed.

Lemma body_after_find fuel m w w1 cur n e nm path b n2 :
  valid w1 -> setup m -> cur <> 0 -> m !! cur = None -> stands n e -> b <> 0 -> b <> cur -> m !! b = None ->
  vfs_finddir mnts fuel cur (nm ++ [0]) (<[cur := n]> m, w) = Some (b, (<[b := n2]> (<[cur := n]> m), w1)) ->
  exists w', valid w' /\
    walk_body fuel cur nm path (<[cur := n]> m, w) =
      ('(next, s) ← follow (vfs_get_node_by_path mnts fuel root) root 8 b (<[b := n2]> m, w');
       if next =? 0 then Some (0, s) else walk mnts fuel root next path s).
Proof.
  intros Hv Hs Hc0 Hc Hst Hb Hne Hfree Hf. unfold walk_body. rewrite Hf. cbn [mbind option_bind].
  rewrite insert_insert_ne by done.
  destruct (close_ok (<[b := n2]> m) w1 cur n e Hv) as (w2 & Hw2 & ->); [by apply setup_insert|done|by rewrite lookup_insert_ne|done|].
  exists w2. cbn [mbind option_bind]. by rewrite (proj2 (Z.eqb_neq b 0)) by done.
Qed.

Lemma body_found fuel m w cur n e nm path e' :
  valid w -> setup m -> cur <> 0 -> m !! cur = None -> stands n e -> nonzero nm -> t_child T e nm = Some e' ->
  exists b n' w', valid w' /\ b <> 0 /\ m !! b = None /\ denotes n' e' /\
    walk_body (S (S fuel)) cur nm path (<[cur := n]> m, w) =
      ('(next, s) ← follow (vfs_get_node_by_path mnts (S (S fuel)) root) root 8 b (<[b := marked nm n']> m, w');
       if next =? 0 then Some (0, s) else walk mnts (S (S fuel)) root next path s).
Proof.
  intros Hv Hs Hc0 Hc Hst Hz Hch. destruct (finddir_ok fuel m w cur n e nm Hv Hs Hc Hst Hz) as (w1 & Hw1 & Hf).
  rewrite Hch in Hf. destruct Hf as (b & n' & Hf & Hb & Hne & Hfree & Hd).
  destruct (body_after_find (S (S fuel)) m w w1 cur n e nm path b (marked nm n') Hw1 Hs Hc0 Hc Hst Hb Hne Hfree Hf) as (w' & Hw' & Eb).
  by exists b, n', w'.
Qed.

Lemma link_buffer_ok t : text_ok t -> exists junk, link_buffer t = Some (t ++ 0 :: junk).
Proof.
  intros [_ Hl]. unfold link_buffer. rewrite (proj2 (Nat.leb_le _ _)) by lia.
  replace (128 - length t)%nat with (S (127 - length t)) by lia. by eexists.
Qed.

(** Reading a link and starting again at the root. *)
Lemma follow_link fuel k m w b n e' t :
  valid w -> setup m -> m !! b = None -> denotes n e' -> t_link T e' = Some t ->
  exists w' junk, valid w' /\
    follow (vfs_get_node_by_path mnts fuel root) root (S k) b (<[b := n]> m, w) =
      ('(target, s) ← (if bool_decide (head t = Some 47) then vfs_get_node_by_path mnts fuel root root (t ++ 0 :: junk) (<[b := n]> m, w')
                       else Some (0, (<[b := n]> m, w')));
       s ← vfs_close b s;
       if target =? 0 then Some (0, s) else follow (vfs_get_node_by_path mnts fuel root) root k target s) \/
    fuel = 0%nat.
Proof.
  intros Hv Hs Hb Hd Hl. destruct fuel as [|fuel]; [exists w, []; by right|].
  destruct (readlink_law (<[b := n]> m, w) b n e' t Hv) as (Hr & w' & Hw & Ec); [cbn [fst]; apply lookup_insert_eq|done|done|].
  destruct (link_buffer_ok t (tk_text T T_ok e' t Hl)) as (junk & Eb). exists w', junk. left. split; [done|].
  cbn [follow]. unfold vfs_read, load. cbn [fst]. rewrite lookup_insert_eq. cbn [mbind option_bind].
  rewrite (link_flag n e' Hd), Hl. rewrite bool_decide_eq_true_2 by eauto. cbn [negb]. rewrite Hr. cbn [negb].
  rewrite Ec. cbn [mbind option_bind]. rewrite Eb. cbn [mbind option_bind fst].
  destruct t as [|c t]; cbn [app head mbind option_bind]; [done|].
  destruct (Z.eqb_spec c 47) as [->|Hne]; [by rewrite bool_decide_eq_true_2|]. rewrite bool_decide_eq_false_2 by congruence.
  cbn [vfs_get_node_by_path head mbind option_bind]. rewrite (proj2 (Z.eqb_neq c 47)) by done. done.
Qed.

(** A resolution from the root: the root is cloned and walked from. *)
Lemma get_clone fuel base m w t :
  valid w -> setup m -> exists a n, a <> 0 /\ m !! a = None /\ denotes n (t_root T) /\
    vfs_get_node_by_path mnts (S fuel) root base (47 :: t) (m, w) = walk mnts fuel root a t (<[a := n]> m, w).
Proof.
  intros Hv Hs. destruct (su_root _ Hs) as (Hr & n & Hn & Hd). destruct (kmalloc_node_fresh (m, w) Hv) as (a & Ea & Ha & Hfree).
  exists a, n. split; [done|]. split; [exact Hfree|]. split; [done|].
  cbn [vfs_get_node_by_path head tail mbind option_bind]. change (47 =? 47) with true. cbn iota. unfold vfs_clone_node.
  rewrite (proj2 (Z.eqb_neq root 0)) by done. rewrite Ea. unfold load, store_node. cbn [mbind option_bind fst snd].
  rewrite Hn. done.
Qed.

Lemma get_root fuel N base r m w t junk :
  (S N <= fuel)%nat -> valid w -> setup m -> nonzero t -> walk_spec (t_root T) (split_slash t) r N ->
  resolved m r (vfs_get_node_by_path mnts fuel root base ((47 :: t) ++ 0 :: junk) (m, w)).
Proof.
  intros Hf Hv Hs Hz Hw. destruct fuel as [|fuel]; [lia|].
  destruct (get_clone fuel base m w (t ++ 0 :: junk) Hv Hs) as (a & n & Ha & Hfree & Hd & E1). cbn [app]. rewrite E1.
  apply Hw; try done; [lia|by constructor|]. right. eauto.
Qed.

(** A component that exists: the walk holds its node, before links are followed. *)
Lemma walk_child fuel m w cur nd e n e' cs path :
  valid w -> setup m -> cur <> 0 -> m !! cur = None -> stands nd e -> path_for (n :: cs) path -> name_ok n -> t_child T e n = Some e' ->
  exists b n' w' p', valid w' /\ b <> 0 /\ m !! b = None /\ denotes n' e' /\ path_for cs p' /\
    walk mnts (S (S (S fuel))) root cur path (<[cur := nd]> m, w) =
      ('(next, s) ← follow (vfs_get_node_by_path mnts (S (S fuel)) root) root 8 b (<[b := marked n n']> m, w');
       if next =? 0 then Some (0, s) else walk mnts (S (S fuel)) root next p' s).
Proof.
  intros Hv Hs Hc0 Hc Hst Hp [Hsk Hlen] Hch.
  destruct (walk_step (S (S fuel)) cur n cs path (<[cur := nd]> m, w) Hlen) as (p' & Hp' & Hz & ->); [by intros ->|done|].
  rewrite Hsk. destruct (body_found fuel m w cur nd e n p' e' Hv Hs Hc0 Hc Hst Hz Hch) as (b & n' & w' & H1 & H2 & H3 & H4 & ->).
  by exists b, n', w', p'.
Qed.

Lemma spec_skip e n cs r N :
  skipped n = true -> walks T e cs r -> walk_spec e cs r N -> walk_spec e (n :: cs) r (S N).
Proof.
  intros Hsk Hw IH fuel m w cur nd path Hf Hv Hs Hc Hc0 Hst Hp. destruct fuel as [|fuel]; [lia|].
  destruct (decide (n = [])) as [->|Hne].
  - destruct (walk_empty fuel cur cs path (<[cur := nd]> m, w) Hp) as (p' & Hp' & [->|[-> ->]]).
    + apply IH; try done. lia.
    + inversion Hw; subst. exists cur, w. split; [done|]. by exists nd.
  - assert (Hlen : (length n <= 127)%nat).
    { unfold skipped in Hsk. apply orb_true_iff in Hsk as [Hsk|Hsk]; apply bool_decide_eq_true in Hsk as ->; cbn; lia. }
    destruct (walk_step fuel cur n cs path (<[cur := nd]> m, w) Hlen Hne Hp) as (p' & Hp' & _ & ->). rewrite Hsk.
    apply IH; try done. lia.
Qed.

Lemma spec_missing e n cs : name_ok n -> t_child T e n = None -> walk_spec e (n :: cs) None 3.
Proof.
  intros [Hsk Hlen] Hch fuel m w cur nd path Hf Hv Hs Hc Hc0 Hst Hp. destruct fuel as [|[|[|fuel]]]; try lia.
  destruct (walk_step (S (S fuel)) cur n cs path (<[cur := nd]> m, w) Hlen) as (p' & Hp' & Hz & ->); [by intros ->|done|].
  rewrite Hsk. by apply (body_missing fuel m w cur nd e).
Qed.

(** The child, or the root mounted on it: [e1] is where the walk goes on. *)
Lemma spec_enter e n e' e1 cs r N :
  name_ok n -> t_child T e n = Some e' -> t_link T e' = None -> t_link T e1 = None ->
  ((n = mnt_name -> t_mnt T = None) /\ e1 = e' \/ n = mnt_name /\ t_mnt T = Some e1) ->
  walk_spec e1 cs r N -> walk_spec e (n :: cs) r (S (S (S N))).
Proof.
  intros Hn Hch Hl Hl1 He IH fuel m w cur nd path Hf Hv Hs Hc Hc0 Hst Hp. destruct fuel as [|[|[|fuel]]]; try lia.
  destruct (walk_child fuel m w cur nd e n e' cs path Hv Hs Hc0 Hc Hst Hp Hn Hch) as (b & n' & w' & p' & Hw' & Hb & Hfree & Hd & Hp' & ->).
  destruct (marked_stands m n n' e' Hs Hd Hl) as (e2 & Hst2 & H1 & H2).
  assert (e2 = e1) as -> by (destruct He as [[Hm ->]|[Hm He]]; [by apply H1|by apply (H2 Hm)]).
  rewrite follow_stops by by apply (stands_symlink _ e1).
  cbn [mbind option_bind]. rewrite (proj2 (Z.eqb_neq b 0)) by done. apply IH; try done. lia.
Qed.

(** What an absolute link resolves to, in the middle of a walk. *)
Lemma spec_link_target fuel m w' b n' e' t r N :
  (S N <= S (S fuel))%nat -> valid w' -> setup m -> b <> 0 -> m !! b = None -> denotes n' e' -> t_link T e' = Some (47 :: t) ->
  walk_spec (t_root T) (split_slash t) r N -> (forall e, r = Some e -> t_link T e = None) ->
  resolved m r (follow (vfs_get_node_by_path mnts (S (S fuel)) root) root 8 b (<[b := n']> m, w')).
Proof.
  intros Hf Hw' Hs Hb Hfree Hd Hl IH Hr.
  destruct (follow_link (S (S fuel)) 7 m w' b n' e' (47 :: t) Hw' Hs Hfree Hd Hl) as (w1 & junk & [[Hw1' ->]|F]); [|discriminate F].
  pose proof (setup_insert m b n' Hfree Hs) as Hs'. destruct (tk_text T T_ok e' _ Hl) as [Htz _]. apply Forall_cons in Htz as [_ Htz].
  rewrite bool_decide_eq_true_2 by done.
  destruct (get_root (S (S fuel)) N root r (<[b := n']> m) w1 t junk Hf Hw1' Hs' Htz IH) as (res & w2 & Hw2' & Hres).
  destruct r as [e''|].
  - destruct Hres as (n2 & -> & Hres & Hrf & Hst2). cbn [mbind option_bind].
    assert (Hne : res <> b) by (intros ->; by rewrite lookup_insert_eq in Hrf). rewrite lookup_insert_ne in Hrf by done.
    rewrite insert_insert_ne by done.
    destruct (close_ok (<[res := n2]> m) w2 b n' e' Hw2') as (w3 & Hw3 & ->); [by apply setup_insert|done|by rewrite lookup_insert_ne|by constructor|].
    cbn [mbind option_bind]. rewrite (proj2 (Z.eqb_neq res 0)) by done.
    rewrite follow_stops by by apply (stands_symlink n2 e''); [|apply Hr].
    exists res, w3. split; [done|]. by exists n2.
  - rewrite Hres. cbn [mbind option_bind]. destruct (close_ok m w2 b n' e' Hw2' Hs Hb Hfree) as (w3 & Hw3 & ->); [by constructor|].
    by exists 0, w3.
Qed.

Lemma spec_link e n e' t e'' cs r N1 N2 :
  name_ok n -> t_child T e n = Some e' -> (n = mnt_name -> t_mnt T = None) -> t_link T e' = Some (47 :: t) -> t_link T e'' = None ->
  walk_spec (t_root T) (split_slash t) (Some e'') N1 -> walk_spec e'' cs r N2 -> walk_spec e (n :: cs) r (S (S (S (N1 + N2)))).
Proof.
  intros Hn Hch Hmn Hl Hl2 IH1 IH2 fuel m w cur nd path Hf Hv Hs Hc Hc0 Hst Hp. destruct fuel as [|[|[|fuel]]]; try lia.
  destruct (walk_child fuel m w cur nd e n e' cs path Hv Hs Hc0 Hc Hst Hp Hn Hch) as (b & n' & w' & p' & Hw' & Hb & Hfree & Hd & Hp' & ->).
  rewrite (marked_id m n n' Hs Hmn).
  destruct (spec_link_target fuel m w' b n' e' t (Some e'') N1 ltac:(lia) Hw' Hs Hb Hfree Hd Hl IH1) as (res & w1 & Hw1 & n2 & -> & Hres & Hrf & Hst2);
    [by intros ? [= <-]|].
  cbn [mbind option_bind]. rewrite (proj2 (Z.eqb_neq res 0)) by done. apply IH2; try done. lia.
Qed.

Lemma spec_broken e n e' t cs N :
  name_ok n -> t_child T e n = Some e' -> (n = mnt_name -> t_mnt T = None) -> t_link T e' = Some (47 :: t) ->
  walk_spec (t_root T) (split_slash t) None N -> walk_spec e (n :: cs) None (S (S (S N))).
Proof.
  intros Hn Hch Hmn Hl IH fuel m w cur nd path Hf Hv Hs Hc Hc0 Hst Hp. destruct fuel as [|[|[|fuel]]]; try lia.
  destruct (walk_child fuel m w cur nd e n e' cs path Hv Hs Hc0 Hc Hst Hp Hn Hch) as (b & n' & w' & p' & Hw' & Hb & Hfree & Hd & Hp' & ->).
  rewrite (marked_id m n n' Hs Hmn).
  destruct (spec_link_target fuel m w' b n' e' t None N ltac:(lia) Hw' Hs Hb Hfree Hd Hl IH) as (res & w1 & Hw1 & ->); [done|].
  by exists 0, w1.
Qed.

Lemma spec_relative e n e' t cs :
  name_ok n -> t_child T e n = Some e' -> (n = mnt_name -> t_mnt T = None) -> t_link T e' = Some t -> head t <> Some 47 ->
  walk_spec e (n :: cs) None 3.
Proof.
  intros Hn Hch Hmn Hl Hh fuel m w cur nd path Hf Hv Hs Hc Hc0 Hst Hp. destruct fuel as [|[|[|fuel]]]; try lia.
  destruct (walk_child fuel m w cur nd e n e' cs path Hv Hs Hc0 Hc Hst Hp Hn Hch) as (b & n' & w' & p' & Hw' & Hb & Hfree & Hd & Hp' & ->).
  rewrite (marked_id m n n' Hs Hmn).
  destruct (follow_link (S (S fuel)) 7 m w' b n' e' t Hw' Hs Hfree Hd Hl) as (w1 & junk & [[Hw1' ->]|F]); [|discriminate F].
  rewrite bool_decide_eq_false_2 by done. cbn [mbind option_bind].
  destruct (close_ok m w1 b n' e' Hw1' Hs Hb Hfree) as (w3 & Hw3 & ->); [by constructor|]. by exists 0, w3.
Qed.

Lemma spec_nil e : walk_spec e [] (Some e) 1.
Proof.
  intros fuel m w cur n path Hf Hv Hs Hc Hc0 Hst Hp. destruct fuel as [|fuel]; [lia|].
  destruct Hp as [(_ & junk & ->)|(str & junk & Hsp & _ & _)]; [by exists cur, w; split; [|exists n]|].
  destruct (split_slash_cons str) as (h & t & E1). by rewrite E1 in Hsp.
Qed.

Lemma mnt_name_ok : name_ok mnt_name.
Proof. split; [done|cbn; lia]. Qed.

(** Every walk of the tree is what [walk] does, with enough fuel. *)
Lemma walks_ok e cs r : walks T e cs r -> exists N, walk_spec e cs r N.
Proof.
  induction 1 as [e|e n cs r Hsk Hw [N IH]|e n cs Hn Hch|e n e' cs r Hn Hch Hmn Hl Hw [N IH]|e e' em cs r Hch Hmn Hl Hw [N IH]
    |e n e' t e'' cs r Hn Hch Hmn Hl Hw1 [N1 IH1] Hw2 [N2 IH2]|e n e' t cs Hn Hch Hmn Hl Hw1 [N1 IH1]|e n e' t cs Hn Hch Hmn Hl Hh].
  - eexists. apply spec_nil.
  - eexists. by apply spec_skip.
  - eexists. by apply spec_missing.
  - eexists. eapply (spec_enter e n e' e'); try done. by left.
  - eexists. eapply (spec_enter e mnt_name e' em); try done; [apply mnt_name_ok|by apply (tk_mnt T T_ok)|by right].
  - eexists. eapply (spec_link e n e' t e''); try done. by apply (walks_not_link T _ _ _ T_ok Hw1 (tk_root T T_ok)).
  - eexists. by eapply (spec_broken e n e' t).
  - eexists. by eapply (spec_relative e n e' t).
Qed.

(** Where a path starts: at the root, or at the caller's directory. *)
Definition starts (m : gmap Z vfs_node) (base : Z) (str : list Z) (e : E) (cs : list (list Z)) : Prop :=
  (exists t, str = 47 :: t /\ e = t_root T /\ cs = split_slash t) \/
  (head str <> Some 47 /\ base <> 0 /\ (exists n, m !! base = Some n /\ stands n e) /\ cs = split_slash str).

Lemma resolves_in N m w base str junk e cs r fuel :
  valid w -> setup m -> nonzero str -> starts m base str e cs -> walk_spec e cs r N -> (S N <= fuel)%nat ->
  resolved m r (vfs_get_node_by_path mnts fuel root base (str ++ 0 :: junk) (m, w)).
Proof.
  intros Hv Hs Hz Hst HN Hf.
  destruct Hst as [(t & -> & -> & ->)|(Hh & Hb & (n & Hn & Hst) & ->)].
  - apply Forall_cons in Hz as [_ Hz]. by apply (get_root fuel N).
  - destruct fuel as [|fuel]; [lia|]. cbn [vfs_get_node_by_path].
    assert (Hc : exists c, head (str ++ 0 :: junk) = Some c /\ c <> 47) by (destruct str as [|c str]; eexists; (split; [done|]); [done|by intros ->]).
    destruct Hc as (c & -> & Hc). cbn [mbind option_bind]. rewrite (proj2 (Z.eqb_neq c 47)), (proj2 (Z.eqb_neq base 0)) by done.
    unfold vfs_clone_node. rewrite (proj2 (Z.eqb_neq base 0)) by done.
    destruct (kmalloc_node_fresh (m, w) Hv) as (a & -> & Ha & Hfree). unfold load, store_node. cbn [mbind option_bind fst snd] in *.
    rewrite Hn. cbn [mbind option_bind]. apply HN; try done; [lia|]. right. eauto.
Qed.

Lemma resolves m w base str junk e cs r :
  valid w -> setup m -> nonzero str -> starts m base str e cs -> walks T e cs r ->
  exists N, forall fuel, (N <= fuel)%nat ->
    resolved m r (vfs_get_node_by_path mnts fuel root base (str ++ 0 :: junk) (m, w)).
Proof.
  intros Hv Hs Hz Hst Hw. destruct (walks_ok e cs r Hw) as [N HN]. exists (S N). intros fuel Hf. by apply (resolves_in N m w base str junk e cs).
Qed.

(** C21 path resolution: on file systems that promise [TreeDrivers],
    [vfs_get_node_by_path] ends and finds exactly the entity the path leads to
    in the abstract tree - empty pieces and "." skipped, absolute symbolic
    links followed from the root, mount points crossed - or returns 0
    when the path leads nowhere; and when it returns, the node it found is the
    only new one: every node cloned or looked up on the way has been closed. *)
Theorem path_resolves m w base str junk e cs r :
  valid w -> setup m -> nonzero str -> starts m base str e cs -> walks T e cs r ->
  exists N, forall fuel, (N <= fuel)%nat ->
    resolved m r (vfs_get_node_by_path mnts fuel root base (str ++ 0 :: junk) (m, w)).
Proof. apply resolves. Qed.

(** C23 a symbolic link to itself: the limit of 8 links counts only links that
    follow each other in one component, but the target is resolved by a recursive call
    first; a link whose text is its own absolute path is resolved inside its
    own resolution, at every depth, and the call never returns - in the
    kernel, until the stack is exhausted. *)
Theorem symlink_loop_diverges m w name l junk base fuel :
  valid w -> setup m -> nonzero name -> ~ 47 ∈ name -> name_ok name -> (name = mnt_name -> t_mnt T = None) ->
  t_child T (t_root T) name = Some l -> t_link T l = Some (47 :: name) ->
  vfs_get_node_by_path mnts fuel root base ((47 :: name) ++ 0 :: junk) (m, w) = None.
Proof.
  intros Hv Hs Hz H47 Hn Hmn Hch Hl. revert m w junk base Hv Hs.
  induction fuel as [fuel IH] using lt_wf_ind. intros m w junk base Hv Hs. destruct fuel as [|fuel]; [done|].
  destruct (get_clone fuel base m w (name ++ 0 :: junk) Hv Hs) as (a & nr & Ha & Hfree & Hd & E1). cbn [app]. rewrite E1. clear E1.
  assert (Hsp : split_slash name = [name]).
  { clear -H47. induction name as [|c s IHs]; [done|]. cbn [split_slash]. apply not_elem_of_cons in H47 as [Hc H47].
    rewrite (proj2 (Z.eqb_neq c 47)) by congruence. by rewrite (IHs H47). }
  assert (Hp : path_for [name] (name ++ 0 :: junk)) by (right; eauto).
  destruct fuel as [|fuel]; [done|]. destruct Hn as [Hsk Hlen].
  destruct (walk_step fuel a name [] (name ++ 0 :: junk) (<[a := nr]> m, w) Hlen) as (p' & _ & _ & ->); [by intros ->|done|].
  rewrite Hsk. destruct fuel as [|fuel]; [done|]. pose proof (setup_insert m a nr Hfree Hs) as Hs'.
  destruct (finddir_plain fuel (<[a := nr]> m, w) a nr (t_root T) name Hv Hs') as (w1 & Hw1 & Hf); [cbn [fst]; apply lookup_insert_eq|done|done|].
  rewrite Hch in Hf. destruct Hf as (b & n' & Hf & Hb & Hbf & Hd'). cbn [fst] in Hf, Hbf.
  assert (Hne : b <> a) by (intros ->; by rewrite lookup_insert_eq in Hbf). rewrite lookup_insert_ne in Hbf by done.
  destruct (body_after_find (S fuel) m w w1 a nr (t_root T) name p' b (marked name n') Hw1 Hs Ha Hfree) as (w2 & Hw2 & ->);
    [by constructor|done|done|done|exact Hf|].
  rewrite (marked_id m name n' Hs Hmn).
  destruct (follow_link (S fuel) 7 m w2 b n' l (47 :: name) Hw2 Hs Hbf Hd' Hl) as (w3 & junk' & [[Hw3 ->]|F]); [|discriminate F].
  rewrite bool_decide_eq_true_2 by done. rewrite (IH (S fuel)); [done|lia|done|by apply setup_insert].
Qed.
End resolve.

(** ** A tree in memory *)

(** Inode numbers are the entities; what look-ups and links give is a function. *)
Section static.
Variable child : Z -> list Z -> option Z.
Variable link : Z -> option (list Z).

Definition static_node (i : Z) : vfs_node :=
  VNode (match link i with Some _ => VFS_SYMLINK | None => VFS_DIRECTORY end) i 0 0 1 0 0 1 0 1 0.
Definition fresh_node (s : mem unit) : Z := fresh ({[0]} ∪ dom (fst s)).

Definition static_drivers : Drivers unit := {|
  kmalloc_node s := Some (fresh_node s);
  call_read _ a _ _ s := n ← fst s !! a; t ← link (n_inode n); Some (t, s);
  call_write _ _ _ _ s := Some (0, s);
  call_open _ _ s := Some s;
  call_close _ a s := Some (delete a (fst s), snd s);
  call_readdir _ _ _ s := Some (None, s);
  call_finddir _ a name s :=
    n ← fst s !! a; nm ← content name;
    Some (match child (n_inode n) nm with
          | Some i => (fresh_node s, (<[fresh_node s := static_node i]> (fst s), snd s))
          | None => (0, s)
          end)
|}.

Hypothesis link_no_child : forall i nm, is_Some (link i) -> child i nm = None.

Definition static_tree : tree Z := Tree Z 0 child link None.

Lemma fresh_node_ok s : fresh_node s <> 0 /\ fst s !! fresh_node s = None.
Proof.
  pose proof (is_fresh ({[0]} ∪ dom (fst s) : gset Z)) as H. fold (fresh_node s) in H.
  split; [set_solver|]. apply not_elem_of_dom. set_solver.
Qed.

Lemma static_flags i f : has_flag (static_node i) f = negb (Z.land (match link i with Some _ => VFS_SYMLINK | None => VFS_DIRECTORY end) f =? 0).
Proof. done. Qed.

Program Definition static_tree_drivers : @TreeDrivers unit Z static_tree static_drivers := {|
  valid _ := True;
  denotes n i := n = static_node i;
  permanent _ := False
|}.
Next Obligation. intros s _. exists (fresh_node s). split; [done|apply fresh_node_ok]. Qed.
Next Obligation. intros n e ->. rewrite static_flags. by destruct (link e). Qed.
Next Obligation.
  intros n e ->. rewrite static_flags. cbn [t_link static_tree]. destruct (link e).
  - by rewrite bool_decide_eq_true_2 by eauto.
  - by rewrite bool_decide_eq_false_2 by by intros [? ?].
Qed.
Next Obligation.
  intros n e nm -> Hf. rewrite static_flags in Hf. destruct (link e) eqn:El; [|discriminate Hf]. apply link_no_child. eauto.
Qed.
Next Obligation.
  intros [m []] a n e nm _ Ha -> Hz _. exists tt. split; [done|]. cbn [call_finddir static_drivers fst snd] in *.
  rewrite Ha. cbn [mbind option_bind]. rewrite content_app by done. cbn [mbind option_bind n_inode static_node t_child static_tree].
  destruct (child e nm) as [i|]; [|done]. destruct (fresh_node_ok (m, tt)) as [H1 H2].
  exists (fresh_node (m, tt)), (static_node i). done.
Qed.
Next Obligation.
  intros [m []] a n e t _ Ha -> Hl. split; [done|]. exists tt. split; [done|]. cbn [call_read static_drivers fst] in *.
  rewrite Ha. cbn [mbind option_bind n_inode static_node]. cbn [t_link static_tree] in Hl. by rewrite Hl.
Qed.
Next Obligation.
  intros [m []] a n n0 e _ Ha -> Hn _ _. assert (Hc : n_close n = 1) by (by destruct Hn as [->|[r ->]]). rewrite Hc.
  split; [done|]. by exists tt.
Qed.
End static.

(** /etc/motd, /link -> /etc, /loop -> /loop. *)
Definition etc : list Z := [101; 116; 99].
Definition motd : list Z := [109; 111; 116; 100].
Definition lnk : list Z := [108; 110; 107].
Definition loop : list Z := [108; 111; 111; 112].
Definition sample_child (i : Z) (nm : list Z) : option Z :=
  if i =? 0 then
    if bool_decide (nm = etc) then Some 1 else if bool_decide (nm = lnk) then Some 3
    else if bool_decide (nm = loop) then Some 4 else None
  else if (i =? 1) && bool_decide (nm = motd) then Some 2 else None.
Definition sample_link (i : Z) : option (list Z) :=
  if i =? 3 then Some (47 :: etc) else if i =? 4 then Some (47 :: loop) else None.

Lemma sample_no_child i nm : is_Some (sample_link i) -> sample_child i nm = None.
Proof.
  unfold sample_link, sample_child. destruct (Z.eqb_spec i 3) as [->|]; [done|].
  destruct (Z.eqb_spec i 4) as [->|]; [done|]. by intros [? ?].
Qed.

Definition no_mounts : mounts := Mounts (replicate 16 (Mount (replicate 128 0) 0)) 0.
Definition sample_tree : tree Z := static_tree sample_child sample_link.
Definition sample_nodes : gmap Z vfs_node := {[ 1000 := static_node sample_link 0 ]}.

Lemma sample_tree_ok : tree_ok sample_tree.
Proof.
  constructor; [done|done|]. intros e t. cbn. unfold sample_link. destruct (e =? 3); [|destruct (e =? 4); [|done]]; intros [= <-];
    (split; [repeat constructor; done|cbn; lia]).
Qed.

Lemma sample_setup :
  @setup _ _ sample_tree _ (static_tree_drivers sample_child sample_link sample_no_child) no_mounts 1000 sample_nodes.
Proof.
  constructor; [split; [done|]; exists (static_node sample_link 0); split; [by apply lookup_singleton_Some|done]|done|done].
Qed.

(** "/lnk//./motd" leads through the link to /etc/motd. *)
Lemma path_resolves_witness :
  let d := static_drivers sample_child sample_link in
  exists N, forall fuel, (N <= fuel)%nat -> exists res w n,
    @vfs_get_node_by_path unit d no_mounts fuel 1000 0 ((47 :: lnk ++ [47; 47; 46; 47] ++ motd) ++ [0]) (sample_nodes, tt)
      = Some (res, (<[res := n]> sample_nodes, w)) /\ res <> 0 /\ n_inode n = 2.
Proof.
  intros d.
  assert (Hmotd : walks sample_tree 1 [motd] (Some 2)).
  { eapply (walks_child sample_tree 1 motd 2); [split; [done|cbn; lia]|done|done|done|]. apply walks_nil. }
  assert (Hetc : walks sample_tree 0 [etc] (Some 1)).
  { eapply (walks_child sample_tree 0 etc 1); [split; [done|cbn; lia]|done|done|done|]. apply walks_nil. }
  destruct (@path_resolves unit Z sample_tree d (static_tree_drivers sample_child sample_link sample_no_child) no_mounts 1000
    sample_tree_ok sample_nodes tt 0 (47 :: lnk ++ [47; 47; 46; 47] ++ motd) [] 0 [lnk; []; [46]; motd] (Some 2)) as [N H].
  - exact I.
  - exact sample_setup.
  - repeat constructor; discriminate.
  - left. exists (lnk ++ [47; 47; 46; 47] ++ motd). repeat split; reflexivity.
  - eapply (walks_link sample_tree 0 lnk 3 etc 1); [split; [reflexivity|cbn; lia]|reflexivity|discriminate|reflexivity|exact Hetc|].
    apply walks_skip; [reflexivity|]. apply walks_skip; [reflexivity|]. exact Hmotd.
  - exists N. intros fuel Hf. destruct (H fuel Hf) as (res & w & _ & n & E & Hres & _ & Hst).
    exists res, w, n. split; [exact E|]. split; [exact Hres|].
    inversion Hst as [n1 e1 Hd|n1 e1 r e2 _ _ F _]; [rewrite Hd; reflexivity|discriminate F].
Defined.

Lemma symlink_loop_diverges_witness :
  exists path, path = 47 :: loop /\ forall fuel, @vfs_get_node_by_path unit (static_drivers sample_child sample_link) no_mounts fuel 1000 0
    (path ++ [0]) (sample_nodes, tt) = None.
Proof.
  exists (47 :: loop). split; [reflexivity|]. intros fuel.
  apply (@symlink_loop_diverges unit Z sample_tree _ (static_tree_drivers sample_child sample_link sample_no_child) no_mounts 1000
    sample_tree_ok sample_nodes tt loop 4 [] 0 fuel).
  - exact I.
  - exact sample_setup.
  - repeat constructor; discriminate.
  - intros H. repeat (apply elem_of_cons in H as [H|H]; [discriminate H|]). by apply elem_of_nil in H.
  - split; [reflexivity|cbn; lia].
  - discriminate.
  - reflexivity.
  - reflexivity.
Defined.
