(* ===== verification/VfsMono.v ===== *)
(** * VfsMono: more fuel does not change what a path resolves to *)

From S2P Require Export VfsThm.

Section mono.
Context {W : Type} `{!Drivers W}.
Variable mnts : mounts.

Lemma vfs_finddir_mono fuel : forall node name (s : mem W) r,
  vfs_finddir mnts fuel node name s = Some r -> vfs_finddir mnts (S fuel) node name s = Some r.
Proof.
  induction fuel as [|fuel IH]; intros node name s r H; [discriminate H|].
  cbn [vfs_finddir] in H. change (vfs_finddir mnts (S (S fuel)) node name s) with
    (n ← load node s;
     if has_flag n VFS_MOUNTPOINT && negb (n_ptr n =? 0) then vfs_finddir mnts (S fuel) (n_ptr n) name s
     else if has_flag n VFS_DIRECTORY && negb (n_finddir n =? 0) then
        '(res, s) ← call_finddir (n_finddir n) node name s;
        if res =? 0 then Some (0, s) else
        c ← strcmp name mnt;
        if c =? 0 then
          m ← find_mount mnts;
          match m with
          | Some root => r ← load res s; Some (res, store_node res (mount_on root r) s)
          | None => Some (res, s)
          end
        else Some (res, s)
      else Some (0, s)).
  destruct (load node s) as [n|]; [|discriminate H]. cbn [mbind option_bind] in *.
  destruct (has_flag n VFS_MOUNTPOINT && negb (n_ptr n =? 0)); [by apply IH|exact H].
Qed.

Lemma follow_mono (get get' : Z -> list Z -> mem W -> option (Z * mem W)) root k :
  (forall b p s r, get b p s = Some r -> get' b p s = Some r) ->
  forall next s r, follow get root k next s = Some r -> follow get' root k next s = Some r.
Proof.
  intros Hg. induction k as [|k IH]; intros next s r H; cbn [follow] in *; [exact H|].
  destruct (load next s) as [n|]; [|discriminate H]. cbn [mbind option_bind] in *.
  destruct (negb (has_flag n VFS_SYMLINK)); [exact H|].
  destruct (vfs_read next 0 128 s) as [[bytes s1]|]; [|discriminate H]. cbn [mbind option_bind] in *.
  destruct (link_buffer bytes) as [link|]; [|discriminate H]. cbn [mbind option_bind] in *.
  destruct (head link) as [c|]; [|discriminate H]. cbn [mbind option_bind] in *.
  assert (E : forall x, (if c =? 47 then get root link s1 else get 0 link s1) = Some x ->
    (if c =? 47 then get' root link s1 else get' 0 link s1) = Some x) by (intros x; destruct (c =? 47); apply Hg).
  destruct (if c =? 47 then get root link s1 else get 0 link s1) as [[target s2]|]; [|discriminate H].
  rewrite (E _ eq_refl). cbn [mbind option_bind] in *.
  destruct (vfs_close next s2) as [s3|]; [|discriminate H]. cbn [mbind option_bind] in *.
  destruct (target =? 0); [exact H|by apply IH].
Qed.

(** The two equations of the resolution. *)
Lemma get_eq fuel root base path (s : mem W) :
  vfs_get_node_by_path mnts (S fuel) root base path s =
    c ← head path;
    if c =? 47 then '(current, s) ← vfs_clone_node root s; walk mnts fuel root current (tail path) s
    else if base =? 0 then Some (0, s)
    else '(current, s) ← vfs_clone_node base s; walk mnts fuel root current path s.
Proof. reflexivity. Qed.

Lemma path_walk_eq fuel root current path (s : mem W) :
  walk mnts (S fuel) root current path s =
    c ← head path;
    if c =? 0 then Some (current, s) else
    '(name, path) ← next_name path [];
    path ← skip_slash path;
    if skipped name then walk mnts fuel root current path s else
    '(next, s) ← vfs_finddir mnts fuel current (name ++ [0]) s;
    s ← vfs_close current s;
    if next =? 0 then Some (0, s) else
    '(next, s) ← follow (vfs_get_node_by_path mnts fuel root) root 8 next s;
    if next =? 0 then Some (0, s) else walk mnts fuel root next path s.
Proof. reflexivity. Qed.

Lemma resolve_mono fuel :
  (forall root base path (s : mem W) r, vfs_get_node_by_path mnts fuel root base path s = Some r ->
     vfs_get_node_by_path mnts (S fuel) root base path s = Some r) /\
  (forall root cur path (s : mem W) r, walk mnts fuel root cur path s = Some r -> walk mnts (S fuel) root cur path s = Some r).
Proof.
  induction fuel as [|fuel [IHg IHw]]; [by split; intros|]. split.
  - intros root base path s r. rewrite !get_eq. destruct (head path) as [c|]; [|intros Hd; discriminate Hd]. cbn [mbind option_bind].
    destruct (c =? 47); [|destruct (base =? 0); [exact (fun H => H)|]].
    + destruct (vfs_clone_node root s) as [[cur s1]|]; [|intros Hd; discriminate Hd]. cbn [mbind option_bind]. apply IHw.
    + destruct (vfs_clone_node base s) as [[cur s1]|]; [|intros Hd; discriminate Hd]. cbn [mbind option_bind]. apply IHw.
  - intros root cur path s r. rewrite !path_walk_eq. destruct (head path) as [c|]; [|intros Hd; discriminate Hd]. cbn [mbind option_bind].
    destruct (c =? 0); [exact (fun H => H)|]. destruct (next_name path []) as [[nm p1]|]; [|intros Hd; discriminate Hd]. cbn [mbind option_bind].
    destruct (skip_slash p1) as [p2|]; [|intros Hd; discriminate Hd]. cbn [mbind option_bind].
    destruct (skipped nm); [apply IHw|].
    destruct (vfs_finddir mnts fuel cur (nm ++ [0]) s) as [[next s1]|] eqn:Ef; [|intros Hd; discriminate Hd]. rewrite (vfs_finddir_mono _ _ _ _ _ Ef).
    cbn [mbind option_bind]. destruct (vfs_close cur s1) as [s2|]; [|intros Hd; discriminate Hd]. cbn [mbind option_bind].
    destruct (next =? 0); [exact (fun H => H)|].
    destruct (follow (vfs_get_node_by_path mnts fuel root) root 8 next s2) as [[next' s3]|] eqn:Efo; [|done].
    rewrite (follow_mono _ _ root 8 (IHg root) _ _ _ Efo). cbn [mbind option_bind].
    destruct (next' =? 0); [exact (fun H => H)|apply IHw].
Qed.

(** The results of every large enough fuel are one result. *)
Lemma resolve_uniform root base path (s : mem W) (P : option (Z * mem W) -> Prop) N :
  (forall fuel, (N <= fuel)%nat -> P (vfs_get_node_by_path mnts fuel root base path s)) ->
  (forall x, P x -> is_Some x) ->
  exists r, P (Some r) /\ forall fuel, (N <= fuel)%nat -> vfs_get_node_by_path mnts fuel root base path s = Some r.
Proof.
  intros H Hs. destruct (Hs _ (H N (le_n N))) as [r E]. exists r. split; [rewrite <- E; by apply H|].
  intros fuel Hf. induction Hf as [|fuel Hf IH]; [exact E|]. by apply (proj1 (resolve_mono fuel)).
Qed.
End mono.
