(* ===== verification/Shell.v ===== *)
(** * Shell: the command line (kernel/ui/shell.c, include/shell.h)

    The line editor with its history, and the commands.  The console, the
    clock, the file system and the other parts the commands call are the
    interface [ShellEnv]; a string argument is its characters with the NUL. *)

From S2P Require Export CString Vfs.
From Stdlib Require Ascii String.
Import String.StringSyntax.
Delimit Scope string_scope with string.

Definition BUFFER_SIZE : Z := 256.
Definition HISTORY_MAX : Z := 10.

(** The working directory and the activity flag, which the commands change; and
    the line editor around them. *)
Record dir := Dir { shell_cwd_path : list Z; shell_cwd_node : Z; shell_active : Z }.
Record shell := Shell {
  input_buffer : list Z; buffer_idx : Z; history_buffer : list (list Z); history_count : Z; history_nav_idx : Z; shell_dir : dir
}.

Definition with_path (p : list Z) (d : dir) : dir := Dir p (shell_cwd_node d) (shell_active d).
Definition with_node (n : Z) (d : dir) : dir := Dir (shell_cwd_path d) n (shell_active d).
Definition with_active (a : Z) (d : dir) : dir := Dir (shell_cwd_path d) (shell_cwd_node d) a.
Definition with_input (b : list Z) (i : Z) (s : shell) : shell :=
  Shell b i (history_buffer s) (history_count s) (history_nav_idx s) (shell_dir s).
Definition with_history (h : list (list Z)) (n : Z) (s : shell) : shell :=
  Shell (input_buffer s) (buffer_idx s) h n (history_nav_idx s) (shell_dir s).
Definition with_nav (n : Z) (s : shell) : shell :=
  Shell (input_buffer s) (buffer_idx s) (history_buffer s) (history_count s) n (shell_dir s).
Definition with_dir (d : dir) (s : shell) : shell :=
  Shell (input_buffer s) (buffer_idx s) (history_buffer s) (history_count s) (history_nav_idx s) d.

(** The bytes of a literal, and of one that ends in a newline. *)
Definition bytes_of (s : String.string) : list Z := map (fun a => Z.of_N (Ascii.N_of_ascii a)) (String.list_ascii_of_string s).
Definition lit (s : String.string) : list Z := bytes_of s ++ [0].
Definition line (s : String.string) : list Z := bytes_of s ++ [10; 0].
Arguments bytes_of s%_string.
Arguments lit s%_string.
Arguments line s%_string.

(** What the shell calls; [K] is the rest of the kernel.  A null node is 0. *)
Class ShellEnv (K : Type) := {
  put_char : Z -> K -> option K; put_str : list Z -> K -> option K; put_int : Z -> K -> option K; clear_scr : K -> option K;
  set_cursor : Z -> Z -> K -> option K; vbe_is_active : K -> bool; start_graphics : K -> option K;
  timer_get_seconds : K -> Z; timer_get_ticks : K -> Z; sleep : Z -> K -> option K; pci_init : K -> option K;
  pmm_total_memory_kb : K -> Z; pmm_total_frames : K -> Z; pmm_used_frames : K -> Z; pmm_free_frames : K -> Z;
  vfs_root : K -> Z; vfs_get_node_by_path : Z -> list Z -> K -> option (Z * K); node_flags : Z -> K -> option Z; node_inode : Z -> K -> option Z;
  vfs_readdir : Z -> Z -> K -> option (option (list Z) * K); vfs_finddir : Z -> list Z -> K -> option (Z * K);
  stack_bytes : Z -> K -> list Z; vfs_read : Z -> Z -> Z -> list Z -> K -> option (Z * list Z * K); vfs_close : Z -> K -> option K;
  pafs_mkdir : Z -> list Z -> K -> option (Z * K); pafs_create : Z -> list Z -> Z -> K -> option (Z * K);
  pafs_delete : Z -> list Z -> K -> option (Z * K); pafs_format : K -> option K;
  elf_load : Z -> list Z -> K -> option (Z * K); create_task : list Z -> Z -> Z -> K -> option K;
  outb : Z -> Z -> K -> option K; alloc_frame : K -> option (Z * K); store16 : Z -> Z -> K -> option K; ac97_play : Z -> Z -> K -> option K
}.

(** A [char] as a number. *)
Definition i8 (z : Z) : Z := (z + 128) mod 256 - 128.

Fixpoint strncmp_loop (n : nat) (s1 s2 : list Z) : option Z :=
  match n with
  | O => Some 0
  | S n =>
      match s1, s2 with
      | c1 :: s1, c2 :: s2 => if negb (c1 =? c2) then Some (i8 c1 - i8 c2) else if c1 =? 0 then Some 0 else strncmp_loop n s1 s2
      | _, _ => None
      end
  end.
Definition strncmp (s1 s2 : list Z) (n : Z) : option Z := strncmp_loop (Z.to_nat n) s1 s2.

Fixpoint atoi_loop (s : list Z) (result : Z) : option Z :=
  match s with
  | [] => None
  | c :: s => if (48 <=? c) && (c <=? 57) then atoi_loop s (i32 (result * 10 + (c - 48))) else Some result
  end.
Definition atoi (s : list Z) : option Z := atoi_loop s 0.

(** [strcpy] into a buffer from [i] on, a character at a time. *)
Fixpoint copy_at (i : Z) (src dest : list Z) : option (list Z) :=
  match src with
  | [] => None
  | c :: src => d ← aset dest i c; if c =? 0 then Some d else copy_at (i + 1) src d
  end.

Section shell.
Context {K : Type} `{!ShellEnv K}.
Notation st := (shell * K)%type.

Definition print_prompt (d : dir) (k : K) : option K :=
  k ← put_str (lit "fash ") k; k ← put_str (shell_cwd_path d) k; put_str (lit "> ") k.

Definition init_shell (s : st) : option st :=
  let '(sh, k) := s in
  b ← for_do 0 BUFFER_SIZE (fun i b => aset b i 0) (input_buffer sh);
  let d := with_node (vfs_root k) (shell_dir sh) in
  k ← print_prompt d k;
  Some (Shell b 0 (history_buffer sh) 0 0 d, k).


(** ** The commands *)

(** The messages of one command, one after the other. *)
Fixpoint put_strs (ss : list (list Z)) (k : K) : option K :=
  match ss with [] => Some k | s :: ss => k ← put_str s k; put_strs ss k end.

Definition cmd_help (k : K) : option K :=
  put_strs [
    line "Komutlar:";
    line "  help     - Bu yardim mesajini goster";
    line "  clear    - Ekrani temizle";
    line "  version  - Sistem surumunu goster";
    line "  uptime   - Sistemin calisme suresini goster";
    line "  pci      - PCI aygitlarini tara ve listele";
    line "  ticks    - Zamanlayici tick sayisini goster";
    line "  mem      - Bellek istatistiklerini goster";
    line "  sleep N  - N milisaniye bekle (ornek: sleep 1000)";
    line "  echo ... - Mesaji ekrana yaz";
    line "  ls [path]- Dizini listele";
    line "  cd path  - Dizini degistir (.. desteklenir)";
    line "  mkdir p  - 'p' adinda dizin olustur";
    line "  rm f     - 'f' dosyasini sil";
    line "  rmdir d  - 'd' dizinini sil (bos olmali)";
    line "  touch f  - 'f' adinda dosya olustur";
    line "  write f t- 'f' dosyasina 't' metnini yaz";
    line "  cat f    - 'f' dosyasini oku";
    line "  exec f   - 'f' ELF dosyasini calistir";
    line "  vinit    - Gorsel modunu baslat";
    line "  format   - Diski bicimlendir (SIFIRLA)";
    line "  reboot   - Sistemi yeniden baslat"] k.

Definition cmd_uptime (k : K) : option K :=
  let total_secs := timer_get_seconds k in
  k ← put_str (lit "Sistem calisme suresi: ") k; k ← put_int (i32 (total_secs / 60)) k;
  k ← put_str (lit " dakika, ") k; k ← put_int (i32 (total_secs mod 60)) k;
  k ← put_str (lit " saniye (") k; k ← put_int (i32 (timer_get_ticks k)) k; put_str (line " tick)") k.

Definition cmd_mem (k : K) : option K :=
  k ← put_str (line "--- Bellek Istatistikleri ---") k;
  k ← put_str (lit "Toplam Bellek: ") k; k ← put_int (i32 (pmm_total_memory_kb k / 1024)) k;
  k ← put_str (lit " MB (") k; k ← put_int (i32 (pmm_total_memory_kb k)) k; k ← put_str (line " KB)") k;
  k ← put_str (lit "Toplam Frame (4KB): ") k; k ← put_int (i32 (pmm_total_frames k)) k; k ← put_str [10; 0] k;
  k ← put_str (lit "Kullanilan Frame: ") k; k ← put_int (i32 (pmm_used_frames k)) k;
  k ← put_str (lit " (") k; k ← put_int (i32 (u32 (pmm_used_frames k * 4) / 1024)) k; k ← put_str (line " MB)") k;
  k ← put_str (lit "Bos Frame: ") k; k ← put_int (i32 (pmm_free_frames k)) k;
  k ← put_str (lit " (") k; k ← put_int (i32 (u32 (pmm_free_frames k * 4) / 1024)) k; put_str (line " MB)") k.

Definition cmd_sleep (arg : list Z) (k : K) : option K :=
  ms ← atoi arg;
  if ms <=? 0 then put_str (line "Kullanim: sleep <milisaniye> (ornek: sleep 1000)") k
  else
    k ← put_str (lit "Bekleniyor: ") k; k ← put_int ms k; k ← put_str (line " ms...") k;
    k ← sleep ms k; put_str (line "Tamamlandi.") k.

(** [while ((dirent = vfs_readdir(dir, i)))] *)
Fixpoint ls_loop (fuel : nat) (dir i : Z) (k : K) : option K :=
  match fuel with
  | O => None
  | S fuel =>
      '(dirent, k) ← vfs_readdir dir i k;
      match dirent with
      | None => Some k
      | Some name =>
          k ← put_str name k;
          '(file_node, k) ← vfs_finddir dir name k;
          k ← (if negb (file_node =? 0) then
                 flags ← node_flags file_node k;
                 k ← (if negb (Z.land flags VFS_DIRECTORY =? 0) then put_str (lit "/") k else Some k);
                 vfs_close file_node k
               else Some k);
          k ← put_str (lit "  ") k;
          ls_loop fuel dir (i32 (i + 1)) k
      end
  end.

(** A node that is there and a directory. *)
Definition is_dir (node : Z) (k : K) : option bool :=
  if node =? 0 then Some false else flags ← node_flags node k; Some (negb (Z.land flags VFS_DIRECTORY =? 0)).

Definition cmd_ls (fuel : nat) (cmd : list Z) (d : dir) (k : K) : option K :=
  len ← strlen cmd;
  c ← (if 3 <? len then aget cmd 2 else Some 0);
  let path := if (3 <? len) && (c =? 32) then drop 3 cmd else lit "." in
  '(node, k) ← vfs_get_node_by_path (shell_cwd_node d) path k;
  isdir ← is_dir node k;
  if (isdir : bool) then
    k ← ls_loop fuel node 0 k;
    k ← put_str [10; 0] k;
    if negb (node =? vfs_root k) && negb (node =? shell_cwd_node d) then vfs_close node k else Some k
  else put_str (line "Hata: Dizin bulunamadi.") k.

Definition cmd_mkdir (dirname : list Z) (d : dir) (k : K) : option K :=
  inode ← node_inode (shell_cwd_node d) k;
  '(r, k) ← pafs_mkdir inode dirname k;
  if negb (r =? -1) then put_str (line "Dizin olusturuldu.") k else put_str (line "Hata: Dizin olusturulamadi.") k.

Definition cmd_touch (filename : list Z) (d : dir) (k : K) : option K :=
  len ← strlen filename;
  if len =? 0 then put_str (line "Kullanim: touch <dosya_adi>") k
  else
    inode ← node_inode (shell_cwd_node d) k;
    '(ino, k) ← pafs_create inode filename 0 k;
    if negb (ino =? -1) then k ← put_str (lit "Dosya olusturuldu: ") k; k ← put_str filename k; put_str [10; 0] k
    else put_str (line "Hata: Dosya olusturulamadi.") k.

Definition cmd_cat (path : list Z) (d : dir) (k : K) : option K :=
  '(node, k) ← vfs_get_node_by_path (shell_cwd_node d) path k;
  if negb (node =? 0) then
    '(n, buf, k) ← vfs_read node 0 1023 (stack_bytes 1024 k) k;
    buf ← aset buf (i32 n) 0;
    k ← put_str buf k;
    k ← put_str [10; 0] k;
    if negb (node =? vfs_root k) && negb (node =? shell_cwd_node d) then vfs_close node k else Some k
  else put_str (line "Hata: Dosya bulunamadi.") k.

Definition cmd_exec (filename : list Z) (d : dir) (k : K) : option (dir * K) :=
  len ← strlen filename;
  if len =? 0 then k ← put_str (line "Kullanim: exec <dosya_adi>") k; Some (d, k)
  else
    '(entry, k) ← elf_load (shell_cwd_node d) filename k;
    if negb (entry =? -1) then
      k ← put_str (line "Program baslatiliyor...") k;
      k ← create_task filename (u32 entry) 1 k;
      Some (with_active 0 d, k)
    else k ← put_str (line "Hata: ELF yuklenemedi.") k; Some (d, k).

(** [while (i >= 0 && p[i] != '/') i--;] from [i = n - 1] on *)
Fixpoint back_to_slash (n : nat) (p : list Z) : option Z :=
  match n with
  | O => Some (-1)
  | S n => c ← aget p (Z.of_nat n); if negb (c =? 47) then back_to_slash n p else Some (Z.of_nat n)
  end.

(** The path of the parent directory, cut out of the text. *)
Definition cut_path (p : list Z) : option (list Z) :=
  len ← strlen p;
  let i := len - 1 in
  c ← aget p i;
  let i := if c =? 47 then i - 1 else i in
  i ← back_to_slash (Z.to_nat (i + 1)) p;
  let i := if i <? 0 then 0 else i in
  p ← aset p (i + 1) 0;
  if i =? 0 then aset p 1 0 else Some p.

(** [if (shell_cwd_node != vfs_root) vfs_close(shell_cwd_node); shell_cwd_node = node;] *)
Definition change_node (node : Z) (d : dir) (k : K) : option (dir * K) :=
  k ← (if negb (shell_cwd_node d =? vfs_root k) then vfs_close (shell_cwd_node d) k else Some k);
  Some (with_node node d, k).

Definition cd_up (d : dir) (k : K) : option (dir * K) :=
  r ← strcmp (shell_cwd_path d) (lit "/");
  if negb (r =? 0) then
    p ← cut_path (shell_cwd_path d);
    let d := with_path p d in
    '(new_node, k) ← vfs_get_node_by_path (vfs_root k) p k;
    if negb (new_node =? 0) then change_node new_node d k else Some (d, k)
  else Some (d, k).

(** The new text of the working directory. *)
Definition path_update (path p : list Z) : option (list Z) :=
  c ← aget path 0;
  if c =? 47 then copy_at 0 path p
  else
    len ← strlen p;
    c ← aget p (len - 1);
    if negb (c =? 47) then p ← aset p len 47; copy_at (len + 1) path p else copy_at len path p.

Definition cmd_cd (path : list Z) (d : dir) (k : K) : option (dir * K) :=
  r ← strcmp path (lit "..");
  if r =? 0 then cd_up d k
  else
    '(node, k) ← vfs_get_node_by_path (shell_cwd_node d) path k;
    isdir ← is_dir node k;
    if (isdir : bool) then
      '(d, k) ← change_node node d k;
      p ← path_update path (shell_cwd_path d);
      Some (with_path p d, k)
    else
      k ← put_str (line "Hata: Dizin bulunamadi.") k;
      k ← (if negb (node =? 0) then vfs_close node k else Some k);
      Some (d, k).

Definition cmd_rm (filename : list Z) (d : dir) (k : K) : option K :=
  inode ← node_inode (shell_cwd_node d) k;
  '(r, k) ← pafs_delete inode filename k;
  if r =? 0 then put_str (line "Dosya silindi.") k else put_str (line "Hata: Dosya silinemedi.") k.

Definition cmd_rmdir (dirname : list Z) (d : dir) (k : K) : option K :=
  inode ← node_inode (shell_cwd_node d) k;
  '(res, k) ← pafs_delete inode dirname k;
  if res =? 0 then put_str (line "Dizin silindi.") k
  else if res =? -2 then put_str (line "Hata: Dizin bos degil.") k
  else put_str (line "Hata: Dizin silinemedi.") k.

(** Two samples, left and right, for each even [i] below 2048. *)
Definition beep_samples (pcm : Z) (k : K) : option K :=
  for_do 0 1024 (fun j k =>
    let i := 2 * j in
    let val := if (i / 50) mod 2 =? 0 then 8000 else -8000 in
    k ← store16 (u32 (pcm + 2 * i)) val k;
    store16 (u32 (pcm + 2 * (i + 1))) val k) k.

Definition cmd_beep (k : K) : option K :=
  k ← put_str (line "AC97 Ses Testi (Bip) baslatiliyor...") k;
  '(buf_phys, k) ← alloc_frame k;
  let pcm := u32 (buf_phys * 4096) in
  k ← beep_samples pcm k;
  k ← ac97_play pcm 4096 k;
  put_str (line "Ses DMA'ya gonderildi.") k.

(** The chain of comparisons: the first command whose name, or whose name and
    space, the line is or begins with. *)
Definition is_cmd (cmd : list Z) (name : list Z) : option bool := r ← strcmp cmd name; Some (r =? 0).
Definition begins (cmd : list Z) (name : list Z) (n : Z) : option bool := r ← strncmp cmd name n; Some (r =? 0).

(** A command that leaves the working directory alone. *)
Definition keep (d : dir) (r : option K) : option (dir * K) := k ← r; Some (d, k).

Notation "'if?' c 'then' a 'else' b" := (x ← c; if (x : bool) then a else b) (at level 200, c at level 99, right associativity).

Definition execute_command (fuel : nat) (cmd : list Z) (d : dir) (k : K) : option (dir * K) :=
  len ← strlen cmd;
  if len =? 0 then Some (d, k) else
  if? is_cmd cmd (lit "help") then keep d (cmd_help k) else
  if? is_cmd cmd (lit "clear") then keep d (k ← clear_scr k; set_cursor 0 0 k) else
  if? is_cmd cmd (lit "version") then keep d (put_str (line "PekerOS v0.2 - Shell: fash v0.1") k) else
  if? is_cmd cmd (lit "uptime") then keep d (cmd_uptime k) else
  if? is_cmd cmd (lit "pci") then keep d (pci_init k) else
  if? is_cmd cmd (lit "ticks") then
    keep d (k ← put_str (lit "Toplam tick: ") k; k ← put_int (i32 (timer_get_ticks k)) k; put_str [10; 0] k) else
  if? is_cmd cmd (lit "mem") then keep d (cmd_mem k) else
  if? begins cmd (lit "sleep ") 6 then keep d (cmd_sleep (drop 6 cmd) k) else
  if? begins cmd (lit "echo ") 5 then keep d (put_strs [drop 5 cmd; [10; 0]] k) else
  if? is_cmd cmd (lit "echo") then keep d (put_str [10; 0] k) else
  if? is_cmd cmd (lit "vinit") then keep d (k ← put_str (line "Gorsel mod baslatiliyor...") k; start_graphics k) else
  if? begins cmd (lit "ls") 2 then keep d (cmd_ls fuel cmd d k) else
  if? begins cmd (lit "mkdir ") 6 then keep d (cmd_mkdir (drop 6 cmd) d k) else
  if? begins cmd (lit "touch ") 6 then keep d (cmd_touch (drop 6 cmd) d k) else
  if? begins cmd (lit "cat ") 4 then keep d (cmd_cat (drop 4 cmd) d k) else
  if? begins cmd (lit "exec ") 5 then cmd_exec (drop 5 cmd) d k else
  if? begins cmd (lit "cd ") 3 then cmd_cd (drop 3 cmd) d k else
  if? begins cmd (lit "rm ") 3 then keep d (cmd_rm (drop 3 cmd) d k) else
  if? begins cmd (lit "rmdir ") 6 then keep d (cmd_rmdir (drop 6 cmd) d k) else
  if? is_cmd cmd (lit "reboot") then keep d (k ← put_str (line "Sistem yeniden baslatiliyor...") k; outb 100 254 k) else
  if? is_cmd cmd (lit "beep") then keep d (cmd_beep k) else
  if? is_cmd cmd (lit "format") then
    keep d (k ← put_str (line "PAFS bicimlendiriliyor...") k; k ← pafs_format k;
            put_str (line "Disk temizlendi. Lutfen 'reboot' yaparak sistemi yenileyin.") k) else
  keep d (put_strs [lit "Hata: Bilinmeyen komut '"; cmd; line "'. 'help' yazarak komutlari gorebilirsiniz."] k).

(** ** The line editor *)

(** [history_buffer[row][i] = c] *)
Definition copy_char (row i : Z) (c : option Z) (h : list (list Z)) : option (list (list Z)) :=
  c ← c; r ← aget h row; r ← aset r i c; aset h row r.

(** The history gets the line unless it is empty or the last one again. *)
Definition add_history (s : shell) : option shell :=
  if negb (0 <? buffer_idx s) then Some s else
  add ← (if history_count s =? 0 then Some true
         else h ← aget (history_buffer s) (history_count s - 1); r ← strcmp h (input_buffer s); Some (negb (r =? 0)));
  if negb (add : bool) then Some s else
  let copy (row : Z) (h : list (list Z)) :=
    for_do 0 (buffer_idx s + 1) (fun i h => copy_char row i (aget (input_buffer s) i) h) h in
  if history_count s <? HISTORY_MAX then
    h ← copy (history_count s) (history_buffer s); Some (with_history h (history_count s + 1) s)
  else
    h ← for_do 0 (HISTORY_MAX - 1) (fun i h =>
          for_do 0 BUFFER_SIZE (fun j h => copy_char i j (next ← aget h (i + 1); aget next j) h) h) (history_buffer s);
    h ← copy (HISTORY_MAX - 1) h; Some (with_history h (history_count s) s).

(** [while (buffer_idx > 0) { put_char('\b'); buffer_idx--; }] *)
Definition erase (s : st) : option st :=
  k ← for_do 0 (buffer_idx (fst s)) (fun _ k => put_char 8 k) (snd s);
  Some (with_input (input_buffer (fst s)) 0 (fst s), k).

(** The loop that shows an entry of the history: its characters up to the NUL. *)
Fixpoint recall_loop (row : list Z) (i : Z) (b : list Z) (k : K) : option (list Z * Z * K) :=
  match row with
  | [] => None
  | c :: row => if c =? 0 then Some (b, i, k) else b ← aset b i c; k ← put_char c k; recall_loop row (i + 1) b k
  end.
Definition recall (s : st) : option st :=
  row ← aget (history_buffer (fst s)) (history_nav_idx (fst s));
  '(b, i, k) ← recall_loop row 0 (input_buffer (fst s)) (snd s);
  b ← aset b i 0;
  Some (with_input b i (fst s), k).

Definition shell_newline (fuel : nat) (s : st) : option st :=
  let '(sh, k) := s in
  k ← put_char 10 k;
  b ← aset (input_buffer sh) (buffer_idx sh) 0;
  sh ← add_history (with_input b (buffer_idx sh) sh);
  cmd ← content b;
  '(d, k) ← execute_command fuel (cmd ++ [0]) (shell_dir sh) k;
  b ← for_do 0 BUFFER_SIZE (fun i b => aset b i 0) b;
  let sh := with_dir d (with_nav (history_count sh) (with_input b 0 sh)) in
  if negb (shell_active d =? 0) then k ← print_prompt d k; Some (sh, k) else Some (sh, k).

Definition shell_input (fuel : nat) (c : Z) (s : st) : option st :=
  let '(sh, k) := s in
  if vbe_is_active k then Some s else
  if c =? 10 then shell_newline fuel s
  else if c =? 0x11 then
    if (0 <? history_count sh) && (0 <? history_nav_idx sh) then
      s ← erase (with_nav (history_nav_idx sh - 1) sh, k); recall s
    else Some s
  else if c =? 0x12 then
    if history_nav_idx sh <? history_count sh then
      '(sh, k) ← erase (with_nav (history_nav_idx sh + 1) sh, k);
      if history_nav_idx sh =? history_count sh then b ← aset (input_buffer sh) 0 0; Some (with_input b 0 sh, k)
      else recall (sh, k)
    else Some s
  else if c =? 8 then
    if 0 <? buffer_idx sh then
      b ← aset (input_buffer sh) (buffer_idx sh - 1) 0; k ← put_char 8 k; Some (with_input b (buffer_idx sh - 1) sh, k)
    else Some s
  else if buffer_idx sh <? BUFFER_SIZE - 1 then
    b ← aset (input_buffer sh) (buffer_idx sh) c; k ← put_char c k; Some (with_input b (buffer_idx sh + 1) sh, k)
  else Some s.

Fixpoint shell_inputs (fuel : nat) (cs : list Z) (s : st) : option st :=
  match cs with [] => Some s | c :: cs => s ← shell_input fuel c s; shell_inputs fuel cs s end.

End shell.
