(* ===== verification/ShellEdit.v ===== *)
(** * ShellEdit: the line editor and its history

    The shell's keys over its fixed buffers refine an editor over a line and a
    list of the last ten lines. *)

From S2P Require Export Shell.
Import String.StringSyntax.

Section editor.
Context {K : Type} `{!ShellEnv K}.
Notation st := (shell * K)%type.

(** ** The editor as it should be *)

Record editor := Editor { e_line : list Z; e_hist : list (list Z); e_nav : nat }.

Fixpoint put_all (cs : list Z) (k : K) : option K :=
  match cs with [] => Some k | c :: cs => k ← put_char c k; put_all cs k end.

(** The last ten lines, none empty, no two successive ones the same. *)
Definition remember (l : list Z) (h : list (list Z)) : list (list Z) :=
  if bool_decide (l = [] \/ last h = Some l) then h
  else let h := h ++ [l] in drop (length h - 10) h.

Definition edit (fuel : nat) (c : Z) (s : editor * dir * K) : option (editor * dir * K) :=
  let '(e, x, k) := s in
  let show (l : list Z) (n : nat) := k ← put_all (replicate (length (e_line e)) 8) k; k ← put_all l k; Some (Editor l (e_hist e) n, x, k) in
  if vbe_is_active k then Some s else
  if c =? 10 then
    k ← put_char 10 k;
    '(x, k) ← execute_command fuel (e_line e ++ [0]) x k;
    let h := remember (e_line e) (e_hist e) in
    let e := Editor [] h (length h) in
    if negb (shell_active x =? 0) then k ← print_prompt x k; Some (e, x, k) else Some (e, x, k)
  else if c =? 0x11 then
    match e_nav e with
    | O => Some s
    | S n => show (default [] (e_hist e !! n)) n
    end
  else if c =? 0x12 then
    if (e_nav e <? length (e_hist e))%nat then show (default [] (e_hist e !! S (e_nav e))) (S (e_nav e)) else Some s
  else if c =? 8 then
    match e_line e with
    | [] => Some s
    | l => k ← put_char 8 k; Some (Editor (removelast l) (e_hist e) (e_nav e), x, k)
    end
  else if (length (e_line e) <? 255)%nat then k ← put_char c k; Some (Editor (e_line e ++ [c]) (e_hist e) (e_nav e), x, k)
  else Some s.

Fixpoint edits (fuel : nat) (cs : list Z) (s : editor * dir * K) : option (editor * dir * K) :=
  match cs with [] => Some s | c :: cs => s ← edit fuel c s; edits fuel cs s end.

(** ** The editor in its buffers *)

Definition line_ok (l : list Z) : Prop := (length l <= 255)%nat /\ nonzero l.

Definition history_in (rows : list (list Z)) (n : Z) (h : list (list Z)) : Prop :=
  length rows = 10%nat /\ Forall (fun r => length r = 256%nat) rows /\ n = Z.of_nat (length h) /\ (length h <= 10)%nat /\
  forall i l, h !! i = Some l -> line_ok l /\ exists r, rows !! i = Some r /\ content r = Some l.

(** A line in its buffer. *)
Definition line_in (b : list Z) (l : list Z) : Prop := length b = 256%nat /\ take (length l) b = l /\ line_ok l.

Record edits_in (sh : shell) (e : editor) (x : dir) : Prop := {
  ei_line : line_in (input_buffer sh) (e_line e);
  ei_idx : buffer_idx sh = Z.of_nat (length (e_line e));
  ei_hist : history_in (history_buffer sh) (history_count sh) (e_hist e);
  ei_nav : history_nav_idx sh = Z.of_nat (e_nav e) /\ (e_nav e <= length (e_hist e))%nat;
  ei_dir : shell_dir sh = x
}.

Lemma content_take b l : take (length l) b = l -> nonzero l -> b !! length l = Some 0 -> content b = Some l.
Proof.
  revert b. induction l as [|c l IH]; intros b Ht Hz Hb; (destruct b as [|c' b]; [done|]); cbn in *; [by injection Hb as ->|].
  injection Ht as -> Ht. apply Forall_cons in Hz as [Hc Hz]. rewrite (proj2 (Z.eqb_neq c 0)) by done. by rewrite (IH b Ht Hz Hb).
Qed.

Lemma content_prefix r l : content r = Some l -> take (length l) r = l /\ r !! length l = Some 0 /\ nonzero l.
Proof.
  revert l. induction r as [|c r IH]; intros l H; cbn in H; [done|]. destruct (Z.eqb_spec c 0) as [->|Hc].
  - injection H as <-. split_and!; [done|done|constructor].
  - destruct (content r) as [l'|]; [|done]. injection H as <-. destruct (IH l' eq_refl) as (H1 & H2 & H3). cbn. rewrite H1. split_and!; [done|done|by constructor].
Qed.

Lemma zero_buffer (b : list Z) : length b = 256%nat -> for_do 0 BUFFER_SIZE (fun i b => aset b i 0) b = Some (replicate 256 0).
Proof.
  intros Hb. destruct (for_do_rule (fun i b' => length b' = 256%nat /\ forall j : nat, Z.of_nat j < i -> b' !! j = Some 0) 0 BUFFER_SIZE (fun i b => aset b i 0) b)
    as (b' & E & Hl & Hz); [by vm_compute|split; [done|]; intros; lia| |].
  - unfold BUFFER_SIZE. intros i b' Hi [Hl Hz]. rewrite aset_eq by lia. eexists. split; [done|]. split; [by rewrite length_insert|]. intros j Hj.
    destruct (decide (j = Z.to_nat i)) as [->|]; [rewrite list_lookup_insert_eq; [done|lia]|]. rewrite list_lookup_insert_ne by done. apply Hz. lia.
  - rewrite E. f_equal. apply list_eq. intros j. destruct (decide (j < 256)%nat) as [Hj|Hj].
    + rewrite Hz by (unfold BUFFER_SIZE; lia). symmetry. by apply lookup_replicate.
    + rewrite !lookup_ge_None_2; [done|rewrite length_replicate; lia|lia].
Qed.

(** A row of the history is overwritten from another list. *)
Lemma copy_row (get : Z -> list (list Z) -> option Z) (src : list Z) row (h : list (list Z)) r n :
  0 <= row -> h !! Z.to_nat row = Some r -> 0 <= n <= Z.of_nat (length src) -> n <= Z.of_nat (length r) ->
  (forall j r', 0 <= j < n -> get j (<[Z.to_nat row := r']> h) = aget src j) ->
  for_do 0 n (fun i h => copy_char row i (get i h) h) h = Some (<[Z.to_nat row := take (Z.to_nat n) src ++ drop (Z.to_nat n) r]> h).
Proof.
  intros Hrow Hr Hn Hnr Hget. pose proof (lookup_lt_Some _ _ _ Hr) as Hlt.
  destruct (for_do_rule (fun i h' => h' = <[Z.to_nat row := take (Z.to_nat i) src ++ drop (Z.to_nat i) r]> h) 0 n
    (fun i h => copy_char row i (get i h) h) h) as (h' & E & ->); [lia| | |exact E].
  - cbn. rewrite drop_0. by rewrite list_insert_id.
  - intros i h' Hi ->. unfold copy_char. rewrite Hget by done. destruct (aget_is_Some src i) as [c Hc]; [lia|]. rewrite Hc. cbn [mbind option_bind].
    rewrite (aget_pos _ row) by lia. rewrite list_lookup_insert_eq by done. cbn [mbind option_bind]. rewrite aget_pos in Hc by lia.
    rewrite aset_eq by (rewrite length_app, length_take, length_drop; lia). cbn [mbind option_bind]. rewrite aset_eq by (rewrite length_insert; lia).
    eexists. split; [done|]. rewrite list_insert_insert_eq. f_equal. replace (Z.to_nat (i + 1)) with (S (Z.to_nat i)) by lia.
    rewrite (take_S_r _ _ c) by done. rewrite insert_app_r_alt by (rewrite length_take; lia). rewrite length_take, Nat.min_l by lia. rewrite Nat.sub_diag.
    destruct (drop (Z.to_nat i) r) as [|d t] eqn:Ed; [apply (f_equal length) in Ed; rewrite length_drop in Ed; cbn in Ed; lia|].
    rewrite <- app_assoc. cbn. do 2 f_equal. replace (S (Z.to_nat i)) with (Z.to_nat i + 1)%nat by lia. by rewrite <- drop_drop, Ed.
Qed.

(** The history moves up by one row. *)
Lemma shift_rows (h : list (list Z)) : length h = 10%nat -> Forall (fun r => length r = 256%nat) h ->
  exists h', for_do 0 (HISTORY_MAX - 1) (fun i h => for_do 0 BUFFER_SIZE (fun j h => copy_char i j (next ← aget h (i + 1); aget next j) h) h) h = Some h' /\
    length h' = 10%nat /\ Forall (fun r => length r = 256%nat) h' /\ forall i : nat, (i < 9)%nat -> h' !! i = h !! S i.
Proof.
  intros Hl Hr. destruct (for_do_rule (fun i h' => length h' = 10%nat /\ Forall (fun r => length r = 256%nat) h' /\
      (forall j : nat, Z.of_nat j < i -> h' !! j = h !! S j) /\ (forall j : nat, i <= Z.of_nat j -> h' !! j = h !! j)) 0 (HISTORY_MAX - 1)
    (fun i h => for_do 0 BUFFER_SIZE (fun j h => copy_char i j (next ← aget h (i + 1); aget next j) h) h) h) as (h' & E & H1 & H2 & H3 & _).
  - by vm_compute.
  - split_and!; try done. intros; lia.
  - unfold HISTORY_MAX, BUFFER_SIZE. intros i h' Hi (H1 & H2 & H3 & H4).
    destruct (lookup_lt_is_Some_2 h' (Z.to_nat i) ltac:(lia)) as [r Er]. destruct (lookup_lt_is_Some_2 h' (Z.to_nat (i + 1)) ltac:(lia)) as [src Es].
    pose proof (Forall_lookup_1 _ _ _ _ H2 Er) as Lr. pose proof (Forall_lookup_1 _ _ _ _ H2 Es) as Ls. cbn in Lr, Ls.
    rewrite (copy_row (fun j h => next ← aget h (i + 1); aget next j) src i h' r 256) by (try lia; try done; intros j r' Hj;
      rewrite (aget_pos (<[Z.to_nat i := r']> h')), list_lookup_insert_ne by lia; by rewrite Es).
    eexists. split; [done|]. rewrite take_ge, drop_ge, app_nil_r by lia. split; [by rewrite length_insert|]. split; [by apply Forall_insert|]. split.
    + intros j Hj. destruct (decide (j = Z.to_nat i)) as [->|Hne].
      * rewrite list_lookup_insert_eq by lia. rewrite <- Es, H4 by lia. f_equal. lia.
      * rewrite list_lookup_insert_ne by done. apply H3. lia.
    + intros j Hj. rewrite list_lookup_insert_ne by lia. apply H4. lia.
  - exists h'. split; [exact E|]. split; [done|]. split; [done|]. intros i Hi. apply H3. unfold HISTORY_MAX. lia.
Qed.

Lemma line_row b l r : line_in b l -> b !! length l = Some 0 -> length r = 256%nat ->
  let row := take (Z.to_nat (Z.of_nat (length l) + 1)) b ++ drop (Z.to_nat (Z.of_nat (length l) + 1)) r in
  length row = 256%nat /\ content row = Some l.
Proof.
  intros (Hb & Ht & Hl & Hz) H0 Hr. cbv zeta. split; [rewrite length_app, length_take, length_drop; lia|].
  replace (Z.to_nat (Z.of_nat (length l) + 1)) with (S (length l)) by lia. rewrite (take_S_r _ _ 0) by done. rewrite Ht, <- app_assoc. by apply content_app.
Qed.

Lemma add_history_ok sh l h : line_in (input_buffer sh) l -> input_buffer sh !! length l = Some 0 -> buffer_idx sh = Z.of_nat (length l) ->
  history_in (history_buffer sh) (history_count sh) h ->
  exists rows n, add_history sh = Some (with_history rows n sh) /\ history_in rows n (remember l h).
Proof.
  intros Hline H0 Hidx (Hrl & Hrows & Hc & H10 & Hh). pose proof Hline as (Hb & Ht & Hlen & Hz). unfold add_history, remember. rewrite Hidx.
  pose proof (content_take _ _ Ht Hz H0) as Hcont.
  assert (Hsame : exists rows n, Some sh = Some (with_history rows n sh) /\ history_in rows n h).
  { exists (history_buffer sh), (history_count sh). split; [by destruct sh|]. by split_and!. }
  destruct (Z.ltb_spec 0 (Z.of_nat (length l))) as [Hpos|Hpos]; cbn [negb].
  2:{ rewrite bool_decide_eq_true_2; [exact Hsame|]. left. destruct l; [done|cbn in Hpos; lia]. }
  assert (Hadd : exists add, (if history_count sh =? 0 then Some true else hr ← aget (history_buffer sh) (history_count sh - 1); r ← strcmp hr (input_buffer sh); Some (negb (r =? 0))) = Some add /\
     add = negb (bool_decide (l = [] \/ last h = Some l))).
  { destruct (Z.eqb_spec (history_count sh) 0) as [E0|Hn0].
    - exists true. split; [done|]. rewrite bool_decide_eq_false_2; [done|]. intros [->|Hla]; [cbn in Hpos; lia|]. destruct h; [done|cbn in Hc; lia].
    - destruct h as [|h1 h _] using rev_ind; [cbn in Hc; lia|]. destruct (Hh (length h) h1) as (Hok1 & r1 & Er1 & Ec1); [by rewrite lookup_app_r, Nat.sub_diag by lia|].
      rewrite length_app in Hc. cbn in Hc. rewrite aget_pos by lia. replace (Z.to_nat (history_count sh - 1)) with (length h) by lia. rewrite Er1. cbn [mbind option_bind].
      destruct (strcmp_eq0 r1 (input_buffer sh) h1 l Ec1 Hcont) as (r & -> & Hr). cbn [mbind option_bind]. eexists. split; [done|]. rewrite last_snoc. f_equal.
      destruct (Z.eqb_spec r 0) as [Er|Er]; symmetry; [apply bool_decide_eq_true_2; right; f_equal; tauto|apply bool_decide_eq_false_2].
      intros [->|[= Eh]]; [cbn in Hpos; lia|tauto]. }
  destruct Hadd as (add & -> & ->). cbn [mbind option_bind]. destruct (bool_decide (l = [] \/ last h = Some l)); cbn [negb]; [exact Hsame|].
  cbv zeta. unfold HISTORY_MAX at 1. destruct (Z.ltb_spec (history_count sh) 10) as [Hlt|Hge].
  - destruct (lookup_lt_is_Some_2 (history_buffer sh) (length h) ltac:(lia)) as [r Er]. pose proof (Forall_lookup_1 _ _ _ _ Hrows Er) as Lr. cbn in Lr.
    rewrite (copy_row (fun i _ => aget (input_buffer sh) i) (input_buffer sh) (history_count sh) (history_buffer sh) r) by (try lia; try done; rewrite Hc, Nat2Z.id; done).
    cbn [mbind option_bind]. destruct (line_row _ _ r Hline H0 Lr) as [Hrow Hrc]. eexists _, _. split; [done|].
    rewrite length_app. cbn [length]. replace (length h + 1 - 10)%nat with 0%nat by lia. rewrite drop_0. rewrite Hc, Nat2Z.id.
    split; [by rewrite length_insert|]. split; [by apply Forall_insert|]. rewrite length_app. cbn [length]. split; [lia|]. split; [lia|].
    intros i l' Hi. apply lookup_app_Some in Hi as [Hi|[Hge Hi]].
    + destruct (Hh i l' Hi) as (Hok & r' & Er' & Ec'). split; [done|]. exists r'. split; [|done]. apply lookup_lt_Some in Hi. rewrite list_lookup_insert_ne by lia. done.
    + apply list_lookup_singleton_Some in Hi as [Hi <-]. split; [done|]. eexists. split; [|exact Hrc]. replace i with (length h) by lia. rewrite list_lookup_insert_eq by lia. done.
  - destruct (shift_rows _ Hrl Hrows) as (rows & -> & L1 & L2 & Hs). cbn [mbind option_bind].
    destruct (lookup_lt_is_Some_2 rows 9 ltac:(lia)) as [r Er]. pose proof (Forall_lookup_1 _ _ _ _ L2 Er) as Lr. cbn in Lr. unfold HISTORY_MAX.
    rewrite (copy_row (fun i _ => aget (input_buffer sh) i) (input_buffer sh) (10 - 1) rows r) by (try lia; done). cbn [mbind option_bind].
    destruct (line_row _ _ r Hline H0 Lr) as [Hrow Hrc]. eexists _, _. split; [done|].
    rewrite length_app. cbn [length]. replace (length h + 1 - 10)%nat with 1%nat by lia. change (Z.to_nat (10 - 1)) with 9%nat.
    split; [by rewrite length_insert|]. split; [by apply Forall_insert|]. rewrite length_drop, length_app. cbn [length]. split; [lia|]. split; [lia|].
    intros i l' Hi. rewrite lookup_drop in Hi. apply lookup_app_Some in Hi as [Hi|[Hge' Hi]].
    + destruct (Hh _ _ Hi) as (Hok & r' & Er' & Ec'). split; [done|]. exists r'. split; [|done]. apply lookup_lt_Some in Hi. rewrite list_lookup_insert_ne by lia. by rewrite Hs by lia.
    + apply list_lookup_singleton_Some in Hi as [Hi <-]. split; [done|]. eexists. split; [|exact Hrc]. replace i with 9%nat by lia. rewrite list_lookup_insert_eq by lia. done.
Qed.

(** ** One key *)

(** A character behind the line: the NUL, or the next one of the line. *)
Lemma line_set b l c : line_in b l -> exists b', aset b (Z.of_nat (length l)) c = Some b' /\ length b' = 256%nat /\
  take (length l) b' = l /\ b' !! length l = Some c.
Proof.
  intros (Hb & Ht & Hl & _). rewrite aset_eq by lia. rewrite Nat2Z.id. eexists. split; [done|].
  rewrite length_insert, take_insert_ge by lia. split_and!; [done|done|]. apply list_lookup_insert_eq. lia.
Qed.

Lemma line_snoc b l c : line_in b l -> (length l < 255)%nat -> c <> 0 ->
  exists b', aset b (Z.of_nat (length l)) c = Some b' /\ line_in b' (l ++ [c]).
Proof.
  intros Hline Hl Hc. pose proof Hline as (_ & _ & _ & Hz). destruct (line_set b l c Hline) as (b' & E & Hb' & Ht' & Hlc).
  exists b'. split; [done|]. split; [done|]. rewrite length_app. cbn [length]. rewrite Nat.add_1_r. split; [by rewrite (take_S_r _ _ c), Ht'|].
  split; [rewrite length_app; cbn; lia|]. apply Forall_app. split; [done|by constructor].
Qed.

Lemma line_back b l c : line_in b (l ++ [c]) -> exists b', aset b (Z.of_nat (length l)) 0 = Some b' /\ line_in b' l.
Proof.
  intros (Hb & Ht & Hl & Hz). rewrite length_app in Ht, Hl. cbn [length] in Ht, Hl. apply Forall_app in Hz as [Hz _].
  assert (line_in b l) as Hline by (split_and!; [done| |split; [lia|done]]; apply (f_equal (take (length l))) in Ht; rewrite take_take, take_app_length in Ht;
    by rewrite Nat.min_l in Ht by lia).
  destruct (line_set b l 0 Hline) as (b' & E & Hb' & Ht' & _). exists b'. split; [done|]. split_and!; [done|done|split; [lia|done]].
Qed.

Lemma erase_eq n k : for_do 0 (Z.of_nat n) (fun _ k => put_char 8 k) k = put_all (replicate n 8) k.
Proof.
  unfold for_do. rewrite Z.sub_0_r, Nat2Z.id. generalize 0. revert k. induction n as [|n IH]; intros k i; [done|]. cbn.
  destruct (put_char 8 k); [|done]. apply IH.
Qed.

Lemma recall_loop_ok row l : content row = Some l -> forall (p b : list Z) k k', length b = 256%nat -> take (length p) b = p -> (length p + length l <= 255)%nat ->
  put_all l k = Some k' -> exists b', recall_loop row (Z.of_nat (length p)) b k = Some (b', Z.of_nat (length (p ++ l)), k') /\ length b' = 256%nat /\ take (length (p ++ l)) b' = p ++ l.
Proof.
  revert l. induction row as [|c row IH]; intros l Hrow p b k k' Hb Hp Hl Hk; [done|]. cbn in Hrow |- *. destruct (Z.eqb_spec c 0) as [->|Hc].
  - injection Hrow as <-. injection Hk as ->. rewrite app_nil_r. eauto.
  - destruct (content row) as [l'|] eqn:El; [|done]. injection Hrow as <-. cbn in Hk, Hl. destruct (put_char c k) as [k1|] eqn:Ek; [|done]. cbn in Hk.
    rewrite aset_eq, Nat2Z.id by lia. cbn [mbind option_bind].
    destruct (IH l' eq_refl (p ++ [c]) (<[length p := c]> b) k1 k') as (b' & E & H1 & H2).
    + by rewrite length_insert.
    + rewrite length_app, Nat.add_1_r. rewrite (take_S_r _ _ c) by (apply list_lookup_insert_eq; lia). by rewrite take_insert_ge, Hp by lia.
    + rewrite length_app. cbn. lia.
    + done.
    + rewrite <- app_assoc in *. cbn [app] in *. exists b'. rewrite <- E. split; [|by split]. f_equal. rewrite length_app. cbn. lia.
Qed.

Lemma recall_ok sh k k' l h (n : nat) : length (input_buffer sh) = 256%nat -> history_in (history_buffer sh) (history_count sh) h ->
  history_nav_idx sh = Z.of_nat n -> h !! n = Some l -> put_all l k = Some k' ->
  exists b, recall (sh, k) = Some (with_input b (Z.of_nat (length l)) sh, k') /\ line_in b l.
Proof.
  intros Hb (_ & _ & _ & _ & Hh) Hnav Hl Hk. destruct (Hh n l Hl) as ([Hlen Hz] & r & Er & Ec). unfold recall. cbn [fst snd].
  rewrite Hnav, aget_nat, Er. cbn [mbind option_bind].
  destruct (recall_loop_ok r l Ec [] (input_buffer sh) k k' Hb eq_refl) as (b & E & Hb1 & Ht); [cbn; lia|done|].
  change (Z.of_nat (length (@nil Z))) with 0 in E. rewrite E. cbn [mbind option_bind app] in Ht |- *.
  destruct (line_set b l 0) as (b' & -> & Hb2 & Ht2 & _); [by split_and!|]. cbn. exists b'. split; [done|]. split_and!; try done. Qed.

Lemma newline_ok fuel sh e x k e' x' k' : edits_in sh e x -> vbe_is_active k = false -> edit fuel 10 (e, x, k) = Some (e', x', k') ->
  exists sh', shell_newline fuel (sh, k) = Some (sh', k') /\ edits_in sh' e' x'.
Proof.
  intros [Hline Hidx Hhist Hnav Hdir] Hv. unfold edit. rewrite Hv. cbn [Z.eqb Pos.eqb]. unfold shell_newline.
  destruct (put_char 10 k) as [k1|]; [|done]. cbn [mbind option_bind]. rewrite Hidx.
  destruct (line_set _ _ 0 Hline) as (b & -> & Hb & Ht & H0). cbn [mbind option_bind]. pose proof Hline as (_ & _ & Hl & Hz).
  destruct (add_history_ok (with_input b (Z.of_nat (length (e_line e))) sh) (e_line e) (e_hist e)) as (rows & n & -> & Hh); try done.
  cbn [mbind option_bind]. rewrite (content_take b (e_line e)) by done. cbn [mbind option_bind shell_dir with_history with_input]. rewrite Hdir.
  destruct (execute_command fuel (e_line e ++ [0]) x k1) as [[x1 k2]|]; [|done]. cbn [mbind option_bind]. rewrite zero_buffer by done.
  cbn [mbind option_bind]. set (h := remember (e_line e) (e_hist e)) in *.
  assert (edits_in (with_dir x1 (with_nav n (with_input (replicate 256 0) 0 (with_history rows n sh)))) (Editor [] h (length h)) x1) as Hin.
  { constructor; cbn [with_dir with_nav with_input with_history input_buffer buffer_idx history_buffer history_count history_nav_idx shell_dir e_line e_hist e_nav].
    - split; [done|]. split; [done|]. split; [cbn; lia|constructor].
    - done.
    - done.
    - by destruct Hh as (_ & _ & -> & _).
    - done. }
  destruct (negb (shell_active x1 =? 0)); [destruct (print_prompt x1 k2) as [k3|]; [|done]; cbn [mbind option_bind]|];
    intros [= <- <- <-]; eexists; (split; [reflexivity|exact Hin]).
Qed.

(** The line shown is replaced by one of the history. *)
Lemma shows_line sh e x k (n : nat) l k1 k2 : edits_in sh e x -> e_hist e !! n = Some l ->
  put_all (replicate (length (e_line e)) 8) k = Some k1 -> put_all l k1 = Some k2 ->
  exists sh', (s ← erase (with_nav (Z.of_nat n) sh, k); recall s) = Some (sh', k2) /\ edits_in sh' (Editor l (e_hist e) n) x.
Proof.
  intros [Hline Hidx Hhist Hnav Hdir] Hl E1 E2. unfold erase. cbn [fst snd buffer_idx with_nav]. rewrite Hidx, erase_eq, E1. cbn [mbind option_bind].
  destruct (recall_ok (with_input (input_buffer (with_nav (Z.of_nat n) sh)) 0 (with_nav (Z.of_nat n) sh)) k1 k2 l (e_hist e) n) as (b & -> & Hb); try done.
  - by destruct Hline.
  - eexists. split; [reflexivity|]. constructor; cbn; try done. split; [done|]. apply lookup_lt_Some in Hl. lia.
Qed.

Lemma shell_input_ok fuel c sh e x k e' x' k' : edits_in sh e x -> c <> 0 -> edit fuel c (e, x, k) = Some (e', x', k') ->
  exists sh', shell_input fuel c (sh, k) = Some (sh', k') /\ edits_in sh' e' x'.
Proof.
  intros Hin Hc0 H. pose proof Hin as [Hline Hidx Hhist [Hnav Hle] Hdir]. pose proof Hhist as (_ & _ & Hcnt & _).
  unfold shell_input. destruct (vbe_is_active k) eqn:Hv; [unfold edit in H; rewrite Hv in H; injection H as <- <- <-; eauto|].
  destruct (Z.eqb_spec c 10) as [->|H10]; [by apply (newline_ok fuel sh e x)|].
  unfold edit in H. rewrite Hv, (proj2 (Z.eqb_neq c 10)) in H by done. rewrite Hnav, Hcnt.
  destruct (c =? 17); [|destruct (c =? 18); [|destruct (c =? 8)]].
  - destruct (e_nav e) as [|n]; [rewrite andb_false_r; injection H as <- <- <-; eauto|].
    destruct (lookup_lt_is_Some_2 (e_hist e) n ltac:(lia)) as [l El]. rewrite El in H. cbn [default] in H.
    rewrite (proj2 (Z.ltb_lt 0 (Z.of_nat (length (e_hist e))))), (proj2 (Z.ltb_lt 0 (Z.of_nat (S n)))) by lia. cbn [andb].
    destruct (put_all (replicate _ 8) k) as [k1|] eqn:E1; [|done]. cbn in H. destruct (put_all l k1) as [k2|] eqn:E2; [|done]. injection H as <- <- <-.
    replace (Z.of_nat (S n) - 1) with (Z.of_nat n) by lia. by apply (shows_line sh e x k n l k1 k2).
  - destruct (Nat.ltb_spec (e_nav e) (length (e_hist e))) as [Hlt|Hge].
    2:{ rewrite (proj2 (Z.ltb_ge _ _)) by lia. injection H as <- <- <-. eauto. }
    rewrite (proj2 (Z.ltb_lt _ _)) by lia. replace (Z.of_nat (e_nav e) + 1) with (Z.of_nat (S (e_nav e))) by lia.
    destruct (put_all (replicate _ 8) k) as [k1|] eqn:E1; [|done]. cbn [mbind option_bind] in H.
    destruct (decide (S (e_nav e) = length (e_hist e))) as [Heq|Hne].
    + rewrite (lookup_ge_None_2 (e_hist e)) in H by lia. cbn in H. injection H as <- <- <-.
      unfold erase. cbn [fst snd with_nav buffer_idx]. rewrite Hidx, erase_eq, E1. cbn [mbind option_bind with_input with_nav history_nav_idx history_count fst snd input_buffer].
      rewrite Hcnt, Heq, Z.eqb_refl. cbn [input_buffer]. pose proof Hline as (Hb & _). rewrite aset_eq by lia. eexists. split; [reflexivity|].
      constructor; cbn; try done; try lia. all: split; [by rewrite length_insert|]. all: split; [done|]. all: split; [cbn; lia|constructor].
    + destruct (lookup_lt_is_Some_2 (e_hist e) (S (e_nav e)) ltac:(lia)) as [l El]. rewrite El in H. cbn in H.
      destruct (put_all l k1) as [k2|] eqn:E2; [|done]. injection H as <- <- <-.
      destruct (shows_line sh e x k (S (e_nav e)) l k1 k2 Hin El E1 E2) as (sh' & E & Hin'). exists sh'. split; [|done]. rewrite <- E.
      unfold erase. cbn [fst snd with_nav buffer_idx]. rewrite Hidx, erase_eq, E1. cbn [mbind option_bind with_input with_nav history_nav_idx history_count fst snd input_buffer].
      by rewrite Hcnt, (proj2 (Z.eqb_neq _ _)) by lia.
  - rewrite Hidx. destruct (e_line e) as [|c1 l1 _] eqn:El using rev_ind; [injection H as <- <- <-; eauto|].
    rewrite length_app, (proj2 (Z.ltb_lt _ _)) by (cbn; lia). cbn [length]. replace (Z.of_nat (length l1 + 1) - 1) with (Z.of_nat (length l1)) by lia.
    destruct (line_back _ _ _ Hline) as (b & -> & Hb). cbn [mbind option_bind].
    destruct (put_char 8 k) as [k1|]; [|exfalso; revert H; destruct (l1 ++ [c1]) eqn:E; [by destruct l1|discriminate]]. cbn [mbind option_bind].
    assert (Some (Editor l1 (e_hist e) (e_nav e), x, k1) = Some (e', x', k')) as [= <- <- <-].
    { rewrite <- H. destruct (l1 ++ [c1]) eqn:E; [by destruct l1|]. cbn [mbind option_bind]. rewrite <- E. by rewrite removelast_last. }
    eexists. split; [reflexivity|]. by constructor.
  - rewrite Hidx. unfold BUFFER_SIZE. destruct (Nat.ltb_spec (length (e_line e)) 255) as [Hlt|Hge].
    + rewrite (proj2 (Z.ltb_lt _ _)) by lia. destruct (line_snoc _ _ c Hline Hlt Hc0) as (b & -> & Hb). cbn [mbind option_bind].
      destruct (put_char c k) as [k1|]; [|done]. injection H as <- <- <-. eexists. split; [reflexivity|]. constructor; cbn; try done. rewrite length_app. cbn. lia.
    + rewrite (proj2 (Z.ltb_ge _ _)) by lia. injection H as <- <- <-. eauto.
Qed.

Lemma shell_inputs_ok fuel cs : forall sh e x k e' x' k', edits_in sh e x -> nonzero cs -> edits fuel cs (e, x, k) = Some (e', x', k') ->
  exists sh', shell_inputs fuel cs (sh, k) = Some (sh', k') /\ edits_in sh' e' x'.
Proof.
  induction cs as [|c cs IH]; intros sh e x k e' x' k' Hin Hz H; cbn [edits shell_inputs] in *; [injection H as <- <- <-; eauto|].
  apply Forall_cons in Hz as [Hc Hz]. destruct (edit fuel c (e, x, k)) as [[[e1 x1] k1]|] eqn:E; [|done]. cbn [mbind option_bind] in H.
  destruct (shell_input_ok fuel c sh e x k e1 x1 k1 Hin Hc E) as (sh1 & -> & Hin1). cbn [mbind option_bind]. by apply (IH sh1 e1 x1).
Qed.

Definition buffers_ok (sh : shell) : Prop :=
  length (input_buffer sh) = 256%nat /\ length (history_buffer sh) = 10%nat /\ Forall (fun r => length r = 256%nat) (history_buffer sh).

Lemma init_shell_ok sh k sh' k' : buffers_ok sh -> init_shell (sh, k) = Some (sh', k') -> edits_in sh' (Editor [] [] 0) (shell_dir sh').
Proof.
  intros (Hb & Hl & Hr). unfold init_shell. rewrite zero_buffer by done. cbn [mbind option_bind]. destruct (print_prompt _ k); [|done]. cbn [mbind option_bind].
  intros [= <- _]. constructor; cbn [input_buffer buffer_idx history_buffer history_count history_nav_idx shell_dir e_line e_hist e_nav length]; [|done| |by split|done].
  - split; [done|]. split; [done|]. split; [cbn; lia|constructor].
  - split; [done|]. split; [done|]. split; [done|]. split; [cbn; lia|]. intros i l Hi. done.
Qed.

(** C30 The line editor of the shell, started by init_shell and fed any keys, is the editor over a line and a list
    of at most ten remembered lines: typing appends up to 255 characters, backspace removes one, the arrows replace the
    line by the older or newer one (erasing the old text on the console first), and Enter runs the line, remembers it
    unless it is empty or a repetition, dropping the oldest of eleven, and prompts again.  The fixed buffers are never
    overrun, and the buffer passed to the commands is the line with its NUL. *)
Theorem shell_editor_refines fuel sh k0 sh0 k cs e x k' :
  buffers_ok sh -> init_shell (sh, k0) = Some (sh0, k) -> nonzero cs ->
  edits fuel cs (Editor [] [] 0, shell_dir sh0, k) = Some (e, x, k') ->
  exists sh', shell_inputs fuel cs (sh0, k) = Some (sh', k') /\ edits_in sh' e x.
Proof. intros Hb Hi Hz H. eapply shell_inputs_ok; [by eapply init_shell_ok|done|exact H]. Qed.
End editor.

(** A kernel whose console keeps what is written and whose file system is a root without files. *)
Definition log_console (s : list Z) (k : list Z) : option (list Z) := l ← content s; Some (k ++ l).

#[local] Instance log_env : ShellEnv (list Z) := {|
  put_char c k := Some (k ++ [c]); put_str := log_console; put_int n k := Some (k ++ CString.put_int n); clear_scr _ := Some [];
  set_cursor _ _ k := Some k; vbe_is_active _ := false; start_graphics k := Some k;
  timer_get_seconds _ := 61; timer_get_ticks _ := 6100; sleep _ k := Some k; pci_init k := Some k;
  pmm_total_memory_kb _ := 16384; pmm_total_frames _ := 4096; pmm_used_frames _ := 512; pmm_free_frames _ := 3584;
  vfs_root _ := 1; vfs_get_node_by_path _ _ k := Some (0, k); node_flags _ _ := Some VFS_DIRECTORY; node_inode _ _ := Some 0;
  vfs_readdir _ _ k := Some (None, k); vfs_finddir _ _ k := Some (0, k);
  stack_bytes n _ := replicate (Z.to_nat n) 0; vfs_read _ _ _ b k := Some (0, b, k); vfs_close _ k := Some k;
  pafs_mkdir _ _ k := Some (-1, k); pafs_create _ _ _ k := Some (-1, k); pafs_delete _ _ k := Some (-1, k); pafs_format k := Some k;
  elf_load _ _ k := Some (-1, k); create_task _ _ _ k := Some k; outb _ _ k := Some k; alloc_frame k := Some (0, k); store16 _ _ k := Some k;
  ac97_play _ _ k := Some k
|}.

Definition new_shell : shell :=
  Shell (replicate 256 7) 3 (replicate 10 (replicate 256 7)) 4 (-1) (Dir (lit "/" ++ replicate 126 0) 0 1).

(** [echo hi], an unfinished line, the arrow up, a character removed and another one typed, Enter. *)
Definition sample_keys : list Z := bytes_of "echo hi" ++ [10] ++ bytes_of "ls" ++ [0x11; 8] ++ bytes_of "o" ++ [10; 0x11].

Lemma shell_editor_refines_witness :
  exists sh0 sh' k x, init_shell (new_shell, []) = Some (sh0, bytes_of "fash /> ") /\
    shell_inputs 10 sample_keys (sh0, bytes_of "fash /> ") = Some (sh', k) /\
    edits_in sh' (Editor (bytes_of "echo ho") [bytes_of "echo hi"; bytes_of "echo ho"] 1) x.
Proof.
  destruct (init_shell (new_shell, [])) as [[sh0 k0]|] eqn:Hi; [|discriminate (eq_trans (eq_sym Hi) eq_refl)].
  assert (k0 = bytes_of "fash /> ") as -> by (vm_compute in Hi; injection Hi as <- <-; reflexivity).
  assert (exists k x, edits 10 sample_keys (Editor [] [] 0, shell_dir sh0, bytes_of "fash /> ") =
    Some (Editor (bytes_of "echo ho") [bytes_of "echo hi"; bytes_of "echo ho"] 1, x, k)) as (k & x & E).
  { vm_compute in Hi. injection Hi as <-. eexists _, _. vm_compute. reflexivity. }
  destruct (shell_editor_refines 10 new_shell [] sh0 (bytes_of "fash /> ") sample_keys _ _ _ ltac:(split_and!; [reflexivity|reflexivity|repeat constructor]) Hi
    ltac:(repeat constructor; discriminate) E) as (sh' & E' & Hin).
  exists sh0, sh', k, x. done.
Defined.
