(* ===== verification/ShellCd.v ===== *)
(** * ShellCd: the working directory of the shell

    [cd] keeps the text of the working directory and the node in step: the text
    spells the directory the node stands for, and no node is leaked. *)

From S2P Require Export Shell.
From stdpp Require Import infinite fin_sets.
Import String.StringSyntax.
#[local] Open Scope Z_scope.

(** ** Paths as lists of names *)

Definition name_ok (c : list Z) : Prop := c <> [] /\ Forall (fun x => x <> 0 /\ x <> 47) c /\ c <> [46] /\ c <> [46; 46].

Definition text (cs : list (list Z)) : list Z := flat_map (cons 47) cs.
Definition tail (slash : bool) : list Z := if slash then [47] else [].

(** The text of a path: names behind slashes, and perhaps one more slash, which the root needs. *)
Definition path_text (cs : list (list Z)) (slash : bool) : list Z := text cs ++ tail slash.
Definition spells (p : list Z) (cs : list (list Z)) : Prop :=
  Forall name_ok cs /\ exists slash, content p = Some (path_text cs slash) /\ (cs = [] -> slash = true).

(** What [cd] may be given: the parent, or a path from the root or from here. *)
Inductive cd_arg := Up | Abs (cs : list (list Z)) (slash : bool) | Rel (cs : list (list Z)) (slash : bool).

#[export] Instance cd_arg_eq_dec : EqDecision cd_arg.
Proof. solve_decision. Defined.

Definition arg_ok (a : cd_arg) : Prop :=
  match a with
  | Up => True
  | Abs cs slash => Forall name_ok cs /\ (cs = [] -> slash = true)
  | Rel cs slash => Forall name_ok cs /\ cs <> []
  end.
Definition arg_text (a : cd_arg) : list Z :=
  match a with Up => [46; 46] | Abs cs slash => path_text cs slash | Rel cs slash => drop 1 (path_text cs slash) end.
Definition target (cs : list (list Z)) (a : cd_arg) : list (list Z) :=
  match a with Up => removelast cs | Abs cs' _ => cs' | Rel cs' _ => cs ++ cs' end.

Definition arg_names (a : cd_arg) : list (list Z) := match a with Up => [] | Abs cs _ | Rel cs _ => cs end.

(** [vfs_get_node_by_path] copies each name into 128 bytes, without a check. *)
Definition short (cs : list (list Z)) : Prop := Forall (fun c => (length c <= 127)%nat) cs.

(** A file system whose directories do not change: [kind] says which names are there
    and are directories; [handles k H]: in [k] it is sound and [H] says which nodes
    are open and on what.  The root is never closed. *)
Class DirTree (K : Type) `{!ShellEnv K} := {
  kind : list (list Z) -> option bool;
  handles : K -> gmap Z (list (list Z)) -> Prop;
  kind_root : kind [] = Some true;
  kind_parent cs c : name_ok c -> kind (cs ++ [c]) <> None -> kind cs = Some true;
  kind_short cs : kind cs <> None -> short cs;
  get_node_law k H base cs a p : handles k H -> H !! base = Some cs -> arg_ok a -> a <> Up -> short (arg_names a) -> content p = Some (arg_text a) ->
    match kind (target cs a) with
    | None => exists k', vfs_get_node_by_path base p k = Some (0, k') /\ handles k' H /\ vfs_root k' = vfs_root k
    | Some isdir => exists n k' flags, vfs_get_node_by_path base p k = Some (n, k') /\ n <> 0 /\ H !! n = None /\
        handles k' (<[n := target cs a]> H) /\ vfs_root k' = vfs_root k /\
        node_flags n k' = Some flags /\ negb (Z.land flags VFS_DIRECTORY =? 0) = isdir
    end;
  close_law k H n cs : handles k H -> H !! n = Some cs -> n <> vfs_root k ->
    exists k', vfs_close n k = Some k' /\ handles k' (delete n H) /\ vfs_root k' = vfs_root k;
  put_str_law k H s l : handles k H -> content s = Some l -> exists k', put_str s k = Some k' /\ handles k' H /\ vfs_root k' = vfs_root k
}.

(** The directory after [cd]: the target when it is one; the text of the working
    directory must have room for it. *)
Definition chdir (kind : list (list Z) -> option bool) (cs : list (list Z)) (a : cd_arg) : option (list (list Z)) :=
  match kind (target cs a) with
  | Some true => if (length (text (target cs a)) <=? 126)%nat then Some (target cs a) else None
  | _ => Some cs
  end.

Fixpoint chdirs (kind : list (list Z) -> option bool) (cs : list (list Z)) (args : list cd_arg) : option (list (list Z)) :=
  match args with [] => Some cs | a :: args => cs ← chdir kind cs a; chdirs kind cs args end.

(** ** The text of a path *)

Lemma text_app cs cs' : text (cs ++ cs') = text cs ++ text cs'.
Proof. apply flat_map_app. Qed.

Lemma text_snoc cs c : text (cs ++ [c]) = text cs ++ 47 :: c.
Proof. rewrite text_app. cbn. by rewrite app_nil_r. Qed.

Lemma name_nonzero c : name_ok c -> nonzero c.
Proof. intros (_ & H & _). eapply Forall_impl; [exact H|]. by intros x [? _]. Qed.

Lemma text_nonzero cs : Forall name_ok cs -> nonzero (text cs).
Proof.
  induction 1 as [|c cs Hc _ IH]; [constructor|]. cbn. constructor; [done|]. apply Forall_app. split; [by apply name_nonzero|exact IH].
Qed.

Lemma path_nonzero cs slash : Forall name_ok cs -> nonzero (path_text cs slash).
Proof. intros H. apply Forall_app. split; [by apply text_nonzero|]. destruct slash; repeat constructor; done. Qed.

Lemma arg_nonzero a : arg_ok a -> nonzero (arg_text a).
Proof.
  destruct a as [|cs slash|cs slash]; [intros _; repeat constructor; done|intros [H _]; by apply path_nonzero|intros [H _]; by apply Forall_drop, path_nonzero].
Qed.

(** Only [Up] is the text [..]. *)
Lemma arg_not_up a : arg_ok a -> a <> Up -> arg_text a <> [46; 46].
Proof.
  destruct a as [|cs slash|cs slash]; [done| |]; intros [H H0] _.
  - destruct cs; [rewrite H0 by done; done|done].
  - destruct cs as [|c cs]; [done|]. apply Forall_cons in H as [(Hnil & Hc & _ & Hup) _]. cbn. rewrite drop_0. intros E.
    pose proof (f_equal (take (length c)) E) as Et. rewrite <- app_assoc, take_app_length in Et.
    destruct c as [|c1 [|c2 [|c3 c]]]; try done; cbn in Et, E.
    injection Et as ->. destruct cs; [destruct slash; done|done].
Qed.

Lemma copy_at_ok src l : content src = Some l -> forall i dest, 0 <= i -> i + Z.of_nat (length l) < Z.of_nat (length dest) ->
  exists d, copy_at i src dest = Some d /\ length d = length dest /\ take (Z.to_nat i + length l + 1) d = take (Z.to_nat i) dest ++ l ++ [0].
Proof.
  revert l. induction src as [|c src IH]; intros l Hl i dest Hi Hlen; [done|]. cbn in Hl |- *. rewrite aset_eq by lia. cbn [mbind option_bind].
  destruct (Z.eqb_spec c 0) as [->|Hc].
  - injection Hl as <-. eexists. split; [done|]. split; [apply length_insert|]. cbn [length]. rewrite Nat.add_0_r, Nat.add_1_r. cbn in Hlen.
    rewrite (take_S_r _ _ 0) by (apply list_lookup_insert_eq; lia). by rewrite take_insert_ge.
  - destruct (content src) as [l'|] eqn:E; [|done]. injection Hl as <-. cbn [length] in *.
    destruct (IH l' eq_refl (i + 1) (<[Z.to_nat i := c]> dest)) as (d & Ed & Hd & Ht); [lia|rewrite length_insert; lia|].
    exists d. split; [done|]. rewrite length_insert in Hd. split; [done|]. replace (Z.to_nat (i + 1)) with (S (Z.to_nat i)) in Ht by lia.
    rewrite (take_S_r _ _ c) in Ht by (apply list_lookup_insert_eq; lia). rewrite take_insert_ge, <- app_assoc in Ht by lia.
    cbn [app] in Ht |- *. rewrite <- Ht. f_equal. lia.
Qed.

Lemma content_of_take p l n : take n p = l ++ [0] -> nonzero l -> content p = Some l.
Proof. intros H Hz. rewrite <- (take_drop n p), H, <- app_assoc. by apply content_app. Qed.

Lemma content_take_inv p l : content p = Some l -> take (length l) p = l /\ p !! length l = Some 0.
Proof. intros H. apply content_split in H as (r & -> & _). split; [by rewrite take_app_length|]. rewrite lookup_app_r, Nat.sub_diag by lia. done. Qed.

(** The last character of a path is a slash exactly when it was written behind the names. *)
Lemma path_last cs slash : Forall name_ok cs -> (cs = [] -> slash = true) -> exists l x, path_text cs slash = l ++ [x] /\ (x =? 47) = slash.
Proof.
  intros Hcs H0. unfold path_text. destruct slash; cbn [tail]; [by exists (text cs), 47|]. rewrite app_nil_r.
  destruct cs as [|c cs _] using rev_ind; [by discriminate H0|]. apply Forall_app in Hcs as [_ Hc]. apply Forall_cons in Hc as [(Hnil & Hc & _) _].
  destruct c as [|x c _] using rev_ind; [done|]. rewrite text_snoc. exists (text cs ++ 47 :: c), x. split; [by rewrite <- app_assoc|].
  apply Z.eqb_neq. apply Forall_app in Hc as [_ Hc]. apply Forall_cons in Hc as [[_ Hc] _]. done.
Qed.

Lemma path_last_get p cs slash : Forall name_ok cs -> (cs = [] -> slash = true) -> content p = Some (path_text cs slash) ->
  (0 < length (path_text cs slash))%nat /\ exists x, aget p (Z.of_nat (length (path_text cs slash)) - 1) = Some x /\ (x =? 47) = slash.
Proof.
  intros Hcs H0 Hp. destruct (path_last cs slash Hcs H0) as (l & x & El & E). rewrite El in *. rewrite length_app. cbn [length]. split; [lia|]. exists x. split; [|done].
  replace (Z.of_nat (length l + 1) - 1) with (Z.of_nat (length l)) by lia. rewrite aget_nat. apply content_split in Hp as (r & -> & _).
  rewrite <- app_assoc, lookup_app_r, Nat.sub_diag by lia. done.
Qed.

(** The characters of a path written into the text of the working directory. *)
Lemma write_path src l p pre : content src = Some l -> length p = 128%nat -> take (length pre) p = pre -> nonzero pre ->
  (length pre + length l <= 127)%nat ->
  exists p', copy_at (Z.of_nat (length pre)) src p = Some p' /\ length p' = 128%nat /\ content p' = Some (pre ++ l).
Proof.
  intros Hsrc Hp Hpre Hz Hlen. destruct (copy_at_ok src l Hsrc (Z.of_nat (length pre)) p) as (p' & E & Hp' & Ht); [lia|lia|].
  exists p'. split; [done|]. split; [lia|]. rewrite Nat2Z.id, Hpre, app_assoc in Ht. eapply content_of_take; [exact Ht|].
  apply Forall_app. split; [done|]. by apply content_nz in Hsrc.
Qed.

Lemma path_update_ok p cs a : spells p cs -> length p = 128%nat -> arg_ok a -> a <> Up -> (length (text (target cs a)) <= 126)%nat ->
  exists p', path_update (arg_text a ++ [0]) p = Some p' /\ length p' = 128%nat /\ spells p' (target cs a).
Proof.
  intros (Hcs & slash & Hc & H0) Hp Ha Hup Hlen. pose proof (content_app _ [] (arg_nonzero a Ha)) as Hsrc. unfold path_update.
  destruct a as [|cs' s'|cs' s']; [done| |]; cbn [target arg_text] in *; destruct Ha as [Hcs' H0'].
  - assert (exists l, path_text cs' s' = 47 :: l) as [l El]. { destruct cs' as [|c cs']; [rewrite H0' by done; by exists []|by eexists]. }
    rewrite El. cbn [app aget Z.ltb Z.compare]. change (aget (47 :: l ++ [0]) 0) with (Some 47). cbn [mbind option_bind Z.eqb Pos.eqb]. rewrite El in Hsrc.
    destruct (write_path (47 :: l ++ [0]) _ p [] Hsrc Hp) as (p' & E & Hp' & Hcp); [done|constructor| |].
    + rewrite <- El. unfold path_text. rewrite length_app. destruct s'; cbn; lia.
    + exists p'. split; [exact E|]. split; [done|]. split; [done|]. exists s'. rewrite Hcp. cbn [app]. by rewrite El.
  - destruct cs' as [|c cs']; [done|]. pose proof (Forall_inv Hcs') as (Hnil & Hcc & _).
    assert (exists x l, drop 1 (path_text (c :: cs') s') = x :: l /\ x <> 47) as (x & l & El & Hx).
    { destruct c as [|x c]; [done|]. apply Forall_cons in Hcc as [[_ Hx] _]. by eexists _, _. }
    rewrite El in *. change (aget ((x :: l) ++ [0]) 0) with (Some x). cbn [mbind option_bind]. rewrite (proj2 (Z.eqb_neq x 47)) by done.
    rewrite strlen_content, Hc. cbn [fmap option_fmap option_map mbind option_bind].
    assert (path_text (cs ++ c :: cs') s' = text cs ++ [47] ++ x :: l) as Ejoin.
    { unfold path_text. rewrite text_app, <- app_assoc. change (text (c :: cs') ++ tail s') with (path_text (c :: cs') s'). rewrite <- El. done. }
    assert (length (text cs) + 1 + length (x :: l) <= 127)%nat as Hfit.
    { apply (f_equal length) in Ejoin. unfold path_text in Ejoin. rewrite !length_app in Ejoin. rewrite text_app in Hlen. rewrite length_app in Hlen. rewrite text_app, length_app in Ejoin.
      destruct s'; cbn [tail length] in *; lia. }
    assert (forall p1 pre, take (length pre) p1 = pre -> length p1 = 128%nat -> pre = text cs ++ [47] ->
      exists p', copy_at (Z.of_nat (length pre)) ((x :: l) ++ [0]) p1 = Some p' /\ length p' = 128%nat /\ spells p' (cs ++ c :: cs')) as Hwrite.
    { intros p1 pre Ht Hp1 ->. destruct (write_path ((x :: l) ++ [0]) _ p1 _ Hsrc Hp1 Ht) as (p' & E & Hp' & Hcp).
      - by apply (path_nonzero cs true).
      - rewrite length_app. cbn [length] in *. lia.
      - exists p'. split; [done|]. split; [done|]. split; [by apply Forall_app|]. exists s'. rewrite Hcp, Ejoin, <- app_assoc. by split; [|destruct cs]. }
    destruct (path_last_get p cs slash Hcs H0 Hc) as (Hpos & y & Ey & Eslash). rewrite Ey. cbn [mbind option_bind]. rewrite Eslash.
    apply content_take_inv in Hc as [Ht _]. unfold path_text in *. destruct slash; cbn [negb tail] in *.
    + by apply Hwrite.
    + rewrite app_nil_r in *. rewrite aset_eq, Nat2Z.id by lia. cbn [mbind option_bind].
      destruct (Hwrite (<[length (text cs) := 47]> p) (text cs ++ [47])) as (p' & E & Hp'); [|by rewrite length_insert|done|].
      * rewrite length_app, Nat.add_1_r. rewrite (take_S_r _ _ 47) by (apply list_lookup_insert_eq; cbn [length] in Hfit; lia). by rewrite take_insert_ge, Ht.
      * exists p'. rewrite <- E. split; [|done]. f_equal. rewrite length_app. cbn. lia.
Qed.

Lemma back_to_slash_ok p a c : take (length a + 1 + length c) p = a ++ 47 :: c -> Forall (fun x => x <> 47) c ->
  back_to_slash (length a + 1 + length c) p = Some (Z.of_nat (length a)).
Proof.
  induction c as [|x c IH] using rev_ind; intros Ht Hc.
  - cbn [length] in *. rewrite Nat.add_0_r in *. replace (length a + 1)%nat with (S (length a)) in * by lia. cbn [back_to_slash]. rewrite aget_nat.
    rewrite <- (take_drop (S (length a)) p), Ht, <- app_assoc. rewrite lookup_app_r, Nat.sub_diag by lia. done.
  - rewrite length_app in *. cbn [length] in *. replace (length a + 1 + (length c + 1))%nat with (S (length a + 1 + length c)) in * by lia. apply Forall_app in Hc as [Hc Hx].
    apply Forall_cons in Hx as [Hx _]. cbn [back_to_slash].
    assert (length a + 1 + length c < length p)%nat as Hlt by (apply (f_equal length) in Ht; rewrite length_take, !length_app in Ht; cbn [length] in Ht; rewrite length_app in Ht; cbn [length] in Ht; lia).
    destruct (lookup_lt_is_Some_2 p _ Hlt) as [y Ey]. rewrite (take_S_r _ _ y Ey) in Ht. rewrite app_comm_cons, app_assoc in Ht. apply app_inj_tail in Ht as [Ht ->].
    rewrite aget_nat, Ey. cbn [mbind option_bind]. rewrite (proj2 (Z.eqb_neq x 47)) by done. cbn [negb]. by apply IH.
Qed.

Lemma cut_path_ok p cs c : spells p (cs ++ [c]) -> length p = 128%nat ->
  exists p', cut_path p = Some p' /\ length p' = 128%nat /\ content p' = Some (path_text cs true) /\ spells p' cs.
Proof.
  intros (Hcs & slash & Hc & _) Hp. pose proof Hcs as [Hcs' Hcn]%Forall_app. apply Forall_cons in Hcn as [(Hnil & Hcn & _) _].
  destruct (path_last_get p (cs ++ [c]) slash Hcs) as (Hpos & y & Ey & Eslash); [by destruct cs|done|].
  pose proof (content_length _ _ Hc) as Hlt. pose proof (content_take_inv _ _ Hc) as [Ht _].
  assert (path_text (cs ++ [c]) slash = text cs ++ (47 :: c) ++ tail slash) as Etext by (unfold path_text; by rewrite text_snoc, <- app_assoc).
  unfold cut_path. rewrite strlen_content, Hc. cbn [fmap option_fmap option_map mbind option_bind]. rewrite Ey. cbn [mbind option_bind]. rewrite Eslash.
  assert (length (path_text (cs ++ [c]) slash) = (length (text cs) + 1 + length c + length (tail slash))%nat) as Elen by (rewrite Etext, !length_app; cbn [length]; lia).
  rewrite Elen in *. replace (Z.to_nat _) with (length (text cs) + 1 + length c)%nat by (destruct slash; cbn [tail length]; lia).
  rewrite back_to_slash_ok with (a := text cs) (c := c); [|clear -Ht Etext; rewrite Etext in Ht|].
  2:{ apply (f_equal (take (length (text cs) + 1 + length c))) in Ht. rewrite take_take, Nat.min_l in Ht by lia. rewrite Ht, app_assoc.
      rewrite take_app_length'; [done|]. rewrite length_app. cbn. lia. }
  2:{ eapply Forall_impl; [exact Hcn|]. by intros x [_ ?]. }
  cbn [mbind option_bind]. rewrite (proj2 (Z.ltb_ge (Z.of_nat (length (text cs))) 0)) by lia. rewrite aset_eq by lia. cbn [mbind option_bind].
  replace (Z.to_nat (Z.of_nat (length (text cs)) + 1)) with (length (text cs) + 1)%nat by lia. set (p' := <[(length (text cs) + 1)%nat := 0]> p).
  assert (length p' = 128%nat) as Hp' by (unfold p'; by rewrite length_insert).
  assert (p' !! (length (text cs) + 1)%nat = Some 0) as H0 by (apply list_lookup_insert_eq; lia).
  assert (content p' = Some (path_text cs true)) as Hcp.
  { apply (content_of_take p' _ (S (length (text cs) + 1))); [|by apply path_nonzero]. rewrite (take_S_r _ _ 0) by done. unfold p'. rewrite take_insert_ge by lia. f_equal.
    apply (f_equal (take (length (text cs) + 1))) in Ht. rewrite take_take, Nat.min_l in Ht by lia. rewrite Ht, Etext. cbn [app].
    rewrite (cons_middle 47), app_assoc, take_app_length'; [done|]. rewrite length_app. cbn. lia. }
  exists p'. split; [|split; [done|split; [done|split; [done|]]; by exists true]].
  destruct (Z.eqb_spec (Z.of_nat (length (text cs))) 0) as [E|]; [|done]. rewrite aset_eq by lia. f_equal. apply list_insert_id. rewrite <- H0. f_equal. lia.
Qed.

(** ** The command *)

Section cd.
Context {K : Type} `{!ShellEnv K} `{!DirTree K}.

(** The root and the directory [cs], open at [n]. *)
Definition opened (r n : Z) (cs : list (list Z)) : gmap Z (list (list Z)) := <[n := cs]> {[r := []]}.

(** The text spells the directory of the node; the root and that node are all that is open. *)
Record cd_inv (d : dir) (k : K) (cs : list (list Z)) : Prop := {
  ci_text : spells (shell_cwd_path d) cs;
  ci_len : length (shell_cwd_path d) = 128%nat;
  ci_dir : kind cs = Some true;
  ci_root : shell_cwd_node d = vfs_root k -> cs = [];
  ci_handles : handles k (opened (vfs_root k) (shell_cwd_node d) cs)
}.

(** [cd a] *)
Definition cd_cmd (a : cd_arg) : list Z := bytes_of "cd " ++ arg_text a ++ [0].

Fixpoint cds (fuel : nat) (args : list cd_arg) (d : dir) (k : K) : option (dir * K) :=
  match args with [] => Some (d, k) | a :: args => '(d, k) ← execute_command fuel (cd_cmd a) d k; cds fuel args d k end.

Lemma cd_dispatch fuel a d k : arg_ok a -> execute_command fuel (cd_cmd a) d k = cmd_cd (arg_text a ++ [0]) d k.
Proof.
  intros Ha. unfold execute_command, cd_cmd. rewrite strlen_content, app_assoc, content_app by (apply Forall_app; split; [repeat constructor; done|by apply arg_nonzero]).
  cbn [fmap option_fmap option_map mbind option_bind]. rewrite (proj2 (Z.eqb_neq _ _)) by (rewrite length_app; cbn; lia). rewrite <- app_assoc.
  generalize (arg_text a ++ [0]). intros l. reflexivity.
Qed.

Lemma change_node_ok d k n cs t : (shell_cwd_node d = vfs_root k -> cs = []) -> opened (vfs_root k) (shell_cwd_node d) cs !! n = None ->
  handles k (<[n := t]> (opened (vfs_root k) (shell_cwd_node d) cs)) ->
  exists k', change_node n d k = Some (with_node n d, k') /\ vfs_root k' = vfs_root k /\ n <> vfs_root k /\ handles k' (opened (vfs_root k) n t).
Proof.
  unfold opened. intros Hroot [Hn Hne]%lookup_insert_None Hk. apply lookup_singleton_None in Hn.
  unfold change_node. destruct (Z.eqb_spec (shell_cwd_node d) (vfs_root k)) as [E|E]; cbn [negb].
  - exists k. split; [done|]. split; [done|]. split; [done|]. rewrite E, Hroot, insert_singleton_eq in Hk by done. exact Hk.
  - destruct (close_law k _ (shell_cwd_node d) cs Hk) as (k' & -> & Hh & Hr); [by rewrite lookup_insert_ne, lookup_insert_eq|done|].
    exists k'. split; [done|]. split; [done|]. split; [done|]. rewrite delete_insert_ne, delete_insert_id in Hh by (done || by apply lookup_singleton_ne). exact Hh.
Qed.

Lemma cd_up_ok d k cs cs' : cd_inv d k cs -> chdir kind cs Up = Some cs' -> exists d' k', cd_up d k = Some (d', k') /\ cd_inv d' k' cs'.
Proof.
  intros Hinv Hch. pose proof Hinv as [(Hcs & slash & Hc & H0) Hlen Hdir Hroot Hh]. unfold cd_up.
  destruct (strcmp_eq0 (shell_cwd_path d) (lit "/") _ [47] Hc eq_refl) as (r & -> & Hr). cbn [mbind option_bind]. unfold chdir in Hch. cbn [target] in Hch.
  destruct cs as [|c cs0 _] using rev_ind.
  - rewrite (proj2 Hr) by (by rewrite H0). cbn [Z.eqb negb]. cbn in Hch. rewrite kind_root in Hch. injection Hch as <-. by exists d, k.
  - rewrite removelast_last in Hch. assert (kind cs0 = Some true) as Hk0 by (apply (kind_parent cs0 c); [by apply Forall_app in Hcs as [_ Hcs%Forall_inv]|by rewrite Hdir]). rewrite Hk0 in Hch.
    destruct (length (text cs0) <=? 126)%nat; [|done]. injection Hch as <-.
    rewrite (proj2 (Z.eqb_neq r 0)) by (rewrite Hr; unfold path_text; rewrite text_snoc; apply Forall_app in Hcs as [_ Hcn]; apply Forall_cons in Hcn as [(Hnil & _) _];
      intros E; apply (f_equal length) in E; rewrite !length_app in E; destruct c; [done|cbn [length] in E; lia]). cbn [negb].
    destruct (cut_path_ok (shell_cwd_path d) cs0 c) as (p' & -> & Hlen' & Hc' & Hsp); [split; [done|by exists slash]|done|]. cbn [mbind option_bind].
    pose proof (get_node_law k _ (vfs_root k) [] (Abs cs0 true) p' Hh) as Hlaw. cbn [target] in Hlaw. rewrite Hk0 in Hlaw.
    destruct Hlaw as (n & k' & flags & -> & Hn0 & Hn & Hhk & Hr' & _); [| |done|apply (kind_short cs0); by rewrite Hk0|exact Hc'|].
    { unfold opened. destruct (decide (shell_cwd_node d = vfs_root k)) as [E|E]; [by destruct cs0; discriminate (Hroot E)|]. rewrite lookup_insert_ne by done. apply lookup_singleton_eq. }
    { by destruct Hsp. }
    cbn [mbind option_bind]. rewrite (proj2 (Z.eqb_neq n 0)) by done. cbn [negb].
    destruct (change_node_ok (with_path p' d) k' n (cs0 ++ [c]) cs0) as (k2 & -> & Hr2 & Hnr & Hh2); rewrite ?Hr'; try done.
    exists (with_node n (with_path p' d)), k2. split; [done|]. rewrite Hr' in Hr2, Hnr, Hh2. constructor; cbn; rewrite ?Hr2; done.
Qed.

Lemma cd_step fuel d k cs a cs' : cd_inv d k cs -> arg_ok a -> short (arg_names a) -> chdir kind cs a = Some cs' ->
  exists d' k', execute_command fuel (cd_cmd a) d k = Some (d', k') /\ cd_inv d' k' cs'.
Proof.
  intros Hinv Ha Hsh Hch. rewrite cd_dispatch by done. unfold cmd_cd.
  destruct (strcmp_eq0 (arg_text a ++ [0]) (lit "..") (arg_text a) [46; 46]) as (r & -> & Hr); [by apply content_app, arg_nonzero|done|]. cbn [mbind option_bind].
  destruct (decide (a = Up)) as [->|Hup]; [rewrite (proj2 Hr) by done; by apply (cd_up_ok d k cs)|].
  rewrite (proj2 (Z.eqb_neq r 0)) by (rewrite Hr; by apply arg_not_up). pose proof Hinv as [Hsp Hlen Hdir Hroot Hh].
  pose proof (get_node_law k _ (shell_cwd_node d) cs a (arg_text a ++ [0]) Hh (lookup_insert_eq _ _ _) Ha Hup Hsh (content_app _ [] (arg_nonzero a Ha))) as Hlaw.
  unfold chdir in Hch. destruct (kind (target cs a)) as [isdir|] eqn:Ek.
  - destruct Hlaw as (n & k' & flags & -> & Hn0 & Hn & Hhk & Hr' & Hf & Hbit). cbn [mbind option_bind]. unfold is_dir. rewrite (proj2 (Z.eqb_neq n 0)), Hf by done.
    cbn [mbind option_bind]. rewrite Hbit. destruct isdir.
    + destruct (Nat.leb_spec (length (text (target cs a))) 126) as [Hfit|]; [|done]. injection Hch as <-.
      destruct (change_node_ok d k' n cs (target cs a)) as (k2 & -> & Hr2 & Hnr & Hh2); rewrite ?Hr'; try done.
      cbn [mbind option_bind]. destruct (path_update_ok (shell_cwd_path d) cs a) as (p' & E & Hlen' & Hsp'); try done.
      change (shell_cwd_path (with_node n d)) with (shell_cwd_path d). rewrite E. cbn [mbind option_bind].
      eexists _, k2. split; [done|]. rewrite Hr' in Hr2, Hnr, Hh2. constructor; cbn; rewrite ?Hr2; done.
    + injection Hch as <-. destruct (put_str_law k' _ (line "Hata: Dizin bulunamadi.") _ Hhk eq_refl) as (k2 & -> & Hh2 & Hr2). cbn [mbind option_bind].
      destruct (close_law k2 _ n (target cs a) Hh2) as (k3 & -> & Hh3 & Hr3); [apply lookup_insert_eq| |].
      { rewrite Hr2, Hr'. intros ->. unfold opened in Hn. apply lookup_insert_None in Hn as [Hn _]. by rewrite lookup_singleton_eq in Hn. }
      cbn [mbind option_bind]. rewrite delete_insert_id in Hh3 by done. eexists d, k3. split; [done|]. constructor; rewrite ?Hr3, ?Hr2, ?Hr'; done.
  - destruct Hlaw as (k' & -> & Hh' & Hr'). injection Hch as <-. cbn [mbind option_bind is_dir Z.eqb].
    destruct (put_str_law k' _ (line "Hata: Dizin bulunamadi.") _ Hh' eq_refl) as (kp & -> & Hhp & Hrp). cbn [mbind option_bind negb].
    eexists d, kp. split; [done|]. constructor; rewrite ?Hrp, ?Hr'; done.
Qed.

(** For every sequence of cd commands, with names, relative and absolute paths and [..], the text of the working
    directory spells the directory its node stands for: the one a walk over the tree reaches, a missing directory or a
    file leaving it where it was.  After every command the root and that one node are all that is open: the node that is
    left, or found to be a file, is closed, and nothing is used after it was closed. *)
Theorem cd_tracks fuel args d k cs cs' :
  cd_inv d k cs -> Forall (fun a => arg_ok a /\ short (arg_names a)) args -> chdirs kind cs args = Some cs' ->
  exists d' k', cds fuel args d k = Some (d', k') /\ cd_inv d' k' cs'.
Proof.
  revert d k cs. induction args as [|a args IH]; intros d k cs Hinv Hargs Hch; cbn [chdirs cds] in *.
  - injection Hch as <-. eauto.
  - apply Forall_cons in Hargs as [[Ha Hs] Hargs]. destruct (chdir kind cs a) as [cs1|] eqn:E; [|done]. cbn [mbind option_bind] in Hch.
    destruct (cd_step fuel d k cs a cs1 Hinv Ha Hs E) as (d1 & k1 & -> & Hinv1). by apply (IH d1 k1 cs1).
Qed.

Lemma copy_at_overrun src l : content src = Some l -> forall i dest, 0 <= i -> Z.of_nat (length dest) <= i + Z.of_nat (length l) -> copy_at i src dest = None.
Proof.
  revert l. induction src as [|c src IH]; intros l Hl i dest Hi Hlen; [done|]. cbn in Hl |- *. destruct (aset dest i c) as [d|] eqn:E; [|done].
  cbn [mbind option_bind]. pose proof (aset_length _ _ _ _ E) as Hd. apply aset_Some in E as [Hr _]. destruct (Z.eqb_spec c 0) as [->|Hc].
  - injection Hl as <-. cbn in Hlen. lia.
  - destruct (content src) as [l'|]; [|done]. injection Hl as <-. cbn [length] in Hlen. apply (IH l' eq_refl); lia.
Qed.

Lemma path_update_overrun p cs a : spells p cs -> length p = 128%nat -> arg_ok a -> a <> Up -> (127 < length (text (target cs a)))%nat ->
  path_update (arg_text a ++ [0]) p = None.
Proof.
  intros (Hcs & slash & Hc & H0) Hp Ha Hup Hlen. pose proof (content_app _ [] (arg_nonzero a Ha)) as Hsrc. unfold path_update.
  destruct a as [|cs' s'|cs' s']; [done| |]; cbn [target arg_text] in *; destruct Ha as [Hcs' H0'].
  - destruct cs' as [|c cs']; [cbn in Hlen; lia|]. change (aget _ 0) with (Some 47). cbn [mbind option_bind Z.eqb Pos.eqb].
    apply (copy_at_overrun _ _ Hsrc); [lia|]. unfold path_text. rewrite length_app. lia.
  - destruct cs' as [|[|x c] cs']; [done|by destruct (Forall_inv Hcs')|]. pose proof (Forall_inv Hcs') as (_ & Hcc & _). apply Forall_inv in Hcc as [_ Hx].
    change (aget _ 0) with (Some x). cbn [mbind option_bind]. rewrite (proj2 (Z.eqb_neq x 47)), strlen_content, Hc by done. cbn [fmap option_fmap option_map mbind option_bind].
    destruct (path_last_get p cs slash Hcs H0 Hc) as (Hpos & y & -> & Ey). cbn [mbind option_bind]. rewrite Ey.
    rewrite text_app, length_app in Hlen. unfold path_text in *.
    assert (length (text ((x :: c) :: cs')) <= 1 + length (drop 1 (text ((x :: c) :: cs') ++ tail s')))%nat as Hl by (rewrite length_drop, length_app; lia).
    rewrite length_app in Hpos. destruct slash; cbn [negb tail] in *.
    + apply (copy_at_overrun _ _ Hsrc); [lia|]. rewrite length_app. cbn [length] in *. lia.
    + destruct (aset p _ 47) as [p1|] eqn:E; [|done]. apply aset_length in E. cbn [mbind option_bind]. apply (copy_at_overrun _ _ Hsrc); [lia|].
      rewrite length_app. cbn [length] in *. lia.
Qed.

(** C38 A cd into a directory whose path has 128 characters or more has no defined result: the path is written behind
    the end of the 128 bytes of shell_cwd_path, without a check. *)
Theorem cd_overruns fuel d k cs a :
  cd_inv d k cs -> arg_ok a -> a <> Up -> kind (target cs a) = Some true -> (127 < length (text (target cs a)))%nat ->
  execute_command fuel (cd_cmd a) d k = None.
Proof.
  intros Hinv Ha Hup Ek Hlong. rewrite cd_dispatch by done. unfold cmd_cd.
  destruct (strcmp_eq0 (arg_text a ++ [0]) (lit "..") (arg_text a) [46; 46]) as (r & -> & Hr); [by apply content_app, arg_nonzero|done|]. cbn [mbind option_bind].
  rewrite (proj2 (Z.eqb_neq r 0)) by (rewrite Hr; by apply arg_not_up). pose proof Hinv as [Hsp Hlen Hdir Hroot Hh].
  assert (Hsh : short (arg_names a)).
  { pose proof (kind_short (target cs a)) as Hsh. rewrite Ek in Hsh. specialize (Hsh ltac:(done)). destruct a as [| |cs' s']; [done|exact Hsh|].
    by apply Forall_app in Hsh as [_ ?]. }
  pose proof (get_node_law k _ (shell_cwd_node d) cs a (arg_text a ++ [0]) Hh (lookup_insert_eq _ _ _) Ha Hup Hsh (content_app _ [] (arg_nonzero a Ha))) as Hlaw. rewrite Ek in Hlaw.
  destruct Hlaw as (n & k' & flags & -> & Hn0 & Hn & Hhk & Hr' & Hf & Hbit). cbn [mbind option_bind]. unfold is_dir. rewrite (proj2 (Z.eqb_neq n 0)), Hf by done.
  cbn [mbind option_bind]. rewrite Hbit. destruct (change_node_ok d k' n cs (target cs a)) as (k2 & -> & _); rewrite ?Hr'; try done. cbn [mbind option_bind].
  change (shell_cwd_path (with_node n d)) with (shell_cwd_path d). by rewrite (path_update_overrun _ cs a).
Qed.
End cd.

(** ** A small tree *)

(** The names of a path: what stands between slashes. *)
Fixpoint names (acc l : list Z) : list (list Z) :=
  match l with
  | [] => match acc with [] => [] | _ => [rev acc] end
  | c :: l => if c =? 47 then match acc with [] => names [] l | _ => rev acc :: names [] l end else names (c :: acc) l
  end.

Lemma names_app acc c l : Forall (fun x => x <> 0 /\ x <> 47) c -> names acc (c ++ l) = names (rev c ++ acc) l.
Proof.
  intros H. revert acc. induction H as [|x c [_ Hx] _ IH]; intros acc; [done|]. cbn. rewrite (proj2 (Z.eqb_neq x 47)), IH by done. by rewrite <- app_assoc.
Qed.

Lemma names_path cs slash : Forall name_ok cs -> names [] (path_text cs slash) = cs.
Proof.
  unfold path_text. induction 1 as [|c cs (Hnil & Hc & _) _ IH]; [by destruct slash|]. cbn [text flat_map]. rewrite <- app_assoc. cbn [app names Z.eqb Pos.eqb].
  fold (text cs). rewrite names_app, app_nil_r by done.
  destruct (rev c) as [|x c'] eqn:Er; [by apply (f_equal (@rev Z)) in Er; rewrite rev_involutive in Er|].
  assert (rev (x :: c') = c) as Ec by (by rewrite <- Er, rev_involutive).
  destruct (text cs ++ tail slash) as [|y l] eqn:E.
  - cbn [names] in IH |- *. by rewrite Ec, <- IH.
  - assert (y = 47) as ->.
    { destruct cs as [|c1 cs1]; cbn in E; [destruct slash; cbn in E|]; congruence. }
    cbn [names Z.eqb Pos.eqb] in IH |- *. by rewrite Ec, IH.
Qed.

Lemma names_arg a : arg_ok a -> names [] (arg_text a) = match a with Up => [[46; 46]] | Abs cs _ => cs | Rel cs _ => cs end.
Proof.
  destruct a as [|cs slash|cs slash]; [done|intros [H _]; by apply names_path|]. intros [H Hne]. rewrite <- (names_path cs slash H) at 2.
  destruct cs; [done|]. cbn [arg_text path_text text flat_map app drop]. done.
Qed.

(** The directories [/a], [/a/b] and one with a long name, and the file [/f]. *)
Definition long_name : list Z := replicate 127 120.
Definition tree_kind (cs : list (list Z)) : option bool :=
  if bool_decide (cs ∈ [[]; [[97]]; [[97]; [98]]; [long_name]]) then Some true else if bool_decide (cs = [[102]]) then Some false else None.

#[local] Notation open := (gmap Z (list (list Z))).

Definition tree_get (base : Z) (p : list Z) (k : open) : option (Z * open) :=
  l ← content p; cs ← k !! base;
  let t := (if bool_decide (head l = Some 47) then [] else cs) ++ names [] l in
  match tree_kind t with
  | None => Some (0, k)
  | Some _ => let n := fresh ({[0]} ∪ dom k : gset Z) in Some (n, <[n := t]> k)
  end.
Definition tree_flags (n : Z) (k : open) : option Z := t ← k !! n; isdir ← tree_kind t; Some (if (isdir : bool) then VFS_DIRECTORY else 1).

#[local] Instance tree_env : ShellEnv open := {|
  put_char _ k := Some k; put_str s k := content s ≫= fun _ => Some k; put_int _ k := Some k; clear_scr k := Some k;
  set_cursor _ _ k := Some k; vbe_is_active _ := false; start_graphics k := Some k;
  timer_get_seconds _ := 0; timer_get_ticks _ := 0; sleep _ k := Some k; pci_init k := Some k;
  pmm_total_memory_kb _ := 0; pmm_total_frames _ := 0; pmm_used_frames _ := 0; pmm_free_frames _ := 0;
  vfs_root _ := 1; vfs_get_node_by_path := tree_get; node_flags := tree_flags; node_inode _ _ := Some 0;
  vfs_readdir _ _ k := Some (None, k); vfs_finddir _ _ k := Some (0, k);
  stack_bytes _ _ := []; vfs_read _ _ _ b k := Some (0, b, k); vfs_close n k := k !! n ≫= fun _ => Some (delete n k);
  pafs_mkdir _ _ k := Some (-1, k); pafs_create _ _ _ k := Some (-1, k); pafs_delete _ _ k := Some (-1, k); pafs_format k := Some k;
  elf_load _ _ k := Some (-1, k); create_task _ _ _ k := Some k; outb _ _ k := Some k; alloc_frame k := Some (0, k); store16 _ _ k := Some k;
  ac97_play _ _ k := Some k
|}.

Lemma tree_parent cs c : tree_kind (cs ++ [c]) <> None -> tree_kind cs = Some true.
Proof.
  unfold tree_kind at 1. case_bool_decide as H.
  - intros _. rewrite !elem_of_cons, elem_of_nil in H.
    destruct H as [H|[H|[H|[H|[]]]]]; [by destruct cs| | |]; first [apply (app_inj_tail cs []) in H as [-> _]|apply (app_inj_tail cs [[97]]) in H as [-> _]]; done.
  - case_bool_decide as H'; [|done]. intros _. apply (app_inj_tail cs []) in H' as [-> _]. done.
Qed.

Lemma tree_short cs : tree_kind cs <> None -> short cs.
Proof.
  unfold tree_kind, short. case_bool_decide as H.
  - intros _. rewrite !elem_of_cons, elem_of_nil in H. destruct H as [->|[->|[->|[->|[]]]]]; repeat constructor; apply Nat.leb_le; reflexivity.
  - case_bool_decide as H'; [|done]. intros _. rewrite H'. repeat constructor.
Qed.

#[local] Instance tree_dirs : DirTree open.
Proof.
  refine {| kind := tree_kind; handles := eq |}.
  - done.
  - intros cs c _. exact (tree_parent cs c).
  - exact tree_short.
  - intros k H base cs a p <- Hb Ha Hup _ Hp. cbn [vfs_get_node_by_path tree_env]. unfold tree_get. rewrite Hp. cbn [mbind option_bind]. rewrite Hb.
    cbn [mbind option_bind]. rewrite names_arg by done.
    assert ((if bool_decide (head (arg_text a) = Some 47) then [] else cs) ++ match a with Up => [[46; 46]] | Abs cs _ => cs | Rel cs _ => cs end = target cs a) as ->.
    { destruct a as [|cs' s'|cs' s']; [done| |]; cbn [arg_text target]; destruct Ha as [Hcs' H0].
      - rewrite bool_decide_eq_true_2; [done|]. destruct cs'; [by rewrite H0|done].
      - rewrite bool_decide_eq_false_2; [done|]. destruct cs' as [|[|x c] cs']; [done|by destruct (Forall_inv Hcs')|]. pose proof (Forall_inv Hcs') as (_ & Hc & _).
        apply Forall_inv in Hc as [_ Hx]. cbn. congruence. }
    destruct (tree_kind (target cs a)) as [isdir|] eqn:E; [|by exists k]. set (n := fresh _).
    pose proof (is_fresh ({[0]} ∪ dom k : gset Z)) as Hf. fold n in Hf. rewrite not_elem_of_union, not_elem_of_singleton, not_elem_of_dom in Hf. destruct Hf as [Hn0 Hn].
    eexists n, _, _. split; [done|]. split; [done|]. split; [done|]. split; [done|]. split; [done|]. split; [|by instantiate (1 := if isdir then VFS_DIRECTORY else 1); destruct isdir].
    cbn [node_flags tree_env]. unfold tree_flags. rewrite lookup_insert_eq. cbn [mbind option_bind]. by rewrite E.
  - intros k H n cs <- Hn _. cbn [vfs_close tree_env]. rewrite Hn. by eexists.
  - intros k H s l <- Hs. cbn [put_str tree_env]. rewrite Hs. by eexists.
Defined.

Definition at_root : dir := Dir (lit "/" ++ replicate 126 0) 1 1.

Lemma at_root_inv : cd_inv at_root ({[1 := []]} : open) [].
Proof.
  constructor; try done. split; [constructor|]. by exists true.
Qed.

Lemma cd_overruns_witness : execute_command 5 (cd_cmd (Rel [long_name] false)) at_root ({[1 := []]} : open) = None.
Proof.
  apply (cd_overruns 5 at_root ({[1 := []]} : open) [] (Rel [long_name] false)); [apply at_root_inv| |discriminate|reflexivity|apply Nat.ltb_lt; reflexivity].
  split; [|discriminate]. constructor; [|constructor]. unfold name_ok. split; [discriminate|]. split; [|split; discriminate].
  apply Forall_replicate. split; discriminate.
Defined.
