(* ===== verification/Ext2.v ===== *)
(** * Ext2: the read-only ext2 file system (kernel/fs/ext2.c, include/ext2.h)

    The super block, the group descriptors, inodes and directory entries are
    read out of bytes at the offsets of the packed structs.  The device below
    and the kernel heap are the interface [Ext2Env]; the messages are left
    out. *)

From S2P Require Export Disk Vfs.

(** [vfs_read(fs->dev, ...)]: the bytes put in the buffer; [kmalloc]: the address
    and the bytes found there. *)
Class Ext2Env (S : Type) := {
  read_dev : Z -> Z -> S -> option (list Z * S);
  kmalloc : Z -> S -> option (Z * list Z * S);
  kfree : Z -> S -> option S
}.

Definition EXT2_SUPER_MAGIC : Z := 0xEF53.

(** A field of a packed struct. *)
Definition half (b : list Z) (i : nat) : option Z := x ← b !! i; y ← b !! S i; Some (x + 2 ^ 8 * y).
Definition word (b : list Z) (i : nat) : option Z := if (i + 4 <=? length b)%nat then Some (de32 (drop i b)) else None.

Record ext2_superblock := Superblock {
  s_blocks_count : Z; s_log_block_size : Z; s_blocks_per_group : Z; s_inodes_per_group : Z; s_magic : Z; s_inode_size : Z
}.
Record ext2_fs_t := Ext2Fs { sb : ext2_superblock; block_size : Z; groups_count : Z; bgdt : list Z }.

(** [sizeof] of the packed structs. *)
Definition SUPERBLOCK_SIZE : nat := 204.
Definition GROUP_DESC_SIZE : Z := 32.
Definition INODE_SIZE : nat := 128.
Definition FS_SIZE : Z := 220.
Definition NODE_SIZE : Z := 184.

Definition get_superblock (b : list Z) : option ext2_superblock :=
  bc ← word b 4; lg ← word b 24; bpg ← word b 32; ipg ← word b 40; mg ← half b 56; isz ← half b 88;
  Some (Superblock bc lg bpg ipg mg isz).

Definition bg_inode_table (bgdt : list Z) (group : Z) : option Z := word bgdt (Z.to_nat (group * GROUP_DESC_SIZE + 8)).

(** An inode is its 128 bytes. *)
Definition i_mode (inode : list Z) : option Z := half inode 0.
Definition i_size (inode : list Z) : option Z := word inode 4.
Definition i_block (inode : list Z) (i : Z) : option Z := if (0 <=? i) && (i <? 15) then word inode (40 + 4 * Z.to_nat i) else None.

Record ext2_node := ENode { en_name : list Z; en_inode : Z; en_length : Z; en_flags : Z }.

Section ext2.
Context {S : Type} `{!Ext2Env S}.

(** What a division by zero or an access outside a buffer does is not defined. *)
Definition udiv (a b : Z) : option Z := if b =? 0 then None else Some (a / b).
Definition umod (a b : Z) : option Z := if b =? 0 then None else Some (a mod b).

(** [memcpy(dst + off, src, length src)] *)
Definition put_at (off : Z) (src dst : list Z) : option (list Z) :=
  if (0 <=? off) && (off + Z.of_nat (length src) <=? Z.of_nat (length dst)) then Some (splice (Z.to_nat off) src dst) else None.
(** [n] bytes at [b + off] *)
Definition get_at (off n : Z) (b : list Z) : option (list Z) :=
  if (0 <=? off) && (0 <=? n) && (off + n <=? Z.of_nat (length b)) then Some (slice (Z.to_nat off) (Z.to_nat n) b) else None.

Definition ext2_read_block (fs : ext2_fs_t) (block : Z) (buf : list Z) (s : S) : option (list Z * S) :=
  '(bytes, s) ← read_dev (u32 (block * block_size fs)) (block_size fs) s;
  buf ← put_at 0 bytes buf; Some (buf, s).

Definition ext2_read_inode (fs : ext2_fs_t) (ino : Z) (s : S) : option (list Z * S) :=
  group ← udiv (u32 (ino - 1)) (s_inodes_per_group (sb fs));
  index ← umod (u32 (ino - 1)) (s_inodes_per_group (sb fs));
  table ← bg_inode_table (bgdt fs) group;
  q ← udiv (u32 (index * s_inode_size (sb fs))) (block_size fs);
  offset ← umod (u32 (index * s_inode_size (sb fs))) (block_size fs);
  '(a, buf, s) ← kmalloc (block_size fs) s;
  '(buf, s) ← ext2_read_block fs (u32 (table + q)) buf s;
  inode ← get_at offset (Z.of_nat INODE_SIZE) buf;
  s ← kfree a s;
  Some (inode, s).

Definition node_type (mode : Z) : Z :=
  if Z.land mode 0xF000 =? 0x4000 then VFS_DIRECTORY else if Z.land mode 0xF000 =? 0xA000 then VFS_SYMLINK else VFS_FILE.

Definition ext2_inode_to_vfs (fs : ext2_fs_t) (ino : Z) (name : list Z) (s : S) : option (Z * ext2_node * S) :=
  '(einode, s) ← ext2_read_inode fs ino s;
  '(node, _, s) ← kmalloc NODE_SIZE s;
  nm ← strcpy (replicate 128 0) name;
  len ← i_size einode;
  mode ← i_mode einode;
  Some (node, ENode nm ino len (node_type mode), s).

(** ** Reading *)

(** [while (read_bytes < size)] *)
Fixpoint ext2_read_loop (fuel : nat) (fs : ext2_fs_t) (einode : list Z) (offset size read_bytes : Z) (block_buf buffer : list Z) (s : S)
    : option (Z * list Z * S) :=
  match fuel with
  | O => None
  | Datatypes.S fuel =>
      if negb (read_bytes <? size) then Some (read_bytes, buffer, s) else
      block_idx ← udiv (u32 (offset + read_bytes)) (block_size fs);
      block_off ← umod (u32 (offset + read_bytes)) (block_size fs);
      let to_read := block_size fs - block_off in
      let to_read := if u32 (size - read_bytes) <? to_read then u32 (size - read_bytes) else to_read in
      '(block_buf, buffer, s) ← (if block_idx <? 12 then
          b ← i_block einode block_idx;
          '(block_buf, s) ← ext2_read_block fs b block_buf s;
          bytes ← get_at block_off to_read block_buf;
          buffer ← put_at read_bytes bytes buffer;
          Some (block_buf, buffer, s)
        else Some (block_buf, buffer, s));
      ext2_read_loop fuel fs einode offset size (u32 (read_bytes + to_read)) block_buf buffer s
  end.

(** The count and the buffer after the call.  A round reads at least a byte, so
    [size] bounds the rounds. *)
Definition ext2_read (fs : ext2_fs_t) (node : ext2_node) (offset size : Z) (buffer : list Z) (s : S) : option (Z * list Z * S) :=
  '(einode, s) ← ext2_read_inode fs (en_inode node) s;
  isize ← i_size einode;
  if isize <=? offset then Some (0, buffer, s) else
  let size := if isize <? u32 (offset + size) then u32 (isize - offset) else size in
  if negb (Z.land (en_flags node) VFS_SYMLINK =? 0) && (isize <? 60) then
    let to_copy := if size <? u32 (isize - offset) then size else u32 (isize - offset) in
    bytes ← get_at (40 + offset) to_copy einode;
    buffer ← put_at 0 bytes buffer;
    Some (to_copy, buffer, s)
  else
    '(a, block_buf, s) ← kmalloc (block_size fs) s;
    '(read_bytes, buffer, s) ← ext2_read_loop (Datatypes.S (Z.to_nat size)) fs einode offset size 0 block_buf buffer s;
    s ← kfree a s;
    Some (read_bytes, buffer, s).

(** ** Directories *)

Definition e_inode (buf : list Z) (offset : Z) : option Z := word buf (Z.to_nat offset).
Definition e_rec_len (buf : list Z) (offset : Z) : option Z := half buf (Z.to_nat (offset + 4)).
Definition e_name_len (buf : list Z) (offset : Z) : option Z := aget buf (offset + 6).
(** The name of an entry, with a NUL put behind it. *)
Definition ext2_entry_name (buf : list Z) (offset : Z) : option (list Z) :=
  n ← e_name_len buf offset; l ← get_at (offset + 8) n buf; Some (l ++ [0]).

(** The entries of one block from [offset] on: the inode of the first with the
    name.  [fuel]: the entries; one of length 0 is met for ever. *)
Fixpoint find_entry (fuel : nat) (fs : ext2_fs_t) (buf : list Z) (offset : Z) (name : list Z) : option (option (Z * list Z)) :=
  match fuel with
  | O => None
  | Datatypes.S fuel =>
      if negb (offset <? block_size fs) then Some None else
      nm ← ext2_entry_name buf offset;
      c ← strcmp nm name;
      if c =? 0 then ino ← e_inode buf offset; Some (Some (ino, nm))
      else rec_len ← e_rec_len buf offset; find_entry fuel fs buf (u32 (offset + rec_len)) name
  end.

(** [for (i = 0; i < 12 && einode.i_block[i]; i++)], with [n] rounds left. *)
Fixpoint find_blocks (n fuel : nat) (fs : ext2_fs_t) (einode : list Z) (i : Z) (buf name : list Z) (s : S)
    : option (option (Z * list Z) * S) :=
  match n with
  | O => Some (None, s)
  | Datatypes.S n =>
      b ← i_block einode i;
      if b =? 0 then Some (None, s) else
      '(buf, s) ← ext2_read_block fs b buf s;
      r ← find_entry fuel fs buf 0 name;
      match r with Some e => Some (Some e, s) | None => find_blocks n fuel fs einode (i + 1) buf name s end
  end.

Definition ext2_finddir (fuel : nat) (fs : ext2_fs_t) (node : ext2_node) (name : list Z) (s : S) : option (option (Z * ext2_node) * S) :=
  '(einode, s) ← ext2_read_inode fs (en_inode node) s;
  '(a, buf, s) ← kmalloc (block_size fs) s;
  '(r, s) ← find_blocks 12 fuel fs einode 0 buf name s;
  match r with
  | Some (ino, nm) =>
      '(res, n, s) ← ext2_inode_to_vfs fs ino nm s;
      s ← kfree a s;
      Some (Some (res, n), s)
  | None => s ← kfree a s; Some (None, s)
  end.

(** The entries of a block, counted from [current_index]: the one sought, or the
    count behind the block.  The static [dirent] has room for a name of 127. *)
Fixpoint nth_entry (fuel : nat) (fs : ext2_fs_t) (buf : list Z) (offset current_index index : Z) : option (ctl Z (list Z * Z)) :=
  match fuel with
  | O => None
  | Datatypes.S fuel =>
      if negb (offset <? block_size fs) then Some (Next current_index) else
      ino ← e_inode buf offset;
      if negb (ino =? 0) && (current_index =? index) then
        nm ← ext2_entry_name buf offset;
        if (length nm <=? 128)%nat then Some (Ret (nm, ino)) else None
      else
        let current_index := if negb (ino =? 0) then u32 (current_index + 1) else current_index in
        rec_len ← e_rec_len buf offset;
        if rec_len =? 0 then Some (Next current_index)
        else nth_entry fuel fs buf (u32 (offset + rec_len)) current_index index
  end.

Fixpoint nth_blocks (n fuel : nat) (fs : ext2_fs_t) (einode : list Z) (i : Z) (buf : list Z) (current_index index : Z) (s : S)
    : option (option (list Z * Z) * S) :=
  match n with
  | O => Some (None, s)
  | Datatypes.S n =>
      b ← i_block einode i;
      if b =? 0 then Some (None, s) else
      '(buf, s) ← ext2_read_block fs b buf s;
      r ← nth_entry fuel fs buf 0 current_index index;
      match r with
      | Ret e => Some (Some e, s)
      | Next current_index => nth_blocks n fuel fs einode (i + 1) buf current_index index s
      end
  end.

Definition ext2_readdir (fuel : nat) (fs : ext2_fs_t) (node : ext2_node) (index : Z) (s : S) : option (option (list Z * Z) * S) :=
  '(einode, s) ← ext2_read_inode fs (en_inode node) s;
  '(a, buf, s) ← kmalloc (block_size fs) s;
  '(r, s) ← nth_blocks 12 fuel fs einode 0 buf 0 index s;
  s ← kfree a s;
  Some (r, s).

(** ** Mounting *)

(** A read into a new buffer of [size] bytes. *)
Definition read_into (offset size : Z) (buf : list Z) (s : S) : option (list Z * S) :=
  '(bytes, s) ← read_dev offset size s; buf ← put_at 0 bytes buf; Some (buf, s).

Definition ext2_init (s : S) : option (option (ext2_fs_t * Z * ext2_node) * S) :=
  '(fs, _, s) ← kmalloc FS_SIZE s;
  '(sb_buf, buf, s) ← kmalloc 1024 s;
  '(buf, s) ← read_into 1024 1024 buf s;
  sb ← get_superblock (take SUPERBLOCK_SIZE buf);
  s ← kfree sb_buf s;
  if negb (s_magic sb =? EXT2_SUPER_MAGIC) then s ← kfree fs s; Some (None, s) else
  bs ← (if 32 <=? s_log_block_size sb then None else Some (u32 (Z.shiftl 1024 (s_log_block_size sb))));
  groups ← udiv (u32 (s_blocks_count sb + s_blocks_per_group sb - 1)) (s_blocks_per_group sb);
  '(_, buf, s) ← kmalloc (u32 (groups * GROUP_DESC_SIZE)) s;
  '(buf, s) ← read_into (if bs =? 1024 then 2048 else bs) (u32 (groups * GROUP_DESC_SIZE)) buf s;
  let fs := Ext2Fs sb bs groups buf in
  '(root, node, s) ← ext2_inode_to_vfs fs 2 [47; 0] s;
  Some (Some (fs, root, node), s).
End ext2.
