(* ===== verification/Ext2Thm.v ===== *)
(** * Ext2Thm: what the ext2 driver finds on the disk

    The image of the device as a function from byte offsets, the inodes, files
    and directories the on-disk format says are in it, and the theorems that the
    driver returns them and gives back the memory it used. *)

From S2P Require Export Ext2 Net.
From stdpp Require Import fin_sets.
#[local] Open Scope Z_scope.

(** The device gives the bytes of an image, and memory is not exhausted. *)
Class Ext2Laws (S : Type) `{!Ext2Env S} := {
  ready : S -> Prop;
  image : Z -> Z;
  live : S -> gset Z;
  read_dev_law s off n : ready s -> 0 <= off -> 0 < n < 2 ^ 32 -> off + n <= 2 ^ 32 ->
    exists s', read_dev off n s = Some (image <$> seqZ off n, s') /\ ready s' /\ live s' = live s;
  kmalloc_law s n : ready s -> 0 < n < 2 ^ 32 ->
    exists a b s', kmalloc n s = Some (a, b, s') /\ length b = Z.to_nat n /\ a ∉ live s /\ live s' = {[a]} ∪ live s /\ ready s';
  kfree_law s a : ready s -> a ∈ live s -> exists s', kfree a s = Some s' /\ live s' = live s ∖ {[a]} /\ ready s'
}.

Section ext2.
Context {S : Type} `{!Ext2Env S} `{!Ext2Laws S}.

(** ** Bytes of the image *)

Definition bytes (off n : Z) : list Z := image <$> seqZ off n.

Lemma bytes_length off n : length (bytes off n) = Z.to_nat n.
Proof. unfold bytes. by rewrite length_fmap, length_seqZ. Qed.

Lemma bytes_lookup off n i : 0 <= i < n -> bytes off n !! Z.to_nat i = Some (image (off + i)).
Proof.
  intros Hi. unfold bytes. rewrite list_lookup_fmap, lookup_seqZ_lt by lia. cbn. do 2 f_equal. lia.
Qed.

Lemma bytes_slice off n i m : 0 <= i -> 0 <= m -> i + m <= n -> slice (Z.to_nat i) (Z.to_nat m) (bytes off n) = bytes (off + i) m.
Proof.
  intros Hi Hm H. apply list_eq_lt; [rewrite slice_length; rewrite bytes_length; lia|]. intros j Hj.
  rewrite slice_length in Hj by (rewrite bytes_length; lia). rewrite slice_lookup by lia. replace (Z.to_nat i + j)%nat with (Z.to_nat (i + Z.of_nat j)) by lia.
  rewrite bytes_lookup by lia. rewrite <- (Nat2Z.id j) at 2. rewrite bytes_lookup by lia. do 2 f_equal. lia.
Qed.

Lemma get_at_ok off n b : 0 <= off -> 0 <= n -> off + n <= Z.of_nat (length b) -> get_at off n b = Some (slice (Z.to_nat off) (Z.to_nat n) b).
Proof. intros. unfold get_at. by rewrite (proj2 (Z.leb_le 0 off)), (proj2 (Z.leb_le 0 n)), (proj2 (Z.leb_le _ _)) by lia. Qed.

Lemma put_at_ok off src dst : 0 <= off -> off + Z.of_nat (length src) <= Z.of_nat (length dst) -> put_at off src dst = Some (splice (Z.to_nat off) src dst).
Proof. intros. unfold put_at. by rewrite (proj2 (Z.leb_le 0 off)), (proj2 (Z.leb_le _ _)) by lia. Qed.

Lemma get_bytes off n base m : 0 <= off -> 0 <= n -> off + n <= m -> get_at off n (bytes base m) = Some (bytes (base + off) n).
Proof. intros. rewrite get_at_ok by (rewrite ?bytes_length; lia). f_equal. by apply bytes_slice. Qed.

Lemma put_whole src dst : length src = length dst -> put_at 0 src dst = Some src.
Proof.
  intros H. rewrite put_at_ok by lia. f_equal. unfold splice. cbn. rewrite drop_ge by lia. apply app_nil_r.
Qed.

(** ** Blocks and inodes *)

Record fs_ok (fs : ext2_fs_t) : Prop := {
  fo_bs : 128 <= block_size fs < 2 ^ 31;
  fo_ipg : 0 < s_inodes_per_group (sb fs);
  fo_isz : 128 <= s_inode_size (sb fs) /\ block_size fs mod s_inode_size (sb fs) = 0
}.

Definition block_ok (fs : ext2_fs_t) (b : Z) : Prop := 0 <= b /\ (b + 1) * block_size fs <= 2 ^ 32.

Lemma ext2_read_block_ok fs b buf s : fs_ok fs -> block_ok fs b -> ready s -> length buf = Z.to_nat (block_size fs) ->
  exists s', ext2_read_block fs b buf s = Some (bytes (b * block_size fs) (block_size fs), s') /\ ready s' /\ live s' = live s.
Proof.
  intros Hfs [Hb Hbs] Hs Hbuf. pose proof (fo_bs _ Hfs). unfold ext2_read_block. rewrite u32_small by nia.
  destruct (read_dev_law s (b * block_size fs) (block_size fs) Hs) as (s' & -> & Hs' & Hl); [nia|lia|lia|]. cbn [mbind option_bind].
  fold (bytes (b * block_size fs) (block_size fs)). rewrite put_whole by (by rewrite bytes_length). by exists s'.
Qed.

(** Where the format puts an inode: in the table of its group. *)
Definition inode_at (fs : ext2_fs_t) (ino table : Z) : Z :=
  table * block_size fs + ((ino - 1) mod s_inodes_per_group (sb fs)) * s_inode_size (sb fs).

Record inode_ok (fs : ext2_fs_t) (ino table : Z) : Prop := {
  io_ino : 1 <= ino < 2 ^ 32;
  io_table : bg_inode_table (bgdt fs) ((ino - 1) / s_inodes_per_group (sb fs)) = Some table;
  io_pos : 0 <= table;
  io_fits : inode_at fs ino table + block_size fs <= 2 ^ 32
}.

Definition inode_bytes (fs : ext2_fs_t) (ino table : Z) : list Z := bytes (inode_at fs ino table) 128.

(** A record that does not straddle a multiple of the block size. *)
Lemma in_block i isz bs : 0 < isz -> 0 < bs -> bs mod isz = 0 -> 0 <= i -> 128 <= isz -> (i * isz) mod bs + 128 <= bs.
Proof.
  intros Hi Hbs Hm Hpos Hisz. apply Z.mod_divide in Hm as [k ->]; [|lia]. rewrite Z.mul_mod_distr_r by nia.
  pose proof (Z.mod_pos_bound i k ltac:(nia)). nia.
Qed.

(** Memory taken and given back. *)
Lemma free_fresh (a : Z) (X : gset Z) : a ∉ X -> ({[a]} ∪ X) ∖ {[a]} = X.
Proof. intros. set_solver. Qed.
Lemma taken (a : Z) (X : gset Z) : a ∈ {[a]} ∪ X.
Proof. set_solver. Qed.
Lemma taken_under (a r : Z) (X : gset Z) : a ∈ {[r]} ∪ ({[a]} ∪ X).
Proof. set_solver. Qed.
Lemma free_under (a r : Z) (X : gset Z) : a ∉ X -> r ∉ {[a]} ∪ X -> ({[r]} ∪ ({[a]} ∪ X)) ∖ {[a]} = {[r]} ∪ X.
Proof. intros. set_solver. Qed.
Lemma not_taken (a r : Z) (X : gset Z) : r ∉ {[a]} ∪ X -> r ∉ X.
Proof. set_solver. Qed.
Lemma three_taken (r b f : Z) (X : gset Z) : {[r]} ∪ ({[b]} ∪ ({[f]} ∪ X)) = {[r; b; f]} ∪ X.
Proof. set_solver. Qed.

Lemma read_inode_ok fs ino table s : fs_ok fs -> inode_ok fs ino table -> ready s ->
  exists s', ext2_read_inode fs ino s = Some (inode_bytes fs ino table, s') /\ ready s' /\ live s' = live s.
Proof.
  intros Hfs [Hino Ht Hpos Hfit] Hs. pose proof (fo_bs _ Hfs) as Hbs. pose proof (fo_ipg _ Hfs) as Hipg. destruct (fo_isz _ Hfs) as [Hisz Hdiv].
  unfold ext2_read_inode, udiv, umod. rewrite (u32_small (ino - 1)), (proj2 (Z.eqb_neq (s_inodes_per_group (sb fs)) 0)) by lia. cbn [mbind option_bind].
  rewrite Ht. cbn [mbind option_bind]. unfold inode_at in Hfit. set (ix := (ino - 1) mod s_inodes_per_group (sb fs)) in *.
  assert (0 <= ix) as Hix by (apply Z.mod_pos_bound; lia). set (x := ix * s_inode_size (sb fs)) in *. assert (0 <= x) as Hx by nia.
  rewrite (u32_small x), (proj2 (Z.eqb_neq (block_size fs) 0)) by nia. cbn [mbind option_bind].
  destruct (kmalloc_law s (block_size fs) Hs ltac:(lia)) as (a & buf & s1 & -> & Hbuf & Ha & Hl1 & Hs1). cbn [mbind option_bind].
  pose proof (Z.div_mod x (block_size fs) ltac:(lia)) as Hdm. pose proof (Z.mod_pos_bound x (block_size fs) ltac:(lia)) as Hmod.
  assert (0 <= x / block_size fs) as Hq by (apply Z.div_pos; lia). rewrite (u32_small (table + x / block_size fs)) by nia.
  destruct (ext2_read_block_ok fs (table + x / block_size fs) buf s1 Hfs) as (s2 & -> & Hs2 & Hl2); [split; nia|done|done|]. cbn [mbind option_bind].
  assert (x mod block_size fs + 128 <= block_size fs) as Hin by (apply in_block; lia).
  change (Z.of_nat INODE_SIZE) with 128. rewrite get_bytes by lia. cbn [mbind option_bind].
  destruct (kfree_law s2 a Hs2) as (s3 & -> & Hl3 & Hs3); [rewrite Hl2, Hl1; apply taken|]. cbn [mbind option_bind].
  exists s3. split; [|split; [done|rewrite Hl3, Hl2, Hl1; by apply free_fresh]]. do 2 f_equal. unfold inode_bytes, inode_at. fold ix x. f_equal. nia.
Qed.

(** ** Files *)

(** The byte of a file at [o], in its direct blocks. *)
Definition data_at (fs : ext2_fs_t) (inode : list Z) (o : Z) : Z :=
  image (default 0 (i_block inode (o / block_size fs)) * block_size fs + o mod block_size fs).
Definition file_data (fs : ext2_fs_t) (inode : list Z) (off n : Z) : list Z := data_at fs inode <$> seqZ off n.

Definition blocks_ok (fs : ext2_fs_t) (inode : list Z) (size : Z) : Prop :=
  forall i, 0 <= i < 12 -> i * block_size fs < size -> exists b, i_block inode i = Some b /\ block_ok fs b.

(** How many of [n] bytes from [off] on are in direct blocks. *)
Definition direct (fs : ext2_fs_t) (off n : Z) : Z := Z.max 0 (Z.min n (12 * block_size fs - off)).

Lemma file_data_length fs inode off n : length (file_data fs inode off n) = Z.to_nat n.
Proof. unfold file_data. by rewrite length_fmap, length_seqZ. Qed.

Lemma file_data_app fs inode off n m : 0 <= n -> 0 <= m -> file_data fs inode off (n + m) = file_data fs inode off n ++ file_data fs inode (off + n) m.
Proof. intros. unfold file_data. by rewrite seqZ_app, fmap_app by lia. Qed.

(** The bytes of one block of the file. *)
Lemma file_chunk fs inode off n b : 0 < block_size fs -> 0 <= off -> 0 <= n -> off mod block_size fs + n <= block_size fs ->
  i_block inode (off / block_size fs) = Some b -> file_data fs inode off n = bytes (b * block_size fs + off mod block_size fs) n.
Proof.
  intros Hbs Hoff Hn Hin Hb. apply list_eq_lt; [by rewrite file_data_length, bytes_length|]. intros j Hj. rewrite file_data_length in Hj.
  unfold file_data, bytes. rewrite !list_lookup_fmap, !lookup_seqZ_lt by lia. cbn. f_equal. unfold data_at.
  pose proof (Z.div_mod off (block_size fs) ltac:(lia)). pose proof (Z.mod_pos_bound off (block_size fs) ltac:(lia)).
  replace ((off + Z.of_nat j) / block_size fs) with (off / block_size fs) by (apply Z.div_unique with (off mod block_size fs + Z.of_nat j); lia).
  replace ((off + Z.of_nat j) mod block_size fs) with (off mod block_size fs + Z.of_nat j) by (apply Z.mod_unique with (off / block_size fs); lia).
  rewrite Hb. cbn. f_equal. lia.
Qed.

Lemma splice_snoc a b l : (length a + length b <= length l)%nat -> splice (length a) b (splice 0 a l) = splice 0 (a ++ b) l.
Proof.
  intros H. unfold splice. rewrite !take_0. cbn [app Nat.add]. rewrite take_app_length, length_app, <- !app_assoc. do 2 f_equal.
  rewrite drop_app_ge by lia. rewrite drop_drop. do 2 f_equal. lia.
Qed.

Lemma ext2_read_loop_ok fs inode off size buffer : fs_ok fs -> blocks_ok fs inode (off + size) -> 0 <= off -> off + size < 2 ^ 32 -> size <= Z.of_nat (length buffer) ->
  forall fuel r block_buf s, 0 <= r <= size -> size - r < Z.of_nat fuel -> ready s -> length block_buf = Z.to_nat (block_size fs) ->
  exists s', ext2_read_loop fuel fs inode off size r block_buf (splice 0 (file_data fs inode off (direct fs off r)) buffer) s =
      Some (size, splice 0 (file_data fs inode off (direct fs off size)) buffer, s') /\ ready s' /\ live s' = live s.
Proof.
  intros Hfs Hblocks Hoff Hsum Hlen. pose proof (fo_bs _ Hfs) as Hbs. induction fuel as [|fuel IH]; intros r block_buf s Hr Hfuel Hs Hbb; [lia|].
  cbn [ext2_read_loop]. destruct (Z.ltb_spec r size) as [Hlt|Hge]; cbn [negb]; [|replace r with size by lia; eauto].
  unfold udiv, umod. rewrite (proj2 (Z.eqb_neq (block_size fs) 0)), (u32_small (off + r)) by lia. cbn [mbind option_bind].
  set (idx := (off + r) / block_size fs). set (bo := (off + r) mod block_size fs).
  pose proof (Z.div_mod (off + r) (block_size fs) ltac:(lia)) as Hdm. fold idx bo in Hdm.
  pose proof (Z.mod_pos_bound (off + r) (block_size fs) ltac:(lia)) as Hbo. fold bo in Hbo. assert (0 <= idx) as Hidx by (apply Z.div_pos; lia).
  rewrite (u32_small (size - r)) by lia.
  set (t := if size - r <? block_size fs - bo then size - r else block_size fs - bo).
  assert (0 < t <= size - r /\ bo + t <= block_size fs) as [Ht Hbt] by (unfold t; destruct (Z.ltb_spec (size - r) (block_size fs - bo)); lia).
  rewrite (u32_small (r + t)) by lia. destruct (Z.ltb_spec idx 12) as [H12|H12].
  - destruct (Hblocks idx ltac:(lia) ltac:(nia)) as (b & Eb & Hb). rewrite Eb. cbn [mbind option_bind].
    destruct (ext2_read_block_ok fs b block_buf s Hfs Hb Hs Hbb) as (s1 & -> & Hs1 & Hl1). cbn [mbind option_bind]. rewrite get_bytes by lia. cbn [mbind option_bind].
    assert (direct fs off r = r /\ direct fs off (r + t) = r + t) as [Hd1 Hd2] by (unfold direct; nia). rewrite Hd1.
    pose proof (file_chunk fs inode (off + r) t b ltac:(lia) ltac:(lia) ltac:(lia) Hbt Eb) as Hch. fold bo in Hch. rewrite <- Hch.
    rewrite put_at_ok by (rewrite ?file_data_length, ?splice_length; rewrite ?file_data_length; lia). cbn [mbind option_bind].
    replace (Z.to_nat r) with (length (file_data fs inode off r)) by apply file_data_length.
    rewrite splice_snoc by (rewrite !file_data_length; lia). rewrite <- file_data_app by lia.
    destruct (IH (r + t) (bytes (b * block_size fs) (block_size fs)) s1) as (s' & E & Hs' & Hl'); [lia|lia|done|apply bytes_length|].
    rewrite Hd2 in E. exists s'. split; [exact E|]. split; [done|congruence].
  - cbn [mbind option_bind]. assert (direct fs off (r + t) = direct fs off r) as Hd by (unfold direct; nia). rewrite <- Hd. apply IH; try done; lia.
Qed.

(** Reading a file: the count is what is left of the file behind the offset, at most the size asked for; of the bytes
    counted those in the twelve direct blocks are put into the buffer. *)
Lemma read_file_ok fs node table isz offset size buffer s :
  let inode := inode_bytes fs (en_inode node) table in
  let n := Z.max 0 (Z.min size (isz - offset)) in
  fs_ok fs -> inode_ok fs (en_inode node) table -> i_size inode = Some isz -> blocks_ok fs inode isz ->
  Z.land (en_flags node) VFS_SYMLINK = 0 -> isz < 2 ^ 32 -> 0 <= offset -> 0 <= size -> offset + size < 2 ^ 32 -> n <= Z.of_nat (length buffer) -> ready s ->
  exists s', ext2_read fs node offset size buffer s = Some (n, splice 0 (file_data fs inode offset (direct fs offset n)) buffer, s') /\
    ready s' /\ live s' = live s.
Proof.
  intros inode n Hfs Hino Hisz Hblocks Hflags Hmax Hoff Hsize Hsum Hlen Hs. unfold ext2_read.
  destruct (read_inode_ok fs (en_inode node) table s Hfs Hino Hs) as (s1 & -> & Hs1 & Hl1). cbn [mbind option_bind]. fold inode. rewrite Hisz. cbn [mbind option_bind].
  destruct (Z.leb_spec isz offset) as [Hle|Hgt].
  - replace n with 0 by lia. exists s1. split; [|by rewrite Hl1]. by replace (direct fs offset 0) with 0 by (unfold direct; lia).
  - rewrite (u32_small (offset + size)), (u32_small (isz - offset)) by lia. rewrite Hflags. cbn [Z.eqb negb andb].
    assert ((if isz <? offset + size then isz - offset else size) = n) as -> by (destruct (Z.ltb_spec isz (offset + size)); lia).
    destruct (kmalloc_law s1 (block_size fs) Hs1) as (a & bb & s2 & -> & Hbb & Ha & Hl2 & Hs2); [pose proof (fo_bs _ Hfs); lia|]. cbn [mbind option_bind].
    destruct (ext2_read_loop_ok fs inode offset n buffer Hfs) with (fuel := Datatypes.S (Z.to_nat n)) (r := 0) (block_buf := bb) (s := s2) as (s3 & E & Hs3 & Hl3); try done; try lia.
    { intros i Hi Hlt. apply Hblocks; lia. }
    replace (direct fs offset 0) with 0 in E by (unfold direct; lia). change (splice 0 (file_data fs inode offset 0) buffer) with (drop 0 buffer) in E. rewrite drop_0 in E. rewrite E.
    cbn [mbind option_bind]. destruct (kfree_law s3 a Hs3) as (s4 & -> & Hl4 & Hs4); [rewrite Hl3, Hl2; apply taken|]. cbn [mbind option_bind]. exists s4. split; [done|]. split; [done|].
    rewrite Hl4, Hl3, Hl2, Hl1. apply free_fresh. by rewrite Hl1 in Ha.
Qed.

(** ** Directories *)

(** The chain of entries of a block of [bs] bytes, from [off] to its end. *)
Inductive entries_at (bs : Z) (buf : list Z) : Z -> list (Z * list Z) -> Prop :=
| entries_end : entries_at bs buf bs []
| entries_cons off ino rec_len nm l :
    0 <= off -> e_inode buf off = Some ino -> e_rec_len buf off = Some rec_len ->
    e_name_len buf off = Some (Z.of_nat (length nm)) -> get_at (off + 8) (Z.of_nat (length nm)) buf = Some nm -> nonzero nm ->
    8 <= rec_len -> off + rec_len <= bs -> entries_at bs buf (off + rec_len) l -> entries_at bs buf off ((ino, nm) :: l).

(** The entries of the blocks of a directory, from the [i]-th on. *)
Inductive dir_from (fs : ext2_fs_t) (inode : list Z) : nat -> Z -> list (Z * list Z) -> Prop :=
| dir_full i : dir_from fs inode 0 i []
| dir_end n i : i_block inode i = Some 0 -> dir_from fs inode (Datatypes.S n) i []
| dir_block n i b l l' : i_block inode i = Some b -> b <> 0 -> block_ok fs b ->
    entries_at (block_size fs) (bytes (b * block_size fs) (block_size fs)) 0 l -> dir_from fs inode n (i + 1) l' ->
    dir_from fs inode (Datatypes.S n) i (l ++ l').

Definition directory (fs : ext2_fs_t) (inode : list Z) (l : list (Z * list Z)) : Prop := dir_from fs inode 12 0 l.

Fixpoint named (name : list Z) (l : list (Z * list Z)) : option Z :=
  match l with [] => None | (ino, nm) :: l => if bool_decide (nm = name) then Some ino else named name l end.

(** The entries in use. *)
Definition used (l : list (Z * list Z)) : list (Z * list Z) := filter (fun e => e.1 <> 0) l.

Lemma named_app name l l' : named name (l ++ l') = match named name l with Some ino => Some ino | None => named name l' end.
Proof. induction l as [|[ino nm] l IH]; [done|]. cbn. by case_bool_decide. Qed.

Lemma entries_fuel bs buf off l : entries_at bs buf off l -> off + 8 * Z.of_nat (length l) <= bs.
Proof. induction 1; cbn [length]; lia. Qed.

Lemma ext2_entry_name_ok buf off nm : e_name_len buf off = Some (Z.of_nat (length nm)) -> get_at (off + 8) (Z.of_nat (length nm)) buf = Some nm ->
  ext2_entry_name buf off = Some (nm ++ [0]).
Proof. intros H1 H2. unfold ext2_entry_name. rewrite H1. cbn [mbind option_bind]. by rewrite H2. Qed.

Lemma ext2_find_entry_ok fs buf name str off l fuel : block_size fs < 2 ^ 31 -> content str = Some name -> entries_at (block_size fs) buf off l -> (length l < fuel)%nat ->
  find_entry fuel fs buf off str = Some ((fun ino => (ino, name ++ [0])) <$> named name l).
Proof.
  intros Hbs Hstr H. revert fuel. induction H as [|off ino rl nm l Hoff Hino Hrl Hnl Hnm Hz H8 Hend Hl IH]; intros fuel Hf; (destruct fuel as [|fuel]; [cbn in Hf; lia|]); cbn [find_entry named].
  - by rewrite Z.ltb_irrefl.
  - rewrite (proj2 (Z.ltb_lt off _)), (ext2_entry_name_ok buf off nm) by (done || lia). cbn [negb mbind option_bind].
    destruct (strcmp_eq0 (nm ++ [0]) str nm name) as (r & -> & Hr); [by apply content_app|done|]. cbn [mbind option_bind]. case_bool_decide as Hn.
    + rewrite (proj2 Hr Hn). cbn [Z.eqb]. rewrite Hino. cbn. by rewrite Hn.
    + rewrite (proj2 (Z.eqb_neq r 0)), Hrl by tauto. cbn [mbind option_bind]. rewrite u32_small by lia. apply IH. cbn in Hf. lia.
Qed.

(** The same loop for the entry with a number. *)
Lemma nth_entry_ok fs buf off l fuel cur index : block_size fs < 2 ^ 31 -> entries_at (block_size fs) buf off l -> (length l < fuel)%nat ->
  Forall (fun e => length e.2 <= 127)%nat l -> 0 <= cur <= index -> index < 2 ^ 32 - 1 ->
  nth_entry fuel fs buf off cur index = Some (match used l !! Z.to_nat (index - cur) with
    | Some (ino, nm) => Ret (nm ++ [0], ino) | None => Next (cur + Z.of_nat (length (used l))) end).
Proof.
  intros Hbs H. revert fuel cur. induction H as [|off ino rl nm l Hoff Hino Hrl Hnl Hnm Hz H8 Hend Hl IH]; intros fuel cur Hf Hlen Hcur Hi; (destruct fuel as [|fuel]; [cbn in Hf; lia|]); cbn [nth_entry].
  - rewrite Z.ltb_irrefl. cbn. by rewrite Z.add_0_r.
  - apply Forall_cons in Hlen as [Hn Hlen]. cbn [snd] in Hn. rewrite (proj2 (Z.ltb_lt off _)) by lia. cbn [negb]. rewrite Hino. cbn [mbind option_bind].
    unfold used. rewrite filter_cons. cbn [fst]. fold (used l). destruct (Z.eqb_spec ino 0) as [->|Hne]; cbn [negb andb].
    + rewrite decide_False by tauto. rewrite Hrl. cbn [mbind option_bind]. rewrite (proj2 (Z.eqb_neq rl 0)), u32_small by lia. apply IH; try done; cbn in Hf; lia.
    + rewrite decide_True by done. destruct (Z.eqb_spec cur index) as [->|Hc].
      * rewrite (ext2_entry_name_ok buf off nm) by done. cbn [mbind option_bind]. rewrite (proj2 (Nat.leb_le _ _)) by (rewrite length_app; cbn; lia). by rewrite Z.sub_diag.
      * rewrite Hrl. cbn [mbind option_bind]. rewrite (proj2 (Z.eqb_neq rl 0)), !u32_small by lia. rewrite IH by (done || (cbn in Hf; lia)).
        replace (Z.to_nat (index - cur)) with (Datatypes.S (Z.to_nat (index - (cur + 1)))) by lia. cbn [lookup list_lookup length].
        destruct (used l !! _) as [[? ?]|]; [done|]. do 2 f_equal. lia.
Qed.

Section blocks.
Variables (fs : ext2_fs_t) (inode : list Z) (fuel : nat).
Hypothesis fs_is_ok : fs_ok fs.
Hypothesis fuel_ok : block_size fs < Z.of_nat fuel.

Lemma fuel_entries buf l : entries_at (block_size fs) buf 0 l -> (length l < fuel)%nat.
Proof. intros H%entries_fuel. lia. Qed.

Lemma find_blocks_ok str name n i l : content str = Some name -> dir_from fs inode n i l ->
  forall buf s, ready s -> length buf = Z.to_nat (block_size fs) ->
  exists s', find_blocks n fuel fs inode i buf str s = Some ((fun ino => (ino, name ++ [0])) <$> named name l, s') /\ ready s' /\ live s' = live s.
Proof.
  intros Hstr H. induction H as [i|n i Hb|n i b l l' Hb Hb0 Hok Hl Hd IH]; intros buf s Hs Hbuf; cbn [find_blocks].
  - by exists s.
  - rewrite Hb. by exists s.
  - rewrite Hb. cbn [mbind option_bind]. rewrite (proj2 (Z.eqb_neq b 0)) by done. destruct (ext2_read_block_ok fs b buf s fs_is_ok Hok Hs Hbuf) as (s1 & -> & Hs1 & Hl1).
    cbn [mbind option_bind]. rewrite (ext2_find_entry_ok fs _ name str 0 l) by (done || (by apply (fuel_entries _ _ Hl)) || (pose proof (fo_bs _ fs_is_ok); lia)).
    cbn [mbind option_bind]. rewrite named_app. destruct (named name l) as [ino|]; cbn [fmap option_fmap option_map]; [by exists s1|].
    destruct (IH (bytes (b * block_size fs) (block_size fs)) s1 Hs1 (bytes_length _ _)) as (s' & E & Hs' & Hl'). exists s'. split; [exact E|]. split; [done|congruence].
Qed.

Lemma nth_blocks_ok index n i l : index < 2 ^ 32 - 1 -> dir_from fs inode n i l -> Forall (fun e => length e.2 <= 127)%nat l ->
  forall buf cur s, 0 <= cur <= index -> ready s -> length buf = Z.to_nat (block_size fs) ->
  exists s', nth_blocks n fuel fs inode i buf cur index s = Some ((fun e => (e.2 ++ [0], e.1)) <$> used l !! Z.to_nat (index - cur), s') /\ ready s' /\ live s' = live s.
Proof.
  intros Hi H. induction H as [i|n i Hb|n i b l l' Hb Hb0 Hok Hl Hd IH]; intros Hlen buf cur s Hcur Hs Hbuf; cbn [nth_blocks].
  - by exists s.
  - rewrite Hb. by exists s.
  - apply Forall_app in Hlen as [Hlen Hlen']. rewrite Hb. cbn [mbind option_bind]. rewrite (proj2 (Z.eqb_neq b 0)) by done.
    destruct (ext2_read_block_ok fs b buf s fs_is_ok Hok Hs Hbuf) as (s1 & -> & Hs1 & Hl1). cbn [mbind option_bind].
    rewrite (nth_entry_ok fs _ 0 l) by (done || (by apply (fuel_entries _ _ Hl)) || (pose proof (fo_bs _ fs_is_ok); lia)). cbn [mbind option_bind].
    unfold used. rewrite filter_app. fold (used l) (used l'). destruct (used l !! Z.to_nat (index - cur)) as [[ino nm]|] eqn:E.
    + rewrite (lookup_app_l_Some _ _ _ _ E). by exists s1.
    + apply lookup_ge_None_1 in E. rewrite lookup_app_r by lia.
      destruct (IH Hlen' (bytes (b * block_size fs) (block_size fs)) (cur + Z.of_nat (length (used l))) s1 ltac:(lia) Hs1 (bytes_length _ _)) as (s' & E' & Hs' & Hl').
      rewrite E'. exists s'. split; [|split; [done|congruence]]. do 4 f_equal. lia.
Qed.
End blocks.

(** The node of an inode under a name. *)
Definition node_of (ino : Z) (nm : list Z) (size mode : Z) : ext2_node :=
  ENode (nm ++ 0 :: drop (Datatypes.S (length nm)) (replicate 128 0)) ino size (node_type mode).

Lemma inode_to_vfs_ok fs ino table str nm size mode s : fs_ok fs -> inode_ok fs ino table -> content str = Some nm -> (length nm <= 127)%nat ->
  i_size (inode_bytes fs ino table) = Some size -> i_mode (inode_bytes fs ino table) = Some mode -> ready s ->
  exists a s', ext2_inode_to_vfs fs ino str s = Some (a, node_of ino nm size mode, s') /\ ready s' /\ a ∉ live s /\ live s' = {[a]} ∪ live s.
Proof.
  intros Hfs Hino Hstr Hlen Hsize Hmode Hs. unfold ext2_inode_to_vfs. destruct (read_inode_ok fs ino table s Hfs Hino Hs) as (s1 & -> & Hs1 & Hl1). cbn [mbind option_bind].
  destruct (kmalloc_law s1 NODE_SIZE Hs1 ltac:(unfold NODE_SIZE; lia)) as (a & b & s2 & -> & _ & Ha & Hl2 & Hs2). cbn [mbind option_bind].
  rewrite (strcpy_eq _ str nm Hstr) by (rewrite length_replicate; lia). cbn [mbind option_bind]. rewrite Hsize. cbn [mbind option_bind]. rewrite Hmode. cbn [mbind option_bind].
  exists a, s2. rewrite Hl1 in *. by split_and!.
Qed.

(** C22 Looking up a name in a directory of an ext2 file system gives a new node of the first entry with that name, in
    the order of the blocks: its inode number, its size and its type; a name that no entry has gives none.  Apart from the
    new node all memory taken is given back. *)
Theorem ext2_finddir_ok fs node table l str name fuel s :
  fs_ok fs -> inode_ok fs (en_inode node) table -> directory fs (inode_bytes fs (en_inode node) table) l ->
  content str = Some name -> (length name <= 127)%nat -> block_size fs < Z.of_nat fuel -> ready s ->
  match named name l with
  | None => exists s', ext2_finddir fuel fs node str s = Some (None, s') /\ ready s' /\ live s' = live s
  | Some ino => forall table' size mode, inode_ok fs ino table' ->
      i_size (inode_bytes fs ino table') = Some size -> i_mode (inode_bytes fs ino table') = Some mode ->
      exists a s', ext2_finddir fuel fs node str s = Some (Some (a, node_of ino name size mode), s') /\ ready s' /\ a ∉ live s /\ live s' = {[a]} ∪ live s
  end.
Proof.
  intros Hfs Hino Hdir Hstr Hlen Hfuel Hs. unfold ext2_finddir. destruct (read_inode_ok fs (en_inode node) table s Hfs Hino Hs) as (s1 & -> & Hs1 & Hl1).
  cbn [mbind option_bind]. destruct (kmalloc_law s1 (block_size fs) Hs1) as (a & bb & s2 & -> & Hbb & Ha & Hl2 & Hs2); [pose proof (fo_bs _ Hfs); lia|]. cbn [mbind option_bind].
  destruct (find_blocks_ok fs _ fuel Hfs Hfuel str name 12 0 l Hstr Hdir bb s2 Hs2 Hbb) as (s3 & -> & Hs3 & Hl3). cbn [mbind option_bind].
  rewrite Hl1 in *. destruct (named name l) as [ino|]; cbn [fmap option_fmap option_map].
  - intros table' size mode Hino' Hsize Hmode.
    destruct (inode_to_vfs_ok fs ino table' (name ++ [0]) name size mode s3 Hfs Hino') as (r & s4 & -> & Hs4 & Hr & Hl4); try done; [by apply content_app; apply content_nz in Hstr|].
    cbn [mbind option_bind]. rewrite Hl3, Hl2 in *. destruct (kfree_law s4 a Hs4) as (s5 & -> & Hl5 & Hs5); [rewrite Hl4; apply taken_under|]. cbn [mbind option_bind].
    exists r, s5. split; [done|]. split; [done|]. split; [by apply (not_taken a)|]. rewrite Hl5, Hl4. by apply free_under.
  - destruct (kfree_law s3 a Hs3) as (s4 & -> & Hl4 & Hs4); [rewrite Hl3, Hl2; apply taken|]. cbn [mbind option_bind]. exists s4. split; [done|]. split; [done|]. rewrite Hl4, Hl3, Hl2. by apply free_fresh.
Qed.

(** Listing a directory of an ext2 file system: for every index the entry of that number among those in use (with
    an inode), in the order of the blocks, and none behind the last.  The memory taken is given back. *)
Theorem ext2_readdir_ok fs node table l index fuel s :
  fs_ok fs -> inode_ok fs (en_inode node) table -> directory fs (inode_bytes fs (en_inode node) table) l ->
  Forall (fun e => length e.2 <= 127)%nat l -> 0 <= index < 2 ^ 32 - 1 -> block_size fs < Z.of_nat fuel -> ready s ->
  exists s', ext2_readdir fuel fs node index s = Some ((fun e => (e.2 ++ [0], e.1)) <$> used l !! Z.to_nat index, s') /\ ready s' /\ live s' = live s.
Proof.
  intros Hfs Hino Hdir Hlen Hi Hfuel Hs. unfold ext2_readdir. destruct (read_inode_ok fs (en_inode node) table s Hfs Hino Hs) as (s1 & -> & Hs1 & Hl1).
  cbn [mbind option_bind]. destruct (kmalloc_law s1 (block_size fs) Hs1) as (a & bb & s2 & -> & Hbb & Ha & Hl2 & Hs2); [pose proof (fo_bs _ Hfs); lia|]. cbn [mbind option_bind].
  destruct (nth_blocks_ok fs _ fuel Hfs Hfuel index 12 0 l ltac:(lia) Hdir Hlen bb 0 s2 ltac:(lia) Hs2 Hbb) as (s3 & -> & Hs3 & Hl3). cbn [mbind option_bind].
  rewrite Hl1 in *. destruct (kfree_law s3 a Hs3) as (s4 & -> & Hl4 & Hs4); [rewrite Hl3, Hl2; apply taken|]. cbn [mbind option_bind]. rewrite Z.sub_0_r. exists s4. split; [done|]. split; [done|].
  rewrite Hl4, Hl3, Hl2. by apply free_fresh.
Qed.

(** A directory entry whose length is 0 and whose name is another one hangs the lookup: no number of rounds
    ends the loop over its block. *)
Theorem ext2_zero_entry_hangs fs buf off nm str name :
  off < block_size fs -> 0 <= off < 2 ^ 32 -> ext2_entry_name buf off = Some (nm ++ [0]) -> nonzero nm -> content str = Some name -> nm <> name ->
  e_rec_len buf off = Some 0 -> forall fuel, find_entry fuel fs buf off str = None.
Proof.
  intros Hoff Hr Hnm Hz Hstr Hne Hrl fuel. induction fuel as [|fuel IH]; [done|]. cbn [find_entry]. rewrite (proj2 (Z.ltb_lt off _)), Hnm by done. cbn [negb mbind option_bind].
  destruct (strcmp_eq0 (nm ++ [0]) str nm name) as (r & -> & Hr0); [by apply content_app|done|]. cbn [mbind option_bind]. rewrite (proj2 (Z.eqb_neq r 0)), Hrl by tauto.
  cbn [mbind option_bind]. by rewrite Z.add_0_r, u32_small by lia.
Qed.

Definition bgdt_at (bs : Z) : Z := if bs =? 1024 then 2048 else bs.

(** What the super block says. *)
Definition fs_of (sb : ext2_superblock) : ext2_fs_t :=
  let bs := 2 ^ (10 + s_log_block_size sb) in
  let groups := (s_blocks_count sb + s_blocks_per_group sb - 1) / s_blocks_per_group sb in
  Ext2Fs sb bs groups (bytes (bgdt_at bs) (groups * 32)).

(** Mounting: without the magic number in the super block there is no file system, and all memory taken is given
    back; otherwise the block size, the number of groups and the group descriptors are those the super block says, the
    root is the directory of inode 2, and what stays in memory are the file system, its descriptors and the root. *)
Theorem ext2_init_ok superblock s :
  get_superblock (take SUPERBLOCK_SIZE (bytes 1024 1024)) = Some superblock -> ready s ->
  (s_magic superblock <> EXT2_SUPER_MAGIC -> exists s', ext2_init s = Some (None, s') /\ ready s' /\ live s' = live s) /\
  (s_magic superblock = EXT2_SUPER_MAGIC ->
   let fs := fs_of superblock in
   forall table size mode, fs_ok fs -> inode_ok fs 2 table -> i_size (inode_bytes fs 2 table) = Some size -> i_mode (inode_bytes fs 2 table) = Some mode ->
   0 <= s_log_block_size superblock < 21 -> 0 < s_blocks_count superblock -> 0 < s_blocks_per_group superblock ->
   s_blocks_count superblock + s_blocks_per_group superblock <= 2 ^ 32 -> bgdt_at (block_size fs) + groups_count fs * 32 < 2 ^ 32 ->
   exists f b r s', ext2_init s = Some (Some (fs, r, node_of 2 [47] size mode), s') /\ ready s' /\ live s' = {[r; b; f]} ∪ live s /\ r ∉ live s).
Proof.
  intros Hsb Hs. unfold ext2_init. destruct (kmalloc_law s FS_SIZE Hs ltac:(unfold FS_SIZE; lia)) as (f & fb & s1 & -> & _ & Hf & Hl1 & Hs1). cbn [mbind option_bind].
  destruct (kmalloc_law s1 1024 Hs1 ltac:(lia)) as (a & ab & s2 & -> & Hab & Ha & Hl2 & Hs2). cbn [mbind option_bind]. unfold read_into.
  destruct (read_dev_law s2 1024 1024 Hs2) as (s3 & -> & Hs3 & Hl3); try lia. fold (bytes 1024 1024). cbn [mbind option_bind].
  rewrite put_whole by (by rewrite bytes_length). cbn [mbind option_bind]. rewrite Hsb. cbn [mbind option_bind].
  destruct (kfree_law s3 a Hs3) as (s4 & -> & Hl4 & Hs4); [rewrite Hl3, Hl2; apply taken|]. cbn [mbind option_bind]. rewrite Hl3, Hl2, free_fresh in Hl4 by done. split.
  - intros Hm. rewrite (proj2 (Z.eqb_neq _ _)) by done. cbn [negb]. destruct (kfree_law s4 f Hs4) as (s5 & -> & Hl5 & Hs5); [rewrite Hl4, Hl1; apply taken|]. cbn [mbind option_bind].
    exists s5. split; [done|]. split; [done|]. rewrite Hl5, Hl4, Hl1. by apply free_fresh.
  - intros Hm table size mode Hfs Hino Hsize Hmode Hlog Hbc Hbpg Hsum Hg. rewrite (proj2 (Z.eqb_eq _ _)) by done. cbn [negb].
    rewrite (proj2 (Z.leb_gt 32 _)) by lia. cbn [mbind option_bind]. pose proof (fo_bs _ Hfs) as Hbs. cbn [fs_of block_size] in Hbs.
    replace (u32 (Z.shiftl 1024 (s_log_block_size superblock))) with (2 ^ (10 + s_log_block_size superblock))
      by (rewrite Z.shiftl_mul_pow2 by lia; change 1024 with (2 ^ 10); rewrite <- Z.pow_add_r by lia; by rewrite u32_small by lia).
    unfold udiv. rewrite (proj2 (Z.eqb_neq (s_blocks_per_group superblock) 0)), (u32_small (_ - 1)) by lia. cbn [mbind option_bind].
    cbn [fs_of block_size groups_count] in Hg. set (bs := 2 ^ (10 + s_log_block_size superblock)) in *.
    set (groups := (s_blocks_count superblock + s_blocks_per_group superblock - 1) / s_blocks_per_group superblock) in *.
    assert (0 < groups) as Hgp by (apply Z.div_str_pos; lia). unfold GROUP_DESC_SIZE.
    assert (0 <= bgdt_at bs) as Hat by (unfold bgdt_at; destruct (bs =? 1024); lia). rewrite (u32_small (groups * 32)) by lia.
    destruct (kmalloc_law s4 (groups * 32) Hs4 ltac:(lia)) as (b & bb & s5 & -> & Hbb & Hb & Hl5 & Hs5). cbn [mbind option_bind]. fold (bgdt_at bs).
    destruct (read_dev_law s5 (bgdt_at bs) (groups * 32) Hs5) as (s6 & -> & Hs6 & Hl6); try lia. fold (bytes (bgdt_at bs) (groups * 32)). cbn [mbind option_bind].
    rewrite put_whole by (by rewrite bytes_length). cbn [mbind option_bind].
    destruct (inode_to_vfs_ok (fs_of superblock) 2 table [47; 0] [47] size mode s6 Hfs Hino eq_refl) as (r & s7 & E & Hs7 & Hr & Hl7); try done; [cbn; lia|].
    unfold fs_of in E |- *. fold bs groups in E |- *. rewrite E. cbn [mbind option_bind]. exists f, b, r, s7. split; [done|]. split; [done|].
    rewrite Hl7, Hl6, Hl5, Hl4, Hl1. split; [apply three_taken|]. rewrite Hl6, Hl5, Hl4, Hl1 in Hr. by apply not_taken, not_taken in Hr.
Qed.
End ext2.

(** ** A small disk

    Six blocks of 1024 bytes: the super block, the group descriptor, the inodes 2
    and 3, the root directory and a file of five bytes. *)

Definition pad (n : nat) (l : list Z) : list Z := take n (l ++ replicate n 0).

Definition inode_image (mode size block : Z) : list Z := pad 128 (le16 mode ++ [0; 0] ++ le32 size ++ replicate 32 0 ++ le32 block).
Definition entry_image (ino rec_len : Z) (name : list Z) : list Z :=
  pad (Z.to_nat rec_len) (le32 ino ++ le16 rec_len ++ [Z.of_nat (length name); 0] ++ name).

Definition super_image : list Z :=
  le32 8 ++ le32 6 ++ replicate 12 0 ++ le32 1 ++ le32 0 ++ le32 0 ++ le32 8192 ++ le32 0 ++ le32 8 ++ replicate 12 0 ++ [0x53; 0xEF] ++ replicate 30 0 ++ le16 128.

Definition small_image : list Z :=
  replicate 1024 0 ++ pad 1024 super_image ++ pad 1024 (replicate 8 0 ++ le32 3) ++
  pad 1024 (replicate 128 0 ++ inode_image 0x41ED 1024 4 ++ inode_image 0x81A4 5 5) ++
  (entry_image 2 12 [46] ++ entry_image 2 12 [46; 46] ++ entry_image 0 12 [120] ++ entry_image 3 988 [104; 105]) ++
  pad 1024 [104; 101; 108; 108; 111].

Definition small_byte (o : Z) : Z := default 0 (small_image !! Z.to_nat o).

(** The device is that image; the state is the set of addresses in use. *)
#[local] Instance small_env : Ext2Env (gset Z) := {|
  read_dev off n s := Some (small_byte <$> seqZ off n, s);
  kmalloc n s := Some (fresh s, replicate (Z.to_nat n) 0, {[fresh s]} ∪ s);
  kfree a s := if decide (a ∈ s) then Some (s ∖ {[a]}) else None
|}.

#[local] Instance small_laws : Ext2Laws (gset Z).
Proof.
  refine {| ready := fun _ => True; image := small_byte; live := fun s => s |}.
  - intros s off n _ _ _ _. by exists s.
  - intros s n _ Hn. eexists _, _, _. split; [reflexivity|]. split; [by rewrite length_replicate|]. split; [apply is_fresh|by split].
  - intros s a _ Ha. exists (s ∖ {[a]}). cbn. by rewrite decide_True.
Defined.

Definition small_super : ext2_superblock := Superblock 6 0 8192 8 0xEF53 128.
Definition small_fs : ext2_fs_t := fs_of small_super.
Definition small_root : ext2_node := node_of 2 [47] 1024 0x41ED.
Definition small_file : ext2_node := node_of 3 [104; 105] 5 0x81A4.
Definition small_entries : list (Z * list Z) := [(2, [46]); (2, [46; 46]); (0, [120]); (3, [104; 105])].

Lemma small_fs_ok : fs_ok small_fs.
Proof. constructor; cbn; [lia|lia|split; [lia|reflexivity]]. Qed.

Lemma small_inode_ok ino : 1 <= ino <= 8 -> inode_ok small_fs ino 3.
Proof.
  intros H. constructor; [lia| |lia|].
  - cbn [small_fs fs_of sb small_super s_inodes_per_group]. rewrite (Z.div_small (ino - 1) 8) by lia. vm_compute. reflexivity.
  - unfold inode_at. cbn [small_fs fs_of sb small_super s_inodes_per_group s_inode_size block_size s_log_block_size]. rewrite (Z.mod_small (ino - 1) 8) by lia. change (2 ^ (10 + 0)) with 1024. lia.
Qed.

Lemma small_directory : directory small_fs (inode_bytes small_fs 2 3) small_entries.
Proof.
  apply (dir_block small_fs _ 11 0 4 small_entries []); [vm_compute; reflexivity|lia|split; [lia|vm_compute; discriminate]| |].
  - unfold small_entries. apply (entries_cons _ _ 0 2 12 [46]); [lia|vm_compute; reflexivity..|repeat constructor; discriminate|lia|vm_compute; discriminate|].
    apply (entries_cons _ _ (0 + 12) 2 12 [46; 46]); [lia|vm_compute; reflexivity..|repeat constructor; discriminate|lia|vm_compute; discriminate|].
    apply (entries_cons _ _ (0 + 12 + 12) 0 12 [120]); [lia|vm_compute; reflexivity..|repeat constructor; discriminate|lia|vm_compute; discriminate|].
    apply (entries_cons _ _ (0 + 12 + 12 + 12) 3 988 [104; 105]); [lia|vm_compute; reflexivity..|repeat constructor; discriminate|lia|vm_compute; discriminate|].
    change (0 + 12 + 12 + 12 + 988) with (block_size small_fs). apply entries_end.
  - apply dir_end. vm_compute. reflexivity.
Qed.

Lemma ext2_finddir_ok_witness :
  exists a s', ext2_finddir 1025 small_fs small_root [104; 105; 0] (∅ : gset Z) = Some (Some (a, small_file), s') /\ True /\ a ∉ (∅ : gset Z) /\ s' = {[a]} ∪ ∅.
Proof.
  pose proof (ext2_finddir_ok small_fs small_root 3 small_entries [104; 105; 0] [104; 105] 1025 (∅ : gset Z) small_fs_ok) as H.
  change (named [104; 105] small_entries) with (Some 3) in H. cbv beta iota in H. apply (H (small_inode_ok 2 ltac:(lia)) small_directory) with (table' := 3).
  - reflexivity.
  - cbn. lia.
  - vm_compute. reflexivity.
  - exact I.
  - apply small_inode_ok. lia.
  - vm_compute. reflexivity.
  - vm_compute. reflexivity.
Defined.

Lemma ext2_readdir_ok_witness :
  exists s', ext2_readdir 1025 small_fs small_root 2 (∅ : gset Z) = Some (Some ([104; 105; 0], 3), s') /\ True /\ s' = ∅.
Proof.
  assert (used small_entries !! Z.to_nat 2 = Some (3, [104; 105])) as Hu by (vm_compute; reflexivity).
  pose proof (ext2_readdir_ok small_fs small_root 3 small_entries 2 1025 (∅ : gset Z) small_fs_ok (small_inode_ok 2 ltac:(lia)) small_directory) as H.
  rewrite Hu in H. apply H.
  - repeat constructor; cbn; lia.
  - lia.
  - vm_compute. reflexivity.
  - exact I.
Defined.

Lemma ext2_zero_entry_hangs_witness : exists buf, length buf = 1024%nat /\ forall fuel, find_entry fuel small_fs buf 12 [104; 105; 0] = None.
Proof.
  exists (entry_image 2 12 [46] ++ replicate 1012 0). split; [vm_compute; reflexivity|].
  apply (ext2_zero_entry_hangs small_fs _ 12 [] [104; 105; 0] [104; 105]); [vm_compute; reflexivity|lia|vm_compute; reflexivity|constructor|reflexivity|discriminate|vm_compute; reflexivity].
Defined.

Lemma ext2_init_ok_witness :
  exists f b r s', ext2_init (∅ : gset Z) = Some (Some (small_fs, r, small_root), s') /\ True /\ s' = {[r; b; f]} ∪ ∅ /\ r ∉ (∅ : gset Z).
Proof.
  assert (get_superblock (take SUPERBLOCK_SIZE (bytes 1024 1024)) = Some small_super) as Hsb by (vm_compute; reflexivity).
  apply (proj2 (ext2_init_ok small_super (∅ : gset Z) Hsb I) eq_refl 3 1024 0x41ED small_fs_ok (small_inode_ok 2 ltac:(lia))).
  - vm_compute. reflexivity.
  - vm_compute. reflexivity.
  - cbn. lia.
  - cbn. lia.
  - cbn. lia.
  - cbn. lia.
  - vm_compute. reflexivity.
Defined.
