(* ===== verification/AtaDev.v ===== *)
(** * AtaDev: the second disk as a device (kernel/core/kernel.c, ata_read_device1)

    The device node under the ext2 file system reads any bytes of the second ATA
    drive, a sector at a time.  On a machine whose drives follow the ATA
    protocol it is the device Ext2Thm asks for. *)

From S2P Require Export Ata Ext2Thm.
#[local] Open Scope Z_scope.

Section device1.
Variable dev : machine.
(** The 512 bytes of [sector_buf] on the stack. *)
Variable stack : list Z.

(** One sector of the loop: the buffer on the stack, the bytes copied so far, the caller's buffer. *)
Definition device1_sector (offset size start_sector end_sector i : Z) (st : list Z * Z * list Z * ata) : option (list Z * Z * list Z * ata) :=
  let '(sector_buf, read_bytes, buffer, s) := st in
  '(sector_buf, s) ← ata_read_sector dev 1 i sector_buf s;
  let off := if i =? start_sector then offset mod 512 else 0 in
  let len := if i =? end_sector then u32 (u32 (offset + size - 1) mod 512 - off + 1) else 512 - off in
  bytes ← get_at off len sector_buf;
  buffer ← put_at read_bytes bytes buffer;
  Some (sector_buf, u32 (read_bytes + len), buffer, s).

(** The count and the caller's buffer. *)
Definition ata_read_device1 (offset size : Z) (buffer : list Z) (s : ata) : option (Z * list Z * ata) :=
  let '(_, t) := outb 0x1F6 0xF0 (ata_trace s) in
  let '(_, t) := inbs dev 4 0x1F7 t in
  let '(st, t) := inb dev 0x1F7 t in
  let '(_, t) := outb 0x1F6 0xE0 t in
  let s := Ata (ata_lock s) (ata_eflags s) t in
  if (st =? 0xFF) || (st =? 0x00) then Some (0, buffer, s) else
  let start_sector := offset / 512 in
  let end_sector := u32 (offset + size - 1) / 512 in
  '(_, read_bytes, buffer, s) ← for_do start_sector (end_sector + 1) (device1_sector offset size start_sector end_sector) (stack, 0, buffer, s);
  Some (read_bytes, buffer, s).
End device1.

(** ** The bytes of the drive *)

Definition disk_byte (m : gmap (Z * Z) (list Z)) (o : Z) : Z := default 0 (dev_read 1 (o / 512) m !! Z.to_nat (o mod 512)).
Definition disk_bytes (m : gmap (Z * Z) (list Z)) (off n : Z) : list Z := disk_byte m <$> seqZ off n.

Lemma disk_bytes_length m off n : length (disk_bytes m off n) = Z.to_nat n.
Proof. unfold disk_bytes. by rewrite length_fmap, length_seqZ. Qed.

Lemma disk_bytes_app m off n k : 0 <= n -> 0 <= k -> disk_bytes m off (n + k) = disk_bytes m off n ++ disk_bytes m (off + n) k.
Proof. intros. unfold disk_bytes. by rewrite seqZ_app, fmap_app by lia. Qed.

(** Part of a sector. *)
Lemma sector_bytes m i off n : 0 <= off -> 0 <= n -> off + n <= 512 ->
  get_at off n (dev_read 1 i m) = Some (disk_bytes m (i * 512 + off) n).
Proof.
  intros Hoff Hn H. pose proof (dev_read_sector 1 i m) as Hlen. unfold sector, SECTOR in Hlen. rewrite get_at_ok by lia. f_equal.
  apply list_eq_lt; [rewrite slice_length by lia; by rewrite disk_bytes_length|]. intros j Hj. rewrite slice_length in Hj by lia. rewrite slice_lookup by lia.
  unfold disk_bytes, disk_byte. rewrite list_lookup_fmap, lookup_seqZ_lt by lia. cbn [fmap option_fmap option_map].
  replace ((i * 512 + off + Z.of_nat j) / 512) with i by (apply Z.div_unique with (off + Z.of_nat j); lia).
  replace ((i * 512 + off + Z.of_nat j) mod 512) with (off + Z.of_nat j) by (apply Z.mod_unique with i; lia).
  destruct (lookup_lt_is_Some_2 (dev_read 1 i m) (Z.to_nat off + j)) as [x Hx]; [lia|].
  replace (Z.to_nat (off + Z.of_nat j)) with (Z.to_nat off + j)%nat by lia. by rewrite Hx.
Qed.

Section disk.
Variables (present : Z -> bool) (delay : list event -> nat) (start : hw) (dev : machine) (stack : list Z).
Hypothesis dev_follows : follows present delay start dev.
Hypothesis delay_bound : forall t, Z.of_nat (delay t) < 1000000.
Hypothesis drive1 : present 1 = true.
Hypothesis stack_sector : length stack = 512%nat.
Notation hw_of := (hw_of present delay start).
Notation quiet := (quiet present delay start).

(** Is the drive there?  Selecting it, five status reads, and the first drive again. *)
Lemma drive_probe_ok t : quiet t ->
  exists st t', (let '(_, t) := outb 0x1F6 0xF0 t in let '(_, t) := inbs dev 4 0x1F7 t in let '(st, t) := inb dev 0x1F7 t in
                 let '(_, t) := outb 0x1F6 0xE0 t in (st, t)) = (st, t') /\ (st =? 0xFF) || (st =? 0x00) = false /\
    quiet t' /\ media (hw_of t') = media (hw_of t).
Proof.
  intros Hq. assert (ata_base 0x1F0) as Hb by (by left). destruct (Hq _ Hb) as [Hi Hn]. unfold outb at 1.
  pose proof (write_reg_ok present delay start 0x1F0 6 0xF0 t Hb ltac:(lia)) as R1. change (0x1F0 + 6) with 0x1F6 in R1.
  set (t1 := Out8 0x1F6 (u8 0xF0) :: t) in *. set (c := put_reg 6 (u8 0xF0) (chans (hw_of t) 0x1F0)) in *.
  assert (present (c_drive 0x1F0 c) = true) as Hp by exact drive1.
  destruct (reads_ok present delay start dev dev_follows 0x1F0 4 c t1 Hb (re_chan _ _ _ _ _ _ _ R1) Hp) as (m & t2 & E2 & Hm & R2).
  change (0x1F0 + 7) with 0x1F7 in E2. rewrite E2.
  destruct (read_status present delay start dev dev_follows 0x1F0 (with_busy m c) t2 Hb (re_chan _ _ _ _ _ _ _ R2) Hp) as (t3 & E3 & R3).
  change (0x1F0 + 7) with 0x1F7 in E3. rewrite E3. unfold outb.
  pose proof (write_reg_ok present delay start 0x1F0 6 0xE0 t3 Hb ltac:(lia)) as R4. change (0x1F0 + 6) with 0x1F6 in R4.
  eexists _, _. split; [reflexivity|]. split.
  { unfold Ata.ready. cbn [c_phase c_busy with_busy]. change (c_phase c) with (c_phase (chans (hw_of t) 0x1F0)). rewrite Hi. by destruct (m =? 0)%nat. }
  pose proof (reach_trans _ _ _ _ _ _ _ _ _ (reach_trans _ _ _ _ _ _ _ _ _ (reach_trans _ _ _ _ _ _ _ _ _ R1 R2) R3) R4) as R. split.
  - eapply quiet_reach; [exact Hq|exact R| |]; rewrite (re_chan _ _ _ _ _ _ _ R3); cbn [put_reg Z.eqb Pos.eqb c_phase c_busy with_busy]; [exact Hi|].
    change (c_busy c) with (c_busy (chans (hw_of t) 0x1F0)) in Hm. lia.
  - exact (re_media _ _ _ _ _ _ _ R).
Qed.

(** A read of at least one byte returns the size asked for and puts exactly those bytes of the drive into the buffer,
    whatever sectors they cross. *)
Lemma read_device1_ok offset size buffer s :
  quiet (ata_trace s) -> media_ok (media (hw_of (ata_trace s))) -> 0 <= offset -> 0 < size -> offset + size <= 2 ^ 32 -> size <= Z.of_nat (length buffer) -> size < 2 ^ 32 ->
  exists s', ata_read_device1 dev stack offset size buffer s =
      Some (size, splice 0 (disk_bytes (media (hw_of (ata_trace s))) offset size) buffer, s') /\
    quiet (ata_trace s') /\ media (hw_of (ata_trace s')) = media (hw_of (ata_trace s)) /\ ata_eflags s' = ata_eflags s.
Proof.
  intros Hq Hmo Hoff Hsize Hsum Hlen Hs32. set (m := media (hw_of (ata_trace s))) in *. unfold ata_read_device1.
  destruct (drive_probe_ok (ata_trace s) Hq) as (st & t & E & Hst & Hqt & Hmt). unfold outb in *. destruct (inbs dev 4 _ _) as [u1 t1]. destruct (inb dev _ t1) as [st' t2].
  injection E as -> ->. rewrite Hst. cbv beta iota zeta. rewrite (u32_small (offset + size - 1)) by lia. set (a := offset / 512). set (b := (offset + size - 1) / 512).
  pose proof (Z.div_mod offset 512 ltac:(lia)) as Da. pose proof (Z.mod_pos_bound offset 512 ltac:(lia)) as Ma. fold a in Da.
  pose proof (Z.div_mod (offset + size - 1) 512 ltac:(lia)) as Db. pose proof (Z.mod_pos_bound (offset + size - 1) 512 ltac:(lia)) as Mb. fold b in Db.
  set (done_ (i : Z) := Z.max 0 (Z.min size (i * 512 - offset))).
  destruct (for_do_rule (fun i '(sb, rb, buf, s1) => length sb = 512%nat /\ rb = done_ i /\ buf = splice 0 (disk_bytes m offset (done_ i)) buffer /\
      quiet (ata_trace s1) /\ media (hw_of (ata_trace s1)) = m /\ ata_eflags s1 = ata_eflags s) a (b + 1) (device1_sector dev offset size a b)
      (stack, 0, buffer, Ata (ata_lock s) (ata_eflags s) t)) as ([[[sb rb] buf] s'] & E & Hsb & -> & -> & Hq' & Hm' & He').
  - lia.
  - split; [done|]. assert (done_ a = 0) as -> by (unfold done_; lia). split; [done|]. split; [|split; [done|by split]]. symmetry. apply drop_0.
  - intros i [[[sb rb] buf] s1] Hi (Hsb & -> & -> & Hq1 & Hm1 & He1). unfold device1_sector.
    assert (drive_ok 1) as Hd by (split; lia). assert (lba28_ok i) as Hi28 by (split; lia).
    destruct (read_sector_ok present delay start dev dev_follows delay_bound 1 i sb s1 Hd Hi28 drive1 Hq1) as (s2 & -> & Hm2 & Hq2 & He2); [by rewrite Hm1|done|]. cbn [mbind option_bind]. rewrite Hm1.
    rewrite (u32_small (offset + size - 1)) by lia. set (off := if i =? a then offset mod 512 else 0).
    set (len := if i =? b then _ else _).
    assert (0 <= off /\ len = done_ (i + 1) - done_ i /\ 0 <= len /\ off + len <= 512 /\ i * 512 + off = offset + done_ i) as (Ho & Hl & Hl0 & Hol & Hpos).
    { unfold len, off, done_. destruct (Z.eqb_spec i a), (Z.eqb_spec i b); rewrite ?(u32_small (_ - _ + 1)) by lia; lia. }
    rewrite (sector_bytes m i off len) by lia. cbn [mbind option_bind]. rewrite Hpos.
    assert (0 <= done_ i /\ done_ i + len <= size) as [Hd0 Hd1] by (rewrite Hl; unfold done_; lia).
    assert (length (splice 0 (disk_bytes m offset (done_ i)) buffer) = length buffer) as Hspl by (apply splice_length; rewrite disk_bytes_length; lia).
    rewrite put_at_ok by (rewrite ?Hspl, ?disk_bytes_length; lia). cbn [mbind option_bind].
    eexists. split; [reflexivity|]. cbv beta iota. split; [apply dev_read_sector|]. replace (done_ (i + 1)) with (done_ i + len) by lia.
    split; [apply u32_small; lia|]. split; [|split; [done|]; split; congruence].
    rewrite disk_bytes_app by lia. rewrite <- splice_snoc by (rewrite !disk_bytes_length; lia). by rewrite disk_bytes_length.
  - rewrite E. cbn [mbind option_bind]. assert (done_ (b + 1) = size) as -> by (unfold done_; lia). by exists s'.
Qed.

(** ** Files of the second disk *)

(** The device of [ext2_init] is the drive; the heap is the set of addresses in use. *)
#[local] Instance disk_env : Ext2Env (ata * gset Z) := {|
  read_dev off n '(s, h) := '(n, buf, s) ← ata_read_device1 dev stack off n (replicate (Z.to_nat n) 0) s; Some (take (Z.to_nat n) buf, (s, h));
  kmalloc n '(s, h) := Some (fresh h, replicate (Z.to_nat n) 0, (s, {[fresh h]} ∪ h));
  kfree a '(s, h) := if decide (a ∈ h) then Some (s, h ∖ {[a]}) else None
|}.

Variable m : gmap (Z * Z) (list Z).
Hypothesis m_ok : media_ok m.

Definition on_disk (s : ata) : Prop := quiet (ata_trace s) /\ media (hw_of (ata_trace s)) = m.

#[local] Instance disk_laws : Ext2Laws (ata * gset Z).
Proof.
  refine {| ready := fun s => on_disk (fst s); image := disk_byte m; live := snd |}.
  - intros [s h] off n [Hq Hm] Hoff Hn Hsum. cbn [fst snd] in *.
    destruct (read_device1_ok off n (replicate (Z.to_nat n) 0) s Hq) as (s' & E & Hq' & Hm' & _); try done; try lia; [by rewrite Hm|rewrite length_replicate; lia|].
    exists (s', h). split; [|split; [split; [done|exact (eq_trans Hm' Hm)]|done]]. unfold read_dev, disk_env. rewrite E. cbn [mbind option_bind]. rewrite Hm. do 2 f_equal.
    unfold splice. rewrite take_0, disk_bytes_length, drop_ge, app_nil_r by (rewrite length_replicate; lia). cbn [app]. apply take_ge. unfold disk_bytes. by rewrite length_fmap, length_seqZ.
  - intros [s h] n Hs Hn. eexists _, _, (s, _). split; [reflexivity|]. split; [by rewrite length_replicate|]. split; [apply is_fresh|by split].
  - intros [s h] a Hs Ha. exists (s, h ∖ {[a]}). cbn in *. by rewrite decide_True.
Defined.

(** C11 A file of the ext2 file system on the second disk, read through the device node, the sector loop and the port
    dialogue of the driver: on a machine whose drives follow the ATA protocol the count is what is left of the file behind
    the offset, at most the size asked for, and the bytes of the file's twelve direct blocks are put into the buffer as
    the drive has them at the places the on-disk format says.  Bytes behind the twelve blocks are counted but not
    written.  The drive keeps its contents, no command is left under way, and the memory taken is given back. *)
Theorem ext2_file_on_ata fs node table isz offset size buffer s h :
  let inode := inode_bytes fs (en_inode node) table in
  let n := Z.max 0 (Z.min size (isz - offset)) in
  on_disk s -> fs_ok fs -> inode_ok fs (en_inode node) table -> i_size inode = Some isz -> blocks_ok fs inode isz ->
  Z.land (en_flags node) VFS_SYMLINK = 0 -> isz < 2 ^ 32 -> 0 <= offset -> 0 <= size -> offset + size < 2 ^ 32 -> n <= Z.of_nat (length buffer) ->
  exists s', ext2_read fs node offset size buffer (s, h) = Some (n, splice 0 (file_data fs inode offset (direct fs offset n)) buffer, (s', h)) /\ on_disk s'.
Proof.
  intros inode n Hs Hfs Hino Hisz Hb Hf Hmax Ho Hz Hsum Hlen.
  destruct (read_file_ok fs node table isz offset size buffer (s, h)) as ([s' h'] & E & Hs' & Hl'); try done. cbn in Hl'. subst h'. by exists s'.
Qed.
End disk.

(** ** A machine with the small disk of Ext2Thm as its second drive *)

Definition second_drive (d : Z) : bool := d =? 1.
Definition small_media : gmap (Z * Z) (list Z) :=
  list_to_map ((fun i => ((1, i), slice (Z.to_nat (512 * i)) 512 small_image)) <$> seqZ 0 12).
Definition small_disk : hw := Hw (fun _ => Chan 0 0 0 0 0 0 Idle) small_media.
Definition small_machine : machine :=
  Machine (fun t p => match base_of p with
                      | Some base => if p =? base + 7 then status second_drive base (hw_of second_drive three_reads small_disk t) else 0
                      | None => 0
                      end)
    (fun t p => match c_phase (chans (hw_of second_drive three_reads small_disk t) p) with Give (w :: _) => w | _ => 0 end)
    (fun _ _ => 0).

Lemma small_machine_follows : follows second_drive three_reads small_disk small_machine.
Proof.
  constructor.
  - intros t base Hb. cbn [read8 small_machine]. rewrite base_of_reg by (done || lia). by rewrite Z.eqb_refl.
  - intros t base w ws Hb Hg _. cbn [read16 small_machine]. by rewrite Hg.
Qed.

Lemma small_media_ok : media_ok small_media.
Proof.
  assert (forallb (fun b => forallb (fun x => (0 <=? x) && (x <? 256)) b) (map snd (map_to_list small_media)) = true) as H by (vm_compute; reflexivity).
  intros [d i] b Hb. apply map_to_list_lookup in Hb || apply elem_of_map_to_list in Hb. rewrite forallb_forall in H.
  specialize (H b). rewrite <- list_elem_of_In in H. specialize (H (list_elem_of_fmap_2 snd _ _ Hb)).
  rewrite forallb_forall in H. apply Forall_forall. intros x Hx. apply list_elem_of_In, H in Hx. unfold byte_ok. lia.
Qed.

Lemma three_reads_bound t : Z.of_nat (three_reads t) < 1000000.
Proof. unfold three_reads. lia. Qed.

Lemma ext2_file_on_ata_witness :
  exists s', @ext2_read _ (disk_env small_machine (replicate 512 0)) small_fs small_file 1 10 [7; 7; 7; 7; 7; 7] (ata_start, ∅) =
      Some (4, [101; 108; 108; 111; 7; 7], (s', ∅)) /\ on_disk second_drive three_reads small_disk small_media s'.
Proof.
  destruct (ext2_file_on_ata second_drive three_reads small_disk small_machine (replicate 512 0) small_machine_follows three_reads_bound eq_refl eq_refl
    small_media small_media_ok small_fs small_file 3 5 1 10 [7; 7; 7; 7; 7; 7] ata_start ∅) as (s' & E & Hs').
  - split; [intros base _; split; reflexivity|reflexivity].
  - exact small_fs_ok.
  - exact (small_inode_ok 3 ltac:(lia)).
  - vm_compute. reflexivity.
  - intros i Hi Hlt. change (block_size small_fs) with 1024 in Hlt. assert (i = 0) as -> by lia. exists 5. split; [vm_compute; reflexivity|]. split; [lia|vm_compute; discriminate].
  - reflexivity.
  - lia.
  - lia.
  - lia.
  - lia.
  - vm_compute. discriminate.
  - exists s'. split; [|exact Hs']. rewrite E. f_equal.
Defined.
