(* ===== verification/Elf.v ===== *)
(** * Elf: the program loader (kernel/proc/elf.c, include/elf.h)

    The file comes through the virtual file system into a buffer of the kernel heap
    (KHeap), in the address space whose pages the loader maps: headers and segments
    are read from there, at their virtual addresses, which wrap at 2^32.  The heap's
    block headers and the node, which [kfree] takes out of memory, are the records of
    KHeap and Vfs.  The messages are left out. *)

From S2P Require Export Vfs UserMem Net KHeap.

Definition ELFMAG : list Z := [0x7f; 69; 76; 70].
Definition PT_LOAD : Z := 1.

(** The fields of a program header that are used. *)
Record segment := Segment { p_offset : Z; p_vaddr : Z; p_filesz : Z; p_memsz : Z }.

Section elf.
Context {W : Type} `{!Drivers W}.
Context {A : Type} `{!FrameAlloc A}.
Variable mnts : mounts.

Definition vm_get16 (va : Z) (s : vm A) : option Z := de16 <$> vm_load va 2 s.
Definition vm_get32 (va : Z) (s : vm A) : option Z := de32 <$> vm_load va 4 s.

(** [memcpy], a byte at a time. *)
Fixpoint vm_copy (n : nat) (dest src : Z) (s : vm A) : option (vm A) :=
  match n with
  | O => Some s
  | S n => b ← vm_get src s; s ← vm_put dest b s; vm_copy n (dest + 1) (src + 1) s
  end.

Definition get_segment (ph : Z) (s : vm A) : option segment :=
  offset ← vm_get32 (ph + 4) s; vaddr ← vm_get32 (ph + 8) s;
  filesz ← vm_get32 (ph + 16) s; memsz ← vm_get32 (ph + 20) s; Some (Segment offset vaddr filesz memsz).

(** Pages for [memsz] bytes, the bytes of the file, and zeros. *)
Definition load_segment (buffer : Z) (g : segment) (s : vm A) : option (vm A) :=
  let num_pages := u32 (p_memsz g + 4095) / 4096 in
  s ← for_do 0 num_pages (fun j s => map_new (u32 (p_vaddr g + j * 4096)) s) s;
  s ← vm_copy (Z.to_nat (p_filesz g)) (p_vaddr g) (buffer + p_offset g) s;
  if p_filesz g <? p_memsz g
  then vm_store (u32 (p_vaddr g + p_filesz g)) (replicate (Z.to_nat (p_memsz g - p_filesz g)) 0) s else Some s.

Definition load_header (buffer ph : Z) (s : vm A) : option (vm A) :=
  type ← vm_get32 ph s;
  if type =? PT_LOAD then g ← get_segment ph s; load_segment buffer g s else Some s.

(** The loop reads [e_phnum] in every round; it has 16 bits, which bounds the fuel. *)
Fixpoint load_headers (fuel : nat) (buffer ph i : Z) (s : vm A) : option (vm A) :=
  match fuel with
  | O => None
  | S fuel =>
      phnum ← vm_get16 (buffer + 44) s;
      if i <? phnum then s ← load_header buffer (ph + 32 * i) s; load_headers fuel buffer ph (i + 1) s else Some s
  end.
Definition header_fuel : nat := Z.to_nat (2 ^ 16).

Definition kfree_node (a : Z) (s : mem W) : option (mem W) := _ ← load a s; Some (delete a (fst s), snd s).

Definition elf_load (fuel : nat) (root base : Z) (filename : list Z) (s : mem W * kheap * vm A) : option (Z * (mem W * kheap * vm A)) :=
  let '(m, h, v) := s in
  '(node, m) ← vfs_get_node_by_path mnts fuel root base filename m;
  if node =? 0 then Some (-1, (m, h, v)) else
  n ← load node m;
  '(buffer, h) ← kmalloc (n_length n) h;
  '(bytes, m) ← vfs_read node 0 (n_length n) m;
  v ← vm_store buffer bytes v;
  if i32 (Z.of_nat (length bytes)) <=? 0 then m ← kfree_node node m; h ← kfree buffer h; Some (-1, (m, h, v)) else
  magic ← vm_load buffer 4 v;
  if negb (bool_decide (magic = ELFMAG)) then h ← kfree buffer h; Some (-1, (m, h, v)) else
  phoff ← vm_get32 (buffer + 28) v;
  v ← load_headers header_fuel buffer (buffer + phoff) 0 v;
  entry ← vm_get32 (buffer + 24) v;
  h ← kfree buffer h;
  m ← kfree_node node m;
  Some (i32 entry, (m, h, v)).

(** ** The image of a file *)

Definition e_entry (bytes : list Z) : option Z := get32 24 bytes.
Definition e_phoff (bytes : list Z) : option Z := get32 28 bytes.
Definition e_phnum (bytes : list Z) : option Z := get16 44 bytes.
Definition file_segment (ph : Z) (bytes : list Z) : option segment :=
  offset ← get32 (ph + 4) bytes; vaddr ← get32 (ph + 8) bytes;
  filesz ← get32 (ph + 16) bytes; memsz ← get32 (ph + 20) bytes; Some (Segment offset vaddr filesz memsz).

(** The segments to load, in the order of their headers. *)
Fixpoint segments (n : nat) (ph : Z) (bytes : list Z) : option (list segment) :=
  match n with
  | O => Some []
  | S n =>
      type ← get32 ph bytes;
      if type =? PT_LOAD then g ← file_segment ph bytes; l ← segments n (ph + 32) bytes; Some (g :: l)
      else segments n (ph + 32) bytes
  end.

Definition pages_of (g : segment) : Z := (p_memsz g + 4095) / 4096.
Definition in_pages (g : segment) (p : Z) : Prop := p_vaddr g / 4096 <= p < p_vaddr g / 4096 + pages_of g.

(** The part of the address space that is loaded: the 4 MB regions [tlo .. thi - 1], all below the kernel's,
    which start at 0xC0000000. *)
Variables tlo thi : Z.
Hypothesis region : 0 <= tlo /\ thi <= 768.

(** A segment whose bytes are in the file and whose pages hold it: true of every
    aligned one, and of others when the last page suffices. *)
Record seg_ok (bytes : list Z) (g : segment) : Prop := {
  so_file : 0 <= p_offset g /\ 0 <= p_filesz g /\ p_offset g + p_filesz g <= Z.of_nat (length bytes);
  so_size : p_filesz g <= p_memsz g < 2 ^ 31;
  so_addr : tlo * 2 ^ 22 <= p_vaddr g /\ p_vaddr g + pages_of g * 4096 <= thi * 2 ^ 22;
  so_fits : p_vaddr g mod 4096 + p_memsz g <= pages_of g * 4096
}.

(** The byte of the segment at distance [k] from its start. *)
Definition seg_byte (bytes : list Z) (g : segment) (k : Z) : Z :=
  if k <? p_filesz g then nth (Z.to_nat (p_offset g + k)) bytes 0 else 0.

(** ** Reading the buffer *)

(** The bytes stand in memory from [buf] on, in the kernel's part of the address space. *)
Definition holds (M : gmap Z Z) (r : Z -> Z) (buf : Z) (bytes : list Z) : Prop :=
  forall (i : nat) x, bytes !! i = Some x -> view M r (buf + Z.of_nat i) = Some x.
Definition buffer_at (buf : Z) (bytes : list Z) : Prop := 0xC0000000 <= buf /\ buf + Z.of_nat (length bytes) <= 2 ^ 32.

Lemma drop_opt_inv n : forall (l r : list Z), drop_opt n l = Some r -> r = drop n l /\ (n <= length l)%nat.
Proof.
  induction n as [|n IH]; intros l r H; [injection H as <-; by split; [|lia]|]. destruct l as [|x l]; [done|].
  destruct (IH l r H) as [-> Hl]. cbn. split; [done|lia].
Qed.

Lemma take_opt_inv n : forall (l d : list Z), take_opt n l = Some d -> d = take n l /\ (n <= length l)%nat.
Proof.
  induction n as [|n IH]; intros l d H; cbn in H; [injection H as <-; by split; [|lia]|]. destruct l as [|x l]; [done|].
  destruct (take_opt n l) as [r|] eqn:E; [|done]. injection H as <-. destruct (IH l r E) as [-> Hl]. cbn. split; [done|lia].
Qed.

Lemma mget_inv off n l d : mget off n l = Some d -> 0 <= off /\ length d = Z.to_nat n /\
  off + Z.of_nat (length d) <= Z.of_nat (length l) /\ forall i, (i < length d)%nat -> l !! (Z.to_nat off + i)%nat = d !! i.
Proof.
  unfold mget. destruct (Z.ltb_spec off 0); [done|]. destruct (drop_opt (Z.to_nat off) l) as [r|] eqn:E; [|done]. cbn.
  intros Ht. apply drop_opt_inv in E as [-> E]. apply take_opt_inv in Ht as [-> Ht]. rewrite length_drop in Ht. rewrite length_take, length_drop.
  split; [done|]. split; [lia|]. split; [lia|]. intros i Hi. rewrite lookup_take_lt by lia. by rewrite lookup_drop.
Qed.

Lemma mget_nth off n l : 0 <= off -> 0 <= n -> off + n <= Z.of_nat (length l) ->
  exists d, mget off n l = Some d /\ Z.of_nat (length d) = n /\ forall k, 0 <= k < n -> nth (Z.to_nat k) d 0 = nth (Z.to_nat (off + k)) l 0.
Proof.
  intros Ho Hn Hl. set (a := Z.to_nat off). set (b := Z.to_nat n).
  assert (E : take a l ++ take b (drop a l) ++ drop b (drop a l) = l) by by rewrite !take_drop.
  exists (take b (drop a l)). split; [|split].
  - rewrite <- E at 1. apply mget_app; rewrite ?length_take, ?length_drop; lia.
  - rewrite length_take, length_drop. lia.
  - intros k Hk. rewrite <- E at 2. rewrite app_nth2, app_nth1; rewrite ?length_take, ?length_drop; [|lia..]. f_equal. lia.
Qed.

Lemma holds_load s M buf bytes off n d : owns s M -> holds M (vm_ram s) buf bytes -> buffer_at buf bytes ->
  mget off n bytes = Some d -> vm_load (buf + off) (Z.to_nat n) s = Some d.
Proof.
  intros Ho Hh [Hb Hl] Hd. apply mget_inv in Hd as (H0 & Hn & Hlen & Hd). rewrite <- Hn. apply (vm_load_ok _ s M); [done|lia|lia|done|].
  intros i Hi. destruct (lookup_lt_is_Some_2 d i Hi) as [x Hx]. rewrite Hx. specialize (Hd i Hi). rewrite Hx in Hd.
  rewrite <- (Hh _ _ Hd). f_equal. lia.
Qed.

Lemma holds_get32 s M buf bytes off w : owns s M -> holds M (vm_ram s) buf bytes -> buffer_at buf bytes ->
  get32 off bytes = Some w -> vm_get32 (buf + off) s = Some w.
Proof.
  unfold get32, vm_get32. intros Ho Hh Hb H. destruct (mget off 4 bytes) as [d|] eqn:E; [|done].
  change 4%nat with (Z.to_nat 4). by rewrite (holds_load s M buf bytes off 4 d).
Qed.

Lemma holds_get16 s M buf bytes off w : owns s M -> holds M (vm_ram s) buf bytes -> buffer_at buf bytes ->
  get16 off bytes = Some w -> vm_get16 (buf + off) s = Some w.
Proof.
  unfold get16, vm_get16. intros Ho Hh Hb H. destruct (mget off 2 bytes) as [d|] eqn:E; [|done].
  change 2%nat with (Z.to_nat 2). by rewrite (holds_load s M buf bytes off 2 d).
Qed.

Lemma holds_segment s M buf bytes ph g : owns s M -> holds M (vm_ram s) buf bytes -> buffer_at buf bytes ->
  file_segment ph bytes = Some g -> get_segment (buf + ph) s = Some g.
Proof.
  intros Ho Hh Hb. unfold file_segment, get_segment. rewrite <- !Z.add_assoc.
  assert (Hw : forall off w, get32 off bytes = Some w -> vm_get32 (buf + off) s = Some w) by (intros off w; by apply holds_get32 with (M := M)).
  destruct (get32 (ph + 4) bytes) as [w1|] eqn:E1; [|done]. rewrite (Hw _ _ E1). cbn [mbind option_bind].
  destruct (get32 (ph + 8) bytes) as [w2|] eqn:E2; [|done]. rewrite (Hw _ _ E2). cbn [mbind option_bind].
  destruct (get32 (ph + 16) bytes) as [w3|] eqn:E3; [|done]. rewrite (Hw _ _ E3). cbn [mbind option_bind].
  destruct (get32 (ph + 20) bytes) as [w4|] eqn:E4; [|done]. by rewrite (Hw _ _ E4).
Qed.

(** Bytes copied from where the copy does not write. *)
Lemma vm_copy_ok d : forall s M dest src, owns s M -> holds M (vm_ram s) src d ->
  0 <= dest -> dest + Z.of_nat (length d) <= 2 ^ 32 -> 0 <= src -> src + Z.of_nat (length d) <= 2 ^ 32 ->
  (forall x, dest <= x < dest + Z.of_nat (length d) -> is_Some (M !! (x / 4096))) ->
  dest + Z.of_nat (length d) <= src -> vm_copy (length d) dest src s = vm_store dest d s.
Proof.
  induction d as [|b d IH]; intros s M dest src Ho Hh Hd Hdl Hs Hsl Hm Hap; [done|]. cbn [length vm_copy vm_store] in *.
  pose proof (Hh 0%nat b eq_refl) as H0. rewrite Z.add_0_r in H0.
  assert (Hsm : is_Some (M !! (src / 4096))) by (unfold view in H0; destruct (M !! (src / 4096)); [eauto|done]).
  rewrite (vm_get_ok s M src Ho ltac:(lia) Hsm), H0. cbn [mbind option_bind].
  destruct (Hm dest ltac:(lia)) as [f Hf]. unfold vm_put. rewrite (vm_addr_ok s M dest f) by (done || lia). cbn [mbind option_bind].
  apply (IH _ M); [by apply owns_ram| |lia|lia|lia|lia|intros x Hx; apply Hm; lia|lia].
  intros i x Hx. cbn [vm_ram vm_set_ram]. rewrite view_put by (done || apply (ow_inj _ _ Ho)).
  pose proof (lookup_lt_Some _ _ _ Hx). rewrite decide_False by lia. rewrite <- (Hh (S i) x Hx). f_equal. lia.
Qed.

Lemma load_segment_ok buf bytes g s M n :
  owns s M -> holds M (vm_ram s) buf bytes -> buffer_at buf bytes -> seg_ok bytes g -> pages_of g <= n -> frames_avail (missing (vm_pg s) tlo thi + n) (frames (vm_pg s)) ->
  exists s' M', load_segment buf g s = Some s' /\ owns s' M' /\
    (forall x, p_vaddr g <= x < p_vaddr g + p_memsz g -> view M' (vm_ram s') x = Some (seg_byte bytes g (x - p_vaddr g))) /\
    (forall x, ~ in_pages g (x / 4096) -> view M' (vm_ram s') x = view M (vm_ram s) x) /\
    (forall x, in_pages g (x / 4096) -> ~ (p_vaddr g <= x < p_vaddr g + p_memsz g) ->
       exists f, fa_free (frames (vm_pg s)) f /\ view M' (vm_ram s') x = Some (vm_ram s (f * 4096 + x mod 4096))) /\
    frames_avail (missing (vm_pg s') tlo thi + (n - pages_of g)) (frames (vm_pg s')) /\
    (forall f, fa_free (frames (vm_pg s')) f -> fa_free (frames (vm_pg s)) f /\
       forall o, 0 <= o < 4096 -> vm_ram s' (f * 4096 + o) = vm_ram s (f * 4096 + o)).
Proof.
  intros Ho Hh Hbuf [Hfile Hsize Haddr Hfit] Hn Hav. unfold pages_of in *. unfold load_segment. rewrite (u32_small (p_memsz g + 4095)) by lia.
  set (np := (p_memsz g + 4095) / 4096) in *. assert (Hnp : 0 <= np) by (subst np; pow2_lia). set (q := p_vaddr g / 4096).
  destruct (map_pages_ok s M (fun j => u32 (p_vaddr g + j * 4096)) q 0 np n tlo thi Ho Hnp) as (s1 & M1 & -> & Ho1 & Hr1 & Hin & Hout & Hav1 & Hg1);
    [lia|lia|intros i Hi; rewrite u32_small by lia; subst q; pow2_lia|lia|done|].
  cbn [mbind option_bind]. rewrite Z.sub_0_r in Hav1.
  assert (Hpg : forall x, p_vaddr g <= x < p_vaddr g + p_memsz g -> in_pages g (x / 4096)).
  { intros x Hx. unfold in_pages, pages_of. fold np. pow2_lia. }
  assert (Hm1 : forall x, p_vaddr g <= x < p_vaddr g + p_memsz g -> is_Some (M1 !! (x / 4096))).
  { intros x Hx. destruct (Hin (x / 4096)) as (f & Hf & _); [|eauto]. specialize (Hpg x Hx). unfold in_pages, pages_of in Hpg. fold np q in Hpg. lia. }
  destruct (mget_nth (p_offset g) (p_filesz g) bytes) as (d & Eg & Hd & Hdn); [lia..|].
  assert (Hlast : p_vaddr g + p_memsz g <= 0xC0000000) by (pose proof (Z.mod_pos_bound (p_vaddr g) 4096); lia).
  assert (Hh1 : holds M1 (vm_ram s1) (buf + p_offset g) d).
  { intros i x Hx. pose proof (lookup_lt_Some _ _ _ Hx) as Hi. apply mget_inv in Eg as (_ & _ & _ & Hg). specialize (Hg i Hi). rewrite Hx in Hg.
    pose proof (lookup_lt_Some _ _ _ Hg). destruct Hbuf as [Hb0 Hb1].
    replace (buf + p_offset g + Z.of_nat i) with (buf + Z.of_nat (Z.to_nat (p_offset g) + i)) by lia.
    rewrite <- (Hh _ _ Hg). unfold view. rewrite Hr1, Hout; [done|]. subst q. pow2_lia. }
  destruct Hbuf as [Hb0 Hb1].
  replace (Z.to_nat (p_filesz g)) with (length d) by lia.
  rewrite (vm_copy_ok d s1 M1 (p_vaddr g) (buf + p_offset g) Ho1 Hh1); [|lia|lia|lia|lia|intros x Hx; apply Hm1; lia|lia].
  destruct (vm_store_ok d s1 M1 (p_vaddr g) Ho1) as (r2 & -> & Hv2 & Hf2); [lia|lia|intros x Hx; apply Hm1; lia|].
  cbn [mbind option_bind]. set (s2 := vm_set_ram r2 s1). assert (Ho2 : owns s2 M1) by by apply owns_ram.
  (* both branches give the same bytes *)
  assert (Htail : exists r3, (if p_filesz g <? p_memsz g
      then vm_store (u32 (p_vaddr g + p_filesz g)) (replicate (Z.to_nat (p_memsz g - p_filesz g)) 0) s2 else Some s2) = Some (vm_set_ram r3 s1) /\
    (forall x, view M1 r3 x = if decide (p_vaddr g + p_filesz g <= x < p_vaddr g + p_memsz g) then Some 0 else view M1 r2 x) /\
    (forall f o, (forall p, M1 !! p <> Some f) -> 0 <= o < 4096 -> r3 (f * 4096 + o) = r2 (f * 4096 + o))).
  { destruct (Z.ltb_spec (p_filesz g) (p_memsz g)) as [Hlt|Hge].
    - rewrite u32_small by lia.
      destruct (vm_store_ok (replicate (Z.to_nat (p_memsz g - p_filesz g)) 0) s2 M1 (p_vaddr g + p_filesz g) Ho2) as (r3 & -> & Hv3 & Hf3);
        rewrite ?length_replicate in *; [lia|lia|intros x Hx; apply Hm1; lia|].
      exists r3. split; [done|]. split; [|exact Hf3]. intros x. rewrite Hv3. repeat case_decide; try lia; [|done].
      rewrite nth_lookup. destruct (_ !! _) as [z|] eqn:Ez; [|done]. by apply lookup_replicate in Ez as [-> _].
    - exists r2. split; [done|]. split; [|done]. intros x. by rewrite decide_False by lia. }
  destruct Htail as (r3 & -> & Hv3 & Hf3). eexists _, M1. split; [done|]. cbn [vm_ram vm_pg vm_set_ram].
  assert (Hv : forall x, view M1 r3 x = if decide (p_vaddr g <= x < p_vaddr g + p_memsz g) then Some (seg_byte bytes g (x - p_vaddr g)) else view M1 (vm_ram s) x).
  { intros x. rewrite Hv3, Hv2, <- Hr1, Hd. unfold seg_byte. repeat case_decide; try lia; try done.
    - by rewrite (proj2 (Z.ltb_ge _ _)) by lia.
    - rewrite (proj2 (Z.ltb_lt _ _)) by lia. by rewrite Hdn by lia. }
  split_and!.
  - by apply owns_ram.
  - intros x Hx. rewrite Hv. by rewrite decide_True.
  - intros x Hx. rewrite Hv, decide_False by (intros H; by apply Hx, Hpg). unfold view. rewrite Hout; [done|].
    unfold in_pages, pages_of in Hx. fold np q in Hx. lia.
  - intros x Hx Hno. unfold in_pages, pages_of in Hx. fold np q in Hx. destruct (Hin (x / 4096) ltac:(lia)) as (f & Hf & Hff).
    exists f. split; [done|]. rewrite Hv, decide_False by done. unfold view. by rewrite Hf.
  - exact Hav1.
  - intros f Hf. split; [by apply Hg1|]. intros o Hof. assert (Hn' : forall p, M1 !! p <> Some f) by (intros p Hp; by destruct (ow_page _ _ Ho1 _ _ Hp) as (_ & _ & ? & _)).
    rewrite Hf3, Hf2, Hr1 by done. done.
Qed.


Lemma holds_after buf bytes g M M' r r' : buffer_at buf bytes -> seg_ok bytes g -> holds M r buf bytes ->
  (forall x, ~ in_pages g (x / 4096) -> view M' r' x = view M r x) -> holds M' r' buf bytes.
Proof.
  intros [Hb _] [_ _ Ha _] Hh Hv i x Hx. rewrite Hv; [by apply Hh|]. unfold in_pages. pow2_lia.
Qed.

Fixpoint load_segments (buf : Z) (gs : list segment) (s : vm A) : option (vm A) :=
  match gs with [] => Some s | g :: gs => s ← load_segment buf g s; load_segments buf gs s end.

(** The last segment that has a page of its own for an address: the one whose frame is mapped in the end. *)
#[local] Instance in_pages_dec g p : Decision (in_pages g p).
Proof. unfold in_pages. apply _. Defined.
Fixpoint last_seg (p : Z) (gs : list segment) : option segment :=
  match gs with
  | [] => None
  | g :: gs => match last_seg p gs with Some h => Some h | None => if decide (in_pages g p) then Some g else None end
  end.

Fixpoint total_pages (gs : list segment) : Z := match gs with [] => 0 | g :: gs => pages_of g + total_pages gs end.

Lemma total_pages_nonneg bytes gs : Forall (seg_ok bytes) gs -> 0 <= total_pages gs.
Proof. induction 1 as [|g gs [? ? _ _] _ IH]; cbn [total_pages]; [done|]. unfold pages_of. pow2_lia. Qed.

Lemma load_segments_ok buf bytes gs : buffer_at buf bytes -> forall s M n,
  owns s M -> holds M (vm_ram s) buf bytes -> Forall (seg_ok bytes) gs -> total_pages gs <= n ->
  frames_avail (missing (vm_pg s) tlo thi + n) (frames (vm_pg s)) ->
  exists s' M', load_segments buf gs s = Some s' /\ owns s' M' /\ holds M' (vm_ram s') buf bytes /\
    (forall f, fa_free (frames (vm_pg s')) f -> fa_free (frames (vm_pg s)) f /\
       forall o, 0 <= o < 4096 -> vm_ram s' (f * 4096 + o) = vm_ram s (f * 4096 + o)) /\
    forall x, match last_seg (x / 4096) gs with
      | None => view M' (vm_ram s') x = view M (vm_ram s) x
      | Some g =>
          (p_vaddr g <= x < p_vaddr g + p_memsz g -> view M' (vm_ram s') x = Some (seg_byte bytes g (x - p_vaddr g))) /\
          (~ (p_vaddr g <= x < p_vaddr g + p_memsz g) ->
             exists f, fa_free (frames (vm_pg s)) f /\ view M' (vm_ram s') x = Some (vm_ram s (f * 4096 + x mod 4096)))
      end.
Proof.
  intros Hbuf. induction gs as [|g gs IH]; intros s M n Ho Hh Hok Hn Hav; cbn [load_segments last_seg total_pages] in *.
  - exists s, M. by split_and!.
  - apply Forall_cons in Hok as [Hg Hgs]. pose proof (total_pages_nonneg bytes gs Hgs).
    destruct (load_segment_ok buf bytes g s M n Ho Hh Hbuf Hg ltac:(lia) Hav) as (s1 & M1 & -> & Ho1 & Hin & Hout & Hjunk & Hav1 & Hfr1).
    cbn [mbind option_bind]. pose proof (holds_after buf bytes g M M1 _ _ Hbuf Hg Hh Hout) as Hh1.
    destruct (IH s1 M1 (n - pages_of g) Ho1 Hh1 Hgs ltac:(lia) Hav1) as (s' & M' & E & Ho' & Hh' & Hfr & Hv).
    exists s', M'. split; [done|]. split; [done|]. split; [done|]. split.
    { intros f Hf. destruct (Hfr f Hf) as [H1 H2]. destruct (Hfr1 f H1) as [H3 H4]. split; [done|]. intros o Hof. by rewrite H2, H4. }
    intros x. specialize (Hv x). destruct (last_seg (x / 4096) gs) as [h|].
    + destruct Hv as [Hv1 Hv2]. split; [done|]. intros Hx. destruct (Hv2 Hx) as (f & Hf & Hview). destruct (Hfr1 f Hf) as [H3 H4].
      exists f. split; [done|]. rewrite Hview. f_equal. apply H4, Z.mod_pos_bound. lia.
    + case_decide as Hp; rewrite Hv; [|by apply Hout]. split; [by apply Hin|]. by apply Hjunk.
Qed.

(** The loop over the headers loads the segments of the file. *)
Lemma load_headers_ok buf bytes phoff phnum (k : nat) : buffer_at buf bytes -> e_phnum bytes = Some phnum -> forall fuel i gs s M n,
  i + Z.of_nat k = phnum -> (k < fuel)%nat -> segments k (phoff + 32 * i) bytes = Some gs ->
  owns s M -> holds M (vm_ram s) buf bytes -> Forall (seg_ok bytes) gs -> total_pages gs <= n ->
  frames_avail (missing (vm_pg s) tlo thi + n) (frames (vm_pg s)) ->
  load_headers fuel buf (buf + phoff) i s = load_segments buf gs s.
Proof.
  intros Hbuf Hnum. induction k as [|k IH]; intros [|fuel] i gs s M n Hi Hfu Hseg Ho Hh Hok Hn Hav; try lia; cbn [load_headers segments] in *;
    rewrite (holds_get16 s M buf bytes 44 phnum) by done; cbn [mbind option_bind].
  - injection Hseg as <-. by rewrite (proj2 (Z.ltb_ge i phnum)) by lia.
  - rewrite (proj2 (Z.ltb_lt i phnum)) by lia. unfold load_header. rewrite <- Z.add_assoc.
    destruct (get32 (phoff + 32 * i) bytes) as [t|] eqn:Et; [|discriminate Hseg]. rewrite (holds_get32 s M buf bytes _ t) by done.
    cbn [mbind option_bind] in *. replace (phoff + 32 * i + 32) with (phoff + 32 * (i + 1)) in Hseg by lia.
    destruct (t =? PT_LOAD); [|apply (IH fuel (i + 1) gs s M n); (done || lia)].
    destruct (file_segment (phoff + 32 * i) bytes) as [g|] eqn:Eg; [|discriminate Hseg]. rewrite (holds_segment s M buf bytes _ g) by done.
    cbn [mbind option_bind] in *. destruct (segments k (phoff + 32 * (i + 1)) bytes) as [gs'|] eqn:Es; [|discriminate Hseg]. injection Hseg as <-.
    apply Forall_cons in Hok as [Hg Hgs]. cbn [total_pages load_segments] in *. pose proof (total_pages_nonneg bytes gs' Hgs).
    destruct (load_segment_ok buf bytes g s M n Ho Hh Hbuf Hg ltac:(lia) Hav) as (s1 & M1 & -> & Ho1 & _ & Hout & _ & Hav1 & _).
    cbn [mbind option_bind]. apply (IH fuel (i + 1) gs' s1 M1 (n - pages_of g)); try done; try lia.
    by apply (holds_after buf bytes g M M1 (vm_ram s)).
Qed.

(** ** Loading *)

(** What [elf_load] gets from the file system: a node, and the bytes of the file. *)
Definition file_read (fuel : nat) (root base : Z) (filename : list Z) (m : mem W) (node size : Z) (bytes : list Z) (m' : mem W) : Prop :=
  exists (m1 : mem W) (n : vfs_node), vfs_get_node_by_path mnts fuel root base filename m = Some (node, m1) /\ node <> 0 /\
    load node m1 = Some n /\ n_length n = size /\ vfs_read node 0 size m1 = Some (bytes, m') /\ Z.of_nat (length bytes) <= size /\
    is_Some (load node m').

(** A file [elf_load] takes for an executable, with its segments to load. *)
Definition elf_image (bytes : list Z) (gs : list segment) (entry : Z) : Prop :=
  mget 0 4 bytes = Some ELFMAG /\ e_entry bytes = Some entry /\
    exists phoff phnum, e_phoff bytes = Some phoff /\ e_phnum bytes = Some phnum /\ 0 <= phnum < 2 ^ 16 /\
      segments (Z.to_nat phnum) phoff bytes = Some gs.

(** The kernel heap at [hb], in the kernel's part of the address space, has room for the file: [buf] is the buffer, whose pages are
    mapped. *)
Definition heap_ready (hb : Z) (bs : list block) (h : kheap) (size buf : Z) (M : gmap Z Z) : Prop :=
  0xC0000000 <= hb /\ hb + HEAP_SIZE < 2 ^ 32 /\ heap_rep hb h bs /\ 0 < size < 2 ^ 31 /\
  (exists h1, kmalloc size h = Some (buf, h1)) /\ buf <> 0 /\ forall x, buf <= x < buf + size -> is_Some (M !! (x / 4096)).

Lemma header_fuel_ok phnum : 0 <= phnum < 2 ^ 16 -> (Z.to_nat phnum < header_fuel)%nat.
Proof. intros H. apply Z2Nat.inj_lt; lia. Qed.

Lemma elf_load_image fuel root base filename m h v M n node size bytes m' gs entry hb bs buf :
  file_read fuel root base filename m node size bytes m' -> elf_image bytes gs entry -> heap_ready hb bs h size buf M ->
  owns v M -> Forall (seg_ok bytes) gs -> total_pages gs <= n -> frames_avail (missing (vm_pg v) tlo thi + n) (frames (vm_pg v)) ->
  exists v' M' h', elf_load fuel root base filename (m, h, v) = Some (i32 entry, ((delete node (fst m'), snd m'), h', v')) /\
    heap_rep hb h' bs /\ owns v' M' /\
    forall x, match last_seg (x / 4096) gs with
      | None => ~ (buf <= x < buf + Z.of_nat (length bytes)) -> view M' (vm_ram v') x = view M (vm_ram v) x
      | Some g =>
          (p_vaddr g <= x < p_vaddr g + p_memsz g -> view M' (vm_ram v') x = Some (seg_byte bytes g (x - p_vaddr g))) /\
          (~ (p_vaddr g <= x < p_vaddr g + p_memsz g) ->
             exists f, fa_free (frames (vm_pg v)) f /\ view M' (vm_ram v') x = Some (vm_ram v (f * 4096 + x mod 4096)))
      end.
Proof.
  intros (m1 & nd & E1 & Hne & E2 & Esz & E3 & Hlen & [nd' E4]) (Hmag & Hent & phoff & phnum & Hpo & Hpn & Hpn0 & Hseg)
    (Hhb & Hhe & Hrep & Hsz & [h1 Ek] & Hb0 & Hmap) Ho Hok Hn Hav.
  destruct (kmalloc_keeps hb size h bs buf h1 ltac:(lia) Hrep ltac:(lia) Ek) as (bs1 & _ & _ & _ & Hfr).
  destruct (Hfr Hb0) as ((blk & _ & _ & Hbs & Hbe) & Hbl & _ & _).
  destruct (kmalloc_kfree_roundtrip hb size h bs buf h1 ltac:(lia) Hrep ltac:(lia) Ek) as (h2 & Ef & Hrep2 & _).
  assert (Hbuf : buffer_at buf bytes) by (split; lia).
  destruct (vm_store_ok bytes v M buf Ho) as (r & Es & Hv0 & Hf0); [lia|lia|intros x Hx; apply Hmap; lia|].
  set (v0 := vm_set_ram r v). assert (Ho0 : owns v0 M) by by apply owns_ram.
  assert (Hh : holds M (vm_ram v0) buf bytes).
  { intros i x Hx. pose proof (lookup_lt_Some _ _ _ Hx). cbn [v0 vm_ram vm_set_ram]. rewrite Hv0, decide_True by lia.
    replace (Z.to_nat (buf + Z.of_nat i - buf)) with i by lia. by rewrite (nth_lookup_Some _ _ _ _ Hx). }
  destruct (load_segments_ok buf bytes gs Hbuf v0 M n Ho0 Hh Hok Hn Hav) as (v' & M' & El & Ho' & Hh' & _ & Hv).
  exists v', M', h2. split; [|split; [done|split; [done|]]].
  - pose proof (header_fuel_ok phnum Hpn0) as Hfu. unfold elf_load. revert Hfu. generalize header_fuel. intros hf Hfu. rewrite E1. cbn [mbind option_bind]. rewrite (proj2 (Z.eqb_neq node 0)) by done. rewrite E2. cbn [mbind option_bind].
    rewrite Esz, Ek. cbn [mbind option_bind]. rewrite E3. cbn [mbind option_bind]. rewrite Es. cbn [mbind option_bind]. fold v0. rewrite i32_small by lia.
    assert (H4 : 0 < Z.of_nat (length bytes)) by (destruct bytes; [discriminate Hmag|cbn; lia]).
    rewrite (proj2 (Z.leb_gt _ _)) by lia. rewrite <- (Z.add_0_r buf) at 1. change 4%nat with (Z.to_nat 4).
    rewrite (holds_load v0 M buf bytes 0 4 ELFMAG) by done. cbn [mbind option_bind]. rewrite bool_decide_eq_true_2 by done. cbn [negb].
    rewrite (holds_get32 v0 M buf bytes 28 phoff) by done. cbn [mbind option_bind].
    rewrite (load_headers_ok buf bytes phoff phnum (Z.to_nat phnum) Hbuf Hpn hf 0 gs v0 M n); try done; [| |by rewrite Z.mul_0_r, Z.add_0_r].
    + rewrite El. cbn [mbind option_bind]. rewrite (holds_get32 v' M' buf bytes 24 entry) by done. cbn [mbind option_bind].
      rewrite Ef. cbn [mbind option_bind]. unfold kfree_node. by rewrite E4.
    + lia.
  - intros x. specialize (Hv x). destruct (last_seg (x / 4096) gs) as [g|].
    + destruct Hv as [Hv1 Hv2]. split; [done|]. intros Hx. destruct (Hv2 Hx) as (f & Hf & Hview). exists f. split; [done|]. rewrite Hview. f_equal.
      apply Hf0; [|apply Z.mod_pos_bound; lia]. intros p Hp. by destruct (ow_page _ _ Ho _ _ Hp) as (_ & _ & ? & _).
    + intros Hx. rewrite Hv. cbn [v0 vm_ram vm_set_ram]. by rewrite Hv0, decide_False.
Qed.

(** No page belongs to two segments. *)
Definition page_disjoint (gs : list segment) : Prop :=
  forall i j g h p, gs !! i = Some g -> gs !! j = Some h -> in_pages g p -> in_pages h p -> i = j.

Lemma last_seg_in p gs h : last_seg p gs = Some h -> h ∈ gs /\ in_pages h p.
Proof.
  induction gs as [|g gs IH]; cbn [last_seg]; [done|]. destruct (last_seg p gs) as [h'|].
  - intros [= ->]. destruct (IH eq_refl). split; [by right|done].
  - case_decide; [|done]. intros [= ->]. split; [by left|done].
Qed.

Lemma last_seg_some p gs g : g ∈ gs -> in_pages g p -> is_Some (last_seg p gs).
Proof.
  intros Hg Hp. induction gs as [|g' gs IH]; [by apply not_elem_of_nil in Hg|]. cbn [last_seg].
  apply elem_of_cons in Hg as [<-|Hg].
  - destruct (last_seg p gs); [eauto|]. rewrite decide_True by done. eauto.
  - destruct (IH Hg) as [h ->]. eauto.
Qed.

Lemma last_seg_disjoint p gs g : page_disjoint gs -> g ∈ gs -> in_pages g p -> last_seg p gs = Some g.
Proof.
  intros Hd Hg Hp. destruct (last_seg_some p gs g Hg Hp) as [h Hh]. destruct (last_seg_in p gs h Hh) as [Hin Hph].
  apply list_elem_of_lookup in Hg as [i Hi], Hin as [j Hj]. rewrite Hh. f_equal. rewrite (Hd i j g h p) in Hi by done. congruence.
Qed.

Lemma seg_in_pages bytes g x : seg_ok bytes g -> p_vaddr g <= x < p_vaddr g + p_memsz g -> in_pages g (x / 4096).
Proof. intros [_ _ _ Hf] Hx. unfold in_pages. pow2_lia. Qed.

(** C3 loading: for an ELF file whose segments lie in the file and in pages of
    their own below the kernel's part of the address space, with room for the file
    in the kernel heap and frames for the pages and the tables, [elf_load] returns the
    entry point; every byte of every segment is then the file's, or zero
    behind the part that is in the file, every page outside the segments keeps its bytes
    but for the file's buffer in the heap, the page tables are well formed again, the heap
    has its blocks back, and the node of the file is freed. *)
Theorem elf_load_correct fuel root base filename m h v M n node size bytes m' gs entry hb bs buf :
  file_read fuel root base filename m node size bytes m' -> elf_image bytes gs entry -> heap_ready hb bs h size buf M ->
  owns v M -> Forall (seg_ok bytes) gs -> page_disjoint gs -> total_pages gs <= n ->
  frames_avail (missing (vm_pg v) tlo thi + n) (frames (vm_pg v)) ->
  exists v' M' h', elf_load fuel root base filename (m, h, v) = Some (i32 entry, ((delete node (fst m'), snd m'), h', v')) /\
    heap_rep hb h' bs /\ owns v' M' /\
    (forall g x, g ∈ gs -> p_vaddr g <= x < p_vaddr g + p_memsz g ->
       view M' (vm_ram v') x = Some (if x - p_vaddr g <? p_filesz g then nth (Z.to_nat (p_offset g + (x - p_vaddr g))) bytes 0 else 0)) /\
    (forall x, (forall g, g ∈ gs -> ~ in_pages g (x / 4096)) -> ~ (buf <= x < buf + Z.of_nat (length bytes)) ->
       view M' (vm_ram v') x = view M (vm_ram v) x).
Proof.
  intros Hfile Himg Hheap Ho Hok Hd Hn Hav.
  destruct (elf_load_image fuel root base filename m h v M n node size bytes m' gs entry hb bs buf Hfile Himg Hheap Ho Hok Hn Hav)
    as (v' & M' & h' & -> & Hrep & Ho' & Hv).
  exists v', M', h'. split; [done|]. split; [done|]. split; [done|]. split.
  - intros g x Hg Hx. specialize (Hv x). rewrite Forall_forall in Hok. pose proof (seg_in_pages bytes g x (Hok g Hg) Hx) as Hp.
    rewrite (last_seg_disjoint _ gs g Hd Hg Hp) in Hv. by apply Hv.
  - intros x Hx Hb. specialize (Hv x). destruct (last_seg (x / 4096) gs) as [g|] eqn:Eh; [|by apply Hv].
    destruct (last_seg_in _ _ _ Eh) as [Hh Hp]. by destruct (Hx g Hh).
Qed.

(** segments that share a page, as the text and data of most programs do:
    the load still succeeds, but the page is mapped again for the later
    segment, and the earlier segment's bytes in it are gone - the program
    finds there whatever the new frame held before. *)
Theorem elf_shared_page_lost fuel root base filename m h v M n node size bytes m' gs entry hb bs buf g g' x :
  file_read fuel root base filename m node size bytes m' -> elf_image bytes gs entry -> heap_ready hb bs h size buf M ->
  owns v M -> Forall (seg_ok bytes) gs -> total_pages gs <= n ->
  frames_avail (missing (vm_pg v) tlo thi + n) (frames (vm_pg v)) ->
  g ∈ gs -> p_vaddr g <= x < p_vaddr g + p_memsz g -> last_seg (x / 4096) gs = Some g' -> ~ (p_vaddr g' <= x < p_vaddr g' + p_memsz g') ->
  exists v' M' h' f, elf_load fuel root base filename (m, h, v) = Some (i32 entry, ((delete node (fst m'), snd m'), h', v')) /\ owns v' M' /\
    fa_free (frames (vm_pg v)) f /\ view M' (vm_ram v') x = Some (vm_ram v (f * 4096 + x mod 4096)).
Proof.
  intros Hfile Himg Hheap Ho Hok Hn Hav Hg Hx Hh Hnx.
  destruct (elf_load_image fuel root base filename m h v M n node size bytes m' gs entry hb bs buf Hfile Himg Hheap Ho Hok Hn Hav)
    as (v' & M' & h' & -> & Hrep & Ho' & Hv).
  specialize (Hv x). rewrite Hh in Hv. destruct Hv as [_ Hv]. destruct (Hv Hnx) as (f & Hf & Hview).
  by exists v', M', h', f.
Qed.
(** The result of [kmalloc] is not checked: with a full heap the file is read to address 0, which faults
    when nothing is mapped there. *)
Theorem elf_load_full_heap fuel root base filename m h v node size bytes m' h1 :
  file_read fuel root base filename m node size bytes m' -> kmalloc size h = Some (0, h1) -> bytes <> [] -> vm_addr 0 v = None ->
  elf_load fuel root base filename (m, h, v) = None.
Proof.
  intros (m1 & nd & E1 & Hne & E2 & Esz & E3 & _) Ek Hb Hv. unfold elf_load. rewrite E1. cbn [mbind option_bind].
  rewrite (proj2 (Z.eqb_neq node 0)) by done. rewrite E2. cbn [mbind option_bind]. rewrite Esz, Ek. cbn [mbind option_bind]. rewrite E3. cbn [mbind option_bind].
  destruct bytes as [|b bytes]; [done|]. cbn [vm_store]. unfold vm_put. by rewrite Hv.
Qed.
End elf.

(** ** A file with two segments *)

Definition phdr (offset vaddr filesz memsz : Z) : list Z :=
  le32 1 ++ le32 offset ++ le32 vaddr ++ le32 vaddr ++ le32 filesz ++ le32 memsz ++ le32 7 ++ le32 4096.
Definition sample_elf (vaddr2 : Z) : list Z :=
  ELFMAG ++ replicate 12 0 ++ le16 2 ++ le16 3 ++ le32 1 ++ le32 0x08048000 ++ le32 52 ++ le32 0 ++ le32 0 ++
  le16 52 ++ le16 32 ++ le16 2 ++ le16 0 ++ le16 0 ++ le16 0 ++
  phdr 116 0x08048000 4 4 ++ phdr 120 vaddr2 2 6 ++ [1; 2; 3; 4; 5; 6].
Definition sample_segments (vaddr2 : Z) : list segment := [Segment 116 0x08048000 4 4; Segment 120 vaddr2 2 6].

(** A file system with one file. *)
Definition file_node : vfs_node := VNode VFS_FILE 1 122 0 1 0 0 1 0 0 0.
Definition one_file (bytes : list Z) : Drivers unit := {|
  kmalloc_node s := Some 6;
  call_read _ _ offset size s := Some (take (Z.to_nat size) (drop (Z.to_nat offset) bytes), s);
  call_write _ _ _ _ s := Some (0, s);
  call_open _ _ s := Some s;
  call_close _ a s := Some (delete a (fst s), snd s);
  call_readdir _ _ _ s := Some (None, s);
  call_finddir _ _ _ s := Some (7, (<[7 := file_node]> (fst s), snd s))
|}.
Definition one_file_nodes : gmap Z vfs_node := {[ 5 := VNode VFS_DIRECTORY 0 0 0 0 0 0 1 1 1 0 ]}.

Lemma sample_file_read vaddr2 :
  @file_read unit (one_file (sample_elf vaddr2)) (Mounts [] 0) 10 5 0 [47; 97; 0] (one_file_nodes, tt) 7 122 (sample_elf vaddr2)
    (<[7 := file_node]> one_file_nodes, tt).
Proof.
  eexists (<[7 := file_node]> one_file_nodes, tt), file_node.
  split_and!; [reflexivity|discriminate|reflexivity|reflexivity|reflexivity|cbn; lia|by eexists].
Qed.

Lemma sample_image vaddr2 : vaddr2 = 0x08049000 \/ vaddr2 = 0x08048100 ->
  elf_image (sample_elf vaddr2) (sample_segments vaddr2) 0x08048000.
Proof.
  intros [-> | ->]; (split_and!; [reflexivity|reflexivity|]; exists 52, 2; split_and!; [reflexivity|reflexivity|lia|lia|reflexivity]).
Qed.

Lemma sample_segs_ok vaddr2 : vaddr2 = 0x08049000 \/ vaddr2 = 0x08048100 ->
  Forall (seg_ok 32 33 (sample_elf vaddr2)) (sample_segments vaddr2).
Proof.
  intros H. assert (Hl : Z.of_nat (length (sample_elf vaddr2)) = 122) by reflexivity.
  repeat constructor; rewrite ?Hl; unfold pages_of; cbn [p_offset p_filesz p_memsz p_vaddr]; try lia; destruct H as [-> | ->]; vm_compute; discriminate.
Qed.

(** The machine with the first page of the heap mapped. *)
Definition sample_heap_vm : vm pmm := default sample_vm (map_new sample_base sample_vm).

Lemma frames_avail_take {A} `{!FrameAlloc A} n n' (a : A) : frames_avail n a -> 0 <= n' <= n -> frames_avail n' a.
Proof.
  intros (l & Hnd & Hl & Hf) Hn. exists (take (Z.to_nat n') l). split; [|split; [rewrite length_take; lia|by apply Forall_take]].
  rewrite <- (take_drop (Z.to_nat n') l) in Hnd. by apply NoDup_app in Hnd as [? _].
Qed.

Lemma sample_free_frames : frames_avail 5 (frames (vm_pg sample_vm)).
Proof.
  exists [256; 257; 258; 259; 260]. split; [repeat (apply NoDup_cons; split; [set_solver|]); apply NoDup_nil_2|]. split; [reflexivity|].
  repeat constructor; try lia; vm_compute; try done; split; done.
Qed.

Lemma sample_heap_vm_ok : exists f, owns sample_heap_vm {[0xC0200 := f]} /\
  frames_avail (missing (vm_pg sample_heap_vm) 32 33 + 2) (frames (vm_pg sample_heap_vm)).
Proof.
  pose proof (count_bounds (absent (phys (vm_pg sample_vm)) (cr3 (vm_pg sample_vm))) 768 769 ltac:(lia)) as [Hm0 Hm1].
  destruct (map_new_ok sample_vm ∅ sample_base 768 769 4 (owns_empty sample_vm sample_paging_ok)) as (f & s' & E & _ & _ & Ho & _ & _ & Hav & _);
    [vm_compute; done|vm_compute; done|vm_compute; done|lia| |].
  { apply (frames_avail_take 5); [apply sample_free_frames|]. unfold missing. lia. }
  exists f. unfold sample_heap_vm. rewrite E. cbn [default from_option id]. split; [exact Ho|].
  apply (frames_avail_take _ _ _ Hav). unfold missing.
  pose proof (count_bounds (absent (phys (vm_pg s')) (cr3 (vm_pg s'))) 768 769 ltac:(lia)) as [Hn0 Hn1].
  pose proof (count_bounds (absent (phys (vm_pg s')) (cr3 (vm_pg s'))) 32 33 ltac:(lia)) as [Hk0 Hk1]. lia.
Qed.

Lemma sample_heap_ready f : heap_ready sample_base [Blk HEAP_SIZE true] sample_kheap 122 0xC0200010 {[0xC0200 := f]}.
Proof.
  split; [unfold sample_base; lia|]. split; [unfold sample_base, HEAP_SIZE; lia|]. split; [apply init_kheap_rep|]. split; [lia|]. split; [|split; [lia|]].
  - assert (E : fst <$> kmalloc 122 sample_kheap = Some 0xC0200010) by (vm_compute; reflexivity).
    destruct (kmalloc 122 sample_kheap) as [[r h1]|]; [|discriminate E]. injection E as ->. by exists h1.
  - intros x Hx. replace (x / 4096) with 0xC0200 by pow2_lia. rewrite lookup_singleton_eq. eauto.
Qed.

Lemma elf_load_correct_witness :
  exists v' M' h', @elf_load unit (one_file (sample_elf 0x08049000)) pmm _ (Mounts [] 0) 10 5 0 [47; 97; 0] ((one_file_nodes, tt), sample_kheap, sample_heap_vm) =
    Some (0x08048000, ((delete 7 (<[7 := file_node]> one_file_nodes), tt), h', v')) /\
    view M' (vm_ram v') 0x08048003 = Some 4 /\ view M' (vm_ram v') 0x08049001 = Some 6 /\ view M' (vm_ram v') 0x08049005 = Some 0.
Proof.
  destruct sample_heap_vm_ok as (f & Ho & Hav).
  destruct (@elf_load_correct unit (one_file (sample_elf 0x08049000)) pmm _ (Mounts [] 0) 32 33 ltac:(lia) 10 5 0 [47; 97; 0] (one_file_nodes, tt)
    sample_kheap sample_heap_vm {[0xC0200 := f]} 2 7 122 (sample_elf 0x08049000) (<[7 := file_node]> one_file_nodes, tt) (sample_segments 0x08049000) 0x08048000
    sample_base [Blk HEAP_SIZE true] 0xC0200010) as (v' & M' & h' & E & _ & _ & Hv & _).
  - apply sample_file_read.
  - apply sample_image. by left.
  - apply sample_heap_ready.
  - exact Ho.
  - apply sample_segs_ok. by left.
  - intros [|[|i]] [|[|j]] g h q [= <-] [= <-] Hp Hq; try done; unfold in_pages, pages_of in *; cbn [p_vaddr p_memsz] in *; pow2_lia.
  - vm_compute. discriminate.
  - exact Hav.
  - exists v', M', h'. split; [exact E|]. split_and!.
    + rewrite (Hv (Segment 116 0x08048000 4 4)); [reflexivity|by left|cbn; lia].
    + rewrite (Hv (Segment 120 0x08049000 2 6)); [reflexivity|by right; left|cbn; lia].
    + rewrite (Hv (Segment 120 0x08049000 2 6)); [reflexivity|by right; left|cbn; lia].
Defined.

(** The data of the second segment at 0x08048100: the text at 0x08048000 is lost. *)
Lemma elf_shared_page_lost_witness :
  exists v' M' h' f, @elf_load unit (one_file (sample_elf 0x08048100)) pmm _ (Mounts [] 0) 10 5 0 [47; 97; 0] ((one_file_nodes, tt), sample_kheap, sample_heap_vm) =
    Some (0x08048000, ((delete 7 (<[7 := file_node]> one_file_nodes), tt), h', v')) /\ view M' (vm_ram v') 0x08048000 = Some (vm_ram sample_heap_vm (f * 4096)).
Proof.
  destruct sample_heap_vm_ok as (f & Ho & Hav).
  destruct (@elf_shared_page_lost unit (one_file (sample_elf 0x08048100)) pmm _ (Mounts [] 0) 32 33 ltac:(lia) 10 5 0 [47; 97; 0] (one_file_nodes, tt)
    sample_kheap sample_heap_vm {[0xC0200 := f]} 2 7 122 (sample_elf 0x08048100) (<[7 := file_node]> one_file_nodes, tt) (sample_segments 0x08048100) 0x08048000
    sample_base [Blk HEAP_SIZE true] 0xC0200010
    (Segment 116 0x08048000 4 4) (Segment 120 0x08048100 2 6) 0x08048000) as (v' & M' & h' & fr & E & _ & _ & Hv).
  - apply sample_file_read.
  - apply sample_image. by right.
  - apply sample_heap_ready.
  - exact Ho.
  - apply sample_segs_ok. by right.
  - vm_compute. discriminate.
  - exact Hav.
  - by left.
  - cbn. lia.
  - reflexivity.
  - cbn. lia.
  - exists v', M', h', fr. split; [exact E|]. rewrite Hv. change (0x08048000 mod 4096) with 0. by rewrite Z.add_0_r.
Defined.

(** A heap of one allocated block. *)
Definition full_kheap : kheap := Kheap sample_base {[ sample_base := Hdr HEAP_SIZE 0 0 0 ]} 0x202.

Lemma elf_load_full_heap_witness : @elf_load unit (one_file (sample_elf 0x08049000)) pmm _ (Mounts [] 0) 10 5 0 [47; 97; 0]
  ((one_file_nodes, tt), full_kheap, sample_vm) = None.
Proof.
  apply (@elf_load_full_heap unit (one_file (sample_elf 0x08049000)) pmm _ (Mounts [] 0) 10 5 0 [47; 97; 0] (one_file_nodes, tt) full_kheap sample_vm
    7 122 (sample_elf 0x08049000) (<[7 := file_node]> one_file_nodes, tt) full_kheap); [apply sample_file_read|vm_compute; reflexivity|discriminate|vm_compute; reflexivity].
Defined.
