(* ===== verification/Syscall.v ===== *)
(** * Syscall: the system calls (kernel/proc/syscall.c, include/syscall.h)

    The handlers of the 17 calls and their dispatch.  The task's descriptor
    table and heap, the nodes of the virtual file system and the address space
    are the state; the components below the calls - keyboard, console, clock,
    tasks, sockets and the creation of a PAFS file - are the interface
    [Services]. *)

From S2P Require Export Vfs UserMem.

Definition SYS_UPTIME : Z := 0.
Definition SYS_WRITE : Z := 1.
Definition SYS_EXIT : Z := 2.
Definition SYS_GETCHAR : Z := 3.
Definition SYS_OPEN : Z := 4.
Definition SYS_READ : Z := 5.
Definition SYS_WRITE_FD : Z := 6.
Definition SYS_CLOSE : Z := 7.
Definition SYS_SBRK : Z := 8.
Definition SYS_CLEAR : Z := 9.
Definition SYS_SOCKET : Z := 10.
Definition SYS_BIND : Z := 11.
Definition SYS_SENDTO : Z := 12.
Definition SYS_RECVFROM : Z := 13.
Definition SYS_CONNECT : Z := 14.
Definition SYS_LISTEN : Z := 15.
Definition SYS_ACCEPT : Z := 16.

(** The registers a call reads and the one it writes. *)
Record sysregs := Regs { eax : Z; ebx : Z; ecx : Z; edx : Z; esi : Z; edi : Z }.
Definition ret (v : Z) (r : sysregs) : sysregs := Regs (u32 v) (ebx r) (ecx r) (edx r) (esi r) (edi r).

(** The fields of the current task, the nodes and file systems, the address space and the rest of the kernel. *)
Record sys (F A K : Type) := Sys {
  fd_table : list Z; fd_offset : list Z; heap_end : Z; s_mem : mem F; s_vm : vm A; s_rest : K
}.
Arguments Sys {F A K}.
Arguments fd_table {F A K}.
Arguments fd_offset {F A K}.
Arguments heap_end {F A K}.
Arguments s_mem {F A K}.
Arguments s_vm {F A K}.
Arguments s_rest {F A K}.

(** What a call outside the task's own fields works on. *)
Definition outer (F A K : Type) : Type := mem F * vm A * K.

Class Services (F A K : Type) := {
  keyboard_get : K -> option (Z * K);
  task_exit : K -> option K;
  put_char : Z -> K -> option K;
  put_str : list Z -> K -> option K;
  clear_scr : K -> option K;
  timer_get_ticks : K -> Z;
  pafs_write_empty : list Z -> F -> option F;
  socket_create : Z -> Z -> Z -> outer F A K -> option (Z * outer F A K);
  socket_bind : Z -> Z -> Z -> outer F A K -> option (Z * outer F A K);
  socket_sendto : Z -> Z -> Z -> Z -> Z -> Z -> outer F A K -> option (Z * outer F A K);
  socket_recvfrom : Z -> Z -> Z -> Z -> Z -> Z -> outer F A K -> option (Z * outer F A K);
  socket_connect : Z -> Z -> Z -> outer F A K -> option (Z * outer F A K);
  socket_listen : Z -> Z -> outer F A K -> option (Z * outer F A K);
  socket_accept : Z -> Z -> Z -> outer F A K -> option (Z * outer F A K)
}.

Section syscalls.
Context {F : Type} `{!Drivers F}.
Context {A : Type} `{!FrameAlloc A}.
Context {K : Type} `{!Services F A K}.
Variable mnts : mounts.
Variable vfs_root : Z.
(** Depth of path resolution, and length of a string in memory. *)
Variables fuel strmax : nat.

#[local] Abbreviation state := (sys F A K).

Definition set_mem (m : mem F) (s : state) : state := Sys (fd_table s) (fd_offset s) (heap_end s) m (s_vm s) (s_rest s).
Definition set_vm (v : vm A) (s : state) : state := Sys (fd_table s) (fd_offset s) (heap_end s) (s_mem s) v (s_rest s).
Definition set_rest (k : K) (s : state) : state := Sys (fd_table s) (fd_offset s) (heap_end s) (s_mem s) (s_vm s) k.
Definition set_outer (x : outer F A K) (s : state) : state :=
  let '(m, v, k) := x in Sys (fd_table s) (fd_offset s) (heap_end s) m v k.
Definition get_outer (s : state) : outer F A K := (s_mem s, s_vm s, s_rest s).

(** [fd_table[i] = node; fd_offset[i] = off;] *)
Definition set_fd (i node off : Z) (s : state) : option state :=
  t ← aset (fd_table s) i node; o ← aset (fd_offset s) i off;
  Some (Sys t o (heap_end s) (s_mem s) (s_vm s) (s_rest s)).
Definition set_fd_node (i node : Z) (s : state) : option state :=
  t ← aset (fd_table s) i node; Some (Sys t (fd_offset s) (heap_end s) (s_mem s) (s_vm s) (s_rest s)).

Definition handler : Type := sysregs -> state -> option (sysregs * state).

Definition sys_getchar : handler := fun regs s => '(c, k) ← keyboard_get (s_rest s); Some (ret c regs, set_rest k s).
Definition sys_exit : handler := fun regs s => k ← task_exit (s_rest s); Some (regs, set_rest k s).

(** The loop over the 16 descriptors: the first free one gets the node. *)
Definition first_free (put : Z -> state -> option state) (s : state) : option (ctl state (Z * state)) :=
  for_ret 0 16 (fun i s => v ← aget (fd_table s) i; if v =? 0 then s ← put i s; Some (Ret (i, s)) else Some (Next s)) s.

Definition sys_open : handler := fun regs s =>
  path ← vm_string strmax (ebx regs) (s_vm s);
  let flags := ecx regs in
  let install (node : Z) (s : state) : option (sysregs * state) :=
    r ← first_free (fun i s => set_fd i node 0 s) s;
    match r with
    | Ret (i, s) => Some (ret i regs, s)
    | Next s => m ← vfs_close node (s_mem s); Some (ret (-1) regs, set_mem m s)
    end in
  '(node, m) ← vfs_get_node_by_path mnts fuel vfs_root vfs_root path (s_mem s);
  if node =? 0 then
    if negb (Z.land flags 1 =? 0) then
      f ← pafs_write_empty path (snd m);
      '(node, m) ← vfs_get_node_by_path mnts fuel vfs_root vfs_root path (fst m, f);
      if node =? 0 then Some (ret (-1) regs, set_mem m s) else install node (set_mem m s)
    else Some (ret (-1) regs, set_mem m s)
  else install node (set_mem m s).

(** [fd < 0 || fd >= 16 || fd_table[fd] == 0] is the [None] of the inner option. *)
Definition lookup_fd (fd : Z) (s : state) : option (option Z) :=
  if (fd <? 0) || (16 <=? fd) then Some None
  else node ← aget (fd_table s) fd; Some (if node =? 0 then None else Some node).

(** [fd_offset[fd] += n] unless the node is a socket. *)
Definition advance (fd node n : Z) (s : state) : option state :=
  nd ← load node (s_mem s);
  if (0 <? n) && negb (n_flags nd =? VFS_SOCKET) then
    off ← aget (fd_offset s) fd; o ← aset (fd_offset s) fd (u32 (off + n));
    Some (Sys (fd_table s) o (heap_end s) (s_mem s) (s_vm s) (s_rest s))
  else Some s.

Definition sys_read : handler := fun regs s =>
  let fd := i32 (ebx regs) in
  l ← lookup_fd fd s;
  match l with
  | None => Some (ret (-1) regs, s)
  | Some node =>
      off ← aget (fd_offset s) fd;
      '(bytes, m) ← vfs_read node off (u32 (edx regs)) (s_mem s);
      v ← vm_store (ecx regs) bytes (s_vm s);
      let read_bytes := i32 (Z.of_nat (length bytes)) in
      s ← advance fd node read_bytes (set_vm v (set_mem m s));
      Some (ret read_bytes regs, s)
  end.

Definition sys_write_fd : handler := fun regs s =>
  let fd := i32 (ebx regs) in
  let size := i32 (edx regs) in
  if (fd =? 1) || (fd =? 2) then
    k ← for_do 0 size (fun i k => c ← vm_get (ecx regs + i) (s_vm s); put_char c k) (s_rest s);
    Some (ret size regs, set_rest k s)
  else
    l ← lookup_fd fd s;
    match l with
    | None => Some (ret (-1) regs, s)
    | Some node =>
        off ← aget (fd_offset s) fd;
        buf ← vm_load (ecx regs) (Z.to_nat (u32 (edx regs))) (s_vm s);
        '(w, m) ← vfs_write node off buf (s_mem s);
        let written := i32 w in
        s ← advance fd node written (set_mem m s);
        Some (ret written regs, s)
    end.

Definition sys_close : handler := fun regs s =>
  let fd := i32 (ebx regs) in
  l ← lookup_fd fd s;
  match l with
  | None => Some (ret (-1) regs, s)
  | Some node =>
      m ← vfs_close node (s_mem s);
      s ← set_fd fd 0 0 (set_mem m s);
      Some (ret 0 regs, s)
  end.

Definition sys_sbrk : handler := fun regs s =>
  let increment := i32 (ebx regs) in
  let old_end := heap_end s in
  if increment =? 0 then Some (ret old_end regs, s) else
  let new_end := u32 (old_end + increment) in
  let old_page := u32 (old_end + 4095) / 4096 in
  let new_page := u32 (new_end + 4095) / 4096 in
  v ← for_do old_page new_page (fun i v => map_new (u32 (i * 4096)) v) (s_vm s);
  Some (ret old_end regs, Sys (fd_table s) (fd_offset s) new_end (s_mem s) v (s_rest s)).

Definition sys_clear : handler := fun regs s => k ← clear_scr (s_rest s); Some (regs, set_rest k s).
Definition sys_uptime : handler := fun regs s => Some (ret (timer_get_ticks (s_rest s)) regs, s).
Definition sys_write : handler := fun regs s =>
  str ← vm_string strmax (ebx regs) (s_vm s); k ← put_str str (s_rest s); Some (regs, set_rest k s).

(** ** Sockets *)

Definition install_socket (regs : sysregs) (node : Z) (s : state) : option (sysregs * state) :=
  r ← first_free (fun i s => set_fd_node i node s) s;
  match r with
  | Ret (i, s) => Some (ret i regs, s)
  | Next s => Some (ret (-1) regs, s)
  end.

Definition sys_socket : handler := fun regs s =>
  '(node, x) ← socket_create (i32 (ebx regs)) (i32 (ecx regs)) (i32 (edx regs)) (get_outer s);
  let s := set_outer x s in
  if node =? 0 then Some (ret (-1) regs, s) else install_socket regs node s.

(** The descriptor's node if it is a socket. *)
Definition socket_fd (fd : Z) (s : state) : option (option Z) :=
  l ← lookup_fd fd s;
  match l with
  | None => Some None
  | Some node => nd ← load node (s_mem s); Some (if n_flags nd =? VFS_SOCKET then Some node else None)
  end.

Definition socket_call (call : Z -> outer F A K -> option (Z * outer F A K)) : handler := fun regs s =>
  l ← socket_fd (i32 (ebx regs)) s;
  match l with
  | None => Some (ret (-1) regs, s)
  | Some node => '(v, x) ← call node (get_outer s); Some (ret v regs, set_outer x s)
  end.

Definition sys_bind : handler := fun regs => socket_call (fun node => socket_bind node (ecx regs) (i32 (edx regs))) regs.
Definition sys_sendto : handler := fun regs =>
  socket_call (fun node => socket_sendto node (ecx regs) (i32 (edx regs)) 0 (esi regs) (i32 (edi regs))) regs.

(** The only call that does not check that the node is a socket. *)
Definition sys_recvfrom : handler := fun regs s =>
  l ← lookup_fd (i32 (ebx regs)) s;
  match l with
  | None => Some (ret (-1) regs, s)
  | Some node =>
      '(v, x) ← socket_recvfrom node (ecx regs) (i32 (edx regs)) 0 (esi regs) (edi regs) (get_outer s);
      Some (ret v regs, set_outer x s)
  end.

Definition sys_connect : handler := fun regs => socket_call (fun node => socket_connect node (ecx regs) (i32 (edx regs))) regs.
Definition sys_listen : handler := fun regs => socket_call (fun node => socket_listen node (i32 (ecx regs))) regs.

Definition sys_accept : handler := fun regs s =>
  l ← socket_fd (i32 (ebx regs)) s;
  match l with
  | None => Some (ret (-1) regs, s)
  | Some node =>
      '(new_node, x) ← socket_accept node (ecx regs) (edx regs) (get_outer s);
      let s := set_outer x s in
      if new_node =? 0 then Some (ret (-1) regs, s) else install_socket regs new_node s
  end.

(** ** Dispatch *)

Definition init_syscalls : option (list (option handler)) :=
  let put (n : Z) (h : handler) (t : list (option handler)) := aset t n (Some h) in
  t ← put SYS_UPTIME sys_uptime (replicate 20 None); t ← put SYS_WRITE sys_write t; t ← put SYS_EXIT sys_exit t;
  t ← put SYS_GETCHAR sys_getchar t; t ← put SYS_OPEN sys_open t; t ← put SYS_READ sys_read t;
  t ← put SYS_WRITE_FD sys_write_fd t; t ← put SYS_CLOSE sys_close t; t ← put SYS_SBRK sys_sbrk t;
  t ← put SYS_CLEAR sys_clear t; t ← put SYS_SOCKET sys_socket t; t ← put SYS_BIND sys_bind t;
  t ← put SYS_SENDTO sys_sendto t; t ← put SYS_RECVFROM sys_recvfrom t; t ← put SYS_CONNECT sys_connect t;
  t ← put SYS_LISTEN sys_listen t; put SYS_ACCEPT sys_accept t.

Definition syscall_handler (syscall_table : list (option handler)) : handler := fun regs s =>
  if 20 <=? eax regs then Some (regs, s) else
  h ← aget syscall_table (eax regs);
  match h with None => Some (regs, s) | Some f => f regs s end.
End syscalls.

(** ** The heap of a program *)

Section sbrk.
Context {F : Type} {A : Type} `{!FrameAlloc A} {K : Type}.
#[local] Abbreviation state := (sys F A K).

Definition pages_up (x : Z) : Z := (x + 4095) / 4096.

(** Every byte of the heap that starts at [base] is mapped. *)
Definition heap_mapped (M : gmap Z Z) (base e : Z) : Prop := forall x, base <= x < e -> is_Some (M !! (x / 4096)).

Lemma sbrk_step (regs : sysregs) (s : state) M tlo thi :
  owns (s_vm s) M -> 0 <= heap_end s <= 2 ^ 32 - 4096 ->
  let e := heap_end s + i32 (ebx regs) in
  let lo := pages_up (heap_end s) in let hi := pages_up e in
  0 <= e <= 2 ^ 32 - 4096 ->
  (lo < hi -> 0 <= tlo /\ tlo * 2 ^ 22 <= lo * 4096 /\ hi * 4096 <= thi * 2 ^ 22 /\ thi <= 1024 /\
     frames_avail (missing (vm_pg (s_vm s)) tlo thi + (hi - lo)) (frames (vm_pg (s_vm s)))) ->
  exists v' M', sys_sbrk regs s = Some (ret (heap_end s) regs, Sys (fd_table s) (fd_offset s) e (s_mem s) v' (s_rest s)) /\
    owns v' M' /\ vm_ram v' = vm_ram (s_vm s) /\
    (forall p, lo <= p < hi -> exists f, M' !! p = Some f /\ fa_free (frames (vm_pg (s_vm s))) f) /\
    (forall p, ~ (lo <= p < hi) -> M' !! p = M !! p) /\
    (forall g, fa_free (frames (vm_pg v')) g -> fa_free (frames (vm_pg (s_vm s))) g) /\
    (hi <= lo -> v' = s_vm s).
Proof.
  intros Ho Hh e lo hi He Hgrow. unfold sys_sbrk.
  destruct (Z.eqb_spec (i32 (ebx regs)) 0) as [E0|Hne].
  { exists (s_vm s), M. assert (Ee : e = heap_end s) by (unfold e; lia). rewrite Ee. unfold hi. rewrite Ee.
    split; [by destruct s|]. split_and!; try done. intros p Hp. unfold lo in Hp. lia. }
  rewrite (u32_small (heap_end s + i32 (ebx regs))), (u32_small (heap_end s + 4095)) by (unfold e in He; lia).
  fold e. rewrite (u32_small (e + 4095)) by lia. change (for_do ((heap_end s + 4095) / 4096) ((e + 4095) / 4096)) with (for_do (S := vm A) lo hi).
  destruct (Z.ltb_spec lo hi) as [Hlt|Hge].
  - destruct (Hgrow Hlt) as (Ht & Hlo & Hhi & Hth & Hav).
    destruct (map_pages_ok (s_vm s) M (fun i => u32 (i * 4096)) 0 lo hi (hi - lo) tlo thi) as (v' & M' & E & Ho' & Hr & Hin & Hout & _ & Hg);
      [done|lia|lia|lia| |lia|done|].
    { intros i Hi. rewrite u32_small by (change (2 ^ 22) with 4194304 in *; lia). split; [lia|]. rewrite Z.div_mul by lia. lia. }
    rewrite E. cbn [mbind option_bind]. exists v', M'. split; [done|]. rewrite !Z.add_0_r in Hin, Hout. split_and!; try done. lia.
  - rewrite for_do_empty by lia. cbn [mbind option_bind]. exists (s_vm s), M. split; [done|]. split_and!; try done. lia.
Qed.

(** C4 (sys_sbrk): the call returns the old end of the heap and moves the end;
    a heap that was mapped up to its end is mapped up to the new one, on frames
    that were free, and every other byte keeps its value; shrinking the heap
    leaves the pages as they are. *)
Theorem sbrk_spec (regs : sysregs) (s : state) M base tlo thi :
  owns (s_vm s) M -> base mod 4096 = 0 -> 0 <= base <= heap_end s -> heap_end s <= 2 ^ 32 - 4096 -> heap_mapped M base (heap_end s) ->
  let e := heap_end s + i32 (ebx regs) in
  let lo := pages_up (heap_end s) in let hi := pages_up e in
  0 <= e <= 2 ^ 32 - 4096 ->
  (lo < hi -> 0 <= tlo /\ tlo * 2 ^ 22 <= lo * 4096 /\ hi * 4096 <= thi * 2 ^ 22 /\ thi <= 1024 /\
     frames_avail (missing (vm_pg (s_vm s)) tlo thi + (hi - lo)) (frames (vm_pg (s_vm s)))) ->
  exists v' M', sys_sbrk regs s = Some (ret (heap_end s) regs, Sys (fd_table s) (fd_offset s) e (s_mem s) v' (s_rest s)) /\
    owns v' M' /\ heap_mapped M' base e /\
    (forall p, lo <= p < hi -> exists f, M' !! p = Some f /\ fa_free (frames (vm_pg (s_vm s))) f) /\
    (forall x, ~ (lo <= x / 4096 < hi) -> view M' (vm_ram v') x = view M (vm_ram (s_vm s)) x) /\
    (e <= heap_end s -> v' = s_vm s).
Proof.
  intros Ho Hal Hb Hh Hm e lo hi He Hgrow.
  destruct (sbrk_step regs s M tlo thi Ho ltac:(lia) He Hgrow) as (v' & M' & E & Ho' & Hr & Hin & Hout & _ & Hsame).
  fold e in E, Hin, Hout, Hsame. fold lo hi in Hin, Hout, Hsame.
  exists v', M'. split; [done|]. split; [done|]. split; [|split; [done|]; split].
  - intros x Hx. destruct (decide (lo <= x / 4096 < hi)) as [Hp|Hp].
    + destruct (Hin _ Hp) as (f & -> & _). eauto.
    + rewrite Hout by done. unfold lo, hi, pages_up in Hp. destruct (decide (x < heap_end s)); [apply Hm; lia|].
      replace (x / 4096) with ((heap_end s - 1) / 4096) by pow2_lia. apply Hm. pow2_lia.
  - intros x Hx. unfold view. by rewrite Hout, Hr.
  - intros Hle. apply Hsame. unfold lo, hi, pages_up. pow2_lia.
Qed.

(** (sys_sbrk, defect): a heap that gives pages back and grows again gets
    new frames for them: what the pages held is no longer there, and their old
    frames stay allocated, though no page leads to them any more. *)
Theorem sbrk_regrow_leaks (r1 r2 : sysregs) (s : state) M n tlo thi p f :
  owns (s_vm s) M -> 0 <= heap_end s <= 2 ^ 32 - 4096 -> heap_end s mod 4096 = 0 ->
  i32 (ebx r1) = - n -> i32 (ebx r2) = n -> 0 < n <= heap_end s -> n mod 4096 = 0 ->
  0 <= tlo -> tlo * 2 ^ 22 <= heap_end s - n -> heap_end s <= thi * 2 ^ 22 -> thi <= 1024 ->
  frames_avail (missing (vm_pg (s_vm s)) tlo thi + n / 4096) (frames (vm_pg (s_vm s))) ->
  heap_end s - n <= p * 4096 < heap_end s -> M !! p = Some f ->
  exists s1 s2 v2 M2, sys_sbrk r1 s = Some (ret (heap_end s) r1, s1) /\ sys_sbrk r2 s1 = Some (ret (heap_end s - n) r2, s2) /\
    heap_end s2 = heap_end s /\ s_vm s2 = v2 /\ owns v2 M2 /\
    (exists f', M2 !! p = Some f' /\ f' <> f) /\ ~ fa_free (frames (vm_pg v2)) f /\ (forall q, M2 !! q <> Some f).
Proof.
  intros Ho Hh Hal H1 H2 Hn Hnal Ht Hlo Hhi Hth Hav Hp Hf.
  destruct (sbrk_step r1 s M tlo thi Ho Hh) as (v1 & M1 & E1 & _ & _ & _ & _ & _ & Hsame);
    [rewrite H1; lia|rewrite H1; unfold pages_up; pow2_lia|]. rewrite H1 in *.
  specialize (Hsame ltac:(unfold pages_up; pow2_lia)). subst v1.
  set (s1 := Sys (fd_table s) (fd_offset s) (heap_end s + - n) (s_mem s) (s_vm s) (s_rest s)) in E1.
  destruct (sbrk_step r2 s1 M tlo thi Ho) as (v2 & M2 & E2 & Ho2 & _ & Hin & Hout & Hg & _);
    [cbn [heap_end s1]; lia|cbn [heap_end s1]; lia| |]; cbn [heap_end s_vm s1] in *.
  { intros _. rewrite H2. unfold pages_up. split; [done|]. split; [pow2_lia|]. split; [pow2_lia|]. split; [done|].
    eapply frames_avail_eq; [exact Hav|pow2_lia]. }
  rewrite H2 in *. exists s1. eexists. exists v2, M2. split; [done|]. split; [exact E2|]. cbn [heap_end s_vm]. split; [lia|]. split; [done|].
  split; [done|]. assert (Hpr : pages_up (heap_end s + - n) <= p < pages_up (heap_end s + - n + n)) by (unfold pages_up; pow2_lia).
  destruct (Hin p Hpr) as (f' & Hf' & Hfree). destruct (ow_page _ _ Ho _ _ Hf) as (_ & _ & Hnf & _).
  split; [exists f'; split; [done|]; by intros ->|]. split; [by intros Hx%Hg|].
  intros q Hq. destruct (decide (pages_up (heap_end s + - n) <= q < pages_up (heap_end s + - n + n))) as [Hqr|Hqr].
  - destruct (Hin q Hqr) as (g & Hqg & Hgf). rewrite Hq in Hqg. injection Hqg as <-. done.
  - rewrite Hout in Hq by done. by rewrite (ow_inj _ _ Ho _ _ _ Hq Hf) in Hqr.
Qed.
End sbrk.

(** A heap of 5000 bytes from nothing; a page given back and taken again. *)
Definition sample_heap (e : Z) (v : vm pmm) : sys unit pmm unit := Sys [] [] e (∅, tt) v tt.

Lemma sbrk_spec_witness :
  exists v' M', sys_sbrk (Regs 8 5000 0 0 0 0) (sample_heap 0x08048000 sample_vm) =
      Some (Regs 0x08048000 5000 0 0 0 0, sample_heap (0x08048000 + 5000) v') /\ heap_mapped M' 0x08048000 (0x08048000 + 5000).
Proof.
  destruct (sbrk_spec (Regs 8 5000 0 0 0 0) (sample_heap 0x08048000 sample_vm) ∅ 0x08048000 32 33) as (v' & M' & E & _ & Hm & _).
  - exact (owns_empty sample_vm sample_paging_ok).
  - reflexivity.
  - cbn. lia.
  - cbn. lia.
  - intros x Hx. cbn in Hx. lia.
  - vm_compute. split; discriminate.
  - intros _. split; [lia|]. split; [vm_compute; discriminate|]. split; [vm_compute; discriminate|]. split; [lia|]. exact sample_vm_frames.
  - exists v', M'. split; [exact E|exact Hm].
Defined.

Lemma sbrk_regrow_leaks_witness :
  exists (s s1 s2 : sys unit pmm unit) f, sys_sbrk (Regs 8 (2 ^ 32 - 4096) 0 0 0 0) s = Some (Regs 0x08049000 (2 ^ 32 - 4096) 0 0 0 0, s1) /\
    sys_sbrk (Regs 8 4096 0 0 0 0) s1 = Some (Regs 0x08048000 4096 0 0 0 0, s2) /\ ~ fa_free (frames (vm_pg (s_vm s2))) f /\
    vm_addr 0x08048000 (s_vm s) = Some (f * 4096).
Proof.
  destruct (map_new_ok sample_vm ∅ 0x08048000 32 33 2 (owns_empty sample_vm sample_paging_ok)) as (f & v & _ & _ & _ & Ho & _ & _ & Hav & _);
    [lia|vm_compute; split; discriminate|vm_compute; split; congruence|lia|exact sample_vm_frames|].
  destruct (sbrk_regrow_leaks (Regs 8 (2 ^ 32 - 4096) 0 0 0 0) (Regs 8 4096 0 0 0 0) (sample_heap 0x08049000 v) (<[0x08048 := f]> ∅) 4096 32 33 0x08048 f)
    as (s1 & s2 & v2 & M2 & E1 & E2 & _ & <- & _ & _ & Hnf & _).
  - exact Ho.
  - cbn. lia.
  - reflexivity.
  - reflexivity.
  - reflexivity.
  - cbn. lia.
  - reflexivity.
  - lia.
  - vm_compute. discriminate.
  - vm_compute. discriminate.
  - lia.
  - exact Hav.
  - cbn. lia.
  - apply lookup_insert_eq.
  - exists (sample_heap 0x08049000 v), s1, s2, f. split; [exact E1|]. split; [exact E2|]. split; [exact Hnf|].
    cbn [s_vm sample_heap]. rewrite (vm_addr_ok v _ 0x08048000 f Ho); [f_equal; change (0x08048000 mod 4096) with 0; lia|lia|]. apply lookup_insert_eq.
Defined.
