(* ===== verification/Pafs.v ===== *)
(** * Pafs: the PekerOS file system (kernel/fs/pafs.c)

    128 inodes of fourteen 512-byte blocks, a block bitmap and a superblock kept
    in memory and written through to the disk of [Disk]; directories are blocks
    of sixteen 32-byte entries.  The state is the record [pafs]; an operation
    that can leave the arrays of the source has no result there. *)

From S2P Require Export Disk Spinlock.

Definition PAFS_MAGIC : Z := 0xAF5.
Definition PAFS_MAX_INODES : Z := 128.
Definition PAFS_TYPE_FREE : Z := 0.
Definition PAFS_TYPE_FILE : Z := 1.
Definition PAFS_TYPE_DIR : Z := 2.
Definition LBA_SUPERBLOCK : Z := 0.
Definition LBA_INODES_START : Z := 1.
Definition LBA_INODES_COUNT : Z := 16.
Definition LBA_BITMAP : Z := 17.
Definition LBA_DATA_START : Z := 18.
Definition MAX_ENTRIES : Z := 16.

Record pafs_superblock := SB {
  magic : Z; total_blocks : Z; total_inodes : Z; free_blocks : Z; free_inodes : Z; root_inode : Z
}.

Record pafs_inode := Inode { i_type : Z; i_size : Z; i_blocks : list Z }.

(** ** The disk format *)

Definition encode_sb (sb : pafs_superblock) (tail : list Z) : list Z :=
  le32 (magic sb) ++ le32 (total_blocks sb) ++ le32 (total_inodes sb) ++
  le32 (free_blocks sb) ++ le32 (free_inodes sb) ++ le32 (root_inode sb) ++ tail.

Definition word_at (off : nat) (l : list Z) : Z := de32 (drop off l).

Definition decode_sb (l : list Z) : pafs_superblock :=
  SB (word_at 0 l) (word_at 4 l) (word_at 8 l) (word_at 12 l) (word_at 16 l) (word_at 20 l).

Definition encode_inode (i : pafs_inode) : list Z :=
  le32 (i_type i) ++ le32 (i_size i) ++ concat (le32 <$> i_blocks i).

Definition decode_inode (l : list Z) : pafs_inode :=
  Inode (word_at 0 l) (word_at 4 l) ((fun k => word_at (8 + 4 * k) l) <$> seq 0 14).

(** The 512 bytes of the inode table at sector [k]: inodes [8 k .. 8 k + 7]. *)
Definition encode_inodes (k : nat) (l : list pafs_inode) : list Z :=
  concat (encode_inode <$> take 8 (drop (8 * k) l)).

Definition decode_inodes (l : list Z) : list pafs_inode :=
  (fun j => decode_inode (drop (64 * j) l)) <$> seq 0 8.

(** A directory entry: its inode number, and its name as the bytes from the name
    field on. *)
Definition entry_inode (data : list Z) (j : Z) : option Z :=
  if (0 <=? j) && (j <? MAX_ENTRIES) then Some (word_at (Z.to_nat (32 * j)) data) else None.

Definition entry_name (data : list Z) (j : Z) : list Z := drop (Z.to_nat (32 * j + 4)) data.

Definition set_entry (j : Z) (b data : list Z) : option (list Z) :=
  if (0 <=? j) && (j <? MAX_ENTRIES) then Some (splice (Z.to_nat (32 * j)) b data) else None.

Definition get_entry (j : Z) (data : list Z) : option (list Z) :=
  if (0 <=? j) && (j <? MAX_ENTRIES) then Some (slice (Z.to_nat (32 * j)) 32 data) else None.

(** [entries[j].inode = file_ino] and the copy of at most 27 characters. *)
Definition write_entry (j file_ino : Z) (name data : list Z) : option (list Z) :=
  data ← set_entry j (le32 file_ino) data;
  nm ← copy_name 28 0 27 name (entry_name data j);
  Some (take (Z.to_nat (32 * j + 4)) data ++ nm).

(** ** The state *)

Section pafs.
Context {D : Type} `{!BlockDev D}.

Record pafs := Pafs {
  sb : pafs_superblock;
  sb_tail : list Z;
  inodes : list pafs_inode;
  block_bitmap : list Z;
  disk : store D;
  pafs_lock : spinlock_t;
  eflags : Z
}.

Definition with_sb (x : pafs_superblock) (s : pafs) : pafs :=
  Pafs x (sb_tail s) (inodes s) (block_bitmap s) (disk s) (pafs_lock s) (eflags s).
Definition with_inodes (x : list pafs_inode) (s : pafs) : pafs :=
  Pafs (sb s) (sb_tail s) x (block_bitmap s) (disk s) (pafs_lock s) (eflags s).
Definition with_bitmap (x : list Z) (s : pafs) : pafs :=
  Pafs (sb s) (sb_tail s) (inodes s) x (disk s) (pafs_lock s) (eflags s).
Definition with_disk (x : store D) (s : pafs) : pafs :=
  Pafs (sb s) (sb_tail s) (inodes s) (block_bitmap s) x (pafs_lock s) (eflags s).
Definition with_lock (x : spinlock_t * Z) (s : pafs) : pafs :=
  Pafs (sb s) (sb_tail s) (inodes s) (block_bitmap s) (disk s) (fst x) (snd x).

Definition lock (s : pafs) : pafs := with_lock (spin_lock (pafs_lock s) (eflags s)) s.
Definition unlock (s : pafs) : pafs := with_lock (spin_unlock (pafs_lock s) (eflags s)) s.

Definition add_free_blocks (n : Z) (s : pafs) : pafs :=
  let b := sb s in
  with_sb (SB (magic b) (total_blocks b) (total_inodes b) (u32 (free_blocks b + n)) (free_inodes b) (root_inode b)) s.
Definition add_free_inodes (n : Z) (s : pafs) : pafs :=
  let b := sb s in
  with_sb (SB (magic b) (total_blocks b) (total_inodes b) (free_blocks b) (u32 (free_inodes b + n)) (root_inode b)) s.

(** [inodes[ino].f = ...] *)
Definition upd_inode (ino : Z) (f : pafs_inode -> pafs_inode) (s : pafs) : option pafs :=
  i ← aget (inodes s) ino; l ← aset (inodes s) ino (f i); Some (with_inodes l s).

Definition set_type (t : Z) (i : pafs_inode) : pafs_inode := Inode t (i_size i) (i_blocks i).
Definition set_size (n : Z) (i : pafs_inode) : pafs_inode := Inode (i_type i) (u32 n) (i_blocks i).

Definition set_block (ino k b : Z) (s : pafs) : option pafs :=
  i ← aget (inodes s) ino; bl ← aset (i_blocks i) k b;
  upd_inode ino (fun i => Inode (i_type i) (i_size i) bl) s.

(** ** The block bitmap *)

Definition pafs_bitmap_set (bit : Z) (bm : list Z) : option (list Z) :=
  b ← aget bm (bit / 8); aset bm (bit / 8) (u8 (Z.lor b (Z.shiftl 1 (bit mod 8)))).

Definition pafs_bitmap_clear (bit : Z) (bm : list Z) : option (list Z) :=
  b ← aget bm (bit / 8); aset bm (bit / 8) (u8 (Z.land b (Z.lnot (Z.shiftl 1 (bit mod 8))))).

Definition pafs_bitmap_test (bit : Z) (bm : list Z) : option Z :=
  b ← aget bm (bit / 8); Some (Z.land b (Z.shiftl 1 (bit mod 8))).

(** ** Metadata *)

Definition write_block (lba : Z) (b : list Z) (s : pafs) : option pafs :=
  d ← pafs_disk_write lba b (disk s); Some (with_disk d s).

Definition pafs_save_superblock (s : pafs) : option pafs :=
  write_block LBA_SUPERBLOCK (encode_sb (sb s) (sb_tail s)) s.

Definition pafs_save_inode (ino : Z) (s : pafs) : option pafs :=
  let sector_idx := Z.quot ino 8 in
  write_block (LBA_INODES_START + sector_idx) (encode_inodes (Z.to_nat sector_idx) (inodes s)) s.

Definition pafs_save_bitmap (s : pafs) : option pafs :=
  write_block LBA_BITMAP (block_bitmap s) s.

Definition save_metadata (s : pafs) : option pafs :=
  s ← pafs_save_superblock s;
  s ← for_do 0 LBA_INODES_COUNT (fun i s =>
        write_block (LBA_INODES_START + i) (encode_inodes (Z.to_nat i) (inodes s)) s) s;
  pafs_save_bitmap s.

Definition find_free_inode (s : pafs) : option Z :=
  r ← for_ret 0 PAFS_MAX_INODES (fun i _ =>
        d ← aget (inodes s) i;
        Some (if i_type d =? PAFS_TYPE_FREE then Ret i else Next tt)) tt;
  Some (match r with Ret i => i | Next _ => -1 end).

Definition alloc_block (s : pafs) : option (Z * pafs) :=
  r ← for_ret LBA_DATA_START PAFS_TOTAL_BLOCKS (fun i s =>
        t ← pafs_bitmap_test i (block_bitmap s);
        if t =? 0 then
          bm ← pafs_bitmap_set i (block_bitmap s);
          let s := add_free_blocks (-1) (with_bitmap bm s) in
          s ← pafs_save_bitmap s;
          s ← pafs_save_superblock s;
          Some (Ret (i, s))
        else Some (Next s)) s;
  Some (match r with Ret (i, s) => (i, s) | Next s => (-1, s) end).

(** ** Formatting and mounting *)

Definition blank_inode : pafs_inode := Inode PAFS_TYPE_FREE 0 (replicate 14 0).

Definition pafs_format (s : pafs) : option pafs :=
  let s := with_sb (SB PAFS_MAGIC PAFS_TOTAL_BLOCKS PAFS_MAX_INODES
             (PAFS_TOTAL_BLOCKS - LBA_DATA_START) PAFS_MAX_INODES (root_inode (sb s))) s in
  s ← for_do 0 PAFS_MAX_INODES (fun i s => upd_inode i (fun _ => blank_inode) s) s;
  bm ← for_do 0 512 (fun i bm => aset bm i 0) (block_bitmap s);
  bm ← for_do 0 LBA_DATA_START pafs_bitmap_set bm;
  let s := with_bitmap bm s in
  root_idx ← find_free_inode s;
  s ← upd_inode root_idx (fun _ => Inode PAFS_TYPE_DIR 0 (replicate 14 0)) s;
  '(b, s) ← alloc_block s;
  s ← set_block root_idx 0 (u32 b) s;
  s ← write_block b (replicate 512 0) s;
  let sb0 := sb s in
  let s := with_sb (SB (magic sb0) (total_blocks sb0) (total_inodes sb0) (free_blocks sb0)
                      (free_inodes sb0) (u32 root_idx)) s in
  save_metadata (add_free_inodes (-1) s).

(** The mount: [status i] is the status byte that probing drive [i] returned,
    [0xFF] for a missing drive. *)
Definition probe_drive (status : Z -> Z) (d : store D) (i : Z) (next : list Z -> Z * list Z) : Z * list Z :=
  if status i =? 0xFF then next (replicate 512 0) else
  let data := dev_read i LBA_SUPERBLOCK (device d) in
  if magic (decode_sb data) =? PAFS_MAGIC then (i, data) else next data.

Definition probe (status : Z -> Z) (d : store D) : Z * list Z :=
  probe_drive status d 0 (fun _ =>
  probe_drive status d 1 (fun _ =>
  probe_drive status d 2 (fun _ =>
  probe_drive status d 3 (fun data => (-1, data))))).

Definition load_metadata (s : pafs) : option pafs :=
  s ← for_do 0 LBA_INODES_COUNT (fun i s =>
        data ← pafs_disk_read (LBA_INODES_START + i) (disk s);
        Some (with_inodes (take (Z.to_nat (8 * i)) (inodes s) ++ decode_inodes data ++
                           drop (Z.to_nat (8 * i + 8)) (inodes s)) s)) s;
  data ← pafs_disk_read LBA_BITMAP (disk s);
  Some (with_bitmap data s).

Definition pafs_init (status : Z -> Z) (s : pafs) : option pafs :=
  let s := lock s in
  let '(drive, data) := probe status (disk s) in
  let s := Pafs (decode_sb data) (drop 24 data) (inodes s) (block_bitmap s)
             (Store false (ramdisk (disk s)) drive (device (disk s))) (pafs_lock s) (eflags s) in
  s ← (if drive =? -1
       then pafs_format (with_disk (Store true (replicate (Z.to_nat RAMDISK_SIZE) 0) 0 (device (disk s))) s)
       else load_metadata s);
  Some (unlock s).

(** ** Directories *)

Definition pafs_is_dir_empty (ino : Z) (s : pafs) : option bool :=
  dir ← aget (inodes s) ino;
  Some (if negb (i_type dir =? PAFS_TYPE_DIR) then false else i_size dir =? 0).

(** The scan of one block for [name]: the first used entry with that name. *)
Definition scan_block (name data : list Z) : option (ctl unit Z) :=
  for_ret 0 MAX_ENTRIES (fun j _ =>
    ino ← entry_inode data j;
    if ino =? 0 then Some (Next tt) else
    c ← strcmp (entry_name data j) name;
    Some (if c =? 0 then Ret j else Next tt)) tt.

Definition pafs_find_entry (dir_ino : Z) (name : list Z) (s : pafs) : option Z :=
  dir ← aget (inodes s) dir_ino;
  if negb (i_type dir =? PAFS_TYPE_DIR) || (i_size dir =? 0) then Some (-1) else
  r ← for_ret 0 14 (fun i _ =>
        b ← aget (i_blocks dir) i;
        if b =? 0 then Some (Ret (-1)) else
        data ← pafs_disk_read b (disk s);
        c ← scan_block name data;
        match c with
        | Ret j => ino ← entry_inode data j; Some (Ret (i32 ino))
        | Next _ => Some (Next tt)
        end) tt;
  Some (match r with Ret ino => ino | Next _ => -1 end).

(** The first free slot of a block. *)
Definition free_slot (data : list Z) : option (ctl unit Z) :=
  for_ret 0 MAX_ENTRIES (fun j _ =>
    ino ← entry_inode data j; Some (if ino =? 0 then Ret j else Next tt)) tt.

(** [if (dir->blocks[i] == 0)]: a new zeroed block in slot [i]; [None] inside
    when the disk is full. *)
Definition grow_dir (dir_ino i : Z) (s : pafs) : option (ctl pafs pafs) :=
  dir ← aget (inodes s) dir_ino;
  bl ← aget (i_blocks dir) i;
  if bl =? 0 then
    '(b, s) ← alloc_block s;
    if b =? -1 then Some (Ret s) else
    s ← set_block dir_ino i b s;
    s ← write_block b (replicate 512 0) s;
    Some (Next s)
  else Some (Next s).

Definition pafs_add_entry (dir_ino : Z) (name : list Z) (file_ino : Z) (s : pafs) : option (Z * pafs) :=
  dir ← aget (inodes s) dir_ino;
  if negb (i_type dir =? PAFS_TYPE_DIR) then Some (-1, s) else
  r ← for_ret 0 14 (fun i s =>
        g ← grow_dir dir_ino i s;
        match g with
        | Ret s => Some (Ret (-1, s))
        | Next s =>
            dir ← aget (inodes s) dir_ino;
            b ← aget (i_blocks dir) i;
            data ← pafs_disk_read b (disk s);
            c ← free_slot data;
            match c with
            | Next _ => Some (Next s)
            | Ret j =>
                data ← write_entry j file_ino name data;
                s ← write_block b data s;
                s ← upd_inode dir_ino (fun d => set_size (i_size d + 32) d) s;
                s ← pafs_save_inode dir_ino s;
                Some (Ret (0, s))
            end
        end) s;
  Some (match r with Ret p => p | Next s => (-1, s) end).

(** The search of [pafs_remove_entry]: block, slot and the block's data. *)
Definition find_target (dir : pafs_inode) (name : list Z) (s : pafs) : option (option (Z * Z * list Z)) :=
  r ← for_ret 0 14 (fun i _ =>
        b ← aget (i_blocks dir) i;
        if b =? 0 then Some (Ret None) else
        data ← pafs_disk_read b (disk s);
        c ← scan_block name data;
        Some (match c with Ret j => Ret (Some (i, j, data)) | Next _ => Next tt end)) tt;
  Some (match r with Ret t => t | Next _ => None end).

Definition pafs_remove_entry (dir_ino : Z) (name : list Z) (s : pafs) : option (Z * pafs) :=
  dir ← aget (inodes s) dir_ino;
  t ← find_target dir name s;
  match t with
  | None => Some (-1, s)
  | Some (target_block, target_idx, target_data) =>
      let last_entry_total_idx := i32 (u32 (i_size dir / 32 - 1)) in
      let last_block_idx := Z.quot last_entry_total_idx MAX_ENTRIES in
      let last_entry_in_block := Z.rem last_entry_total_idx MAX_ENTRIES in
      lb ← aget (i_blocks dir) last_block_idx;
      last_block_data ← pafs_disk_read lb (disk s);
      s ← (if negb (target_block =? last_block_idx) || negb (target_idx =? last_entry_in_block) then
             e ← get_entry last_entry_in_block last_block_data;
             target_data ← set_entry target_idx e target_data;
             tb ← aget (i_blocks dir) target_block;
             write_block tb target_data s
           else Some s);
      last_block_data ← set_entry last_entry_in_block (replicate 32 0) last_block_data;
      s ← write_block lb last_block_data s;
      s ← upd_inode dir_ino (fun d => set_size (i_size d - 32) d) s;
      s ← pafs_save_inode dir_ino s;
      Some (0, s)
  end.

(** ** Creating and deleting *)

Definition pafs_create (parent_ino : Z) (name : list Z) (is_dir : bool) (s : pafs) : option (Z * pafs) :=
  let s := lock s in
  if free_inodes (sb s) =? 0 then Some (-1, unlock s) else
  ino ← pafs_find_entry parent_ino name s;
  if negb (ino =? -1) then Some (-1, unlock s) else
  new_ino ← find_free_inode s;
  if new_ino =? -1 then Some (-1, unlock s) else
  s ← upd_inode new_ino (fun _ =>
        Inode (if is_dir then PAFS_TYPE_DIR else PAFS_TYPE_FILE) 0 (replicate 14 0)) s;
  '(r, s) ← pafs_add_entry parent_ino name new_ino (add_free_inodes (-1) s);
  if r =? 0 then
    s ← pafs_save_inode new_ino s; Some (new_ino, unlock s)
  else
    s ← upd_inode new_ino (set_type PAFS_TYPE_FREE) s;
    Some (-1, unlock (add_free_inodes 1 s)).

Definition pafs_mkdir (parent_ino : Z) (name : list Z) (s : pafs) : option (Z * pafs) :=
  pafs_create parent_ino name true s.

(** The loop of [pafs_delete] over the blocks of a file. *)
Definition free_file_blocks (ino : Z) (s : pafs) : option pafs :=
  for_do 0 14 (fun i s =>
    file ← aget (inodes s) ino;
    b ← aget (i_blocks file) i;
    if b =? 0 then Some s else
    bm ← pafs_bitmap_clear b (block_bitmap s);
    set_block ino i 0 (add_free_blocks 1 (with_bitmap bm s))) s.

Definition pafs_delete (parent_ino : Z) (name : list Z) (s : pafs) : option (Z * pafs) :=
  let s := lock s in
  ino ← pafs_find_entry parent_ino name s;
  if ino =? -1 then Some (-1, unlock s) else
  file ← aget (inodes s) ino;
  empty ← pafs_is_dir_empty ino s;
  if (i_type file =? PAFS_TYPE_DIR) && negb empty then Some (-2, unlock s) else
  s ← free_file_blocks ino s;
  s ← upd_inode ino (fun d => set_size 0 (set_type PAFS_TYPE_FREE d)) s;
  '(res, s) ← pafs_remove_entry parent_ino name (add_free_inodes 1 s);
  s ← pafs_save_superblock s;
  s ← pafs_save_bitmap s;
  s ← pafs_save_inode ino s;
  Some (res, unlock s).

(** ** Whole-file reads and writes *)

(** [if (file->blocks[block_idx] == 0)]: a new block; [Ret] when the disk is full. *)
Definition grow_file (ino k : Z) (s : pafs) : option (ctl pafs pafs) :=
  file ← aget (inodes s) ino;
  bl ← aget (i_blocks file) k;
  if bl =? 0 then
    '(b, s) ← alloc_block s;
    if b =? -1 then Some (Ret s) else
    s ← set_block ino k b s; Some (Next s)
  else Some (Next s).

Definition block_of (ino k : Z) (s : pafs) : option Z :=
  file ← aget (inodes s) ino; aget (i_blocks file) k.

(** One round of the loop of [pafs_write]; the state carries [bytes_written]. *)
Definition write_round (ino : Z) (data : list Z) (len : Z) (k : Z) (st : Z * pafs)
    : option (ctl (Z * pafs) (Z * pafs)) :=
  let '(written, s) := st in
  if negb (written <? len) then Some (Ret (written, s)) else
  g ← grow_file ino k s;
  match g with
  | Ret s => Some (Ret (written, s))
  | Next s =>
      let to_write := if PAFS_BLOCK_SIZE <? len - written then PAFS_BLOCK_SIZE else len - written in
      temp ← memcpy (replicate 512 0) (drop (Z.to_nat written) data) to_write;
      b ← block_of ino k s;
      s ← write_block b temp s;
      Some (Next (written + to_write, s))
  end.

Definition write_loop (ino : Z) (data : list Z) (len : Z) (s : pafs) : option (Z * pafs) :=
  r ← for_ret 0 14 (write_round ino data len) (0, s);
  Some (match r with Ret p => p | Next p => p end).

Definition pafs_write (name data : list Z) (len : Z) (s : pafs) : option (Z * pafs) :=
  let s := lock s in
  ino ← pafs_find_entry (root_inode (sb s)) name s;
  '(ino, s) ← (if ino =? -1 then pafs_create (root_inode (sb s)) name false s else Some (ino, s));
  if ino =? -1 then Some (-1, unlock s) else
  file ← aget (inodes s) ino;
  if negb (i_type file =? PAFS_TYPE_FILE) then Some (-1, unlock s) else
  '(bytes_written, s) ← write_loop ino data len s;
  s ← upd_inode ino (set_size bytes_written) s;
  s ← pafs_save_inode ino s;
  Some (bytes_written, unlock s).

(** [memcpy(buffer + off, src, n)]. *)
Definition copy_to (buffer : list Z) (off : Z) (src : list Z) (n : Z) : option (list Z) :=
  if (0 <=? off) && (off <=? Z.of_nat (length buffer)) then
    b ← memcpy (drop (Z.to_nat off) buffer) src n; Some (take (Z.to_nat off) buffer ++ b)
  else None.

Definition read_loop (file : pafs_inode) (total : Z) (buffer : list Z) (s : pafs)
    : option (Z * list Z) :=
  r ← for_ret 0 14 (fun k '(bytes_read, buffer) =>
        if negb (bytes_read <? total) then Some (Ret (bytes_read, buffer)) else
        b ← aget (i_blocks file) k;
        if b =? 0 then Some (Ret (bytes_read, buffer)) else
        temp ← pafs_disk_read b (disk s);
        let to_copy := if PAFS_BLOCK_SIZE <? total - bytes_read then PAFS_BLOCK_SIZE else total - bytes_read in
        buffer ← copy_to buffer bytes_read temp to_copy;
        Some (Next (bytes_read + to_copy, buffer))) (0, buffer);
  Some (match r with Ret p => p | Next p => p end).

Definition pafs_read (name buffer : list Z) (max_len : Z) (s : pafs) : option (Z * list Z * pafs) :=
  let s := lock s in
  ino ← pafs_find_entry (root_inode (sb s)) name s;
  if ino =? -1 then Some (-1, buffer, unlock s) else
  file ← aget (inodes s) ino;
  if negb (i_type file =? PAFS_TYPE_FILE) then Some (-1, buffer, unlock s) else
  let total_to_read := if max_len <? i32 (i_size file) then max_len else i32 (i_size file) in
  '(bytes_read, buffer) ← read_loop file total_to_read buffer s;
  buffer ← (if bytes_read <? max_len then aset buffer bytes_read 0 else Some buffer);
  Some (bytes_read, buffer, unlock s).

(** ** The operations PAFS gives the VFS *)

(** The loop of [pafs_vfs_read]: [size] is unsigned, so [bytes_read] is compared
    as unsigned. *)
Definition vfs_read_loop (file : pafs_inode) (first block_offset size : Z) (buffer : list Z) (s : pafs)
    : option (Z * list Z) :=
  r ← for_ret first 14 (fun k '(bytes_read, block_offset, buffer) =>
        if negb (bytes_read <? size) then Some (Ret (bytes_read, buffer)) else
        b ← aget (i_blocks file) k;
        temp ← pafs_disk_read b (disk s);
        let to_copy := PAFS_BLOCK_SIZE - block_offset in
        let to_copy := if size - bytes_read <? to_copy then size - bytes_read else to_copy in
        buffer ← copy_to buffer bytes_read (drop (Z.to_nat block_offset) temp) to_copy;
        Some (Next (bytes_read + to_copy, 0, buffer))) (0, block_offset, buffer);
  Some (match r with Ret p => p | Next (n, _, buffer) => (n, buffer) end).

Definition pafs_vfs_read (node_inode offset size : Z) (buffer : list Z) (s : pafs)
    : option (Z * list Z * pafs) :=
  let s := lock s in
  file ← aget (inodes s) node_inode;
  if negb (i_type file =? PAFS_TYPE_FILE) || (i_size file =? 0) then Some (0, buffer, unlock s) else
  if i_size file <=? offset then Some (0, buffer, unlock s) else
  let size := if i_size file <? u32 (offset + size) then u32 (i_size file - offset) else size in
  '(bytes_read, buffer) ← vfs_read_loop file (offset / PAFS_BLOCK_SIZE) (offset mod PAFS_BLOCK_SIZE) size buffer s;
  Some (bytes_read, buffer, unlock s).

Definition vfs_write_round (ino size : Z) (buffer : list Z) (k : Z) (st : Z * Z * pafs)
    : option (ctl (Z * Z * pafs) (Z * pafs)) :=
  let '(written, block_offset, s) := st in
  if negb (written <? size) then Some (Ret (written, s)) else
  g ← grow_file ino k s;
  match g with
  | Ret s => Some (Ret (written, s))
  | Next s =>
      b ← block_of ino k s;
      temp ← (if (0 <? block_offset) || (size - written <? PAFS_BLOCK_SIZE)
              then pafs_disk_read b (disk s) else Some (replicate 512 0));
      let to_write := PAFS_BLOCK_SIZE - block_offset in
      let to_write := if size - written <? to_write then size - written else to_write in
      temp ← copy_to temp block_offset (drop (Z.to_nat written) buffer) to_write;
      s ← write_block b temp s;
      Some (Next (written + to_write, 0, s))
  end.

Definition pafs_vfs_write (node_inode offset size : Z) (buffer : list Z) (s : pafs)
    : option (Z * pafs) :=
  let s := lock s in
  file ← aget (inodes s) node_inode;
  if negb (i_type file =? PAFS_TYPE_FILE) then Some (0, unlock s) else
  r ← for_ret (offset / PAFS_BLOCK_SIZE) 14 (vfs_write_round node_inode size buffer)
        (0, offset mod PAFS_BLOCK_SIZE, s);
  let '(written, s) := match r with Ret p => p | Next (n, _, s) => (n, s) end in
  file ← aget (inodes s) node_inode;
  s ← (if i_size file <? u32 (offset + written)
       then upd_inode node_inode (set_size (u32 (offset + written))) s else Some s);
  s ← pafs_save_inode node_inode s;
  Some (written, unlock s).

(** [pafs_vfs_readdir]: the inode and name put in the dirent ([None] inside: no
    entry), the dirent's name field being [blank] after the memset. *)
Definition pafs_vfs_readdir (node_inode index : Z) (s : pafs)
    : option (option (Z * list Z) * pafs) :=
  let s := lock s in
  dir ← aget (inodes s) node_inode;
  if negb (i_type dir =? PAFS_TYPE_DIR) || (i_size dir =? 0) then Some (None, unlock s) else
  if 14 * MAX_ENTRIES <=? index then Some (None, unlock s) else
  let block_idx := index / MAX_ENTRIES in
  let entry_in_block := index mod MAX_ENTRIES in
  b ← aget (i_blocks dir) block_idx;
  if b =? 0 then Some (None, unlock s) else
  dir_data ← pafs_disk_read b (disk s);
  ino ← entry_inode dir_data entry_in_block;
  if ino =? 0 then Some (None, unlock s) else
  nm ← copy_name 28 0 27 (entry_name dir_data entry_in_block) (replicate 128 0);
  Some (Some (ino, nm), unlock s).

(** [pafs_vfs_finddir]: the fields of the new node that depend on the entry. *)
Record found_node := FoundNode { fn_name : list Z; fn_inode : Z; fn_length : Z; fn_is_dir : bool }.

Definition pafs_vfs_finddir (node_inode : Z) (name : list Z) (s : pafs)
    : option (option found_node * pafs) :=
  let s := lock s in
  ino ← pafs_find_entry node_inode name s;
  if negb (ino =? -1) then
    target ← aget (inodes s) ino;
    nm ← copy_name 128 0 127 name (replicate 128 0);
    Some (Some (FoundNode nm ino (i_size target) (i_type target =? PAFS_TYPE_DIR)), unlock s)
  else Some (None, unlock s).
End pafs.
Arguments pafs D : clear implicits.
