(* ===== verification/PafsSpec.v ===== *)
(** * PafsSpec: what PAFS promises (kernel/fs/pafs.c)

    The invariant of the file system (block ownership, the bitmap, the free
    counter, the directory blocks, agreement of the disk with memory), the
    abstract directories (a list of inode numbers and names per directory), and
    the theorems that the operations of [Pafs] implement it. *)

From S2P Require Export Pafs.

Section spec.
Context {D : Type} `{!BlockDev D}.
#[local] Abbreviation pafs := (pafs D).
Implicit Types (s : pafs) (i k b : Z).

(** ** Views of the state *)

(** The inode table and the block slots as total functions. *)
Definition ind s i : pafs_inode := default blank_inode (aget (inodes s) i).
Definition dblk d k : Z := default 0 (aget (i_blocks d) k).
Definition blk s i k : Z := dblk (ind s i) k.
Definition bit s b : bool := bm_bit (block_bitmap s) b.
Definition sect s lba : list Z := sec (disk s) lba.

Definition ino_ok i : Prop := 0 <= i < PAFS_MAX_INODES.
Definition data_lba b : Prop := LBA_DATA_START <= b < PAFS_TOTAL_BLOCKS.

Record inode_ok (d : pafs_inode) : Prop := {
  io_type : 0 <= i_type d <= 2;
  io_size : 0 <= i_size d < 2 ^ 32;
  io_blocks : length (i_blocks d) = 14%nat
}.

Record core_ok s : Prop := {
  c_store : store_ok (disk s);
  c_tail : length (sb_tail s) = 488%nat;
  c_inodes : length (inodes s) = 128%nat;
  c_inode : Forall inode_ok (inodes s);
  c_bm : length (block_bitmap s) = 512%nat;
  c_bytes : bytes_ok (block_bitmap s);
  c_own : forall i k, blk s i k <> 0 -> data_lba (blk s i k) /\ bit s (blk s i k) = true;
  c_inj : forall i k i' k', blk s i k <> 0 -> blk s i k = blk s i' k' -> i = i' /\ k = k';
  c_used : forall b, data_lba b -> bit s b = true -> exists i k, blk s i k = b;
  c_low : forall b, 0 <= b < LBA_DATA_START -> bit s b = true;
  c_count : free_blocks (sb s) = count (fun b => negb (bit s b)) LBA_DATA_START PAFS_TOTAL_BLOCKS;
  c_free : forall i, i_type (ind s i) = PAFS_TYPE_FREE -> ind s i = blank_inode;
  c_sb : magic (sb s) = PAFS_MAGIC /\ total_blocks (sb s) = PAFS_TOTAL_BLOCKS /\
    total_inodes (sb s) = PAFS_MAX_INODES /\ 0 <= free_inodes (sb s) < 2 ^ 32;
  c_root : i_type (ind s 0) = PAFS_TYPE_DIR
}.

(** The metadata sector [lba] of the disk agrees with memory; the superblock up
    to its count of free inodes, which [pafs_create] does not write back. *)
Definition set_free_inodes (n : Z) (x : pafs_superblock) : pafs_superblock :=
  SB (magic x) (total_blocks x) (total_inodes x) (free_blocks x) n (root_inode x).

Definition meta_at lba s : Prop :=
  if lba =? LBA_SUPERBLOCK then
    exists n, 0 <= n < 2 ^ 32 /\ sect s 0 = encode_sb (set_free_inodes n (sb s)) (sb_tail s)
  else if lba =? LBA_BITMAP then sect s LBA_BITMAP = block_bitmap s
  else sect s lba = encode_inodes (Z.to_nat (lba - 1)) (inodes s).

(** Every metadata sector outside [dirty] agrees. *)
Definition synced (dirty : list Z) s : Prop :=
  forall lba, 0 <= lba < LBA_DATA_START -> lba ∉ dirty -> meta_at lba s.

(** ** Reading the views *)

Lemma aget_ind s i : length (inodes s) = 128%nat -> ino_ok i -> aget (inodes s) i = Some (ind s i).
Proof.
  unfold ino_ok, PAFS_MAX_INODES, ind. intros Hl Hi.
  by destruct (aget_is_Some (inodes s) i) as [d ->]; [lia|].
Qed.

(** A well-formed inode table. *)
Definition table_ok (l : list pafs_inode) : Prop := length l = 128%nat /\ Forall inode_ok l.

Lemma core_table s : core_ok s -> table_ok (inodes s).
Proof. intros []. by split. Qed.
#[local] Hint Resolve core_table : core.

Lemma table_ind_ok s i : table_ok (inodes s) -> ino_ok i -> inode_ok (ind s i).
Proof. intros [Hl H] Hi. eapply aget_Forall; [exact H|]. by apply aget_ind. Qed.

Lemma ind_ok s i : core_ok s -> ino_ok i -> inode_ok (ind s i).
Proof. intros H. apply table_ind_ok. by apply core_table. Qed.

Lemma dblk_out d k : inode_ok d -> ~ 0 <= k < 14 -> dblk d k = 0.
Proof.
  intros H Hk. unfold dblk, aget. destruct (Z.ltb_spec k 0); [done|].
  by rewrite lookup_ge_None_2 by (rewrite (io_blocks _ H); lia).
Qed.

Lemma aget_dblk d k : inode_ok d -> 0 <= k < 14 -> aget (i_blocks d) k = Some (dblk d k).
Proof.
  intros H Hk. unfold dblk. destruct (aget_is_Some (i_blocks d) k) as [x ->]; [|done].
  rewrite (io_blocks _ H). lia.
Qed.

Lemma ind_out s i : length (inodes s) = 128%nat -> ~ ino_ok i -> ind s i = blank_inode.
Proof.
  unfold ino_ok, PAFS_MAX_INODES, ind, aget. intros Hl Hi. destruct (Z.ltb_spec i 0); [done|].
  by rewrite lookup_ge_None_2 by lia.
Qed.

Lemma blank_ok : inode_ok blank_inode.
Proof. by split. Qed.

Lemma blank_dblk k : dblk blank_inode k = 0.
Proof.
  unfold dblk, blank_inode, aget. cbn [i_blocks]. destruct (k <? 0); [done|].
  destruct (replicate 14 0 !! Z.to_nat k) as [x|] eqn:E; [|done].
  by apply lookup_replicate in E as [-> _].
Qed.

Lemma free_blk s i k : core_ok s -> i_type (ind s i) = PAFS_TYPE_FREE -> blk s i k = 0.
Proof. intros H Hf. unfold blk. rewrite (c_free _ H) by done. apply blank_dblk. Qed.

Lemma zero_blocks d : inode_ok d -> (forall k, 0 <= k < 14 -> dblk d k = 0) -> i_blocks d = replicate 14 0.
Proof.
  intros H Hz. apply list_eq_same_length with 14%nat; [done|apply H|].
  intros k x y Hk Hx Hy. apply lookup_replicate in Hy as [-> _].
  specialize (Hz (Z.of_nat k) ltac:(lia)). unfold dblk in Hz. by rewrite aget_nat, Hx in Hz.
Qed.

Lemma blk_range s i k : core_ok s -> blk s i k <> 0 -> ino_ok i /\ 0 <= k < 14.
Proof.
  intros H Hb. destruct (decide (ino_ok i)) as [Hi|Hi].
  2:{ unfold blk in Hb. by rewrite ind_out, blank_dblk in Hb by (done || apply H). }
  split; [done|]. destruct (decide (0 <= k < 14)) as [|Hk]; [done|].
  unfold blk in Hb. by rewrite (dblk_out _ k (ind_ok s i H Hi) Hk) in Hb.
Qed.

(** One inode of the table is updated. *)
Lemma upd_inode_ok s i g :
  table_ok (inodes s) -> ino_ok i -> inode_ok (g (ind s i)) ->
  exists l, upd_inode i g s = Some (with_inodes l s) /\ table_ok l /\
    forall i', ind (with_inodes l s) i' = if decide (i = i') then g (ind s i) else ind s i'.
Proof.
  intros [Hl Hf] Hi Hg. unfold upd_inode. rewrite (aget_ind s i) by done. cbn [mbind option_bind].
  destruct (aset (inodes s) i (g (ind s i))) as [l|] eqn:El.
  2:{ rewrite aset_eq in El; [done|]. unfold ino_ok, PAFS_MAX_INODES in Hi. lia. }
  exists l. split; [done|]. split.
  - split; [by rewrite (aset_length _ _ _ _ El)|]. by eapply aset_Forall.
  - intros i'. unfold ind at 1. cbn [inodes with_inodes]. rewrite (aget_aset _ _ i' _ _ El).
    by case_decide.
Qed.

(** One block slot is updated. *)
Lemma set_block_ok s i k b :
  table_ok (inodes s) -> ino_ok i -> 0 <= k < 14 ->
  exists l, set_block i k b s = Some (with_inodes l s) /\ table_ok l /\
    (forall i', i' <> i -> ind (with_inodes l s) i' = ind s i') /\
    i_type (ind (with_inodes l s) i) = i_type (ind s i) /\
    i_size (ind (with_inodes l s) i) = i_size (ind s i) /\
    forall i' k', blk (with_inodes l s) i' k' = if decide (i = i' /\ k = k') then b else blk s i' k'.
Proof.
  intros Ht Hi Hk. pose proof (table_ind_ok s i Ht Hi) as Hd.
  unfold set_block. rewrite (aget_ind s i) by (done || apply Ht). cbn [mbind option_bind].
  destruct (aset (i_blocks (ind s i)) k b) as [bl|] eqn:Ebl.
  2:{ rewrite aset_eq in Ebl; [done|]. rewrite (io_blocks _ Hd). lia. }
  cbn [mbind option_bind].
  destruct (upd_inode_ok s i (fun f => Inode (i_type f) (i_size f) bl)) as (l & -> & Hl & Hind); [done|done| |].
  { split; cbn; [apply Hd|apply Hd|]. by rewrite (aset_length _ _ _ _ Ebl), (io_blocks _ Hd). }
  exists l. split; [done|]. split; [done|]. split_and!.
  - intros i' Hi'. by rewrite Hind, decide_False.
  - by rewrite Hind, decide_True.
  - by rewrite Hind, decide_True.
  - intros i' k'. unfold blk. rewrite Hind. case_decide as Hc; [subst i'|by rewrite decide_False by tauto].
    unfold dblk at 1. cbn [i_blocks]. rewrite (aget_aset _ _ k' _ _ Ebl).
    case_decide; [by rewrite decide_True|]. by rewrite decide_False by tauto.
Qed.

(** ** The metadata sectors *)

Lemma encode_sb_sector x tail : length tail = 488%nat -> sector (encode_sb x tail).
Proof. intros H. unfold sector, encode_sb. rewrite !length_app, !le32_length, H. done. Qed.

Lemma concat_le32_length l : length (concat (le32 <$> l)) = (4 * length l)%nat.
Proof. induction l as [|w l IH]; [done|]. cbn [fmap list_fmap concat]. rewrite length_app, IH, le32_length. cbn [length]. lia. Qed.

Lemma encode_inode_length d : inode_ok d -> length (encode_inode d) = 64%nat.
Proof.
  intros H. unfold encode_inode. rewrite !length_app, !le32_length, concat_le32_length, (io_blocks _ H). done.
Qed.

Lemma concat_length_const {A} (ll : list (list A)) n :
  Forall (fun l => length l = n) ll -> length (concat ll) = (n * length ll)%nat.
Proof. induction 1 as [|l ll Hl _ IH]; cbn [concat length]; [lia|]. rewrite length_app, IH, Hl. lia. Qed.

Lemma encode_inodes_sector (k : nat) l :
  Forall inode_ok l -> length l = 128%nat -> (k < 16)%nat -> sector (encode_inodes k l).
Proof.
  intros Hl Hlen Hk. unfold sector, encode_inodes, SECTOR.
  rewrite (concat_length_const _ 64), length_fmap, length_take, length_drop; [lia|].
  apply Forall_fmap, Forall_take, Forall_drop. eapply Forall_impl; [exact Hl|].
  intros d Hd. by apply encode_inode_length.
Qed.

Lemma encode_inodes_ext (k : nat) l l' :
  length l = length l' -> (forall j, (8 * k <= j < 8 * k + 8)%nat -> l !! j = l' !! j) ->
  encode_inodes k l = encode_inodes k l'.
Proof.
  intros Hl H. unfold encode_inodes. do 2 f_equal. apply list_eq_lt.
  - rewrite !length_take, !length_drop. lia.
  - intros i Hi. rewrite length_take in Hi.
    rewrite !lookup_take_lt, !lookup_drop by lia. apply H. lia.
Qed.

(** ** Writing a sector *)

Lemma write_block_ok s lba (b : list Z) :
  store_ok (disk s) -> lba_ok lba -> sector b ->
  exists d, write_block lba b s = Some (with_disk d s) /\ store_ok d /\
    forall lba', lba_ok lba' -> sec d lba' = if decide (lba = lba') then b else sect s lba'.
Proof.
  intros Hs Hl Hb. destruct (disk_write_ok (disk s) lba b Hs Hl Hb) as (d & Hw & Hd & _ & _ & Hsec).
  exists d. unfold write_block. by rewrite Hw.
Qed.

Lemma read_block_ok s lba :
  store_ok (disk s) -> lba_ok lba -> pafs_disk_read lba (disk s) = Some (sect s lba) /\ sector (sect s lba).
Proof. apply disk_read_ok. Qed.

Lemma data_lba_ok b : data_lba b -> lba_ok b.
Proof. unfold data_lba, lba_ok, LBA_DATA_START. lia. Qed.

Lemma core_disk s d : core_ok s -> store_ok d -> core_ok (with_disk d s).
Proof. intros [] ?. by split. Qed.

Lemma meta_disk s d lba :
  (forall lba', 0 <= lba' < LBA_DATA_START -> sec d lba' = sect s lba') ->
  0 <= lba < LBA_DATA_START -> meta_at lba s -> meta_at lba (with_disk d s).
Proof.
  unfold meta_at. intros Hd Hl H. repeat case_match; unfold sect in *; cbn [disk with_disk] in *;
    rewrite Hd by (unfold LBA_BITMAP, LBA_DATA_START in *; lia); exact H.
Qed.

(** A data sector is written: the metadata still agrees. *)
Lemma write_data_ok s b data dirty :
  core_ok s -> data_lba b -> sector data -> synced dirty s ->
  exists d, write_block b data s = Some (with_disk d s) /\ core_ok (with_disk d s) /\
    synced dirty (with_disk d s) /\
    forall b', data_lba b' -> sec d b' = if decide (b = b') then data else sect s b'.
Proof.
  intros H Hb Hdata Hs. destruct (write_block_ok s b data) as (d & -> & Hd & Hsec);
    [apply H|by apply data_lba_ok|done|]. exists d. split; [done|].
  split; [by apply core_disk|]. split; [|intros b' Hb'; apply Hsec; by apply data_lba_ok].
  intros lba Hl Hdirty. apply meta_disk; [|done|by apply Hs].
  intros lba' Hl'. rewrite Hsec by (unfold lba_ok, LBA_DATA_START, PAFS_TOTAL_BLOCKS in *; lia).
  rewrite decide_False; [done|]. unfold data_lba in Hb. lia.
Qed.

(** A metadata sector is written back. *)
Lemma write_meta_ok s lba data dirty :
  core_ok s -> 0 <= lba < LBA_DATA_START -> sector data ->
  (forall d, sec d lba = data -> meta_at lba (with_disk d s)) ->
  synced (lba :: dirty) s ->
  exists d, write_block lba data s = Some (with_disk d s) /\ core_ok (with_disk d s) /\
    synced dirty (with_disk d s) /\ forall b', data_lba b' -> sec d b' = sect s b'.
Proof.
  intros H Hl Hdata Hmeta Hs.
  assert (Hlow : forall x, 0 <= x < LBA_DATA_START -> lba_ok x)
    by (unfold lba_ok, LBA_DATA_START, PAFS_TOTAL_BLOCKS; lia).
  destruct (write_block_ok s lba data) as (d & -> & Hd & Hsec); [apply H|by apply Hlow|done|].
  exists d. split; [done|]. split; [by apply core_disk|]. split.
  - intros lba' Hl' Hdirty. destruct (decide (lba = lba')) as [<-|Hne].
    + apply Hmeta. rewrite Hsec by by apply Hlow. by rewrite decide_True.
    + assert (Hm : meta_at lba' s) by (apply Hs; [done|]; rewrite elem_of_cons; intros [|]; congruence).
      unfold meta_at in *. repeat case_match; bool_hyps; subst; unfold sect in *; cbn [disk with_disk] in *;
        rewrite Hsec by (by apply Hlow); by rewrite decide_False by done.
  - intros b' Hb'. rewrite Hsec by by apply data_lba_ok. rewrite decide_False; [done|].
    unfold data_lba in Hb'. lia.
Qed.

Lemma save_inode_ok s i dirty :
  core_ok s -> ino_ok i -> synced (1 + i / 8 :: dirty) s ->
  exists d, pafs_save_inode i s = Some (with_disk d s) /\ core_ok (with_disk d s) /\
    synced dirty (with_disk d s) /\ forall b', data_lba b' -> sec d b' = sect s b'.
Proof.
  intros H Hi Hs. unfold pafs_save_inode, LBA_INODES_START.
  unfold ino_ok, PAFS_MAX_INODES in Hi. rewrite Z.quot_div_nonneg by lia.
  assert (Hk : 0 <= i / 8 < 16) by (split; [apply Z.div_pos; lia|apply Z.div_lt_upper_bound; lia]).
  apply write_meta_ok; [done|unfold LBA_DATA_START; lia| | |done].
  - apply encode_inodes_sector; [apply H|apply H|lia].
  - intros d Hd. unfold meta_at, LBA_SUPERBLOCK, LBA_BITMAP.
    rewrite (proj2 (Z.eqb_neq (1 + i / 8) 0)), (proj2 (Z.eqb_neq (1 + i / 8) 17)) by lia.
    unfold sect. cbn [disk with_disk inodes]. rewrite Hd. f_equal. lia.
Qed.

Lemma save_bitmap_ok s dirty :
  core_ok s -> synced (LBA_BITMAP :: dirty) s ->
  exists d, pafs_save_bitmap s = Some (with_disk d s) /\ core_ok (with_disk d s) /\
    synced dirty (with_disk d s) /\ forall b', data_lba b' -> sec d b' = sect s b'.
Proof.
  intros H Hs. apply write_meta_ok; [done|done|apply H| |done]. intros d Hd. exact Hd.
Qed.

Lemma set_free_same x : set_free_inodes (free_inodes x) x = x.
Proof. by destruct x. Qed.

Lemma save_superblock_ok s dirty :
  core_ok s -> synced (LBA_SUPERBLOCK :: dirty) s ->
  exists d, pafs_save_superblock s = Some (with_disk d s) /\ core_ok (with_disk d s) /\
    synced dirty (with_disk d s) /\ forall b', data_lba b' -> sec d b' = sect s b'.
Proof.
  intros H Hs. apply write_meta_ok; [done|done|apply encode_sb_sector, H| |done].
  intros d Hd. exists (free_inodes (sb s)). split; [apply (c_sb _ H)|]. change (sb (with_disk d s)) with (sb s).
  rewrite set_free_same. exact Hd.
Qed.

(** ** Allocating a block *)

Lemma pafs_test_ok s b :
  core_ok s -> lba_ok b ->
  exists t, pafs_bitmap_test b (block_bitmap s) = Some t /\ (t =? 0) = negb (bit s b).
Proof.
  unfold lba_ok, PAFS_TOTAL_BLOCKS. intros H Hb. unfold pafs_bitmap_test, bit, bm_bit.
  destruct (aget_is_Some (block_bitmap s) (b / 8)) as [x ->].
  { apply div8_range. rewrite (c_bm _ H). lia. }
  eexists; split; [done|]. apply land_shl1_eqb. apply Z.mod_pos_bound. lia.
Qed.

(** The state after [alloc_block] took [b]. *)
Definition alloc_state bm d s : pafs := with_disk d (add_free_blocks (-1) (with_bitmap bm s)).

(** The invariant with block [b] marked but not yet owned. *)
Record taken (b : Z) (bm : list Z) (s : pafs) : Prop := {
  t_free : bit s b = false;
  t_data : data_lba b;
  t_len : length bm = 512%nat;
  t_bytes : bytes_ok bm;
  t_bit : forall b', bm_bit bm b' = (b' =? b) || bit s b'
}.

Lemma free_pos s b : core_ok s -> data_lba b -> bit s b = false -> 0 < free_blocks (sb s) <= 4078.
Proof.
  intros H Hb Hbit. rewrite (c_count _ H). split.
  - rewrite (count_flip _ (fun b' => negb (bit s b') && negb (b' =? b)) _ _ b); [|done|by rewrite Hbit|..].
    + pose proof (count_bounds (fun b' => negb (bit s b') && negb (b' =? b)) LBA_DATA_START PAFS_TOTAL_BLOCKS). 
      unfold LBA_DATA_START, PAFS_TOTAL_BLOCKS in *. lia.
    + by rewrite Z.eqb_refl, andb_false_r.
    + intros i _ Hi. by rewrite (proj2 (Z.eqb_neq i b) Hi), andb_true_r.
  - pose proof (count_bounds (fun b => negb (bit s b)) LBA_DATA_START PAFS_TOTAL_BLOCKS).
    unfold LBA_DATA_START, PAFS_TOTAL_BLOCKS in *. lia.
Qed.

Lemma count_taken s b bm :
  core_ok s -> taken b bm s ->
  u32 (free_blocks (sb s) + -1) = count (fun b => negb (bm_bit bm b)) LBA_DATA_START PAFS_TOTAL_BLOCKS.
Proof.
  intros H T. pose proof (free_pos s b H (t_data _ _ _ T) (t_free _ _ _ T)).
  rewrite u32_small by lia. rewrite (c_count _ H).
  rewrite (count_flip _ (fun b' => negb (bm_bit bm b')) _ _ b); [lia|apply T|by rewrite (t_free _ _ _ T)|..].
  - by rewrite (t_bit _ _ _ T), Z.eqb_refl.
  - intros i _ Hi. by rewrite (t_bit _ _ _ T), (proj2 (Z.eqb_neq i b) Hi).
Qed.

Lemma alloc_block_ok s :
  core_ok s ->
  (alloc_block s = Some (-1, s) /\ forall b, data_lba b -> bit s b = true) \/
  exists b bm d, alloc_block s = Some (b, alloc_state bm d s) /\ taken b bm s /\
    (forall b', data_lba b' -> b' < b -> bit s b' = true) /\ store_ok d /\
    (forall b', data_lba b' -> sec d b' = sect s b') /\
    forall dirty, synced dirty s -> synced dirty (alloc_state bm d s).
Proof.
  intros H.
  pose (Q (r : Z * pafs) := exists b bm d, r = (b, alloc_state bm d s) /\ taken b bm s /\
    (forall b', data_lba b' -> b' < b -> bit s b' = true) /\ store_ok d /\
    (forall b', data_lba b' -> sec d b' = sect s b') /\
    forall dirty, synced dirty s -> synced dirty (alloc_state bm d s)).
  assert (L : match for_ret LBA_DATA_START PAFS_TOTAL_BLOCKS (fun i s =>
        t ← pafs_bitmap_test i (block_bitmap s);
        if t =? 0 then
          bm ← pafs_bitmap_set i (block_bitmap s);
          let s := add_free_blocks (-1) (with_bitmap bm s) in
          s ← pafs_save_bitmap s;
          s ← pafs_save_superblock s;
          Some (Ret (i, s))
        else Some (Next s)) s with
    | Some (Next s') => s' = s /\ forall b, LBA_DATA_START <= b < PAFS_TOTAL_BLOCKS -> bit s b = true
    | Some (Ret r) => Q r
    | None => False end).
  { apply (for_ret_rule (fun i s' => s' = s /\ forall b, LBA_DATA_START <= b < i -> bit s b = true)); [done|split; [done|lia]|].
    intros i s' Hi (-> & Hall).
    destruct (pafs_test_ok s i) as (t & -> & Ht); [done|unfold lba_ok, LBA_DATA_START in *; lia|].
    cbn [mbind option_bind]. rewrite Ht. destruct (bit s i) eqn:Eb; cbn [negb].
    - split; [done|]. intros b Hb. destruct (Z.eq_dec b i) as [->|]; [done|]. apply Hall. lia.
    - destruct (bm_set_spec (block_bitmap s) i (c_bytes _ H)) as (bm & Hset & Hby & Hlen & Hbit).
      { rewrite (c_bm _ H). unfold LBA_DATA_START, PAFS_TOTAL_BLOCKS in Hi. lia. }
      unfold pafs_bitmap_set. rewrite Hset. cbn [mbind option_bind].
      assert (T : taken i bm s) by (split; [done|done|by rewrite Hlen, (c_bm _ H)|done|done]).
      cbn zeta. set (s1 := add_free_blocks (-1) (with_bitmap bm s)).
      destruct (write_block_ok s1 LBA_BITMAP bm) as (d1 & Hw1 & Hd1 & Hsec1); [apply H|done|apply T|].
      unfold pafs_save_bitmap. change (block_bitmap s1) with bm. rewrite Hw1. cbn [mbind option_bind].
      destruct (write_block_ok (with_disk d1 s1) LBA_SUPERBLOCK (encode_sb (sb s1) (sb_tail s1)))
        as (d2 & Hw2 & Hd2 & Hsec2); [exact Hd1|done|apply encode_sb_sector, H|].
      unfold pafs_save_superblock. change (sb (with_disk d1 s1)) with (sb s1).
      change (sb_tail (with_disk d1 s1)) with (sb_tail s1). rewrite Hw2. cbn [mbind option_bind].
      assert (Hsec : forall b, lba_ok b -> sec d2 b =
        if decide (0 = b) then encode_sb (sb s1) (sb_tail s1) else if decide (17 = b) then bm else sect s b).
      { intros b Hb. rewrite (Hsec2 b Hb). unfold LBA_SUPERBLOCK. case_decide; [done|].
        unfold sect at 1. cbn [disk with_disk]. rewrite (Hsec1 b Hb). unfold LBA_BITMAP. done. }
      exists i, bm, d2. split; [done|]. split; [done|]. split; [intros; apply Hall; unfold data_lba in *; lia|].
      split; [done|]. split.
      + intros b Hb. rewrite Hsec by by apply data_lba_ok. unfold data_lba, LBA_DATA_START in Hb.
        by rewrite !decide_False by lia.
      + intros dirty Hs lba Hl Hdirty. specialize (Hs lba Hl Hdirty). unfold LBA_DATA_START in Hl.
        assert (Hl' : lba_ok lba) by (unfold lba_ok, PAFS_TOTAL_BLOCKS; lia).
        revert Hs. unfold meta_at, LBA_SUPERBLOCK, LBA_BITMAP. intros Hs.
        destruct (Z.eqb_spec lba 0) as [->|]; [|destruct (Z.eqb_spec lba 17) as [->|]].
        * exists (free_inodes (sb s1)). split; [apply (c_sb _ H)|]. unfold sect at 1. cbn [disk alloc_state with_disk].
          rewrite Hsec by done. rewrite decide_True by done. change (sb (alloc_state bm d2 s)) with (sb s1).
          by rewrite set_free_same.
        * unfold sect. cbn [disk alloc_state with_disk]. rewrite Hsec by done. rewrite decide_False, decide_True by done. done.
        * unfold sect at 1. cbn [disk alloc_state with_disk]. rewrite Hsec by done.
          rewrite !decide_False by congruence. exact Hs. }
  unfold alloc_block. revert L. case_match; [|done]. case_match; cbn [mbind option_bind].
  - intros [-> Hall]. left. split; [done|exact Hall].
  - intros (b & bm & d & -> & HQ). right. exists b, bm, d. split; [done|exact HQ].
Qed.

(** ** Frames *)

(** From [s] to [s'] only inode [i] and its blocks change. *)
Record touches (i : Z) (s s' : pafs) : Prop := {
  to_ind : forall i', i' <> i -> ind s' i' = ind s i';
  to_type : i_type (ind s' i) = i_type (ind s i);
  to_lock : pafs_lock s' = pafs_lock s /\ eflags s' = eflags s;
  to_free : free_inodes (sb s') = free_inodes (sb s);
  to_root : root_inode (sb s') = root_inode (sb s);
  to_sect : forall i' k, i' <> i -> blk s i' k <> 0 -> sect s' (blk s i' k) = sect s (blk s i' k)
}.

Lemma touches_refl i s : touches i s s.
Proof. by split. Qed.

Lemma touches_blk i s s' i' k : touches i s s' -> i' <> i -> blk s' i' k = blk s i' k.
Proof. intros H Hi. unfold blk. by rewrite (to_ind _ _ _ H). Qed.

Lemma touches_trans i s1 s2 s3 : touches i s1 s2 -> touches i s2 s3 -> touches i s1 s3.
Proof.
  intros H1 H2. split.
  - intros i' Hi. by rewrite (to_ind _ _ _ H2), (to_ind _ _ _ H1).
  - by rewrite (to_type _ _ _ H2), (to_type _ _ _ H1).
  - destruct (to_lock _ _ _ H1), (to_lock _ _ _ H2). split; congruence.
  - by rewrite (to_free _ _ _ H2), (to_free _ _ _ H1).
  - by rewrite (to_root _ _ _ H2), (to_root _ _ _ H1).
  - intros i' k Hi Hb. rewrite <- (touches_blk _ _ _ _ _ H1) in Hb by done.
    pose proof (to_sect _ _ _ H2 i' k Hi Hb) as E. rewrite (touches_blk _ _ _ _ _ H1) in E, Hb by done.
    rewrite E. by apply (to_sect _ _ _ H1).
Qed.

(** A write to a block of inode [i]. *)
Lemma touches_write i k s d data :
  core_ok s -> blk s i k <> 0 ->
  (forall b', data_lba b' -> sec d b' = if decide (blk s i k = b') then data else sect s b') ->
  touches i s (with_disk d s).
Proof.
  intros H Hb Hsec. split; try done. intros i' k' Hi Hb'. unfold sect at 1. cbn [disk with_disk].
  rewrite Hsec by by apply (c_own _ H). rewrite decide_False; [done|].
  intros E. apply (c_inj _ H) in E; [|done]. by destruct E.
Qed.

Lemma touches_disk i s d :
  core_ok s -> (forall b', data_lba b' -> sec d b' = sect s b') -> touches i s (with_disk d s).
Proof.
  intros H Hsec. split; try done. intros i' k' Hi Hb'. unfold sect at 1. cbn [disk with_disk].
  apply Hsec. by apply (c_own _ H).
Qed.

(** The inode table changes only at [i]: its sector becomes dirty. *)
Lemma sync_inodes s l i dirty :
  length (inodes s) = 128%nat -> length l = 128%nat ->
  (forall i', i' <> i -> ind (with_inodes l s) i' = ind s i') ->
  synced dirty s -> synced (1 + i / 8 :: dirty) (with_inodes l s).
Proof.
  intros Hl Hl' Hind Hs lba Hlba Hd. rewrite elem_of_cons in Hd.
  assert (Hm : meta_at lba s) by (apply Hs; tauto). unfold meta_at in *.
  destruct (Z.eqb_spec lba LBA_SUPERBLOCK); [done|]. destruct (Z.eqb_spec lba LBA_BITMAP); [done|].
  unfold sect in *. cbn [disk with_inodes inodes]. rewrite Hm. unfold LBA_SUPERBLOCK, LBA_BITMAP, LBA_DATA_START in *.
  apply encode_inodes_ext; [congruence|]. intros j Hj.
  assert (Hne : Z.of_nat j <> i).
  { intros <-. apply Hd. left. rewrite <- (Z.div_unique (Z.of_nat j) 8 (lba - 1) (Z.of_nat j - 8 * (lba - 1))); lia. }
  specialize (Hind (Z.of_nat j) Hne). unfold ind in Hind. cbn [inodes with_inodes] in Hind.
  rewrite !aget_nat in Hind. assert (Hj' : (j < 128)%nat) by lia.
  destruct (lookup_lt_is_Some_2 l j ltac:(lia)) as [x Hx].
  destruct (lookup_lt_is_Some_2 (inodes s) j ltac:(lia)) as [y Hy].
  rewrite Hx, Hy in *. by cbn in Hind; subst.
Qed.

Lemma synced_cons x dirty s : synced dirty s -> synced (x :: dirty) s.
Proof. intros H lba Hl Hd. apply H; [done|]. rewrite elem_of_cons in Hd. tauto. Qed.

Lemma synced_dup x dirty s : synced (x :: x :: dirty) s -> synced (x :: dirty) s.
Proof. intros H lba Hl Hd. apply H; [done|]. rewrite !elem_of_cons in *. tauto. Qed.

(** An update of an inode that keeps its blocks. *)
Lemma upd_keep_ok s i g dirty :
  core_ok s -> ino_ok i -> inode_ok (g (ind s i)) -> i_blocks (g (ind s i)) = i_blocks (ind s i) ->
  (i_type (g (ind s i)) = PAFS_TYPE_FREE -> g (ind s i) = blank_inode) ->
  (i = 0 -> i_type (g (ind s i)) = PAFS_TYPE_DIR) -> synced dirty s ->
  exists l, upd_inode i g s = Some (with_inodes l s) /\
    let s' := with_inodes l s in
    core_ok s' /\ synced (1 + i / 8 :: dirty) s' /\
    (forall i', ind s' i' = if decide (i = i') then g (ind s i) else ind s i') /\
    (forall i' k, blk s' i' k = blk s i' k).
Proof.
  intros H Hi Hg Hgb Hgf Hg0 Hs.
  destruct (upd_inode_ok s i g) as (l & -> & Hl & Hind); [by apply core_table|done|done|].
  exists l. split; [done|]. cbn zeta. set (s' := with_inodes l s) in *.
  assert (Hblk : forall i' k, blk s' i' k = blk s i' k).
  { intros i' k. unfold blk. rewrite Hind. case_decide; [subst; unfold dblk; by rewrite Hgb|done]. }
  split; [|split; [|done]].
  - destruct H as [? ? ? ? ? ? Hown Hinj Hused ? ? Hfree ? Hroot]. constructor; try done; try apply Hl.
    + intros i' k. rewrite Hblk. apply Hown.
    + intros i1 k1 i2 k2. rewrite !Hblk. apply Hinj.
    + intros b Hb Hbit. destruct (Hused b Hb Hbit) as (i' & k & E). exists i', k. by rewrite Hblk.
    + intros i'. rewrite Hind. case_decide; [subst i'; auto|apply Hfree].
    + rewrite Hind. case_decide; [auto|apply Hroot].
  - apply sync_inodes; [apply H|apply Hl| |done]. intros i' Hi'. by rewrite Hind, decide_False.
Qed.

(** ** Giving a block to an inode *)

Lemma attach_ok s i k b bm d :
  core_ok s -> taken b bm s -> store_ok d -> ino_ok i -> 0 <= k < 14 -> blk s i k = 0 ->
  i_type (ind s i) <> PAFS_TYPE_FREE -> (forall b', data_lba b' -> sec d b' = sect s b') ->
  exists l, set_block i k b (alloc_state bm d s) = Some (with_inodes l (alloc_state bm d s)) /\
    let s' := with_inodes l (alloc_state bm d s) in
    core_ok s' /\ touches i s s' /\ i_size (ind s' i) = i_size (ind s i) /\
    (forall i' k', blk s' i' k' = if decide (i = i' /\ k = k') then b else blk s i' k') /\
    (forall dirty, synced dirty (alloc_state bm d s) -> synced (1 + i / 8 :: dirty) s').
Proof.
  intros H T Hd Hi Hk Hbk Hty Hsec.
  destruct (set_block_ok (alloc_state bm d s) i k b) as (l & Hset & Hl & Hind & Ht & Hsz & Hblk);
    [exact (core_table s H)|done|done|].
  exists l. split; [done|]. cbn zeta. set (s' := with_inodes l (alloc_state bm d s)) in *.
  change (blk (alloc_state bm d s)) with (blk s) in Hblk.
  change (ind (alloc_state bm d s)) with (ind s) in *.
  pose proof (t_data _ _ _ T) as Hb. pose proof (t_free _ _ _ T) as Hfr.
  assert (Hnew : forall i' k', blk s i' k' <> b).
  { intros i' k' E. destruct (c_own _ H i' k') as [_ Hbit]; [|by rewrite E, Hfr in Hbit].
    rewrite E. unfold data_lba, LBA_DATA_START in Hb. lia. }
  assert (Hbit : forall x, bit s' x = (x =? b) || bit s x) by apply T.
  split; [|split; [|split; [done|split; [exact Hblk|]]]].
  - constructor; try by apply H. all: try by apply T. all: try by apply Hl. all: try done.
    + intros i' k'. rewrite Hblk, Hbit. case_decide; [intros _; by rewrite Z.eqb_refl|].
      intros Hne. destruct (c_own _ H _ _ Hne) as [? ->]. by rewrite orb_true_r.
    + intros i1 k1 i2 k2. rewrite !Hblk. intros Hne E. repeat case_decide.
      * destruct_and!. split; congruence.
      * by destruct (Hnew i2 k2).
      * by destruct (Hnew i1 k1).
      * by apply (c_inj _ H).
    + intros x Hx. rewrite Hbit. destruct (Z.eqb_spec x b) as [->|]; cbn [orb].
      * intros _. exists i, k. by rewrite Hblk, decide_True.
      * intros Hbx. destruct (c_used _ H x Hx Hbx) as (i' & k' & E). exists i', k'.
        rewrite Hblk, decide_False; [done|]. intros [-> ->].
        rewrite Hbk in E. unfold data_lba, LBA_DATA_START in Hx. lia.
    + intros x Hx. rewrite Hbit, (c_low _ H) by done. apply orb_true_r.
    + apply (count_taken s b bm H T).
    + intros i' Hf. destruct (decide (i' = i)) as [->|Hne]; [congruence|].
      rewrite Hind in Hf |- * by done. by apply (c_free _ H).
    + pose proof (c_root _ H). destruct (decide (0 = i)) as [<-|]; [congruence|]. by rewrite Hind.
  - split; try done. intros i' k' _ Hne. unfold sect at 1. cbn [disk with_inodes alloc_state with_disk].
    apply Hsec. by apply (c_own _ H).
  - intros dirty Hs. apply sync_inodes; [apply H|apply Hl|done|done].
Qed.

(** A free slot of inode [i] gets a new block. *)
Record grown (i k : Z) (s s' : pafs) : Prop := {
  g_core : core_ok s';
  g_touches : touches i s s';
  g_size : i_size (ind s' i) = i_size (ind s i);
  g_blk : blk s' i k <> 0;
  g_others : forall k', k' <> k -> blk s' i k' = blk s i k';
  g_sect : forall k', k' <> k -> blk s i k' <> 0 -> sect s' (blk s i k') = sect s (blk s i k');
  g_free : free_blocks (sb s) - 1 <= free_blocks (sb s')
}.

Lemma grown_refl i k s : core_ok s -> blk s i k <> 0 -> grown i k s s.
Proof. intros. split; auto using touches_refl. lia. Qed.

Lemma alloc_attach_ok s i k dirty :
  core_ok s -> ino_ok i -> 0 <= k < 14 -> i_type (ind s i) <> PAFS_TYPE_FREE -> blk s i k = 0 ->
  synced (1 + i / 8 :: dirty) s ->
  (alloc_block s = Some (-1, s) /\ free_blocks (sb s) = 0) \/
  exists b sa s', alloc_block s = Some (b, sa) /\ b <> -1 /\ set_block i k b sa = Some s' /\
    blk s' i k = b /\ grown i k s s' /\ synced (1 + i / 8 :: dirty) s'.
Proof.
  intros H Hi Hk Hty E Hs.
  destruct (alloc_block_ok s H) as [[-> Hfull]|(b & bm & d & -> & T & _ & Hd & Hsec & Hsync)].
  - left. split; [done|]. rewrite (c_count _ H).
    rewrite (count_ext _ (fun _ => false)) by (intros b Hb; by rewrite Hfull). vm_compute. done.
  - right. pose proof (t_data _ _ _ T) as Hb.
    assert (Hb0 : 0 < b) by (unfold data_lba, LBA_DATA_START in Hb; lia).
    destruct (attach_ok s i k b bm d H T Hd Hi Hk E Hty Hsec) as (l & Hset & Hc & Hto & Hsz & Hblk & Hsy).
    assert (Hnew : blk (with_inodes l (alloc_state bm d s)) i k = b) by by rewrite Hblk, decide_True.
    eexists b, _, _. split; [done|]. split; [lia|]. split; [exact Hset|]. split; [done|]. split.
    + split; auto.
      * rewrite Hnew. lia.
      * intros k' Hk'. rewrite Hblk, decide_False; [done|]. intros [_ ?]. congruence.
      * intros k' _ Hne. unfold sect at 1. cbn [disk with_inodes alloc_state with_disk].
        apply Hsec. by apply (c_own _ H).
      * cbn [sb with_inodes alloc_state with_disk add_free_blocks with_sb with_bitmap free_blocks].
        pose proof (free_pos s b H Hb (t_free _ _ _ T)). rewrite u32_small by lia. lia.
    + apply synced_dup. by apply Hsy, Hsync.
Qed.

(** [if (file->blocks[k] == 0) { b = alloc_block(); ... file->blocks[k] = b; }]. *)
Lemma grow_file_ok s i k dirty :
  core_ok s -> ino_ok i -> 0 <= k < 14 -> i_type (ind s i) <> PAFS_TYPE_FREE ->
  synced (1 + i / 8 :: dirty) s ->
  (grow_file i k s = Some (Ret s) /\ free_blocks (sb s) = 0) \/
  exists s', grow_file i k s = Some (Next s') /\ grown i k s s' /\ synced (1 + i / 8 :: dirty) s'.
Proof.
  intros H Hi Hk Hty Hs. unfold grow_file. rewrite (aget_ind s i) by (done || apply H).
  cbn [mbind option_bind]. rewrite aget_dblk by (done || by apply ind_ok). cbn [mbind option_bind].
  fold (blk s i k). destruct (Z.eqb_spec (blk s i k) 0) as [E|E].
  - destruct (alloc_attach_ok s i k dirty) as [[-> ?]|(b & sa & s' & -> & Hb & Hset & _ & Hg & Hs')];
      [done..|by left|right]. cbn [mbind option_bind]. rewrite (proj2 (Z.eqb_neq b (-1)) Hb), Hset.
    exists s'. by cbn.
  - right. eexists; split; [done|]. split; [by apply grown_refl|done].
Qed.

(** ** The bytes of a file *)

(** The number of the first [n] bytes that block [j] holds. *)
Definition chunk (n j : Z) : nat := Z.to_nat (Z.min 512 (n - 512 * j)).

(** The first [n] bytes of [data] are in the blocks of inode [i]. *)
Definition stored s i (data : list Z) (n : Z) : Prop :=
  forall j, 0 <= j -> 512 * j < n ->
    blk s i j <> 0 /\ take (chunk n j) (sect s (blk s i j)) = take (chunk n j) (drop (Z.to_nat (512 * j)) data).

Lemma stored_le s i data n m : stored s i data n -> m <= n -> stored s i data m.
Proof.
  intros H Hm j Hj Hjm. destruct (H j Hj) as [Hb E]; [lia|]. split; [done|].
  apply (f_equal (take (chunk m j))) in E. rewrite !take_take in E.
  rewrite Nat.min_l in E by (unfold chunk; lia). done.
Qed.

Lemma stored_frame s s' i data n :
  stored s i data n -> (forall j, blk s i j <> 0 -> blk s' i j = blk s i j /\ sect s' (blk s i j) = sect s (blk s i j)) ->
  stored s' i data n.
Proof. intros H Hf j Hj Hn. destruct (H j Hj Hn) as [Hb E]. destruct (Hf j Hb) as [-> ->]. done. Qed.

Lemma write_temp data len w :
  0 <= w < len -> len <= Z.of_nat (length data) ->
  let t := if PAFS_BLOCK_SIZE <? len - w then PAFS_BLOCK_SIZE else len - w in
  t = Z.min 512 (len - w) /\
  exists temp, memcpy (replicate 512 0) (drop (Z.to_nat w) data) t = Some temp /\ sector temp /\
    take (Z.to_nat t) temp = take (Z.to_nat t) (drop (Z.to_nat w) data).
Proof.
  intros Hw Hl t. assert (Ht : t = Z.min 512 (len - w)).
  { unfold t, PAFS_BLOCK_SIZE. destruct (Z.ltb_spec 512 (len - w)); lia. }
  split; [done|]. rewrite memcpy_eq by (rewrite ?length_replicate, ?length_drop; lia).
  eexists; split; [done|].
  assert (Hn : length (take (Z.to_nat t) (drop (Z.to_nat w) data)) = Z.to_nat t)
    by (rewrite length_take, length_drop; lia).
  split; [unfold sector; rewrite length_app, Hn, length_drop, length_replicate; unfold SECTOR; lia|].
  by rewrite take_app_length' by done.
Qed.

Lemma write_round_ok s0 i data len dirty k w s :
  let L := Z.max 0 len in
  len <= Z.of_nat (length data) -> 0 <= k < 14 -> ino_ok i -> i_type (ind s0 i) = PAFS_TYPE_FILE ->
  core_ok s -> touches i s0 s -> synced (1 + i / 8 :: dirty) s ->
  w = Z.min (512 * k) L -> stored s i data w -> free_blocks (sb s0) - k <= free_blocks (sb s) ->
  match write_round i data len k (w, s) with
  | Some (Next (w', s')) => core_ok s' /\ touches i s0 s' /\ synced (1 + i / 8 :: dirty) s' /\
      w' = Z.min (512 * (k + 1)) L /\ stored s' i data w' /\ free_blocks (sb s0) - (k + 1) <= free_blocks (sb s')
  | Some (Ret (w', s')) => s' = s /\ w' = w /\ (w' = L \/ free_blocks (sb s0) <= k)
  | None => False
  end.
Proof.
  intros L Hdata Hk Hi Hty H Hto Hs Hw Hst Hfree. unfold write_round.
  destruct (Z.ltb_spec w len) as [Hlt|Hge]; cbn [negb]; [|split_and!; [done|done|left; lia]].
  assert (HL : L = len) by lia. assert (Hwk : w = 512 * k) by lia.
  destruct (grow_file_ok s i k dirty H Hi Hk) as [(-> & Hf)|(s1 & -> & Hg & Hs1)];
    [rewrite (to_type _ _ _ Hto), Hty; done|done| |].
  - cbn [mbind option_bind]. split_and!; [done|done|right; lia].
  - destruct Hg as [H1 Hto1 _ Hb Hbk Hse Hfr]. cbn [mbind option_bind].
    destruct (write_temp data len w ltac:(lia) Hdata) as (Ht & temp & -> & Hsecr & Htake).
    cbn [mbind option_bind]. unfold block_of. rewrite (aget_ind s1 i) by (done || apply H1).
    cbn [mbind option_bind]. rewrite aget_dblk by (done || by apply ind_ok). cbn [mbind option_bind].
    fold (blk s1 i k).
    destruct (write_data_ok s1 (blk s1 i k) temp _ H1 (proj1 (c_own _ H1 i k Hb)) Hsecr Hs1)
      as (d & -> & H2 & Hs2 & Hsec2).
    cbn [mbind option_bind]. rewrite Ht. split_and!; auto.
    + eapply touches_trans; [exact Hto|]. eapply touches_trans; [exact Hto1|].
      eapply (touches_write i k); eauto.
    + lia.
    + intros j Hj Hjw. change (blk (with_disk d s1) i j) with (blk s1 i j). unfold sect. cbn [disk with_disk].
      destruct (Z.eq_dec j k) as [->|Hne].
      * split; [done|]. rewrite Hsec2 by by apply (c_own _ H1). rewrite decide_True by done.
        replace (chunk (w + Z.min 512 (len - w)) k) with (Z.to_nat (Z.min 512 (len - w)))
          by (unfold chunk; lia). rewrite Ht in Htake. by rewrite Htake, Hwk.
      * assert (Hjw' : 512 * j < w) by lia. destruct (Hst j Hj Hjw') as [Hbj E].
        rewrite Hbk by done. split; [done|].
        assert (Hbj1 : blk s1 i j <> 0) by by rewrite Hbk.
        rewrite Hsec2 by (rewrite <- Hbk by done; by apply (c_own _ H1)).
        rewrite decide_False.
        2:{ rewrite <- Hbk by done. intros E'. apply (c_inj _ H1) in E'; [|done]. destruct E' as [_ ?]. congruence. }
        rewrite Hse by done. replace (chunk (w + Z.min 512 (len - w)) j) with (chunk w j) by (unfold chunk; lia).
        exact E.
    + cbn [sb with_disk]. lia.
Qed.

Lemma write_loop_ok s i data len dirty :
  let L := Z.max 0 len in
  len <= Z.of_nat (length data) -> ino_ok i -> i_type (ind s i) = PAFS_TYPE_FILE ->
  core_ok s -> synced (1 + i / 8 :: dirty) s ->
  exists w s', write_loop i data len s = Some (w, s') /\ core_ok s' /\ touches i s s' /\
    synced (1 + i / 8 :: dirty) s' /\ stored s' i data w /\ 0 <= w <= Z.min L 7168 /\
    (14 <= free_blocks (sb s) -> w = Z.min L 7168).
Proof.
  intros L Hdata Hi Hty H Hs.
  set (P := fun (k : Z) (st : Z * pafs) => let '(w, s') := st in
    core_ok s' /\ touches i s s' /\ synced (1 + i / 8 :: dirty) s' /\ w = Z.min (512 * k) L /\
    stored s' i data w /\ free_blocks (sb s) - k <= free_blocks (sb s')).
  set (Q := fun (st : Z * pafs) => let '(w, s') := st in
    core_ok s' /\ touches i s s' /\ synced (1 + i / 8 :: dirty) s' /\ stored s' i data w /\
    0 <= w <= Z.min L 7168 /\ (14 <= free_blocks (sb s) -> w = Z.min L 7168)).
  assert (HL : match for_ret 0 14 (write_round i data len) (0, s) with
    | Some (Next st) => P 14 st | Some (Ret st) => Q st | None => False end).
  { apply (for_ret_rule P Q); [done| |].
    - cbn. split_and!; auto using touches_refl; [lia|intros j Hj; lia|lia].
    - intros k [w s1] Hk (H1 & Hto1 & Hs1 & Hw & Hst & Hf).
      pose proof (write_round_ok s i data len dirty k w s1 Hdata Hk Hi Hty H1 Hto1 Hs1 Hw Hst Hf) as Hr.
      destruct (write_round i data len k (w, s1)) as [[[w' s2]|[w' s2]]|]; [exact Hr| |done].
      destruct Hr as (-> & -> & Hend). cbn. split_and!; auto; try lia. }
  unfold write_loop. revert HL. destruct (for_ret 0 14 _ _) as [[[w s']|[w s']]|]; [| |done]; cbn [mbind option_bind].
  - intros (? & ? & ? & Hw & ? & ?). exists w, s'. split_and!; auto; lia.
  - intros (? & ? & ? & ? & ? & ?). exists w, s'. split_and!; auto; lia.
Qed.

Lemma read_loop_ok s i data n total buffer :
  core_ok s -> ino_ok i -> stored s i data n -> n <= 7168 -> n <= Z.of_nat (length data) ->
  0 <= total <= n -> total <= Z.of_nat (length buffer) ->
  read_loop (ind s i) total buffer s =
    Some (total, take (Z.to_nat total) data ++ drop (Z.to_nat total) buffer).
Proof.
  intros H Hi Hst Hn Hd Ht Hbuf.
  set (out := fun m : Z => (m, take (Z.to_nat m) data ++ drop (Z.to_nat m) buffer)).
  assert (HL : match for_ret 0 14 (fun k '(bytes_read, buffer) =>
        if negb (bytes_read <? total) then Some (Ret (bytes_read, buffer)) else
        b ← aget (i_blocks (ind s i)) k;
        if b =? 0 then Some (Ret (bytes_read, buffer)) else
        temp ← pafs_disk_read b (disk s);
        let to_copy := if PAFS_BLOCK_SIZE <? total - bytes_read then PAFS_BLOCK_SIZE else total - bytes_read in
        buffer ← copy_to buffer bytes_read temp to_copy;
        Some (Next (bytes_read + to_copy, buffer))) (0, buffer) with
    | Some (Next st) => st = out (Z.min (512 * 14) total) | Some (Ret st) => st = out total | None => False end).
  { apply (for_ret_rule (fun k st => st = out (Z.min (512 * k) total)) (fun st => st = out total)); [done| |].
    { unfold out. rewrite Z.min_l by lia. done. }
    intros k st Hk ->. unfold out at 1. set (m := Z.min (512 * k) total).
    destruct (Z.ltb_spec m total) as [Hm|Hm]; cbn [negb]; [|unfold out; replace m with total by lia; done].
    assert (Hmk : m = 512 * k) by lia.
    rewrite aget_dblk by (done || by apply ind_ok). cbn [mbind option_bind]. fold (blk s i k).
    destruct (Hst k ltac:(lia) ltac:(lia)) as [Hb E]. rewrite (proj2 (Z.eqb_neq (blk s i k) 0) Hb).
    destruct (read_block_ok s (blk s i k)) as [-> Hsecr]; [apply H|apply data_lba_ok; by apply (c_own _ H)|].
    cbn [mbind option_bind]. set (t := if _ <? _ then _ else _).
    assert (Htt : t = Z.min 512 (total - m)).
    { unfold t, PAFS_BLOCK_SIZE. destruct (Z.ltb_spec 512 (total - m)); lia. }
    assert (Hl1 : length (take (Z.to_nat m) data) = Z.to_nat m) by (rewrite length_take; lia).
    unfold copy_to. rewrite (proj2 (Z.leb_le 0 m)), (proj2 (Z.leb_le m _)) by
      (rewrite ?length_app, ?Hl1, ?length_drop; lia). cbn [andb].
    rewrite drop_app_length', take_app_length' by done.
    rewrite memcpy_eq by (rewrite ?length_drop, ?Hsecr; unfold SECTOR; lia). cbn [mbind option_bind].
    unfold out. replace (Z.min (512 * (k + 1)) total) with (m + t) by lia. f_equal. rewrite drop_drop.
    assert (Et : take (Z.to_nat t) (sect s (blk s i k)) = take (Z.to_nat t) (drop (Z.to_nat m) data)).
    { apply (f_equal (take (Z.to_nat t))) in E. rewrite !take_take in E.
      rewrite Nat.min_l in E by (unfold chunk; lia). by rewrite Hmk. }
    rewrite Et, app_assoc, take_take_drop. f_equal; f_equal; lia. }
  unfold read_loop. revert HL. destruct (for_ret 0 14 _ _) as [[st|st]|]; [| |done]; cbn [mbind option_bind]; intros ->.
  - rewrite Z.min_r by lia. done.
  - done.
Qed.

(** ** Directory blocks *)

(** A directory as a list of inode numbers and names. *)
Definition dirent : Type := Z * list Z.

Definition slot_ok (sl : list Z) (e : option dirent) : Prop :=
  match e with
  | Some (ino, nm) => word_at 0 sl = ino /\ content (drop 4 sl) = Some nm /\ 0 < ino < PAFS_MAX_INODES
  | None => word_at 0 sl = 0
  end.

Definition slot (data : list Z) (j : nat) : list Z := slice (32 * j) 32 data.

Record data_rep (data : list Z) (es : list dirent) : Prop := {
  dr_sector : sector data;
  dr_length : (length es <= 16)%nat;
  dr_slot : forall j, (j < 16)%nat -> slot_ok (slot data j) (es !! j)
}.

Lemma slot_length data j : sector data -> (j < 16)%nat -> length (slot data j) = 32%nat.
Proof. intros H Hj. apply slice_length. rewrite H. unfold SECTOR. lia. Qed.

Lemma slot_split data j :
  sector data -> (j < 16)%nat -> drop (32 * j) data = slot data j ++ drop (32 * j + 32) data.
Proof. intros H Hj. unfold slot, slice. rewrite <- drop_drop. by rewrite take_drop. Qed.

Lemma word_at_slot data j : sector data -> (j < 16)%nat -> word_at (32 * j) data = word_at 0 (slot data j).
Proof.
  intros H Hj. unfold word_at. rewrite (slot_split data j H Hj), drop_0.
  apply de32_take. rewrite slot_length by done. lia.
Qed.

Lemma entry_name_slot data j :
  sector data -> (j < 16)%nat ->
  entry_name data (Z.of_nat j) = drop 4 (slot data j) ++ drop (32 * j + 32) data.
Proof.
  intros H Hj. unfold entry_name. replace (Z.to_nat (32 * Z.of_nat j + 4)) with (32 * j + 4)%nat by lia.
  rewrite <- drop_drop, (slot_split data j H Hj). apply drop_app_le. rewrite slot_length by done. lia.
Qed.

Lemma entry_inode_slot data j :
  sector data -> (j < 16)%nat -> entry_inode data (Z.of_nat j) = Some (word_at 0 (slot data j)).
Proof.
  intros H Hj. unfold entry_inode, MAX_ENTRIES.
  rewrite (proj2 (Z.leb_le 0 _)), (proj2 (Z.ltb_lt _ 16)) by lia. cbn [andb].
  replace (Z.to_nat (32 * Z.of_nat j)) with (32 * j)%nat by lia. by rewrite word_at_slot.
Qed.

(** *** Reading *)

Definition named (nm : list Z) (e : dirent) : Prop := e.2 = nm.

#[export] Instance named_dec nm e : Decision (named nm e).
Proof. unfold named. apply _. Defined.

Lemma scan_block_ok data es name nm :
  data_rep data es -> content name = Some nm ->
  scan_block name data =
    Some (match list_find (named nm) es with Some (j, _) => Ret (Z.of_nat j) | None => Next tt end).
Proof.
  intros H Hn.
  set (Q := fun j : Z => exists p e, list_find (named nm) es = Some (p, e) /\ j = Z.of_nat p).
  assert (L : match scan_block name data with
    | Some (Next _) => forall p e, es !! p = Some e -> Z.of_nat p < 16 -> ~ named nm e
    | Some (Ret j) => Q j | None => False end).
  { apply (for_ret_rule (fun j _ => forall p e, es !! p = Some e -> Z.of_nat p < j -> ~ named nm e));
      [done|intros; lia|]. intros j [] Hj Hprev. unfold MAX_ENTRIES in Hj.
    rewrite <- (Z2Nat.id j) by lia. set (jn := Z.to_nat j) in *. assert (Hjn : (jn < 16)%nat) by lia.
    rewrite entry_inode_slot by (done || apply H). cbn [mbind option_bind].
    pose proof (dr_slot _ _ H jn Hjn) as Hs. destruct (es !! jn) as [[ino nm']|] eqn:Ej.
    - destruct Hs as (-> & Hc & Hi). rewrite (proj2 (Z.eqb_neq ino 0)) by lia.
      rewrite entry_name_slot by (done || apply H).
      destruct (strcmp_eq0 (drop 4 (slot data jn) ++ drop (32 * jn + 32) data) name nm' nm (content_app_l _ _ _ Hc) Hn) as (c & -> & Hc0). cbn [mbind option_bind].
      destruct (Z.eqb_spec c 0) as [E|E].
      + exists jn, (ino, nm'). split; [|done]. apply list_find_Some. split; [done|]. split; [by apply Hc0|].
        intros p e Hp Hlt. apply (Hprev p e Hp). lia.
      + intros p e Hp Hlt. destruct (decide (p = jn)) as [->|]; [|apply (Hprev p e Hp); lia].
        rewrite Ej in Hp. injection Hp as <-. unfold named. cbn. tauto.
    - rewrite Hs. cbn [Z.eqb]. intros p e Hp Hlt. destruct (decide (p = jn)) as [->|]; [congruence|].
      apply (Hprev p e Hp). lia. }
  revert L. unfold scan_block. destruct (for_ret 0 MAX_ENTRIES _ tt) as [[[]|j]|]; [| |done].
  - intros L. rewrite (proj2 (list_find_None (named nm) es)); [done|]. apply Forall_lookup. intros p e Hp.
    apply (L p e Hp). apply lookup_lt_Some in Hp. pose proof (dr_length _ _ H). lia.
  - intros (p & e & -> & ->). done.
Qed.

Lemma free_slot_ok data es :
  data_rep data es ->
  free_slot data = Some (if decide (length es < 16)%nat then Ret (Z.of_nat (length es)) else Next tt).
Proof.
  intros H.
  assert (L : match free_slot data with
    | Some (Next _) => 16 <= Z.of_nat (length es)
    | Some (Ret j) => j = Z.of_nat (length es) /\ j < 16 | None => False end).
  { apply (for_ret_rule (fun j _ => j <= Z.of_nat (length es))); [done|lia|].
    intros j [] Hj Hprev. unfold MAX_ENTRIES in Hj.
    rewrite <- (Z2Nat.id j) by lia. set (jn := Z.to_nat j) in *. assert (Hjn : (jn < 16)%nat) by lia.
    rewrite entry_inode_slot by (done || apply H). cbn [mbind option_bind].
    pose proof (dr_slot _ _ H jn Hjn) as Hs. destruct (es !! jn) as [[ino nm']|] eqn:Ej.
    - destruct Hs as (-> & _ & Hi). rewrite (proj2 (Z.eqb_neq ino 0)) by lia. apply lookup_lt_Some in Ej. lia.
    - rewrite Hs. cbn [Z.eqb]. apply lookup_ge_None in Ej. lia. }
  revert L. unfold free_slot. destruct (for_ret 0 MAX_ENTRIES _ tt) as [[[]|j]|]; [| |done].
  - intros. by rewrite decide_False by lia.
  - intros [-> ?]. by rewrite decide_True by lia.
Qed.

(** *** Writing *)

Lemma slot_splice data p sl j :
  sector data -> (p < 16)%nat -> (j < 16)%nat -> length sl = 32%nat ->
  slot (splice (32 * p) sl data) j = if decide (j = p) then sl else slot data j.
Proof.
  intros H Hp Hj Hl. unfold sector, SECTOR in H. case_decide as Hd.
  - subst j. pose proof (slice_splice_eq (32 * p) sl data ltac:(lia)) as E. by rewrite Hl in E.
  - apply slice_splice_ne; lia.
Qed.

Lemma data_rep_splice data es es' p sl :
  data_rep data es -> (p < 16)%nat -> length sl = 32%nat -> (length es' <= 16)%nat ->
  slot_ok sl (es' !! p) -> (forall j, j <> p -> es' !! j = es !! j) ->
  data_rep (splice (32 * p) sl data) es'.
Proof.
  intros H Hp Hl Hlen Hsl Hother. pose proof (dr_sector _ _ H) as Hs. split; [|done|].
  - unfold sector. rewrite splice_length; [exact Hs|]. unfold sector, SECTOR in Hs. lia.
  - intros j Hj. rewrite slot_splice by done. case_decide as Hd; [by subst|].
    rewrite Hother by done. by apply (dr_slot _ _ H).
Qed.

Lemma set_entry_eq p (b data : list Z) :
  (p < 16)%nat -> set_entry (Z.of_nat p) b data = Some (splice (32 * p) b data).
Proof.
  intros Hp. unfold set_entry, MAX_ENTRIES. rewrite (proj2 (Z.leb_le 0 _)), (proj2 (Z.ltb_lt _ 16)) by lia.
  cbn [andb]. by replace (Z.to_nat (32 * Z.of_nat p)) with (32 * p)%nat by lia.
Qed.

Lemma get_entry_eq p data : (p < 16)%nat -> get_entry (Z.of_nat p) data = Some (slot data p).
Proof.
  intros Hp. unfold get_entry, MAX_ENTRIES. rewrite (proj2 (Z.leb_le 0 _)), (proj2 (Z.ltb_lt _ 16)) by lia.
  cbn [andb]. by replace (Z.to_nat (32 * Z.of_nat p)) with (32 * p)%nat by lia.
Qed.

(** The bytes an entry gets. *)
Lemma write_entry_eq p ino name nm data :
  sector data -> (p < 16)%nat -> content name = Some nm ->
  exists nf, write_entry (Z.of_nat p) ino name data = Some (splice (32 * p) (le32 ino ++ nf) data) /\
    length nf = 28%nat /\ content nf = Some (take 27 nm).
Proof.
  intros H Hp Hn. unfold sector, SECTOR in H. unfold write_entry. rewrite set_entry_eq by done.
  cbn [mbind option_bind].
  assert (Etake : take (32 * p + 4) (splice (32 * p) (le32 ino) data) = take (32 * p) data ++ le32 ino).
  { unfold splice. rewrite app_assoc. apply take_app_length'. rewrite length_app, length_take, le32_length. lia. }
  assert (Edrop : drop (32 * p + 4) (splice (32 * p) (le32 ino) data) = drop (32 * p + 4) data).
  { unfold splice. rewrite app_assoc. rewrite drop_app_length'; [by rewrite le32_length|].
    rewrite length_app, length_take, le32_length. lia. }
  unfold entry_name. replace (Z.to_nat (32 * Z.of_nat p + 4)) with (32 * p + 4)%nat by lia.
  rewrite Edrop, Etake. set (old := drop (32 * p + 4) data).
  assert (Hold : length old = (508 - 32 * p)%nat) by (unfold old; rewrite length_drop; lia).
  destruct (content_cstring name nm Hn) as [Hc Hj].
  set (m := Z.min (Z.of_nat (length nm)) 27).
  destruct (copy_name_ok 28 0 27 name (Z.of_nat (length nm)) old Hc) as (new & Hcopy & Hlen & H0 & Hnew & _);
    [lia|lia|lia|lia|].
  rewrite Hcopy. cbn [mbind option_bind]. exists (take 28 new). fold m in H0, Hnew.
  assert (Hlm : Z.of_nat (length (take 27 nm)) = m) by (rewrite length_take; unfold m; lia).
  split; [|split].
  - f_equal. unfold splice. rewrite <- !app_assoc. do 2 f_equal.
    rewrite length_app, length_take, le32_length, Hlen, Nat.min_l by lia.
    rewrite <- (take_drop 28 new) at 1. f_equal. apply list_eq_lt.
    + rewrite !length_drop, Hlen, Hold. lia.
    + intros k Hk. rewrite !lookup_drop.
      pose proof (copy_name_frame _ _ _ _ _ _ Hcopy ltac:(lia) (Z.of_nat (28 + k)) ltac:(lia)) as E.
      rewrite !aget_nat in E. rewrite E. unfold old. rewrite lookup_drop. f_equal. lia.
  - rewrite length_take, Hlen. lia.
  - apply content_intro.
    + apply Forall_take. by eapply content_nz.
    + rewrite Hlm, aget_pos, lookup_take_lt by (unfold m; lia). by rewrite <- aget_pos by (unfold m; lia).
    + intros j Hjm. rewrite Hlm in Hjm. rewrite !aget_pos, !lookup_take_lt by (unfold m in Hjm; lia).
      rewrite <- !aget_pos by lia. rewrite Hnew by lia. apply Hj. unfold m in Hjm. lia.
Qed.

Lemma write_entry_ok data es ino name nm :
  data_rep data es -> (length es < 16)%nat -> content name = Some nm -> 0 < ino < PAFS_MAX_INODES ->
  exists data', write_entry (Z.of_nat (length es)) ino name data = Some data' /\
    data_rep data' (es ++ [(ino, take 27 nm)]).
Proof.
  intros H Hl Hn Hi. destruct (write_entry_eq (length es) ino name nm data (dr_sector _ _ H) Hl Hn)
    as (nf & -> & Hnf & Hc). eexists; split; [done|].
  apply (data_rep_splice _ es); [done|done|rewrite length_app, le32_length; lia|rewrite length_app; cbn; lia| |].
  - rewrite lookup_app_r, Nat.sub_diag by lia. split; [|split; [exact Hc|exact Hi]].
    apply de32_le32. unfold PAFS_MAX_INODES in Hi. lia.
  - intros j Hj. destruct (decide (j < length es)%nat); [by apply lookup_app_l|].
    rewrite !lookup_ge_None_2; [done|lia|rewrite length_app; cbn; lia].
Qed.

(** Clearing the last entry. *)
Lemma clear_entry_ok data es e :
  data_rep data (es ++ [e]) ->
  exists data', set_entry (Z.of_nat (length es)) (replicate 32 0) data = Some data' /\ data_rep data' es.
Proof.
  intros H. pose proof (dr_length _ _ H) as Hl. rewrite length_app in Hl. cbn in Hl.
  rewrite set_entry_eq by lia. eexists; split; [done|].
  apply (data_rep_splice _ (es ++ [e])); [done|lia|done|lia| |].
  - by rewrite lookup_ge_None_2 by lia.
  - intros j Hj. destruct (decide (j < length es)%nat); [by rewrite lookup_app_l by lia|].
    rewrite !lookup_ge_None_2; [done|rewrite length_app; cbn; lia|lia].
Qed.

(** Overwriting an entry with one of another block. *)
Lemma copy_entry_ok data es data2 es2 p q e :
  data_rep data es -> data_rep data2 es2 -> (p < length es)%nat -> es2 !! q = Some e ->
  exists data', (b ← get_entry (Z.of_nat q) data2; set_entry (Z.of_nat p) b data) = Some data' /\
    data_rep data' (<[p := e]> es).
Proof.
  intros H H2 Hp Hq. pose proof (dr_length _ _ H). pose proof (dr_length _ _ H2).
  pose proof (lookup_lt_Some _ _ _ Hq). rewrite get_entry_eq by lia. cbn [mbind option_bind].
  rewrite set_entry_eq by lia. eexists; split; [done|].
  apply (data_rep_splice _ es); [done|lia|apply slot_length; [apply H2|lia]|by rewrite length_insert| |].
  - rewrite list_lookup_insert_eq by lia. rewrite <- Hq. apply (dr_slot _ _ H2). lia.
  - intros j Hj. by apply list_lookup_insert_ne.
Qed.

Lemma zero_block_ok : data_rep (replicate 512 0) [].
Proof.
  split; [done|cbn; lia|]. intros j Hj. cbn [slot_ok lookup list_lookup].
  do 16 (destruct j as [|j]; [vm_compute; reflexivity|]). lia.
Qed.
End spec.
