(* ===== verification/PafsDir.v ===== *)
(** * PafsDir: the directories of PAFS (kernel/fs/pafs.c)

    [dents s i es]: the blocks of directory [i] hold the entries [es], packed.
    The look-up, insertion and removal loops of the source are related to list
    operations on [es]. *)

From S2P Require Export PafsSpec.

Section dirs.
Context {D : Type} `{!BlockDev D}.
#[local] Abbreviation pafs := (pafs D).
Implicit Types (s : pafs) (i k b : Z) (es : list dirent).

(** The part of [es] in block [k]. *)
Definition part (k : Z) es : list dirent := take 16 (drop (Z.to_nat (16 * k)) es).

Record dents s i es : Prop := {
  de_size : i_size (ind s i) = 32 * Z.of_nat (length es);
  de_length : (length es <= 224)%nat;
  de_data : forall k, blk s i k <> 0 -> data_rep (sect s (blk s i k)) (part k es);
  de_alloc : forall k, 0 <= k -> 16 * k < Z.of_nat (length es) -> blk s i k <> 0
}.

Lemma part_lookup k es j : (j < 16)%nat -> part k es !! j = es !! (Z.to_nat (16 * k) + j)%nat.
Proof. intros Hj. unfold part. by rewrite lookup_take_lt, lookup_drop. Qed.

Lemma part_length k es : 0 <= k -> Z.of_nat (length (part k es)) = Z.max 0 (Z.min 16 (Z.of_nat (length es) - 16 * k)).
Proof. intros. unfold part. rewrite length_take, length_drop. lia. Qed.

(** A directory whose inode and blocks are untouched keeps its entries. *)
Lemma dents_frame s s' i i' es :
  touches i s s' -> i' <> i -> dents s i' es -> dents s' i' es.
Proof.
  intros Ht Hi [Hs Hl Hd Ha]. split.
  - by rewrite (to_ind _ _ _ Ht).
  - done.
  - intros k Hk. rewrite (touches_blk _ _ _ _ _ Ht) in * by done. rewrite (to_sect _ _ _ Ht) by done. by apply Hd.
  - intros k Hk Hlt. rewrite (touches_blk _ _ _ _ _ Ht) by done. by apply Ha.
Qed.

(** ** Looking a name up *)

Definition lookup_dir (nm : list Z) es : option (nat * dirent) := list_find (named nm) es.

(** The scan of block [k], when the name is in none of the blocks before. *)
Lemma scan_part s i k es name nm :
  core_ok s -> dents s i es -> content name = Some nm -> 0 <= k -> blk s i k <> 0 ->
  Forall (fun e => ~ named nm e) (take (Z.to_nat (16 * k)) es) ->
  match scan_block name (sect s (blk s i k)) with
  | Some (Ret j) => exists p e, lookup_dir nm es = Some (p, e) /\ k = Z.of_nat p / 16 /\ j = Z.of_nat p mod 16 /\
                      entry_inode (sect s (blk s i k)) j = Some e.1 /\ 0 < e.1 < PAFS_MAX_INODES
  | Some (Next _) => Forall (fun e => ~ named nm e) (take (Z.to_nat (16 * (k + 1))) es)
  | None => False
  end.
Proof.
  intros H Hd Hn Hk Hb Hprev. pose proof (de_data _ _ _ Hd k Hb) as Hr.
  rewrite (scan_block_ok _ _ _ _ Hr Hn).
  destruct (list_find (named nm) (part k es)) as [[j e]|] eqn:E.
  - apply list_find_Some in E as (Ej & Hne & Hmin). pose proof (lookup_lt_Some _ _ _ Ej) as Hj.
    pose proof (dr_length _ _ Hr). assert (Hj16 : (j < 16)%nat) by lia.
    pose proof (dr_slot _ _ Hr j Hj16) as Hs. rewrite Ej in Hs. destruct e as [ino nm'].
    destruct Hs as (Hw & _ & Hi). rewrite part_lookup in Ej by done.
    exists (Z.to_nat (16 * k) + j)%nat, (ino, nm'). split_and!; [| | | |apply Hi|apply Hi].
    + apply list_find_Some. split; [done|]. split; [done|]. intros p y Hp Hlt.
      destruct (decide (p < Z.to_nat (16 * k))%nat).
      * apply (Forall_lookup_1 _ _ p y Hprev). by rewrite lookup_take_lt.
      * apply (Hmin (p - Z.to_nat (16 * k))%nat y); [|lia]. rewrite part_lookup by lia. rewrite <- Hp. f_equal. lia.
    + apply (Z.div_unique _ 16 k (Z.of_nat j)); lia.
    + apply (Z.mod_unique _ 16 k (Z.of_nat j)); lia.
    + rewrite entry_inode_slot by (done || apply Hr). by rewrite Hw.
  - apply list_find_None in E. replace (Z.to_nat (16 * (k + 1))) with (Z.to_nat (16 * k) + 16)%nat by lia.
    rewrite <- take_take_drop. apply Forall_app. by split.
Qed.

Lemma lookup_none nm es k :
  Forall (fun e => ~ named nm e) (take (Z.to_nat (16 * k)) es) -> Z.of_nat (length es) <= 16 * k ->
  lookup_dir nm es = None.
Proof. intros H Hl. apply list_find_None. by rewrite take_ge in H by lia. Qed.

Lemma dents_end s i es k : dents s i es -> 0 <= k -> blk s i k = 0 -> Z.of_nat (length es) <= 16 * k.
Proof. intros Hd Hk Hb. destruct (Z_le_gt_dec (Z.of_nat (length es)) (16 * k)); [done|]. by destruct (de_alloc _ _ _ Hd k Hk); [lia|]. Qed.

(** [pafs_find_entry] is the look-up in the list. *)
Lemma find_entry_ok s i es name nm :
  core_ok s -> ino_ok i -> i_type (ind s i) = PAFS_TYPE_DIR -> dents s i es -> content name = Some nm ->
  pafs_find_entry i name s = Some (match lookup_dir nm es with Some (_, e) => e.1 | None => -1 end) /\
  forall p e, lookup_dir nm es = Some (p, e) -> 0 < e.1 < PAFS_MAX_INODES.
Proof.
  intros H Hi Ht Hd Hn.
  set (res := match lookup_dir nm es with Some (_, e) => e.1 | None => -1 end).
  set (rng := forall p e, lookup_dir nm es = Some (p, e) -> 0 < e.1 < PAFS_MAX_INODES).
  unfold pafs_find_entry. rewrite (aget_ind s i) by (done || apply H). cbn [mbind option_bind].
  rewrite Ht. change (negb (PAFS_TYPE_DIR =? PAFS_TYPE_DIR)) with false. cbn [orb].
  rewrite (de_size _ _ _ Hd). destruct (Z.eqb_spec (32 * Z.of_nat (length es)) 0) as [E|E].
  { assert (Hes : es = []) by (destruct es; [done|cbn in E; lia]). unfold res, rng. by rewrite Hes. }
  assert (L : match for_ret 0 14 (fun i0 _ =>
        b ← aget (i_blocks (ind s i)) i0;
        if b =? 0 then Some (Ret (-1)) else
        data ← pafs_disk_read b (disk s);
        c ← scan_block name data;
        match c with
        | Ret j => ino ← entry_inode data j; Some (Ret (i32 ino))
        | Next _ => Some (Next tt)
        end) tt with
    | Some (Next _) => lookup_dir nm es = None | Some (Ret r) => r = res /\ rng | None => False end).
  { assert (L' : match for_ret 0 14 (fun i0 _ =>
        b ← aget (i_blocks (ind s i)) i0;
        if b =? 0 then Some (Ret (-1)) else
        data ← pafs_disk_read b (disk s);
        c ← scan_block name data;
        match c with
        | Ret j => ino ← entry_inode data j; Some (Ret (i32 ino))
        | Next _ => Some (Next tt)
        end) tt with
    | Some (Next _) => Forall (fun e => ~ named nm e) (take (Z.to_nat (16 * 14)) es)
    | Some (Ret r) => r = res /\ rng | None => False end).
    2:{ revert L'. destruct (for_ret _ _ _ _) as [[?|?]|]; auto. intros L'. apply (lookup_none nm es 14 L').
        pose proof (de_length _ _ _ Hd). lia. }
    apply (for_ret_rule (fun k _ => Forall (fun e => ~ named nm e) (take (Z.to_nat (16 * k)) es))
      (fun r => r = res /\ rng)); [done|constructor|]. intros k [] Hk Hprev.
    rewrite aget_dblk by (done || by apply ind_ok). cbn [mbind option_bind]. fold (blk s i k).
    destruct (Z.eqb_spec (blk s i k) 0) as [Eb|Eb].
    - pose proof (lookup_none nm es k Hprev (dents_end s i es k Hd ltac:(lia) Eb)) as En.
      unfold res, rng. rewrite En. done.
    - destruct (read_block_ok s (blk s i k)) as [-> _]; [apply H|apply data_lba_ok; by apply (c_own _ H)|].
      cbn [mbind option_bind]. pose proof (scan_part s i k es name nm H Hd Hn ltac:(lia) Eb Hprev) as Hs.
      destruct (scan_block name (sect s (blk s i k))) as [[[]|j]|]; cbn [mbind option_bind]; [done| |done].
      destruct Hs as (p & e & El & _ & _ & -> & Hr). cbn [mbind option_bind]. unfold res, rng. rewrite El.
      split; [|intros ? ? [= <- <-]; done]. apply i32_small. unfold PAFS_MAX_INODES in Hr. lia. }
  revert L. destruct (for_ret _ _ _ _) as [[[]|r]|]; [| |done]; cbn [mbind option_bind].
  - intros En. unfold res, rng. rewrite En. done.
  - intros [-> ?]. done.
Qed.

(** The search of [pafs_remove_entry] finds the position. *)
Lemma find_target_ok s i es name nm :
  core_ok s -> ino_ok i -> dents s i es -> content name = Some nm ->
  find_target (ind s i) name s = Some (match lookup_dir nm es with
    | Some (p, _) => Some (Z.of_nat p / 16, Z.of_nat p mod 16, sect s (blk s i (Z.of_nat p / 16)))
    | None => None end).
Proof.
  intros H Hi Hd Hn.
  set (res := match lookup_dir nm es with
    | Some (p, _) => Some (Z.of_nat p / 16, Z.of_nat p mod 16, sect s (blk s i (Z.of_nat p / 16)))
    | None => None end).
  assert (L : match for_ret 0 14 (fun i0 _ =>
        b ← aget (i_blocks (ind s i)) i0;
        if b =? 0 then Some (Ret None) else
        data ← pafs_disk_read b (disk s);
        c ← scan_block name data;
        Some (match c with Ret j => Ret (Some (i0, j, data)) | Next _ => Next tt end)) tt with
    | Some (Next _) => Forall (fun e => ~ named nm e) (take (Z.to_nat (16 * 14)) es)
    | Some (Ret r) => r = res | None => False end).
  { apply (for_ret_rule (fun k _ => Forall (fun e => ~ named nm e) (take (Z.to_nat (16 * k)) es))
      (fun r => r = res)); [done|constructor|]. intros k [] Hk Hprev.
    rewrite aget_dblk by (done || by apply ind_ok). cbn [mbind option_bind]. fold (blk s i k).
    destruct (Z.eqb_spec (blk s i k) 0) as [Eb|Eb].
    - pose proof (lookup_none nm es k Hprev (dents_end s i es k Hd ltac:(lia) Eb)) as En.
      unfold res. by rewrite En.
    - destruct (read_block_ok s (blk s i k)) as [-> _]; [apply H|apply data_lba_ok; by apply (c_own _ H)|].
      cbn [mbind option_bind]. pose proof (scan_part s i k es name nm H Hd Hn ltac:(lia) Eb Hprev) as Hs.
      destruct (scan_block name (sect s (blk s i k))) as [[[]|j]|]; cbn [mbind option_bind]; [done| |done].
      destruct Hs as (p & e & El & -> & -> & _). unfold res. by rewrite El. }
  unfold find_target. revert L. destruct (for_ret _ _ _ _) as [[[]|r]|]; [| |done]; cbn [mbind option_bind].
  - intros L. unfold res. rewrite (lookup_none nm es 14 L); [done|]. pose proof (de_length _ _ _ Hd). lia.
  - by intros ->.
Qed.

(** ** Adding an entry *)

Lemma read_own s i k :
  core_ok s -> blk s i k <> 0 ->
  pafs_disk_read (blk s i k) (disk s) = Some (sect s (blk s i k)) /\ data_lba (blk s i k).
Proof.
  intros H Hb. pose proof (proj1 (c_own _ H i k Hb)) as Hl. split; [|done].
  apply read_block_ok; [apply H|by apply data_lba_ok].
Qed.

Lemma part_end k es : 0 <= k -> Z.of_nat (length es) <= 16 * k -> part k es = [].
Proof. intros Hk Hl. unfold part. rewrite drop_ge; [done|lia]. Qed.

(** [grow_dir]: nothing to do, no space left, or a new empty block. *)
Lemma grow_dir_ok s i k es dirty :
  core_ok s -> ino_ok i -> 0 <= k < 14 -> i_type (ind s i) = PAFS_TYPE_DIR -> dents s i es ->
  synced (1 + i / 8 :: dirty) s ->
  (grow_dir i k s = Some (Ret s) /\ free_blocks (sb s) = 0) \/
  exists s', grow_dir i k s = Some (Next s') /\ core_ok s' /\ touches i s s' /\
    synced (1 + i / 8 :: dirty) s' /\ dents s' i es /\ blk s' i k <> 0 /\ (blk s i k <> 0 -> s' = s) /\
    free_blocks (sb s) - 1 <= free_blocks (sb s').
Proof.
  intros H Hi Hk Ht Hd Hs. unfold grow_dir. rewrite (aget_ind s i) by (done || apply H).
  cbn [mbind option_bind]. rewrite aget_dblk by (done || by apply ind_ok). cbn [mbind option_bind].
  fold (blk s i k). destruct (Z.eqb_spec (blk s i k) 0) as [E|E].
  2:{ right. exists s. split_and!; auto using touches_refl. lia. }
  destruct (alloc_attach_ok s i k dirty) as [[-> ?]|(b & sa & s1 & -> & Hb & Hset & Eb & Hg & Hs1)];
    [done|done|done|by rewrite Ht|done|done|by left|right].
  cbn [mbind option_bind]. rewrite (proj2 (Z.eqb_neq b (-1)) Hb), Hset. cbn [mbind option_bind].
  destruct Hg as [H1 Hto Hsz Hbk Hoth Hse Hfr]. subst b.
  pose proof (proj1 (c_own _ H1 i k Hbk)) as Hlba.
  destruct (write_data_ok s1 (blk s1 i k) (replicate 512 0) (1 + i / 8 :: dirty) H1 Hlba) as (d & -> & H2 & Hs2 & Hsec); [done|done|].
  cbn [mbind option_bind]. exists (with_disk d s1). split_and!; auto; [|split|by intros].
  - eapply touches_trans; [exact Hto|]. by eapply touches_write.
  - change (ind (with_disk d s1) i) with (ind s1 i). rewrite Hsz. apply Hd.
  - apply Hd.
  - intros k' Hk'. change (blk (with_disk d s1) i k') with (blk s1 i k') in *.
    unfold sect. cbn [disk with_disk]. rewrite Hsec by by apply (c_own _ H1). case_decide as Hdd.
    + apply (c_inj _ H1) in Hdd as [_ <-]; [|done].
      rewrite part_end; [apply zero_block_ok|lia|]. apply (dents_end s i es k Hd); [lia|done].
    + assert (Hne : k' <> k) by (intros ->; done). rewrite Hoth in Hk' |- * by done.
      rewrite Hse by done. by apply (de_data _ _ _ Hd).
  - intros k' Hk0 Hlt. change (blk (with_disk d s1) i k') with (blk s1 i k').
    destruct (Z.eq_dec k' k) as [->|]; [done|]. rewrite Hoth by done. by apply (de_alloc _ _ _ Hd).
Qed.

(** The size of a directory is set and its inode saved. *)
Lemma resize_ok s i n dirty :
  core_ok s -> ino_ok i -> i_type (ind s i) = PAFS_TYPE_DIR -> synced (1 + i / 8 :: dirty) s ->
  exists s', (s ← upd_inode i (fun d => set_size (i_size d + n) d) s; pafs_save_inode i s) = Some s' /\
    core_ok s' /\ touches i s s' /\ synced dirty s' /\ i_size (ind s' i) = u32 (i_size (ind s i) + n) /\
    (forall k, blk s' i k = blk s i k) /\ (forall k, blk s i k <> 0 -> sect s' (blk s i k) = sect s (blk s i k)) /\
    sb s' = sb s.
Proof.
  intros H Hi Ht Hs. pose proof (ind_ok s i H Hi) as Hd.
  destruct (upd_keep_ok s i (fun d => set_size (i_size d + n) d) (1 + i / 8 :: dirty)) as (l & -> & H1 & Hs1 & Hind & Hblk);
    [done|done|split; [apply Hd|apply u32_range|apply Hd]|done|cbn; rewrite Ht; done|done|done|].
  cbn [mbind option_bind]. set (s1 := with_inodes l s) in *. apply synced_dup in Hs1.
  destruct (save_inode_ok s1 i dirty H1 Hi Hs1) as (d & -> & H2 & Hs2 & Hsec).
  assert (T1 : touches i s s1).
  { split; try done; [intros i' Hi'; by rewrite Hind, decide_False|by rewrite Hind, decide_True]. }
  eexists; split; [done|]. split_and!; auto.
  - eapply touches_trans; [exact T1|]. by apply touches_disk.
  - change (ind (with_disk d s1) i) with (ind s1 i). by rewrite Hind, decide_True.
  - exact (Hblk i).
  - intros k Hk. unfold sect at 1. cbn [disk with_disk]. by rewrite Hsec by by apply (c_own _ H).
Qed.

(** Block [k] of a directory is rewritten, its size changed and the inode saved:
    the directory now holds [es']. *)
Lemma dents_update s i k es' data n dirty :
  core_ok s -> ino_ok i -> i_type (ind s i) = PAFS_TYPE_DIR -> blk s i k <> 0 ->
  synced (1 + i / 8 :: dirty) s -> data_rep data (part k es') ->
  (forall k', blk s i k' <> 0 -> k' <> k -> data_rep (sect s (blk s i k')) (part k' es')) ->
  (length es' <= 224)%nat -> i_size (ind s i) + n = 32 * Z.of_nat (length es') ->
  (forall k', 0 <= k' -> 16 * k' < Z.of_nat (length es') -> blk s i k' <> 0) ->
  exists s1 s2 s', write_block (blk s i k) data s = Some s1 /\
    upd_inode i (fun d => set_size (i_size d + n) d) s1 = Some s2 /\ pafs_save_inode i s2 = Some s' /\
    core_ok s' /\ touches i s s' /\ synced dirty s' /\ dents s' i es' /\ sb s' = sb s.
Proof.
  intros H Hi Ht Hb Hs Hrep Hoth Hlen Hn Halloc.
  pose proof (proj1 (c_own _ H i k Hb)) as Hlba.
  destruct (write_data_ok s (blk s i k) data (1 + i / 8 :: dirty) H Hlba (dr_sector _ _ Hrep) Hs)
    as (d & Hw & H1 & Hs1 & Hsec). set (s1 := with_disk d s) in *.
  destruct (resize_ok s1 i n dirty H1 Hi Ht Hs1) as (s3 & Hr & H2 & T2 & Hs2 & Hsz & Hblk & Hse & Hsb).
  destruct (upd_inode i (fun d => set_size (i_size d + n) d) s1) as [s2|] eqn:Eu; [|discriminate Hr].
  cbn [mbind option_bind] in Hr. exists s1, s2, s3. split_and!; auto.
  - eapply touches_trans; [by eapply touches_write|exact T2].
  - change (blk s1) with (blk s) in *. change (ind s1) with (ind s) in Hsz. split.
    + rewrite Hsz, Hn. apply u32_small. lia.
    + done.
    + intros k'. rewrite Hblk. intros Hk'. rewrite Hse by done. unfold sect, s1. cbn [disk with_disk].
      rewrite Hsec by by apply (c_own _ H). case_decide as E.
      * apply (c_inj _ H) in E as [_ <-]; done.
      * apply Hoth; [done|congruence].
    + intros k' Hk0 Hlt. rewrite Hblk. by apply Halloc.
Qed.

(** Appending an entry changes the block of slot [length es] only. *)
Lemma part_snoc es e k :
  0 <= k -> k <> Z.of_nat (length es) / 16 -> part k (es ++ [e]) = part k es.
Proof.
  intros Hk Hne. apply list_eq. intros j. destruct (decide (j < 16)%nat).
  2:{ rewrite !lookup_ge_None_2; [done|..]; unfold part; rewrite length_take; lia. }
  rewrite !part_lookup by lia. destruct (decide (Z.to_nat (16 * k) + j < length es)%nat); [by apply lookup_app_l|].
  rewrite lookup_app_r, (lookup_ge_None_2 es) by lia. apply lookup_ge_None_2. cbn.
  destruct (decide (Z.to_nat (16 * k) + j = length es)%nat); [|lia].
  exfalso. apply Hne. apply (Z.div_unique _ 16 k (Z.of_nat j)); lia.
Qed.

Lemma part_snoc_at es e k :
  0 <= k -> k = Z.of_nat (length es) / 16 -> part k (es ++ [e]) = part k es ++ [e].
Proof.
  intros Hk E. pose proof (Z.div_mod (Z.of_nat (length es)) 16 ltac:(lia)).
  pose proof (Z.mod_pos_bound (Z.of_nat (length es)) 16 ltac:(lia)).
  unfold part. rewrite drop_app_le by lia.
  rewrite !take_ge; [done|rewrite length_drop; lia|rewrite length_app, length_drop; cbn; lia].
Qed.

(** [pafs_add_entry] appends the entry, its name cut to 27 characters, or fails
    on a full disk or directory. *)
Lemma add_entry_ok s i es ino name nm dirty :
  core_ok s -> ino_ok i -> i_type (ind s i) = PAFS_TYPE_DIR -> dents s i es -> content name = Some nm ->
  0 < ino < PAFS_MAX_INODES -> synced (1 + i / 8 :: dirty) s ->
  (pafs_add_entry i name ino s = Some (-1, s) /\ (free_blocks (sb s) = 0 \/ length es = 224%nat)) \/
  exists s', pafs_add_entry i name ino s = Some (0, s') /\ core_ok s' /\ touches i s s' /\
    synced dirty s' /\ dents s' i (es ++ [(ino, take 27 nm)]) /\ free_blocks (sb s) - 1 <= free_blocks (sb s').
Proof.
  intros H Hi Ht Hd Hn Hino Hs.
  set (Q := fun r : Z * pafs => (r = (-1, s) /\ free_blocks (sb s) = 0) \/
    exists s', r = (0, s') /\ core_ok s' /\ touches i s s' /\
    synced dirty s' /\ dents s' i (es ++ [(ino, take 27 nm)]) /\ free_blocks (sb s) - 1 <= free_blocks (sb s')).
  unfold pafs_add_entry. rewrite (aget_ind s i) by (done || apply H). cbn [mbind option_bind].
  rewrite Ht. change (negb (PAFS_TYPE_DIR =? PAFS_TYPE_DIR)) with false. cbn iota.
  match goal with |- context [for_ret 0 14 ?body s] =>
    assert (L : match for_ret 0 14 body s with
      | Some (Next s') => s' = s /\ 16 * 14 <= Z.of_nat (length es)
      | Some (Ret r) => Q r | None => False end) end.
  { apply (for_ret_rule (fun k s' => s' = s /\ 16 * k <= Z.of_nat (length es)) Q); [done|split; [done|lia]|].
    intros k s1 Hk (-> & Hfull).
    destruct (grow_dir_ok s i k es dirty H Hi Hk Ht Hd Hs) as [[-> ?]|(s1 & -> & H1 & T1 & Hs1 & Hd1 & Hb & Hsame & Hfr)];
      cbn [mbind option_bind]; [by left|].
    rewrite (aget_ind s1 i) by (done || apply H1). cbn [mbind option_bind].
    rewrite aget_dblk by (done || by apply ind_ok). cbn [mbind option_bind]. fold (blk s1 i k).
    destruct (read_own s1 i k H1 Hb) as [-> Hlba]. cbn [mbind option_bind].
    pose proof (de_data _ _ _ Hd1 k Hb) as Hr. rewrite (free_slot_ok _ _ Hr). cbn [mbind option_bind].
    pose proof (part_length k es ltac:(lia)) as Hpl. case_decide as Hroom.
    - assert (Hk16 : k = Z.of_nat (length es) / 16)
        by (apply (Z.div_unique _ 16 k (Z.of_nat (length (part k es)))); lia).
      destruct (write_entry_ok _ _ ino name nm Hr Hroom Hn Hino) as (data' & -> & Hr').
      cbn [mbind option_bind].
      assert (Ht1 : i_type (ind s1 i) = PAFS_TYPE_DIR) by by rewrite (to_type _ _ _ T1).
      destruct (dents_update s1 i k (es ++ [(ino, take 27 nm)]) data' 32 dirty)
        as (s2 & s3 & s4 & -> & Eu & Ei & H2 & T2 & Hs2 & Hd2 & Hsb); try done.
      + by rewrite part_snoc_at by (done || lia).
      + intros k' Hk' Hne. rewrite part_snoc; [by apply (de_data _ _ _ Hd1)| |congruence].
        apply (blk_range _ _ _ H1) in Hk'. lia.
      + rewrite length_app. cbn. lia.
      + rewrite length_app, (de_size _ _ _ Hd1). cbn. lia.
      + intros k' Hk0. rewrite length_app. cbn. intros Hlt. destruct (Z.eq_dec k' k) as [->|]; [done|].
        apply (de_alloc _ _ _ Hd1); lia.
      + cbn [mbind option_bind]. rewrite Eu. cbn [mbind option_bind]. rewrite Ei. cbn [mbind option_bind].
        right. exists s4. split_and!; auto; first [by eapply touches_trans|by rewrite Hsb].
    - assert (s1 = s) as ->; [|split; [done|lia]]. apply Hsame. apply (de_alloc _ _ _ Hd); lia. }
  revert L. destruct (for_ret 0 14 _ s) as [[s'|r]|]; [| |done]; cbn [mbind option_bind].
  - intros [-> Hl]. left. split; [done|]. right. pose proof (de_length _ _ _ Hd). lia.
  - intros [[-> ?]|(s' & -> & ?)]; [by left; auto|right; by exists s'].
Qed.

(** ** Removing an entry *)

(** What [pafs_remove_entry] makes of the list: the last entry goes; the entry at
    [p] is replaced by it only when it lies in another block. *)
Definition removed (p : nat) es : list dirent :=
  let q := (length es - 1)%nat in
  if decide (p / 16 = q / 16)%nat then take q es
  else match es !! q with Some e => take q (<[p := e]> es) | None => es end.

Lemma part_ext k es es' :
  0 <= k -> (forall j, (Z.to_nat (16 * k) <= j < Z.to_nat (16 * k) + 16)%nat -> es !! j = es' !! j) ->
  part k es = part k es'.
Proof.
  intros Hk Hj. apply list_eq. intros j. destruct (decide (j < 16)%nat).
  - rewrite !part_lookup by lia. apply Hj. lia.
  - rewrite !lookup_ge_None_2; [done|..]; unfold part; rewrite length_take; lia.
Qed.

Lemma part_insert k es p e :
  0 <= k -> k = Z.of_nat p / 16 -> (p < length es)%nat ->
  part k (<[p := e]> es) = <[Z.to_nat (Z.of_nat p mod 16) := e]> (part k es).
Proof.
  intros Hk Ek Hp. pose proof (Z.div_mod (Z.of_nat p) 16 ltac:(lia)).
  pose proof (Z.mod_pos_bound (Z.of_nat p) 16 ltac:(lia)).
  apply list_eq. intros j. destruct (decide (j < 16)%nat).
  - rewrite part_lookup by lia. destruct (decide (j = Z.to_nat (Z.of_nat p mod 16))) as [->|Hne].
    + replace (Z.to_nat (16 * k) + _)%nat with p by lia.
      rewrite !list_lookup_insert_eq; [done|pose proof (part_length k es Hk); lia|lia].
    + rewrite !list_lookup_insert_ne, part_lookup by lia. done.
  - rewrite !lookup_ge_None_2; [done|..]; rewrite ?length_insert; unfold part; rewrite length_take; lia.
Qed.

(** The last entry, alone in its place. *)
Lemma part_last es q e :
  length es = S q -> es !! q = Some e ->
  part (Z.of_nat q / 16) es = part (Z.of_nat q / 16) (take q es) ++ [e] /\
  length (part (Z.of_nat q / 16) (take q es)) = Z.to_nat (Z.of_nat q mod 16).
Proof.
  intros Hl He. pose proof (Z.div_mod (Z.of_nat q) 16 ltac:(lia)).
  pose proof (Z.mod_pos_bound (Z.of_nat q) 16 ltac:(lia)).
  assert (Hk : 0 <= Z.of_nat q / 16) by (apply Z.div_pos; lia). split.
  - rewrite <- (take_drop_middle es q e He) at 1. rewrite (drop_ge es (S q)) by lia.
    apply part_snoc_at; [done|]. by rewrite length_take, Nat.min_l by lia.
  - pose proof (part_length (Z.of_nat q / 16) (take q es) Hk) as E. rewrite length_take in E. lia.
Qed.

Lemma remove_none s i es name nm :
  core_ok s -> ino_ok i -> dents s i es -> content name = Some nm -> lookup_dir nm es = None ->
  pafs_remove_entry i name s = Some (-1, s).
Proof.
  intros H Hi Hd Hn Hl. unfold pafs_remove_entry. rewrite (aget_ind s i) by (done || apply H).
  cbn [mbind option_bind]. by rewrite (find_target_ok s i es name nm), Hl by done.
Qed.

(** The last entry of a non-empty directory: its index and block. *)
Lemma last_index s i es :
  core_ok s -> dents s i es -> (0 < length es)%nat ->
  let q := Z.of_nat (length es - 1) in
  i32 (u32 (i_size (ind s i) / 32 - 1)) = q /\ Z.quot q MAX_ENTRIES = q / 16 /\ Z.rem q MAX_ENTRIES = q mod 16 /\
  0 <= q / 16 < 14 /\ blk s i (q / 16) <> 0.
Proof.
  intros H Hd Hlen q. pose proof (de_length _ _ _ Hd).
  assert (Hq : 0 <= q < 224) by lia. split.
  { rewrite (de_size _ _ _ Hd), (Z.mul_comm 32), Z.div_mul by lia.
    replace (Z.of_nat (length es) - 1) with q by lia. by rewrite u32_small, i32_small by lia. }
  unfold MAX_ENTRIES. rewrite Z.quot_div_nonneg, Z.rem_mod_nonneg by lia.
  assert (Hk : 0 <= q / 16 < 14) by (split; [apply Z.div_pos; lia|apply Z.div_lt_upper_bound; lia]).
  split_and!; try done; try lia. apply (de_alloc _ _ _ Hd); [lia|].
  pose proof (Z.div_mod q 16 ltac:(lia)). pose proof (Z.mod_pos_bound q 16 ltac:(lia)). lia.
Qed.

Lemma removed_length p es : (p < length es)%nat -> length (removed p es) = (length es - 1)%nat.
Proof.
  intros Hp. unfold removed. case_decide; [rewrite length_take; lia|].
  destruct (lookup_lt_is_Some_2 es (length es - 1)%nat ltac:(lia)) as [x ->].
  rewrite length_take, length_insert. lia.
Qed.

(** Blocks of the list other than the target's and the last one keep their part. *)
Lemma removed_other p es k :
  (p < length es)%nat -> 0 <= k -> k <> Z.of_nat p / 16 -> k <> Z.of_nat (length es - 1) / 16 ->
  part k (removed p es) = part k es.
Proof.
  intros Hp Hk Hkp Hkq. apply part_ext; [done|]. intros j Hj.
  assert (Hjp : j <> p) by (intros ->; apply Hkp; apply (Z.div_unique_pos _ 16 k (Z.of_nat p - 16 * k)); lia).
  assert (Hjq : j <> (length es - 1)%nat).
  { intros ->. apply Hkq. apply (Z.div_unique_pos _ 16 k (Z.of_nat (length es - 1) - 16 * k)); lia. }
  assert (Hge : forall l : list dirent, length l = length es -> (length es - 1 < j)%nat -> take (length es - 1) l !! j = es !! j).
  { intros l Hl Hlt. rewrite !lookup_ge_None_2; [done|lia|rewrite length_take; lia]. }
  unfold removed. case_decide.
  - destruct (decide (j < length es - 1)%nat); [by apply lookup_take_lt|apply Hge; lia].
  - destruct (lookup_lt_is_Some_2 es (length es - 1)%nat ltac:(lia)) as [x ->].
    destruct (decide (j < length es - 1)%nat); [|apply Hge; rewrite ?length_insert; lia].
    rewrite lookup_take_lt, list_lookup_insert_ne by lia. done.
Qed.

Lemma div16_nat p q : (p / 16 = q / 16)%nat <-> Z.of_nat p / 16 = Z.of_nat q / 16.
Proof. rewrite <- !(Nat2Z.inj_div _ 16). lia. Qed.

(** The target's block after the copy of step 3: it is only rewritten when the
    last entry lies in another block, or is another entry of the same block. *)
Lemma swap_ok s i es p dirty :
  core_ok s -> ino_ok i -> i_type (ind s i) = PAFS_TYPE_DIR -> dents s i es -> (p < length es)%nat ->
  synced dirty s ->
  let q := Z.of_nat (length es - 1) in let pz := Z.of_nat p in
  exists s1, (if negb (pz / 16 =? q / 16) || negb (pz mod 16 =? q mod 16) then
             e ← get_entry (q mod 16) (sect s (blk s i (q / 16)));
             target_data ← set_entry (pz mod 16) e (sect s (blk s i (pz / 16)));
             tb ← aget (i_blocks (ind s i)) (pz / 16);
             write_block tb target_data s
           else Some s) = Some s1 /\
    core_ok s1 /\ touches i s s1 /\ synced dirty s1 /\ ind s1 i = ind s i /\
    (forall k, k <> pz / 16 -> blk s i k <> 0 -> sect s1 (blk s i k) = sect s (blk s i k)) /\
    (pz / 16 <> q / 16 -> data_rep (sect s1 (blk s i (pz / 16))) (part (pz / 16) (removed p es))).
Proof.
  intros H Hi Ht Hd Hp Hs q pz.
  destruct (last_index s i es H Hd ltac:(lia)) as (_ & _ & _ & Hkq & Hbq). fold q in Hkq, Hbq.
  assert (Hpq : 0 <= pz <= q) by lia.
  assert (Hkp : 0 <= pz / 16 <= q / 16) by (split; [apply Z.div_pos; lia|apply Z.div_le_mono; lia]).
  pose proof (Z.mod_pos_bound pz 16 ltac:(lia)) as Hmp. pose proof (Z.mod_pos_bound q 16 ltac:(lia)) as Hmq.
  pose proof (Z.div_mod pz 16 ltac:(lia)) as Ep. pose proof (Z.div_mod q 16 ltac:(lia)) as Eq.
  assert (Hbp : blk s i (pz / 16) <> 0) by (apply (de_alloc _ _ _ Hd); lia).
  destruct (lookup_lt_is_Some_2 es (length es - 1)%nat ltac:(lia)) as [x Hx].
  destruct (negb (pz / 16 =? q / 16) || negb (pz mod 16 =? q mod 16)) eqn:E.
  2:{ exists s. bool_hyps. split_and!; auto using touches_refl. intros; congruence. }
  pose proof (de_data _ _ _ Hd _ Hbp) as Hrp. pose proof (de_data _ _ _ Hd _ Hbq) as Hrq.
  pose proof (part_length (pz / 16) es ltac:(lia)) as Hlp.
  destruct (copy_entry_ok _ _ _ _ (Z.to_nat (pz mod 16)) (Z.to_nat (q mod 16)) x Hrp Hrq) as (data & Hdata & Hr');
    [lia|rewrite part_lookup, <- Hx by lia; f_equal; lia|].
  rewrite !Z2Nat.id in Hdata by lia. destruct (get_entry _ _) as [e|]; [|discriminate Hdata].
  cbn [mbind option_bind] in *. rewrite Hdata. cbn [mbind option_bind].
  rewrite aget_dblk by (try (by apply ind_ok); lia). cbn [mbind option_bind]. fold (blk s i (pz / 16)).
  destruct (write_data_ok s (blk s i (pz / 16)) data dirty H (proj1 (c_own _ H _ _ Hbp)) (dr_sector _ _ Hr') Hs)
    as (d & -> & H1 & Hs1 & Hsec). exists (with_disk d s). split_and!; auto.
  - by eapply touches_write.
  - intros k Hk Hbk. unfold sect at 1. cbn [disk with_disk]. rewrite Hsec by by apply (c_own _ H).
    rewrite decide_False; [done|]. intros Ec. apply (c_inj _ H) in Ec as [_ ?]; [congruence|done].
  - intros Hne. unfold sect. cbn [disk with_disk]. rewrite Hsec by by apply (c_own _ H).
    rewrite decide_True by done. unfold removed. rewrite decide_False by (rewrite div16_nat; fold pz q; lia).
    rewrite Hx. pose proof (part_insert (pz / 16) es p x ltac:(lia) eq_refl Hp) as Ei. fold pz in Ei.
    rewrite <- Ei in Hr'.
    replace (part (pz / 16) (take (length es - 1) (<[p := x]> es))) with (part (pz / 16) (<[p := x]> es)); [done|].
    apply part_ext; [lia|]. intros j Hj. rewrite lookup_take_lt; [done|]. lia.
Qed.

(** The last block after step 4: its last entry is cleared in the copy read
    before step 3. *)
Lemma removed_last s i es p :
  core_ok s -> dents s i es -> (p < length es)%nat ->
  let q := Z.of_nat (length es - 1) in
  exists data, set_entry (q mod 16) (replicate 32 0) (sect s (blk s i (q / 16))) = Some data /\
    data_rep data (part (q / 16) (removed p es)).
Proof.
  intros H Hd Hp q. destruct (last_index s i es H Hd ltac:(lia)) as (_ & _ & _ & Hkq & Hbq). fold q in Hkq, Hbq.
  destruct (lookup_lt_is_Some_2 es (length es - 1)%nat ltac:(lia)) as [x Hx].
  destruct (part_last es (length es - 1)%nat x ltac:(lia) Hx) as [Epart Elen]. fold q in Epart, Elen.
  pose proof (de_data _ _ _ Hd _ Hbq) as Hr. rewrite Epart in Hr.
  destruct (clear_entry_ok _ _ _ Hr) as (data & Hset & Hr'). rewrite Elen in Hset.
  pose proof (Z.mod_pos_bound q 16 ltac:(lia)). rewrite Z2Nat.id in Hset by lia.
  exists data. split; [done|]. unfold removed. case_decide as Hc; [done|]. rewrite Hx.
  replace (part (q / 16) (take (length es - 1) (<[p := x]> es))) with (part (q / 16) (take (length es - 1) es)); [done|].
  apply part_ext; [lia|]. intros j Hj. destruct (decide (j < length es - 1)%nat).
  - rewrite !lookup_take_lt, list_lookup_insert_ne; [done| |lia|lia]. intros ->. apply Hc.
    rewrite div16_nat. fold q. symmetry. apply (Z.div_unique_pos _ 16 (q / 16) (Z.of_nat j - 16 * (q / 16))); lia.
  - rewrite !lookup_ge_None_2; [done|..]; rewrite length_take, ?length_insert; lia.
Qed.

Lemma remove_entry_ok s i es name nm p e dirty :
  core_ok s -> ino_ok i -> i_type (ind s i) = PAFS_TYPE_DIR -> dents s i es -> content name = Some nm ->
  lookup_dir nm es = Some (p, e) -> synced (1 + i / 8 :: dirty) s ->
  exists s', pafs_remove_entry i name s = Some (0, s') /\ core_ok s' /\ touches i s s' /\
    synced dirty s' /\ dents s' i (removed p es).
Proof.
  intros H Hi Ht Hd Hn Hl Hs. assert (Hp : (p < length es)%nat).
  { apply list_find_Some in Hl as (Hp & _). by apply lookup_lt_Some in Hp. }
  pose proof (de_length _ _ _ Hd) as Hlen.
  set (q := Z.of_nat (length es - 1)). destruct (last_index s i es H Hd ltac:(lia)) as (E1 & E2 & E3 & Hkq & Hbq).
  fold q in E1, E2, E3, Hkq, Hbq.
  unfold pafs_remove_entry. rewrite (aget_ind s i) by (done || apply H). cbn [mbind option_bind].
  rewrite (find_target_ok s i es name nm), Hl by done. cbn [mbind option_bind]. cbn zeta. rewrite E1, E2, E3.
  rewrite (aget_dblk (ind s i) (q / 16)) by (done || by apply ind_ok). cbn [mbind option_bind]. fold (blk s i (q / 16)).
  destruct (read_own s i _ H Hbq) as [-> _]. cbn [mbind option_bind].
  destruct (swap_ok s i es p _ H Hi Ht Hd Hp Hs) as (s1 & E & H1 & T1 & Hs1 & Hind & Hoth & Htgt).
  fold q in E, Hoth, Htgt.
  rewrite E. cbn [mbind option_bind]. clear E.
  destruct (removed_last s i es p H Hd Hp) as (data & Hset & Hr). fold q in Hset, Hr. rewrite Hset. cbn [mbind option_bind].
  assert (Hblk : forall k, blk s1 i k = blk s i k) by (intros k; unfold blk; by rewrite Hind).
  destruct (dents_update s1 i (q / 16) (removed p es) data (- 32) dirty)
    as (s2 & s3 & s4 & Ew & Eu & Ei & H4 & T4 & Hs4 & Hd4 & _); try done.
  - by rewrite Hind.
  - by rewrite Hblk.
  - intros k. rewrite Hblk. intros Hbk Hne. destruct (Z.eq_dec k (Z.of_nat p / 16)) as [->|Hnp]; [by apply Htgt|].
    rewrite Hoth by done. rewrite removed_other; [by apply (de_data _ _ _ Hd)|done| |done|done].
    apply (blk_range _ _ _ H) in Hbk. lia.
  - rewrite removed_length by done. lia.
  - rewrite Hind, removed_length, (de_size _ _ _ Hd) by done. lia.
  - intros k Hk. rewrite removed_length by done. intros Hlt. rewrite Hblk. apply (de_alloc _ _ _ Hd); lia.
  - rewrite Hblk in Ew. rewrite Ew. cbn [mbind option_bind].
    change (fun d : pafs_inode => set_size (i_size d - 32) d) with (fun d : pafs_inode => set_size (i_size d + - 32) d).
    rewrite Eu. cbn [mbind option_bind]. rewrite Ei. cbn [mbind option_bind]. exists s4. split_and!; auto.
    by eapply touches_trans.
Qed.
End dirs.
