(* ===== verification/PafsOps.v ===== *)
(** * PafsOps: the operations of PAFS against their specification
    (kernel/fs/pafs.c)

    [pafs_ok dirs s]: the state is well formed, the disk agrees with memory, and
    [dirs] gives the entries of every directory.  Each operation is related to
    the change it makes to [dirs]. *)

From S2P Require Export PafsDir.

Section ops.
Context {D : Type} `{!BlockDev D}.
#[local] Abbreviation pafs := (pafs D).
Implicit Types (s : pafs) (i k b : Z) (es : list dirent) (dirs : Z -> list dirent).

Record pafs_ok dirs s : Prop := {
  p_core : core_ok s;
  p_sync : synced [] s;
  p_root : root_inode (sb s) = 0;
  p_dirs : forall i, ino_ok i -> i_type (ind s i) = PAFS_TYPE_DIR -> dents s i (dirs i)
}.

(** Taking the lock changes nothing else. *)
Lemma core_lock x s : core_ok s -> core_ok (with_lock x s).
Proof. intros []. by split. Qed.

Lemma pafs_ok_lock dirs x s : pafs_ok dirs s -> pafs_ok dirs (with_lock x s).
Proof. intros [H Hs Hr Hd]. split; [by apply core_lock|exact Hs|exact Hr|]. intros i Hi Ht. by destruct (Hd i Hi Ht). Qed.

Lemma synced_sub d1 d2 s : synced d1 s -> (forall x, x ∈ d1 -> x ∈ d2) -> synced d2 s.
Proof. intros H Hs lba Hl Hd. apply H; auto. Qed.

(** The count of free inodes is free. *)
Lemma core_free_inodes n s : core_ok s -> core_ok (add_free_inodes n s).
Proof.
  intros []. split; try done. destruct c_sb as (? & ? & ? & _). split_and!; try done; apply u32_range.
Qed.

Lemma sync_free_inodes n dirty s : synced dirty s -> synced dirty (add_free_inodes n s).
Proof. intros H. exact H. Qed.

(** A directory list is changed at one inode. *)
Definition upd_dir i es dirs : Z -> list dirent := fun i' => if decide (i = i') then es else dirs i'.

Lemma find_free_inode_ok s :
  core_ok s ->
  exists r, find_free_inode s = Some r /\
    ((r = -1 /\ forall i, ino_ok i -> i_type (ind s i) <> PAFS_TYPE_FREE) \/
     (0 < r < PAFS_MAX_INODES /\ i_type (ind s r) = PAFS_TYPE_FREE)).
Proof.
  intros H.
  assert (L : match for_ret 0 PAFS_MAX_INODES (fun i _ =>
        d ← aget (inodes s) i;
        Some (if i_type d =? PAFS_TYPE_FREE then Ret i else Next tt)) tt with
    | Some (Next _) => forall i, 0 <= i < PAFS_MAX_INODES -> i_type (ind s i) <> PAFS_TYPE_FREE
    | Some (Ret r) => 0 <= r < PAFS_MAX_INODES /\ i_type (ind s r) = PAFS_TYPE_FREE | None => False end).
  { apply (for_ret_rule (fun k _ => forall i, 0 <= i < k -> i_type (ind s i) <> PAFS_TYPE_FREE)
      (fun r => 0 <= r < PAFS_MAX_INODES /\ i_type (ind s r) = PAFS_TYPE_FREE)); [done|lia|].
    intros i [] Hi Hprev. rewrite (aget_ind s i) by (done || apply H). cbn [mbind option_bind].
    destruct (Z.eqb_spec (i_type (ind s i)) PAFS_TYPE_FREE); [done|].
    intros j Hj. destruct (Z.eq_dec j i) as [->|]; [done|]. apply Hprev. lia. }
  unfold find_free_inode. revert L. destruct (for_ret _ _ _ _) as [[?|r]|]; [| |done]; cbn [mbind option_bind].
  - intros Hall. exists (-1). split; [done|]. left. split; [done|]. exact Hall.
  - intros [Hr Ht]. exists r. split; [done|]. right. split; [|done].
    destruct (Z.eq_dec r 0) as [->|]; [|lia]. rewrite (c_root _ H) in Ht. done.
Qed.

(** A free inode becomes a file or a directory, or goes back. *)
Lemma new_inode_ok s r t dirty :
  core_ok s -> 0 < r < PAFS_MAX_INODES -> i_type (ind s r) = PAFS_TYPE_FREE -> 0 < t <= 2 -> synced dirty s ->
  exists l, upd_inode r (fun _ => Inode t 0 (replicate 14 0)) s = Some (with_inodes l s) /\
    let s' := with_inodes l s in
    core_ok s' /\ synced (1 + r / 8 :: dirty) s' /\
    (forall i', ind s' i' = if decide (r = i') then Inode t 0 (replicate 14 0) else ind s i').
Proof.
  intros H Hr Ht Htt Hs. assert (Hi : ino_ok r) by (unfold ino_ok; lia).
  destruct (upd_keep_ok s r (fun _ => Inode t 0 (replicate 14 0)) dirty) as (l & E & ? & ? & ? & _).
  - done.
  - done.
  - by split; cbn; [lia|lia|].
  - by rewrite (c_free _ H r Ht).
  - unfold PAFS_TYPE_FREE. cbn. lia.
  - lia.
  - done.
  - exists l. cbn zeta. auto.
Qed.

Lemma dents_nil s i : i_size (ind s i) = 0 -> (forall k, blk s i k = 0) -> dents s i [].
Proof. intros Hs Hb. split; [done|cbn; lia|intros k Hk; by rewrite Hb in Hk|cbn; lia]. Qed.

(** A directory that no change concerns. *)
Lemma dents_same s s' i es :
  ind s' i = ind s i -> (forall k, blk s i k <> 0 -> sect s' (blk s i k) = sect s (blk s i k)) ->
  dents s i es -> dents s' i es.
Proof.
  intros Hi Hse [Hs Hl Hd Ha]. assert (Hb : forall k, blk s' i k = blk s i k) by (intros; unfold blk; by rewrite Hi).
  split; [by rewrite Hi|done| |].
  - intros k. rewrite Hb. intros Hk. rewrite Hse by done. by apply Hd.
  - intros k Hk Hlt. rewrite Hb. by apply Ha.
Qed.

(** The same inode table: nothing is dirty. *)
Lemma sync_same s l dirty :
  length (inodes s) = 128%nat -> length l = 128%nat -> (forall i, ind (with_inodes l s) i = ind s i) ->
  synced dirty s -> synced dirty (with_inodes l s).
Proof.
  intros Hl Hl' Hind Hs. replace l with (inodes s); [by destruct s|].
  apply list_eq_same_length with 128%nat; [done|done|]. intros k x y Hk Hx Hy.
  specialize (Hind (Z.of_nat k)). unfold ind in Hind. cbn [inodes with_inodes] in Hind.
  rewrite !aget_nat, Hx, Hy in Hind. by cbn in Hind.
Qed.

Lemma restore_inode_ok s r dirty :
  core_ok s -> ino_ok r -> r <> 0 -> (forall k, blk s r k = 0) -> i_size (ind s r) = 0 ->
  synced dirty s ->
  exists l, upd_inode r (set_type PAFS_TYPE_FREE) s = Some (with_inodes l s) /\
    let s' := with_inodes l s in
    core_ok s' /\ synced (1 + r / 8 :: dirty) s' /\ length l = 128%nat /\
    (forall i', ind s' i' = if decide (r = i') then blank_inode else ind s i').
Proof.
  intros H Hi Hr0 Hb Hsz Hs. pose proof (ind_ok s r H Hi) as Hok.
  assert (E : set_type PAFS_TYPE_FREE (ind s r) = blank_inode).
  { unfold set_type, blank_inode. rewrite Hsz, (zero_blocks _ Hok); [done|]. intros k _. apply Hb. }
  destruct (upd_keep_ok s r (set_type PAFS_TYPE_FREE) dirty) as (l & Eu & H1 & Hs1 & Hind & _); try done.
  - rewrite E. apply blank_ok.
  - exists l. cbn zeta. rewrite E in Hind. split_and!; auto. apply H1.
Qed.

(** ** Creating *)

Definition inode_type (is_dir : bool) : Z := if is_dir then PAFS_TYPE_DIR else PAFS_TYPE_FILE.

(** [s] unchanged but for its lock: the result of a refused operation. *)
Definition unlocked s : pafs := with_lock (Spinlock 0 (eflags s), eflags s) s.

Lemma unlock_lock s : unlock (lock s) = unlocked s.
Proof. done. Qed.

Definition create_refused dirs s parent nm : Prop :=
  free_inodes (sb s) = 0 \/ lookup_dir nm (dirs parent) <> None \/
  (forall i, ino_ok i -> i_type (ind s i) <> PAFS_TYPE_FREE) \/
  free_blocks (sb s) = 0 \/ length (dirs parent) = 224%nat.

(** The state after inode [r] was added to directory [parent]. *)
Record created dirs parent r nm (is_dir : bool) s s' : Prop := {
  cr_range : 0 < r < PAFS_MAX_INODES;
  cr_fresh : i_type (ind s r) = PAFS_TYPE_FREE;
  cr_absent : lookup_dir nm (dirs parent) = None;
  cr_ok : pafs_ok (upd_dir parent (dirs parent ++ [(r, take 27 nm)]) (upd_dir r [] dirs)) s';
  cr_ind : ind s' r = Inode (inode_type is_dir) 0 (replicate 14 0);
  cr_other : forall i, i <> r -> i <> parent -> ind s' i = ind s i /\
    forall k, blk s i k <> 0 -> sect s' (blk s i k) = sect s (blk s i k);
  cr_parent : i_type (ind s' parent) = i_type (ind s parent);
  cr_free : free_blocks (sb s) - 1 <= free_blocks (sb s');
  cr_lock : pafs_lock s' = Spinlock 0 (eflags s) /\ eflags s' = eflags s
}.

(** The inode was taken but the entry could not be added: all is put back. *)
Lemma create_undo dirs s r l (t : Z) :
  pafs_ok dirs s -> 0 < r < PAFS_MAX_INODES -> i_type (ind s r) = PAFS_TYPE_FREE ->
  core_ok (with_inodes l s) -> synced [1 + r / 8] (with_inodes l s) ->
  (forall i', ind (with_inodes l s) i' = if decide (r = i') then Inode t 0 (replicate 14 0) else ind s i') ->
  exists s2, upd_inode r (set_type PAFS_TYPE_FREE) (add_free_inodes (-1) (with_inodes l s)) = Some s2 /\
    pafs_ok dirs (add_free_inodes 1 s2) /\ (forall i, ind s2 i = ind s i) /\ disk s2 = disk s /\
    pafs_lock s2 = pafs_lock s /\ eflags s2 = eflags s.
Proof.
  intros [H Hs Hrt Hd] Hr Hty H1 Hs1 Hind. set (s1 := add_free_inodes (-1) (with_inodes l s)).
  assert (Hbz : forall k, dblk (Inode t 0 (replicate 14 0)) k = 0) by exact blank_dblk.
  destruct (restore_inode_ok s1 r [1 + r / 8]) as (l2 & -> & H2 & _ & Hl2 & Hind2);
    [by apply core_free_inodes|unfold ino_ok; lia|lia|intros k; unfold blk; change (ind s1 r) with (ind (with_inodes l s) r);
     by rewrite Hind, decide_True by done|change (ind s1 r) with (ind (with_inodes l s) r); by rewrite Hind, decide_True by done|done|].
  assert (Hsame : forall i, ind (with_inodes l2 s1) i = ind s i).
  { intros i. rewrite Hind2. change (ind s1 i) with (ind (with_inodes l s) i). rewrite Hind.
    case_decide; [subst; symmetry; by apply (c_free _ H)|done]. }
  exists (with_inodes l2 s1). split; [done|]. split; [|done].
  split; [by apply core_free_inodes| | |].
  - exact (sync_same s l2 [] (c_inodes _ H) Hl2 Hsame Hs).
  - exact Hrt.
  - intros i Hi Hti. change (ind (add_free_inodes 1 (with_inodes l2 s1)) i) with (ind (with_inodes l2 s1) i) in Hti.
    rewrite Hsame in Hti. apply (dents_same s); [apply Hsame|done|by apply Hd].
Qed.

Lemma create_ok dirs s parent name nm is_dir :
  pafs_ok dirs s -> ino_ok parent -> i_type (ind s parent) = PAFS_TYPE_DIR -> content name = Some nm ->
  exists r s', pafs_create parent name is_dir s = Some (r, s') /\
    ((r = -1 /\ create_refused dirs s parent nm /\ pafs_ok dirs s' /\ (forall i, ind s' i = ind s i) /\
      disk s' = disk s /\ pafs_lock s' = Spinlock 0 (eflags s) /\ eflags s' = eflags s) \/
     created dirs parent r nm is_dir s s').
Proof.
  intros P Hp Ht Hn. pose proof P as [H Hs Hrt Hd]. set (s0 := lock s).
  assert (P0 : pafs_ok dirs s0) by by apply pafs_ok_lock. pose proof P0 as [H0 Hs0 Hrt0 Hd0].
  assert (Hrefuse : create_refused dirs s parent nm ->
    exists r s', Some (-1, unlock s0) = Some (r, s') /\
    ((r = -1 /\ create_refused dirs s parent nm /\ pafs_ok dirs s' /\ (forall i, ind s' i = ind s i) /\
      disk s' = disk s /\ pafs_lock s' = Spinlock 0 (eflags s) /\ eflags s' = eflags s) \/
     created dirs parent r nm is_dir s s')).
  { intros Hc. exists (-1), (unlock s0). split; [done|]. left. split_and!; try done. by apply pafs_ok_lock. }
  unfold pafs_create. fold s0. destruct (Z.eqb_spec (free_inodes (sb s0)) 0) as [E|_]; [apply Hrefuse; by left|].
  destruct (find_entry_ok s0 parent (dirs parent) name nm H0 Hp Ht (Hd0 _ Hp Ht) Hn) as [-> Hrange].
  cbn [mbind option_bind]. destruct (lookup_dir nm (dirs parent)) as [[p e]|] eqn:El.
  { specialize (Hrange p e eq_refl). rewrite (proj2 (Z.eqb_neq e.1 (-1))) by lia. cbn [negb].
    apply Hrefuse. right; left. by rewrite El. }
  cbn [negb Z.eqb Pos.eqb]. destruct (find_free_inode_ok s0 H0) as (r & -> & Hr). cbn [mbind option_bind].
  destruct Hr as [[-> Hnone]|[Hr Hfr]]; [apply Hrefuse; by right; right; left|].
  rewrite (proj2 (Z.eqb_neq r (-1))) by lia.
  assert (Hrp : r <> parent) by (intros ->; change (i_type (ind s parent) = PAFS_TYPE_FREE) in Hfr; by rewrite Ht in Hfr).
  fold (inode_type is_dir).
  destruct (new_inode_ok s0 r (inode_type is_dir) [] H0 Hr Hfr) as (l & -> & H1 & Hs1 & Hind1);
    [by destruct is_dir|done|]. cbn [mbind option_bind]. set (s1 := with_inodes l s0) in *.
  assert (Ht1 : ind s1 parent = ind s0 parent) by by rewrite Hind1, decide_False.
  assert (Hd1 : dents (add_free_inodes (-1) s1) parent (dirs parent)).
  { apply (dents_same s0); [exact Ht1|done|]. by apply Hd0. }
  destruct (add_entry_ok (add_free_inodes (-1) s1) parent (dirs parent) r name nm [1 + r / 8])
    as [[-> Hwhy]|(s2 & -> & H2 & T2 & Hs2 & Hd2 & Hf2)];
    [by apply core_free_inodes|done|change (ind (add_free_inodes (-1) s1)) with (ind s1); by rewrite Ht1|done|done|done|
     by apply synced_cons| |]; cbn [mbind option_bind Z.eqb Pos.eqb].
  - destruct (create_undo dirs s0 r l (inode_type is_dir) P0 Hr Hfr H1 Hs1 Hind1) as (s2 & Eu & P2 & Hi2 & Hdk & Hlk & Hef).
    fold s1 in Eu. rewrite Eu. cbn [mbind option_bind]. exists (-1), (unlock (add_free_inodes 1 s2)).
    split; [done|]. left. split_and!; try done.
    + right; right; right. exact Hwhy.
    + by apply pafs_ok_lock.
    + change (pafs_lock (unlock (add_free_inodes 1 s2))) with (Spinlock 0 (sl_flags (pafs_lock s2))). by rewrite Hlk.
    + change (eflags (unlock (add_free_inodes 1 s2))) with (sl_flags (pafs_lock s2)). by rewrite Hlk.
  - assert (Hir : ino_ok r) by (unfold ino_ok; lia).
    destruct (save_inode_ok s2 r [] H2 Hir Hs2) as (d & -> & H3 & Hs3 & Hsec3). cbn [mbind option_bind].
    set (s3 := with_disk d s2) in *. assert (T3 : touches parent s2 s3) by by apply touches_disk.
    pose proof (touches_trans _ _ _ _ T2 T3) as T.
    assert (Hindr : ind s3 r = Inode (inode_type is_dir) 0 (replicate 14 0)).
    { rewrite (to_ind _ _ _ T) by done. change (ind (add_free_inodes (-1) s1)) with (ind s1).
      by rewrite Hind1, decide_True. }
    assert (Hother : forall i, i <> r -> i <> parent -> ind s3 i = ind s i /\
      forall k, blk s i k <> 0 -> sect s3 (blk s i k) = sect s (blk s i k)).
    { intros i Hi Hip. assert (Ei : ind s1 i = ind s i) by by rewrite Hind1, decide_False. split.
      - by rewrite (to_ind _ _ _ T).
      - intros k Hk. assert (Eb : blk s1 i k = blk s i k) by (unfold blk; by rewrite Ei).
        rewrite <- Eb in *. by apply (to_sect _ _ _ T). }
    assert (Hpt : i_type (ind s3 parent) = i_type (ind s parent)).
    { rewrite (to_type _ _ _ T). change (i_type (ind s1 parent) = i_type (ind s parent)). by rewrite Ht1. }
    exists r, (unlock s3). split; [done|]. right. split; try done.
    + apply pafs_ok_lock. split; [done|done|by rewrite (to_root _ _ _ T)|]. intros i Hi Hti. unfold upd_dir.
      case_decide as Hc; [|case_decide as Hc2].
      * subst i. change (dents s3 parent (dirs parent ++ [(r, take 27 nm)])).
        apply (dents_same s2); [done| |done]. intros k Hk. apply Hsec3. by apply (c_own _ H2).
      * subst i. apply dents_nil; [by rewrite Hindr|]. intros k. unfold blk. rewrite Hindr. exact (blank_dblk k).
      * destruct (Hother i) as [Ei Es]; [congruence..|]. apply (dents_same s); [done|done|].
        apply Hd; [done|]. by rewrite <- Ei.
    + destruct (to_lock _ _ _ T) as [Hlk _].
      change (pafs_lock (unlock s3)) with (Spinlock 0 (sl_flags (pafs_lock s3))).
      change (eflags (unlock s3)) with (sl_flags (pafs_lock s3)). by rewrite Hlk.
Qed.

(** ** Deleting *)

(** One block is given back. *)
Lemma release_ok s i k :
  core_ok s -> blk s i k <> 0 ->
  exists bm l, pafs_bitmap_clear (blk s i k) (block_bitmap s) = Some bm /\
    let s1 := add_free_blocks 1 (with_bitmap bm s) in
    set_block i k 0 s1 = Some (with_inodes l s1) /\
    let s' := with_inodes l s1 in
    core_ok s' /\ touches i s s' /\ i_size (ind s' i) = i_size (ind s i) /\
    (forall i' k', blk s' i' k' = if decide (i = i' /\ k = k') then 0 else blk s i' k').
Proof.
  intros H Hb. destruct (c_own _ H i k Hb) as [Hdata Hbit]. destruct (blk_range s i k H Hb) as [Hi Hk].
  set (b := blk s i k) in *.
  destruct (bm_clear_spec (block_bitmap s) b (c_bytes _ H)) as (bm & Hclr & Hby & Hlen & Hbits).
  { rewrite (c_bm _ H). unfold data_lba, LBA_DATA_START, PAFS_TOTAL_BLOCKS in Hdata. lia. }
  set (s1 := add_free_blocks 1 (with_bitmap bm s)).
  destruct (set_block_ok s1 i k 0 (core_table s H) Hi Hk) as (l & Hset & Hl & Hind & Hty & Hsz & Hblk).
  exists bm, l. split; [exact Hclr|]. cbn zeta. fold s1. split; [done|]. set (s' := with_inodes l s1) in *.
  change (blk s1) with (blk s) in Hblk. change (ind s1) with (ind s) in *.
  assert (Hbit' : forall x, bit s' x = negb (x =? b) && bit s x) by exact Hbits.
  assert (Hlow : LBA_DATA_START <= b) by apply Hdata.
  split; [|split; [by split|by split]]. constructor; try by apply H. all: try by apply Hl. all: try done.
  - by rewrite <- (c_bm _ H).
  - intros i' k'. rewrite Hblk, Hbit'. case_decide as Hc; [done|]. intros Hne.
    destruct (c_own _ H _ _ Hne) as [? ->]. split; [done|]. rewrite andb_true_r. apply negb_true_iff, Z.eqb_neq.
    intros E. apply (c_inj _ H) in E; [|done]. destruct E; subst. tauto.
  - intros i1 k1 i2 k2. rewrite !Hblk. intros Hne E. repeat case_decide; try done.
    by apply (c_inj _ H).
  - intros x Hx. rewrite Hbit'. intros [Hne Hbx]%andb_true_iff. apply negb_true_iff, Z.eqb_neq in Hne.
    destruct (c_used _ H x Hx Hbx) as (i' & k' & E). exists i', k'. rewrite Hblk, decide_False; [done|].
    intros [<- <-]. fold b in E; congruence.
  - intros x Hx. rewrite Hbit', (c_low _ H) by done. rewrite andb_true_r. apply negb_true_iff, Z.eqb_neq. lia.
  - cbn [sb with_inodes s' s1 add_free_blocks with_sb free_blocks with_bitmap].
    pose proof (count_bounds (fun b => negb (bit s b)) LBA_DATA_START PAFS_TOTAL_BLOCKS ltac:(done)) as Hcb.
    rewrite <- (c_count _ H) in Hcb. unfold LBA_DATA_START, PAFS_TOTAL_BLOCKS in Hcb.
    rewrite u32_small by lia. rewrite (c_count _ H). symmetry. apply (count_flip _ _ _ _ b); [done| | |].
    + rewrite Hbit', Z.eqb_refl. done.
    + by rewrite Hbit.
    + intros x _ Hx. rewrite Hbit'. by rewrite (proj2 (Z.eqb_neq x b) Hx).
  - intros i' Hf. destruct (decide (i' = i)) as [->|Hne].
    + exfalso. rewrite Hty in Hf. apply Hb. by apply free_blk.
    + rewrite Hind in Hf |- * by done. by apply (c_free _ H).
  - pose proof (c_root _ H). destruct (decide (0 = i)) as [<-|]; [congruence|]. by rewrite Hind.
Qed.

(** The loop gives every block of the file back; the disk is not written. *)
Lemma free_file_blocks_ok s i :
  core_ok s -> ino_ok i ->
  exists s', free_file_blocks i s = Some s' /\ core_ok s' /\ touches i s s' /\ disk s' = disk s /\
    inode_ok (ind s' i) /\ (forall k, blk s' i k = 0).
Proof.
  intros H Hi.
  destruct (for_do_rule (fun k s' => core_ok s' /\ touches i s s' /\ disk s' = disk s /\
      forall k', blk s' i k' = if decide (k' < k) then 0 else blk s i k') 0 14
      (fun k s => file ← aget (inodes s) i; b ← aget (i_blocks file) k;
         if b =? 0 then Some s else
         bm ← pafs_bitmap_clear b (block_bitmap s);
         set_block i k 0 (add_free_blocks 1 (with_bitmap bm s))) s) as (s' & E & H' & T & Hdk & Hblk).
  - done.
  - split_and!; auto using touches_refl. intros k'. case_decide; [|done].
    destruct (decide (blk s i k' = 0)) as [|Hne]; [done|]. apply (blk_range _ _ _ H) in Hne. lia.
  - intros k s1 Hk (H1 & T1 & Hdk & Hblk). rewrite (aget_ind s1 i) by (done || apply H1). cbn [mbind option_bind].
    rewrite (aget_dblk (ind s1 i) k) by (done || by apply ind_ok). cbn [mbind option_bind]. fold (blk s1 i k).
    destruct (Z.eqb_spec (blk s1 i k) 0) as [Ez|Ez].
    + exists s1. split_and!; auto. intros k'. rewrite Hblk. repeat case_decide; try done; try lia.
      assert (k' = k) as -> by lia. rewrite Hblk, decide_False in Ez by lia. done.
    + destruct (release_ok s1 i k H1 Ez) as (bm & l & -> & Hset & H2 & T2 & _ & Hblk2). cbn [mbind option_bind].
      rewrite Hset. eexists; split; [done|]. split_and!; auto; [by eapply touches_trans|].
      intros k'. rewrite Hblk2, Hblk. repeat case_decide; try done; try lia.
  - exists s'. unfold free_file_blocks. rewrite E. split_and!; auto; [by apply ind_ok|].
    intros k. rewrite Hblk. case_decide; [done|]. destruct (decide (blk s i k = 0)) as [|Hne]; [done|].
    apply (blk_range _ _ _ H) in Hne. lia.
Qed.

Lemma sync_from s s' i :
  synced [] s -> length (inodes s) = 128%nat -> length (inodes s') = 128%nat -> disk s' = disk s ->
  (forall i', i' <> i -> ind s' i' = ind s i') -> synced [1 + i / 8; LBA_BITMAP; LBA_SUPERBLOCK] s'.
Proof.
  intros Hs Hl Hl' Hdk Hind lba Hlba Hd. rewrite !elem_of_cons in Hd.
  pose proof (sync_inodes s (inodes s') i [] Hl Hl' Hind Hs lba Hlba) as Hm.
  rewrite list_elem_of_singleton in Hm. specialize (Hm ltac:(tauto)).
  unfold meta_at, sect in *. rewrite Hdk.
  destruct (Z.eqb_spec lba LBA_SUPERBLOCK); [tauto|]. destruct (Z.eqb_spec lba LBA_BITMAP); [tauto|]. exact Hm.
Qed.

(** The three saves at the end of [pafs_delete]. *)
Lemma delete_saves s i :
  core_ok s -> ino_ok i -> synced [1 + i / 8; LBA_BITMAP; LBA_SUPERBLOCK] s ->
  exists s', (s ← pafs_save_superblock s; s ← pafs_save_bitmap s; pafs_save_inode i s) = Some s' /\
    core_ok s' /\ synced [] s' /\ (forall i', touches i' s s') /\ (forall i, ind s' i = ind s i) /\
    (forall b, data_lba b -> sect s' b = sect s b).
Proof.
  intros H Hi Hs.
  destruct (save_superblock_ok s [LBA_BITMAP; 1 + i / 8]) as (d1 & -> & H1 & Hs1 & Hsec1); [done| |].
  { eapply synced_sub; [exact Hs|]. intros x. rewrite !elem_of_cons. tauto. }
  cbn [mbind option_bind]. destruct (save_bitmap_ok (with_disk d1 s) [1 + i / 8]) as (d2 & -> & H2 & Hs2 & Hsec2); [done|done|].
  cbn [mbind option_bind].
  destruct (save_inode_ok (with_disk d2 (with_disk d1 s)) i []) as (d3 & -> & H3 & Hs3 & Hsec3); [done|done|done|].
  assert (E : forall b, data_lba b -> sec d3 b = sect s b).
  { intros b Hb. rewrite Hsec3, <- Hsec1 by done. unfold sect. cbn [disk with_disk]. rewrite Hsec2 by done. done. }
  eexists; split; [done|]. split_and!; auto; try done.
  intros i'. exact (touches_disk i' s d3 H E).
Qed.

(** The state after the entry at position [p] of [parent], for inode [ino], was deleted. *)
Record deleted dirs parent p ino s s' : Prop := {
  dl_ok : pafs_ok (upd_dir parent (removed p (dirs parent)) dirs) s';
  dl_ind : ind s' ino = blank_inode;
  dl_parent : i_type (ind s' parent) = i_type (ind s parent);
  dl_other : forall i, i <> ino -> i <> parent -> ind s' i = ind s i /\
    forall k, blk s i k <> 0 -> sect s' (blk s i k) = sect s (blk s i k);
  dl_lock : pafs_lock s' = Spinlock 0 (eflags s) /\ eflags s' = eflags s
}.

(** Freeing the blocks and the inode of the file, before the entry goes. *)
Lemma free_inode_ok dirs s ino :
  pafs_ok dirs s -> 0 < ino < PAFS_MAX_INODES ->
  exists s1 s2, free_file_blocks ino s = Some s1 /\
    upd_inode ino (fun d => set_size 0 (set_type PAFS_TYPE_FREE d)) s1 = Some s2 /\
    core_ok s2 /\ disk s2 = disk s /\ pafs_lock s2 = pafs_lock s /\ root_inode (sb s2) = 0 /\
    synced [1 + ino / 8; LBA_BITMAP; LBA_SUPERBLOCK] s2 /\
    (forall i, ind s2 i = if decide (ino = i) then blank_inode else ind s i).
Proof.
  intros [H Hs Hrt _] Hr. assert (Hi : ino_ok ino) by (unfold ino_ok; lia).
  destruct (free_file_blocks_ok s ino H Hi) as (s1 & -> & H1 & T1 & Hdk & Hok & Hz).
  set (g := fun d => set_size 0 (set_type PAFS_TYPE_FREE d)).
  assert (E : g (ind s1 ino) = blank_inode).
  { unfold g, set_size, set_type, blank_inode. cbn [i_type i_blocks]. rewrite (zero_blocks _ Hok); [done|].
    intros k _. apply Hz. }
  destruct (upd_inode_ok s1 ino g (core_table _ H1) Hi) as (l & Eu & Hl & Hind); [rewrite E; apply blank_ok|].
  assert (Hall : forall i, ind (with_inodes l s1) i = if decide (ino = i) then blank_inode else ind s i).
  { intros i. rewrite Hind, E. case_decide; [done|]. by apply (to_ind _ _ _ T1). }
  exists s1, (with_inodes l s1). split; [done|]. split; [exact Eu|].
  assert (H2 : core_ok (with_inodes l s1)).
  { assert (Hblk : forall i k, blk (with_inodes l s1) i k = blk s1 i k).
    { intros i k. unfold blk. rewrite Hind, E. case_decide; [subst; rewrite blank_dblk; symmetry; apply Hz|done]. }
    destruct H1 as [? ? ? ? ? ? Hown Hinj Hused ? ? Hfree ? Hroot]. constructor; try done; try apply Hl.
    + intros i' k. rewrite Hblk. apply Hown.
    + intros i1 k1 i2 k2. rewrite !Hblk. apply Hinj.
    + intros b Hb Hbit. destruct (Hused b Hb Hbit) as (i' & k & E'). exists i', k. by rewrite Hblk.
    + intros i'. rewrite Hind, E. case_decide; [done|apply Hfree].
    + rewrite Hind, decide_False by lia. apply Hroot. }
  split_and!; auto.
  - by destruct (to_lock _ _ _ T1).
  - cbn [sb with_inodes]. by rewrite (to_root _ _ _ T1).
  - apply (sync_from s); [done|apply H|apply Hl|done|]. intros i' Hi'. by rewrite Hall, decide_False.
Qed.

Lemma delete_ok dirs s parent name nm :
  pafs_ok dirs s -> ino_ok parent -> i_type (ind s parent) = PAFS_TYPE_DIR -> content name = Some nm ->
  match lookup_dir nm (dirs parent) with
  | None => pafs_delete parent name s = Some (-1, unlocked s)
  | Some (p, (ino, _)) =>
      if decide (i_type (ind s ino) = PAFS_TYPE_DIR /\ dirs ino <> [])
      then pafs_delete parent name s = Some (-2, unlocked s)
      else exists s', pafs_delete parent name s = Some (0, s') /\ deleted dirs parent p ino s s'
  end.
Proof.
  intros P Hp Ht Hn. set (s0 := lock s).
  assert (P0 : pafs_ok dirs s0) by by apply pafs_ok_lock. pose proof P0 as [H0 Hs0 Hrt0 Hd0].
  destruct (find_entry_ok s0 parent (dirs parent) name nm H0 Hp Ht (Hd0 _ Hp Ht) Hn) as [Hf Hrange].
  unfold pafs_delete. fold s0. rewrite Hf. cbn [mbind option_bind]. clear Hf.
  destruct (lookup_dir nm (dirs parent)) as [[p [ino nm']]|] eqn:El; [|done].
  specialize (Hrange p _ eq_refl). cbn [fst] in *. rewrite (proj2 (Z.eqb_neq ino (-1))) by lia.
  assert (Hi : ino_ok ino) by (unfold ino_ok; lia).
  rewrite (aget_ind s0 ino) by (done || apply H0). cbn [mbind option_bind].
  unfold pafs_is_dir_empty. rewrite (aget_ind s0 ino) by (done || apply H0). cbn [mbind option_bind].
  assert (Hcond : (i_type (ind s0 ino) =? PAFS_TYPE_DIR) &&
      negb (if negb (i_type (ind s0 ino) =? PAFS_TYPE_DIR) then false else i_size (ind s0 ino) =? 0) =
      bool_decide (i_type (ind s ino) = PAFS_TYPE_DIR /\ dirs ino <> [])).
  { change (ind s0) with (ind s). destruct (Z.eqb_spec (i_type (ind s ino)) PAFS_TYPE_DIR) as [E|E]; cbn [negb andb].
    - rewrite (de_size _ _ _ (p_dirs _ _ P ino Hi E)). destruct (dirs ino) as [|e l]; cbn [length].
      + symmetry. apply bool_decide_eq_false. by intros [_ ?].
      + rewrite (proj2 (Z.eqb_neq _ 0)) by lia. symmetry. by apply bool_decide_eq_true.
    - symmetry. apply bool_decide_eq_false. by intros [? _]. }
  rewrite Hcond. clear Hcond. destruct (decide (i_type (ind s ino) = PAFS_TYPE_DIR /\ dirs ino <> [])) as [Hc|Hc];
    [by rewrite bool_decide_eq_true_2|rewrite bool_decide_eq_false_2 by done].
  assert (Hne : parent <> ino).
  { intros ->. apply Hc. split; [done|]. intros E. by rewrite E in El. }
  destruct (free_inode_ok dirs s0 ino P0 Hrange) as (s1 & s2 & -> & E2 & H2 & Hdk & Hlk & Hrt2 & Hs2 & Hind2).
  cbn [mbind option_bind]. rewrite E2. cbn [mbind option_bind]. set (s2' := add_free_inodes 1 s2).
  assert (Hsame : forall i, i <> ino -> ind s2 i = ind s i) by (intros i Hi'; rewrite Hind2; by rewrite decide_False).
  assert (Hd2 : dents s2' parent (dirs parent)).
  { apply (dents_same s0); [by apply Hsame| |by apply Hd0]. intros k _. unfold sect, s2'. by rewrite <- Hdk. }
  destruct (remove_entry_ok s2' parent (dirs parent) name nm p (ino, nm') [1 + ino / 8; LBA_BITMAP; LBA_SUPERBLOCK])
    as (s3 & -> & H3 & T3 & Hs3 & Hd3); [by apply core_free_inodes|done| |done|done|done|by apply synced_cons|].
  { change (ind s2') with (ind s2). by rewrite Hsame by congruence. }
  cbn [mbind option_bind].
  destruct (delete_saves s3 ino H3 Hi Hs3) as (s4 & E4 & H4 & Hs4 & T4 & Hi4 & Hsec4).
  destruct (pafs_save_superblock s3) as [s3a|]; [|discriminate E4]. cbn [mbind option_bind] in *.
  destruct (pafs_save_bitmap s3a) as [s3b|]; [|discriminate E4]. cbn [mbind option_bind] in *.
  rewrite E4. cbn [mbind option_bind]. exists (unlock s4). split; [done|].
  pose proof (touches_trans _ _ _ _ T3 (T4 parent)) as T.
  assert (Hother : forall i, i <> ino -> i <> parent -> ind s4 i = ind s i /\
      forall k, blk s i k <> 0 -> sect s4 (blk s i k) = sect s (blk s i k)).
  { intros i Hin Hip. assert (Ei : ind s2' i = ind s i) by by apply Hsame. split.
    - by rewrite (to_ind _ _ _ T).
    - intros k Hk. assert (Eb : blk s2' i k = blk s i k) by (unfold blk; by rewrite Ei).
      rewrite <- Eb in *. rewrite (to_sect _ _ _ T) by done.
      change (sec (disk s2) (blk s2' i k) = sec (disk s0) (blk s2' i k)). by rewrite Hdk. }
  split.
  - apply pafs_ok_lock. split; [done|done|by rewrite (to_root _ _ _ T)|]. intros i Hii Hti. unfold upd_dir. case_decide as Hcd.
    + subst i. apply (dents_same s3); [apply Hi4| |done]. intros k Hk. apply Hsec4. by apply (c_own _ H3).
    + assert (Hin : i <> ino).
      { intros ->. rewrite (to_ind _ _ _ T) in Hti by congruence. change (ind s2' ino) with (ind s2 ino) in Hti.
        rewrite Hind2, decide_True in Hti by done. done. }
      destruct (Hother i Hin) as [Ei Es]; [congruence|]. apply (dents_same s); [done|done|].
      apply P; [done|]. by rewrite <- Ei.
  - change (ind s4 ino = blank_inode). rewrite (to_ind _ _ _ T) by congruence.
    change (ind s2' ino) with (ind s2 ino). by rewrite Hind2, decide_True.
  - change (i_type (ind s4 parent) = i_type (ind s parent)). rewrite (to_type _ _ _ T).
    change (ind s2' parent) with (ind s2 parent). by rewrite Hsame.
  - exact Hother.
  - change (pafs_lock (unlock s4)) with (Spinlock 0 (sl_flags (pafs_lock s4))).
    change (eflags (unlock s4)) with (sl_flags (pafs_lock s4)).
    destruct (to_lock _ _ _ T) as [-> _]. change (pafs_lock s2') with (pafs_lock s2). by rewrite Hlk.
Qed.
End ops.
