(* ===== verification/PafsFiles.v ===== *)
(** * PafsFiles: file contents, formatting and mounting (kernel/fs/pafs.c)

    What [pafs_write] stores and [pafs_read] and [pafs_vfs_read] return, the file
    system [pafs_format] makes, the state a mount rebuilds from the disk, and the
    invariant of every sequence of operations. *)

From S2P Require Export PafsOps.

Section files.
Context {D : Type} `{!BlockDev D}.
#[local] Abbreviation pafs := (pafs D).
Implicit Types (s : pafs) (i k b : Z) (es : list dirent) (dirs : Z -> list dirent).

(** Inode [i] is a file of [n] bytes, the first [n] of [data]. *)
Record file_is s i (data : list Z) (n : Z) : Prop := {
  fi_type : i_type (ind s i) = PAFS_TYPE_FILE;
  fi_size : i_size (ind s i) = n;
  fi_data : stored s i data n
}.

(** The end of [pafs_write]: the loop, the new size, the inode. *)
Lemma write_tail_ok dirs s i data len :
  pafs_ok dirs s -> ino_ok i -> i_type (ind s i) = PAFS_TYPE_FILE -> len <= Z.of_nat (length data) ->
  exists w s1 s2 s3, write_loop i data len s = Some (w, s1) /\ upd_inode i (set_size w) s1 = Some s2 /\
    pafs_save_inode i s2 = Some s3 /\ pafs_ok dirs s3 /\ file_is s3 i data w /\
    0 <= w <= Z.min (Z.max 0 len) 7168 /\
    (14 <= free_blocks (sb s) -> w = Z.min (Z.max 0 len) 7168) /\
    pafs_lock s3 = pafs_lock s /\ (forall i', i' <> i -> ind s3 i' = ind s i' /\
      forall k, blk s i' k <> 0 -> sect s3 (blk s i' k) = sect s (blk s i' k)).
Proof.
  intros [H Hs Hrt Hd] Hi Ht Hl.
  destruct (write_loop_ok s i data len [] Hl Hi Ht H (synced_cons _ _ _ Hs))
    as (w & s1 & -> & H1 & T1 & Hs1 & Hst & Hw & Hfull).
  assert (Ht1 : i_type (ind s1 i) = PAFS_TYPE_FILE) by by rewrite (to_type _ _ _ T1).
  pose proof (ind_ok s1 i H1 Hi) as Hok1.
  destruct (upd_keep_ok s1 i (set_size w) [1 + i / 8]) as (l & Eu & H2 & Hs2 & Hind2 & Hblk2); try done.
  { split; [apply Hok1|apply u32_range|apply Hok1]. }
  { cbn. by rewrite Ht1. }
  { intros ->. rewrite (c_root _ H) in Ht. done. }
  set (s2 := with_inodes l s1) in *.
  destruct (save_inode_ok s2 i [] H2 Hi (synced_dup _ _ _ Hs2)) as (d & Es & H3 & Hs3 & Hsec3).
  assert (Hother : forall i', i' <> i -> ind (with_disk d s2) i' = ind s i' /\
      forall k, blk s i' k <> 0 -> sect (with_disk d s2) (blk s i' k) = sect s (blk s i' k)).
  { intros i' Hi'. change (ind (with_disk d s2) i') with (ind s2 i').
    rewrite Hind2, decide_False by congruence. split; [by apply (to_ind _ _ _ T1)|].
    intros k Hk. rewrite <- (to_sect _ _ _ T1) by done. apply Hsec3. by apply (c_own _ H). }
  exists w, s1, s2, (with_disk d s2). split; [done|]. split; [exact Eu|]. split; [exact Es|]. split_and!; auto; try lia.
  - split; [done|done|exact (eq_trans (to_root _ _ _ T1) Hrt)|]. intros i' Hi' Hti'.
    assert (Hne : i' <> i).
    { intros ->. change (ind (with_disk d s2) i) with (ind s2 i) in Hti'. rewrite Hind2, decide_True in Hti' by done.
      cbn in Hti'. by rewrite Ht1 in Hti'. }
    destruct (Hother i' Hne) as [Ei Ese]. apply (dents_same s); [done|done|]. apply Hd; [done|]. by rewrite <- Ei.
  - assert (Ei : ind (with_disk d s2) i = set_size w (ind s1 i))
      by (change (ind (with_disk d s2) i) with (ind s2 i); by rewrite Hind2, decide_True).
    split; [by rewrite Ei|rewrite Ei; cbn; apply u32_small; lia|].
    apply (stored_frame s1); [done|]. intros j Hj. split; [apply Hblk2|]. apply Hsec3. by apply (c_own _ H1).
  - change (pafs_lock (with_disk d s2)) with (pafs_lock s1). by destruct (to_lock _ _ _ T1).
Qed.

Lemma lookup_snoc nm es ino :
  lookup_dir nm es = None -> lookup_dir nm (es ++ [(ino, nm)]) = Some (length es, (ino, nm)).
Proof.
  intros H. apply list_find_Some. rewrite lookup_app_r, Nat.sub_diag by lia. split; [done|]. split; [done|].
  intros j y Hj Hlt. rewrite lookup_app_l in Hj by lia. apply list_find_None in H.
  exact (Forall_lookup_1 _ _ j y H Hj).
Qed.

Lemma root_dir s : core_ok s -> ino_ok 0 /\ i_type (ind s 0) = PAFS_TYPE_DIR.
Proof. intros H. split; [done|apply H]. Qed.

(** ** Writing a file *)

Record written dirs name_content (data : list Z) (len : Z) s (r : Z) dirs' s' : Prop := {
  wr_ok : pafs_ok dirs' s';
  wr_range : 0 <= r <= Z.min (Z.max 0 len) 7168;
  wr_full : 15 <= free_blocks (sb s) -> r = Z.min (Z.max 0 len) 7168;
  wr_file : exists p ino,
              ((length name_content <= 27)%nat -> lookup_dir name_content (dirs' 0) = Some (p, (ino, name_content))) /\
              file_is s' ino data r /\
              (forall i, i <> ino -> i <> 0 -> ind s' i = ind s i /\
                 forall k, blk s i k <> 0 -> sect s' (blk s i k) = sect s (blk s i k))
}.

Lemma write_ok dirs s name nm data len :
  pafs_ok dirs s -> content name = Some nm -> len <= Z.of_nat (length data) ->
  exists r dirs' s', pafs_write name data len s = Some (r, s') /\
    ((r = -1 /\ pafs_ok dirs s' /\ (forall i, ind s' i = ind s i) /\ disk s' = disk s) \/
     written dirs nm data len s r dirs' s') /\
    eflags s' = match lookup_dir nm (dirs 0) with Some _ => eflags s | None => cli (eflags s) end.
Proof.
  intros P Hn Hl. set (s0 := lock s).
  assert (P0 : pafs_ok dirs s0) by by apply pafs_ok_lock. pose proof P0 as [H0 Hs0 Hrt0 Hd0].
  destruct (root_dir s0 H0) as [Hi0 Ht0]. pose proof (Hd0 0 Hi0 Ht0) as Hroot.
  destruct (find_entry_ok s0 0 (dirs 0) name nm H0 Hi0 Ht0 Hroot Hn) as [Hf Hrange].
  unfold pafs_write. fold s0. rewrite Hrt0, Hf. cbn [mbind option_bind]. clear Hf.
  assert (Hfound : forall p ino dirs1 s1, pafs_ok dirs1 s1 -> ino_ok ino -> 0 < ino ->
      ((length nm <= 27)%nat -> lookup_dir nm (dirs1 0) = Some (p, (ino, nm))) -> i_type (ind s1 ino) = PAFS_TYPE_FILE ->
      (15 <= free_blocks (sb s) -> 14 <= free_blocks (sb s1)) ->
      (forall i, i <> ino -> i <> 0 -> ind s1 i = ind s i /\
         forall k, blk s i k <> 0 -> sect s1 (blk s i k) = sect s (blk s i k)) ->
      exists r s', ('(w, s) ← write_loop ino data len s1; s ← upd_inode ino (set_size w) s;
         s ← pafs_save_inode ino s; Some (w, unlock s)) = Some (r, s') /\
        written dirs nm data len s r dirs1 s' /\ eflags s' = sl_flags (pafs_lock s1)).
  { intros p ino dirs1 s1 P1 Hi1 Hpos Hlk Hty Hfr Hoth.
    destruct (write_tail_ok dirs1 s1 ino data len P1 Hi1 Hty Hl)
      as (w & s2 & s3 & s4 & -> & E3 & E4 & P4 & F4 & Hw & Hfull & Hlock & Hoth4).
    cbn [mbind option_bind]. rewrite E3. cbn [mbind option_bind]. rewrite E4. cbn [mbind option_bind].
    exists w, (unlock s4). split; [done|]. split.
    - split; [by apply pafs_ok_lock|done|auto|]. exists p, ino. split; [done|]. split; [by destruct F4|].
      intros i Hi Hi00. destruct (Hoth i Hi Hi00) as [Ei Es]. destruct (Hoth4 i Hi) as [Ei4 Es4].
      split; [by rewrite <- Ei|]. intros k Hk. rewrite <- Es by done.
      assert (Eb : blk s1 i k = blk s i k) by (unfold blk; by rewrite Ei).
      rewrite <- Eb in *. by apply Es4.
    - change (eflags (unlock s4)) with (sl_flags (pafs_lock s4)). by rewrite Hlock. }
  destruct (lookup_dir nm (dirs 0)) as [[p e]|] eqn:El.
  - pose proof (Hrange p e eq_refl) as Hr. rewrite (proj2 (Z.eqb_neq e.1 (-1))) by lia. cbn [mbind option_bind].
    rewrite (proj2 (Z.eqb_neq e.1 (-1))) by lia. assert (Hi : ino_ok e.1) by (unfold ino_ok; lia).
    rewrite (aget_ind s0 e.1) by (done || apply H0). cbn [mbind option_bind].
    destruct (Z.eqb_spec (i_type (ind s0 e.1)) PAFS_TYPE_FILE) as [Et|Et]; cbn [negb].
    + assert (Ee : e.2 = nm) by by apply list_find_Some in El as (_ & ? & _).
      destruct (Hfound p e.1 dirs s0) as (r & s' & -> & Hw & Hef); auto; try lia.
      { intros _. rewrite El. f_equal. by destruct e; cbn in *; subst. }
      { intros. assert (Efb : free_blocks (sb s0) = free_blocks (sb s)) by done. lia. }
      exists r, dirs, s'. split; [done|]. split; [by right|]. rewrite Hef. done.
    + exists (-1), dirs, (unlock s0). split; [done|]. split; [left; split_and!; try done; by apply pafs_ok_lock|done].
  - cbn [Z.eqb Pos.eqb]. destruct (create_ok dirs s0 0 name nm false P0 Hi0 Ht0 Hn)
      as (r & s1 & -> & [(-> & _ & P1 & Hi1 & Hdk & Hlk & Hef)|C]); cbn [mbind option_bind].
    + exists (-1), dirs, (unlock s1). split; [done|]. split; [left; split_and!; try done; by apply pafs_ok_lock|].
      change (eflags (unlock s1)) with (sl_flags (pafs_lock s1)). by rewrite Hlk.
    + destruct C as [Hr Hfr _ P1 Hind Hoth _ Hfb [Hlk Hef]]. rewrite (proj2 (Z.eqb_neq r (-1))) by lia.
      assert (Hi : ino_ok r) by (unfold ino_ok; lia).
      rewrite (aget_ind s1 r) by (done || apply P1). cbn [mbind option_bind]. rewrite Hind. cbn [i_type inode_type].
      change (negb (PAFS_TYPE_FILE =? PAFS_TYPE_FILE)) with false. cbn iota.
      set (dirs1 := upd_dir 0 (dirs 0 ++ [(r, take 27 nm)]) (upd_dir r [] dirs)) in *.
      destruct (Hfound (length (dirs 0)) r dirs1 s1) as (w & s' & -> & Hw & Hef'); auto; try lia.
      { intros Hlen. unfold dirs1, upd_dir. rewrite decide_True by done. rewrite take_ge by lia. by apply lookup_snoc. }
      { by rewrite Hind. }
      { intros. assert (Efb : free_blocks (sb s0) = free_blocks (sb s)) by done. lia. }
      exists w, dirs1, s'. split; [done|]. split; [by right|]. rewrite Hef', Hlk. done.
Qed.

(** ** Reading a file *)

Lemma read_ok dirs s name nm p ino data n buffer max_len :
  pafs_ok dirs s -> content name = Some nm -> lookup_dir nm (dirs 0) = Some (p, (ino, nm)) ->
  file_is s ino data n -> 0 <= n <= 7168 -> n <= Z.of_nat (length data) ->
  0 <= max_len <= Z.of_nat (length buffer) ->
  let m := Z.min n max_len in
  exists buffer', pafs_read name buffer max_len s = Some (m, buffer', unlocked s) /\
    length buffer' = length buffer /\ take (Z.to_nat m) buffer' = take (Z.to_nat m) data /\
    (m < max_len -> aget buffer' m = Some 0).
Proof.
  intros P Hn El [Ht Hsz Hst] Hn0 Hdata Hmax m. set (s0 := lock s).
  assert (P0 : pafs_ok dirs s0) by by apply pafs_ok_lock. pose proof P0 as [H0 Hs0 Hrt0 Hd0].
  destruct (root_dir s0 H0) as [Hi0 Ht0].
  destruct (find_entry_ok s0 0 (dirs 0) name nm H0 Hi0 Ht0 (Hd0 0 Hi0 Ht0) Hn) as [Hf Hrange].
  unfold pafs_read. fold s0. rewrite Hrt0, Hf, El. cbn [mbind option_bind fst]. clear Hf.
  specialize (Hrange p _ El). cbn [fst] in Hrange. rewrite (proj2 (Z.eqb_neq ino (-1))) by lia.
  assert (Hi : ino_ok ino) by (unfold ino_ok; lia).
  rewrite (aget_ind s0 ino) by (done || apply H0). cbn [mbind option_bind]. change (ind s0) with (ind s).
  rewrite Ht. change (negb (PAFS_TYPE_FILE =? PAFS_TYPE_FILE)) with false. cbn iota. cbn zeta.
  rewrite Hsz, i32_small by lia.
  replace (if max_len <? n then max_len else n) with m by (destruct (Z.ltb_spec max_len n); lia).
  change (ind s ino) with (ind s0 ino). rewrite (read_loop_ok s0 ino data n m buffer) by (done || lia).
  cbn [mbind option_bind]. set (buf1 := take (Z.to_nat m) data ++ drop (Z.to_nat m) buffer).
  assert (Hl1 : length (take (Z.to_nat m) data) = Z.to_nat m) by (rewrite length_take; lia).
  assert (Hb1 : length buf1 = length buffer) by (unfold buf1; rewrite length_app, Hl1, length_drop; lia).
  assert (Htk : take (Z.to_nat m) buf1 = take (Z.to_nat m) data) by (unfold buf1; by apply take_app_length').
  destruct (Z.ltb_spec m max_len) as [Hm|Hm].
  - rewrite aset_eq by lia. cbn [mbind option_bind]. eexists; split; [done|]. split_and!.
    + by rewrite length_insert.
    + rewrite take_insert_ge by lia. done.
    + intros _. apply (aget_aset_eq buf1). apply aset_eq. lia.
  - cbn [mbind option_bind]. eexists; split; [done|]. split_and!; [done|done|lia].
Qed.
End files.
