(* ===== verification/PafsMount.v ===== *)
(** * PafsMount: formatting and mounting (kernel/fs/pafs.c)

    [pafs_format] makes an empty file system and writes all of its metadata;
    [pafs_init] finds it again on the disk and rebuilds the same tables. *)

From S2P Require Export PafsFiles.

Section mount.
Context {D : Type} `{!BlockDev D}.
#[local] Abbreviation pafs := (pafs D).
Implicit Types (s : pafs) (i k b : Z) (dirs : Z -> list dirent).

(** ** Writing all metadata *)

Lemma save_metadata_ok s :
  core_ok s ->
  exists d, save_metadata s = Some (with_disk d s) /\ core_ok (with_disk d s) /\ synced [] (with_disk d s) /\
    forall b, data_lba b -> sec d b = sect s b.
Proof.
  intros H.
  destruct (save_superblock_ok s (seqZ 1 17) H) as (d0 & E0 & H0 & Hs0 & Hsec0).
  { intros lba Hl Hd. exfalso. apply Hd. rewrite elem_of_cons, elem_of_seqZ.
    unfold LBA_DATA_START, LBA_SUPERBLOCK in *. lia. }
  unfold save_metadata. rewrite E0. cbn [mbind option_bind].
  destruct (for_do_rule (fun k s' => exists d, s' = with_disk d s /\ core_ok s' /\
      synced (seqZ (1 + k) (17 - k)) s' /\ forall b, data_lba b -> sec d b = sect s b) 0 LBA_INODES_COUNT
      (fun i s => write_block (LBA_INODES_START + i) (encode_inodes (Z.to_nat i) (inodes s)) s) (with_disk d0 s))
    as (s1 & E1 & d1 & -> & H1 & Hs1 & Hsec1).
  - done.
  - by exists d0.
  - intros k s1 Hk (d & -> & H1 & Hs1 & Hsec). unfold LBA_INODES_COUNT, LBA_INODES_START in *.
    destruct (write_meta_ok (with_disk d s) (1 + k) (encode_inodes (Z.to_nat k) (inodes s)) (seqZ (1 + (k + 1)) (17 - (k + 1))))
      as (d2 & E2 & H2 & Hs2 & Hsec2); [done|unfold LBA_DATA_START; lia|apply encode_inodes_sector; [apply H|apply H|lia]| | |].
    + intros d2 Hd2. unfold meta_at, LBA_SUPERBLOCK, LBA_BITMAP.
      rewrite (proj2 (Z.eqb_neq (1 + k) 0)), (proj2 (Z.eqb_neq (1 + k) 17)) by lia.
      unfold sect. cbn [disk with_disk inodes]. rewrite Hd2. f_equal. lia.
    + eapply synced_sub; [exact Hs1|]. intros x. rewrite elem_of_cons, !elem_of_seqZ. lia.
    + exists (with_disk d2 (with_disk d s)). split; [exact E2|]. exists d2. split_and!; auto.
      intros b Hb. rewrite Hsec2 by done. by apply Hsec.
  - rewrite E1. cbn [mbind option_bind].
    destruct (save_bitmap_ok (with_disk d1 s) [] H1) as (d2 & -> & H2 & Hs2 & Hsec2); [exact Hs1|].
    exists d2. split_and!; auto. intros b Hb. rewrite Hsec2 by done. by apply Hsec1.
Qed.

(** ** Formatting *)

(** The shape of the memory [pafs_init] allocates: nothing is known of its contents. *)
Record raw_ok s : Prop := {
  raw_store : store_ok (disk s);
  raw_tail : length (sb_tail s) = 488%nat;
  raw_inodes : length (inodes s) = 128%nat;
  raw_bitmap : length (block_bitmap s) = 512%nat
}.

Definition fresh_sb (r : Z) : pafs_superblock :=
  SB PAFS_MAGIC PAFS_TOTAL_BLOCKS PAFS_MAX_INODES (PAFS_TOTAL_BLOCKS - LBA_DATA_START) PAFS_MAX_INODES r.

Lemma clear_inodes_ok s :
  length (inodes s) = 128%nat ->
  for_do 0 PAFS_MAX_INODES (fun i s => upd_inode i (fun _ => blank_inode) s) s =
    Some (with_inodes (replicate 128 blank_inode) s).
Proof.
  intros Hl.
  destruct (for_do_rule (fun k s' => exists l, s' = with_inodes l s /\ length l = 128%nat /\
      forall j, (j < Z.to_nat k)%nat -> l !! j = Some blank_inode) 0 PAFS_MAX_INODES
      (fun i s => upd_inode i (fun _ => blank_inode) s) s) as (s' & -> & l & -> & Hl' & Hall).
  - done.
  - exists (inodes s). split; [by destruct s|]. split; [done|]. intros j Hj. lia.
  - intros k s' Hk (l & -> & Hl' & Hall). unfold upd_inode. cbn [inodes with_inodes].
    unfold PAFS_MAX_INODES in Hk. destruct (aget_is_Some l k) as [x ->]; [lia|]. cbn [mbind option_bind].
    rewrite aset_eq by lia. cbn [mbind option_bind]. eexists; split; [done|].
    exists (<[Z.to_nat k := blank_inode]> l). split; [done|]. split; [by rewrite length_insert|].
    intros j Hj. destruct (decide (j = Z.to_nat k)) as [->|]; [apply list_lookup_insert_eq; lia|].
    rewrite list_lookup_insert_ne by done. apply Hall. lia.
  - f_equal. f_equal. apply list_eq_same_length with 128%nat; [done|done|]. intros j x y Hj Hx Hy.
    rewrite Hall in Hx by (unfold PAFS_MAX_INODES; lia). apply lookup_replicate in Hy as [-> _]. congruence.
Qed.

Lemma clear_bitmap_ok (bm : list Z) :
  length bm = 512%nat -> for_do 0 512 (fun i bm => aset bm i 0) bm = Some (replicate 512 0).
Proof.
  intros Hl.
  destruct (for_do_rule (fun k bm' => length bm' = 512%nat /\ forall j, (j < Z.to_nat k)%nat -> bm' !! j = Some 0)
      0 512 (fun i bm => aset bm i 0) bm) as (bm' & -> & Hl' & Hall).
  - done.
  - split; [done|]. intros j Hj. lia.
  - intros k bm' Hk (Hl' & Hall). rewrite aset_eq by lia. eexists; split; [done|].
    split; [by rewrite length_insert|]. intros j Hj.
    destruct (decide (j = Z.to_nat k)) as [->|]; [apply list_lookup_insert_eq; lia|].
    rewrite list_lookup_insert_ne by done. apply Hall. lia.
  - f_equal. apply list_eq_same_length with 512%nat; [by rewrite length_replicate|done|]. intros j x y Hj Hx Hy.
    rewrite Hall in Hx by lia. apply lookup_replicate in Hy as [-> _]. congruence.
Qed.

(** The bitmap of an empty disk: the metadata blocks are in use. *)
Lemma meta_bitmap_ok :
  exists bm, for_do 0 LBA_DATA_START pafs_bitmap_set (replicate 512 0) = Some bm /\ bytes_ok bm /\
    length bm = 512%nat /\ forall b, bm_bit bm b = (0 <=? b) && (b <? LBA_DATA_START).
Proof.
  assert (Hz : bytes_ok (replicate 512 0)) by (apply Forall_replicate; unfold byte_ok; lia).
  destruct (bm_range_rule pafs_bitmap_set (fun _ _ => true) (replicate 512 0) 0 LBA_DATA_START)
    as (bm & E & Hby & Hlen & Hbits); [done|done|rewrite length_replicate; unfold LBA_DATA_START; lia| |].
  - intros n bm0 Hby Hlen Hn. destruct (bm_set_spec bm0 n Hby) as (bm' & E & ? & ? & Hbits).
    { rewrite Hlen, length_replicate. unfold LBA_DATA_START in Hn. lia. }
    exists bm'. split_and!; [exact E|done|done|]. intros m. rewrite Hbits. by destruct (m =? n).
  - exists bm. split_and!; [exact E|done|by rewrite Hlen, length_replicate|]. intros b. rewrite Hbits.
    destruct ((0 <=? b) && (b <? LBA_DATA_START)); [done|]. unfold bm_bit, aget.
    destruct (b / 8 <? 0); [done|]. destruct (replicate 512 0 !! Z.to_nat (b / 8)) as [x|] eqn:Ex; [|done].
    apply lookup_replicate in Ex as [-> _]. apply Z.testbit_0_l.
Qed.

(** The state after the root inode was taken, before its first block. *)
Lemma format_core s bm :
  raw_ok s -> bytes_ok bm -> length bm = 512%nat -> (forall b, bm_bit bm b = (0 <=? b) && (b <? LBA_DATA_START)) ->
  let root := Inode PAFS_TYPE_DIR 0 (replicate 14 0) in
  let s1 := with_bitmap bm (with_inodes (<[0%nat := root]> (replicate 128 blank_inode)) (with_sb (fresh_sb (root_inode (sb s))) s)) in
  core_ok s1 /\ (forall i, ind s1 i = if decide (i = 0) then root else blank_inode) /\ forall i k, blk s1 i k = 0.
Proof.
  intros [Hst Htl _ _] Hby Hlen Hbits root s1.
  assert (Hind : forall i, ind s1 i = if decide (i = 0) then root else blank_inode).
  { intros i. unfold ind, s1. cbn [inodes with_bitmap with_inodes]. unfold aget.
    destruct (Z.ltb_spec i 0); [by rewrite decide_False by lia|]. case_decide as Hi; [by subst|].
    rewrite list_lookup_insert_ne by lia.
    destruct (replicate 128 blank_inode !! Z.to_nat i) as [x|] eqn:E; [|done].
    by apply lookup_replicate in E as [-> _]. }
  assert (Hblk : forall i k, blk s1 i k = 0).
  { intros i k. unfold blk. rewrite Hind. case_decide; apply blank_dblk. }
  split; [|split; [done|done]]. constructor; try done.
  - change (Forall inode_ok (<[0%nat := root]> (replicate 128 blank_inode))).
    apply Forall_insert; [apply Forall_replicate, blank_ok|by split].
  - intros i k. by rewrite Hblk.
  - intros i k i' k'. by rewrite Hblk.
  - intros b Hb Hbit. change (bm_bit bm b = true) in Hbit. rewrite Hbits in Hbit. bool_hyps.
    unfold data_lba in Hb. lia.
  - intros b Hb. change (bm_bit bm b = true). rewrite Hbits. rewrite (proj2 (Z.leb_le 0 b)), (proj2 (Z.ltb_lt _ _)) by lia. done.
  - change (PAFS_TOTAL_BLOCKS - LBA_DATA_START = count (fun b => negb (bm_bit bm b)) LBA_DATA_START PAFS_TOTAL_BLOCKS).
    rewrite (count_ext _ (fun _ => true)); [vm_compute; done|]. intros b Hb. rewrite Hbits.
    rewrite (proj2 (Z.ltb_ge b _)) by lia. by rewrite andb_false_r.
  - intros i. rewrite Hind. by case_decide.
Qed.

Lemma format_ok s :
  raw_ok s ->
  exists s', pafs_format s = Some s' /\ pafs_ok (fun _ => []) s' /\
    (forall i, 0 < i -> ind s' i = blank_inode) /\
    4077 <= free_blocks (sb s') /\ free_inodes (sb s') = 127 /\
    pafs_lock s' = pafs_lock s /\ eflags s' = eflags s.
Proof.
  intros R. pose proof R as [_ _ Hi Hb]. destruct meta_bitmap_ok as (bm & Ebm & Hby & Hlen & Hbits).
  destruct (format_core s bm R Hby Hlen Hbits) as (H1 & Hind1 & Hblk1).
  set (root := Inode PAFS_TYPE_DIR 0 (replicate 14 0)) in *.
  set (l1 := <[0%nat := root]> (replicate 128 blank_inode)) in *.
  unfold pafs_format. fold (fresh_sb (root_inode (sb s))). cbn zeta. rewrite clear_inodes_ok by done.
  cbn [mbind option_bind].
  change (block_bitmap (with_inodes (replicate 128 blank_inode) (with_sb (fresh_sb (root_inode (sb s))) s)))
    with (block_bitmap s). rewrite (clear_bitmap_ok _ Hb). cbn [mbind option_bind]. rewrite Ebm. cbn [mbind option_bind].
  set (s0 := with_bitmap bm (with_inodes (replicate 128 blank_inode) (with_sb (fresh_sb (root_inode (sb s))) s))).
  change (find_free_inode s0) with (Some 0). cbn [mbind option_bind].
  change (upd_inode 0 (fun _ => Inode PAFS_TYPE_DIR 0 (replicate 14 0)) s0) with (Some (with_inodes l1 s0)).
  cbn [mbind option_bind].
  set (s1 := with_bitmap bm (with_inodes l1 (with_sb (fresh_sb (root_inode (sb s))) s))) in *.
  change (with_inodes l1 s0) with s1.
  destruct (alloc_attach_ok s1 0 0 (seqZ 0 18) H1) as [[_ Hf]|(b & sa & s2 & -> & Hb1 & Hset & Eb & G & _)];
    [done|done|by rewrite Hind1|apply Hblk1| |done|].
  { intros lba Hl Hd. exfalso. apply Hd. rewrite elem_of_cons, elem_of_seqZ. unfold LBA_DATA_START in Hl. lia. }
  cbn [mbind option_bind]. pose proof G as [H2 T2 _ Hnz Hoth _ _].
  destruct (c_own _ H2 0 0 Hnz) as [Hdata _]. rewrite Eb in Hdata, Hnz.
  rewrite (u32_small b) by (unfold data_lba, LBA_DATA_START, PAFS_TOTAL_BLOCKS in Hdata; lia).
  rewrite Hset. cbn [mbind option_bind].
  destruct (write_block_ok s2 b (replicate 512 0)) as (d & -> & Hd & Hsec); [apply H2|by apply data_lba_ok|done|].
  cbn [mbind option_bind]. set (s3 := with_disk d s2) in *.
  assert (H3 : core_ok s3) by by apply core_disk.
  set (s4 := add_free_inodes (-1) (with_sb (SB (magic (sb s3)) (total_blocks (sb s3)) (total_inodes (sb s3))
    (free_blocks (sb s3)) (free_inodes (sb s3)) (u32 0)) s3)).
  assert (H4 : core_ok s4).
  { destruct H3 as [? ? ? ? ? ? ? ? ? ? ? ? Hsb ?]. split; try done. destruct Hsb as (? & ? & ? & _).
    split_and!; try done; apply u32_range. }
  destruct (save_metadata_ok s4 H4) as (d5 & -> & H5 & Hs5 & Hsec5). exists (with_disk d5 s4). split; [done|].
  assert (Hind : forall i, 0 < i -> ind (with_disk d5 s4) i = blank_inode).
  { intros i Hi0. change (ind (with_disk d5 s4) i) with (ind s2 i).
    rewrite (to_ind _ _ _ T2), Hind1 by lia. by rewrite decide_False by lia. }
  split; [|split; [exact Hind|]].
  - split; [done|done|done|]. intros i Hii Hti. destruct (Z.eq_dec i 0) as [->|Hne].
    2:{ rewrite Hind in Hti by (unfold ino_ok in Hii; lia). done. }
    assert (Hb0 : forall k, blk (with_disk d5 s4) 0 k = if decide (k = 0) then b else 0).
    { intros k. change (blk (with_disk d5 s4) 0 k) with (blk s2 0 k). case_decide; [by subst|].
      rewrite Hoth by done. apply Hblk1. }
    split; [|cbn; lia| |cbn; lia].
    + change (i_size (ind s2 0) = 0). rewrite (g_size _ _ _ _ G), Hind1. done.
    + intros k. rewrite Hb0. case_decide as Hk; [subst k|done]. intros _.
      unfold sect. cbn [disk with_disk]. rewrite Hsec5 by done. unfold sect, s4, s3.
      cbn [disk add_free_inodes with_sb with_disk]. rewrite Hsec by by apply data_lba_ok.
      rewrite decide_True by done. apply zero_block_ok.
  - pose proof (g_free _ _ _ _ G) as Hf. change (free_blocks (sb s1)) with 4078 in Hf.
    destruct (to_lock _ _ _ T2) as [Hlk Hef]. split_and!; [exact Hf| |exact Hlk|exact Hef].
    change (u32 (free_inodes (sb s2) + -1) = 127). by rewrite (to_free _ _ _ T2).
Qed.

(** ** The disk format round trips *)

Definition sb_ranges (x : pafs_superblock) : Prop :=
  0 <= magic x < 2 ^ 32 /\ 0 <= total_blocks x < 2 ^ 32 /\ 0 <= total_inodes x < 2 ^ 32 /\
  0 <= free_blocks x < 2 ^ 32 /\ 0 <= free_inodes x < 2 ^ 32 /\ 0 <= root_inode x < 2 ^ 32.

Lemma decode_encode_sb x tail :
  sb_ranges x -> decode_sb (encode_sb x tail) = x /\ drop 24 (encode_sb x tail) = tail.
Proof.
  intros (? & ? & ? & ? & ? & ?). split; [|done]. destruct x as [a b c d e f]. cbn in *.
  unfold decode_sb, word_at, encode_sb. cbn [magic total_blocks total_inodes free_blocks free_inodes root_inode].
  assert (E : forall w r, 0 <= w < 4294967296 -> de32 (le32 w ++ r) = w) by (intros; by apply de32_le32).
  f_equal; [by apply (E a)|by apply (E b)|by apply (E c)|by apply (E d)|by apply (E e)|by apply (E f)].
Qed.

Definition words_ok (d : pafs_inode) : Prop := inode_ok d /\ Forall (fun b => 0 <= b < 2 ^ 32) (i_blocks d).

Lemma word_at_concat (l : list Z) (k : nat) r :
  (k < length l)%nat -> Forall (fun b => 0 <= b < 2 ^ 32) l ->
  word_at (4 * k) (concat (le32 <$> l) ++ r) = default 0 (l !! k).
Proof.
  intros Hk Hl. revert k Hk. induction Hl as [|w l Hw Hl IH]; intros k Hk; [cbn in Hk; lia|].
  destruct k as [|k]; cbn [fmap list_fmap concat].
  - unfold word_at. change (4 * 0)%nat with 0%nat. rewrite drop_0, <- app_assoc. by apply de32_le32.
  - unfold word_at. replace (4 * S k)%nat with (4 + 4 * k)%nat by lia. rewrite <- drop_drop, <- app_assoc.
    change (drop 4 (le32 w ++ concat (le32 <$> l) ++ r)) with (concat (le32 <$> l) ++ r).
    apply IH. cbn in Hk. lia.
Qed.

Lemma decode_encode_inode d r : words_ok d -> decode_inode (encode_inode d ++ r) = d.
Proof.
  intros [[Ht Hsz Hl] Hw]. destruct d as [t n bl]. cbn [i_type i_size i_blocks] in *.
  assert (E : forall l, encode_inode (Inode t n l) ++ r = le32 t ++ le32 n ++ concat (le32 <$> l) ++ r)
    by (intros; unfold encode_inode; cbn [i_type i_size i_blocks]; by rewrite <- !app_assoc).
  unfold decode_inode. rewrite E. f_equal.
  - unfold word_at. rewrite drop_0. apply de32_le32. lia.
  - apply (de32_le32 n). lia.
  - apply list_eq_same_length with 14%nat; [done|by rewrite length_fmap, length_seq|].
    intros k x y Hk Hx Hy. rewrite list_lookup_fmap, lookup_seq_lt in Hx by done.
    change (Some (word_at (8 + 4 * k) (le32 t ++ le32 n ++ concat (le32 <$> bl) ++ r)) = Some x) in Hx.
    assert (Ew : word_at (8 + 4 * k) (le32 t ++ le32 n ++ concat (le32 <$> bl) ++ r) =
      word_at (4 * k) (concat (le32 <$> bl) ++ r)) by (unfold word_at; by rewrite <- drop_drop).
    rewrite Ew, word_at_concat, Hy in Hx by (done || lia). by injection Hx.
Qed.

Lemma decode_encode_inodes (k : nat) l :
  Forall words_ok l -> length l = 128%nat -> (k < 16)%nat ->
  decode_inodes (encode_inodes k l) = take 8 (drop (8 * k) l).
Proof.
  intros Hl Hlen Hk. unfold encode_inodes. set (c := take 8 (drop (8 * k) l)).
  assert (Hc : length c = 8%nat) by (unfold c; rewrite length_take, length_drop; lia).
  assert (Hcw : Forall words_ok c) by by apply Forall_take, Forall_drop.
  unfold decode_inodes. replace (seq 0 8) with (seq 0 (length c)) by (by rewrite Hc).
  clear Hc Hlen. clearbody c.
  assert (G : forall pre, (fun j => decode_inode (drop (64 * j) (pre ++ concat (encode_inode <$> c)))) <$>
     seq (length pre / 64) (length c) = c \/ (length pre mod 64 <> 0)%nat).
  { induction Hcw as [|d c Hd Hcw IH]; intros pre; [by left|].
    destruct (decide (length pre mod 64 = 0)%nat) as [Hp|]; [left|by right].
    pose proof (Nat.div_mod (length pre) 64 ltac:(lia)) as Ediv.
    cbn [fmap list_fmap concat length seq]. f_equal.
    - rewrite drop_app_length' by lia. by apply decode_encode_inode.
    - rewrite app_assoc. destruct (IH (pre ++ encode_inode d)) as [E|E].
      + rewrite length_app, encode_inode_length in E by apply Hd.
        replace ((length pre + 64) / 64)%nat with (S (length pre / 64)) in E; [exact E|].
        rewrite (Nat.div_unique (length pre + 64) 64 (S (length pre / 64)) 0); lia.
      + exfalso. apply E. rewrite length_app, encode_inode_length by apply Hd.
        rewrite Nat.add_mod, Hp, Nat.mod_same by lia. done. }
  destruct (G []) as [E|E]; [exact E|]. cbn in E. lia.
Qed.

Lemma core_words s : core_ok s -> Forall words_ok (inodes s).
Proof.
  intros H. apply Forall_lookup. intros i d Hd. split; [exact (Forall_lookup_1 _ _ _ _ (c_inode _ H) Hd)|].
  apply Forall_lookup. intros k b Hb.
  assert (E : blk s (Z.of_nat i) (Z.of_nat k) = b) by (unfold blk, ind, dblk; rewrite !aget_nat, Hd; cbn [from_option id]; by rewrite Hb).
  destruct (Z.eq_dec b 0) as [->|Hne]; [lia|]. rewrite <- E in *. destruct (c_own _ H _ _ Hne) as [Hl _].
  unfold data_lba, LBA_DATA_START, PAFS_TOTAL_BLOCKS in Hl. lia.
Qed.

(** ** Mounting *)

(** Reading the inode table and the bitmap of a synchronised disk. *)
Lemma load_metadata_ok s t :
  core_ok s -> synced [] s -> disk t = disk s -> length (inodes t) = 128%nat ->
  load_metadata t = Some (with_bitmap (block_bitmap s) (with_inodes (inodes s) t)).
Proof.
  intros H Hs Hdk Hlt. pose proof (c_inodes _ H) as Hls.
  destruct (for_do_rule (fun k t' => exists l, t' = with_inodes l t /\ length l = 128%nat /\
      take (Z.to_nat (8 * k)) l = take (Z.to_nat (8 * k)) (inodes s)) 0 LBA_INODES_COUNT
      (fun i s => data ← pafs_disk_read (LBA_INODES_START + i) (disk s);
        Some (with_inodes (take (Z.to_nat (8 * i)) (inodes s) ++ decode_inodes data ++
                           drop (Z.to_nat (8 * i + 8)) (inodes s)) s)) t) as (t1 & E & l & -> & Hl & Hall).
  - done.
  - exists (inodes t). split; [by destruct t|done].
  - intros k t' Hk (l & -> & Hl & Hall). unfold LBA_INODES_COUNT, LBA_INODES_START in *.
    cbn [disk with_inodes inodes]. rewrite Hdk.
    destruct (read_block_ok s (1 + k)) as [-> _]; [apply H|unfold lba_ok, PAFS_TOTAL_BLOCKS; lia|].
    cbn [mbind option_bind]. eexists; split; [done|]. eexists; split; [done|].
    assert (Hm : meta_at (1 + k) s) by (apply Hs; [unfold LBA_DATA_START; lia|apply not_elem_of_nil]).
    unfold meta_at, LBA_SUPERBLOCK, LBA_BITMAP in Hm.
    rewrite (proj2 (Z.eqb_neq (1 + k) 0)), (proj2 (Z.eqb_neq (1 + k) 17)) in Hm by lia.
    rewrite Hm. replace (Z.to_nat (1 + k - 1)) with (Z.to_nat k) by lia.
    rewrite decode_encode_inodes by (try apply core_words; done || lia).
    replace (Z.to_nat (8 * (k + 1))) with (8 * Z.to_nat k + 8)%nat by lia.
    replace (Z.to_nat (8 * k)) with (8 * Z.to_nat k)%nat in * by lia. split.
    + rewrite !length_app, !length_take, !length_drop, Hl, Hls. lia.
    + rewrite Hall, app_assoc, take_take_drop. apply take_app_length'. rewrite length_take. lia.
  - unfold load_metadata. rewrite E. cbn [mbind option_bind]. unfold LBA_INODES_COUNT in Hall.
    rewrite !take_ge in Hall by lia. subst l. cbn [disk with_inodes]. rewrite Hdk.
    destruct (read_block_ok s LBA_BITMAP) as [-> _]; [apply H|done|]. cbn [mbind option_bind].
    assert (Hm : meta_at LBA_BITMAP s) by (apply Hs; [done|apply not_elem_of_nil]). unfold meta_at in Hm. cbn in Hm.
    by rewrite Hm.
Qed.

(** The probe stops at the first drive with the magic number. *)
Lemma probe_ok status (d : store D) drive x tail :
  0 <= drive < 4 -> status drive <> 0xFF -> dev_read drive LBA_SUPERBLOCK (device d) = encode_sb x tail ->
  sb_ranges x -> magic x = PAFS_MAGIC ->
  (forall j, 0 <= j < drive -> status j = 0xFF \/ magic (decode_sb (dev_read j LBA_SUPERBLOCK (device d))) <> PAFS_MAGIC) ->
  probe status d = (drive, encode_sb x tail).
Proof.
  intros Hd Hst Hr Hx Hm Hprev.
  assert (Hhit : forall next, probe_drive status d drive next = (drive, encode_sb x tail)).
  { intros next. unfold probe_drive. rewrite (proj2 (Z.eqb_neq _ _) Hst), Hr.
    destruct (decode_encode_sb x tail Hx) as [-> _]. by rewrite Hm. }
  assert (Hmiss : forall j next r, 0 <= j < drive -> (forall l, next l = r) -> probe_drive status d j next = r).
  { intros j next r Hj Hk. unfold probe_drive. destruct (Z.eqb_spec (status j) 0xFF); [apply Hk|].
    destruct (Hprev j Hj) as [|Hne]; [done|]. by rewrite (proj2 (Z.eqb_neq _ _) Hne), Hk. }
  assert (Hcase : drive = 0 \/ drive = 1 \/ drive = 2 \/ drive = 3) by lia. unfold probe.
  destruct Hcase as [Hc|[Hc|[Hc|Hc]]]; subst drive;
    repeat first [apply Hhit|apply Hmiss; [lia|intros _]].
Qed.

Lemma mount_ok dirs s t status :
  pafs_ok dirs s -> pafs_ramdisk_mode (disk s) = false -> length (inodes t) = 128%nat ->
  device (disk t) = device (disk s) ->
  let drive := current_pafs_drive (disk s) in
  0 <= drive < 4 -> status drive <> 0xFF ->
  (forall j, 0 <= j < drive ->
     status j = 0xFF \/ magic (decode_sb (dev_read j LBA_SUPERBLOCK (device (disk s)))) <> PAFS_MAGIC) ->
  exists t' n, pafs_init status t = Some t' /\ pafs_ok dirs t' /\ inodes t' = inodes s /\
    block_bitmap t' = block_bitmap s /\ sb t' = set_free_inodes n (sb s) /\
    (forall lba, sect t' lba = sect s lba) /\ eflags t' = eflags t.
Proof.
  intros [H Hs Hrt Hd] Hram Hlt Hdev drive Hdr Hst Hprev.
  assert (Hm : meta_at LBA_SUPERBLOCK s) by (apply Hs; [done|apply not_elem_of_nil]). destruct Hm as (n & Hn & Hm).
  assert (Hsect : forall lba, sect s lba = dev_read drive lba (device (disk s))).
  { intros lba. unfold sect, sec, pafs_disk_read. by rewrite Hram. }
  set (x := set_free_inodes n (sb s)).
  assert (Hx : sb_ranges x).
  { destruct (c_sb _ H) as (Em & Eb & Ei & _). unfold sb_ranges, x, set_free_inodes. cbn.
    rewrite Em, Eb, Ei, Hrt.
    pose proof (count_bounds (fun b => negb (bit s b)) LBA_DATA_START PAFS_TOTAL_BLOCKS ltac:(done)) as Hc.
    rewrite <- (c_count _ H) in Hc. unfold LBA_DATA_START, PAFS_TOTAL_BLOCKS, PAFS_MAGIC, PAFS_MAX_INODES in *. lia. }
  assert (Hmg : magic x = PAFS_MAGIC) by apply (c_sb _ H).
  destruct (decode_encode_sb x (sb_tail s) Hx) as [Edec Etail].
  unfold pafs_init. cbv zeta. change (disk (lock t)) with (disk t).
  rewrite (probe_ok status (disk t) drive x (sb_tail s)); auto.
  2:{ rewrite Hdev. change LBA_SUPERBLOCK with 0. rewrite <- Hsect. exact Hm. }
  2:{ intros j Hj. rewrite Hdev. auto. }
  rewrite (proj2 (Z.eqb_neq drive (-1))) by lia. rewrite Edec, Etail.
  set (t1 := Pafs x (sb_tail s) (inodes (lock t)) (block_bitmap (lock t))
    (Store false (ramdisk (disk t)) drive (device (disk t))) (pafs_lock (lock t)) (eflags (lock t))).
  set (s1 := with_disk (disk t1) s).
  assert (Hsec1 : forall lba, sec (disk t1) lba = sect s lba).
  { intros lba. rewrite Hsect. unfold sec, pafs_disk_read. cbn [pafs_ramdisk_mode disk t1 device current_pafs_drive].
    by rewrite Hdev. }
  assert (H1 : core_ok s1) by (apply core_disk; [done|intros Hf; discriminate Hf]).
  assert (Hs1 : synced [] s1).
  { intros lba Hl Hdd. apply meta_disk; [|done|by apply Hs]. intros lba' _. apply Hsec1. }
  rewrite (load_metadata_ok s1 t1 H1 Hs1 eq_refl Hlt). cbn [mbind option_bind].
  eexists _, n. split; [done|]. split_and!; try done.
  - apply pafs_ok_lock. split.
    + destruct H1 as [? ? ? ? ? ? ? ? ? ? ? ? Hsb ?]. split; try done.
      destruct Hsb as (? & ? & ? & _). split; [done|split; [done|split; [done|exact Hn]]].
    + intros lba Hl Hdd. specialize (Hs1 lba Hl Hdd). revert Hs1. unfold meta_at.
      destruct (lba =? LBA_SUPERBLOCK); [|done]. intros (n' & Hn' & E). exists n'. split; [done|exact E].
    + exact Hrt.
    + intros i Hi Hti. apply (dents_same s); [done|intros k _; apply Hsec1|by apply Hd].
Qed.
End mount.
