(* ===== verification/PafsVfs.v ===== *)
(** * PafsVfs: the operations PAFS offers the VFS, and the reachable states
    (kernel/fs/pafs.c, pafs_vfs_read and pafs_vfs_write) *)

From S2P Require Export PafsMount.

Section vfs.
Context {D : Type} `{!BlockDev D}.
#[local] Abbreviation pafs := (pafs D).
Implicit Types (s : pafs) (i k b : Z) (dirs : Z -> list dirent).

Lemma copy_to_eq (buffer : list Z) off src n :
  0 <= off -> 0 <= n -> off + n <= Z.of_nat (length buffer) -> n <= Z.of_nat (length src) ->
  copy_to buffer off src n = Some (take (Z.to_nat off) buffer ++ take (Z.to_nat n) src ++ drop (Z.to_nat (off + n)) buffer).
Proof.
  intros Ho Hn Hb Hs. unfold copy_to. rewrite (proj2 (Z.leb_le 0 off)), (proj2 (Z.leb_le off _)) by lia. cbn [andb].
  rewrite memcpy_eq by (rewrite ?length_drop; lia). cbn [mbind option_bind]. rewrite drop_drop.
  by replace (Z.to_nat off + Z.to_nat n)%nat with (Z.to_nat (off + n)) by lia.
Qed.

(** ** Reading at an offset *)

(** After [m] bytes from [offset] on. *)
Definition read_so_far (data buffer : list Z) (offset m : Z) : list Z :=
  take (Z.to_nat m) (drop (Z.to_nat offset) data) ++ drop (Z.to_nat m) buffer.

(** The bytes of one block from [bo] on. *)
Lemma block_bytes s i data n k bo t :
  stored s i data n -> 0 <= k -> 0 <= bo -> 0 <= t -> bo + t <= 512 -> 512 * k + bo + t <= n -> 512 * k < n ->
  take (Z.to_nat t) (drop (Z.to_nat bo) (sect s (blk s i k))) = take (Z.to_nat t) (drop (Z.to_nat (512 * k + bo)) data).
Proof.
  intros Hst Hk Hb Ht Hbt Hn Hlt. destruct (Hst k Hk Hlt) as [_ E].
  apply (f_equal (fun l => take (Z.to_nat t) (drop (Z.to_nat bo) l))) in E.
  rewrite !skipn_firstn_comm, !take_take, !Nat.min_l in E by (unfold chunk; lia).
  rewrite E, drop_drop. do 2 f_equal. lia.
Qed.

Lemma vfs_read_loop_ok s i data n offset size buffer :
  core_ok s -> ino_ok i -> stored s i data n -> n <= 7168 -> n <= Z.of_nat (length data) ->
  0 <= offset < n -> 0 <= size -> offset + size <= n -> size <= Z.of_nat (length buffer) ->
  vfs_read_loop (ind s i) (offset / PAFS_BLOCK_SIZE) (offset mod PAFS_BLOCK_SIZE) size buffer s =
    Some (size, read_so_far data buffer offset size).
Proof.
  intros H Hi Hst Hn Hd Ho Hsz Hon Hbuf. unfold PAFS_BLOCK_SIZE.
  set (k0 := offset / 512). set (bo0 := offset mod 512).
  pose proof (Z.div_mod offset 512 ltac:(lia)) as Hdm. fold k0 bo0 in Hdm.
  pose proof (Z.mod_pos_bound offset 512 ltac:(lia)) as Hbo. fold bo0 in Hbo.
  assert (Hk0 : 0 <= k0 < 14) by (split; [apply Z.div_pos; lia|apply Z.div_lt_upper_bound; lia]).
  (* bytes read and block offset when block [k] is next *)
  set (done_at := fun k => Z.max 0 (Z.min (512 * k - offset) size)).
  set (bo_at := fun k => if decide (k = k0) then bo0 else 0).
  set (P := fun (k : Z) (st : Z * Z * list Z) => st = (done_at k, bo_at k, read_so_far data buffer offset (done_at k))).
  set (Q := fun st : Z * list Z => st = (size, read_so_far data buffer offset size)).
  match goal with |- vfs_read_loop _ _ _ _ _ _ = _ => unfold vfs_read_loop end.
  match goal with |- context [for_ret k0 14 ?body ?st] =>
    assert (L : match for_ret k0 14 body st with Some (Next x) => P 14 x | Some (Ret x) => Q x | None => False end) end.
  { apply (for_ret_rule P Q); [lia| |].
    - unfold P, done_at, bo_at, read_so_far. rewrite decide_True by done.
      replace (Z.max 0 (Z.min (512 * k0 - offset) size)) with 0 by lia. done.
    - intros k st Hk ->. set (m := done_at k).
      destruct (Z.ltb_spec m size) as [Hm|Hm]; cbn [negb].
      2:{ unfold Q. replace m with size by (unfold m, done_at in *; lia). done. }
      assert (Hpos : 512 * k + bo_at k = offset + m).
      { unfold m, done_at, bo_at in *. case_decide; [subst k|]; lia. }
      assert (Hbok : 0 <= bo_at k < 512) by (unfold bo_at; case_decide; lia).
      rewrite aget_dblk by (try (by apply ind_ok); lia). cbn [mbind option_bind]. fold (blk s i k).
      assert (Hkn : 512 * k < n) by lia.
      destruct (Hst k ltac:(lia) Hkn) as [Hb _]. destruct (read_own s i k H Hb) as [-> Hlba]. cbn [mbind option_bind].
      destruct (read_block_ok s (blk s i k)) as [_ Hsecr]; [apply H|by apply data_lba_ok|]. unfold sector, SECTOR in Hsecr.
      set (t := if _ <? _ then _ else _).
      assert (Ht : t = Z.min (512 - bo_at k) (size - m)).
      { unfold t, PAFS_BLOCK_SIZE. destruct (Z.ltb_spec (size - m) (512 - bo_at k)); lia. }
      assert (Hl1 : length (take (Z.to_nat m) (drop (Z.to_nat offset) data)) = Z.to_nat m)
        by (rewrite length_take, length_drop; lia).
      rewrite copy_to_eq; [|unfold m, done_at; lia|lia| |rewrite length_drop; lia].
      2:{ unfold read_so_far. rewrite length_app, Hl1, length_drop. lia. }
      cbn [mbind option_bind]. unfold P.
      assert (Hnext : done_at (k + 1) = m + t).
      { rewrite Ht. unfold m, done_at, bo_at in *. case_decide; lia. }
      assert (Hb1 : bo_at (k + 1) = 0) by (unfold bo_at; by rewrite decide_False by lia).
      rewrite Hnext, Hb1. f_equal. unfold read_so_far.
      rewrite take_app_length' by done. rewrite (block_bytes s i data n k (bo_at k) t) by (done || lia).
      rewrite Hpos. rewrite drop_app_ge by (rewrite Hl1; lia). rewrite Hl1, drop_drop, app_assoc.
      replace (Z.to_nat (offset + m)) with (Z.to_nat offset + Z.to_nat m)%nat by (unfold m, done_at; lia).
      rewrite <- (drop_drop data), take_take_drop. f_equal; f_equal; unfold m, done_at in *; lia. }
  revert L. destruct (for_ret k0 14 _ _) as [[[[x y] z]|x]|]; [| |done]; cbn [mbind option_bind].
  - unfold P. intros [= -> -> ->]. replace (done_at 14) with size by (unfold done_at; lia). done.
  - by intros ->.
Qed.

Lemma vfs_read_ok dirs s i data n offset size buffer :
  pafs_ok dirs s -> ino_ok i -> file_is s i data n -> 0 <= n <= 7168 -> n <= Z.of_nat (length data) ->
  0 <= offset -> 0 <= size -> offset + size < 2 ^ 32 ->
  let m := Z.max 0 (Z.min size (n - offset)) in
  m <= Z.of_nat (length buffer) ->
  pafs_vfs_read i offset size buffer s = Some (m, read_so_far data buffer offset m, unlocked s).
Proof.
  intros P Hi [Ht Hsz Hst] Hn Hd Ho Hs Hsum m Hbuf. set (s0 := lock s).
  assert (P0 : pafs_ok dirs s0) by by apply pafs_ok_lock. pose proof P0 as [H0 _ _ _].
  unfold pafs_vfs_read. fold s0. rewrite (aget_ind s0 i) by (done || apply H0). cbn [mbind option_bind].
  change (ind s0 i) with (ind s i). rewrite Ht, Hsz. change (negb (PAFS_TYPE_FILE =? PAFS_TYPE_FILE)) with false. cbn [orb].
  assert (Hzero : m = 0 -> Some (0, buffer, unlock s0) = Some (m, read_so_far data buffer offset m, unlocked s)).
  { intros ->. done. }
  destruct (Z.eqb_spec n 0) as [E|E]; [apply Hzero; lia|].
  destruct (Z.leb_spec n offset) as [Hle|Hlt]; [apply Hzero; lia|].
  rewrite (u32_small (offset + size)) by lia. rewrite u32_small by lia.
  assert (Em : (if n <? offset + size then n - offset else size) = m) by (destruct (Z.ltb_spec n (offset + size)); lia).
  rewrite Em. change (ind s i) with (ind s0 i).
  rewrite (vfs_read_loop_ok s0 i data n offset m buffer) by (done || lia). done.
Qed.

(** ** Writing at an offset: the invariant holds *)

Lemma vfs_round_ok s0 i size buffer dirty k w bo s :
  core_ok s -> touches i s0 s -> synced (1 + i / 8 :: dirty) s -> ino_ok i -> 0 <= k < 14 ->
  i_type (ind s0 i) = PAFS_TYPE_FILE -> 0 <= w -> 0 <= bo < 512 -> size <= Z.of_nat (length buffer) ->
  match vfs_write_round i size buffer k (w, bo, s) with
  | Some (Next (w', bo', s')) => core_ok s' /\ touches i s0 s' /\ synced (1 + i / 8 :: dirty) s' /\
      w <= w' /\ bo' = 0 /\ w' <= Z.max w size /\ i_size (ind s' i) = i_size (ind s i)
  | Some (Ret (w', s')) => s' = s /\ w' = w
  | None => False
  end.
Proof.
  intros H T Hs Hi Hk Hty Hw Hbo Hbuf. unfold vfs_write_round.
  destruct (Z.ltb_spec w size) as [Hlt|]; cbn [negb]; [|done].
  destruct (grow_file_ok s i k dirty H Hi Hk) as [[-> _]|(s1 & -> & G & Hs1)];
    [by rewrite (to_type _ _ _ T), Hty|done|done|]. cbn [mbind option_bind].
  destruct G as [H1 T1 Hsz1 Hb _ _ _]. unfold block_of. rewrite (aget_ind s1 i) by (done || apply H1).
  cbn [mbind option_bind]. rewrite aget_dblk by (done || by apply ind_ok). cbn [mbind option_bind]. fold (blk s1 i k).
  destruct (read_own s1 i k H1 Hb) as [Hrd Hlba].
  destruct (read_block_ok s1 (blk s1 i k)) as [_ Hsecr]; [apply H1|by apply data_lba_ok|].
  assert (Htemp : exists temp, (if (0 <? bo) || (size - w <? PAFS_BLOCK_SIZE)
      then pafs_disk_read (blk s1 i k) (disk s1) else Some (replicate 512 0)) = Some temp /\ sector temp).
  { destruct ((0 <? bo) || (size - w <? PAFS_BLOCK_SIZE)); [rewrite Hrd|]; eexists; by split. }
  destruct Htemp as (temp & -> & Htl). cbn [mbind option_bind]. unfold sector, SECTOR in Htl.
  set (t := if _ <? _ then _ else _).
  assert (Ht : t = Z.min (512 - bo) (size - w)).
  { unfold t, PAFS_BLOCK_SIZE. destruct (Z.ltb_spec (size - w) (512 - bo)); lia. }
  rewrite copy_to_eq by (rewrite ?length_drop; lia). cbn [mbind option_bind].
  set (data := take _ temp ++ _).
  assert (Hdata : sector data).
  { unfold sector, SECTOR, data. rewrite !length_app, !length_take, !length_drop. lia. }
  destruct (write_data_ok s1 (blk s1 i k) data _ H1 Hlba Hdata Hs1) as (d & -> & H2 & Hs2 & Hsec).
  cbn [mbind option_bind]. split_and!; auto; try lia.
  eapply touches_trans; [exact T|]. eapply touches_trans; [exact T1|]. by eapply touches_write.
Qed.

(** Setting the size of a file and saving its inode. *)
Record writing (i : Z) s0 s : Prop := {
  wg_core : core_ok s;
  wg_touches : touches i s0 s;
  wg_sync : synced [1 + i / 8] s
}.

Lemma resize_file_ok s0 s i n :
  writing i s0 s -> ino_ok i -> i_type (ind s0 i) = PAFS_TYPE_FILE -> i <> 0 ->
  exists s', upd_inode i (set_size n) s = Some s' /\ writing i s0 s' /\ i_size (ind s' i) = u32 n /\
    (forall i' k, blk s' i' k = blk s i' k) /\ disk s' = disk s /\ sb s' = sb s.
Proof.
  intros [H T Hs] Hi Ht Hi0. pose proof (ind_ok s i H Hi) as Hok.
  destruct (upd_keep_ok s i (set_size n) [1 + i / 8]) as (l & -> & H2 & Hs2 & Hind & Hblk); try done.
  { split; [apply Hok|apply u32_range|apply Hok]. }
  { cbn. by rewrite (to_type _ _ _ T), Ht. }
  exists (with_inodes l s). split; [done|]. split_and!; [split; [done| |by apply synced_dup]| | | |].
  - eapply touches_trans; [exact T|]. split; try done.
    + intros i' Hi'. by rewrite Hind, decide_False.
    + by rewrite Hind, decide_True.
  - by rewrite Hind, decide_True.
  - exact Hblk.
  - done.
  - done.
Qed.

Lemma save_file_ok dirs s0 s i :
  pafs_ok dirs s0 -> writing i s0 s -> ino_ok i -> i_type (ind s0 i) = PAFS_TYPE_FILE ->
  exists d, pafs_save_inode i s = Some (with_disk d s) /\ pafs_ok dirs (with_disk d s) /\
    forall b, data_lba b -> sec d b = sect s b.
Proof.
  intros [H0 Hs0 Hrt Hd] [H T Hs] Hi Ht. destruct (save_inode_ok s i [] H Hi Hs) as (d & -> & H1 & Hs1 & Hsec).
  exists d. split; [done|]. pose proof (touches_trans _ _ _ _ T (touches_disk i s d H Hsec)) as T'. split; [|exact Hsec].
  split; [done|done|by rewrite (to_root _ _ _ T')|]. intros i' Hi' Hti.
  assert (Hne : i' <> i) by (intros ->; rewrite (to_type _ _ _ T'), Ht in Hti; done).
  rewrite (to_ind _ _ _ T') in Hti by done. apply (dents_frame s0 _ i); [done|done|by apply Hd].
Qed.

(** The end of [pafs_vfs_write]: the size and the inode. *)
Lemma vfs_finish_ok dirs s0 s1 i offset w :
  pafs_ok dirs s0 -> writing i s0 s1 -> ino_ok i -> i_type (ind s0 i) = PAFS_TYPE_FILE ->
  exists s2 d, (if i_size (ind s1 i) <? u32 (offset + w) then upd_inode i (set_size (u32 (offset + w))) s1 else Some s1) = Some s2 /\
    pafs_save_inode i s2 = Some (with_disk d s2) /\ pafs_ok dirs (with_disk d s2) /\ writing i s0 s2 /\
    i_size (ind s2 i) = Z.max (i_size (ind s1 i)) (u32 (offset + w)) /\
    (forall i' k, blk s2 i' k = blk s1 i' k) /\ (forall b, data_lba b -> sec d b = sect s1 b) /\ sb s2 = sb s1.
Proof.
  intros P0 W1 Hi Ht. pose proof (u32_range (offset + w)).
  assert (Hi0 : i <> 0) by (intros ->; rewrite (c_root _ (p_core _ _ P0)) in Ht; done).
  assert (W2 : exists s2, (if i_size (ind s1 i) <? u32 (offset + w)
      then upd_inode i (set_size (u32 (offset + w))) s1 else Some s1) = Some s2 /\ writing i s0 s2 /\
      i_size (ind s2 i) = Z.max (i_size (ind s1 i)) (u32 (offset + w)) /\ (forall i' k, blk s2 i' k = blk s1 i' k) /\ disk s2 = disk s1 /\ sb s2 = sb s1).
  { destruct (Z.ltb_spec (i_size (ind s1 i)) (u32 (offset + w))).
    - destruct (resize_file_ok s0 s1 i (u32 (offset + w)) W1 Hi Ht Hi0) as (s2 & -> & W2 & Hsz2 & Hb2 & Hd2 & Hs2).
      exists s2. split_and!; try done. rewrite Hsz2, u32_small by lia. lia.
    - exists s1. split_and!; try done. lia. }
  destruct W2 as (s2 & -> & W2 & Hsz2 & Hb2 & Hd2 & Hs2).
  destruct (save_file_ok dirs s0 s2 i P0 W2 Hi Ht) as (d & E & P3 & Hsec). exists s2, d. split_and!; try done.
  intros b Hb. rewrite Hsec by done. unfold sect. by rewrite Hd2.
Qed.

Lemma vfs_write_ok dirs s i offset size buffer :
  pafs_ok dirs s -> ino_ok i -> 0 <= offset -> 0 <= size -> size <= Z.of_nat (length buffer) ->
  exists w s', pafs_vfs_write i offset size buffer s = Some (w, s') /\ pafs_ok dirs s' /\ 0 <= w <= size /\
    (i_type (ind s i) = PAFS_TYPE_FILE -> i_type (ind s' i) = PAFS_TYPE_FILE /\
       i_size (ind s' i) = Z.max (i_size (ind s i)) (u32 (offset + w))).
Proof.
  intros P Hi Ho Hsz Hbuf. set (s0 := lock s).
  assert (P0 : pafs_ok dirs s0) by by apply pafs_ok_lock. pose proof P0 as [H0 Hs0 Hrt0 Hd0].
  unfold pafs_vfs_write. fold s0. rewrite (aget_ind s0 i) by (done || apply H0). cbn [mbind option_bind].
  change (ind s0 i) with (ind s i). destruct (Z.eqb_spec (i_type (ind s i)) PAFS_TYPE_FILE) as [Ht|Ht]; cbn [negb].
  2:{ exists 0, (unlock s0). split; [done|]. split; [by apply pafs_ok_lock|]. split; [lia|done]. }
  set (P1 := fun s1 => writing i s0 s1 /\ i_size (ind s1 i) = i_size (ind s i)).
  assert (L : match for_ret (offset / PAFS_BLOCK_SIZE) 14 (vfs_write_round i size buffer)
      (0, offset mod PAFS_BLOCK_SIZE, s0) with
    | Some (Next (w, bo, s1)) => P1 s1 /\ 0 <= w <= size | Some (Ret (w, s1)) => P1 s1 /\ 0 <= w <= size
    | None => False end).
  { assert (Hstart : P1 s0) by (split; [split; auto using touches_refl, synced_cons|done]).
    assert (Hbo : 0 <= offset mod PAFS_BLOCK_SIZE < 512) by (apply Z.mod_pos_bound; done).
    assert (Hk0 : 0 <= offset / PAFS_BLOCK_SIZE) by (apply Z.div_pos; done).
    destruct (Z_le_gt_dec (offset / PAFS_BLOCK_SIZE) 14) as [Hle|Hgt].
    2:{ rewrite for_ret_empty by lia. split; [done|lia]. }
    set (PP := fun (_ : Z) (st : Z * Z * pafs) => let '(w, bo, s1) := st in P1 s1 /\ 0 <= w <= size /\ 0 <= bo < 512).
    set (QQ := fun st : Z * pafs => let '(w, s1) := st in P1 s1 /\ 0 <= w <= size).
    assert (L : match for_ret (offset / PAFS_BLOCK_SIZE) 14 (vfs_write_round i size buffer)
      (0, offset mod PAFS_BLOCK_SIZE, s0) with
      | Some (Next st) => PP 14 st | Some (Ret st) => QQ st | None => False end).
    { apply (for_ret_rule PP QQ); [done|cbn; auto with lia|].
      intros k [[w bo] s1] Hk (([H1 T1 Hs1] & Hsz1) & Hw & Hb).
      pose proof (vfs_round_ok s0 i size buffer [] k w bo s1 H1 T1 Hs1 Hi ltac:(lia) Ht ltac:(lia) Hb Hbuf) as Hr.
      destruct (vfs_write_round i size buffer k (w, bo, s1)) as [[[[w' bo'] s2]|[w' s2]]|]; [| |done].
      - destruct Hr as (? & ? & ? & ? & -> & ? & Hsz'). cbn. split; [split; [by split|congruence]|]. lia.
      - destruct Hr as [-> ->]. cbn. split; [split; [by split|done]|lia]. }
    destruct (for_ret _ _ _ _) as [[[[w bo] s1]|[w s1]]|]; [|exact L|done]. destruct L as (? & ? & _). done. }
  destruct (for_ret _ _ _ _) as [r|]; [|done]. cbn [mbind option_bind].
  assert (L' : exists w s1, match r with Ret p => p | Next (n, _, s1) => (n, s1) end = (w, s1) /\ P1 s1 /\ 0 <= w <= size).
  { destruct r as [[[w bo] s1]|[w s1]]; exists w, s1; by split. }
  destruct L' as (w & s1 & -> & (W1 & Hsz1) & Hw). clear L. pose proof W1 as [H1 T1 _].
  rewrite (aget_ind s1 i) by (done || apply H1). cbn [mbind option_bind].
  destruct (vfs_finish_ok dirs s0 s1 i offset w P0 W1 Hi Ht) as (s2 & d & -> & E & P3 & W2 & Hsz2 & _).
  cbn [mbind option_bind]. rewrite E. cbn [mbind option_bind].
  exists w, (unlock (with_disk d s2)). split; [done|]. split; [by apply pafs_ok_lock|]. split; [lia|].
  intros _. split; [|by rewrite <- Hsz1]. change (i_type (ind s2 i) = PAFS_TYPE_FILE).
  by rewrite (to_type _ _ _ (wg_touches _ _ _ W2)).
Qed.
End vfs.
