(* ===== verification/PafsData.v ===== *)
(** * PafsData: what [pafs_vfs_write] leaves in a file (kernel/fs/pafs.c)

    The contents of a file byte by byte, and the effect on them of a write at an
    offset inside the file or at its end. *)

From S2P Require Export PafsVfs.

Section data.
Context {D : Type} `{!BlockDev D}.
#[local] Abbreviation pafs := (pafs D).
Implicit Types (s : pafs) (i k b : Z) (dirs : Z -> list dirent).

(** Byte [p] of the first [n] of inode [i] is [f p]. *)
Definition bytes_are s i (f : Z -> Z) (n : Z) : Prop :=
  forall p, 0 <= p < n -> blk s i (p / 512) <> 0 /\ nth (Z.to_nat (p mod 512)) (sect s (blk s i (p / 512))) 0 = f p.

Lemma bytes_are_ext s i f g n : bytes_are s i f n -> (forall p, 0 <= p < n -> f p = g p) -> bytes_are s i g n.
Proof. intros H E p Hp. destruct (H p Hp) as [Hb Hn]. split; [done|]. by rewrite Hn, E. Qed.

Lemma take_nth_eq (l l' : list Z) m : take m l = take m l' -> forall j, (j < m)%nat -> nth j l 0 = nth j l' 0.
Proof. intros H j Hj. rewrite !nth_lookup, <- (lookup_take_lt l m j), <- (lookup_take_lt l' m j) by done. by rewrite H. Qed.

Lemma sect_512 s b : core_ok s -> data_lba b -> length (sect s b) = 512%nat.
Proof. intros H Hb. apply (proj2 (read_block_ok s b (c_store _ H) (data_lba_ok b Hb))). Qed.

Lemma stored_bytes s i data n :
  core_ok s -> n <= Z.of_nat (length data) -> stored s i data n <-> bytes_are s i (fun p => nth (Z.to_nat p) data 0) n.
Proof.
  intros H Hl. split.
  - intros Hs p Hp. destruct (Hs (p / 512)) as [Hb E]; [pow2_lia|pow2_lia|]. split; [done|].
    rewrite (take_nth_eq _ _ _ E) by (unfold chunk; pow2_lia). rewrite nth_skipn. f_equal. pow2_lia.
  - intros Hs j Hj Hjn. destruct (Hs (512 * j) ltac:(lia)) as [Hb _]. replace (512 * j / 512) with j in Hb by pow2_lia. split; [done|].
    pose proof (sect_512 s (blk s i j) H (proj1 (c_own _ H _ _ Hb))) as Hsl.
    apply (nth_ext _ _ 0 0); [rewrite !length_take, length_drop; unfold chunk; lia|].
    intros m Hm. rewrite length_take in Hm. rewrite !nth_firstn, nth_skipn. case_match; [|done].
    destruct (Hs (512 * j + Z.of_nat m)) as [_ E]; [unfold chunk in *; lia|].
    replace ((512 * j + Z.of_nat m) / 512) with j in E by (unfold chunk in *; pow2_lia).
    replace (Z.to_nat ((512 * j + Z.of_nat m) mod 512)) with m in E by (unfold chunk in *; pow2_lia).
    rewrite E. f_equal. lia.
Qed.

(** The contents after [w] bytes of [buffer] at [offset]. *)
Definition patched (g : Z -> Z) (offset w : Z) (buffer : list Z) (p : Z) : Z :=
  if (offset <=? p) && (p <? offset + w) then nth (Z.to_nat (p - offset)) buffer 0 else g p.

Lemma grow_kept i k s : core_ok s -> ino_ok i -> 0 <= k < 14 -> blk s i k <> 0 -> grow_file i k s = Some (Next s).
Proof.
  intros H Hi Hk E. unfold grow_file. rewrite (aget_ind s i) by (done || apply H). cbn [mbind option_bind].
  rewrite aget_dblk by (done || by apply ind_ok). cbn [mbind option_bind]. fold (blk s i k). by rewrite (proj2 (Z.eqb_neq _ 0) E).
Qed.

(** Growing keeps the bytes that are there. *)
Lemma grown_bytes s s' i k f n : core_ok s -> grown i k s s' -> (blk s i k <> 0 -> s' = s) -> bytes_are s i f n -> bytes_are s' i f n.
Proof.
  intros H G Hk Hb p Hp. destruct (Hb p Hp) as [H1 H2]. destruct (decide (p / 512 = k)) as [E|Hne].
  - rewrite E in *. by rewrite (Hk H1).
  - rewrite (g_others _ _ _ _ G) by done. split; [done|]. by rewrite (g_sect _ _ _ _ G).
Qed.

(** What [copy_to] makes of a block, byte by byte. *)
Lemma patch_block_nth (temp src : list Z) bo t m :
  length temp = 512%nat -> 0 <= bo -> 0 <= t -> bo + t <= 512 -> t <= Z.of_nat (length src) -> 0 <= m < 512 ->
  nth (Z.to_nat m) (take (Z.to_nat bo) temp ++ take (Z.to_nat t) src ++ drop (Z.to_nat (bo + t)) temp) 0 =
    if (bo <=? m) && (m <? bo + t) then nth (Z.to_nat (m - bo)) src 0 else nth (Z.to_nat m) temp 0.
Proof.
  intros Hl Hb Ht Hbt Hs Hm. destruct (Z.leb_spec bo m) as [H1|H1]; cbn [andb].
  - rewrite app_nth2; rewrite length_take; [|lia]. replace (Z.to_nat m - _)%nat with (Z.to_nat (m - bo)) by lia.
    destruct (Z.ltb_spec m (bo + t)).
    + rewrite app_nth1 by (rewrite length_take; lia). rewrite nth_firstn. by rewrite (proj2 (Nat.ltb_lt _ _)) by lia.
    + rewrite app_nth2; rewrite length_take; [|lia]. rewrite nth_skipn. f_equal. lia.
  - rewrite app_nth1 by (rewrite length_take; lia). rewrite nth_firstn. by rewrite (proj2 (Nat.ltb_lt _ _)) by lia.
Qed.

Lemma vfs_round_bytes s i size buffer dirty k w bo g n offset :
  core_ok s -> synced (1 + i / 8 :: dirty) s -> ino_ok i -> 0 <= k < 14 -> i_type (ind s i) = PAFS_TYPE_FILE ->
  0 <= w -> 0 <= bo < 512 -> size <= Z.of_nat (length buffer) -> 0 <= offset <= n -> offset + w = 512 * k + bo ->
  bytes_are s i (patched g offset w buffer) (Z.max n (offset + w)) ->
  match vfs_write_round i size buffer k (w, bo, s) with
  | Some (Next (w', _, s')) => w' = w + Z.min (512 - bo) (size - w) /\
      bytes_are s' i (patched g offset w' buffer) (Z.max n (offset + w')) /\ free_blocks (sb s) - 1 <= free_blocks (sb s')
  | Some (Ret (w', s')) => s' = s /\ w' = w /\ (size <= w \/ free_blocks (sb s) = 0)
  | None => False
  end.
Proof.
  intros H Hs Hi Hk Hty Hw Hbo Hbuf Hoff Hpos Hby. unfold vfs_write_round.
  destruct (Z.ltb_spec w size) as [Hlt|]; cbn [negb]; [|split_and!; auto].
  assert (HG : (grow_file i k s = Some (Ret s) /\ free_blocks (sb s) = 0) \/
    exists s1, grow_file i k s = Some (Next s1) /\ grown i k s s1 /\ synced (1 + i / 8 :: dirty) s1 /\ (blk s i k <> 0 -> s1 = s)).
  { destruct (decide (blk s i k = 0)) as [E|E].
    - destruct (grow_file_ok s i k dirty H Hi Hk) as [?|(s1 & ? & ? & ?)]; [by rewrite Hty|done|by left|].
      right. exists s1. split_and!; try done.
    - right. exists s. split_and!; [by apply grow_kept|by apply grown_refl|done|done]. }
  destruct HG as [[-> Hf]|(s1 & -> & G & Hs1 & Hkeep)]; cbn [mbind option_bind]; [split_and!; auto|].
  pose proof (grown_bytes s s1 i k _ _ H G Hkeep Hby) as Hby1. pose proof (g_free _ _ _ _ G) as Hfree.
  destruct G as [H1 T1 _ Hb _ _ _]. unfold block_of. rewrite (aget_ind s1 i) by (done || apply H1).
  cbn [mbind option_bind]. rewrite aget_dblk by (done || by apply ind_ok). cbn [mbind option_bind]. fold (blk s1 i k).
  destruct (read_own s1 i k H1 Hb) as [Hrd Hlba]. pose proof (sect_512 s1 _ H1 Hlba) as Hsl.
  set (rd := (0 <? bo) || (size - w <? PAFS_BLOCK_SIZE)).
  assert (Htemp : exists temp, (if rd then pafs_disk_read (blk s1 i k) (disk s1) else Some (replicate 512 0)) = Some temp /\
    length temp = 512%nat /\ (rd = true -> temp = sect s1 (blk s1 i k))).
  { destruct rd; [rewrite Hrd|]; eexists; by split_and!. }
  destruct Htemp as (temp & -> & Htl & Htr). cbn [mbind option_bind].
  set (t := if _ <? _ then _ else _).
  assert (Ht : t = Z.min (512 - bo) (size - w)) by (unfold t, PAFS_BLOCK_SIZE; destruct (Z.ltb_spec (size - w) (512 - bo)); lia).
  rewrite copy_to_eq by (rewrite ?length_drop; lia). cbn [mbind option_bind].
  assert (Hdata : sector (take (Z.to_nat bo) temp ++ take (Z.to_nat t) (drop (Z.to_nat w) buffer) ++ drop (Z.to_nat (bo + t)) temp)).
  { unfold sector, SECTOR. rewrite !length_app, !length_take, !length_drop. lia. }
  destruct (write_data_ok s1 (blk s1 i k) _ _ H1 Hlba Hdata Hs1) as (d & -> & H2 & Hs2 & Hsec).
  cbn [mbind option_bind]. split; [by rewrite Ht|]. split; [|exact Hfree].
  intros p Hp. change (blk (with_disk d s1) i (p / 512)) with (blk s1 i (p / 512)). unfold sect. cbn [disk with_disk].
  destruct (Z.eq_dec (p / 512) k) as [E|Hne].
  - rewrite E. split; [done|]. rewrite Hsec, decide_True by (done || by apply (c_own _ H1)).
    assert (Hpm : 0 <= p mod 512 < 512 /\ p = 512 * k + p mod 512) by pow2_lia. destruct Hpm as [Hpm Hpe].
    rewrite patch_block_nth by (rewrite ?length_drop; lia). unfold patched.
    destruct (Z.leb_spec bo (p mod 512)) as [G1|G1], (Z.ltb_spec (p mod 512) (bo + t)) as [G2|G2]; cbn [andb].
    + rewrite nth_skipn. rewrite (proj2 (Z.leb_le _ _)), (proj2 (Z.ltb_lt _ _)) by lia. cbn [andb]. f_equal. lia.
    + (* behind what was written: the old block was read *)
      rewrite Htr by (unfold rd, PAFS_BLOCK_SIZE; destruct (Z.ltb_spec 0 bo), (Z.ltb_spec (size - w) 512); cbn [orb]; (done || lia)).
      destruct (Hby1 p ltac:(lia)) as [_ Hn]. rewrite E in Hn. rewrite Hn. unfold patched.
      rewrite (proj2 (Z.ltb_ge p (offset + w))), (proj2 (Z.ltb_ge p (offset + (w + t)))) by lia. by rewrite !andb_false_r.
    + (* before it *)
      rewrite Htr by (unfold rd; destruct (Z.ltb_spec 0 bo); cbn [orb]; (done || lia)).
      destruct (Hby1 p ltac:(lia)) as [_ Hn]. rewrite E in Hn. rewrite Hn. unfold patched.
      rewrite (proj2 (Z.ltb_lt p (offset + w))), (proj2 (Z.ltb_lt p (offset + (w + t)))) by lia. done.
    + lia.
  - assert (Hp1 : 0 <= p < Z.max n (offset + w)) by pow2_lia.
    destruct (Hby1 p Hp1) as [Hbp Hn]. split; [done|]. rewrite Hsec by by apply (c_own _ H1).
    rewrite decide_False by (intros E'; apply (c_inj _ H1) in E' as [_ ?]; [congruence|done]).
    rewrite Hn. unfold patched. replace (p <? offset + (w + t)) with (p <? offset + w); [done|].
    destruct (Z.ltb_spec p (offset + w)), (Z.ltb_spec p (offset + (w + t))); try done; pow2_lia.
Qed.

Lemma bytes_are_frame s s' i f n :
  core_ok s -> bytes_are s i f n -> (forall k, blk s' i k = blk s i k) -> (forall b, data_lba b -> sect s' b = sect s b) -> bytes_are s' i f n.
Proof.
  intros H Hb Hk Hs p Hp. destruct (Hb p Hp) as [H1 H2]. rewrite Hk. split; [done|]. by rewrite Hs by by apply (c_own _ H).
Qed.

(** The whole loop: with 14 free blocks it ends when everything is written or the file is full. *)
Lemma vfs_loop_bytes s0 i size buffer g n offset :
  core_ok s0 -> synced [1 + i / 8] s0 -> ino_ok i -> i_type (ind s0 i) = PAFS_TYPE_FILE -> 14 <= free_blocks (sb s0) ->
  0 <= size <= Z.of_nat (length buffer) -> 0 <= offset <= n -> n <= 7168 -> bytes_are s0 i g n ->
  let W := Z.min size (7168 - offset) in
  exists r s1, for_ret (offset / PAFS_BLOCK_SIZE) 14 (vfs_write_round i size buffer) (0, offset mod PAFS_BLOCK_SIZE, s0) = Some r /\
    match r with Ret p => p | Next (w, _, s) => (w, s) end = (W, s1) /\ writing i s0 s1 /\ i_size (ind s1 i) = i_size (ind s0 i) /\
    bytes_are s1 i (patched g offset W buffer) (Z.max n (offset + W)) /\ free_blocks (sb s0) - 14 <= free_blocks (sb s1).
Proof.
  intros H0 Hs0 Hi Ht Hfree Hsz Hoff Hn7 Hby W. unfold PAFS_BLOCK_SIZE. set (k0 := offset / 512).
  assert (Hk0 : 0 <= k0 <= 14) by (subst k0; pow2_lia).
  set (good := fun w s1 => writing i s0 s1 /\ i_size (ind s1 i) = i_size (ind s0 i) /\
    bytes_are s1 i (patched g offset w buffer) (Z.max n (offset + w))).
  set (PP := fun (k : Z) (st : Z * Z * pafs) => let '(w, bo, s1) := st in
    good w s1 /\ 0 <= w <= size /\ 0 <= bo < 512 /\ free_blocks (sb s0) - (k - k0) <= free_blocks (sb s1) /\
    (bo = 0 \/ (k = k0 /\ bo = offset mod 512)) /\ ((offset + w = 512 * k + bo) \/ (w = size /\ bo = 0 /\ offset + w <= 512 * k))).
  set (QQ := fun st : Z * pafs => let '(w, s1) := st in good w s1 /\ w = size /\ offset + w <= 7168 /\
    free_blocks (sb s0) - 14 <= free_blocks (sb s1)).
  assert (L : match for_ret k0 14 (vfs_write_round i size buffer) (0, offset mod 512, s0) with
    | Some (Next st) => PP 14 st | Some (Ret st) => QQ st | None => False end).
  { apply (for_ret_rule PP QQ); [lia| |].
    - unfold PP, good. split; [split; [split; auto using touches_refl|split; [done|]]|split_and!; subst k0; pow2_lia].
      rewrite Z.add_0_r, Z.max_l by lia. apply (bytes_are_ext _ _ _ _ _ Hby). intros p Hp. unfold patched.
      destruct (Z.leb_spec offset p), (Z.ltb_spec p (offset + 0)); (done || lia).
    - intros k [[w bo] s1] Hk (([H1 T1 Hs1] & Hz1 & Hb1) & Hw & Hbo & Hfr & _ & Hpos).
      assert (Ht1 : i_type (ind s1 i) = PAFS_TYPE_FILE) by by rewrite (to_type _ _ _ T1).
      assert (Hdone : w = size \/ w < size) by lia.
      destruct Hdone as [->|Hlt].
      { unfold vfs_write_round. rewrite (proj2 (Z.ltb_ge size size)) by lia. cbn [negb]. unfold QQ, good.
        split_and!; try done; [destruct Hpos as [Hpos|Hpos]|]; lia. }
      destruct Hpos as [Hpos|?]; [|lia].
      pose proof (vfs_round_ok s0 i size buffer [] k w bo s1 H1 T1 Hs1 Hi ltac:(lia) Ht ltac:(lia) Hbo ltac:(lia)) as Hr.
      pose proof (vfs_round_bytes s1 i size buffer [] k w bo g n offset H1 Hs1 Hi ltac:(lia) Ht1 ltac:(lia) Hbo ltac:(lia) ltac:(lia) Hpos Hb1) as Hr'.
      destruct (vfs_write_round i size buffer k (w, bo, s1)) as [[[[w' bo'] s2]|[w' s2]]|]; [| |done].
      + destruct Hr as (? & ? & ? & ? & -> & ? & Hz'), Hr' as (Ew & Hb' & Hf'). unfold PP, good.
        split; [split; [by split|split; [congruence|done]]|].
        split; [lia|]. split; [lia|]. split; [lia|]. split; [by left|].
        destruct (Z_le_gt_dec (512 - bo) (size - w)); [left|right; split_and!]; lia.
      + destruct Hr' as (_ & _ & [?|?]); lia. }
  destruct (for_ret k0 14 _ _) as [[[[w bo] s1]|[w s1]]|]; [| |done].
  - destruct L as ((? & ? & Hb) & Hw & Hbo & Hfr & Hb0 & Hpos).
    assert (E : w = W) by (unfold W; subst k0; destruct Hb0; pow2_lia). rewrite E in Hb.
    eexists _, s1. split; [done|]. cbn. rewrite E. split_and!; try done. lia.
  - destruct L as ((? & ? & Hb) & -> & Hw & Hfr). assert (E : size = W) by (unfold W; lia). rewrite E in Hb.
    eexists _, s1. split; [done|]. cbn. rewrite <- E in *. by split_and!.
Qed.

(** [data] with the first [w] bytes of [buffer] at [offset]. *)
Definition splice (data : list Z) (offset w : Z) (buffer : list Z) : list Z :=
  take (Z.to_nat offset) data ++ take (Z.to_nat w) buffer ++ drop (Z.to_nat (offset + w)) data.

Lemma spliced_length data offset w buffer : 0 <= offset <= Z.of_nat (length data) -> 0 <= w <= Z.of_nat (length buffer) ->
  Z.of_nat (length (splice data offset w buffer)) = Z.max (Z.of_nat (length data)) (offset + w).
Proof. intros. unfold splice. rewrite !length_app, !length_take, length_drop. lia. Qed.

Lemma splice_nth data offset w buffer p : 0 <= offset <= Z.of_nat (length data) -> 0 <= w <= Z.of_nat (length buffer) -> 0 <= p ->
  nth (Z.to_nat p) (splice data offset w buffer) 0 = patched (fun p => nth (Z.to_nat p) data 0) offset w buffer p.
Proof.
  intros Ho Hw Hp. unfold splice, patched. destruct (Z.leb_spec offset p) as [H1|H1]; cbn [andb].
  - rewrite app_nth2; rewrite length_take; [|lia]. replace (Z.to_nat p - _)%nat with (Z.to_nat (p - offset)) by lia.
    destruct (Z.ltb_spec p (offset + w)).
    + rewrite app_nth1 by (rewrite length_take; lia). rewrite nth_firstn. by rewrite (proj2 (Nat.ltb_lt _ _)) by lia.
    + rewrite app_nth2; rewrite length_take; [|lia]. rewrite nth_skipn. f_equal. lia.
  - rewrite app_nth1 by (rewrite length_take; lia). rewrite nth_firstn. by rewrite (proj2 (Nat.ltb_lt _ _)) by lia.
Qed.

Lemma vfs_write_data dirs s i offset size buffer data :
  let n := Z.of_nat (length data) in let W := Z.min size (7168 - offset) in
  pafs_ok dirs s -> ino_ok i -> file_is s i data n -> n <= 7168 -> 0 <= offset <= n -> 0 <= size <= Z.of_nat (length buffer) ->
  14 <= free_blocks (sb s) ->
  exists s', pafs_vfs_write i offset size buffer s = Some (W, s') /\ pafs_ok dirs s' /\
    file_is s' i (splice data offset W buffer) (Z.max n (offset + W)) /\ eflags s' = eflags s /\
    free_blocks (sb s) - 14 <= free_blocks (sb s') /\
    forall i', i' <> i -> ind s' i' = ind s i' /\ forall k, blk s i' k <> 0 -> sect s' (blk s i' k) = sect s (blk s i' k).
Proof.
  intros n W P Hi [Ht Hsize Hst] Hn7 Ho Hsz Hfree. set (s0 := lock s).
  assert (P0 : pafs_ok dirs s0) by by apply pafs_ok_lock. pose proof P0 as [H0 Hs0 Hrt0 Hd0].
  assert (Hby : bytes_are s0 i (fun p => nth (Z.to_nat p) data 0) n) by (apply (stored_bytes s0 i data n H0); [lia|exact Hst]).
  destruct (vfs_loop_bytes s0 i size buffer _ n offset H0 (synced_cons _ _ _ Hs0) Hi Ht Hfree Hsz Ho Hn7 Hby) as (r & s1 & E1 & E2 & W1 & Hz1 & Hb1 & Hfr1).
  fold W in E2, Hb1. unfold pafs_vfs_write. fold s0. rewrite (aget_ind s0 i) by (done || apply H0). cbn [mbind option_bind].
  change (ind s0 i) with (ind s i). rewrite Ht. change (negb (PAFS_TYPE_FILE =? PAFS_TYPE_FILE)) with false. cbv iota.
  rewrite E1. cbn [mbind option_bind]. rewrite E2. pose proof W1 as [H1 T1 _].
  rewrite (aget_ind s1 i) by (done || apply H1). cbn [mbind option_bind].
  destruct (vfs_finish_ok dirs s0 s1 i offset W P0 W1 Hi Ht) as (s2 & d & -> & E & P3 & W2 & Hsz2 & Hb2 & Hsec & Hsb).
  cbn [mbind option_bind]. rewrite E. cbn [mbind option_bind].
  assert (HW : 0 <= W /\ W <= Z.of_nat (length buffer) /\ offset + W <= 7168) by (unfold W; lia).
  eexists. split; [done|]. split; [by apply pafs_ok_lock|].
  assert (T3 : touches i s0 (with_disk d s2)).
  { eapply touches_trans; [exact (wg_touches _ _ _ W2)|]. apply touches_disk; [apply (wg_core _ _ _ W2)|].
    intros b Hb. rewrite Hsec by done. pose proof (wg_core _ _ _ W2).
    destruct (save_file_ok dirs s0 s2 i P0 W2 Hi Ht) as (d' & E' & _ & Hsec'). rewrite E in E'.
    assert (Hd : sec d b = sec d' b) by (injection E' as Ed; by rewrite Ed).
    rewrite <- Hsec' by done. by rewrite <- Hd, Hsec. }
  split_and!.
  - split.
    + change (i_type (ind s2 i) = PAFS_TYPE_FILE). by rewrite (to_type _ _ _ (wg_touches _ _ _ W2)).
    + change (i_size (ind s2 i) = Z.max n (offset + W)). rewrite Hsz2, Hz1. change (i_size (ind s0 i)) with (i_size (ind s i)).
      rewrite Hsize, u32_small by lia. done.
    + change (stored (with_disk d s2) i (splice data offset W buffer) (Z.max n (offset + W))).
      apply stored_bytes; [apply P3|rewrite spliced_length; lia|].
      apply (bytes_are_frame s1); [exact H1| |intros k; apply Hb2|exact Hsec].
      apply (bytes_are_ext _ _ _ _ _ Hb1). intros p Hp. by rewrite splice_nth by lia.
  - change (sl_flags (pafs_lock s2) = eflags s). by rewrite (proj1 (to_lock _ _ _ (wg_touches _ _ _ W2))).
  - change (free_blocks (sb s) - 14 <= free_blocks (sb s2)). by rewrite Hsb.
  - intros i' Hi'. split; [exact (to_ind _ _ _ T3 i' Hi')|]. intros k Hk. exact (to_sect _ _ _ T3 i' k Hi' Hk).
Qed.
End data.
