(* ===== verification/PafsThm.v ===== *)
(** * PafsThm: the properties of PAFS (kernel/fs/pafs.c) *)

From S2P Require Export PafsVfs.

Section reachable.
Context {D : Type} `{!BlockDev D}.

(** The states a formatted disk can reach.  A directory argument is the inode of
    an existing directory, as the VFS and the shell pass it. *)
Inductive reach : pafs D -> Prop :=
| reach_format s s' : raw_ok s -> pafs_format s = Some s' -> reach s'
| reach_create s s' parent name nm is_dir r :
    reach s -> ino_ok parent -> i_type (ind s parent) = PAFS_TYPE_DIR -> content name = Some nm ->
    pafs_create parent name is_dir s = Some (r, s') -> reach s'
| reach_delete s s' parent name nm r :
    reach s -> ino_ok parent -> i_type (ind s parent) = PAFS_TYPE_DIR -> content name = Some nm ->
    pafs_delete parent name s = Some (r, s') -> reach s'
| reach_write s s' name nm data len r :
    reach s -> content name = Some nm -> len <= Z.of_nat (length data) ->
    pafs_write name data len s = Some (r, s') -> reach s'
| reach_vfs_write s s' ino offset size buffer w :
    reach s -> ino_ok ino -> 0 <= offset -> 0 <= size -> size <= Z.of_nat (length buffer) ->
    pafs_vfs_write ino offset size buffer s = Some (w, s') -> reach s'.

Lemma delete_returns dirs s parent name nm :
  pafs_ok dirs s -> ino_ok parent -> i_type (ind s parent) = PAFS_TYPE_DIR -> content name = Some nm ->
  exists r s' dirs', pafs_delete parent name s = Some (r, s') /\ pafs_ok dirs' s'.
Proof.
  intros P Hp Ht Hn. pose proof (delete_ok dirs s parent name nm P Hp Ht Hn) as H.
  assert (U : pafs_ok dirs (unlocked s)) by by apply pafs_ok_lock.
  destruct (lookup_dir nm (dirs parent)) as [[p [ino nm']]|]; [|eauto].
  destruct (decide _); [eauto|]. destruct H as (s' & E & [P' _ _ _ _]). eauto.
Qed.

Lemma reach_ok s : reach s -> exists dirs, pafs_ok dirs s.
Proof.
  induction 1 as [s s' R E|s s' parent name nm is_dir r _ (dirs & P) Hp Ht Hn E
    |s s' parent name nm r _ (dirs & P) Hp Ht Hn E|s s' name nm data len r _ (dirs & P) Hn Hl E
    |s s' ino offset size buffer w _ (dirs & P) Hi Ho Hs Hb E].
  - destruct (format_ok s R) as (s1 & E1 & P & _). rewrite E1 in E. injection E as <-. eauto.
  - destruct (create_ok dirs s parent name nm is_dir P Hp Ht Hn) as (r1 & s1 & E1 & C).
    rewrite E1 in E. injection E as -> ->. destruct C as [(_ & _ & P' & _)|[_ _ _ P' _ _ _ _ _]]; eauto.
  - destruct (delete_returns dirs s parent name nm P Hp Ht Hn) as (r1 & s1 & dirs' & E1 & P').
    rewrite E1 in E. injection E as -> ->. eauto.
  - destruct (write_ok dirs s name nm data len P Hn Hl) as (r1 & dirs' & s1 & E1 & C & _).
    rewrite E1 in E. injection E as -> ->. destruct C as [(_ & P' & _)|[P' _ _ _]]; eauto.
  - destruct (vfs_write_ok dirs s ino offset size buffer P Hi Ho Hs Hb) as (w1 & s1 & E1 & P' & _).
    rewrite E1 in E. injection E as -> ->. eauto.
Qed.

(** C13 (pafs): in every reachable state no block belongs to two slots, a data
    block is marked in the bitmap exactly when some inode owns it, the free
    counter is the number of unmarked blocks, the disk holds the inode table,
    the bitmap and (but for the free-inode count) the superblock of memory, and
    the next create, delete and write on an existing directory return. *)
Theorem pafs_reachable_consistent s :
  reach s ->
  (forall i k i' k', blk s i k <> 0 -> blk s i k = blk s i' k' -> i = i' /\ k = k') /\
  (forall b, data_lba b -> bit s b = true <-> exists i k, blk s i k = b) /\
  free_blocks (sb s) = count (fun b => negb (bit s b)) LBA_DATA_START PAFS_TOTAL_BLOCKS /\
  synced [] s /\
  (forall parent name nm is_dir, ino_ok parent -> i_type (ind s parent) = PAFS_TYPE_DIR -> content name = Some nm ->
     is_Some (pafs_create parent name is_dir s) /\ is_Some (pafs_delete parent name s)) /\
  (forall name nm data len, content name = Some nm -> len <= Z.of_nat (length data) ->
     is_Some (pafs_write name data len s)).
Proof.
  intros (dirs & P)%reach_ok. pose proof (p_core _ _ P) as H. split_and!.
  - apply (c_inj _ H).
  - intros b Hb. split; [by apply (c_used _ H)|]. intros (i & k & <-). apply (c_own _ H).
    unfold data_lba, LBA_DATA_START in Hb. lia.
  - apply H.
  - apply P.
  - intros parent name nm is_dir Hp Ht Hn. split.
    + destruct (create_ok dirs s parent name nm is_dir P Hp Ht Hn) as (r & s' & -> & _). eauto.
    + destruct (delete_returns dirs s parent name nm P Hp Ht Hn) as (r & s' & dirs' & -> & _). eauto.
  - intros name nm data len Hn Hl. destruct (write_ok dirs s name nm data len P Hn Hl) as (r & dirs' & s' & -> & _). eauto.
Qed.

(** C14 (pafs_create): on an existing directory, either nothing changes and the
    call returns -1 for one of the reasons of the source (no free inode, the
    name exists, no space), or a FREE inode becomes the new empty file or
    directory, its entry, with the name cut to 27 characters, is appended to the
    parent's list, and every other inode keeps its metadata and blocks. *)
Theorem pafs_create_refines dirs (s : pafs D) parent name nm is_dir :
  pafs_ok dirs s -> ino_ok parent -> i_type (ind s parent) = PAFS_TYPE_DIR -> content name = Some nm ->
  exists r s', pafs_create parent name is_dir s = Some (r, s') /\
    ((r = -1 /\ create_refused dirs s parent nm /\ pafs_ok dirs s' /\ (forall i, ind s' i = ind s i) /\
      disk s' = disk s /\ pafs_lock s' = Spinlock 0 (eflags s) /\ eflags s' = eflags s) \/
     created dirs parent r nm is_dir s s').
Proof. apply create_ok. Qed.

(** C15 (pafs_delete): a missing name gives -1 and a non-empty directory -2 with
    no change; otherwise the file's blocks and inode are freed and the parent's
    list becomes [removed p]: the last entry is dropped, after being copied over
    the deleted one when the two lie in different blocks. *)
Theorem pafs_delete_refines dirs (s : pafs D) parent name nm :
  pafs_ok dirs s -> ino_ok parent -> i_type (ind s parent) = PAFS_TYPE_DIR -> content name = Some nm ->
  match lookup_dir nm (dirs parent) with
  | None => pafs_delete parent name s = Some (-1, unlocked s)
  | Some (p, (ino, _)) =>
      if decide (i_type (ind s ino) = PAFS_TYPE_DIR /\ dirs ino <> [])
      then pafs_delete parent name s = Some (-2, unlocked s)
      else exists s', pafs_delete parent name s = Some (0, s') /\ deleted dirs parent p ino s s'
  end.
Proof. apply delete_ok. Qed.

(** C17 (pafs_delete, defect): deleting a file whose entry is in the same block as
    the directory's last entry, without being that entry, reports success but
    leaves the deleted name in the directory, pointing to a freed inode, and
    drops the last entry: that file can no longer be found although its inode is
    untouched. *)
Theorem pafs_delete_loses_last_entry dirs (s : pafs D) parent name nm p ino nm1 last_name ino2 nm2 :
  pafs_ok dirs s -> ino_ok parent -> i_type (ind s parent) = PAFS_TYPE_DIR ->
  content name = Some nm -> content last_name = Some nm2 ->
  lookup_dir nm (dirs parent) = Some (p, (ino, nm1)) -> i_type (ind s ino) <> PAFS_TYPE_DIR ->
  lookup_dir nm2 (dirs parent) = Some ((length (dirs parent) - 1)%nat, (ino2, nm2)) ->
  p <> (length (dirs parent) - 1)%nat -> (p / 16 = (length (dirs parent) - 1) / 16)%nat ->
  ino2 <> ino -> ino2 <> parent ->
  exists s', pafs_delete parent name s = Some (0, s') /\
    pafs_find_entry parent name s' = Some ino /\ i_type (ind s' ino) = PAFS_TYPE_FREE /\
    pafs_find_entry parent last_name s' = Some (-1) /\ ind s' ino2 = ind s ino2.
Proof.
  intros P Hp Ht Hn Hn2 El Hty El2 Hne Hblk Hi2 Hip2. pose proof (delete_ok dirs s parent name nm P Hp Ht Hn) as H.
  rewrite El, decide_False in H by tauto. destruct H as (s' & E & [P' Hfree Hpar Hoth _]).
  set (q := (length (dirs parent) - 1)%nat) in *.
  set (dirs' := upd_dir parent (removed p (dirs parent)) dirs) in *.
  assert (Er : dirs' parent = take q (dirs parent))
    by (unfold dirs', upd_dir, removed; by rewrite decide_True, decide_True by done).
  assert (Ht' : i_type (ind s' parent) = PAFS_TYPE_DIR) by by rewrite Hpar.
  pose proof (p_dirs _ _ P' parent Hp Ht') as Hd'.
  apply list_find_Some in El as (Ep & Enm & Emin). apply list_find_Some in El2 as (Eq & _ & Emin2).
  pose proof (lookup_lt_Some _ _ _ Ep) as Hplt.
  exists s'. split; [done|]. split_and!.
  - destruct (find_entry_ok s' parent _ name nm (p_core _ _ P') Hp Ht' Hd' Hn) as [-> _].
    rewrite Er. replace (lookup_dir nm (take q (dirs parent))) with (Some (p, (ino, nm1))); [done|].
    symmetry. apply list_find_Some. split; [rewrite lookup_take_lt by lia; exact Ep|]. split; [done|].
    intros j y Hj Hlt. rewrite lookup_take_lt in Hj by lia. by apply (Emin j).
  - by rewrite Hfree.
  - destruct (find_entry_ok s' parent _ last_name nm2 (p_core _ _ P') Hp Ht' Hd' Hn2) as [-> _].
    rewrite Er. replace (lookup_dir nm2 (take q (dirs parent))) with (@None (nat * dirent)); [done|].
    symmetry. apply list_find_None, Forall_lookup. intros j y Hj.
    pose proof (lookup_lt_Some _ _ _ Hj) as Hjq. rewrite length_take in Hjq.
    rewrite lookup_take_lt in Hj by lia. apply (Emin2 j y Hj). lia.
  - by destruct (Hoth ino2 Hi2 Hip2).
Qed.

(** C18 (pafs_write, pafs_read): writing a file that is not a directory, with a
    name of at most 27 characters and 15 free blocks, either is refused or stores
    the first 7168 bytes of the data, and reading the file back gives them, as
    many as the buffer takes, followed by a NUL when there is room. *)
Theorem pafs_write_read dirs (s : pafs D) name nm data len buffer max_len :
  pafs_ok dirs s -> content name = Some nm -> (length nm <= 27)%nat -> 0 <= len <= Z.of_nat (length data) ->
  15 <= free_blocks (sb s) -> 0 <= max_len <= Z.of_nat (length buffer) ->
  exists r s', pafs_write name data len s = Some (r, s') /\
    (r = -1 \/
     r = Z.min len 7168 /\
     let m := Z.min r max_len in
     exists buffer' s'', pafs_read name buffer max_len s' = Some (m, buffer', s'') /\
       length buffer' = length buffer /\ take (Z.to_nat m) buffer' = take (Z.to_nat m) data /\
       (m < max_len -> aget buffer' m = Some 0)).
Proof.
  intros P Hn Hnm Hl Hfree Hmax. destruct (write_ok dirs s name nm data len P Hn) as (r & dirs' & s' & E & C & _); [lia|].
  exists r, s'. split; [done|]. destruct C as [(-> & _)|[P' Hr Hfull (p & ino & Hlook & F & _)]]; [by left|right].
  specialize (Hfull Hfree). rewrite Z.max_r in Hfull by lia. split; [done|]. cbn zeta.
  destruct (read_ok dirs' s' name nm p ino data r buffer max_len P' Hn (Hlook Hnm) F) as (b & Eb & Hb); [lia..|].
  exists b, (unlocked s'). by split.
Qed.

(** C20 (pafs_write, defect): the lock of a write that creates its file is taken
    twice, so that the call returns with interrupts disabled, whatever they were
    before; a write to an existing file gives EFLAGS back. *)
Theorem pafs_write_interrupts dirs (s : pafs D) name nm data len :
  pafs_ok dirs s -> content name = Some nm -> len <= Z.of_nat (length data) ->
  exists r s', pafs_write name data len s = Some (r, s') /\
    match lookup_dir nm (dirs 0) with
    | Some _ => eflags s' = eflags s
    | None => interrupts_on (eflags s') = false
    end.
Proof.
  intros P Hn Hl. destruct (write_ok dirs s name nm data len P Hn Hl) as (r & dirs' & s' & E & _ & Hef).
  exists r, s'. split; [done|]. rewrite Hef. destruct (lookup_dir nm (dirs 0)); [done|].
  exact (Z.clearbit_eq (eflags s) IF_BIT).
Qed.

(** C19 (pafs_init): mounting the disk of a reachable file system, from memory of
    unknown contents, rebuilds the inode table, the bitmap and the directories;
    the superblock too, but for the count of free inodes. *)
Theorem pafs_mount_roundtrip dirs (s t : pafs D) status :
  pafs_ok dirs s -> pafs_ramdisk_mode (disk s) = false -> length (inodes t) = 128%nat ->
  device (disk t) = device (disk s) ->
  let drive := current_pafs_drive (disk s) in
  0 <= drive < 4 -> status drive <> 0xFF ->
  (forall j, 0 <= j < drive ->
     status j = 0xFF \/ magic (decode_sb (dev_read j LBA_SUPERBLOCK (device (disk s)))) <> PAFS_MAGIC) ->
  exists t' n, pafs_init status t = Some t' /\ pafs_ok dirs t' /\ inodes t' = inodes s /\
    block_bitmap t' = block_bitmap s /\ sb t' = set_free_inodes n (sb s) /\
    (forall lba, sect t' lba = sect s lba) /\ eflags t' = eflags t.
Proof. apply mount_ok. Qed.

(** (pafs_vfs_read): a read at an offset of a file, where offset and size do
    not overflow 32 bits, returns the bytes of the file from there, up to its
    end, and nothing past it. *)
Theorem pafs_vfs_read_spec dirs (s : pafs D) i data n offset size buffer :
  pafs_ok dirs s -> ino_ok i -> file_is s i data n -> 0 <= n <= 7168 -> n <= Z.of_nat (length data) ->
  0 <= offset -> 0 <= size -> offset + size < 2 ^ 32 ->
  let m := Z.max 0 (Z.min size (n - offset)) in
  m <= Z.of_nat (length buffer) ->
  pafs_vfs_read i offset size buffer s =
    Some (m, take (Z.to_nat m) (drop (Z.to_nat offset) data) ++ drop (Z.to_nat m) buffer, unlocked s).
Proof. apply vfs_read_ok. Qed.
End reachable.

(** ** Witnesses: a disk of 2 MB behind drive 0, formatted, with two files *)

Definition sample_raw : pafs (gmap (Z * Z) (list Z)) :=
  Pafs (SB 0 0 0 0 0 0) (replicate 488 0) (replicate 128 blank_inode) (replicate 512 0)
    (Store false [] 0 ∅) SPINLOCK_INIT 514.

Definition sample_fs : pafs (gmap (Z * Z) (list Z)) := default sample_raw (pafs_format sample_raw).

Definition sample_name (c : Z) : list Z := [c; 0].

Lemma sample_raw_ok : raw_ok sample_raw.
Proof. split; [discriminate|reflexivity..]. Qed.

Lemma sample_fs_format : pafs_format sample_raw = Some sample_fs.
Proof. destruct (format_ok sample_raw sample_raw_ok) as (s & E & _). unfold sample_fs. by rewrite E. Qed.

Lemma sample_fs_ok : pafs_ok (fun _ => []) sample_fs.
Proof.
  destruct (format_ok sample_raw sample_raw_ok) as (s & E & P & _). unfold sample_fs. by rewrite E.
Qed.

Lemma sample_root : ino_ok 0 /\ i_type (ind sample_fs 0) = PAFS_TYPE_DIR.
Proof. exact (root_dir sample_fs (p_core _ _ sample_fs_ok)). Qed.

(** Two files, inodes 1 and 2, in the root directory. *)
Lemma sample_two :
  exists s dirs, pafs_ok dirs s /\ dirs 0 = [(1, [65]); (2, [66])] /\ i_type (ind s 0) = PAFS_TYPE_DIR /\
    i_type (ind s 1) = PAFS_TYPE_FILE.
Proof.
  destruct (create_ok _ sample_fs 0 (sample_name 65) [65] false sample_fs_ok) as (r & s & E & C);
    [exact (proj1 sample_root)|exact (proj2 sample_root)|reflexivity|].
  assert (Er : fst <$> pafs_create 0 (sample_name 65) false sample_fs = Some 1) by (vm_compute; reflexivity).
  assert (Er2 : ('(_, s) ← pafs_create 0 (sample_name 65) false sample_fs;
    fst <$> pafs_create 0 (sample_name 66) false s) = Some 2) by (vm_compute; reflexivity).
  rewrite E in Er, Er2. cbn in Er. injection Er as ->. cbn [mbind option_bind] in Er2. clear E.
  destruct C as [[F _]|[_ _ _ P Hind _ Hpar _ _]]; [discriminate F|].
  destruct (root_dir s (p_core _ _ P)) as [H0 Ht0].
  destruct (create_ok _ s 0 (sample_name 66) [66] false P H0 Ht0 eq_refl) as (r2 & s2 & E2 & C2).
  rewrite E2 in Er2. cbn in Er2. injection Er2 as ->. clear E2.
  destruct C2 as [[F _]|[_ _ _ P2 Hind2 Hoth2 Hpar2 _ _]]; [discriminate F|].
  eexists s2, _. split; [exact P2|]. split; [reflexivity|]. split; [apply (root_dir s2), (p_core _ _ P2)|].
  destruct (Hoth2 1) as [-> _]; [lia|lia|]. rewrite Hind. reflexivity.
Qed.

Lemma pafs_reachable_consistent_witness :
  free_blocks (sb sample_fs) = count (fun b => negb (bit sample_fs b)) LBA_DATA_START PAFS_TOTAL_BLOCKS /\
  is_Some (pafs_create 0 (sample_name 65) false sample_fs).
Proof.
  destruct (pafs_reachable_consistent sample_fs) as (_ & _ & Hc & _ & Hn & _).
  { apply (reach_format sample_raw); [exact sample_raw_ok|exact sample_fs_format]. }
  split; [exact Hc|]. exact (proj1 (Hn 0 (sample_name 65) [65] false (proj1 sample_root) (proj2 sample_root) eq_refl)).
Defined.

Lemma pafs_create_refines_witness :
  exists s', pafs_create 0 (sample_name 65) false sample_fs = Some (1, s') /\
    created (fun _ => []) 0 1 [65] false sample_fs s'.
Proof.
  assert (Er : fst <$> pafs_create 0 (sample_name 65) false sample_fs = Some 1) by (vm_compute; reflexivity).
  destruct (pafs_create_refines _ sample_fs 0 (sample_name 65) [65] false sample_fs_ok) as (r & s & E & C);
    [exact (proj1 sample_root)|exact (proj2 sample_root)|reflexivity|].
  rewrite E in Er. injection Er as ->. exists s. split; [exact E|].
  destruct C as [[F _]|C]; [discriminate F|exact C].
Defined.

Lemma pafs_delete_refines_witness :
  exists s dirs s', pafs_ok dirs s /\ pafs_delete 0 (sample_name 65) s = Some (0, s') /\
    deleted dirs 0 0 1 s s' /\ removed 0 (dirs 0) = [(1, [65])].
Proof.
  destruct sample_two as (s & dirs & P & Ed & Ht & Ht1).
  pose proof (pafs_delete_refines dirs s 0 (sample_name 65) [65] P) as H.
  assert (El : lookup_dir [65] (dirs 0) = Some (0%nat, (1, [65]))) by (rewrite Ed; reflexivity).
  rewrite El in H. specialize (H (proj1 sample_root) Ht eq_refl).
  rewrite decide_False in H by (rewrite Ht1; intros [F _]; discriminate F).
  destruct H as (s' & E & H). exists s, dirs, s'. rewrite Ed. split; [exact P|]. split; [exact E|]. split; [exact H|reflexivity].
Defined.

Lemma pafs_delete_loses_last_entry_witness :
  exists (s s' : pafs (gmap (Z * Z) (list Z))), pafs_delete 0 (sample_name 65) s = Some (0, s') /\
    pafs_find_entry 0 (sample_name 65) s' = Some 1 /\ pafs_find_entry 0 (sample_name 66) s' = Some (-1).
Proof.
  destruct sample_two as (s & dirs & P & Ed & Ht & Ht1).
  destruct (pafs_delete_loses_last_entry dirs s 0 (sample_name 65) [65] 0 1 [65] (sample_name 66) 2 [66] P)
    as (s' & E & E1 & _ & E2 & _); try rewrite Ed; try reflexivity.
  - exact (proj1 sample_root).
  - exact Ht.
  - rewrite Ht1. discriminate.
  - discriminate.
  - discriminate.
  - discriminate.
  - exists s, s'. split; [exact E|]. split; [exact E1|exact E2].
Defined.

Lemma pafs_write_read_witness :
  exists r s', pafs_write (sample_name 65) (replicate 600 7) 600 sample_fs = Some (r, s') /\ (r = -1 \/ r = 600).
Proof.
  destruct (pafs_write_read _ sample_fs (sample_name 65) [65] (replicate 600 7) 600 (replicate 700 1) 700 sample_fs_ok)
    as (r & s' & E & H); [reflexivity|cbn; lia|rewrite length_replicate; lia| |rewrite length_replicate; lia|].
  - destruct (format_ok sample_raw sample_raw_ok) as (s & E & _ & _ & Hf & _). unfold sample_fs. rewrite E.
    cbn [default from_option id]. lia.
  - exists r, s'. split; [exact E|]. destruct H as [H|[H _]]; [by left|right]. exact H.
Defined.

Lemma pafs_write_interrupts_witness :
  exists r s', pafs_write (sample_name 65) [7] 1 sample_fs = Some (r, s') /\ interrupts_on (eflags s') = false /\
    interrupts_on (eflags sample_fs) = true.
Proof.
  destruct (pafs_write_interrupts _ sample_fs (sample_name 65) [65] [7] 1 sample_fs_ok) as (r & s' & E & H);
    [reflexivity|cbn; lia|].
  exists r, s'. split; [exact E|]. split; [exact H|]. vm_compute. reflexivity.
Defined.

Lemma pafs_mount_roundtrip_witness :
  exists t', pafs_init (fun _ => 80) (with_disk (disk sample_fs) sample_raw) = Some t' /\
    block_bitmap t' = block_bitmap sample_fs.
Proof.
  assert (Hm : pafs_ramdisk_mode (disk sample_fs) = false) by (vm_compute; reflexivity).
  assert (Hd : current_pafs_drive (disk sample_fs) = 0) by (vm_compute; reflexivity).
  revert Hm Hd. generalize sample_fs_ok. generalize sample_fs. intros s P Hm Hd.
  destruct (pafs_mount_roundtrip _ s (with_disk (disk s) sample_raw) (fun _ => 80) P Hm)
    as (t' & n & E & _ & _ & Hb & _); [reflexivity|reflexivity|rewrite Hd; lia|lia|rewrite Hd; lia|].
  exists t'. split; [exact E|exact Hb].
Defined.

Lemma pafs_vfs_read_spec_witness :
  exists (s : pafs (gmap (Z * Z) (list Z))) i, pafs_vfs_read i 1 10 [0; 0; 0] s = Some (2, [8; 9; 0], unlocked s).
Proof.
  destruct (write_ok _ sample_fs (sample_name 65) [65] [7; 8; 9] 3 sample_fs_ok) as (r & dirs' & s' & E & C & _);
    [reflexivity|cbn; lia|].
  assert (Er : fst <$> pafs_write (sample_name 65) [7; 8; 9] 3 sample_fs = Some 3) by (vm_compute; reflexivity).
  rewrite E in Er. injection Er as ->. destruct C as [[F _]|[P _ _ (p & ino & Hlook & F & _)]]; [discriminate F|].
  exists s', ino. apply (pafs_vfs_read_spec dirs' s' ino [7; 8; 9] 3 1 10 [0; 0; 0]); [exact P| |exact F|lia|cbn; lia|lia|lia|lia|cbn; lia].
  - destruct (root_dir s' (p_core _ _ P)) as [H0 Ht].
    destruct (find_entry_ok s' 0 (dirs' 0) (sample_name 65) [65] (p_core _ _ P) H0 Ht (p_dirs _ _ P 0 H0 Ht) eq_refl) as [_ Hr].
    specialize (Hr p (ino, [65]) (Hlook ltac:(cbn [length]; lia))). cbn [fst] in Hr. unfold ino_ok. lia.
Defined.
