(* ===== verification/VfsPafs.v ===== *)
(** * VfsPafs: PAFS behind the virtual file system (kernel/fs/pafs.c, pafs_vfs_close,
    pafs_vfs_finddir and pafs_get_vfs_root)

    The node functions of PAFS as an instance of [Drivers], and the laws of
    [TreeDrivers] for them: the tree of a PAFS is the one its directories
    spell. *)

From S2P Require Export VfsThm PafsThm.

(** The value of PAFS's function pointers. *)
Definition PAFS_FN : Z := 1.

(** The node [pafs_vfs_finddir] fills in. *)
Definition pafs_node (f : found_node) : vfs_node :=
  VNode (if fn_is_dir f then VFS_DIRECTORY else VFS_FILE) (fn_inode f) (fn_length f) 0
    PAFS_FN PAFS_FN 0 PAFS_FN PAFS_FN PAFS_FN 0.

(** The node of [pafs_get_vfs_root]; it has no read and no write function. *)
Definition pafs_root_of (ino len : Z) : vfs_node := VNode VFS_DIRECTORY ino len 0 0 0 0 PAFS_FN PAFS_FN PAFS_FN 0.

Section drivers.
Context {D : Type} `{!BlockDev D}.
(** [kmalloc] for nodes and for directory entries, and [pafs_root_node]. *)
Variable kmalloc : mem (pafs D) -> option Z.
Variable kmalloc_dirent : option Z.
Variable pafs_root_node : Z.

Definition pafs_vfs_close (node : Z) (s : mem (pafs D)) : option (mem (pafs D)) :=
  if negb (node =? 0) && negb (node =? pafs_root_node) then
    n ← fst s !! node; Some (delete node (fst s), snd s)
  else Some s.

Definition pafs_finddir (node : Z) (name : list Z) (s : mem (pafs D)) : option (Z * mem (pafs D)) :=
  n ← fst s !! node;
  '(r, p) ← pafs_vfs_finddir (n_inode n) name (snd s);
  match r with
  | Some f => res ← kmalloc s; Some (res, (<[res := pafs_node f]> (fst s), p))
  | None => Some (0, (fst s, p))
  end.

(** The dirent hangs off [impl], allocated at the first call. *)
Definition pafs_readdir (node index : Z) (s : mem (pafs D)) : option (option (list Z * Z) * mem (pafs D)) :=
  n ← fst s !! node;
  impl ← (if n_impl n =? 0 then kmalloc_dirent else Some (n_impl n) : option Z);
  '(r, p) ← (pafs_vfs_readdir (n_inode n) index (snd s) : option (option (Z * list Z) * pafs D));
  let n := VNode (n_flags n) (n_inode n) (n_length n) impl (n_read n) (n_write n) (n_open n) (n_close n)
             (n_readdir n) (n_finddir n) (n_ptr n) in
  Some (match r with Some (ino, nm) => Some (nm, ino) | None => None end, (<[node := n]> (fst s), p)).

#[export] Instance pafs_drivers : Drivers (pafs D) := {
  kmalloc_node := kmalloc;
  call_read _ node offset size s :=
    n ← fst s !! node;
    '(m, buffer, p) ← pafs_vfs_read (n_inode n) offset size (replicate (Z.to_nat size) 0) (snd s);
    Some (take (Z.to_nat m) buffer, (fst s, p));
  call_write _ node offset buffer s :=
    n ← fst s !! node;
    '(m, p) ← pafs_vfs_write (n_inode n) offset (Z.of_nat (length buffer)) buffer (snd s);
    Some (m, (fst s, p));
  call_open _ _ s := Some s;
  call_close _ := pafs_vfs_close;
  call_readdir _ := pafs_readdir;
  call_finddir _ := pafs_finddir
}.

(** ** The laws *)

Variable dirs : Z -> list dirent.
Variable is_dir : Z -> bool.

Definition pafs_tree : tree Z :=
  Tree Z 0 (fun i nm => if is_dir i then (fun x => (snd x).1) <$> lookup_dir nm (dirs i) else None) (fun _ => None) None.

Definition pafs_valid (p : pafs D) : Prop :=
  pafs_ok dirs p /\ forall i, ino_ok i -> is_dir i = bool_decide (i_type (ind p i) = PAFS_TYPE_DIR).

Definition pafs_denotes (n : vfs_node) (i : Z) : Prop :=
  ino_ok i /\ n_inode n = i /\ n_flags n = (if is_dir i then VFS_DIRECTORY else VFS_FILE) /\ n_finddir n = PAFS_FN /\
  n_close n = PAFS_FN /\
  (n_read n = PAFS_FN /\ n_write n = PAFS_FN \/ n_read n = 0 /\ n_write n = 0 /\ is_dir i = true).

Lemma pafs_valid_unlocked p : pafs_valid p -> pafs_valid (unlocked p).
Proof. intros [P Hd]. split; [by apply pafs_ok_lock|exact Hd]. Qed.

Lemma pafs_finddir_ok p i nm :
  pafs_valid p -> ino_ok i -> is_dir i = true -> nonzero nm ->
  match (fun x => (snd x).1) <$> lookup_dir nm (dirs i) with
  | None => pafs_vfs_finddir i (nm ++ [0]) p = Some (None, unlocked p)
  | Some e => ino_ok e /\ exists f, pafs_vfs_finddir i (nm ++ [0]) p = Some (Some f, unlocked p) /\
      fn_inode f = e /\ fn_is_dir f = is_dir e
  end.
Proof.
  intros [P Hd] Hi Hdir Hz. assert (Hc : content (nm ++ [0]) = Some nm) by by apply content_app.
  assert (P0 : pafs_ok dirs (lock p)) by by apply pafs_ok_lock.
  assert (Ht : i_type (ind p i) = PAFS_TYPE_DIR) by (rewrite (Hd i Hi) in Hdir; by apply bool_decide_eq_true in Hdir).
  unfold pafs_vfs_finddir. cbv zeta.
  destruct (find_entry_ok (lock p) i (dirs i) (nm ++ [0]) nm (p_core _ _ P0) Hi Ht (p_dirs _ _ P0 i Hi Ht) Hc) as [-> Hr].
  cbn [mbind option_bind]. destruct (lookup_dir nm (dirs i)) as [[k e]|] eqn:El; cbn [fmap option_fmap option_map snd].
  - specialize (Hr k e eq_refl). assert (He : ino_ok e.1) by (unfold ino_ok; lia). split; [done|].
    rewrite (proj2 (Z.eqb_neq e.1 (-1))) by lia. cbn [negb]. rewrite (aget_ind (lock p) e.1) by (done || apply (p_core _ _ P0)).
    cbn [mbind option_bind]. destruct (content_cstring _ _ Hc) as [Hcs _].
    destruct (copy_name_ok 128 0 127 (nm ++ [0]) _ (replicate 128 0) Hcs) as (nmb & -> & _); [lia|lia|rewrite length_replicate; lia|lia|].
    cbn [mbind option_bind]. rewrite unlock_lock. eexists; split; [done|]. split; [done|]. cbn [fn_is_dir].
    rewrite (Hd e.1 He). change (ind (lock p) e.1) with (ind p e.1).
    case_bool_decide as Hb; [by rewrite Hb|]. by apply Z.eqb_neq.
  - cbn [negb Z.eqb]. rewrite unlock_lock. done.
Qed.

Hypothesis kmalloc_fresh : forall s, exists a, kmalloc s = Some a /\ a <> 0 /\ fst s !! a = None.

Lemma dir_flag n i : pafs_denotes n i -> has_flag n VFS_DIRECTORY && negb (n_finddir n =? 0) = is_dir i.
Proof. intros (_ & _ & Hf & Hfd & _). unfold has_flag. rewrite Hf, Hfd. by destruct (is_dir i). Qed.

(** A property that look-ups, which only take and release the lock, keep. *)
Variable kept : pafs D -> Prop.
Hypothesis kept_unlocked : forall p, kept p -> kept (unlocked p).

#[export] Program Instance pafs_tree_drivers : TreeDrivers (W := pafs D) pafs_tree := {
  valid p := pafs_valid p /\ kept p;
  denotes := pafs_denotes;
  permanent a := a = pafs_root_node
}.
Next Obligation. intros s _. apply kmalloc_fresh. Qed.
Next Obligation. intros n e (_ & _ & Hf & _). unfold has_flag. rewrite Hf. by destruct (is_dir e). Qed.
Next Obligation.
  intros n e (_ & _ & Hf & _). unfold has_flag. rewrite Hf. cbn [t_link pafs_tree].
  rewrite bool_decide_eq_false_2 by by intros [? ?]. by destruct (is_dir e).
Qed.
Next Obligation. intros n e nm Hd Hf. rewrite (dir_flag n e Hd) in Hf. cbn [t_child pafs_tree]. by rewrite Hf. Qed.
Next Obligation.
  intros s a n e nm [Hv Hk] Ha Hd Hz Hf. rewrite (dir_flag n e Hd) in Hf. destruct Hd as (Hi & Hni & Hfl & _).
  exists (unlocked (snd s)). split; [split; [by apply pafs_valid_unlocked|by apply kept_unlocked]|]. cbn [t_child pafs_tree]. rewrite Hf.
  pose proof (pafs_finddir_ok (snd s) e nm Hv Hi Hf Hz) as H. cbn [call_finddir pafs_drivers]. unfold pafs_finddir.
  rewrite Ha. cbn [mbind option_bind]. rewrite Hni.
  destruct (lookup_dir nm (dirs e)) as [x|]; cbn [fmap option_fmap option_map] in *; [|by rewrite H].
  destruct H as (He & f & -> & Hfi & Hfd). cbn [mbind option_bind]. destruct (kmalloc_fresh s) as (b & -> & Hb & Hfree).
  exists b, (pafs_node f). split; [done|]. split; [done|]. split; [done|]. unfold pafs_denotes, pafs_node. cbn. rewrite Hfd. split_and!; try done. by left.
Qed.
Next Obligation. intros s a n e t _ _ _ H. discriminate H. Qed.
Next Obligation.
  intros s a n n0 e Hv Ha (_ & _ & _ & _ & Hc & _) Hn Ha0 Hp.
  assert (Hcl : n_close n = PAFS_FN) by (by destruct Hn as [->|[r ->]]). rewrite Hcl. split; [done|].
  exists (snd s). split; [done|]. cbn [call_close pafs_drivers]. unfold pafs_vfs_close.
  rewrite (proj2 (Z.eqb_neq a 0)), (proj2 (Z.eqb_neq a pafs_root_node)) by done. cbn [negb andb].
  by rewrite Ha.
Qed.
End drivers.

(** ** Paths of a PAFS *)

(** The inode the pieces of a path lead to, directory by directory. *)
Fixpoint descend (dirs : Z -> list dirent) (is_dir : Z -> bool) (i : Z) (cs : list (list Z)) : option Z :=
  match cs with
  | [] => Some i
  | n :: cs =>
      if skipped n then descend dirs is_dir i cs
      else if is_dir i then
        match lookup_dir n (dirs i) with Some (_, e) => descend dirs is_dir e.1 cs | None => None end
      else None
  end.

Lemma descend_walks dirs is_dir cs : forall i,
  Forall (fun n => (length n <= 127)%nat) cs -> walks (pafs_tree dirs is_dir) i cs (descend dirs is_dir i cs).
Proof.
  induction cs as [|n cs IH]; intros i Hl; cbn [descend]; [constructor|]. apply Forall_cons in Hl as [Hn Hl].
  destruct (skipped n) eqn:Hs; [by apply walks_skip; [|apply IH]|].
  destruct (is_dir i) eqn:Hd; [destruct (lookup_dir n (dirs i)) as [[k e]|] eqn:El|].
  - apply (walks_child _ i n e.1); [done|cbn; by rewrite Hd, El|done|done|by apply IH].
  - apply walks_missing; [done|]. cbn. by rewrite Hd, El.
  - apply walks_missing; [done|]. cbn. by rewrite Hd.
Qed.

Section paths.
Context {D : Type} `{!BlockDev D}.
Variable kmalloc : mem (pafs D) -> option Z.
Variable kmalloc_dirent : option Z.
Variable pafs_root_node : Z.
Hypothesis kmalloc_fresh : forall s, exists a, kmalloc s = Some a /\ a <> 0 /\ fst s !! a = None.
Variable mnts : mounts.
Hypothesis nothing_mounted : find_mount mnts = Some None.

(** paths on PAFS: for every consistent file system and every absolute path
    whose pieces are at most 127 characters, with nothing mounted,
    [vfs_get_node_by_path] returns a node of exactly the inode that looking up
    the pieces in the directories' lists one after the other gives, as a
    directory or a file as that inode is, or 0 when a piece is missing or lies
    below a file; the file system stays consistent and the node returned is the only
    one left in memory. *)
Theorem pafs_path_lookup dirs is_dir (m : gmap Z vfs_node) (p : pafs D) base t junk root :
  pafs_valid dirs is_dir p -> nonzero t -> Forall (fun n => (length n <= 127)%nat) (split_slash t) ->
  pafs_root_node <> 0 -> m !! pafs_root_node = Some root -> pafs_denotes is_dir root 0 ->
  exists N, forall fuel, (N <= fuel)%nat -> exists res p', pafs_valid dirs is_dir p' /\
    let x := @vfs_get_node_by_path _ (pafs_drivers kmalloc kmalloc_dirent pafs_root_node) mnts fuel pafs_root_node base
               ((47 :: t) ++ 0 :: junk) (m, p) in
    match descend dirs is_dir 0 (split_slash t) with
    | None => x = Some (0, (m, p'))
    | Some i => exists n, x = Some (res, (<[res := n]> m, p')) /\ res <> 0 /\ m !! res = None /\ pafs_denotes is_dir n i
    end.
Proof.
  intros Hv Hz Hl Hr Hm Hd.
  destruct (@resolves (pafs D) Z (pafs_tree dirs is_dir) (pafs_drivers kmalloc kmalloc_dirent pafs_root_node)
    (pafs_tree_drivers kmalloc kmalloc_dirent pafs_root_node dirs is_dir kmalloc_fresh (fun _ => True) (fun _ _ => I)) mnts pafs_root_node)
    with (m := m) (w := p) (base := base) (str := 47 :: t) (junk := junk) (e := 0) (cs := split_slash t)
      (r := descend dirs is_dir 0 (split_slash t)) as [N H].
  - by constructor.
  - by split.
  - constructor; [by eauto|exact nothing_mounted|]. intros a ->. eauto.
  - by constructor.
  - left. eauto.
  - by apply descend_walks.
  - exists N. intros fuel Hf. destruct (H fuel Hf) as (res & w & [Hw _] & Hres). exists res, w. split; [exact Hw|].
    destruct (descend dirs is_dir 0 (split_slash t)) as [i|]; [|exact Hres].
    destruct Hres as (n & E & H1 & H2 & Hst). exists n. split; [exact E|]. split; [done|]. split; [done|].
    inversion Hst as [n1 e1 Hd1|n1 e1 r e2 _ _ F _]; [exact Hd1|by rewrite nothing_mounted in F].
Qed.
End paths.

(** "//A" on the file system with the files A and B. *)
Definition fresh_pafs_node (s : mem (pafs (gmap (Z * Z) (list Z)))) : option Z := Some (fresh ({[0]} ∪ dom (fst s) : gset Z)).

Lemma fresh_pafs_ok s : exists a, fresh_pafs_node s = Some a /\ a <> 0 /\ fst s !! a = None.
Proof.
  pose proof (is_fresh ({[0]} ∪ dom (fst s) : gset Z)) as H. eexists; split; [done|].
  split; [set_solver|]. apply not_elem_of_dom. set_solver.
Qed.

Lemma pafs_path_lookup_witness :
  exists (p : pafs (gmap (Z * Z) (list Z))) m N, forall fuel, (N <= fuel)%nat -> exists res p' n,
    @vfs_get_node_by_path _ (pafs_drivers fresh_pafs_node None 1000) no_mounts fuel 1000 0 ([47; 47; 65] ++ [0]) (m, p) =
      Some (res, (<[res := n]> m, p')) /\ n_inode n = 1 /\ n_flags n = VFS_FILE.
Proof.
  destruct sample_two as (s & dirs & P & Ed & Ht & Ht1).
  set (is_dir := fun i => bool_decide (i_type (ind s i) = PAFS_TYPE_DIR)).
  assert (Hd0 : is_dir 0 = true) by (apply bool_decide_eq_true_2; exact Ht).
  assert (Hd1 : is_dir 1 = false) by (apply bool_decide_eq_false_2; rewrite Ht1; discriminate).
  set (root := pafs_root_of 0 0). exists s, {[ 1000 := root ]}.
  destruct (pafs_path_lookup fresh_pafs_node None 1000 fresh_pafs_ok no_mounts eq_refl dirs is_dir {[ 1000 := root ]} s 0 [47; 65] [] root)
    as [N H].
  - split; [exact P|]. intros i _. reflexivity.
  - repeat constructor; discriminate.
  - repeat constructor; cbn; lia.
  - discriminate.
  - apply lookup_singleton_eq.
  - split; [unfold ino_ok, PAFS_MAX_INODES; lia|]. split; [reflexivity|]. rewrite Hd0. repeat split; try reflexivity. right. repeat split; reflexivity.
  - exists N. intros fuel Hf. destruct (H fuel Hf) as (res & p' & _ & Hx). cbv zeta in Hx.
    assert (El : descend dirs is_dir 0 (split_slash [47; 65]) = Some 1).
    { change (split_slash [47; 65]) with [[]; [65]]. cbn [descend]. change (skipped []) with true. change (skipped [65]) with false.
      cbn iota. rewrite Hd0, Ed. reflexivity. }
    rewrite El in Hx. destruct Hx as (n & E & _ & _ & (_ & Hi & Hfl & _)). exists res, p', n.
    split; [exact E|]. split; [exact Hi|]. by rewrite Hfl, Hd1.
Defined.
