(* ===== verification/ShellPafs.v ===== *)
(** * ShellPafs: cd over the virtual file system and PAFS

    The shell's [cd] (ShellCd) with vfs_get_node_by_path and vfs_close (Vfs) on the
    node functions of PAFS (VfsPafs): PAFS is a [DirTree], and the working
    directory of the shell is tracked in its directories. *)

From S2P Require Export VfsPafs ShellCd.
#[local] Open Scope Z_scope.

(** Fuel for a path of this many characters. *)
Definition path_fuel (p : list Z) : nat := (3 * length p + 10)%nat.

(** ** The pieces of a path *)

Lemma split_slash_name c : Forall (fun x => x <> 0 /\ x <> 47) c -> split_slash c = [c].
Proof.
  induction 1 as [|x c [_ Hx] _ IH]; [done|]. cbn [split_slash]. by rewrite (proj2 (Z.eqb_neq x 47)), IH by done.
Qed.

Lemma split_slash_app c t : Forall (fun x => x <> 0 /\ x <> 47) c -> split_slash (c ++ 47 :: t) = c :: split_slash t.
Proof.
  induction 1 as [|x c [_ Hx] _ IH]; [done|]. cbn [app split_slash]. by rewrite (proj2 (Z.eqb_neq x 47)), IH by done.
Qed.

Definition last_piece (slash : bool) : list (list Z) := if slash then [[]] else [].

Lemma split_path cs slash : Forall ShellCd.name_ok cs -> cs <> [] -> split_slash (drop 1 (path_text cs slash)) = cs ++ last_piece slash.
Proof.
  intros H Hne. destruct H as [|c cs (_ & Hc & _) H]; [done|]. clear Hne. unfold path_text. cbn [text flat_map app drop]. rewrite drop_0. fold (text cs).
  revert c Hc. induction H as [|c' cs (_ & Hc' & _) _ IH]; intros c Hc; rewrite <- app_assoc.
  - destruct slash; cbn [text flat_map ShellCd.tail app last_piece].
    + by apply split_slash_app.
    + rewrite app_nil_r. by apply split_slash_name.
  - cbn [text flat_map]. fold (text cs). cbn [app]. rewrite split_slash_app by done. f_equal. by apply IH.
Qed.

Lemma skipped_name c : ShellCd.name_ok c -> skipped c = false.
Proof. intros (H1 & _ & H2 & _). unfold skipped. by rewrite !bool_decide_eq_false_2. Qed.

Section descend.
Variables (dirs : Z -> list dirent) (is_dir : Z -> bool).

Lemma descend_app cs cs' : forall i, descend dirs is_dir i (cs ++ cs') = j ← descend dirs is_dir i cs; descend dirs is_dir j cs'.
Proof.
  induction cs as [|c cs IH]; intros i; [done|]. cbn [app descend]. destruct (skipped c); [apply IH|]. destruct (is_dir i); [|done].
  destruct (lookup_dir c (dirs i)) as [[k e]|]; [apply IH|done].
Qed.

Lemma descend_last i cs slash : descend dirs is_dir i (cs ++ last_piece slash) = descend dirs is_dir i cs.
Proof. rewrite descend_app. by destruct (descend dirs is_dir i cs), slash. Qed.

(** The kind of a path, as [cd] needs it. *)
Definition pafs_kind (cs : list (list Z)) : option bool :=
  if decide (Forall (fun c => (length c <= 127)%nat) cs) then is_dir <$> descend dirs is_dir 0 cs else None.

Lemma pafs_kind_parent cs c : ShellCd.name_ok c -> pafs_kind (cs ++ [c]) <> None -> pafs_kind cs = Some true.
Proof.
  intros Hc. unfold pafs_kind. case_decide as H; [|done]. apply Forall_app in H as [H _]. rewrite decide_True by done. rewrite descend_app.
  destruct (descend dirs is_dir 0 cs) as [i|]; [|done]. cbn. rewrite (skipped_name c Hc). by destruct (is_dir i).
Qed.

Lemma pafs_kind_short cs : pafs_kind cs <> None -> short cs.
Proof. unfold pafs_kind. by case_decide. Qed.

Lemma pafs_kind_some cs i : short cs -> descend dirs is_dir 0 cs = Some i -> pafs_kind cs = Some (is_dir i).
Proof. intros H E. unfold pafs_kind. by rewrite decide_True, E. Qed.
End descend.

Section shell.
Context {D : Type} `{!BlockDev D} {R : Type}.
Variable kmalloc : mem (pafs D) -> option Z.
Variable kmalloc_dirent : option Z.
Variable pafs_root_node : Z.
Variable mnts : mounts.

(** The nodes and PAFS, and the rest of the kernel. *)
#[local] Abbreviation kern := (mem (pafs D) * R)%type.
#[local] Instance node_drivers : Drivers (pafs D) := pafs_drivers kmalloc kmalloc_dirent pafs_root_node.

(** What the shell calls: paths and nodes through the virtual file system on PAFS, anything else as in [E]. *)
Definition vfs_env (E : ShellEnv kern) : ShellEnv kern := {|
  vfs_root _ := pafs_root_node;
  vfs_get_node_by_path base p k := '(n, m) ← Vfs.vfs_get_node_by_path mnts (path_fuel p) pafs_root_node base p (fst k); Some (n, (m, snd k));
  vfs_close n k := m ← Vfs.vfs_close n (fst k); Some (m, snd k);
  node_flags n k := v ← load n (fst k); Some (n_flags v);
  node_inode n k := v ← load n (fst k); Some (n_inode v);
  put_char := @put_char _ E; put_str := @put_str _ E; put_int := @put_int _ E; clear_scr := @clear_scr _ E; set_cursor := @set_cursor _ E;
  vbe_is_active := @vbe_is_active _ E; start_graphics := @start_graphics _ E; timer_get_seconds := @timer_get_seconds _ E;
  timer_get_ticks := @timer_get_ticks _ E; sleep := @sleep _ E; pci_init := @pci_init _ E;
  pmm_total_memory_kb := @pmm_total_memory_kb _ E; pmm_total_frames := @pmm_total_frames _ E; pmm_used_frames := @pmm_used_frames _ E;
  pmm_free_frames := @pmm_free_frames _ E; vfs_readdir := @vfs_readdir _ E; vfs_finddir := @vfs_finddir _ E; stack_bytes := @stack_bytes _ E;
  vfs_read := @vfs_read _ E; pafs_mkdir := @pafs_mkdir _ E; pafs_create := @pafs_create _ E; pafs_delete := @pafs_delete _ E;
  pafs_format := @pafs_format _ E; elf_load := @elf_load _ E; create_task := @create_task _ E; outb := @outb _ E; alloc_frame := @alloc_frame _ E;
  store16 := @store16 _ E; ac97_play := @ac97_play _ E
|}.

Variables (dirs : Z -> list dirent) (is_dir : Z -> bool).
Variable others : gset Z.
Hypothesis kmalloc_fresh : forall s, exists a, kmalloc s = Some a /\ a <> 0 /\ fst s !! a = None.
Hypothesis nothing_mounted : find_mount mnts = Some None.
Hypothesis root_node : pafs_root_node <> 0.

#[local] Abbreviation tree := (pafs_tree dirs is_dir).
#[local] Instance node_laws : TreeDrivers (W := pafs D) tree :=
  pafs_tree_drivers kmalloc kmalloc_dirent pafs_root_node dirs is_dir kmalloc_fresh (fun _ => True) (fun _ _ => I).

(** ** Paths, with their fuel *)

Lemma tree_sound : tree_ok tree.
Proof. by constructor. Qed.

#[local] Abbreviation wspec := (walk_spec tree mnts pafs_root_node).

Lemma wspec_mono e cs r N N' : wspec e cs r N -> (N <= N')%nat -> wspec e cs r N'.
Proof. intros H Hle fuel m w cur n path Hf. apply H. lia. Qed.

Lemma descend_spec cs : short cs -> forall i, wspec i cs (descend dirs is_dir i cs) (3 * length cs + 1).
Proof.
  induction 1 as [|c cs Hc Hcs IH]; intros i; cbn [descend length]; [apply spec_nil|].
  destruct (skipped c) eqn:Hs.
  - eapply wspec_mono; [apply spec_skip; [done|by apply descend_walks|apply IH]|lia].
  - assert (VfsThm.name_ok c) as Hn by done.
    destruct (is_dir i) eqn:Hd; [destruct (lookup_dir c (dirs i)) as [[k e]|] eqn:El|].
    + eapply wspec_mono; [apply (spec_enter tree mnts pafs_root_node i c e.1 e.1); [done|cbn; by rewrite Hd, El|done|done|by left|apply IH]|lia].
    + eapply wspec_mono; [apply spec_missing; [done|cbn; by rewrite Hd, El]|lia].
    + eapply wspec_mono; [apply spec_missing; [done|cbn; by rewrite Hd]|lia].
Qed.

(** ** What is open *)

(** PAFS is consistent, the nodes of [H] stand for the inodes their paths lead to, and
    they and the nodes of others are all there are. *)
Record sound (k : kern) (H : gmap Z (list (list Z))) : Prop := {
  so_valid : pafs_valid dirs is_dir (snd (fst k));
  so_root : H !! pafs_root_node = Some [];
  so_nodes : forall a cs, H !! a = Some cs -> a <> 0 /\ short cs /\
    exists n i, load a (fst k) = Some n /\ pafs_denotes is_dir n i /\ descend dirs is_dir 0 cs = Some i;
  so_dom : dom (fst (fst k)) = dom H ∪ others;
  so_apart : dom H ## others
}.

Lemma sound_setup k H : sound k H -> setup tree mnts pafs_root_node (fst (fst k)).
Proof.
  intros [_ Hr Hn _ _]. destruct (Hn _ _ Hr) as (_ & _ & n & i & E & Hd & [= <-]). constructor; [by eauto|exact nothing_mounted|]. intros a ->. by exists n.
Qed.

(** A node that is opened, and one that is closed. *)
Lemma sound_insert k H b n i cs p : sound k H -> pafs_valid dirs is_dir p -> b <> 0 -> fst (fst k) !! b = None -> short cs ->
  pafs_denotes is_dir n i -> descend dirs is_dir 0 cs = Some i ->
  H !! b = None /\ forall r, sound (<[b := n]> (fst (fst k)), p, r) (<[b := cs]> H).
Proof.
  intros [_ Hr Hn Hdom Hap] Hv Hb Hfree Hs Hd Hdesc. apply not_elem_of_dom in Hfree as Hfd. rewrite Hdom, not_elem_of_union in Hfd. destruct Hfd as [HbH Hbo].
  rewrite not_elem_of_dom in HbH. split; [done|]. intros r. constructor; cbn [fst snd].
  - done.
  - rewrite lookup_insert_ne; [done|]. intros ->. congruence.
  - intros a c [[<- <-]|[Hne Ha]]%lookup_insert_Some.
    + split; [done|]. split; [done|]. exists n, i. split; [apply lookup_insert_eq|done].
    + destruct (Hn a c Ha) as (? & ? & n1 & i1 & E & ?). split; [done|]. split; [done|]. exists n1, i1. split; [|done].
      unfold load in *. cbn [fst]. by rewrite lookup_insert_ne.
  - rewrite !dom_insert_L, Hdom. set_solver.
  - rewrite dom_insert_L. set_solver.
Qed.

Lemma sound_delete k H b cs p : sound k H -> pafs_valid dirs is_dir p -> H !! b = Some cs -> b <> pafs_root_node ->
  forall r, sound (delete b (fst (fst k)), p, r) (delete b H).
Proof.
  intros [_ Hr Hn Hdom Hap] Hv Hb Hne r. assert (b ∉ others) as Hbo by (apply elem_of_dom_2 in Hb; set_solver). constructor; cbn [fst snd].
  - done.
  - by rewrite lookup_delete_ne.
  - intros a c [Hab Ha]%lookup_delete_Some. destruct (Hn a c Ha) as (? & ? & n1 & i1 & E & ?). split; [done|]. split; [done|]. exists n1, i1.
    unfold load in *. cbn [fst]. by rewrite lookup_delete_ne.
  - rewrite !dom_delete_L, Hdom. set_solver.
  - rewrite dom_delete_L. set_solver.
Qed.

Lemma content_junk p l : content p = Some l -> exists junk, p = l ++ 0 :: junk.
Proof. intros (junk & -> & _)%content_split. by exists junk. Qed.

Lemma split_slash_length t : (length (split_slash t) <= length t + 1)%nat.
Proof.
  induction t as [|c t IH]; cbn [split_slash length]; [lia|]. destruct (c =? 47); cbn [length]; [lia|].
  destruct (split_slash t); cbn [length] in *; lia.
Qed.

Lemma last_piece_short cs slash : short cs -> short (cs ++ last_piece slash).
Proof. intros H. apply Forall_app. split; [done|]. destruct slash; repeat constructor. Qed.

(** Where a path given to [cd] starts, and the inode its pieces lead to. *)
Lemma arg_start (k : kern) base cs a i0 n0 : load base (fst k) = Some n0 -> pafs_denotes is_dir n0 i0 ->
  descend dirs is_dir 0 cs = Some i0 -> base <> 0 -> arg_ok a -> a <> Up -> short (arg_names a) ->
  exists i ps, starts tree mnts (fst (fst k)) base (arg_text a) i ps /\ short ps /\ (length ps <= length (arg_text a) + 1)%nat /\
    descend dirs is_dir i ps = descend dirs is_dir 0 (target cs a).
Proof.
  intros E0 Hd0 Hi0 Hb Ha Hup Hs. destruct a as [|cs' s'|cs' s']; [done| |]; cbn [arg_text arg_names target] in *; destruct Ha as [Hcs' H0].
  - assert (exists t, path_text cs' s' = 47 :: t /\ split_slash t = match cs' with [] => [[]] | _ => cs' ++ last_piece s' end) as (t & Et & Es).
    { destruct cs' as [|c cs']; [rewrite H0 by done; by exists []|]. exists (drop 1 (path_text (c :: cs') s')). split; [done|]. by rewrite split_path. }
    exists 0, (split_slash t). rewrite Et. split; [left; by exists t|]. rewrite Es. split; [|split].
    + destruct cs' as [|c cs']; [repeat constructor|by apply last_piece_short].
    + rewrite <- Es. pose proof (split_slash_length t). cbn [length]. lia.
    + destruct cs' as [|c cs']; [done|]. apply descend_last.
  - pose proof (split_path cs' s' Hcs' H0) as Es. exists i0, (split_slash (drop 1 (path_text cs' s'))). split; [|rewrite Es; split; [|split]].
    + right. split_and!; [|done|exists n0; split; [exact E0|by constructor]|done].
      destruct cs' as [|[|x c] cs']; [done|by destruct (Forall_inv Hcs')|]. pose proof (Forall_inv Hcs') as (_ & Hc & _). apply Forall_inv in Hc as [_ Hx]. cbn. congruence.
    + by apply last_piece_short.
    + rewrite <- Es. apply split_slash_length.
    + rewrite descend_last, descend_app, Hi0. done.
Qed.

(** ** PAFS as a tree of directories *)

Variable E : ShellEnv kern.
(** Printing does not touch the nodes and the file system. *)
Hypothesis put_str_prints : forall (k : kern) s l, content s = Some l -> exists r, @put_str _ E s k = Some (fst k, r).

#[local] Instance env : ShellEnv kern := vfs_env E.

Lemma get_node_sound k H base cs a p : sound k H -> H !! base = Some cs -> arg_ok a -> a <> Up -> short (arg_names a) -> content p = Some (arg_text a) ->
  match pafs_kind dirs is_dir (target cs a) with
  | None => exists k', vfs_get_node_by_path base p k = Some (0, k') /\ sound k' H /\ vfs_root k' = vfs_root k
  | Some isdir => exists n k' flags, vfs_get_node_by_path base p k = Some (n, k') /\ n <> 0 /\ H !! n = None /\
      sound k' (<[n := target cs a]> H) /\ vfs_root k' = vfs_root k /\
      node_flags n k' = Some flags /\ negb (Z.land flags VFS_DIRECTORY =? 0) = isdir
  end.
Proof.
  intros Hs Hb Ha Hup Hsh Hp. destruct (so_nodes _ _ Hs _ _ Hb) as (Hb0 & Hcs & n0 & i0 & E0 & Hd0 & Hi0). destruct k as [[m w] r].
  destruct (arg_start (m, w, r) base cs a i0 n0 E0 Hd0 Hi0 Hb0 Ha Hup Hsh) as (i & ps & Hst & Hps & Hlen & Hdesc).
  destruct (content_junk _ _ Hp) as [junk ->]. assert (Htg : short (target cs a)) by (destruct a; [done|exact Hsh|by apply Forall_app]).
  assert (Hres : resolved tree mnts m (descend dirs is_dir i ps)
    (Vfs.vfs_get_node_by_path mnts (path_fuel (arg_text a ++ 0 :: junk)) pafs_root_node base (arg_text a ++ 0 :: junk) (m, w))).
  { apply (resolves_in tree mnts pafs_root_node (3 * length ps + 1) m w base (arg_text a) junk i ps).
    - split; [apply (so_valid _ _ Hs)|done].
    - apply (sound_setup _ _ Hs).
    - by apply arg_nonzero.
    - exact Hst.
    - by apply descend_spec.
    - unfold path_fuel. rewrite length_app. lia. }
  rewrite Hdesc in Hres. unfold pafs_kind. rewrite decide_True by done. cbn [vfs_get_node_by_path env vfs_env fst snd vfs_root].
  destruct Hres as (res & w' & [Hw _] & Hres). destruct (descend dirs is_dir 0 (target cs a)) as [j|] eqn:Ej; cbn [fmap option_fmap option_map].
  - destruct Hres as (n & -> & Hr0 & Hfree & Hstd). assert (pafs_denotes is_dir n j) as Hn by (inversion Hstd as [? ? ?|? ? ? ? _ _ F _]; [done|by rewrite nothing_mounted in F]).
    destruct (sound_insert _ _ res n j (target cs a) w' Hs Hw Hr0 Hfree Htg Hn Ej) as [Hfresh Hs']. exists res, (<[res := n]> m, w', r), (n_flags n).
    split; [done|]. split; [done|]. split; [done|]. split; [apply Hs'|]. split; [done|]. split.
    + cbn [node_flags env vfs_env]. unfold load. cbn [fst]. by rewrite lookup_insert_eq.
    + destruct Hn as (_ & _ & -> & _). by destruct (is_dir j).
  - rewrite Hres. exists (m, w', r). split; [done|]. split; [|done]. destruct Hs as [_ H1 H2 H3 H4]. by constructor.
Qed.

#[local] Instance pafs_dirs (root_dir : is_dir 0 = true) : DirTree kern.
Proof.
  refine {| kind := pafs_kind dirs is_dir; handles := sound |}.
  - unfold pafs_kind. rewrite decide_True by constructor. cbn. by rewrite root_dir.
  - apply pafs_kind_parent.
  - apply pafs_kind_short.
  - exact get_node_sound.
  - intros [[m w] r] H n cs Hs Hn Hne. destruct (so_nodes _ _ Hs _ _ Hn) as (Hn0 & _ & v & i & Ev & Hd & _).
    cbn [vfs_close env vfs_env fst snd]. unfold Vfs.vfs_close, load in *. cbn [fst] in *. rewrite Ev. cbn [mbind option_bind]. pose proof Hd as (_ & _ & _ & _ & Hcl & _). rewrite Hcl.
    cbn [PAFS_FN Z.eqb negb call_close node_drivers pafs_drivers]. unfold pafs_vfs_close. rewrite (proj2 (Z.eqb_neq n 0)), (proj2 (Z.eqb_neq n pafs_root_node)) by done.
    cbn [negb andb fst]. rewrite Ev. cbn [mbind option_bind fst snd].
    eexists. split; [done|]. split; [|done]. by apply (sound_delete (m, w, r) H n cs w Hs (so_valid _ _ Hs) Hn).
  - intros k H s l Hs Hc. destruct (put_str_prints k s l Hc) as [r' Ep]. exists (fst k, r'). split; [exact Ep|]. split; [|done].
    destruct Hs as [H0 H1 H2 H3 H4]. by constructor.
Defined.

(** ** The working directory *)

(** The text of the working directory is the path [cs], its node is open and stands for the
    inode that looking up the names of [cs] in the directories of PAFS leads to, and it and
    the root are the only nodes besides [others]. *)
Record cwd_at (d : dir) (k : kern) (cs : list (list Z)) : Prop := {
  cw_text : spells (shell_cwd_path d) cs /\ length (shell_cwd_path d) = 128%nat;
  cw_node : shell_cwd_node d <> 0 /\ exists n i, load (shell_cwd_node d) (fst k) = Some n /\ pafs_denotes is_dir n i /\
    descend dirs is_dir 0 cs = Some i /\ is_dir i = true;
  cw_root : (shell_cwd_node d = pafs_root_node -> cs = []) /\ exists n, load pafs_root_node (fst k) = Some n /\ pafs_denotes is_dir n 0;
  cw_open : dom (fst (fst k)) = {[pafs_root_node; shell_cwd_node d]} ∪ others;
  cw_apart : ({[pafs_root_node; shell_cwd_node d]} : gset Z) ## others;
  cw_pafs : pafs_valid dirs is_dir (snd (fst k))
}.

Lemma pafs_root_dir (p : pafs D) : pafs_valid dirs is_dir p -> is_dir 0 = true.
Proof. intros [P Hd]. destruct (root_dir p (p_core _ _ P)) as [H0 Ht]. rewrite (Hd 0 H0). by apply bool_decide_eq_true_2. Qed.

(** A path that fits has short names. *)
Lemma spells_short p cs : spells p cs -> length p = 128%nat -> short cs.
Proof.
  intros (_ & slash & Hc & _) Hp. apply content_length in Hc. rewrite Hp in Hc. unfold path_text in Hc. rewrite length_app in Hc.
  assert (Hl : (length (text cs) < 128)%nat) by lia. clear Hc Hp. induction cs as [|c cs IH]; [constructor|]. cbn in Hl. rewrite length_app in Hl.
  fold (text cs) in Hl. constructor; [lia|]. apply IH. lia.
Qed.

Lemma cwd_inv (Hr : is_dir 0 = true) d k cs : cwd_at d k cs -> cd_inv (DirTree0 := pafs_dirs Hr) d k cs.
Proof.
  intros [[Hsp Hl] (Hn0 & n & i & En & Hd & Hi & Hdir) (Hroot & nr & Er & Hdr) Hopen Hap Hv]. pose proof (spells_short _ _ Hsp Hl) as Hs.
  assert (opened pafs_root_node (shell_cwd_node d) cs !! pafs_root_node = Some []) as Hor.
  { unfold opened. destruct (decide (shell_cwd_node d = pafs_root_node)) as [E1|E1].
    - rewrite E1, lookup_insert_eq, Hroot; done.
    - rewrite lookup_insert_ne by done. apply lookup_singleton_eq. }
  constructor; [done|done| |exact Hroot|].
  - cbn [kind pafs_dirs]. rewrite (pafs_kind_some dirs is_dir cs i Hs Hi). by rewrite Hdir.
  - cbn [handles pafs_dirs vfs_root env vfs_env]. constructor.
    + done.
    + exact Hor.
    + unfold opened. intros a c [[<- <-]|[Hne [<- <-]%lookup_singleton_Some]]%lookup_insert_Some.
      * split; [done|]. split; [done|]. by exists n, i.
      * split; [done|]. split; [constructor|]. by exists nr, 0.
    + rewrite Hopen. unfold opened. rewrite dom_insert_L, dom_singleton_L. set_solver.
    + unfold opened. rewrite dom_insert_L, dom_singleton_L. set_solver.
Qed.

Lemma inv_cwd (Hr : is_dir 0 = true) d k cs : cd_inv (DirTree0 := pafs_dirs Hr) d k cs -> cwd_at d k cs.
Proof.
  intros [Hsp Hl Hk Hroot Hh]. cbn [kind handles pafs_dirs vfs_root env vfs_env] in *. pose proof (spells_short _ _ Hsp Hl) as Hs.
  destruct Hh as [Hv Hor Hn Hdom Hap]. destruct (Hn (shell_cwd_node d) cs) as (Hn0 & _ & n & i & En & Hd & Hi); [apply lookup_insert_eq|].
  destruct (Hn _ _ Hor) as (_ & _ & nr & i0 & Er & Hdr & [= <-]). unfold opened in Hdom, Hap. rewrite dom_insert_L, dom_singleton_L in Hdom, Hap. constructor.
  - done.
  - split; [done|]. exists n, i. split_and!; [done..|]. rewrite (pafs_kind_some dirs is_dir cs i Hs Hi) in Hk. by injection Hk.
  - split; [exact Hroot|by exists nr].
  - rewrite Hdom. set_solver.
  - set_solver.
  - done.
Qed.

(** C31 (cd over vfs_get_node_by_path, vfs_close and the node functions of PAFS): for every consistent PAFS, with memory for nodes and nothing
    mounted, and every sequence of cd commands with [..], relative and absolute paths whose names have at most 127
    characters (longer ones overrun the 128 bytes of vfs_get_node_by_path) and whose targets fit into the 128 bytes of the
    working directory, every command returns; the text of the working directory then spells the directory a walk over the
    directories reaches, a missing directory or a file leaving it where it was, and the shell's node is an open node of
    exactly that directory's inode.  It and the root are the only nodes the shell has left open: the node that is left, or
    found to be a file, is closed, the root never is, and nothing is used after it was closed. *)
Theorem cd_in_pafs fuel args d k cs cs' :
  cwd_at d k cs -> Forall (fun a => arg_ok a /\ short (arg_names a)) args -> chdirs (pafs_kind dirs is_dir) cs args = Some cs' ->
  exists d' k', cds fuel args d k = Some (d', k') /\ cwd_at d' k' cs'.
Proof.
  intros Hc Ha Hch. pose proof (pafs_root_dir _ (cw_pafs _ _ _ Hc)) as Hr.
  destruct (cd_tracks (DirTree0 := pafs_dirs Hr) fuel args d k cs cs' (cwd_inv Hr d k cs Hc) Ha Hch) as (d' & k' & E' & Hi). exists d', k'.
  split; [exact E'|]. exact (inv_cwd Hr d' k' cs' Hi).
Qed.
End shell.

(** ** A PAFS with the file A and the directory B *)

Lemma sample_file_dir :
  exists s dirs, pafs_ok dirs s /\ dirs 0 = [(1, [65]); (2, [66])] /\ i_type (ind s 1) = PAFS_TYPE_FILE /\ i_type (ind s 2) = PAFS_TYPE_DIR.
Proof.
  destruct (create_ok _ sample_fs 0 (sample_name 65) [65] false sample_fs_ok) as (r & s & E & C);
    [exact (proj1 sample_root)|exact (proj2 sample_root)|reflexivity|].
  assert (Er : fst <$> Pafs.pafs_create 0 (sample_name 65) false sample_fs = Some 1) by (vm_compute; reflexivity).
  assert (Er2 : ('(_, s) ← Pafs.pafs_create 0 (sample_name 65) false sample_fs;
    fst <$> Pafs.pafs_create 0 (sample_name 66) true s) = Some 2) by (vm_compute; reflexivity).
  rewrite E in Er, Er2. cbn in Er. injection Er as ->. cbn [mbind option_bind] in Er2. clear E.
  destruct C as [[F _]|[_ _ _ P Hind _ Hpar _ _]]; [discriminate F|].
  destruct (root_dir s (p_core _ _ P)) as [H0 Ht0].
  destruct (create_ok _ s 0 (sample_name 66) [66] true P H0 Ht0 eq_refl) as (r2 & s2 & E2 & C2).
  rewrite E2 in Er2. cbn in Er2. injection Er2 as ->. clear E2.
  destruct C2 as [[F _]|[_ _ _ P2 Hind2 Hoth2 Hpar2 _ _]]; [discriminate F|].
  eexists s2, _. split; [exact P2|]. split; [reflexivity|]. split; [|by rewrite Hind2].
  destruct (Hoth2 1) as [-> _]; [lia|lia|]. by rewrite Hind.
Qed.

#[local] Abbreviation sectors := (gmap (Z * Z) (list Z)).

Definition plain_env : ShellEnv (mem (pafs sectors) * unit) := {|
  put_char _ k := Some k; put_str s k := content s ≫= fun _ => Some k; put_int _ k := Some k; clear_scr k := Some k;
  set_cursor _ _ k := Some k; vbe_is_active _ := false; start_graphics k := Some k;
  timer_get_seconds _ := 0; timer_get_ticks _ := 0; sleep _ k := Some k; pci_init k := Some k;
  pmm_total_memory_kb _ := 0; pmm_total_frames _ := 0; pmm_used_frames _ := 0; pmm_free_frames _ := 0;
  vfs_root _ := 0; vfs_get_node_by_path _ _ k := Some (0, k); node_flags _ _ := None; node_inode _ _ := None;
  vfs_readdir _ _ k := Some (None, k); vfs_finddir _ _ k := Some (0, k);
  stack_bytes _ _ := []; vfs_read _ _ _ b k := Some (0, b, k); vfs_close _ k := Some k;
  pafs_mkdir _ _ k := Some (-1, k); pafs_create _ _ _ k := Some (-1, k); pafs_delete _ _ k := Some (-1, k); pafs_format k := Some k;
  elf_load _ _ k := Some (-1, k); create_task _ _ _ k := Some k; outb _ _ k := Some k; alloc_frame k := Some (0, k); store16 _ _ k := Some k;
  ac97_play _ _ k := Some k
|}.

Lemma plain_prints (k : mem (pafs sectors) * unit) s l : content s = Some l -> exists r, @put_str _ plain_env s k = Some (fst k, r).
Proof. destruct k as [m []]. intros H. cbn. rewrite H. by exists tt. Qed.

Lemma short_one c : (length c <= 127)%nat -> short [c].
Proof. intros H. apply Forall_cons. split; [exact H|constructor]. Qed.

(** [cd B/], [cd ..], [cd A] (a file), [cd zz] (missing), [cd /B] *)
Definition sample_cds : list cd_arg := [Rel [[66]] true; Up; Rel [[65]] false; Rel [[122; 122]] false; Abs [[66]] false].

Lemma sample_chdirs dirs is_dir : dirs 0 = [(1, [65]); (2, [66])] -> is_dir 0 = true -> is_dir 1 = false -> is_dir 2 = true ->
  chdirs (pafs_kind dirs is_dir) [] sample_cds = Some [[66]].
Proof.
  intros Ed H0 H1 H2.
  assert (Hk : forall cs, short cs -> pafs_kind dirs is_dir cs = is_dir <$> descend dirs is_dir 0 cs) by (intros cs Hs; unfold pafs_kind; by rewrite decide_True).
  assert (pafs_kind dirs is_dir [] = Some true) as K0 by (rewrite Hk by constructor; cbn; by rewrite H0).
  assert (forall c, descend dirs is_dir 0 [c] = if skipped c then Some 0 else match lookup_dir c [(1, [65]); (2, [66])] with Some (_, e) => Some e.1 | None => None end) as Hd.
  { intros c. cbn [descend]. by rewrite H0, Ed. }
  assert (pafs_kind dirs is_dir [[66]] = Some true) as K2 by (rewrite Hk, Hd by (apply short_one; cbn; lia); exact (f_equal Some H2)).
  assert (pafs_kind dirs is_dir [[65]] = Some false) as K1 by (rewrite Hk, Hd by (apply short_one; cbn; lia); exact (f_equal Some H1)).
  assert (pafs_kind dirs is_dir [[122; 122]] = None) as K3 by (rewrite Hk, Hd by (apply short_one; cbn; lia); reflexivity).
  assert (forall cs a isdir, pafs_kind dirs is_dir (target cs a) = isdir -> (length (text (target cs a)) <= 126)%nat ->
    chdir (pafs_kind dirs is_dir) cs a = Some (match isdir with Some true => target cs a | _ => cs end)) as Hcd.
  { intros cs a isdir Ek Hl. unfold chdir. rewrite Ek. destruct isdir as [[]|]; [|done|done]. by rewrite (proj2 (Nat.leb_le _ _)). }
  unfold sample_cds. cbn [chdirs]. rewrite (Hcd [] (Rel [[66]] true) _ K2) by (cbn; lia). cbn [mbind option_bind target app].
  rewrite (Hcd [[66]] Up _ K0) by (cbn; lia). cbn [mbind option_bind target app removelast].
  rewrite (Hcd [] (Rel [[65]] false) _ K1) by (cbn; lia). cbn [mbind option_bind]. rewrite (Hcd [] (Rel [[122; 122]] false) _ K3) by (cbn; lia). cbn [mbind option_bind].
  rewrite (Hcd [] (Abs [[66]] false) _ K2) by (cbn; lia). done.
Qed.

Lemma cd_in_pafs_witness :
  exists (s : pafs sectors) (root : vfs_node) d' k', @cds _ (vfs_env fresh_pafs_node None 1000 no_mounts plain_env) 5 sample_cds
      (Dir (47 :: replicate 127 0) 1000 1) (({[ 1000 := root ]}, s), tt) = Some (d', k') /\
    spells (shell_cwd_path d') [[66]] /\ dom (fst (fst k')) = {[1000; shell_cwd_node d']} ∪ ∅.
Proof.
  destruct sample_file_dir as (s & dirs & P & Ed & Ht1 & Ht2). set (is_dir := fun i => bool_decide (i_type (ind s i) = PAFS_TYPE_DIR)).
  assert (Hv : pafs_valid dirs is_dir s) by (split; [exact P|reflexivity]). pose proof (pafs_root_dir dirs is_dir s Hv) as Hd0.
  assert (Hd1 : is_dir 1 = false) by (apply bool_decide_eq_false_2; rewrite Ht1; discriminate).
  assert (Hd2 : is_dir 2 = true) by (apply bool_decide_eq_true_2; exact Ht2).
  set (root := pafs_root_of 0 0).
  assert (Hroot : load 1000 ({[ 1000 := root ]}, s) = Some root) by apply lookup_singleton_eq.
  assert (Hden : pafs_denotes is_dir root 0).
  { split; [unfold ino_ok, PAFS_MAX_INODES; lia|]. split; [reflexivity|]. rewrite Hd0. repeat split; try reflexivity. right. repeat split; reflexivity. }
  destruct (cd_in_pafs fresh_pafs_node None 1000 no_mounts dirs is_dir ∅ fresh_pafs_ok eq_refl ltac:(lia) plain_env plain_prints 5 sample_cds
    (Dir (47 :: replicate 127 0) 1000 1) (({[ 1000 := root ]}, s), tt) [] [[66]]) as (d' & k' & E & [[Hsp _] _ _ Hopen _ _]).
  - constructor.
    + split; [split; [constructor|by exists true]|reflexivity].
    + split; [discriminate|]. exists root, 0. split_and!; [exact Hroot|exact Hden|reflexivity|exact Hd0].
    + split; [reflexivity|]. by exists root.
    + cbn [fst shell_cwd_node]. rewrite dom_singleton_L. set_solver.
    + set_solver.
    + exact Hv.
  - repeat constructor; cbn; try lia; discriminate.
  - by apply sample_chdirs.
  - exists s, root, d', k'. split; [exact E|]. split; [exact Hsp|exact Hopen].
Defined.
