(* ===== verification/SysPafs.v ===== *)
(** * SysPafs: system calls on files, down to the disk

    What open, read, write and close mean for a program - descriptors with
    offsets into files that are lists of bytes - and the proof that the handlers
    of syscall.c, over the virtual file system, PAFS, its disk and the page
    tables, do exactly that. *)

From S2P Require Export VfsPafs VfsMono PafsData Syscall.

(** ** The calls a program makes *)

Inductive call :=
| Open (path : list Z)
| Read (fd buf size : Z)
| Write (fd buf size : Z)
| Close (fd : Z).

(** Files by inode, descriptors with inode and offset, the program's memory,
    and the free blocks that are certainly left. *)
Record view_of_program := Program {
  files : Z -> option (list Z); fds : list (option (Z * Z)); memory : Z -> option Z; space : Z
}.

Definition open_fd (fd : Z) (a : view_of_program) : option (Z * Z) :=
  if (fd <? 0) || (16 <=? fd) then None else mjoin (fds a !! Z.to_nat fd).

Definition set_open (fd : Z) (x : option (Z * Z)) (a : view_of_program) : view_of_program :=
  Program (files a) (<[Z.to_nat fd := x]> (fds a)) (memory a) (space a).

Definition fetch (m : Z -> option Z) (va : Z) (n : nat) : option (list Z) := mapM m (seqZ va (Z.of_nat n)).
Definition patch (m : Z -> option Z) (va : Z) (bs : list Z) : Z -> option Z :=
  fun x => if decide (va <= x < va + Z.of_nat (length bs)) then Some (nth (Z.to_nat (x - va)) bs 0) else m x.

(** The directories below the root, and which inodes are directories. *)
Section spec.
Variable dirs : Z -> list dirent.
Variable is_dir : Z -> bool.

Definition pieces (path : list Z) : list (list Z) := split_slash (if bool_decide (head path = Some 47) then tail path else path).

(** The result of a call and the state after it; [None] where nothing is
    promised: an unmapped buffer, a disk that may be full, the console's
    descriptors 1 and 2. *)
Definition call_spec (c : call) (a : view_of_program) : option (Z * view_of_program) :=
  match c with
  | Open path =>
      match descend dirs is_dir 0 (pieces path) with
      | None => Some (-1, a)
      | Some ino =>
          match list_find (fun x => x = None) (fds a) with
          | None => Some (-1, a)
          | Some (i, _) => Some (Z.of_nat i, set_open (Z.of_nat i) (Some (ino, 0)) a)
          end
      end
  | Read fd buf size =>
      match open_fd fd a with
      | None => Some (-1, a)
      | Some (ino, off) =>
          let bytes := take (Z.to_nat size) (drop (Z.to_nat off) (default [] (files a ino))) in
          _ ← fetch (memory a) buf (length bytes);
          let n := Z.of_nat (length bytes) in
          Some (n, Program (files a) (<[Z.to_nat fd := Some (ino, off + n)]> (fds a)) (patch (memory a) buf bytes) (space a))
      end
  | Write fd buf size =>
      if (fd =? 1) || (fd =? 2) then None else
      match open_fd fd a with
      | None => Some (-1, a)
      | Some (ino, off) =>
          src ← fetch (memory a) buf (Z.to_nat size);
          match files a ino with
          | None => Some (0, a)
          | Some data =>
              if space a <? 14 then None else
              let w := Z.min size (7168 - off) in
              Some (w, Program (fun j => if decide (j = ino) then Some (splice data off w src) else files a j)
                         (<[Z.to_nat fd := Some (ino, off + w)]> (fds a)) (memory a) (space a - 14))
          end
      end
  | Close fd =>
      match open_fd fd a with
      | None => Some (-1, a)
      | Some _ => Some (0, set_open fd None a)
      end
  end.

(** A run of a program: the bytes it stores itself and its calls, with the
    registers it passes; the results of the calls. *)
Inductive event := Store (va : Z) (bs : list Z) | Call (c : call) (r : sysregs).

Fixpoint run_spec (es : list event) (a : view_of_program) : option (list Z * view_of_program) :=
  match es with
  | [] => Some ([], a)
  | Store va bs :: es => _ ← fetch (memory a) va (length bs); run_spec es (Program (files a) (fds a) (patch (memory a) va bs) (space a))
  | Call c _ :: es => '(v, a) ← call_spec c a; '(vs, a) ← run_spec es a; Some (v :: vs, a)
  end.
End spec.

(** How a call is passed in the registers. *)
Definition passes (strmax : nat) (c : call) (r : sysregs) (a : view_of_program) : Prop :=
  match c with
  | Open path => eax r = SYS_OPEN /\ Z.land (ecx r) 1 = 0 /\ 0 <= ebx r /\ ebx r + Z.of_nat (length path) < 2 ^ 32 /\
      (length path < strmax)%nat /\ fetch (memory a) (ebx r) (S (length path)) = Some (path ++ [0]) /\ nonzero path /\
      Forall (fun n => (length n <= 127)%nat) (pieces path)
  | Read fd buf size => eax r = SYS_READ /\ i32 (ebx r) = fd /\ ecx r = buf /\ edx r = size /\
      0 <= size < 2 ^ 31 /\ 0 <= buf /\ buf + size <= 2 ^ 32
  | Write fd buf size => eax r = SYS_WRITE_FD /\ i32 (ebx r) = fd /\ ecx r = buf /\ edx r = size /\
      0 <= size < 2 ^ 31 /\ 0 <= buf /\ buf + size <= 2 ^ 32
  | Close fd => eax r = SYS_CLOSE /\ i32 (ebx r) = fd
  end.

Fixpoint well_passed (dirs : Z -> list dirent) (is_dir : Z -> bool) (strmax : nat) (es : list event) (a : view_of_program) : Prop :=
  match es with
  | [] => True
  | Store va bs :: es => 0 <= va /\ va + Z.of_nat (length bs) <= 2 ^ 32 /\
      well_passed dirs is_dir strmax es (Program (files a) (fds a) (patch (memory a) va bs) (space a))
  | Call c r :: es => passes strmax c r a /\
      match call_spec dirs is_dir c a with Some (_, a) => well_passed dirs is_dir strmax es a | None => True end
  end.

(** ** The kernel's state and the program's *)

Section kernel.
Context {D : Type} `{!BlockDev D}.
Context {A : Type} `{!FrameAlloc A}.
Context {K : Type}.
Variable kmalloc : mem (pafs D) -> option Z.
Variable kmalloc_dirent : option Z.
Variable pafs_root_node : Z.
Hypothesis kmalloc_fresh : forall s, exists a, kmalloc s = Some a /\ a <> 0 /\ fst s !! a = None.
Hypothesis root_nonzero : pafs_root_node <> 0.
#[local] Instance node_drivers : Drivers (pafs D) := pafs_drivers kmalloc kmalloc_dirent pafs_root_node.
Context `{!Services (pafs D) A K}.
Variable mnts : mounts.
Hypothesis nothing_mounted : find_mount mnts = Some None.
Variable strmax : nat.
Variable dirs : Z -> list dirent.
Variable is_dir : Z -> bool.
(** The pages of the programs. *)
Variable M : gmap Z Z.

#[local] Abbreviation state := (sys (pafs D) A K).
#[local] Abbreviation fs s := (snd (s_mem s)).

(** The files on the disk. *)
Definition files_ok (f : Z -> option (list Z)) (p : pafs D) : Prop :=
  forall i, ino_ok i -> match f i with
    | Some data => file_is p i data (Z.of_nat (length data)) /\ Z.of_nat (length data) <= 7168
    | None => i_type (ind p i) <> PAFS_TYPE_FILE
    end.

(** A descriptor: its node stands for the inode and is nobody else's. *)
Definition fd_ok (f : Z -> option (list Z)) (m : gmap Z vfs_node) (x : option (Z * Z)) (node off : Z) : Prop :=
  match x with
  | None => node = 0
  | Some (ino, o) => off = o /\ 0 <= o <= Z.of_nat (length (default [] (f ino))) /\ node <> 0 /\ node <> pafs_root_node /\
      exists n, m !! node = Some n /\ pafs_denotes is_dir n ino
  end.

Record corresponds (a : view_of_program) (s : state) : Prop := {
  co_fs : pafs_valid dirs is_dir (fs s);
  co_files : files_ok (files a) (fs s);
  co_space : space a <= free_blocks (sb (fs s));
  co_root : exists n, fst (s_mem s) !! pafs_root_node = Some n /\ pafs_denotes is_dir n 0;
  co_len : length (fds a) = 16%nat /\ length (fd_table s) = 16%nat /\ length (fd_offset s) = 16%nat;
  co_fds : forall i x node off, fds a !! i = Some x -> fd_table s !! i = Some node -> fd_offset s !! i = Some off ->
    fd_ok (files a) (fst (s_mem s)) x node off;
  co_own : forall i j node, fd_table s !! i = Some node -> fd_table s !! j = Some node -> node <> 0 -> i = j;
  co_nodes : forall x, is_Some (fst (s_mem s) !! x) -> x = pafs_root_node \/ x <> 0 /\ x ∈ fd_table s;
  co_vm : owns (s_vm s) M;
  co_mem : forall x, 0 <= x < 2 ^ 32 -> memory a x = view M (vm_ram (s_vm s)) x
}.

(** *** Memory *)

Lemma mem_page v m x b : owns v M -> (forall x, 0 <= x < 2 ^ 32 -> m x = view M (vm_ram v) x) ->
  0 <= x < 2 ^ 32 -> m x = Some b -> is_Some (M !! (x / 4096)) /\ vm_get x v = Some b.
Proof.
  intros Ho Hm Hx E. rewrite Hm in E by done.
  assert (Hs : is_Some (M !! (x / 4096))) by (unfold view in E; destruct (M !! (x / 4096)); [eauto|discriminate E]).
  split; [done|]. by rewrite (vm_get_ok v M x Ho Hx Hs).
Qed.

Lemma fetch_all (m : Z -> option Z) va n l : fetch m va n = Some l -> length l = n /\ forall x, va <= x < va + Z.of_nat n -> exists b, m x = Some b.
Proof.
  intros H. unfold fetch in H. split; [apply length_mapM in H; rewrite length_seqZ in H; lia|].
  intros x Hx. pose proof (mapM_is_Some_1 m _ (mk_is_Some _ _ H)) as Hf. rewrite Forall_forall in Hf.
  destruct (Hf x) as [b Hb]; [apply elem_of_seqZ; lia|eauto].
Qed.

Lemma vm_load_fetch v m va n l : owns v M -> (forall x, 0 <= x < 2 ^ 32 -> m x = view M (vm_ram v) x) ->
  0 <= va -> va + Z.of_nat n <= 2 ^ 32 -> fetch m va n = Some l -> vm_load va n v = Some l.
Proof.
  intros Ho Hm Hva Hn H. destruct (fetch_all _ _ _ _ H) as [_ Hall]. rewrite <- H. unfold vm_load, fetch.
  apply Forall_mapM_ext, Forall_forall. intros x Hx. apply elem_of_seqZ in Hx. destruct (Hall x ltac:(lia)) as [b Hb].
  destruct (mem_page v m x b Ho Hm ltac:(lia) Hb) as [_ ->]. done.
Qed.

Lemma vm_string_fetch v m path : forall va n, owns v M -> (forall x, 0 <= x < 2 ^ 32 -> m x = view M (vm_ram v) x) ->
  0 <= va -> va + Z.of_nat (length path) < 2 ^ 32 -> (length path < n)%nat -> nonzero path ->
  fetch m va (S (length path)) = Some (path ++ [0]) -> vm_string n va v = Some (path ++ [0]).
Proof.
  induction path as [|c path IH]; intros va n Ho Hm Hva Hl Hn Hz H; (destruct n as [|n]; [cbn [length] in Hn; lia|]); cbn [vm_string].
  - unfold fetch in H. rewrite seqZ_cons in H by lia. cbn [mapM] in H. destruct (m va) as [b|] eqn:Eb; [|discriminate H].
    cbn in H. injection H as ->. by destruct (mem_page v m va 0 Ho Hm ltac:(cbn [length] in Hl; lia) Eb) as [_ ->].
  - cbn [length] in *. apply Forall_cons in Hz as [Hc Hz]. unfold fetch in H. rewrite seqZ_cons in H by lia. cbn [mapM] in H.
    destruct (m va) as [b|] eqn:Eb; [|discriminate H]. cbn [mbind option_bind] in H.
    replace (Z.pred (Z.of_nat (S (S (length path))))) with (Z.of_nat (S (length path))) in H by lia.
    destruct (mapM m (seqZ (Z.succ va) (Z.of_nat (S (length path))))) as [l|] eqn:El; [|discriminate H]. cbn in H. injection H as -> ->.
    destruct (mem_page v m va c Ho Hm ltac:(lia) Eb) as [_ ->]. cbn [mbind option_bind]. rewrite (proj2 (Z.eqb_neq c 0)) by done.
    rewrite (IH (va + 1) n); [done|done|done|lia|lia|lia|done|exact El].
Qed.

Lemma vm_store_patch v m va bs n : owns v M -> (forall x, 0 <= x < 2 ^ 32 -> m x = view M (vm_ram v) x) ->
  0 <= va -> va + Z.of_nat (length bs) <= 2 ^ 32 -> is_Some (fetch m va n) -> n = length bs ->
  exists r, vm_store va bs v = Some (vm_set_ram r v) /\ forall x, 0 <= x < 2 ^ 32 -> patch m va bs x = view M r x.
Proof.
  intros Ho Hm Hva Hl [l H] ->. destruct (fetch_all _ _ _ _ H) as [_ Hall].
  destruct (vm_store_ok bs v M va Ho Hva Hl) as (r & E & Hr & _).
  { intros x Hx. destruct (Hall x Hx) as [b Hb]. by destruct (mem_page v m x b Ho Hm ltac:(lia) Hb). }
  exists r. split; [done|]. intros x Hx. rewrite Hr. unfold patch. case_decide; [done|by apply Hm].
Qed.

(** *** Descriptors *)

Lemma lookup_fd_ok a s fd : corresponds a s ->
  match open_fd fd a with
  | None => lookup_fd fd s = Some None
  | Some (ino, off) => 0 <= fd < 16 /\ exists node n, lookup_fd fd s = Some (Some node) /\
      fd_table s !! Z.to_nat fd = Some node /\ aget (fd_offset s) fd = Some off /\ fd_offset s !! Z.to_nat fd = Some off /\
      node <> 0 /\ node <> pafs_root_node /\
      fst (s_mem s) !! node = Some n /\ pafs_denotes is_dir n ino /\ 0 <= off <= Z.of_nat (length (default [] (files a ino)))
  end.
Proof.
  intros Hc. unfold open_fd, lookup_fd. destruct ((fd <? 0) || (16 <=? fd)) eqn:Er; [done|].
  apply orb_false_iff in Er as [H1%Z.ltb_ge H2%Z.leb_gt]. destruct (co_len _ _ Hc) as (L1 & L2 & L3).
  destruct (lookup_lt_is_Some_2 (fds a) (Z.to_nat fd) ltac:(lia)) as [x Hx].
  destruct (lookup_lt_is_Some_2 (fd_table s) (Z.to_nat fd) ltac:(lia)) as [node Hn].
  destruct (lookup_lt_is_Some_2 (fd_offset s) (Z.to_nat fd) ltac:(lia)) as [off Ho].
  rewrite !aget_pos by lia. rewrite Hx, Hn, Ho. cbn [mbind option_bind mjoin option_join].
  pose proof (co_fds _ _ Hc _ _ _ _ Hx Hn Ho) as Hok. destruct x as [[ino o]|]; cbn [fd_ok] in Hok.
  - destruct Hok as (-> & Hr & Hnz & Hnr & n & Hm & Hd). rewrite (proj2 (Z.eqb_neq node 0)) by done.
    split; [lia|]. exists node, n. split_and!; (done || lia).
  - by rewrite (proj2 (Z.eqb_eq node 0)).
Qed.

(** A descriptor that has been read or written. *)
Lemma corresponds_io a s fd ino off off' f' sp' m' (p' : pafs D) v' :
  corresponds a s -> open_fd fd a = Some (ino, off) ->
  pafs_valid dirs is_dir p' -> files_ok f' p' -> sp' <= free_blocks (sb p') ->
  (forall j, (length (default [] (files a j)) <= length (default [] (f' j)))%nat) ->
  0 <= off' <= Z.of_nat (length (default [] (f' ino))) ->
  owns v' M -> (forall x, 0 <= x < 2 ^ 32 -> m' x = view M (vm_ram v') x) ->
  corresponds (Program f' (<[Z.to_nat fd := Some (ino, off')]> (fds a)) m' sp')
    (Sys (fd_table s) (<[Z.to_nat fd := off']> (fd_offset s)) (heap_end s) (fst (s_mem s), p') v' (s_rest s)).
Proof.
  intros Hc Ho Hv Hf Hsp Hgrow Hoff Hvm Hmem. pose proof (lookup_fd_ok a s fd Hc) as Hl. rewrite Ho in Hl.
  destruct Hl as (Hr & node & n & _ & Htab & _ & _ & Hn0 & Hnr & Hn & Hd & _).
  constructor; cbn [s_mem fst snd s_vm fd_table fd_offset files fds memory space]; try done.
  - exact (co_root _ _ Hc).
  - destruct (co_len _ _ Hc) as (? & ? & ?). by rewrite !length_insert.
  - intros i x nd o Hx Hnd Hoo. destruct (decide (i = Z.to_nat fd)) as [->|Hne].
    + apply list_lookup_insert_Some in Hx as [(_ & <- & _)|(? & _)]; [|done].
      apply list_lookup_insert_Some in Hoo as [(_ & <- & _)|(? & _)]; [|done].
      rewrite Htab in Hnd. injection Hnd as <-. cbn [fd_ok]. split_and!; try done; try lia. by exists n.
    + rewrite list_lookup_insert_ne in Hx by done. rewrite list_lookup_insert_ne in Hoo by done. pose proof (co_fds _ _ Hc i x nd o Hx Hnd Hoo) as Hok.
      destruct x as [[j oj]|]; cbn [fd_ok] in *; [|done]. destruct Hok as (-> & Hrange & Hrest).
      split; [done|]. split; [pose proof (Hgrow j); lia|done].
  - exact (co_own _ _ Hc).
  - exact (co_nodes _ _ Hc).
Qed.

(** *** Files *)

Definition same_files (p p' : pafs D) : Prop := p' = p \/ p' = unlocked p.

Lemma same_files_ok f p p' : same_files p p' -> pafs_valid dirs is_dir p -> files_ok f p ->
  pafs_valid dirs is_dir p' /\ files_ok f p' /\ free_blocks (sb p') = free_blocks (sb p).
Proof.
  intros [-> | ->] Hv Hf; [done|]. split; [by apply pafs_valid_unlocked|]. split; [|done].
  intros i Hi. specialize (Hf i Hi). destruct (f i); [|exact Hf]. destruct Hf as [[] ?]. split; [by split|done].
Qed.

Lemma no_file f p i : pafs_valid dirs is_dir p -> files_ok f p -> ino_ok i -> is_dir i = true -> f i = None.
Proof.
  intros [_ Hd] Hf Hi Hdir. rewrite (Hd i Hi) in Hdir. apply bool_decide_eq_true in Hdir. specialize (Hf i Hi).
  destruct (f i) as [data|]; [|done]. destruct Hf as [[Ht _ _] _]. rewrite Ht in Hdir. discriminate Hdir.
Qed.

Lemma read_node_ok (m : mem (pafs D)) f node n ino off size :
  fst m !! node = Some n -> pafs_denotes is_dir n ino -> pafs_valid dirs is_dir (snd m) -> files_ok f (snd m) ->
  0 <= off <= Z.of_nat (length (default [] (f ino))) -> 0 <= size < 2 ^ 31 ->
  exists p', vfs_read node off size m = Some (take (Z.to_nat size) (drop (Z.to_nat off) (default [] (f ino))), (fst m, p')) /\
    same_files (snd m) p'.
Proof.
  intros Hn (Hi & Hni & _ & _ & _ & Hrw) Hv Hf Hoff Hsz. unfold vfs_read, load. rewrite Hn. cbn [mbind option_bind].
  destruct Hrw as [[Hr _]|(Hr & _ & Hdir)]; rewrite Hr.
  - change (negb (PAFS_FN =? 0)) with true. cbv iota. cbn [call_read node_drivers pafs_drivers]. rewrite Hn. cbn [mbind option_bind].
    rewrite Hni. pose proof (Hf ino Hi) as Hfi. destruct (f ino) as [data|]; cbn [default from_option id] in *.
    + destruct Hfi as [Hfile Hmax].
      rewrite (vfs_read_ok dirs (snd m) ino data (Z.of_nat (length data)) off size (replicate (Z.to_nat size) 0) (proj1 Hv) Hi Hfile)
        by (rewrite ?length_replicate; lia).
      cbn [mbind option_bind]. eexists. split; [|by right]. do 2 f_equal. unfold read_so_far.
      rewrite take_app_le by (rewrite length_take, length_drop; lia). rewrite take_take.
      destruct (Z_le_gt_dec size (Z.of_nat (length data) - off)).
      * f_equal. lia.
      * rewrite !take_ge; [done|rewrite length_drop; lia..].
    + exists (unlocked (snd m)). split; [|by right]. unfold pafs_vfs_read. rewrite (aget_ind (lock (snd m)) ino) by (done || apply (p_core _ _ (pafs_ok_lock _ _ _ (proj1 Hv)))).
      cbn [mbind option_bind]. change (ind (lock (snd m)) ino) with (ind (snd m) ino). rewrite (proj2 (Z.eqb_neq _ _) Hfi). cbn [negb orb].
      by rewrite drop_nil, take_nil.
  - cbn [negb Z.eqb]. exists (snd m). split; [|by left]. rewrite (no_file f (snd m) ino Hv Hf Hi Hdir). cbn [default from_option id].
    rewrite drop_nil, take_nil. by destruct m.
Qed.

Lemma write_node_ok (m : mem (pafs D)) f node n ino off src :
  fst m !! node = Some n -> pafs_denotes is_dir n ino -> pafs_valid dirs is_dir (snd m) -> files_ok f (snd m) ->
  0 <= off <= Z.of_nat (length (default [] (f ino))) -> Z.of_nat (length src) < 2 ^ 31 ->
  match f ino with
  | None => exists p', vfs_write node off src m = Some (0, (fst m, p')) /\ same_files (snd m) p'
  | Some data => 14 <= free_blocks (sb (snd m)) ->
      let W := Z.min (Z.of_nat (length src)) (7168 - off) in
      exists p', vfs_write node off src m = Some (W, (fst m, p')) /\ pafs_valid dirs is_dir p' /\
        files_ok (fun j => if decide (j = ino) then Some (splice data off W src) else f j) p' /\
        free_blocks (sb (snd m)) - 14 <= free_blocks (sb p')
  end.
Proof.
  intros Hn (Hi & Hni & _ & _ & _ & Hrw) Hv Hf Hoff Hsz. unfold vfs_write, load. rewrite Hn. cbn [mbind option_bind].
  pose proof (Hf ino Hi) as Hfi.
  destruct Hrw as [[_ Hw]|(_ & Hw & Hdir)]; rewrite Hw.
  2:{ rewrite (no_file f (snd m) ino Hv Hf Hi Hdir). exists (snd m). cbn. split; [by destruct m|by left]. }
  change (negb (PAFS_FN =? 0)) with true. cbv iota. cbn [call_write node_drivers pafs_drivers]. rewrite Hn. cbn [mbind option_bind]. rewrite Hni.
  destruct (f ino) as [data|]; cbn [default from_option id] in *.
  - intros Hfree. set (W := Z.min (Z.of_nat (length src)) (7168 - off)). destruct Hfi as [Hfile Hmax]. destruct Hv as [P Hd].
    destruct (vfs_write_data dirs (snd m) ino off (Z.of_nat (length src)) src data P Hi Hfile Hmax Hoff ltac:(lia) Hfree)
      as (p' & -> & P' & Hfile' & _ & Hfr & Hoth). fold W in Hfile'. cbn [mbind option_bind]. exists p'. split; [done|].
    split; [split; [done|]|split; [|exact Hfr]].
    + intros j Hj. rewrite (Hd j Hj). destruct (decide (j = ino)) as [->|Hne]; [|by destruct (Hoth j Hne) as [-> _]].
      by rewrite (fi_type _ _ _ _ Hfile'), (fi_type _ _ _ _ Hfile).
    + intros j Hj. case_decide as Hji.
      * subst j. rewrite spliced_length by (unfold W; lia). split; [exact Hfile'|unfold W; lia].
      * destruct (Hoth j Hji) as [Ei Es]. pose proof (Hf j Hj) as Hfj. destruct (f j) as [dj|].
        { destruct Hfj as [[H1 H2 H3] H4]. split; [|done]. split; [by rewrite Ei|by rewrite Ei|].
          apply (stored_frame (snd m)); [done|]. intros k Hk. split; [unfold blk; by rewrite Ei|by apply Es]. }
        by rewrite Ei.
  - exists (unlocked (snd m)). split; [|by right]. unfold pafs_vfs_write. rewrite (aget_ind (lock (snd m)) ino) by (done || apply (p_core _ _ (pafs_ok_lock _ _ _ (proj1 Hv)))).
    cbn [mbind option_bind]. change (ind (lock (snd m)) ino) with (ind (snd m) ino). by rewrite (proj2 (Z.eqb_neq _ _) Hfi).
Qed.

(** *** The handlers *)

Lemma advance_ok fd node nd n off (s : state) :
  fst (s_mem s) !! node = Some nd -> n_flags nd <> VFS_SOCKET -> 0 <= fd < 16 -> fd_offset s !! Z.to_nat fd = Some off ->
  0 <= n -> 0 <= off -> off + n < 2 ^ 32 ->
  advance fd node n s = Some (Sys (fd_table s) (<[Z.to_nat fd := off + n]> (fd_offset s)) (heap_end s) (s_mem s) (s_vm s) (s_rest s)).
Proof.
  intros Hn Hf Hfd Ho Hn0 Ho0 Hlt. unfold advance, load. rewrite Hn. cbn [mbind option_bind].
  rewrite (proj2 (Z.eqb_neq _ _) Hf). cbn [negb]. rewrite andb_true_r. apply lookup_lt_Some in Ho as Hl.
  destruct (Z.ltb_spec 0 n).
  - rewrite aget_pos, Ho by lia. cbn [mbind option_bind]. rewrite aset_eq by lia. cbn [mbind option_bind]. by rewrite u32_small by lia.
  - replace (off + n) with off by lia. rewrite list_insert_id by done. by destruct s.
Qed.

Lemma pafs_flags n ino : pafs_denotes is_dir n ino -> n_flags n <> VFS_SOCKET.
Proof. intros (_ & _ & -> & _). by destruct (is_dir ino). Qed.

Lemma sys_read_ok a s r fd buf size v a' :
  corresponds a s -> passes strmax (Read fd buf size) r a -> call_spec dirs is_dir (Read fd buf size) a = Some (v, a') ->
  exists s', sys_read r s = Some (ret v r, s') /\ corresponds a' s'.
Proof.
  intros Hc (_ & Hfd & Hb & Hs & Hsz & Hbuf0 & Hbuf) Hspec. unfold sys_read. rewrite Hfd, Hb, Hs.
  pose proof (lookup_fd_ok a s fd Hc) as Hl. cbn [call_spec] in Hspec. destruct (open_fd fd a) as [[ino off]|] eqn:Eo.
  2:{ injection Hspec as <- <-. rewrite Hl. cbn [mbind option_bind]. eauto. }
  destruct Hl as (Hr & node & n & -> & Htab & Hao & Hoo & Hn0 & Hnr & Hn & Hd & Hoff). cbn [mbind option_bind].
  rewrite Hao. cbn [mbind option_bind]. rewrite (u32_small size) by lia.
  set (data := default [] (files a ino)) in *. set (bytes := take (Z.to_nat size) (drop (Z.to_nat off) data)) in *. cbv zeta in Hspec.
  destruct (fetch (memory a) buf (length bytes)) as [old|] eqn:Ef; [|discriminate Hspec]. cbn [mbind option_bind] in Hspec. injection Hspec as <- <-.
  destruct (read_node_ok (s_mem s) (files a) node n ino off size Hn Hd (co_fs _ _ Hc) (co_files _ _ Hc) Hoff Hsz) as (p' & -> & Hsame).
  fold data bytes. cbn [mbind option_bind].
  assert (Hbl : Z.of_nat (length bytes) <= size /\ off + Z.of_nat (length bytes) <= Z.of_nat (length data))
    by (unfold bytes; rewrite length_take, length_drop; lia).
  assert (Hmax : Z.of_nat (length data) <= 7168).
  { unfold data. pose proof (co_files _ _ Hc ino (proj1 Hd)) as Hf. destruct (files a ino); cbn in *; [apply Hf|lia]. }
  destruct (vm_store_patch (s_vm s) (memory a) buf bytes (length bytes) (co_vm _ _ Hc) (co_mem _ _ Hc) Hbuf0 ltac:(lia) (mk_is_Some _ _ Ef) eq_refl)
    as (rr & -> & Hrr). cbn [mbind option_bind]. rewrite i32_small by lia.
  rewrite (advance_ok fd node n (Z.of_nat (length bytes)) off); [|exact Hn|by apply (pafs_flags n ino)|done|exact Hoo|lia|lia|lia].
  cbn [mbind option_bind]. eexists. split; [done|]. cbn [set_vm set_mem fd_table fd_offset heap_end s_mem s_vm s_rest].
  destruct (same_files_ok _ _ _ Hsame (co_fs _ _ Hc) (co_files _ _ Hc)) as (Hv' & Hf' & Hfree).
  apply (corresponds_io a s fd ino off); try done; [rewrite Hfree; exact (co_space _ _ Hc)|fold data; lia|].
  by apply owns_ram, (co_vm _ _ Hc).
Qed.

Lemma sys_write_fd_ok a s r fd buf size v a' :
  corresponds a s -> passes strmax (Write fd buf size) r a -> call_spec dirs is_dir (Write fd buf size) a = Some (v, a') ->
  exists s', sys_write_fd r s = Some (ret v r, s') /\ corresponds a' s'.
Proof.
  intros Hc (_ & Hfd & Hb & Hs & Hsz & Hbuf0 & Hbuf) Hspec. unfold sys_write_fd. rewrite Hfd, Hb, Hs.
  cbn [call_spec] in Hspec. destruct ((fd =? 1) || (fd =? 2)); [discriminate Hspec|].
  pose proof (lookup_fd_ok a s fd Hc) as Hl. destruct (open_fd fd a) as [[ino off]|] eqn:Eo.
  2:{ injection Hspec as <- <-. rewrite Hl. cbn [mbind option_bind]. eauto. }
  destruct Hl as (Hr & node & n & -> & Htab & Hao & Hoo & Hn0 & Hnr & Hn & Hd & Hoff). cbn [mbind option_bind].
  rewrite Hao. cbn [mbind option_bind]. rewrite (u32_small size) by lia.
  destruct (fetch (memory a) buf (Z.to_nat size)) as [src|] eqn:Ef; [|discriminate Hspec]. cbn [mbind option_bind] in Hspec.
  rewrite (vm_load_fetch (s_vm s) (memory a) buf (Z.to_nat size) src (co_vm _ _ Hc) (co_mem _ _ Hc) Hbuf0 ltac:(lia) Ef). cbn [mbind option_bind].
  destruct (fetch_all _ _ _ _ Ef) as [Hsl _].
  pose proof (write_node_ok (s_mem s) (files a) node n ino off src Hn Hd (co_fs _ _ Hc) (co_files _ _ Hc) Hoff ltac:(lia)) as Hw.
  pose proof (co_files _ _ Hc ino (proj1 Hd)) as Hfi.
  destruct (files a ino) as [data|] eqn:Efi; cbn [default from_option id] in *.
  - destruct (Z.ltb_spec (space a) 14) as [|Hsp]; [discriminate Hspec|]. cbv zeta in Hspec. injection Hspec as <- <-.
    pose proof (co_space _ _ Hc) as Hspc. rewrite Hsl, Z2Nat.id in Hw by lia.
    destruct Hw as (p' & -> & Hv' & Hf' & Hfree'); [lia|]. cbn [mbind option_bind]. set (W := Z.min size (7168 - off)) in *.
    assert (HW : 0 <= W <= size /\ off + W <= 7168) by (unfold W; lia).
    rewrite i32_small by lia.
    rewrite (advance_ok fd node n W off); [|exact Hn|by apply (pafs_flags n ino)|done|exact Hoo|lia|lia|lia].
    cbn [mbind option_bind]. eexists. split; [done|]. cbn [set_vm set_mem fd_table fd_offset heap_end s_mem s_vm s_rest].
    pose proof (spliced_length data off W src ltac:(lia) ltac:(lia)) as Hlen.
    apply (corresponds_io a s fd ino off); try done; [lia| | |exact (co_vm _ _ Hc)|exact (co_mem _ _ Hc)].
    + intros j. case_decide as Hj; [subst j; rewrite Efi; cbn [default from_option id]; lia|done].
    + rewrite decide_True by done. cbn [default from_option id]. lia.
  - injection Hspec as <- <-. destruct Hw as (p' & -> & Hsame). cbn [mbind option_bind]. change (i32 0) with 0.
    rewrite (advance_ok fd node n 0 off); [|exact Hn|by apply (pafs_flags n ino)|done|exact Hoo|lia|lia|cbn in Hoff; lia].
    cbn [mbind option_bind]. eexists. split; [done|]. cbn [set_vm set_mem fd_table fd_offset heap_end s_mem s_vm s_rest].
    destruct (same_files_ok _ _ _ Hsame (co_fs _ _ Hc) (co_files _ _ Hc)) as (Hv' & Hf' & Hfree).
    pose proof (corresponds_io a s fd ino off (off + 0) (files a) (space a) (memory a) p' (s_vm s) Hc Eo Hv' Hf') as Hio.
    rewrite Z.add_0_r in Hio |- *. unfold open_fd in Eo. destruct ((fd <? 0) || (16 <=? fd)); [discriminate Eo|].
    destruct (fds a !! Z.to_nat fd) as [x|] eqn:Ex; [|discriminate Eo]. cbn in Eo. subst x.
    rewrite (list_insert_id (fds a)) in Hio by done.
    destruct a as [f0 d0 m0 sp0]. apply Hio; try done; [rewrite Hfree; exact (co_space _ _ Hc)|cbn [files] in *; rewrite Efi; exact Hoff|exact (co_vm _ _ Hc)|exact (co_mem _ _ Hc)].
Qed.

Lemma pafs_close_ok (m : mem (pafs D)) node n ino :
  fst m !! node = Some n -> pafs_denotes is_dir n ino -> node <> 0 -> node <> pafs_root_node ->
  vfs_close node m = Some (delete node (fst m), snd m).
Proof.
  intros Hn (_ & _ & _ & _ & Hcl & _) H0 Hr. unfold vfs_close, load. rewrite Hn. cbn [mbind option_bind]. rewrite Hcl.
  change (negb (PAFS_FN =? 0)) with true. cbv iota. cbn [call_close node_drivers pafs_drivers]. unfold pafs_vfs_close.
  rewrite (proj2 (Z.eqb_neq node 0)), (proj2 (Z.eqb_neq node pafs_root_node)) by done. cbn [negb andb]. by rewrite Hn.
Qed.

Lemma sys_close_ok a s r fd v a' :
  corresponds a s -> passes strmax (Close fd) r a -> call_spec dirs is_dir (Close fd) a = Some (v, a') ->
  exists s', sys_close r s = Some (ret v r, s') /\ corresponds a' s'.
Proof.
  intros Hc (_ & Hfd) Hspec. unfold sys_close. rewrite Hfd. pose proof (lookup_fd_ok a s fd Hc) as Hl. cbn [call_spec] in Hspec.
  destruct (open_fd fd a) as [[ino off]|] eqn:Eo; injection Hspec as <- <-.
  2:{ rewrite Hl. cbn [mbind option_bind]. eauto. }
  destruct Hl as (Hr & node & n & -> & Htab & Hao & Hoo & Hn0 & Hnr & Hn & Hd & Hoff). cbn [mbind option_bind].
  rewrite (pafs_close_ok (s_mem s) node n ino Hn Hd Hn0 Hnr). cbn [mbind option_bind]. destruct (co_len _ _ Hc) as (L1 & L2 & L3).
  unfold set_fd. cbn [set_mem fd_table fd_offset heap_end s_mem s_vm s_rest]. rewrite (aset_eq (fd_table s)), (aset_eq (fd_offset s)) by lia.
  cbn [mbind option_bind]. eexists. split; [done|].
  constructor; cbn [s_mem fst snd s_vm fd_table fd_offset set_open files fds memory space].
  - exact (co_fs _ _ Hc).
  - exact (co_files _ _ Hc).
  - exact (co_space _ _ Hc).
  - destruct (co_root _ _ Hc) as (rn & Hrn & Hrd). exists rn. split; [|done]. by rewrite lookup_delete_ne.
  - by rewrite !length_insert.
  - intros i x nd o Hx Hnd Hoo'. destruct (decide (i = Z.to_nat fd)) as [->|Hne].
    + apply list_lookup_insert_Some in Hx as [(_ & <- & _)|(? & _)]; [|done].
      apply list_lookup_insert_Some in Hnd as [(_ & <- & _)|(? & _)]; done.
    + rewrite list_lookup_insert_ne in Hx by done. rewrite list_lookup_insert_ne in Hnd by done. rewrite list_lookup_insert_ne in Hoo' by done.
      pose proof (co_fds _ _ Hc i x nd o Hx Hnd Hoo') as Hok. destruct x as [[j oj]|]; cbn [fd_ok] in *; [|done].
      destruct Hok as (-> & Hrange & Hz & Hr' & nn & Hnn & Hdd). split; [done|]. split; [done|]. split; [done|]. split; [done|].
      exists nn. split; [|done]. rewrite lookup_delete_ne; [done|]. intros <-. by apply Hne, (co_own _ _ Hc i (Z.to_nat fd) node).
  - intros i j nd Hi Hj Hz. apply list_lookup_insert_Some in Hi as [(_ & <- & _)|(_ & Hi)]; [done|].
    apply list_lookup_insert_Some in Hj as [(_ & <- & _)|(_ & Hj)]; [done|]. by apply (co_own _ _ Hc i j nd).
  - intros x [y Hy]. apply lookup_delete_Some in Hy as [Hne Hy]. destruct (co_nodes _ _ Hc x (mk_is_Some _ _ Hy)) as [->|[Hx0 Hin]]; [by left|right]. split; [done|].
    apply list_elem_of_lookup in Hin as [i Hi]. apply (list_elem_of_lookup_2 _ i). rewrite list_lookup_insert_ne; [done|].
    intros <-. rewrite Htab in Hi. congruence.
  - exact (co_vm _ _ Hc).
  - exact (co_mem _ _ Hc).
Qed.

(** A look-up changes the file system's lock only. *)
Lemma corresponds_fs a s (p' : pafs D) :
  corresponds a s -> pafs_valid dirs is_dir p' -> files_ok (files a) p' -> free_blocks (sb p') = free_blocks (sb (fs s)) ->
  corresponds a (set_mem (fst (s_mem s), p') s).
Proof.
  intros [] Hv Hf Hs. constructor; cbn [set_mem s_mem fst snd s_vm fd_table fd_offset]; try done. by rewrite Hs.
Qed.

Lemma open_lookup a s path :
  corresponds a s -> nonzero path -> Forall (fun n => (length n <= 127)%nat) (pieces path) ->
  exists N r, (forall fuel, (N <= fuel)%nat -> vfs_get_node_by_path mnts fuel pafs_root_node pafs_root_node (path ++ [0]) (s_mem s) = Some r) /\
    exists p', pafs_valid dirs is_dir p' /\ files_ok (files a) p' /\ free_blocks (sb p') = free_blocks (sb (fs s)) /\
      match descend dirs is_dir 0 (pieces path) with
      | None => r = (0, (fst (s_mem s), p'))
      | Some ino => exists res n, r = (res, (<[res := n]> (fst (s_mem s)), p')) /\ res <> 0 /\ fst (s_mem s) !! res = None /\ pafs_denotes is_dir n ino
      end.
Proof.
  intros Hc Hz Hp. destruct (co_root _ _ Hc) as (rn & Hrn & Hrd).
  set (kept := fun p : pafs D => files_ok (files a) p /\ free_blocks (sb p) = free_blocks (sb (fs s))).
  assert (Hk : forall p, kept p -> kept (unlocked p)).
  { intros p [Hf Hb]. split; [|exact Hb]. intros i Hi. specialize (Hf i Hi). destruct (files a i); [|exact Hf]. destruct Hf as [[] ?]. split; [by split|done]. }
  destruct (s_mem s) as [m p] eqn:Em. cbn [fst snd] in *.
  destruct (@resolves (pafs D) Z (pafs_tree dirs is_dir) node_drivers
    (pafs_tree_drivers kmalloc kmalloc_dirent pafs_root_node dirs is_dir kmalloc_fresh kept Hk) mnts pafs_root_node)
    with (m := m) (w := p) (base := pafs_root_node) (str := path) (junk := @nil Z) (e := 0) (cs := pieces path)
      (r := descend dirs is_dir 0 (pieces path)) as [N H].
  - by constructor.
  - pose proof (co_fs _ _ Hc) as Hv. pose proof (co_files _ _ Hc) as Hf. rewrite Em in Hv, Hf. by split; [|split].
  - constructor; [by eauto|exact nothing_mounted|]. intros x ->. eauto.
  - done.
  - unfold pieces. destruct path as [|c t].
    + right. split; [done|]. split; [done|]. split; [exists rn; split; [done|by constructor]|done].
    + destruct (decide (c = 47)) as [->|Hne].
      * left. exists t. by rewrite bool_decide_eq_true_2.
      * right. cbn [head]. split; [congruence|]. split; [done|]. split; [exists rn; split; [done|by constructor]|].
        by rewrite bool_decide_eq_false_2 by congruence.
  - by apply descend_walks.
  - destruct (resolve_uniform mnts pafs_root_node pafs_root_node (path ++ [0]) (m, p) _ N H) as (r & Hr & Hall).
    { intros x (res & w & Hw & Hx). destruct (descend dirs is_dir 0 (pieces path)); [destruct Hx as (n & -> & _)|rewrite Hx]; eauto. }
    exists N, r. split; [exact Hall|]. destruct Hr as (res & w & [Hw [Hwf Hwb]] & Hx). exists w. split; [done|]. split; [done|]. split; [done|].
    destruct (descend dirs is_dir 0 (pieces path)) as [ino|].
    + destruct Hx as (n & E & H1 & H2 & Hst). exists res, n. injection E as ->. split_and!; try done.
      inversion Hst as [n1 e1 Hd1|n1 e1 r1 e2 _ _ F _]; [exact Hd1|by rewrite nothing_mounted in F].
    + by injection Hx as ->.
Qed.

Lemma first_free_ok a s (s0 : state) put :
  corresponds a s -> fd_table s0 = fd_table s ->
  match list_find (fun x => x = None) (fds a) with
  | Some (i, _) => fds a !! i = Some None /\ (i < 16)%nat /\
      forall s', put (Z.of_nat i) s0 = Some s' -> first_free put s0 = Some (Ret (Z.of_nat i, s'))
  | None => first_free put s0 = Some (Next s0)
  end.
Proof.
  intros Hc Et. destruct (co_len _ _ Hc) as (L1 & L2 & L3).
  assert (Hz : forall j : nat, (j < 16)%nat -> exists nd, fd_table s !! j = Some nd /\ (nd = 0 <-> fds a !! j = Some None)).
  { intros j Hj. destruct (lookup_lt_is_Some_2 (fds a) j ltac:(lia)) as [x Hx].
    destruct (lookup_lt_is_Some_2 (fd_table s) j ltac:(lia)) as [nd Hnd]. destruct (lookup_lt_is_Some_2 (fd_offset s) j ltac:(lia)) as [o Ho].
    exists nd. split; [done|]. pose proof (co_fds _ _ Hc j x nd o Hx Hnd Ho) as Hok. rewrite Hx.
    destruct x as [[i oi]|]; cbn [fd_ok] in Hok; [|by split]. destruct Hok as (_ & _ & Hne & _). split; [done|intros [=]]. }
  unfold first_free. rewrite <- Et in Hz.
  destruct (list_find (fun x => x = None) (fds a)) as [[i x]|] eqn:Ef.
  - apply list_find_Some in Ef as (Hi & -> & Hbefore). apply lookup_lt_Some in Hi as Hlt. split; [done|]. split; [lia|].
    intros s' Hput. apply (for_ret_first 0 16 (Z.of_nat i)); [lia| |].
    + intros j Hj. destruct (Hz (Z.to_nat j) ltac:(lia)) as (nd & Hnd & Hiff). rewrite aget_pos, Hnd by lia. cbn [mbind option_bind].
      rewrite (proj2 (Z.eqb_neq nd 0)); [done|]. intros E%Hiff. by apply (Hbefore _ None E ltac:(lia)).
    + destruct (Hz i ltac:(lia)) as (nd & Hnd & Hiff). rewrite aget_pos, Nat2Z.id, Hnd by lia. cbn [mbind option_bind].
      rewrite (proj2 Hiff Hi). cbn [Z.eqb]. by rewrite Hput.
  - apply list_find_None in Ef. apply for_ret_skip. intros j Hj. destruct (Hz (Z.to_nat j) ltac:(lia)) as (nd & Hnd & Hiff).
    rewrite aget_pos, Hnd by lia. cbn [mbind option_bind]. rewrite (proj2 (Z.eqb_neq nd 0)); [done|]. intros E%Hiff.
    rewrite Forall_lookup in Ef. by apply (Ef _ _ E).
Qed.

(** A fresh node in a free descriptor. *)
Lemma corresponds_open a s i res n ino :
  corresponds a s -> fds a !! i = Some None -> (i < 16)%nat -> res <> 0 -> fst (s_mem s) !! res = None -> pafs_denotes is_dir n ino ->
  corresponds (set_open (Z.of_nat i) (Some (ino, 0)) a)
    (Sys (<[i := res]> (fd_table s)) (<[i := 0]> (fd_offset s)) (heap_end s) (<[res := n]> (fst (s_mem s)), fs s) (s_vm s) (s_rest s)).
Proof.
  intros Hc Hfree Hi Hres Hnone Hd. destruct (co_len _ _ Hc) as (L1 & L2 & L3). destruct (co_root _ _ Hc) as (rn & Hrn & Hrd).
  assert (Hnew : forall j nd, fd_table s !! j = Some nd -> nd <> 0 -> nd <> res).
  { intros j nd Hnd Hz ->. apply lookup_lt_Some in Hnd as Hlt. destruct (lookup_lt_is_Some_2 (fds a) j ltac:(lia)) as [x Hx].
    destruct (lookup_lt_is_Some_2 (fd_offset s) j ltac:(lia)) as [o Ho]. pose proof (co_fds _ _ Hc j x res o Hx Hnd Ho) as Hok.
    destruct x as [[k ok]|]; cbn [fd_ok] in Hok; [|done]. destruct Hok as (_ & _ & _ & _ & nn & Hnn & _). congruence. }
  constructor; cbn [s_mem fst snd s_vm fd_table fd_offset set_open files fds memory space]; rewrite ?Nat2Z.id.
  - exact (co_fs _ _ Hc).
  - exact (co_files _ _ Hc).
  - exact (co_space _ _ Hc).
  - exists rn. split; [|done]. rewrite lookup_insert_ne; [done|]. intros ->. congruence.
  - by rewrite !length_insert.
  - intros j x nd o Hx Hnd Hoo. destruct (decide (j = i)) as [->|Hne].
    + apply list_lookup_insert_Some in Hx as [(_ & <- & _)|(? & _)]; [|done].
      apply list_lookup_insert_Some in Hnd as [(_ & <- & _)|(? & _)]; [|done].
      apply list_lookup_insert_Some in Hoo as [(_ & <- & _)|(? & _)]; [|done]. cbn [fd_ok]. split; [done|]. split; [lia|].
      split; [done|]. split; [intros ->; congruence|]. exists n. by rewrite lookup_insert_eq.
    + rewrite list_lookup_insert_ne in Hx by done. rewrite list_lookup_insert_ne in Hnd by done. rewrite list_lookup_insert_ne in Hoo by done.
      pose proof (co_fds _ _ Hc j x nd o Hx Hnd Hoo) as Hok. destruct x as [[k ok]|]; cbn [fd_ok] in *; [|done].
      destruct Hok as (-> & Hrange & Hz & Hr' & nn & Hnn & Hdd). split; [done|]. split; [done|]. split; [done|]. split; [done|]. exists nn. split; [|done].
      rewrite lookup_insert_ne; [done|]. intros E. by apply (Hnew j nd).
  - intros j k nd Hj Hk Hz. apply list_lookup_insert_Some in Hj as [(-> & <- & _)|(_ & Hj)];
      apply list_lookup_insert_Some in Hk as [(-> & Hk & _)|(_ & Hk)]; [done| | |by apply (co_own _ _ Hc j k nd)].
    + by destruct (Hnew k res Hk Hz).
    + subst nd. by destruct (Hnew j res Hj Hz).
  - intros x [y Hy]. apply lookup_insert_Some in Hy as [[<- _]|[Hne Hy]].
    + right. split; [done|]. apply (list_elem_of_lookup_2 _ i). rewrite list_lookup_insert_eq; [done|lia].
    + destruct (co_nodes _ _ Hc x (mk_is_Some _ _ Hy)) as [->|[Hx0 Hin]]; [by left|].
      apply list_elem_of_lookup in Hin as [j Hj]. destruct (decide (j = i)) as [->|Hji].
      * destruct (lookup_lt_is_Some_2 (fd_offset s) i ltac:(lia)) as [o Ho]. by pose proof (co_fds _ _ Hc i None x o Hfree Hj Ho).
      * right. split; [done|]. apply (list_elem_of_lookup_2 _ j). by rewrite list_lookup_insert_ne.
  - exact (co_vm _ _ Hc).
  - exact (co_mem _ _ Hc).
Qed.

Lemma sys_open_ok a s r path v a' :
  corresponds a s -> passes strmax (Open path) r a -> call_spec dirs is_dir (Open path) a = Some (v, a') ->
  exists N s', (forall fuel, (N <= fuel)%nat -> sys_open mnts pafs_root_node fuel strmax r s = Some (ret v r, s')) /\ corresponds a' s'.
Proof.
  intros Hc (_ & Hfl & Hb0 & Hb & Hlen & Hf & Hz & Hp) Hspec. cbn [call_spec] in Hspec.
  destruct (open_lookup a s path Hc Hz Hp) as (N & x & Hwalk & p' & Hv & Hfiles & Hfree & Hx).
  exists N. pose proof (vm_string_fetch (s_vm s) (memory a) path (ebx r) strmax (co_vm _ _ Hc) (co_mem _ _ Hc) Hb0 Hb Hlen Hz Hf) as Hstr.
  pose proof (corresponds_fs a s p' Hc Hv Hfiles Hfree) as Hc'.
  destruct (descend dirs is_dir 0 (pieces path)) as [ino|].
  2:{ injection Hspec as <- <-. exists (set_mem (fst (s_mem s), p') s). split; [|exact Hc']. intros fuel Hfuel. unfold sys_open.
      rewrite Hstr. cbn [mbind option_bind]. rewrite (Hwalk fuel Hfuel), Hx. cbn [mbind option_bind Z.eqb]. by rewrite Hfl. }
  destruct Hx as (res & n & -> & Hres & Hnone & Hden).
  assert (Hstart : forall fuel, (N <= fuel)%nat -> sys_open mnts pafs_root_node fuel strmax r s =
     (x ← first_free (fun i s => set_fd i res 0 s) (set_mem (<[res:=n]> (fst (s_mem s)), p') s);
      match x with
      | Ret (i, s) => Some (ret i r, s)
      | Next s => m ← vfs_close res (s_mem s); Some (ret (-1) r, set_mem m s)
      end)).
  { intros fuel Hfuel. unfold sys_open. rewrite Hstr. cbn [mbind option_bind]. rewrite (Hwalk fuel Hfuel). cbn [mbind option_bind].
    by rewrite (proj2 (Z.eqb_neq res 0)). }
  assert (Hrr : res <> pafs_root_node) by (destruct (co_root _ _ Hc) as (rn & Hrn & _); congruence).
  pose proof (first_free_ok a s (set_mem (<[res:=n]> (fst (s_mem s)), p') s) (fun i s => set_fd i res 0 s) Hc eq_refl) as Hff.
  destruct (list_find (fun x => x = None) (fds a)) as [[i y]|].
  - destruct Hff as (Hi & Hi16 & Hff). injection Hspec as <- <-. destruct (co_len _ _ Hc) as (L1 & L2 & L3).
    eexists. split. { intros fuel Hfuel. rewrite (Hstart fuel Hfuel), (Hff _ ltac:(unfold set_fd; cbn [set_mem fd_table fd_offset]; rewrite !aset_eq by lia; reflexivity)). reflexivity. }
    rewrite Nat2Z.id. exact (corresponds_open a _ i res n ino Hc' Hi Hi16 Hres Hnone Hden).
  - injection Hspec as <- <-. eexists. split.
    { intros fuel Hfuel. rewrite (Hstart fuel Hfuel), Hff. cbn [mbind option_bind set_mem s_mem].
      rewrite (pafs_close_ok (<[res:=n]> (fst (s_mem s)), p') res n ino (lookup_insert_eq _ _ _) Hden Hres Hrr). reflexivity. }
    cbn [fst snd]. rewrite delete_insert_id by done. exact Hc'.
Qed.
(** *** Runs *)

(** The same run of the kernel: [eax] after each call. *)
Fixpoint run_kernel (fuel : nat) (es : list event) (s : state) : option (list Z * state) :=
  match es with
  | [] => Some ([], s)
  | Store va bs :: es => v ← vm_store va bs (s_vm s); run_kernel fuel es (set_vm v s)
  | Call _ r :: es =>
      table ← init_syscalls mnts pafs_root_node fuel strmax;
      '(r, s) ← syscall_handler table r s; '(vs, s) ← run_kernel fuel es s; Some (eax r :: vs, s)
  end.

Lemma dispatch fuel : exists table, init_syscalls (F := pafs D) (A := A) (K := K) mnts pafs_root_node fuel strmax = Some table /\
  (forall r s, eax r = SYS_OPEN -> syscall_handler table r s = sys_open mnts pafs_root_node fuel strmax r s) /\
  (forall r s, eax r = SYS_READ -> syscall_handler table r s = sys_read r s) /\
  (forall r s, eax r = SYS_WRITE_FD -> syscall_handler table r s = sys_write_fd r s) /\
  (forall r s, eax r = SYS_CLOSE -> syscall_handler table r s = sys_close r s).
Proof. eexists. split; [reflexivity|]. split_and!; intros r s Hr; unfold syscall_handler; by rewrite Hr. Qed.

Lemma call_ok a s c r v a' :
  corresponds a s -> passes strmax c r a -> call_spec dirs is_dir c a = Some (v, a') ->
  exists N s', (forall fuel, (N <= fuel)%nat -> exists table, init_syscalls mnts pafs_root_node fuel strmax = Some table /\
    syscall_handler table r s = Some (ret v r, s')) /\ corresponds a' s'.
Proof.
  intros Hc Hp Hs. destruct c as [path|fd buf size|fd buf size|fd].
  - destruct (sys_open_ok a s r path v a' Hc Hp Hs) as (N & s' & H & Hc'). exists N, s'. split; [|done]. intros fuel Hf.
    destruct (dispatch fuel) as (t & E & Ho & _). exists t. split; [done|]. rewrite Ho by apply Hp. by apply H.
  - destruct (sys_read_ok a s r fd buf size v a' Hc Hp Hs) as (s' & H & Hc'). exists 0%nat, s'. split; [|done]. intros fuel _.
    destruct (dispatch fuel) as (t & E & _ & Ho & _). exists t. split; [done|]. by rewrite Ho by apply Hp.
  - destruct (sys_write_fd_ok a s r fd buf size v a' Hc Hp Hs) as (s' & H & Hc'). exists 0%nat, s'. split; [|done]. intros fuel _.
    destruct (dispatch fuel) as (t & E & _ & _ & Ho & _). exists t. split; [done|]. by rewrite Ho by apply Hp.
  - destruct (sys_close_ok a s r fd v a' Hc Hp Hs) as (s' & H & Hc'). exists 0%nat, s'. split; [|done]. intros fuel _.
    destruct (dispatch fuel) as (t & E & _ & _ & _ & Ho). exists t. split; [done|]. by rewrite Ho by apply Hp.
Qed.

Lemma corresponds_vm a s v' m' :
  corresponds a s -> owns v' M -> (forall x, 0 <= x < 2 ^ 32 -> m' x = view M (vm_ram v') x) ->
  corresponds (Program (files a) (fds a) m' (space a)) (set_vm v' s).
Proof. intros [] Hv Hm. by constructor. Qed.

(** C1 (syscall_handler): a program that opens, reads, writes and closes files
    of a PAFS gets, for every sequence of these calls and of stores to its
    memory, the results and the bytes the specification gives - files are lists
    of bytes, descriptors have an offset each - and the files on the disk are
    those of the specification. *)
Theorem syscalls_refine es a s vs a' :
  corresponds a s -> well_passed dirs is_dir strmax es a -> run_spec dirs is_dir es a = Some (vs, a') ->
  exists N s', (forall fuel, (N <= fuel)%nat -> run_kernel fuel es s = Some (map u32 vs, s')) /\ corresponds a' s'.
Proof.
  revert a s vs. induction es as [|[va bs|c r] es IH]; intros a s vs Hc Hp Hs; cbn [run_spec well_passed] in *.
  - injection Hs as <- <-. by exists 0%nat, s.
  - destruct Hp as (Hva & Hend & Hp). destruct (fetch (memory a) va (length bs)) as [old|] eqn:Ef; [|discriminate Hs]. cbn [mbind option_bind] in Hs.
    destruct (vm_store_patch (s_vm s) (memory a) va bs (length bs) (co_vm _ _ Hc) (co_mem _ _ Hc) Hva Hend (mk_is_Some _ _ Ef) eq_refl) as (r & E & Hr).
    pose proof (corresponds_vm a s (vm_set_ram r (s_vm s)) _ Hc (owns_ram r _ _ (co_vm _ _ Hc)) Hr) as Hc1.
    destruct (IH _ _ vs Hc1 Hp Hs) as (N & s' & H & Hc').
    exists N, s'. split; [|done]. intros fuel Hf. cbn [run_kernel]. rewrite E. by apply H.
  - destruct Hp as [Hpc Hp]. destruct (call_spec dirs is_dir c a) as [[v a1]|] eqn:Ec; [|discriminate Hs]. cbn [mbind option_bind] in Hs.
    destruct (run_spec dirs is_dir es a1) as [[vs1 a2]|] eqn:Er; [|discriminate Hs]. cbn [mbind option_bind] in Hs. injection Hs as <- <-.
    destruct (call_ok a s c r v a1 Hc Hpc Ec) as (N1 & s1 & H1 & Hc1). destruct (IH a1 s1 vs1 Hc1 Hp Er) as (N2 & s2 & H2 & Hc2).
    exists (max N1 N2), s2. split; [|done]. intros fuel Hf. cbn [run_kernel]. destruct (H1 fuel ltac:(lia)) as (t & -> & E).
    cbn [mbind option_bind]. rewrite E. cbn [mbind option_bind]. by rewrite H2 by lia.
Qed.
End kernel.

(** ** Witness: a PAFS with the empty file A, a program with one page *)

Definition sample_dirs : Z -> list dirent := upd_dir 0 [(1, [65])] (upd_dir 1 [] (fun _ => [])).
Definition sample_is_dir (i : Z) : bool := i =? 0.
Definition sample_files (i : Z) : option (list Z) := if i =? 1 then Some [] else None.

Lemma sample_one :
  exists s : pafs (gmap (Z * Z) (list Z)), pafs_valid sample_dirs sample_is_dir s /\ files_ok sample_files s /\ 20 <= free_blocks (sb s).
Proof.
  destruct (create_ok _ sample_fs 0 (sample_name 65) [65] false sample_fs_ok) as (r & s & E & C);
    [exact (proj1 sample_root)|exact (proj2 sample_root)|reflexivity|].
  assert (Er : (fun x => (fst x, 20 <=? free_blocks (sb (snd x)),
      forallb (fun i => i_type (ind (snd x) i) =? (if i =? 0 then 2 else if i =? 1 then 1 else 0)) (seqZ 0 128))) <$>
    pafs_create 0 (sample_name 65) false sample_fs = Some (1, true, true)) by (vm_compute; reflexivity).
  rewrite E in Er. cbn [fmap option_fmap option_map fst snd] in Er. apply (inj Some), pair_equal_spec in Er as [Er Hty].
  apply pair_equal_spec in Er as [-> Hfree]. apply Z.leb_le in Hfree.
  destruct C as [[F _]|[_ _ _ P Hind _ _ _ _]]; [discriminate F|].
  assert (Ht : forall i, ino_ok i -> i_type (ind s i) = (if i =? 0 then 2 else if i =? 1 then 1 else 0)).
  { intros i Hi. apply Z.eqb_eq, (proj1 (forallb_forall _ _) Hty i), list_elem_of_In, elem_of_seqZ. unfold ino_ok, PAFS_MAX_INODES in Hi. lia. }
  exists s. split; [split; [exact P|]|split; [|exact Hfree]].
  - intros i Hi. rewrite (Ht i Hi). unfold sample_is_dir. destruct (i =? 0); [done|]. by destruct (i =? 1).
  - intros i Hi. unfold sample_files. destruct (Z.eqb_spec i 1) as [->|].
    + split; [|cbn; lia]. split; [by rewrite (Ht 1 Hi)|by rewrite Hind|]. intros j Hj Hlt. cbn in Hlt. lia.
    + rewrite (Ht i Hi). destruct (i =? 0); [discriminate|]. rewrite (proj2 (Z.eqb_neq i 1)) by done. discriminate.
Qed.

Definition sample_program : list event := [
  Store 0x08048000 [65; 0]; Call (Open [65]) (Regs 4 0x08048000 0 0 0 0);
  Store 0x08048010 [7; 8; 9]; Call (Write 0 0x08048010 3) (Regs 6 0 0x08048010 3 0 0);
  Call (Close 0) (Regs 7 0 0 0 0 0);
  Call (Open [65]) (Regs 4 0x08048000 0 0 0 0); Call (Read 0 0x08048020 5) (Regs 5 0 0x08048020 5 0 0)].

Definition sample_view : view_of_program :=
  Program sample_files (replicate 16 None) (fun x => if x / 4096 =? 0x08048 then Some 0xCC else None) 20.

#[local] Instance sample_services : Services (pafs (gmap (Z * Z) (list Z))) pmm unit := {|
  keyboard_get _ := None; task_exit _ := None; put_char _ := Some; put_str _ := Some; clear_scr := Some; timer_get_ticks _ := 0;
  pafs_write_empty name p := snd <$> pafs_write name [] 0 p;
  socket_create _ _ _ _ := None; socket_bind _ _ _ _ := None; socket_sendto _ _ _ _ _ _ _ := None;
  socket_recvfrom _ _ _ _ _ _ _ := None; socket_connect _ _ _ _ := None; socket_listen _ _ _ := None; socket_accept _ _ _ _ := None
|}.

Lemma sample_corresponds :
  exists M s, corresponds 1000 sample_dirs sample_is_dir M sample_view (s : sys (pafs (gmap (Z * Z) (list Z))) pmm unit).
Proof.
  destruct sample_one as (p & Hv & Hf & Hs).
  destruct (map_new_ok sample_vm ∅ 0x08048000 32 33 2 (owns_empty sample_vm sample_paging_ok)) as (f & v & _ & _ & _ & Ho & Hr & _);
    [lia|vm_compute; split; discriminate|vm_compute; split; congruence|lia|exact sample_vm_frames|].
  exists {[ 0x08048 := f ]}, (Sys (replicate 16 0) (replicate 16 0) 0 ({[ 1000 := pafs_root_of 0 0 ]}, p) v tt).
  constructor; cbn [s_mem fst snd s_vm fd_table fd_offset sample_view files fds memory space]; try done.
  - exists (pafs_root_of 0 0). split; [apply lookup_singleton_eq|]. split; [unfold ino_ok, PAFS_MAX_INODES; lia|].
    repeat split; try reflexivity. right. repeat split; reflexivity.
  - intros i x nd off Hx Hnd Ho'. apply lookup_replicate in Hx as [-> _]. apply lookup_replicate in Hnd as [-> _]. reflexivity.
  - intros i j nd Hi _ Hz. apply lookup_replicate in Hi as [-> _]. done.
  - intros x Hx. left. destruct (decide (x = 1000)) as [|Hne]; [done|]. rewrite lookup_singleton_ne in Hx by done. by destruct Hx.
  - intros x Hx. unfold view. rewrite Hr. destruct (Z.eqb_spec (x / 4096) 0x08048) as [->|Hne].
    + by rewrite lookup_singleton_eq.
    + by rewrite lookup_singleton_ne by done.
Qed.

(** "A" is opened, written, closed, opened again and read. *)
Lemma syscalls_refine_witness :
  exists M s N s', (forall fuel, (N <= fuel)%nat ->
      run_kernel fresh_pafs_node None 1000 no_mounts 16 fuel sample_program s = Some ([0; 3; 0; 0; 3], s')) /\
    view M (vm_ram (s_vm s')) 0x08048020 = Some 7 /\ view M (vm_ram (s_vm s')) 0x08048022 = Some 9 /\
    view M (vm_ram (s_vm s')) 0x08048023 = Some 0xCC.
Proof.
  destruct sample_corresponds as (M & s & Hc). set (r := default ([], sample_view) (run_spec sample_dirs sample_is_dir sample_program sample_view)).
  destruct (syscalls_refine fresh_pafs_node None 1000 fresh_pafs_ok ltac:(lia) no_mounts eq_refl 16 sample_dirs sample_is_dir M
    sample_program sample_view s (fst r) (snd r) Hc) as (N & s' & H & Hc').
  - unfold r. vm_compute. repeat split; try discriminate; try reflexivity; repeat constructor; discriminate.
  - reflexivity.
  - exists M, s, N, s'. split; [exact H|]. split_and!; rewrite <- (co_mem _ _ _ _ _ _ Hc') by lia; vm_compute; reflexivity.
Defined.
